(* ===== verification/_CoqProject ===== *)
-Q . S2P
Prelude.v
PyDecimal.v
PyText.v
PyValue.v
RowMonad.v
Sha256.v
PyOrder.v
PyBytes.v
Digest.v
PyJson.v
PyJsonFacts.v
PyJsonText.v
PyFloat.v
PnlBook.v
PnlReplay.v
PnlReplayFacts.v
PnlLedger.v
PnlReport.v
PnlReportFacts.v
PnlScenario.v
CostPolicy.v
CostFacts.v
CostAdmission.v
CostCalibration.v
CostScenario.v
CostTape.v
CostTapeFacts.v
CostPath.v
CostPathFacts.v
CostQuality.v
CostQualityFacts.v
CostAssess.v
CostAssessFacts.v
CostReplayScenario.v
BtcEntry.v
BtcEntryFacts.v
QuoteGate.v
QuoteGateFacts.v
Driver.v
DriverCommand.v
DriverLease.v
DriverLoop.v
DriverFacts.v
DriverLife.v
DriverRun.v
DriverFence.v
DriverScenario.v
DriverBtc.v
DriverBtcRun.v
CostCapture.v
CostCaptureFacts.v
CostOos.v
CostOosFacts.v
OmsJournal.v
OmsJournalFacts.v
OmsHot.v
OmsHotFacts.v
OmsIndex.v
OmsIndexFacts.v
OmsStore.v
OmsGeneration.v
OmsStoreFacts.v
OmsGenerationFacts.v
OmsVerifyFacts.v
OmsReadback.v
OmsPublication.v
OmsScenario.v
Contracts.v
Strategy.v
StrategyFacts.v
StrategyEvidence.v
StrategyEvidenceFacts.v
StrategyReplay.v
StrategyReplayFacts.v
StrategyRunner.v
StrategyRunnerFacts.v
StrategyScenario.v
History.v
HistoryFacts.v
HistoryAppend.v
