(* ===== verification/Prelude.v ===== *)
(** * Verification of HeptaTrader's trading, strategy, accounting, cost and journal logic

    HeptaTrader trades through a native (C++) runtime; the Python programs under
    [scripts/] and [research/cost_aware/scripts/] decide what its evidence means.
    This library models the ones that trade on it and turn it into decisions and
    numbers.

    ** The program's parts and how they interact

    The runtime appends every order event to the OMS journal, a file of JSON
    lines.  [scripts/verify_oms_journal_replay.py] is the strict reader of that
    file.  [scripts/hepta_oms_checkpoint.py] reads a journal through it and
    publishes a _generation_: a directory with the state a restart needs (the
    hot state), the events that rebuild it (the hot replay), a sorted index of
    every command, and manifests; it verifies published generations and answers
    lookups of single commands from them.  [scripts/hepta_pnl_accounting.py]
    replays the same journal into a position book and reports realised and
    unrealised profit per instrument.

    The cost programs decide whether a forecast is worth its costs.
    [hepta_cost_policy.py] holds the policy, the cost estimates, the calibration
    artifact and the entry and exit gates; [hepta_cost_replay.py] aligns captured
    observations into a tape, labels it, fits calibrations, replays the gates
    along counterfactual paths and assesses a strategy on held-out time;
    [hepta_cost_oos.py] registers an assessment before its window opens and
    evaluates it afterwards.  The observations come from the capture log of
    [hepta_cost_capture.py], a file of hash-chained records.

    [scripts/heptatrader_paper_driver.py] is the process that trades: it samples
    the broker's state, asks a model for a direction, prepares, submits and
    reconciles one command at a time through the native command client, keeps the
    session lease and recovers a fenced owner; its memory is one JSON state file.
    [scripts/hepta_btc_entry_policy.py] decides whether a BTC entry is worth its
    fees, [scripts/heptatrader_btc_economics_driver.py] replaces the saves, the
    submissions and the preparations of the paper driver to enforce that decision,
    and [scripts/hepta_native_quote_gate.py] relays a client to the broker's
    gateway and lets only quote subscriptions pass.

    A strategy is judged before it may trade.
    [scripts/hepta_eurusd_confirmed_momentum_strategy.py] decides on a packet of
    market evidence; [scripts/hepta_strategy_shadow_runner.py] runs it once per slot
    of an observation policy, publishes the receipt of the decision, which
    [scripts/validate_hepta_strategy_decision_receipt.py] checks, and advances its
    state file; [scripts/hepta_strategy_replay_evaluator.py] seals the receipts and
    the recorded quotes of a campaign into two documents, checks them and replays the
    trades on the quotes.  The documents of all of them pass the checks of
    [scripts/hepta_strategy_contracts.py].  The quotes come from the market history of
    [scripts/hepta_shadow_market_history.py], a directory of hash-linked record files
    with one mutable head file.

    ** Where each part is modelled

    - _Foundations_.  [Prelude]: exceptions, the result monad, shared list, option
      and integer lemmas, tactics and hint databases.  [PyDecimal]: Python's
      [decimal] with its contexts, rounding and traps.  [PyText]: numbers as text.
      [PyValue]: dynamically typed values, dictionaries, equality and order.
      [RowMonad]: a [try] block that fills a dictionary.  [PyOrder]: comparable
      values as a class, sorting and searching.  [PyBytes]: bytes, UTF-8 and
      hexadecimal.  [PyJson], [PyJsonFacts], [PyJsonText]: printing and reading
      JSON and its round trip.  [Sha256]: the digest, executable; [Digest]: what
      the programs rely on of it, as a class.  [PyJsonText] also decodes bytes read
      from files.  [PyFloat]: binary64 arithmetic, comparison, [float], [sum],
      [math.floor] and [format(x, ".17g")], arithmetic on values that are integers or
      floats, signs and the order of floats.
    - _PnL accounting_ ([scripts/hepta_pnl_accounting.py]).  [PnlBook]: [number],
      [validate_period], [Book.apply].  [PnlReplay]: [replay], one definition per
      loop of the source.  [PnlReport]: [instrument_report], [build_report].
      Theorems in [PnlBook], [PnlReplayFacts], [PnlLedger], [PnlReportFacts];
      a concrete journal in [PnlScenario].
    - _Cost policy_ ([research/cost_aware/scripts/hepta_cost_policy.py]).
      [CostPolicy]; theorems in [CostFacts], [CostAdmission], [CostCalibration];
      concrete forecasts in [CostScenario].
    - _Cost replay_ ([research/cost_aware/scripts/hepta_cost_replay.py]).
      [CostTape]: [validate_tape], [capture_to_tape], [candidate_outcomes],
      [fit_from_tape].  [CostPath]: [PathState], [compare].  [CostQuality]:
      [sampling_quality].  [CostAssess]: the two assessments.  Theorems in the
      files of the same names with [Facts]; concrete tapes in
      [CostReplayScenario].
    - _Preregistered plans_ ([research/cost_aware/scripts/hepta_cost_oos.py]).
      [CostOos]; theorems and a registered window in [CostOosFacts].
    - _Capture log_ ([research/cost_aware/scripts/hepta_cost_capture.py]).
      [CostCapture]; theorems and a capture with a torn record in [CostCaptureFacts].
    - _BTC entry policy_ ([scripts/hepta_btc_entry_policy.py]).  [BtcEntry],
      [BtcEntryFacts].
    - _Quote gate_ ([scripts/hepta_native_quote_gate.py]).  [QuoteGate],
      [QuoteGateFacts].
    - _Paper driver_ ([scripts/heptatrader_paper_driver.py]).  [Driver]: programs
      over the state dictionary and the log of calls; [DriverCommand]:
      [prepare_send], [inspect_pending] and what they record; [DriverLease]:
      [snapshot], [maybe_renew], [recover_owner]; [DriverLoop]: the loop of [main]
      and its modes.  What a derived driver may replace are the classes [Ops] and
      [Hooks]; their laws are [OpsLaws], [HookLaws], [FlagLaws] and [HookFlags], the
      theorems hold of every lawful driver, and the driver itself is an instance.
      [DriverFacts]: the program logic, and evidence for every settlement;
      [DriverLife], [DriverRun]: processes that die at any call; [DriverFence]: the
      halt and the fence; [DriverScenario]: a day of the FX driver and a
      qualification round trip of the crypto driver.
    - _BTC economics driver_ ([scripts/heptatrader_btc_economics_driver.py]).
      [DriverBtc]: [atomic_json], [entry_check], [paper_cmd], [prepare_send] and the
      decoding of a forecast, as hooks of the paper driver, and in the module
      [DriverBtcFacts] that the hooks keep the laws; [DriverBtcRun]: the entries it submits, and an admitted one.
    - _Strategy evaluation_.  [Contracts] (modules [Contracts] and [ContractsFile]): the
      checks of [hepta_strategy_contracts.py] and the reading of documents.  [Strategy]:
      [load_strategy] and [evaluate] of the confirmed-momentum strategy, and in the
      module [StrategyReceipt] the validation of receipts and [_materialize_receipt].
      [StrategyEvidence]: the policy, the final audit and the decision set, sealed and
      checked, and in the module [StrategyMarks] the mark set.  [StrategyReplay]:
      [evaluate_replay].  [StrategyRunner]: [run_shadow_iteration] on its two files.
      Theorems in the files of the same names with [Facts]; a campaign of two slots and
      an interrupted iteration of it in [StrategyScenario].
    - _Shadow market history_ ([scripts/hepta_shadow_market_history.py]).  [History]: the
      snapshot, the lease receipt and the export receipt, the record and its place in the
      chain, the head, [load_history], [audit_history], [recover_history_head] and
      [append_snapshot].  A program that changes the directory is an [act] of [Contracts],
      whose runs carry the directory after every visible change.  Theorems and an
      interrupted append in [HistoryFacts]; the append itself in [HistoryAppend].
    - _OMS journal_ ([scripts/verify_oms_journal_replay.py], and
      [decoded_chunks] of [scripts/oms_archive_codec.py] for expanded files).
      [OmsJournal], [OmsJournalFacts].
    - _OMS generations_ ([scripts/hepta_oms_checkpoint.py]).  [OmsHot]: [_key],
      [_update_command], [_project_hot].  [OmsIndex]: the index and manifest
      formats.  [OmsStore]: the files, as a program monad whose runs carry every
      intermediate state of the store.  [OmsGeneration]: [build_generation],
      [verify_generation], [lookup_command].  [OmsHotFacts], [OmsIndexFacts],
      [OmsStoreFacts], [OmsGenerationFacts], [OmsVerifyFacts], [OmsReadback]: the
      lemmas; [OmsPublication]: the theorems; [OmsScenario]: two generations of a
      concrete journal.

    ** What the theorems show

    - _PnL._  Records the program calls no-ops do not influence a replay; the
      book is the opening book after exactly one booking of every validated fill,
      and satisfies its invariant; no outcome of a command, no own execution and no fee is assumed;
      the book's cash identity holds; figures that are reported are witnessed by
      fresh evidence, and totals are the sums of the rows they are reported with.
    - _Cost policy._  An admitted entry has a valid forecast, a fresh quote, an
      edge above the hurdle and an elapsed cooldown; the resident gate always
      returns a verdict; estimates only subtract; calibrations use the past only
      and round-trip through their identity check; risk exits are unconditional.
    - _Cost replay and plans._  Labels come from observed quotes inside the
      cutoff; the counterfactual paths are independent, alternate between open and
      closed, wait out their cooldown and decide every candidate; holes and covered
      time partition the observed window; the reported drawdown is the greatest
      loss of the curve; acceptance means that every listed requirement was met by
      the paths of the declared window under each cost case; an accepted preregistered evaluation was registered
      before its window, on a prefix of the same capture, under the same
      implementation.
    - _Capture, BTC entries, quote gate._  The capture reader returns every
      acknowledged event whatever happened to the file, and a checksum fixes every
      record before it, unless two compared records collide; an admitted BTC entry has
      a fresh bullish forecast, a fresh quote, elapsed controls and a gain above both
      commissions, the slippage reserve and the margin; the relay forwards only
      the handshake and quote subscriptions in scope.
    - _Paper driver._  Over any sequence of processes, each dying at any call and
      followed by one that finds what the state file then holds, and for every
      answer of the outside: a submission is recorded before it is made and uses up
      an identifier the command client issued; a command is prepared only after the
      broker's order list settled every command submitted before; what is saved
      keeps the halt while the owner is fenced, and nothing is opened under a halt.
      The qualification round trip breaks the last rule, and an example shows the run.
      The BTC driver keeps all of this, and submits an opening order only when the
      entry policy admits it on a quote read with no command sent since.
    - _Strategy evaluation._  A trade of the strategy is justified by its evidence and
      its intent is bounded; an accepted decision set is one receipt per iteration of the
      policy, in order and apart, and an accepted mark set is an unbroken history that covers the audit;
      what is sealed is accepted and carries the files and the records it was sealed
      from; a replay executes every trade at the first executable mark of its window
      and leaves it at the first mark through its stop or at its horizon, or at the end
      of its holding time, never looks ahead and never
      holds two positions at once unless it may; an interrupted shadow iteration can be
      repeated and ends in the files of the uninterrupted one, and the state advances
      only after the receipt.  The repetition fails after a crash between the link and
      the unlink of the receipt, and a theorem shows it.
    - _Shadow market history._  What the full audit accepts is one chain of records; the
      digest of the last record pins all of them, unless two of the compared records have
      different bodies with one digest; an
      append to an audited history leaves an audited history with one more record; a
      recovery of the head changes no record and leaves what the audit accepts.  A crash
      while a record is published leaves a directory that audit and recovery refuse, and a
      theorem shows it.
    - _OMS._  The reader's records are the file, byte for byte, however it is cut
      into chunks; validated events have the types the consumers rely on, so that the
      structural replay, which converts, hashes and compares them, never raises; the hot
      replay rebuilds the state the full journal left open (a refinement); a built
      generation verifies; lookups agree with the command table of the journal (a
      refinement); a crash anywhere inside a build leaves the previous generation
      verified or a store that is refused.

    ** Representation, bounds and fuel

    - Journal events, quotes, forecasts and reports are decoded JSON, kept as
      dynamically typed [value]s with insertion-ordered dictionaries; the code's
      type tests are part of the model.  Exceptions are values of [exn]; a
      message is modelled where the program raises it itself.
    - Python integers are [Z].  Decimals carry sign, coefficient and exponent
      and are rounded in the precision of the active context, an argument [p] or
      [prec] (28 by default, 40 inside a report).  Binary64 floats of documents are
      exact dyadic rationals; [repr] searches decimals of up to 20 digits, and 17
      suffice for every binary64 number.
    - In the PnL and cost files a string is a sequence of code points up to
      U+00FF; in the OMS files it is the UTF-8 encoding of the text, so that byte
      counts and byte order are those of the code.  The strategy files read UTF-8 too.
    - Floats of the strategy are [spec_float]s of the standard library with the
      rounding of binary64; [math.fsum] is the exact sum rounded once.  The searches of
      [bisect] run with one more step than there are marks, and [StrategyReplayFacts]
      proves that they find the boundary.
    - [json.loads] runs with fuel [2 * length + 2], more than the calls a text of
      that length can cause; [PyJsonFacts] proves that printed documents are read
      back within it.  The scanner of the journal loops on fuel given by the length
      of the buffered bytes, and [OmsJournalFacts] proves it equal to the structural
      byte machine, so the fuel never decides a result.
    - The digest is a parameter, the class [Digest]; its only law is that it prints
      lower-case hexadecimal text, and [Sha256] is an instance.  No theorem assumes
      that it is collision free.  The theorems that read
      written documents of the strategy and of the history back also assume that it
      prints 64 digits.
    - The outside of the driver is a function from the log of calls so far to the
      answer of the next one; a theorem for every such function covers every
      behaviour of the broker, the clock and the file system.  A failed save may or
      may not have reached the file.  The loop runs for a number of iterations given
      by an argument, and the canary waits at most 66 inspections, one more than its
      deadline of 65 seconds allows at one a second.
    - The clock, process identifiers, random names and the hashes of the
      implementation files are arguments.  That random names are hexadecimal, that
      lengths stay within the limits the verifier enforces ([fits],
      [well_encoded]) and that the journal can be read ([readable]) are named
      hypotheses of the theorems that need them, and the scenarios discharge them.

    ** Not modelled

    - Gzip archives: the decompressor is a library.  The recursion limit of the
      JSON reader.  Checks of file identity, ownership and modification while a
      file is being read, [flock] and [fsync]: the store has one writer, and its
      crash states are the states between system calls.
    - Command lines, environment variables, systemd units and output files.
    - The native runtime under [HeptaTrade/] (C++), its adapters and its tests.
    - Of the paper driver: the thread and the child process of the model worker,
      which the loop sees through the answers to its calls; the receipt files of
      closed commands; waiting between samples; the argument parser.  The text of
      an exception the interpreter raises itself is not the interpreter's.
    - Network and process glue: gateway and driver activation, release packaging
      and qualification, probes, observers and watchers.
    - Of the BTC driver: the prompt, and the files of the accounting period, the
      profile and the pinned base driver; whether the period is current is an answer
      of the outside.
    - Of the strategy evaluation: the advisory lock of the state file, which makes runs
      follow each other; the packet of the context builder and the records and audits of
      the market history, which are inputs; the argument parsers.  A JSON text with
      several faults may be refused for another of them than the one Python finds first.
    - Of the market history: owners and modes of files, the lock, the loader of a tail, the
      bars made from the records and the argument parsers; the free space of the file
      system and the random part of a temporary name are arguments.
    - Programs whose logic is not part of the library: the attributed driver, the
      cost driver and observer, the OMS lifecycle manager, the preflight checks
      and the market context builder.
    - Model training and data pipelines under [research/]. *)

From stdpp Require Import base tactics list strings.
From Stdlib Require Import ZArith Lia Permutation Sorted.

Declare Scope py_scope.
Delimit Scope py_scope with py.
Open Scope py_scope.
Open Scope Z_scope.

(** ** Exceptions *)

(** The exception classes the modelled code raises or catches. *)
Inductive exc_class :=
| EvidenceError | CostError | GenerationError
| ValueError | KeyError | IndexError | TypeError | AttributeError
| InvalidOperation | DivisionByZero | DecOverflow | OverflowError
| JournalError | UnicodeError | JSONDecodeError | RecursionError | OSError
| Denied | PolicyError | ContractError | DriverError | TimeoutExpired
| HistoryError.

#[export] Instance exc_class_eq_dec : EqDecision exc_class.
Proof. solve_decision. Defined.

(** [str(exc)] is [emsg] when the program itself raises the exception; for
    exceptions raised by the interpreter it is a fixed tag (the message of the
    interpreter is not part of any contract of the program). *)
Record exn := Exn { ecls : exc_class; emsg : string }.

#[export] Instance exn_eq_dec : EqDecision exn.
Proof. solve_decision. Defined.

(** The class hierarchy, restricted to the classes above. *)
Definition is_ValueError (c : exc_class) : bool :=
  match c with
  | EvidenceError | CostError | GenerationError | JournalError | UnicodeError | JSONDecodeError | Denied | PolicyError | ValueError => true
  | _ => false
  end.
Definition is_ArithmeticError (c : exc_class) : bool :=
  match c with InvalidOperation | DivisionByZero | DecOverflow | OverflowError => true | _ => false end.

(** ** Results: a value or a raised exception *)

Inductive res (A : Type) : Type :=
| Ok (a : A)
| Raise (e : exn).
Arguments Ok {A} a.
Arguments Raise {A} e.

Definition rbind {A B} (m : res A) (k : A -> res B) : res B :=
  match m with Ok a => k a | Raise e => Raise e end.

(** The value of a successful computation. *)
Definition ok_or {A} (d : A) (m : res A) : A := match m with Ok a => a | Raise _ => d end.

Definition is_ok {A} (m : res A) : bool := match m with Ok _ => true | Raise _ => false end.

Definition rmap {A B} (f : A -> B) (m : res A) : res B := rbind m (fun a => Ok (f a)).

Notation "'let!' x ':=' m 'in' k" := (rbind m (fun x => k))
  (at level 10, x pattern, m at level 100, k at level 200,
   format "'[v' 'let!'  x  ':='  m  'in'  '/' k ']'") : py_scope.
Notation "'when' c 'raise' e 'in' k" := (if c then Raise e else k)
  (at level 10, c at level 100, e at level 100, k at level 200,
   format "'[v' 'when'  c  'raise'  e  'in'  '/' k ']'") : py_scope.
Notation "'when!' c 'raise' e 'in' k" :=
  (rbind c (fun b : bool => if b then Raise e else k))
  (at level 10, c at level 100, e at level 100, k at level 200,
   format "'[v' 'when!'  c  'raise'  e  'in'  '/' k ']'") : py_scope.

(** Short-circuit connectives whose operands may raise. *)
Definition por (a b : res bool) : res bool := rbind a (fun x : bool => if x then Ok true else b).
Definition pand (a b : res bool) : res bool := rbind a (fun x : bool => if x then b else Ok false).
Definition pnot (a : res bool) : res bool := rmap negb a.
Infix "||?" := por (at level 50, left associativity) : py_scope.
Infix "&&?" := pand (at level 40, left associativity) : py_scope.

(** A [for] loop over a list with an accumulator: the first exception stops it. *)
Fixpoint rfold {A B} (f : A -> B -> res A) (l : list B) (a : A) : res A :=
  match l with
  | [] => Ok a
  | x :: l => rbind (f a x) (rfold f l)
  end.

(** A list comprehension whose element expression may raise. *)
Fixpoint rmapM {A B} (f : A -> res B) (l : list A) : res (list B) :=
  match l with
  | [] => Ok []
  | x :: l => let! y := f x in let! ys := rmapM f l in Ok (y :: ys)
  end.

(** [any(...)] and [all(...)] over a generator whose element may raise. *)
Fixpoint rany {A} (f : A -> res bool) (l : list A) : res bool :=
  match l with [] => Ok false | x :: l => f x ||? rany f l end.
Fixpoint rall {A} (f : A -> res bool) (l : list A) : res bool :=
  match l with [] => Ok true | x :: l => f x &&? rall f l end.

(** A stable sort whose comparison may raise (insertion after the elements that
    are not greater). *)
Fixpoint rinsert {A} (lt : A -> A -> res bool) (x : A) (l : list A) : res (list A) :=
  match l with
  | [] => Ok [x]
  | y :: l =>
      let! b := lt x y in
      if b : bool then Ok (x :: y :: l) else let! r := rinsert lt x l in Ok (y :: r)
  end.
Definition rsort {A} (lt : A -> A -> res bool) (l : list A) : res (list A) :=
  rfold (fun acc x => rinsert lt x acc) l [].

(** A comprehension with a condition that may raise. *)
Fixpoint rfilter {A} (f : A -> res bool) (l : list A) : res (list A) :=
  match l with
  | [] => Ok []
  | x :: l => let! b := f x in let! ys := rfilter f l in Ok (if b : bool then x :: ys else ys)
  end.

Lemma rbind_ok {A B} (m : res A) (k : A -> res B) b :
  rbind m k = Ok b <-> exists a, m = Ok a /\ k a = Ok b.
Proof. destruct m; simpl; naive_solver. Qed.

Lemma Ok_inj {A} (a b : A) : Ok a = Ok b -> a = b.
Proof. by intros [= ->]. Qed.

Lemma is_ok_value {A} (d : A) (m : res A) : is_ok m = true -> m = Ok (ok_or d m).
Proof. by destruct m. Qed.

Lemma rmap_ok {A B} (f : A -> B) (m : res A) b :
  rmap f m = Ok b <-> exists a, m = Ok a /\ b = f a.
Proof. destruct m; unfold rmap; simpl; naive_solver. Qed.

Lemma por_false a b : por a b = Ok false <-> a = Ok false /\ b = Ok false.
Proof. destruct a as [[]|]; simpl; naive_solver. Qed.

Lemma por_true a b :
  por a b = Ok true <-> a = Ok true \/ (a = Ok false /\ b = Ok true).
Proof. destruct a as [[]|]; simpl; naive_solver. Qed.

Lemma pand_true a b : pand a b = Ok true <-> a = Ok true /\ b = Ok true.
Proof. destruct a as [[]|]; simpl; naive_solver. Qed.

Lemma when_ok {A} (c : bool) e (k : res A) a :
  (if c then Raise e else k) = Ok a <-> c = false /\ k = Ok a.
Proof. destruct c; naive_solver. Qed.

(** Inversion of a successful run: peels binds, guards and connectives. *)
Ltac inv_ok1 H :=
  match type of H with
  | rbind _ _ = Ok _ =>
      let a := fresh "a" in let Ha := fresh "Ha" in
      apply rbind_ok in H as (a & Ha & H); simpl in H
  | (if _ then Raise _ else _) = Ok _ =>
      let Hc := fresh "Hc" in apply when_ok in H as [Hc H]
  | Ok _ = Ok _ => injection H as H
  | Raise _ = Ok _ => discriminate H
  end.
Ltac inv_ok H := repeat inv_ok1 H.
(** Two results of the same computation are equal. *)
Ltac same_ok :=
  repeat match goal with
  | H : ?t = Ok ?x, H' : ?t = Ok ?y |- _ =>
      assert_fails (constr_eq x y); assert (x = y) by congruence; subst
  end.
(** Splits on the condition a hypothesis is stuck on. *)
Ltac case_if H :=
  match type of H with (if ?b then _ else _) = _ => let E := fresh "E" in destruct b eqn:E end.

(** Splits the boolean facts of the context into their atoms. *)
Ltac split_bools :=
  repeat match goal with
  | H : (_ || _) = false |- _ => apply orb_false_elim in H as [? ?]
  | H : (_ && _) = true |- _ => apply andb_prop in H as [? ?]
  | H : negb _ = false |- _ => apply negb_false_iff in H
  | H : negb _ = true |- _ => apply negb_true_iff in H
  | H : (_ <? _) = true |- _ => apply Z.ltb_lt in H
  | H : (_ <? _) = false |- _ => apply Z.ltb_ge in H
  | H : (_ <=? _) = true |- _ => apply Z.leb_le in H
  | H : (_ <=? _) = false |- _ => apply Z.leb_gt in H
  | H : (_ =? _) = true |- _ => apply Z.eqb_eq in H
  | H : (_ =? _) = false |- _ => apply Z.eqb_neq in H
  end.

Lemma rfold_app {A B} (f : A -> B -> res A) l1 l2 a :
  rfold f (l1 ++ l2) a = rbind (rfold f l1 a) (rfold f l2).
Proof. revert a; induction l1 as [|x l1 IH]; intros a; simpl; [done|]. destruct (f a x); simpl; auto. Qed.

(** Elements on which a loop body does nothing may be dropped. *)
Lemma rfold_skip {A B} (f : A -> B -> res A) (skip : B -> bool) l a :
  (forall a x, skip x = true -> f a x = Ok a) ->
  rfold f (List.filter (fun x => negb (skip x)) l) a = rfold f l a.
Proof.
  intros Hs; revert a; induction l as [|x l IH]; intros a; simpl; [done|].
  destruct (skip x) eqn:E; simpl.
  - rewrite Hs by done. simpl. apply IH.
  - destruct (f a x); simpl; auto.
Qed.

(** The invariant rule of a loop. *)
Lemma rfold_inv {A B} (P : A -> Prop) (f : A -> B -> res A) l a a' :
  (forall a x a', In x l -> P a -> f a x = Ok a' -> P a') ->
  P a -> rfold f l a = Ok a' -> P a'.
Proof.
  revert a; induction l as [|x l IH]; intros a Hf HP H; simpl in H; [by simplify_eq|].
  inv_ok H. eapply IH; [|eapply (Hf a x); simpl; eauto|exact H].
  intros; eapply Hf; simpl; eauto.
Qed.

(** The invariant rule with the processed prefix exposed. *)
Lemma rfold_inv_prefix {A B} (P : list B -> A -> Prop) (f : A -> B -> res A) l a a' :
  (forall pre a x a', In x l -> P pre a -> f a x = Ok a' -> P (pre ++ [x]) a') ->
  forall pre, P pre a -> rfold f l a = Ok a' -> P (pre ++ l) a'.
Proof.
  revert a; induction l as [|x l IH]; intros a Hf pre HP H; simpl in H.
  - simplify_eq. by rewrite app_nil_r.
  - inv_ok H. rewrite (cons_middle x), app_assoc. eapply IH; [| |exact H].
    + intros; eapply Hf; simpl; eauto.
    + eapply Hf; simpl; eauto.
Qed.

(** What a loop raises, some iteration of it raised. *)
Lemma rfold_raise {A B} (f : A -> B -> res A) l a e :
  rfold f l a = Raise e -> exists a' x, In x l /\ f a' x = Raise e.
Proof.
  revert a; induction l as [|x l IH]; intros a H; simpl in H; [done|]. destruct (f a x) as [a1|e1] eqn:E; simpl in H.
  - destruct (IH a1 H) as (a' & y & Hy & Hf). exists a', y. split; [by right|done].
  - exists a, x. split; [by left|congruence].
Qed.

Lemma rmapM_raise {A B} (f : A -> res B) l e : rmapM f l = Raise e -> exists x, In x l /\ f x = Raise e.
Proof.
  induction l as [|x l IH]; intros H; simpl in H; [done|]. destruct (f x) as [y|e1] eqn:E; simpl in H.
  - destruct (rmapM f l) as [ys|e2]; [done|]. simpl in H. destruct IH as (z & Hz & Hf); [congruence|]. exists z. split; [by right|done].
  - exists x. split; [by left|congruence].
Qed.

Lemma rmapM_total {A B} (f : A -> res B) l : (forall x, In x l -> exists y, f x = Ok y) -> exists r, rmapM f l = Ok r.
Proof.
  induction l as [|x l IH]; intros H; [by eexists|]. destruct (H x (or_introl eq_refl)) as [y Hy].
  destruct IH as [r Hr]; [intros z Hz; apply H; by right|]. simpl. rewrite Hy, Hr. by eexists.
Qed.

Lemma rmapM_length {A B} (f : A -> res B) l r : rmapM f l = Ok r -> length r = length l.
Proof. revert r; induction l; intros r H; simpl in H; inv_ok H; subst; simpl; auto. Qed.

Lemma rmapM_Forall2 {A B} (f : A -> res B) l r :
  rmapM f l = Ok r -> Forall2 (fun x y => f x = Ok y) l r.
Proof. revert r; induction l; intros r H; simpl in H; inv_ok H; subst; constructor; auto. Qed.

Lemma rall_forall {A} (f : A -> res bool) l :
  rall f l = Ok true <-> (forall x, In x l -> f x = Ok true).
Proof.
  induction l as [|x l IH]; simpl; [naive_solver|].
  rewrite pand_true, IH. naive_solver.
Qed.

Lemma rany_false {A} (f : A -> res bool) l :
  rany f l = Ok false <-> (forall x, In x l -> f x = Ok false).
Proof.
  induction l as [|x l IH]; simpl; [naive_solver|].
  rewrite por_false, IH. naive_solver.
Qed.

(** ** Insertion-ordered dictionaries

    A Python [dict] keeps the order in which its keys were first inserted and
    several loops of the program iterate over it, so a dictionary is an
    association list with distinct keys rather than a [gmap]. *)
Section odict.
Context {K V : Type} `{EqDecision K}.
Implicit Types (d : list (K * V)) (k : K) (v : V).

Fixpoint dget (k : K) (d : list (K * V)) : option V :=
  match d with
  | [] => None
  | (k', v) :: d => if decide (k = k') then Some v else dget k d
  end.

(** [d[k] = v]: in place when the key exists, appended otherwise. *)
Fixpoint dset (k : K) (v : V) (d : list (K * V)) : list (K * V) :=
  match d with
  | [] => [(k, v)]
  | (k', v') :: d => if decide (k = k') then (k', v) :: d else (k', v') :: dset k v d
  end.

(** [d.pop(k, None)]. *)
Fixpoint dpop (k : K) (d : list (K * V)) : list (K * V) :=
  match d with
  | [] => []
  | (k', v') :: d => if decide (k = k') then d else (k', v') :: dpop k d
  end.

Definition dhas k d : bool := match dget k d with Some _ => true | None => false end.
Definition dget_or (v : V) k d : V := match dget k d with Some w => w | None => v end.
(** [d.setdefault(k, v)] as a state update. *)
Definition dsetdefault k v d : list (K * V) := if dhas k d then d else dset k v d.

Lemma dget_app_some k v d d' : dget k d = Some v -> dget k (d ++ d') = Some v.
Proof. induction d as [|[k' v'] d IH]; simpl; [done|]. by case_decide. Qed.

Lemma dget_dset_eq k v d : dget k (dset k v d) = Some v.
Proof. induction d as [|[k' v'] d IH]; simpl; repeat (case_decide; simpl); done. Qed.

Lemma dget_dset_ne k k' v d : k <> k' -> dget k (dset k' v d) = dget k d.
Proof.
  intros; induction d as [|[k2 v2] d IH]; simpl; repeat (case_decide; simpl; subst); done.
Qed.

Lemma dget_dset k k' v d :
  dget k (dset k' v d) = if decide (k = k') then Some v else dget k d.
Proof. case_decide; subst; [apply dget_dset_eq | by apply dget_dset_ne]. Qed.

Lemma dget_In k v d : dget k d = Some v -> In (k, v) d.
Proof. induction d as [|[k2 v2] d IH]; simpl; [done|]; case_decide; naive_solver. Qed.

Lemma dget_None k d : dget k d = None <-> ~ In k (map fst d).
Proof.
  induction d as [|[k2 v2] d IH]; simpl; [naive_solver|].
  case_decide; subst; naive_solver.
Qed.

Lemma dget_of_In k v d : List.NoDup (map fst d) -> In (k, v) d -> dget k d = Some v.
Proof.
  induction d as [|[k2 v2] d IH]; simpl; [done|].
  inversion 1 as [|?? Hni Hnd]; subst. intros [E|Hin]; simplify_eq; case_decide; try done; subst; eauto.
  destruct Hni. by apply (in_map fst) in Hin.
Qed.

Lemma dhas_In k d : dhas k d = true <-> In k (map fst d).
Proof.
  unfold dhas. destruct (dget k d) eqn:E.
  - split; [|done]. intros _. apply dget_In in E. by apply (in_map fst) in E.
  - apply dget_None in E. naive_solver.
Qed.

Lemma dset_keys k v d :
  map fst (dset k v d) = if dhas k d then map fst d else map fst d ++ [k].
Proof.
  unfold dhas. induction d as [|[k2 v2] d IH]; simpl; [done|].
  case_decide; subst; simpl; [done|]. rewrite IH. by destruct (dget k d).
Qed.

Lemma dset_NoDup k v d : List.NoDup (map fst d) -> List.NoDup (map fst (dset k v d)).
Proof.
  intros H. rewrite dset_keys. destruct (dhas k d) eqn:E; [done|].
  apply List.NoDup_app; [done|repeat constructor; simpl; tauto|].
  intros a Ha [<-|[]]. apply dhas_In in Ha. congruence.
Qed.

Lemma In_dset k v d k' v' :
  In (k', v') (dset k v d) -> (k' = k /\ v' = v) \/ In (k', v') d.
Proof.
  induction d as [|[k2 v2] d IH]; simpl; [naive_solver|].
  case_decide; simpl; naive_solver.
Qed.

Lemma dpop_keys_sub k d x : In x (dpop k d) -> In x d.
Proof. induction d as [|[k2 v2] d IH]; simpl; [done|]; case_decide; simpl; naive_solver. Qed.

Lemma dpop_NoDup k d : List.NoDup (map fst d) -> List.NoDup (map fst (dpop k d)).
Proof.
  induction d as [|[k2 v2] d IH]; simpl; [done|]. inversion 1; subst.
  case_decide; simpl; [done|]. constructor; [|auto].
  intros Hin. apply in_map_iff in Hin as ([k3 v3] & Heq & Hin); simpl in Heq; subst.
  apply dpop_keys_sub in Hin. by apply (in_map fst) in Hin.
Qed.

Lemma dget_dpop k k' d :
  List.NoDup (map fst d) -> dget k (dpop k' d) = if decide (k = k') then None else dget k d.
Proof.
  induction d as [|[k2 v2] d IH]; simpl; [by case_decide|].
  inversion 1; subst. repeat (case_decide; simpl; subst); try done; rewrite ?IH by done;
    rewrite ?decide_True, ?decide_False by done; try done.
  by apply dget_None.
Qed.
End odict.

(** ** Sorting: Python's [sorted] is stable *)
Section isort.
Context {A : Type} (leb : A -> A -> bool).

Fixpoint sinsert (x : A) (l : list A) : list A :=
  match l with
  | [] => [x]
  | y :: l => if leb x y then x :: y :: l else y :: sinsert x l
  end.

Definition sorted_by (l : list A) : list A := foldr sinsert [] l.

Lemma sinsert_perm x l : Permutation (sinsert x l) (x :: l).
Proof.
  induction l as [|y l IH]; simpl; [done|]. destruct (leb x y); [done|].
  rewrite IH. apply perm_swap.
Qed.

Lemma sorted_by_perm l : Permutation (sorted_by l) l.
Proof. induction l as [|x l IH]; simpl; [done|]. by rewrite sinsert_perm, IH. Qed.

Lemma sorted_by_length l : length (sorted_by l) = length l.
Proof. apply Permutation_length, sorted_by_perm. Qed.

Lemma sorted_by_In x l : In x (sorted_by l) <-> In x l.
Proof. split; apply Permutation_in; [|symmetry]; apply sorted_by_perm. Qed.

Hypothesis leb_total : forall x y, leb x y = true \/ leb y x = true.
Hypothesis leb_trans : forall x y z, leb x y = true -> leb y z = true -> leb x z = true.

Lemma sinsert_sorted x l :
  StronglySorted (fun a b => leb a b = true) l ->
  StronglySorted (fun a b => leb a b = true) (sinsert x l).
Proof.
  induction 1 as [|y l Hs IH Hall]; simpl; [repeat constructor|].
  destruct (leb x y) eqn:E.
  - constructor; [by constructor|]. constructor; [done|].
    eapply List.Forall_impl; [|exact Hall]. simpl. eauto.
  - constructor; [done|]. rewrite List.Forall_forall in *. intros z Hz.
    apply (Permutation_in _ (sinsert_perm x l)) in Hz as [<-|Hz]; [|auto].
    destruct (leb_total x y); congruence.
Qed.

Lemma sorted_by_sorted l : StronglySorted (fun a b => leb a b = true) (sorted_by l).
Proof. induction l; simpl; [constructor|by apply sinsert_sorted]. Qed.

(** Sorting a sorted list changes nothing. *)
Lemma sorted_by_id l : StronglySorted (fun a b => leb a b = true) l -> sorted_by l = l.
Proof.
  induction 1 as [|x l Hs IH Hall]; simpl; [done|]. rewrite IH.
  destruct l as [|y l]; simpl; [done|]. inversion Hall; subst. by rewrite H1.
Qed.
End isort.

(** Strings ordered by code point, the order of Python's [str]. *)
Definition str_leb (a b : string) : bool := String.leb a b.

Lemma str_leb_total a b : str_leb a b = true \/ str_leb b a = true.
Proof. apply String.leb_total. Qed.

Lemma str_leb_trans a b c : str_leb a b = true -> str_leb b c = true -> str_leb a c = true.
Proof.
  unfold str_leb. intros H1 H2.
  assert (H := transitivity (R := String.le) (x:=a) (y:=b) (z:=c)). unfold String.le in H.
  apply Is_true_true, H; by apply Is_true_true.
Qed.

(** ** [bisect.bisect_left]

    The binary search of the standard library: [fuel] bounds the iterations of
    its loop, and the interval shrinks at every one, so the length is enough. *)
Section bisect.
Context {A : Type} (lt : A -> A -> bool).

Fixpoint bisect_loop (fuel : nat) (l : list A) (x : A) (lo hi : nat) : nat :=
  match fuel with
  | O => lo
  | S fuel =>
      if (lo <? hi)%nat then
        let mid := ((lo + hi) / 2)%nat in
        match l !! mid with
        | Some y => if lt y x then bisect_loop fuel l x (S mid) hi else bisect_loop fuel l x lo mid
        | None => lo
        end
      else lo
  end.

Definition bisect_left (l : list A) (x : A) : nat := bisect_loop (S (length l)) l x 0 (length l).

(** On a list whose elements below [x] form a prefix, the result is the length of
    that prefix. *)
Lemma bisect_loop_spec fuel l x lo hi :
  (forall i j y z, l !! i = Some y -> l !! j = Some z -> (i <= j)%nat -> lt z x = true -> lt y x = true) ->
  (lo <= hi <= length l)%nat -> (hi - lo < fuel)%nat ->
  (forall i y, (i < lo)%nat -> l !! i = Some y -> lt y x = true) ->
  (forall i y, (hi <= i)%nat -> l !! i = Some y -> lt y x = false) ->
  let r := bisect_loop fuel l x lo hi in
  (lo <= r <= hi)%nat /\ (forall i y, (i < r)%nat -> l !! i = Some y -> lt y x = true) /\
  (forall i y, (r <= i)%nat -> l !! i = Some y -> lt y x = false).
Proof.
  intros Hpre. revert lo hi. induction fuel as [|fuel IH]; intros lo hi Hb Hf Hlo Hhi; [lia|]. cbn [bisect_loop].
  destruct (Nat.ltb_spec lo hi) as [Hlt|Hge]; cycle 1.
  { assert (lo = hi) as -> by lia. simpl. repeat split; [lia|lia|done|done]. }
  pose proof (Nat.Div0.div_mod (lo + hi) 2). pose proof (Nat.mod_upper_bound (lo + hi) 2 ltac:(lia)).
  set (mid := ((lo + hi) / 2)%nat) in *. assert (Hm : (lo <= mid < hi)%nat) by lia. clearbody mid.
  destruct (l !! mid) as [y|] eqn:E; cycle 1.
  { apply lookup_ge_None_1 in E. lia. }
  destruct (lt y x) eqn:El.
  - destruct (IH (S mid) hi) as (B & L & R); [lia|lia| |done|].
    { intros i z Hi Hz. eapply (Hpre i mid); eauto; lia. }
    cbn zeta. split; [lia|]. done.
  - destruct (IH lo mid) as (B & L & R); [lia|lia|done| |].
    { intros i z Hi Hz. destruct (lt z x) eqn:Ez; [|done]. rewrite (Hpre mid i y z) in El by (done || lia). done. }
    cbn zeta. split; [lia|]. done.
Qed.

Lemma bisect_left_spec l x :
  (forall i j y z, l !! i = Some y -> l !! j = Some z -> (i <= j)%nat -> lt z x = true -> lt y x = true) ->
  (bisect_left l x <= length l)%nat /\
  (forall i y, (i < bisect_left l x)%nat -> l !! i = Some y -> lt y x = true) /\
  (forall i y, (bisect_left l x <= i)%nat -> l !! i = Some y -> lt y x = false).
Proof.
  intros H. destruct (bisect_loop_spec (S (length l)) l x 0 (length l) H) as (B & L & R); try lia.
  - intros i y Hi Hy. apply lookup_lt_Some in Hy. lia.
  - split; [unfold bisect_left; lia|]. done.
Qed.
End bisect.

(** Positions of a sorted list. *)
Lemma sorted_lookup {A} (R : A -> A -> Prop) l i j x y :
  StronglySorted R l -> l !! i = Some x -> l !! j = Some y -> (i < j)%nat -> R x y.
Proof.
  intros H. revert i j. induction H as [|z l Hs IH Hall]; intros [|i] [|j] Hx Hy Hij; simpl in *; try lia; try done.
  - injection Hx as <-. rewrite List.Forall_forall in Hall. apply Hall.
    apply list_elem_of_In. by eapply list_elem_of_lookup_2.
  - eapply IH; eauto. lia.
Qed.

(** A sorted list of distinct integers is strictly increasing. *)
Lemma strictly_sorted l i j x y :
  List.NoDup l -> (sorted_by Z.leb l) !! i = Some x -> (sorted_by Z.leb l) !! j = Some y ->
  ((i < j)%nat -> x < y) /\ ((i <= j)%nat -> x <= y).
Proof.
  intros Hnd Hx Hy. assert (Hlt : (i < j)%nat -> x < y).
  { intros Hij. assert (Hle : x <= y).
    { apply Z.leb_le. eapply (sorted_lookup (fun a b => Z.leb a b = true)); eauto.
      apply sorted_by_sorted; intros; rewrite ?Z.leb_le in *; lia. }
    assert (Hne : List.NoDup (sorted_by Z.leb l)) by (eapply Permutation_NoDup; [symmetry; apply sorted_by_perm|done]).
    destruct (Z.eq_dec x y) as [->|]; [|lia].
    apply NoDup_ListNoDup in Hne. rewrite (NoDup_lookup _ _ _ _ Hne Hx Hy) in Hij. lia. }
  split; [done|]. intros Hij. destruct (Nat.eq_dec i j) as [->|]; [|specialize (Hlt ltac:(lia)); lia]. simplify_eq. lia.
Qed.
