(* ===== verification/PyDecimal.v ===== *)
(** * Python's [decimal] arithmetic

    Finite decimals as sign, coefficient and exponent; contexts as their
    precision with the default bounds [Emax = 999999], [Emin = -999999], half-even
    rounding and the default traps (InvalidOperation, DivisionByZero and
    Overflow raise, Inexact, Rounded, Underflow and Clamped do not).  The file
    also proves the facts the components use: the result of an operation is the
    correctly rounded exact result, rounding never crosses a representable
    number, and operations whose exact result fits the precision are exact. *)

From Stdlib Require Import QArith Qpower Qabs Qround Lqa.
From S2P Require Import Prelude.
From stdpp Require Import base tactics list strings.
From Stdlib Require Import ZArith Lia.

Open Scope Z_scope.

(** ** Representation *)

Record decimal := Dec { dneg : bool; dcoef : Z; dexp : Z }.

#[export] Instance decimal_eq_dec : EqDecision decimal.
Proof. solve_decision. Defined.

Definition dwf (d : decimal) : Prop := 0 <= dcoef d.

(** The signed coefficient. *)
Definition dsig (d : decimal) : Z := if dneg d then - dcoef d else dcoef d.

(** [Decimal(int)] is exact. *)
Definition dec_of_Z (z : Z) : decimal := Dec (z <? 0) (Z.abs z) 0.
Definition dzero : decimal := Dec false 0 0.

(** [bool(d)] *)
Definition dnonzero (d : decimal) : bool := negb (dcoef d =? 0).

(** ** Decimal digits *)

Fixpoint ndigits_fuel (n : nat) (z : Z) : Z :=
  match n with
  | O => 1
  | S n => if z <? 10 then 1 else 1 + ndigits_fuel n (z / 10)
  end.

(** The length of [str(z)] for [z >= 0]; [log2 z] bounds the number of divisions
    by ten, so the fuel never runs out. *)
Definition ndigits (z : Z) : Z := ndigits_fuel (S (Z.to_nat (Z.log2 z))) z.

(** ** Rounding *)

(** Division of a nonnegative [m] by [d > 0], to nearest, ties to even. *)
Definition div_half_even (m d : Z) : Z :=
  let q := m / d in let r := m mod d in
  if 2 * r <? d then q
  else if d <? 2 * r then q + 1
  else if Z.even q then q else q + 1.

(** Division rounding away from zero when anything is dropped. *)
Definition div_up (m d : Z) : Z := let q := m / d in if m mod d =? 0 then q else q + 1.

Definition Emax : Z := 999999.
Definition Emin : Z := -999999.
Definition Etiny (p : Z) : Z := Emin - p + 1.
Definition Etop (p : Z) : Z := Emax - p + 1.

Definition dec_overflow : exn := Exn DecOverflow "[<class 'decimal.Overflow'>]".
Definition dec_invalid : exn := Exn InvalidOperation "[<class 'decimal.InvalidOperation'>]".
Definition dec_divzero : exn := Exn DivisionByZero "[<class 'decimal.DivisionByZero'>]".

(** Rounding of an exact result to the context ([_fix] of the reference
    implementation). *)
Definition dfix (p : Z) (d : decimal) : res decimal :=
  let c := dcoef d in
  if c =? 0 then Ok (Dec (dneg d) 0 (Z.min (Z.max (dexp d) (Etiny p)) Emax))
  else
    let emin := ndigits c + dexp d - p in
    if Etop p <? emin then Raise dec_overflow
    else
      let k := Z.max emin (Etiny p) in
      if dexp d <? k then
        let c' := div_half_even c (10 ^ (k - dexp d)) in
        let r := if c' =? 10 ^ p then (c' / 10, k + 1) else (c', k) in
        if Etop p <? snd r then Raise dec_overflow else Ok (Dec (dneg d) (fst r) (snd r))
      else Ok d.

(** ** Operations *)

Definition dneg_exact (d : decimal) : decimal := Dec (negb (dneg d)) (dcoef d) (dexp d).

(** The exact sum: the exponent is the smaller one, a cancellation is [+0] and
    a sum of zeros is negative only when both are. *)
Definition dadd_exact (a b : decimal) : decimal :=
  let e := Z.min (dexp a) (dexp b) in
  let s := dsig a * 10 ^ (dexp a - e) + dsig b * 10 ^ (dexp b - e) in
  if s =? 0 then
    Dec (if (dcoef a =? 0) && (dcoef b =? 0) then dneg a && dneg b else false) 0 e
  else Dec (s <? 0) (Z.abs s) e.

Definition dmul_exact (a b : decimal) : decimal :=
  Dec (xorb (dneg a) (dneg b)) (dcoef a * dcoef b) (dexp a + dexp b).

Definition dadd (p : Z) (a b : decimal) : res decimal := dfix p (dadd_exact a b).
Definition dsub (p : Z) (a b : decimal) : res decimal := dfix p (dadd_exact a (dneg_exact b)).
Definition dmul (p : Z) (a b : decimal) : res decimal := dfix p (dmul_exact a b).
Definition dabs (p : Z) (a : decimal) : res decimal := dfix p (Dec false (dcoef a) (dexp a)).

(** Removal of trailing zeros down to the ideal exponent of a quotient. *)
Fixpoint dstrip (n : nat) (c e ideal : Z) : Z * Z :=
  match n with
  | O => (c, e)
  | S n => if (e <? ideal) && (c mod 10 =? 0) then dstrip n (c / 10) (e + 1) ideal else (c, e)
  end.

Definition ddiv (p : Z) (a b : decimal) : res decimal :=
  let sign := xorb (dneg a) (dneg b) in
  let ideal := dexp a - dexp b in
  if dcoef b =? 0 then Raise (if dcoef a =? 0 then dec_invalid else dec_divzero)
  else if dcoef a =? 0 then dfix p (Dec sign 0 ideal)
  else
    let shift := ndigits (dcoef b) - ndigits (dcoef a) + p + 1 in
    let exp := ideal - shift in
    let num := if 0 <=? shift then dcoef a * 10 ^ shift else dcoef a in
    let den := if 0 <=? shift then dcoef b else dcoef b * 10 ^ (- shift) in
    let q := num / den in
    if num mod den =? 0 then
      let r := dstrip (Z.to_nat (ideal - exp)) q exp ideal in
      dfix p (Dec sign (fst r) (snd r))
    else dfix p (Dec sign (if q mod 5 =? 0 then q + 1 else q) exp).

(** Exact comparison. *)
Definition dcmp (a b : decimal) : comparison :=
  let e := Z.min (dexp a) (dexp b) in
  (dsig a * 10 ^ (dexp a - e)) ?= (dsig b * 10 ^ (dexp b - e)).

Definition deqb (a b : decimal) : bool := match dcmp a b with Eq => true | _ => false end.
Definition dltb (a b : decimal) : bool := match dcmp a b with Lt => true | _ => false end.
Definition dleb (a b : decimal) : bool := match dcmp a b with Gt => false | _ => true end.

(** [max(a, b)] and [min(a, b)] of two values return the first on ties. *)
Definition dmax (a b : decimal) : decimal := if dltb a b then b else a.
Definition dmin (a b : decimal) : decimal := if dltb b a then b else a.

(** [d.quantize(Decimal((0, (1,), e)), rounding=ROUND_CEILING)] *)
Definition dquantize_ceiling (p e : Z) (d : decimal) : res decimal :=
  if (e <? Etiny p) || (Emax <? e) then Raise dec_invalid
  else if dcoef d =? 0 then dfix p (Dec (dneg d) 0 e)
  else
    let adjusted := dexp d + ndigits (dcoef d) - 1 in
    if Emax <? adjusted then Raise dec_invalid
    else if p <? adjusted - e + 1 then Raise dec_invalid
    else
      let c := if e <=? dexp d then dcoef d * 10 ^ (dexp d - e)
               else if dneg d then dcoef d / 10 ^ (e - dexp d)
               else div_up (dcoef d) (10 ^ (e - dexp d)) in
      if (Emax <? e + ndigits c - 1) || (p <? ndigits c) then Raise dec_invalid
      else dfix p (Dec (dneg d) c e).

(** [sum(xs, Decimal(0))] *)
Definition dsum (p : Z) (l : list decimal) : res decimal := rfold (dadd p) l dzero.

(** ** Rational values *)

Definition p10 (e : Z) : Q := Qpower 10 e.
Definition dval (d : decimal) : Q := (inject_Z (dsig d) * p10 (dexp d))%Q.

Example dadd_ex : dadd 28 (Dec false 15 (-1)) (Dec true 25 (-2)) = Ok (Dec false 125 (-2)).
Proof. reflexivity. Qed.
Example ddiv_ex : ddiv 28 (Dec false 1 0) (Dec false 3 0) = Ok (Dec false 3333333333333333333333333333 (-28)).
Proof. reflexivity. Qed.
Example ddiv_exact_ex : ddiv 28 (Dec false 10 0) (Dec false 4 0) = Ok (Dec false 25 (-1)).
Proof. reflexivity. Qed.
Example dquant_ex : dquantize_ceiling 28 (-2) (Dec false 1750001 (-6)) = Ok (Dec false 176 (-2)).
Proof. reflexivity. Qed.
Example dmul_ex : dmul 3 (Dec false 999 0) (Dec true 1001 (-1)) = Ok (Dec true 100 3).
Proof. reflexivity. Qed.

(** ** Digits and powers of ten *)

Lemma pow10_pos n : 0 <= n -> 0 < 10 ^ n.
Proof. intros. apply Z.pow_pos_nonneg; lia. Qed.

Lemma pow10_add a b : 0 <= a -> 0 <= b -> 10 ^ (a + b) = 10 ^ a * 10 ^ b.
Proof. intros. by apply Z.pow_add_r. Qed.

Lemma pow10_pred p : 1 <= p -> 10 ^ p = 10 * 10 ^ (p - 1).
Proof. intros. rewrite <- (pow10_add 1) by lia. f_equal. lia. Qed.

Lemma pow10_le a b : a <= b -> 10 ^ a <= 10 ^ b.
Proof. intros. apply Z.pow_le_mono_r; lia. Qed.

Lemma ndigits_fuel_spec n z :
  0 < z -> z < 10 ^ Z.of_nat (S n) ->
  1 <= ndigits_fuel n z /\ 10 ^ (ndigits_fuel n z - 1) <= z < 10 ^ ndigits_fuel n z.
Proof.
  revert z; induction n as [|n IH]; intros z Hz Hlt.
  - simpl in *. lia.
  - cbn [ndigits_fuel]. destruct (Z.ltb_spec z 10); [simpl; lia|].
    destruct (IH (z / 10)) as (H1 & H2 & H3).
    + apply Z.div_str_pos; lia.
    + apply Z.div_lt_upper_bound; [lia|].
      replace (Z.of_nat (S (S n))) with (1 + Z.of_nat (S n)) in Hlt by lia.
      rewrite pow10_add in Hlt by lia. exact Hlt.
    + set (k := ndigits_fuel n (z / 10)) in *.
      assert (Ek : 10 ^ (1 + k - 1) = 10 * 10 ^ (k - 1)).
      { replace (1 + k - 1) with (1 + (k - 1)) by lia. rewrite pow10_add by lia. done. }
      assert (Ek' : 10 ^ (1 + k) = 10 * 10 ^ k) by (rewrite pow10_add by lia; done).
      rewrite Ek, Ek'. pose proof (Z.div_mod z 10). pose proof (Z.mod_pos_bound z 10). lia.
Qed.

Lemma ndigits_spec z :
  0 < z -> 1 <= ndigits z /\ 10 ^ (ndigits z - 1) <= z < 10 ^ ndigits z.
Proof.
  intros Hz. apply ndigits_fuel_spec; [done|].
  pose proof (Z.log2_spec z Hz) as [_ H]. pose proof (Z.log2_nonneg z).
  rewrite !Nat2Z.inj_succ, Z2Nat.id by done.
  eapply Z.lt_le_trans; [exact H|].
  etransitivity; [apply (Z.pow_le_mono_l 2 10); lia|]. apply pow10_le. lia.
Qed.

Lemma ndigits_pos z : 1 <= ndigits z.
Proof.
  destruct (Z.ltb_spec 0 z) as [H|H]; [by apply ndigits_spec|].
  unfold ndigits. cbn [ndigits_fuel]. destruct (Z.ltb_spec z 10); lia.
Qed.

Lemma ndigits_le z p : 0 < z -> 0 <= p -> z < 10 ^ p <-> ndigits z <= p.
Proof.
  intros Hz Hp. destruct (ndigits_spec z Hz) as (H1 & H2 & H3). split; intros H.
  - destruct (Z.le_gt_cases (ndigits z) p); [done|].
    pose proof (pow10_le p (ndigits z - 1)). lia.
  - pose proof (pow10_le (ndigits z) p). lia.
Qed.

(** ** Rounded division *)

Lemma div_half_even_bounds m d :
  0 <= m -> 0 < d ->
  m / d <= div_half_even m d <= m / d + 1 /\
  (m mod d = 0 -> div_half_even m d = m / d) /\
  2 * Z.abs (div_half_even m d * d - m) <= d.
Proof.
  intros Hm Hd. unfold div_half_even.
  pose proof (Z.div_mod m d). pose proof (Z.mod_pos_bound m d).
  set (q := m / d) in *. set (r := m mod d) in *.
  destruct (Z.ltb_spec (2 * r) d); [|destruct (Z.ltb_spec d (2 * r)); [|destruct (Z.even q)]];
    repeat split; try lia; nia.
Qed.

Lemma div_half_even_le m d y : 0 <= m -> 0 < d -> m <= y * d -> div_half_even m d <= y.
Proof.
  intros Hm Hd H. destruct (div_half_even_bounds m d Hm Hd) as (Hb & Hx & _).
  pose proof (Z.div_le_upper_bound m d y Hd ltac:(lia)).
  destruct (Z.eq_dec (m mod d) 0) as [E|E]; [rewrite Hx by done; done|].
  assert (m / d <> y); [|lia]. intros <-.
  pose proof (Z.div_mod m d ltac:(lia)). pose proof (Z.mod_pos_bound m d Hd). lia.
Qed.

Lemma div_half_even_ge m d y : 0 <= m -> 0 < d -> y * d <= m -> y <= div_half_even m d.
Proof.
  intros Hm Hd H. destruct (div_half_even_bounds m d Hm Hd) as (Hb & _).
  pose proof (Z.div_le_lower_bound m d y Hd ltac:(lia)). lia.
Qed.

Lemma div_up_bounds m d :
  0 <= m -> 0 < d -> m <= div_up m d * d < m + d.
Proof.
  intros. unfold div_up. pose proof (Z.div_mod m d). pose proof (Z.mod_pos_bound m d).
  destruct (Z.eqb_spec (m mod d) 0); nia.
Qed.

(** ** Rational values *)

Lemma ten_nz : ~ (10 == 0)%Q.
Proof. discriminate. Qed.

Lemma p10_pos e : (0 < p10 e)%Q.
Proof. apply Qpower_0_lt. reflexivity. Qed.

Lemma p10_add a b : (p10 (a + b) == p10 a * p10 b)%Q.
Proof. apply Qpower_plus, ten_nz. Qed.

Lemma p10_Z n : 0 <= n -> (p10 n == inject_Z (10 ^ n))%Q.
Proof. intros. unfold p10. rewrite Zpower_Qpower by done. reflexivity. Qed.

Lemma p10_scale e m : m <= e -> (p10 e == inject_Z (10 ^ (e - m)) * p10 m)%Q.
Proof. intros. rewrite <- p10_Z by lia. rewrite <- p10_add. f_equiv. lia. Qed.

Lemma p10_le a b : a <= b -> (p10 a <= p10 b)%Q.
Proof.
  intros H. rewrite (p10_scale b a) by done. rewrite <- (Qmult_1_l (p10 a)) at 1. apply Qmult_le_compat_r; [|apply Qlt_le_weak, p10_pos].
  change 1%Q with (inject_Z 1). rewrite <- Zle_Qle. pose proof (pow10_pos (b - a)). lia.
Qed.

(** A value over any exponent not above its own. *)
Lemma dval_scale d m :
  m <= dexp d -> (dval d == inject_Z (dsig d * 10 ^ (dexp d - m)) * p10 m)%Q.
Proof. intros. unfold dval. rewrite (p10_scale _ m) by done. rewrite inject_Z_mult. ring. Qed.

Lemma scaled_le x y m : (inject_Z x * p10 m <= inject_Z y * p10 m)%Q <-> x <= y.
Proof. rewrite Qmult_le_r by apply p10_pos. by rewrite <- Zle_Qle. Qed.

Lemma dval_le a b m :
  m <= dexp a -> m <= dexp b ->
  (dval a <= dval b)%Q <-> dsig a * 10 ^ (dexp a - m) <= dsig b * 10 ^ (dexp b - m).
Proof. intros. rewrite (dval_scale a m), (dval_scale b m) by done. apply scaled_le. Qed.

Lemma dcmp_spec a b : dcmp a b = (dval a ?= dval b)%Q.
Proof.
  unfold dcmp. set (m := Z.min (dexp a) (dexp b)).
  pose proof (dval_le a b m ltac:(lia) ltac:(lia)) as H1.
  pose proof (dval_le b a m ltac:(lia) ltac:(lia)) as H2.
  destruct (Z.compare_spec (dsig a * 10 ^ (dexp a - m)) (dsig b * 10 ^ (dexp b - m)));
    symmetry.
  - apply Qeq_alt. apply Qle_antisym; [apply H1|apply H2]; lia.
  - apply Qlt_alt. apply Qnot_le_lt. rewrite H2. lia.
  - apply Qgt_alt. apply Qnot_le_lt. rewrite H1. lia.
Qed.

Lemma dltb_lt a b : dltb a b = true <-> (dval a < dval b)%Q.
Proof. unfold dltb. rewrite dcmp_spec, Qlt_alt. destruct (_ ?= _)%Q; naive_solver. Qed.

Lemma dleb_le a b : dleb a b = true <-> (dval a <= dval b)%Q.
Proof. unfold dleb. rewrite dcmp_spec, Qle_alt. destruct (_ ?= _)%Q; naive_solver. Qed.

Lemma deqb_eq a b : deqb a b = true <-> (dval a == dval b)%Q.
Proof. unfold deqb. rewrite dcmp_spec, Qeq_alt. destruct (_ ?= _)%Q; naive_solver. Qed.

Lemma dltb_ge a b : dltb a b = false <-> (dval b <= dval a)%Q.
Proof. rewrite <- not_true_iff_false, dltb_lt. split; [apply Qnot_lt_le | apply Qle_not_lt]. Qed.

Lemma dleb_gt a b : dleb a b = false <-> (dval b < dval a)%Q.
Proof. rewrite <- not_true_iff_false, dleb_le. split; [apply Qnot_le_lt | apply Qlt_not_le]. Qed.

Lemma deqb_neq a b : deqb a b = false <-> ~ (dval a == dval b)%Q.
Proof. by rewrite <- not_true_iff_false, deqb_eq. Qed.

Lemma dval_neg_exact a : (dval (dneg_exact a) == - dval a)%Q.
Proof.
  unfold dval, dsig; simpl. destruct (dneg a); simpl; rewrite inject_Z_opp; ring.
Qed.

Lemma dval_add_exact a b : (dval (dadd_exact a b) == dval a + dval b)%Q.
Proof.
  set (m := Z.min (dexp a) (dexp b)).
  rewrite (dval_scale a m), (dval_scale b m) by lia.
  rewrite <- Qmult_plus_distr_l, <- inject_Z_plus.
  unfold dadd_exact; fold m. set (s := dsig a * _ + _).
  destruct (Z.eqb_spec s 0) as [->|Hs]; unfold dval, dsig; simpl.
  - by destruct ((dcoef a =? 0) && (dcoef b =? 0)), (dneg a), (dneg b).
  - destruct (Z.ltb_spec s 0); do 2 f_equiv; lia.
Qed.

Lemma dval_mul_exact a b : (dval (dmul_exact a b) == dval a * dval b)%Q.
Proof.
  unfold dval, dsig; simpl. rewrite p10_add.
  destruct (dneg a), (dneg b); simpl; rewrite ?inject_Z_opp, ?inject_Z_mult, ?inject_Z_opp; ring.
Qed.

Lemma dval_zero d : dcoef d = 0 -> (dval d == 0)%Q.
Proof. intros E. unfold dval, dsig. rewrite E. destruct (dneg d); apply Qmult_0_l. Qed.

Lemma dval_of_Z z : (dval (dec_of_Z z) == inject_Z z)%Q.
Proof.
  unfold dval, dsig, dec_of_Z; simpl. change (p10 0) with 1%Q. rewrite Qmult_1_r.
  f_equiv. destruct (Z.ltb_spec z 0); lia.
Qed.

(** ** Rounding to the context *)

(** Numbers the context represents exactly: at most [p] digits and an exponent
    not below the smallest subnormal one. *)
Definition representable (p : Z) (d : decimal) : Prop :=
  0 <= dcoef d < 10 ^ p /\ Etiny p <= dexp d.

Lemma representable_neg p d : representable p d -> representable p (dneg_exact d).
Proof. done. Qed.

(** The shape of a successful rounding of a nonzero coefficient. *)
Lemma dfix_cases p d r :
  1 <= p -> 0 < dcoef d -> dfix p d = Ok r ->
  dneg r = dneg d /\
  ((r = d /\ ndigits (dcoef d) <= p /\ Etiny p <= dexp d) \/
   (exists k, dexp d < k /\ Etiny p <= k /\ ndigits (dcoef d) + dexp d - p <= k /\
      (k = Etiny p \/ k = ndigits (dcoef d) + dexp d - p) /\
      let q := div_half_even (dcoef d) (10 ^ (k - dexp d)) in
      ((r = Dec (dneg d) q k /\ q < 10 ^ p) \/
       (q = 10 ^ p /\ r = Dec (dneg d) (10 ^ (p - 1)) (k + 1))))).
Proof.
  intros Hp Hc. unfold dfix. destruct (Z.eqb_spec (dcoef d) 0); [lia|].
  set (em := ndigits (dcoef d) + dexp d - p). intros H. cbv zeta in H.
  destruct (Z.ltb_spec (Etop p) em); [done|].
  set (k := Z.max em (Etiny p)) in *.
  destruct (Z.ltb_spec (dexp d) k) as [Hk|Hk]; [|inv_ok H; subst; split; [done|left; split; [done|lia]]].
  set (q := div_half_even _ _) in *.
  assert (Hq : q <= 10 ^ p).
  { destruct (ndigits_spec _ Hc) as (_ & _ & Hu).
    assert (dcoef d / 10 ^ (k - dexp d) < 10 ^ p).
    { apply Z.div_lt_upper_bound; [apply pow10_pos; lia|]. rewrite <- pow10_add by lia.
      eapply Z.lt_le_trans; [exact Hu|]. apply pow10_le. lia. }
    pose proof (div_half_even_bounds (dcoef d) (10 ^ (k - dexp d)) ltac:(lia)
      ltac:(apply pow10_pos; lia)). lia. }
  assert (Htail : exists k0, dexp d < k0 /\ Etiny p <= k0 /\ em <= k0 /\
            (k0 = Etiny p \/ k0 = em) /\ k0 = k) by (exists k; lia).
  destruct (Z.eqb_spec q (10 ^ p)) as [E|E]; simpl in H; inv_ok H; subst r;
    (split; [done|]); right; exists k; repeat split; try lia.
  - right. split; [done|]. f_equal. rewrite E.
    rewrite (pow10_pred p) by lia. rewrite Z.mul_comm. by rewrite Z.div_mul.
  - left. split; [done|]. lia.
Qed.

Lemma dfix_zero p d r : dcoef d = 0 -> dfix p d = Ok r -> dcoef r = 0 /\ dneg r = dneg d /\ (0 <= p -> Etiny p <= dexp r).
Proof.
  unfold dfix. intros -> H. simpl in H. inv_ok H. subst r. simpl.
  unfold Etiny, Emin, Emax. repeat split; lia.
Qed.

Lemma dfix_representable p d r : 1 <= p -> dwf d -> dfix p d = Ok r -> representable p r.
Proof.
  intros Hp Hw H. unfold dwf in Hw. destruct (Z.eq_dec (dcoef d) 0) as [E|E].
  - destruct (dfix_zero p d r E H) as (Hr & _ & He).
    split; [rewrite Hr; split; [lia|apply pow10_pos; lia]|apply He; lia].
  - destruct (dfix_cases p d r Hp ltac:(lia) H) as [_ [(-> & H1 & H2)|(k & Hk & Ht & He & Hor & Hr)]].
    + split; [|done]. split; [lia|]. apply ndigits_le; lia.
    + pose proof (pow10_pos (k - dexp d) ltac:(lia)).
      pose proof (div_half_even_bounds (dcoef d) (10 ^ (k - dexp d)) ltac:(lia) ltac:(lia)) as (Hb & _).
      pose proof (Z.div_pos (dcoef d) (10 ^ (k - dexp d)) ltac:(lia) ltac:(lia)).
      destruct Hr as [[-> Hq]|[Hq ->]]; split; simpl; try lia.
      pose proof (pow10_pos (p - 1) ltac:(lia)).
      rewrite (pow10_pred p) by lia. lia.
Qed.

Lemma dfix_neg p d : dfix p (dneg_exact d) = rmap dneg_exact (dfix p d).
Proof.
  unfold dfix, rmap, dneg_exact; simpl. repeat (case_match; simpl; try done).
Qed.

(** The magnitude of a rounded number, over the exponent it was rounded at. *)
Lemma dfix_magnitude p d r :
  1 <= p -> 0 < dcoef d -> dfix p d = Ok r -> r <> d ->
  exists k, dexp d < k /\ Etiny p <= k <= dexp r /\
    (k = Etiny p \/ 10 ^ (p - 1) * 10 ^ (k - dexp d) <= dcoef d) /\
    dcoef r * 10 ^ (dexp r - k) = div_half_even (dcoef d) (10 ^ (k - dexp d)).
Proof.
  intros Hp Hc H Hne.
  destruct (dfix_cases p d r Hp Hc H) as [Hs [(-> & _)|(k & Hk & Ht & He & Hor & Hr)]]; [done|].
  exists k. destruct (ndigits_spec _ Hc) as (Hn1 & Hn2 & _).
  assert (Hlow : k = Etiny p \/ 10 ^ (p - 1) * 10 ^ (k - dexp d) <= dcoef d).
  { destruct Hor as [->| ->]; [by left|right].
    rewrite <- pow10_add by lia. etransitivity; [|exact Hn2]. apply pow10_le. lia. }
  destruct Hr as [[-> Hq]|[Hq ->]]; simpl; repeat split; try done; try lia.
  - rewrite Z.sub_diag. lia.
  - replace (k + 1 - k) with 1 by lia. rewrite Hq, (pow10_pred p) by lia. lia.
Qed.

(** Rounding a nonnegative number does not cross a representable one. *)
Lemma dfix_nonneg_bound p d r y :
  1 <= p -> dwf d -> dneg d = false -> dfix p d = Ok r ->
  representable p y -> dneg y = false ->
  ((dval d <= dval y)%Q -> (dval r <= dval y)%Q) /\
  ((dval y <= dval d)%Q -> (dval y <= dval r)%Q).
Proof.
  intros Hp Hw Hs H [Hy Hey] Hsy. unfold dwf in Hw.
  destruct (decide (r = d)) as [->|Hne]; [done|].
  destruct (Z.eq_dec (dcoef d) 0) as [E|E].
  { destruct (dfix_zero p d r E H) as (Hr & Hr' & _).
    by rewrite (dval_zero r), (dval_zero d) by done. }
  destruct (dfix_magnitude p d r Hp ltac:(lia) H Hne) as (k & Hk & Hrk & Hlow & Hmag).
  assert (Hsr : dneg r = false) by (destruct (dfix_cases p d r Hp ltac:(lia) H); congruence).
  set (m := Z.min (dexp d) (dexp y)).
  rewrite !(dval_le _ _ m) by lia. unfold dsig. rewrite Hs, Hsr, Hsy.
  set (q := div_half_even (dcoef d) (10 ^ (k - dexp d))) in *.
  assert (HD : 0 < 10 ^ (k - dexp d)) by (apply pow10_pos; lia).
  set (D := 10 ^ (k - dexp d)) in *. set (G := 10 ^ (dexp d - m)).
  assert (HG : 0 < G) by (apply pow10_pos; lia).
  assert (EkG : 10 ^ (k - m) = D * G).
  { unfold D, G. rewrite <- pow10_add by lia. f_equal. lia. }
  assert (Er : dcoef r * 10 ^ (dexp r - m) = q * D * G).
  { replace (dexp r - m) with ((dexp r - k) + (k - m)) by lia.
    rewrite pow10_add by lia. rewrite Z.mul_assoc, Hmag, EkG. lia. }
  rewrite Er. destruct (Z.le_gt_cases k (dexp y)) as [Hky|Hky].
  - set (Y := dcoef y * 10 ^ (dexp y - k)).
    assert (EY : dcoef y * 10 ^ (dexp y - m) = Y * D * G).
    { unfold Y. rewrite <- Z.mul_assoc, <- EkG, <- Z.mul_assoc, <- pow10_add by lia. do 2 f_equal. lia. }
    rewrite EY. rewrite <- !Z.mul_le_mono_pos_r by done.
    split; [apply div_half_even_le|apply div_half_even_ge]; lia.
  - destruct Hlow as [->|Hlow]; [lia|].
    assert (Hub : dcoef y * 10 ^ (dexp y - m) < 10 ^ (p - 1) * D * G).
    { rewrite <- Z.mul_assoc, <- EkG, <- pow10_add by lia.
      apply (Z.lt_le_trans _ (10 ^ p * 10 ^ (dexp y - m))).
      - apply Z.mul_lt_mono_pos_r; [apply pow10_pos|]; lia.
      - rewrite <- pow10_add by lia. apply pow10_le. lia. }
    pose proof (Zmult_le_compat_r _ _ G Hlow ltac:(lia)).
    pose proof (div_half_even_ge (dcoef d) D (10 ^ (p - 1)) ltac:(lia) ltac:(lia) Hlow) as Hq.
    fold q in Hq. pose proof (Zmult_le_compat_r _ _ (D * G) Hq ltac:(lia)).
    split; lia.
Qed.

Lemma dfix_sign p d r : 1 <= p -> dwf d -> dfix p d = Ok r -> dneg r = dneg d.
Proof.
  intros Hp Hw H. unfold dwf in Hw. destruct (Z.eq_dec (dcoef d) 0) as [E|E].
  - by destruct (dfix_zero p d r E H) as (_ & ? & _).
  - by destruct (dfix_cases p d r Hp ltac:(lia) H).
Qed.

Lemma dval_nonneg d : dwf d -> dneg d = false -> (0 <= dval d)%Q.
Proof.
  intros Hw Hs. unfold dval, dsig. rewrite Hs. apply Qmult_le_0_compat.
  - change 0%Q with (inject_Z 0). rewrite <- Zle_Qle. done.
  - apply Qlt_le_weak, p10_pos.
Qed.

Lemma dval_nonpos d : dwf d -> dneg d = true -> (dval d <= 0)%Q.
Proof.
  intros Hw Hs. pose proof (dval_nonneg (dneg_exact d) Hw) as H.
  rewrite dval_neg_exact in H. simpl in H. rewrite Hs in H. specialize (H eq_refl). lra.
Qed.

Lemma dfix_wf p d r : 1 <= p -> dwf d -> dfix p d = Ok r -> dwf r.
Proof. intros Hp Hw H. by destruct (dfix_representable p d r Hp Hw H) as [[? _] _]. Qed.

Lemma dfix_zero_val p d r : dwf d -> 1 <= p -> dfix p d = Ok r -> (dval d == 0)%Q -> (dval r == 0)%Q.
Proof.
  intros Hw Hp H E. destruct (Z.eq_dec (dcoef d) 0) as [E0|E0].
  - apply dval_zero. by apply (dfix_zero p d r).
  - exfalso. unfold dval, dsig in E. apply Qmult_integral in E as [E|E].
    + unfold Qeq, inject_Z in E. simpl in E. revert E. destruct (dneg d); lia.
    + pose proof (p10_pos (dexp d)). lra.
Qed.

(** Rounding never crosses a representable number. *)
Lemma dfix_bound p d r y :
  1 <= p -> dwf d -> dfix p d = Ok r -> representable p y ->
  ((dval d <= dval y)%Q -> (dval r <= dval y)%Q) /\
  ((dval y <= dval d)%Q -> (dval y <= dval r)%Q).
Proof.
  intros Hp Hw H Hy.
  assert (Hwr : dwf r) by eauto using dfix_wf. assert (Hwy : dwf y) by apply Hy.
  pose proof (dfix_sign p d r Hp Hw H) as Hs. pose proof (dfix_zero_val p d r Hw Hp H) as Hz.
  destruct (dneg d) eqn:Ed, (dneg y) eqn:Ey.
  - pose proof (dfix_neg p d) as Hn. rewrite H in Hn. unfold rmap in Hn; simpl in Hn.
    destruct (dfix_nonneg_bound p (dneg_exact d) (dneg_exact r) (dneg_exact y)) as [H1 H2];
      simpl; rewrite ?Ed, ?Ey; try done.
    rewrite !dval_neg_exact in H1, H2. split; intros.
    + assert (- dval y <= - dval r)%Q by (apply H2; lra). lra.
    + assert (- dval r <= - dval y)%Q by (apply H1; lra). lra.
  - pose proof (dval_nonpos d Hw Ed). pose proof (dval_nonpos r Hwr Hs).
    pose proof (dval_nonneg y Hwy Ey). split; intros; [lra|]. rewrite Hz by lra. lra.
  - pose proof (dval_nonneg d Hw Ed). pose proof (dval_nonneg r Hwr Hs).
    pose proof (dval_nonpos y Hwy Ey). split; intros; [|lra]. rewrite Hz by lra. lra.
  - by apply (dfix_nonneg_bound p d r y).
Qed.

(** A value that the context represents is returned unchanged. *)
Lemma dfix_exact_val p d r y :
  1 <= p -> dwf d -> dfix p d = Ok r -> representable p y -> (dval d == dval y)%Q ->
  (dval r == dval d)%Q.
Proof.
  intros Hp Hw H Hy E. destruct (dfix_bound p d r y Hp Hw H Hy) as [H1 H2].
  pose proof (H1 ltac:(lra)). pose proof (H2 ltac:(lra)). lra.
Qed.

(** ** Well-formedness of exact results *)

Lemma dadd_exact_wf a b : dwf (dadd_exact a b).
Proof. unfold dwf, dadd_exact. case_match; simpl; lia. Qed.

Lemma dmul_exact_wf a b : dwf a -> dwf b -> dwf (dmul_exact a b).
Proof. unfold dwf; simpl. apply Z.mul_nonneg_nonneg. Qed.

(** ** Bounds on the operations *)
Section bounds.
Context (p : Z) (Hp : 1 <= p).

Lemma dadd_bound a b r y :
  dadd p a b = Ok r -> representable p y ->
  ((dval a + dval b <= dval y)%Q -> (dval r <= dval y)%Q) /\
  ((dval y <= dval a + dval b)%Q -> (dval y <= dval r)%Q).
Proof.
  intros H Hy. pose proof (dfix_bound p _ r y Hp (dadd_exact_wf a b) H Hy) as HB.
  by rewrite dval_add_exact in HB.
Qed.

Lemma dsub_bound a b r y :
  dsub p a b = Ok r -> representable p y ->
  ((dval a - dval b <= dval y)%Q -> (dval r <= dval y)%Q) /\
  ((dval y <= dval a - dval b)%Q -> (dval y <= dval r)%Q).
Proof.
  intros H Hy. pose proof (dfix_bound p _ r y Hp (dadd_exact_wf a _) H Hy) as HB.
  by rewrite dval_add_exact, dval_neg_exact in HB.
Qed.

Lemma dmul_bound a b r y :
  dwf a -> dwf b -> dmul p a b = Ok r -> representable p y ->
  ((dval a * dval b <= dval y)%Q -> (dval r <= dval y)%Q) /\
  ((dval y <= dval a * dval b)%Q -> (dval y <= dval r)%Q).
Proof.
  intros Ha Hb H Hy. pose proof (dfix_bound p _ r y Hp (dmul_exact_wf a b Ha Hb) H Hy) as HB.
  by rewrite dval_mul_exact in HB.
Qed.

Lemma dadd_representable a b r : dadd p a b = Ok r -> representable p r.
Proof. intros H. eapply dfix_representable; [done|apply dadd_exact_wf|exact H]. Qed.
Lemma dsub_representable a b r : dsub p a b = Ok r -> representable p r.
Proof. intros H. eapply dfix_representable; [done|apply dadd_exact_wf|exact H]. Qed.
Lemma dmul_representable a b r : dwf a -> dwf b -> dmul p a b = Ok r -> representable p r.
Proof. intros Ha Hb H. eapply dfix_representable; [done| |exact H]. by apply dmul_exact_wf. Qed.

Lemma dzero_representable : representable p dzero.
Proof.
  unfold representable, Etiny, Emin; simpl. split; [split; [lia|apply pow10_pos; lia]|lia].
Qed.

Lemma dec_of_Z_representable z : Z.abs z < 10 ^ p -> representable p (dec_of_Z z).
Proof. unfold representable, Etiny, Emin; simpl. lia. Qed.

(** Signs of products. *)
Lemma dmul_nonneg a b r :
  dwf a -> dwf b -> dmul p a b = Ok r -> (0 <= dval a)%Q -> (0 <= dval b)%Q -> (0 <= dval r)%Q.
Proof.
  intros Ha Hb H H1 H2. destruct (dmul_bound a b r dzero Ha Hb H dzero_representable) as [_ HH].
  rewrite (dval_zero dzero) in HH by done. apply HH. by apply Qmult_le_0_compat.
Qed.

Lemma dadd_nonneg a b r :
  dadd p a b = Ok r -> (0 <= dval a)%Q -> (0 <= dval b)%Q -> (0 <= dval r)%Q.
Proof.
  intros H H1 H2. destruct (dadd_bound a b r dzero H dzero_representable) as [_ HH].
  rewrite (dval_zero dzero) in HH by done. apply HH. lra.
Qed.

(** Adding something nonnegative does not decrease a representable number. *)
Lemma dadd_mono_l a b r :
  representable p a -> dadd p a b = Ok r -> (0 <= dval b)%Q -> (dval a <= dval r)%Q.
Proof. intros Ha H Hb. apply (dadd_bound a b r a H Ha). lra. Qed.

Lemma dsub_mono_l a b r :
  representable p a -> dsub p a b = Ok r -> (0 <= dval b)%Q -> (dval r <= dval a)%Q.
Proof. intros Ha H Hb. apply (dsub_bound a b r a H Ha). lra. Qed.
End bounds.

Create HintDb dec discriminated.
#[export] Hint Resolve dadd_representable dsub_representable dmul_representable
  dzero_representable dec_of_Z_representable dfix_wf dadd_exact_wf dmul_exact_wf : dec.

Lemma representable_wf p d : representable p d -> dwf d.
Proof. by intros [[? _] _]. Qed.
#[export] Hint Resolve representable_wf : dec.

(** ** Division *)

Lemma dstrip_value n c e ideal :
  let r := dstrip n c e ideal in
  e <= snd r /\ fst r * 10 ^ (snd r - e) = c /\ (0 <= c -> 0 <= fst r).
Proof.
  revert c e; induction n as [|n IH]; intros c e; simpl; [rewrite Z.sub_diag; lia|].
  destruct (e <? ideal) eqn:E1, (c mod 10 =? 0) eqn:E2; simpl; try (rewrite Z.sub_diag; lia).
  destruct (IH (c / 10) (e + 1)) as (H1 & H2 & H3).
  set (r := dstrip n (c / 10) (e + 1) ideal) in *. split_bools.
  pose proof (Z.div_mod c 10). repeat split; [lia| |intros; apply H3, Z.div_pos; lia].
  replace (snd r - e) with (1 + (snd r - (e + 1))) by lia. rewrite pow10_add by lia. lia.
Qed.

(** A quotient truncated after [p + 1] digits with a sticky last digit compares
    with every representable number like the exact quotient. *)
Lemma quotient_bound p num den exp q' (X : Q) y :
  1 <= p -> 0 < num -> 0 < den -> 10 ^ p <= num / den ->
  num / den <= q' <= num / den + 1 -> (num mod den = 0 -> q' = num / den) ->
  (X * inject_Z den == inject_Z num * p10 exp)%Q ->
  representable p y -> dneg y = false ->
  ((X <= dval y)%Q -> (inject_Z q' * p10 exp <= dval y)%Q) /\
  ((dval y <= X)%Q -> (dval y <= inject_Z q' * p10 exp)%Q).
Proof.
  intros Hp Hn Hd Hq Hq' Hx HX [[Hy0 Hy] Hey] Hs.
  set (m := Z.min exp (dexp y)). set (E := 10 ^ (exp - m)). set (Y := dcoef y * 10 ^ (dexp y - m)).
  assert (HE : 0 < E) by (apply pow10_pos; lia).
  assert (Vy : (dval y == inject_Z Y * p10 m)%Q).
  { rewrite (dval_scale y m) by lia. unfold dsig. by rewrite Hs. }
  assert (Ve : forall z, (inject_Z z * p10 exp == inject_Z (z * E) * p10 m)%Q).
  { intros z. rewrite (p10_scale exp m) by lia. rewrite inject_Z_mult. fold E. ring. }
  assert (HdQ : (0 < inject_Z den)%Q) by (change 0%Q with (inject_Z 0); rewrite <- Zlt_Qlt; lia).
  assert (C1 : (X <= dval y)%Q <-> num * E <= Y * den).
  { rewrite <- (Qmult_le_r _ _ (inject_Z den)) by done. rewrite HX, Ve, Vy.
    assert (inject_Z Y * p10 m * inject_Z den == inject_Z (Y * den) * p10 m)%Q as ->
      by (rewrite inject_Z_mult; ring). apply scaled_le. }
  assert (C2 : (dval y <= X)%Q <-> Y * den <= num * E).
  { rewrite <- (Qmult_le_r _ _ (inject_Z den)) by done. rewrite HX, Ve, Vy.
    assert (inject_Z Y * p10 m * inject_Z den == inject_Z (Y * den) * p10 m)%Q as ->
      by (rewrite inject_Z_mult; ring). apply scaled_le. }
  rewrite C1, C2, Ve, Vy, !scaled_le.
  pose proof (Z.div_mod num den ltac:(lia)) as Hdm. pose proof (Z.mod_pos_bound num den Hd) as Hmb.
  destruct (Z.le_gt_cases exp (dexp y)) as [Hle|Hgt].
  - assert (EE : E = 1) by (unfold E; replace (exp - m) with 0 by lia; done). rewrite EE in *.
    split; intros H.
    + destruct (Z.eq_dec (num mod den) 0) as [E0|E0].
      * rewrite (Hx E0). pose proof (Z.div_le_upper_bound num den Y Hd). lia.
      * assert (num / den < Y); [|lia]. apply Z.div_lt_upper_bound; [done|].
        assert (num <> Y * den); [|lia]. intros ->. rewrite Z.mod_mul in E0; lia.
    + pose proof (Z.div_le_lower_bound num den Y Hd). lia.
  - assert (HY : Y < 10 ^ p * E).
    { unfold Y. replace (dexp y - m) with 0 by lia. rewrite Z.mul_1_r.
      pose proof (Z.mul_le_mono_nonneg_l 1 E (10 ^ p)). lia. }
    pose proof (Zmult_le_compat_r _ _ E Hq ltac:(lia)) as HqE.
    pose proof (Zmult_le_compat_r _ _ E (proj1 Hq') ltac:(lia)).
    split; intros H1; [|lia]. exfalso.
    assert (Y * den < num / den * E * den) by (apply Z.mul_lt_mono_pos_r; lia).
    assert (num / den * E * den <= num * E); [|lia].
    replace (num / den * E * den) with (den * (num / den) * E) by lia.
    apply Z.mul_le_mono_nonneg_r; lia.
Qed.

Lemma dval_abs d : dwf d -> (Qabs (dval d) == inject_Z (dcoef d) * p10 (dexp d))%Q.
Proof.
  intros Hw. unfold dval. rewrite Qabs_Qmult.
  rewrite (Qabs_pos (p10 _)) by apply Qlt_le_weak, p10_pos.
  f_equiv. unfold dsig, dwf in *. destruct (dneg d); unfold Qabs, inject_Z; f_equiv; lia.
Qed.

Lemma inject_pos z : 0 < z -> (0 < inject_Z z)%Q.
Proof. intros. change 0%Q with (inject_Z 0). by rewrite <- Zlt_Qlt. Qed.

Lemma dval_abs_div a b :
  dwf a -> 0 < dcoef b ->
  (Qabs (dval a / dval b) * inject_Z (dcoef b) == inject_Z (dcoef a) * p10 (dexp a - dexp b))%Q.
Proof.
  intros Ha Hb. unfold Qdiv. rewrite Qabs_Qmult, Qabs_Qinv, !dval_abs by (unfold dwf; lia || done).
  pose proof (inject_pos _ Hb). pose proof (p10_pos (dexp b)).
  assert (p10 (dexp a) == p10 (dexp a - dexp b) * p10 (dexp b))%Q as ->
    by (rewrite <- p10_add; f_equiv; lia).
  field. split; intros E; rewrite E in *; lra.
Qed.

(** The intermediate quotient of a division of nonzero numbers. *)
Lemma ddiv_nonzero p a b r :
  1 <= p -> 0 < dcoef a -> 0 < dcoef b -> ddiv p a b = Ok r ->
  exists t, dfix p t = Ok r /\ dneg t = xorb (dneg a) (dneg b) /\ dwf t /\
    forall y, representable p y -> dneg y = false ->
    ((Qabs (dval a / dval b) <= dval y)%Q -> (dval (Dec false (dcoef t) (dexp t)) <= dval y)%Q) /\
    ((dval y <= Qabs (dval a / dval b))%Q -> (dval y <= dval (Dec false (dcoef t) (dexp t)))%Q).
Proof.
  intros Hp Ha Hb. unfold ddiv.
  destruct (Z.eqb_spec (dcoef b) 0); [lia|]. destruct (Z.eqb_spec (dcoef a) 0); [lia|].
  set (shift := ndigits (dcoef b) - ndigits (dcoef a) + p + 1).
  set (num := if 0 <=? shift then _ else dcoef a). set (den := if 0 <=? shift then dcoef b else _).
  set (exp := dexp a - dexp b - shift). cbv zeta.
  destruct (ndigits_spec _ Ha) as (Na & Na1 & _). destruct (ndigits_spec _ Hb) as (Nb & _ & Nb2).
  assert (Hnum : 0 < num) by (unfold num; case_match; split_bools; [apply Z.mul_pos_pos; [|apply pow10_pos]|]; lia).
  assert (Hden : 0 < den) by (unfold den; case_match; split_bools; [|apply Z.mul_pos_pos; [|apply pow10_pos]]; lia).
  assert (Hq : 10 ^ p <= num / den).
  { apply Z.div_le_lower_bound; [done|].
    unfold num, den; destruct (Z.leb_spec 0 shift).
    - transitivity (10 ^ (ndigits (dcoef a) - 1) * 10 ^ shift).
      + rewrite <- pow10_add by lia.
        transitivity (10 ^ ndigits (dcoef b) * 10 ^ p); [apply Z.mul_le_mono_nonneg_r; [apply Z.pow_nonneg|]; lia|].
        rewrite <- pow10_add by lia. apply pow10_le. lia.
      + apply Z.mul_le_mono_nonneg_r; [apply Z.pow_nonneg|]; lia.
    - etransitivity; [|exact Na1].
      transitivity (10 ^ ndigits (dcoef b) * 10 ^ (- shift) * 10 ^ p).
      + apply Z.mul_le_mono_nonneg_r; [apply Z.pow_nonneg; lia|].
        apply Z.mul_le_mono_nonneg_r; [apply Z.pow_nonneg|]; lia.
      + rewrite <- !pow10_add by lia. apply pow10_le. lia. }
  assert (HX : (Qabs (dval a / dval b) * inject_Z den == inject_Z num * p10 exp)%Q).
  { pose proof (dval_abs_div a b ltac:(unfold dwf; lia) Hb) as HX.
    unfold num, den, exp; destruct (Z.leb_spec 0 shift).
    - rewrite HX, inject_Z_mult, <- p10_Z by lia.
      rewrite <- Qmult_assoc, <- p10_add. do 2 f_equiv. lia.
    - rewrite inject_Z_mult, Qmult_assoc, HX, <- p10_Z by lia.
      rewrite <- Qmult_assoc, <- p10_add. do 2 f_equiv. lia. }
  pose proof (quotient_bound p num den exp) as QB.
  destruct (Z.eqb_spec (num mod den) 0) as [E0|E0]; intros H;
    eexists; (split; [exact H|]); (split; [done|]).
  - destruct (dstrip_value (Z.to_nat (dexp a - dexp b - exp)) (num / den) exp (dexp a - dexp b)) as (H1 & H2 & H3).
    set (st := dstrip _ _ _ _) in *. split; [unfold dwf; simpl; lia|].
    intros y Hy Hs. simpl. rewrite (dval_scale (Dec false _ _) exp) by done. unfold dsig; simpl.
    rewrite H2. apply (QB (num / den) _ y); try done; lia.
  - split; [unfold dwf; simpl; case_match; lia|].
    intros y Hy Hs. unfold dval at 2 4, dsig; simpl.
    apply (QB _ _ y); try done; case_match; lia.
Qed.

Lemma Qsign_cases (s : bool) (x : Q) : (Qabs x == if s then - x else x)%Q -> if s then (x <= 0)%Q else (0 <= x)%Q.
Proof. pose proof (Qabs_nonneg x). destruct s; intros E; rewrite E in *; lra. Qed.

Lemma ddiv_sign a b :
  dwf a -> 0 < dcoef b ->
  (Qabs (dval a / dval b) == if xorb (dneg a) (dneg b) then - (dval a / dval b) else dval a / dval b)%Q.
Proof.
  intros Ha Hb.
  assert (V : forall d, (dval d == (if dneg d then -1 else 1) * (inject_Z (dcoef d) * p10 (dexp d)))%Q).
  { intros d. unfold dval, dsig. destruct (dneg d); rewrite ?inject_Z_opp; ring. }
  unfold Qdiv at 1. rewrite Qabs_Qmult, Qabs_Qinv, !dval_abs by (unfold dwf; lia || done).
  pose proof (inject_pos _ Hb). pose proof (p10_pos (dexp b)). generalize (V a) (V b).
  destruct (dneg a), (dneg b); simpl; intros -> ->; field; split; intros E; rewrite E in *; lra.
Qed.

(** A quotient is the correctly rounded exact quotient: it does not cross a
    representable number. *)
Lemma ddiv_bound p a b r y :
  1 <= p -> dwf a -> dwf b -> ddiv p a b = Ok r -> representable p y ->
  ((dval a / dval b <= dval y)%Q -> (dval r <= dval y)%Q) /\
  ((dval y <= dval a / dval b)%Q -> (dval y <= dval r)%Q).
Proof.
  intros Hp Ha Hb H Hy. unfold dwf in Ha, Hb.
  destruct (Z.eq_dec (dcoef b) 0) as [Eb|Eb].
  { unfold ddiv in H. by rewrite Eb in H. }
  destruct (Z.eq_dec (dcoef a) 0) as [Ea|Ea].
  { pose proof H as H'. unfold ddiv in H'. rewrite Ea in H'. destruct (Z.eqb_spec (dcoef b) 0); [done|]. simpl in H'.
    apply dfix_zero in H' as [Hr _]; [|done]. rewrite (dval_zero r Hr), (dval_zero a Ea).
    unfold Qdiv. by rewrite Qmult_0_l. }
  destruct (ddiv_nonzero p a b r Hp ltac:(lia) ltac:(lia) H) as (t & Ht & Hs & Hwt & Hb').
  pose proof (ddiv_sign a b Ha ltac:(lia)) as Hsg. rewrite <- Hs in Hsg.
  pose proof (dfix_bound p t r y Hp Hwt Ht Hy) as [F1 F2].
  enough (((dval a / dval b <= dval y)%Q -> (dval t <= dval y)%Q) /\
          ((dval y <= dval a / dval b)%Q -> (dval y <= dval t)%Q)) by naive_solver.
  pose proof (Qabs_nonneg (dval a / dval b)) as Hnn.
  assert (Vt : (dval t == if dneg t then - dval (Dec false (dcoef t) (dexp t)) else dval (Dec false (dcoef t) (dexp t)))%Q).
  { unfold dval, dsig; simpl. destruct (dneg t); rewrite ?inject_Z_opp; ring. }
  assert (Htn : (0 <= dval (Dec false (dcoef t) (dexp t)))%Q) by (by apply dval_nonneg).
  set (T := dval (Dec false _ _)) in *. set (X := (dval a / dval b)%Q) in *.
  pose proof (representable_wf p y Hy) as Hwy.
  destruct (dneg t), (dneg y) eqn:Ey.
  - destruct (Hb' (dneg_exact y)) as [B1 B2]; [done|simpl; by rewrite Ey|].
    rewrite dval_neg_exact in B1, B2. rewrite Vt.
    split; intros; [assert (- dval y <= T)%Q by (apply B2; lra)|assert (T <= - dval y)%Q by (apply B1; lra)]; lra.
  - pose proof (dval_nonneg y Hwy Ey). rewrite Vt. split; intros; [lra|].
    destruct (Hb' y Hy Ey) as [B1 _]. assert (T <= dval y)%Q by (apply B1; lra). lra.
  - pose proof (dval_nonpos y Hwy Ey). rewrite Vt. split; intros; [|lra].
    destruct (Hb' dzero (dzero_representable p Hp) eq_refl) as [B1 _].
    rewrite (dval_zero dzero eq_refl) in B1. assert (T <= 0)%Q by (apply B1; lra). lra.
  - destruct (Hb' y Hy Ey) as [B1 B2]. rewrite Vt. rewrite Hsg in B1, B2. done.
Qed.

Lemma ddiv_representable p a b r : 1 <= p -> dwf a -> dwf b -> ddiv p a b = Ok r -> representable p r.
Proof.
  intros Hp Ha Hb H. unfold dwf in Ha, Hb. pose proof H as H'. unfold ddiv in H'.
  destruct (Z.eqb_spec (dcoef b) 0); [done|]. destruct (Z.eqb_spec (dcoef a) 0).
  - eapply dfix_representable; [done| |exact H']. done.
  - destruct (ddiv_nonzero p a b r Hp ltac:(lia) ltac:(lia) H) as (t & Ht & _ & Hw & _).
    by eapply dfix_representable.
Qed.
#[export] Hint Resolve ddiv_representable : dec.

Lemma ddiv_nonneg p a b r :
  1 <= p -> dwf a -> dwf b -> ddiv p a b = Ok r -> (0 <= dval a)%Q -> (0 <= dval b)%Q -> (0 <= dval r)%Q.
Proof.
  intros Hp Ha Hb H H1 H2. destruct (ddiv_bound p a b r dzero Hp Ha Hb H (dzero_representable p Hp)) as [_ HH].
  rewrite (dval_zero dzero eq_refl) in HH. apply HH. unfold Qdiv. apply Qmult_le_0_compat; [done|].
  by apply Qinv_le_0_compat.
Qed.

(** ** Quantization *)

(** A coefficient that fits the precision at a normal exponent is not rounded. *)
Lemma dfix_fits p d r :
  1 <= p -> dwf d -> (dcoef d = 0 \/ ndigits (dcoef d) <= p) -> Etiny p <= dexp d <= Emax ->
  dfix p d = Ok r -> r = d.
Proof.
  intros Hp Hw Hn He. unfold dwf in Hw. unfold dfix. destruct d as [s c e]; simpl in *.
  destruct (Z.eqb_spec c 0) as [->|Hc].
  - intros H; inv_ok H. subst. f_equal. lia.
  - destruct Hn as [?|Hn]; [done|].
    destruct (Z.ltb_spec (Etop p) (ndigits c + e - p)); [done|].
    destruct (Z.ltb_spec e (Z.max (ndigits c + e - p) (Etiny p))); [lia|].
    intros H'; by inv_ok H'.
Qed.

Lemma dquantize_ceiling_spec p e d r :
  1 <= p -> dwf d -> dneg d = false -> dquantize_ceiling p e d = Ok r ->
  dexp r = e /\ dneg r = false /\ representable p r /\
  (dval d <= dval r)%Q /\ (dval r < dval d + p10 e)%Q.
Proof.
  intros Hp Hw Hs. unfold dquantize_ceiling, dwf in *.
  intros H; inv_ok H. split_bools. rewrite Hs in *. pose proof (p10_pos e).
  destruct (Z.eqb_spec (dcoef d) 0) as [E|E].
  - assert (Hr := dfix_representable p _ r Hp (ltac:(done) : dwf (Dec false 0 e)) H).
    apply dfix_fits in H; [|done|done|by left|simpl; lia]. subst r. simpl.
    rewrite (dval_zero d E), (dval_zero (Dec false 0 e) eq_refl). repeat split; try done; lra || apply Hr.
  - set (c := if e <=? dexp d then _ else _) in *. inv_ok H. split_bools.
    assert (Hcn : 0 <= c).
    { unfold c. case_match; [apply Z.mul_nonneg_nonneg; [|apply Z.pow_nonneg]; lia|].
      split_bools. pose proof (pow10_pos (e - dexp d) ltac:(lia)).
      pose proof (div_up_bounds (dcoef d) (10 ^ (e - dexp d)) ltac:(lia) ltac:(lia)). nia. }
    assert (Hr := dfix_representable p _ r Hp (Hcn : dwf (Dec false c e)) H).
    apply dfix_fits in H; [|done|done|right; simpl; lia|simpl; lia]. subst r. simpl.
    split; [done|]. split; [done|]. split; [done|].
    set (m := Z.min e (dexp d)).
    assert (V1 : (dval (Dec false c e) == inject_Z (c * 10 ^ (e - m)) * p10 m)%Q)
      by (rewrite (dval_scale _ m); simpl; [done|lia]).
    assert (V2 : (dval d == inject_Z (dcoef d * 10 ^ (dexp d - m)) * p10 m)%Q).
    { rewrite (dval_scale d m) by lia. unfold dsig. by rewrite Hs. }
    assert (V3 : (p10 e == inject_Z (10 ^ (e - m)) * p10 m)%Q) by (apply p10_scale; lia).
    assert (Hb : dcoef d * 10 ^ (dexp d - m) <= c * 10 ^ (e - m) < dcoef d * 10 ^ (dexp d - m) + 10 ^ (e - m)).
    { unfold c. destruct (Z.leb_spec e (dexp d)).
      - replace m with e by lia. rewrite Z.sub_diag. change (10 ^ 0) with 1. lia.
      - replace m with (dexp d) by lia. rewrite Z.sub_diag. change (10 ^ 0) with 1.
        pose proof (pow10_pos (e - dexp d) ltac:(lia)).
        pose proof (div_up_bounds (dcoef d) (10 ^ (e - dexp d)) ltac:(lia) ltac:(lia)). lia. }
    split.
    + rewrite V1, V2. apply scaled_le. lia.
    + apply Qnot_le_lt. rewrite V1, V2, V3, <- Qmult_plus_distr_l, <- inject_Z_plus, scaled_le. lia.
Qed.

Lemma dmax_ge_l a b : (dval a <= dval (dmax a b))%Q.
Proof. unfold dmax. destruct (dltb a b) eqn:E; [apply dltb_lt in E; lra|lra]. Qed.
Lemma dmax_ge_r a b : (dval b <= dval (dmax a b))%Q.
Proof. unfold dmax. destruct (dltb a b) eqn:E; [lra|apply dltb_ge in E; lra]. Qed.
Lemma dmax_cases a b : dmax a b = a \/ dmax a b = b.
Proof. unfold dmax. destruct (dltb a b); auto. Qed.

(** Turns boolean comparisons of decimals into comparisons of their values. *)
Ltac dec_cmp :=
  repeat match goal with
  | H : dltb _ _ = true |- _ => apply dltb_lt in H
  | H : dltb _ _ = false |- _ => apply dltb_ge in H
  | H : dleb _ _ = true |- _ => apply dleb_le in H
  | H : dleb _ _ = false |- _ => apply dleb_gt in H
  | H : deqb _ _ = true |- _ => apply deqb_eq in H
  | H : deqb _ _ = false |- _ => apply deqb_neq in H
  end.

(** ** Well-formedness *)

(** Well-formedness of the results of the context operations. *)
Lemma dadd_wf p a b r : 1 <= p -> dadd p a b = Ok r -> dwf r.
Proof. intros Hp H. eapply representable_wf, dadd_representable; eauto. Qed.
Lemma dsub_wf p a b r : 1 <= p -> dsub p a b = Ok r -> dwf r.
Proof. intros Hp H. eapply representable_wf, dsub_representable; eauto. Qed.
Lemma dmul_wf p a b r : 1 <= p -> dwf a -> dwf b -> dmul p a b = Ok r -> dwf r.
Proof. intros Hp Ha Hb H. eapply representable_wf, (dmul_representable p Hp a b); eauto. Qed.
Lemma ddiv_wf p a b r : 1 <= p -> dwf a -> dwf b -> ddiv p a b = Ok r -> dwf r.
Proof. intros Hp Ha Hb H. eapply representable_wf, (ddiv_representable p a b); eauto. Qed.
Lemma dabs_wf p a r : 1 <= p -> dwf a -> dabs p a = Ok r -> dwf r.
Proof. intros Hp Ha H. exact (dfix_wf p (Dec false (dcoef a) (dexp a)) r Hp Ha H). Qed.
Lemma dec_of_Z_wf z : dwf (dec_of_Z z).
Proof. unfold dwf; simpl; lia. Qed.
Lemma dmin_wf a b : dwf a -> dwf b -> dwf (dmin a b).
Proof. unfold dmin. by destruct (dltb b a). Qed.
Lemma dmax_wf a b : dwf a -> dwf b -> dwf (dmax a b).
Proof. unfold dmax. by destruct (dltb a b). Qed.

Create HintDb wf discriminated.
#[export] Hint Resolve dec_of_Z_wf dmin_wf dmax_wf : wf.

Ltac new_fact r tac := lazymatch goal with _ : dwf r |- _ => fail | |- _ => assert (dwf r) by tac end.

(** Saturates the context with the well-formedness of every computed decimal. *)
Ltac wf_facts :=
  repeat match goal with
  | Hp : 1 <= ?p, H : dadd ?p ?a ?b = Ok ?r |- _ => new_fact r ltac:(exact (dadd_wf p a b r Hp H))
  | Hp : 1 <= ?p, H : dsub ?p ?a ?b = Ok ?r |- _ => new_fact r ltac:(exact (dsub_wf p a b r Hp H))
  | Hp : 1 <= ?p, H : dmul ?p ?a ?b = Ok ?r |- _ =>
      new_fact r ltac:(refine (dmul_wf p a b r Hp _ _ H); eauto 3 with wf)
  | Hp : 1 <= ?p, H : ddiv ?p ?a ?b = Ok ?r |- _ =>
      new_fact r ltac:(refine (ddiv_wf p a b r Hp _ _ H); eauto 3 with wf)
  | Hp : 1 <= ?p, H : dabs ?p ?a = Ok ?r |- _ =>
      new_fact r ltac:(refine (dabs_wf p a r Hp _ H); eauto 3 with wf)
  end.

(** ** What the operations raise *)

Lemma dfix_raise p d e : dfix p d = Raise e -> e = dec_overflow.
Proof. unfold dfix. repeat (case_match; try done); by intros [= <-]. Qed.
Lemma dadd_raise p a b e : dadd p a b = Raise e -> e = dec_overflow.
Proof. apply dfix_raise. Qed.
Lemma dsub_raise p a b e : dsub p a b = Raise e -> e = dec_overflow.
Proof. apply dfix_raise. Qed.
Lemma dmul_raise p a b e : dmul p a b = Raise e -> e = dec_overflow.
Proof. apply dfix_raise. Qed.
Lemma dabs_raise p a e : dabs p a = Raise e -> e = dec_overflow.
Proof. apply dfix_raise. Qed.
Lemma ddiv_raise p a b e : ddiv p a b = Raise e -> e = dec_overflow \/ e = dec_invalid \/ e = dec_divzero.
Proof.
  unfold ddiv. destruct (dcoef b =? 0); [case_match; intros [= <-]; auto|].
  destruct (dcoef a =? 0); [intros Hr; apply dfix_raise in Hr; auto|].
  case_match; intros Hr; apply dfix_raise in Hr; auto.
Qed.
Lemma dquantize_raise p e d x : dquantize_ceiling p e d = Raise x -> x = dec_overflow \/ x = dec_invalid.
Proof.
  unfold dquantize_ceiling. repeat (case_match; try (intros [= <-]; auto; fail)); intros Hr; apply dfix_raise in Hr; auto.
Qed.

(** ** Relative error *)

(** The decade of a positive number. *)
Lemma decade (x : Q) : (0 < x)%Q -> exists k, (p10 k <= x)%Q /\ (x < p10 (k + 1))%Q.
Proof.
  destruct x as [n d]. intros Hx. assert (Hn : 0 < n) by (unfold Qlt in Hx; simpl in Hx; lia).
  destruct (ndigits_spec n ltac:(lia)) as [_ Ha]. destruct (ndigits_spec (Zpos d) ltac:(lia)) as [_ Hb].
  set (a := ndigits n) in *. set (b := ndigits (Z.pos d)) in *. pose proof (ndigits_pos n). pose proof (ndigits_pos (Zpos d)).
  assert (E : (n # d == inject_Z n / inject_Z (Zpos d))%Q) by apply Qmake_Qdiv.
  assert (Hd : (0 < inject_Z (Zpos d))%Q) by reflexivity.
  assert (L : forall u v, 0 <= u -> 0 <= v -> (p10 (u - v) * p10 v == p10 u)%Q) by (intros; rewrite <- p10_add; by replace (u - v + v) with u by lia).
  assert (Lo : (p10 (a - 1 - b) <= n # d)%Q).
  { rewrite E. apply Qle_shift_div_l; [done|]. apply Qle_trans with (p10 (a - 1 - b) * p10 b)%Q.
    - apply Qmult_le_l; [apply p10_pos|]. rewrite p10_Z by lia. rewrite <- Zle_Qle. lia.
    - rewrite L by lia. rewrite p10_Z by lia. rewrite <- Zle_Qle. lia. }
  assert (Hi : (n # d < p10 (a - (b - 1)))%Q).
  { rewrite E. apply Qlt_shift_div_r; [done|]. apply Qlt_le_trans with (p10 (a - (b - 1)) * p10 (b - 1))%Q.
    - rewrite L by lia. rewrite p10_Z by lia. rewrite <- Zlt_Qlt. lia.
    - apply Qmult_le_l; [apply p10_pos|]. rewrite p10_Z by lia. rewrite <- Zle_Qle. lia. }
  destruct (Qlt_le_dec (n # d) (p10 (a - b))) as [H'|H'].
  - exists (a - 1 - b). replace (a - 1 - b + 1) with (a - b) by lia. done.
  - exists (a - b). replace (a - b + 1) with (a - (b - 1)) by lia. done.
Qed.

(** Every number above the subnormal ones has a representable number just above it. *)
Lemma round_up_close p (x : Q) :
  1 <= p -> (p10 Emin <= x)%Q -> exists y, representable p y /\ (x <= dval y)%Q /\ (dval y <= x * (1 + p10 (1 - p)))%Q.
Proof.
  intros Hp Hx. pose proof (p10_pos Emin). destruct (decade x ltac:(lra)) as (k & Hk & Hk').
  assert (Hke : Emin <= k).
  { destruct (Z.le_gt_cases Emin k); [done|]. exfalso. pose proof (p10_le (k + 1) Emin ltac:(lia)). lra. }
  set (e := k - p + 1). set (u := (x / p10 e)%Q). set (c := Qceiling u). pose proof (p10_pos e) as He.
  assert (Hu : (x == u * p10 e)%Q) by (unfold u; field; lra).
  assert (Hu1 : (inject_Z (10 ^ (p - 1)) <= u)%Q).
  { unfold u. apply Qle_shift_div_l; [done|]. rewrite <- p10_Z, <- p10_add by lia. unfold e. by replace (p - 1 + (k - p + 1)) with k by lia. }
  assert (Hu2 : (u <= inject_Z (10 ^ p))%Q).
  { unfold u. apply Qle_shift_div_r; [done|]. rewrite <- p10_Z, <- p10_add by lia. unfold e. replace (p + (k - p + 1)) with (k + 1) by lia. lra. }
  pose proof (Qle_ceiling u) as Hc1. pose proof (Qceiling_lt u) as Hc2. fold c in Hc1, Hc2.
  assert (Hc : c <= 10 ^ p). { pose proof (Qceiling_resp_le _ _ Hu2) as Hc'. by rewrite Qceiling_Z in Hc'. }
  assert (Hc0 : 10 ^ (p - 1) <= c) by (rewrite Zle_Qle; lra). pose proof (pow10_pos (p - 1) ltac:(lia)).
  assert (Hlow : (x <= inject_Z c * p10 e)%Q) by (rewrite Hu; apply Qmult_le_compat_r; lra).
  assert (Hup : (inject_Z c * p10 e <= x * (1 + p10 (1 - p)))%Q).
  { assert (inject_Z c <= u * (1 + p10 (1 - p)))%Q as Hcu.
    - assert (1 <= u * p10 (1 - p))%Q.
      { apply Qle_trans with (inject_Z (10 ^ (p - 1)) * p10 (1 - p))%Q.
        - rewrite <- p10_Z, <- p10_add by lia. replace (p - 1 + (1 - p)) with 0 by lia. done.
        - apply Qmult_le_compat_r; [done|]. apply Qlt_le_weak, p10_pos. }
      assert (inject_Z (c - 1) == inject_Z c - 1)%Q by (unfold Z.sub; by rewrite inject_Z_plus). lra.
    - rewrite Hu, <- Qmult_assoc, (Qmult_comm (p10 e)), Qmult_assoc. apply Qmult_le_compat_r; lra. }
  destruct (Z.eq_dec c (10 ^ p)) as [Ec|Ec].
  - exists (Dec false (10 ^ (p - 1)) (e + 1)). unfold dval, dsig, dneg, dcoef, dexp.
    assert (inject_Z (10 ^ (p - 1)) * p10 (e + 1) == inject_Z c * p10 e)%Q as ->.
    { rewrite Ec, <- !p10_Z, <- !p10_add by lia. by replace (p - 1 + (e + 1)) with (p + e) by lia. }
    split; [|exact (conj Hlow Hup)]. split; simpl; [|unfold Etiny, e; lia]. rewrite (pow10_pred p) by lia. lia.
  - exists (Dec false c e). unfold dval, dsig; simpl. split; [|exact (conj Hlow Hup)]. split; simpl; [lia|unfold Etiny, e; lia].
Qed.

(** A product and a quotient exceed a bound on the exact result by at most the
    relative error of the context. *)
Lemma dmul_close p a b r (B : Q) :
  1 <= p -> dwf a -> dwf b -> dmul p a b = Ok r -> (dval a * dval b <= B)%Q -> (p10 Emin <= B)%Q -> (dval r <= B * (1 + p10 (1 - p)))%Q.
Proof.
  intros Hp Ha Hb H HB Hm. destruct (round_up_close p B Hp Hm) as (y & Hy & H1 & H2).
  destruct (dmul_bound p Hp a b r y Ha Hb H Hy) as [Hu _]. pose proof (Hu ltac:(lra)). lra.
Qed.
Lemma ddiv_close p a b r (B : Q) :
  1 <= p -> dwf a -> dwf b -> ddiv p a b = Ok r -> (dval a / dval b <= B)%Q -> (p10 Emin <= B)%Q -> (dval r <= B * (1 + p10 (1 - p)))%Q.
Proof.
  intros Hp Ha Hb H HB Hm. destruct (round_up_close p B Hp Hm) as (y & Hy & H1 & H2).
  destruct (ddiv_bound p a b r y Hp Ha Hb H Hy) as [Hu _]. pose proof (Hu ltac:(lra)). lra.
Qed.
