(* ===== verification/PyText.v ===== *)
(** * Text: decimal literals, integer and float representations

    Python strings are Rocq strings whose characters are the code points up to
    U+00FF.  The file models [str(int)], [Decimal(str)], [str(Decimal)],
    [format(Decimal, 'f')] and [repr(float)] (the shortest decimal that rounds
    to the given binary64 number), and proves that [Decimal(str(d)) = d]. *)

From Stdlib Require Import Floats.SpecFloat Ascii.
From S2P Require Import Prelude PyDecimal.
From stdpp Require Import base tactics list strings.
From Stdlib Require Import ZArith Lia.

Open Scope Z_scope.

(** ** Characters *)

Definition chr (n : Z) : ascii := ascii_of_N (Z.to_N n).
Definition ord (c : ascii) : Z := Z.of_N (N_of_ascii c).

Definition is_digit (c : ascii) : bool := (48 <=? ord c) && (ord c <=? 57).
Definition digit_val (c : ascii) : Z := ord c - 48.
Definition digit_char (d : Z) : ascii := chr (48 + d).

(** [str.isspace] on code points below 256. *)
Definition is_space (c : ascii) : bool :=
  let n := ord c in
  ((9 <=? n) && (n <=? 13)) || ((28 <=? n) && (n <=? 32)) || (n =? 133) || (n =? 160).

Definition lower (c : ascii) : ascii :=
  if (65 <=? ord c) && (ord c <=? 90) then chr (ord c + 32) else c.

Fixpoint smap (f : ascii -> ascii) (s : string) : string :=
  match s with EmptyString => EmptyString | String c s => String (f c) (smap f s) end.
Fixpoint sfilter (f : ascii -> bool) (s : string) : string :=
  match s with
  | EmptyString => EmptyString
  | String c s => if f c then String c (sfilter f s) else sfilter f s
  end.
Fixpoint sforall (f : ascii -> bool) (s : string) : bool :=
  match s with EmptyString => true | String c s => f c && sforall f s end.
Fixpoint slen (s : string) : Z := match s with EmptyString => 0 | String _ s => 1 + slen s end.
Fixpoint srepeat (c : ascii) (n : nat) : string :=
  match n with O => EmptyString | S n => String c (srepeat c n) end.

(** The slices [s[:n]] and [s[n:]]. *)
Fixpoint stake (n : nat) (s : string) : string :=
  match n, s with S n, String c s => String c (stake n s) | _, _ => EmptyString end.
Fixpoint sdrop (n : nat) (s : string) : string :=
  match n, s with S n, String _ s => sdrop n s | _, _ => s end.

Fixpoint lstrip (s : string) : string :=
  match s with String c s' => if is_space c then lstrip s' else s | _ => s end.
Fixpoint rstrip (s : string) : string :=
  match s with
  | EmptyString => EmptyString
  | String c s =>
      match rstrip s with
      | EmptyString => if is_space c then EmptyString else String c EmptyString
      | t => String c t
      end
  end.

(** The longest prefix of characters satisfying [f], and the rest. *)
Fixpoint span (f : ascii -> bool) (s : string) : string * string :=
  match s with
  | EmptyString => (EmptyString, EmptyString)
  | String c s' => if f c then let r := span f s' in (String c (fst r), snd r) else (EmptyString, s)
  end.

(** ** Integers *)

Fixpoint digits_fuel (n : nat) (z : Z) (acc : string) : string :=
  match n with
  | O => acc
  | S n =>
      let acc := String (digit_char (z mod 10)) acc in
      if z <? 10 then acc else digits_fuel n (z / 10) acc
  end.

(** The decimal digits of [z >= 0]. *)
Definition digits (z : Z) : string := digits_fuel (S (Z.to_nat (Z.log2 z))) z EmptyString.

Definition str_int (z : Z) : string := if z <? 0 then "-" +:+ digits (- z) else digits z.

Fixpoint digits_value (s : string) (acc : Z) : Z :=
  match s with EmptyString => acc | String c s => digits_value s (acc * 10 + digit_val c) end.

(** ** Decimal literals *)

Inductive parsed := PFinite (d : decimal) | PSpecial | PInvalid.

Definition parse_sign (s : string) : bool * string :=
  match s with
  | String "-" s => (true, s)
  | String "+" s => (false, s)
  | _ => (false, s)
  end.

(** An optional exponent part, which must end the literal. *)
Definition parse_exponent (s : string) : option Z :=
  match s with
  | EmptyString => Some 0
  | String c s =>
      if bool_decide (lower c = "e"%char) then
        let sg := parse_sign s in
        if negb (bool_decide (snd sg = EmptyString)) && sforall is_digit (snd sg)
        then Some (if fst sg then - digits_value (snd sg) 0 else digits_value (snd sg) 0)
        else None
      else None
  end.

Definition parse_special (s : string) : bool :=
  let l := smap lower s in
  bool_decide (l = "inf") || bool_decide (l = "infinity") ||
  match l with
  | String "n" (String "a" (String "n" t)) | String "s" (String "n" (String "a" (String "n" t))) =>
      sforall is_digit t
  | _ => false
  end.

(** [Decimal(s)]: white space around the literal and underscores are ignored. *)
Definition parse_decimal (s : string) : parsed :=
  let s := sfilter (fun c => negb (bool_decide (c = "_"%char))) (rstrip (lstrip s)) in
  let sg := parse_sign s in
  if parse_special (snd sg) then PSpecial
  else
    let ip := span is_digit (snd sg) in
    let fp := match snd ip with
              | String "." t => span is_digit t
              | t => (EmptyString, t)
              end in
    let coef := fst ip +:+ fst fp in
    if bool_decide (coef = EmptyString) then PInvalid
    else match parse_exponent (snd fp) with
         | Some e => PFinite (Dec (fst sg) (digits_value coef 0) (e - slen (fst fp)))
         | None => PInvalid
         end.

(** [str(d)]: scientific notation when the exponent is positive or the number
    is below [1e-6]. *)
Definition str_decimal (d : decimal) : string :=
  let ds := digits (dcoef d) in
  let n := slen ds in
  let leftdigits := dexp d + n in
  let dotplace := if (dexp d <=? 0) && (-6 <? leftdigits) then leftdigits else 1 in
  let body :=
    if dotplace <=? 0 then "0." +:+ srepeat "0" (Z.to_nat (- dotplace)) +:+ ds
    else if n <=? dotplace then ds +:+ srepeat "0" (Z.to_nat (dotplace - n))
    else stake (Z.to_nat dotplace) ds +:+ "." +:+
         sdrop (Z.to_nat dotplace) ds in
  let e := leftdigits - dotplace in
  let exp := if e =? 0 then "" else "E" +:+ (if e <? 0 then "-" else "+") +:+ digits (Z.abs e) in
  (if dneg d then "-" else "") +:+ body +:+ exp.

(** [format(d, 'f')]: no exponent. *)
Definition format_f (d : decimal) : string :=
  let d := if 0 <? dexp d then Dec (dneg d) (dcoef d * 10 ^ dexp d) 0 else d in
  let ds := digits (dcoef d) in
  let n := slen ds in
  let dotplace := dexp d + n in
  (if dneg d then "-" else "") +:+
  (if dotplace <=? 0 then "0." +:+ srepeat "0" (Z.to_nat (- dotplace)) +:+ ds
   else if n <=? dotplace then ds
   else stake (Z.to_nat dotplace) ds +:+ "." +:+
        sdrop (Z.to_nat dotplace) ds).

(** ** Binary64 *)

(** The binary64 number nearest to [num / den]. *)
Definition float_of_ratio (num den : positive) : spec_float :=
  SFdiv 53 1024 (S754_finite false num 0) (S754_finite false den 0).

Definition float_of_dec (c q : Z) : spec_float :=
  match c with
  | Zpos c => if 0 <=? q then float_of_ratio (c * Z.to_pos (10 ^ q)) 1
              else float_of_ratio c (Z.to_pos (10 ^ (- q)))
  | _ => S754_zero false
  end.

Definition sf_eqb (a b : spec_float) : bool :=
  match a, b with
  | S754_finite s m e, S754_finite s' m' e' => Bool.eqb s s' && Pos.eqb m m' && (e =? e')
  | _, _ => false
  end.

Fixpoint strip_zeros (n : nat) (c q : Z) : Z * Z :=
  match n with
  | O => (c, q)
  | S n => if c mod 10 =? 0 then strip_zeros n (c / 10) (q + 1) else (c, q)
  end.

(** The search of [shortest_dec]: candidates of [n] digits, then of one more. *)
Fixpoint shortest_search (target : spec_float) (num den k : Z) (fuel : nat) (n : Z) : Z * Z :=
  let q := k - n in
  let num' := if 0 <=? q then num else num * 10 ^ (- q) in
  let den' := if 0 <=? q then den * 10 ^ q else den in
  let lo := num' / den' in
  let r := num' mod den' in
  let ok_lo := sf_eqb (float_of_dec lo q) target in
  let ok_hi := sf_eqb (float_of_dec (lo + 1) q) target in
  let lo_first := (2 * r <? den') || ((2 * r =? den') && Z.even lo) in
  match fuel with
  | O => (lo, q)
  | S fuel =>
      if ok_lo && (lo_first || negb ok_hi) then strip_zeros 20 lo q
      else if ok_hi then strip_zeros 20 (lo + 1) q
      else shortest_search target num den k fuel (n + 1)
  end.

(** The position of the leading digit of [num / den]. *)
Definition leading_exponent (num den : Z) : Z :=
  if den <=? num then ndigits (num / den)
  else let j := ndigits (den / num) in if den <=? num * 10 ^ (j - 1) then 2 - j else 1 - j.

(** The shortest decimal [c * 10^q] that reads back as [m * 2^e], searching from
    one digit up to the seventeen that always suffice; among the candidates of
    one length the one nearest to the number. *)
Definition shortest_dec (m : positive) (e : Z) : Z * Z :=
  let num := Zpos m * 2 ^ Z.max e 0 in
  let den := 2 ^ Z.max (- e) 0 in
  shortest_search (S754_finite false m e) num den (leading_exponent num den) 20 1.

(** [repr(x)] for a finite positive [x], as digits [c] and exponent [q]. *)
Definition repr_positive (c q : Z) : string :=
  let ds := digits c in
  let n := slen ds in
  let decpt := q + n in
  if (-4 <? decpt) && (decpt <=? 16) then
    if decpt <=? 0 then "0." +:+ srepeat "0" (Z.to_nat (- decpt)) +:+ ds
    else if n <=? decpt then ds +:+ srepeat "0" (Z.to_nat (decpt - n)) +:+ ".0"
    else stake (Z.to_nat decpt) ds +:+ "." +:+
         sdrop (Z.to_nat decpt) ds
  else
    let x := decpt - 1 in
    stake 1 ds +:+
    (if n =? 1 then "" else "." +:+ sdrop 1 ds) +:+
    "e" +:+ (if x <? 0 then "-" else "+") +:+
    (if Z.abs x <? 10 then "0" else "") +:+ digits (Z.abs x).

Definition repr_float (f : spec_float) : string :=
  match f with
  | S754_zero s => if s then "-0.0" else "0.0"
  | S754_infinity s => if s then "-inf" else "inf"
  | S754_nan => "nan"
  | S754_finite s m e =>
      let r := shortest_dec m e in
      (if s then "-" else "") +:+ repr_positive (fst r) (snd r)
  end.

Example repr_tenth : repr_float (S754_finite false 7205759403792794 (-56)) = "0.1".
Proof. vm_compute. reflexivity. Qed.
Example repr_big : repr_float (S754_finite false 5000000000000000 1) = "1e+16".
Proof. vm_compute. reflexivity. Qed.
Example repr_int : repr_float (S754_finite false 7036874417766400 (-46)) = "100.0".
Proof. vm_compute. reflexivity. Qed.
Example repr_min : repr_float (S754_finite false 1 (-1074)) = "5e-324".
Proof. vm_compute. reflexivity. Qed.
Example repr_pi : repr_float (S754_finite true 7074237752028440 (-51)) = "-3.141592653589793".
Proof. vm_compute. reflexivity. Qed.
Example str_dec1 : str_decimal (Dec true 12345 (-2)) = "-123.45".
Proof. reflexivity. Qed.
Example str_dec2 : str_decimal (Dec false 1 (-7)) = "1E-7".
Proof. reflexivity. Qed.
Example str_dec3 : str_decimal (Dec false 120 3) = "1.20E+5".
Proof. reflexivity. Qed.
Example parse_dec1 : parse_decimal " -1_2.50e-3 " = PFinite (Dec true 1250 (-5)).
Proof. reflexivity. Qed.
Example parse_dec2 : parse_decimal "1e" = PInvalid.
Proof. reflexivity. Qed.
Example format_f1 : format_f (Dec false 12 2) = "1200".
Proof. reflexivity. Qed.

(** ** Reading back printed decimals *)

Lemma append_cons c s t : String c s +:+ t = String c (s +:+ t).
Proof. done. Qed.
Lemma append_nil_l t : EmptyString +:+ t = t.
Proof. done. Qed.
Lemma append_nil_r s : s +:+ EmptyString = s.
Proof. induction s; [done|]. rewrite append_cons. by f_equal. Qed.
Lemma append_assoc a b c : (a +:+ b) +:+ c = a +:+ b +:+ c.
Proof. induction a; [done|]. rewrite !append_cons. by f_equal. Qed.

Lemma sforall_app f s t : sforall f (s +:+ t) = sforall f s && sforall f t.
Proof. induction s; [done|]. rewrite append_cons; simpl. by rewrite IHs, andb_assoc. Qed.
Lemma slen_app s t : slen (s +:+ t) = slen s + slen t.
Proof. induction s; [done|]. rewrite append_cons; simpl. lia. Qed.
Lemma slen_nonneg s : 0 <= slen s.
Proof. induction s; simpl; lia. Qed.
Lemma slen_repeat c n : slen (srepeat c n) = Z.of_nat n.
Proof. induction n; simpl; lia. Qed.
Lemma stake_sdrop n s : stake n s +:+ sdrop n s = s.
Proof. revert s; induction n; intros [|c s]; try done. simpl. rewrite append_cons. by f_equal. Qed.
Lemma slen_stake n s : Z.of_nat n <= slen s -> slen (stake n s) = Z.of_nat n.
Proof. revert s; induction n; intros [|c s] H; simpl in *; try lia. rewrite IHn; lia. Qed.
Lemma digits_value_app s t a : digits_value (s +:+ t) a = digits_value t (digits_value s a).
Proof. revert a; induction s; intros a'; [done|]. rewrite append_cons; simpl. auto. Qed.
Lemma digits_value_zeros n : digits_value (srepeat "0" n) 0 = 0.
Proof. induction n; simpl; auto. Qed.
Lemma sforall_zeros n : sforall is_digit (srepeat "0" n) = true.
Proof. induction n; simpl; auto. Qed.

Lemma digit_char_spec d : 0 <= d < 10 -> is_digit (digit_char d) = true /\ digit_val (digit_char d) = d.
Proof.
  intros H. assert (d = 0 \/ d = 1 \/ d = 2 \/ d = 3 \/ d = 4 \/ d = 5 \/ d = 6 \/ d = 7 \/ d = 8 \/ d = 9) by lia.
  naive_solver.
Qed.

Lemma digits_fuel_spec n z acc :
  0 <= z -> z < 10 ^ Z.of_nat n ->
  exists t, digits_fuel n z acc = t +:+ acc /\ sforall is_digit t = true /\
    (n <> O -> 0 < slen t) /\ forall a, digits_value t a = a * 10 ^ slen t + z.
Proof.
  revert z acc; induction n as [|n IH]; intros z acc Hz Hlt.
  - exists EmptyString. simpl in *. repeat split; try done; intros; lia.
  - cbn [digits_fuel]. destruct (digit_char_spec (z mod 10)) as [Hd Hv]; [by apply Z.mod_pos_bound|].
    destruct (Z.ltb_spec z 10).
    + exists (String (digit_char (z mod 10)) EmptyString). simpl. rewrite Hd.
      repeat split; try done; try lia. intros a. rewrite Hv, Z.mod_small by lia. change (10 ^ 1) with 10. lia.
    + destruct (IH (z / 10) (String (digit_char (z mod 10)) acc)) as (t & -> & Ht & _ & Hval).
      * apply Z.div_pos; lia.
      * apply Z.div_lt_upper_bound; [lia|].
        rewrite Nat2Z.inj_succ, Z.pow_succ_r in Hlt by lia. lia.
      * exists (t +:+ String (digit_char (z mod 10)) EmptyString).
        rewrite append_assoc, sforall_app, slen_app; simpl. rewrite Ht, Hd.
        pose proof (slen_nonneg t). repeat split; try done; try lia.
        intros a. rewrite digits_value_app, Hval; simpl. rewrite Hv.
        rewrite pow10_add by lia. change (10 ^ 1) with 10. pose proof (Z.div_mod z 10). lia.
Qed.

Lemma digits_spec z :
  0 <= z -> sforall is_digit (digits z) = true /\ 0 < slen (digits z) /\ digits_value (digits z) 0 = z.
Proof.
  intros Hz. destruct (digits_fuel_spec (S (Z.to_nat (Z.log2 z))) z EmptyString) as (t & E & H1 & H2 & H3); [done| |].
  - destruct (Z.eq_dec z 0) as [->|]; [done|]. pose proof (Z.log2_spec z ltac:(lia)) as [_ Hl].
    pose proof (Z.log2_nonneg z). rewrite Nat2Z.inj_succ, Z2Nat.id by done.
    eapply Z.lt_le_trans; [exact Hl|]. apply Z.pow_le_mono_l. lia.
  - unfold digits. rewrite E, append_nil_r. split; [done|]. split; [by apply H2|]. rewrite H3. lia.
Qed.

Lemma slen_digits z : 0 <= z -> slen (digits z) = ndigits z.
Proof.
  intros Hz. unfold digits, ndigits.
  assert (H : forall n z acc, 0 <= z < 10 ^ Z.of_nat (S n) ->
    slen (digits_fuel (S n) z acc) = ndigits_fuel (S n) z + slen acc).
  { clear. induction n as [|n IH]; intros z acc Hz.
    - cbn [digits_fuel ndigits_fuel]. change (10 ^ Z.of_nat 1) with 10 in Hz. rewrite (proj2 (Z.ltb_lt _ _)) by lia. simpl. lia.
    - remember (S n) as m. cbn [digits_fuel ndigits_fuel]. destruct (Z.ltb_spec z 10); [simpl; lia|]. subst m.
      rewrite IH; [cbn [slen]; lia|]. split; [apply Z.div_pos; lia|]. apply Z.div_lt_upper_bound; [lia|].
      rewrite (Nat2Z.inj_succ (S n)), Z.pow_succ_r in Hz by lia. lia. }
  rewrite H; [cbn [slen]; lia|]. split; [done|]. destruct (Z.eq_dec z 0) as [->|]; [done|].
  pose proof (Z.log2_spec z ltac:(lia)) as [_ Hl]. pose proof (Z.log2_nonneg z).
  rewrite Nat2Z.inj_succ, Z2Nat.id by done. eapply Z.lt_le_trans; [exact Hl|]. apply Z.pow_le_mono_l. lia.
Qed.

(** The first character is not a digit. *)
Definition no_digit_head (s : string) : bool :=
  match s with EmptyString => true | String c _ => negb (is_digit c) end.

Lemma span_digits t rest :
  sforall is_digit t = true -> no_digit_head rest = true -> span is_digit (t +:+ rest) = (t, rest).
Proof.
  intros Ht Hr. induction t as [|c t IH].
  - rewrite append_nil_l. destruct rest; [done|]. simpl in *. apply negb_true_iff in Hr. by rewrite Hr.
  - simpl in Ht. apply andb_prop in Ht as [H1 H2]. rewrite append_cons. simpl. rewrite H1, IH by done. done.
Qed.

(** Characters that neither white-space stripping nor underscore removal touches. *)
Definition plain (c : ascii) : bool := negb (is_space c) && negb (bool_decide (c = "_"%char)).

Lemma plain_strip s : sforall plain s = true -> rstrip (lstrip s) = s.
Proof.
  intros H. assert (lstrip s = s) as ->.
  { destruct s; simpl in *; [done|]. unfold plain in H. split_bools. by rewrite H. }
  induction s as [|c s IH]; simpl in *; [done|]. apply andb_prop in H as [Hc Hs].
  rewrite IH by done. unfold plain in Hc. split_bools. rewrite H. by destruct s.
Qed.

Lemma plain_clean s :
  sforall plain s = true ->
  sfilter (fun c => negb (bool_decide (c = "_"%char))) (rstrip (lstrip s)) = s.
Proof.
  intros H. rewrite plain_strip by done. induction s as [|c s IH]; simpl in *; [done|]. apply andb_prop in H as [Hc Hs].
  unfold plain in Hc. split_bools. rewrite H0. simpl. by rewrite IH.
Qed.

Lemma digit_cases (P : ascii -> Prop) :
  Forall P ["0"; "1"; "2"; "3"; "4"; "5"; "6"; "7"; "8"; "9"]%char ->
  forall c, is_digit c = true -> P c.
Proof.
  rewrite !Forall_cons. intros H [[][][][][][][][]]; vm_compute; try done; intros _; naive_solver.
Qed.

Lemma is_digit_plain c : is_digit c = true -> plain c = true.
Proof. revert c. apply digit_cases. by repeat constructor. Qed.

Lemma sforall_impl f g s : (forall c, f c = true -> g c = true) -> sforall f s = true -> sforall g s = true.
Proof. intros Hi. induction s; simpl; [done|]. intros [? ?]%andb_prop. rewrite Hi by done. auto. Qed.

Lemma digit_not_special c s : is_digit c = true -> parse_special (String c s) = false.
Proof. revert c. apply digit_cases. by repeat constructor. Qed.

Lemma digit_no_sign c s : is_digit c = true -> parse_sign (String c s) = (false, String c s).
Proof. revert c. apply digit_cases. by repeat constructor. Qed.

(** The parts of a printed number: integer digits, fraction digits, exponent. *)
Definition num_text (ip fp : string) (e : Z) : string :=
  ip +:+ (if bool_decide (fp = EmptyString) then "" else "." +:+ fp) +:+
  (if e =? 0 then "" else "E" +:+ (if e <? 0 then "-" else "+") +:+ digits (Z.abs e)).

Definition exp_text (e : Z) : string :=
  if e =? 0 then "" else "E" +:+ (if e <? 0 then "-" else "+") +:+ digits (Z.abs e).

Lemma parse_exp_text e : parse_exponent (exp_text e) = Some e.
Proof.
  unfold exp_text. destruct (Z.eqb_spec e 0) as [->|He]; [done|].
  destruct (digits_spec (Z.abs e) ltac:(lia)) as (H1 & H2 & H3).
  rewrite append_cons. unfold parse_exponent.
  set (d := digits (Z.abs e)) in *. rewrite append_nil_l.
  change (bool_decide (lower "E" = "e"%char)) with true. cbv iota.
  assert (Hd : bool_decide (d = EmptyString) = false).
  { apply bool_decide_false. intros E. rewrite E in H2. simpl in H2. lia. }
  destruct (Z.ltb_spec e 0); rewrite append_cons, append_nil_l; simpl;
    rewrite Hd, H1, H3; simpl; f_equal; lia.
Qed.

Lemma exp_text_no_digit e : no_digit_head (exp_text e) = true.
Proof. unfold exp_text. destruct (e =? 0); done. Qed.

Lemma exp_text_plain e : sforall plain (exp_text e) = true.
Proof.
  unfold exp_text. destruct (e =? 0); [done|]. rewrite !append_cons, append_nil_l. simpl.
  destruct (digits_spec (Z.abs e) ltac:(lia)) as (H1 & _).
  apply (sforall_impl _ _ _ is_digit_plain) in H1.
  destruct (e <? 0); rewrite append_cons, append_nil_l; simpl; by rewrite H1.
Qed.

Lemma parse_num_text (neg : bool) ip fp e :
  sforall is_digit ip = true -> sforall is_digit fp = true -> 0 < slen ip ->
  parse_decimal ((if neg then "-" else "") +:+ num_text ip fp e) =
  PFinite (Dec neg (digits_value (ip +:+ fp) 0) (e - slen fp)).
Proof.
  intros Hip Hfp Hl. set (body := num_text ip fp e).
  assert (Hpl : sforall plain body = true).
  { unfold body, num_text. fold (exp_text e). rewrite !sforall_app, exp_text_plain.
    rewrite (sforall_impl _ _ _ is_digit_plain Hip), andb_true_r. case_bool_decide; [done|].
    rewrite append_cons, append_nil_l. simpl. exact (sforall_impl _ _ _ is_digit_plain Hfp). }
  destruct ip as [|c ip]; [simpl in Hl; lia|].
  assert (Hc : is_digit c = true) by (simpl in Hip; apply andb_prop in Hip; tauto).
  unfold parse_decimal. rewrite plain_clean by (destruct neg; exact Hpl).
  assert (Hsg : parse_sign ((if neg then "-" else "") +:+ body) = (neg, body)).
  { destruct neg; [done|]. rewrite append_nil_l. unfold body, num_text. rewrite append_cons. by apply digit_no_sign. }
  rewrite Hsg; cbn [fst snd].
  assert (parse_special body = false) as -> by (unfold body, num_text; rewrite append_cons; by apply digit_not_special).
  clear Hsg Hpl. subst body. unfold num_text. fold (exp_text e).
  rewrite span_digits; [|done|case_bool_decide; [apply exp_text_no_digit|done]].
  cbn [fst snd]. destruct (decide (fp = EmptyString)) as [Hf|Hf].
  - subst fp. rewrite (bool_decide_true (EmptyString = EmptyString)) by done. rewrite append_nil_l.
    assert (match exp_text e with String "." t => span is_digit t | t => (EmptyString, t) end
            = (EmptyString, exp_text e)) as -> by (unfold exp_text; by destruct (e =? 0)).
    cbn [fst snd]. rewrite append_nil_r, parse_exp_text. simpl. done.
  - rewrite (bool_decide_false (fp = EmptyString)) by done. rewrite !append_cons, ?append_nil_l.
    rewrite span_digits by (done || apply exp_text_no_digit). cbn [fst snd].
    rewrite parse_exp_text. rewrite bool_decide_false by done. done.
Qed.

(** [Decimal(str(d)) == d], exactly: sign, coefficient and exponent. *)
Lemma parse_str_decimal d : dwf d -> parse_decimal (str_decimal d) = PFinite d.
Proof.
  intros Hw. unfold dwf in Hw. destruct (digits_spec (dcoef d) Hw) as (D1 & D2 & D3).
  unfold str_decimal. set (ds := digits (dcoef d)) in *. set (n := slen ds) in *. cbv zeta.
  set (left := dexp d + n). set (dot := if (dexp d <=? 0) && (-6 <? left) then left else 1).
  assert (Hdot : (dot = left /\ dexp d <= 0) \/ dot = 1).
  { unfold dot. destruct ((dexp d <=? 0) && (-6 <? left)) eqn:E; split_bools; auto. }
  enough (exists ip fp, sforall is_digit ip = true /\ sforall is_digit fp = true /\ 0 < slen ip /\
     digits_value (ip +:+ fp) 0 = dcoef d /\ left - dot - slen fp = dexp d /\
     (if dot <=? 0 then "0." +:+ srepeat "0" (Z.to_nat (- dot)) +:+ ds
      else if n <=? dot then ds +:+ srepeat "0" (Z.to_nat (dot - n))
      else stake (Z.to_nat dot) ds +:+ "." +:+ sdrop (Z.to_nat dot) ds)
     = ip +:+ (if bool_decide (fp = EmptyString) then "" else "." +:+ fp))
    as (ip & fp & H1 & H2 & H3 & H4 & H5 & ->).
  { rewrite append_assoc. pose proof (parse_num_text (dneg d) ip fp (left - dot) H1 H2 H3) as HP.
    unfold num_text in HP. rewrite HP, H4, H5. by destruct d. }
  destruct (Z.leb_spec dot 0) as [Hle|Hgt]; [|destruct (Z.leb_spec n dot) as [Hn|Hn]].
  - exists "0", (srepeat "0" (Z.to_nat (- dot)) +:+ ds).
    rewrite sforall_app, sforall_zeros, slen_app, slen_repeat, append_cons, append_nil_l.
    split; [done|]. split; [by rewrite D1|]. split; [done|]. split; [|split].
    + cbn [digits_value]. change (0 * 10 + digit_val "0") with 0. by rewrite digits_value_app, digits_value_zeros.
    + fold n. lia.
    + rewrite bool_decide_false; [done|].
      intros E%(f_equal slen). rewrite slen_app, slen_repeat in E. simpl in E. fold n in E. lia.
  - exists ds, EmptyString. assert (Z.to_nat (dot - n) = O) as -> by lia. simpl srepeat.
    rewrite append_nil_r. repeat split; try done; [simpl; lia|]. simpl. by rewrite append_nil_r.
  - exists (stake (Z.to_nat dot) ds), (sdrop (Z.to_nat dot) ds).
    pose proof (stake_sdrop (Z.to_nat dot) ds) as Hsd.
    pose proof (slen_stake (Z.to_nat dot) ds ltac:(lia)) as Hst.
    rewrite Hsd. pose proof D1 as D1'. rewrite <- Hsd, sforall_app in D1'. apply andb_prop in D1' as [T1 T2].
    assert (Hlen : slen (sdrop (Z.to_nat dot) ds) = n - dot).
    { pose proof (f_equal slen Hsd) as E. rewrite slen_app, Hst in E. fold n in E. lia. }
    repeat split; try done; try lia. rewrite bool_decide_false; [done|].
    intros E%(f_equal slen). simpl in E. lia.
Qed.
