(* ===== verification/PyValue.v ===== *)
(** * Python values

    The modelled modules consume decoded JSON documents, so their inputs are
    dynamically typed: [value] is the type of decoded JSON together with
    [decimal.Decimal].  Dictionaries are insertion-ordered association lists with
    string keys.  The file models the operations the code applies to such values:
    [dict.get], subscripts, [==] with its numeric tower, [<], truth values,
    [isinstance] tests, and canonical JSON text. *)

From Stdlib Require Import Floats.SpecFloat QArith Qpower Ascii.
From S2P Require Import Prelude PyDecimal PyText.
From stdpp Require Import base tactics list strings.
From Stdlib Require Import ZArith Lia.

Open Scope Z_scope.

Inductive value :=
| VNone
| VBool (b : bool)
| VInt (z : Z)
| VFloat (f : spec_float)
| VDec (d : decimal)
| VStr (s : string)
| VList (l : list value)
| VDict (d : list (string * value)).

Definition dict := list (string * value).

(** ** Interpreter exceptions *)

Definition type_error : exn := Exn TypeError "TypeError".
Definition attribute_error : exn := Exn AttributeError "AttributeError".
Definition index_error : exn := Exn IndexError "IndexError".
(** [str(KeyError(k))] is the representation of the key. *)
Definition key_error (k : string) : exn := Exn KeyError ("'" +:+ k +:+ "'").

(** ** Access *)

(** [d.get(k, dflt)] and [d.get(k)]. *)
Definition getd (dflt : value) (d : dict) (k : string) : value := dget_or dflt k d.
Definition get (d : dict) (k : string) : value := getd VNone d k.

(** [d[k]] on a dictionary. *)
Definition item (d : dict) (k : string) : res value :=
  match dget k d with Some v => Ok v | None => Raise (key_error k) end.

(** A value used as a dictionary: [v.get(...)] on anything else is an
    AttributeError, [v[k]] on anything else a TypeError. *)
Definition as_dict (v : value) : res dict :=
  match v with VDict d => Ok d | _ => Raise attribute_error end.
Definition subscript (v : value) (k : string) : res value :=
  match v with VDict d => item d k | _ => Raise type_error end.

(** Iteration over a list value. *)
Definition as_list (v : value) : res (list value) :=
  match v with VList l => Ok l | _ => Raise type_error end.

(** ** Truth, types *)

Definition truthy (v : value) : bool :=
  match v with
  | VNone => false
  | VBool b => b
  | VInt z => negb (z =? 0)
  | VFloat (S754_zero _) => false
  | VFloat _ => true
  | VDec d => dnonzero d
  | VStr s => negb (bool_decide (s = EmptyString))
  | VList l => match l with [] => false | _ => true end
  | VDict d => match d with [] => false | _ => true end
  end.

Definition is_str (v : value) : bool := match v with VStr _ => true | _ => false end.
(** [type(v) is int]: booleans are excluded. *)
Definition is_int (v : value) : bool := match v with VInt _ => true | _ => false end.
Definition is_dict (v : value) : bool := match v with VDict _ => true | _ => false end.
Definition is_list (v : value) : bool := match v with VList _ => true | _ => false end.
Definition is_none (v : value) : bool := match v with VNone => true | _ => false end.
(** [v is True] and [v is False]. *)
Definition is_true (v : value) : bool := match v with VBool b => b | _ => false end.
Definition is_false (v : value) : bool := match v with VBool b => negb b | _ => false end.
(** [isinstance(v, str) and v] *)
Definition nonempty_str (v : value) : bool :=
  match v with VStr s => negb (bool_decide (s = EmptyString)) | _ => false end.

(** [type(v) is int and v > 0] *)
Definition pos_int (v : value) : bool := match v with VInt z => 0 <? z | _ => false end.

(** ** Equality and order *)

Inductive num := NFin (q : Q) | NInf (neg : bool) | NNan.

Definition float_num (f : spec_float) : num :=
  match f with
  | S754_zero _ => NFin 0
  | S754_infinity s => NInf s
  | S754_nan => NNan
  | S754_finite s m e => NFin (inject_Z (if s then Zneg m else Zpos m) * Qpower 2 e)
  end.

(** Numbers of all types compare by value; booleans are the integers 0 and 1. *)
Definition num_of (v : value) : option num :=
  match v with
  | VBool b => Some (NFin (if b then 1 else 0))
  | VInt z => Some (NFin (inject_Z z))
  | VFloat f => Some (float_num f)
  | VDec d => Some (NFin (dval d))
  | _ => None
  end.

Definition num_eqb (a b : num) : bool :=
  match a, b with
  | NFin x, NFin y => Qeq_bool x y
  | NInf s, NInf t => Bool.eqb s t
  | _, _ => false
  end.

Definition num_ltb (a b : num) : bool :=
  match a, b with
  | NFin x, NFin y => negb (Qle_bool y x)
  | NInf true, NFin _ | NFin _, NInf false | NInf true, NInf false => true
  | _, _ => false
  end.

Definition num_leb (a b : num) : bool := num_ltb a b || num_eqb a b.

Fixpoint py_eq (a b : value) {struct a} : bool :=
  match a, b with
  | VNone, VNone => true
  | VInt x, VInt y => x =? y
  | VStr s, VStr t => bool_decide (s = t)
  | VList l, VList l' =>
      (fix go (l l' : list value) : bool :=
         match l, l' with
         | [], [] => true
         | x :: l, y :: l' => py_eq x y && go l l'
         | _, _ => false
         end) l l'
  | VDict d, VDict d' =>
      (Nat.eqb (length d) (length d')) &&
      (fix go (d : list (string * value)) : bool :=
         match d with
         | [] => true
         | (k, x) :: d => match dget k d' with Some y => py_eq x y && go d | None => false end
         end) d
  | _, _ =>
      match num_of a, num_of b with
      | Some x, Some y => num_eqb x y
      | _, _ => false
      end
  end.

(** [v in (x, y, ...)] *)
Definition py_in (v : value) (l : list value) : bool := existsb (py_eq v) l.

(** [v == "s"] and [v in ("s", ...)]. *)
Definition eq_str (v : value) (s : string) : bool :=
  match v with VStr t => bool_decide (t = s) | _ => false end.
Definition in_strs (v : value) (l : list string) : bool := existsb (eq_str v) l.
(** [v == n] for an integer literal. *)
Definition eq_int (v : value) (n : Z) : bool := py_eq v (VInt n).
(** [v in (None, "")] *)
Definition absent (v : value) : bool := is_none v || eq_str v "".
(** [v in (None, "", x)] *)
Definition absent_or (v x : value) : bool := absent v || py_eq v x.

Definition py_cmp (f : num -> num -> bool) (g : string -> string -> bool) (a b : value) : res bool :=
  match num_of a, num_of b with
  | Some x, Some y => Ok (f x y)
  | _, _ => match a, b with VStr s, VStr t => Ok (g s t) | _, _ => Raise type_error end
  end.
Definition py_lt : value -> value -> res bool := py_cmp num_ltb String.ltb.
Definition py_le : value -> value -> res bool := py_cmp num_leb String.leb.

(** Values usable as dictionary keys or set members. *)
Definition hashable (v : value) : bool := match v with VList _ | VDict _ => false | _ => true end.

(** [d.get(v)] for a dictionary with string keys and an arbitrary [v]. *)
Definition lookup_str {A} (v : value) (d : list (string * A)) : res (option A) :=
  match v with
  | VStr s => Ok (dget s d)
  | _ => if hashable v then Ok None else Raise type_error
  end.

(** Integer fields of validated records. *)
Definition as_int (v : value) : res Z := match v with VInt z => Ok z | _ => Raise type_error end.
Definition as_str (v : value) : res string := match v with VStr s => Ok s | _ => Raise type_error end.

(** Coefficients are nonnegative. *)
Definition dnorm (d : decimal) : decimal := Dec (dneg d) (Z.abs (dcoef d)) (dexp d).

(** ** Conversion to decimal: [Decimal(str(v))] for the numeric types and text *)

(** A literal is converted exactly, within the widest exponents of the decimal
    library; one outside of them is refused as invalid. *)
Definition literal_ok (d : decimal) : bool :=
  (dexp d + ndigits (dcoef d) - 1 <=? 999999999999999999) && (-1999999999999999997 <=? dexp d).
Definition parse_literal (s : string) : parsed :=
  match parse_decimal s with PFinite d => if literal_ok d then PFinite d else PInvalid | x => x end.

Definition to_parsed (v : value) : parsed :=
  match v with
  | VInt z => PFinite (dec_of_Z z)
  | VFloat f => parse_literal (repr_float f)
  | VStr s => parse_literal s
  | VDec d => PFinite (dnorm d)
  | _ => PInvalid
  end.

(** [str(int)] refuses more than 4300 digits with a ValueError. *)
Definition int_text_ok (v : value) : bool :=
  match v with VInt z => ndigits (Z.abs z) <=? 4300 | _ => true end.
Definition value_error : exn := Exn ValueError "ValueError".

(** [isinstance(v, (int, float, str, Decimal)) and not isinstance(v, bool)] *)
Definition is_numeric_input (v : value) : bool :=
  match v with VInt _ | VFloat _ | VStr _ | VDec _ => true | _ => false end.

(** ** Canonical JSON: [json.dumps(v, sort_keys=True, separators=(",", ":"), allow_nan=False)] *)

Definition hex_digit (n : Z) : ascii := if n <? 10 then chr (48 + n) else chr (87 + n).
Definition hex_byte (n : Z) : string :=
  String (hex_digit (n / 16)) (String (hex_digit (n mod 16)) EmptyString).

Definition json_char (c : ascii) : string :=
  let n := ord c in
  if n =? 34 then String "\" (String c EmptyString)
  else if n =? 92 then "\\"
  else if n =? 10 then "\n"
  else if n =? 13 then "\r"
  else if n =? 9 then "\t"
  else if n =? 8 then "\b"
  else if n =? 12 then "\f"
  else if (n <? 32) || (126 <? n) then "\u00" +:+ hex_byte n
  else String c EmptyString.

Fixpoint json_chars (s : string) : string :=
  match s with EmptyString => EmptyString | String c s => json_char c +:+ json_chars s end.

Definition quote : string := String (chr 34) EmptyString.
Definition json_string (s : string) : string := quote +:+ json_chars s +:+ quote.

Fixpoint join (sep : string) (l : list string) : string :=
  match l with
  | [] => ""
  | [x] => x
  | x :: l => x +:+ sep +:+ join sep l
  end.

Definition key_leb {A} (a b : string * A) : bool := str_leb (fst a) (fst b).

(** ** [repr] and [str] *)

Fixpoint shas (c : ascii) (s : string) : bool :=
  match s with EmptyString => false | String x s => bool_decide (x = c) || shas c s end.

(** A character inside a [repr] delimited by [q]. *)
Definition repr_char (q : ascii) (c : ascii) : string :=
  let n := ord c in
  if bool_decide (c = q) then String "\" (String c EmptyString)
  else if n =? 92 then "\\"
  else if n =? 10 then "\n"
  else if n =? 13 then "\r"
  else if n =? 9 then "\t"
  else if (n <? 32) || ((127 <=? n) && (n <=? 160)) || (n =? 173) then "\x" +:+ hex_byte n
  else String c EmptyString.

Definition repr_str (s : string) : string :=
  let q := if shas (chr 39) s && negb (shas (chr 34) s) then chr 34 else chr 39 in
  String q ((fix go (s : string) : string :=
    match s with EmptyString => EmptyString | String c s => repr_char q c +:+ go s end) s) +:+ String q EmptyString.

Fixpoint repr (v : value) : string :=
  match v with
  | VNone => "None"
  | VBool b => if b then "True" else "False"
  | VInt z => str_int z
  | VFloat f => repr_float f
  | VDec d => "Decimal('" +:+ str_decimal d +:+ "')"
  | VStr s => repr_str s
  | VList l =>
      "[" +:+ join ", " ((fix go (l : list value) : list string :=
                            match l with [] => [] | x :: l => repr x :: go l end) l) +:+ "]"
  | VDict d =>
      "{" +:+ join ", " ((fix go (d : list (string * value)) : list string :=
                            match d with [] => [] | (k, x) :: d => (repr_str k +:+ ": " +:+ repr x) :: go d end) d) +:+ "}"
  end.

(** [str(v)] *)
Definition py_str (v : value) : string :=
  match v with VStr s => s | VDec d => str_decimal d | _ => repr v end.

Fixpoint json_dumps (v : value) : res string :=
  match v with
  | VNone => Ok "null"
  | VBool b => Ok (if b then "true" else "false")
  | VInt z => if int_text_ok (VInt z) then Ok (str_int z) else Raise value_error
  | VFloat f =>
      match f with
      | S754_infinity _ | S754_nan => Raise (Exn ValueError "Out of range float values are not JSON compliant")
      | _ => Ok (repr_float f)
      end
  | VDec _ => Raise type_error
  | VStr s => Ok (json_string s)
  | VList l =>
      let! xs := (fix go (l : list value) : res (list string) :=
                    match l with
                    | [] => Ok []
                    | x :: l => let! s := json_dumps x in let! t := go l in Ok (s :: t)
                    end) l in
      Ok ("[" +:+ join "," xs +:+ "]")
  | VDict d =>
      let! xs := (fix go (d : list (string * value)) : res (list (string * string)) :=
                    match d with
                    | [] => Ok []
                    | (k, x) :: d => let! s := json_dumps x in let! t := go d in Ok ((k, s) :: t)
                    end) d in
      Ok ("{" +:+ join "," (map (fun kv => json_string (fst kv) +:+ ":" +:+ snd kv)
                              (sorted_by key_leb xs)) +:+ "}")
  end.

Example json_ex :
  json_dumps (VDict [("b", VList [VInt 1; VNone]); ("a", VBool true)]) =
  Ok (smap (fun c => if bool_decide (c = "'"%char) then chr 34 else c) "{'a':true,'b':[1,null]}").
Proof. reflexivity. Qed.

(** ** Facts *)

Lemma py_eq_str v s : py_eq v (VStr s) = eq_str v s.
Proof. destruct v; try done. Qed.

Lemma eq_str_true v s : eq_str v s = true <-> v = VStr s.
Proof. destruct v; simpl; try (split; [done|congruence]). rewrite bool_decide_eq_true. naive_solver. Qed.

Lemma eq_str_refl s : eq_str (VStr s) s = true.
Proof. by apply eq_str_true. Qed.

Lemma in_strs_true v l : in_strs v l = true <-> exists s, v = VStr s /\ In s l.
Proof.
  unfold in_strs. rewrite existsb_exists. split.
  - intros (s & Hin & E). apply eq_str_true in E. eauto.
  - intros (s & -> & Hin). exists s. split; [done|apply eq_str_refl].
Qed.

Lemma pos_int_true v : pos_int v = true <-> exists z, v = VInt z /\ 0 < z.
Proof.
  destruct v; simpl; try (split; [done|intros (? & ? & ?); congruence]).
  rewrite Z.ltb_lt. split; [eauto|]. intros (? & [= ->] & ?). done.
Qed.

Lemma nonempty_str_true v : nonempty_str v = true <-> exists s, v = VStr s /\ s <> EmptyString.
Proof.
  destruct v; simpl; try (split; [done|intros (? & ? & ?); congruence]).
  rewrite negb_true_iff, bool_decide_eq_false. split; [eauto|]. intros (? & [= ->] & ?). done.
Qed.

Lemma absent_cases v : absent v = true -> v = VNone \/ v = VStr "".
Proof.
  unfold absent. intros [H|H]%orb_true_iff; [destruct v; naive_solver|]. right. by apply eq_str_true.
Qed.

(** Integers compare as integers. *)
Lemma py_lt_int x y : py_lt (VInt x) (VInt y) = Ok (x <? y).
Proof.
  unfold py_lt, py_cmp; simpl. f_equal. unfold Qle_bool; simpl.
  rewrite !Z.mul_1_r, <- Z.ltb_antisym. done.
Qed.

Lemma py_le_int x y : py_le (VInt x) (VInt y) = Ok (x <=? y).
Proof.
  unfold py_le, py_cmp; simpl. f_equal. unfold num_leb, num_ltb, num_eqb, Qle_bool, Qeq_bool; simpl.
  rewrite !Z.mul_1_r, <- Z.ltb_antisym. lia.
Qed.

#[export] Hint Rewrite py_lt_int py_le_int : pyval.

Lemma dnorm_id d : dwf d -> dnorm d = d.
Proof. unfold dwf, dnorm. destruct d; simpl; intros. f_equal. lia. Qed.

Lemma digits_value_nonneg s a : 0 <= a -> sforall is_digit s = true -> 0 <= digits_value s a.
Proof.
  revert a; induction s as [|c s IH]; intros a Ha Hd; simpl in *; [done|]. split_bools. apply IH; [|done].
  unfold is_digit, digit_val in *. split_bools. lia.
Qed.

Lemma span_forall f s : sforall f (span f s).1 = true.
Proof. induction s as [|c s IH]; simpl; [done|]. destruct (f c) eqn:E; simpl; [by rewrite E|done]. Qed.

Lemma parse_decimal_wf s d : parse_decimal s = PFinite d -> dwf d.
Proof.
  unfold parse_decimal. set (t := sfilter _ _). set (ip := span is_digit (parse_sign t).2).
  set (fp := match ip.2 with String "." t => span is_digit t | t => (EmptyString, t) end).
  assert (Hf : sforall is_digit fp.1 = true).
  { unfold fp. repeat case_match; try done; apply span_forall. }
  clearbody fp. destruct (parse_special _); [done|]. case_bool_decide; [done|].
  destruct (parse_exponent _); [|done]. intros [= <-]. unfold dwf; simpl.
  apply digits_value_nonneg; [done|]. rewrite sforall_app, Hf. unfold ip. by rewrite span_forall.
Qed.

Lemma parse_literal_wf s d : parse_literal s = PFinite d -> dwf d.
Proof.
  unfold parse_literal. destruct (parse_decimal s) as [x| |] eqn:E; try done. case_match; [|done]. intros [= <-].
  by eapply parse_decimal_wf.
Qed.

(** Every decimal a conversion produces is well formed. *)
Lemma to_parsed_wf v d : to_parsed v = PFinite d -> dwf d.
Proof.
  destruct v; simpl; try done; try apply parse_literal_wf; intros [= <-]; unfold dwf; simpl; lia.
Qed.

Lemma is_true_eq v : is_true v = true -> v = VBool true.
Proof. by destruct v as [|[]| | | | | |]. Qed.
Lemma is_false_eq v : is_false v = true -> v = VBool false.
Proof. by destruct v as [|[]| | | | | |]. Qed.
