(* ===== verification/RowMonad.v ===== *)
(** * Programs over a result dictionary

    A [try] block that fills a result dictionary is a program in a
    state-and-exception monad: what was already written survives the exception
    that stops the block.  The file holds the operations, the inversion of
    successful and failing runs, and the frame lemmas (which keys a block leaves
    alone). *)

From S2P Require Import Prelude PyValue.
From stdpp Require Import base tactics list strings.

Definition prog (A : Type) : Type := dict -> dict * res A.

Definition pret {A} (a : A) : prog A := fun r => (r, Ok a).
Definition pbind {A B} (m : prog A) (k : A -> prog B) : prog B :=
  fun r => match m r with (r', Ok a) => k a r' | (r', Raise e) => (r', Raise e) end.
Definition plift {A} (m : res A) : prog A := fun r => (r, m).
(** [result[k] = v] *)
Definition pput (k : string) (v : value) : prog unit := fun r => (dset k v r, Ok tt).
(** [result[key].append(code)] for a list of strings *)
Definition append_at (key code : string) (r : dict) : dict :=
  match get r key with
  | VList l => dset key (VList (l ++ [VStr code])) r
  | _ => r
  end.
Definition prefuse (c : bool) (e : exn) : prog unit := fun r => (r, if c then Raise e else Ok tt).
(** [result.update(...)] *)
Definition update_all (kvs : list (string * value)) (r : dict) : dict :=
  foldl (fun r kv => dset kv.1 kv.2 r) r kvs.
Definition pupdate (kvs : list (string * value)) : prog unit := fun r => (update_all kvs r, Ok tt).

Notation "'do' x '<-' m ';' k" := (pbind m (fun x => k))
  (at level 10, x pattern, m at level 100, k at level 200,
   format "'[v' 'do'  x  '<-'  m ';'  '/' k ']'") : py_scope.
Notation "'run' m ';' k" := (pbind m (fun _ => k))
  (at level 10, m at level 100, k at level 200, format "'[v' 'run'  m ';'  '/' k ']'") : py_scope.

(** ** Running a body that writes the row *)

Lemma pbind_run {A B} (m : prog A) (k : A -> prog B) r r' o :
  pbind m k r = (r', o) ->
  (exists e, m r = (r', Raise e) /\ o = Raise e) \/ (exists r1 a, m r = (r1, Ok a) /\ k a r1 = (r', o)).
Proof. unfold pbind. destruct (m r) as [r1 [a|e]]; intros H; [by eauto 10|]. simplify_eq. eauto. Qed.

(** The keys a body leaves alone. *)
Definition keeps {A} (keys : list string) (m : prog A) : Prop :=
  forall r k, In k keys -> get (fst (m r)) k = get r k.

Lemma get_dset_ne k k' v r : k <> k' -> get (dset k' v r) k = get r k.
Proof. intros H. unfold get, getd, dget_or. by rewrite dget_dset_ne. Qed.
Lemma get_dset_eq k v r : get (dset k v r) k = v.
Proof. unfold get, getd, dget_or. by rewrite dget_dset_eq. Qed.

Lemma keeps_pret {A} keys (a : A) : keeps keys (pret a).
Proof. done. Qed.
Lemma keeps_plift {A} keys (m : res A) : keeps keys (plift m).
Proof. done. Qed.
Lemma keeps_prefuse keys c e : keeps keys (prefuse c e).
Proof. done. Qed.
Lemma keeps_pput keys k v : ~ In k keys -> keeps keys (pput k v).
Proof. intros H r k' Hin. apply get_dset_ne. congruence. Qed.

Lemma append_at_other key k code r : k <> key -> get (append_at key code r) k = get r k.
Proof. intros H. unfold append_at. destruct (get r key); try done. by apply get_dset_ne. Qed.

Lemma keeps_pbind {A B} keys (m : prog A) (k : A -> prog B) :
  keeps keys m -> (forall a, keeps keys (k a)) -> keeps keys (pbind m k).
Proof.
  intros Hm Hk r key Hin. unfold pbind. pose proof (Hm r key Hin) as H. destruct (m r) as [r1 [a|e]]; [|done].
  simpl in H. rewrite <- H. by apply Hk.
Qed.

Lemma keeps_if {A} keys (b : bool) (m m' : prog A) : keeps keys m -> keeps keys m' -> keeps keys (if b then m else m').
Proof. by destruct b. Qed.

Lemma update_all_other kvs k r : ~ In k (map fst kvs) -> get (update_all kvs r) k = get r k.
Proof.
  revert r. induction kvs as [|[k' v] kvs IH]; intros r H; [done|]. simpl in *. rewrite IH by tauto.
  apply get_dset_ne. intros ->. tauto.
Qed.

Lemma keeps_update keys kvs :
  (forall k, In k keys -> ~ In k (map fst kvs)) -> keeps keys (pupdate kvs).
Proof. intros H r k Hin. apply update_all_other. auto. Qed.

Create HintDb row discriminated.
#[export] Hint Resolve keeps_pret keeps_plift keeps_prefuse : row.

(** Proves that a body leaves closed keys alone. *)
Ltac not_in := simpl; intuition discriminate.
Ltac keep :=
  lazymatch goal with
  | |- keeps _ (pbind _ _) => apply keeps_pbind; [keep|intros; keep]
  | |- keeps _ (if _ then _ else _) => apply keeps_if; keep
  | |- keeps _ (pput _ _) => apply keeps_pput; not_in
  | |- keeps _ (pupdate _) => apply keeps_update; simpl; intuition (subst; discriminate)
  | |- keeps _ (match ?x with _ => _ end) => destruct x; keep
  | |- _ => auto with row
  end.

Lemma pbind_ok {A B} (m : prog A) (k : A -> prog B) r r' b :
  pbind m k r = (r', Ok b) -> exists r1 a, m r = (r1, Ok a) /\ k a r1 = (r', Ok b).
Proof. intros [(? & _ & ?)|?]%pbind_run; [done|]. done. Qed.
Lemma plift_bind {A B} (m : res A) (k : A -> prog B) r r' b :
  pbind (plift m) k r = (r', Ok b) -> exists a, m = Ok a /\ k a r = (r', Ok b).
Proof. intros (r1 & a & [= -> ->] & ?)%pbind_ok. eauto. Qed.
Lemma prefuse_bind {B} c e (k : unit -> prog B) r r' b :
  pbind (prefuse c e) k r = (r', Ok b) -> c = false /\ k tt r = (r', Ok b).
Proof. intros (r1 & [] & [= -> Hc] & ?)%pbind_ok. by destruct c. Qed.


(** ** Blocks that end by setting a flag *)

(** The keys a block leaves alone when it raises. *)
Definition keeps_raise {A} (keys : list string) (m : prog A) : Prop :=
  forall r r' e k, m r = (r', Raise e) -> In k keys -> get r' k = get r k.

Lemma keeps_raise_of {A} keys (m : prog A) : keeps keys m -> keeps_raise keys m.
Proof. intros H r r' e k E Hin. specialize (H r k Hin). by rewrite E in H. Qed.

Lemma keeps_raise_pput keys k v : keeps_raise keys (pput k v).
Proof. by intros r r' e k' [=]. Qed.

Lemma keeps_raise_pbind {A B} keys (m : prog A) (k : A -> prog B) :
  keeps keys m -> (forall a, keeps_raise keys (k a)) -> keeps_raise keys (pbind m k).
Proof.
  intros Hm Hk r r' e key H Hin. apply pbind_run in H as [(x & H & _)|(r1 & a & H1 & H)].
  - specialize (Hm r key Hin). by rewrite H in Hm.
  - rewrite (Hk a r1 r' e key H Hin). specialize (Hm r key Hin). by rewrite H1 in Hm.
Qed.

(** A block of the given keys, except for the flag it sets last. *)
Ltac keep_raise :=
  lazymatch goal with
  | |- keeps_raise _ (pbind _ _) => apply keeps_raise_pbind; [keep|intros; keep_raise]
  | |- keeps_raise _ (pput _ _) => apply keeps_raise_pput
  | |- _ => apply keeps_raise_of; keep
  end.
