(* ===== verification/Sha256.v ===== *)
(** * SHA-256

    [hashlib.sha256(text.encode()).hexdigest()] for texts of ASCII characters:
    FIPS 180-4 on 32-bit words kept as integers below 2^32. *)

From Stdlib Require Import Ascii.
From S2P Require Import Prelude PyDecimal PyText PyValue.
From stdpp Require Import base tactics list strings.
From Stdlib Require Import ZArith Lia.

Open Scope Z_scope.

Definition w32 (x : Z) : Z := Z.land x 4294967295.
Definition rotr (n x : Z) : Z := Z.lor (Z.shiftr x n) (w32 (Z.shiftl x (32 - n))).

Definition Ch (x y z : Z) : Z := Z.lxor (Z.land x y) (Z.land (4294967295 - x) z).
Definition Maj (x y z : Z) : Z := Z.lxor (Z.lxor (Z.land x y) (Z.land x z)) (Z.land y z).
Definition Sigma0 (x : Z) : Z := Z.lxor (Z.lxor (rotr 2 x) (rotr 13 x)) (rotr 22 x).
Definition Sigma1 (x : Z) : Z := Z.lxor (Z.lxor (rotr 6 x) (rotr 11 x)) (rotr 25 x).
Definition sigma0 (x : Z) : Z := Z.lxor (Z.lxor (rotr 7 x) (rotr 18 x)) (Z.shiftr x 3).
Definition sigma1 (x : Z) : Z := Z.lxor (Z.lxor (rotr 17 x) (rotr 19 x)) (Z.shiftr x 10).

Definition round_constants : list Z :=
  [1116352408; 1899447441; 3049323471; 3921009573; 961987163; 1508970993; 2453635748; 2870763221;
   3624381080; 310598401; 607225278; 1426881987; 1925078388; 2162078206; 2614888103; 3248222580;
   3835390401; 4022224774; 264347078; 604807628; 770255983; 1249150122; 1555081692; 1996064986;
   2554220882; 2821834349; 2952996808; 3210313671; 3336571891; 3584528711; 113926993; 338241895;
   666307205; 773529912; 1294757372; 1396182291; 1695183700; 1986661051; 2177026350; 2456956037;
   2730485921; 2820302411; 3259730800; 3345764771; 3516065817; 3600352804; 4094571909; 275423344;
   430227734; 506948616; 659060556; 883997877; 958139571; 1322822218; 1537002063; 1747873779;
   1955562222; 2024104815; 2227730452; 2361852424; 2428436474; 2756734187; 3204031479; 3329325298].

Record hash_state := mkHash { ha : Z; hb : Z; hc : Z; hd : Z; he : Z; hf : Z; hg : Z; hh : Z }.

Definition initial_hash : hash_state :=
  mkHash 1779033703 3144134277 1013904242 2773480762 1359893119 2600822924 528734635 1541459225.

Fixpoint bytes_of (s : string) : list Z :=
  match s with EmptyString => [] | String c s => ord c :: bytes_of s end.

Definition be_bytes (n : nat) (z : Z) : list Z :=
  map (fun i => Z.land (Z.shiftr z (8 * Z.of_nat i)) 255) (rev (seq 0 n)).

Definition pad (m : list Z) : list Z :=
  let len := Z.of_nat (length m) in
  m ++ [128] ++ repeat 0 (Z.to_nat ((55 - len) mod 64)) ++ be_bytes 8 (8 * len).

Fixpoint words_of (m : list Z) : list Z :=
  match m with
  | a :: b :: c :: d :: m => (a * 16777216 + b * 65536 + c * 256 + d) :: words_of m
  | _ => []
  end.

(** The last sixteen schedule words, newest first. *)
Fixpoint schedule (n : nat) (recent : list Z) : list Z :=
  match n with
  | O => []
  | S n =>
      let w := w32 (sigma1 (nth 1 recent 0) + nth 6 recent 0 + sigma0 (nth 14 recent 0) + nth 15 recent 0) in
      w :: schedule n (w :: firstn 15 recent)
  end.

Definition round (s : hash_state) (kw : Z * Z) : hash_state :=
  let t1 := hh s + Sigma1 (he s) + Ch (he s) (hf s) (hg s) + fst kw + snd kw in
  let t2 := Sigma0 (ha s) + Maj (ha s) (hb s) (hc s) in
  mkHash (w32 (t1 + t2)) (ha s) (hb s) (hc s) (w32 (hd s + t1)) (he s) (hf s) (hg s).

Definition compress (s : hash_state) (block : list Z) : hash_state :=
  let r := foldl round s (combine round_constants (block ++ schedule 48 (rev block))) in
  mkHash (w32 (ha s + ha r)) (w32 (hb s + hb r)) (w32 (hc s + hc r)) (w32 (hd s + hd r))
         (w32 (he s + he r)) (w32 (hf s + hf r)) (w32 (hg s + hg r)) (w32 (hh s + hh r)).

Fixpoint blocks (n : nat) (w : list Z) (s : hash_state) : hash_state :=
  match n with O => s | S n => blocks n (skipn 16 w) (compress s (firstn 16 w)) end.

Definition hash_words (s : hash_state) : list Z := [ha s; hb s; hc s; hd s; he s; hf s; hg s; hh s].

Definition hex_of (bytes : list Z) : string := foldr (fun b s => hex_byte b +:+ s) "" bytes.

Definition sha256_hex (text : string) : string :=
  let w := words_of (pad (bytes_of text)) in
  hex_of (flat_map (be_bytes 4) (hash_words (blocks (Nat.div (length w) 16) w initial_hash))).

Example sha256_empty : sha256_hex "" = "e3b0c44298fc1c149afbf4c8996fb92427ae41e4649b934ca495991b7852b855".
Proof. vm_compute. reflexivity. Qed.
Example sha256_abc : sha256_hex "abc" = "ba7816bf8f01cfea414140de5dae2223b00361a396177a9cb410ff61f20015ad".
Proof. vm_compute. reflexivity. Qed.
Example sha256_two_blocks :
  sha256_hex "abcdbcdecdefdefgefghfghighijhijkijkljklmklmnlmnomnopnopq" =
  "248d6a61d20638b8e5c026930c3e6039a33ce45964ff2167f6ecedd419db06c1".
Proof. vm_compute. reflexivity. Qed.
