(* ===== verification/PyOrder.v ===== *)
(** * Comparable Python values

    Strings, integers and tuples of them are compared by [<] and sorted by the
    program.  [Ordered] is the interface the sorting and searching lemmas are
    proved against: a three-way comparison with its laws; tuples compare
    lexicographically. *)

From S2P Require Import Prelude.
From stdpp Require Import base tactics list strings.
From Stdlib Require Import ZArith Lia Permutation Sorted.

Class Ordered (A : Type) := {
  cmp : A -> A -> comparison;
  cmp_eq : forall x y, cmp x y = Eq <-> x = y;
  cmp_sym : forall x y, cmp y x = CompOpp (cmp x y);
  cmp_trans : forall x y z, cmp x y = Lt -> cmp y z = Lt -> cmp x z = Lt
}.

(** [x < y] and [x <= y]. *)
Definition oltb {A} `{Ordered A} (x y : A) : bool := match cmp x y with Lt => true | _ => false end.
Definition oleb {A} `{Ordered A} (x y : A) : bool := match cmp x y with Gt => false | _ => true end.

#[export] Instance Z_ordered : Ordered Z.
Proof.
  refine {| cmp := Z.compare |}.
  - apply Z.compare_eq_iff.
  - intros. apply Z.compare_antisym.
  - intros x y z. rewrite !Z.compare_lt_iff. lia.
Defined.

Lemma ascii_compare_N a b : Ascii.compare a b = N.compare (Ascii.N_of_ascii a) (Ascii.N_of_ascii b).
Proof. reflexivity. Qed.

Lemma ascii_compare_eq a b : Ascii.compare a b = Eq <-> a = b.
Proof.
  rewrite ascii_compare_N, N.compare_eq_iff. split; [|by intros ->].
  intros H. by rewrite <- (Ascii.ascii_N_embedding a), H, Ascii.ascii_N_embedding.
Qed.

Lemma string_cmp_trans (x y z : string) :
  String.compare x y = Lt -> String.compare y z = Lt -> String.compare x z = Lt.
Proof.
  revert y z; induction x as [|a x IH]; intros [|b y] [|c z]; simpl; try done.
  rewrite !ascii_compare_N.
  destruct (N.compare_spec (Ascii.N_of_ascii a) (Ascii.N_of_ascii b));
  destruct (N.compare_spec (Ascii.N_of_ascii b) (Ascii.N_of_ascii c));
  destruct (N.compare_spec (Ascii.N_of_ascii a) (Ascii.N_of_ascii c)); try done; try lia; eauto.
Qed.

Lemma string_cmp_eq (x y : string) : String.compare x y = Eq <-> x = y.
Proof.
  revert y; induction x as [|a x IH]; intros [|b y]; simpl; try done.
  destruct (Ascii.compare a b) eqn:E.
  - apply ascii_compare_eq in E as ->. rewrite IH. naive_solver.
  - split; [done|]. intros [= -> _]. by rewrite (proj2 (ascii_compare_eq b b) eq_refl) in E.
  - split; [done|]. intros [= -> _]. by rewrite (proj2 (ascii_compare_eq b b) eq_refl) in E.
Qed.

#[export] Instance string_ordered : Ordered string.
Proof.
  refine {| cmp := String.compare |}.
  - apply string_cmp_eq.
  - intros. apply String.compare_antisym.
  - apply string_cmp_trans.
Defined.

(** The comparison of a pair: the first components decide unless equal. *)
Definition pair_cmp {A B} `{Ordered A, Ordered B} (x y : A * B) : comparison :=
  match cmp x.1 y.1 with Eq => cmp x.2 y.2 | c => c end.

#[export] Instance pair_ordered {A B} `{Ordered A, Ordered B} : Ordered (A * B).
Proof.
  refine {| cmp := pair_cmp |}; unfold pair_cmp.
  - intros [a b] [a' b']; simpl. destruct (cmp a a') eqn:E.
    + apply cmp_eq in E as ->. rewrite cmp_eq. naive_solver.
    + split; [done|]. intros [= -> ->]. by rewrite (proj2 (cmp_eq a' a') eq_refl) in E.
    + split; [done|]. intros [= -> ->]. by rewrite (proj2 (cmp_eq a' a') eq_refl) in E.
  - intros [a b] [a' b']; simpl. rewrite (cmp_sym a a'). destruct (cmp a a'); simpl; [apply cmp_sym|done|done].
  - intros [a b] [a' b'] [a2 b2]; simpl.
    destruct (cmp a a') eqn:E1; destruct (cmp a' a2) eqn:E2; try done.
    + apply cmp_eq in E1 as ->. rewrite E2. apply cmp_trans.
    + apply cmp_eq in E1 as ->. by rewrite E2.
    + apply cmp_eq in E2 as ->. by rewrite E1.
    + by rewrite (cmp_trans _ _ _ E1 E2).
Defined.

Section ordered.
Context {A : Type} `{Ordered A}.
Implicit Types (x y z : A) (l : list A).

Lemma cmp_refl x : cmp x x = Eq.
Proof. by apply cmp_eq. Qed.

Lemma oltb_irrefl x : oltb x x = false.
Proof. unfold oltb. by rewrite cmp_refl. Qed.

Lemma oltb_trans x y z : oltb x y = true -> oltb y z = true -> oltb x z = true.
Proof.
  unfold oltb. destruct (cmp x y) eqn:E1; try done. destruct (cmp y z) eqn:E2; try done. by rewrite (cmp_trans _ _ _ E1 E2).
Qed.

Lemma oleb_oltb x y : oleb x y = negb (oltb y x).
Proof. unfold oleb, oltb. rewrite (cmp_sym x y). by destruct (cmp x y). Qed.

Lemma oleb_cases x y : oleb x y = true <-> oltb x y = true \/ x = y.
Proof.
  unfold oleb, oltb. destruct (cmp x y) eqn:E.
  - apply cmp_eq in E. naive_solver.
  - naive_solver.
  - split; [done|]. intros [?| ->]; [done|]. by rewrite cmp_refl in E.
Qed.

Lemma oleb_total x y : oleb x y = true \/ oleb y x = true.
Proof. unfold oleb. rewrite (cmp_sym x y). destruct (cmp x y); simpl; auto. Qed.

Lemma oleb_trans x y z : oleb x y = true -> oleb y z = true -> oleb x z = true.
Proof.
  rewrite !oleb_cases. intros [H1| ->]; [|done]. intros [H2| ->]; [|by left]. left. eapply oltb_trans; eauto.
Qed.

(** The keys [l] in ascending order without repetition. *)
Definition ascending (l : list A) : Prop := StronglySorted (fun x y => oltb x y = true) l.

(** The check the program makes on consecutive keys of a file. *)
Fixpoint ascending_from (previous : option A) (l : list A) : bool :=
  match l with
  | [] => true
  | x :: l => match previous with Some p => negb (oleb x p) | None => true end && ascending_from (Some x) l
  end.

Lemma ascending_from_spec l p :
  ascending_from p l = true <->
  ascending l /\ match p with Some p => Forall (fun x => oltb p x = true) l | None => True end.
Proof.
  revert p; induction l as [|x l IH]; intros p; simpl.
  - split; [|done]. intros _. split; [constructor|]. by destruct p.
  - rewrite andb_true_iff, IH. split.
    + intros (Hp & Hs & Hx). split; [by constructor|].
      destruct p as [p|]; [|done]. rewrite oleb_oltb, negb_involutive in Hp. constructor; [done|].
      eapply Forall_impl; [exact Hx|]. intros y Hy. eapply oltb_trans; eauto.
    + intros (Hs & Hp). inversion Hs as [|?? Hs' Hx]; subst. split; [|split; [done|]].
      * destruct p as [p|]; [|done]. rewrite oleb_oltb, negb_involutive. by inversion Hp.
      * done.
Qed.

Lemma ascending_NoDup l : ascending l -> List.NoDup l.
Proof.
  induction 1 as [|x l Hs IH Hall]; constructor; [|done].
  intros Hin. rewrite List.Forall_forall in Hall. specialize (Hall x Hin). by rewrite oltb_irrefl in Hall.
Qed.

(** Sorting distinct keys gives them in ascending order. *)
Lemma sorted_ascending l : List.NoDup l -> ascending (sorted_by oleb l).
Proof.
  intros Hnd. assert (Hnd' : List.NoDup (sorted_by oleb l)) by (eapply Permutation_NoDup; [symmetry; apply sorted_by_perm|done]).
  assert (Hs := sorted_by_sorted oleb oleb_total oleb_trans l). revert Hnd' Hs. unfold ascending.
  generalize (sorted_by oleb l) as s. induction s as [|x s IH]; intros Hnd' Hs; [constructor|].
  inversion Hs as [|?? Hs' Hx]; inversion Hnd' as [|?? Hn Hnd2]; subst. constructor; [auto|].
  rewrite List.Forall_forall in *. intros y Hy. specialize (Hx y Hy). apply oleb_cases in Hx as [?| ->]; done.
Qed.

(** Binary search on ascending keys finds a key exactly when it is there. *)
Lemma bisect_ascending l x :
  ascending l ->
  match l !! bisect_left oltb l x with
  | Some y => y = x \/ (~ In x l /\ oltb x y = true)
  | None => ~ In x l
  end.
Proof.
  intros Hs. destruct (bisect_left_spec oltb l x) as (Hb & Hlo & Hhi).
  { intros i j y z Hy Hz Hij Hlt. destruct (decide (i = j)) as [->|]; [by simplify_eq|].
    assert (oltb y z = true) by (eapply (sorted_lookup (fun x y => oltb x y = true) l i j); eauto; lia). eapply oltb_trans; eauto. }
  set (r := bisect_left oltb l x) in *. clearbody r.
  assert (Hx : forall i, l !! i = Some x -> (r <= i)%nat).
  { intros i Hi. destruct (decide (i < r)%nat) as [Hlt|]; [|lia]. specialize (Hlo i x Hlt Hi). by rewrite oltb_irrefl in Hlo. }
  destruct (l !! r) as [y|] eqn:E.
  - specialize (Hhi r y ltac:(lia) E). destruct (oleb_cases x y) as [Hc _]. destruct Hc as [Hlt|Heq]; [by rewrite oleb_oltb, Hhi| |by left].
    right. split; [|done]. intros Hin. apply list_elem_of_In, list_elem_of_lookup in Hin as [i Hi].
    specialize (Hx i Hi). destruct (decide (i = r)) as [->|]; [simplify_eq; by rewrite oltb_irrefl in Hlt|].
    assert (oltb y x = true) by (eapply (sorted_lookup (fun x y => oltb x y = true) l r i); eauto; lia). congruence.
  - intros Hin. apply list_elem_of_In, list_elem_of_lookup in Hin as [i Hi]. specialize (Hx i Hi).
    apply lookup_lt_Some in Hi. apply lookup_ge_None_1 in E. lia.
Qed.
End ordered.

(** [sorted(items, key=f)] *)
Definition sorted_key {A K} `{Ordered K} (f : A -> K) (l : list A) : list A :=
  sorted_by (fun x y => oleb (f x) (f y)) l.

Lemma sorted_key_map {A K} `{Ordered K} (f : A -> K) l : map f (sorted_key f l) = sorted_by oleb (map f l).
Proof.
  unfold sorted_key. induction l as [|x l IH]; simpl; [done|]. rewrite <- IH.
  generalize (sorted_by (fun x y => oleb (f x) (f y)) l) as s. induction s as [|y s IHs]; simpl; [done|].
  destruct (oleb (f x) (f y)); simpl; [done|]. by rewrite IHs.
Qed.

Lemma sorted_key_In {A K} `{Ordered K} (f : A -> K) l x : In x (sorted_key f l) <-> In x l.
Proof. apply sorted_by_In. Qed.

(** ** Membership: [x in l], and sets as lists without repetition *)
Section membership.
Context {A : Type} `{EqDecision A}.
Implicit Types (x : A) (l : list A).

Definition inb x l : bool := existsb (fun y => bool_decide (x = y)) l.
(** [s.add(x)] and [s.discard(x)] *)
Definition set_add x l : list A := if inb x l then l else l ++ [x].
Definition set_discard x l : list A := List.filter (fun y => negb (bool_decide (x = y))) l.

Lemma inb_true x l : inb x l = true <-> In x l.
Proof.
  unfold inb. rewrite existsb_exists. split; [intros (y & Hy & E%bool_decide_eq_true); by subst|].
  intros H. exists x. split; [done|]. by apply bool_decide_eq_true.
Qed.

Lemma set_add_In x y l : In y (set_add x l) <-> y = x \/ In y l.
Proof.
  unfold set_add. destruct (inb x l) eqn:E; [apply inb_true in E; naive_solver|].
  rewrite in_app_iff. simpl. naive_solver.
Qed.

Lemma set_discard_In x y l : In y (set_discard x l) <-> y <> x /\ In y l.
Proof.
  unfold set_discard. rewrite filter_In, negb_true_iff, bool_decide_eq_false. naive_solver.
Qed.

Lemma set_add_NoDup x l : List.NoDup l -> List.NoDup (set_add x l).
Proof.
  unfold set_add. destruct (inb x l) eqn:E; [done|]. intros H. apply List.NoDup_app; [done|repeat constructor; simpl; tauto|].
  intros y Hy [<-|[]]. apply inb_true in Hy. congruence.
Qed.

Lemma set_adds_NoDup l s : List.NoDup s -> List.NoDup (foldl (fun s x => set_add x s) s l).
Proof. revert s; induction l; intros s Hs; simpl; [done|]. by apply IHl, set_add_NoDup. Qed.

Lemma set_adds_In y l s : In y (foldl (fun s x => set_add x s) s l) <-> In y l \/ In y s.
Proof. revert s; induction l; intros s; simpl; [naive_solver|]. rewrite IHl, set_add_In. naive_solver. Qed.
End membership.

(** Ascending lists with the same elements are equal. *)
Lemma ascending_unique {A} `{Ordered A} (l l' : list A) :
  ascending l -> ascending l' -> (forall x, In x l <-> In x l') -> l = l'.
Proof.
  intros Hl. revert l'. induction Hl as [|x l Hs IH Hx]; intros l' Hl' Hin.
  - destruct l' as [|y l']; [done|]. destruct (proj2 (Hin y)); simpl; auto.
  - inversion Hl' as [|y l2 Hs' Hy]; subst; [destruct (proj1 (Hin x)); simpl; auto|].
    rewrite List.Forall_forall in Hx, Hy.
    assert (x = y) as ->.
    { destruct (proj1 (Hin x) (or_introl eq_refl)) as [E|E]; [done|]. destruct (proj2 (Hin y) (or_introl eq_refl)) as [E2|E2]; [done|].
      pose proof (oltb_trans _ _ _ (Hx _ E2) (Hy _ E)) as C. by rewrite oltb_irrefl in C. }
    f_equal. apply IH; [done|]. intros z. split; intros Hz.
    + destruct (proj1 (Hin z) (or_intror Hz)) as [E|E]; [|done]. subst. specialize (Hx _ Hz). by rewrite oltb_irrefl in Hx.
    + destruct (proj2 (Hin z) (or_intror Hz)) as [E|E]; [|done]. subst. specialize (Hy _ Hz). by rewrite oltb_irrefl in Hy.
Qed.
