(* ===== verification/PyBytes.v ===== *)
(** * Bytes and encoded text

    The journal tools exchange files with the native runtime, so their model works
    on bytes: a Rocq string is a sequence of bytes, and a Python [str] of these
    modules is represented by its UTF-8 encoding.  Byte order on that encoding is
    code-point order, so comparisons of [str] are comparisons of strings.  A [str]
    holding a lone surrogate is represented by the three bytes of the generalised
    encoding, which [utf8_ok] refuses, so encoding it raises. *)

From Stdlib Require Import Ascii.
From S2P Require Import Prelude PyText PyValue PyOrder.
From stdpp Require Import base tactics list strings.
From Stdlib Require Import ZArith Lia Bool.

Open Scope Z_scope.

Definition unicode_error : exn := Exn UnicodeError "UnicodeError".

(** ** UTF-8 and ASCII *)

Definition cont (c : ascii) : bool := (128 <=? ord c) && (ord c <=? 191).
(** The second byte of a three- and a four-byte sequence that starts with [n]. *)
Definition second3 (n : Z) (c : ascii) : bool :=
  cont c && (negb (n =? 224) || (160 <=? ord c)) && (negb (n =? 237) || (ord c <=? 159)).
Definition second4 (n : Z) (c : ascii) : bool :=
  cont c && (negb (n =? 240) || (144 <=? ord c)) && (negb (n =? 244) || (ord c <=? 143)).

Fixpoint utf8_ok (s : string) : bool :=
  match s with
  | EmptyString => true
  | String a r =>
      let n := ord a in
      if n <? 128 then utf8_ok r
      else match r with
      | EmptyString => false
      | String b r1 =>
          if (194 <=? n) && (n <=? 223) then cont b && utf8_ok r1
          else match r1 with
          | EmptyString => false
          | String c r2 =>
              if (224 <=? n) && (n <=? 239) then second3 n b && cont c && utf8_ok r2
              else match r2 with
              | EmptyString => false
              | String d r3 => (240 <=? n) && (n <=? 244) && second4 n b && cont c && cont d && utf8_ok r3
              end
          end
      end
  end.

(** [s.encode("utf-8")] and [b.decode("utf-8")]: the representation is the encoding. *)
Definition utf8 (s : string) : res string := if utf8_ok s then Ok s else Raise unicode_error.

Definition is_ascii (c : ascii) : bool := ord c <? 128.
(** [s.encode("ascii")] and [b.decode("ascii")]. *)
Definition ascii_text (s : string) : res string := if sforall is_ascii s then Ok s else Raise unicode_error.

(** ** Hexadecimal: [bytes.hex] and [bytes.fromhex] *)

Fixpoint hexlify (s : string) : string :=
  match s with EmptyString => EmptyString | String c s => hex_byte (ord c) +:+ hexlify s end.

Definition hex_value (c : ascii) : option Z :=
  let n := ord c in
  if (48 <=? n) && (n <=? 57) then Some (n - 48)
  else if (97 <=? n) && (n <=? 102) then Some (n - 87)
  else if (65 <=? n) && (n <=? 70) then Some (n - 55)
  else None.

Definition is_ascii_space (c : ascii) : bool := ((9 <=? ord c) && (ord c <=? 13)) || (ord c =? 32).

(** White space is skipped between the pairs of digits. *)
Fixpoint fromhex (s : string) : option string :=
  match s with
  | EmptyString => Some EmptyString
  | String a r =>
      if is_ascii_space a then fromhex r
      else match r with
      | String b r' =>
          match hex_value a, hex_value b, fromhex r' with
          | Some x, Some y, Some t => Some (String (chr (16 * x + y)) t)
          | _, _, _ => None
          end
      | EmptyString => None
      end
  end.

(** ** Lines and fields *)

Definition tab : ascii := chr 9.
Definition nl : ascii := chr 10.
Definition cr : ascii := chr 13.
Definition newline : string := String nl EmptyString.

(** The line boundaries of [bytes.splitlines] and, on ASCII text, of [str.splitlines]. *)
Definition byte_break (c : ascii) : bool := (ord c =? 10) || (ord c =? 13).
Definition text_break (c : ascii) : bool := ((10 <=? ord c) && (ord c <=? 13)) || ((28 <=? ord c) && (ord c <=? 30)).

Section splitlines.
Context (brk : ascii -> bool) (keepends : bool).

(** A carriage return and the line feed after it are one boundary. *)
Fixpoint splitlines (s : string) : list string :=
  match s with
  | EmptyString => []
  | String c r =>
      if brk c then
        match r with
        | String d r' =>
            if (ord c =? 13) && (ord d =? 10)
            then (if keepends then String c (String d EmptyString) else EmptyString) :: splitlines r'
            else (if keepends then String c EmptyString else EmptyString) :: splitlines r
        | EmptyString => [if keepends then String c EmptyString else EmptyString]
        end
      else match splitlines r with
      | [] => [String c EmptyString]
      | l :: ls => String c l :: ls
      end
  end.
End splitlines.

(** [b.rstrip(b"\n")] *)
Fixpoint rstrip_nl (s : string) : string :=
  match s with
  | EmptyString => EmptyString
  | String c s =>
      match rstrip_nl s with
      | EmptyString => if bool_decide (c = nl) then EmptyString else String c EmptyString
      | t => String c t
      end
  end.

(** [s.split(sep)] for a separator of one character. *)
Fixpoint split_on (sep : ascii) (s : string) : list string :=
  match s with
  | EmptyString => [EmptyString]
  | String c s =>
      if bool_decide (c = sep) then EmptyString :: split_on sep s
      else match split_on sep s with
      | [] => [String c EmptyString]
      | f :: fs => String c f :: fs
      end
  end.

(** [s.partition(sep)]: the parts, when the separator occurs. *)
Fixpoint partition_on (sep : ascii) (s : string) : option (string * string) :=
  match s with
  | EmptyString => None
  | String c s =>
      if bool_decide (c = sep) then Some (EmptyString, s)
      else match partition_on sep s with
      | Some (a, b) => Some (String c a, b)
      | None => None
      end
  end.

(** [s[len(p):] if s.startswith(p)] *)
Fixpoint remove_prefix (p s : string) : option string :=
  match p, s with
  | EmptyString, s => Some s
  | String a p, String b s => if bool_decide (a = b) then remove_prefix p s else None
  | _, _ => None
  end.
Definition startswith (s p : string) : bool := match remove_prefix p s with Some _ => true | None => false end.

(** ** [int(s)] on ASCII text *)

(** Digits, with single underscores between them. *)
Fixpoint int_body (after_digit : bool) (s : string) (acc : Z) : option Z :=
  match s with
  | EmptyString => if after_digit then Some acc else None
  | String c s =>
      if is_digit c then int_body true s (acc * 10 + digit_val c)
      else if bool_decide (c = "_"%char) && after_digit then int_body false s acc
      else None
  end.

Definition py_int (s : string) : res Z :=
  let t := rstrip (lstrip s) in
  let sr := parse_sign t in
  match int_body false sr.2 0 with
  | Some z => if slen (sfilter is_digit sr.2) <=? 4300 then Ok (if sr.1 then - z else z) else Raise value_error
  | None => Raise value_error
  end.

(** ** Facts *)

Lemma slen_length s : slen s = Z.of_nat (String.length s).
Proof. induction s; simpl; lia. Qed.

Lemma ord_range c : 0 <= ord c < 256.
Proof. unfold ord. pose proof (N_ascii_bounded c). lia. Qed.
Lemma chr_ord c : chr (ord c) = c.
Proof. unfold chr, ord. by rewrite N2Z.id, ascii_N_embedding. Qed.
Lemma ord_chr n : 0 <= n < 256 -> ord (chr n) = n.
Proof. intros. unfold chr, ord. rewrite N_ascii_embedding; lia. Qed.
Lemma ord_inj a b : ord a = ord b -> a = b.
Proof. intros H. by rewrite <- (chr_ord a), H, chr_ord. Qed.
Lemma ascii_compare_ord a b : Ascii.compare a b = Z.compare (ord a) (ord b).
Proof. rewrite ascii_compare_N. unfold ord. by rewrite N2Z.inj_compare. Qed.

Lemma hex_digit_ord n : 0 <= n < 16 -> ord (hex_digit n) = if n <? 10 then 48 + n else 87 + n.
Proof. intros. unfold hex_digit. case_match; apply ord_chr; split_bools; lia. Qed.

Lemma hex_digit_value n : 0 <= n < 16 -> hex_value (hex_digit n) = Some n /\ is_ascii_space (hex_digit n) = false.
Proof.
  intros H. unfold hex_value, is_ascii_space. rewrite hex_digit_ord by done.
  destruct (Z.ltb_spec n 10).
  - replace ((48 <=? 48 + n) && (48 + n <=? 57)) with true by (symmetry; apply andb_true_intro; lia).
    split; [f_equal; lia|]. apply orb_false_intro; [apply andb_false_iff; right|]; lia.
  - replace ((48 <=? 87 + n) && (87 + n <=? 57)) with false by (symmetry; apply andb_false_iff; right; lia).
    replace ((97 <=? 87 + n) && (87 + n <=? 102)) with true by (symmetry; apply andb_true_intro; lia).
    split; [f_equal; lia|]. apply orb_false_intro; [apply andb_false_iff; right|]; lia.
Qed.

Lemma nibbles n : 0 <= n < 256 -> 0 <= n / 16 < 16 /\ 0 <= n mod 16 < 16 /\ n = 16 * (n / 16) + n mod 16.
Proof. intros. pose proof (Z.div_mod n 16). pose proof (Z.mod_pos_bound n 16). lia. Qed.

Lemma fromhex_hexlify s : fromhex (hexlify s) = Some s.
Proof.
  induction s as [|c s IH]; [done|]. destruct (nibbles (ord c) (ord_range c)) as (H1 & H2 & H3).
  cbn [hexlify]. unfold hex_byte. rewrite !append_cons, append_nil_l. cbn [fromhex].
  destruct (hex_digit_value _ H1) as [-> ->]. destruct (hex_digit_value _ H2) as [-> _]. rewrite IH, <- H3. by rewrite chr_ord.
Qed.

Lemma hex_digit_compare a b :
  0 <= a < 16 -> 0 <= b < 16 -> Ascii.compare (hex_digit a) (hex_digit b) = Z.compare a b.
Proof.
  intros Ha Hb. rewrite ascii_compare_ord, !hex_digit_ord by done.
  destruct (Z.ltb_spec a 10), (Z.ltb_spec b 10); destruct (Z.compare_spec a b);
    (apply Z.compare_eq_iff || apply Z.compare_lt_iff || apply Z.compare_gt_iff); lia.
Qed.

(** Encoded keys sort as the keys do. *)
Lemma hexlify_compare s t : String.compare (hexlify s) (hexlify t) = String.compare s t.
Proof.
  revert t; induction s as [|a s IH]; intros [|b t]; try done. cbn [hexlify]. unfold hex_byte.
  rewrite !append_cons, !append_nil_l. cbn [String.compare].
  destruct (nibbles (ord a) (ord_range a)) as (A1 & A2 & A3). destruct (nibbles (ord b) (ord_range b)) as (B1 & B2 & B3).
  rewrite !hex_digit_compare by done. rewrite ascii_compare_ord, IH.
  destruct (Z.compare_spec (ord a / 16) (ord b / 16)) as [E|E|E];
  destruct (Z.compare_spec (ord a mod 16) (ord b mod 16)) as [F|F|F];
  destruct (Z.compare_spec (ord a) (ord b)); try done; lia.
Qed.

(** Characters of the encoding: lower-case hexadecimal digits. *)
Definition is_lower_hex (c : ascii) : bool := ((48 <=? ord c) && (ord c <=? 57)) || ((97 <=? ord c) && (ord c <=? 102)).

Lemma hexlify_chars s : sforall is_lower_hex (hexlify s) = true.
Proof.
  induction s as [|c s IH]; [done|]. destruct (nibbles (ord c) (ord_range c)) as (H1 & H2 & _).
  assert (Hd : forall n, 0 <= n < 16 -> is_lower_hex (hex_digit n) = true).
  { intros n Hn. unfold is_lower_hex. rewrite hex_digit_ord by done. destruct (Z.ltb_spec n 10); apply orb_true_iff;
      [left|right]; apply andb_true_intro; lia. }
  cbn [hexlify]. unfold hex_byte. rewrite !append_cons, append_nil_l. cbn [sforall]. by rewrite !Hd, IH.
Qed.

(** *** Lines *)

(** [b"".join(l)] *)
Definition concat_text (l : list string) : string := foldr String.append EmptyString l.

Lemma concat_text_app a b : concat_text (a ++ b) = concat_text a +:+ concat_text b.
Proof. induction a as [|x a IH]; simpl; [done|]. by rewrite IH, append_assoc. Qed.


Section lines.
Context (brk : ascii -> bool) (keepends : bool) (Hbrk : brk nl = true).

Lemma splitlines_nil s : splitlines brk keepends s = [] -> s = EmptyString.
Proof.
  destruct s as [|c s]; [done|]. cbn [splitlines]. destruct (brk c).
  - destruct s as [|d s]; [done|]. by destruct ((ord c =? 13) && (ord d =? 10)).
  - by destruct (splitlines brk keepends s).
Qed.

Lemma splitlines_line l rest :
  sforall (fun c => negb (brk c)) l = true ->
  splitlines brk keepends (l +:+ String nl rest) =
  (if keepends then l +:+ newline else l) :: splitlines brk keepends rest.
Proof.
  induction l as [|c l IH]; intros Hl.
  - rewrite append_nil_l. cbn [splitlines]. rewrite Hbrk.
    destruct rest as [|d rest]; [by destruct keepends|]. change (ord nl =? 13) with false. by destruct keepends.
  - cbn [sforall] in Hl. apply andb_prop in Hl as [Hc Hl]. apply negb_true_iff in Hc.
    rewrite append_cons. cbn [splitlines]. rewrite Hc, IH by done. by destruct keepends.
Qed.

(** A file of complete lines splits into them. *)
Lemma splitlines_lines ls :
  Forall (fun l => sforall (fun c => negb (brk c)) l = true) ls ->
  splitlines brk keepends (concat_text (map (fun l => l +:+ newline) ls)) =
  map (fun l => if keepends then l +:+ newline else l) ls.
Proof.
  induction 1 as [|l ls Hl _ IH]; [done|]. cbn [concat_text foldr map]. rewrite append_assoc.
  unfold newline at 1. rewrite append_cons, append_nil_l, splitlines_line by done. fold (concat_text (map (fun l => l +:+ newline) ls)).
  by rewrite IH.
Qed.
End lines.

Lemma rstrip_nl_line l : sforall (fun c => negb (bool_decide (c = nl))) l = true -> rstrip_nl (l +:+ newline) = l.
Proof.
  induction l as [|c l IH]; intros H; [done|]. cbn [sforall] in H. apply andb_prop in H as [Hc Hl].
  rewrite append_cons. cbn [rstrip_nl]. rewrite IH by done. destruct l; [|done].
  apply negb_true_iff in Hc. by rewrite Hc.
Qed.

Definition no_char (x : ascii) (s : string) : bool := sforall (fun c => negb (bool_decide (c = x))) s.

Lemma split_on_field sep f : no_char sep f = true -> split_on sep f = [f].
Proof.
  induction f as [|c f IH]; intros H; [done|]. cbn in H. apply andb_prop in H as [Hc Hf]. apply negb_true_iff in Hc.
  cbn [split_on]. rewrite Hc. change (no_char sep f = true) in Hf. by rewrite IH.
Qed.

Lemma split_on_cons sep f rest : no_char sep f = true -> split_on sep (f +:+ String sep rest) = f :: split_on sep rest.
Proof.
  induction f as [|c f IH]; intros H.
  - rewrite append_nil_l. cbn [split_on]. by rewrite bool_decide_eq_true_2.
  - cbn in H. apply andb_prop in H as [Hc Hf]. apply negb_true_iff in Hc. change (no_char sep f = true) in Hf.
    rewrite append_cons. cbn [split_on]. by rewrite Hc, IH.
Qed.

(** Splitting is the inverse of joining fields that do not hold the separator. *)
Lemma split_join sep fs :
  fs <> [] -> Forall (fun f => no_char sep f = true) fs -> split_on sep (PyValue.join (String sep EmptyString) fs) = fs.
Proof.
  intros Hne H. induction H as [|f fs Hf Hfs IH]; [done|]. destruct fs as [|g fs].
  - simpl. by apply split_on_field.
  - change (split_on sep (f +:+ String sep EmptyString +:+ PyValue.join (String sep EmptyString) (g :: fs)) = f :: g :: fs).
    rewrite append_cons, append_nil_l, split_on_cons by done. by rewrite IH.
Qed.

Lemma partition_field sep a b : no_char sep a = true -> partition_on sep (a +:+ String sep b) = Some (a, b).
Proof.
  induction a as [|c a IH]; intros H.
  - rewrite append_nil_l. cbn [partition_on]. by rewrite bool_decide_eq_true_2.
  - cbn in H. apply andb_prop in H as [Hc Ha]. apply negb_true_iff in Hc. change (no_char sep a = true) in Ha.
    rewrite append_cons. cbn [partition_on]. by rewrite Hc, IH.
Qed.

Lemma remove_prefix_app p s : remove_prefix p (p +:+ s) = Some s.
Proof. induction p; [done|]. rewrite append_cons. cbn [remove_prefix]. by rewrite bool_decide_eq_true_2. Qed.

(** *** Integers *)

Lemma int_body_digits s b acc :
  sforall is_digit s = true -> (b = true \/ s <> EmptyString) -> int_body b s acc = Some (digits_value s acc).
Proof.
  revert b acc; induction s as [|c s IH]; intros b acc H Hb; simpl in *.
  - destruct b; naive_solver.
  - apply andb_prop in H as [Hc Hs]. rewrite Hc. apply IH; auto.
Qed.

Lemma sfilter_all f s : sforall f s = true -> sfilter f s = s.
Proof. induction s as [|c s IH]; simpl; [done|]. intros [-> H]%andb_prop. by rewrite IH. Qed.

(** [int(str(z))] *)
Lemma py_int_str z : int_text_ok (VInt z) = true -> py_int (str_int z) = Ok z.
Proof.
  intros Hlen%Z.leb_le. rewrite <- slen_digits in Hlen by lia. destruct (digits_spec (Z.abs z)) as (Hd & Hp & Hv); [lia|].
  assert (Hne : digits (Z.abs z) <> EmptyString) by (intros E; rewrite E in Hp; simpl in Hp; lia).
  assert (Hplain : sforall plain (str_int z) = true).
  { unfold str_int. assert (sforall plain (digits (Z.abs z)) = true) by (eapply sforall_impl; [apply is_digit_plain|done]).
    destruct (Z.ltb_spec z 0).
    - replace (- z) with (Z.abs z) by lia. change ("-" +:+ ?x) with (String "-" x). simpl. done.
    - by replace z with (Z.abs z) by lia. }
  unfold py_int. rewrite plain_strip by done.
  unfold str_int. destruct (Z.ltb_spec z 0).
  - replace (- z) with (Z.abs z) by lia. change ("-" +:+ ?x) with (String "-" x). cbn [parse_sign fst snd].
    rewrite int_body_digits by auto. rewrite sfilter_all by done. rewrite (proj2 (Z.leb_le _ _)) by done. f_equal. lia.
  - replace z with (Z.abs z) by lia. destruct (digits (Z.abs z)) as [|c s] eqn:E; [done|].
    rewrite digit_no_sign by (simpl in Hd; by apply andb_prop in Hd as [? _]). cbn [fst snd].
    rewrite int_body_digits, sfilter_all by auto. rewrite (proj2 (Z.leb_le _ _)) by done. f_equal. done.
Qed.
