(* ===== verification/Digest.v ===== *)
(** * Digests

    The programs bind evidence by [hashlib.sha256(data).hexdigest()].  [Digest] is
    what they rely on; it is the interface the theorems about files are proved
    against, and SHA-256 is an instance of it. *)

From Stdlib Require Import Ascii.
From S2P Require Import Prelude PyText PyValue PyBytes Sha256.
From stdpp Require Import base tactics list strings.
From Stdlib Require Import ZArith Lia Bool.

Open Scope Z_scope.

(** A digest is a non-empty text of lower-case hexadecimal digits. *)
Class Digest := {
  digest : string -> string;
  digest_hex : forall data, sforall is_lower_hex (digest data) = true /\ digest data <> EmptyString
}.

(** ** SHA-256 is a digest *)

Lemma hex_byte_lower b : 0 <= b < 256 -> sforall is_lower_hex (hex_byte b) = true.
Proof.
  intros Hb. destruct (nibbles b Hb) as (H1 & H2 & _).
  assert (Hd : forall n, 0 <= n < 16 -> is_lower_hex (hex_digit n) = true).
  { intros n Hn. unfold is_lower_hex. rewrite hex_digit_ord by done. apply orb_true_iff.
    destruct (Z.ltb_spec n 10); [left|right]; apply andb_true_intro; split; apply Z.leb_le; lia. }
  unfold hex_byte. cbn [sforall]. by rewrite !Hd.
Qed.

Lemma sha256_lower data : sforall is_lower_hex (sha256_hex data) = true /\ sha256_hex data <> EmptyString.
Proof.
  unfold sha256_hex. set (words := hash_words _). split; [|by unfold words, hash_words]. induction words as [|w words IH]; [done|].
  assert (Hw : forall l rest, Forall (fun b => 0 <= b < 256) l -> sforall is_lower_hex (hex_of rest) = true ->
    sforall is_lower_hex (hex_of (l ++ rest)) = true).
  { intros l rest Hl Hr. induction Hl as [|b l Hb _ IHl]; [done|]. cbn [hex_of app foldr]. rewrite sforall_app, hex_byte_lower by done. exact IHl. }
  cbn [flat_map]. apply Hw; [|exact IH]. apply List.Forall_forall. intros b Hb. apply in_map_iff in Hb as (i & <- & _).
  change 255 with (Z.ones 8). rewrite Z.land_ones by lia. apply Z.mod_pos_bound. lia.
Qed.

#[export] Instance sha256_digest : Digest := { digest := sha256_hex; digest_hex := sha256_lower }.

(** ** A stand-in

    A digest that is quick to evaluate, for concrete scenarios. *)
Definition toy (data : string) : string := digits (slen data mod 97).

Lemma toy_hex data : sforall is_lower_hex (toy data) = true /\ toy data <> EmptyString.
Proof.
  destruct (digits_spec (slen data mod 97)) as (Hd & Hl & _); [apply Z.mod_pos_bound; lia|]. unfold toy. split.
  - eapply sforall_impl; [|exact Hd]. intros c Hc. unfold is_digit in Hc. unfold is_lower_hex. by rewrite Hc.
  - intros E. rewrite E in Hl. simpl in Hl. lia.
Qed.

Definition length_digest : Digest := {| digest := toy; digest_hex := toy_hex |}.
