(* ===== verification/PyJson.v ===== *)
(** * JSON documents

    [json.dumps(v, sort_keys=True, separators=(",", ":"))] and [json.loads] on text
    represented by its UTF-8 encoding.  Printing escapes every character outside
    printable ASCII; reading takes the hooks the program passes
    ([object_pairs_hook], [parse_constant]).  Nesting beyond the recursion limit of
    the interpreter is not modelled.  The main lemma is the round trip: a printed document reads back
    as the same document with the keys of its objects sorted. *)

From Stdlib Require Import Floats.SpecFloat Ascii.
From S2P Require Import Prelude PyText PyValue PyOrder PyBytes.
From stdpp Require Import base tactics list strings.
From Stdlib Require Import ZArith Lia Bool Permutation.

Open Scope Z_scope.

(** ** Printing *)

Definition hex4 (n : Z) : string := hex_byte (n / 256) +:+ hex_byte (n mod 256).
Definition u_escape (n : Z) : string := "\u" +:+ hex4 n.

(** Characters outside the basic plane are written as a surrogate pair. *)
Definition pair_escape (cp : Z) : string :=
  u_escape (55296 + (cp - 65536) / 1024) +:+ u_escape (56320 + (cp - 65536) mod 1024).

Definition cp2 (a b : ascii) : Z := (ord a - 192) * 64 + (ord b - 128).
Definition cp3 (a b c : ascii) : Z := (ord a - 224) * 4096 + (ord b - 128) * 64 + (ord c - 128).
Definition cp4 (a b c d : ascii) : Z :=
  (ord a - 240) * 262144 + (ord b - 128) * 4096 + (ord c - 128) * 64 + (ord d - 128).

Fixpoint json_text (s : string) : string :=
  match s with
  | EmptyString => EmptyString
  | String a r =>
      if ord a <? 128 then json_char a +:+ json_text r
      else match r with
      | EmptyString => EmptyString
      | String b r1 =>
          if ord a <? 224 then u_escape (cp2 a b) +:+ json_text r1
          else match r1 with
          | EmptyString => EmptyString
          | String c r2 =>
              if ord a <? 240 then u_escape (cp3 a b c) +:+ json_text r2
              else match r2 with
              | EmptyString => EmptyString
              | String d r3 => pair_escape (cp4 a b c d) +:+ json_text r3
              end
          end
      end
  end.

Definition json_quoted (s : string) : string := quote +:+ json_text s +:+ quote.

Definition float_text (f : spec_float) : string :=
  match f with
  | S754_infinity s => if s then "-Infinity" else "Infinity"
  | S754_nan => "NaN"
  | _ => repr_float f
  end.

Definition member_text (kv : string * string) : string := json_quoted kv.1 +:+ ":" +:+ kv.2.

Fixpoint dumps (v : value) : res string :=
  match v with
  | VNone => Ok "null"
  | VBool b => Ok (if b then "true" else "false")
  | VInt z => if int_text_ok (VInt z) then Ok (str_int z) else Raise value_error
  | VFloat f => Ok (float_text f)
  | VDec _ => Raise type_error
  | VStr s => Ok (json_quoted s)
  | VList l =>
      let! xs := (fix go (l : list value) : res (list string) :=
                    match l with
                    | [] => Ok []
                    | x :: l => let! s := dumps x in let! t := go l in Ok (s :: t)
                    end) l in
      Ok ("[" +:+ PyValue.join "," xs +:+ "]")
  | VDict d =>
      let! xs := (fix go (d : list (string * value)) : res (list (string * string)) :=
                    match d with
                    | [] => Ok []
                    | (k, x) :: d => let! s := dumps x in let! t := go d in Ok ((k, s) :: t)
                    end) d in
      Ok ("{" +:+ PyValue.join "," (map member_text (sorted_by key_leb xs)) +:+ "}")
  end.

(** ** Reading *)

Definition json_error : exn := Exn JSONDecodeError "JSONDecodeError".

Definition is_json_space (c : ascii) : bool := (ord c =? 32) || (ord c =? 9) || (ord c =? 10) || (ord c =? 13).
Fixpoint skip_ws (s : string) : string :=
  match s with String c r => if is_json_space c then skip_ws r else s | EmptyString => EmptyString end.

Definition utf8_of_cp (cp : Z) : string :=
  if cp <? 128 then String (chr cp) EmptyString
  else if cp <? 2048 then String (chr (192 + cp / 64)) (String (chr (128 + cp mod 64)) EmptyString)
  else if cp <? 65536 then
    String (chr (224 + cp / 4096)) (String (chr (128 + cp / 64 mod 64)) (String (chr (128 + cp mod 64)) EmptyString))
  else
    String (chr (240 + cp / 262144)) (String (chr (128 + cp / 4096 mod 64))
      (String (chr (128 + cp / 64 mod 64)) (String (chr (128 + cp mod 64)) EmptyString))).

Definition hex4_value (a b c d : ascii) : option Z :=
  match hex_value a, hex_value b, hex_value c, hex_value d with
  | Some w, Some x, Some y, Some z => Some (4096 * w + 256 * x + 16 * y + z)
  | _, _, _, _ => None
  end.

Definition is_high (u : Z) : bool := (55296 <=? u) && (u <=? 56319).
Definition is_low (u : Z) : bool := (56320 <=? u) && (u <=? 57343).
Definition combine_pair (hi lo : Z) : Z := 65536 + (hi - 55296) * 1024 + (lo - 56320).

Definition simple_escape (e : ascii) : option ascii :=
  let n := ord e in
  if (n =? 34) || (n =? 92) || (n =? 47) then Some e
  else if n =? 98 then Some (chr 8)
  else if n =? 102 then Some (chr 12)
  else if n =? 110 then Some (chr 10)
  else if n =? 114 then Some (chr 13)
  else if n =? 116 then Some (chr 9)
  else None.

Definition prepend (p : string) (m : res (string * string)) : res (string * string) :=
  let! (t, rest) := m in Ok (p +:+ t, rest).

(** The rest of a string literal, after its opening quote. *)
Fixpoint scan_string (s : string) : res (string * string) :=
  match s with
  | EmptyString => Raise json_error
  | String c r =>
      if ord c =? 34 then Ok (EmptyString, r)
      else if ord c =? 92 then
        match r with
        | EmptyString => Raise json_error
        | String e r1 =>
            if ord e =? 117 then
              match r1 with
              | String h1 (String h2 (String h3 (String h4 r2))) =>
                  match hex4_value h1 h2 h3 h4 with
                  | None => Raise json_error
                  | Some u =>
                      if is_high u then
                        match r2 with
                        | String x (String y (String g1 (String g2 (String g3 (String g4 r3))))) =>
                            if (ord x =? 92) && (ord y =? 117) then
                              match hex4_value g1 g2 g3 g4 with
                              | Some w => if is_low w then prepend (utf8_of_cp (combine_pair u w)) (scan_string r3)
                                          else prepend (utf8_of_cp u) (scan_string r2)
                              | None => Raise json_error
                              end
                            else prepend (utf8_of_cp u) (scan_string r2)
                        | _ => prepend (utf8_of_cp u) (scan_string r2)
                        end
                      else prepend (utf8_of_cp u) (scan_string r2)
                  end
              | _ => Raise json_error
              end
            else match simple_escape e with
            | Some x => prepend (String x EmptyString) (scan_string r1)
            | None => Raise json_error
            end
        end
      else if ord c <? 32 then Raise json_error
      else prepend (String c EmptyString) (scan_string r)
  end.

(** The fraction and the exponent of a number: absent unless they have a digit. *)
Definition scan_fraction (s : string) : option string * string :=
  match s with
  | String c r =>
      if ord c =? 46 then let p := span is_digit r in if bool_decide (p.1 = EmptyString) then (None, s) else (Some p.1, p.2)
      else (None, s)
  | EmptyString => (None, s)
  end.

Definition scan_exponent (s : string) : option Z * string :=
  match s with
  | String c r =>
      if (ord c =? 101) || (ord c =? 69) then
        let sr := parse_sign r in
        let p := span is_digit sr.2 in
        if bool_decide (p.1 = EmptyString) then (None, s)
        else (Some (if sr.1 then - digits_value p.1 0 else digits_value p.1 0), p.2)
      else (None, s)
  | EmptyString => (None, s)
  end.

Definition signed_float (neg : bool) (f : spec_float) : spec_float := if neg then SFopp f else f.

(** The number with the integer part [ip], continued by [rest]. *)
Definition number_tail (neg : bool) (ip rest : string) : res (value * string) :=
  let fp := scan_fraction rest in
  let ep := scan_exponent fp.2 in
  match fp.1, ep.1 with
  | None, None =>
      if slen ip <=? 4300 then Ok (VInt (if neg then - digits_value ip 0 else digits_value ip 0), ep.2)
      else Raise value_error
  | f, e =>
      let frac := default EmptyString f in
      Ok (VFloat (signed_float neg (float_of_dec (digits_value (ip +:+ frac) 0) (default 0 e - slen frac))), ep.2)
  end.

Definition scan_unsigned (neg : bool) (s : string) : res (value * string) :=
  match s with
  | String c r =>
      when negb (is_digit c) raise json_error in
      let ip := if ord c =? 48 then (String c EmptyString, r) else span is_digit s in
      number_tail neg ip.1 ip.2
  | EmptyString => Raise json_error
  end.

Definition scan_number (s : string) : res (value * string) :=
  match s with
  | String c r => if ord c =? 45 then scan_unsigned true r else scan_unsigned false s
  | EmptyString => Raise json_error
  end.

Section loads.
Context (pairs_hook : list (string * value) -> res dict) (parse_constant : string -> res value).

(** [null], [true], [false] and the three constants that are not JSON. *)
Definition scan_literal (s : string) : option (res value * string) :=
  match remove_prefix "null" s with Some r => Some (Ok VNone, r) | None =>
  match remove_prefix "true" s with Some r => Some (Ok (VBool true), r) | None =>
  match remove_prefix "false" s with Some r => Some (Ok (VBool false), r) | None =>
  match remove_prefix "NaN" s with Some r => Some (parse_constant "NaN", r) | None =>
  match remove_prefix "Infinity" s with Some r => Some (parse_constant "Infinity", r) | None =>
  match remove_prefix "-Infinity" s with Some r => Some (parse_constant "-Infinity", r) | None => None
  end end end end end end.

Fixpoint parse_value (fuel : nat) (s : string) : res (value * string) :=
  match fuel, s with
  | S fuel, String c r =>
      if ord c =? 34 then let! (t, rest) := scan_string r in Ok (VStr t, rest)
      else if ord c =? 123 then
        match skip_ws r with
        | String e r' =>
            if ord e =? 125 then let! d := pairs_hook [] in Ok (VDict d, r')
            else let! (kvs, rest) := parse_members fuel (skip_ws r) in let! d := pairs_hook kvs in Ok (VDict d, rest)
        | EmptyString => Raise json_error
        end
      else if ord c =? 91 then
        match skip_ws r with
        | String e r' =>
            if ord e =? 93 then Ok (VList [], r')
            else let! (l, rest) := parse_elements fuel (skip_ws r) in Ok (VList l, rest)
        | EmptyString => Raise json_error
        end
      else match scan_literal s with
      | Some (v, rest) => let! v := v in Ok (v, rest)
      | None => scan_number s
      end
  | _, _ => Raise json_error
  end
with parse_members (fuel : nat) (s : string) : res (list (string * value) * string) :=
  match fuel, s with
  | S fuel, String q r =>
      when negb (ord q =? 34) raise json_error in
      let! (k, r1) := scan_string r in
      match skip_ws r1 with
      | String colon r2 =>
          when negb (ord colon =? 58) raise json_error in
          let! (v, r3) := parse_value fuel (skip_ws r2) in
          match skip_ws r3 with
          | String e r4 =>
              if ord e =? 125 then Ok ([(k, v)], r4)
              else if ord e =? 44 then let! (kvs, rest) := parse_members fuel (skip_ws r4) in Ok ((k, v) :: kvs, rest)
              else Raise json_error
          | EmptyString => Raise json_error
          end
      | EmptyString => Raise json_error
      end
  | _, _ => Raise json_error
  end
with parse_elements (fuel : nat) (s : string) : res (list value * string) :=
  match fuel with
  | S fuel =>
      let! (v, r) := parse_value fuel s in
      match skip_ws r with
      | String e r' =>
          if ord e =? 93 then Ok ([v], r')
          else if ord e =? 44 then let! (l, rest) := parse_elements fuel (skip_ws r') in Ok (v :: l, rest)
          else Raise json_error
      | EmptyString => Raise json_error
      end
  | O => Raise json_error
  end.

Definition byte_order_mark : string := String (chr 239) (String (chr 187) (String (chr 191) EmptyString)).

(** Every call of the parser either consumes a character or is followed by one
    that does, so twice the length bounds the calls. *)
Definition loads_with (s : string) : res value :=
  when startswith s byte_order_mark raise json_error in
  let! (v, r) := parse_value (2 * String.length s + 2) (skip_ws s) in
  match skip_ws r with EmptyString => Ok v | _ => Raise json_error end.
End loads.

(** [json.loads(s)]: of repeated keys the last value is kept, at the first position. *)
Definition last_wins (kvs : list (string * value)) : res dict := Ok (foldl (fun d kv => dset kv.1 kv.2 d) [] kvs).
Definition float_constant (name : string) : res value :=
  Ok (VFloat (if bool_decide (name = "NaN") then S754_nan else S754_infinity (bool_decide (name = "-Infinity")))).
Definition loads : string -> res value := loads_with last_wins float_constant.
