(* ===== verification/PyJsonFacts.v ===== *)
(** * The JSON round trip

    A printed document reads back as the same document: integers, text, lists and
    booleans unchanged, objects with their keys sorted, floating-point numbers as
    floating-point numbers.  The lemma is proved for every pairs hook that accepts
    distinct keys. *)

From Stdlib Require Import Floats.SpecFloat Ascii.
From S2P Require Import Prelude PyDecimal PyText PyValue PyOrder PyBytes PyJson.
From stdpp Require Import base tactics list strings.
From Stdlib Require Import ZArith Lia Bool Permutation Sorted.

Open Scope Z_scope.

(** ** Escapes *)

Lemma hex4_digits n :
  0 <= n < 65536 ->
  exists a b c d, hex4 n = String a (String b (String c (String d EmptyString))) /\ hex4_value a b c d = Some n.
Proof.
  intros Hn. unfold hex4, hex_byte. eexists _, _, _, _. split; [reflexivity|].
  assert (H1 : 0 <= n / 256 < 256) by (split; [apply Z.div_pos; lia|apply Z.div_lt_upper_bound; lia]).
  assert (H2 := Z.mod_pos_bound n 256 ltac:(lia)).
  destruct (nibbles _ H1) as (A1 & A2 & A3). destruct (nibbles _ H2) as (B1 & B2 & B3).
  unfold hex4_value. rewrite !(fun m H => proj1 (hex_digit_value m H)) by done.
  f_equal. pose proof (Z.div_mod n 256). lia.
Qed.

Lemma scan_escape n rest :
  0 <= n < 65536 -> is_high n = false -> scan_string (u_escape n +:+ rest) = prepend (utf8_of_cp n) (scan_string rest).
Proof.
  intros Hn Hh. destruct (hex4_digits n Hn) as (a & b & c & d & E & V). unfold u_escape. rewrite E.
  change (("\u" +:+ String a (String b (String c (String d EmptyString)))) +:+ rest)
    with (String "\" (String "u" (String a (String b (String c (String d rest)))))).
  cbn [scan_string]. change (ord "\" =? 34) with false. change (ord "\" =? 92) with true. change (ord "u" =? 117) with true.
  cbn iota. by rewrite V, Hh.
Qed.

Lemma scan_pair cp rest :
  65536 <= cp < 1114112 -> scan_string (pair_escape cp +:+ rest) = prepend (utf8_of_cp cp) (scan_string rest).
Proof.
  intros Hc. unfold pair_escape, u_escape.
  assert (Hq : 0 <= (cp - 65536) / 1024 < 1024) by (split; [apply Z.div_pos; lia|apply Z.div_lt_upper_bound; lia]).
  assert (Hr := Z.mod_pos_bound (cp - 65536) 1024 ltac:(lia)).
  assert (Hdm := Z.div_mod (cp - 65536) 1024 ltac:(lia)).
  set (hi := 55296 + (cp - 65536) / 1024) in *. set (lo := 56320 + (cp - 65536) mod 1024) in *.
  destruct (hex4_digits hi ltac:(lia)) as (a & b & c & d & -> & V). destruct (hex4_digits lo ltac:(lia)) as (a' & b' & c' & d' & -> & W).
  change ((("\u" +:+ String a (String b (String c (String d EmptyString)))) +:+
           "\u" +:+ String a' (String b' (String c' (String d' EmptyString)))) +:+ rest)
    with (String "\" (String "u" (String a (String b (String c (String d
           (String "\" (String "u" (String a' (String b' (String c' (String d' rest)))))))))))).
  cbn [scan_string]. change (ord "\" =? 34) with false. change (ord "\" =? 92) with true. change (ord "u" =? 117) with true.
  cbn iota. rewrite V. assert (is_high hi = true) as -> by (unfold is_high; apply andb_true_intro; lia).
  cbn [andb]. rewrite W. assert (is_low lo = true) as -> by (unfold is_low; apply andb_true_intro; lia).
  do 2 f_equal. unfold combine_pair. lia.
Qed.

(** ** Decoding the code points of well-formed text *)

Ltac div_eq := Z.div_mod_to_equations; lia.

Lemma utf8_of_cp1 a : ord a < 128 -> utf8_of_cp (ord a) = String a EmptyString.
Proof. intros H. unfold utf8_of_cp. rewrite (proj2 (Z.ltb_lt _ _)) by done. by rewrite chr_ord. Qed.

Lemma ord_cont b : cont b = true -> 128 <= ord b <= 191.
Proof. unfold cont. intros. split_bools. lia. Qed.

Lemma utf8_of_cp2 a b :
  194 <= ord a <= 223 -> cont b = true ->
  128 <= cp2 a b < 2048 /\ utf8_of_cp (cp2 a b) = String a (String b EmptyString).
Proof.
  intros Ha Hb%ord_cont. assert (Hr : 128 <= cp2 a b < 2048) by (unfold cp2; lia). split; [done|].
  unfold utf8_of_cp. rewrite (proj2 (Z.ltb_ge _ _)) by lia. rewrite (proj2 (Z.ltb_lt _ 2048)) by lia.
  replace (192 + cp2 a b / 64) with (ord a) by (unfold cp2; div_eq).
  replace (128 + cp2 a b mod 64) with (ord b) by (unfold cp2; div_eq). by rewrite !chr_ord.
Qed.

Lemma utf8_of_cp3 a b c :
  224 <= ord a <= 239 -> second3 (ord a) b = true -> cont c = true ->
  2048 <= cp3 a b c < 65536 /\ is_high (cp3 a b c) = false /\
  utf8_of_cp (cp3 a b c) = String a (String b (String c EmptyString)).
Proof.
  intros Ha Hb Hc%ord_cont. unfold second3 in Hb. apply andb_prop in Hb as [Hb Hs]. apply andb_prop in Hb as [Hb He].
  apply ord_cont in Hb.
  assert (Hlow : ord a = 224 -> 160 <= ord b) by (intros E; rewrite E in He; simpl in He; split_bools; lia).
  assert (Hsur : ord a = 237 -> ord b <= 159) by (intros E; rewrite E in Hs; simpl in Hs; split_bools; lia).
  assert (Hr : 2048 <= cp3 a b c < 65536).
  { unfold cp3. destruct (Z.eq_dec (ord a) 224); [specialize (Hlow e)|]; lia. }
  split; [done|]. split.
  - unfold is_high. apply andb_false_iff. unfold cp3.
    destruct (Z.lt_total (ord a) 237) as [|[E|]]; [left; apply Z.leb_gt; lia|specialize (Hsur E); left; apply Z.leb_gt; lia|right; apply Z.leb_gt; lia].
  - unfold utf8_of_cp. rewrite (proj2 (Z.ltb_ge _ 128)) by lia. rewrite (proj2 (Z.ltb_ge _ 2048)) by lia.
    rewrite (proj2 (Z.ltb_lt _ 65536)) by lia.
    replace (224 + cp3 a b c / 4096) with (ord a) by (unfold cp3; div_eq).
    replace (128 + cp3 a b c / 64 mod 64) with (ord b) by (unfold cp3; div_eq).
    replace (128 + cp3 a b c mod 64) with (ord c) by (unfold cp3; div_eq). by rewrite !chr_ord.
Qed.

Lemma utf8_of_cp4 a b c d :
  240 <= ord a <= 244 -> second4 (ord a) b = true -> cont c = true -> cont d = true ->
  65536 <= cp4 a b c d < 1114112 /\
  utf8_of_cp (cp4 a b c d) = String a (String b (String c (String d EmptyString))).
Proof.
  intros Ha Hb Hc%ord_cont Hd%ord_cont. unfold second4 in Hb. apply andb_prop in Hb as [Hb Hs]. apply andb_prop in Hb as [Hb He].
  apply ord_cont in Hb.
  assert (Hlow : ord a = 240 -> 144 <= ord b) by (intros E; rewrite E in He; simpl in He; split_bools; lia).
  assert (Htop : ord a = 244 -> ord b <= 143) by (intros E; rewrite E in Hs; simpl in Hs; split_bools; lia).
  assert (Hr : 65536 <= cp4 a b c d < 1114112).
  { unfold cp4. destruct (Z.eq_dec (ord a) 240) as [e|]; [specialize (Hlow e); lia|].
    destruct (Z.eq_dec (ord a) 244) as [e|]; [specialize (Htop e)|]; lia. }
  split; [done|].
  unfold utf8_of_cp. rewrite (proj2 (Z.ltb_ge _ 128)) by lia. rewrite (proj2 (Z.ltb_ge _ 2048)) by lia.
  rewrite (proj2 (Z.ltb_ge _ 65536)) by lia.
  replace (240 + cp4 a b c d / 262144) with (ord a) by (unfold cp4; div_eq).
  replace (128 + cp4 a b c d / 4096 mod 64) with (ord b) by (unfold cp4; div_eq).
  replace (128 + cp4 a b c d / 64 mod 64) with (ord c) by (unfold cp4; div_eq).
  replace (128 + cp4 a b c d mod 64) with (ord d) by (unfold cp4; div_eq). by rewrite !chr_ord.
Qed.

(** A printed ASCII character reads back as itself. *)
Lemma scan_char a rest :
  ord a < 128 -> scan_string (json_char a +:+ rest) = prepend (String a EmptyString) (scan_string rest).
Proof.
  intros Ha. unfold json_char.
  destruct (Z.eqb_spec (ord a) 34) as [E|N1]; [rewrite <- (chr_ord a), E; reflexivity|].
  destruct (Z.eqb_spec (ord a) 92) as [E|N2]; [rewrite <- (chr_ord a), E; reflexivity|].
  destruct (Z.eqb_spec (ord a) 10) as [E|N3]; [rewrite <- (chr_ord a), E; reflexivity|].
  destruct (Z.eqb_spec (ord a) 13) as [E|N4]; [rewrite <- (chr_ord a), E; reflexivity|].
  destruct (Z.eqb_spec (ord a) 9) as [E|N5]; [rewrite <- (chr_ord a), E; reflexivity|].
  destruct (Z.eqb_spec (ord a) 8) as [E|N6]; [rewrite <- (chr_ord a), E; reflexivity|].
  destruct (Z.eqb_spec (ord a) 12) as [E|N7]; [rewrite <- (chr_ord a), E; reflexivity|].
  destruct ((ord a <? 32) || (126 <? ord a)) eqn:E.
  - pose proof (ord_range a). rewrite <- (utf8_of_cp1 a Ha), <- scan_escape;
      [|lia|unfold is_high; apply andb_false_iff; left; apply Z.leb_gt; lia].
    unfold u_escape, hex4. rewrite Z.div_small, Z.mod_small by lia. reflexivity.
  - change (String a EmptyString +:+ rest) with (String a rest). cbn [scan_string].
    rewrite (proj2 (Z.eqb_neq _ _) N1), (proj2 (Z.eqb_neq _ _) N2).
    apply orb_false_elim in E as [-> _]. reflexivity.
Qed.

Lemma prepend_prepend p q m : prepend p (prepend q m) = prepend (p +:+ q) m.
Proof. unfold prepend. destruct m as [[t r]|]; simpl; [|done]. by rewrite append_assoc. Qed.
Lemma prepend_ok p t r : prepend p (Ok (t, r)) = Ok (p +:+ t, r).
Proof. done. Qed.

Lemma scan_json_text s rest : utf8_ok s = true -> scan_string (json_text s +:+ String (chr 34) rest) = Ok (s, rest).
Proof.
  remember (String.length s) as n eqn:En. assert (Hn : (String.length s <= n)%nat) by lia. clear En. revert s Hn.
  induction n as [|n IH]; intros [|a r] Hn H; try (by (simpl in Hn; lia)); try done.
  cbn [utf8_ok] in H. cbn [json_text]. simpl in Hn. destruct (Z.ltb_spec (ord a) 128) as [Ha|Ha].
  { rewrite append_assoc, scan_char, IH by (done || lia). done. }
  destruct r as [|b r]; [done|]. simpl in Hn. destruct ((194 <=? ord a) && (ord a <=? 223)) eqn:E2.
  { split_bools. rewrite (proj2 (Z.ltb_lt _ 224)) by lia. destruct (utf8_of_cp2 a b) as [Hr Ht]; [lia|done|].
    rewrite append_assoc, scan_escape, IH, Ht by (done || lia || (unfold is_high; apply andb_false_iff; left; apply Z.leb_gt; lia)).
    done. }
  destruct r as [|c r]; [done|]. simpl in Hn. destruct ((224 <=? ord a) && (ord a <=? 239)) eqn:E3.
  { split_bools. rewrite (proj2 (Z.ltb_ge _ 224)), (proj2 (Z.ltb_lt _ 240)) by lia.
    destruct (utf8_of_cp3 a b c) as (Hr & Hh & Ht); [lia|done|done|].
    rewrite append_assoc, scan_escape, IH, Ht by (done || lia). done. }
  destruct r as [|d r]; [done|]. simpl in Hn. split_bools. rewrite (proj2 (Z.ltb_ge _ 224)), (proj2 (Z.ltb_ge _ 240)) by lia.
  destruct (utf8_of_cp4 a b c d) as [Hr Ht]; [lia|done|done|done|].
  rewrite append_assoc, scan_pair, IH, Ht by (done || lia). done.
Qed.

(** ** Numbers *)

(** What may follow a number. *)
Definition stop (rest : string) : bool :=
  match rest with
  | EmptyString => true
  | String c _ => negb (is_digit c) && negb (ord c =? 46) && negb (ord c =? 101) && negb (ord c =? 69)
  end.

Lemma stop_no_digit rest : stop rest = true -> no_digit_head rest = true.
Proof. destruct rest; simpl; [done|]. intros. split_bools. by apply negb_true_iff. Qed.
Lemma stop_fraction rest : stop rest = true -> scan_fraction rest = (None, rest).
Proof. destruct rest; simpl; [done|]. intros. split_bools. by rewrite (proj2 (Z.eqb_neq _ _)). Qed.
Lemma stop_exponent rest : stop rest = true -> scan_exponent rest = (None, rest).
Proof. destruct rest; simpl; [done|]. intros. split_bools. by rewrite (proj2 (Z.eqb_neq _ 101)), (proj2 (Z.eqb_neq _ 69)). Qed.

(** The integer part of a number: digits without a leading zero. *)
Definition int_part (s : string) : bool :=
  sforall is_digit s &&
  match s with
  | EmptyString => false
  | String c EmptyString => true
  | String c _ => negb (ord c =? 48)
  end.

Lemma scan_int_part s rest :
  int_part s = true -> no_digit_head rest = true ->
  exists c r, s +:+ rest = String c r /\ is_digit c = true /\
    (if ord c =? 48 then (String c EmptyString, r) else span is_digit (s +:+ rest)) = (s, rest).
Proof.
  unfold int_part. intros [Hd Hz]%andb_prop Hr. destruct s as [|c s]; [done|].
  exists c, (s +:+ rest). split; [done|]. split; [by simpl in Hd; apply andb_prop in Hd as [? _]|].
  rewrite span_digits by done. destruct (Z.eqb_spec (ord c) 48) as [E|]; [|done].
  destruct s; [done|]. split_bools. done.
Qed.

Lemma digits_fuel_head n z acc :
  0 < z -> z < 10 ^ Z.of_nat n ->
  exists c t, digits_fuel n z acc = String c t +:+ acc /\ is_digit c = true /\ ord c <> 48.
Proof.
  revert z acc; induction n as [|n IH]; intros z acc Hz Hlt; [simpl in Hlt; lia|]. cbn [digits_fuel].
  destruct (Z.ltb_spec z 10).
  - rewrite Z.mod_small by lia. eexists _, EmptyString. split; [reflexivity|].
    destruct (digit_char_spec z ltac:(lia)) as [? Hv]. split; [done|]. unfold digit_val in Hv. lia.
  - destruct (IH (z / 10) (String (digit_char (z mod 10)) acc)) as (c & t & -> & Hc & Hn).
    + apply Z.div_str_pos; lia.
    + apply Z.div_lt_upper_bound; [lia|]. rewrite Nat2Z.inj_succ, Z.pow_succ_r in Hlt by lia. lia.
    + exists c, (t +:+ String (digit_char (z mod 10)) EmptyString). split; [|done].
      rewrite !append_cons, append_assoc. done.
Qed.

Lemma digits_int_part z : 0 <= z -> int_part (digits z) = true.
Proof.
  intros Hz. destruct (digits_spec z Hz) as (Hd & Hp & _). unfold int_part. rewrite Hd. simpl.
  destruct (Z.eq_dec z 0) as [->|]; [done|].
  destruct (digits_fuel_head (S (Z.to_nat (Z.log2 z))) z EmptyString) as (c & t & E & Hc & Hn); [lia| |].
  - pose proof (Z.log2_spec z ltac:(lia)) as [_ Hl]. pose proof (Z.log2_nonneg z).
    rewrite Nat2Z.inj_succ, Z2Nat.id by done. eapply Z.lt_le_trans; [exact Hl|]. apply Z.pow_le_mono_l. lia.
  - unfold digits. rewrite E, append_nil_r. destruct t; [done|]. by rewrite (proj2 (Z.eqb_neq _ _)).
Qed.

(** Reading a signed integer part that is followed by something else. *)
Lemma scan_signed (neg : bool) ip rest :
  int_part ip = true -> no_digit_head rest = true ->
  scan_number ((if neg then "-" else "") +:+ ip +:+ rest) = number_tail neg ip rest.
Proof.
  intros Hi Hr. destruct (scan_int_part ip rest Hi Hr) as (c & r & E & Hc & Hs).
  assert (Hneg : ord c =? 45 = false).
  { unfold is_digit in Hc. split_bools. apply Z.eqb_neq. lia. }
  assert (Hu : forall b, scan_unsigned b (ip +:+ rest) = number_tail b ip rest).
  { intros b. unfold scan_unsigned. rewrite E in Hs |- *. rewrite Hc, Hs. reflexivity. }
  unfold scan_number. destruct neg.
  - change ("-" +:+ ip +:+ rest) with (String "-" (ip +:+ rest)). apply Hu.
  - rewrite append_nil_l, E, Hneg, <- E. apply Hu.
Qed.

Lemma scan_number_int z rest :
  int_text_ok (VInt z) = true -> stop rest = true ->
  scan_number (str_int z +:+ rest) = Ok (VInt z, rest).
Proof.
  intros Hl%Z.leb_le Hs. rewrite <- slen_digits in Hl by lia. destruct (digits_spec (Z.abs z)) as (_ & _ & Hv); [lia|].
  assert (E : str_int z = (if z <? 0 then "-" else "") +:+ digits (Z.abs z)).
  { unfold str_int. destruct (Z.ltb_spec z 0); [|rewrite append_nil_l]; do 2 f_equal; lia. }
  rewrite E, append_assoc, scan_signed; [|apply digits_int_part; lia|by apply stop_no_digit].
  unfold number_tail. rewrite stop_fraction by done. cbn [fst snd]. rewrite stop_exponent by done. cbn [fst snd].
  rewrite (proj2 (Z.leb_le _ _)) by done. rewrite Hv. do 3 f_equal. destruct (Z.ltb_spec z 0); lia.
Qed.

(** *** Floating-point numbers *)

Lemma scan_fraction_digits ds rest :
  sforall is_digit ds = true -> ds <> EmptyString -> no_digit_head rest = true ->
  scan_fraction ("." +:+ ds +:+ rest) = (Some ds, rest).
Proof.
  intros Hd Hn Hr. change ("." +:+ ds +:+ rest) with (String "." (ds +:+ rest)). unfold scan_fraction.
  change (ord "." =? 46) with true. rewrite span_digits by done. cbn [fst snd]. by rewrite bool_decide_eq_false_2.
Qed.

Lemma scan_exponent_digits (neg : bool) ds rest :
  sforall is_digit ds = true -> ds <> EmptyString -> no_digit_head rest = true ->
  scan_exponent ("e" +:+ (if neg then "-" else "+") +:+ ds +:+ rest) =
    (Some (if neg then - digits_value ds 0 else digits_value ds 0), rest).
Proof.
  intros Hd Hn Hr. change ("e" +:+ ?x) with (String "e" x). unfold scan_exponent. change (ord "e" =? 101) with true.
  destruct neg; [change ("-" +:+ ds +:+ rest) with (String "-" (ds +:+ rest))|change ("+" +:+ ds +:+ rest) with (String "+" (ds +:+ rest))];
    cbn [orb parse_sign fst snd]; rewrite span_digits by done; cbn [fst snd]; rewrite bool_decide_eq_false_2 by done; done.
Qed.

(** A fraction or an exponent makes the number a float. *)
Lemma tail_fraction neg ip ds :
  sforall is_digit ds = true -> ds <> EmptyString ->
  exists g, forall rest, stop rest = true -> number_tail neg ip ("." +:+ ds +:+ rest) = Ok (VFloat g, rest).
Proof.
  intros Hd Hn. eexists. intros rest Hr. unfold number_tail. rewrite scan_fraction_digits by (done || by apply stop_no_digit). cbn [fst snd].
  rewrite stop_exponent by done. cbn [fst snd]. reflexivity.
Qed.

Lemma tail_exponent (neg eneg : bool) ip fr ds :
  sforall is_digit ds = true -> ds <> EmptyString ->
  (fr = EmptyString \/ exists fs, fr = "." +:+ fs /\ sforall is_digit fs = true /\ fs <> EmptyString) ->
  exists g, forall rest, stop rest = true ->
    number_tail neg ip (fr +:+ "e" +:+ (if eneg then "-" else "+") +:+ ds +:+ rest) = Ok (VFloat g, rest).
Proof.
  intros Hd Hn Hf. unfold number_tail. destruct Hf as [->|(fs & -> & Hfs & Hne)]; eexists; intros rest Hr;
    pose proof (scan_exponent_digits eneg ds rest Hd Hn (stop_no_digit _ Hr)) as He.
  - rewrite append_nil_l.
    assert (scan_fraction ("e" +:+ (if eneg then "-" else "+") +:+ ds +:+ rest) =
            (None, "e" +:+ (if eneg then "-" else "+") +:+ ds +:+ rest)) as -> by reflexivity.
    cbn [fst snd]. rewrite He. cbn [fst snd]. reflexivity.
  - rewrite append_assoc, scan_fraction_digits by done. cbn [fst snd]. rewrite He. cbn [fst snd]. reflexivity.
Qed.

Lemma strip_zeros_pos n c q : 0 < c -> 0 < (strip_zeros n c q).1.
Proof.
  revert c q; induction n as [|n IH]; intros c q Hc; [done|]. cbn [strip_zeros].
  destruct (Z.eqb_spec (c mod 10) 0); [|done]. apply IH. pose proof (Z.div_mod c 10). lia.
Qed.

(** The exponent the search starts from leaves at least one digit. *)
Lemma leading_exponent_spec num den :
  0 < num -> 0 < den ->
  let k := leading_exponent num den in
  (0 <= k - 1 -> den * 10 ^ (k - 1) <= num) /\ (k - 1 < 0 -> den <= num * 10 ^ (1 - k)).
Proof.
  intros Hn Hd. cbv zeta. unfold leading_exponent. destruct (Z.leb_spec den num) as [H|H].
  - assert (0 < num / den) by (apply Z.div_str_pos; lia). destruct (ndigits_spec (num / den)) as (H1 & H2 & _); [done|].
    split; [|lia]. intros _. transitivity (den * (num / den)); [nia|]. pose proof (Z.mul_div_le num den). lia.
  - assert (0 < den / num) by (apply Z.div_str_pos; lia). destruct (ndigits_spec (den / num)) as (H1 & _ & H3); [done|].
    set (j := ndigits (den / num)) in *. destruct (Z.leb_spec den (num * 10 ^ (j - 1))) as [Hj|Hj].
    + split; [intros|intros; replace (1 - (2 - j)) with (j - 1) by lia; exact Hj].
      assert (j = 1) as Ej by lia. rewrite Ej in *. simpl in *. lia.
    + split; [lia|]. intros _. replace (1 - (1 - j)) with j by lia.
      pose proof (Z.div_mod den num). pose proof (Z.mod_pos_bound den num). nia.
Qed.

Lemma leading_digit num den k n :
  0 < num -> 0 < den -> 1 <= n ->
  (0 <= k - 1 -> den * 10 ^ (k - 1) <= num) -> (k - 1 < 0 -> den <= num * 10 ^ (1 - k)) ->
  0 < (if 0 <=? k - n then num else num * 10 ^ (- (k - n))) / (if 0 <=? k - n then den * 10 ^ (k - n) else den).
Proof.
  intros Hn Hd Hn1 Hk1 Hk2. apply Z.div_str_pos. destruct (Z.leb_spec 0 (k - n)).
  - pose proof (pow10_le (k - n) (k - 1)). pose proof (Z.pow_pos_nonneg 10 (k - n)). specialize (Hk1 ltac:(lia)). nia.
  - split; [done|]. destruct (Z.le_gt_cases 0 (k - 1)) as [Hp|Hp].
    + specialize (Hk1 Hp). pose proof (Z.pow_pos_nonneg 10 (k - 1)). pose proof (Z.pow_pos_nonneg 10 (- (k - n))). nia.
    + specialize (Hk2 ltac:(lia)). pose proof (pow10_le (1 - k) (- (k - n))). nia.
Qed.

Lemma shortest_search_pos target num den k fuel n :
  0 < num -> 0 < den -> 1 <= n ->
  (0 <= k - 1 -> den * 10 ^ (k - 1) <= num) -> (k - 1 < 0 -> den <= num * 10 ^ (1 - k)) ->
  0 < (shortest_search target num den k fuel n).1.
Proof.
  intros Hn Hd Hn1 Hk1 Hk2. revert n Hn1. induction fuel as [|fuel IH]; intros n Hn1;
    pose proof (leading_digit num den k n Hn Hd Hn1 Hk1 Hk2) as Hlo; cbn [shortest_search]; [done|].
  destruct (_ && _); [by apply strip_zeros_pos|]. destruct (sf_eqb _ _); [apply strip_zeros_pos; lia|]. apply IH. lia.
Qed.

Lemma shortest_dec_pos m e : 0 < (shortest_dec m e).1.
Proof.
  unfold shortest_dec. set (num := Zpos m * 2 ^ Z.max e 0). set (den := 2 ^ Z.max (- e) 0).
  assert (Hn : 0 < num) by (unfold num; pose proof (Z.pow_pos_nonneg 2 (Z.max e 0)); lia).
  assert (Hd : 0 < den) by (unfold den; apply Z.pow_pos_nonneg; lia).
  destruct (leading_exponent_spec num den Hn Hd). apply shortest_search_pos; done || lia.
Qed.

Lemma digits_head c : 0 < c -> exists d t, digits c = String d t /\ is_digit d = true /\ ord d <> 48 /\ sforall is_digit t = true.
Proof.
  intros Hc. destruct (digits_spec c ltac:(lia)) as (Hd & Hp & _). pose proof (digits_int_part c ltac:(lia)) as Hi.
  destruct (digits_fuel_head (S (Z.to_nat (Z.log2 c))) c EmptyString) as (d & t & E & Hdd & Hn); [done| |].
  - pose proof (Z.log2_spec c ltac:(lia)) as [_ Hl]. pose proof (Z.log2_nonneg c).
    rewrite Nat2Z.inj_succ, Z2Nat.id by done. eapply Z.lt_le_trans; [exact Hl|]. apply Z.pow_le_mono_l. lia.
  - unfold digits in *. rewrite E, append_nil_r in *. exists d, t. simpl in Hd. split_bools. done.
Qed.

Lemma int_part_head d t : is_digit d = true -> ord d <> 48 -> sforall is_digit t = true -> int_part (String d t) = true.
Proof.
  intros Hd Hn Ht. unfold int_part. simpl. rewrite Hd, Ht. simpl. destruct t; [done|]. by rewrite (proj2 (Z.eqb_neq _ _)).
Qed.

Lemma sforall_stake f n s : sforall f s = true -> sforall f (stake n s) = true.
Proof. revert s; induction n; intros [|c s]; simpl; try done. intros. split_bools. rewrite IHn by done. by rewrite H. Qed.
Lemma sforall_sdrop f n s : sforall f s = true -> sforall f (sdrop n s) = true.
Proof. revert s; induction n; intros [|c s]; simpl; try done. intros. split_bools. by apply IHn. Qed.
Lemma slen_sdrop n s : Z.of_nat n < slen s -> sdrop n s <> EmptyString.
Proof. revert s; induction n; intros [|c s]; cbn [slen sdrop]; try done; pose proof (slen_nonneg s); try lia. intros. apply IHn. lia. Qed.

Lemma repr_positive_head c q : 0 < c -> exists d r, repr_positive c q = String d r /\ is_digit d = true.
Proof.
  intros Hc. destruct (digits_head c Hc) as (d & t & E & Hd & _). unfold repr_positive. rewrite E.
  destruct (_ && _); [|by eexists _, _]. destruct (Z.leb_spec (q + slen (String d t)) 0); [by eexists _, _|].
  destruct (_ <=? _); [by eexists _, _|]. destruct (Z.to_nat _) eqn:Ek; [lia|by eexists _, _].
Qed.

(** [repr] of a finite number reads back as a floating-point number. *)
Lemma scan_repr_positive (neg : bool) c q :
  0 < c ->
  exists g, forall rest, stop rest = true ->
    scan_number ((if neg then "-" else "") +:+ repr_positive c q +:+ rest) = Ok (VFloat g, rest).
Proof.
  intros Hc. destruct (digits_head c Hc) as (d & t & E & Hd & Hn & Ht). unfold repr_positive. rewrite E.
  assert (Hds : sforall is_digit (String d t) = true) by (simpl; by rewrite Hd).
  set (n := slen (String d t)). set (decpt := q + n). assert (Hpos : 0 < n) by (unfold n; cbn [slen]; pose proof (slen_nonneg t); lia).
  destruct ((-4 <? decpt) && (decpt <=? 16)).
  - destruct (Z.leb_spec decpt 0) as [Hle|Hgt]; [|destruct (Z.leb_spec n decpt) as [Hnd|Hnd]].
    + change ("0." +:+ ?x) with (("0" : string) +:+ "." +:+ x).
      destruct (tail_fraction neg "0" (srepeat "0" (Z.to_nat (- decpt)) +:+ String d t)) as [g Hg];
        [by rewrite sforall_app, sforall_zeros, Hds|by destruct (srepeat _ _)|].
      exists g. intros rest Hr. rewrite <- (Hg rest Hr), !append_assoc. by rewrite scan_signed.
    + destruct (tail_fraction neg (String d (t +:+ srepeat "0" (Z.to_nat (decpt - n)))) "0") as [g Hg]; [done|done|].
      exists g. intros rest Hr. set (z := srepeat "0" _). assert (X : (String d t +:+ z +:+ ".0") +:+ rest = String d (t +:+ z) +:+ "." +:+ "0" +:+ rest).
      { change (String d (t +:+ z)) with (String d t +:+ z). by rewrite !append_assoc. }
      rewrite X, scan_signed; [by apply Hg|apply int_part_head; try done|done].
      by rewrite sforall_app, Ht; apply sforall_zeros.
    + destruct (Z.to_nat decpt) as [|k] eqn:Ek; [lia|]. cbn [stake].
      destruct (tail_fraction neg (String d (stake k t)) (sdrop (S k) (String d t))) as [g Hg];
        [by apply sforall_sdrop|apply slen_sdrop; fold n; lia|].
      exists g. intros rest Hr. rewrite !append_assoc.
      rewrite scan_signed; [by apply Hg|apply int_part_head; try done; by apply sforall_stake|done].
  - set (fr := if n =? 1 then "" else "." +:+ sdrop 1 (String d t)).
    set (ed := (if Z.abs (decpt - 1) <? 10 then "0" else "") +:+ digits (Z.abs (decpt - 1))).
    destruct (digits_spec (Z.abs (decpt - 1)) ltac:(lia)) as (He & Hel & _).
    assert (Hed : sforall is_digit ed = true) by (unfold ed; rewrite sforall_app, He; by destruct (_ <? 10)).
    assert (Hen : ed <> EmptyString).
    { unfold ed. destruct (_ <? 10); [done|]. rewrite append_nil_l. intros X. rewrite X in Hel. simpl in Hel. lia. }
    assert (Hfr : fr = EmptyString \/ exists fs, fr = "." +:+ fs /\ sforall is_digit fs = true /\ fs <> EmptyString).
    { unfold fr. destruct (Z.eqb_spec n 1); [by left|]. right. exists t. repeat split; [done|]. intros ->. by simpl in n. }
    destruct (tail_exponent neg (decpt - 1 <? 0) (String d EmptyString) fr ed Hed Hen Hfr) as [g Hg]. exists g. intros rest Hr.
    assert (X : (stake 1 (String d t) +:+ fr +:+ "e" +:+ (if decpt - 1 <? 0 then "-" else "+") +:+ ed) +:+ rest =
                String d EmptyString +:+ fr +:+ "e" +:+ (if decpt - 1 <? 0 then "-" else "+") +:+ ed +:+ rest).
    { cbn [stake]. by rewrite !append_assoc. }
    rewrite X, scan_signed; [by apply Hg|by apply int_part_head|].
    destruct Hfr as [->|(fs & -> & _)]; done.
Qed.

(** ** Documents *)

(** Induction on documents. *)
Lemma value_nested_ind (P : value -> Prop) :
  P VNone -> (forall b, P (VBool b)) -> (forall z, P (VInt z)) -> (forall f, P (VFloat f)) -> (forall d, P (VDec d)) ->
  (forall s, P (VStr s)) -> (forall l, Forall P l -> P (VList l)) ->
  (forall d, Forall (fun kv => P kv.2) d -> P (VDict d)) -> forall v, P v.
Proof.
  intros Hnone Hbool Hint Hfloat Hdec Hstr Hlist Hdict. fix IH 1.
  intros [|b|z|f|d|s|l|d]; [done|apply Hbool|apply Hint|apply Hfloat|apply Hdec|apply Hstr| |].
  - apply Hlist. induction l; constructor; [apply IH|auto].
  - apply Hdict. induction d as [|[k v] d IHd]; constructor; [apply IH|auto].
Qed.

(** Documents whose text is well formed and whose objects have distinct keys. *)
Fixpoint json_ok (v : value) : bool :=
  match v with
  | VStr s => utf8_ok s
  | VDec _ => false
  | VList l => forallb json_ok l
  | VDict d => bool_decide (NoDup (map fst d)) && forallb (fun kv => utf8_ok kv.1 && json_ok kv.2) d
  | _ => true
  end.

#[export] Instance spec_float_eq_dec : EqDecision spec_float.
Proof. solve_decision. Defined.

(** Finite documents have no infinity and no NaN.  A float is exact when its printed
    digits read back as the float; [repr] promises this of every binary64 number. *)
Definition finite_float (f : spec_float) : bool := match f with S754_zero _ | S754_finite _ _ _ => true | _ => false end.
Definition exact_float (f : spec_float) : bool :=
  finite_float f && match scan_number (float_text f) with Ok (VFloat g, EmptyString) => bool_decide (g = f) | _ => false end.

Fixpoint floats_all (ok : spec_float -> bool) (v : value) : bool :=
  match v with
  | VFloat f => ok f
  | VList l => forallb (floats_all ok) l
  | VDict d => forallb (fun kv => floats_all ok kv.2) d
  | _ => true
  end.

(** Equal up to the order of keys and the digits of floats that are not exact. *)
Inductive like : value -> value -> Prop :=
| like_none : like VNone VNone
| like_bool b : like (VBool b) (VBool b)
| like_int z : like (VInt z) (VInt z)
| like_float f g : (exact_float f = true -> g = f) -> like (VFloat f) (VFloat g)
| like_str s : like (VStr s) (VStr s)
| like_list l l' : Forall2 like l l' -> like (VList l) (VList l')
| like_dict d ds d' :
    Permutation ds d -> Forall2 (fun a b => a.1 = b.1 /\ like a.2 b.2) ds d' -> like (VDict d) (VDict d').

Lemma dumps_list l :
  dumps (VList l) = let! xs := rmapM dumps l in Ok ("[" +:+ PyValue.join "," xs +:+ "]").
Proof.
  cbn [dumps]. f_equal. induction l as [|x l IH]; [done|]. cbn [rmapM]. destruct (dumps x); simpl; [|done]. by rewrite IH.
Qed.

Definition dump_member (kv : string * value) : res (string * string) := let! s := dumps kv.2 in Ok (kv.1, s).

Lemma dumps_dict d :
  dumps (VDict d) =
  let! xs := rmapM dump_member d in Ok ("{" +:+ PyValue.join "," (map member_text (sorted_by key_leb xs)) +:+ "}").
Proof.
  cbn [dumps]. f_equal. induction d as [|[k x] d IH]; [done|]. cbn [rmapM]. unfold dump_member at 1. simpl.
  destruct (dumps x); simpl; [|done]. by rewrite IH.
Qed.

Lemma skip_ws_id c r : is_json_space c = false -> skip_ws (String c r) = String c r.
Proof. intros H. cbn [skip_ws]. by rewrite H. Qed.

(** Text between two delimiters. *)
Lemma wrap_app a b x tl : (String a EmptyString +:+ x +:+ String b EmptyString) +:+ tl = String a (x +:+ String b tl).
Proof. by rewrite !append_assoc. Qed.
Lemma wrap_slen a b x : slen (String a EmptyString +:+ x +:+ String b EmptyString) = slen x + 2.
Proof. rewrite !slen_app. simpl. lia. Qed.

Lemma join_cons sep x y l : PyValue.join sep (x :: y :: l) = x +:+ sep +:+ PyValue.join sep (y :: l).
Proof. done. Qed.

Section roundtrip.
Context (pairs_hook : list (string * value) -> res dict) (parse_constant : string -> res value).
Hypothesis hook_distinct : forall kvs, List.NoDup (map fst kvs) -> pairs_hook kvs = Ok kvs.
Variable nan_allowed : bool.
Hypothesis constant_float : nan_allowed = true -> forall name, exists g, parse_constant name = Ok (VFloat g).

Abbreviation pvalue := (parse_value pairs_hook parse_constant).
Abbreviation pmembers := (parse_members pairs_hook parse_constant).
Abbreviation pelements := (parse_elements pairs_hook parse_constant).

(** The equations of the parser. *)
Lemma pvalue_string fuel r : pvalue (S fuel) (String (chr 34) r) = let! (t, rest) := scan_string r in Ok (VStr t, rest).
Proof. reflexivity. Qed.
Lemma pvalue_object fuel r :
  pvalue (S fuel) (String "{" r) =
  match skip_ws r with
  | String e r' =>
      if ord e =? 125 then let! d := pairs_hook [] in Ok (VDict d, r')
      else let! (kvs, rest) := pmembers fuel (skip_ws r) in let! d := pairs_hook kvs in Ok (VDict d, rest)
  | EmptyString => Raise json_error
  end.
Proof. reflexivity. Qed.
Lemma pvalue_array fuel r :
  pvalue (S fuel) (String "[" r) =
  match skip_ws r with
  | String e r' =>
      if ord e =? 93 then Ok (VList [], r') else let! (l, rest) := pelements fuel (skip_ws r) in Ok (VList l, rest)
  | EmptyString => Raise json_error
  end.
Proof. reflexivity. Qed.
Lemma pmembers_next fuel r :
  pmembers (S fuel) (String (chr 34) r) =
  let! (k, r1) := scan_string r in
  match skip_ws r1 with
  | String colon r2 =>
      when negb (ord colon =? 58) raise json_error in
      let! (v, r3) := pvalue fuel (skip_ws r2) in
      match skip_ws r3 with
      | String e r4 =>
          if ord e =? 125 then Ok ([(k, v)], r4)
          else if ord e =? 44 then let! (kvs, rest) := pmembers fuel (skip_ws r4) in Ok ((k, v) :: kvs, rest)
          else Raise json_error
      | EmptyString => Raise json_error
      end
  | EmptyString => Raise json_error
  end.
Proof. reflexivity. Qed.
Lemma pelements_next fuel s :
  pelements (S fuel) s =
  let! (v, r) := pvalue fuel s in
  match skip_ws r with
  | String e r' =>
      if ord e =? 93 then Ok ([v], r')
      else if ord e =? 44 then let! (l, rest) := pelements fuel (skip_ws r') in Ok (v :: l, rest)
      else Raise json_error
  | EmptyString => Raise json_error
  end.
Proof. reflexivity. Qed.

Lemma parse_number fuel (neg : bool) d r :
  is_digit d = true ->
  pvalue (S fuel) ((if neg then "-" else "") +:+ String d r) = scan_number ((if neg then "-" else "") +:+ String d r).
Proof.
  intros Hd. assert (Hd' := Hd). unfold is_digit in Hd'. split_bools. destruct neg.
  - change ("-" +:+ String d r) with (String "-" (String d r)). cbn [parse_value].
    change (ord "-" =? 34) with false. change (ord "-" =? 123) with false. change (ord "-" =? 91) with false. cbn iota.
    assert (scan_literal parse_constant (String "-" (String d r)) = None) as ->; [|done].
    cbv [scan_literal]. cbn [remove_prefix].
    rewrite (bool_decide_eq_false_2 ("I"%char = d)) by (intros <-; vm_compute in Hd; done). done.
  - rewrite append_nil_l. cbn [parse_value]. rewrite !(proj2 (Z.eqb_neq (ord d) _)) by lia.
    assert (scan_literal parse_constant (String d r) = None) as ->; [|done].
    cbv [scan_literal]. cbn [remove_prefix].
    repeat rewrite bool_decide_eq_false_2 by (intros <-; vm_compute in Hd; done). done.
Qed.

Lemma parse_int fuel z rest :
  int_text_ok (VInt z) = true -> stop rest = true -> pvalue (S fuel) (str_int z +:+ rest) = Ok (VInt z, rest).
Proof.
  intros Hz Hr. rewrite <- (scan_number_int z rest Hz Hr).
  assert (E : exists (neg : bool) d r, str_int z +:+ rest = (if neg then "-" else "") +:+ String d r /\ is_digit d = true).
  { pose proof (digits_int_part (Z.abs z) ltac:(lia)) as Hi. destruct (digits (Z.abs z)) as [|d t] eqn:E; [done|].
    unfold int_part in Hi. cbn [sforall] in Hi. split_bools. exists (z <? 0), d, (t +:+ rest). split; [|done].
    unfold str_int. destruct (Z.ltb_spec z 0).
    - replace (- z) with (Z.abs z) by lia. by rewrite E.
    - replace z with (Z.abs z) by lia. by rewrite E. }
  destruct E as (neg & d & r & -> & Hd). by apply parse_number.
Qed.

(** A finite float reads back as one float, whatever follows it. *)
Lemma scan_float f :
  finite_float f = true -> exists g, forall rest, stop rest = true ->
    scan_number (float_text f +:+ rest) = Ok (VFloat g, rest) /\
    forall fuel, pvalue (S fuel) (float_text f +:+ rest) = Ok (VFloat g, rest).
Proof.
  destruct f as [s|s| |s m e]; try done; intros _.
  - destruct (tail_fraction s "0" "0") as [g Hg]; [done|done|]. exists g. intros rest Hr.
    assert (E : scan_number ((if s then "-" else "") +:+ "0" +:+ "." +:+ "0" +:+ rest) = Ok (VFloat g, rest)).
    { rewrite scan_signed by done. by apply Hg. }
    destruct s; (split; [exact E|intros fuel; rewrite <- E]).
    + exact (parse_number fuel true "0" (".0" +:+ rest) eq_refl).
    + exact (parse_number fuel false "0" (".0" +:+ rest) eq_refl).
  - cbn [float_text repr_float]. pose proof (shortest_dec_pos m e) as Hc. destruct (shortest_dec m e) as [c q]. cbn [fst snd] in *.
    destruct (scan_repr_positive s c q Hc) as [g Hg]. exists g. intros rest Hr. specialize (Hg rest Hr).
    rewrite append_assoc. split; [done|]. intros fuel. rewrite <- Hg.
    destruct (repr_positive_head c q Hc) as (d & r & E & Hd). rewrite E, append_cons. by apply parse_number.
Qed.

Definition readable_float (f : spec_float) : bool := finite_float f || nan_allowed.

Lemma parse_float fuel f rest :
  readable_float f = true -> stop rest = true ->
  exists g, pvalue (S fuel) (float_text f +:+ rest) = Ok (VFloat g, rest) /\ (exact_float f = true -> g = f).
Proof.
  intros Hf Hr. destruct (finite_float f) eqn:Hfin.
  - destruct (scan_float f Hfin) as [g Hg]. exists g. split; [by apply Hg|]. unfold exact_float. rewrite Hfin.
    destruct (Hg EmptyString eq_refl) as [E _]. rewrite append_nil_r in E. rewrite E. intros H. by apply bool_decide_eq_true in H.
  - unfold readable_float in Hf. rewrite Hfin in Hf. simpl in Hf. assert (forall name, exists g, parse_constant name = Ok (VFloat g)) as Hconst by (by apply constant_float).
    destruct f as [s|s| |s m e]; try done.
    + destruct (Hconst (if s then "-Infinity" else "Infinity")) as [g Hg]. exists g. split; [|done].
      destruct s; simpl; rewrite ?append_nil_l, Hg; done.
    + destruct (Hconst "NaN") as [g Hg]. exists g. split; [|done]. simpl. rewrite ?append_nil_l, Hg. done.
Qed.

(** The first character of a printed document. *)
Lemma dumps_head v s :
  dumps v = Ok s -> exists c r, s = String c r /\ is_json_space c = false /\ ord c <> 93 /\ ord c < 128.
Proof.
  assert (Hdig : forall c r, is_digit c = true -> exists c' r', String c r = String c' r' /\ is_json_space c' = false /\ ord c' <> 93 /\ ord c' < 128).
  { intros c r Hc. exists c, r. split; [done|]. unfold is_digit in Hc. split_bools. unfold is_json_space.
    rewrite !(proj2 (Z.eqb_neq (ord c) _)) by lia. lia. }
  destruct v as [|b|z|f|d|t|l|d]; intros H.
  - injection H as <-. by eexists _, _.
  - injection H as <-. destruct b; by eexists _, _.
  - cbn [dumps] in H. destruct (int_text_ok (VInt z)); [|done]. injection H as <-. unfold str_int.
    destruct (Z.ltb_spec z 0); [by eexists _, _|]. destruct (digits_spec z ltac:(lia)) as (Hd & Hp & _).
    destruct (digits z) as [|c r]; [simpl in Hp; lia|]. simpl in Hd. split_bools. by apply Hdig.
  - injection H as <-. destruct f as [b|b| |b m e]; try (destruct b; by eexists _, _); [by eexists _, _|].
    cbn [float_text repr_float]. destruct b; [by eexists _, _|]. rewrite append_nil_l.
    destruct (repr_positive_head (shortest_dec m e).1 (shortest_dec m e).2 (shortest_dec_pos m e)) as (c & r & -> & Hc). by apply Hdig.
  - done.
  - injection H as <-. by eexists _, _.
  - rewrite dumps_list in H. inv_ok H. subst. by eexists _, _.
  - rewrite dumps_dict in H. inv_ok H. subst. by eexists _, _.
Qed.

Definition reads (v : value) : Prop :=
  forall s fuel rest, json_ok v = true -> dumps v = Ok s -> stop rest = true -> 2 * slen s <= Z.of_nat fuel ->
  exists v', pvalue fuel (s +:+ rest) = Ok (v', rest) /\ like v v'.

Lemma skip_dumps v s rest : dumps v = Ok s -> skip_ws (s +:+ rest) = s +:+ rest.
Proof. intros H. destruct (dumps_head v s H) as (c & r & -> & Hc & _). rewrite append_cons. by apply skip_ws_id. Qed.

Lemma slen_head v s : dumps v = Ok s -> 1 <= slen s.
Proof. intros H. destruct (dumps_head v s H) as (c & r & -> & _). cbn [slen]. pose proof (slen_nonneg r). lia. Qed.

Lemma parse_list l : Forall reads l -> forall xs fuel rest,
  l <> [] -> forallb json_ok l = true -> Forall2 (fun x s => dumps x = Ok s) l xs ->
  2 * slen (PyValue.join "," xs) + 1 <= Z.of_nat fuel ->
  exists l', pelements fuel (PyValue.join "," xs +:+ String "]" rest) = Ok (l', rest) /\ Forall2 like l l'.
Proof.
  induction 1 as [|x l Hx Hl IH]; intros xs fuel rest Hne Hok H Hf; [done|]. inversion H as [|? s ? xs' Hs Hxs]; subst.
  cbn [forallb] in Hok. apply andb_prop in Hok as [Hox Hol].
  destruct fuel as [|fuel]; [pose proof (slen_nonneg (PyValue.join "," (s :: xs'))); lia|].
  destruct xs' as [|s' xs'].
  - inversion Hxs; subst. cbn [PyValue.join] in Hf |- *. rewrite pelements_next. destruct (Hx s fuel (String "]" rest)) as (v' & -> & Hv); [done|done|done|lia|].
    exists [v']. split; [done|by constructor].
  - destruct l as [|x' l]; [inversion Hxs|]. rewrite join_cons in Hf |- *. rewrite !append_assoc.
    change ("," +:+ ?y) with (String "," y) in *. rewrite !slen_app in Hf. cbn [slen] in Hf. rewrite pelements_next.
    destruct (Hx s fuel (String "," (PyValue.join "," (s' :: xs') +:+ String "]" rest))) as (v' & -> & Hv); [done|done|done| |].
    { pose proof (slen_nonneg (PyValue.join "," (s' :: xs'))). lia. }
    destruct (IH (s' :: xs') fuel rest) as (l' & E & Hl'); [done|done|done|pose proof (slen_nonneg s); lia|].
    exists (v' :: l'). split; [|by constructor]. cbn [rbind]. rewrite skip_ws_id by done. change (ord "," =? 93) with false.
    change (ord "," =? 44) with true. cbn iota.
    assert (Hsk : skip_ws (PyValue.join "," (s' :: xs') +:+ String "]" rest) = PyValue.join "," (s' :: xs') +:+ String "]" rest).
    { inversion Hxs as [|???? Hd]; subst. destruct xs' as [|s2 xs']; [by eapply skip_dumps|].
      rewrite join_cons, !append_assoc. by eapply skip_dumps. }
    rewrite Hsk, E. done.
Qed.

Lemma parse_dict ds : Forall (fun kv => reads kv.2) ds -> forall ys fuel rest,
  ds <> [] -> forallb (fun kv => utf8_ok kv.1 && json_ok kv.2) ds = true ->
  Forall2 (fun kv ks => kv.1 = ks.1 /\ dumps kv.2 = Ok ks.2) ds ys ->
  2 * slen (PyValue.join "," (map member_text ys)) + 1 <= Z.of_nat fuel ->
  exists d', pmembers fuel (PyValue.join "," (map member_text ys) +:+ String "}" rest) = Ok (d', rest) /\
    Forall2 (fun a b => a.1 = b.1 /\ like a.2 b.2) ds d'.
Proof.
  induction 1 as [|[k x] ds Hx Hds IH]; intros ys fuel rest Hne Hok H Hf; [done|].
  inversion H as [|? [k' s] ? ys' [Ek Hs] Hys]; subst. simpl in Ek, Hs. subst k'.
  cbn [forallb fst snd] in Hok, Hx. apply andb_prop in Hok as [Hox Hol]. apply andb_prop in Hox as [Hku Hox].
  destruct fuel as [|fuel]; [pose proof (slen_nonneg (PyValue.join "," (map member_text ((k, s) :: ys')))); lia|].
  assert (Htext : forall tl, member_text (k, s) +:+ tl = String (chr 34) (json_text k +:+ String (chr 34) (String ":" (s +:+ tl)))).
  { intros tl. unfold member_text, json_quoted, quote. cbn [fst snd]. by rewrite !append_cons, !append_nil_l, !append_assoc, !append_cons, !append_nil_l. }
  assert (Hlen : slen (member_text (k, s)) = 3 + slen (json_text k) + slen s).
  { rewrite <- (append_nil_r (member_text (k, s))), Htext, append_nil_r. cbn [slen]. rewrite slen_app. cbn [slen]. lia. }
  pose proof (slen_nonneg (json_text k)) as Hk0. cbn [map] in Hf |- *. destruct ys' as [|[k2 s2] ys'].
  - inversion Hys; subst. cbn [map PyValue.join] in Hf |- *. rewrite Htext, pmembers_next. rewrite scan_json_text by done. cbn [rbind].
    rewrite skip_ws_id by done. change (negb (ord ":" =? 58)) with false. cbn iota. rewrite (skip_dumps x) by done.
    destruct (Hx s fuel (String "}" rest)) as (v' & -> & Hv); [done|done|done|lia|].
    exists [(k, v')]. split; [done|by repeat constructor].
  - destruct ds as [|kx2 ds]; [inversion Hys|]. cbn [map] in Hf |- *. rewrite join_cons in Hf |- *. rewrite !append_assoc.
    change ("," +:+ ?y) with (String "," y) in *. rewrite slen_app in Hf. cbn [slen] in Hf. rewrite Hlen in Hf.
    set (tail := PyValue.join "," (member_text (k2, s2) :: map member_text ys')) in *. pose proof (slen_nonneg tail).
    rewrite Htext, pmembers_next. rewrite scan_json_text by done. cbn [rbind].
    rewrite skip_ws_id by done. change (negb (ord ":" =? 58)) with false. cbn iota. rewrite (skip_dumps x) by done.
    destruct (Hx s fuel (String "," (tail +:+ String "}" rest))) as (v' & -> & Hv); [done|done|done|lia|].
    destruct (IH ((k2, s2) :: ys') fuel rest) as (d' & E & Hd'); [done|done|done| |].
    { cbn [map]. fold tail. pose proof (slen_nonneg s). lia. }
    exists ((k, v') :: d'). split; [|by repeat constructor]. cbn [rbind]. rewrite skip_ws_id by done.
    change (ord "," =? 125) with false. change (ord "," =? 44) with true. cbn iota.
    cbn [map] in E. fold tail in E.
    assert (Hsk : skip_ws (tail +:+ String "}" rest) = tail +:+ String "}" rest).
    { assert (exists r, tail +:+ String "}" rest = String (chr 34) r) as [r ->]; [|by apply skip_ws_id].
      unfold tail. destruct ys'; by eexists. }
    rewrite Hsk, E. done.
Qed.

Lemma parse_dumps v : floats_all readable_float v = true -> reads v.
Proof.
  induction v as [|b|z|f|d|t|l IH|d IH] using value_nested_ind; intros Hfl s fuel rest Hok Hs Hr Hf;
    pose proof (slen_head _ _ Hs) as H1; destruct fuel as [|fuel]; try lia.
  - injection Hs as <-. exists VNone. split; [done|constructor].
  - injection Hs as <-. exists (VBool b). split; [by destruct b|constructor].
  - cbn [dumps] in Hs. destruct (int_text_ok (VInt z)) eqn:Ez; [|done]. injection Hs as <-. exists (VInt z).
    split; [by apply parse_int|constructor].
  - injection Hs as <-. destruct (parse_float fuel f rest Hfl Hr) as (g & Hg & Hx). exists (VFloat g). split; [done|by constructor].
  - done.
  - injection Hs as <-. exists (VStr t). split; [|constructor]. unfold json_quoted, quote.
    rewrite wrap_app, pvalue_string. by rewrite scan_json_text.
  - assert (Hl : Forall reads l).
    { cbn [floats_all] in Hfl. rewrite forallb_forall in Hfl. rewrite List.Forall_forall in IH |- *. intros x Hx. by apply IH, Hfl. }
    clear IH Hfl. rename Hl into IH. rewrite dumps_list in Hs. inv_ok Hs. subst s. rewrite wrap_app. rewrite wrap_slen in Hf.
    apply rmapM_Forall2 in Ha. rewrite pvalue_array.
    destruct Ha as [|x sx l xs Hx Hxs]; [exists (VList []); split; [done|repeat constructor]|].
    destruct (parse_list (x :: l) IH (sx :: xs) fuel rest) as (l' & E & Hl'); [done|done|by constructor|lia|].
    destruct (dumps_head x sx Hx) as (c & r & -> & Hc & Hn & _). exists (VList l'). split; [|by constructor].
    destruct xs as [|s2 xs]; [cbn [PyValue.join] in *|rewrite join_cons in *]; rewrite ?append_cons, ?append_assoc in *;
      rewrite skip_ws_id by done; rewrite (proj2 (Z.eqb_neq _ _)) by done; rewrite E; done.
  - assert (Hl : Forall (fun kv => reads kv.2) d).
    { cbn [floats_all] in Hfl. rewrite forallb_forall in Hfl. rewrite List.Forall_forall in IH |- *. intros x Hx. by apply IH, Hfl. }
    clear IH Hfl. rename Hl into IH. rewrite dumps_dict in Hs. inv_ok Hs. subst s. rewrite wrap_app. rewrite wrap_slen in Hf.
    cbn [json_ok] in Hok. apply andb_prop in Hok as [Hnd Hok]. apply bool_decide_eq_true, NoDup_ListNoDup in Hnd.
    assert (Hxs : Forall2 (fun ks kv => kv.1 = ks.1 /\ dumps kv.2 = Ok ks.2) a d).
    { apply Forall2_flip. eapply Forall2_impl; [by apply rmapM_Forall2|]. intros [k x] ks E. unfold dump_member in E. inv_ok E. by subst. }
    destruct (Permutation_Forall2 (Permutation_sym (sorted_by_perm key_leb a)) Hxs) as (ds & Hp & Hys).
    apply Forall2_flip in Hys. rewrite pvalue_object. set (ys := sorted_by key_leb a) in *. clearbody ys.
    destruct ds as [|kx ds].
    { inversion Hys; subst. apply Permutation_sym, Permutation_nil in Hp as ->. exists (VDict []).
      split; [cbn; by rewrite hook_distinct by constructor|by econstructor]. }
    destruct (parse_dict (kx :: ds)) with (ys := ys) (fuel := fuel) (rest := rest) as (d' & E & Hd'); [| | |done|lia|].
    + eapply Permutation_Forall; eauto.
    + done.
    + apply forallb_forall. intros kv Hin. rewrite forallb_forall in Hok. apply Hok. eapply Permutation_in; [symmetry; exact Hp|done].
    + assert (Hkeys : map fst d' = map fst (kx :: ds)).
      { clear -Hd'. induction Hd' as [|a b l l' [E _] _ IH]; [done|]. simpl. by rewrite IH, E. }
      assert (Hd : pairs_hook d' = Ok d').
      { apply hook_distinct. rewrite Hkeys. eapply Permutation_NoDup; [|exact Hnd]. by apply Permutation_map. }
      assert (exists r, PyValue.join "," (map member_text ys) +:+ String "}" rest = String (chr 34) r) as [r Er].
      { inversion Hys as [|?? ? ys' ? ?]; subst. destruct ys'; by eexists. }
      exists (VDict d'). split; [|econstructor; [symmetry; exact Hp|done]].
      rewrite Er in E |- *. rewrite skip_ws_id by done. change (ord (chr 34) =? 125) with false. cbn iota. rewrite E. cbn [rbind].
      by rewrite Hd.
Qed.

(** The round trip, with white space allowed after the document. *)
Lemma loads_dumps v s ws :
  floats_all readable_float v = true -> json_ok v = true -> dumps v = Ok s -> (ws = EmptyString \/ ws = newline) ->
  exists v', loads_with pairs_hook parse_constant (s +:+ ws) = Ok v' /\ like v v'.
Proof.
  intros Hfl Hok Hs Hws. destruct (parse_dumps v Hfl s (2 * String.length (s +:+ ws) + 2)%nat ws Hok Hs) as (v' & E & Hv).
  { by destruct Hws as [->| ->]. }
  { pose proof (slen_app s ws) as Hl. rewrite slen_length in Hl. pose proof (slen_nonneg ws). lia. }
  exists v'. split; [|done]. unfold loads_with. destruct (dumps_head v s Hs) as (c & r & Es & Hc & _ & Hb).
  assert (startswith (s +:+ ws) byte_order_mark = false) as ->.
  { rewrite Es, append_cons. unfold startswith, byte_order_mark. cbn [remove_prefix]. rewrite bool_decide_eq_false_2; [done|].
    intros <-. by vm_compute in Hb. }
  rewrite (skip_dumps v) by done. rewrite E. cbn [rbind]. by destruct Hws as [->| ->].
Qed.
End roundtrip.

Lemma foldl_dset_distinct (kvs d : list (string * value)) :
  List.NoDup (map fst (d ++ kvs)) -> foldl (fun d kv => dset kv.1 kv.2 d) d kvs = d ++ kvs.
Proof.
  revert d; induction kvs as [|[k v] kvs IH]; intros d H; simpl; [by rewrite app_nil_r|].
  assert (E : dset k v d = d ++ [(k, v)]).
  { rewrite map_app in H. apply List.NoDup_remove_2 in H. assert (Hk : ~ In k (map fst d)) by (intros ?; apply H, in_or_app; auto).
    clear -Hk. induction d as [|[k' v'] d IH]; simpl in *; [done|]. rewrite decide_False by naive_solver. by rewrite IH by naive_solver. }
  rewrite E, IH; by rewrite <- app_assoc.
Qed.

Lemma floats_any ok v : (forall f, ok f = true) -> floats_all ok v = true.
Proof.
  intros H. induction v as [|b|z|f|d|t|l IH|d IH] using value_nested_ind; try done; [apply H| |];
    simpl; apply forallb_forall; rewrite List.Forall_forall in IH; done.
Qed.

(** [json.loads(json.dumps(v))] *)
Lemma loads_printed v s ws :
  json_ok v = true -> dumps v = Ok s -> (ws = EmptyString \/ ws = newline) -> exists v', loads (s +:+ ws) = Ok v' /\ like v v'.
Proof.
  intros Hok. apply (loads_dumps last_wins float_constant) with (nan_allowed := true); [| | |exact Hok].
  - intros kvs H. unfold last_wins. by rewrite (foldl_dset_distinct kvs []).
  - intros _ name. by eexists.
  - apply floats_any. intros f. apply orb_true_r.
Qed.

(** Fields of a document that was read back. *)
Lemma like_dict_inv d v' :
  like (VDict d) v' -> exists d', v' = VDict d' /\ (List.NoDup (map fst d) -> forall k, 
    match dget k d with Some v => exists w, dget k d' = Some w /\ like v w | None => dget k d' = None end).
Proof.
  inversion 1 as [| | | | | |d0 ds d' Hp Hf]; subst. exists d'. split; [done|]. intros Hnd k.
  assert (Hnds : List.NoDup (map fst ds)) by (eapply Permutation_NoDup; [|exact Hnd]; symmetry; by apply Permutation_map).
  assert (Hds : dget k d = dget k ds).
  { destruct (dget k ds) as [v|] eqn:E.
    - apply dget_of_In; [done|]. eapply Permutation_in; [exact Hp|by apply dget_In].
    - apply dget_None. apply dget_None in E. intros Hin. apply E. eapply Permutation_in; [|exact Hin].
      symmetry. by apply Permutation_map. }
  rewrite Hds. clear -Hf. induction Hf as [|[k1 v1] [k2 v2] l l' [E Hv] _ IH]; simpl in *; [done|]. subst. case_decide; [by eexists|done].
Qed.

(** ** What reading gives

    Whatever the text, the objects that were read have distinct keys when the hook that
    makes an object of its members sees to it. *)

Fixpoint distinct_keys (v : value) : bool :=
  match v with
  | VList l => forallb distinct_keys l
  | VDict d => bool_decide (NoDup (map fst d)) && forallb (fun kv => distinct_keys kv.2) d
  | _ => true
  end.

Section distinct.
Context (pairs_hook : list (string * value) -> res dict) (parse_constant : string -> res value).
Hypothesis hook_members : forall kvs d, pairs_hook kvs = Ok d -> NoDup (map fst d) /\ incl d kvs.
Hypothesis constant_distinct : forall name v, parse_constant name = Ok v -> distinct_keys v = true.

Lemma hook_distinct_keys kvs d : pairs_hook kvs = Ok d -> forallb (fun kv => distinct_keys kv.2) kvs = true -> distinct_keys (VDict d) = true.
Proof.
  intros H Hk. apply hook_members in H as [Hn Hi]. cbn [distinct_keys]. rewrite bool_decide_true by done. cbn [andb]. rewrite forallb_forall in Hk |- *. auto.
Qed.

Lemma literal_distinct s v rest : scan_literal parse_constant s = Some (Ok v, rest) -> distinct_keys v = true.
Proof.
  unfold scan_literal. intros H. repeat match type of H with match ?x with Some _ => _ | None => _ end = _ => destruct x end; try done;
    (injection H as H <-; first [by rewrite <- H|by injection H as <-|by eapply constant_distinct]).
Qed.

Lemma number_distinct s v rest : scan_number s = Ok (v, rest) -> distinct_keys v = true.
Proof.
  assert (Hn : forall neg u, scan_unsigned neg u = Ok (v, rest) -> distinct_keys v = true).
  { intros neg u H. unfold scan_unsigned in H. destruct u as [|c' u']; [done|]. apply when_ok in H as [_ H]. unfold number_tail in H.
    destruct (scan_fraction _).1, (scan_exponent _).1; try (by injection H as <- <-). destruct (_ <=? 4300); [|done]. by injection H as <- <-. }
  unfold scan_number. destruct s as [|c r]; [done|]. destruct (ord c =? 45); apply Hn.
Qed.

Lemma parsed_distinct fuel :
  (forall s v rest, parse_value pairs_hook parse_constant fuel s = Ok (v, rest) -> distinct_keys v = true) /\
  (forall s kvs rest, parse_members pairs_hook parse_constant fuel s = Ok (kvs, rest) -> forallb (fun kv => distinct_keys kv.2) kvs = true) /\
  (forall s l rest, parse_elements pairs_hook parse_constant fuel s = Ok (l, rest) -> forallb distinct_keys l = true).
Proof.
  induction fuel as [|fuel (IHv & IHm & IHe)]; [done|]. split; [|split]; intros s x rest H.
  - destruct s as [|c r]; [done|]. cbn [parse_value] in H. destruct (ord c =? 34); [by apply rbind_ok in H as ([? ?] & _ & [= <- <-])|]. destruct (ord c =? 123).
    + destruct (skip_ws r) as [|e r'] eqn:Es; [done|]. destruct (ord e =? 125).
      * apply rbind_ok in H as (d & Hd & [= <- <-]). by eapply hook_distinct_keys.
      * apply rbind_ok in H as ([kvs r1] & Hk & H). apply rbind_ok in H as (d & Hd & [= <- <-]). eapply hook_distinct_keys; [done|]. by eapply IHm.
    + destruct (ord c =? 91).
      * destruct (skip_ws r) as [|e r'] eqn:Es; [done|]. destruct (ord e =? 93); [by injection H as <- <-|]. apply rbind_ok in H as ([l r1] & Hl & [= <- <-]). by eapply IHe.
      * destruct (scan_literal parse_constant (String c r)) as [[[v|] r1]|] eqn:El; [|done|by eapply number_distinct]. injection H as <- <-. by eapply literal_distinct.
  - destruct s as [|q r]; [done|]. cbn [parse_members] in H. apply when_ok in H as [_ H]. apply rbind_ok in H as ([k r1] & _ & H).
    destruct (skip_ws r1) as [|colon r2]; [done|]. apply when_ok in H as [_ H]. apply rbind_ok in H as ([v r3] & Hv & H). apply IHv in Hv.
    destruct (skip_ws r3) as [|e r4]; [done|]. destruct (ord e =? 125); [injection H as <- <-; cbn; by rewrite Hv|]. destruct (ord e =? 44); [|done].
    apply rbind_ok in H as ([kvs r5] & Hk & [= <- <-]). cbn. rewrite Hv. by eapply IHm.
  - cbn [parse_elements] in H. apply rbind_ok in H as ([v r] & Hv & H). apply IHv in Hv.
    destruct (skip_ws r) as [|e r']; [done|]. destruct (ord e =? 93); [injection H as <- <-; cbn; by rewrite Hv|]. destruct (ord e =? 44); [|done].
    apply rbind_ok in H as ([l r5] & Hk & [= <- <-]). cbn. rewrite Hv. by eapply IHe.
Qed.

Lemma loads_distinct s v : loads_with pairs_hook parse_constant s = Ok v -> distinct_keys v = true.
Proof.
  unfold loads_with. intros H. apply when_ok in H as [_ H]. apply rbind_ok in H as ([w r] & Hw & H). destruct (skip_ws r); [|done].
  injection H as <-. by eapply parsed_distinct.
Qed.
End distinct.

Lemma distinct_dict d : distinct_keys (VDict d) = true -> List.NoDup (map fst d).
Proof. cbn [distinct_keys]. intros H. apply andb_prop in H as [H _]. apply bool_decide_eq_true in H. by apply NoDup_ListNoDup. Qed.
