(* ===== verification/PyJsonText.v ===== *)
(** * Printed documents as text

    A printed document is one line of printable ASCII, and the scalar fields of a
    document survive printing and reading.  The reading of bytes as
    documents follows. *)

From Stdlib Require Import Floats.SpecFloat Ascii.
From S2P Require Import Prelude PyText PyValue PyOrder PyBytes PyJson PyJsonFacts.
From stdpp Require Import base tactics list strings sorting.
From Stdlib Require Import ZArith Lia Bool Permutation Sorted.

Open Scope Z_scope.

Definition printable (c : ascii) : bool := (32 <=? ord c) && (ord c <=? 126).

Lemma is_digit_printable c : is_digit c = true -> printable c = true.
Proof. unfold is_digit, printable. intros. split_bools. apply andb_true_intro. split; apply Z.leb_le; lia. Qed.

Lemma hex_digit_printable n : 0 <= n < 16 -> printable (hex_digit n) = true.
Proof.
  intros Hn. unfold printable. rewrite hex_digit_ord by done. destruct (Z.ltb_spec n 10); apply andb_true_intro; split; apply Z.leb_le; lia.
Qed.

Lemma hex_byte_printable n : 0 <= n < 256 -> sforall printable (hex_byte n) = true.
Proof. intros Hn. destruct (nibbles n Hn) as (H1 & H2 & _). unfold hex_byte. simpl. by rewrite !hex_digit_printable. Qed.

Lemma u_escape_printable n : 0 <= n < 65536 -> sforall printable (u_escape n) = true.
Proof.
  intros Hn. unfold u_escape, hex4. rewrite !sforall_app, !hex_byte_printable; [done|by apply Z.mod_pos_bound|].
  split; [apply Z.div_pos; lia|apply Z.div_lt_upper_bound; lia].
Qed.

Lemma json_char_printable a : sforall printable (json_char a) = true.
Proof.
  unfold json_char. repeat case_match; try done.
  - apply Z.eqb_eq in H. cbn [sforall]. unfold printable at 2. by rewrite H.
  - rewrite sforall_app. rewrite hex_byte_printable; [done|apply ord_range].
  - match goal with E : (_ || _) = false |- _ => apply orb_false_elim in E as [?%Z.ltb_ge ?%Z.ltb_ge] end.
    cbn [sforall]. unfold printable. rewrite (proj2 (Z.leb_le _ _)), (proj2 (Z.leb_le (ord a) _)) by lia. done.
Qed.

Lemma json_text_printable s : utf8_ok s = true -> sforall printable (json_text s) = true.
Proof.
  remember (String.length s) as n eqn:En. assert (Hn : (String.length s <= n)%nat) by lia. clear En. revert s Hn.
  induction n as [|n IH]; intros [|a r] Hn H; try (by (simpl in Hn; lia)); try done.
  cbn [utf8_ok] in H. cbn [json_text]. simpl in Hn. destruct (Z.ltb_spec (ord a) 128) as [Ha|Ha].
  { rewrite sforall_app, json_char_printable, IH by (done || lia). done. }
  destruct r as [|b r]; [done|]. simpl in Hn. destruct ((194 <=? ord a) && (ord a <=? 223)) eqn:E2.
  { split_bools. rewrite (proj2 (Z.ltb_lt _ 224)) by lia. destruct (utf8_of_cp2 a b) as [Hr _]; [lia|done|].
    rewrite sforall_app, u_escape_printable, IH by (done || lia). done. }
  destruct r as [|c r]; [done|]. simpl in Hn. destruct ((224 <=? ord a) && (ord a <=? 239)) eqn:E3.
  { split_bools. rewrite (proj2 (Z.ltb_ge _ 224)), (proj2 (Z.ltb_lt _ 240)) by lia.
    destruct (utf8_of_cp3 a b c) as (Hr & _); [lia|done|done|].
    rewrite sforall_app, u_escape_printable, IH by (done || lia). done. }
  destruct r as [|d r]; [done|]. simpl in Hn. split_bools. rewrite (proj2 (Z.ltb_ge _ 224)), (proj2 (Z.ltb_ge _ 240)) by lia.
  destruct (utf8_of_cp4 a b c d) as [Hr _]; [lia|done|done|done|].
  unfold pair_escape. rewrite !sforall_app, !u_escape_printable, IH by (done || lia || div_eq). done.
Qed.

Lemma digits_printable n : 0 <= n -> sforall printable (digits n) = true.
Proof. intros Hn. eapply sforall_impl; [apply is_digit_printable|]. by apply digits_spec. Qed.

Lemma zeros_printable n : sforall printable (srepeat "0" n) = true.
Proof. by induction n. Qed.

Lemma repr_positive_printable c q : 0 < c -> sforall printable (repr_positive c q) = true.
Proof.
  intros Hc. assert (Hd := digits_printable c ltac:(lia)). unfold repr_positive.
  repeat case_match; rewrite ?sforall_app, ?zeros_printable, ?Hd, ?(sforall_stake _ _ _ Hd), ?(sforall_sdrop _ _ _ Hd),
    ?(digits_printable (Z.abs _)) by lia; try done.
Qed.

Lemma float_text_printable f : sforall printable (float_text f) = true.
Proof.
  destruct f as [b|b| |b m e]; try (by destruct b); [done|]. cbn [float_text repr_float].
  rewrite sforall_app, repr_positive_printable by apply shortest_dec_pos. by destruct b.
Qed.

Lemma join_printable sep xs :
  sforall printable sep = true -> Forall (fun x => sforall printable x = true) xs -> sforall printable (PyValue.join sep xs) = true.
Proof.
  intros Hs. induction 1 as [|x xs Hx Hxs IH]; [done|]. destruct xs as [|y xs]; [done|].
  rewrite join_cons, !sforall_app. by rewrite Hx, Hs, IH.
Qed.

Lemma json_ok_dict d : json_ok (VDict d) = true -> List.NoDup (map fst d) /\ Forall (fun kv => utf8_ok kv.1 = true /\ json_ok kv.2 = true) d.
Proof.
  cbn [json_ok]. intros H. apply andb_prop in H as [Hn Hf]. split; [apply NoDup_ListNoDup; by apply bool_decide_eq_true in Hn|].
  apply List.Forall_forall. intros kv Hin. rewrite forallb_forall in Hf. by apply Hf, andb_prop in Hin.
Qed.

Lemma dumps_printable v s : json_ok v = true -> dumps v = Ok s -> sforall printable s = true.
Proof.
  revert s. induction v as [|b|z|f|d|t|l IH|d IH] using value_nested_ind; intros s Hok H.
  - injection H as <-. done.
  - injection H as <-. by destruct b.
  - cbn [dumps] in H. destruct (int_text_ok (VInt z)); [|done]. injection H as <-. unfold str_int. destruct (Z.ltb_spec z 0).
    + rewrite sforall_app, digits_printable by lia. done.
    + apply digits_printable. lia.
  - injection H as <-. apply float_text_printable.
  - done.
  - injection H as <-. unfold json_quoted. rewrite !sforall_app, json_text_printable by done. done.
  - rewrite dumps_list in H. inv_ok H. subst s. rewrite !sforall_app, join_printable; [done|done|].
    cbn [json_ok] in Hok. rewrite forallb_forall in Hok. apply rmapM_Forall2 in Ha. rewrite List.Forall_forall in IH.
    clear -IH Hok Ha. induction Ha as [|x y l ys Hx _ IHl]; constructor.
    + eapply IH; [by left|apply Hok; by left|done].
    + apply IHl; intros; [eapply IH; [by right|done|done]|apply Hok; by right].
  - rewrite dumps_dict in H. inv_ok H. subst s. rewrite !sforall_app, join_printable; [done|done|].
    apply json_ok_dict in Hok as [_ Hok]. apply rmapM_Forall2 in Ha. rewrite List.Forall_forall in IH, Hok.
    assert (Hall : forall kx, In kx a -> sforall printable (member_text kx) = true).
    { clear -IH Hok Ha. induction Ha as [|x y l ys Hx _ IHl]; [done|]. intros kx [<-|Hin].
      - unfold dump_member in Hx. inv_ok Hx. subst y. destruct (Hok x (or_introl eq_refl)) as [Hu Hj].
        unfold member_text, json_quoted. cbn [fst snd]. rewrite !sforall_app, json_text_printable, (IH x (or_introl eq_refl) a) by done. done.
      - apply IHl; [intros kv Hkv; eapply IH; by right|intros kv Hkv; apply Hok; by right|done]. }
    apply List.Forall_forall. intros m Hm. apply in_map_iff in Hm as (kx & <- & Hin). apply Hall.
    eapply Permutation_in; [apply sorted_by_perm|exact Hin].
Qed.

Lemma printable_ascii c : printable c = true -> is_ascii c = true.
Proof. unfold printable, is_ascii. intros. split_bools. apply Z.ltb_lt. lia. Qed.

Lemma printable_no_break c : printable c = true -> negb (byte_break c) = true.
Proof. unfold printable, byte_break. intros. split_bools. by rewrite !(proj2 (Z.eqb_neq (ord c) _)) by lia. Qed.

Lemma ascii_utf8 s : sforall is_ascii s = true -> utf8_ok s = true.
Proof. induction s as [|c s IH]; [done|]. cbn [sforall utf8_ok]. unfold is_ascii. intros H. apply andb_prop in H as [-> H]. auto. Qed.

(** ** Fields of a document *)

Definition scalar (v : value) : bool := match v with VNone | VBool _ | VInt _ | VStr _ => true | _ => false end.

Lemma like_scalar v w : like v w -> scalar v = true -> w = v.
Proof. by destruct 1. Qed.

(** A document with distinct keys and one it was read back as. *)
Lemma like_field d d' k v : List.NoDup (map fst d) -> like (VDict d) (VDict d') -> dget k d = Some v ->
  exists w, dget k d' = Some w /\ like v w.
Proof.
  intros Hn Hl Hk. destruct (like_dict_inv d (VDict d') Hl) as (d1 & [= <-] & Hf). specialize (Hf Hn k). by rewrite Hk in Hf.
Qed.

Lemma like_scalar_field d d' k v :
  List.NoDup (map fst d) -> like (VDict d) (VDict d') -> dget k d = Some v -> scalar v = true -> dget k d' = Some v.
Proof. intros Hn Hl Hk Hs. destruct (like_field d d' k v Hn Hl Hk) as (w & -> & Hw). by rewrite (like_scalar v w). Qed.

Lemma dget_get d k v : dget k d = Some v -> get d k = v /\ item d k = Ok v /\ forall dflt, getd dflt d k = v.
Proof. intros H. unfold get, item, getd, dget_or. by rewrite H. Qed.

(** ** Printing a document that was read back *)

Lemma rmapM_of_Forall2 {A B} (f : A -> res B) l r : Forall2 (fun x y => f x = Ok y) l r -> rmapM f l = Ok r.
Proof. induction 1 as [|x y l r Hx _ IH]; [done|]. simpl. by rewrite Hx, IH. Qed.

(** The order of the members does not show in the text. *)
Lemma sorted_members (a b : list (string * string)) :
  Permutation a b -> List.NoDup (map fst a) -> sorted_by key_leb a = sorted_by key_leb b.
Proof.
  intros Hp Hnd. assert (Hs : forall l : list (string * string), StronglySorted (fun x y => key_leb x y = true) (sorted_by key_leb l)).
  { intros l. apply sorted_by_sorted; [intros x y; apply str_leb_total|intros x y z; apply str_leb_trans]. }
  apply (StronglySorted_unique_strong (fun x y => key_leb x y = true)); [|apply Hs|apply Hs|].
  - intros [k1 s1] [k2 s2] H1 H2 Hle Hge. rewrite list_elem_of_In, sorted_by_In in H1, H2.
    assert (k1 = k2) as -> by (by apply String.leb_antisym). f_equal.
    assert (H2' : In (k2, s2) a) by (eapply Permutation_in; [symmetry; exact Hp|done]).
    apply dget_of_In in H1; [|done]. apply dget_of_In in H2'; [|done]. congruence.
  - rewrite !sorted_by_perm. done.
Qed.

Lemma dump_members_keys d xs : rmapM dump_member d = Ok xs -> map fst xs = map fst d.
Proof.
  intros H. apply rmapM_Forall2 in H. induction H as [|[k x] ks d xs Hx _ IH]; [done|]. simpl. rewrite IH.
  unfold dump_member in Hx. inv_ok Hx. by subst ks.
Qed.

(** A document whose floats are exact prints as the document it was read from. *)
Lemma dumps_like v v' s :
  json_ok v = true -> floats_all exact_float v = true -> dumps v = Ok s -> like v v' -> dumps v' = Ok s.
Proof.
  revert v' s. induction v as [|b|z|f|d|t|l IH|d IH] using value_nested_ind; intros v' s Hok Hx H Hl; inversion Hl as [| | |? ? Hg| |? l' Hll|? ds d' Hpd Hd']; subst; try done.
  - cbn [floats_all] in Hx. by rewrite (Hg Hx).
  - rewrite dumps_list in H |- *. inv_ok H. subst s. rewrite (rmapM_of_Forall2 dumps l' a); [done|]. apply rmapM_Forall2 in Ha.
    cbn [json_ok floats_all] in Hok, Hx. clear Hl. revert a Ha.
    induction Hll as [|x x' l l' Hxx _ IHl]; intros a Ha; inversion Ha; subst; constructor.
    + cbn [forallb] in Hok, Hx. split_bools. inversion IH; subst. eauto.
    + cbn [forallb] in Hok, Hx. split_bools. inversion IH; subst. auto.
  - rewrite dumps_dict in H |- *. inv_ok H. subst s. apply json_ok_dict in Hok as [Hnd Hok].
    assert (Hnda : List.NoDup (map fst a)) by (by rewrite (dump_members_keys d a)).
    apply rmapM_Forall2 in Ha. destruct (Permutation_Forall2 (Permutation_sym Hpd) Ha) as (a' & Hp & Ha').
    rewrite (rmapM_of_Forall2 dump_member d' a').
    { simpl. by rewrite (sorted_members a a'). }
    assert (Hall : forall kv, In kv ds -> (forall w t, dumps kv.2 = Ok t -> like kv.2 w -> dumps w = Ok t)).
    { intros kv Hin w t Ht Hw. apply (Permutation_in _ Hpd) in Hin. rewrite List.Forall_forall in IH, Hok.
      cbn [floats_all] in Hx. rewrite forallb_forall in Hx. destruct (Hok kv Hin). eauto. }
    clear -Hd' Ha' Hall. revert a' Ha'. induction Hd' as [|[k x] [k' x'] l l' [Ek Hxx] _ IHl]; intros a' Ha'; inversion Ha' as [|? ks ? ? Hk]; subst; constructor.
    + simpl in Ek. subst k'. unfold dump_member in Hk |- *. cbn [fst snd] in Hk |- *. inv_ok Hk. subst ks.
      rewrite (Hall (k, x) (or_introl eq_refl) x' a) by done. done.
    + apply IHl; [|done]. intros kv Hin. apply Hall. by right.
Qed.

(** ** Flat documents

    A document of plain members is read back with the same members, and the document
    that was read prints as the same text. *)

Definition plain (v : value) : bool := scalar v && json_ok v.
Definition flat (d : dict) : Prop := List.NoDup (map fst d) /\ forall k v, In (k, v) d -> utf8_ok k = true /\ plain v = true.

Lemma plain_floats ok v : scalar v = true -> floats_all ok v = true.
Proof. by destruct v. Qed.

Lemma flat_json_ok d : flat d -> json_ok (VDict d) = true.
Proof.
  intros [Hn Hm]. cbn [json_ok]. apply andb_true_intro. split; [by apply bool_decide_eq_true, NoDup_ListNoDup|].
  apply forallb_forall. intros [k v] Hin. destruct (Hm k v Hin) as [Hk Hv]. apply andb_prop in Hv as [_ Hv]. cbn [fst snd]. by rewrite Hk, Hv.
Qed.
Lemma flat_floats ok d : flat d -> floats_all ok (VDict d) = true.
Proof.
  intros [_ Hm]. cbn [floats_all]. apply forallb_forall. intros [k v] Hin. destruct (Hm k v Hin) as [_ Hv]. apply andb_prop in Hv as [Hv _]. by apply plain_floats.
Qed.

Lemma flat_perm d d' : Permutation d d' -> flat d -> flat d'.
Proof.
  intros Hp [Hn Hm]. split; [eapply Permutation_NoDup; [by apply Permutation_map|done]|]. intros k v Hin. apply Hm. by eapply Permutation_in; [symmetry|].
Qed.
Lemma dget_perm {V} (d d' : list (string * V)) k : Permutation d d' -> List.NoDup (map fst d) -> dget k d = dget k d'.
Proof.
  intros Hp Hn. assert (Hn' : List.NoDup (map fst d')) by (eapply Permutation_NoDup; [by apply Permutation_map|done]). destruct (dget k d') as [v|] eqn:E.
  - apply dget_of_In; [done|]. eapply Permutation_in; [by symmetry|by apply dget_In].
  - apply dget_None. apply dget_None in E. intros Hin. apply E. eapply Permutation_in; [by apply Permutation_map|done].
Qed.

(** The order of the members of a flat document does not show. *)
Lemma flat_dumps d d' t : Permutation d d' -> flat d -> dumps (VDict d) = Ok t -> dumps (VDict d') = Ok t.
Proof.
  intros Hp Hf Ht. apply (dumps_like (VDict d)); [by apply flat_json_ok|by apply flat_floats|done|]. apply (like_dict d d'); [by symmetry|].
  pose proof (flat_perm _ _ Hp Hf) as [_ Hm]. clear -Hm. induction d' as [|[k v] d' IH]; constructor; [|apply IH; intros; apply (Hm k0 v0); by right].
  split; [done|]. destruct (Hm k v (or_introl eq_refl)) as [_ Hv]. apply andb_prop in Hv as [Hv _]. simpl. destruct v; try done; constructor.
Qed.

Lemma flat_reads_back pairs_hook parse_constant d t ws : (forall kvs, List.NoDup (map fst kvs) -> pairs_hook kvs = Ok kvs) ->
  flat d -> dumps (VDict d) = Ok t -> ws = EmptyString \/ ws = newline ->
  exists d', loads_with pairs_hook parse_constant (t +:+ ws) = Ok (VDict d') /\ Permutation d' d /\ sforall is_ascii t = true.
Proof.
  intros Hh Hf Ht Hw. pose proof (flat_json_ok d Hf) as Hj.
  destruct (loads_dumps pairs_hook parse_constant Hh false ltac:(done) (VDict d) t ws (flat_floats _ d Hf) Hj Ht Hw) as (v' & Hv' & Hl).
  inversion Hl as [| | | | | |? ds d' Hperm H2]; subst. exists d'. split; [done|]. split.
  - rewrite <- Hperm. apply (flat_perm _ _ (Permutation_sym Hperm)) in Hf as [_ Hf]. clear -H2 Hf. enough (d' = ds) as -> by done.
    induction H2 as [|[k v] [k' v'] ds d' [Hk Hv] _ IH]; [done|]. simpl in Hk, Hv. subst k'. destruct (Hf k v (or_introl eq_refl)) as [_ Hp]. apply andb_prop in Hp as [Hp _].
    rewrite (like_scalar _ _ Hv Hp), IH; [done|]. intros k0 v0 Hin. apply (Hf k0 v0). by right.
  - eapply sforall_impl; [apply printable_ascii|]. by apply (dumps_printable (VDict d)).
Qed.

(** * Decoding bytes

    [json.loads] on [bytes] guesses the encoding from the first bytes
    ([json.detect_encoding]) and decodes with [surrogatepass].  Decoded text is
    represented by its generalised UTF-8 encoding, in which a lone surrogate is three
    bytes; so decoding UTF-8 is a check, and decoding UTF-16 and UTF-32 re-encodes. *)

Inductive encoding := Utf8 | Utf8Sig | Utf16 | Utf16LE | Utf16BE | Utf32 | Utf32LE | Utf32BE.

Definition bytes_of (l : list Z) : string := foldr (fun n s => String (chr n) s) EmptyString l.

Definition detect_encoding (b : string) : encoding :=
  if startswith b (bytes_of [0; 0; 254; 255]) || startswith b (bytes_of [255; 254; 0; 0]) then Utf32
  else if startswith b (bytes_of [254; 255]) || startswith b (bytes_of [255; 254]) then Utf16
  else if startswith b byte_order_mark then Utf8Sig
  else match b with
  | String b0 (String b1 (String b2 (String b3 _))) =>
      if ord b0 =? 0 then (if negb (ord b1 =? 0) then Utf16BE else Utf32BE)
      else if ord b1 =? 0 then (if negb (ord b2 =? 0) || negb (ord b3 =? 0) then Utf16LE else Utf32LE)
      else Utf8
  | String b0 (String b1 EmptyString) =>
      if ord b0 =? 0 then Utf16BE else if ord b1 =? 0 then Utf16LE else Utf8
  | _ => Utf8
  end.

(** UTF-8 in which surrogates are encoded like other characters. *)
Fixpoint utf8_pass (s : string) : bool :=
  match s with
  | EmptyString => true
  | String a r =>
      let n := ord a in
      if n <? 128 then utf8_pass r
      else match r with
      | EmptyString => false
      | String b r1 =>
          if (194 <=? n) && (n <=? 223) then cont b && utf8_pass r1
          else match r1 with
          | EmptyString => false
          | String c r2 =>
              if (224 <=? n) && (n <=? 239)
              then cont b && (negb (n =? 224) || (160 <=? ord b)) && cont c && utf8_pass r2
              else match r2 with
              | EmptyString => false
              | String d r3 => (240 <=? n) && (n <=? 244) && second4 n b && cont c && cont d && utf8_pass r3
              end
          end
      end
  end.

Fixpoint units16 (big : bool) (s : string) : option (list Z) :=
  match s with
  | EmptyString => Some []
  | String a (String b r) => option_map (cons (if big then 256 * ord a + ord b else 256 * ord b + ord a)) (units16 big r)
  | String _ EmptyString => None
  end.

(** A surrogate pair is one character, any other surrogate is kept. *)
Fixpoint chars16 (l : list Z) : string :=
  match l with
  | [] => EmptyString
  | u :: r =>
      match r with
      | w :: r' => if is_high u && is_low w then utf8_of_cp (combine_pair u w) +:+ chars16 r' else utf8_of_cp u +:+ chars16 r
      | [] => utf8_of_cp u
      end
  end.

Fixpoint chars32 (big : bool) (s : string) : option string :=
  match s with
  | EmptyString => Some EmptyString
  | String a (String b (String c (String d r))) =>
      let cp := if big then 16777216 * ord a + 65536 * ord b + 256 * ord c + ord d
                else 16777216 * ord d + 65536 * ord c + 256 * ord b + ord a in
      if 1114111 <? cp then None else option_map (String.append (utf8_of_cp cp)) (chars32 big r)
  | _ => None
  end.

Definition of_option (o : option string) : res string := match o with Some s => Ok s | None => Raise unicode_error end.

(** [b.decode(encoding, "surrogatepass")]; [utf-16] and [utf-32] take the byte order
    from the mark, which [detect_encoding] has seen. *)
Definition decode (e : encoding) (b : string) : res string :=
  match e with
  | Utf8 => if utf8_pass b then Ok b else Raise unicode_error
  | Utf8Sig => let b := sdrop 3 b in if utf8_pass b then Ok b else Raise unicode_error
  | Utf16 => of_option (option_map chars16 (units16 (startswith b (bytes_of [254; 255])) (sdrop 2 b)))
  | Utf16LE => of_option (option_map chars16 (units16 false b))
  | Utf16BE => of_option (option_map chars16 (units16 true b))
  | Utf32 => of_option (chars32 (startswith b (bytes_of [0; 0; 254; 255])) (sdrop 4 b))
  | Utf32LE => of_option (chars32 false b)
  | Utf32BE => of_option (chars32 true b)
  end.

Definition json_decode (b : string) : res string := decode (detect_encoding b) b.

(** Printable ASCII is its own decoding. *)
Lemma printable_pass s : sforall printable s = true -> utf8_pass s = true.
Proof.
  induction s as [|c s IH]; [done|]. cbn [sforall utf8_pass]. intros [Hc Hs]%andb_prop.
  apply printable_ascii in Hc. unfold is_ascii in Hc. rewrite Hc. by apply IH.
Qed.

Lemma printable_not_marked n l s : (n < 32 \/ 126 < n) -> 0 <= n < 256 -> sforall printable s = true ->
  startswith s (bytes_of (n :: l)) = false.
Proof.
  intros Hn Hb Hs. unfold startswith. cbn [bytes_of foldr]. destruct s as [|c s]; [done|]. cbn [remove_prefix].
  rewrite bool_decide_eq_false_2; [done|]. intros <-. cbn [sforall] in Hs. apply andb_prop in Hs as [Hc _].
  unfold printable in Hc. rewrite ord_chr in Hc by done. split_bools. lia.
Qed.

Lemma json_decode_printable s : sforall printable s = true -> json_decode s = Ok s.
Proof.
  intros Hs. unfold json_decode. assert (detect_encoding s = Utf8) as ->; [|unfold decode; by rewrite printable_pass].
  unfold detect_encoding. change byte_order_mark with (bytes_of [239; 187; 191]).
  rewrite !printable_not_marked by (done || lia). cbn [orb].
  assert (Hz : forall c r, sforall printable (String c r) = true -> (ord c =? 0) = false /\ sforall printable r = true).
  { intros c r [Hc Hr]%andb_prop. split; [|done]. unfold printable in Hc. split_bools. apply Z.eqb_neq. lia. }
  destruct s as [|b0 [|b1 s]]; [done|done|]. destruct (Hz _ _ Hs) as [-> H1], (Hz b1 s ltac:(by destruct (Hz _ _ Hs))) as [-> _].
  by destruct s as [|b2 [|b3 s]].
Qed.
