(* ===== verification/PyFloat.v ===== *)
(** * Python's [float]

    Binary64 arithmetic on the standard library's [spec_float], the conversions from
    other values, [sum] (which compensates rounding errors), [math.floor] and the
    17-digit format.  Comparisons of mixed numbers are exact and live in PyValue.v.  Arithmetic
    on decoded numbers and facts about floats follow. *)

From Stdlib Require Import Ascii QArith Floats.SpecFloat.
From S2P Require Import Prelude PyDecimal PyText PyValue PyOrder PyBytes.
From stdpp Require Import base tactics list strings.
From Stdlib Require Import ZArith Lia Bool Qabs Qpower Lqa.

Open Scope Z_scope.

Definition fadd : spec_float -> spec_float -> spec_float := SFadd 53 1024.
Definition fsub : spec_float -> spec_float -> spec_float := SFsub 53 1024.
Definition fmul : spec_float -> spec_float -> spec_float := SFmul 53 1024.
Definition fdiv : spec_float -> spec_float -> spec_float := SFdiv 53 1024.
Definition fabs : spec_float -> spec_float := SFabs.
Definition fltb : spec_float -> spec_float -> bool := SFltb.
Definition fleb : spec_float -> spec_float -> bool := SFleb.
Definition feqb : spec_float -> spec_float -> bool := SFeqb.
Definition fzero : spec_float := S754_zero false.

(** [math.isfinite(x)] *)
Definition is_finite (f : spec_float) : bool := match f with S754_zero _ | S754_finite _ _ _ => true | _ => false end.

(** A literal of the source, rounded to the nearest binary64 number. *)
Definition literal (c q : Z) : spec_float := float_of_dec c q.

(** ** [float(v)] *)

Definition overflow_error : exn := Exn OverflowError "OverflowError".

Definition float_of_int (z : Z) : res spec_float :=
  match binary_normalize 53 1024 z 0 false with
  | S754_infinity _ => Raise overflow_error
  | f => Ok f
  end.

(** Underscores are allowed between digits only. *)
Fixpoint underscores_ok (after_digit : bool) (s : string) : bool :=
  match s with
  | EmptyString => true
  | String "_" s => after_digit && match s with String c _ => is_digit c | EmptyString => false end && underscores_ok false s
  | String c s => underscores_ok (is_digit c) s
  end.

Definition special_float (s : string) : option spec_float :=
  let l := smap lower s in
  if bool_decide (l = "inf") || bool_decide (l = "infinity") then Some (S754_infinity false)
  else if bool_decide (l = "nan") then Some S754_nan else None.

Definition signed (neg : bool) (f : spec_float) : spec_float := if neg then SFopp f else f.

Definition float_of_text (text : string) : res spec_float :=
  let t := rstrip (lstrip text) in
  if negb (underscores_ok false t) then Raise value_error
  else
    let sg := parse_sign (sfilter (fun c => negb (bool_decide (c = "_"%char))) t) in
    match special_float sg.2 with
    | Some f => Ok (signed sg.1 f)
    | None =>
        let ip := span is_digit sg.2 in
        let fp := match ip.2 with String "." r => span is_digit r | r => (EmptyString, r) end in
        let coef := ip.1 +:+ fp.1 in
        if bool_decide (coef = EmptyString) then Raise value_error
        else match parse_exponent fp.2 with
             | Some e => Ok (signed sg.1 (float_of_dec (digits_value coef 0) (e - slen fp.1)))
             | None => Raise value_error
             end
    end.

Definition to_float (v : value) : res spec_float :=
  match v with
  | VFloat f => Ok f
  | VInt z => float_of_int z
  | VBool b => Ok (if b then literal 1 0 else fzero)
  | VStr s => float_of_text s
  | VDec d => Ok (signed (dneg d) (float_of_dec (dcoef d) (dexp d)))
  | _ => Raise type_error
  end.

Example to_float_int : to_float (VInt 25000) = Ok (literal 25000 0).
Proof. reflexivity. Qed.
Example to_float_text : to_float (VStr " -1_0.5e-1 ") = Ok (S754_finite true 4728779608739021 (-52)).
Proof. vm_compute. reflexivity. Qed.

(** ** [sum] of floats *)

Record Sum := mkSum { s_total : spec_float; s_compensation : spec_float }.

Definition sum_step (s : Sum) (x : spec_float) : Sum :=
  let t := fadd (s_total s) x in
  let lost := if fleb (fabs x) (fabs (s_total s)) then fadd (fsub (s_total s) t) x else fadd (fsub x t) (s_total s) in
  mkSum t (fadd (s_compensation s) lost).

(** [sum(l)], the integer zero for no items. *)
Definition py_sum (l : list spec_float) : value :=
  match l with
  | [] => VInt 0
  | x :: l =>
      let s := foldl sum_step (mkSum (fadd fzero x) fzero) l in
      let c := s_compensation s in
      VFloat (match c with S754_finite _ _ _ => fadd (s_total s) c | _ => s_total s end)
  end.

(** ** [math.floor(x)] *)

Definition floor_of (f : spec_float) : res Z :=
  match f with
  | S754_zero _ => Ok 0
  | S754_finite s m e =>
      let v := if s then Zneg m else Zpos m in
      Ok (if 0 <=? e then v * 2 ^ e else v / 2 ^ (- e))
  | S754_infinity _ => Raise overflow_error
  | S754_nan => Raise value_error
  end.

(** ** [format(x, ".17g")] *)

(** Without the zeros at the end of the fraction. *)
Fixpoint strip_fraction (s : string) : string :=
  match s with
  | EmptyString => EmptyString
  | String c r => match strip_fraction r with
                  | EmptyString => if bool_decide (c = "0"%char) then EmptyString else String c EmptyString
                  | t => String c t
                  end
  end.
Definition with_fraction (whole fraction : string) : string :=
  match strip_fraction fraction with EmptyString => whole | f => whole +:+ "." +:+ f end.

(** The number as seventeen digits and the exponent of the first one. *)
Definition seventeen (num den : Z) : Z * Z :=
  let x := leading_exponent num den - 1 in
  let k := 16 - x in
  let d := if 0 <=? k then div_half_even (num * 10 ^ k) den else div_half_even num (den * 10 ^ (- k)) in
  if d =? 10 ^ 17 then (10 ^ 16, x + 1) else (d, x).

Definition format_17g (f : spec_float) : string :=
  match f with
  | S754_zero s => if s then "-0" else "0"
  | S754_infinity s => if s then "-inf" else "inf"
  | S754_nan => "nan"
  | S754_finite s m e =>
      let r := seventeen (Zpos m * 2 ^ Z.max e 0) (2 ^ Z.max (- e) 0) in
      let ds := digits r.1 in
      let x := r.2 in
      (if s then "-" else "") +:+
      (if (-4 <=? x) && (x <? 17) then
         if x <? 0 then with_fraction "0" (srepeat "0" (Z.to_nat (- x - 1)) +:+ ds)
         else with_fraction (stake (Z.to_nat (x + 1)) ds) (sdrop (Z.to_nat (x + 1)) ds)
       else with_fraction (stake 1 ds) (sdrop 1 ds) +:+ "e" +:+ (if x <? 0 then "-" else "+") +:+
            (if Z.abs x <? 10 then "0" else "") +:+ digits (Z.abs x))
  end.

Example format_price : format_17g (literal 11001 (-4)) = "1.1001000000000001".
Proof. vm_compute. reflexivity. Qed.
Example format_whole : format_17g (literal 100000 0) = "100000".
Proof. vm_compute. reflexivity. Qed.
Example format_small : format_17g (literal 1 (-5)) = "1.0000000000000001e-05".
Proof. vm_compute. reflexivity. Qed.

(** * Arithmetic on decoded numbers

    The operators [+], [-], [*], [/] and [abs] on values whose type is only known at run
    time: integers stay integers, a float makes the result a float, anything else is a
    TypeError.  (Multiplying a string or a list by an integer is not an error in Python;
    every such product of the modelled code is compared with a float, which is one.)
    [round(x, n)] and the fixed-point format round the exact binary value half to even. *)

(** An operand: an integer (booleans are 0 and 1) or a float. *)
Inductive operand := OInt (z : Z) | OFloat (f : spec_float).

Definition operand_of (v : value) : res operand :=
  match v with
  | VBool b => Ok (OInt (if b then 1 else 0))
  | VInt z => Ok (OInt z)
  | VFloat f => Ok (OFloat f)
  | _ => Raise type_error
  end.

Definition operand_float (o : operand) : res spec_float :=
  match o with OInt z => float_of_int z | OFloat f => Ok f end.

Definition arith (fi : Z -> Z -> Z) (ff : spec_float -> spec_float -> spec_float) (a b : value) : res value :=
  let! x := operand_of a in
  let! y := operand_of b in
  match x, y with
  | OInt i, OInt j => Ok (VInt (fi i j))
  | _, _ => let! u := operand_float x in let! v := operand_float y in Ok (VFloat (ff u v))
  end.

Definition vadd : value -> value -> res value := arith Z.add fadd.
Definition vsub : value -> value -> res value := arith Z.sub fsub.
Definition vmul : value -> value -> res value := arith Z.mul fmul.

Definition zero_division : exn := Exn DivisionByZero "ZeroDivisionError".

(** [a / f] for a float [f]. *)
Definition vdiv (a : value) (f : spec_float) : res value :=
  let! x := operand_of a in
  let! u := operand_float x in
  match f with S754_zero _ => Raise zero_division | _ => Ok (VFloat (fdiv u f)) end.

Definition vabs (a : value) : res value :=
  let! x := operand_of a in
  match x with OInt i => Ok (VInt (Z.abs i)) | OFloat f => Ok (VFloat (fabs f)) end.

(** [max(a, b)]: the first of two equal values. *)
Definition vmax (a b : value) : res value := let! c := py_lt a b in Ok (if c : bool then b else a).

(** Comparisons with the literal [0.0]. *)
Definition VZERO : value := VFloat fzero.

(** ** Rounding to decimals *)

(** The multiple of [10^-n] nearest to a finite float, as an integer. *)
Definition decimals (n : Z) (m : positive) (e : Z) : Z := div_half_even (Zpos m * 2 ^ Z.max e 0 * 10 ^ n) (2 ^ Z.max (- e) 0).

Definition round_float (n : Z) (f : spec_float) : spec_float :=
  match f with S754_finite s m e => signed s (float_of_dec (decimals n m e) (- n)) | _ => f end.

(** [round(v, n)] *)
Definition vround (n : Z) (v : value) : res value :=
  let! x := operand_of v in
  match x with OInt i => Ok (VInt i) | OFloat f => Ok (VFloat (round_float n f)) end.

Example round_price : round_float 8 (literal 1123456789 (-9)) = literal 112345679 (-8).
Proof. vm_compute. reflexivity. Qed.

(** [format(v, ".nf")] *)
Definition fixed_digits (n d : Z) : string :=
  let ds := digits d in
  let padded := srepeat "0" (Z.to_nat (n + 1 - slen ds)) +:+ ds in
  let whole := Z.to_nat (slen padded - n) in
  stake whole padded +:+ "." +:+ sdrop whole padded.

Definition fixed_float (n : Z) (f : spec_float) : string :=
  match f with
  | S754_zero s => (if s then "-" else "") +:+ fixed_digits n 0
  | S754_infinity s => if s then "-inf" else "inf"
  | S754_nan => "nan"
  | S754_finite s m e => (if s then "-" else "") +:+ fixed_digits n (decimals n m e)
  end.

Definition fixed (n : Z) (v : value) : res string :=
  let! x := operand_of v in
  let! f := operand_float x in
  Ok (fixed_float n f).

Example fixed_ex : fixed 4 (VFloat (SFopp (literal 12345678 (-6)))) = Ok "-12.3457".
Proof. vm_compute. reflexivity. Qed.
Example fixed_zero : fixed 8 (VInt 0) = Ok "0.00000000".
Proof. vm_compute. reflexivity. Qed.

(** * Facts about floats

    The sign of a product, and the order of floats. *)

(** ** Signs *)

Definition fsign (f : spec_float) : Z :=
  match f with S754_finite s _ _ | S754_infinity s => if s then -1 else 1 | _ => 0 end.

Lemma shr_1_nonneg r : 0 <= shr_m r -> 0 <= shr_m (shr_1 r).
Proof. destruct r as [m b s]. simpl. intros H. destruct m as [|[p|p|]|p]; simpl; lia. Qed.

Lemma iter_shr_nonneg p : forall r, 0 <= shr_m r -> 0 <= shr_m (@SpecFloat.iter_pos shr_record shr_1 p r).
Proof. induction p as [p IH|p IH|]; intros r H; simpl; [apply IH, IH, shr_1_nonneg, H|apply IH, IH, H|by apply shr_1_nonneg]. Qed.

Lemma shr_fexp_nonneg m e l r e' : 0 <= m -> shr_fexp 53 1024 m e l = (r, e') -> 0 <= shr_m r.
Proof.
  unfold shr_fexp, shr. intros Hm. assert (0 <= shr_m (shr_record_of_loc m l)) by (destruct l as [|[]]; done).
  destruct (_ - e); intros [= <- <-]; try done. by apply iter_shr_nonneg.
Qed.

(** Rounding keeps the sign and never makes a NaN. *)
Lemma round_aux_sign s m e l : 0 <= m ->
  let f := binary_round_aux 53 1024 s m e l in
  f <> S754_nan /\ (fsign f = 0 \/ fsign f = if s then -1 else 1).
Proof.
  intros Hm f. unfold f, binary_round_aux. destruct (shr_fexp 53 1024 m e l) as [r e'] eqn:E1. apply shr_fexp_nonneg in E1; [|done].
  set (n := round_nearest_even _ _). assert (Hn : 0 <= n).
  { unfold n, round_nearest_even. destruct (loc_of_shr_record r) as [|[]]; try lia. destruct (Z.even _); lia. }
  destruct (shr_fexp 53 1024 n e' loc_Exact) as [r2 e2] eqn:E2. apply shr_fexp_nonneg in E2; [|done].
  destruct (shr_m r2); [by split; [|left]| |lia]. destruct (_ <=? _); (split; [done|right; by destruct s]).
Qed.

Lemma fmul_sign f g : is_finite f = true -> is_finite g = true ->
  fmul f g <> S754_nan /\ (fsign (fmul f g) = 0 \/ fsign (fmul f g) = fsign f * fsign g).
Proof.
  destruct f as [s| | |s m e], g as [s'| | |s' m' e']; try done; intros _ _; try (split; [done|by left]).
  destruct (round_aux_sign (xorb s s') (Zpos (m * m')) (e + e') loc_Exact) as [H1 H2]; [lia|]. split; [exact H1|].
  destruct H2 as [H2|H2]; [by left|]. right. unfold fmul, SFmul. rewrite H2. by destruct s, s'.
Qed.

Lemma float_of_int_sign z f : float_of_int z = Ok f -> is_finite f = true /\ (fsign f = 0 \/ fsign f = Z.sgn z).
Proof.
  unfold float_of_int, binary_normalize, binary_round. destruct z as [|p|p]; [intros [= <-]; split; [done|by left]|..].
  - destruct (shl_align _ _ _) as [mz ez]. destruct (round_aux_sign false (Zpos mz) ez loc_Exact) as [H1 H2]; [lia|].
    destruct (binary_round_aux _ _ _ _ _ _); try done; intros [= <-]; (split; [done|simpl in *; tauto]).
  - destruct (shl_align _ _ _) as [mz ez]. destruct (round_aux_sign true (Zpos mz) ez loc_Exact) as [H1 H2]; [lia|].
    destruct (binary_round_aux _ _ _ _ _ _); try done; intros [= <-]; (split; [done|simpl in *; tauto]).
Qed.

(** ** Exact values *)

Definition exactly (v : value) (q : Q) : Prop := exists q', num_of v = Some (NFin q') /\ (q' == q)%Q.

Lemma pow2_pos e : (0 < Qpower 2 e)%Q.
Proof. by apply Qpower_0_lt. Qed.

Lemma float_sign s m e q : float_num (S754_finite s m e) = NFin q -> if s then (q < 0)%Q else (0 < q)%Q.
Proof.
  simpl. intros [= <-]. pose proof (pow2_pos e). assert (0 < inject_Z (Zpos m))%Q by (unfold Qlt; simpl; lia).
  destruct s; [change (Zneg m) with (- Zpos m); rewrite inject_Z_opp; nra|nra].
Qed.

(** ** Comparisons over exact values *)

Lemma py_lt_exact a b x y c : exactly a x -> exactly b y -> py_lt a b = Ok c -> if c then (x < y)%Q else (y <= x)%Q.
Proof.
  unfold exactly, py_lt, py_cmp. intros (x' & -> & Hx) (y' & -> & Hy) [= <-]. simpl. destruct (Qle_bool y' x') eqn:E; simpl.
  - apply Qle_bool_iff in E. lra.
  - assert (~ (y' <= x')%Q) by (rewrite <- Qle_bool_iff; congruence). lra.
Qed.
Lemma py_le_exact a b x y c : exactly a x -> exactly b y -> py_le a b = Ok c -> if c then (x <= y)%Q else (y < x)%Q.
Proof.
  unfold exactly, py_le, py_cmp. intros (x' & -> & Hx) (y' & -> & Hy) [= <-]. unfold num_leb, num_ltb, num_eqb.
  destruct (Qle_bool y' x') eqn:E; simpl.
  - apply Qle_bool_iff in E. destruct (Qeq_bool x' y') eqn:E2; [apply Qeq_bool_iff in E2; lra|]. apply Qeq_bool_neq in E2. lra.
  - assert (~ (y' <= x')%Q) by (rewrite <- Qle_bool_iff; congruence). lra.
Qed.

Lemma exactly_abs v a x : exactly v x -> vabs v = Ok a -> exactly a (Qabs x).
Proof.
  unfold exactly, vabs. intros (x' & Hv & Hx) H. apply rbind_ok in H as (o & Ho & H). destruct v as [|b|z|f| | | |]; try done.
  - injection Ho as <-. injection H as <-. injection Hv as <-. destruct b; eexists; (split; [done|]); by rewrite <- Hx.
  - injection Ho as <-. injection H as <-. injection Hv as <-. eexists. split; [done|]. rewrite <- Hx. by destruct z.
  - injection Ho as <-. injection H as <-. simpl in Hv. destruct f as [s| | |s m e]; try done.
    + injection Hv as <-. exists 0%Q. split; [done|]. by rewrite <- Hx.
    + injection Hv as <-. eexists. split; [reflexivity|]. rewrite <- Hx, Qabs_Qmult. rewrite (Qabs_pos (Qpower 2 e)) by (apply Qlt_le_weak, pow2_pos).
      by destruct s.
Qed.

(** The sign of an exact value. *)
Definition operand_sign (o : operand) : Z := match o with OInt z => Z.sgn z | OFloat f => fsign f end.

Lemma operand_exact v x o : exactly v x -> operand_of v = Ok o ->
  (operand_sign o = 1 <-> (0 < x)%Q) /\ (operand_sign o = -1 <-> (x < 0)%Q) /\ (forall f, o = OFloat f -> is_finite f = true).
Proof.
  intros (x' & Hv & Hx) Ho. destruct v as [|b|z|f| | | |]; try done; injection Ho as <-; simpl in Hv.
  - injection Hv as <-. split; [|split; [|done]]; rewrite <- Hx; destruct b; simpl; split; intros H; try done; exfalso; try lia; unfold Qlt in H; simpl in H; lia.
  - injection Hv as <-. split; [|split; [|done]]; rewrite <- Hx; unfold Qlt; simpl; destruct z; simpl; lia.
  - destruct f as [s| | |s m e]; try done.
    + injection Hv as <-. split; [|split; [|by intros f [= <-]]]; rewrite <- Hx; simpl; split; intros H; try done; lra.
    + pose proof (float_sign s m e x' ltac:(congruence)) as Hs. split; [|split; [|by intros f [= <-]]]; rewrite <- Hx; destruct s; simpl; split; intros H; try done; lra.
Qed.

Lemma operand_float_sign o f : (forall g, o = OFloat g -> is_finite g = true) -> operand_float o = Ok f ->
  is_finite f = true /\ (fsign f = 0 \/ fsign f = operand_sign o).
Proof. intros Hf. destruct o as [z|g]; simpl; [apply float_of_int_sign|]. intros [= <-]. split; [by apply Hf|by right]. Qed.

(** ** Products *)

Lemma above_zero f : f <> S754_nan -> py_lt VZERO (VFloat f) = Ok true \/ py_le (VFloat f) VZERO = Ok false -> fsign f = 1.
Proof.
  intros Hn H. destruct f as [s|s| |s m e]; try done.
  - destruct H as [H|H]; vm_compute in H; done.
  - destruct s; [|done]. destruct H as [H|H]; vm_compute in H; done.
  - assert (H1 : exactly (VFloat (S754_finite s m e)) (match float_num (S754_finite s m e) with NFin q => q | _ => 0%Q end)) by (eexists; split; [reflexivity|reflexivity]).
    assert (H0 : exactly VZERO 0) by (eexists; split; [reflexivity|reflexivity]).
    pose proof (float_sign s m e _ eq_refl) as Hs. destruct s; [|done]. exfalso.
    destruct H as [H|H]; [pose proof (py_lt_exact _ _ _ _ _ H0 H1 H) as H2|pose proof (py_le_exact _ _ _ _ _ H1 H0 H) as H2]; simpl in H2, Hs; lra.
Qed.

Lemma above_zero_int z : py_lt VZERO (VInt z) = Ok true \/ py_le (VInt z) VZERO = Ok false -> 0 < z.
Proof.
  assert (H1 : exactly (VInt z) (inject_Z z)) by (eexists; split; [reflexivity|reflexivity]).
  assert (H0 : exactly VZERO 0) by (eexists; split; [reflexivity|reflexivity]).
  intros [H|H]; [pose proof (py_lt_exact _ _ _ _ _ H0 H1 H) as H2|pose proof (py_le_exact _ _ _ _ _ H1 H0 H) as H2]; simpl in H2; unfold Qlt in H2; simpl in H2; lia.
Qed.

(** A product above zero has factors of the same sign, also when it is rounded. *)
Lemma product_positive a b p x y : exactly a x -> exactly b y -> vmul a b = Ok p ->
  py_lt VZERO p = Ok true \/ py_le p VZERO = Ok false -> (0 < x /\ 0 < y)%Q \/ (x < 0 /\ y < 0)%Q.
Proof.
  intros Ha Hb H Hp. unfold vmul, arith in H. apply rbind_ok in H as (o & Ho & H). apply rbind_ok in H as (o' & Ho' & H).
  destruct (operand_exact _ _ _ Ha Ho) as (P1 & N1 & F1). destruct (operand_exact _ _ _ Hb Ho') as (P2 & N2 & F2).
  assert (Hs : operand_sign o * operand_sign o' = 1).
  { assert (Hf : forall u v, operand_float o = Ok u -> operand_float o' = Ok v -> p = VFloat (fmul u v) -> operand_sign o * operand_sign o' = 1).
    { intros u v Hu Hv ->. destruct (operand_float_sign _ _ F1 Hu) as [Fu Su]. destruct (operand_float_sign _ _ F2 Hv) as [Fv Sv].
      destruct (fmul_sign u v Fu Fv) as [Hn Hm]. pose proof (above_zero _ Hn Hp). nia. }
    destruct o as [i|f], o' as [j|g]; try (apply rbind_ok in H as (u & Hu & H); apply rbind_ok in H as (v & Hv & H); injection H as <-; by apply (Hf u v)).
    injection H as <-. apply above_zero_int in Hp. simpl. nia. }
  destruct (Z.eq_mul_1 _ _ Hs) as [E|E]; rewrite E in Hs; [left|right]; (split; [tauto|]); [apply P2|apply N2]; lia.
Qed.

(** ** The order of floats *)

#[export] Instance float_decision : EqDecision spec_float.
Proof. solve_decision. Defined.

(** A key that orders the floats that are numbers. *)
Definition float_key (f : spec_float) : Z * (Z * Z) :=
  match f with
  | S754_infinity true => (-2, (0, 0))
  | S754_finite true m e => (-1, (- e, - Zpos m))
  | S754_zero _ | S754_nan => (0, (0, 0))
  | S754_finite false m e => (1, (e, Zpos m))
  | S754_infinity false => (2, (0, 0))
  end.

Lemma compare_key f g : f <> S754_nan -> g <> S754_nan -> SFcompare f g = Some (cmp (float_key f) (float_key g)).
Proof.
  intros Hf Hg. destruct f as [s|s| |s m e], g as [s'|s'| |s' m' e']; try done; try destruct s; try destruct s'; try done; simpl; f_equal.
  - unfold pair_cmp. cbn. unfold pair_cmp. cbn. destruct (Z.compare_spec e e') as [->|H|H].
    + by rewrite Z.compare_refl.
    + by rewrite (proj2 (Z.compare_gt_iff (- e) (- e'))) by lia.
    + by rewrite (proj2 (Z.compare_lt_iff (- e) (- e'))) by lia.
Qed.

Lemma fltb_key f g : fltb f g = true <-> f <> S754_nan /\ g <> S754_nan /\ oltb (float_key f) (float_key g) = true.
Proof.
  unfold fltb, SFltb, oltb. destruct (decide (f = S754_nan)) as [->|Hf]; [split; [done|tauto]|].
  destruct (decide (g = S754_nan)) as [->|Hg]; [split; [by destruct f|tauto]|]. rewrite (compare_key f g Hf Hg). tauto.
Qed.
Lemma fltb_trans f g h : fltb f g = true -> fltb g h = true -> fltb f h = true.
Proof. rewrite !fltb_key. intros (H1 & _ & H2) (_ & H3 & H4). do 2 (split; [done|]). by eapply oltb_trans. Qed.
Lemma fltb_irrefl f : fltb f f = false.
Proof. apply not_true_is_false. rewrite fltb_key. intros (_ & _ & H). by rewrite oltb_irrefl in H. Qed.
