(* ===== verification/PnlBook.v ===== *)
(** * PnL accounting: numbers, the accounting period and the position book

    Models the first part of scripts/hepta_pnl_accounting.py: [number],
    [amount], [side], [validate_period], [Book.apply], [contract_subject] and the
    small event predicates.  [prec] is the precision of the active decimal
    context (28 by default, 40 inside a report). *)

From Stdlib Require Import QArith Qabs Lqa Ascii.
From S2P Require Import Prelude PyDecimal PyText PyValue.
From stdpp Require Import base tactics list strings.
From Stdlib Require Import ZArith Lia.

Open Scope Z_scope.

Definition evidence (m : string) : exn := Exn EvidenceError m.

(** [ZERO], [INSTRUMENTS], [TERMINALS] *)
Definition ZERO : decimal := dec_of_Z 0.
Definition INSTRUMENTS : list (string * decimal) :=
  [("EUR.USD", Dec false 1 (-6)); ("BTC.USD", Dec false 1 (-10))].
Definition TERMINALS : list string := ["Filled"; "Cancelled"; "ApiCancelled"; "Rejected"; "Inactive"].

(** [INSTRUMENTS[instrument]] *)
Definition tolerance (instrument : string) : res decimal :=
  match dget instrument INSTRUMENTS with Some d => Ok d | None => Raise (key_error instrument) end.

(** [CORRELATION.fullmatch(str(v))] *)
Definition is_lower_hex (c : Ascii.ascii) : bool :=
  is_digit c || ((97 <=? ord c) && (ord c <=? 102)).
Definition correlation_prefix : string := "hepta-v1-sha256:".
Definition CORRELATION_fullmatch (v : value) : bool :=
  match v with
  | VStr s =>
      bool_decide (stake 16 s = correlation_prefix) && (slen (sdrop 16 s) =? 64) &&
      sforall is_lower_hex (sdrop 16 s)
  | _ => false
  end.

Definition number (prec : Z) (v : value) : res decimal :=
  if negb (is_numeric_input v) then Raise (evidence "INVALID_NUMBER")
  else when negb (int_text_ok v) raise value_error in
       match to_parsed v with
       | PInvalid => Raise (evidence "INVALID_NUMBER")
       | PSpecial => Raise (evidence "UNSET_OR_NONFINITE_NUMBER")
       | PFinite d =>
           let! a := dabs prec d in
           when dleb (Dec false 1 100) a raise evidence "UNSET_OR_NONFINITE_NUMBER" in
           Ok d
       end.

Definition positive_int (v : value) : bool := pos_int v.

Definition amount (d : decimal) : string := if dnonzero d then format_f d else "0".
Definition amount_opt (d : option decimal) : value :=
  match d with Some d => VStr (amount d) | None => VNone end.

Definition side (v : value) : res Z :=
  if in_strs v ["BUY"; "BOT"] then Ok 1
  else if in_strs v ["SELL"; "SLD"] then Ok (-1)
  else Raise (evidence "EXECUTION_SIDE_INVALID").

(** ** The accounting period *)

Definition starts_with (prefix s : string) : bool :=
  bool_decide (stake (String.length prefix) s = prefix).

Definition str_starts_with (v : value) (prefix : string) : bool :=
  match v with VStr s => starts_with prefix s | _ => false end.

(** [set(period.get("instruments", {})) != set(INSTRUMENTS)]: iterating over a
    dictionary gives its keys, over a string its characters. *)
Definition keys_are_instruments (v : value) : res bool :=
  match v with
  | VDict d => Ok (forallb (fun k => dhas k INSTRUMENTS) (map fst d) &&
                   forallb (fun k => existsb (fun k' => bool_decide (k' = k)) (map fst d)) (map fst INSTRUMENTS))
  | VStr _ => Ok false
  | VList l => if forallb hashable l then
                 Ok (forallb (fun v => in_strs v (map fst INSTRUMENTS)) l &&
                     forallb (fun k => existsb (fun v => eq_str v k) l) (map fst INSTRUMENTS))
               else Raise type_error
  | _ => Raise type_error
  end.

Definition validate_entry (prec : Z) (period : dict) (v : value) : res unit :=
  let! entry := as_dict v in
  when negb (nonempty_str (get entry "agent_id")) || negb (nonempty_str (get entry "session_id")) ||
       negb (positive_int (get entry "broker_client_id"))
  raise evidence "ACCOUNTING_OWNER_INVALID" in
  let! quantity := number prec (get entry "opening_quantity") in
  if dnonzero quantity then
    when! (let! m := number prec (get entry "opening_mark") in Ok (dleb m ZERO)) ||?
          Ok (negb (positive_int (get entry "opening_mark_observed_at_ms"))) ||?
          Ok (negb (positive_int (get entry "opening_mark_valid_until_ms"))) ||?
          (let! o := as_int (get entry "opening_mark_observed_at_ms") in
           let! s := as_int (get period "started_at_ms") in
           let! u := as_int (get entry "opening_mark_valid_until_ms") in
           Ok (negb ((o <=? s) && (s <=? u)))) ||?
          Ok (negb (eq_str (get entry "opening_mark_source") "IB_MID_AT_OPERATOR_RESET"))
    raise evidence "OPENING_MARK_NOT_PROVEN" in
    Ok tt
  else Ok tt.

Definition validate_period (prec : Z) (period : dict) : res unit :=
  when! Ok (negb (eq_str (get period "schema") "heptatrader.pnl-period.v1")) ||?
        Ok (negb (eq_str (get period "execution_domain") "PAPER")) ||?
        Ok (negb (eq_str (get period "currency") "USD")) ||?
        Ok (negb (is_str (get period "account"))) ||?
        Ok (negb (str_starts_with (get period "account") "DU")) ||?
        Ok (negb (nonempty_str (get period "period_id"))) ||?
        Ok (negb (positive_int (get period "started_at_ms"))) ||?
        Ok (negb (eq_str (get period "kind") "USER_RESET")) ||?
        pnot (keys_are_instruments (getd (VDict []) period "instruments"))
  raise evidence "ACCOUNTING_PERIOD_INVALID" in
  let! instruments := item period "instruments" in
  let! entries := (match instruments with VDict d => Ok (map snd d) | _ => Raise attribute_error end) in
  rfold (fun _ v => validate_entry prec period v) entries tt.

(** ** The position book *)

Record Book := mkBook {
  quantity : decimal; cost : decimal; realized : decimal;
  open_fees : decimal; paid_fees : decimal }.

Definition Book_new (q c : decimal) : Book := mkBook q c ZERO ZERO ZERO.

(** [Book.apply]: weighted-average cost while increasing, realized result and
    pro-rata release of entry fees while reducing, a fresh basis after a
    reversal through zero. *)
Definition Book_apply (p : Z) (b : Book) (direction : Z) (qty price fee : decimal) : res Book :=
  let! delta := dmul p (dec_of_Z direction) qty in
  let! paid := dadd p (paid_fees b) fee in
  let! same := (if deqb (quantity b) ZERO then Ok true
                else let! m := dmul p (quantity b) delta in Ok (dltb ZERO m)) in
  if same : bool then
    let! held := dabs p (quantity b) in
    let! total := dadd p held qty in
    let! x := dmul p held (cost b) in
    let! y := dmul p qty price in
    let! s := dadd p x y in
    let! c := ddiv p s total in
    let! q := dadd p (quantity b) delta in
    let! f := dadd p (open_fees b) fee in
    Ok (mkBook q c (realized b) f paid)
  else
    let old := quantity b in
    let! aold := dabs p old in
    let closed := dmin aold qty in
    let! d := dsub p price (cost b) in
    let! g := dmul p (dec_of_Z (if dltb ZERO old then 1 else -1)) d in
    let! gain := dmul p g closed in
    let! r := dadd p (realized b) gain in
    let! rest := dsub p aold closed in
    let! ratio := ddiv p rest aold in
    let! f := dmul p (open_fees b) ratio in
    let! q := dadd p old delta in
    if deqb q ZERO then Ok (mkBook q ZERO r ZERO paid)
    else
      let! turned := dmul p old q in
      if dltb turned ZERO then
        let! extra := dsub p qty closed in
        let! t := dmul p fee extra in
        let! f' := ddiv p t qty in
        Ok (mkBook q price r f' paid)
      else Ok (mkBook q (cost b) r f paid).

(** ** Event predicates *)

Definition concat_str (prefix : string) (v : value) : res string :=
  match v with VStr s => Ok (prefix +:+ s) | _ => Raise type_error end.

(** [_owns]: the owner entry is subscripted lazily, like the source's chain of [and]. *)
Definition owns (event period : dict) (instrument : string) : res bool :=
  let! instruments := item period "instruments" in
  let! owner := subscript instruments instrument in
  let! account := item period "account" in
  Ok (py_eq (get event "account") account) &&?
  Ok (eq_str (get event "execution_domain") "PAPER") &&?
  Ok (eq_str (get event "instrument") instrument) &&?
  (let! s := subscript owner "session_id" in Ok (py_eq (get event "trace_id") s)) &&?
  (let! a := subscript owner "agent_id" in
   let! src := concat_str "agent.tool:" a in Ok (eq_str (get event "source") src)).

(** [rest.partition(":")] *)
Fixpoint partition_colon (s : string) : option (string * string) :=
  match s with
  | EmptyString => None
  | String c s =>
      if bool_decide (c = ":"%char) then Some (EmptyString, s)
      else match partition_colon s with
           | Some (h, t) => Some (String c h, t)
           | None => None
           end
  end.

(** [str.isdigit] also holds of the superscript digits, which [int] rejects. *)
Definition is_digit_like (c : ascii) : bool :=
  is_digit c || (ord c =? 178) || (ord c =? 179) || (ord c =? 185).

(** One length-prefixed field. *)
Definition subject_field (rest : string) : res (string * string) :=
  match partition_colon rest with
  | None => Raise (evidence "ECONOMIC_CONTRACT_INVALID")
  | Some (len, tail) =>
      when bool_decide (len = EmptyString) || negb (sforall is_digit_like len) || (4 <? slen len)
      raise evidence "ECONOMIC_CONTRACT_INVALID" in
      when negb (sforall is_digit len) raise Exn ValueError "invalid literal for int()" in
      let size := digits_value len 0 in
      when slen tail <? size raise evidence "ECONOMIC_CONTRACT_INVALID" in
      Ok (stake (Z.to_nat size) tail, sdrop (Z.to_nat size) tail)
  end.

Fixpoint subject_fields (n : nat) (rest : string) : res (list string * string) :=
  match n with
  | O => Ok ([], rest)
  | S n =>
      let! f := subject_field rest in
      let! r := subject_fields n (snd f) in
      Ok (fst f :: fst r, snd r)
  end.

Definition contract_subject (prec : Z) (identity : value) : res (list string) :=
  match identity with
  | VStr s =>
      if starts_with "HIBE1:" s then
        let! r := subject_fields 8 (sdrop 6 s) in
        let fields := fst r in let rest := snd r in
        when! Ok (negb (starts_with ":" rest)) ||?
              (let! x := number prec (VStr (sdrop 1 rest)) in Ok (dnonzero x)) ||?
              Ok (existsb (fun f => negb (bool_decide (f = EmptyString))) (firstn 3 (skipn 3 fields)))
        raise evidence "ECONOMIC_CONTRACT_UNSUPPORTED" in
        Ok (firstn 3 fields)
      else Raise (evidence "ECONOMIC_CONTRACT_INVALID")
  | _ => Raise (evidence "ECONOMIC_CONTRACT_INVALID")
  end.

(** [_binding]: the identity tuple of a command event. *)
Definition binding (event : dict) : res (list value) :=
  let! s := side (get event "side") in
  Ok [get event "req_id"; get event "venue_correlation_id"; get event "order_id"; VInt s;
      get event "instrument"; get event "account"; get event "trace_id"].

Definition same_binding (a b : dict) : res bool :=
  let! x := binding a in
  let! y := binding b in
  Ok (py_eq (VList x) (VList y)).

Definition ledger_noop (event : dict) : bool :=
  if negb (absent (get event "broker_execution_id")) then false
  else if in_strs (get event "event") ["broker_completed_orders_end"; "broker_execution_details_end"] then true
  else eq_str (get event "event") "broker_error" && is_str (get event "risk_code") &&
       negb (eq_str (get event "risk_code") "IB_ERROR_202").

(** ** Exact values of rounded operations *)

(** A rational that the context represents exactly. *)
Definition fits (p : Z) (q : Q) : Prop := exists y, representable p y /\ (dval y == q)%Q.

Section fits.
Context (p : Z) (Hp : 1 <= p).

Lemma dfix_fits_val d r : dwf d -> dfix p d = Ok r -> fits p (dval d) -> (dval r == dval d)%Q.
Proof. intros Hw H (y & Hy & E). apply (dfix_exact_val p d r y Hp Hw H Hy). by symmetry. Qed.

Lemma dadd_fits a b r : dadd p a b = Ok r -> fits p (dval a + dval b) -> (dval r == dval a + dval b)%Q.
Proof.
  intros H (y & Hy & E). rewrite <- dval_add_exact.
  apply (dfix_exact_val p _ r y Hp (dadd_exact_wf a b) H Hy). by rewrite dval_add_exact.
Qed.

Lemma dsub_fits a b r : dsub p a b = Ok r -> fits p (dval a - dval b) -> (dval r == dval a - dval b)%Q.
Proof.
  intros H (y & Hy & E).
  rewrite (dfix_exact_val p _ r y Hp (dadd_exact_wf a _) H Hy);
    rewrite dval_add_exact, dval_neg_exact; [ring|]. rewrite E. ring.
Qed.

Lemma dmul_fits a b r :
  dwf a -> dwf b -> dmul p a b = Ok r -> fits p (dval a * dval b) -> (dval r == dval a * dval b)%Q.
Proof.
  intros Ha Hb H (y & Hy & E). rewrite <- dval_mul_exact.
  apply (dfix_exact_val p _ r y Hp (dmul_exact_wf a b Ha Hb) H Hy). by rewrite dval_mul_exact.
Qed.

Lemma ddiv_fits a b r :
  dwf a -> dwf b -> ddiv p a b = Ok r -> fits p (dval a / dval b) -> (dval r == dval a / dval b)%Q.
Proof.
  intros Ha Hb H (y & Hy & E). destruct (ddiv_bound p a b r y Hp Ha Hb H Hy) as [H1 H2].
  rewrite E in H1, H2. apply Qle_antisym; [apply H1|apply H2]; lra.
Qed.

Lemma dabs_fits a r : dwf a -> dabs p a = Ok r -> fits p (Qabs (dval a)) -> (dval r == Qabs (dval a))%Q.
Proof.
  intros Ha H Hf. assert (E : (dval (Dec false (dcoef a) (dexp a)) == Qabs (dval a))%Q) by (by rewrite dval_abs).
  rewrite (dfix_fits_val (Dec false (dcoef a) (dexp a)) r Ha H); [done|].
  destruct Hf as (y & Hy & Ey). exists y. split; [done|]. by rewrite E.
Qed.

Lemma dabs_nonneg a r : dwf a -> dabs p a = Ok r -> (0 <= dval r)%Q.
Proof.
  intros Ha H. pose proof (dfix_sign p (Dec false (dcoef a) (dexp a)) r Hp Ha H) as Hs.
  apply dval_nonneg; [|done]. exact (dfix_wf p (Dec false (dcoef a) (dexp a)) r Hp Ha H).
Qed.

Lemma dabs_representable a r : dwf a -> dabs p a = Ok r -> representable p r.
Proof. intros Ha H. exact (dfix_representable p (Dec false (dcoef a) (dexp a)) r Hp Ha H). Qed.

Lemma fits_representable d : representable p d -> fits p (dval d).
Proof. intros H. by exists d. Qed.

Lemma fits_neg q : fits p q -> fits p (- q).
Proof.
  intros (y & Hy & E). exists (dneg_exact y). split; [by apply representable_neg|].
  by rewrite dval_neg_exact, E.
Qed.

Lemma fits_proper q q' : (q == q')%Q -> fits p q -> fits p q'.
Proof. intros E (y & Hy & Ey). exists y. split; [done|]. by rewrite Ey. Qed.

(** Multiplying a representable quantity by a direction is exact. *)
Lemma dmul_direction dir q r :
  dir = 1 \/ dir = -1 -> representable p q -> dmul p (dec_of_Z dir) q = Ok r ->
  (dval r == inject_Z dir * dval q)%Q.
Proof.
  intros Hd Hq H. rewrite <- dval_of_Z. apply dmul_fits; [unfold dwf; simpl; lia|by eapply representable_wf|done|].
  eapply fits_proper; [rewrite dval_of_Z; reflexivity|]. destruct Hd as [->| ->].
  - eapply fits_proper; [|by apply fits_representable]. change (inject_Z 1) with 1%Q. ring.
  - eapply fits_proper; [|by apply fits_neg, fits_representable]. change (inject_Z (-1)) with (-1)%Q. ring.
Qed.
End fits.

#[export] Instance fits_Proper p : Proper (Qeq ==> iff) (fits p).
Proof. intros q q' E. split; apply fits_proper; [done|by symmetry]. Qed.

#[export] Hint Resolve dabs_representable fits_representable : dec.

(** ** The book invariant *)

Record book_ok (b : Book) : Prop := {
  ok_quantity : dwf (quantity b);
  ok_cost : dwf (cost b);
  ok_realized : dwf (realized b);
  ok_open : dwf (open_fees b);
  ok_paid : dwf (paid_fees b);
  (** a flat book carries no cost basis and no unreleased entry fee *)
  ok_flat : (dval (quantity b) == 0)%Q -> (dval (cost b) == 0)%Q /\ (dval (open_fees b) == 0)%Q }.

(** The arguments [replay] passes: a direction, a positive rounded quantity. *)
Record fill_ok (p : Z) (dir : Z) (qty price fee : decimal) : Prop := {
  fill_dir : dir = 1 \/ dir = -1;
  fill_qty : representable p qty;
  fill_pos : (0 < dval qty)%Q;
  fill_price : dwf price;
  fill_fee : dwf fee }.

Lemma dval_ZERO : (dval ZERO == 0)%Q.
Proof. by apply dval_zero. Qed.

Lemma ZERO_wf : dwf ZERO.
Proof. done. Qed.

Lemma Book_new_ok q c : dwf q -> dwf c -> ((dval q == 0)%Q -> (dval c == 0)%Q) -> book_ok (Book_new q c).
Proof. intros Hq Hc H. split; simpl; try done. intros E. split; [auto|apply dval_ZERO]. Qed.

(** The sum of a book quantity and a delta of the same sign is not zero. *)
Lemma same_side_nonzero p b dir qty price fee delta q :
  1 <= p -> book_ok b -> fill_ok p dir qty price fee ->
  dmul p (dec_of_Z dir) qty = Ok delta -> dadd p (quantity b) delta = Ok q ->
  ((dval (quantity b) == 0)%Q \/ (0 < dval (quantity b) * dval delta)%Q) ->
  ~ (dval q == 0)%Q.
Proof.
  intros Hp Hb Hf Hd Hq Hside Ez.
  pose proof (dmul_direction p Hp dir qty delta (fill_dir _ _ _ _ _ Hf) (fill_qty _ _ _ _ _ Hf) Hd) as Ed.
  assert (Hrd : representable p delta).
  { eapply dmul_representable; [done| | |exact Hd]; [unfold dwf; simpl; lia|]. eapply representable_wf, Hf. }
  destruct (dadd_bound p Hp _ _ q delta Hq Hrd) as [B1 B2].
  pose proof (fill_pos _ _ _ _ _ Hf) as Hpos.
  assert (Hnz : ~ (dval delta == 0)%Q).
  { rewrite Ed. destruct (fill_dir _ _ _ _ _ Hf) as [->| ->]; unfold inject_Z; lra. }
  destruct Hside as [E|E].
  - assert (dval q == dval delta)%Q by (apply Qle_antisym; [apply B1|apply B2]; lra). lra.
  - destruct (Qlt_le_dec 0 (dval delta)).
    + assert (0 < dval (quantity b))%Q by nra. assert (dval delta <= dval q)%Q by (apply B2; lra). lra.
    + assert (dval (quantity b) < 0)%Q by nra. assert (dval q <= dval delta)%Q by (apply B1; lra). lra.
Qed.

Lemma same_test p b delta same :
  1 <= p -> book_ok b -> dwf delta ->
  (if deqb (quantity b) ZERO then Ok true
   else let! m := dmul p (quantity b) delta in Ok (dltb ZERO m)) = Ok same ->
  if same then ((dval (quantity b) == 0)%Q \/ (0 < dval (quantity b) * dval delta)%Q)
  else ~ (dval (quantity b) == 0)%Q.
Proof.
  intros Hp Hb Hd H. destruct (deqb (quantity b) ZERO) eqn:E; inv_ok H; subst same.
  - left. dec_cmp. rewrite E. apply dval_ZERO.
  - dec_cmp. rewrite dval_ZERO in E.
    destruct (dmul_bound p Hp _ _ a ZERO (ok_quantity b Hb) Hd Ha) as [B1 _]; [by apply dzero_representable|].
    rewrite dval_ZERO in B1. destruct (dltb ZERO a) eqn:El; dec_cmp; [|done].
    right. apply Qnot_le_lt. intros Hle. specialize (B1 Hle). rewrite dval_ZERO in El. lra.
Qed.

Lemma fill_qty_wf p dir qty price fee : fill_ok p dir qty price fee -> dwf qty.
Proof. intros H. eapply representable_wf, H. Qed.

#[export] Hint Resolve ZERO_wf ok_quantity ok_cost ok_realized ok_open ok_paid fill_price fill_fee fill_qty_wf : wf.

Lemma Book_apply_ok p b dir qty price fee b' :
  1 <= p -> book_ok b -> fill_ok p dir qty price fee ->
  Book_apply p b dir qty price fee = Ok b' -> book_ok b'.
Proof.
  intros Hp Hb Hf H. unfold Book_apply in H.
  apply rbind_ok in H as (delta & Hd & H). apply rbind_ok in H as (paid & Hpd & H).
  assert (dwf qty) by eauto with wf.
  apply rbind_ok in H as (same & Hs & H). wf_facts.
  pose proof (same_test p b delta same Hp Hb ltac:(done) Hs) as Hside.
  destruct same.
  - inv_ok H. subst b'. wf_facts. split; simpl; eauto with wf.
    intros E. exfalso. eapply (same_side_nonzero p b dir qty price fee delta); eauto.
  - inv_ok H. wf_facts. destruct (deqb a7 ZERO) eqn:Ez.
    + inv_ok H. subst b'. split; simpl; eauto with wf. intros _. split; apply dval_ZERO.
    + dec_cmp. rewrite dval_ZERO in Ez. inv_ok H. wf_facts. destruct (dltb a8 ZERO); inv_ok H; subst b';
        wf_facts; split; simpl; eauto with wf; intros E; done.
Qed.

(** ** The accounting identity *)

(** Gross result of a book at mark [m]: realized plus open. *)
Definition gross (m : Q) (b : Book) : Q :=
  (dval (realized b) + (m - dval (cost b)) * dval (quantity b))%Q.

(** The intermediate results of one application are exact in the context. *)
Record exact_fill (p : Z) (b : Book) (dir : Z) (qty price : decimal) : Prop := {
  ex_abs : fits p (Qabs (dval (quantity b)));
  ex_side : fits p (dval (quantity b) * (inject_Z dir * dval qty));
  ex_quantity : fits p (dval (quantity b) + inject_Z dir * dval qty);
  ex_total : fits p (Qabs (dval (quantity b)) + dval qty);
  ex_held : fits p (Qabs (dval (quantity b)) * dval (cost b));
  ex_added : fits p (dval qty * dval price);
  ex_basis : fits p (Qabs (dval (quantity b)) * dval (cost b) + dval qty * dval price);
  ex_average : (0 < dval (quantity b) * (inject_Z dir * dval qty) \/ dval (quantity b) == 0)%Q ->
    fits p ((Qabs (dval (quantity b)) * dval (cost b) + dval qty * dval price) /
            (Qabs (dval (quantity b)) + dval qty));
  ex_move : fits p (dval price - dval (cost b));
  ex_gain_open : fits p ((dval price - dval (cost b)) * Qabs (dval (quantity b)));
  ex_gain_part : fits p ((dval price - dval (cost b)) * dval qty);
  ex_realized_open : fits p (dval (realized b) + (dval price - dval (cost b)) * dval (quantity b));
  ex_realized_part : fits p (dval (realized b) - (dval price - dval (cost b)) * (inject_Z dir * dval qty));
  ex_turned : fits p (dval (quantity b) * (dval (quantity b) + inject_Z dir * dval qty)) }.

Lemma Qabs_cases q : (0 <= q /\ Qabs q == q)%Q \/ (q <= 0 /\ Qabs q == - q)%Q.
Proof.
  destruct (Qlt_le_dec q 0); [right|left]; (split; [lra|]); [apply Qabs_neg|apply Qabs_pos]; lra.
Qed.

(** Opening or increasing: the weighted basis keeps the gross result. *)
Lemma gross_increase p b dir qty price fee delta held total x y s c q :
  1 <= p -> book_ok b -> fill_ok p dir qty price fee -> exact_fill p b dir qty price ->
  ((dval (quantity b) == 0)%Q \/ (0 < dval (quantity b) * dval delta)%Q) ->
  dmul p (dec_of_Z dir) qty = Ok delta -> dabs p (quantity b) = Ok held ->
  dadd p held qty = Ok total -> dmul p held (cost b) = Ok x -> dmul p qty price = Ok y ->
  dadd p x y = Ok s -> ddiv p s total = Ok c -> dadd p (quantity b) delta = Ok q ->
  (dval q == dval (quantity b) + dval delta /\
   dval c * dval q == dval (cost b) * dval (quantity b) + dval price * dval delta)%Q.
Proof.
  intros Hp Hb Hf He Hside Hd Hh Ht Hx Hy Hs Hc Hq.
  pose proof (dmul_direction p Hp dir qty delta (fill_dir _ _ _ _ _ Hf) (fill_qty _ _ _ _ _ Hf) Hd) as Ed.
  pose proof (fill_pos _ _ _ _ _ Hf) as Hpos. assert (dwf qty) by eauto with wf. wf_facts.
  pose proof (dabs_fits p Hp _ _ (ok_quantity b Hb) Hh (ex_abs _ _ _ _ _ He)) as Eh.
  assert (Et : (dval total == Qabs (dval (quantity b)) + dval qty)%Q).
  { rewrite <- Eh. apply (dadd_fits p Hp _ _ _ Ht). rewrite Eh. apply He. }
  assert (Ex : (dval x == Qabs (dval (quantity b)) * dval (cost b))%Q).
  { rewrite <- Eh. apply (dmul_fits p Hp); eauto with wf. rewrite Eh. apply He. }
  assert (Ey : (dval y == dval qty * dval price)%Q) by (apply (dmul_fits p Hp); eauto with wf; apply He).
  assert (Es : (dval s == dval x + dval y)%Q).
  { apply (dadd_fits p Hp _ _ _ Hs). rewrite Ex, Ey. apply He. }
  assert (Ec : (dval c == dval s / dval total)%Q).
  { apply (ddiv_fits p Hp); try assumption. rewrite Es, Ex, Ey, Et. apply He.
    rewrite <- Ed. tauto. }
  assert (Eq : (dval q == dval (quantity b) + dval delta)%Q).
  { apply (dadd_fits p Hp _ _ _ Hq). rewrite Ed. apply He. }
  split; [done|]. rewrite Ec, Eq, Es, Ex, Ey, Et. rewrite Ed in *. clear - Hf Hside Hpos.
  set (Q0 := dval (quantity b)) in *. set (C := dval (cost b)). set (P := dval price). set (W := dval qty) in *.
  pose proof (Qabs_nonneg Q0).
  assert (HD : ~ (Qabs Q0 + W == 0)%Q) by lra.
  enough (E : exists s, (Q0 == s * Qabs Q0 /\ inject_Z dir * W == s * W)%Q).
  { destruct E as (s & E1 & E2). rewrite E2.
    set (A := Qabs Q0) in *. clearbody A. rewrite E1. field. done. }
  destruct (fill_dir _ _ _ _ _ Hf) as [->| ->]; unfold inject_Z in *;
    [exists 1%Q|exists (-1)%Q]; destruct (Qabs_cases Q0) as [[? Ea]|[? Ea]]; rewrite Ea;
    destruct Hside as [E0|E0]; split; nra.
Qed.

(** Reducing, closing or reversing. *)
Lemma gross_reduce p b dir qty price fee delta aold d g gain r q :
  1 <= p -> book_ok b -> fill_ok p dir qty price fee -> exact_fill p b dir qty price ->
  ~ (dval (quantity b) == 0)%Q -> (dval (quantity b) * dval delta <= 0)%Q ->
  dmul p (dec_of_Z dir) qty = Ok delta -> dabs p (quantity b) = Ok aold ->
  dsub p price (cost b) = Ok d ->
  dmul p (dec_of_Z (if dltb ZERO (quantity b) then 1 else -1)) d = Ok g ->
  dmul p g (dmin aold qty) = Ok gain -> dadd p (realized b) gain = Ok r ->
  dadd p (quantity b) delta = Ok q ->
  (dval q == dval (quantity b) + dval delta)%Q /\
  ((dval qty <= Qabs (dval (quantity b)))%Q ->
     (dval r == dval (realized b) - (dval price - dval (cost b)) * dval delta)%Q) /\
  ((Qabs (dval (quantity b)) <= dval qty)%Q ->
     (dval r == dval (realized b) + (dval price - dval (cost b)) * dval (quantity b))%Q).
Proof.
  intros Hp Hb Hf He Hnz Hopp Hd Ha Hs Hg Hgain Hr Hq.
  pose proof (dmul_direction p Hp dir qty delta (fill_dir _ _ _ _ _ Hf) (fill_qty _ _ _ _ _ Hf) Hd) as Ed.
  pose proof (fill_pos _ _ _ _ _ Hf) as Hpos. assert (dwf qty) by eauto with wf.
  assert (dwf aold) by (apply (dabs_wf p _ _ Hp (ok_quantity b Hb) Ha)).
  assert (Hrd : representable p d) by (by apply (dsub_representable p Hp price (cost b))). wf_facts.
  pose proof (dabs_fits p Hp _ _ (ok_quantity b Hb) Ha (ex_abs _ _ _ _ _ He)) as Ea.
  pose proof (dsub_fits p Hp _ _ _ Hs (ex_move _ _ _ _ _ He)) as Es.
  assert (Eg : (dval g == inject_Z (if dltb ZERO (quantity b) then 1 else -1) * dval d)%Q).
  { apply (dmul_direction p Hp); [destruct (dltb _ _); auto|done|done]. }
  assert (Eq : (dval q == dval (quantity b) + dval delta)%Q).
  { apply (dadd_fits p Hp _ _ _ Hq). rewrite Ed. apply He. }
  assert (Hdm : dwf (dmin aold qty)) by eauto with wf.
  assert (Esg : (inject_Z (if dltb ZERO (quantity b) then 1 else -1) * Qabs (dval (quantity b)) == dval (quantity b))%Q).
  { destruct (dltb ZERO (quantity b)) eqn:El; dec_cmp; rewrite dval_ZERO in El; unfold inject_Z;
      destruct (Qabs_cases (dval (quantity b))) as [[? E]|[? E]]; rewrite E; lra. }
  assert (Esd : (inject_Z (if dltb ZERO (quantity b) then 1 else -1) * dval qty == - dval delta)%Q).
  { rewrite Ed in *. destruct (dltb ZERO (quantity b)) eqn:El; dec_cmp; rewrite dval_ZERO in El; unfold inject_Z in *;
      destruct (fill_dir _ _ _ _ _ Hf) as [->| ->]; try lra; exfalso; apply Hnz; nra. }
  set (sg := inject_Z (if dltb ZERO (quantity b) then 1 else -1)) in *.
  assert (Hsg : sg = 1%Q \/ sg = (-1)%Q) by (unfold sg; destruct (dltb _ _); auto).
  assert (Fneg : forall z, fits p z -> fits p (sg * z)).
  { intros z Hz. destruct Hsg as [-> | ->]; [|apply (fits_neg p) in Hz]; (eapply fits_proper; [|exact Hz]); ring. }
  assert (Em : forall w, (dval (dmin aold qty) == w)%Q -> fits p ((dval price - dval (cost b)) * w) ->
             fits p (dval (realized b) + (dval price - dval (cost b)) * (sg * w)) ->
             (dval r == dval (realized b) + (dval price - dval (cost b)) * (sg * w))%Q).
  { intros w Ew F1 F2.
    assert (Egn : (dval gain == dval g * dval (dmin aold qty))%Q).
    { apply (dmul_fits p Hp); try assumption. rewrite Eg, Es, Ew. rewrite <- Qmult_assoc. by apply Fneg. }
    assert (Egn' : (dval gain == (dval price - dval (cost b)) * (sg * w))%Q) by (rewrite Egn, Eg, Es, Ew; ring).
    rewrite <- Egn'. apply (dadd_fits p Hp _ _ _ Hr). by rewrite Egn'. }
  split; [done|]. split; intros Hle.
  - assert (Ew : (dval (dmin aold qty) == dval qty)%Q).
    { unfold dmin. destruct (dltb qty aold) eqn:El; [done|]. dec_cmp. lra. }
    rewrite (Em _ Ew); [|apply He|]; [rewrite Esd; ring|].
    rewrite Esd. eapply fits_proper; [|apply (ex_realized_part _ _ _ _ _ He)]. rewrite Ed. ring.
  - assert (Ew : (dval (dmin aold qty) == Qabs (dval (quantity b)))%Q).
    { unfold dmin. destruct (dltb qty aold) eqn:El; dec_cmp; [lra|done]. }
    rewrite (Em _ Ew); [|apply He|]; rewrite Esg; [done|]. apply He.
Qed.

Lemma dmul_sign_exact p a b r :
  1 <= p -> dwf a -> dwf b -> dmul p a b = Ok r -> fits p (dval a * dval b) ->
  (dltb r ZERO = true <-> (dval a * dval b < 0)%Q) /\ (dltb ZERO r = true <-> (0 < dval a * dval b)%Q).
Proof.
  intros Hp Ha Hb H Hf. pose proof (dmul_fits p Hp a b r Ha Hb H Hf) as E.
  by rewrite !dltb_lt, dval_ZERO, E.
Qed.

(** One fill moves the position by the signed quantity and adds to the gross
    result, at every mark, exactly what the traded quantity is worth against its
    price. *)
Lemma Book_apply_gross p b dir qty price fee b' :
  1 <= p -> book_ok b -> fill_ok p dir qty price fee -> exact_fill p b dir qty price ->
  Book_apply p b dir qty price fee = Ok b' ->
  (dval (quantity b') == dval (quantity b) + inject_Z dir * dval qty)%Q /\
  forall m, (gross m b' == gross m b + (m - dval price) * (inject_Z dir * dval qty))%Q.
Proof.
  intros Hp Hb Hf He H. unfold Book_apply in H.
  apply rbind_ok in H as (delta & Hd & H). apply rbind_ok in H as (paid & Hpd & H).
  pose proof (dmul_direction p Hp dir qty delta (fill_dir _ _ _ _ _ Hf) (fill_qty _ _ _ _ _ Hf) Hd) as Ed.
  assert (dwf qty) by eauto with wf. apply rbind_ok in H as (same & Hs & H). wf_facts.
  pose proof (same_test p b delta same Hp Hb ltac:(done) Hs) as Hside.
  pose proof (fill_pos _ _ _ _ _ Hf) as Hpos.
  destruct same.
  - inv_ok H. subst b'. unfold gross; simpl.
    edestruct (gross_increase p b dir qty price fee delta) as [Eq Ec]; eauto.
    split; [by rewrite Eq, Ed|]. intros m. rewrite <- Ed.
    assert ((m - dval a4) * dval a5 == m * dval a5 - dval a4 * dval a5)%Q as -> by ring.
    rewrite Ec, Eq. ring.
  - assert (Hopp : (dval (quantity b) * dval delta <= 0)%Q).
    { destruct (deqb (quantity b) ZERO); [done|]. inv_ok Hs.
      destruct (dmul_sign_exact p _ _ a Hp (ok_quantity b Hb) ltac:(done) Ha) as [_ Hsg];
        [rewrite Ed; apply He|].
      apply Qnot_lt_le. intros Hlt. apply Hsg in Hlt. congruence. }
    inv_ok H. edestruct (gross_reduce p b dir qty price fee delta) as (Eq & Epart & Efull); eauto.
    destruct (Qlt_le_dec (dval qty) (Qabs (dval (quantity b)))) as [Hlt|Hge].
    + (* a partial reduction keeps the side *)
      assert (Hsame : (0 < dval (quantity b) * dval a7)%Q).
      { rewrite Eq, Ed in *. clear - Hlt Hopp Hpos Hside Hf. unfold inject_Z in *.
        destruct (fill_dir _ _ _ _ _ Hf) as [->| ->]; destruct (Qabs_cases (dval (quantity b))) as [[? E]|[? E]];
          rewrite E in Hlt; nra. }
      destruct (deqb a7 ZERO) eqn:Ez; [dec_cmp; rewrite dval_ZERO in Ez; rewrite Ez in Hsame; lra|].
      apply rbind_ok in H as (turned & Htu & H).
      destruct (dmul_sign_exact p (quantity b) a7 turned Hp) as [Hsg _]; eauto with wf;
        [exact (dadd_wf p _ _ _ Hp Ha7)|rewrite Eq, Ed; apply He|].
      destruct (dltb turned ZERO); [apply proj1 in Hsg; specialize (Hsg eq_refl); lra|].
      inv_ok H. subst b'. unfold gross; simpl. split; [by rewrite Eq, Ed|]. intros m.
      rewrite Epart by lra. rewrite Eq, <- Ed. ring.
    + (* the position is closed, and possibly reversed *)
      specialize (Efull Hge).
      destruct (deqb a7 ZERO) eqn:Ez.
      * inv_ok H. subst b'. unfold gross; simpl. dec_cmp. rewrite dval_ZERO in Ez.
        split; [by rewrite <- Ed|]. intros m. rewrite Efull, Ez, <- Ed.
        assert (dval delta == - dval (quantity b))%Q as -> by lra. ring.
      * apply rbind_ok in H as (turned & Htu & H). dec_cmp. rewrite dval_ZERO in Ez.
        assert (Hneg : (dval (quantity b) * dval a7 < 0)%Q).
        { rewrite Eq, Ed in *. clear - Hge Hopp Hpos Hside Hf Ez. unfold inject_Z in *.
          destruct (fill_dir _ _ _ _ _ Hf) as [->| ->]; destruct (Qabs_cases (dval (quantity b))) as [[? E]|[? E]];
            rewrite E in Hge; nra. }
        destruct (dmul_sign_exact p (quantity b) a7 turned Hp) as [Hsg _]; eauto with wf;
          [exact (dadd_wf p _ _ _ Hp Ha7)|rewrite Eq, Ed; apply He|].
        rewrite (proj2 Hsg Hneg) in H. inv_ok H. subst b'. unfold gross; simpl.
        split; [by rewrite Eq, Ed|]. intros m. rewrite Efull, Eq, <- Ed. ring.
Qed.

(** ** Sequences of fills *)

Record Trade := mkTrade { t_dir : Z; t_qty : decimal; t_price : decimal; t_fee : decimal }.

Definition Book_run (p : Z) (l : list Trade) (b : Book) : res Book :=
  rfold (fun b t => Book_apply p b (t_dir t) (t_qty t) (t_price t) (t_fee t)) l b.

(** Every application of the run is exact in the context. *)
Fixpoint exact_run (p : Z) (b : Book) (l : list Trade) : Prop :=
  match l with
  | [] => True
  | t :: l =>
      fill_ok p (t_dir t) (t_qty t) (t_price t) (t_fee t) /\ exact_fill p b (t_dir t) (t_qty t) (t_price t) /\
      forall b', Book_apply p b (t_dir t) (t_qty t) (t_price t) (t_fee t) = Ok b' -> exact_run p b' l
  end.

(** Signed quantity and signed notional of the fills. *)
Definition traded (l : list Trade) : Q :=
  foldr (fun t q => inject_Z (t_dir t) * dval (t_qty t) + q)%Q 0%Q l.
Definition paid_notional (l : list Trade) : Q :=
  foldr (fun t q => dval (t_price t) * (inject_Z (t_dir t) * dval (t_qty t)) + q)%Q 0%Q l.

Lemma Book_run_gross p l b b' :
  1 <= p -> book_ok b -> exact_run p b l -> Book_run p l b = Ok b' ->
  book_ok b' /\ (dval (quantity b') == dval (quantity b) + traded l)%Q /\
  forall m, (gross m b' == gross m b + m * traded l - paid_notional l)%Q.
Proof.
  intros Hp. revert b. induction l as [|t l IH]; intros b Hb He H; cbn in H.
  - apply Ok_inj in H. subst b'. split; [done|]. split; [|intros m]; simpl; ring.
  - apply rbind_ok in H as (b1 & H1 & H). destruct He as (Hf & Hx & Hr).
    pose proof (Book_apply_ok _ _ _ _ _ _ _ Hp Hb Hf H1) as Hb1.
    destruct (Book_apply_gross _ _ _ _ _ _ _ Hp Hb Hf Hx H1) as [Eq Eg].
    destruct (IH b1 Hb1 (Hr _ H1) H) as (Hb' & Eq' & Eg'). split; [done|].
    simpl. split; [rewrite Eq', Eq; ring|]. intros m. rewrite Eg', Eg. ring.
Qed.

(** C21: over any sequence of fills whose arithmetic the decimal context represents
    exactly, [Book.apply] moves the position by the signed quantities and changes
    realized-plus-open result, at every mark, by the value of what was traded minus
    what was paid for it; in particular between two flat books the realized result
    is exactly the net cash received, whatever the order of increases, reductions
    and reversals. *)
Theorem book_cash_identity p l b b'
    (Hp : 1 <= p) (Hb : book_ok b) (Hexact : exact_run p b l) (Hrun : Book_run p l b = Ok b') :
  (dval (quantity b') == dval (quantity b) + traded l)%Q /\
  (forall m, gross m b' == gross m b + m * traded l - paid_notional l)%Q /\
  ((dval (quantity b) == 0)%Q -> (dval (quantity b') == 0)%Q ->
   (dval (realized b') == dval (realized b) - paid_notional l)%Q).
Proof.
  destruct (Book_run_gross p l b b' Hp Hb Hexact Hrun) as (_ & Eq & Eg). split; [done|]. split; [done|].
  intros E E'. specialize (Eg 0%Q). unfold gross in Eg. rewrite E, E' in Eg. lra.
Qed.

(** Discharges representability of a concrete integer amount. *)
Ltac fits_integer :=
  match goal with |- fits ?p ?q =>
    let z := eval vm_compute in (Qnum (Qred q)) in
    exists (dec_of_Z z); split;
      [split; [split; [vm_compute; discriminate|vm_compute; reflexivity]|vm_compute; discriminate]
      |vm_compute; reflexivity] end.

Ltac exact_step :=
  cbn [exact_run t_dir t_qty t_price t_fee]; split;
    [split; [vm_compute; auto|split; [split; [vm_compute; discriminate|vm_compute; reflexivity]|vm_compute; discriminate]
            |vm_compute; reflexivity|vm_compute; discriminate|vm_compute; discriminate]
    |split; [split; try fits_integer; intros Hside;
               first [fits_integer|exfalso; destruct Hside as [Hside|Hside]; vm_compute in Hside; discriminate]|]].
Ltac run_next := let b := fresh "b" in let H := fresh "H" in
  intros b H; vm_compute in H; apply Ok_inj in H; subst b.

Definition round_trip : list Trade :=
  [mkTrade 1 (dec_of_Z 6) (dec_of_Z 100) (dec_of_Z 1); mkTrade 1 (dec_of_Z 6) (dec_of_Z 110) (dec_of_Z 1);
   mkTrade (-1) (dec_of_Z 4) (dec_of_Z 120) ZERO; mkTrade (-1) (dec_of_Z 10) (dec_of_Z 90) ZERO;
   mkTrade 1 (dec_of_Z 2) (dec_of_Z 80) ZERO].

Lemma book_cash_identity_witness :
  exists b', Book_run 40 round_trip (Book_new ZERO ZERO) = Ok b' /\
  ((dval (quantity b') == 0)%Q -> (dval (realized b') == dval (realized (Book_new ZERO ZERO)) - paid_notional round_trip)%Q).
Proof.
  eexists. split; [vm_compute; reflexivity|]. intros E'.
  refine (proj2 (proj2 (book_cash_identity 40 round_trip (Book_new ZERO ZERO) _ _ _ _ _)) _ E').
  - done.
  - apply Book_new_ok; [apply ZERO_wf..|done].
  - unfold round_trip. do 5 (exact_step; run_next). exact I.
  - vm_compute. reflexivity.
  - apply dval_ZERO.
Defined.
