(* ===== verification/PnlReplay.v ===== *)
(** * PnL accounting: replay of the order journal

    Models [replay] of scripts/hepta_pnl_accounting.py: the loops over the
    journal in the order of the source, each as one definition, and their
    composition.  Journal events are dictionaries; dictionaries the source
    iterates over are insertion-ordered, its sets are lists used through
    membership. *)

From Stdlib Require Import QArith Ascii.
From S2P Require Import Prelude PyDecimal PyText PyValue PnlBook.
From stdpp Require Import base tactics list strings.
From Stdlib Require Import ZArith Lia.

Open Scope Z_scope.

(** ** Shared predicates *)

Definition kind_is (event : dict) (k : string) : bool := eq_str (get event "event") k.
Definition is_field (event : dict) (k s : string) : bool := eq_str (get event k) s.
Definition is_int_lit (v : value) (n : Z) : bool := match v with VInt z => z =? n | _ => false end.

(** [event.get(k) == period[k']] and [event.get(k) == owner[k']]. *)
Definition same_account (period event : dict) : res bool :=
  let! a := item period "account" in Ok (py_eq (get event "account") a).
Definition same_client (owner : value) (event : dict) : res bool :=
  let! c := subscript owner "broker_client_id" in Ok (py_eq (get event "broker_client_id") c).
Definition same_session (owner : value) (event : dict) : res bool :=
  let! s := subscript owner "session_id" in Ok (py_eq (get event "trace_id") s).

(** Membership of a string set: an unhashable value raises. *)
Definition in_str_set (v : value) (l : list string) : res bool :=
  if hashable v then Ok (in_strs v l) else Raise type_error.
(** Membership of a set of hashable values. *)
Definition in_value_set (v : value) (l : list value) : res bool :=
  if hashable v then Ok (py_in v l) else Raise type_error.

Definition ts (event : dict) : res Z := as_int (get event "ts_ms").
Definition req_id (event : dict) : res string := as_str (get event "req_id").

(** ** Executions observed before the period *)

Definition is_baseline_execution (period : dict) (owner start : value) (instrument : string)
    (event : dict) : res bool :=
  Ok (kind_is event "broker_execution") &&?
  same_account period event &&?
  Ok (is_field event "execution_domain" "PAPER") &&?
  Ok (is_field event "instrument" instrument) &&?
  same_client owner event &&?
  Ok (is_field event "source" "ib-api-callback") &&?
  Ok (is_field event "broker_callback_type" "execDetails") &&?
  Ok (positive_int (get event "ts_ms")) &&?
  py_lt (get event "ts_ms") start.

Definition valid_execution_id (v : value) : bool :=
  match v with VStr s => (1 <=? slen s) && (slen s <=? 128) | _ => false end.

Definition baseline_step (period : dict) (owner start : value) (instrument : string)
    (old : list string) (event : dict) : res (list string) :=
  let! b := is_baseline_execution period owner start instrument event in
  if (b : bool) && valid_execution_id (get event "broker_execution_id") then
    let! s := as_str (get event "broker_execution_id") in Ok (old ++ [s])
  else Ok old.

(** ** Commands: intents, sends and reliable rejections *)

Record Commands := mkCommands {
  sends : list (string * dict);
  intents : list (string * dict);
  reliable_rejects : list (string * dict);
  old_correlations : list value }.

(** Keep the earliest event of a command; two events with different bindings
    conflict. *)
Definition earliest (command : string) (event : dict) (conflict : string)
    (d : list (string * dict)) : res (list (string * dict)) :=
  match dget command d with
  | Some previous =>
      let! same := same_binding previous event in
      when negb same raise evidence conflict in
      let! t := ts event in
      let! t' := ts previous in
      Ok (if t <? t' then dset command event d else d)
  | None => Ok (dset command event d)
  end.

Definition is_command_kind (event : dict) : bool :=
  in_strs (get event "event") ["order_intent"; "flatten_intent"; "place_sent"; "flatten_sent"; "reject"].

Definition is_reliable_reject (event : dict) : bool :=
  is_field event "risk_code" "IB_PLACE_REJECT" &&
  is_field event "status" "rejected" &&
  is_int_lit (get event "order_id") (-1) &&
  CORRELATION_fullmatch (get event "venue_correlation_id") &&
  nonempty_str (get event "reason").

Definition order_id_ok (v : value) : bool := match v with VInt z => 0 <=? z | _ => false end.

Definition command_step (period : dict) (start : value) (instrument : string) (now_ms : Z)
    (st : Commands) (event : dict) : res Commands :=
  let! own := owns event period instrument in
  if negb own then Ok st
  else if negb (is_command_kind event) then Ok st
  else
    when! Ok (negb (positive_int (get event "ts_ms"))) ||?
          (let! t := ts event in Ok (now_ms <? t))
    raise evidence "COMMAND_TIME_INVALID" in
    let! before := py_lt (get event "ts_ms") start in
    if before : bool then
      if truthy (get event "venue_correlation_id") then
        if hashable (get event "venue_correlation_id") then
          Ok (mkCommands (sends st) (intents st) (reliable_rejects st)
                (old_correlations st ++ [get event "venue_correlation_id"]))
        else Raise type_error
      else Ok st
    else
      when negb (nonempty_str (get event "req_id")) ||
           negb (py_eq (get event "client_req_id") (get event "req_id"))
      raise evidence "ORIGINAL_COMMAND_IDENTITY_INVALID" in
      let! command := req_id event in
      if in_strs (get event "event") ["order_intent"; "flatten_intent"] then
        let! d := earliest command event "ORIGINAL_INTENT_BINDING_CONFLICT" (intents st) in
        Ok (mkCommands (sends st) d (reliable_rejects st) (old_correlations st))
      else if kind_is event "reject" then
        if is_reliable_reject event then
          let! d := earliest command event "ORIGINAL_REJECT_BINDING_CONFLICT" (reliable_rejects st) in
          Ok (mkCommands (sends st) (intents st) d (old_correlations st))
        else Ok st
      else
        when negb (CORRELATION_fullmatch (get event "venue_correlation_id")) ||
             negb (order_id_ok (get event "order_id"))
        raise evidence "ORIGINAL_SEND_BINDING_INVALID" in
        let! d := earliest command event "ORIGINAL_SEND_BINDING_CONFLICT" (sends st) in
        Ok (mkCommands d (intents st) (reliable_rejects st) (old_correlations st)).

(** A rejected intent without a send is a proven zero-send. *)
Definition reject_step (st : Commands) (proven : list string) (r : string * dict) : res (list string) :=
  match dget (fst r) (intents st) with
  | None => Ok proven
  | Some intent =>
      let! same := same_binding intent (snd r) in
      when negb same raise evidence "ORIGINAL_REJECT_BINDING_CONFLICT" in
      when dhas (fst r) (sends st) raise evidence "ORIGINAL_SEND_AND_REJECT_CONFLICT" in
      Ok (proven ++ [fst r])
  end.

Definition str_mem (s : string) (l : list string) : bool := existsb (fun x => bool_decide (x = s)) l.

(** [set.add] *)
Definition str_add (s : string) (l : list string) : list string := if str_mem s l then l else l ++ [s].

Definition commands_settled (st : Commands) (proven : list string) : bool :=
  forallb (fun c => dhas c (sends st) || str_mem c proven) (map fst (intents st)).

Definition correlation_step (d : list (string * dict)) (event : dict) : res (list (string * dict)) :=
  let! c := as_str (get event "venue_correlation_id") in
  match dget c d with
  | Some other =>
      when negb (py_eq (get other "req_id") (get event "req_id"))
      raise evidence "CORRELATION_COMMAND_CONFLICT" in
      Ok (dset c event d)
  | None => Ok (dset c event d)
  end.

(** ** Fills and statuses *)

Definition epoch := (string * Z)%type.

Record Fill := mkFill {
  f_command : string; f_correlation : string; f_execution_id : string; f_order_id : Z;
  f_sent_at_ms : Z; f_received_at_ms : Z; f_direction : Z;
  f_cumulative : decimal; f_average : decimal;
  f_shares : option decimal; f_price : option decimal;
  f_contract_id : option Z; f_permanent_id : option Z;
  f_epochs : list epoch }.

Definition opt_deqb (a b : option decimal) : bool :=
  match a, b with Some x, Some y => deqb x y | None, None => true | _, _ => false end.

(** Equality of [Fill.signature()] tuples; decimals compare by value. *)
Definition same_signature (a b : Fill) : bool :=
  bool_decide (f_command a = f_command b) && bool_decide (f_correlation a = f_correlation b) &&
  (f_order_id a =? f_order_id b) && (f_direction a =? f_direction b) &&
  deqb (f_cumulative a) (f_cumulative b) && deqb (f_average a) (f_average b) &&
  opt_deqb (f_shares a) (f_shares b) && opt_deqb (f_price a) (f_price b) &&
  bool_decide (f_contract_id a = f_contract_id b) && bool_decide (f_permanent_id a = f_permanent_id b).

Definition add_epoch (e : epoch) (l : list epoch) : list epoch :=
  if decide (e ∈ l) then l else l ++ [e].

Record FillState := mkFillState {
  fills : list (string * Fill);
  statuses : list (string * list dict);
  subjectless : list (dict * dict) }.

(** [statuses[command].append(event)] *)
Definition append_status (command : string) (event : dict) (d : list (string * list dict))
    : res (list (string * list dict)) :=
  match dget command d with
  | Some l => Ok (dset command (l ++ [event]) d)
  | None => Raise (key_error command)
  end.

(** An execution of this client that no command of the period explains. *)
Definition unmapped_check (period : dict) (owner start : value) (instrument : string)
    (old_ids : list string) (old_corr : list value) (event : dict) : res unit :=
  let! relevant :=
    Ok (kind_is event "broker_execution") &&? same_account period event &&?
    Ok (is_field event "instrument" instrument) &&? same_client owner event &&?
    py_le start (getd (VInt 0) event "ts_ms") in
  if relevant : bool then
    when eq_int (get event "broker_request_id") (-1) raise evidence "PRE_PERIOD_LATE_LIVE_EXECUTION" in
    let! historical :=
      Ok (is_field event "source" "ib-api-callback") &&?
      Ok (is_field event "broker_callback_type" "execDetails") &&?
      Ok (is_field event "execution_domain" "PAPER") &&?
      in_str_set (get event "broker_execution_id") old_ids in
    when! pnot (in_value_set (get event "venue_correlation_id") old_corr) &&? Ok (negb historical)
    raise evidence "UNBOUND_OWN_EXECUTION" in
    Ok tt
  else Ok tt.

Definition is_subjectless (event : dict) : bool :=
  kind_is event "broker_order_status" &&
  is_field event "broker_callback_type" "orderStatus" &&
  is_field event "source" "ib-api-callback" &&
  absent (get event "instrument") && absent (get event "side").

Definition binding_conflict (period : dict) (owner : value) (instrument : string)
    (sent event : dict) : res bool :=
  pnot (same_account period event) ||?
  Ok (negb (is_field event "execution_domain" "PAPER")) ||?
  pnot (same_client owner event) ||?
  Ok (negb (py_eq (get event "order_id") (get sent "order_id"))) ||?
  (if is_subjectless event then Ok false
   else Ok (negb (is_field event "instrument" instrument)) ||?
        (let! a := side (get event "side") in
         let! b := side (get sent "side") in Ok (negb (a =? b)))) ||?
  Ok (negb (absent_or (get event "req_id") (get sent "req_id"))) ||?
  (let! s := subscript owner "session_id" in Ok (negb (absent_or (get event "trace_id") s))).

Definition epoch_or_time_invalid (now_ms : Z) (sent event : dict) : res bool :=
  Ok (negb (positive_int (get event "ts_ms"))) ||?
  (let! t := ts event in Ok (now_ms <? t)) ||?
  (let! t := ts event in let! t' := ts sent in Ok (t <? t')) ||?
  Ok (negb (nonempty_str (get event "broker_service_epoch"))) ||?
  Ok (negb (positive_int (get event "broker_connection_epoch"))).

Definition event_epoch (event : dict) : res epoch :=
  let! s := as_str (get event "broker_service_epoch") in
  let! c := as_int (get event "broker_connection_epoch") in Ok (s, c).

Definition expected_subject (instrument : string) : list string :=
  if bool_decide (instrument = "BTC.USD") then ["BTC"; "CRYPTO"; "USD"] else ["EUR"; "CASH"; "USD"].

(** The individual economics of an execution, when the event carries them. *)
Definition execution_economics (prec : Z) (instrument : string) (event : dict)
    (quantity average : decimal) : res (option (decimal * decimal * Z * Z)) :=
  if negb (dhas "broker_econ_version" event) then Ok None
  else
    when negb (is_int_lit (get event "broker_econ_version") 1) ||
         negb (is_int_lit (get event "broker_econ_valid") 1) ||
         negb (is_field event "broker_econ_kind" "EXECUTION") ||
         negb (is_int_lit (get event "broker_econ_price_revision_pending") 0)
    raise evidence "EXECUTION_ECONOMICS_INVALID_OR_REVISION_PENDING" in
    let! subject := contract_subject prec (get event "broker_econ_contract_identity") in
    when negb (bool_decide (subject = expected_subject instrument))
    raise evidence "ECONOMIC_CONTRACT_SUBJECT_MISMATCH" in
    let! shares := number prec (get event "broker_econ_shares") in
    let! price := number prec (get event "broker_econ_execution_price") in
    when! Ok (dleb shares ZERO) ||? Ok (dleb price ZERO) ||? Ok (dltb quantity shares) ||?
          Ok (negb (positive_int (get event "broker_econ_contract_id"))) ||?
          Ok (negb (order_id_ok (get event "broker_econ_permanent_order_id"))) ||?
          (let! c := number prec (get event "broker_econ_cumulative_quantity") in
           Ok (negb (deqb quantity c))) ||?
          (let! c := number prec (get event "broker_econ_cumulative_average") in
           Ok (negb (deqb average c)))
    raise evidence "EXECUTION_ECONOMICS_INCONSISTENT" in
    let! contract := as_int (get event "broker_econ_contract_id") in
    let! permanent := as_int (get event "broker_econ_permanent_order_id") in
    Ok (Some (shares, price, contract, permanent)).

Definition make_fill (prec : Z) (instrument : string) (sent event : dict) : res Fill :=
  when negb (is_field event "broker_callback_type" "execDetails")
  raise evidence "EXECUTION_CALLBACK_INVALID" in
  when negb (valid_execution_id (get event "broker_execution_id"))
  raise evidence "EXECUTION_ID_INVALID" in
  let! execution_id := as_str (get event "broker_execution_id") in
  let! quantity := number prec (get event "qty") in
  let! average := number prec (get event "price") in
  when dleb quantity ZERO || dleb average ZERO raise evidence "EXECUTION_ECONOMICS_INVALID" in
  let! econ := execution_economics prec instrument event quantity average in
  let! command := req_id sent in
  let! correlation := as_str (get event "venue_correlation_id") in
  let! order_id := as_int (get sent "order_id") in
  let! sent_at := ts sent in
  let! received := ts event in
  let! direction := side (get event "side") in
  let! e := event_epoch event in
  Ok (mkFill command correlation execution_id order_id sent_at received direction quantity average
        (match econ with Some (s, _, _, _) => Some s | None => None end)
        (match econ with Some (_, p, _, _) => Some p | None => None end)
        (match econ with Some (_, _, c, _) => Some c | None => None end)
        (match econ with Some (_, _, _, m) => Some m | None => None end) [e]).

(** [previous.epochs.update(...)], [previous.received_at_ms = min(...)]. *)
Definition merge_fill (previous fill : Fill) : Fill :=
  mkFill (f_command previous) (f_correlation previous) (f_execution_id previous) (f_order_id previous)
    (f_sent_at_ms previous) (Z.min (f_received_at_ms previous) (f_received_at_ms fill))
    (f_direction previous) (f_cumulative previous) (f_average previous) (f_shares previous)
    (f_price previous) (f_contract_id previous) (f_permanent_id previous)
    (foldl (fun l e => add_epoch e l) (f_epochs previous) (f_epochs fill)).

Definition record_fill (fill : Fill) (d : list (string * Fill)) : res (list (string * Fill)) :=
  match dget (f_execution_id fill) d with
  | Some previous =>
      when negb (same_signature previous fill) raise evidence "EXECUTION_ID_REPLAY_CONFLICT" in
      Ok (dset (f_execution_id fill) (merge_fill previous fill) d)
  | None => Ok (dset (f_execution_id fill) fill d)
  end.

Definition fill_step (prec : Z) (period : dict) (owner start : value) (instrument : string) (now_ms : Z)
    (old_ids : list string) (old_corr : list value) (by_correlation : list (string * dict))
    (st : FillState) (event : dict) : res FillState :=
  if negb (in_strs (get event "event") ["broker_execution"; "broker_order_status"]) then Ok st
  else
    let! found := lookup_str (get event "venue_correlation_id") by_correlation in
    match found with
    | None =>
        let! _ := unmapped_check period owner start instrument old_ids old_corr event in Ok st
    | Some sent =>
        when! binding_conflict period owner instrument sent event
        raise evidence "BROKER_EXECUTION_BINDING_CONFLICT" in
        when! epoch_or_time_invalid now_ms sent event
        raise evidence "BROKER_EXECUTION_EPOCH_OR_TIME_INVALID" in
        if kind_is event "broker_order_status" then
          if is_subjectless event then
            Ok (mkFillState (fills st) (statuses st) (subjectless st ++ [(event, sent)]))
          else if is_field event "broker_callback_type" "orderStatus" then
            let! command := req_id sent in
            let! d := append_status command event (statuses st) in
            Ok (mkFillState (fills st) d (subjectless st))
          else Ok st
        else
          let! fill := make_fill prec instrument sent event in
          let! d := record_fill fill (fills st) in
          Ok (mkFillState d (statuses st) (subjectless st))
    end.

(** ** Collisions *)

Definition collision_step (period : dict) (owner : value) (fs : list (string * Fill))
    (collided : bool) (event : dict) : res bool :=
  let! found := lookup_str (get event "broker_execution_id") fs in
  match found with
  | Some fill =>
      if kind_is event "broker_execution" then
        let! bad := pnot (same_account period event) ||? pnot (same_client owner event) ||?
                    Ok (negb (is_field event "venue_correlation_id" (f_correlation fill))) in
        Ok (collided || bad)
      else Ok collided
  | None => Ok collided
  end.

(** ** Statuses without a subject *)

Definition witness_key := (string * string * Z * epoch)%type.

Definition fill_id_leb (a b : string * Fill) : bool :=
  str_leb (f_execution_id (snd a)) (f_execution_id (snd b)).

(** [execution_witnesses]: the first execution, by id, of each key. *)
Definition execution_witnesses (fs : list (string * Fill)) : list (witness_key * string) :=
  foldl (fun d kf =>
           foldl (fun d e =>
                    dsetdefault (f_command (snd kf), f_correlation (snd kf), f_order_id (snd kf), e)
                      (f_execution_id (snd kf)) d) d (f_epochs (snd kf)))
    [] (sorted_by fill_id_leb fs).

Record StatusWitness := mkStatusWitness {
  sw_command_id : string; sw_order_id : value; sw_venue_correlation_id : value;
  sw_execution_id : string; sw_service_epoch : string; sw_connection_epoch : Z }.

Definition recover_step (witnesses : list (witness_key * string))
    (st : list (string * list dict) * list (witness_key * StatusWitness))
    (es : dict * dict) : res (list (string * list dict) * list (witness_key * StatusWitness)) :=
  let event := fst es in let sent := snd es in
  let! e := event_epoch event in
  let! command := req_id sent in
  let! correlation := as_str (get event "venue_correlation_id") in
  let! order_id := as_int (get sent "order_id") in
  let key := (command, correlation, order_id, e) in
  match dget key witnesses with
  | None => Raise (evidence "ORDER_STATUS_SUBJECT_REQUIRES_SAME_EPOCH_EXECUTION")
  | Some w =>
      let! d := append_status command event (fst st) in
      Ok (d, dset key (mkStatusWitness command (get event "order_id") (get event "venue_correlation_id")
                         w (fst e) (snd e)) (snd st))
  end.

(** ** Commissions *)

Definition is_currency (v : value) : bool :=
  match v with
  | VStr s => (slen s =? 3) && sforall (fun c => (65 <=? ord c) && (ord c <=? 90)) s
  | _ => false
  end.

Definition epoch_in (event : dict) (l : list epoch) : res bool :=
  let s := get event "broker_service_epoch" in
  let c := get event "broker_connection_epoch" in
  if hashable s && hashable c then
    Ok (existsb (fun e => py_eq s (VStr (fst e)) && py_eq c (VInt (snd e))) l)
  else Raise type_error.

(** The body of the [try] block: the fee and its currency. *)
Definition fee_evidence (prec : Z) (start : value) (now_ms : Z) (fill : Fill) (event : dict)
    : res (decimal * string) :=
  when! Ok (negb (is_field event "broker_callback_type" "commissionReport")) ||?
        pnot (epoch_in event (f_epochs fill)) ||?
        Ok (negb (is_int_lit (get event "broker_econ_version") 1)) ||?
        Ok (negb (is_int_lit (get event "broker_econ_valid") 1)) ||?
        Ok (negb (is_field event "broker_econ_kind" "COMMISSION")) ||?
        Ok (negb (absent (get event "account"))) ||?
        Ok (negb (eq_int (get event "order_id") (-1))) ||?
        Ok (negb (positive_int (get event "ts_ms"))) ||?
        pnot (py_le start (get event "ts_ms") &&? (let! t := ts event in Ok (t <=? now_ms)))
  raise evidence "FEE_EVIDENCE_INVALID" in
  let! fee := number prec (get event "broker_econ_commission") in
  when! (let! a := dabs prec fee in Ok (dltb (dec_of_Z 1000000) a)) ||?
        Ok (negb (is_currency (get event "broker_econ_commission_currency")))
  raise evidence "FEE_EVIDENCE_INVALID" in
  let! currency := as_str (get event "broker_econ_commission_currency") in
  Ok (fee, currency).

Record FeeState := mkFeeState {
  fees : list (string * (decimal * string));
  fee_conflicts : list string }.

Definition fee_step (prec : Z) (start : value) (now_ms : Z) (fs : list (string * Fill))
    (st : FeeState) (event : dict) : res FeeState :=
  let! found := lookup_str (get event "broker_execution_id") fs in
  match found with
  | Some fill =>
      if negb (kind_is event "broker_commission") then Ok st
      else
        let eid := f_execution_id fill in
        match fee_evidence prec start now_ms fill event with
        | Ok (fee, currency) =>
            let conflict := match dget eid (fees st) with
                            | Some (fee', currency') => negb (deqb fee' fee && bool_decide (currency' = currency))
                            | None => false
                            end in
            Ok (mkFeeState (dset eid (fee, currency) (fees st))
                  (if conflict then str_add eid (fee_conflicts st) else fee_conflicts st))
        | Raise e =>
            if bool_decide (ecls e = EvidenceError)
            then Ok (mkFeeState (fees st) (str_add eid (fee_conflicts st)))
            else Raise e
        end
  | None => Ok st
  end.

(** ** Broker cancellations (error 202) *)

Definition append_event (k : string) (event : dict) (d : list (string * list dict)) : list (string * list dict) :=
  dset k (dget_or [] k d ++ [event]) d.

Definition cancel_conflict (period : dict) (owner : value) (instrument : string) (sent event : dict) : res bool :=
  Ok (negb (is_field event "broker_callback_type" "error")) ||?
  Ok (negb (is_field event "status" "Cancelled")) ||?
  (let! a := subscript owner "agent_id" in
   let! src := concat_str "agent:" a in Ok (negb (is_field event "source" src))) ||?
  Ok (negb (py_eq (get event "req_id") (get sent "req_id"))) ||?
  Ok (negb (py_eq (get event "client_req_id") (get sent "req_id"))) ||?
  pnot (same_account period event) ||?
  Ok (negb (is_field event "execution_domain" "PAPER")) ||?
  Ok (negb (is_field event "instrument" instrument)) ||?
  Ok (negb (eq_int (get event "broker_client_id") (-1))) ||?
  Ok (negb (eq_int (get event "broker_request_id") 0)) ||?
  Ok (negb (is_int_lit (get event "broker_error_code") 202)) ||?
  pnot (same_session owner event) ||?
  Ok (negb (py_eq (get event "order_id") (get sent "order_id"))) ||?
  (let! a := side (get event "side") in
   let! b := side (get sent "side") in Ok (negb (a =? b))).

(** [sent["ts_ms"] <= event["ts_ms"] <= now_ms] *)
Definition ts_between (now_ms : Z) (sent event : dict) : res bool :=
  let! t := ts event in let! t' := ts sent in Ok ((t' <=? t) && (t <=? now_ms)).

Definition cancel_step (period : dict) (owner : value) (instrument : string) (now_ms : Z)
    (by_correlation : list (string * dict)) (d : list (string * list dict)) (event : dict)
    : res (list (string * list dict)) :=
  if negb (kind_is event "broker_error") || negb (is_field event "risk_code" "IB_ERROR_202") then Ok d
  else
    let! found := lookup_str (get event "venue_correlation_id") by_correlation in
    match found with
    | None => Ok d
    | Some sent =>
        when! cancel_conflict period owner instrument sent event
        raise evidence "BROKER_CANCEL_202_BINDING_CONFLICT" in
        when! Ok (negb (nonempty_str (get event "broker_service_epoch"))) ||?
              Ok (negb (positive_int (get event "broker_connection_epoch"))) ||?
              Ok (negb (positive_int (get event "ts_ms"))) ||?
              pnot (ts_between now_ms sent event)
        raise evidence "BROKER_CANCEL_202_TIME_OR_EPOCH_INVALID" in
        let! command := req_id sent in
        Ok (append_event command event d)
    end.

(** ** Completed orders and owner reconciliation *)

Definition completed_refused (period : dict) (owner : value) (now_ms : Z) (sent event : dict) : res bool :=
  Ok (negb (is_field event "source" "ib-api-callback")) ||?
  Ok (negb (is_field event "broker_callback_type" "completedOrder")) ||?
  Ok (negb (is_field event "status" "Filled")) ||?
  Ok (negb (is_field event "risk_code" "IB_FILLED_ECONOMIC_EVIDENCE_REQUIRED")) ||?
  Ok (negb (eq_int (get event "broker_error_code") 0)) ||?
  Ok (negb (eq_int (get event "broker_client_id") 0)) ||?
  Ok (negb (eq_int (get event "order_id") 0)) ||?
  pnot (same_account period event) ||?
  Ok (negb (is_field event "execution_domain" "PAPER")) ||?
  Ok (negb (absent (get event "instrument"))) ||?
  Ok (negb (absent (get event "side"))) ||?
  Ok (negb (absent_or (get event "req_id") (get sent "req_id"))) ||?
  (let! s := subscript owner "session_id" in Ok (negb (absent_or (get event "trace_id") s))) ||?
  Ok (negb (nonempty_str (get event "broker_service_epoch"))) ||?
  Ok (negb (positive_int (get event "broker_connection_epoch"))) ||?
  Ok (negb (positive_int (get event "ts_ms"))) ||?
  pnot (ts_between now_ms sent event).

Definition owner_terminal_refused (period : dict) (owner : value) (instrument : string) (now_ms : Z)
    (sent event : dict) : res bool :=
  (let! a := subscript owner "agent_id" in
   let! src := concat_str "agent.tool:" a in Ok (negb (is_field event "source" src))) ||?
  Ok (negb (is_field event "status" "terminal")) ||?
  Ok (negb (is_field event "risk_code" "ORDER_OWNER_RECONCILED_TERMINAL")) ||?
  pnot (same_account period event) ||?
  Ok (negb (is_field event "execution_domain" "PAPER")) ||?
  Ok (negb (is_field event "instrument" instrument)) ||?
  (let! a := side (get event "side") in
   let! b := side (get sent "side") in Ok (negb (a =? b))) ||?
  pnot (same_session owner event) ||?
  Ok (negb (py_eq (get event "order_id") (get sent "order_id"))) ||?
  Ok (negb (nonempty_str (get event "req_id"))) ||?
  Ok (negb (py_eq (get event "client_req_id") (get event "req_id"))) ||?
  Ok (negb (positive_int (get event "ts_ms"))) ||?
  pnot (ts_between now_ms sent event).

Record TerminalState := mkTerminalState {
  completed_by_correlation : list (string * list dict);
  owner_terminal_by_correlation : list (string * list dict) }.

Definition terminal_step (period : dict) (owner : value) (instrument : string) (now_ms : Z)
    (by_correlation : list (string * dict)) (st : TerminalState) (event : dict) : res TerminalState :=
  if negb (in_strs (get event "event") ["broker_completed_order"; "order_owner_reconciled_terminal"]) then Ok st
  else
    let! found := lookup_str (get event "venue_correlation_id") by_correlation in
    match found with
    | None => Ok st
    | Some sent =>
        let! correlation := as_str (get event "venue_correlation_id") in
        if kind_is event "broker_completed_order" then
          let! refused := completed_refused period owner now_ms sent event in
          Ok (if refused : bool then st
              else mkTerminalState (append_event correlation event (completed_by_correlation st))
                     (owner_terminal_by_correlation st))
        else
          let! refused := owner_terminal_refused period owner instrument now_ms sent event in
          Ok (if refused : bool then st
              else mkTerminalState (completed_by_correlation st)
                     (append_event correlation event (owner_terminal_by_correlation st)))
    end.

(** ** Fees known and missing *)

Definition fee_missing (fs : list (string * Fill)) (st : FeeState) : list string :=
  sorted_by str_leb (List.filter (fun k => negb (dhas k (fees st))) (map fst fs)).

Definition fee_currencies (prec : Z) (st : FeeState) : res (list (string * decimal)) :=
  rfold (fun d (kf : string * (decimal * string)) =>
           if str_mem (fst kf) (fee_conflicts st) then Ok d
           else let! v := dadd prec (dget_or ZERO (snd (snd kf)) d) (fst (snd kf)) in
                Ok (dset (snd (snd kf)) v d)) (fees st) [].

Definition fees_complete (fs : list (string * Fill)) (st : FeeState) : bool :=
  match fee_missing fs st, fee_conflicts st with
  | [], [] => forallb (fun kf : string * (decimal * string) => bool_decide (snd (snd kf) = "USD")) (fees st)
  | _, _ => false
  end.

(** ** Settlement: the book *)

Record Execution := mkExecution {
  x_command_id : string; x_order_id : Z; x_execution_id : string; x_side : string;
  x_quantity : string; x_price : string; x_cumulative_quantity : string;
  x_commission : option string; x_commission_currency : option string }.

Record CancelWitness := mkCancelWitness {
  cw_command_id : string; cw_order_id : value; cw_venue_correlation_id : value;
  cw_service_epoch : value; cw_connection_epoch : value; cw_error_at_ms : Z;
  cw_execution_ids : list string }.

Record OwnerWitness := mkOwnerWitness {
  ow_command_id : string; ow_order_id : value; ow_venue_correlation_id : value;
  ow_terminal_at_ms : Z; ow_completed_at_ms : Z; ow_service_epoch : value; ow_connection_epoch : value;
  ow_execution_ids : list string }.

(** The text before the last dot, or the whole text. *)
Fixpoint before_last_dot (s : string) : option string :=
  match s with
  | EmptyString => None
  | String c s =>
      match before_last_dot s with
      | Some t => Some (String c t)
      | None => if bool_decide (c = "."%char) then Some EmptyString else None
      end
  end.
Definition family (execution_id : string) : string :=
  match before_last_dot execution_id with Some t => t | None => execution_id end.

(** The running totals of one command's executions. *)
Record PointState := mkPointState {
  ps_book : Book; ps_executions : list Execution; ps_families : list string;
  ps_quantity : decimal; ps_notional : decimal; ps_individual : decimal }.

Definition usable_fee (st : FeeState) (execution_id : string) : decimal :=
  match dget execution_id (fees st) with
  | Some (fee, currency) =>
      if bool_decide (currency = "USD") && negb (str_mem execution_id (fee_conflicts st)) then fee else ZERO
  | None => ZERO
  end.

Definition point_step (prec : Z) (instrument : string) (fee_state : FeeState)
    (st : PointState) (fill : Fill) : res PointState :=
  let fam := family (f_execution_id fill) in
  when str_mem fam (ps_families st) raise evidence "EXECUTION_CORRECTION_REQUIRES_RECONCILIATION" in
  let! delta := dsub prec (f_cumulative fill) (ps_quantity st) in
  let! notional := dmul prec (f_cumulative fill) (f_average fill) in
  when dleb delta ZERO || dleb notional (ps_notional st) raise evidence "CUMULATIVE_EXECUTION_CONFLICT" in
  let! pi :=
    (match f_shares fill, f_price fill with
     | Some shares, Some price =>
         let! tol := tolerance instrument in
         let! gap := dsub prec shares delta in
         let! agap := dabs prec gap in
         when dltb tol agap raise evidence "EXECUTION_SHARES_GAP" in
         let! leg := dmul prec delta price in
         let! individual := dadd prec (ps_individual st) leg in
         let! diff := dsub prec individual notional in
         let! adiff := dabs prec diff in
         let! band := dmul prec (f_cumulative fill) (Dec false 1 (-6)) in
         when dltb (dmax (Dec false 1 (-8)) band) adiff raise evidence "EXECUTION_NOTIONAL_CONFLICT" in
         Ok (price, individual)
     | _, _ =>
         let! step := dsub prec notional (ps_notional st) in
         let! price := ddiv prec step delta in
         Ok (price, notional)
     end) in
  let price := fst pi in
  let! book := Book_apply prec (ps_book st) (f_direction fill) delta price
                 (usable_fee fee_state (f_execution_id fill)) in
  let fee := dget (f_execution_id fill) (fees fee_state) in
  let x := mkExecution (f_command fill) (f_order_id fill) (f_execution_id fill)
             (if f_direction fill =? 1 then "BUY" else "SELL") (amount delta) (amount price)
             (amount (f_cumulative fill)) (option_map (fun f => amount (fst f)) fee) (option_map snd fee) in
  Ok (mkPointState book (ps_executions st ++ [x]) (ps_families st ++ [fam])
        (f_cumulative fill) notional (snd pi)).

Definition fill_cum_leb (a b : Fill) : bool := dleb (f_cumulative a) (f_cumulative b).
Definition points_of (fs : list (string * Fill)) (command : string) : list Fill :=
  sorted_by fill_cum_leb
    (List.filter (fun f => bool_decide (f_command f = command)) (map snd fs)).

Definition zero_fill_refused (prec : Z) (e : dict) : res bool :=
  Ok (is_field e "status" "Filled") ||?
  (let! q := number prec (get e "qty") in Ok (dnonzero q)) ||?
  (let! q := number prec (get e "price") in Ok (dnonzero q)).

Definition terminal_total_conflict (prec : Z) (tol previous_quantity average : decimal) (e : dict) : res bool :=
  (let! q := number prec (get e "qty") in
   let! d := dsub prec q previous_quantity in
   let! a := dabs prec d in Ok (dltb tol a)) ||?
  (let! q := number prec (get e "price") in
   let! d := dsub prec q average in
   let! a := dabs prec d in Ok (dltb (Dec false 1 (-6)) a)).

Definition is_terminal (e : dict) : res bool := in_str_set (get e "status") TERMINALS.

(** A nonterminal status after [t]. *)
Definition reactivated (t : Z) (e : dict) : res bool :=
  (let! t' := ts e in Ok (t <? t')) &&? pnot (is_terminal e).

Fixpoint rmax_ts (t : Z) (l : list dict) : res Z :=
  match l with [] => Ok t | e :: l => let! t' := ts e in rmax_ts (Z.max t t') l end.

(** [min(matched, key=ts_ms)]: the first event with the smallest time. *)
Fixpoint rmin_event (best : dict) (l : list dict) : res dict :=
  match l with
  | [] => Ok best
  | e :: l => let! t := ts best in let! t' := ts e in rmin_event (if t' <? t then e else best) l
  end.

Definition epoch_in_points (event : dict) (points : list Fill) : res bool :=
  rany (fun f => epoch_in event (f_epochs f)) points.

(** A cancellation of the unfilled remainder, witnessed by an execution of the
    same epoch and not followed by a nonterminal status. *)
Definition stable_cancel (cancels status : list dict) (points : list Fill) : res (option dict) :=
  let! matched := rfilter (fun e => epoch_in_points e points) cancels in
  match matched with
  | [] => Ok None
  | m :: rest =>
      let! t0 := ts m in
      let! t := rmax_ts t0 rest in
      let! again := rany (reactivated t) status in
      if again : bool then Ok None else let! w := rmin_event m rest in Ok (Some w)
  end.

(** The first completed order of the same epoch that precedes the owner's
    terminal reconciliation. *)
Fixpoint completed_proof (owner_event : dict) (completed : list dict) (points : list Fill) : res (option dict) :=
  match completed with
  | [] => Ok None
  | c :: completed =>
      let! late := (let! t := ts c in let! t' := ts owner_event in Ok (t' <? t)) ||?
                   pnot (epoch_in_points c points) in
      if late : bool then completed_proof owner_event completed points else Ok (Some c)
  end.

Fixpoint owner_proof (owners completed status : list dict) (points : list Fill) : res (option (dict * dict)) :=
  match owners with
  | [] => Ok None
  | o :: owners =>
      let! t := ts o in
      let! again := rany (reactivated t) status in
      if again : bool then owner_proof owners completed status points
      else
        let! found := completed_proof o completed points in
        match found with
        | Some c => Ok (Some (o, c))
        | None => owner_proof owners completed status points
        end
  end.

Record SettleState := mkSettleState {
  s_book : Book; s_average_book : Book; s_executions : list Execution; s_unsettled : list string;
  s_cancel : list CancelWitness; s_owner : list OwnerWitness }.

(** How the remainder of an executed command without terminal status ends. *)
Definition settle_remainder (cancels : list (string * list dict)) (term : TerminalState)
    (sent : dict) (command correlation : string) (status : list dict) (points : list Fill)
    (st : SettleState) : res SettleState :=
  let! cancel := stable_cancel (dget_or [] command cancels) status points in
  match cancel with
  | Some w =>
      let! t := ts w in
      Ok (mkSettleState (s_book st) (s_average_book st) (s_executions st) (s_unsettled st)
            (s_cancel st ++ [mkCancelWitness command (get sent "order_id") (get sent "venue_correlation_id")
               (get w "broker_service_epoch") (get w "broker_connection_epoch") t (map f_execution_id points)])
            (s_owner st))
  | None =>
      let! proof := owner_proof (dget_or [] correlation (owner_terminal_by_correlation term))
                      (dget_or [] correlation (completed_by_correlation term)) status points in
      match proof with
      | None =>
          Ok (mkSettleState (s_book st) (s_average_book st) (s_executions st) (s_unsettled st ++ [command])
                (s_cancel st) (s_owner st))
      | Some (o, c) =>
          let! t := ts o in let! t' := ts c in
          Ok (mkSettleState (s_book st) (s_average_book st) (s_executions st) (s_unsettled st) (s_cancel st)
                (s_owner st ++ [mkOwnerWitness command (get sent "order_id") (get sent "venue_correlation_id")
                   t t' (get c "broker_service_epoch") (get c "broker_connection_epoch")
                   (map f_execution_id points)]))
      end
  end.

Definition settle_step (prec : Z) (instrument : string) (fs : list (string * Fill))
    (status : list (string * list dict)) (fee_state : FeeState) (cancels : list (string * list dict))
    (term : TerminalState) (st : SettleState) (sent : dict) : res SettleState :=
  let! command := req_id sent in
  let! correlation := as_str (get sent "venue_correlation_id") in
  let points := points_of fs command in
  when 128 <? Z.of_nat (length points) raise evidence "EXECUTION_CAPACITY_EXCEEDED" in
  let! ps := rfold (point_step prec instrument fee_state) points
               (mkPointState (s_book st) (s_executions st) [] ZERO ZERO ZERO) in
  let! avg := (match rev points with
               | last :: _ => Book_apply prec (s_average_book st) (f_direction last) (ps_quantity ps)
                                (f_average last) ZERO
               | [] => Ok (s_average_book st)
               end) in
  let st := mkSettleState (ps_book ps) avg (ps_executions ps) (s_unsettled st) (s_cancel st) (s_owner st) in
  let! mine := (match dget command status with Some l => Ok l | None => Raise (key_error command) end) in
  let! terminal := rfilter is_terminal mine in
  match rev points with
  | [] =>
      when! Ok (match terminal with [] => true | _ => false end) ||? rany (zero_fill_refused prec) terminal
      raise evidence "SUBMITTED_COMMAND_WITHOUT_FILL_OR_ZERO_FILL_PROOF" in
      Ok st
  | last :: _ =>
      match terminal with
      | [] => settle_remainder cancels term sent command correlation mine points st
      | _ =>
          let! tol := tolerance instrument in
          when! rany (terminal_total_conflict prec tol (ps_quantity ps) (f_average last)) terminal
          raise evidence "TERMINAL_EXECUTION_TOTAL_CONFLICT" in
          Ok st
      end
  end.

(** ** The replay *)

Record Ledger := mkLedger {
  l_book : Book;
  l_average_realized : string;
  l_average_difference : string;
  l_fees_complete : bool;
  l_fee_missing : list string;
  l_fee_conflicting : list string;
  l_fees_known : list (string * string);
  l_unsettled : list string;
  l_executions : list Execution;
  l_cancel_witnesses : list CancelWitness;
  l_owner_witnesses : list OwnerWitness;
  l_command_count : Z;
  l_execution_count : Z;
  l_status_witnesses : list (witness_key * StatusWitness) }.

Definition send_leb (a b : Z * string * dict) : bool :=
  let '(t, r, _) := a in let '(t', r', _) := b in
  (t <? t') || ((t =? t') && str_leb r r').

(** [sorted(sends.values(), key=lambda e: (e["ts_ms"], e["req_id"]))] *)
Definition sorted_sends (d : list (string * dict)) : res (list dict) :=
  let! keyed := rmapM (fun kv => let! t := ts (snd kv) in let! r := req_id (snd kv) in Ok (t, r, snd kv)) d in
  Ok (map snd (sorted_by send_leb keyed)).

(** Tuples compare lexicographically. *)
Definition wkey_leb (a b : witness_key * StatusWitness) : bool :=
  let '(c, r, o, (s, n), _) := a in let '(c', r', o', (s', n'), _) := b in
  if bool_decide (c = c') then
    if bool_decide (r = r') then
      if o =? o' then if bool_decide (s = s') then n <=? n' else str_leb s s'
      else o <? o'
    else str_leb r r'
  else str_leb c c'.

Definition opening_book (prec : Z) (owner : value) : res Book :=
  let! oq := subscript owner "opening_quantity" in
  let! q := number prec oq in
  let! c := (if dnonzero q then let! om := subscript owner "opening_mark" in number prec om else Ok ZERO) in
  Ok (Book_new q c).

Definition collect_commands (period : dict) (start : value) (instrument : string) (now_ms : Z)
    (events : list dict) : res Commands :=
  let! st := rfold (command_step period start instrument now_ms) events (mkCommands [] [] [] []) in
  let! proven := rfold (reject_step st) (reliable_rejects st) [] in
  when negb (commands_settled st proven) raise evidence "ORIGINAL_SEND_OUTCOME_UNPROVEN" in
  Ok st.

Definition replay (prec : Z) (events : list dict) (period : dict) (instrument : string) (now_ms : Z)
    : res Ledger :=
  let! instruments := item period "instruments" in
  let! owner := subscript instruments instrument in
  let! start := item period "started_at_ms" in
  let! old_ids := rfold (baseline_step period owner start instrument) events [] in
  let! cmds := collect_commands period start instrument now_ms events in
  let! by_correlation := rfold correlation_step (map snd (sends cmds)) [] in
  let! fst := rfold (fill_step prec period owner start instrument now_ms old_ids (old_correlations cmds) by_correlation)
                events (mkFillState [] (map (fun kv => (kv.1, [])) (sends cmds)) []) in
  let! collided := rfold (collision_step period owner (fills fst)) events false in
  when collided raise evidence "CROSS_SUBJECT_EXECUTION_ID_COLLISION" in
  let! rec := rfold (recover_step (execution_witnesses (fills fst))) (subjectless fst) (statuses fst, []) in
  let! fee_state := rfold (fee_step prec start now_ms (fills fst)) events (mkFeeState [] []) in
  let! cancels := rfold (cancel_step period owner instrument now_ms by_correlation) events [] in
  let! term := rfold (terminal_step period owner instrument now_ms by_correlation) events (mkTerminalState [] []) in
  let! known := fee_currencies prec fee_state in
  let! book := opening_book prec owner in
  let! order := sorted_sends (sends cmds) in
  let! st := rfold (settle_step prec instrument (fills fst) rec.1 fee_state cancels term) order
               (mkSettleState book (Book_new (quantity book) (cost book)) [] [] [] []) in
  let! diff := dsub prec (realized (s_average_book st)) (realized (s_book st)) in
  Ok (mkLedger (s_book st) (amount (realized (s_average_book st))) (amount diff)
        (fees_complete (fills fst) fee_state) (fee_missing (fills fst) fee_state)
        (sorted_by str_leb (fee_conflicts fee_state))
        (map (fun kv => (kv.1, amount kv.2)) (sorted_by key_leb known))
        (s_unsettled st) (s_executions st) (s_cancel st) (s_owner st)
        (Z.of_nat (length (sends cmds))) (Z.of_nat (length (fills fst)))
        (sorted_by wkey_leb rec.2)).
