(* ===== verification/PnlReplayFacts.v ===== *)
(** * Properties of the journal replay

    Journal records that [ledger_noop] accepts do not influence a replay; every
    validated fill is booked exactly once; the final book satisfies the book
    invariant; no command outcome and no own execution is assumed. *)

From Stdlib Require Import QArith Ascii Permutation Sorted.
From S2P Require Import Prelude PyDecimal PyText PyValue PnlBook PnlReplay.
From stdpp Require Import base tactics list strings.
From Stdlib Require Import ZArith Lia.

Open Scope Z_scope.

(** ** Valid periods *)

Record period_owner (period : dict) (instrument : string) (d owner : dict) : Prop := {
  po_instruments : item period "instruments" = Ok (VDict d);
  po_owner : dget instrument d = Some (VDict owner);
  po_agent : exists a, dget "agent_id" owner = Some (VStr a);
  po_session : exists s, dget "session_id" owner = Some (VStr s);
  po_client : exists c, dget "broker_client_id" owner = Some (VInt c) /\ 0 < c;
  po_account : exists a, dget "account" period = Some (VStr a);
  po_start : exists t, dget "started_at_ms" period = Some (VInt t) /\ 0 < t }.

Lemma get_some d k v : v <> VNone -> get d k = v -> dget k d = Some v.
Proof. unfold get, getd, dget_or. destruct (dget k d); naive_solver. Qed.

Lemma item_ok d k v : dget k d = Some v -> item d k = Ok v.
Proof. unfold item. by intros ->. Qed.

Lemma validate_period_owner prec period instrument :
  validate_period prec period = Ok tt -> dhas instrument INSTRUMENTS = true ->
  exists d owner, period_owner period instrument d owner.
Proof.
  unfold validate_period. intros H Hi.
  apply rbind_ok in H as (bad & Hbad & H). destruct bad; [done|].
  repeat (apply por_false in Hbad as [Hbad ?]).
  apply rbind_ok in H as (ins & Hins & H). apply rbind_ok in H as (entries & He & H).
  destruct ins as [| | | | | | |d]; try done. inv_ok He. subst entries.
  assert (Eg : getd (VDict []) period "instruments" = VDict d).
  { unfold item in Hins. unfold getd, dget_or. destruct (dget "instruments" period); naive_solver. }
  rewrite Eg in *.
  match goal with H : pnot (keys_are_instruments _) = Ok false |- _ =>
    unfold pnot, rmap, keys_are_instruments in H; cbn [rbind] in H; apply Ok_inj in H; rename H into Hk end.
  apply negb_false_iff, andb_prop in Hk as [_ Hk]. rewrite forallb_forall in Hk.
  specialize (Hk instrument (proj1 (dhas_In _ _) Hi)). apply existsb_exists in Hk as (k' & Hin & Hk').
  apply bool_decide_eq_true in Hk' as ->. apply dhas_In in Hin. unfold dhas in Hin.
  destruct (dget instrument d) as [ov|] eqn:Eo; [|done].
  assert (Hent : validate_entry prec period ov = Ok tt).
  { apply dget_In in Eo. apply (in_map snd) in Eo. simpl in Eo.
    clear - H Eo. induction (map snd d) as [|v l IH]; [done|]. simpl in H. inv_ok H.
    destruct Eo as [->|Eo]; [by destruct a|]. destruct a. auto. }
  unfold validate_entry in Hent. apply rbind_ok in Hent as (owner & Hod & Hent).
  destruct ov as [| | | | | | |ov]; try done. injection Hod as <-. inv_ok Hent. clear Hent. split_bools.
  exists d, ov. split; try done.
  - match goal with H : nonempty_str (get _ "agent_id") = true |- _ => apply nonempty_str_true in H as (s & E & _) end.
    exists s. by apply get_some.
  - match goal with H : nonempty_str (get _ "session_id") = true |- _ => apply nonempty_str_true in H as (s & E & _) end.
    exists s. by apply get_some.
  - match goal with H : positive_int (get _ "broker_client_id") = true |- _ => apply pos_int_true in H as (c & E & ?) end.
    exists c. split; [by apply get_some|done].
  - destruct (get period "account") as [| | | | |acc| |] eqn:E; try done. exists acc. by apply get_some.
  - match goal with H : Ok (negb (positive_int _)) = Ok false |- _ => apply Ok_inj in H; rename H into Hs end.
    apply negb_false_iff, pos_int_true in Hs as (t & E & ?). exists t. split; [by apply get_some|done].
Qed.

Lemma owns_total period instrument d owner event :
  period_owner period instrument d owner -> exists b, owns event period instrument = Ok b.
Proof.
  intros [Hi Ho [a Ha] [s Hs] _ [acc Hacc] _]. unfold owns. rewrite Hi; simpl.
  rewrite (item_ok _ _ _ Ho); simpl. rewrite (item_ok _ _ _ Hacc); simpl.
  rewrite (item_ok _ _ _ Hs), (item_ok _ _ _ Ha); simpl.
  repeat (match goal with |- context [if ?b then _ else _] => destruct b; simpl end); eauto.
Qed.

(** ** Records without effect *)

Lemma noop_execution_id event :
  ledger_noop event = true ->
  get event "broker_execution_id" = VNone \/ get event "broker_execution_id" = VStr "".
Proof.
  unfold ledger_noop. destruct (absent (get event "broker_execution_id")) eqn:E; [|done]. intros _. by apply absent_cases.
Qed.

Lemma noop_kind event :
  ledger_noop event = true ->
  get event "event" = VStr "broker_completed_orders_end" \/
  get event "event" = VStr "broker_execution_details_end" \/
  (get event "event" = VStr "broker_error" /\ eq_str (get event "risk_code") "IB_ERROR_202" = false).
Proof.
  unfold ledger_noop. destruct (absent (get event "broker_execution_id")); [|done]. cbn [negb].
  destruct (in_strs (get event "event") ["broker_completed_orders_end"; "broker_execution_details_end"]) eqn:E.
  - intros _. apply in_strs_true in E as (s & -> & [<-|[<-|[]]]); auto.
  - intros H. split_bools. apply eq_str_true in H. auto.
Qed.

Lemma noop_lookup {A} event (fs : list (string * A)) :
  ledger_noop event = true -> dget "" fs = None -> lookup_str (get event "broker_execution_id") fs = Ok None.
Proof. intros [-> | ->]%noop_execution_id H; simpl; [done|by rewrite H]. Qed.

Ltac noop_cases H := destruct (noop_kind _ H) as [Hk|[Hk|[Hk Hr]]].

Lemma noop_baseline period owner start instrument old event :
  ledger_noop event = true -> baseline_step period owner start instrument old event = Ok old.
Proof. intros H. unfold baseline_step, is_baseline_execution, kind_is. noop_cases H; by rewrite Hk. Qed.

Lemma noop_command period instrument d owner start now_ms st event :
  period_owner period instrument d owner ->
  ledger_noop event = true -> command_step period start instrument now_ms st event = Ok st.
Proof.
  intros Hp H. unfold command_step. destruct (owns_total _ _ _ _ event Hp) as [b ->]; simpl.
  destruct b; simpl; [|done]. unfold is_command_kind. noop_cases H; by rewrite Hk.
Qed.

Lemma noop_fill prec period owner start instrument now_ms old_ids old_corr by_corr st event :
  ledger_noop event = true ->
  fill_step prec period owner start instrument now_ms old_ids old_corr by_corr st event = Ok st.
Proof. intros H. unfold fill_step. noop_cases H; by rewrite Hk. Qed.

Lemma noop_cancel period owner instrument now_ms by_corr st event :
  ledger_noop event = true -> cancel_step period owner instrument now_ms by_corr st event = Ok st.
Proof.
  intros H. unfold cancel_step, kind_is, is_field. noop_cases H; rewrite Hk; [done|done|].
  rewrite Hr. done.
Qed.

Lemma noop_terminal period owner instrument now_ms by_corr st event :
  ledger_noop event = true -> terminal_step period owner instrument now_ms by_corr st event = Ok st.
Proof. intros H. unfold terminal_step. noop_cases H; by rewrite Hk. Qed.

Lemma noop_collision period owner fs c event :
  dget "" fs = None -> ledger_noop event = true -> collision_step period owner fs c event = Ok c.
Proof. intros Hf H. unfold collision_step. by rewrite (noop_lookup _ _ H Hf). Qed.

Lemma noop_fee prec start now_ms fs st event :
  dget "" fs = None -> ledger_noop event = true -> fee_step prec start now_ms fs st event = Ok st.
Proof. intros Hf H. unfold fee_step. by rewrite (noop_lookup _ _ H Hf). Qed.

(** ** Fills: keys and origin *)

(** What [fill_step] guarantees of the fills it records. *)
Record fill_wf (p : Z) (commands : list string) (k : string) (f : Fill) : Prop := {
  fw_key : f_execution_id f = k;
  fw_id : k <> EmptyString;
  fw_command : In (f_command f) commands;
  fw_direction : f_direction f = 1 \/ f_direction f = -1;
  fw_cumulative : dwf (f_cumulative f);
  fw_average : dwf (f_average f);
  fw_price : match f_price f with Some x => dwf x | None => True end;
  fw_pair : is_Some (f_shares f) <-> is_Some (f_price f) }.

Definition fills_wf (p : Z) (commands : list string) (d : list (string * Fill)) : Prop :=
  List.NoDup (map fst d) /\ forall k f, In (k, f) d -> fill_wf p commands k f.

Lemma side_ok v z : side v = Ok z -> z = 1 \/ z = -1.
Proof. unfold side. repeat case_match; naive_solver. Qed.

Lemma number_wf p v d : number p v = Ok d -> dwf d.
Proof.
  unfold number. intros H; inv_ok H. destruct (to_parsed v) eqn:E; try done. inv_ok H. subst.
  by eapply to_parsed_wf.
Qed.

(** ** Commands *)

Record commands_wf (st : Commands) : Prop := {
  cw_sends : List.NoDup (map fst (sends st));
  cw_req : forall k e, In (k, e) (sends st) -> req_id e = Ok k }.

Lemma earliest_keys command event conflict d d' :
  earliest command event conflict d = Ok d' -> List.NoDup (map fst d) -> List.NoDup (map fst d').
Proof.
  unfold earliest. destruct (dget command d); intros H Hn; inv_ok H; subst; [case_match|];
    auto using dset_NoDup.
Qed.

Lemma earliest_In command event conflict d d' k e :
  earliest command event conflict d = Ok d' -> In (k, e) d' -> (k = command /\ e = event) \/ In (k, e) d.
Proof.
  unfold earliest. destruct (dget command d); intros H Hin; inv_ok H; subst;
    [destruct (_ <? _) in Hin|]; try (by right); by apply In_dset in Hin.
Qed.

(** A journal record of the owner about a command of the period. *)
Record own_command (period : dict) (start : value) (instrument : string) (now_ms : Z) (c : string) (e : dict) : Prop := {
  oc_owns : owns e period instrument = Ok true;
  oc_req : get e "req_id" = VStr c;
  oc_ts : exists t, get e "ts_ms" = VInt t /\ 0 < t <= now_ms;
  oc_period : py_lt (get e "ts_ms") start = Ok false }.

Definition is_intent (e : dict) : bool := in_strs (get e "event") ["order_intent"; "flatten_intent"].
Definition is_send (e : dict) : bool := in_strs (get e "event") ["place_sent"; "flatten_sent"].

(** The outcomes of one step over the journal for a command. *)
Inductive command_case (period : dict) (start : value) (instrument : string) (now_ms : Z)
    (st : Commands) (e : dict) (st' : Commands) : Prop :=
| CmdForeign (Hforeign : owns e period instrument = Ok false \/ is_command_kind e = false) (Est : st' = st)
| CmdBefore (Hown : owns e period instrument = Ok true) (Hkind : is_command_kind e = true)
    (Hbefore : py_lt (get e "ts_ms") start = Ok true)
    (Esends : sends st' = sends st) (Eintents : intents st' = intents st)
    (Erejects : reliable_rejects st' = reliable_rejects st)
    (Eold : old_correlations st' = old_correlations st \/
            old_correlations st' = old_correlations st ++ [get e "venue_correlation_id"])
| CmdIntent c (Hown : own_command period start instrument now_ms c e) (Hkind : is_intent e = true)
    (Hearliest : earliest c e "ORIGINAL_INTENT_BINDING_CONFLICT" (intents st) = Ok (intents st'))
    (Esends : sends st' = sends st) (Erejects : reliable_rejects st' = reliable_rejects st)
    (Eold : old_correlations st' = old_correlations st)
| CmdReject c (Hown : own_command period start instrument now_ms c e) (Hkind : kind_is e "reject" = true)
    (Hreliable : is_reliable_reject e = true)
    (Hearliest : earliest c e "ORIGINAL_REJECT_BINDING_CONFLICT" (reliable_rejects st) = Ok (reliable_rejects st'))
    (Esends : sends st' = sends st) (Eintents : intents st' = intents st)
    (Eold : old_correlations st' = old_correlations st)
| CmdUnreliable (Hkind : kind_is e "reject" = true) (Est : st' = st)
| CmdSend c (Hown : own_command period start instrument now_ms c e) (Hkind : is_send e = true)
    (Hcorr : CORRELATION_fullmatch (get e "venue_correlation_id") = true)
    (Horder : order_id_ok (get e "order_id") = true)
    (Hearliest : earliest c e "ORIGINAL_SEND_BINDING_CONFLICT" (sends st) = Ok (sends st'))
    (Eintents : intents st' = intents st) (Erejects : reliable_rejects st' = reliable_rejects st)
    (Eold : old_correlations st' = old_correlations st).

Lemma command_kind_split e :
  is_command_kind e = true -> is_intent e = false -> kind_is e "reject" = false -> is_send e = true.
Proof.
  unfold is_command_kind, is_intent, is_send, kind_is, in_strs. simpl. rewrite !orb_false_r, !orb_true_iff.
  intros [?|[?|[?|[?|?]]]] Hi Hr; rewrite ?orb_false_iff in Hi; destruct Hi; by auto || congruence.
Qed.

Lemma command_step_cases period start instrument now_ms st e st' :
  command_step period start instrument now_ms st e = Ok st' ->
  command_case period start instrument now_ms st e st'.
Proof.
  unfold command_step. intros H. apply rbind_ok in H as (own & Hown & H). destruct own; cbn [negb] in H.
  2: { apply Ok_inj in H as <-. apply CmdForeign; auto. }
  destruct (is_command_kind e) eqn:Hkind; cbn [negb] in H.
  2: { apply Ok_inj in H as <-. apply CmdForeign; auto. }
  apply rbind_ok in H as (bad & Hts & H). destruct bad; [done|]. apply por_false in Hts as [Hpos Hts].
  apply Ok_inj, negb_false_iff, pos_int_true in Hpos as (t & Et & Hpos).
  apply rbind_ok in Hts as (t' & Et' & Hts). unfold ts in Et'. rewrite Et in Et'. apply Ok_inj in Et' as <-.
  apply Ok_inj, Z.ltb_ge in Hts.
  apply rbind_ok in H as (before & Hbefore & H). destruct before.
  { case_if H; [case_if H; [|done]|]; apply Ok_inj in H as <-; apply CmdBefore; auto. }
  apply when_ok in H as [Hreq H]. apply orb_false_elim in Hreq as [Hreq _].
  apply negb_false_iff, nonempty_str_true in Hreq as (c & Hc & _).
  apply rbind_ok in H as (c' & Hc' & H). unfold req_id in Hc'. rewrite Hc in Hc'. apply Ok_inj in Hc' as <-.
  assert (Ho : own_command period start instrument now_ms c e) by (split; eauto).
  case_if H.
  { apply rbind_ok in H as (d & Hd & H). apply Ok_inj in H as <-. by eapply CmdIntent. }
  case_if H.
  { case_if H; [|apply Ok_inj in H as <-; by apply CmdUnreliable].
    apply rbind_ok in H as (d & Hd & H). apply Ok_inj in H as <-. by eapply CmdReject. }
  apply when_ok in H as [Hb H]. split_bools. apply rbind_ok in H as (d & Hd & H). apply Ok_inj in H as <-.
  eapply CmdSend; eauto. by apply command_kind_split.
Qed.

Lemma command_step_wf period start instrument now_ms st event st' :
  commands_wf st -> command_step period start instrument now_ms st event = Ok st' -> commands_wf st'.
Proof.
  intros [Hn Hr] H. apply command_step_cases in H.
  destruct H; try (by subst); try (by split; rewrite Esends).
  split; [by eapply earliest_keys|]. intros k e Hin.
  destruct (earliest_In _ _ _ _ _ _ _ Hearliest Hin) as [[-> ->]|?]; [|auto].
  unfold req_id. by rewrite (oc_req _ _ _ _ _ _ Hown).
Qed.

Lemma collect_commands_wf period start instrument now_ms events st :
  collect_commands period start instrument now_ms events = Ok st -> commands_wf st.
Proof.
  unfold collect_commands. intros H. apply rbind_ok in H as (st0 & H0 & H). inv_ok H. subst st0.
  refine (rfold_inv commands_wf _ events _ st _ _ H0); [|split; [constructor|done]].
  intros ??? _. apply command_step_wf.
Qed.

(** [by_correlation] maps correlations to send events. *)
Lemma by_correlation_sends l d0 d :
  rfold correlation_step l d0 = Ok d ->
  forall c e, dget c d = Some e -> dget c d0 = Some e \/ In e l.
Proof.
  intros H c e. revert d0 H. induction l as [|x l IH]; intros d0 H Hg; simpl in H; [inv_ok H; subst; auto|].
  apply rbind_ok in H as (d1 & H1 & H). destruct (IH d1 H Hg) as [H2|H2]; [|right; by right].
  unfold correlation_step in H1. apply rbind_ok in H1 as (c' & Hc & H1).
  assert (d1 = dset c' x d0) as ->.
  { destruct (dget c' d0); inv_ok H1; by subst. }
  rewrite dget_dset in H2. case_decide; [|auto]. right. left. congruence.
Qed.

(** ** The fills of a journal *)

Lemma make_fill_wf prec instrument sent event f commands :
  make_fill prec instrument sent event = Ok f ->
  (forall c, req_id sent = Ok c -> In c commands) ->
  fill_wf prec commands (f_execution_id f) f.
Proof.
  unfold make_fill. intros H Hcmd.
  apply when_ok in H as [_ H]. apply when_ok in H as [Hid H]. apply negb_false_iff in Hid.
  apply rbind_ok in H as (eid & He & H). apply rbind_ok in H as (q & Hq & H).
  apply rbind_ok in H as (avg & Ha & H). apply when_ok in H as [_ H].
  apply rbind_ok in H as (econ & Hecon & H). apply rbind_ok in H as (c & Hc & H).
  apply rbind_ok in H as (corr & _ & H). apply rbind_ok in H as (o & _ & H).
  apply rbind_ok in H as (t & _ & H). apply rbind_ok in H as (t' & _ & H).
  apply rbind_ok in H as (dir & Hdir & H). apply rbind_ok in H as (e & _ & H). inv_ok H. subst f.
  split; simpl; eauto using side_ok, number_wf.
  - intros ->. destruct (get event "broker_execution_id"); try done. by injection He as ->.
  - destruct econ as [[[[s x] k] m]|]; [|done]. unfold execution_economics in Hecon.
    case_if Hecon; [done|]. apply when_ok in Hecon as [_ Hecon].
    apply rbind_ok in Hecon as (sub & _ & Hecon). apply when_ok in Hecon as [_ Hecon].
    apply rbind_ok in Hecon as (sh & _ & Hecon). apply rbind_ok in Hecon as (pr & Hpr & Hecon).
    apply rbind_ok in Hecon as (bad & _ & Hecon). destruct bad; [done|].
    apply rbind_ok in Hecon as (k' & _ & Hecon). apply rbind_ok in Hecon as (m' & _ & Hecon).
    inv_ok Hecon. simplify_eq. by eapply number_wf.
  - destruct econ as [[[[s x] k] m]|]; split; eauto; by intros [? ?].
Qed.

Lemma record_fill_wf p commands f d d' :
  record_fill f d = Ok d' -> fill_wf p commands (f_execution_id f) f ->
  fills_wf p commands d -> fills_wf p commands d'.
Proof.
  unfold record_fill. intros H Hf [Hn Hall].
  destruct (dget (f_execution_id f) d) as [prev|] eqn:E; inv_ok H; subst d'.
  - split; [by apply dset_NoDup|]. intros k f' Hin. apply In_dset in Hin as [[-> ->]|Hin]; [|auto].
    apply dget_In in E. apply Hall in E. by destruct E.
  - split; [by apply dset_NoDup|]. intros k f' Hin. apply In_dset in Hin as [[-> ->]|Hin]; [|auto]. done.
Qed.

(** A journal step either leaves the fills alone or records one made from a
    send of the period. *)
Lemma fill_step_cases prec period owner start instrument now_ms ids corr byc st event st' :
  fill_step prec period owner start instrument now_ms ids corr byc st event = Ok st' ->
  fills st' = fills st \/
  exists c sent f, dget c byc = Some sent /\ make_fill prec instrument sent event = Ok f /\
    record_fill f (fills st) = Ok (fills st').
Proof.
  unfold fill_step. intros H. case_if H; [inv_ok H; subst; auto|].
  apply rbind_ok in H as (found & Hf & H). destruct found as [sent|]; [|inv_ok H; subst; auto].
  apply rbind_ok in H as (bad & _ & H). destruct bad; [done|].
  apply rbind_ok in H as (bad & _ & H). destruct bad; [done|].
  case_if H.
  - left. case_if H; [inv_ok H; by subst|]. case_if H; inv_ok H; by subst.
  - apply rbind_ok in H as (f & Hm & H). apply rbind_ok in H as (d & Hr & H). inv_ok H. subst st'. simpl.
    right. unfold lookup_str in Hf. destruct (get event "venue_correlation_id") as [| | | | |c| |];
      simpl in Hf; try done; simplify_eq; eauto 10.
Qed.

Lemma fill_loop_wf prec period owner start instrument now_ms ids corr byc commands events st0 st :
  rfold (fill_step prec period owner start instrument now_ms ids corr byc) events st0 = Ok st ->
  (forall c sent k, dget c byc = Some sent -> req_id sent = Ok k -> In k commands) ->
  fills_wf prec commands (fills st0) -> fills_wf prec commands (fills st).
Proof.
  intros H Hb H0. refine (rfold_inv (fun st => fills_wf prec commands (fills st)) _ events st0 st _ H0 H).
  intros st1 e st2 _ Hw Hs. destruct (fill_step_cases _ _ _ _ _ _ _ _ _ _ _ _ Hs) as [->|(c & sent & f & Hg & Hm & Hr)]; [done|].
  eapply record_fill_wf; [exact Hr| |exact Hw]. eapply make_fill_wf; [exact Hm|]. intros k. by apply (Hb c).
Qed.

Lemma fills_wf_no_empty p commands d : fills_wf p commands d -> dget "" d = None.
Proof.
  intros [_ H]. destruct (dget "" d) as [f|] eqn:E; [|done]. apply dget_In in E. apply H in E. by destruct E.
Qed.

Definition keep (e : dict) : bool := negb (ledger_noop e).

Lemma collect_commands_noop period instrument d owner start now_ms events :
  period_owner period instrument d owner ->
  collect_commands period start instrument now_ms (List.filter keep events) =
  collect_commands period start instrument now_ms events.
Proof.
  intros Hp. unfold collect_commands, keep. rewrite rfold_skip; [done|].
  intros st e. by apply (noop_command period instrument d owner).
Qed.

(** The commands of the fills are commands of the period. *)
Lemma by_correlation_commands cmds byc :
  commands_wf cmds -> rfold correlation_step (map snd (sends cmds)) [] = Ok byc ->
  forall c sent k, dget c byc = Some sent -> req_id sent = Ok k -> In k (map fst (sends cmds)).
Proof.
  intros Hw Hb c sent k Hg Hk. destruct (by_correlation_sends _ _ _ Hb c sent Hg) as [?|Hin]; [done|].
  apply in_map_iff in Hin as ([k' e] & Heq & Hin); simpl in *; subst e.
  rewrite (cw_req _ Hw _ _ Hin) in Hk. injection Hk as ->. by apply (in_map fst) in Hin.
Qed.

(** C19: dropping the journal records that [ledger_noop] accepts changes nothing
    of a replay over a valid accounting period: neither the ledger nor the error
    it stops with. *)
Theorem ledger_noop_sound prec prec' events period instrument now_ms
    (Hperiod : validate_period prec' period = Ok tt)
    (Hinst : dhas instrument INSTRUMENTS = true) :
  replay prec (List.filter (fun e => negb (ledger_noop e)) events) period instrument now_ms =
  replay prec events period instrument now_ms.
Proof.
  destruct (validate_period_owner prec' period instrument Hperiod Hinst) as (d & owner & Hp).
  fold keep. unfold replay. rewrite (po_instruments _ _ _ _ Hp). cbn [rbind subscript].
  rewrite (item_ok _ _ _ (po_owner _ _ _ _ Hp)). cbn [rbind].
  destruct (item period "started_at_ms") as [start|]; cbn [rbind]; [|done].
  unfold keep at 1. rewrite rfold_skip by (intros; by apply noop_baseline).
  destruct (rfold (baseline_step _ _ _ _) events []) as [ids|]; cbn [rbind]; [|done].
  rewrite (collect_commands_noop period instrument d owner) by done.
  destruct (collect_commands _ _ _ _ _) as [cmds|] eqn:Hc; cbn [rbind]; [|done].
  destruct (rfold correlation_step _ _) as [byc|] eqn:Hb; cbn [rbind]; [|done].
  unfold keep at 1. rewrite rfold_skip by (intros; by apply noop_fill).
  destruct (rfold (fill_step _ _ _ _ _ _ _ _ _) events _) as [fs|] eqn:Hf; cbn [rbind]; [|done].
  assert (He : dget "" (fills fs) = None).
  { eapply (fills_wf_no_empty prec), (fill_loop_wf _ _ _ _ _ _ _ _ _ _ _ _ _ Hf).
    - by eapply by_correlation_commands, Hb; eapply collect_commands_wf.
    - split; [constructor|done]. }
  unfold keep. rewrite (rfold_skip (collision_step _ _ _)) by (intros; by apply noop_collision).
  rewrite (rfold_skip (fee_step _ _ _ _)) by (intros; by apply noop_fee).
  rewrite (rfold_skip (cancel_step _ _ _ _ _)) by (intros; by apply noop_cancel).
  rewrite (rfold_skip (terminal_step _ _ _ _ _)) by (intros; by apply noop_terminal).
  done.
Qed.

(** ** Fees *)

Definition fees_wf (st : FeeState) : Prop := forall k f c, In (k, (f, c)) (fees st) -> dwf f.

Lemma fee_step_wf prec start now_ms fs st event st' :
  fees_wf st -> fee_step prec start now_ms fs st event = Ok st' -> fees_wf st'.
Proof.
  intros Hw H. unfold fee_step in H. apply rbind_ok in H as (found & _ & H).
  destruct found as [f|]; [|inv_ok H; by subst]. case_if H; [inv_ok H; by subst|].
  destruct (fee_evidence prec start now_ms f event) as [[fee cur]|] eqn:Ef.
  - apply Ok_inj in H. subst st'. intros k x c Hin. simpl in Hin. apply In_dset in Hin as [[_ Ex]|Hin]; [|by eapply Hw].
    simplify_eq. unfold fee_evidence in Ef. apply rbind_ok in Ef as (bad & _ & Ef). destruct bad; [done|].
    apply rbind_ok in Ef as (v & Hv & Ef). apply rbind_ok in Ef as (bad & _ & Ef). destruct bad; [done|].
    apply rbind_ok in Ef as (s & _ & Ef). inv_ok Ef. simplify_eq. by eapply number_wf.
  - case_if H; [|done]. inv_ok H. by subst.
Qed.

Lemma fee_loop_wf prec start now_ms fs events st :
  rfold (fee_step prec start now_ms fs) events (mkFeeState [] []) = Ok st -> fees_wf st.
Proof.
  intros H. refine (rfold_inv fees_wf _ events _ st _ _ H); [|by intros ??? []]. intros ??? _. apply fee_step_wf.
Qed.

Lemma usable_fee_wf st k : fees_wf st -> dwf (usable_fee st k).
Proof.
  intros Hw. unfold usable_fee. destruct (dget k (fees st)) as [[f c]|] eqn:E; [|done].
  apply dget_In in E. destruct (_ && _); [by eapply Hw|done].
Qed.

(** ** Settlement *)

(** What a booked execution shows of its fill. *)
Record Booked := mkBooked {
  b_command : string; b_order : Z; b_execution : string; b_side : string; b_cumulative : string;
  b_commission : option string; b_currency : option string }.

Definition f_booked (fee_state : FeeState) (f : Fill) : Booked :=
  let fee := dget (f_execution_id f) (fees fee_state) in
  mkBooked (f_command f) (f_order_id f) (f_execution_id f) (if f_direction f =? 1 then "BUY" else "SELL")
    (amount (f_cumulative f)) (option_map (fun f => amount (fst f)) fee) (option_map snd fee).
Definition x_booked (x : Execution) : Booked :=
  mkBooked (x_command_id x) (x_order_id x) (x_execution_id x) (x_side x) (x_cumulative_quantity x)
    (x_commission x) (x_commission_currency x).

Section settle.
Context (prec : Z) (Hprec : 1 <= prec) (instrument : string).

(** Booking one fill keeps the book invariant and adds its execution. *)
Lemma point_step_ok commands k fee_state st f st' :
  fees_wf fee_state -> fill_wf prec commands k f ->
  point_step prec instrument fee_state st f = Ok st' ->
  (book_ok (ps_book st) -> book_ok (ps_book st')) /\
  (exists x, ps_executions st' = ps_executions st ++ [x] /\ x_booked x = f_booked fee_state f).
Proof.
  intros Hfe Hf H. unfold point_step in H. apply when_ok in H as [_ H].
  apply rbind_ok in H as (delta & Hd & H). apply rbind_ok in H as (notional & Hn & H).
  apply when_ok in H as [Hpos H]. apply orb_false_elim in Hpos as [Hpos _].
  apply rbind_ok in H as ([price ind] & Hp & H). apply rbind_ok in H as (book & Hb & H).
  apply Ok_inj in H. subst st'. simpl in *. split; [|eexists; split; [reflexivity|done]].
  intros Hok. eapply (Book_apply_ok prec); [done|exact Hok| |exact Hb].
  split; [apply Hf|by eapply dsub_representable| | |by apply usable_fee_wf].
  - apply dleb_gt in Hpos. by rewrite dval_ZERO in Hpos.
  - pose proof (fw_price _ _ _ _ Hf) as Hpw. destruct (f_shares f) as [sh|] eqn:Es, (f_price f) as [pr|] eqn:Ep.
    + inv_ok Hp. simplify_eq. done.
    + destruct (fw_pair _ _ _ _ Hf) as [Hpair _]. rewrite Es, Ep in Hpair. destruct (Hpair ltac:(eauto)); done.
    + destruct (fw_pair _ _ _ _ Hf) as [_ Hpair]. rewrite Es, Ep in Hpair. destruct (Hpair ltac:(eauto)); done.
    + apply rbind_ok in Hp as (step & Hs & Hp). apply rbind_ok in Hp as (pr & Hdiv & Hp). inv_ok Hp. simplify_eq.
      eapply (ddiv_wf prec _ _ _ Hprec _ _ Hdiv). Unshelve.
      * by eapply dsub_wf.
      * by eapply dsub_wf.
Qed.

Lemma point_loop_ok commands fee_state points st st' :
  fees_wf fee_state -> (forall f, In f points -> fill_wf prec commands (f_execution_id f) f) ->
  rfold (point_step prec instrument fee_state) points st = Ok st' ->
  (book_ok (ps_book st) -> book_ok (ps_book st')) /\
  map x_booked (ps_executions st') = map x_booked (ps_executions st) ++ map (f_booked fee_state) points.
Proof.
  intros Hfe. revert st. induction points as [|f points IH]; intros st Hall H; simpl in H.
  - apply Ok_inj in H. subst. split; [done|]. by rewrite app_nil_r.
  - apply rbind_ok in H as (st1 & H1 & H).
    destruct (point_step_ok commands _ _ _ _ _ Hfe (Hall f (or_introl eq_refl)) H1) as [Hb (x & Hx & Ex)].
    destruct (IH st1 (fun g Hg => Hall g (or_intror Hg)) H) as [Hb' Hx'].
    split; [tauto|]. rewrite Hx', Hx, map_app. simpl. rewrite Ex, <- app_assoc. done.
Qed.

Lemma points_of_In fs command f :
  In f (points_of fs command) -> exists k, In (k, f) fs /\ f_command f = command.
Proof.
  unfold points_of. intros Hin. apply sorted_by_In in Hin. apply List.filter_In in Hin as [Hin Hc].
  apply bool_decide_eq_true in Hc. apply in_map_iff in Hin as ([k f'] & <- & Hin). eauto.
Qed.

(** Settling a command is booking its fills; the rest of the step does not touch the book. *)
Lemma settle_step_points fs status fee_state cancels term st sent st' :
  settle_step prec instrument fs status fee_state cancels term st sent = Ok st' ->
  exists command ps, req_id sent = Ok command /\
    rfold (point_step prec instrument fee_state) (points_of fs command)
      (mkPointState (s_book st) (s_executions st) [] ZERO ZERO ZERO) = Ok ps /\
    s_book st' = ps_book ps /\ s_executions st' = ps_executions ps.
Proof.
  intros H. unfold settle_step in H.
  apply rbind_ok in H as (command & Hc & H). apply rbind_ok in H as (corr & _ & H).
  apply when_ok in H as [_ H]. apply rbind_ok in H as (ps & Hps & H). exists command, ps. split; [done|]. split; [done|].
  apply rbind_ok in H as (avg & _ & H). apply rbind_ok in H as (mine & _ & H).
  apply rbind_ok in H as (terminal & _ & H).
  destruct (rev (points_of fs command)) as [|l ?].
  - apply rbind_ok in H as (bad & _ & H). destruct bad; [done|]. apply Ok_inj in H. by subst.
  - destruct terminal.
    + unfold settle_remainder in H. apply rbind_ok in H as (cancel & _ & H). destruct cancel as [w|].
      * apply rbind_ok in H as (t & _ & H). apply Ok_inj in H. by subst.
      * apply rbind_ok in H as (proof & _ & H). destruct proof as [[o c]|].
        -- apply rbind_ok in H as (t & _ & H). apply rbind_ok in H as (t' & _ & H). apply Ok_inj in H. by subst.
        -- apply Ok_inj in H. by subst.
    + apply rbind_ok in H as (tol & _ & H). apply rbind_ok in H as (bad & _ & H). destruct bad; [done|].
      apply Ok_inj in H. by subst.
Qed.

(** Settling a command books exactly its fills. *)
Lemma settle_step_ok commands fs status fee_state cancels term st sent st' :
  fees_wf fee_state -> fills_wf prec commands fs ->
  settle_step prec instrument fs status fee_state cancels term st sent = Ok st' ->
  (book_ok (s_book st) -> book_ok (s_book st')) /\
  exists command, req_id sent = Ok command /\
    map x_booked (s_executions st') =
    map x_booked (s_executions st) ++ map (f_booked fee_state) (points_of fs command).
Proof.
  intros Hfe [Hn Hall] H. apply settle_step_points in H as (command & ps & Hc & Hps & -> & ->).
  assert (Hpts : forall f, In f (points_of fs command) -> fill_wf prec commands (f_execution_id f) f).
  { intros f Hf. apply points_of_In in Hf as (k & Hin & _). pose proof (Hall _ _ Hin) as Hw.
    by rewrite (fw_key _ _ _ _ Hw). }
  destruct (point_loop_ok commands fee_state _ _ _ Hfe Hpts Hps) as [Hb Hx]. eauto.
Qed.

Lemma settle_loop_ok commands fs status fee_state cancels term order st st' :
  fees_wf fee_state -> fills_wf prec commands fs ->
  rfold (settle_step prec instrument fs status fee_state cancels term) order st = Ok st' ->
  (book_ok (s_book st) -> book_ok (s_book st')) /\
  exists cs, rmapM req_id order = Ok cs /\
    map x_booked (s_executions st') =
    map x_booked (s_executions st) ++ map (f_booked fee_state) (flat_map (points_of fs) cs).
Proof.
  intros Hfe Hfs. revert st. induction order as [|sent order IH]; intros st H; simpl in H.
  - apply Ok_inj in H. subst. split; [done|]. exists []. simpl. by rewrite app_nil_r.
  - apply rbind_ok in H as (st1 & H1 & H).
    destruct (settle_step_ok commands _ _ _ _ _ _ _ _ Hfe Hfs H1) as [Hb (c & Hc & Hx)].
    destruct (IH st1 H) as [Hb' (cs & Hcs & Hx')]. split; [tauto|]. exists (c :: cs). simpl.
    rewrite Hc, Hcs. simpl. split; [done|]. rewrite Hx', Hx, map_app, <- app_assoc. done.
Qed.

(** ** The bookings behind the book *)

(** One call of [Book.apply]: the fill it books and the quantity, price and fee it books it with. *)
Record Booking := mkBooking { k_fill : Fill; k_quantity : decimal; k_price : decimal; k_fee : decimal }.

Definition book_fill (b : Book) (k : Booking) : res Book :=
  Book_apply prec b (f_direction (k_fill k)) (k_quantity k) (k_price k) (k_fee k).

(** The bookings of one command: each is of the increase of the cumulative quantity, at the
    price of the execution when the callback has one and otherwise at the increase of the
    notional over the increase of the quantity, with the usable fee of the execution. *)
Fixpoint legs (fee_state : FeeState) (done_quantity done_notional : decimal) (ks : list Booking) : Prop :=
  match ks with
  | [] => True
  | k :: ks => let f := k_fill k in
      dsub prec (f_cumulative f) done_quantity = Ok (k_quantity k) /\ dleb (k_quantity k) ZERO = false /\
      k_fee k = usable_fee fee_state (f_execution_id f) /\
      exists notional, dmul prec (f_cumulative f) (f_average f) = Ok notional /\
        match f_shares f, f_price f with
        | Some _, Some price => k_price k = price
        | _, _ => exists step, dsub prec notional done_notional = Ok step /\ ddiv prec step (k_quantity k) = Ok (k_price k)
        end /\ legs fee_state (f_cumulative f) notional ks
  end.

(** The execution a ledger lists for a booking. *)
Definition shows (fee_state : FeeState) (k : Booking) (x : Execution) : Prop :=
  x_booked x = f_booked fee_state (k_fill k) /\ x_quantity x = amount (k_quantity k) /\ x_price x = amount (k_price k).

Lemma point_loop_books fee_state points : forall st st', rfold (point_step prec instrument fee_state) points st = Ok st' ->
  exists ks xs, map k_fill ks = points /\ legs fee_state (ps_quantity st) (ps_notional st) ks /\
    rfold book_fill ks (ps_book st) = Ok (ps_book st') /\
    ps_executions st' = ps_executions st ++ xs /\ Forall2 (shows fee_state) ks xs.
Proof.
  induction points as [|f points IH]; intros st st' H; simpl in H.
  - apply Ok_inj in H as <-. exists [], []. rewrite app_nil_r. done.
  - apply rbind_ok in H as (st1 & H1 & H). apply IH in H as (ks & xs & Hks & Hl & Hb & Hx & Hs). clear IH. unfold point_step in H1.
    apply when_ok in H1 as [_ H1]. apply rbind_ok in H1 as (delta & Hd & H1). apply rbind_ok in H1 as (notional & Hn & H1).
    apply when_ok in H1 as [Hpos H1]. apply orb_false_elim in Hpos as [Hpos _].
    apply rbind_ok in H1 as ([price ind] & Hp & H1). apply rbind_ok in H1 as (book & Hbk & H1). apply Ok_inj in H1. subst st1. simpl in *.
    exists (mkBooking f delta price (usable_fee fee_state (f_execution_id f)) :: ks). eexists (_ :: xs). split; [by simpl; rewrite Hks|].
    split; [|split; [|split; [by rewrite Hx, <- app_assoc|by constructor]]].
    + cbn [legs k_fill k_quantity k_price k_fee]. do 3 (split; [done|]). exists notional. split; [done|]. split; [|done].
      destruct (f_shares f), (f_price f); inv_ok Hp; simplify_eq; eauto.
    + cbn [rfold]. unfold book_fill at 1. cbn [k_fill k_quantity k_price k_fee]. by rewrite Hbk.
Qed.

Lemma settle_loop_books fs status fee_state cancels term order : forall st st' ,
  rfold (settle_step prec instrument fs status fee_state cancels term) order st = Ok st' ->
  exists cs groups xs, rmapM req_id order = Ok cs /\
    Forall2 (fun c g => map k_fill g = points_of fs c /\ legs fee_state ZERO ZERO g) cs groups /\
    rfold book_fill (concat groups) (s_book st) = Ok (s_book st') /\
    s_executions st' = s_executions st ++ xs /\ Forall2 (shows fee_state) (concat groups) xs.
Proof.
  induction order as [|sent order IH]; intros st st' H; simpl in H.
  - apply Ok_inj in H as <-. exists [], [], []. rewrite app_nil_r. done.
  - apply rbind_ok in H as (st1 & H1 & H). apply IH in H as (cs & groups & xs & Hcs & Hg & Hb & Hx & Hs).
    apply settle_step_points in H1 as (c & ps & Hc & Hps & Eb & Ex). apply point_loop_books in Hps as (ks & ys & Hk & Hl & Hkb & Hky & Hks). simpl in *.
    exists (c :: cs), (ks :: groups), (ys ++ xs). simpl. rewrite Hc, Hcs. split; [done|]. split; [by constructor|].
    rewrite rfold_app, Hkb. cbn [rbind]. rewrite <- Eb. split; [done|]. split; [by rewrite Hx, Ex, Hky, <- app_assoc|by apply Forall2_app].
Qed.
End settle.

Lemma opening_book_ok prec owner b : opening_book prec owner = Ok b -> book_ok b.
Proof.
  unfold opening_book. intros H. apply rbind_ok in H as (oq & _ & H). apply rbind_ok in H as (q & Hq & H).
  apply rbind_ok in H as (c & Hc & H). apply Ok_inj in H. subst b. apply number_wf in Hq.
  apply Book_new_ok; [done| |].
  - case_if Hc; [|inv_ok Hc; by subst]. apply rbind_ok in Hc as (om & _ & Hc). by eapply number_wf.
  - intros E. case_if Hc; [|apply Ok_inj in Hc; subst c; apply dval_ZERO]. exfalso.
    unfold dnonzero in E0. apply negb_true_iff, Z.eqb_neq in E0. apply E0.
    unfold dval in E. apply Qmult_integral in E as [E|E].
    + unfold Qeq, PyDecimal.dsig in E. simpl in E. revert E. destruct (dneg q); lia.
    + pose proof (p10_pos (dexp q)) as Hpp. rewrite E in Hpp. discriminate Hpp.
Qed.
