(* ===== verification/PnlLedger.v ===== *)
(** * What a successful replay guarantees

    Every validated fill is booked exactly once, the final book satisfies the
    book invariant, every own execution of the period is booked or proven
    historical, and no command outcome is assumed. *)

From Stdlib Require Import QArith Ascii Permutation Sorted.
From S2P Require Import Prelude PyDecimal PyText PyValue PnlBook PnlReplay PnlReplayFacts.
From stdpp Require Import base tactics list strings.
From Stdlib Require Import ZArith Lia.

Open Scope Z_scope.

(** ** The stages of a successful replay *)

Inductive replay_stages (prec : Z) (events : list dict) (period : dict) (instrument : string)
    (now_ms : Z) (l : Ledger) : Prop :=
| ReplayStages instruments owner start ids cmds byc fl rec fee_state cancels term book order st
    (Hinstruments : item period "instruments" = Ok instruments)
    (Howner : subscript instruments instrument = Ok owner)
    (Hstart : item period "started_at_ms" = Ok start)
    (Hids : rfold (baseline_step period owner start instrument) events [] = Ok ids)
    (Hcmds : collect_commands period start instrument now_ms events = Ok cmds)
    (Hbyc : rfold correlation_step (map snd (sends cmds)) [] = Ok byc)
    (Hfills : rfold (fill_step prec period owner start instrument now_ms ids (old_correlations cmds) byc)
                events (mkFillState [] (map (fun kv => (kv.1, [])) (sends cmds)) []) = Ok fl)
    (Hcollide : rfold (collision_step period owner (fills fl)) events false = Ok false)
    (Hrec : rfold (recover_step (execution_witnesses (fills fl))) (subjectless fl) (statuses fl, []) = Ok rec)
    (Hfees : rfold (fee_step prec start now_ms (fills fl)) events (mkFeeState [] []) = Ok fee_state)
    (Hcancels : rfold (cancel_step period owner instrument now_ms byc) events [] = Ok cancels)
    (Hterm : rfold (terminal_step period owner instrument now_ms byc) events (mkTerminalState [] []) = Ok term)
    (Hbook : opening_book prec owner = Ok book)
    (Horder : sorted_sends (sends cmds) = Ok order)
    (Hsettle : rfold (settle_step prec instrument (fills fl) rec.1 fee_state cancels term) order
                 (mkSettleState book (Book_new (quantity book) (cost book)) [] [] [] []) = Ok st)
    (Lbook : l_book l = s_book st) (Lexec : l_executions l = s_executions st)
    (Lfees : l_fees_complete l = fees_complete (fills fl) fee_state)
    (Lunsettled : l_unsettled l = s_unsettled st)
    (Lowner : l_owner_witnesses l = s_owner st) (Lcancel : l_cancel_witnesses l = s_cancel st)
    (Lcommands : l_command_count l = Z.of_nat (length (sends cmds)))
    (Lcount : l_execution_count l = Z.of_nat (length (fills fl))).

Lemma replay_inv prec events period instrument now_ms l :
  replay prec events period instrument now_ms = Ok l -> replay_stages prec events period instrument now_ms l.
Proof.
  unfold replay. intros H.
  apply rbind_ok in H as (instruments & ? & H). apply rbind_ok in H as (owner & ? & H).
  apply rbind_ok in H as (start & ? & H). apply rbind_ok in H as (ids & ? & H).
  apply rbind_ok in H as (cmds & ? & H). apply rbind_ok in H as (byc & ? & H).
  apply rbind_ok in H as (fl & ? & H). apply rbind_ok in H as (collided & ? & H).
  apply when_ok in H as [-> H].
  apply rbind_ok in H as (rec & ? & H). apply rbind_ok in H as (fee_state & ? & H).
  apply rbind_ok in H as (cancels & ? & H). apply rbind_ok in H as (term & ? & H).
  apply rbind_ok in H as (known & ? & H). apply rbind_ok in H as (book & ? & H).
  apply rbind_ok in H as (order & ? & H). apply rbind_ok in H as (st & ? & H).
  apply rbind_ok in H as (diff & ? & H). apply Ok_inj in H. subst l.
  econstructor; eauto.
Qed.

(** ** Grouping fills by command loses and duplicates none *)

Lemma group_insert (f : Fill) (l : list Fill) (cs : list string) :
  List.NoDup cs -> In (f_command f) cs ->
  Permutation (flat_map (fun c => List.filter (fun g => bool_decide (f_command g = c)) (f :: l)) cs)
              (f :: flat_map (fun c => List.filter (fun g => bool_decide (f_command g = c)) l) cs).
Proof.
  induction cs as [|c cs IH]; intros Hn Hin; [done|]. apply NoDup_cons_iff in Hn as [Hc Hn].
  cbn [flat_map]. destruct (decide (f_command f = c)) as [<-|Hne].
  - cbn [List.filter]. rewrite bool_decide_eq_true_2 by done. cbn [app]. apply perm_skip, Permutation_app_head.
    clear - Hc. induction cs as [|c cs IH]; [done|]. cbn [flat_map List.filter].
    rewrite bool_decide_eq_false_2 by (intros E; apply Hc; by left). apply Permutation_app_head, IH.
    intros Hin. apply Hc. by right.
  - destruct Hin as [?|Hin]; [done|]. cbn [List.filter]. rewrite bool_decide_eq_false_2 by done.
    rewrite (IH Hn Hin). symmetry. apply Permutation_middle.
Qed.

Lemma group_permutation (l : list Fill) (cs : list string) :
  List.NoDup cs -> (forall f, In f l -> In (f_command f) cs) ->
  Permutation (flat_map (fun c => List.filter (fun g => bool_decide (f_command g = c)) l) cs) l.
Proof.
  intros Hn. induction l as [|f l IH]; intros Hall.
  - clear. induction cs; simpl; auto.
  - rewrite group_insert by (try done; apply Hall; by left). apply perm_skip, IH. intros g Hg. apply Hall. by right.
Qed.

Lemma points_permutation (fs : list (string * Fill)) (cs : list string) :
  List.NoDup cs -> (forall k f, In (k, f) fs -> In (f_command f) cs) ->
  Permutation (flat_map (points_of fs) cs) (map snd fs).
Proof.
  intros Hn Hall. transitivity (flat_map (fun c => List.filter (fun g => bool_decide (f_command g = c)) (map snd fs)) cs).
  - clear. induction cs as [|c cs IH]; simpl; [done|]. apply Permutation_app; [|done].
    unfold points_of. apply sorted_by_perm.
  - apply group_permutation; [done|]. intros f Hf. apply in_map_iff in Hf as ([k g] & <- & Hin). by eapply Hall.
Qed.

Lemma eq_Permutation {A} (l l' : list A) : l = l' -> Permutation l l'.
Proof. by intros ->. Qed.

(** The sends are settled in an order that permutes them. *)
Lemma sorted_sends_keys cmds order cs :
  commands_wf cmds -> sorted_sends (sends cmds) = Ok order -> rmapM req_id order = Ok cs ->
  Permutation cs (map fst (sends cmds)).
Proof.
  intros Hw Ho Hcs. unfold sorted_sends in Ho. apply rbind_ok in Ho as (keyed & Hk & Ho). apply Ok_inj in Ho. subst order.
  apply rmapM_Forall2 in Hk. apply rmapM_Forall2 in Hcs.
  assert (Hperm : Permutation (map snd (sorted_by send_leb keyed)) (map snd (sends cmds))).
  { rewrite (sorted_by_perm send_leb keyed). apply eq_Permutation. clear - Hk.
    induction Hk as [|x y l k Hxy _ IH]; [done|]. simpl. inv_ok Hxy. subst y. simpl. by rewrite IH. }
  set (proj := fun e => match req_id e with Ok c => c | Raise _ => "" end).
  assert (Ec : cs = map proj (map snd (sorted_by send_leb keyed))).
  { clear - Hcs. induction Hcs as [|x y l k Hxy _ IH]; [done|]. simpl. unfold proj at 1. by rewrite Hxy, <- IH. }
  rewrite Ec, Hperm, map_map. apply eq_Permutation, map_ext_in. intros [k e] Hin. simpl. unfold proj.
  by rewrite (cw_req _ Hw _ _ Hin).
Qed.

(** ** Every validated fill is booked *)

Section booked.
Context (prec : Z) (Hprec : 1 <= prec) (events : list dict) (period : dict) (instrument : string) (now_ms : Z).
Context (owner start : value) (ids : list string) (cmds : Commands) (byc : list (string * dict)) (fl : FillState).
Context (fee_state : FeeState) (status cancels : list (string * list dict)) (term : TerminalState).
Context (book : Book) (order : list dict) (st : SettleState).
Context (Hcmds : collect_commands period start instrument now_ms events = Ok cmds).
Context (Hbyc : rfold correlation_step (map snd (sends cmds)) [] = Ok byc).
Context (Hfills : rfold (fill_step prec period owner start instrument now_ms ids (old_correlations cmds) byc)
              events (mkFillState [] (map (fun kv => (kv.1, [])) (sends cmds)) []) = Ok fl).
Context (Hfees : rfold (fee_step prec start now_ms (fills fl)) events (mkFeeState [] []) = Ok fee_state).
Context (Hbook : opening_book prec owner = Ok book) (Horder : sorted_sends (sends cmds) = Ok order).
Context (Hsettle : rfold (settle_step prec instrument (fills fl) status fee_state cancels term) order
               (mkSettleState book (Book_new (quantity book) (cost book)) [] [] [] []) = Ok st).

Lemma stage_fills_wf : fills_wf prec (map fst (sends cmds)) (fills fl).
Proof.
  eapply fill_loop_wf; [exact Hfills| |split; [constructor|done]].
  apply by_correlation_commands; [by eapply collect_commands_wf|exact Hbyc].
Qed.

Lemma stage_book_ok : book_ok (s_book st).
Proof.
  eapply (settle_loop_ok prec Hprec instrument); [by eapply fee_loop_wf|exact stage_fills_wf|exact Hsettle|].
  by eapply opening_book_ok.
Qed.

Lemma stage_booked : Permutation (map x_booked (s_executions st)) (map (f_booked fee_state) (map snd (fills fl))).
Proof.
  pose proof (collect_commands_wf _ _ _ _ _ _ Hcmds) as Hw. pose proof stage_fills_wf as [Hn Hall].
  destruct (settle_loop_ok prec Hprec instrument _ _ _ _ _ _ _ _ _
              (fee_loop_wf _ _ _ _ _ _ Hfees) stage_fills_wf Hsettle) as [_ (cs & Hcs & ->)].
  simpl. pose proof (sorted_sends_keys _ _ _ Hw Horder Hcs) as Hperm.
  rewrite points_permutation.
  - done.
  - eapply Permutation_NoDup; [symmetry; exact Hperm|apply Hw].
  - intros k f Hin. eapply Permutation_in; [symmetry; exact Hperm|]. apply (fw_command _ _ _ _ (Hall _ _ Hin)).
Qed.

Lemma stage_executions : Permutation (map x_execution_id (s_executions st)) (map fst (fills fl)).
Proof.
  pose proof stage_fills_wf as [_ Hall]. pose proof (Permutation_map b_execution stage_booked) as Hp.
  rewrite !map_map in Hp. simpl in Hp. rewrite Hp. apply eq_Permutation, map_ext_in.
  intros [k f] Hin. apply (fw_key _ _ _ _ (Hall _ _ Hin)).
Qed.

(** The calls of [Book.apply] of a replay, command by command. *)
Lemma stage_bookings : exists groups, Permutation (map k_fill (concat groups)) (map snd (fills fl)) /\
  Forall (fun g => legs prec fee_state ZERO ZERO g /\ exists c, map k_fill g = points_of (fills fl) c) groups /\
  rfold (book_fill prec) (concat groups) book = Ok (s_book st) /\ Forall2 (shows fee_state) (concat groups) (s_executions st).
Proof.
  pose proof (collect_commands_wf _ _ _ _ _ _ Hcmds) as Hw. pose proof stage_fills_wf as [Hn Hall].
  destruct (settle_loop_books prec instrument _ _ _ _ _ _ _ _ Hsettle) as (cs & groups & xs & Hcs & Hg & Hb & -> & Hs).
  exists groups. simpl in *. split; [|split; [|done]].
  - pose proof (sorted_sends_keys _ _ _ Hw Horder Hcs) as Hperm. rewrite <- (points_permutation _ cs).
    + apply eq_Permutation. clear - Hg. induction Hg as [|c g cs groups [Hk _] _ IH]; [done|]. simpl. by rewrite map_app, Hk, IH.
    + eapply Permutation_NoDup; [symmetry; exact Hperm|apply Hw].
    + intros k f Hin. eapply Permutation_in; [symmetry; exact Hperm|]. apply (fw_command _ _ _ _ (Hall _ _ Hin)).
  - clear - Hg. induction Hg as [|c g cs groups [Hk Hl] _ IH]; constructor; eauto.
Qed.
End booked.

(** ** Where the collected records come from *)

(** What the command loop has recorded of the journal read so far. *)
Record commands_from (period : dict) (start : value) (instrument : string) (now_ms : Z)
    (pre : list dict) (st : Commands) : Prop := {
  cf_sends : forall k s, In (k, s) (sends st) ->
    In s pre /\ own_command period start instrument now_ms k s /\ is_send s = true /\
    CORRELATION_fullmatch (get s "venue_correlation_id") = true /\ order_id_ok (get s "order_id") = true;
  cf_rejects : forall k s, In (k, s) (reliable_rejects st) ->
    In s pre /\ own_command period start instrument now_ms k s /\ kind_is s "reject" = true /\
    is_reliable_reject s = true;
  cf_intents : forall e, In e pre -> owns e period instrument = Ok true -> is_intent e = true ->
    py_lt (get e "ts_ms") start = Ok false -> exists c, get e "req_id" = VStr c /\ dhas c (intents st) = true;
  cf_old : forall v, In v (old_correlations st) ->
    exists o, In o pre /\ owns o period instrument = Ok true /\ is_command_kind o = true /\
      py_lt (get o "ts_ms") start = Ok true /\ get o "venue_correlation_id" = v }.

Lemma dhas_dset {A} (k k' : string) (v : A) d : dhas k d = true -> dhas k (dset k' v d) = true.
Proof. unfold dhas. rewrite dget_dset. by case_decide. Qed.

Lemma earliest_dhas c e x d d' k :
  earliest c e x d = Ok d' -> (dhas c d' = true) /\ (dhas k d = true -> dhas k d' = true).
Proof.
  unfold earliest. destruct (dget c d) eqn:E; intros H.
  - inv_ok H. subst d'. case_match; [|unfold dhas; by rewrite E].
    split; [unfold dhas; by rewrite dget_dset_eq|apply dhas_dset].
  - apply Ok_inj in H as <-. split; [unfold dhas; by rewrite dget_dset_eq|apply dhas_dset].
Qed.

Lemma intent_not_other e : is_intent e = true -> kind_is e "reject" = false /\ is_send e = false /\ is_command_kind e = true.
Proof. unfold is_intent. intros (s & Es & [<-|[<-|[]]])%in_strs_true; unfold kind_is, is_send, is_command_kind; by rewrite Es. Qed.

Lemma command_step_from period start instrument now_ms pre st e st' :
  commands_from period start instrument now_ms pre st ->
  command_step period start instrument now_ms st e = Ok st' ->
  commands_from period start instrument now_ms (pre ++ [e]) st'.
Proof.
  intros Hcf H. apply command_step_cases in H. destruct Hcf as [Hs Hr Hi Ho].
  assert (Hin_pre : forall x, In x pre -> In x (pre ++ [e])) by (intros; apply in_or_app; auto).
  assert (Hin_e : In e (pre ++ [e])) by (apply in_or_app; right; by left).
  split.
  - intros k s Hin. enough (In (k, s) (sends st) \/ (s = e /\ own_command period start instrument now_ms k e /\ is_send e = true /\
      CORRELATION_fullmatch (get e "venue_correlation_id") = true /\ order_id_ok (get e "order_id") = true))
      as [Hold|(-> & ?)]; [destruct (Hs _ _ Hold) as (? & ?); by auto|by auto|].
    destruct H; subst; try (left; congruence).
    destruct (earliest_In _ _ _ _ _ _ _ Hearliest Hin) as [[-> ->]|?]; auto 10.
  - intros k s Hin. enough (In (k, s) (reliable_rejects st) \/ (s = e /\ own_command period start instrument now_ms k e /\
      kind_is e "reject" = true /\ is_reliable_reject e = true))
      as [Hold|(-> & ?)]; [destruct (Hr _ _ Hold) as (? & ?); by auto|by auto|].
    destruct H; subst; try (left; congruence).
    destruct (earliest_In _ _ _ _ _ _ _ Hearliest Hin) as [[-> ->]|?]; auto 10.
  - assert (Hmono : forall c, dhas c (intents st) = true -> dhas c (intents st') = true).
    { intros c Hc. destruct H; subst; try congruence. by eapply (earliest_dhas _ _ _ _ _ c Hearliest). }
    intros x [Hin|[<-|[]]]%in_app_or Hown Hint Hper.
    { destruct (Hi x Hin Hown Hint Hper) as (c & ? & ?). eauto. }
    destruct (intent_not_other _ Hint) as (Hnr & Hns & Hck).
    destruct H as [[?|?]| | | | |]; try congruence.
    exists c. split; [apply Hown0|]. apply (proj1 (earliest_dhas _ _ _ _ _ c Hearliest)).
  - intros v Hin. enough (In v (old_correlations st) \/ (owns e period instrument = Ok true /\ is_command_kind e = true /\
      py_lt (get e "ts_ms") start = Ok true /\ get e "venue_correlation_id" = v)) as [Hold|?];
      [destruct (Ho _ Hold) as (o & ? & ?); eauto|eauto|].
    destruct H; subst; try (left; congruence).
    destruct Eold as [E|E]; rewrite E in Hin; [by left|]. apply in_app_or in Hin as [?|[<-|[]]]; auto.
Qed.

Lemma collect_commands_from period start instrument now_ms events st :
  collect_commands period start instrument now_ms events = Ok st ->
  commands_from period start instrument now_ms events st /\
  exists proven, rfold (reject_step st) (reliable_rejects st) [] = Ok proven /\ commands_settled st proven = true.
Proof.
  unfold collect_commands. intros H. apply rbind_ok in H as (st0 & H0 & H).
  apply rbind_ok in H as (proven & Hp & H). apply when_ok in H as [Hset H]. apply Ok_inj in H. subst st0. split.
  - refine (rfold_inv_prefix (commands_from period start instrument now_ms) _ events _ st _ [] _ H0).
    + intros pre a x a' _. apply command_step_from.
    + by split.
  - exists proven. by rewrite negb_false_iff in Hset.
Qed.

Lemma proven_rejects st l p p' :
  rfold (reject_step st) l p = Ok p' -> forall c, In c p' -> In c p \/ exists r, In (c, r) l.
Proof.
  intros H c Hin. revert p H. induction l as [|[k r] l IH]; intros p H; simpl in H; [inv_ok H; subst; auto|].
  apply rbind_ok in H as (p1 & H1 & H). destruct (IH _ H) as [Hp|(r' & Hr)]; [|right; exists r'; by right].
  unfold reject_step in H1. simpl in H1. destruct (dget k (intents st)); [|apply Ok_inj in H1 as <-; auto].
  apply rbind_ok in H1 as (same & _ & H1). apply when_ok in H1 as [_ H1]. apply when_ok in H1 as [_ H1].
  apply Ok_inj in H1. subst p1. apply in_app_or in Hp as [?|[<-|[]]]; [auto|]. right. exists r. by left.
Qed.

Lemma str_mem_In s l : str_mem s l = true <-> In s l.
Proof.
  unfold str_mem. rewrite existsb_exists. split.
  - intros (x & Hin & ->%bool_decide_eq_true). done.
  - intros Hin. exists s. split; [done|]. by apply bool_decide_eq_true.
Qed.

(** Every intent of the period ends in a send or a reliable rejection. *)
Lemma collect_commands_outcome period start instrument now_ms events cmds e :
  collect_commands period start instrument now_ms events = Ok cmds ->
  In e events -> owns e period instrument = Ok true -> is_intent e = true ->
  py_lt (get e "ts_ms") start = Ok false ->
  exists c o, get e "req_id" = VStr c /\ In o events /\ own_command period start instrument now_ms c o /\
    ((is_send o = true /\ CORRELATION_fullmatch (get o "venue_correlation_id") = true /\
      order_id_ok (get o "order_id") = true) \/
     (kind_is o "reject" = true /\ is_reliable_reject o = true)).
Proof.
  intros H Hin Hown Hint Hper. destruct (collect_commands_from _ _ _ _ _ _ H) as [[Hs Hr Hi _] (proven & Hp & Hset)].
  destruct (Hi e Hin Hown Hint Hper) as (c & Hc & Hhas). exists c.
  unfold commands_settled in Hset. rewrite forallb_forall in Hset.
  specialize (Hset c (proj1 (dhas_In _ _) Hhas)). destruct (dhas c (sends cmds)) eqn:Es.
  - unfold dhas in Es. destruct (dget c (sends cmds)) as [o|] eqn:Eo; [|done]. apply dget_In in Eo.
    exists o. apply Hs in Eo as (? & ? & ? & ? & ?). auto 10.
  - simpl in Hset. apply str_mem_In in Hset. destruct (proven_rejects _ _ _ _ Hp c Hset) as [[]|(o & Ho)].
    exists o. apply Hr in Ho as (? & ? & ? & ?). auto 10.
Qed.

(** No command outcome is assumed: when a replay succeeds, every order or
    flatten intent of the owner in the period has, in the same journal, either a
    send of that command with a valid venue correlation and order id, or a
    reliable placement rejection (explicit IB_PLACE_REJECT with order id -1). *)
Theorem every_intent_has_outcome prec events period instrument now_ms l e start t
    (Hreplay : replay prec events period instrument now_ms = Ok l)
    (Hin : In e events) (Hown : owns e period instrument = Ok true) (Hintent : is_intent e = true)
    (Hstart : item period "started_at_ms" = Ok (VInt start)) (Hts : get e "ts_ms" = VInt t) (Hper : start <= t) :
  exists c o, get e "req_id" = VStr c /\ In o events /\ get o "req_id" = VStr c /\
    owns o period instrument = Ok true /\
    ((is_send o = true /\ CORRELATION_fullmatch (get o "venue_correlation_id") = true /\
      order_id_ok (get o "order_id") = true) \/
     (kind_is o "reject" = true /\ is_reliable_reject o = true)).
Proof.
  destruct (replay_inv _ _ _ _ _ _ Hreplay). rewrite Hstart in Hstart0. apply Ok_inj in Hstart0. subst start0.
  destruct (collect_commands_outcome _ _ _ _ _ _ e Hcmds Hin Hown Hintent) as (c & o & Hc & Ho & Hoc & Hcase).
  { rewrite Hts, py_lt_int. by apply f_equal, Z.ltb_ge. }
  exists c, o. repeat (split; [done || apply Hoc|]). done.
Qed.

(** ** Executions of the journal *)

Lemma baseline_loop_from period owner start instrument events ids s :
  rfold (baseline_step period owner start instrument) events [] = Ok ids -> In s ids ->
  exists o, In o events /\ is_baseline_execution period owner start instrument o = Ok true /\
    get o "broker_execution_id" = VStr s.
Proof.
  intros H. refine (rfold_inv (fun ids => In s ids -> exists o, In o events /\
    is_baseline_execution period owner start instrument o = Ok true /\ get o "broker_execution_id" = VStr s) _ events _ ids _ _ H);
    [|done].
  intros l e l' Hin IH Hstep Hs. unfold baseline_step in Hstep. apply rbind_ok in Hstep as (b & Hb & Hstep).
  case_if Hstep; [|apply Ok_inj in Hstep; subst; auto]. apply andb_prop in E as [-> Ev].
  apply rbind_ok in Hstep as (s' & Es & Hstep). apply Ok_inj in Hstep. subst l'.
  apply in_app_or in Hs as [Hs|[->|[]]]; [auto|]. exists e. split; [done|]. split; [done|].
  destruct (get e "broker_execution_id"); try done. by injection Es as ->.
Qed.

Lemma record_fill_dhas f d d' :
  record_fill f d = Ok d' ->
  dhas (f_execution_id f) d' = true /\ forall k, dhas k d = true -> dhas k d' = true.
Proof.
  unfold record_fill. intros H. assert (exists g, d' = dset (f_execution_id f) g d) as (g & ->).
  { destruct (dget _ _); inv_ok H; subst; eauto. }
  split; [unfold dhas; by rewrite dget_dset_eq|intros k; apply dhas_dset].
Qed.

Lemma make_fill_id prec instrument sent e f :
  make_fill prec instrument sent e = Ok f -> get e "broker_execution_id" = VStr (f_execution_id f).
Proof.
  unfold make_fill. intros H. apply when_ok in H as [_ H]. apply when_ok in H as [_ H].
  apply rbind_ok in H as (eid & He & H). inv_ok H. subst f. simpl.
  destruct (get e "broker_execution_id"); try done. by injection He as ->.
Qed.

Section fill_loop.
Context (prec : Z) (period : dict) (owner start : value) (instrument : string) (now_ms : Z).
Context (ids : list string) (corr : list value) (byc : list (string * dict)).
Let step := fill_step prec period owner start instrument now_ms ids corr byc.

(** The treatment of one execution record. *)
Definition execution_treated (fs : list (string * Fill)) (e : dict) : Prop :=
  exists found, lookup_str (get e "venue_correlation_id") byc = Ok found /\
    match found with
    | None => unmapped_check period owner start instrument ids corr e = Ok tt
    | Some _ => exists id, get e "broker_execution_id" = VStr id /\ dhas id fs = true
    end.

Lemma fill_step_mono st e st' k : step st e = Ok st' -> dhas k (fills st) = true -> dhas k (fills st') = true.
Proof.
  intros H. destruct (fill_step_cases _ _ _ _ _ _ _ _ _ _ _ _ H) as [->|(c & sent & f & _ & _ & Hr)]; [done|].
  apply (proj2 (record_fill_dhas _ _ _ Hr)).
Qed.

Lemma fill_step_treats st e st' :
  step st e = Ok st' -> kind_is e "broker_execution" = true -> execution_treated (fills st') e.
Proof.
  unfold step, fill_step, kind_is. intros H Hk. apply eq_str_true in Hk. rewrite Hk in H. cbn [in_strs existsb] in H.
  change (eq_str (VStr "broker_execution") "broker_execution") with true in H. cbn [orb negb] in H.
  apply rbind_ok in H as (found & Hf & H). exists found. split; [done|]. destruct found as [sent|].
  - apply rbind_ok in H as (bad & _ & H). destruct bad; [done|].
    apply rbind_ok in H as (bad & _ & H). destruct bad; [done|].
    change (eq_str (VStr "broker_execution") "broker_order_status") with false in H. cbn iota in H.
    apply rbind_ok in H as (f & Hm & H). apply rbind_ok in H as (d & Hr & H). apply Ok_inj in H. subst st'. simpl.
    exists (f_execution_id f). split; [by eapply make_fill_id|apply (proj1 (record_fill_dhas _ _ _ Hr))].
  - apply rbind_ok in H as ([] & Hu & _). done.
Qed.

Lemma fill_loop_treats events st0 st e :
  rfold step events st0 = Ok st -> In e events -> kind_is e "broker_execution" = true ->
  execution_treated (fills st) e.
Proof.
  intros H Hin Hk. enough (Hall : forall x, In x ([] ++ events) -> kind_is x "broker_execution" = true -> execution_treated (fills st) x)
    by (by apply Hall).
  refine (rfold_inv_prefix (fun pre st => forall x, In x pre -> kind_is x "broker_execution" = true ->
    execution_treated (fills st) x) _ events st0 st _ [] _ H); [|done].
  intros pre st1 y st2 _ IH Hs x [Hx|[<-|[]]]%in_app_or Hkx; [|by eapply fill_step_treats].
  destruct (IH x Hx Hkx) as (found & Hf & Hc). exists found. split; [done|]. destruct found; [|done].
  destruct Hc as (id & ? & ?). exists id. split; [done|]. by eapply fill_step_mono.
Qed.
End fill_loop.

(** ** Completeness of the booked executions *)

Lemma unmapped_execution period owner start instrument ids corr e :
  unmapped_check period owner start instrument ids corr e = Ok tt ->
  kind_is e "broker_execution" = true -> same_account period e = Ok true -> is_field e "instrument" instrument = true ->
  same_client owner e = Ok true -> py_le start (getd (VInt 0) e "ts_ms") = Ok true ->
  eq_int (get e "broker_request_id") (-1) = false /\
  (py_in (get e "venue_correlation_id") corr = true \/ in_strs (get e "broker_execution_id") ids = true).
Proof.
  unfold unmapped_check. intros H Hk Ha Hi Hcl Ht. rewrite Hk, Ha, Hi, Hcl, Ht in H. cbn [pand rbind] in H.
  apply when_ok in H as [Hlive H]. split; [done|].
  apply rbind_ok in H as (hist & Hh & H). apply rbind_ok in H as (bad & Hb & H). destruct bad; [done|]. clear H.
  unfold pnot, rmap, in_value_set in Hb. destruct (hashable (get e "venue_correlation_id")); [|done]. cbn [rbind pand] in Hb.
  destruct (py_in (get e "venue_correlation_id") corr); [by left|]. cbn [negb] in Hb. apply Ok_inj, negb_false_iff in Hb.
  subst hist. right. repeat (apply pand_true in Hh as [_ Hh] || idtac).
  unfold in_str_set in Hh. destruct (hashable _); [|done]. by apply Ok_inj in Hh.
Qed.

(** C40: a successful replay leaves no own execution of the period out: an
    execution callback of the period's account, instrument and broker client, at
    or after the start of the period, is booked under its execution id, or is a
    download (never a live callback) proven historical by an order of the owner
    sent before the period with the same venue correlation, or by the same
    execution id observed before the period. *)
Theorem own_executions_accounted prec events period instrument now_ms l e instruments owner start t
    (Hprec : 1 <= prec) (Hreplay : replay prec events period instrument now_ms = Ok l) (Hin : In e events)
    (Hins : item period "instruments" = Ok instruments) (Hown : subscript instruments instrument = Ok owner)
    (Hstart : item period "started_at_ms" = Ok (VInt start)) (Hts : get e "ts_ms" = VInt t) (Hper : start <= t)
    (Hkind : kind_is e "broker_execution" = true) (Hacct : same_account period e = Ok true)
    (Hinst : is_field e "instrument" instrument = true) (Hclient : same_client owner e = Ok true) :
  (exists id, get e "broker_execution_id" = VStr id /\ In id (map x_execution_id (l_executions l))) \/
  (eq_int (get e "broker_request_id") (-1) = false /\
   exists o, In o events /\
     ((owns o period instrument = Ok true /\ is_command_kind o = true /\
       py_lt (get o "ts_ms") (VInt start) = Ok true /\
       py_eq (get e "venue_correlation_id") (get o "venue_correlation_id") = true) \/
      (is_baseline_execution period owner (VInt start) instrument o = Ok true /\
       get e "broker_execution_id" = get o "broker_execution_id"))).
Proof.
  destruct (replay_inv _ _ _ _ _ _ Hreplay).
  rewrite Hins in Hinstruments. apply Ok_inj in Hinstruments. subst instruments0.
  rewrite Hown in Howner. apply Ok_inj in Howner. subst owner0.
  rewrite Hstart in Hstart0. apply Ok_inj in Hstart0. subst start0.
  destruct (fill_loop_treats _ _ _ _ _ _ _ _ _ _ _ _ _ Hfills Hin Hkind) as (found & _ & Hc). destruct found.
  - left. destruct Hc as (id & Hid & Hhas). exists id. split; [done|]. rewrite Lexec.
    eapply Permutation_in; [symmetry; by eapply stage_executions|]. by apply dhas_In.
  - right. apply unmapped_execution in Hc as [Hlive Hc]; try done.
    + split; [done|]. destruct Hc as [Hc|Hc].
      * apply existsb_exists in Hc as (v & Hv & Heq).
        destruct (collect_commands_from _ _ _ _ _ _ Hcmds) as [[_ _ _ Hold] _].
        destruct (Hold v Hv) as (o & Ho & ? & ? & ? & <-). eauto 10.
      * apply in_strs_true in Hc as (s & Es & Hs). destruct (baseline_loop_from _ _ _ _ _ _ s Hids Hs) as (o & ? & ? & Eo).
        exists o. split; [done|]. right. by rewrite Es, Eo.
    + unfold getd, dget_or. apply get_some in Hts; [|done]. rewrite Hts, py_le_int. by apply f_equal, Z.leb_le.
Qed.

(** ** Soundness of the booked executions *)

(** The journal records behind a fill. *)
Record fill_origin (prec : Z) (period : dict) (owner : value) (instrument : string) (now_ms : Z)
    (byc : list (string * dict)) (pre : list dict) (f : Fill) (e sent : dict) : Prop := {
  fo_event : In e pre;
  fo_kind : kind_is e "broker_execution" = true;
  fo_sent : exists c, get e "venue_correlation_id" = VStr c /\ dget c byc = Some sent;
  fo_id : get e "broker_execution_id" = VStr (f_execution_id f);
  fo_command : req_id sent = Ok (f_command f);
  fo_order : get sent "order_id" = VInt (f_order_id f);
  fo_side : side (get e "side") = Ok (f_direction f);
  fo_quantity : number prec (get e "qty") = Ok (f_cumulative f);
  fo_binding : binding_conflict period owner instrument sent e = Ok false;
  fo_time : epoch_or_time_invalid now_ms sent e = Ok false }.

Lemma make_fill_fields prec instrument sent e f :
  make_fill prec instrument sent e = Ok f ->
  req_id sent = Ok (f_command f) /\ get sent "order_id" = VInt (f_order_id f) /\
  side (get e "side") = Ok (f_direction f) /\ number prec (get e "qty") = Ok (f_cumulative f).
Proof.
  unfold make_fill. intros H. apply when_ok in H as [_ H]. apply when_ok in H as [_ H].
  apply rbind_ok in H as (eid & He & H). apply rbind_ok in H as (q & Hq & H).
  apply rbind_ok in H as (avg & Ha & H). apply when_ok in H as [_ H].
  apply rbind_ok in H as (econ & _ & H). apply rbind_ok in H as (c & Hc & H).
  apply rbind_ok in H as (corr & _ & H). apply rbind_ok in H as (o & Ho & H).
  apply rbind_ok in H as (t & _ & H). apply rbind_ok in H as (t' & _ & H).
  apply rbind_ok in H as (dir & Hdir & H). apply rbind_ok in H as (ep & _ & H). apply Ok_inj in H. subst f. simpl.
  repeat split; try done. destruct (get sent "order_id"); try done. by injection Ho as ->.
Qed.

Section fill_origins.
Context (prec : Z) (period : dict) (owner start : value) (instrument : string) (now_ms : Z).
Context (ids : list string) (corr : list value) (byc : list (string * dict)).
Let step := fill_step prec period owner start instrument now_ms ids corr byc.
Let origin := fill_origin prec period owner instrument now_ms byc.

Lemma fill_step_origin pre st e st' :
  (forall k f, In (k, f) (fills st) -> exists x s, origin pre f x s) ->
  step st e = Ok st' -> forall k f, In (k, f) (fills st') -> exists x s, origin (pre ++ [e]) f x s.
Proof.
  intros IH H k f Hin.
  assert (Hweak : forall g x s, origin pre g x s -> origin (pre ++ [e]) g x s).
  { intros g x s [Hp ? ? ? ? ? ? ? ? ?]. split; try done. apply in_or_app. by left. }
  assert (Hold : forall k f, In (k, f) (fills st) -> exists x s, origin (pre ++ [e]) f x s).
  { intros k' f' Hin'. destruct (IH _ _ Hin') as (x & s & Ho). eauto. }
  clear IH. unfold step, fill_step in H. case_if H; [apply Ok_inj in H; subst; by eapply Hold|].
  apply rbind_ok in H as (found & Hf & H). destruct found as [sent|].
  2: { apply rbind_ok in H as (u & _ & H). apply Ok_inj in H. subst. by eapply Hold. }
  apply rbind_ok in H as (bad & Hbind & H). destruct bad; [done|].
  apply rbind_ok in H as (bad & Htime & H). destruct bad; [done|].
  case_if H.
  { enough (fills st' = fills st) as E' by (rewrite E' in Hin; by eapply Hold).
    case_if H; [apply Ok_inj in H; by subst|]. case_if H; inv_ok H; by subst. }
  apply rbind_ok in H as (g & Hm & H). apply rbind_ok in H as (d & Hr & H). apply Ok_inj in H. subst st'. simpl in Hin.
  assert (Hg : origin (pre ++ [e]) g e sent).
  { destruct (make_fill_fields _ _ _ _ _ Hm) as (? & ? & ? & ?). split; try done.
    - apply in_or_app. right. by left.
    - apply negb_false_iff, in_strs_true in E as (s & Es & [<-|[<-|[]]]); unfold kind_is in *; by rewrite Es in *.
    - unfold lookup_str in Hf. destruct (get e "venue_correlation_id"); simpl in Hf; try done; simplify_eq; eauto.
    - by eapply make_fill_id. }
  unfold record_fill in Hr. destruct (dget (f_execution_id g) (fills st)) as [prev|] eqn:Ep.
  - apply when_ok in Hr as [_ Hr]. apply Ok_inj in Hr. subst d. apply In_dset in Hin as [[_ ->]|Hin]; [|by eapply Hold].
    apply dget_In in Ep. destruct (Hold _ _ Ep) as (x & s & [? ? ? ? ? ? ? ? ? ?]). exists x, s. by split.
  - apply Ok_inj in Hr. subst d. apply In_dset in Hin as [[_ ->]|Hin]; [|by eapply Hold]. eauto.
Qed.

Lemma fill_loop_origin events sts st :
  rfold step events (mkFillState [] sts []) = Ok st ->
  forall k f, In (k, f) (fills st) -> exists x s, origin events f x s.
Proof.
  intros H. refine (rfold_inv_prefix (fun pre st => forall k f, In (k, f) (fills st) -> exists x s, origin pre f x s)
    _ events _ st _ [] _ H); [|done]. intros pre st1 e st2 _. apply fill_step_origin.
Qed.
End fill_origins.

(** [by_correlation] is keyed by the correlation of the send. *)
Lemma by_correlation_key l d0 d :
  rfold correlation_step l d0 = Ok d ->
  (forall c e, dget c d0 = Some e -> get e "venue_correlation_id" = VStr c) ->
  forall c e, dget c d = Some e -> get e "venue_correlation_id" = VStr c.
Proof.
  intros H H0. refine (rfold_inv (fun d => forall c e, dget c d = Some e -> get e "venue_correlation_id" = VStr c) _ l d0 d _ H0 H).
  intros d1 x d2 _ IH Hs c e Hg. unfold correlation_step in Hs. apply rbind_ok in Hs as (c' & Hc & Hs).
  assert (d2 = dset c' x d1) as -> by (destruct (dget c' d1); inv_ok Hs; by subst).
  rewrite dget_dset in Hg. case_decide as Ec; [|auto]. simplify_eq.
  destruct (get e "venue_correlation_id"); try done. by injection Hc as ->.
Qed.

Lemma pnot_false m : pnot m = Ok false -> m = Ok true.
Proof. unfold pnot. intros (b & -> & E)%rmap_ok. by destruct b. Qed.

Lemma binding_conflict_execution period owner instrument sent e :
  kind_is e "broker_execution" = true -> binding_conflict period owner instrument sent e = Ok false ->
  same_account period e = Ok true /\ same_client owner e = Ok true /\
  is_field e "execution_domain" "PAPER" = true /\ is_field e "instrument" instrument = true /\
  py_eq (get e "order_id") (get sent "order_id") = true /\
  exists d, side (get e "side") = Ok d /\ side (get sent "side") = Ok d.
Proof.
  intros Hk H. unfold binding_conflict in H. repeat (apply por_false in H as [H ?]).
  assert (Hs : is_subjectless e = false).
  { apply eq_str_true in Hk. unfold is_subjectless, kind_is. by rewrite Hk. }
  rewrite Hs in *. repeat match goal with
  | H : pnot _ = Ok false |- _ => apply pnot_false in H
  | H : Ok (negb _) = Ok false |- _ => apply Ok_inj, negb_false_iff in H
  | H : _ ||? _ = Ok false |- _ => apply por_false in H as [? ?] end.
  repeat (split; [done|]).
  match goal with H : rbind (side (get e "side")) _ = Ok false |- _ => apply rbind_ok in H as (a & Ha & Hs') end.
  apply rbind_ok in Hs' as (b & Hb & Hs'). apply Ok_inj, negb_false_iff, Z.eqb_eq in Hs'. subst b. eauto.
Qed.

Lemma epoch_or_time_ok now_ms sent e :
  epoch_or_time_invalid now_ms sent e = Ok false ->
  exists t t', ts sent = Ok t /\ ts e = Ok t' /\ 0 < t' /\ t <= t' <= now_ms.
Proof.
  unfold epoch_or_time_invalid. intros H. repeat (apply por_false in H as [H ?]).
  apply Ok_inj, negb_false_iff, pos_int_true in H as (t' & Et & Ht).
  assert (Ets : ts e = Ok t') by (unfold ts; by rewrite Et). rewrite Ets in *. cbn [rbind] in *.
  destruct (ts sent) as [t|]; cbn [rbind] in *; [|done].
  repeat match goal with H : Ok (_ <? _) = Ok false |- _ => apply Ok_inj, Z.ltb_ge in H end. eauto 10.
Qed.

(** A successful replay invents nothing: each booked execution comes from an
    execution callback and a send of the same journal; the send is the owner's, in
    the period, and names the booked command and order id; the callback carries the
    booked execution id and cumulative quantity, the send's venue correlation, order
    id and side, and the period's account and broker client; and the times are
    ordered start <= sent <= executed <= now. *)
Theorem booked_executions_sound prec events period instrument now_ms l x instruments owner start
    (Hprec : 1 <= prec) (Hreplay : replay prec events period instrument now_ms = Ok l)
    (Hins : item period "instruments" = Ok instruments) (Hown : subscript instruments instrument = Ok owner)
    (Hstart : item period "started_at_ms" = Ok (VInt start)) (Hx : In x (l_executions l)) :
  exists e sent t t' d q,
    In e events /\ kind_is e "broker_execution" = true /\
    In sent events /\ owns sent period instrument = Ok true /\ is_send sent = true /\
    get sent "req_id" = VStr (x_command_id x) /\ get sent "order_id" = VInt (x_order_id x) /\
    get e "broker_execution_id" = VStr (x_execution_id x) /\
    get e "venue_correlation_id" = get sent "venue_correlation_id" /\
    py_eq (get e "order_id") (get sent "order_id") = true /\
    side (get e "side") = Ok d /\ side (get sent "side") = Ok d /\ x_side x = (if d =? 1 then "BUY" else "SELL") /\
    number prec (get e "qty") = Ok q /\ x_cumulative_quantity x = amount q /\
    same_account period e = Ok true /\ same_client owner e = Ok true /\
    get sent "ts_ms" = VInt t /\ get e "ts_ms" = VInt t' /\ start <= t <= t' /\ t' <= now_ms.
Proof.
  destruct (replay_inv _ _ _ _ _ _ Hreplay).
  rewrite Hins in Hinstruments. apply Ok_inj in Hinstruments. subst instruments0.
  rewrite Hown in Howner. apply Ok_inj in Howner. subst owner0.
  rewrite Hstart in Hstart0. apply Ok_inj in Hstart0. subst start0.
  assert (Hbk : Permutation (map x_booked (s_executions st)) (map (f_booked fee_state) (map snd (fills fl)))) by (by eapply stage_booked).
  rewrite <- Lexec in Hbk. apply (in_map x_booked) in Hx. apply (Permutation_in _ Hbk) in Hx.
  apply in_map_iff in Hx as (f & Ef & Hf). apply in_map_iff in Hf as ([k g] & Eg & Hf). simpl in Eg. subst g.
  destruct (fill_loop_origin _ _ _ _ _ _ _ _ _ _ _ _ Hfills _ _ Hf) as (e & sent & [He Hk Hs Hid Hc Ho Hside Hq Hb Ht]).
  unfold f_booked, x_booked in Ef. injection Ef as E1 E2 E3 E4 E5 _ _.
  destruct Hs as (c & Hec & Hg).
  pose proof (by_correlation_key _ _ _ Hbyc ltac:(done) c sent Hg) as Hsc.
  destruct (by_correlation_sends _ _ _ Hbyc c sent Hg) as [?|Hin]; [done|].
  apply in_map_iff in Hin as ([k' s'] & Es' & Hin). simpl in Es'. subst s'.
  destruct (collect_commands_from _ _ _ _ _ _ Hcmds) as [[Hsends _ _ _] _].
  destruct (Hsends _ _ Hin) as (Hsin & [Hso Hsr (t & Ets & Htn) Hsp] & Hsk & _ & _).
  destruct (binding_conflict_execution _ _ _ _ _ Hk Hb) as (? & ? & _ & _ & ? & d & Hd & Hd').
  destruct (epoch_or_time_ok _ _ _ Ht) as (t1 & t' & Et1 & Et' & Hpos & Hord).
  unfold req_id in Hc. rewrite Hsr in Hc. apply Ok_inj in Hc.
  unfold ts in Et1. rewrite Ets in Et1. apply Ok_inj in Et1. subst t1.
  exists e, sent, t, t', d, (f_cumulative f).
  rewrite Hside in Hd. apply Ok_inj in Hd. subst d.
  repeat (split; [done || congruence|]).
  split; [by unfold ts in Et'; destruct (get e "ts_ms"); try done; injection Et' as ->|].
  split; [|lia]. rewrite Ets, py_lt_int in Hsp. apply Ok_inj, Z.ltb_ge in Hsp. lia.
Qed.

(** ** Fees *)

(** What the commission loop has recorded of the journal read so far. *)
Record fees_from (prec : Z) (start : value) (now_ms : Z) (fs : list (string * Fill)) (pre : list dict) (st : FeeState) : Prop := {
  ff_origin : forall k fee cur, dget k (fees st) = Some (fee, cur) ->
    exists e f, In e pre /\ kind_is e "broker_commission" = true /\ get e "broker_execution_id" = VStr k /\
      dget k fs = Some f /\ fee_evidence prec start now_ms f e = Ok (fee, cur);
  ff_all : forall e k f, In e pre -> kind_is e "broker_commission" = true -> get e "broker_execution_id" = VStr k ->
    dget k fs = Some f -> In k (fee_conflicts st) \/
    exists fee fee' cur, dget k (fees st) = Some (fee, cur) /\
      fee_evidence prec start now_ms f e = Ok (fee', cur) /\ (dval fee == dval fee')%Q }.

Lemma str_add_In k s l : In k (str_add s l) <-> k = s \/ In k l.
Proof.
  unfold str_add. destruct (str_mem s l) eqn:E; [apply str_mem_In in E; naive_solver|].
  rewrite in_app_iff. simpl. naive_solver.
Qed.

Lemma fee_step_from prec start now_ms commands fs pre st e st' :
  fills_wf prec commands fs -> fees_from prec start now_ms fs pre st ->
  fee_step prec start now_ms fs st e = Ok st' -> fees_from prec start now_ms fs (pre ++ [e]) st'.
Proof.
  intros [_ Hfs] [Ho Ha] H.
  assert (Hskip : (forall k f, kind_is e "broker_commission" = true -> get e "broker_execution_id" = VStr k ->
            dget k fs = Some f -> False) -> fees_from prec start now_ms fs (pre ++ [e]) st).
  { intros Hno. split.
    - intros k fee cur Hk. destruct (Ho k fee cur Hk) as (x & f & Hin & ?). exists x, f. rewrite in_app_iff. auto.
    - intros x k f [Hin|[<-|[]]]%in_app_or Hk Hid Hg; [eauto|]. destruct (Hno k f Hk Hid Hg). }
  unfold fee_step in H. apply rbind_ok in H as (found & Hf & H). destruct found as [f|].
  2: { apply Ok_inj in H. subst st'. apply Hskip. intros k f _ Hid Hg. unfold lookup_str in Hf. rewrite Hid in Hf. naive_solver. }
  assert (exists k, get e "broker_execution_id" = VStr k /\ dget k fs = Some f) as (k & Hid & Hg).
  { unfold lookup_str in Hf. destruct (get e "broker_execution_id"); simpl in Hf; try done; simplify_eq; eauto. }
  case_if H.
  { apply Ok_inj in H. subst st'. apply Hskip. intros k' f' Hk. rewrite Hk in E. done. }
  apply negb_false_iff in E. clear Hskip.
  rewrite (fw_key _ _ _ _ (Hfs _ _ (dget_In _ _ _ Hg))) in H.
  destruct (fee_evidence prec start now_ms f e) as [[fee cur]|] eqn:Ef; apply Ok_inj in H || case_if H; try done.
  - subst st'. split; cbn [fees fee_conflicts].
    + intros k' fee' cur' Hk'. rewrite dget_dset in Hk'. case_decide as Ek.
      * subst k'. injection Hk' as <- <-. exists e, f. rewrite in_app_iff. simpl. auto 10.
      * destruct (Ho _ _ _ Hk') as (x & f' & Hin & ?). exists x, f'. rewrite in_app_iff. auto.
    + intros x k' f' [Hin|[<-|[]]]%in_app_or Hk Hid' Hg'.
      * destruct (Ha x k' f' Hin Hk Hid' Hg') as [Hc|(fee1 & fee2 & c & H1 & H2 & H3)].
        { left. case_match; [apply str_add_In; by right|done]. }
        rewrite dget_dset. case_decide as Ek; [|right; eauto 10]. subst k'.
        rewrite H1. destruct (deqb fee1 fee && bool_decide (c = cur)) eqn:Eq; simpl.
        -- right. apply andb_prop in Eq as [Eq ->%bool_decide_eq_true]. apply deqb_eq in Eq.
           exists fee, fee2, cur. split; [done|]. split; [done|]. by rewrite <- Eq.
        -- left. apply str_add_In. by left.
      * rewrite Hid in Hid'. injection Hid' as <-. rewrite Hg in Hg'. injection Hg' as <-.
        right. exists fee, fee, cur. rewrite dget_dset_eq. split; [done|]. by split.
  - apply Ok_inj in H. subst st'. split; cbn [fees fee_conflicts].
    + intros k' fee' cur' Hk'. destruct (Ho _ _ _ Hk') as (x & f' & Hin & ?). exists x, f'. rewrite in_app_iff. auto.
    + intros x k' f' [Hin|[<-|[]]]%in_app_or Hk Hid' Hg'.
      * destruct (Ha x k' f' Hin Hk Hid' Hg') as [Hc|?]; [left; apply str_add_In; by right|auto].
      * rewrite Hid in Hid'. injection Hid' as <-. left. apply str_add_In. by left.
Qed.

Lemma fee_loop_from prec start now_ms commands fs events st :
  fills_wf prec commands fs -> rfold (fee_step prec start now_ms fs) events (mkFeeState [] []) = Ok st ->
  fees_from prec start now_ms fs events st.
Proof.
  intros Hfs H. refine (rfold_inv_prefix (fees_from prec start now_ms fs) _ events _ st _ [] _ H); [|by split].
  intros pre st1 e st2 _. by apply (fee_step_from _ _ _ commands).
Qed.

(** A ledger that reports its fees complete has an undisputed commission for
    every booked execution: the journal holds a commission report for it, the
    booked commission is that report's amount in USD, and every other commission
    report of the journal for the same execution is valid evidence of the same
    amount. *)
Theorem fees_complete_sound prec events period instrument now_ms l x
    (Hprec : 1 <= prec) (Hreplay : replay prec events period instrument now_ms = Ok l)
    (Hfees : l_fees_complete l = true) (Hx : In x (l_executions l)) :
  exists start f fee e,
    In e events /\ kind_is e "broker_commission" = true /\
    get e "broker_execution_id" = VStr (x_execution_id x) /\
    fee_evidence prec start now_ms f e = Ok (fee, "USD") /\
    x_commission x = Some (amount fee) /\ x_commission_currency x = Some "USD" /\
    (forall e', In e' events -> kind_is e' "broker_commission" = true ->
       get e' "broker_execution_id" = VStr (x_execution_id x) ->
       exists fee', fee_evidence prec start now_ms f e' = Ok (fee', "USD") /\ (dval fee == dval fee')%Q).
Proof.
  destruct (replay_inv _ _ _ _ _ _ Hreplay). rewrite Lfees in Hfees.
  assert (Hwf : fills_wf prec (map fst (sends cmds)) (fills fl)) by (by eapply stage_fills_wf).
  destruct (fee_loop_from _ _ _ _ _ _ _ Hwf Hfees0) as [Ho Ha].
  assert (Hbk : Permutation (map x_booked (s_executions st)) (map (f_booked fee_state) (map snd (fills fl)))) by (by eapply stage_booked).
  rewrite <- Lexec in Hbk. apply (in_map x_booked) in Hx. apply (Permutation_in _ Hbk) in Hx.
  apply in_map_iff in Hx as (f & Ef & Hf). apply in_map_iff in Hf as ([k g] & Eg & Hf). simpl in Eg. subst g.
  unfold f_booked, x_booked in Ef. injection Ef as _ _ E3 _ _ E6 E7. rewrite <- E3.
  rewrite (fw_key _ _ _ _ (proj2 Hwf _ _ Hf)) in *.
  unfold fees_complete in Hfees. destruct (fee_missing (fills fl) fee_state) eqn:Em; [|done].
  destruct (fee_conflicts fee_state) eqn:Ec; [|done]. rewrite forallb_forall in Hfees.
  destruct (dget k (fees fee_state)) as [[fee cur]|] eqn:Ek.
  2: { exfalso. apply (in_map fst) in Hf. simpl in Hf.
       assert (Hin : In k (fee_missing (fills fl) fee_state)); [|by rewrite Em in Hin].
       apply sorted_by_In, List.filter_In. split; [done|]. unfold dhas. by rewrite Ek. }
  pose proof (Hfees _ (dget_In _ _ _ Ek)) as Ecur. apply bool_decide_eq_true in Ecur. simpl in Ecur. subst cur.
  destruct (Ho _ _ _ Ek) as (e & f' & He & Hk & Hid & Hg & Hev).
  exists start, f', fee, e. repeat (split; [done|]).
  intros e' He' Hk' Hid'. destruct (Ha e' k f' He' Hk' Hid' Hg) as [[]|(fee1 & fee2 & cur & H1 & H2 & H3)].
  rewrite Ek in H1. injection H1 as <- <-. eauto.
Qed.

(** ** Every fill is booked once *)

(** The fills a replay collects: one for every execution id of the callbacks that belong to a
    send of the period, each made from such a callback and its send. *)
Record collected (prec : Z) (events : list dict) (period : dict) (instrument : string) (now_ms : Z)
    (owner start : value) (fs : list (string * Fill)) : Prop := {
  cl_ids : List.NoDup (map fst fs) /\ forall k f, In (k, f) fs -> f_execution_id f = k;
  cl_journal : exists cmds by_correlation, collect_commands period start instrument now_ms events = Ok cmds /\
    rfold correlation_step (map snd (sends cmds)) [] = Ok by_correlation /\
    (forall e sent, In e events -> kind_is e "broker_execution" = true ->
       lookup_str (get e "venue_correlation_id") by_correlation = Ok (Some sent) ->
       exists k f, get e "broker_execution_id" = VStr k /\ In (k, f) fs) /\
    (forall k f, In (k, f) fs -> exists e sent, fill_origin prec period owner instrument now_ms by_correlation events f e sent) }.

(** C20: a successful replay books every validated fill exactly once.  The fills it collects are
    one for every execution id of the callbacks that belong to a send of the period.  The book
    it returns is the opening book after one call of [Book.apply] for each of these fills and
    none besides: command by command, each fill with the increase of the cumulative quantity
    over the one before, the price of the execution and its usable fee.  The executions the
    ledger lists are those calls, in their order, as many as the fills and with different
    ids; and the book satisfies its invariant: a flat book carries no cost basis and no
    unreleased entry fee. *)
Theorem replay_books_every_fill prec events period instrument now_ms l
    (Hprec : 1 <= prec) (Hreplay : replay prec events period instrument now_ms = Ok l) :
  exists owner start fs fee_state opening groups,
    (let! instruments := item period "instruments" in subscript instruments instrument) = Ok owner /\
    item period "started_at_ms" = Ok start /\ collected prec events period instrument now_ms owner start fs /\
    rfold (fee_step prec start now_ms fs) events (mkFeeState [] []) = Ok fee_state /\ opening_book prec owner = Ok opening /\
    Permutation (map k_fill (concat groups)) (map snd fs) /\
    Forall (fun g => legs prec fee_state ZERO ZERO g /\ exists c, map k_fill g = points_of fs c) groups /\
    rfold (book_fill prec) (concat groups) opening = Ok (l_book l) /\
    Forall2 (shows fee_state) (concat groups) (l_executions l) /\
    List.NoDup (map x_execution_id (l_executions l)) /\ Z.of_nat (length (l_executions l)) = l_execution_count l /\ book_ok (l_book l).
Proof.
  destruct (replay_inv _ _ _ _ _ _ Hreplay). rewrite Lbook, Lexec, Lcount.
  assert (Hwf : fills_wf prec (map fst (sends cmds)) (fills fl)) by (by eapply stage_fills_wf).
  assert (Hp : Permutation (map x_execution_id (s_executions st)) (map fst (fills fl))) by (by eapply stage_executions).
  assert (Hg : exists groups, Permutation (map k_fill (concat groups)) (map snd (fills fl)) /\
    Forall (fun g => legs prec fee_state ZERO ZERO g /\ exists c, map k_fill g = points_of (fills fl) c) groups /\
    rfold (book_fill prec) (concat groups) book = Ok (s_book st) /\ Forall2 (shows fee_state) (concat groups) (s_executions st))
    by (by eapply stage_bookings).
  destruct Hg as (groups & Hperm & Hgr & Hb & Hs). exists owner, start, (fills fl), fee_state, book, groups.
  split; [by rewrite Hinstruments|]. split; [done|]. split; [|do 6 (split; [done|]); split; [|split]].
  - split; [split; [apply Hwf|intros k f Hin; apply (fw_key _ _ _ _ (proj2 Hwf k f Hin))]|]. exists cmds, byc. do 2 (split; [done|]). split.
    + intros e sent He Hk Hl. destruct (fill_loop_treats _ _ _ _ _ _ _ _ _ _ _ _ _ Hfills He Hk) as (found & Hf & Hc).
      rewrite Hl in Hf. injection Hf as <-. destruct Hc as (id & Hid & Hh). apply dhas_In, in_map_iff in Hh as ([k f] & <- & Hin). eauto.
    + intros k f Hin. by eapply fill_loop_origin.
  - eapply Permutation_NoDup; [symmetry; exact Hp|apply Hwf].
  - apply Permutation_length in Hp. rewrite !length_map in Hp. lia.
  - by eapply stage_book_ok.
Qed.
