(* ===== verification/PnlReport.v ===== *)
(** * PnL accounting: instrument rows and the report

    Models [instrument_report] and [build_report] of
    scripts/hepta_pnl_accounting.py.  A row is the dictionary the source builds;
    the body of its [try] block is a program in a state-and-exception monad, so
    that what was already written into the row survives the exception that stops
    the block, as in the source. *)

From Stdlib Require Import QArith Ascii.
From S2P Require Import Prelude PyDecimal PyText PyValue RowMonad PnlBook PnlReplay.
From stdpp Require Import base tactics list strings.
From Stdlib Require Import ZArith Lia.

Open Scope Z_scope.

(** [result["reason_codes"].append(code)] *)
Definition add_reason (code : string) (r : dict) : dict := append_at "reason_codes" code r.
Definition preason (code : string) : prog unit := fun r => (add_reason code r, Ok tt).

(** ** Text helpers *)

(** [s.split(":")] *)
Fixpoint split_colon (s : string) : list string :=
  match s with
  | EmptyString => [EmptyString]
  | String c s =>
      if bool_decide (c = ":"%char) then EmptyString :: split_colon s
      else match split_colon s with
           | x :: l => String c x :: l
           | [] => [String c EmptyString]
           end
  end.

(** ** The row *)

Definition last_n {A} (n : nat) (l : list A) : list A := skipn (length l - n) l.

Definition opt_str (o : option string) : value := match o with Some s => VStr s | None => VNone end.
Definition strs (l : list string) : value := VList (map VStr l).

Definition execution_value (x : Execution) : value :=
  VDict [("command_id", VStr (x_command_id x)); ("order_id", VInt (x_order_id x));
         ("execution_id", VStr (x_execution_id x)); ("side", VStr (x_side x));
         ("quantity", VStr (x_quantity x)); ("price", VStr (x_price x));
         ("cumulative_quantity", VStr (x_cumulative_quantity x));
         ("commission", opt_str (x_commission x)); ("commission_currency", opt_str (x_commission_currency x))].

Definition cancel_value (w : CancelWitness) : value :=
  VDict [("command_id", VStr (cw_command_id w)); ("order_id", cw_order_id w);
         ("venue_correlation_id", cw_venue_correlation_id w);
         ("broker_service_epoch", cw_service_epoch w); ("broker_connection_epoch", cw_connection_epoch w);
         ("original_broker_error_at_ms", VInt (cw_error_at_ms w));
         ("original_execution_ids", strs (cw_execution_ids w));
         ("basis", VStr "ORIGINAL_IB_API_ERROR_202_CANCELLED_UNFILLED_REMAINDER");
         ("terminal_order_status_observed", VBool false); ("zero_fill_imputed", VBool false)].

Definition owner_value (w : OwnerWitness) : value :=
  VDict [("command_id", VStr (ow_command_id w)); ("original_order_id", ow_order_id w);
         ("venue_correlation_id", ow_venue_correlation_id w);
         ("native_owner_terminal_at_ms", VInt (ow_terminal_at_ms w));
         ("broker_completed_at_ms", VInt (ow_completed_at_ms w));
         ("broker_service_epoch", ow_service_epoch w); ("broker_connection_epoch", ow_connection_epoch w);
         ("original_execution_ids", strs (ow_execution_ids w));
         ("basis", VStr "NATIVE_OWNER_RECONCILED_AND_BROKER_COMPLETED_FILLED_SAME_EPOCH_EXEC_DETAILS");
         ("completed_order_numeric_id", VInt 0); ("zero_fill_imputed", VBool false);
         ("broker_orders_sent", VInt 0)].

Definition status_value (w : StatusWitness) : value :=
  VDict [("command_id", VStr (sw_command_id w)); ("order_id", sw_order_id w);
         ("venue_correlation_id", sw_venue_correlation_id w); ("execution_id", VStr (sw_execution_id w));
         ("service_epoch", VStr (sw_service_epoch w)); ("connection_epoch", VInt (sw_connection_epoch w));
         ("basis", VStr "VALIDATED_SAME_EPOCH_EXEC_DETAILS_NOT_NUMERIC_ORDER_ID")].

Definition len_value {A} (l : list A) : value := VInt (Z.of_nat (length l)).

(** The bounded display of a ledger that is copied into the row. *)
Definition ledger_display (l : Ledger) : list (string * value) :=
  [("cumulative_average_realized_gross_pnl", VStr (l_average_realized l));
   ("cumulative_average_vs_execution_realized_difference", VStr (l_average_difference l));
   ("fees_complete", VBool (l_fees_complete l));
   ("fee_missing_execution_ids", strs (firstn 128 (l_fee_missing l)));
   ("fee_conflicting_execution_ids", strs (firstn 128 (l_fee_conflicting l)));
   ("fees_known_by_currency", VDict (map (fun kv => (kv.1, VStr kv.2)) (l_fees_known l)));
   ("settlement_pending_command_ids", strs (firstn 128 (l_unsettled l)));
   ("executions", VList (map execution_value (last_n 128 (l_executions l))));
   ("broker_cancel_witnesses_total", len_value (l_cancel_witnesses l));
   ("broker_cancel_witnesses", VList (map cancel_value (firstn 128 (l_cancel_witnesses l))));
   ("owner_terminal_witnesses_total", len_value (l_owner_witnesses l));
   ("owner_terminal_witnesses", VList (map owner_value (firstn 128 (l_owner_witnesses l))));
   ("command_count", VInt (l_command_count l));
   ("execution_count", VInt (l_execution_count l));
   ("status_subject_witnesses_total", len_value (l_status_witnesses l));
   ("status_subject_witnesses", VList (map (fun kw => status_value kw.2) (firstn 128 (l_status_witnesses l))));
   ("execution_details_total", len_value (l_executions l));
   ("execution_details_truncated", VBool (128 <? Z.of_nat (length (l_executions l))));
   ("fee_missing_execution_ids_total", len_value (l_fee_missing l));
   ("fee_conflicting_execution_ids_total", len_value (l_fee_conflicting l));
   ("settlement_pending_command_ids_total", len_value (l_unsettled l))].

Definition initial_row (instrument : string) (observation : dict) : dict :=
  [("instrument", VStr instrument); ("currency", VStr "USD"); ("ledger_complete", VBool false);
   ("valuation_complete", VBool false); ("position", VNone); ("broker_position", get observation "quantity");
   ("entry_cost_basis", VNone); ("realized_gross_pnl", VNone); ("unrealized_gross_pnl", VNone);
   ("gross_total_pnl", VNone); ("fees_paid", VNone); ("fees_complete", VBool false);
   ("realized_net_pnl", VNone); ("unrealized_net_pnl", VNone); ("net_total_pnl", VNone);
   ("all_in_account_net_pnl", VNone);
   ("net_scope", VStr "PERIOD_STRATEGY_AFTER_REPORTED_EXECUTION_COMMISSIONS");
   ("excluded_costs", strs ["financing"; "tax"; "unreported_non_execution_charges"; "future_exit_costs"]);
   ("cost_basis_source", VStr "OPENING_PERIOD_MARK_THEN_WEIGHTED_BROKER_EXECUTIONS");
   ("mark_price", VNone); ("mark_source", VNone); ("mark_observed_at_ms", VNone);
   ("mark_valid_until_ms", VNone); ("reason_codes", VList [])].

(** [result["legacy_driver"]]: written before the [try] block. *)
Definition legacy_driver (driver : dict) : res value :=
  let! pending := (if truthy (get driver "pending") then as_dict (get driver "pending") else Ok []) in
  Ok (VDict [("position", get driver "position"); ("realized_gross_pnl_only", get driver "gross_pnl");
             ("pnl_basis", get driver "pnl_basis"); ("pending_command_id", get pending "command_id")]).

Definition driver_tolerance : decimal := Dec false 1 (-5).

(** Comparison with the legacy driver's realized result. *)
Definition reconcile_driver (driver : dict) (l : Ledger) : prog unit :=
  do gp <- plift (number 40 (get driver "gross_pnl"));
  do difference <- plift (dsub 40 gp (realized (l_book l)));
  do average <- plift (number 40 (VStr (l_average_realized l)));
  do gp' <- plift (number 40 (get driver "gross_pnl"));
  do average_difference <- plift (dsub 40 gp' average);
  do a <- plift (dabs 40 difference);
  do status <- plift (if dleb a driver_tolerance then Ok "MATCHES_EXECUTION_LEDGER"
                      else let! b := dabs 40 average_difference in
                           Ok (if dleb b driver_tolerance then "EXPLAINED_BY_CUMULATIVE_AVERAGE_PRICE"
                               else "UNEXPLAINED_DRIVER_LEDGER_DIFFERENCE"));
  run pput "driver_realized_gross_difference" (VStr (amount difference));
  run pput "driver_reconciliation"
        (VDict [("status", VStr status);
                ("authoritative_basis", VStr "VALIDATED_INDIVIDUAL_EXECUTION_LEDGER");
                ("comparison_basis", VStr "VALIDATED_COMMAND_CUMULATIVE_AVERAGE_PRICE");
                ("cumulative_average_realized_gross_pnl", VStr (amount average));
                ("driver_vs_cumulative_average_difference", VStr (amount average_difference));
                ("comparison_tolerance_usd", VStr (amount driver_tolerance));
                ("ledger_adjusted", VBool false)]);
  if dltb driver_tolerance a then preason "DRIVER_REALIZED_GROSS_DIFFERS_FROM_EXECUTION_LEDGER" else pret tt.

Definition observation_unavailable (observation : dict) (now_ms : Z) : bool :=
  negb (is_true (get observation "authoritative")) ||
  negb (positive_int (get observation "sampled_at_ms")) ||
  match get observation "sampled_at_ms" with
  | VInt s => negb ((0 <=? now_ms - s) && (now_ms - s <=? 10000))
  | _ => true
  end.

Definition observation_reason (observation : dict) : string :=
  if truthy (get observation "reason_code") then py_str (get observation "reason_code")
  else "AUTHORITATIVE_POSITION_UNAVAILABLE".

Definition quote_stale (instrument : string) (quote : dict) (now_ms : Z) : bool :=
  negb (eq_str (get quote "source") "IB") || negb (is_true (get quote "authoritative")) ||
  negb (eq_str (get quote "instrument") instrument) || negb (is_false (get quote "stale")) ||
  negb (positive_int (get quote "observed_at_ms")) || negb (positive_int (get quote "stale_after_ms")) ||
  match get quote "observed_at_ms", get quote "stale_after_ms" with
  | VInt o, VInt s => negb ((o <=? now_ms) && (now_ms <? s)) || (10000 <? now_ms - o)
  | _, _ => true
  end.

Definition epoch_mismatch (epoch : value) (sub : list string) : bool :=
  match epoch, sub with
  | VInt e, [a; b; _; _] => negb (0 <? e) || negb (bool_decide (a = "IB") && bool_decide (b = str_int e))
  | _, _ => true
  end.

(** The unrealized result at the conservative side of a fresh quote. *)
Definition value_position (book : Book) (instrument : string) (observation : dict) (now_ms : Z) : prog decimal :=
  if deqb (quantity book) ZERO then
    run pput "mark_source" (VStr "NOT_REQUIRED_AUTHORITATIVE_FLAT"); pret ZERO
  else
    do quote <- plift (if truthy (get observation "quote") then as_dict (get observation "quote") else Ok []);
    run prefuse (quote_stale instrument quote now_ms) (evidence "MARK_MISSING_STALE_OR_FUTURE");
    do sid <- plift (match getd (VStr "") quote "subscription_id" with
                     | VStr s => Ok s | _ => Raise attribute_error end);
    run prefuse (epoch_mismatch (get observation "connection_epoch") (split_colon sid))
          (evidence "QUOTE_CONNECTION_EPOCH_MISMATCH");
    do bid <- plift (number 40 (get quote "bid"));
    do ask <- plift (number 40 (get quote "ask"));
    run prefuse (dleb bid ZERO || dltb ask bid) (evidence "INVALID_OR_CROSSED_MARK");
    let mark := if dltb ZERO (quantity book) then bid else ask in
    do d <- plift (dsub 40 mark (cost book));
    do u <- plift (dmul 40 d (quantity book));
    run pput "mark_price" (VStr (amount mark));
    run pput "mark_source" (VStr (if dltb ZERO (quantity book) then "IB_BID" else "IB_ASK"));
    run pput "mark_observed_at_ms" (get quote "observed_at_ms");
    run pput "mark_valid_until_ms" (get quote "stale_after_ms");
    pret u.

(** The ledger's part of the row. *)
Definition record_ledger (l : Ledger) (driver : option dict) : prog unit :=
  let book := l_book l in
  run pupdate (ledger_display l);
  run pupdate
    [("ledger_complete", VBool true); ("position", VStr (amount (quantity book)));
     ("entry_cost_basis", if dnonzero (quantity book) then VStr (amount (cost book)) else VNone);
     ("realized_gross_pnl", VStr (amount (realized book)));
     ("fees_paid", if l_fees_complete l then VStr (amount (paid_fees book)) else VNone);
     ("remaining_entry_fees", if l_fees_complete l then VStr (amount (open_fees book)) else VNone)];
  run (match driver with Some d => reconcile_driver d l | None => pret tt end);
  if l_fees_complete l then
    do released <- plift (dsub 40 (paid_fees book) (open_fees book));
    do net <- plift (dsub 40 (realized book) released);
    pput "realized_net_pnl" (VStr (amount net))
  else preason "FEES_INCOMPLETE_OR_UNCONVERTED".

(** The broker's position has to match the ledger's. *)
Definition witness_position (book : Book) (instrument : string) (observation : dict) (now_ms : Z)
    (driver : option dict) : prog unit :=
  run prefuse (observation_unavailable observation now_ms) (evidence (observation_reason observation));
  do q <- plift (number 40 (get observation "quantity"));
  do d <- plift (dsub 40 q (quantity book));
  do a <- plift (dabs 40 d);
  do tol <- plift (tolerance instrument);
  run prefuse (dltb tol a) (evidence "BROKER_LEDGER_POSITION_MISMATCH");
  match driver with
  | Some dr =>
      do dp <- plift (number 40 (get dr "position"));
      do dd <- plift (dsub 40 dp q);
      do da <- plift (dabs 40 dd);
      if dltb tol da then preason "DRIVER_POSITION_LAGS_BROKER_EXECUTIONS" else pret tt
  | None => pret tt
  end.

(** The valuation's part of the row. *)
Definition record_valuation (l : Ledger) (unrealized : decimal) : prog unit :=
  do total <- plift (dadd 40 (realized (l_book l)) unrealized);
  run pput "valuation_complete" (VBool true);
  run pput "unrealized_gross_pnl" (VStr (amount unrealized));
  run pput "gross_total_pnl" (VStr (amount total));
  if l_fees_complete l then
    do un <- plift (dsub 40 unrealized (open_fees (l_book l)));
    do nt <- plift (dsub 40 total (paid_fees (l_book l)));
    run pput "unrealized_net_pnl" (VStr (amount un));
    pput "net_total_pnl" (VStr (amount nt))
  else pret tt.

(** The body of the [try] block. *)
Definition report_body (provider : list dict -> dict -> string -> Z -> res Ledger)
    (events : list dict) (period : dict) (instrument : string) (observation : dict) (now_ms : Z)
    (driver : option dict) : prog unit :=
  do l <- plift (provider events period instrument now_ms);
  run record_ledger l driver;
  run witness_position (l_book l) instrument observation now_ms driver;
  do unrealized <- value_position (l_book l) instrument observation now_ms;
  record_valuation l unrealized.

(** [except (EvidenceError, InvalidOperation, OverflowError, TypeError, KeyError)] *)
Definition report_catches (c : exc_class) : bool :=
  match c with EvidenceError | InvalidOperation | OverflowError | TypeError | KeyError => true | _ => false end.

Definition instrument_report (provider : list dict -> dict -> string -> Z -> res Ledger)
    (events : list dict) (period : dict) (instrument : string) (observation : dict) (now_ms : Z)
    (driver : option dict) : res dict :=
  let! row := (match driver with
               | Some d => let! v := legacy_driver d in Ok (dset "legacy_driver" v (initial_row instrument observation))
               | None => Ok (initial_row instrument observation)
               end) in
  match report_body provider events period instrument observation now_ms driver row with
  | (r, Ok _) => Ok r
  | (r, Raise e) =>
      if report_catches (ecls e) then
        Ok (add_reason (if bool_decide (ecls e = EvidenceError) then emsg e else "MALFORMED_PNL_EVIDENCE") r)
      else Raise e
  end.

(** ** The report *)

Definition total_names : list string :=
  ["realized_gross_pnl"; "unrealized_gross_pnl"; "gross_total_pnl"; "fees_paid";
   "realized_net_pnl"; "unrealized_net_pnl"; "net_total_pnl"].

Definition total_of (rows : list dict) (name : string) : res value :=
  if forallb (fun r => negb (is_none (get r name))) rows then
    let! xs := rmapM (fun r => number 40 (get r name)) rows in
    let! s := dsum 40 xs in Ok (VStr (amount s))
  else Ok VNone.

Definition int_values (l : list value) : list Z :=
  flat_map (fun v => match v with VInt z => [z] | _ => [] end) l.

Definition build_report (provider : list dict -> dict -> string -> Z -> res Ledger)
    (events : list dict) (period : dict) (observations : list (string * dict)) (now_ms : Z)
    (driver_states : option (list (string * dict))) : res dict :=
  let! _ := validate_period 28 period in
  when! py_lt (VInt now_ms) (get period "started_at_ms") raise evidence "PERIOD_IS_IN_FUTURE" in
  let! rows := rmapM (fun i => instrument_report provider events period i (dget_or [] i observations) now_ms
                        (match driver_states with Some d => dget i d | None => None end)) (map fst INSTRUMENTS) in
  let! totals := rmapM (fun name => let! v := total_of rows name in Ok (name, v)) total_names in
  let deadlines := int_values (map (fun r => get r "mark_valid_until_ms") rows) in
  Ok [("schema", VStr "heptatrader.pnl.v1"); ("scope", VStr "STRATEGY_PERIOD_NOT_ACCOUNT_NAV");
      ("currency", VStr "USD"); ("period_id", get period "period_id");
      ("period_started_at_ms", get period "started_at_ms"); ("period_kind", get period "kind");
      ("observed_at_ms", VInt now_ms);
      ("valid_until_ms", VInt (foldl Z.min (now_ms + 5000) deadlines)); ("mutation_authorized", VBool false);
      ("complete", VBool (forallb (fun r => truthy (get r "ledger_complete") && truthy (get r "valuation_complete")) rows));
      ("components", VList (map VDict rows));
      ("totals", VDict ([("currency", VStr "USD")] ++ totals ++
         [("fees_complete", VBool (forallb (fun r => truthy (get r "fees_complete")) rows));
          ("all_in_account_net_pnl", VNone)]));
      ("account_nav", VNone); ("account_nav_reason", VStr "NO_COMPLETE_ACCOUNT_CASH_FLOW_AND_FX_NAV_PRODUCER");
      ("display_rule", VStr "CURRENT_PNL_IS_TOTAL_NEVER_REALIZED_ONLY")].
