(* ===== verification/PnlReportFacts.v ===== *)
(** * Properties of the reports

    Unknown values stay null: a row carries valuation figures only when the
    position is witnessed by a fresh authoritative observation (and, unless flat,
    by a fresh quote of the same connection), net figures only with complete
    fees, and a report is never valid beyond its marks. *)

From Stdlib Require Import QArith Ascii.
From S2P Require Import Prelude PyDecimal PyText PyValue RowMonad PnlBook PnlReplay PnlReport.
From stdpp Require Import base tactics list strings.
From Stdlib Require Import ZArith Lia.

Open Scope Z_scope.

Lemma add_reason_other k code r : k <> "reason_codes" -> get (add_reason code r) k = get r k.
Proof. apply append_at_other. Qed.

Lemma keeps_preason keys code : ~ In "reason_codes" keys -> keeps keys (preason code).
Proof. intros H r k Hin. apply add_reason_other. congruence. Qed.
#[export] Hint Extern 1 (keeps _ (preason _)) => apply keeps_preason; not_in : row.

Definition valuation_keys : list string :=
  ["valuation_complete"; "unrealized_gross_pnl"; "gross_total_pnl"; "unrealized_net_pnl"; "net_total_pnl"].
Definition row_keys : list string :=
  valuation_keys ++ ["mark_valid_until_ms"; "mark_price"].

Lemma reconcile_keeps driver l : keeps row_keys (reconcile_driver driver l).
Proof. unfold reconcile_driver. keep. Qed.

Lemma record_ledger_keeps l driver : keeps row_keys (record_ledger l driver).
Proof.
  unfold record_ledger. apply keeps_pbind; [|intros _; apply keeps_pbind; [|intros _; apply keeps_pbind; [|intros _]]].
  - apply keeps_update. intros k Hin Hin'. simpl in Hin, Hin'. intuition (subst; discriminate).
  - apply keeps_update. intros k Hin Hin'. simpl in Hin, Hin'. intuition (subst; discriminate).
  - destruct driver; [apply reconcile_keeps|apply keeps_pret].
  - keep.
Qed.

Lemma witness_position_keeps book instrument observation now_ms driver :
  keeps row_keys (witness_position book instrument observation now_ms driver).
Proof. unfold witness_position. keep. Qed.

Lemma value_position_keeps book instrument observation now_ms :
  keeps valuation_keys (value_position book instrument observation now_ms).
Proof. unfold value_position. cbv zeta. keep. Qed.

(** ** The witnesses behind a valuation *)

(** The broker position was sampled at most ten seconds ago, by an authoritative
    source, and differs from the book by at most the instrument's tolerance. *)
Definition position_witnessed (book : Book) (instrument : string) (observation : dict) (now_ms : Z) : Prop :=
  get observation "authoritative" = VBool true /\
  (exists s, get observation "sampled_at_ms" = VInt s /\ 0 < s <= now_ms /\ now_ms - s <= 10000) /\
  exists q d a tol, number 40 (get observation "quantity") = Ok q /\ dsub 40 q (quantity book) = Ok d /\
    dabs 40 d = Ok a /\ tolerance instrument = Ok tol /\ (dval a <= dval tol)%Q.

(** The mark is the conservative side of an authoritative quote that is not stale
    and belongs to the connection of the observation. *)
Definition mark_witnessed (book : Book) (instrument : string) (observation : dict) (now_ms : Z)
    (u : decimal) (r : dict) : Prop :=
  exists quote o s sid e bid ask d,
    get observation "quote" = VDict quote /\ get quote "authoritative" = VBool true /\
    get quote "source" = VStr "IB" /\ get quote "instrument" = VStr instrument /\ get quote "stale" = VBool false /\
    get quote "observed_at_ms" = VInt o /\ get quote "stale_after_ms" = VInt s /\
    o <= now_ms < s /\ now_ms - o <= 10000 /\
    get quote "subscription_id" = VStr sid /\ get observation "connection_epoch" = VInt e /\
    (exists x y, split_colon sid = ["IB"; str_int e; x; y]) /\
    number 40 (get quote "bid") = Ok bid /\ number 40 (get quote "ask") = Ok ask /\
    (0 < dval bid <= dval ask)%Q /\
    (let mark := if dltb ZERO (quantity book) then bid else ask in
     dsub 40 mark (cost book) = Ok d /\ dmul 40 d (quantity book) = Ok u /\
     get r "mark_price" = VStr (amount mark)) /\
    get r "mark_valid_until_ms" = VInt s.

Lemma observation_available observation now_ms :
  observation_unavailable observation now_ms = false ->
  get observation "authoritative" = VBool true /\
  exists s, get observation "sampled_at_ms" = VInt s /\ 0 < s <= now_ms /\ now_ms - s <= 10000.
Proof.
  unfold observation_unavailable. intros H. split_bools. split; [by apply is_true_eq|].
  match goal with H : positive_int _ = true |- _ => apply pos_int_true in H as (s & E & Hs) end.
  rewrite E in *. split_bools. exists s. repeat split; lia.
Qed.

Lemma witness_position_ok book instrument observation now_ms driver r r' u :
  witness_position book instrument observation now_ms driver r = (r', Ok u) ->
  position_witnessed book instrument observation now_ms.
Proof.
  unfold witness_position. intros H. apply prefuse_bind in H as [Ho H].
  apply observation_available in Ho as [Ha Hs].
  apply plift_bind in H as (q & Hq & H). apply plift_bind in H as (d & Hd & H).
  apply plift_bind in H as (a & Hab & H). apply plift_bind in H as (tol & Ht & H).
  apply prefuse_bind in H as [Hle _]. dec_cmp. split; [done|]. split; [done|]. eauto 10.
Qed.

Lemma quote_fresh instrument quote now_ms :
  quote_stale instrument quote now_ms = false ->
  get quote "authoritative" = VBool true /\ get quote "source" = VStr "IB" /\
  get quote "instrument" = VStr instrument /\ get quote "stale" = VBool false /\
  exists o s, get quote "observed_at_ms" = VInt o /\ get quote "stale_after_ms" = VInt s /\
    o <= now_ms < s /\ now_ms - o <= 10000.
Proof.
  unfold quote_stale. intros H. split_bools.
  repeat match goal with
  | H : positive_int _ = true |- _ => apply pos_int_true in H as (? & ? & ?)
  | H : eq_str _ _ = true |- _ => apply eq_str_true in H
  | H : is_true _ = true |- _ => apply is_true_eq in H
  | H : is_false _ = true |- _ => apply is_false_eq in H
  end.
  repeat (split; [done|]).
  match goal with H : get quote "observed_at_ms" = VInt ?o, H' : get quote "stale_after_ms" = VInt ?s |- _ =>
    rewrite H, H' in *; exists o, s end.
  split_bools. repeat split; lia.
Qed.

Lemma value_position_ok book instrument observation now_ms r r' u :
  value_position book instrument observation now_ms r = (r', Ok u) ->
  (deqb (quantity book) ZERO = true /\ u = ZERO /\ get r' "mark_valid_until_ms" = get r "mark_valid_until_ms") \/
  (deqb (quantity book) ZERO = false /\ mark_witnessed book instrument observation now_ms u r').
Proof.
  unfold value_position. cbv zeta. destruct (deqb (quantity book) ZERO); intros H.
  { left. injection H as <- <-. repeat split; try done. by apply get_dset_ne. }
  right. split; [done|]. apply plift_bind in H as (quote & Hq & H). apply prefuse_bind in H as [Hfresh H].
  apply plift_bind in H as (sid & Hsid & H). apply prefuse_bind in H as [Hep H].
  apply plift_bind in H as (bid & Hbid & H). apply plift_bind in H as (ask & Hask & H).
  apply prefuse_bind in H as [Hcross H]. apply plift_bind in H as (d & Hd & H). apply plift_bind in H as (u' & Hu & H).
  injection H as <- <-. apply quote_fresh in Hfresh as (Hauth & Hsrc & Hins & Hst & o & s & Ho & Hs & Hos & Hage).
  unfold epoch_mismatch in Hep. destruct (get observation "connection_epoch") as [| |e| | | | |] eqn:Ee; try done.
  destruct (split_colon sid) as [|x0 [|x1 [|x2 [|x3 [|? ?]]]]] eqn:Esp; try done.
  split_bools. repeat match goal with H : bool_decide _ = true |- _ => apply bool_decide_eq_true in H end. subst x0 x1.
  exists quote, o, s, sid, e, bid, ask, d.
  split. { destruct (truthy (get observation "quote")); [|injection Hq as <-; done].
           by destruct (get observation "quote"); try done; injection Hq as ->. }
  repeat (split; [done|]).
  split. { unfold getd, dget_or in Hsid. unfold get, getd, dget_or.
           destruct (dget "subscription_id" quote) as [[]|]; try done; [by injection Hsid as ->|]. by injection Hsid as <-. }
  split; [done|]. split; [eauto|]. repeat (split; [done|]).
  split. { dec_cmp. by rewrite dval_ZERO in *. }
  split; [|by rewrite get_dset_eq].
  repeat (split; [done|]). do 3 rewrite get_dset_ne by done. apply get_dset_eq.
Qed.

(** ** Rows *)

(** The figures of a finished valuation. *)
Definition row_valued (l : Ledger) (u : decimal) (r : dict) : Prop :=
  exists t, dadd 40 (realized (l_book l)) u = Ok t /\
    get r "valuation_complete" = VBool true /\
    get r "unrealized_gross_pnl" = VStr (amount u) /\ get r "gross_total_pnl" = VStr (amount t) /\
    (get r "net_total_pnl" = VNone \/
     (l_fees_complete l = true /\ exists nt, dsub 40 t (paid_fees (l_book l)) = Ok nt /\
      get r "net_total_pnl" = VStr (amount nt))).

Definition unvalued (r : dict) : Prop :=
  get r "valuation_complete" = VBool false /\ get r "unrealized_gross_pnl" = VNone /\
  get r "gross_total_pnl" = VNone /\ get r "unrealized_net_pnl" = VNone /\ get r "net_total_pnl" = VNone.

Lemma keeps_unvalued {A} (m : prog A) r : keeps valuation_keys m -> unvalued r -> unvalued (fst (m r)).
Proof. intros Hk (? & ? & ? & ? & ?). unfold unvalued. rewrite !Hk by (simpl; tauto). done. Qed.

Lemma keeps_weaken {A} keys keys' (m : prog A) :
  (forall k, In k keys' -> In k keys) -> keeps keys m -> keeps keys' m.
Proof. intros Hs Hm r k Hin. apply Hm. auto. Qed.

Lemma row_valuation {A} (m : prog A) : keeps row_keys m -> keeps valuation_keys m.
Proof. apply keeps_weaken. intros k Hin. unfold row_keys. apply in_or_app. by left. Qed.

Lemma initial_row_get instrument observation k :
  In k (row_keys ++ ["ledger_complete"; "fees_complete"]) ->
  get (initial_row instrument observation) k =
  if bool_decide (k = "valuation_complete") || bool_decide (k = "ledger_complete") || bool_decide (k = "fees_complete")
  then VBool false else VNone.
Proof. simpl. intuition (subst; reflexivity). Qed.

Lemma value_position_raise book instrument observation now_ms r r' e :
  value_position book instrument observation now_ms r = (r', Raise e) -> r' = r.
Proof.
  unfold value_position. cbv zeta. destruct (deqb (quantity book) ZERO); intros H; [done|].
  repeat (apply pbind_run in H as [(? & H & _)|(? & ? & Hs & H)];
          [by injection H as <- _|injection Hs as <- _]). done.
Qed.

(** Recording a valuation either finishes it or leaves the figures null. *)
Lemma record_valuation_run l u r r' o :
  record_valuation l u r = (r', o) -> unvalued r -> unvalued r' \/ row_valued l u r'.
Proof.
  unfold record_valuation. intros H (Hv & Hug & Hgt & Hun & Hnt).
  apply pbind_run in H as [(e & H & _)|(r1 & t & H1 & H)]; [left; injection H as <- _; by repeat split|].
  injection H1 as <- Ht. right. exists t.
  apply pbind_run in H as [(e & H & _)|(r1 & ? & H1 & H)]; [done|]. injection H1 as <- _.
  apply pbind_run in H as [(e & H & _)|(r1 & ? & H1 & H)]; [done|]. injection H1 as <- _.
  apply pbind_run in H as [(e & H & _)|(r1 & ? & H1 & H)]; [done|]. injection H1 as <- _.
  set (base := dset "gross_total_pnl" _ _) in H.
  assert (Hbase : get base "valuation_complete" = VBool true /\ get base "unrealized_gross_pnl" = VStr (amount u) /\
            get base "gross_total_pnl" = VStr (amount t) /\ get base "net_total_pnl" = VNone).
  { unfold base. rewrite !get_dset_eq.
    do 2 rewrite (get_dset_ne "valuation_complete") by done. rewrite (get_dset_ne "unrealized_gross_pnl") by done.
    do 3 rewrite (get_dset_ne "net_total_pnl") by done. by rewrite !get_dset_eq. }
  clearbody base. destruct Hbase as (E1 & E2 & E3 & E4). split; [done|].
  destruct (l_fees_complete l); [|injection H as <- _; by eauto 10].
  apply pbind_run in H as [(e & H & _)|(r1 & un & H1 & H)]; [injection H as <- _; by eauto 10|]. injection H1 as <- _.
  apply pbind_run in H as [(e & H & _)|(r1 & nt & H1 & H)]; [injection H as <- _; by eauto 10|]. injection H1 as <- Hnt'.
  injection H as <- _. do 2 rewrite (get_dset_ne "valuation_complete") by done.
  do 2 rewrite (get_dset_ne "unrealized_gross_pnl") by done. do 2 rewrite (get_dset_ne "gross_total_pnl") by done.
  repeat (split; [done|]). right. split; [done|]. exists nt. split; [done|]. apply get_dset_eq.
Qed.

Lemma record_valuation_keeps l u : keeps ["mark_valid_until_ms"; "mark_price"] (record_valuation l u).
Proof. unfold record_valuation. keep. Qed.

Definition mark_fresh (now_ms : Z) (r : dict) : Prop :=
  get r "mark_valid_until_ms" = VNone \/ exists s, get r "mark_valid_until_ms" = VInt s /\ now_ms < s.

Definition row_sound (provider : list dict -> dict -> string -> Z -> res Ledger) (events : list dict) (period : dict)
    (instrument : string) (observation : dict) (now_ms : Z) (r : dict) : Prop :=
  unvalued r \/
  exists l u, provider events period instrument now_ms = Ok l /\
    position_witnessed (l_book l) instrument observation now_ms /\
    ((deqb (quantity (l_book l)) ZERO = true /\ u = ZERO) \/ mark_witnessed (l_book l) instrument observation now_ms u r) /\
    row_valued l u r.

Lemma report_body_run provider events period instrument observation now_ms driver r r' o :
  report_body provider events period instrument observation now_ms driver r = (r', o) ->
  unvalued r -> get r "mark_valid_until_ms" = VNone ->
  row_sound provider events period instrument observation now_ms r' /\ mark_fresh now_ms r'.
Proof.
  unfold report_body. intros H Hu Hm.
  apply pbind_run in H as [(e & H & _)|(r1 & l & H1 & H)].
  { injection H as <- _. split; [by left|by left]. }
  injection H1 as <- Hl.
  pose proof (record_ledger_keeps l driver r) as K1. pose proof (keeps_unvalued _ r (row_valuation _ (record_ledger_keeps l driver)) Hu) as Hu1.
  apply pbind_run in H as [(e & H & _)|(r1 & [] & H1 & H)].
  { rewrite H in *. simpl in K1, Hu1. split; [by left|left]. rewrite (K1 "mark_valid_until_ms") by (simpl; tauto). done. }
  rewrite H1 in *. simpl in K1, Hu1.
  pose proof (witness_position_keeps (l_book l) instrument observation now_ms driver) as Kw.
  pose proof (Kw r1) as K2. pose proof (keeps_unvalued _ r1 (row_valuation _ Kw) Hu1) as Hu2.
  apply pbind_run in H as [(e & H & _)|(r2 & [] & H2 & H)].
  { rewrite H in *. simpl in K2, Hu2. split; [by left|left]. rewrite (K2 "mark_valid_until_ms"), (K1 "mark_valid_until_ms") by (simpl; tauto). done. }
  rewrite H2 in *. simpl in K2, Hu2. apply witness_position_ok in H2.
  assert (Em : get r2 "mark_valid_until_ms" = VNone)
    by (rewrite (K2 "mark_valid_until_ms"), (K1 "mark_valid_until_ms") by (simpl; tauto); done).
  pose proof (keeps_unvalued _ r2 (value_position_keeps (l_book l) instrument observation now_ms) Hu2) as Hu3.
  apply pbind_run in H as [(e & H & _)|(r3 & u & H3 & H)].
  { apply value_position_raise in H. subst r'. split; [by left|by left]. }
  rewrite H3 in Hu3. simpl in Hu3. apply value_position_ok in H3.
  pose proof (record_valuation_keeps l u r3) as K4. rewrite H in K4. simpl in K4.
  assert (Hmark : forall k, k = "mark_valid_until_ms" \/ k = "mark_price" -> get r' k = get r3 k)
    by (intros k [->| ->]; apply K4; simpl; tauto).
  split.
  - destruct (record_valuation_run _ _ _ _ _ H Hu3) as [?|Hv]; [by left|]. right. exists l, u.
    split; [done|]. split; [done|]. split; [|done].
    destruct H3 as [(? & ? & _)|[_ Hw]]; [by left|right]. unfold mark_witnessed in *.
    rewrite (Hmark "mark_price"), (Hmark "mark_valid_until_ms") by auto. done.
  - unfold mark_fresh. rewrite (Hmark "mark_valid_until_ms") by auto.
    destruct H3 as [(_ & _ & E)|[_ Hw]]; [left; congruence|right].
    destruct Hw as (quote & o' & s & sid & e & bid & ask & d & _ & _ & _ & _ & _ & _ & _ & Hos & _ & _ & _ & _ & _ & _ & _ & _ & ->).
    exists s. split; [done|lia].
Qed.

Lemma add_reason_unvalued code r : unvalued (add_reason code r) <-> unvalued r.
Proof. unfold unvalued. by rewrite !add_reason_other. Qed.

Lemma row_sound_reason provider events period instrument observation now_ms code r :
  row_sound provider events period instrument observation now_ms r ->
  row_sound provider events period instrument observation now_ms (add_reason code r).
Proof.
  unfold row_sound, mark_witnessed, row_valued. rewrite add_reason_unvalued. by rewrite !add_reason_other.
Qed.

Lemma initial_row_ok instrument observation driver row :
  (match driver with
   | Some d => let! v := legacy_driver d in Ok (dset "legacy_driver" v (initial_row instrument observation))
   | None => Ok (initial_row instrument observation)
   end) = Ok row -> unvalued row /\ get row "mark_valid_until_ms" = VNone.
Proof.
  intros H. assert (Hg : forall k, k <> "legacy_driver" -> get row k = get (initial_row instrument observation) k).
  { destruct driver; [|by apply Ok_inj in H as <-]. apply rbind_ok in H as (v & _ & H). apply Ok_inj in H as <-.
    intros k Hk. by apply get_dset_ne. }
  unfold unvalued. rewrite !Hg by done. done.
Qed.

Lemma instrument_report_run provider events period instrument observation now_ms driver r :
  instrument_report provider events period instrument observation now_ms driver = Ok r ->
  row_sound provider events period instrument observation now_ms r /\ mark_fresh now_ms r.
Proof.
  unfold instrument_report. intros H. apply rbind_ok in H as (row & Hrow & H). apply initial_row_ok in Hrow as [Hu Hm].
  destruct (report_body _ _ _ _ _ _ _ row) as [r' [[]|e]] eqn:E;
    destruct (report_body_run _ _ _ _ _ _ _ _ _ _ E Hu Hm) as [Hs Hf].
  - apply Ok_inj in H as <-. done.
  - destruct (report_catches (ecls e)); [|done]. apply Ok_inj in H as <-. split; [by apply row_sound_reason|].
    unfold mark_fresh. by rewrite add_reason_other.
Qed.

(** C22: unknown values are null, never synthetic: an instrument row either has no
    valuation (completeness false, every valuation figure null), or the ledger
    replay succeeded, an authoritative observation at most ten seconds old shows
    the book's position within the instrument's tolerance, the mark is the
    conservative side of a positive, uncrossed, fresh quote of the observation's own
    connection (unless the book is flat), the gross total is realized plus
    unrealized, and a net total appears only with complete fees, as the total
    minus the fees paid. *)
Theorem valuation_sound provider events period instrument observation now_ms driver r
    (Hrow : instrument_report provider events period instrument observation now_ms driver = Ok r) :
  unvalued r \/
  exists l u, provider events period instrument now_ms = Ok l /\
    position_witnessed (l_book l) instrument observation now_ms /\
    ((deqb (quantity (l_book l)) ZERO = true /\ u = ZERO) \/
     mark_witnessed (l_book l) instrument observation now_ms u r) /\
    row_valued l u r.
Proof. apply (instrument_report_run _ _ _ _ _ _ _ _ Hrow). Qed.

(** ** The report *)

Lemma foldl_min_le l a : foldl Z.min a l <= a /\ forall x, In x l -> foldl Z.min a l <= x.
Proof.
  revert a. induction l as [|y l IH]; intros a; simpl; [split; [lia|done]|].
  destruct (IH (Z.min a y)) as [H1 H2]. split; [lia|]. intros x [->|Hx]; [lia|auto].
Qed.

Lemma foldl_min_gt l a m : m < a -> (forall x, In x l -> m < x) -> m < foldl Z.min a l.
Proof. revert a. induction l as [|y l IH]; intros a Ha Hl; simpl; [done|]. apply IH; [|intros; apply Hl; by right].
  pose proof (Hl y (or_introl eq_refl)). lia. Qed.

Lemma int_values_In l z : In z (int_values l) <-> In (VInt z) l.
Proof.
  unfold int_values. rewrite in_flat_map. split.
  - intros (v & Hv & Hz). destruct v; try done. by destruct Hz as [->|[]].
  - intros H. exists (VInt z). split; [done|]. by left.
Qed.

Lemma rmapM_In {A B} (f : A -> res B) l r y : rmapM f l = Ok r -> In y r -> exists x, In x l /\ f x = Ok y.
Proof.
  intros H. apply rmapM_Forall2 in H. induction H as [|x z l r Hxz _ IH]; [done|].
  intros [<-|Hy]; [exists x; split; [by left|done]|]. destruct (IH Hy) as (x' & ? & ?). exists x'. split; [by right|done].
Qed.

(** A report authorizes nothing and expires in time: it is valid strictly
    beyond the observation time but at most five seconds, and never beyond the
    staleness deadline of a mark it uses. *)
Theorem report_validity provider events period observations now_ms drivers rep
    (Hrep : build_report provider events period observations now_ms drivers = Ok rep) :
  get rep "mutation_authorized" = VBool false /\
  exists v rows, get rep "valid_until_ms" = VInt v /\ get rep "components" = VList (map VDict rows) /\
    now_ms < v <= now_ms + 5000 /\
    forall r s, In r rows -> get r "mark_valid_until_ms" = VInt s -> v <= s.
Proof.
  unfold build_report in Hrep. apply rbind_ok in Hrep as (u & _ & H). apply rbind_ok in H as (bad & _ & H).
  destruct bad; [done|]. apply rbind_ok in H as (rows & Hrows & H). apply rbind_ok in H as (totals & _ & H).
  apply Ok_inj in H. subst rep. split; [done|]. eexists _, rows. split; [reflexivity|]. split; [reflexivity|].
  set (dl := int_values _). destruct (foldl_min_le dl (now_ms + 5000)) as [Hle Hall]. split; [split; [|done]|].
  - apply foldl_min_gt; [lia|]. intros x Hx. apply int_values_In, in_map_iff in Hx as (r & Er & Hr).
    destruct (rmapM_In _ _ _ _ Hrows Hr) as (i & _ & Hi). apply instrument_report_run in Hi as [_ [Hn|(s & Hs & ?)]]; congruence.
  - intros r s Hr Hs. apply Hall, int_values_In. rewrite <- Hs. by apply (in_map (fun r => get r "mark_valid_until_ms")).
Qed.

Lemma totals_get (l : list string) rows totals name :
  rmapM (fun name => let! v := total_of rows name in Ok (name, v)) l = Ok totals -> In name l ->
  exists v, dget name totals = Some v /\ total_of rows name = Ok v.
Proof.
  revert totals. induction l as [|n l IH]; intros totals H Hin; [done|]. simpl in H.
  apply rbind_ok in H as (kv & Hkv & H). apply rbind_ok in H as (rest & Hr & H). apply Ok_inj in H. subst totals.
  apply rbind_ok in Hkv as (v & Hv & Hkv). apply Ok_inj in Hkv. subst kv. simpl.
  destruct (decide (name = n)) as [->|Hne]; [by eauto|].
  destruct Hin as [->|Hin]; [done|]. by apply IH.
Qed.

Lemma totals_lookup name v totals rest :
  name <> "currency" -> dget name totals = Some v -> get ([("currency", VStr "USD")] ++ totals ++ rest) name = v.
Proof.
  intros Hn Hv. unfold get, getd, dget_or. simpl. rewrite decide_False by done. by rewrite (dget_app_some _ _ _ _ Hv).
Qed.

(** A report that claims completeness has a valued row for each instrument,
    each one replayed and witnessed, and its gross total is the sum of the rows'
    gross totals; its net total is null unless every row has one. *)
Theorem complete_report_totals provider events period observations now_ms drivers rep
    (Hrep : build_report provider events period observations now_ms drivers = Ok rep)
    (Hcomplete : get rep "complete" = VBool true) :
  exists rows totals, get rep "components" = VList (map VDict rows) /\ get rep "totals" = VDict totals /\
    Forall2 (fun i r => row_sound provider events period i (dget_or [] i observations) now_ms r /\
                        get r "valuation_complete" = VBool true) (map fst INSTRUMENTS) rows /\
    (exists xs s, rmapM (fun r => number 40 (get r "gross_total_pnl")) rows = Ok xs /\ dsum 40 xs = Ok s /\
                  get totals "gross_total_pnl" = VStr (amount s)) /\
    ((exists r, In r rows /\ get r "net_total_pnl" = VNone) -> get totals "net_total_pnl" = VNone).
Proof.
  unfold build_report in Hrep. apply rbind_ok in Hrep as (u & _ & H). apply rbind_ok in H as (bad & _ & H).
  destruct bad; [done|]. apply rbind_ok in H as (rows & Hrows & H). apply rbind_ok in H as (totals & Ht & H).
  apply Ok_inj in H. subst rep.
  assert (Hall : forall r, In r rows -> get r "valuation_complete" = VBool true /\ is_none (get r "gross_total_pnl") = false).
  { cbn -[forallb] in Hcomplete. injection Hcomplete as Hcomplete. rewrite forallb_forall in Hcomplete.
    intros r Hr. pose proof (Hcomplete r Hr) as Hc. split_bools.
    destruct (rmapM_In _ _ _ _ Hrows Hr) as (i & _ & Hi). apply instrument_report_run in Hi as [[Hun|Hv] _].
    - destruct Hun as [E _]. rewrite E in *. done.
    - destruct Hv as (l & u' & _ & _ & _ & (t & _ & Ev & _ & Eg & _)). by rewrite Ev, Eg. }
  exists rows. eexists. split; [reflexivity|]. split; [reflexivity|]. split; [|split].
  - apply rmapM_Forall2 in Hrows. clear - Hrows Hall. induction Hrows as [|i r l rows Hir _ IH]; constructor.
    + split; [by apply instrument_report_run in Hir as [? _]|]. apply Hall. by left.
    + apply IH. intros. apply Hall. by right.
  - destruct (totals_get _ _ _ "gross_total_pnl" Ht) as (v & Hv & Htot); [simpl; tauto|].
    unfold total_of in Htot. assert (forallb (fun r => negb (is_none (get r "gross_total_pnl"))) rows = true) as Hf.
    { apply forallb_forall. intros r Hr. by destruct (Hall r Hr) as [_ ->]. }
    rewrite Hf in Htot. apply rbind_ok in Htot as (xs & Hxs & Htot). apply rbind_ok in Htot as (s & Hs & Htot).
    apply Ok_inj in Htot. subst v. exists xs, s. split; [done|]. split; [done|].
    apply totals_lookup; [done|exact Hv].
  - intros (r & Hr & Hn). destruct (totals_get _ _ _ "net_total_pnl" Ht) as (v & Hv & Htot); [simpl; tauto|].
    unfold total_of in Htot. destruct (forallb (fun r => negb (is_none (get r "net_total_pnl"))) rows) eqn:Hf.
    + rewrite forallb_forall in Hf. specialize (Hf r Hr). by rewrite Hn in Hf.
    + apply Ok_inj in Htot. subst v. apply totals_lookup; [done|exact Hv].
Qed.
