(* ===== verification/PnlScenario.v ===== *)
(** * PnL accounting: a concrete journal

    One period with an old execution, a filled and commissioned buy, a rejected
    sell and a late download of the old execution.  The lemmas apply the
    properties of the replay and of the reports to it. *)

From Stdlib Require Import QArith Ascii.
From S2P Require Import Prelude PyDecimal PyText PyValue PnlBook PnlReplay PnlReplayFacts PnlLedger PnlReport PnlReportFacts.
From stdpp Require Import base tactics list strings.
From Stdlib Require Import ZArith Lia.

Open Scope Z_scope.

Ltac evaluate := vm_compute; reflexivity.

Module PnlScenario.

Definition owner_entry (agent session : string) (client : Z) : value :=
  VDict [("agent_id", VStr agent); ("session_id", VStr session); ("broker_client_id", VInt client);
         ("opening_quantity", VStr "0")].

Definition period : dict :=
  [("schema", VStr "heptatrader.pnl-period.v1"); ("execution_domain", VStr "PAPER"); ("currency", VStr "USD");
   ("account", VStr "DU1"); ("period_id", VStr "p1"); ("started_at_ms", VInt 1000); ("kind", VStr "USER_RESET");
   ("instruments", VDict [("EUR.USD", owner_entry "eur" "s1" 11); ("BTC.USD", owner_entry "btc" "s2" 12)])].

Definition corr (c : string) : string := "hepta-v1-sha256:" +:+ String.concat "" (repeat c 64).

Definition own (kind req : string) (ts : Z) (side corr : string) (order : Z) : dict :=
  [("event", VStr kind); ("account", VStr "DU1"); ("execution_domain", VStr "PAPER"); ("instrument", VStr "EUR.USD");
   ("trace_id", VStr "s1"); ("source", VStr "agent.tool:eur"); ("ts_ms", VInt ts); ("req_id", VStr req);
   ("client_req_id", VStr req); ("side", VStr side); ("venue_correlation_id", VStr corr); ("order_id", VInt order)].

Definition execution (id corr : string) (ts request : Z) (qty price : string) : dict :=
  [("event", VStr "broker_execution"); ("account", VStr "DU1"); ("execution_domain", VStr "PAPER");
   ("instrument", VStr "EUR.USD"); ("broker_client_id", VInt 11); ("source", VStr "ib-api-callback");
   ("broker_callback_type", VStr "execDetails"); ("ts_ms", VInt ts); ("broker_execution_id", VStr id);
   ("broker_request_id", VInt request); ("venue_correlation_id", VStr corr); ("order_id", VInt 7); ("side", VStr "BOT");
   ("qty", VStr qty); ("price", VStr price); ("broker_service_epoch", VStr "svc"); ("broker_connection_epoch", VInt 1)].

Definition intent : dict := own "order_intent" "c1" 1100 "BUY" (corr "a") 7.
Definition filled : dict := execution "x1.01" (corr "a") 1200 (-1) "1000" "1.1".
Definition downloaded : dict := execution "old.1" (corr "f") 1300 5 "10" "1.0".

Definition events : list dict :=
  [own "place_sent" "c0" 400 "BUY" (corr "e") 3;
   execution "old.1" (corr "f") 500 (-1) "10" "1.0";
   intent;
   own "place_sent" "c1" 1101 "BUY" (corr "a") 7;
   filled;
   [("event", VStr "broker_commission"); ("broker_callback_type", VStr "commissionReport");
    ("broker_execution_id", VStr "x1.01"); ("broker_service_epoch", VStr "svc"); ("broker_connection_epoch", VInt 1);
    ("broker_econ_version", VInt 1); ("broker_econ_valid", VInt 1); ("broker_econ_kind", VStr "COMMISSION");
    ("order_id", VInt (-1)); ("ts_ms", VInt 1201); ("broker_econ_commission", VStr "2.5");
    ("broker_econ_commission_currency", VStr "USD")];
   [("event", VStr "broker_order_status"); ("account", VStr "DU1"); ("execution_domain", VStr "PAPER");
    ("instrument", VStr "EUR.USD"); ("broker_client_id", VInt 11); ("broker_callback_type", VStr "orderStatus");
    ("source", VStr "ib-api-callback"); ("ts_ms", VInt 1202); ("venue_correlation_id", VStr (corr "a"));
    ("order_id", VInt 7); ("side", VStr "BUY"); ("status", VStr "Filled"); ("qty", VStr "1000"); ("price", VStr "1.1");
    ("broker_service_epoch", VStr "svc"); ("broker_connection_epoch", VInt 1)];
   [("event", VStr "broker_execution_details_end")];
   own "order_intent" "c2" 1250 "SELL" (corr "b") (-1);
   own "reject" "c2" 1251 "SELL" (corr "b") (-1) ++
     [("risk_code", VStr "IB_PLACE_REJECT"); ("status", VStr "rejected"); ("reason", VStr "margin")];
   downloaded].

Definition ledger : res Ledger := replay 40 events period "EUR.USD" 2000.

Definition observation (quantity : string) : dict :=
  [("authoritative", VBool true); ("sampled_at_ms", VInt 1990); ("quantity", VStr quantity); ("connection_epoch", VInt 4);
   ("quote", VDict [("source", VStr "IB"); ("authoritative", VBool true); ("instrument", VStr "EUR.USD");
     ("stale", VBool false); ("observed_at_ms", VInt 1995); ("stale_after_ms", VInt 4000);
     ("subscription_id", VStr "IB:4:EUR.USD:1"); ("bid", VStr "1.2"); ("ask", VStr "1.2001")])].

Definition booked : Ledger :=
  ok_or (mkLedger (Book_new ZERO ZERO) "" "" false [] [] [] [] [] [] [] 0 0 []) ledger.

Lemma ledger_booked : replay 40 events period "EUR.USD" 2000 = Ok booked.
Proof. vm_compute. reflexivity. Qed.

Lemma ledger_noop_sound_witness :
  replay 40 (List.filter (fun e => negb (ledger_noop e)) events) period "EUR.USD" 2000 =
  replay 40 events period "EUR.USD" 2000.
Proof. apply (ledger_noop_sound 40 28); vm_compute; reflexivity. Defined.

(** The replayed journal has one fill, and the book is the opening book after its booking. *)
Lemma replay_books_every_fill_witness :
  exists opening k, book_fill 40 opening k = Ok (l_book booked).
Proof.
  destruct (replay_books_every_fill 40 events period "EUR.USD" 2000 booked) as (owner & start & fs & fees & opening & groups & _ & _ & _ & _ & _ & _ & _ & Hb & Hs & _);
    [lia|exact ledger_booked|]. apply Forall2_length in Hs. assert (E : length (l_executions booked) = 1%nat) by (vm_compute; reflexivity). rewrite E in Hs.
  destruct (concat groups) as [|k [|]]; [discriminate Hs| |discriminate Hs]. exists opening, k. cbn [rfold] in Hb. apply rbind_ok in Hb as (b & Hb & E'). by rewrite Hb.
Defined.

Lemma every_intent_has_outcome_witness :
  exists c o, get intent "req_id" = VStr c /\ In o events /\ get o "req_id" = VStr c /\
    owns o period "EUR.USD" = Ok true /\
    ((is_send o = true /\ CORRELATION_fullmatch (get o "venue_correlation_id") = true /\
      order_id_ok (get o "order_id") = true) \/
     (kind_is o "reject" = true /\ is_reliable_reject o = true)).
Proof.
  apply (every_intent_has_outcome 40 events period "EUR.USD" 2000 booked intent 1000 1100);
    [exact ledger_booked|vm_compute; tauto|evaluate..|lia].
Defined.

Definition eur_owner : value := owner_entry "eur" "s1" 11.

Lemma own_executions_accounted_witness :
  exists instruments, item period "instruments" = Ok instruments /\
  ((exists id, get downloaded "broker_execution_id" = VStr id /\ In id (map x_execution_id (l_executions booked))) \/
   (eq_int (get downloaded "broker_request_id") (-1) = false /\
    exists o, In o events /\
     ((owns o period "EUR.USD" = Ok true /\ is_command_kind o = true /\
       py_lt (get o "ts_ms") (VInt 1000) = Ok true /\
       py_eq (get downloaded "venue_correlation_id") (get o "venue_correlation_id") = true) \/
      (is_baseline_execution period eur_owner (VInt 1000) "EUR.USD" o = Ok true /\
       get downloaded "broker_execution_id" = get o "broker_execution_id")))).
Proof.
  eexists. split; [reflexivity|].
  eapply (own_executions_accounted 40 events period "EUR.USD" 2000 booked downloaded _ eur_owner 1000 1300);
    [lia|exact ledger_booked|vm_compute; tauto|evaluate|evaluate|evaluate|evaluate|lia|evaluate..].
Defined.

Definition booked_execution : Execution := mkExecution "c1" 7 "x1.01" "BUY" "1000" "1.1" "1000" (Some "2.5") (Some "USD").

Lemma booked_executions_sound_witness :
  exists e sent t t' d q,
    In e events /\ kind_is e "broker_execution" = true /\
    In sent events /\ owns sent period "EUR.USD" = Ok true /\ is_send sent = true /\
    get sent "req_id" = VStr (x_command_id booked_execution) /\ get sent "order_id" = VInt (x_order_id booked_execution) /\
    get e "broker_execution_id" = VStr (x_execution_id booked_execution) /\
    get e "venue_correlation_id" = get sent "venue_correlation_id" /\
    py_eq (get e "order_id") (get sent "order_id") = true /\
    side (get e "side") = Ok d /\ side (get sent "side") = Ok d /\
    x_side booked_execution = (if d =? 1 then "BUY" else "SELL") /\
    number 40 (get e "qty") = Ok q /\ x_cumulative_quantity booked_execution = amount q /\
    same_account period e = Ok true /\ same_client eur_owner e = Ok true /\
    get sent "ts_ms" = VInt t /\ get e "ts_ms" = VInt t' /\ 1000 <= t <= t' /\ t' <= 2000.
Proof.
  eapply (booked_executions_sound 40 events period "EUR.USD" 2000 booked booked_execution _ eur_owner 1000);
    [lia|exact ledger_booked|evaluate..|vm_compute; tauto].
Defined.

Lemma fees_complete_sound_witness :
  exists start f fee e,
    In e events /\ kind_is e "broker_commission" = true /\
    get e "broker_execution_id" = VStr (x_execution_id booked_execution) /\
    fee_evidence 40 start 2000 f e = Ok (fee, "USD") /\
    x_commission booked_execution = Some (amount fee) /\ x_commission_currency booked_execution = Some "USD" /\
    (forall e', In e' events -> kind_is e' "broker_commission" = true ->
       get e' "broker_execution_id" = VStr (x_execution_id booked_execution) ->
       exists fee', fee_evidence 40 start 2000 f e' = Ok (fee', "USD") /\ (dval fee == dval fee')%Q).
Proof.
  apply (fees_complete_sound 40 events period "EUR.USD" 2000 booked booked_execution);
    [lia|exact ledger_booked|vm_compute; reflexivity|vm_compute; tauto].
Defined.

Definition row : dict :=
  ok_or [] (instrument_report (replay 40) events period "EUR.USD" (observation "1000") 2000 None).

Lemma valuation_sound_witness :
  instrument_report (replay 40) events period "EUR.USD" (observation "1000") 2000 None = Ok row /\
  (unvalued row \/
   exists l u, replay 40 events period "EUR.USD" 2000 = Ok l /\
    position_witnessed (l_book l) "EUR.USD" (observation "1000") 2000 /\
    ((deqb (quantity (l_book l)) ZERO = true /\ u = ZERO) \/
     mark_witnessed (l_book l) "EUR.USD" (observation "1000") 2000 u row) /\
    row_valued l u row).
Proof.
  assert (H : instrument_report (replay 40) events period "EUR.USD" (observation "1000") 2000 None = Ok row)
    by (vm_compute; reflexivity).
  split; [exact H|]. exact (valuation_sound (replay 40) events period "EUR.USD" (observation "1000") 2000 None row H).
Defined.

(** The row is valued: the long position is marked at the bid. *)
Example row_is_valued :
  get row "gross_total_pnl" = VStr "100.0" /\ get row "net_total_pnl" = VStr "97.5" /\ get row "mark_source" = VStr "IB_BID".
Proof. vm_compute. repeat split. Qed.

Definition observations : list (string * dict) := [("EUR.USD", observation "1000"); ("BTC.USD", observation "0")].
Definition report : dict :=
  ok_or [] (build_report (replay 40) events period observations 2000 None).

Lemma report_validity_witness :
  get report "mutation_authorized" = VBool false /\
  exists v rows, get report "valid_until_ms" = VInt v /\ get report "components" = VList (map VDict rows) /\
    2000 < v <= 2000 + 5000 /\
    forall r s, In r rows -> get r "mark_valid_until_ms" = VInt s -> v <= s.
Proof. apply (report_validity (replay 40) events period observations 2000 None). vm_compute. reflexivity. Defined.

Lemma complete_report_totals_witness :
  get report "complete" = VBool true /\
  exists rows totals, get report "components" = VList (map VDict rows) /\ get report "totals" = VDict totals /\
    Forall2 (fun i r => row_sound (replay 40) events period i (dget_or [] i observations) 2000 r /\
                        get r "valuation_complete" = VBool true) (map fst INSTRUMENTS) rows /\
    (exists xs s, rmapM (fun r => number 40 (get r "gross_total_pnl")) rows = Ok xs /\ dsum 40 xs = Ok s /\
                  get totals "gross_total_pnl" = VStr (amount s)) /\
    ((exists r, In r rows /\ get r "net_total_pnl" = VNone) -> get totals "net_total_pnl" = VNone).
Proof.
  split; [vm_compute; reflexivity|].
  apply (complete_report_totals (replay 40) events period observations 2000 None report); vm_compute; reflexivity.
Defined.

(** An amount beyond the context's exponent range escapes the row: [number]
    takes the absolute value before it compares, and the context's overflow is
    none of the exceptions the row catches. *)
Theorem driver_overflow_escapes :
  instrument_report (replay 40) events period "EUR.USD" (observation "1000") 2000
    (Some [("gross_pnl", VStr "1e1000000"); ("position", VStr "1000")]) = Raise dec_overflow /\
  report_catches DecOverflow = false.
Proof. vm_compute. split; reflexivity. Qed.

End PnlScenario.
