(* ===== verification/CostPolicy.v ===== *)
(** * Cost admission policy

    Models research/cost_aware/scripts/hepta_cost_policy.py: the decimal inputs,
    the policy and its validation, the commission and round-trip cost estimates,
    the forecast schema, the calibration artifact, the entry gates and the exit
    rules.  [p] is the precision of the decimal context (28 by default). *)

From Stdlib Require Import QArith Ascii Floats.SpecFloat.
From S2P Require Import Prelude PyDecimal PyText PyValue RowMonad Sha256.
From stdpp Require Import base tactics list strings.
From Stdlib Require Import ZArith Lia.

Open Scope Z_scope.

Module CostPolicy.

Definition BPS : decimal := dec_of_Z 10000.
Definition ONE : decimal := dec_of_Z 1.
Definition ZERO : decimal := dec_of_Z 0.
Definition POLICY_VERSION : string := "cost-admission-v1-20261006".
Definition FORECAST_VERSION : string := "position-neutral-mid-scenarios-v2".
Definition MODEL_ID : string := "openai/gpt-5.6-luna:" +:+ FORECAST_VERSION.
Definition HORIZONS : list Z := [300; 900; 3600; 14400].
Definition FEE_VERIFIED_DATE : string := "2026-10-06".
Definition FEE_SOURCES : list (string * string) :=
  [("BTC.USD", "https://www.interactivebrokers.com/en/pricing/commissions-cryptocurrencies.php");
   ("EUR.USD", "https://www.interactivebrokers.com/en/pricing/commissions-spot-currencies.php")].

Definition cost_error (m : string) : exn := Exn CostError m.

(** ** Inputs *)

Definition dec (p : Z) (v : value) : res decimal :=
  if negb (is_numeric_input v) then Raise (cost_error "INVALID_DECIMAL")
  else if negb (int_text_ok v) then Raise (cost_error "INVALID_DECIMAL")
  else match to_parsed v with
       | PInvalid => Raise (cost_error "INVALID_DECIMAL")
       | PSpecial => Raise (cost_error "NONFINITE_OR_OVERSIZED_NUMBER")
       | PFinite d =>
           let! a := dabs p d in
           when dltb (Dec false 1 20) a raise cost_error "NONFINITE_OR_OVERSIZED_NUMBER" in
           Ok d
       end.

Definition positive_int (v : value) (reason : string) : res Z :=
  match v with
  | VInt z => if 0 <? z then Ok z else Raise (cost_error reason)
  | _ => Raise (cost_error reason)
  end.

Definition canonical (v : value) : res string := json_dumps v.
Definition digest (v : value) : res string := let! t := canonical v in Ok (sha256_hex t).

(** ** The policy *)

Record Policy := mkPolicy {
  version : value;
  btc_slippage_bps_per_side : value;
  fx_slippage_bps_per_side : value;
  holding_bps_per_hour : value;
  btc_min_net_edge_bps : value;
  fx_min_net_edge_bps : value;
  quote_ttl_ms : value;
  forecast_entry_ttl_ms : value;
  reentry_cooldown_ms : value;
  min_calibration_samples : value;
  min_calibration_days : value;
  max_calibration_age_ms : value;
  fee_stress : value;
  slippage_stress : value }.

Definition DEFAULT_POLICY : Policy :=
  mkPolicy (VStr POLICY_VERSION) (VStr "2") (VStr "0.5") (VStr "1") (VStr "10") (VStr "2")
    (VInt 5000) (VInt 60000) (VInt 120000) (VInt 30) (VInt 2) (VInt (7 * 86400000)) (VStr "1") (VStr "1").

(** [dec(value) < 0] refuses the field. *)
Definition nonnegative (p : Z) (v : value) : res unit :=
  let! d := dec p v in
  when dltb d ZERO raise cost_error "INVALID_COST_POLICY" in Ok tt.
Definition positive_field (v : value) : res unit :=
  let! _ := positive_int v "INVALID_COST_POLICY" in Ok tt.

Definition validate (p : Z) (c : Policy) : res Policy :=
  when negb (eq_str (version c) POLICY_VERSION) raise cost_error "COST_POLICY_VERSION_UNSUPPORTED" in
  let! _ := nonnegative p (btc_slippage_bps_per_side c) in
  let! _ := nonnegative p (fx_slippage_bps_per_side c) in
  let! _ := nonnegative p (holding_bps_per_hour c) in
  let! _ := nonnegative p (btc_min_net_edge_bps c) in
  let! _ := nonnegative p (fx_min_net_edge_bps c) in
  let! _ := positive_field (quote_ttl_ms c) in
  let! _ := positive_field (forecast_entry_ttl_ms c) in
  let! _ := positive_field (reentry_cooldown_ms c) in
  let! _ := positive_field (min_calibration_samples c) in
  let! _ := positive_field (min_calibration_days c) in
  let! _ := positive_field (max_calibration_age_ms c) in
  let! _ := nonnegative p (fee_stress c) in
  let! _ := nonnegative p (slippage_stress c) in
  when! (let! f := dec p (fee_stress c) in Ok (dltb f ONE)) ||?
        (let! s := dec p (slippage_stress c) in Ok (dltb s ONE))
  raise cost_error "STRESS_CANNOT_DISCOUNT_COST" in
  let! q := as_int (quote_ttl_ms c) in
  let! f := as_int (forecast_entry_ttl_ms c) in
  when (60000 <? q) || (60000 <? f) raise cost_error "COST_TTL_TOO_LONG" in
  let! s := as_int (min_calibration_samples c) in
  let! d := as_int (min_calibration_days c) in
  when (s <? 30) || (d <? 2) raise cost_error "CALIBRATION_MINIMUM_TOO_SMALL" in
  let! a := dec p (btc_slippage_bps_per_side c) in
  let! b := dec p (fx_slippage_bps_per_side c) in
  when dleb (dec_of_Z 1000) (dmax a b) raise cost_error "SLIPPAGE_MODEL_OUT_OF_RANGE" in
  Ok c.

Definition is_btc (instrument : string) : bool := bool_decide (instrument = "BTC.USD").

Definition slip (p : Z) (c : Policy) (instrument : string) : res decimal :=
  let! v := dec p (if is_btc instrument then btc_slippage_bps_per_side c else fx_slippage_bps_per_side c) in
  let! s := dec p (slippage_stress c) in
  dmul p v s.

Definition hurdle (p : Z) (c : Policy) (instrument : string) : res decimal :=
  dec p (if is_btc instrument then btc_min_net_edge_bps c else fx_min_net_edge_bps c).

(** ** Commission *)

Definition commission_rate (instrument : string) : decimal :=
  if is_btc instrument then Dec false 18 (-4) else Dec false 2 (-5).
Definition commission_minimum (instrument : string) : decimal :=
  if is_btc instrument then Dec false 175 (-2) else dec_of_Z 2.

Definition commission (p : Z) (instrument : string) (notional_usd stress_text : value) : res decimal :=
  let! amount := dec p notional_usd in
  let! stress := dec p stress_text in
  when dltb amount ZERO || dltb stress ONE raise cost_error "INVALID_COMMISSION_INPUT" in
  when negb (dhas instrument FEE_SOURCES) raise cost_error "UNSUPPORTED_COST_INSTRUMENT" in
  if deqb amount ZERO then Ok ZERO
  else
    let! t := dmul p amount (commission_rate instrument) in
    let! s := dmul p (dmax t (commission_minimum instrument)) stress in
    dquantize_ceiling p (-2) s.

(** ** Quotes *)

Definition quote_unauthorized (instrument : string) (q : dict) : bool :=
  negb (eq_str (get q "source") "IB") || negb (is_true (get q "authoritative")) ||
  negb (is_false (get q "stale")) || negb (eq_str (get q "instrument") instrument) ||
  negb (nonempty_str (get q "subscription_id")).

Definition quote_values (p : Z) (quote : value) (instrument : string) (now_ms : Z) (policy : Policy)
    : res (decimal * decimal * decimal) :=
  let! _ := validate p policy in
  let! _ := positive_int (VInt now_ms) "INVALID_CURRENT_TIME" in
  match quote with
  | VDict q =>
      when quote_unauthorized instrument q raise cost_error "COST_QUOTE_AUTHORITY_MISSING" in
      let! observed := positive_int (get q "observed_at_ms") "COST_QUOTE_TIME_MISSING" in
      let! expires := positive_int (get q "stale_after_ms") "COST_QUOTE_EXPIRY_MISSING" in
      let! ttl := as_int (quote_ttl_ms policy) in
      when (now_ms <? observed) || (expires <? observed) || (Z.min expires (observed + ttl) <? now_ms)
      raise cost_error "COST_QUOTE_STALE" in
      let! bid := dec p (get q "bid") in
      let! ask := dec p (get q "ask") in
      when dleb bid ZERO || dltb ask bid raise cost_error "COST_QUOTE_INVALID" in
      let! s := dadd p bid ask in
      let! mid := ddiv p s (dec_of_Z 2) in
      Ok (bid, ask, mid)
  | _ => Raise (cost_error "COST_QUOTE_AUTHORITY_MISSING")
  end.

(** ** Round-trip estimate *)

Definition unsupported_order (instrument side : string) : bool :=
  negb (dhas instrument FEE_SOURCES) ||
  negb (bool_decide (side = "BUY") || bool_decide (side = "SELL")) ||
  (is_btc instrument && negb (bool_decide (side = "BUY"))).

Definition in_horizons (v : value) : bool :=
  match v with VInt z => existsb (Z.eqb z) HORIZONS | _ => false end.

Definition direction_of (side : string) : decimal := dec_of_Z (if bool_decide (side = "BUY") then 1 else -1).

(** The amounts of an estimate, before they are printed. *)
Record Estimate := mkEstimate {
  e_size : decimal; e_quantity : decimal; e_entry_notional : decimal; e_exit_notional : decimal;
  e_entry_fee : decimal; e_exit_fee : decimal; e_spread : decimal; e_slippage : decimal; e_holding : decimal;
  e_gross : decimal; e_net : decimal; e_minimum : decimal; e_entry : decimal; e_exit : decimal }.

(** The touch and the price of the entry leg. *)
Definition entry_touch (side : string) (bid ask : decimal) : decimal :=
  if bool_decide (side = "BUY") then ask else bid.
Definition entry_price (p : Z) (side : string) (touch slip : decimal) : res decimal :=
  let! ds := dmul p (direction_of side) slip in
  let! up := dadd p ONE ds in
  dmul p touch up.

(** The exit leg: future mid and half spread, exit touch and price. *)
Record ExitLeg := mkExitLeg {
  g_future_mid : decimal; g_future_half : decimal; g_exit_touch : decimal; g_exit : decimal }.

Definition exit_leg (p : Z) (side : string) (mid half slip move : decimal) : res ExitLeg :=
  let direction := direction_of side in
  let! dm := dmul p direction move in
  let! dmb := ddiv p dm BPS in
  let! growth := dadd p ONE dmb in
  let! future_mid := dmul p mid growth in
  let! hf := dmul p half future_mid in
  let! future_half := ddiv p hf mid in
  let! dh := dmul p direction future_half in
  let! exit_touch := dsub p future_mid dh in
  let! ds := dmul p direction slip in
  let! down := dsub p ONE ds in
  let! exit_price := dmul p exit_touch down in
  Ok (mkExitLeg future_mid future_half exit_touch exit_price).

Definition estimate_amounts (p : Z) (instrument side : string) (policy : Policy)
    (bid ask size move : decimal) (horizon : Z) : res Estimate :=
  let direction := direction_of side in
  let! s := dadd p bid ask in
  let! mid := ddiv p s (dec_of_Z 2) in
  let! w := dsub p ask bid in
  let! half := ddiv p w (dec_of_Z 2) in
  let! sl := slip p policy instrument in
  let! slip := ddiv p sl BPS in
  when dleb (Dec false 1 (-1)) slip raise cost_error "SLIPPAGE_MODEL_OUT_OF_RANGE" in
  let touch := entry_touch side bid ask in
  let! entry := entry_price p side touch slip in
  let! quantity := (if is_btc instrument then ddiv p size entry else Ok size) in
  let! g := exit_leg p side mid half slip move in
  let! entry_notional := (if is_btc instrument then Ok size else dmul p quantity entry) in
  let! exit_notional := dmul p quantity (g_exit g) in
  let! entry_fee := commission p instrument (VDec entry_notional) (fee_stress policy) in
  let! exit_fee := commission p instrument (VDec exit_notional) (fee_stress policy) in
  let! halves := dadd p half (g_future_half g) in
  let! spread_cost := dmul p quantity halves in
  let! touches := dadd p touch (g_exit_touch g) in
  let! qt := dmul p quantity touches in
  let! slippage_cost := dmul p qt slip in
  let! qm := dmul p quantity mid in
  let! hbps := dec p (holding_bps_per_hour policy) in
  let! h1 := dmul p qm hbps in
  let! h2 := ddiv p h1 BPS in
  let! h3 := dmul p h2 (dec_of_Z horizon) in
  let! holding := ddiv p h3 (dec_of_Z 3600) in
  let! dm := dsub p (g_future_mid g) mid in
  let! g1 := dmul p quantity dm in
  let! gross := dmul p g1 direction in
  let! n1 := dsub p gross spread_cost in
  let! n2 := dsub p n1 slippage_cost in
  let! n3 := dsub p n2 entry_fee in
  let! n4 := dsub p n3 exit_fee in
  let! net_edge := dsub p n4 holding in
  let! qm' := dmul p quantity mid in
  let! hu := hurdle p policy instrument in
  let! m1 := dmul p qm' hu in
  let! minimum := ddiv p m1 BPS in
  Ok (mkEstimate size quantity entry_notional exit_notional entry_fee exit_fee spread_cost slippage_cost
        holding gross net_edge minimum entry (g_exit g)).

Definition sdec (d : decimal) : value := VStr (str_decimal d).

Definition estimate_dict (instrument side : string) (policy : Policy) (horizon : Z) (observed : value)
    (e : Estimate) : dict :=
  [("policy_version", version policy); ("fee_source", VStr (dget_or "" instrument FEE_SOURCES));
   ("fee_verified_date", VStr FEE_VERIFIED_DATE); ("fee_basis", VStr "CASH_PAID_UPPER_TIER_NO_UNCONFIRMED_REBATE");
   ("quote_basis", VStr "MID_TO_MID_MINUS_EXPLICIT_EXECUTION_COSTS");
   ("execution_model", VStr "TOUCH_PLUS_PROVISIONAL_HAIRCUT_NOT_LIVE_SLIPPAGE_PROOF");
   ("instrument", VStr instrument); ("side", VStr side); ("size", sdec (e_size e));
   ("quantity_estimate", sdec (e_quantity e)); ("entry_notional_usd", sdec (e_entry_notional e));
   ("exit_notional_usd", sdec (e_exit_notional e)); ("entry_commission_usd", sdec (e_entry_fee e));
   ("exit_commission_usd", sdec (e_exit_fee e)); ("spread_usd", sdec (e_spread e));
   ("slippage_usd", sdec (e_slippage e)); ("holding_reserve_usd", sdec (e_holding e));
   ("gross_edge_usd", sdec (e_gross e)); ("net_edge_usd", sdec (e_net e));
   ("minimum_net_edge_usd", sdec (e_minimum e)); ("estimated_entry_price", sdec (e_entry e));
   ("estimated_exit_price", sdec (e_exit e)); ("horizon_sec", VInt horizon); ("quote_observed_at_ms", observed)].

Definition estimate_round_trip (p : Z) (instrument side : string) (size quote directional_move_bps horizon_sec : value)
    (policy : Policy) : res dict :=
  let! _ := validate p policy in
  when unsupported_order instrument side raise cost_error "UNSUPPORTED_COST_ORDER" in
  let! q := as_dict quote in
  let! bid := dec p (get q "bid") in
  let! ask := dec p (get q "ask") in
  let! size := dec p size in
  let! move := dec p directional_move_bps in
  when dleb size ZERO || dleb bid ZERO || dltb ask bid ||
       negb (dltb (dec_of_Z (-5000)) move && dltb move (dec_of_Z 5000)) || negb (in_horizons horizon_sec)
  raise cost_error "INVALID_COST_ESTIMATE_INPUT" in
  let! horizon := as_int horizon_sec in
  let! e := estimate_amounts p instrument side policy bid ask size move horizon in
  Ok (estimate_dict instrument side policy horizon (get q "observed_at_ms") e).

(** ** Forecasts *)

Definition forecast_keys : list string :=
  ["action"; "confidence"; "rationale"; "horizon_sec"; "scenarios"; "invalidation_price";
   "forecast_version"; "model_id"; "issued_at_ms"; "reference_mid"; "instrument"; "position_neutral"].

(** [set(d) == set(keys)] *)
Definition has_keys (d : dict) (keys : list string) : bool :=
  forallb (fun k => existsb (fun k' => bool_decide (k' = k)) keys) (map fst d) &&
  forallb (fun k => dhas k d) keys.

Definition in_fee_sources (v : value) : res bool :=
  match v with
  | VStr s => Ok (dhas s FEE_SOURCES)
  | _ => if hashable v then Ok false else Raise type_error
  end.

Definition identity_invalid (f : dict) : res bool :=
  Ok (negb (eq_str (get f "forecast_version") FORECAST_VERSION)) ||?
  Ok (negb (eq_str (get f "model_id") MODEL_ID)) ||?
  Ok (negb (is_true (get f "position_neutral"))) ||?
  pnot (in_fee_sources (get f "instrument")) ||?
  Ok (negb (in_strs (get f "action") ["BUY"; "SELL"; "HOLD"])) ||?
  Ok (negb (in_horizons (get f "horizon_sec"))) ||?
  Ok (match get f "rationale" with VStr s => 8192 <? slen s | _ => true end).

Definition scenario_step (p : Z) (st : decimal * decimal) (item : value) : res (decimal * decimal) :=
  match item with
  | VDict d =>
      when negb (has_keys d ["probability"; "move_bps"]) raise cost_error "FORECAST_DISTRIBUTION_INVALID" in
      let! probability := dec p (get d "probability") in
      let! move := dec p (get d "move_bps") in
      when negb (dltb ZERO probability && dleb probability ONE) ||
           negb (dltb (dec_of_Z (-2000)) move && dltb move (dec_of_Z 2000))
      raise cost_error "FORECAST_DISTRIBUTION_INVALID" in
      let! total := dadd p (fst st) probability in
      let! pm := dmul p probability move in
      let! mean := dadd p (snd st) pm in
      Ok (total, mean)
  | _ => Raise (cost_error "FORECAST_DISTRIBUTION_INVALID")
  end.

Definition validate_forecast (p : Z) (forecast : value) : res decimal :=
  match forecast with
  | VDict f =>
      when negb (has_keys f forecast_keys) raise cost_error "FORECAST_SCHEMA_REQUIRED" in
      when! identity_invalid f raise cost_error "FORECAST_IDENTITY_INVALID" in
      let! _ := positive_int (get f "issued_at_ms") "FORECAST_TIME_INVALID" in
      let! reference := dec p (get f "reference_mid") in
      when! Ok (dleb reference ZERO) ||?
            (let! c := dec p (get f "confidence") in Ok (negb (dleb ZERO c && dleb c ONE)))
      raise cost_error "FORECAST_NUMBER_INVALID" in
      match get f "scenarios" with
      | VList scenarios =>
          let n := Z.of_nat (length scenarios) in
          when negb ((2 <=? n) && (n <=? 7)) raise cost_error "FORECAST_DISTRIBUTION_REQUIRED" in
          let! tm := rfold (scenario_step p) scenarios (ZERO, ZERO) in
          let! gap := dsub p (fst tm) ONE in
          let! agap := dabs p gap in
          when dltb (Dec false 1 (-9)) agap raise cost_error "FORECAST_PROBABILITIES_NOT_NORMALIZED" in
          let! invalid := dec p (get f "invalidation_price") in
          when eq_str (get f "action") "BUY" && negb (dltb ZERO invalid && dltb invalid reference)
          raise cost_error "FORECAST_INVALIDATION_SIDE_MISMATCH" in
          when eq_str (get f "action") "SELL" && negb (dltb reference invalid)
          raise cost_error "FORECAST_INVALIDATION_SIDE_MISMATCH" in
          when eq_str (get f "action") "HOLD" && negb (deqb invalid ZERO)
          raise cost_error "HOLD_INVALIDATION_MUST_BE_ZERO" in
          Ok (snd tm)
      | _ => Raise (cost_error "FORECAST_DISTRIBUTION_REQUIRED")
      end
  | _ => Raise (cost_error "FORECAST_SCHEMA_REQUIRED")
  end.

Definition calibration_key (f : dict) : res string :=
  let! i := as_str (get f "instrument") in
  let! m := as_str (get f "model_id") in
  let! a := as_str (get f "action") in
  Ok (PyValue.join "|" [i; m; a; py_str (get f "horizon_sec")]).

(** ** Calibration *)

(** [.9] as a binary64 number, and [math.ceil(.9 * n)]. *)
Definition point_nine : spec_float := S754_finite false 8106479329266893 (-53).
Definition float_of_Z (z : Z) : spec_float := binary_normalize 53 1024 z 0 false.
Definition float_ceil (f : spec_float) : Z :=
  match f with
  | S754_finite s m e =>
      let v := if s then Zneg m else Zpos m in
      if 0 <=? e then v * 2 ^ e else - ((- v) / 2 ^ (- e))
  | _ => 0
  end.
Definition quantile_index (n : Z) : Z :=
  Z.min (n - 1) (float_ceil (SFmul 53 1024 point_nine (float_of_Z (n + 1))) - 1).

Record Cohort := mkCohort { c_predicted : decimal; c_error : decimal; c_day : Z }.

Record CalState := mkCalState {
  cohorts : list (string * list Cohort);
  used : list value;
  last_end : list (string * Z);
  seen : list string;
  synthetic : bool }.

(** The times of a labelled row, strictly in the past of the cutoff. *)
Definition label_misaligned (policy_ttl entry_ttl cutoff_ms issued due end_ms known available : Z) : bool :=
  (end_ms <? due) || (due + policy_ttl <? end_ms) || (cutoff_ms <=? end_ms) ||
  (known <? end_ms) || (cutoff_ms <=? known) || negb ((issued <=? available) && (available <? end_ms)) ||
  (entry_ttl <? available - issued).

Definition calibration_step (p : Z) (policy : Policy) (cutoff_ms : Z) (st : CalState) (row : value) : res CalState :=
  let! forecast := subscript row "forecast" in
  let! mean := validate_forecast p forecast in
  let! f := as_dict forecast in
  if eq_str (get f "action") "HOLD" then Ok st
  else
    let! r := as_dict row in
    let! end_ms := positive_int (get r "label_observed_at_ms") "CALIBRATION_LABEL_TIME_MISSING" in
    let! issued := as_int (get f "issued_at_ms") in
    let! horizon := as_int (get f "horizon_sec") in
    let due := issued + horizon * 1000 in
    let! known := positive_int (get r "label_available_at_ms") "CALIBRATION_LABEL_KNOWLEDGE_TIME_MISSING" in
    let! available := positive_int (get r "forecast_available_at_ms") "CALIBRATION_FORECAST_KNOWLEDGE_TIME_MISSING" in
    let! ttl := as_int (quote_ttl_ms policy) in
    let! entry_ttl := as_int (forecast_entry_ttl_ms policy) in
    when label_misaligned ttl entry_ttl cutoff_ms issued due end_ms known available
    raise cost_error "CALIBRATION_FUTURE_OR_MISALIGNED_LABEL" in
    when negb (in_strs (get r "source_kind") ["IB_CAPTURE"; "SYNTHETIC"])
    raise cost_error "CALIBRATION_SOURCE_UNPROVEN" in
    let synthetic' := synthetic st || eq_str (get r "source_kind") "SYNTHETIC" in
    let! identity := digest forecast in
    when existsb (fun x => bool_decide (x = identity)) (seen st)
    raise cost_error "CALIBRATION_DUPLICATE_CANDIDATE" in
    let seen' := seen st ++ [identity] in
    let! key := calibration_key f in
    if issued <=? dget_or 0 key (last_end st)
    then Ok (mkCalState (cohorts st) (used st) (last_end st) seen' synthetic')
    else
      let sign := dec_of_Z (if eq_str (get f "action") "BUY" then 1 else -1) in
      let! realized := dec p (get r "realized_underlying_move_bps") in
      let! actual := dmul p realized sign in
      let! predicted := dmul p mean sign in
      when negb (dltb (dec_of_Z (-5000)) actual && dltb actual (dec_of_Z 5000))
      raise cost_error "CALIBRATION_LABEL_OUT_OF_RANGE" in
      let! err := dsub p predicted actual in
      Ok (mkCalState
            (dset key (dget_or [] key (cohorts st) ++ [mkCohort predicted err (issued / 86400000)]) (cohorts st))
            (used st ++ [row]) (dset key end_ms (last_end st)) seen' synthetic').

Definition distinct_days (l : list Cohort) : list Z := nodup Z.eq_dec (map c_day l).

(** [min(...)] and [max(...)]: the first extremal element. *)
Definition dmin_of (d : decimal) (l : list decimal) : decimal := foldl (fun m x => if dltb x m then x else m) d l.
Definition dmax_of (d : decimal) (l : list decimal) : decimal := foldl (fun m x => if dltb m x then x else m) d l.

Definition cohort_value (values : list Cohort) : value :=
  let errors := sorted_by dleb (map c_error values) in
  let n := Z.of_nat (length values) in
  let preds := map c_predicted values in
  let e := nth (Z.to_nat (quantile_index n)) errors ZERO in
  VDict [("count", VInt n); ("days", VInt (Z.of_nat (length (distinct_days values))));
         ("prediction_min_bps", sdec (dmin_of (hd ZERO preds) (tl preds)));
         ("prediction_max_bps", sdec (dmax_of (hd ZERO preds) (tl preds)));
         ("overprediction_q90_bps", sdec (dmax ZERO e))].

Definition cohort_kept (min_samples min_days : Z) (kv : string * list Cohort) : bool :=
  (min_samples <=? Z.of_nat (length kv.2)) && (min_days <=? Z.of_nat (length (distinct_days kv.2))).

Definition issued_key (row : value) : res value :=
  let! f := subscript row "forecast" in subscript f "issued_at_ms".

(** [sorted(samples, key=...)] *)
Definition sorted_samples (samples : list value) : res (list value) :=
  let! keyed := rmapM (fun r => let! k := issued_key r in Ok (k, r)) samples in
  let! s := rsort (fun a b : value * value => py_lt (fst a) (fst b)) keyed in
  Ok (map snd s).

Definition artifact_body (policy : Policy) (cutoff_ms validity : Z) (st : CalState) (dataset : string)
    (result : dict) : dict :=
  [("schema", VStr "heptatrader.calibration.v1"); ("forecast_version", VStr FORECAST_VERSION);
   ("model_id", VStr MODEL_ID); ("policy_version", version policy); ("completed_at_ms", VInt cutoff_ms);
   ("valid_until_ms", VInt (cutoff_ms + validity)); ("synthetic", VBool (synthetic st));
   ("dataset_sha256", VStr dataset); ("cohorts", VDict result)].

Definition build_calibration (p : Z) (samples : value) (cutoff : value) (policy : Policy) (validity_ms : value)
    : res dict :=
  let! _ := validate p policy in
  let! cutoff_ms := positive_int cutoff "CALIBRATION_CUTOFF_INVALID" in
  let! max_age := as_int (max_calibration_age_ms policy) in
  match validity_ms with
  | VInt validity =>
      when negb ((0 <? validity) && (validity <=? max_age)) raise cost_error "CALIBRATION_VALIDITY_INVALID" in
      match samples with
      | VList rows =>
          when 100000 <? Z.of_nat (length rows) raise cost_error "CALIBRATION_INPUT_BOUND" in
          let! ordered := sorted_samples rows in
          let! st := rfold (calibration_step p policy cutoff_ms) ordered (mkCalState [] [] [] [] false) in
          let! min_samples := as_int (min_calibration_samples policy) in
          let! min_days := as_int (min_calibration_days policy) in
          let result := map (fun kv : string * list Cohort => (kv.1, cohort_value kv.2))
                          (List.filter (cohort_kept min_samples min_days) (cohorts st)) in
          let! dataset := digest (VList (used st)) in
          let body := artifact_body policy cutoff_ms validity st dataset result in
          let! id := digest (VDict body) in
          Ok (dset "calibration_id" (VStr id) body)
      | _ => Raise (cost_error "CALIBRATION_INPUT_BOUND")
      end
  | _ => Raise (cost_error "CALIBRATION_VALIDITY_INVALID")
  end.

(** [isinstance(cohort, dict) and ...] fails *)
Definition cohort_insufficient (min_samples min_days : Z) (cohort : value) : bool :=
  match cohort with
  | VDict c =>
      match get c "count", get c "days" with
      | VInt n, VInt d => (n <? min_samples) || (d <? min_days)
      | _, _ => true
      end
  | _ => true
  end.

Definition artifact_identity_invalid (policy : Policy) (a : dict) : res bool :=
  Ok (negb (eq_str (get a "schema") "heptatrader.calibration.v1")) ||?
  (let! id := digest (VDict (List.filter (fun kv => negb (bool_decide (kv.1 = "calibration_id"))) a)) in
   Ok (negb (eq_str (get a "calibration_id") id))) ||?
  Ok (negb (eq_str (get a "forecast_version") FORECAST_VERSION)) ||?
  Ok (negb (eq_str (get a "model_id") MODEL_ID)) ||?
  Ok (negb (py_eq (get a "policy_version") (version policy))).

Definition calibrated_move (p : Z) (forecast artifact : value) (now_ms : Z) (policy : Policy) (synthetic_ok : bool)
    : res (decimal * decimal) :=
  let! _ := validate p policy in
  let! mean := validate_forecast p forecast in
  match artifact with
  | VDict a =>
      when! artifact_identity_invalid policy a raise cost_error "CALIBRATION_IDENTITY_INVALID" in
      when negb (is_false (get a "synthetic")) && negb (synthetic_ok && is_true (get a "synthetic"))
      raise cost_error "SYNTHETIC_CALIBRATION_NOT_LIVE" in
      let! completed := positive_int (get a "completed_at_ms") "CALIBRATION_TIME_INVALID" in
      let! until := positive_int (get a "valid_until_ms") "CALIBRATION_TIME_INVALID" in
      let! f := as_dict forecast in
      let! issued := as_int (get f "issued_at_ms") in
      let! max_age := as_int (max_calibration_age_ms policy) in
      when negb ((completed <? issued) && (issued <=? now_ms) && (now_ms <? until)) || (max_age <? until - completed)
      raise cost_error "CALIBRATION_FUTURE_OR_EXPIRED" in
      let! cs := as_dict (getd (VDict []) a "cohorts") in
      let! key := calibration_key f in
      let cohort := get cs key in
      let! min_samples := as_int (min_calibration_samples policy) in
      let! min_days := as_int (min_calibration_days policy) in
      when cohort_insufficient min_samples min_days cohort raise cost_error "CALIBRATION_COHORT_INSUFFICIENT" in
      let direction := dec_of_Z (if eq_str (get f "action") "BUY" then 1 else -1) in
      let! raw := dmul p mean direction in
      let! lo := (let! v := subscript cohort "prediction_min_bps" in dec p v) in
      when! (if dleb lo raw then
               let! v := subscript cohort "prediction_max_bps" in
               let! hi := dec p v in Ok (negb (dleb raw hi))
             else Ok true)
      raise cost_error "FORECAST_OUTSIDE_CALIBRATED_SUPPORT" in
      let! hv := subscript cohort "overprediction_q90_bps" in
      let! haircut := dec p hv in
      when dltb haircut ZERO raise cost_error "CALIBRATION_NEGATIVE_HAIRCUT" in
      let! lower := dsub p raw haircut in
      Ok (raw, lower)
  | _ => Raise (cost_error "CALIBRATION_REQUIRED")
  end.

(** ** Expected round trip *)

Definition weighted_keys : list string :=
  ["exit_notional_usd"; "entry_commission_usd"; "exit_commission_usd"; "spread_usd";
   "slippage_usd"; "holding_reserve_usd"; "gross_edge_usd"; "net_edge_usd";
   "minimum_net_edge_usd"; "estimated_exit_price"].

(** The remaining directional move of a scenario, anchored to the forecast's own
    reference price. *)
Definition remaining_move (p : Z) (anchor mid direction directional_move : decimal) : res decimal :=
  let! a := dmul p direction directional_move in
  let! b := ddiv p a BPS in
  let! c := dadd p ONE b in
  let! d := dmul p anchor c in
  let! e := ddiv p d mid in
  let! f := dsub p e ONE in
  let! g := dmul p f BPS in
  dmul p g direction.

Definition price_scenario (p : Z) (instrument side : string) (size quote horizon : value) (policy : Policy)
    (anchor mid direction haircut total_weight : decimal) (item : value) : res (decimal * dict) :=
  let! mv := subscript item "move_bps" in
  let! m := dec p mv in
  let! dm := dmul p m direction in
  let! directional_move := dsub p dm haircut in
  let! remaining := remaining_move p anchor mid direction directional_move in
  let! cost := estimate_round_trip p instrument side size quote (VDec remaining) horizon policy in
  let! pv := subscript item "probability" in
  let! pr := dec p pv in
  let! w := ddiv p pr total_weight in
  Ok (w, cost).

(** [sum(probability * dec(cost[key]) ...)] *)
Definition weighted_sum (p : Z) (key : string) (scenarios : list (decimal * dict)) : res decimal :=
  rfold (fun s (wc : decimal * dict) =>
           let! v := item wc.2 key in
           let! d := dec p v in
           let! x := dmul p wc.1 d in
           dadd p s x) scenarios ZERO.

Definition scenario_value (wc : decimal * dict) : value :=
  VDict [("probability", sdec wc.1); ("net_edge_usd", get wc.2 "net_edge_usd");
         ("exit_commission_usd", get wc.2 "exit_commission_usd")].

Definition expected_round_trip (p : Z) (forecast quote size haircut_bps : value) (policy : Policy) : res dict :=
  let! _ := validate_forecast p forecast in
  let! f := as_dict forecast in
  let! side := as_str (get f "action") in
  let! instrument := as_str (get f "instrument") in
  when bool_decide (side = "HOLD") raise cost_error "DIRECTION_HOLD" in
  let! bv := subscript quote "bid" in
  let! bid := dec p bv in
  let! av := subscript quote "ask" in
  let! ask := dec p av in
  let! s := dadd p bid ask in
  let! mid := ddiv p s (dec_of_Z 2) in
  let direction := direction_of side in
  let! haircut := dec p haircut_bps in
  when dltb haircut ZERO raise cost_error "CALIBRATION_NEGATIVE_HAIRCUT" in
  let! anchor := dec p (get f "reference_mid") in
  let! items := as_list (get f "scenarios") in
  let! total_weight := rfold (fun t x => let! v := subscript x "probability" in
                                         let! d := dec p v in dadd p t d) items ZERO in
  let! scenarios := rmapM (price_scenario p instrument side size quote (get f "horizon_sec") policy
                             anchor mid direction haircut total_weight) items in
  match scenarios with
  | [] => Raise index_error
  | (_, first) :: _ =>
      let! sums := rmapM (fun k => let! v := weighted_sum p k scenarios in Ok (k, sdec v)) weighted_keys in
      Ok (update_all ([("expectation_basis", VStr "SCENARIO_COSTS_BEFORE_PROBABILITY_WEIGHTING");
                       ("overprediction_haircut_bps", sdec haircut);
                       ("scenario_net_edges", VList (map scenario_value scenarios))])
            (update_all sums first))
  end.

(** ** Admission *)

Definition admission_catches (c : exc_class) : bool :=
  is_ValueError c || is_ArithmeticError c || match c with KeyError | TypeError => true | _ => false end.

(** [result["reasons"].append(str(exc) or "COST_INPUT_INVALID")] *)
Definition refuse_reason (e : exn) (r : dict) : dict :=
  append_at "reasons" (if bool_decide (emsg e = "") then "COST_INPUT_INVALID" else emsg e) r.

(** The checks both gates share: direction, fresh quote, fresh forecast, and a
    price that has not crossed the invalidation level. *)
Definition entry_checks (p : Z) (f : dict) (quote : value) (now_ms : Z) (policy : Policy) : res unit :=
  let! instrument := as_str (get f "instrument") in
  let! side := as_str (get f "action") in
  when bool_decide (side = "HOLD") raise cost_error "DIRECTION_HOLD" in
  let! bam := quote_values p quote instrument now_ms policy in
  let '(bid, ask, _) := bam in
  let! issued := as_int (get f "issued_at_ms") in
  let! horizon := as_int (get f "horizon_sec") in
  let! ttl := as_int (forecast_entry_ttl_ms policy) in
  let age := now_ms - issued in
  when negb ((0 <=? age) && (age <=? Z.min ttl (horizon * 1000))) raise cost_error "FORECAST_STALE" in
  when! (Ok (bool_decide (side = "BUY")) &&?
         (let! i := dec p (get f "invalidation_price") in Ok (dleb bid i))) ||?
        (Ok (bool_decide (side = "SELL")) &&?
         (let! i := dec p (get f "invalidation_price") in Ok (dleb i ask)))
  raise cost_error "FORECAST_ALREADY_INVALIDATED" in
  Ok tt.

(** [dec(net) <= dec(minimum)] refuses the entry. *)
Definition edge_check (p : Z) (estimate : dict) : res unit :=
  let! nv := item estimate "net_edge_usd" in
  let! n := dec p nv in
  let! mv := item estimate "minimum_net_edge_usd" in
  let! m := dec p mv in
  when dleb n m raise cost_error "NET_EDGE_BELOW_COST_HURDLE" in
  Ok tt.

Definition cooldown_check (no_trade_band : bool) (last_exit_ms : value) (now_ms : Z) (policy : Policy) : res unit :=
  if no_trade_band && truthy last_exit_ms then
    let! cool := as_int (reentry_cooldown_ms policy) in
    match last_exit_ms with
    | VInt t => when (now_ms <? t) || (now_ms - t <? cool) raise cost_error "REENTRY_COOLDOWN" in Ok tt
    | _ => Raise (cost_error "REENTRY_COOLDOWN")
    end
  else Ok tt.

Definition entry_body (p : Z) (forecast quote size : value) (now_ms : Z) (artifact : value) (last_exit_ms : value)
    (no_trade_band : bool) (policy : Policy) (synthetic_ok : bool) : prog unit :=
  do _ <- plift (validate_forecast p forecast);
  do fid <- plift (digest forecast);
  do qid <- plift (digest quote);
  run pupdate [("forecast_id", VStr fid); ("quote_fingerprint", VStr qid);
               ("calibration_id", match artifact with VDict a => get a "calibration_id" | _ => VNone end)];
  do f <- plift (as_dict forecast);
  do _ <- plift (entry_checks p f quote now_ms policy);
  do mean_cost <- plift (expected_round_trip p forecast quote size (VStr "0") policy);
  run pput "uncalibrated_mean_estimate" (VDict mean_cost);
  do rl <- plift (calibrated_move p forecast artifact now_ms policy synthetic_ok);
  do haircut <- plift (dsub p (fst rl) (snd rl));
  do conservative <- plift (expected_round_trip p forecast quote size (VDec haircut) policy);
  run pupdate [("mean_estimate", VDict mean_cost); ("conservative_estimate", VDict conservative)];
  do _ <- plift (edge_check p conservative);
  do _ <- plift (cooldown_check no_trade_band last_exit_ms now_ms policy);
  pput "allowed" (VBool true).

(** A [try] block over a result dictionary that records refusals. *)
Definition guarded (body : prog unit) (result : dict) : res dict :=
  match body result with
  | (r, Ok _) => Ok r
  | (r, Raise e) => if admission_catches (ecls e) then Ok (refuse_reason e r) else Raise e
  end.

Definition entry_admission (p : Z) (forecast quote size : value) (now_ms : Z) (artifact : value) (last_exit_ms : value)
    (no_trade_band : bool) (policy : Policy) (synthetic_ok : bool) : res dict :=
  guarded (entry_body p forecast quote size now_ms artifact last_exit_ms no_trade_band policy synthetic_ok)
    [("allowed", VBool false); ("authorization_effect", VStr "NONE"); ("policy_version", version policy);
     ("reasons", VList []); ("forecast_id", VNone); ("calibration_id", VNone); ("quote_fingerprint", VNone);
     ("checked_at_ms", VInt now_ms)].

Definition component_keys : list string :=
  ["entry_commission_usd"; "exit_commission_usd"; "spread_usd"; "slippage_usd"; "holding_reserve_usd";
   "minimum_net_edge_usd"; "net_edge_usd"].

Definition remote_body (p : Z) (forecast quote size : value) (now_ms : Z) (last_exit_ms : value)
    (no_trade_band : bool) (policy : Policy) : prog unit :=
  do _ <- plift (validate p policy);
  do _ <- plift (validate_forecast p forecast);
  do fid <- plift (digest forecast);
  do qid <- plift (digest quote);
  run pupdate [("forecast_id", VStr fid); ("quote_fingerprint", VStr qid)];
  do f <- plift (as_dict forecast);
  do _ <- plift (entry_checks p f quote now_ms policy);
  do estimate <- plift (expected_round_trip p forecast quote size (VStr "0") policy);
  run pput "remote_raw_estimate" (VDict estimate);
  do components <- plift (rmapM (fun k => let! v := item estimate k in Ok (k, v)) component_keys);
  run pput "cost_components" (VDict components);
  do _ <- plift (edge_check p estimate);
  do _ <- plift (cooldown_check no_trade_band last_exit_ms now_ms policy);
  pput "allowed" (VBool true).

Definition remote_entry_admission (p : Z) (forecast quote size : value) (now_ms : Z) (last_exit_ms : value)
    (no_trade_band : bool) (policy : Policy) : res dict :=
  guarded (remote_body p forecast quote size now_ms last_exit_ms no_trade_band policy)
    [("allowed", VBool false); ("authorization_effect", VStr "NONE"); ("policy_version", version policy);
     ("reasons", VList []); ("forecast_id", VNone); ("calibration_id", VNone);
     ("local_training_artifact_used", VBool false);
     ("forecast_basis", VStr "REMOTE_MODEL_RAW_POSITION_NEUTRAL_SCENARIOS"); ("quote_fingerprint", VNone);
     ("checked_at_ms", VInt now_ms)].

(** ** Exits *)

Definition opposite_of (pos : decimal) : string := if dltb ZERO pos then "SELL" else "BUY".

(** The hysteresis band of a non-emergency reversal. *)
Definition exit_band (p : Z) (policy : Policy) (instrument : string) (quote : value) (pos mid : decimal)
    (no_trade_band : bool) : res decimal :=
  let! ap := dabs p pos in
  let! notional := dmul p ap mid in
  let! exit_fee := commission p instrument (VDec notional) (fee_stress policy) in
  let! av := subscript quote "ask" in
  let! ask := dec p av in
  let! bv := subscript quote "bid" in
  let! bid := dec p bv in
  let! w := dsub p ask bid in
  let! m2 := dmul p (dec_of_Z 2) mid in
  let! r := ddiv p w m2 in
  let! rb := dmul p r BPS in
  let! sl := slip p policy instrument in
  let! execution_bps := dadd p rb sl in
  if no_trade_band then
    let! h := hurdle p policy instrument in
    let! b1 := dadd p h execution_bps in
    let! ap' := dabs p pos in
    let! n := dmul p ap' mid in
    let! fr := ddiv p exit_fee n in
    let! fb := dmul p fr BPS in
    dadd p b1 fb
  else Ok ZERO.

(** The forecast moves of the two variants of a reversal: its directional edge. *)
Definition reversal (p : Z) (f : dict) (quote : value) (pos : decimal) (now_ms : Z) (policy : Policy)
    (no_trade_band : bool) (edge : decimal -> res decimal) (label : string) : res (bool * string) :=
  let! instrument := as_str (get f "instrument") in
  let! bam := quote_values p quote instrument now_ms policy in
  let mid := snd bam in
  let! issued := as_int (get f "issued_at_ms") in
  let! ttl := as_int (forecast_entry_ttl_ms policy) in
  when negb ((0 <=? now_ms - issued) && (now_ms - issued <=? ttl)) raise cost_error "FORECAST_STALE" in
  let direction := direction_of (opposite_of pos) in
  let! directional := edge direction in
  let! anchor := dec p (get f "reference_mid") in
  let! remaining := remaining_move p anchor mid direction directional in
  let! band := exit_band p policy instrument quote pos mid no_trade_band in
  Ok (if dltb band remaining then (true, label) else (false, "NO_ADJUSTMENT_BAND")).

(** [except (...) as exc: return False, str(exc)] *)
Definition or_refuse (m : res (bool * string)) : res (bool * string) :=
  match m with
  | Ok r => Ok r
  | Raise e => if admission_catches (ecls e) then Ok (false, emsg e) else Raise e
  end.

Definition remote_discretionary_exit (p : Z) (forecast quote position : value) (now_ms : Z) (policy : Policy)
    (no_trade_band : bool) : res (bool * string) :=
  let! pos := dec p position in
  if deqb pos ZERO || negb (truthy forecast) then Ok (false, "NO_POSITION_OR_CANDIDATE")
  else
    let! f := as_dict forecast in
    if negb (eq_str (get f "action") (opposite_of pos)) then Ok (false, "NO_REVERSAL")
    else or_refuse (
      let! mean := validate_forecast p forecast in
      reversal p f quote pos now_ms policy no_trade_band (fun direction => dmul p mean direction)
        "REMOTE_RAW_REVERSAL").

Definition discretionary_exit (p : Z) (forecast quote position : value) (now_ms : Z) (artifact : value)
    (policy : Policy) (synthetic_ok no_trade_band : bool) : res (bool * string) :=
  let! pos := dec p position in
  if deqb pos ZERO || negb (truthy forecast) then Ok (false, "NO_POSITION_OR_CANDIDATE")
  else
    let! f := as_dict forecast in
    if negb (eq_str (get f "action") (opposite_of pos)) then Ok (false, "NO_REVERSAL")
    else or_refuse (
      let! rl := calibrated_move p forecast artifact now_ms policy synthetic_ok in
      reversal p f quote pos now_ms policy no_trade_band (fun _ => Ok (snd rl)) "CALIBRATED_REVERSAL").

(** Adverse move against the entry price. *)
Definition adverse (p : Z) (pos bid ask : decimal) (entry_price max_adverse : value) : res bool :=
  let! entry := dec p entry_price in
  (Ok (dltb ZERO pos) &&?
   (let! m := dec p max_adverse in let! k := dsub p ONE m in let! l := dmul p entry k in Ok (dleb bid l))) ||?
  (Ok (dltb pos ZERO) &&?
   (let! m := dec p max_adverse in let! k := dadd p ONE m in let! l := dmul p entry k in Ok (dleb l ask))).

(** The [try] block over the entry forecast. *)
Definition forecast_exit (p : Z) (pos bid ask : decimal) (entry_forecast : value) (now_ms : Z) : res (option string) :=
  let! _ := validate_forecast p entry_forecast in
  let! f := as_dict entry_forecast in
  let! invalid := dec p (get f "invalidation_price") in
  if (dltb ZERO pos && dleb bid invalid) || (dltb pos ZERO && dleb invalid ask) then Ok (Some "FORECAST_INVALIDATION")
  else
    let! issued := as_int (get f "issued_at_ms") in
    let! horizon := as_int (get f "horizon_sec") in
    if issued + horizon * 1000 <=? now_ms then Ok (Some "FORECAST_HORIZON_EXPIRED") else Ok None.

Definition risk_exit (p : Z) (position entry_price quote : value) (now_ms : Z) (halt : bool)
    (entry_forecast max_adverse : value) : res (option string) :=
  let! pos := dec p position in
  if deqb pos ZERO then Ok None
  else if halt then Ok (Some "HALT_REDUCE_ONLY")
  else
    let! bv := subscript quote "bid" in
    let! bid := dec p bv in
    let! av := subscript quote "ask" in
    let! ask := dec p av in
    let! moved := (if is_none entry_price then Ok false else adverse p pos bid ask entry_price max_adverse) in
    if moved : bool then Ok (Some "MAX_ADVERSE_MOVE")
    else if truthy entry_forecast then
      match forecast_exit p pos bid ask entry_forecast now_ms with
      | Ok r => Ok r
      | Raise e => if bool_decide (ecls e = CostError) then Ok (Some "ENTRY_FORECAST_INVALID") else Raise e
      end
    else Ok None.

End CostPolicy.
