(* ===== verification/CostFacts.v ===== *)
(** * Properties of the cost policy: inputs, commissions, quotes and estimates

    A commission is a whole number of cents, never below the ticket minimum; a
    usable quote is authoritative, fresh and uncrossed; a round-trip estimate only
    ever subtracts costs. *)

From Stdlib Require Import QArith Ascii Lqa.
From S2P Require Import Prelude PyDecimal PyText PyValue RowMonad Sha256 CostPolicy.
From stdpp Require Import base tactics list strings.
From Stdlib Require Import ZArith Lia.
Import CostPolicy.

Open Scope Z_scope.

Lemma dec_ok p v d : dec p v = Ok d -> dwf d /\ exists a, dabs p d = Ok a /\ (dval a <= dval (Dec false 1 20))%Q.
Proof.
  unfold dec. intros H. case_if H; [done|]. case_if H; [done|]. destruct (to_parsed v) eqn:Ep; try done.
  apply rbind_ok in H as (a & Ha & H). apply when_ok in H as [Hle H]. apply Ok_inj in H. subst.
  split; [by eapply to_parsed_wf|]. exists a. dec_cmp. done.
Qed.

Lemma dec_wf p v d : dec p v = Ok d -> dwf d.
Proof. intros H. apply (dec_ok _ _ _ H). Qed.

Lemma positive_int_ok v reason z : positive_int v reason = Ok z -> v = VInt z /\ 0 < z.
Proof. unfold positive_int. destruct v; try done. destruct (Z.ltb_spec 0 z0); [|done]. intros [= ->]. done. Qed.

Lemma dval_COST_ZERO : (dval ZERO == 0)%Q.
Proof. by apply dval_zero. Qed.
Lemma dval_ONE : (dval ONE == 1)%Q.
Proof. apply (dval_of_Z 1). Qed.

#[export] Hint Resolve dec_wf : wf.

(** Well-formedness of every parsed input of the context. *)
Ltac dec_facts :=
  repeat match goal with
  | H : dec ?p ?v = Ok ?d |- _ => new_fact d ltac:(exact (dec_wf p v d H))
  end; wf_facts.

(** ** Commission *)

Lemma commission_minimum_representable p instrument : 3 <= p -> representable p (commission_minimum instrument).
Proof.
  intros Hp. assert (10 ^ 3 <= 10 ^ p) by (apply Z.pow_le_mono_r; lia).
  unfold commission_minimum. destruct (is_btc instrument); split; simpl; unfold Etiny, Emin; lia.
Qed.

Lemma commission_minimum_pos instrument : (0 < dval (commission_minimum instrument))%Q.
Proof. unfold commission_minimum. destruct (is_btc instrument); reflexivity. Qed.

Lemma dpos_sign d : dwf d -> (0 < dval d)%Q -> dneg d = false.
Proof. intros Hw H. destruct (dneg d) eqn:E; [|done]. pose proof (dval_nonpos d Hw E). lra. Qed.

Lemma dmul_sign p a b r : 1 <= p -> dwf a -> dwf b -> dmul p a b = Ok r -> dneg r = xorb (dneg a) (dneg b).
Proof. intros Hp Ha Hb H. apply (dfix_sign p (dmul_exact a b) r Hp (dmul_exact_wf a b Ha Hb) H). Qed.

(** The commission of an order: nothing for no notional; otherwise the rated
    amount, at least the minimum, times the stress, rounded up to a cent. *)
Lemma commission_spec p instrument n s c :
  3 <= p -> commission p instrument n s = Ok c ->
  exists amount stress, dec p n = Ok amount /\ dec p s = Ok stress /\ (0 <= dval amount)%Q /\ (1 <= dval stress)%Q /\
    dwf c /\
    (((dval amount == 0)%Q /\ c = ZERO) \/
     ((0 < dval amount)%Q /\ dexp c = -2 /\ (dval (commission_minimum instrument) <= dval c)%Q /\
      exists t x, dmul p amount (commission_rate instrument) = Ok t /\
        dmul p (dmax t (commission_minimum instrument)) stress = Ok x /\
        (dval x <= dval c < dval x + p10 (-2))%Q)).
Proof.
  intros Hp H. unfold commission in H. apply rbind_ok in H as (a & Ha & H). apply rbind_ok in H as (st & Hs & H).
  apply when_ok in H as [Hneg H]. apply when_ok in H as [_ H]. apply orb_false_elim in Hneg as [Ha0 Hs1].
  dec_cmp. rewrite dval_COST_ZERO in *. rewrite dval_ONE in *. exists a, st. repeat (split; [done|]).
  case_if H; dec_cmp; rewrite dval_COST_ZERO in *.
  { apply Ok_inj in H. subst c. split; [done|]. by left. }
  apply rbind_ok in H as (t & Ht & H). apply rbind_ok in H as (x & Hx & H). assert (Hp1 : 1 <= p) by lia. dec_facts.
  assert (Hwr : dwf (commission_rate instrument)) by (unfold commission_rate; by case_match).
  assert (Hwm : dwf (commission_minimum instrument)) by (unfold commission_minimum; by case_match). wf_facts.
  assert (Hpos : (0 < dval a)%Q) by (destruct (Qle_lt_or_eq _ _ Ha0) as [?|Eq]; [done|by rewrite <- Eq in E]).
  assert (Hwmx : dwf (dmax t (commission_minimum instrument))) by eauto with wf. wf_facts.
  assert (Hsg : dneg x = false).
  { assert (Est : dneg st = false) by (apply dpos_sign; [done|lra]).
    assert (Ea : dneg a = false) by (by apply dpos_sign).
    rewrite (dmul_sign p _ _ _ Hp1 Hwmx (dec_wf _ _ _ Hs) Hx), Est, xorb_false_r. destruct (dmax_cases t (commission_minimum instrument)) as [-> | ->].
    - rewrite (dmul_sign p _ _ _ Hp1 (dec_wf _ _ _ Ha) Hwr Ht), Ea. unfold commission_rate. by case_match.
    - unfold commission_minimum. by case_match. }
  destruct (dquantize_ceiling_spec p (-2) x c Hp1 ltac:(done) Hsg H) as (He & _ & Hrc & Hlo & Hhi).
  split; [by eapply representable_wf|]. right. split; [done|]. split; [done|].
  split; [|exists t, x; split; [done|]; split; [done|]; split; done].
  apply Qle_trans with (dval x); [|done].
  apply (dmul_bound p Hp1 _ _ x (commission_minimum instrument) Hwmx (dec_wf _ _ _ Hs) Hx);
    [by apply commission_minimum_representable|].
  pose proof (dmax_ge_r t (commission_minimum instrument)). pose proof (commission_minimum_pos instrument). nra.
Qed.

(** The estimated commission of an order with positive notional is a whole
    number of cents and never below the instrument's ticket minimum, whatever the
    stress; it is zero exactly for no notional. *)
Theorem commission_minimum_holds p instrument n s c
    (Hp : 3 <= p) (Hc : commission p instrument n s = Ok c) :
  exists amount, dec p n = Ok amount /\
    (((dval amount == 0)%Q /\ c = ZERO) \/
     ((0 < dval amount)%Q /\ dexp c = -2 /\ (dval (commission_minimum instrument) <= dval c)%Q)).
Proof.
  destruct (commission_spec p instrument n s c Hp Hc) as (a & st & Ha & _ & _ & _ & _ & H). exists a. split; [done|].
  destruct H as [?|(? & ? & ? & _)]; [by left|by right].
Qed.

(** ** Policy and quotes *)

Record policy_ok (p : Z) (c : Policy) : Prop := {
  pk_version : version c = VStr POLICY_VERSION;
  pk_quote_ttl : exists z, quote_ttl_ms c = VInt z /\ 0 < z <= 60000;
  pk_entry_ttl : exists z, forecast_entry_ttl_ms c = VInt z /\ 0 < z <= 60000;
  pk_cooldown : exists z, reentry_cooldown_ms c = VInt z /\ 0 < z;
  pk_samples : exists z, min_calibration_samples c = VInt z /\ 30 <= z;
  pk_days : exists z, min_calibration_days c = VInt z /\ 2 <= z;
  pk_age : exists z, max_calibration_age_ms c = VInt z /\ 0 < z;
  pk_holding : exists d, dec p (holding_bps_per_hour c) = Ok d /\ (0 <= dval d)%Q;
  pk_btc_slip : exists d, dec p (btc_slippage_bps_per_side c) = Ok d /\ (0 <= dval d < 1000)%Q;
  pk_fx_slip : exists d, dec p (fx_slippage_bps_per_side c) = Ok d /\ (0 <= dval d < 1000)%Q;
  pk_btc_edge : exists d, dec p (btc_min_net_edge_bps c) = Ok d /\ (0 <= dval d)%Q;
  pk_fx_edge : exists d, dec p (fx_min_net_edge_bps c) = Ok d /\ (0 <= dval d)%Q;
  pk_fee_stress : exists d, dec p (fee_stress c) = Ok d /\ (1 <= dval d)%Q;
  pk_slip_stress : exists d, dec p (slippage_stress c) = Ok d /\ (1 <= dval d)%Q }.

Lemma nonnegative_ok p v u : nonnegative p v = Ok u -> exists d, dec p v = Ok d /\ (0 <= dval d)%Q.
Proof.
  unfold nonnegative. intros H. apply rbind_ok in H as (d & Hd & H). apply when_ok in H as [Hn _].
  exists d. split; [done|]. dec_cmp. by rewrite dval_COST_ZERO in Hn.
Qed.

Lemma positive_field_ok v u : positive_field v = Ok u -> exists z, v = VInt z /\ 0 < z.
Proof. unfold positive_field. intros H. apply rbind_ok in H as (z & Hz & _). apply positive_int_ok in Hz. eauto. Qed.

Lemma validate_ok p c c' : validate p c = Ok c' -> c' = c /\ policy_ok p c.
Proof.
  unfold validate. intros H. apply when_ok in H as [Hv H].
  do 13 (apply rbind_ok in H as (? & ? & H)). apply rbind_ok in H as (bad & Hst & H). destruct bad; [done|].
  apply por_false in Hst as [Hf Hs]. apply rbind_ok in Hf as (f & Hf & Hf1). apply rbind_ok in Hs as (sl & Hs & Hs1).
  apply rbind_ok in H as (q & Hq & H). apply rbind_ok in H as (t & Ht & H). apply when_ok in H as [Httl H].
  apply rbind_ok in H as (n & Hn & H). apply rbind_ok in H as (d & Hd & H). apply when_ok in H as [Hmin H].
  apply rbind_ok in H as (a & Ha & H). apply rbind_ok in H as (b & Hb & H). apply when_ok in H as [Hmax H].
  apply Ok_inj in H. subst c'. split; [done|].
  repeat match goal with
  | H : nonnegative _ _ = Ok _ |- _ => apply nonnegative_ok in H as (? & ? & ?)
  | H : positive_field _ = Ok _ |- _ => apply positive_field_ok in H as (? & ? & ?)
  end. apply Ok_inj in Hf1. apply Ok_inj in Hs1. split_bools. dec_cmp. rewrite dval_ONE in *.
  pose proof (dmax_ge_l a b). pose proof (dmax_ge_r a b). rewrite (dval_of_Z 1000) in Hmax. change (inject_Z 1000) with 1000%Q in Hmax.
  repeat match goal with
  | H : quote_ttl_ms _ = _ |- _ => rewrite H in Hq; apply Ok_inj in Hq; subst
  | H : forecast_entry_ttl_ms _ = _ |- _ => rewrite H in Ht; apply Ok_inj in Ht; subst
  | H : min_calibration_samples _ = _ |- _ => rewrite H in Hn; apply Ok_inj in Hn; subst
  | H : min_calibration_days _ = _ |- _ => rewrite H in Hd; apply Ok_inj in Hd; subst
  end.
  apply eq_str_true in Hv.
  split; try done; try (eexists; split; [eassumption|]; lia); try (eexists; split; [eassumption|]; lra).
  - exists a. split; [done|]. split; [|lra]. same_ok. lra.
  - exists b. split; [done|]. split; [|lra]. same_ok. lra.
Qed.

(** A usable quote. *)
Lemma quote_values_ok p quote instrument now_ms policy bid ask mid :
  quote_values p quote instrument now_ms policy = Ok (bid, ask, mid) ->
  policy_ok p policy /\ 0 < now_ms /\
  exists q o s ttl, quote = VDict q /\ quote_ttl_ms policy = VInt ttl /\
    get q "source" = VStr "IB" /\ get q "authoritative" = VBool true /\ get q "stale" = VBool false /\
    get q "instrument" = VStr instrument /\
    get q "observed_at_ms" = VInt o /\ get q "stale_after_ms" = VInt s /\
    0 < o <= now_ms /\ now_ms <= s /\ now_ms - o <= ttl /\
    dec p (get q "bid") = Ok bid /\ dec p (get q "ask") = Ok ask /\ (0 < dval bid <= dval ask)%Q /\
    exists t, dadd p bid ask = Ok t /\ ddiv p t (dec_of_Z 2) = Ok mid.
Proof.
  unfold quote_values. intros H. apply rbind_ok in H as (c & Hc & H). apply validate_ok in Hc as [_ Hpol].
  apply rbind_ok in H as (n & Hn & H). apply positive_int_ok in Hn as [_ Hn'].
  split; [done|]. destruct quote as [| | | | | | |q]; try done. apply when_ok in H as [Hau H].
  apply rbind_ok in H as (o & Ho & H). apply rbind_ok in H as (s & Hs & H). apply rbind_ok in H as (ttl & Httl & H).
  apply when_ok in H as [Hst H]. apply rbind_ok in H as (b & Hb & H). apply rbind_ok in H as (a & Ha & H).
  apply when_ok in H as [Hcr H]. apply rbind_ok in H as (t & Ht & H). apply rbind_ok in H as (m & Hm & H).
  apply Ok_inj in H. injection H as -> -> ->. apply positive_int_ok in Ho as [Eo Ho]. apply positive_int_ok in Hs as [Es Hs].
  unfold quote_unauthorized in Hau. split_bools. dec_cmp. rewrite dval_COST_ZERO in *.
  split; [lia|]. exists q, o, s, ttl. split; [done|].
  split; [by destruct (quote_ttl_ms policy); try done; injection Httl as ->|].
  repeat match goal with
  | H : eq_str _ _ = true |- _ => apply eq_str_true in H
  | H : is_true _ = true |- _ => apply is_true_eq in H
  | H : is_false _ = true |- _ => apply is_false_eq in H
  end. repeat (split; [done || lia|]). eauto.
Qed.

(** Doubling a number with a digit to spare is exact, so a mid stays inside. *)
Lemma twice_representable p d : 1 <= p -> representable (p - 1) d -> representable p (Dec (dneg d) (2 * dcoef d) (dexp d)).
Proof.
  intros Hp [Hc He]. unfold representable, Etiny in *. simpl. rewrite (pow10_pred p Hp). lia.
Qed.
Lemma dval_twice d : (dval (Dec (dneg d) (2 * dcoef d) (dexp d)) == 2 * dval d)%Q.
Proof.
  unfold dval, PyDecimal.dsig. simpl. assert (forall z, inject_Z (2 * z) == 2 * inject_Z z)%Q as E2 by (intros; by rewrite inject_Z_mult).
  destruct (dneg d); [|rewrite E2; ring]. rewrite !inject_Z_opp, E2. ring.
Qed.
Lemma representable_more p d : 1 <= p -> representable (p - 1) d -> representable p d.
Proof. intros Hp [Hc He]. unfold representable, Etiny in *. rewrite (pow10_pred p Hp). lia. Qed.

Lemma mid_between p bid ask t mid :
  1 <= p -> representable (p - 1) bid -> representable (p - 1) ask -> (dval bid <= dval ask)%Q ->
  dadd p bid ask = Ok t -> ddiv p t (dec_of_Z 2) = Ok mid -> (dval bid <= dval mid <= dval ask)%Q.
Proof.
  intros Hp Rb Ra Hba Ht Hm. pose proof (dval_of_Z 2) as E2. change (inject_Z 2) with 2%Q in E2.
  pose proof (dadd_bound p Hp bid ask t _ Ht (twice_representable p bid Hp Rb)) as [_ B1].
  pose proof (dadd_bound p Hp bid ask t _ Ht (twice_representable p ask Hp Ra)) as [B2 _].
  rewrite dval_twice in B1, B2. specialize (B1 ltac:(lra)). specialize (B2 ltac:(lra)).
  assert (Hwt : dwf t) by (by apply (dadd_wf p bid ask)).
  pose proof (ddiv_bound p t (dec_of_Z 2) mid bid Hp Hwt (dec_of_Z_wf 2) Hm (representable_more p bid Hp Rb)) as [_ B3].
  pose proof (ddiv_bound p t (dec_of_Z 2) mid ask Hp Hwt (dec_of_Z_wf 2) Hm (representable_more p ask Hp Ra)) as [B4 _].
  rewrite E2 in B3, B4. assert (Ehalf : (dval t / 2 == dval t * (1 # 2))%Q) by reflexivity. rewrite Ehalf in B3, B4.
  split; [apply B3|apply B4]; lra.
Qed.

(** A quote the policy accepts comes from the broker, is authoritative, is for
    the instrument, was observed in the past and is neither past its own deadline
    nor older than the policy's time to live (at most a minute); its bid is
    positive and not above its ask, and when both prices have a digit to
    spare in the context, its mid lies between them. *)
Theorem quote_values_sound p quote instrument now_ms policy bid ask mid
    (Hp : 1 <= p) (Hq : quote_values p quote instrument now_ms policy = Ok (bid, ask, mid)) :
  exists q o s ttl, quote = VDict q /\ quote_ttl_ms policy = VInt ttl /\ ttl <= 60000 /\
    get q "source" = VStr "IB" /\ get q "authoritative" = VBool true /\ get q "stale" = VBool false /\
    get q "instrument" = VStr instrument /\
    get q "observed_at_ms" = VInt o /\ get q "stale_after_ms" = VInt s /\
    o <= now_ms <= s /\ now_ms - o <= ttl /\ (0 < dval bid <= dval ask)%Q /\
    (representable (p - 1) bid -> representable (p - 1) ask -> (dval bid <= dval mid <= dval ask)%Q).
Proof.
  destruct (quote_values_ok _ _ _ _ _ _ _ _ Hq) as (Hpol & Hnow & q & o & s & ttl & -> & Ettl & Hsrc & Hau & Hst & Hin & Ho & Hs & Hon & Hns & Hage & Hb & Ha & Hba & t & Ht & Hm).
  exists q, o, s, ttl. destruct (pk_quote_ttl _ _ Hpol) as (z & Ez & Hz). rewrite Ettl in Ez. injection Ez as <-.
  repeat (split; [done || lia|]). intros Rb Ra. apply (mid_between p bid ask t); try done. apply Hba.
Qed.

(** ** Estimates *)

Lemma slip_nonneg p policy instrument s : 1 <= p -> policy_ok p policy -> slip p policy instrument = Ok s -> dwf s /\ (0 <= dval s)%Q.
Proof.
  intros Hp Hpol H. unfold slip in H. apply rbind_ok in H as (v & Hv & H). apply rbind_ok in H as (st & Hst & H). dec_facts.
  split; [done|]. apply (dmul_nonneg p Hp v st); try done.
  - destruct (is_btc instrument); [destruct (pk_btc_slip _ _ Hpol) as (d & Hd & ?)|destruct (pk_fx_slip _ _ Hpol) as (d & Hd & ?)];
      same_ok; lra.
  - destruct (pk_slip_stress _ _ Hpol) as (d & Hd & ?). same_ok. lra.
Qed.

Lemma hurdle_nonneg p policy instrument h : policy_ok p policy -> hurdle p policy instrument = Ok h -> dwf h /\ (0 <= dval h)%Q.
Proof.
  intros Hpol H. unfold hurdle in H. dec_facts. split; [done|].
  destruct (is_btc instrument); [destruct (pk_btc_edge _ _ Hpol) as (d & Hd & ?)|destruct (pk_fx_edge _ _ Hpol) as (d & Hd & ?)];
    same_ok; done.
Qed.

Lemma small_representable p s c e : 1 <= p -> 0 <= c < 10 -> Emin <= e -> representable p (Dec s c e).
Proof.
  intros Hp Hc He. assert (10 ^ 1 <= 10 ^ p) by (apply Z.pow_le_mono_r; lia).
  unfold representable, Etiny. simpl. lia.
Qed.

Lemma direction_abs p side d r :
  1 <= p -> dwf d -> dmul p (direction_of side) d = Ok r -> forall y, representable p y -> (0 <= dval y)%Q ->
  (- dval y <= dval d <= dval y)%Q -> (- dval y <= dval r <= dval y)%Q.
Proof.
  intros Hp Hd H y Hy Hy0 Hdy. assert (Hwd : dwf (direction_of side)) by apply dec_of_Z_wf.
  pose proof (dmul_bound p Hp _ _ r y Hwd Hd H Hy) as [B1 _].
  pose proof (dmul_bound p Hp _ _ r (dneg_exact y) Hwd Hd H (representable_neg p y Hy)) as [_ B2].
  rewrite dval_neg_exact in B2.
  assert (Ed : (dval (direction_of side) == 1 \/ dval (direction_of side) == -1)%Q).
  { unfold direction_of. rewrite dval_of_Z. case_match; [left|right]; reflexivity. }
  split; [apply B2|apply B1]; destruct Ed as [E|E]; rewrite E; lra.
Qed.

(** A price multiplied by one plus or minus a slip below a tenth stays
    nonnegative. *)
Lemma one_plus_slip p side s ds r :
  1 <= p -> dwf s -> (0 <= dval s)%Q -> (dval s < dval (Dec false 1 (-1)))%Q ->
  dmul p (direction_of side) s = Ok ds ->
  dadd p ONE ds = Ok r \/ dsub p ONE ds = Ok r -> (0 < dval r)%Q.
Proof.
  intros Hp Hs H0 H1 Hd Hr. assert (R : representable p (Dec false 1 (-1))) by (apply small_representable; done).
  assert (E1 : (dval (Dec false 1 (-1)) == 1 # 10)%Q) by reflexivity. rewrite E1 in H1.
  pose proof (direction_abs p side s ds Hp Hs Hd _ R ltac:(rewrite E1; lra) ltac:(rewrite E1; lra)) as B. rewrite E1 in B.
  assert (R9 : representable p (Dec false 9 (-1))) by (apply small_representable; done).
  assert (E9 : (dval (Dec false 9 (-1)) == 9 # 10)%Q) by reflexivity. pose proof dval_ONE as EO.
  destruct Hr as [Hr|Hr].
  - pose proof (dadd_bound p Hp _ _ r _ Hr R9) as [_ B9]. rewrite E9, EO in B9. specialize (B9 ltac:(lra)). lra.
  - pose proof (dsub_bound p Hp _ _ r _ Hr R9) as [_ B9]. rewrite E9, EO in B9. specialize (B9 ltac:(lra)). lra.
Qed.

(** The exit leg of a move below fifty percent. *)
Lemma exit_leg_nonneg p side mid half s move g :
  1 <= p -> dwf mid -> dwf half -> dwf s -> dwf move -> (0 <= dval mid)%Q -> (0 <= dval half)%Q -> (0 <= dval s)%Q ->
  (dval s < dval (Dec false 1 (-1)))%Q -> (-5000 < dval move < 5000)%Q ->
  exit_leg p side mid half s move = Ok g ->
  dwf (g_future_mid g) /\ dwf (g_future_half g) /\ dwf (g_exit_touch g) /\ dwf (g_exit g) /\
  (0 <= dval (g_future_mid g))%Q /\ (0 <= dval (g_future_half g))%Q /\
  ((0 < dval (g_exit g))%Q -> (0 < dval (g_exit_touch g))%Q).
Proof.
  intros Hp Hwm Hwh Hws Hwv Hm Hh Hs Hs1 Hv H. unfold exit_leg in H.
  apply rbind_ok in H as (dm & Hdm & H). apply rbind_ok in H as (dmb & Hdmb & H). apply rbind_ok in H as (gr & Hgr & H).
  apply rbind_ok in H as (fm & Hfm & H). apply rbind_ok in H as (hf & Hhf & H). apply rbind_ok in H as (fh & Hfh & H).
  apply rbind_ok in H as (dh & Hdh & H). apply rbind_ok in H as (et & Het & H). apply rbind_ok in H as (ds & Hds & H).
  apply rbind_ok in H as (dn & Hdn & H). apply rbind_ok in H as (ep & Hep & H). apply Ok_inj in H. subst g. simpl.
  assert (Hwd : dwf (direction_of side)) by apply dec_of_Z_wf. assert (HwB : dwf BPS) by done. assert (HwO : dwf ONE) by done.
  wf_facts.
  assert (R5 : representable p (Dec false 5 3)) by (apply small_representable; done).
  assert (E5 : (dval (Dec false 5 3) == 5000)%Q) by reflexivity.
  pose proof (direction_abs p side move dm Hp Hwv Hdm _ R5 ltac:(rewrite E5; lra) ltac:(rewrite E5; lra)) as B. rewrite E5 in B.
  assert (Rh : representable p (Dec true 5 (-1))) by (apply small_representable; done).
  assert (Eh : (dval (Dec true 5 (-1)) == -1 # 2)%Q) by reflexivity.
  assert (EB : (dval BPS == 10000)%Q) by reflexivity.
  pose proof (ddiv_bound p dm BPS dmb _ Hp ltac:(done) HwB Hdmb Rh) as [_ B2]. rewrite Eh, EB in B2.
  assert (Ed : (dval dm / 10000 == dval dm * (1 # 10000))%Q) by reflexivity. rewrite Ed in B2. specialize (B2 ltac:(lra)).
  assert (R2 : representable p (Dec false 5 (-1))) by (apply small_representable; done).
  assert (E2 : (dval (Dec false 5 (-1)) == 1 # 2)%Q) by reflexivity.
  pose proof (dadd_bound p Hp ONE dmb gr _ Hgr R2) as [_ B3]. rewrite E2, dval_ONE in B3. specialize (B3 ltac:(lra)).
  assert (Hfm0 : (0 <= dval fm)%Q) by (apply (dmul_nonneg p Hp mid gr); done || lra).
  assert (Hhf0 : (0 <= dval hf)%Q) by (by apply (dmul_nonneg p Hp half fm)).
  assert (Hfh0 : (0 <= dval fh)%Q) by (by apply (ddiv_nonneg p hf mid)).
  repeat (split; [done|]). intros Hex.
  pose proof (one_plus_slip p side s ds dn Hp Hws Hs Hs1 Hds (or_intror Hdn)) as Hdn0.
  apply Qnot_le_lt. intros Hle.
  pose proof (dmul_bound p Hp et dn ep dzero ltac:(done) ltac:(done) Hep (dzero_representable p Hp)) as [B4 _].
  rewrite (dval_zero dzero eq_refl) in B4. specialize (B4 ltac:(nra)). lra.
Qed.

(** The inputs [estimate_round_trip] lets through. *)
Record estimate_inputs (p : Z) (policy : Policy) (bid ask size move : decimal) : Prop := {
  ei_policy : policy_ok p policy;
  ei_wf : dwf bid /\ dwf ask /\ dwf size /\ dwf move;
  ei_size : (0 < dval size)%Q;
  ei_prices : (0 < dval bid <= dval ask)%Q;
  ei_move : (-5000 < dval move < 5000)%Q }.

Record costs_nonneg (e : Estimate) : Prop := {
  cn_quantity : (0 <= dval (e_quantity e))%Q;
  cn_entry_fee : (0 <= dval (e_entry_fee e))%Q;
  cn_exit_fee : (0 <= dval (e_exit_fee e))%Q;
  cn_spread : (0 <= dval (e_spread e))%Q;
  cn_slippage : (0 <= dval (e_slippage e))%Q;
  cn_holding : (0 <= dval (e_holding e))%Q;
  cn_minimum : (0 <= dval (e_minimum e))%Q;
  cn_net : (dval (e_net e) <= dval (e_gross e))%Q }.

Lemma commission_nonneg p instrument n s c : 3 <= p -> commission p instrument n s = Ok c -> dwf c /\ (0 <= dval c)%Q.
Proof.
  intros Hp H. destruct (commission_spec p instrument n s c Hp H) as (a & st & _ & _ & _ & _ & Hw & Hc). split; [done|].
  destruct Hc as [[_ ->]|(_ & _ & Hm & _)]; [by rewrite dval_COST_ZERO|].
  pose proof (commission_minimum_pos instrument). lra.
Qed.

Lemma entry_price_nonneg p side touch s e :
  1 <= p -> dwf touch -> dwf s -> (0 <= dval touch)%Q -> (0 <= dval s)%Q -> (dval s < dval (Dec false 1 (-1)))%Q ->
  entry_price p side touch s = Ok e -> dwf e /\ (0 <= dval e)%Q.
Proof.
  intros Hp Hwt Hws Ht Hs Hs1 H. unfold entry_price in H.
  apply rbind_ok in H as (ds & Hds & H). apply rbind_ok in H as (up & Hup & H).
  pose proof (one_plus_slip p side s ds up Hp Hws Hs Hs1 Hds (or_introl Hup)) as Hu. wf_facts. split; [done|].
  apply (dmul_nonneg p Hp touch up); done || lra.
Qed.

(** Subtracting the five costs in turn never exceeds the gross edge. *)
Lemma net_below_gross p gross spread slippage f1 f2 holding n1 n2 n3 n4 n :
  1 <= p -> representable p gross ->
  dsub p gross spread = Ok n1 -> dsub p n1 slippage = Ok n2 -> dsub p n2 f1 = Ok n3 -> dsub p n3 f2 = Ok n4 ->
  dsub p n4 holding = Ok n ->
  (0 <= dval spread)%Q -> (0 <= dval slippage)%Q -> (0 <= dval f1)%Q -> (0 <= dval f2)%Q -> (0 <= dval holding)%Q ->
  (dval n <= dval gross)%Q.
Proof.
  intros Hp Rg H1 H2 H3 H4 H5 A1 A2 A3 A4 A5.
  assert (R1 := dsub_representable p Hp _ _ _ H1). assert (R2 := dsub_representable p Hp _ _ _ H2).
  assert (R3 := dsub_representable p Hp _ _ _ H3). assert (R4 := dsub_representable p Hp _ _ _ H4).
  pose proof (dsub_mono_l p Hp _ _ _ Rg H1 A1). pose proof (dsub_mono_l p Hp _ _ _ R1 H2 A2).
  pose proof (dsub_mono_l p Hp _ _ _ R2 H3 A3). pose proof (dsub_mono_l p Hp _ _ _ R3 H4 A4).
  pose proof (dsub_mono_l p Hp _ _ _ R4 H5 A5). lra.
Qed.

Lemma estimate_costs p instrument side policy bid ask size move horizon e :
  3 <= p -> 0 <= horizon -> estimate_inputs p policy bid ask size move ->
  estimate_amounts p instrument side policy bid ask size move horizon = Ok e ->
  (0 < dval (e_exit e))%Q -> costs_nonneg e.
Proof.
  intros Hp3 Hhz [Hpol (Hwb & Hwa & Hwz & Hwv) Hz Hba Hv] H Hex. assert (Hp : 1 <= p) by lia. unfold estimate_amounts in H.
  apply rbind_ok in H as (t & Ht & H). apply rbind_ok in H as (mid & Hm & H). apply rbind_ok in H as (w & Hw & H).
  apply rbind_ok in H as (half & Hh & H). apply rbind_ok in H as (sl & Hsl & H). apply rbind_ok in H as (s & Hs & H).
  apply when_ok in H as [Hs1 H]. apply rbind_ok in H as (en & Hen & H). apply rbind_ok in H as (q & Hq & H).
  apply rbind_ok in H as (g & Hg & H). apply rbind_ok in H as (no & Hno & H). apply rbind_ok in H as (xn & Hxn & H).
  apply rbind_ok in H as (f1 & Hf1 & H). apply rbind_ok in H as (f2 & Hf2 & H). apply rbind_ok in H as (hv & Hhv & H).
  apply rbind_ok in H as (sp & Hsp & H). apply rbind_ok in H as (to & Hto & H). apply rbind_ok in H as (qt & Hqt & H).
  apply rbind_ok in H as (sc & Hsc & H). apply rbind_ok in H as (qm & Hqm & H). apply rbind_ok in H as (hb & Hhb & H).
  apply rbind_ok in H as (h1 & Hh1 & H). apply rbind_ok in H as (h2 & Hh2 & H). apply rbind_ok in H as (h3 & Hh3 & H).
  apply rbind_ok in H as (ho & Hho & H). apply rbind_ok in H as (dm & Hdm & H). apply rbind_ok in H as (g1 & Hg1 & H).
  apply rbind_ok in H as (gro & Hgro & H). apply rbind_ok in H as (n1 & Hn1 & H). apply rbind_ok in H as (n2 & Hn2 & H).
  apply rbind_ok in H as (n3 & Hn3 & H). apply rbind_ok in H as (n4 & Hn4 & H). apply rbind_ok in H as (net & Hnet & H).
  apply rbind_ok in H as (qm' & Hqm' & H). apply rbind_ok in H as (hu & Hhu & H). apply rbind_ok in H as (m1 & Hm1 & H).
  apply rbind_ok in H as (mn & Hmn & H). apply Ok_inj in H. subst e. simpl in Hex.
  destruct (slip_nonneg p policy instrument sl Hp Hpol Hsl) as [Hwsl Hsl0].
  destruct (hurdle_nonneg p policy instrument hu Hpol Hhu) as [Hwhu Hhu0].
  destruct (commission_nonneg _ _ _ _ _ Hp3 Hf1) as [Hwf1 Hf10]. destruct (commission_nonneg _ _ _ _ _ Hp3 Hf2) as [Hwf2 Hf20].
  destruct (pk_holding _ _ Hpol) as (hb' & Hhb' & Hhb0). assert (hb' = hb) as -> by congruence.
  assert (HwB : dwf BPS) by done. assert (B0 : (0 <= dval BPS)%Q) by (vm_compute; discriminate).
  assert (T0 : (0 <= dval (dec_of_Z 2))%Q) by (vm_compute; discriminate).
  assert (X0 : (0 <= dval (dec_of_Z 3600))%Q) by (vm_compute; discriminate).
  assert (Z0 : (0 <= dval (dec_of_Z horizon))%Q) by (rewrite dval_of_Z; change 0%Q with (inject_Z 0); by rewrite <- Zle_Qle).
  dec_facts.
  assert (Hmid : (0 <= dval mid)%Q) by (apply (ddiv_nonneg p t (dec_of_Z 2)); auto with wf; apply (dadd_nonneg p Hp bid ask); done || lra).
  assert (Hw0 : (0 <= dval w)%Q).
  { pose proof (dsub_bound p Hp _ _ _ dzero Hw (dzero_representable p Hp)) as [_ B]. rewrite (dval_zero dzero eq_refl) in B. apply B. lra. }
  assert (Hhalf : (0 <= dval half)%Q) by (apply (ddiv_nonneg p w (dec_of_Z 2)); auto with wf).
  assert (Hs0 : (0 <= dval s)%Q) by (by apply (ddiv_nonneg p sl BPS)). dec_cmp.
  assert (Hwto : dwf (entry_touch side bid ask)) by (unfold entry_touch; by destruct (bool_decide _)).
  assert (Hto0 : (0 <= dval (entry_touch side bid ask))%Q) by (unfold entry_touch; destruct (bool_decide _); lra).
  destruct (entry_price_nonneg p side _ s en Hp Hwto ltac:(done) Hto0 Hs0 Hs1 Hen) as [Hwen Hen0].
  destruct (exit_leg_nonneg p side mid half s move g Hp ltac:(done) ltac:(done) ltac:(done) Hwv Hmid Hhalf Hs0 Hs1 Hv Hg)
    as (Hwfm & Hwfh & Hwet & Hwex & Hfm0 & Hfh0 & Hext).
  assert (dwf q /\ (0 <= dval q)%Q) as [Hwq Hq0].
  { destruct (is_btc instrument); [|apply Ok_inj in Hq; subst; split; [done|lra]].
    split; [by apply (ddiv_wf p size en)|apply (ddiv_nonneg p size en); done || lra]. }
  assert (dwf (direction_of side)) by apply dec_of_Z_wf. wf_facts.
  assert (Hsp0 : (0 <= dval sp)%Q) by (apply (dmul_nonneg p Hp q hv); try done; by apply (dadd_nonneg p Hp half (g_future_half g))).
  specialize (Hext Hex).
  assert (Hsc0 : (0 <= dval sc)%Q).
  { apply (dmul_nonneg p Hp qt s); try done. apply (dmul_nonneg p Hp q to); try done.
    apply (dadd_nonneg p Hp (entry_touch side bid ask) (g_exit_touch g)); done || lra. }
  assert (Hqm0 : (0 <= dval qm)%Q) by (by apply (dmul_nonneg p Hp q mid)).
  assert (Hho0 : (0 <= dval ho)%Q).
  { apply (ddiv_nonneg p h3 (dec_of_Z 3600)); auto with wf. apply (dmul_nonneg p Hp h2 (dec_of_Z horizon)); auto with wf.
    apply (ddiv_nonneg p h1 BPS); try done. by apply (dmul_nonneg p Hp qm hb). }
  split; simpl; try done.
  - apply (ddiv_nonneg p m1 BPS); try done. apply (dmul_nonneg p Hp qm' hu); try done. by apply (dmul_nonneg p Hp q mid).
  - eapply (net_below_gross p); eauto. eapply (dmul_representable p Hp g1 (direction_of side)); done.
Qed.

(** A round-trip estimate only ever subtracts: for every accepted order,
    quote and move, as long as the estimated exit price is positive, the entry and
    exit commissions, the spread, the slippage and the holding reserve are
    nonnegative and the net edge is not above the gross edge; the hurdle it is
    compared with is nonnegative too. *)
Theorem estimate_only_subtracts p instrument side size quote move horizon policy d
    (Hp : 3 <= p) (He : estimate_round_trip p instrument side size quote move horizon policy = Ok d) :
  exists e z q, d = estimate_dict instrument side policy z (get q "observed_at_ms") e /\ quote = VDict q /\
    ((0 < dval (e_exit e))%Q -> costs_nonneg e).
Proof.
  unfold estimate_round_trip in He. apply rbind_ok in He as (c & Hc & H). apply validate_ok in Hc as [_ Hpol].
  apply when_ok in H as [_ H]. apply rbind_ok in H as (q & Hq & H). apply rbind_ok in H as (bid & Hb & H).
  apply rbind_ok in H as (ask & Ha & H). apply rbind_ok in H as (sz & Hs & H). apply rbind_ok in H as (mv & Hm & H).
  apply when_ok in H as [Hin H]. apply rbind_ok in H as (hz & Hh & H). apply rbind_ok in H as (e & He & H).
  apply Ok_inj in H. subst d. exists e, hz, q. split; [done|].
  split; [by destruct quote; try done; injection Hq as ->|]. intros Hex.
  split_bools. dec_cmp. rewrite dval_COST_ZERO in *. rewrite (dval_of_Z (-5000)), (dval_of_Z 5000) in *.
  assert (0 <= hz).
  { match goal with H : in_horizons _ = true |- _ => rename H into Hhz end.
    unfold in_horizons in Hhz. destruct horizon; try done. injection Hh as ->.
    apply existsb_exists in Hhz as (x & Hx & ->%Z.eqb_eq). simpl in Hx. lia. }
  eapply (estimate_costs p); [done|done| |exact He|done].
  split; [done|repeat split; eapply dec_wf; eassumption|done|done|done].
Qed.
