(* ===== verification/CostAdmission.v ===== *)
(** * Properties of the entry gates

    A gate that admits an entry has seen a valid directional forecast, a fresh
    quote that has not crossed the invalidation level, an expected net edge above
    the hurdle and an elapsed cooldown; the resident gate always returns a
    verdict. *)

From Stdlib Require Import QArith Ascii Lqa.
From S2P Require Import Prelude PyDecimal PyText PyValue RowMonad Sha256 CostPolicy CostFacts.
From stdpp Require Import base tactics list strings.
From Stdlib Require Import ZArith Lia.
Import CostPolicy.

Open Scope Z_scope.

(** ** Valid forecasts *)

Record forecast_ok (p : Z) (f : dict) : Prop := {
  fk_action : exists a, get f "action" = VStr a /\ In a ["BUY"; "SELL"; "HOLD"];
  fk_instrument : exists i, get f "instrument" = VStr i /\ dhas i FEE_SOURCES = true;
  fk_model : get f "model_id" = VStr MODEL_ID;
  fk_horizon : exists h, get f "horizon_sec" = VInt h /\ In h HORIZONS;
  fk_issued : exists t, get f "issued_at_ms" = VInt t /\ 0 < t;
  fk_reference : exists r, dec p (get f "reference_mid") = Ok r /\ (0 < dval r)%Q;
  fk_invalidation : exists v, dec p (get f "invalidation_price") = Ok v;
  fk_scenarios : exists l, get f "scenarios" = VList l /\ (2 <= length l <= 7)%nat /\
    forall x, In x l -> exists d pr mv, x = VDict d /\ dget "probability" d <> None /\ dget "move_bps" d <> None /\
      dec p (get d "probability") = Ok pr /\ dec p (get d "move_bps") = Ok mv /\
      (0 < dval pr <= 1)%Q /\ (-2000 < dval mv < 2000)%Q }.

Lemma has_keys_get d keys k : has_keys d keys = true -> In k keys -> dget k d <> None.
Proof.
  unfold has_keys. intros [_ H]%andb_prop Hin. rewrite forallb_forall in H. specialize (H k Hin).
  unfold dhas in H. by destruct (dget k d).
Qed.

Lemma scenario_step_ok p st item st' :
  scenario_step p st item = Ok st' ->
  exists d pr mv, item = VDict d /\ dget "probability" d <> None /\ dget "move_bps" d <> None /\
    dec p (get d "probability") = Ok pr /\ dec p (get d "move_bps") = Ok mv /\
    (0 < dval pr <= 1)%Q /\ (-2000 < dval mv < 2000)%Q.
Proof.
  unfold scenario_step. intros H. destruct item as [| | | | | | |d]; try done. apply when_ok in H as [Hk H].
  apply negb_false_iff in Hk. apply rbind_ok in H as (pr & Hpr & H). apply rbind_ok in H as (mv & Hmv & H).
  apply when_ok in H as [Hb _]. split_bools. dec_cmp. rewrite dval_COST_ZERO, dval_ONE in *.
  rewrite (dval_of_Z (-2000)), (dval_of_Z 2000) in *. exists d, pr, mv.
  repeat split; try done; eapply has_keys_get; eauto; simpl; tauto.
Qed.

Lemma in_horizons_ok v : in_horizons v = true -> exists h, v = VInt h /\ In h HORIZONS.
Proof.
  unfold in_horizons. destruct v; try done. intros (x & Hx & ->%Z.eqb_eq)%existsb_exists. eauto.
Qed.

Lemma validate_forecast_ok p v mean : validate_forecast p v = Ok mean -> exists f, v = VDict f /\ forecast_ok p f.
Proof.
  unfold validate_forecast. intros H. destruct v as [| | | | | | |f]; try done. exists f. split; [done|].
  apply when_ok in H as [_ H]. apply rbind_ok in H as (bad & Hid & H). destruct bad; [done|].
  apply rbind_ok in H as (t & Ht & H). apply rbind_ok in H as (r & Hr & H).
  apply rbind_ok in H as (bad & Hn & H). destruct bad; [done|].
  destruct (get f "scenarios") as [| | | | | |l|] eqn:Es; try done. apply when_ok in H as [Hlen H].
  apply rbind_ok in H as (tm & Htm & H). apply rbind_ok in H as (gap & _ & H). apply rbind_ok in H as (ag & _ & H).
  apply when_ok in H as [_ H]. apply rbind_ok in H as (iv & Hiv & _).
  unfold identity_invalid in Hid. repeat (apply por_false in Hid as [Hid ?]).
  repeat match goal with
  | H : Ok (negb _) = Ok false |- _ => apply Ok_inj, negb_false_iff in H
  | H : pnot _ = Ok false |- _ => unfold pnot in H; apply rmap_ok in H as (? & ? & ?)
  end.
  apply por_false in Hn as [Hn _]. apply Ok_inj in Hn. split_bools. dec_cmp. rewrite dval_COST_ZERO in *.
  apply positive_int_ok in Ht as [Et Ht].
  split.
  - match goal with H : in_strs (get f "action") _ = true |- _ => apply in_strs_true in H as (a & Ea & Hin) end. eauto.
  - match goal with H : in_fee_sources _ = Ok ?b, E : false = negb ?b |- _ => destruct b; [|done]; clear E; rename H into Hfs end.
    unfold in_fee_sources in Hfs. destruct (get f "instrument"); try done. injection Hfs as Hfs. eauto.
  - by match goal with H : eq_str (get f "model_id") _ = true |- _ => apply eq_str_true in H end.
  - by match goal with H : in_horizons _ = true |- _ => apply in_horizons_ok in H end.
  - eauto.
  - eauto.
  - eauto.
  - exists l. split; [done|]. split; [lia|]. intros y Hy.
    clear - Htm Hy. revert Htm. generalize (ZERO, ZERO). induction l as [|z l IH]; intros st Htm; [done|].
    simpl in Htm. apply rbind_ok in Htm as (st1 & H1 & Htm). destruct Hy as [->|Hy]; [by eapply scenario_step_ok|by eapply IH].
Qed.

(** ** What the shared checks establish *)

Record entry_fresh (p : Z) (f : dict) (quote : value) (now_ms : Z) (policy : Policy) : Prop := {
  ef_side : exists side, get f "action" = VStr side /\ side <> "HOLD";
  ef_quote : exists instrument bid ask mid, get f "instrument" = VStr instrument /\
    quote_values p quote instrument now_ms policy = Ok (bid, ask, mid) /\
    (get f "action" = VStr "BUY" -> exists v, dec p (get f "invalidation_price") = Ok v /\ (dval v < dval bid)%Q) /\
    (get f "action" = VStr "SELL" -> exists v, dec p (get f "invalidation_price") = Ok v /\ (dval ask < dval v)%Q);
  ef_age : exists issued horizon ttl, get f "issued_at_ms" = VInt issued /\ get f "horizon_sec" = VInt horizon /\
    forecast_entry_ttl_ms policy = VInt ttl /\
    issued <= now_ms /\ now_ms - issued <= ttl /\ now_ms - issued <= horizon * 1000 }.

Lemma as_int_ok v z : as_int v = Ok z -> v = VInt z.
Proof. destruct v; try done. by intros [= ->]. Qed.
Lemma as_str_ok v s : as_str v = Ok s -> v = VStr s.
Proof. destruct v; try done. by intros [= ->]. Qed.
Lemma as_dict_ok v d : as_dict v = Ok d -> v = VDict d.
Proof. destruct v; try done. by intros [= ->]. Qed.
Lemma as_list_ok v l : as_list v = Ok l -> v = VList l.
Proof. destruct v; try done. by intros [= ->]. Qed.

Lemma entry_checks_ok p f quote now_ms policy u :
  entry_checks p f quote now_ms policy = Ok u -> entry_fresh p f quote now_ms policy.
Proof.
  unfold entry_checks. intros H. apply rbind_ok in H as (i & Hi & H). apply rbind_ok in H as (side & Hside & H).
  apply when_ok in H as [Hhold H]. apply rbind_ok in H as ([[bid ask] mid] & Hq & H).
  apply rbind_ok in H as (t & Ht & H). apply rbind_ok in H as (h & Hh & H). apply rbind_ok in H as (ttl & Httl & H).
  apply when_ok in H as [Hage H]. apply rbind_ok in H as (bad & Hinv & H). destruct bad; [done|].
  apply as_str_ok in Hi, Hside. apply as_int_ok in Ht, Hh, Httl. split_bools. apply bool_decide_eq_false in Hhold.
  apply por_false in Hinv as [Hb Hs]. split; [eauto| |].
  - exists i, bid, ask, mid. split; [done|]. split; [done|]. rewrite Hside. split; intros [= ->].
    + cbn [pand rbind] in Hb. rewrite bool_decide_eq_true_2 in Hb by done. apply rbind_ok in Hb as (v & Hv & Hb).
      apply Ok_inj in Hb. dec_cmp. eauto.
    + cbn [pand rbind] in Hs. rewrite bool_decide_eq_true_2 in Hs by done. apply rbind_ok in Hs as (v & Hv & Hs).
      apply Ok_inj in Hs. dec_cmp. eauto.
  - exists t, h, ttl. repeat (split; [done|]). lia.
Qed.

Lemma edge_check_ok p est u :
  edge_check p est = Ok u ->
  exists n m, dec p (get est "net_edge_usd") = Ok n /\ dec p (get est "minimum_net_edge_usd") = Ok m /\ (dval m < dval n)%Q.
Proof.
  unfold edge_check. intros H. apply rbind_ok in H as (nv & Hnv & H). apply rbind_ok in H as (n & Hn & H).
  apply rbind_ok in H as (mv & Hmv & H). apply rbind_ok in H as (m & Hm & H). apply when_ok in H as [Hle _].
  exists n, m. assert (forall k v, item est k = Ok v -> get est k = v) as Hit.
  { intros k v. unfold item, get, getd, dget_or. destruct (dget k est); [|done]. by intros [= ->]. }
  rewrite (Hit _ _ Hnv), (Hit _ _ Hmv). dec_cmp. done.
Qed.

Definition cooled_down (no_trade_band : bool) (last_exit_ms : value) (now_ms : Z) (policy : Policy) : Prop :=
  no_trade_band = true -> truthy last_exit_ms = true ->
  exists t cool, last_exit_ms = VInt t /\ reentry_cooldown_ms policy = VInt cool /\ t <= now_ms /\ cool <= now_ms - t.

Lemma cooldown_ok band last now_ms policy u :
  cooldown_check band last now_ms policy = Ok u -> cooled_down band last now_ms policy.
Proof.
  unfold cooldown_check, cooled_down. intros H -> Ht. rewrite Ht in H. simpl in H.
  apply rbind_ok in H as (cool & Hc & H). destruct last as [| |t| | | | |]; try done. apply when_ok in H as [Hb _].
  split_bools. exists t, cool. apply as_int_ok in Hc. repeat split; try done; lia.
Qed.

(** ** The gates *)

Lemma guarded_truthy (body : prog unit) r0 r :
  keeps_raise ["allowed"] body -> get r0 "allowed" = VBool false ->
  guarded body r0 = Ok r -> truthy (get r "allowed") = true -> exists u, body r0 = (r, Ok u).
Proof.
  intros Hk H0 H Ha. unfold guarded in H. destruct (body r0) as [r' [u|e]] eqn:E.
  - apply Ok_inj in H. subst. eauto.
  - destruct (admission_catches (ecls e)); [|done]. apply Ok_inj in H. subst r.
    unfold refuse_reason in Ha. rewrite append_at_other in Ha by done.
    rewrite (Hk r0 r' e "allowed" E) in Ha by (by left). by rewrite H0 in Ha.
Qed.
Lemma guarded_allowed (body : prog unit) r0 r :
  keeps_raise ["allowed"] body -> get r0 "allowed" = VBool false ->
  guarded body r0 = Ok r -> get r "allowed" = VBool true -> exists u, body r0 = (r, Ok u).
Proof. intros Hk H0 H Ha. apply guarded_truthy; try done. by rewrite Ha. Qed.

Lemma pupdate_bind {B} kvs (k : unit -> prog B) r r' b :
  pbind (pupdate kvs) k r = (r', Ok b) -> k tt (update_all kvs r) = (r', Ok b).
Proof. done. Qed.
Lemma pput_bind {B} key v (k : unit -> prog B) r r' b :
  pbind (pput key v) k r = (r', Ok b) -> k tt (dset key v r) = (r', Ok b).
Proof. done. Qed.

(** What an uninterrupted run of the resident gate has checked. *)
Lemma remote_body_ok p forecast quote size now_ms last_exit_ms band policy r0 r u :
  remote_body p forecast quote size now_ms last_exit_ms band policy r0 = (r, Ok u) ->
  exists f est n m, forecast = VDict f /\ policy_ok p policy /\ forecast_ok p f /\
    entry_fresh p f quote now_ms policy /\
    expected_round_trip p forecast quote size (VStr "0") policy = Ok est /\
    dec p (get est "net_edge_usd") = Ok n /\ dec p (get est "minimum_net_edge_usd") = Ok m /\ (dval m < dval n)%Q /\
    cooled_down band last_exit_ms now_ms policy.
Proof.
  intros H.
  unfold remote_body in H. apply plift_bind in H as (c & Hc & H). apply validate_ok in Hc as [_ Hpol].
  apply plift_bind in H as (mean & Hm & H). apply validate_forecast_ok in Hm as (f & -> & Hf).
  apply plift_bind in H as (fid & _ & H). apply plift_bind in H as (qid & _ & H). apply pupdate_bind in H.
  apply plift_bind in H as (f' & Hf' & H). injection Hf' as <-. apply plift_bind in H as (u1 & Hck & H).
  apply plift_bind in H as (est & Hest & H). apply pput_bind in H. apply plift_bind in H as (cs & _ & H).
  apply pput_bind in H. apply plift_bind in H as (u2 & Hedge & H). apply plift_bind in H as (u3 & Hcool & _).
  destruct (edge_check_ok _ _ _ Hedge) as (n & m & Hn & Hmm & Hlt).
  exists f, est, n, m. repeat (split; [done|]). split; [by eapply entry_checks_ok|].
  repeat (split; [done|]). by eapply cooldown_ok.
Qed.

(** C23: the resident gate admits an entry only after all of its checks: the
    policy and the forecast are valid, the forecast is directional and fresh, the
    quote is accepted and has not crossed the invalidation price, the expected
    net edge after every cost is strictly above the minimum, and the cooldown
    after the last exit has elapsed. *)
Theorem remote_admission_sound p forecast quote size now_ms last_exit_ms band policy r
    (Hr : remote_entry_admission p forecast quote size now_ms last_exit_ms band policy = Ok r)
    (Hallowed : get r "allowed" = VBool true) :
  exists f est n m, forecast = VDict f /\ policy_ok p policy /\ forecast_ok p f /\
    entry_fresh p f quote now_ms policy /\
    expected_round_trip p forecast quote size (VStr "0") policy = Ok est /\
    dec p (get est "net_edge_usd") = Ok n /\ dec p (get est "minimum_net_edge_usd") = Ok m /\ (dval m < dval n)%Q /\
    cooled_down band last_exit_ms now_ms policy.
Proof.
  unfold remote_entry_admission in Hr. apply guarded_allowed in Hr as [u H]; [|unfold remote_body; keep_raise|done|done].
  by eapply remote_body_ok.
Qed.

(** ** What a usable calibration establishes *)

Definition without_id (a : dict) : dict := List.filter (fun kv => negb (bool_decide (kv.1 = "calibration_id"))) a.

(** The artifact's identity, its times around the forecast, and its cohort. *)
Definition calibration_usable (f : dict) (artifact : value) (now_ms : Z) (policy : Policy) (synthetic_ok : bool) : Prop :=
  exists a id issued completed until age, artifact = VDict a /\
    digest (VDict (without_id a)) = Ok id /\ get a "calibration_id" = VStr id /\
    (get a "synthetic" = VBool false \/ (synthetic_ok = true /\ get a "synthetic" = VBool true)) /\
    get f "issued_at_ms" = VInt issued /\ get a "completed_at_ms" = VInt completed /\
    get a "valid_until_ms" = VInt until /\ max_calibration_age_ms policy = VInt age /\
    completed < issued <= now_ms /\ now_ms < until <= completed + age /\
    exists key cs c n d, calibration_key f = Ok key /\ getd (VDict []) a "cohorts" = VDict cs /\ get cs key = VDict c /\
      get c "count" = VInt n /\ get c "days" = VInt d /\ 30 <= n /\ 2 <= d.

Lemma calibrated_move_ok p forecast artifact now_ms policy synthetic_ok raw lower :
  calibrated_move p forecast artifact now_ms policy synthetic_ok = Ok (raw, lower) ->
  exists f, forecast = VDict f /\ calibration_usable f artifact now_ms policy synthetic_ok.
Proof.
  unfold calibrated_move. intros H. apply rbind_ok in H as (c & Hc & H). apply validate_ok in Hc as [_ Hpol].
  apply rbind_ok in H as (mean & Hm & H). apply validate_forecast_ok in Hm as (f & -> & Hf).
  destruct artifact as [| | | | | | |a]; try done. exists f. split; [done|].
  apply rbind_ok in H as (bad & Hid & H). destruct bad; [done|]. apply when_ok in H as [Hsyn H].
  apply rbind_ok in H as (co & Hco & H). apply rbind_ok in H as (un & Hun & H). apply rbind_ok in H as (f' & Hf' & H).
  injection Hf' as <-. apply rbind_ok in H as (t & Ht & H). apply rbind_ok in H as (age & Hage & H).
  apply when_ok in H as [Htime H]. apply rbind_ok in H as (cs & Hcs & H). apply rbind_ok in H as (key & Hkey & H).
  apply rbind_ok in H as (ms & Hms & H). apply rbind_ok in H as (md & Hmd & H). apply when_ok in H as [Hcoh _].
  apply positive_int_ok in Hco as [Eco _], Hun as [Eun _]. apply as_int_ok in Ht, Hage, Hms, Hmd. apply as_dict_ok in Hcs.
  unfold artifact_identity_invalid in Hid. repeat (apply por_false in Hid as [Hid ?]).
  match goal with H : (let! id := digest _ in _) = Ok false |- _ => apply rbind_ok in H as (id & Hdig & Heq) end.
  apply Ok_inj, negb_false_iff, eq_str_true in Heq.
  destruct (pk_samples _ _ Hpol) as (z1 & E1 & Hz1), (pk_days _ _ Hpol) as (z2 & E2 & Hz2).
  rewrite Hms in E1. injection E1 as <-. rewrite Hmd in E2. injection E2 as <-.
  split_bools. exists a, id, t, co, un, age. repeat (split; [done || lia|]).
  split. { apply andb_false_iff in Hsyn as [Hs|Hs]; apply negb_false_iff in Hs.
           - left. by apply is_false_eq.
           - right. apply andb_prop in Hs as [-> Hs]. split; [done|]. by apply is_true_eq. }
  repeat (split; [done || lia|]).
  unfold cohort_insufficient in Hcoh. destruct (get cs key) as [| | | | | | |cd] eqn:Ec; try done.
  destruct (get cd "count") as [| |n| | | | |] eqn:En; try done. destruct (get cd "days") as [| |d| | | | |] eqn:Ed; try done.
  split_bools. exists key, cs, cd, n, d. repeat (split; [done|]). lia.
Qed.

(** What an uninterrupted run of the calibrated gate has checked. *)
Lemma entry_body_ok p forecast quote size now_ms artifact last_exit_ms band policy synthetic_ok r0 r u :
  entry_body p forecast quote size now_ms artifact last_exit_ms band policy synthetic_ok r0 = (r, Ok u) ->
  exists f raw lower haircut est n m, forecast = VDict f /\ forecast_ok p f /\
    entry_fresh p f quote now_ms policy /\
    calibration_usable f artifact now_ms policy synthetic_ok /\
    calibrated_move p forecast artifact now_ms policy synthetic_ok = Ok (raw, lower) /\
    dsub p raw lower = Ok haircut /\
    expected_round_trip p forecast quote size (VDec haircut) policy = Ok est /\
    dec p (get est "net_edge_usd") = Ok n /\ dec p (get est "minimum_net_edge_usd") = Ok m /\ (dval m < dval n)%Q /\
    cooled_down band last_exit_ms now_ms policy.
Proof.
  intros H.
  unfold entry_body in H.
  apply plift_bind in H as (mean & Hm & H). apply validate_forecast_ok in Hm as (f & -> & Hf).
  apply plift_bind in H as (fid & _ & H). apply plift_bind in H as (qid & _ & H). apply pupdate_bind in H.
  apply plift_bind in H as (f' & Hf' & H). injection Hf' as <-. apply plift_bind in H as (u1 & Hck & H).
  apply plift_bind in H as (mc & _ & H). apply pput_bind in H.
  apply plift_bind in H as ([raw lower] & Hcal & H). apply plift_bind in H as (hc & Hhc & H).
  apply plift_bind in H as (est & Hest & H). apply pupdate_bind in H.
  apply plift_bind in H as (u2 & Hedge & H). apply plift_bind in H as (u3 & Hcool & _).
  destruct (edge_check_ok _ _ _ Hedge) as (n & m & Hn & Hmm & Hlt).
  exists f, raw, lower, hc, est, n, m. repeat (split; [done|]). split; [by eapply entry_checks_ok|].
  split; [by destruct (calibrated_move_ok _ _ _ _ _ _ _ _ Hcal) as (f' & [= <-] & ?)|].
  repeat (split; [done|]). by eapply cooldown_ok.
Qed.

(** The calibrated gate admits an entry only with a conservative edge: in
    addition to the checks of the resident gate, the calibration artifact's
    digest matches, it was completed before the forecast was issued and has not
    expired, its cohort is large enough, and the net edge after shifting every
    scenario against the position by the calibrated haircut is above the
    minimum. *)
Theorem calibrated_admission_sound p forecast quote size now_ms artifact last_exit_ms band policy synthetic_ok r
    (Hr : entry_admission p forecast quote size now_ms artifact last_exit_ms band policy synthetic_ok = Ok r)
    (Hallowed : get r "allowed" = VBool true) :
  exists f raw lower haircut est n m, forecast = VDict f /\ forecast_ok p f /\
    entry_fresh p f quote now_ms policy /\
    calibration_usable f artifact now_ms policy synthetic_ok /\
    calibrated_move p forecast artifact now_ms policy synthetic_ok = Ok (raw, lower) /\
    dsub p raw lower = Ok haircut /\
    expected_round_trip p forecast quote size (VDec haircut) policy = Ok est /\
    dec p (get est "net_edge_usd") = Ok n /\ dec p (get est "minimum_net_edge_usd") = Ok m /\ (dval m < dval n)%Q /\
    cooled_down band last_exit_ms now_ms policy.
Proof.
  unfold entry_admission in Hr. apply guarded_allowed in Hr as [u H]; [|unfold entry_body; keep_raise|done|done].
  by eapply entry_body_ok.
Qed.

(** ** The gate always answers *)

(** A computation raises only what the gates turn into a refusal. *)
Definition safe {A} (m : res A) : Prop := forall e, m = Raise e -> admission_catches (ecls e) = true.

Lemma safe_ok {A} (a : A) : safe (Ok a).
Proof. done. Qed.
Lemma safe_cost {A} m : safe (A := A) (Raise (cost_error m)).
Proof. by intros e [= <-]. Qed.
Lemma safe_type {A} : safe (A := A) (Raise type_error).
Proof. by intros e [= <-]. Qed.
Lemma safe_bind {A B} (m : res A) (k : A -> res B) : safe m -> (forall a, m = Ok a -> safe (k a)) -> safe (rbind m k).
Proof. intros Hm Hk e H. destruct m as [a|x]; simpl in H; [by apply (Hk a)|]. apply Hm. congruence. Qed.
Lemma safe_when {A} (c : bool) m (k : res A) : safe k -> safe (if c then Raise (cost_error m) else k).
Proof. intros Hk. destruct c; [apply safe_cost|done]. Qed.
Lemma safe_if {A} (c : bool) (k k' : res A) : safe k -> safe k' -> safe (if c then k else k').
Proof. by destruct c. Qed.

Lemma safe_dadd p a b : safe (dadd p a b).
Proof. by intros e ->%dadd_raise. Qed.
Lemma safe_dsub p a b : safe (dsub p a b).
Proof. by intros e ->%dsub_raise. Qed.
Lemma safe_dmul p a b : safe (dmul p a b).
Proof. by intros e ->%dmul_raise. Qed.
Lemma safe_dabs p a : safe (dabs p a).
Proof. by intros e ->%dabs_raise. Qed.
Lemma safe_ddiv p a b : safe (ddiv p a b).
Proof. by intros e [-> | [-> | ->]]%ddiv_raise. Qed.
Lemma safe_quantize p z d : safe (dquantize_ceiling p z d).
Proof. by intros e [-> | ->]%dquantize_raise. Qed.
Lemma safe_as_int v : safe (as_int v).
Proof. destruct v; simpl; (apply safe_ok || apply safe_type). Qed.
Lemma safe_as_str v : safe (as_str v).
Proof. destruct v; simpl; (apply safe_ok || apply safe_type). Qed.
Lemma safe_positive v m : safe (positive_int v m).
Proof. unfold positive_int. destruct v; try apply safe_cost. case_match; [apply safe_ok|apply safe_cost]. Qed.
Lemma safe_item d k : safe (item d k).
Proof. unfold item. destruct (dget k d); [done|]. by intros e [= <-]. Qed.

Create HintDb safe discriminated.
#[export] Hint Resolve safe_ok safe_cost safe_type safe_dadd safe_dsub safe_dmul safe_dabs safe_ddiv safe_quantize
  safe_as_int safe_as_str safe_positive safe_item : safe.

Ltac safety :=
  repeat first
  [ progress (auto 1 with safe)
  | apply safe_bind; [|intros ? ?]
  | apply safe_if
  | match goal with
    | |- safe (match ?x with _ => _ end) => destruct x eqn:?
    | |- safe (let _ := _ in _) => cbv zeta
    end ].

Lemma safe_dec p v : safe (dec p v).
Proof. unfold dec. safety. Qed.
#[export] Hint Resolve safe_dec : safe.
Lemma safe_validate p c : safe (validate p c).
Proof. unfold validate, nonnegative, positive_field, por. safety. Qed.
Lemma safe_slip p c i : safe (slip p c i).
Proof. unfold slip. safety. Qed.
Lemma safe_hurdle p c i : safe (hurdle p c i).
Proof. unfold hurdle. safety. Qed.
Lemma safe_commission p i n s : safe (commission p i n s).
Proof. unfold commission. safety. Qed.
#[export] Hint Resolve safe_validate safe_slip safe_hurdle safe_commission : safe.
Lemma safe_quote_values p q i n c : safe (quote_values p q i n c).
Proof. unfold quote_values. safety. Qed.
Lemma safe_exit_leg p side mid half s m : safe (exit_leg p side mid half s m).
Proof. unfold exit_leg. safety. Qed.
Lemma safe_entry_price p side t s : safe (entry_price p side t s).
Proof. unfold entry_price. safety. Qed.
#[export] Hint Resolve safe_quote_values safe_exit_leg safe_entry_price : safe.
Lemma safe_estimate_amounts p i side c b a s m h : safe (estimate_amounts p i side c b a s m h).
Proof. unfold estimate_amounts. safety. Qed.
#[export] Hint Resolve safe_estimate_amounts : safe.

Lemma safe_rfold {A B} (f : A -> B -> res A) l a : (forall a x, In x l -> safe (f a x)) -> safe (rfold f l a).
Proof.
  revert a. induction l as [|x l IH]; intros a Hf; simpl; [apply safe_ok|].
  apply safe_bind; [apply Hf; by left|]. intros a' _. apply IH. intros. apply Hf. by right.
Qed.
Lemma safe_rmapM {A B} (f : A -> res B) l : (forall x, In x l -> safe (f x)) -> safe (rmapM f l).
Proof.
  induction l as [|x l IH]; intros Hf; simpl; [apply safe_ok|].
  apply safe_bind; [apply Hf; by left|]. intros y _. apply safe_bind; [|intros; apply safe_ok].
  apply IH. intros. apply Hf. by right.
Qed.

Lemma safe_value_error {A} : safe (A := A) (Raise value_error).
Proof. by intros e [= <-]. Qed.

Fixpoint safe_json (v : value) : safe (json_dumps v).
Proof.
  destruct v as [| | |f| | |l|d]; cbn [json_dumps]; try apply safe_ok.
  - apply safe_if; [apply safe_ok|apply safe_value_error].
  - destruct f; try apply safe_ok; by intros e [= <-].
  - apply safe_type.
  - apply safe_bind; [|intros; apply safe_ok]. induction l as [|x l IH]; [apply safe_ok|].
    apply safe_bind; [apply safe_json|]. intros s _. apply safe_bind; [apply IH|]. intros; apply safe_ok.
  - apply safe_bind; [|intros; apply safe_ok]. induction d as [|[k x] d IH]; [apply safe_ok|].
    apply safe_bind; [apply safe_json|]. intros s _. apply safe_bind; [apply IH|]. intros; apply safe_ok.
Qed.

Lemma safe_digest v : safe (digest v).
Proof. unfold digest, canonical. apply safe_bind; [apply safe_json|]. intros; apply safe_ok. Qed.
Lemma safe_in_fee_sources v : safe (in_fee_sources v).
Proof. unfold in_fee_sources. safety. Qed.
#[export] Hint Resolve safe_digest safe_in_fee_sources : safe.

Lemma safe_scenario_step p st x : safe (scenario_step p st x).
Proof. unfold scenario_step. safety. Qed.
Lemma safe_validate_forecast p v : safe (validate_forecast p v).
Proof.
  unfold validate_forecast, identity_invalid, por, pnot, rmap. safety.
  apply safe_rfold. intros. apply safe_scenario_step.
Qed.
#[export] Hint Resolve safe_validate_forecast : safe.
Lemma safe_entry_checks p f q n c : safe (entry_checks p f q n c).
Proof. unfold entry_checks, por, pand. safety. Qed.
Lemma safe_edge_check p e : safe (edge_check p e).
Proof. unfold edge_check. safety. Qed.
Lemma safe_cooldown b l n c : safe (cooldown_check b l n c).
Proof. unfold cooldown_check. safety. Qed.
Lemma safe_remaining p a m d x : safe (remaining_move p a m d x).
Proof. unfold remaining_move. safety. Qed.
Lemma safe_estimate p i side s q m h c : safe (estimate_round_trip p i side s (VDict q) m h c).
Proof. unfold estimate_round_trip. cbn [as_dict]. safety. Qed.
Lemma safe_subscript d k : safe (subscript (VDict d) k).
Proof. apply safe_item. Qed.
#[export] Hint Resolve safe_entry_checks safe_edge_check safe_cooldown safe_remaining safe_estimate safe_subscript : safe.

(** A scenario of a valid forecast is priced without an unexpected exception. *)
Lemma safe_price_scenario p i side s q h c an m d hc tw x :
  safe (price_scenario p i side s (VDict q) h c an m d hc tw (VDict x)).
Proof. unfold price_scenario. safety. Qed.

Lemma safe_expected p forecast q size h policy : safe (expected_round_trip p forecast (VDict q) size h policy).
Proof.
  unfold expected_round_trip. apply safe_bind; [auto with safe|]. intros mean Hm.
  destruct (validate_forecast_ok _ _ _ Hm) as (f & -> & Hf). cbn [as_dict rbind].
  destruct (fk_scenarios _ _ Hf) as (l & El & Hlen & Hl). rewrite El. cbn [as_list].
  do 2 (apply safe_bind; [auto with safe|intros ? ?]). apply safe_if; [apply safe_cost|].
  do 6 (apply safe_bind; [auto with safe|intros ? ?]). cbv zeta. apply safe_bind; [auto with safe|intros ? ?].
  apply safe_if; [apply safe_cost|]. apply safe_bind; [auto with safe|intros ? ?]. cbn [rbind].
  apply safe_bind.
  { apply safe_rfold. intros t x Hx. destruct (Hl x Hx) as (d & pr & mv & -> & _). safety. }
  intros tw _. apply safe_bind.
  { apply safe_rmapM. intros x Hx. destruct (Hl x Hx) as (d & pr & mv & -> & _). apply safe_price_scenario. }
  intros sc Hsc. destruct sc as [|[w first] sc].
  - apply rmapM_length in Hsc. simpl in Hsc. lia.
  - apply safe_bind; [|intros; apply safe_ok]. apply safe_rmapM. intros k _. apply safe_bind; [|intros; apply safe_ok].
    unfold weighted_sum. apply safe_rfold. intros. safety.
Qed.

Lemma safe_prog {A B} (m : res A) (k : A -> prog B) r r' e :
  pbind (plift m) k r = (r', Raise e) -> safe m ->
  admission_catches (ecls e) = true \/ exists a r1, m = Ok a /\ k a r1 = (r', Raise e).
Proof.
  intros H Hs. unfold pbind, plift in H. destruct m as [a|x]; [right; eauto|]. left. apply Hs. congruence.
Qed.
Lemma pupdate_any {B} kvs (k : unit -> prog B) r r' e :
  pbind (pupdate kvs) k r = (r', Raise e) -> k tt (update_all kvs r) = (r', Raise e).
Proof. done. Qed.
Lemma pput_any {B} key v (k : unit -> prog B) r r' e :
  pbind (pput key v) k r = (r', Raise e) -> k tt (dset key v r) = (r', Raise e).
Proof. done. Qed.

(** C24: the resident gate always answers: whatever the forecast, quote, size,
    clock and policy, it returns a verdict dictionary and raises nothing. *)
Theorem remote_admission_total p forecast quote size now_ms last_exit_ms band policy :
  exists r, remote_entry_admission p forecast quote size now_ms last_exit_ms band policy = Ok r.
Proof.
  unfold remote_entry_admission, guarded. set (r0 := [("allowed", _); _; _; _; _; _; _; _; _; _]). clearbody r0.
  destruct (remote_body _ _ _ _ _ _ _ _ r0) as [r' [u|e]] eqn:E; [eauto|].
  enough (admission_catches (ecls e) = true) as -> by eauto.
  unfold remote_body in E.
  apply safe_prog in E as [E|(? & ? & _ & E)]; [done| |auto with safe].
  apply safe_prog in E as [E|(mean & ? & Hm & E)]; [done| |auto with safe].
  do 2 (apply safe_prog in E as [E|(? & ? & _ & E)]; [done| |auto with safe]).
  apply pupdate_any in E. destruct (validate_forecast_ok _ _ _ Hm) as (f & -> & Hf). cbn [as_dict] in E.
  apply safe_prog in E as [E|(f' & ? & Hf' & E)]; [done| |auto with safe]. injection Hf' as <-.
  apply safe_prog in E as [E|(u & ? & Hck & E)]; [done| |auto with safe].
  apply entry_checks_ok in Hck. destruct (ef_quote _ _ _ _ _ Hck) as (i & bid & ask & mid & _ & Hq & _).
  apply quote_values_ok in Hq as (_ & _ & q & _ & _ & _ & -> & _).
  apply safe_prog in E as [E|(est & ? & _ & E)]; [done| |apply safe_expected].
  apply pput_any in E. apply safe_prog in E as [E|(cs & ? & _ & E)]; [done| |apply safe_rmapM; intros; safety].
  apply pput_any in E. do 2 (apply safe_prog in E as [E|(? & ? & _ & E)]; [done| |auto with safe]). done.
Qed.
