(* ===== verification/CostCalibration.v ===== *)
(** * Properties of calibration artifacts and of the exit rules

    The samples an artifact is built from are in the past of its cutoff and their
    intervals do not overlap within a cohort; an artifact the builder returns
    passes the consumer's identity check; the quantile rank computed in floating
    point is the exact one; risk exits are unconditional. *)

From Stdlib Require Import QArith Ascii Lqa Permutation.
From S2P Require Import Prelude PyDecimal PyText PyValue RowMonad Sha256 CostPolicy CostFacts CostAdmission.
From stdpp Require Import base tactics list strings.
From Stdlib Require Import ZArith Lia.
Import CostPolicy.

Open Scope Z_scope.

(** ** Samples *)

(** The cohort, the issue time and the label time of a sample. *)
Definition span (row : value) (key : string) (issued end_ms : Z) : Prop :=
  exists r f, row = VDict r /\ get r "forecast" = VDict f /\ calibration_key f = Ok key /\
    get f "issued_at_ms" = VInt issued /\ get r "label_observed_at_ms" = VInt end_ms.

(** A sample whose forecast and label were known strictly before the cutoff. *)
Definition past_sample (policy : Policy) (cutoff_ms : Z) (row : value) : Prop :=
  exists key issued end_ms r known available horizon ttl f, span row key issued end_ms /\ row = VDict r /\
    get r "forecast" = VDict f /\ get f "horizon_sec" = VInt horizon /\ quote_ttl_ms policy = VInt ttl /\
    get r "label_available_at_ms" = VInt known /\ get r "forecast_available_at_ms" = VInt available /\
    issued <= available < end_ms /\ end_ms <= known < cutoff_ms /\
    issued + horizon * 1000 <= end_ms <= issued + horizon * 1000 + ttl.

Definition spans_disjoint (a b : value) : Prop :=
  forall key ia ea ib eb, span a key ia ea -> span b key ib eb -> ea < ib.

Record calibration_inv (policy : Policy) (cutoff_ms : Z) (rows : list value) (st : CalState) : Prop := {
  ci_past : forall row, In row (used st) -> past_sample policy cutoff_ms row /\ In row rows;
  ci_disjoint : ForallOrdPairs spans_disjoint (used st);
  ci_last : forall row key i e, In row (used st) -> span row key i e -> e <= dget_or 0 key (last_end st);
  ci_counts : forall key c, dget key (cohorts st) = Some c -> c <> [] }.

Lemma ForallOrdPairs_snoc {A} (R : A -> A -> Prop) l x :
  ForallOrdPairs R l -> (forall y, In y l -> R y x) -> ForallOrdPairs R (l ++ [x]).
Proof.
  intros H Hx. induction H as [|y l Hy _ IH]; simpl; [repeat constructor|]. constructor.
  - apply Forall_app. split; [done|]. constructor; [|done]. apply Hx. by left.
  - apply IH. intros z Hz. apply Hx. by right.
Qed.

Lemma span_fun row k i e k' i' e' : span row k i e -> span row k' i' e' -> k = k' /\ i = i' /\ e = e'.
Proof. intros (r & f & -> & Hf & Hk & Hi & He) (r' & f' & [= <-] & Hf' & Hk' & Hi' & He'). naive_solver congruence. Qed.

Lemma horizon_pos h : In h HORIZONS -> 0 < h.
Proof. simpl. lia. Qed.

Lemma calibration_step_inv p policy cutoff_ms rows st row st' :
  In row rows -> calibration_inv policy cutoff_ms rows st -> calibration_step p policy cutoff_ms st row = Ok st' ->
  calibration_inv policy cutoff_ms rows st'.
Proof.
  intros Hin [Hpast Hdis Hlast Hcnt] H. unfold calibration_step in H.
  apply rbind_ok in H as (fv & Hfv & H). apply rbind_ok in H as (mean & Hm & H).
  destruct (validate_forecast_ok _ _ _ Hm) as (f & -> & Hf). cbn [as_dict rbind] in H.
  case_if H; [apply Ok_inj in H; subst; by split|]. apply rbind_ok in H as (r & Hr & H). apply as_dict_ok in Hr. subst row.
  apply rbind_ok in H as (e & He & H). apply rbind_ok in H as (i & Hi & H). apply rbind_ok in H as (h & Hh & H).
  apply rbind_ok in H as (kn & Hkn & H). apply rbind_ok in H as (av & Hav & H). apply rbind_ok in H as (ttl & Httl & H).
  apply rbind_ok in H as (ettl & Hettl & H). apply when_ok in H as [Hmis H]. apply when_ok in H as [_ H].
  apply rbind_ok in H as (id & _ & H). apply when_ok in H as [_ H]. apply rbind_ok in H as (key & Hkey & H).
  case_if H; [apply Ok_inj in H; subst; by split|].
  apply rbind_ok in H as (re & _ & H). apply rbind_ok in H as (ac & _ & H). apply rbind_ok in H as (pr & _ & H).
  apply when_ok in H as [_ H]. apply rbind_ok in H as (er & _ & H). apply Ok_inj in H. subst st'.
  apply positive_int_ok in He as [He _], Hkn as [Hkn _], Hav as [Hav _]. apply as_int_ok in Hi, Hh, Httl.
  unfold label_misaligned in Hmis. split_bools.
  assert (Hsub : get r "forecast" = VDict f).
  { unfold subscript, item in Hfv. unfold get, getd, dget_or. destruct (dget "forecast" r); [|done]. by injection Hfv. }
  assert (Hspan : span (VDict r) key i e) by (exists r, f; done).
  destruct (fk_horizon _ _ Hf) as (h' & Eh & Hhz). rewrite Hh in Eh. injection Eh as <-. apply horizon_pos in Hhz.
  split; cbn [used last_end cohorts].
  - intros row [Hu|[<-|[]]]%in_app_or; [by apply Hpast|]. split; [|done].
    exists key, i, e, r, kn, av, h, ttl, f. repeat (split; [done || lia|]). lia.
  - apply ForallOrdPairs_snoc; [done|]. intros y Hy k ia ea ib eb Ha Hb.
    destruct (span_fun _ _ _ _ _ _ _ Hb Hspan) as (-> & -> & ->). specialize (Hlast y key ia ea Hy Ha). lia.
  - intros row k i' e' [Hu|[<-|[]]]%in_app_or Hsp; unfold dget_or; rewrite dget_dset; case_decide as Ek.
    + subst k. specialize (Hlast row key i' e' Hu Hsp). unfold dget_or in *. lia.
    + apply (Hlast row k i' e' Hu Hsp).
    + destruct (span_fun _ _ _ _ _ _ _ Hsp Hspan) as (_ & _ & ->). lia.
    + destruct (span_fun _ _ _ _ _ _ _ Hsp Hspan) as (-> & _). done.
  - intros k c. rewrite dget_dset. case_decide; [|apply Hcnt]. intros [= <-] E'. by destruct (dget_or [] key (cohorts st)).
Qed.

Lemma rinsert_In {A} (lt : A -> A -> res bool) x l l' y : rinsert lt x l = Ok l' -> In y l' -> y = x \/ In y l.
Proof.
  revert l'. induction l as [|z l IH]; intros l' H Hy; simpl in H; [apply Ok_inj in H as <-; destruct Hy; naive_solver|].
  apply rbind_ok in H as (b & _ & H). destruct b; [apply Ok_inj in H as <-; destruct Hy; naive_solver|].
  apply rbind_ok in H as (r & Hr & H). apply Ok_inj in H as <-. destruct Hy as [->|Hy]; [right; by left|].
  destruct (IH r Hr Hy); [by left|right; by right].
Qed.

Lemma rsort_In {A} (lt : A -> A -> res bool) l l' y : rsort lt l = Ok l' -> In y l' -> In y l.
Proof.
  unfold rsort. intros H. refine (rfold_inv (fun acc => In y acc -> In y l) _ l _ l' _ _ H); [|done].
  intros acc x acc' Hx IH Hs Hy. destruct (rinsert_In _ _ _ _ _ Hs Hy) as [->|?]; auto.
Qed.

Lemma sorted_samples_In rows ordered x : sorted_samples rows = Ok ordered -> In x ordered -> In x rows.
Proof.
  unfold sorted_samples. intros H Hx. apply rbind_ok in H as (keyed & Hk & H). apply rbind_ok in H as (s & Hs & H).
  apply Ok_inj in H. subst ordered. apply in_map_iff in Hx as ([k y] & <- & Hy). apply (rsort_In _ _ _ _ Hs) in Hy. simpl.
  apply rmapM_Forall2 in Hk. clear - Hk Hy. induction Hk as [|a b l l' Hab _ IH]; [done|].
  apply rbind_ok in Hab as (k' & _ & Hab). apply Ok_inj in Hab. subst b.
  destruct Hy as [[= -> ->]|Hy]; [by left|right; auto].
Qed.

(** The stages of a built artifact. *)
Lemma build_calibration_inv p samples cutoff policy validity art :
  build_calibration p samples cutoff policy validity = Ok art ->
  policy_ok p policy /\
  exists cutoff_ms v rows ordered st dataset id ms md,
    cutoff = VInt cutoff_ms /\ 0 < cutoff_ms /\ validity = VInt v /\ 0 < v /\
    (exists age, max_calibration_age_ms policy = VInt age /\ v <= age) /\
    samples = VList rows /\ sorted_samples rows = Ok ordered /\
    min_calibration_samples policy = VInt ms /\ min_calibration_days policy = VInt md /\
    rfold (calibration_step p policy cutoff_ms) ordered (mkCalState [] [] [] [] false) = Ok st /\
    digest (VList (used st)) = Ok dataset /\
    (let body := artifact_body policy cutoff_ms v st dataset
       (map (fun kv : string * list Cohort => (kv.1, cohort_value kv.2)) (List.filter (cohort_kept ms md) (cohorts st))) in
     digest (VDict body) = Ok id /\ art = dset "calibration_id" (VStr id) body).
Proof.
  unfold build_calibration. intros H. apply rbind_ok in H as (c & Hc & H). apply validate_ok in Hc as [_ Hpol].
  split; [done|]. apply rbind_ok in H as (cu & Hcu & H). apply rbind_ok in H as (age & Hage & H).
  destruct validity as [| |v| | | | |]; try done. apply when_ok in H as [Hv H].
  destruct samples as [| | | | | |rows|]; try done. apply when_ok in H as [_ H].
  apply rbind_ok in H as (ordered & Ho & H). apply rbind_ok in H as (st & Hst & H).
  apply rbind_ok in H as (ms & Hms & H). apply rbind_ok in H as (md & Hmd & H).
  apply rbind_ok in H as (ds & Hds & H). apply rbind_ok in H as (id & Hid & H). apply Ok_inj in H. subst art.
  apply positive_int_ok in Hcu as [-> Hcu]. apply as_int_ok in Hage, Hms, Hmd. split_bools.
  exists cu, v, rows, ordered, st, ds, id, ms, md. repeat (split; [done || lia|]). split; [eauto|]. auto 10.
Qed.

(** Calibration looks only at the past and never twice at the same moment:
    the data set named by the artifact's digest consists of given samples whose
    forecast and label were both available strictly before the cutoff, each label
    observed within the quote time to live of its horizon; and within a cohort
    every sample was issued after the label of each earlier one. *)
Theorem calibration_past_only p samples cutoff policy validity art
    (Hb : build_calibration p samples cutoff policy validity = Ok art) :
  exists cutoff_ms rows used dataset, cutoff = VInt cutoff_ms /\ samples = VList rows /\
    digest (VList used) = Ok dataset /\ get art "dataset_sha256" = VStr dataset /\
    (forall row, In row used -> past_sample policy cutoff_ms row /\ In row rows) /\
    ForallOrdPairs spans_disjoint used.
Proof.
  destruct (build_calibration_inv _ _ _ _ _ _ Hb) as (_ & cu & v & rows & ordered & st & ds & id & ms & md & -> & _ & _ & _ & _ & -> & Ho & _ & _ & Hst & Hds & _ & ->).
  exists cu, rows, (used st), ds. repeat (split; [done|]).
  assert (calibration_inv policy cu ordered st) as [Hp Hd _ _].
  { refine (rfold_inv (calibration_inv policy cu ordered) _ ordered _ st _ _ Hst).
    - intros st1 row st2 Hin. by apply calibration_step_inv.
    - split; try done. constructor. }
  split; [|done]. intros row Hr. destruct (Hp row Hr). split; [done|]. by eapply sorted_samples_In.
Qed.

(** What the builder returns, the consumer recognizes: the artifact carries
    the digest of its own body and the identity fields the admission checks, its
    validity does not exceed the policy's maximal age, and every cohort in it has
    at least the required samples and days and a nonnegative haircut. *)
Theorem calibration_roundtrip p samples cutoff policy validity art
    (Hb : build_calibration p samples cutoff policy validity = Ok art) :
  artifact_identity_invalid policy art = Ok false /\
  (exists c u age, get art "completed_at_ms" = VInt c /\ get art "valid_until_ms" = VInt u /\
     max_calibration_age_ms policy = VInt age /\ 0 < c < u /\ u - c <= age) /\
  exists cs ms md, get art "cohorts" = VDict cs /\ min_calibration_samples policy = VInt ms /\
    min_calibration_days policy = VInt md /\
    forall key v, In (key, v) cs ->
      cohort_insufficient ms md v = false /\
      exists c q, v = VDict c /\ get c "overprediction_q90_bps" = sdec q /\ (0 <= dval q)%Q.
Proof.
  destruct (build_calibration_inv _ _ _ _ _ _ Hb) as (Hpol & cu & v & rows & ordered & st & ds & id & ms & md & -> & Hc0 & _ & Hv0 & (age & Eage & Hage) & -> & Ho & Ems & Emd & Hst & Hds & Hid & ->).
  split; [|split].
  - unfold artifact_identity_invalid.
    match goal with |- context [digest (VDict (List.filter ?f ?l))] => change (List.filter f l) with
      (artifact_body policy cu v st ds (map (fun kv : string * list Cohort => (kv.1, cohort_value kv.2))
        (List.filter (cohort_kept ms md) (cohorts st)))) end.
    rewrite Hid. set (art := dset _ _ _).
    change (get art "schema") with (VStr "heptatrader.calibration.v1").
    change (get art "calibration_id") with (VStr id). change (get art "forecast_version") with (VStr FORECAST_VERSION).
    change (get art "model_id") with (VStr MODEL_ID). change (get art "policy_version") with (version policy).
    rewrite (pk_version _ _ Hpol), !eq_str_refl. cbn [rbind negb por]. by rewrite py_eq_str, eq_str_refl.
  - exists cu, (cu + v), age. repeat (split; [done || lia|]). lia.
  - eexists _, ms, md. split; [reflexivity|]. split; [done|]. split; [done|].
    intros key w Hin. apply in_map_iff in Hin as ([k c] & [= <- <-] & Hin). apply List.filter_In in Hin as [_ Hk].
    unfold cohort_kept in Hk. cbn [snd] in Hk. apply andb_prop in Hk as [Hk1 Hk2]. apply Z.leb_le in Hk1, Hk2.
    unfold cohort_value. split; [apply orb_false_intro; apply Z.ltb_ge; done|].
    eexists _, _. split; [reflexivity|]. split; [reflexivity|].
    match goal with |- (0 <= dval (dmax ZERO ?x))%Q => pose proof (dmax_ge_l ZERO x) as Hm end.
    by rewrite dval_COST_ZERO in Hm.
Qed.

(** ** The quantile rank *)

Fixpoint check_ranks (fuel : nat) (n : Z) : bool :=
  match fuel with
  | O => true
  | S fuel => (quantile_index n =? Z.min (n - 1) (- ((-9 * (n + 1)) / 10) - 1)) && check_ranks fuel (n + 1)
  end.

Lemma check_ranks_spec fuel n m :
  check_ranks fuel n = true -> n <= m < n + Z.of_nat fuel ->
  quantile_index m = Z.min (m - 1) (- ((-9 * (m + 1)) / 10) - 1).
Proof.
  revert n. induction fuel as [|fuel IH]; intros n H Hm; [lia|]. simpl in H. apply andb_prop in H as [H1 H2].
  apply Z.eqb_eq in H1. destruct (Z.eq_dec m n) as [->|]; [done|]. apply (IH (n + 1)); [done|lia].
Qed.

Lemma all_ranks : check_ranks (Z.to_nat 2000) 1 = true.
Proof. vm_compute. reflexivity. Qed.

(** For every cohort of up to two thousand samples, the rank that the code
    computes in binary floating point is the exact rank: the ceiling of nine
    tenths of the size plus one, clipped to the last sample, and it is an index
    of the sorted errors. *)
Theorem quantile_rank_exact n (Hn : 1 <= n <= 2000) :
  quantile_index n = Z.min (n - 1) (- ((-9 * (n + 1)) / 10) - 1) /\ 0 <= quantile_index n < n.
Proof.
  assert (E : quantile_index n = Z.min (n - 1) (- ((-9 * (n + 1)) / 10) - 1))
    by (apply (check_ranks_spec (Z.to_nat 2000) 1); [apply all_ranks|rewrite Z2Nat.id; lia]).
  split; [done|]. rewrite E. pose proof (Z.div_mod (-9 * (n + 1)) 10 ltac:(lia)).
  pose proof (Z.mod_pos_bound (-9 * (n + 1)) 10 ltac:(lia)). lia.
Qed.

(** ** Exits *)

(** Risk exits are unconditional: with a halt, any nonzero position is
    reduced whatever the prices and the forecast; and no exit is due only when the
    position is flat, or no halt is set, the price has not moved against the entry
    by the maximal adverse fraction, and the entry forecast (when there is one) is
    valid, not invalidated by the current price and not past its horizon. *)
Theorem risk_exit_complete p position entry_price quote now_ms halt entry_forecast max_adverse pos
    (Hpos : dec p position = Ok pos) :
  (halt = true -> ~ (dval pos == 0)%Q ->
   risk_exit p position entry_price quote now_ms halt entry_forecast max_adverse = Ok (Some "HALT_REDUCE_ONLY")) /\
  (risk_exit p position entry_price quote now_ms halt entry_forecast max_adverse = Ok None ->
   (dval pos == 0)%Q \/
   (halt = false /\ exists bv av bid ask, subscript quote "bid" = Ok bv /\ dec p bv = Ok bid /\
      subscript quote "ask" = Ok av /\ dec p av = Ok ask /\
      (entry_price <> VNone -> adverse p pos bid ask entry_price max_adverse = Ok false) /\
      (truthy entry_forecast = true -> exists f v t h, entry_forecast = VDict f /\ forecast_ok p f /\
         dec p (get f "invalidation_price") = Ok v /\ get f "issued_at_ms" = VInt t /\ get f "horizon_sec" = VInt h /\
         ((0 < dval pos)%Q -> (dval v < dval bid)%Q) /\ ((dval pos < 0)%Q -> (dval ask < dval v)%Q) /\
         now_ms < t + h * 1000))).
Proof.
  unfold risk_exit. rewrite Hpos. cbn [rbind]. split.
  - intros -> Hnz. destruct (deqb pos ZERO) eqn:E; [|done]. dec_cmp. by rewrite dval_COST_ZERO in E.
  - destruct (deqb pos ZERO) eqn:E; [intros _; left; dec_cmp; by rewrite dval_COST_ZERO in E|].
    destruct halt; [done|]. intros H. right. split; [done|].
    apply rbind_ok in H as (bv & Hbv & H). apply rbind_ok in H as (bid & Hb & H).
    apply rbind_ok in H as (av & Hav & H). apply rbind_ok in H as (ask & Ha & H).
    apply rbind_ok in H as (moved & Hmv & H). destruct moved; [done|].
    exists bv, av, bid, ask. repeat (split; [done|]). split; [intros Hne; by destruct entry_price|].
    intros Ht. rewrite Ht in H. destruct (forecast_exit p pos bid ask entry_forecast now_ms) as [o|x] eqn:Ef;
      [apply Ok_inj in H; subst o|by destruct (bool_decide _)].
    unfold forecast_exit in Ef. apply rbind_ok in Ef as (mean & Hm & Ef).
    destruct (validate_forecast_ok _ _ _ Hm) as (f & -> & Hf). cbn [as_dict rbind] in Ef.
    apply rbind_ok in Ef as (v & Hv & Ef). case_if Ef; [done|].
    apply rbind_ok in Ef as (t & Htt & Ef). apply rbind_ok in Ef as (h & Hh & Ef). case_if Ef; [done|].
    apply as_int_ok in Htt, Hh. apply Z.leb_gt in E1. apply orb_false_elim in E0 as [E2 E3].
    exists f, v, t, h. repeat (split; [done|]). split; [|split; [|done]].
    + intros Hp. apply andb_false_iff in E2 as [E2|E2]; dec_cmp; rewrite ?dval_COST_ZERO in *; lra.
    + intros Hp. apply andb_false_iff in E3 as [E3|E3]; dec_cmp; rewrite ?dval_COST_ZERO in *; lra.
Qed.
