(* ===== verification/CostScenario.v ===== *)
(** * Cost policy: concrete forecasts, quotes and samples

    The lemmas apply the properties of the cost policy to an admitted entry, a
    calibration over two samples and a halted position. *)

From Stdlib Require Import QArith Ascii Lqa.
From S2P Require Import Prelude PyDecimal PyText PyValue RowMonad Sha256 CostPolicy CostFacts CostAdmission CostCalibration.
From stdpp Require Import base tactics list strings.
From Stdlib Require Import ZArith Lia.
Import CostPolicy.

Open Scope Z_scope.

Ltac evaluate := vm_compute; reflexivity.

Module CostScenario.

Definition scenario (pr mv : string) : value := VDict [("probability", VStr pr); ("move_bps", VStr mv)].

Definition forecast (issued : Z) (up : string) : value :=
  VDict [("action", VStr "BUY"); ("confidence", VStr "0.7"); ("rationale", VStr "trend"); ("horizon_sec", VInt 300);
         ("scenarios", VList [scenario "0.8" up; scenario "0.2" "-10"]); ("invalidation_price", VStr "1.0");
         ("forecast_version", VStr FORECAST_VERSION); ("model_id", VStr MODEL_ID); ("issued_at_ms", VInt issued);
         ("reference_mid", VStr "1.1001"); ("instrument", VStr "EUR.USD"); ("position_neutral", VBool true)].

Definition quote (now : Z) : value :=
  VDict [("source", VStr "IB"); ("authoritative", VBool true); ("stale", VBool false); ("instrument", VStr "EUR.USD");
         ("subscription_id", VStr "IB:1:EUR.USD:2"); ("observed_at_ms", VInt (now - 10)); ("stale_after_ms", VInt (now + 4000));
         ("bid", VStr "1.1000"); ("ask", VStr "1.1002")].

Definition now : Z := 172800000.
Definition candidate : value := forecast (now - 1000) "60".
Definition size : value := VInt 100000.

Definition verdict : res dict := remote_entry_admission 28 candidate (quote now) size now (VInt 0) true DEFAULT_POLICY.

Definition sample (i : Z) : value :=
  let issued := 1000 + i * 5000000 in
  VDict [("forecast", forecast issued "60"); ("label_observed_at_ms", VInt (issued + 300500));
         ("label_available_at_ms", VInt (issued + 300600)); ("forecast_available_at_ms", VInt (issued + 200));
         ("source_kind", VStr "IB_CAPTURE"); ("realized_underlying_move_bps", VStr "44")].
Definition samples : value := VList (map (fun n => sample (Z.of_nat n)) (seq 0 2)).
Definition cutoff : Z := now - 5000.
Definition artifact : res dict := build_calibration 28 samples (VInt cutoff) DEFAULT_POLICY (VInt 86400000).

Definition admitted : dict := ok_or [] verdict.
Definition built : dict := ok_or [] artifact.

(** An artifact with a cohort large enough for admission. *)
Definition large_body : dict :=
  [("schema", VStr "heptatrader.calibration.v1"); ("forecast_version", VStr FORECAST_VERSION);
   ("model_id", VStr MODEL_ID); ("policy_version", VStr POLICY_VERSION); ("completed_at_ms", VInt cutoff);
   ("valid_until_ms", VInt (cutoff + 86400000)); ("synthetic", VBool false); ("dataset_sha256", VStr "0");
   ("cohorts", VDict [("EUR.USD|openai/gpt-5.6-luna:position-neutral-mid-scenarios-v2|BUY|300",
      VDict [("count", VInt 30); ("days", VInt 2); ("prediction_min_bps", VStr "40.0");
             ("prediction_max_bps", VStr "50.0"); ("overprediction_q90_bps", VStr "2.0")])])].
Definition large : dict := dset "calibration_id" (VStr (ok_or "" (digest (VDict large_body)))) large_body.

Lemma commission_minimum_holds_witness :
  exists c, commission 28 "EUR.USD" (VInt 100) (VStr "1") = Ok c /\
  exists amount, dec 28 (VInt 100) = Ok amount /\
    (((dval amount == 0)%Q /\ c = ZERO) \/
     ((0 < dval amount)%Q /\ dexp c = -2 /\ (dval (commission_minimum "EUR.USD") <= dval c)%Q)).
Proof.
  eexists. split; [evaluate|]. apply (commission_minimum_holds 28 "EUR.USD" (VInt 100) (VStr "1")); [lia|evaluate].
Defined.

Definition bid : decimal := Dec false 11000 (-4).
Definition ask : decimal := Dec false 11002 (-4).
Definition mid : decimal := Dec false 11001 (-4).

Lemma quote_values_sound_witness :
  exists q o s ttl, quote now = VDict q /\ quote_ttl_ms DEFAULT_POLICY = VInt ttl /\ ttl <= 60000 /\
    get q "source" = VStr "IB" /\ get q "authoritative" = VBool true /\ get q "stale" = VBool false /\
    get q "instrument" = VStr "EUR.USD" /\
    get q "observed_at_ms" = VInt o /\ get q "stale_after_ms" = VInt s /\
    o <= now <= s /\ now - o <= ttl /\ (0 < dval bid <= dval ask)%Q /\
    (representable 27 bid -> representable 27 ask -> (dval bid <= dval mid <= dval ask)%Q).
Proof. apply (quote_values_sound 28 (quote now) "EUR.USD" now DEFAULT_POLICY bid ask mid); [lia|evaluate]. Defined.

Lemma estimate_only_subtracts_witness :
  exists d, estimate_round_trip 28 "EUR.USD" "BUY" size (quote now) (VStr "50") (VInt 300) DEFAULT_POLICY = Ok d /\
  exists e z q, d = estimate_dict "EUR.USD" "BUY" DEFAULT_POLICY z (get q "observed_at_ms") e /\ quote now = VDict q /\
    ((0 < dval (e_exit e))%Q -> costs_nonneg e).
Proof.
  eexists. split; [evaluate|].
  apply (estimate_only_subtracts 28 "EUR.USD" "BUY" size (quote now) (VStr "50") (VInt 300) DEFAULT_POLICY); [lia|evaluate].
Defined.

Lemma remote_admission_sound_witness :
  exists f est n m, candidate = VDict f /\ policy_ok 28 DEFAULT_POLICY /\ forecast_ok 28 f /\
    entry_fresh 28 f (quote now) now DEFAULT_POLICY /\
    expected_round_trip 28 candidate (quote now) size (VStr "0") DEFAULT_POLICY = Ok est /\
    dec 28 (get est "net_edge_usd") = Ok n /\ dec 28 (get est "minimum_net_edge_usd") = Ok m /\ (dval m < dval n)%Q /\
    cooled_down true (VInt 0) now DEFAULT_POLICY.
Proof.
  apply (remote_admission_sound 28 candidate (quote now) size now (VInt 0) true DEFAULT_POLICY admitted); evaluate.
Defined.

Definition calibrated : dict :=
  ok_or [] (entry_admission 28 candidate (quote now) size now (VDict large) (VInt 0) true DEFAULT_POLICY false).

Lemma calibrated_admission_sound_witness :
  exists f raw lower haircut est n m, candidate = VDict f /\ forecast_ok 28 f /\
    entry_fresh 28 f (quote now) now DEFAULT_POLICY /\
    calibration_usable f (VDict large) now DEFAULT_POLICY false /\
    calibrated_move 28 candidate (VDict large) now DEFAULT_POLICY false = Ok (raw, lower) /\
    dsub 28 raw lower = Ok haircut /\
    expected_round_trip 28 candidate (quote now) size (VDec haircut) DEFAULT_POLICY = Ok est /\
    dec 28 (get est "net_edge_usd") = Ok n /\ dec 28 (get est "minimum_net_edge_usd") = Ok m /\ (dval m < dval n)%Q /\
    cooled_down true (VInt 0) now DEFAULT_POLICY.
Proof.
  apply (calibrated_admission_sound 28 candidate (quote now) size now (VDict large) (VInt 0) true DEFAULT_POLICY false calibrated);
    evaluate.
Defined.

Lemma calibration_past_only_witness :
  exists cutoff_ms rows used dataset, VInt cutoff = VInt cutoff_ms /\ samples = VList rows /\
    digest (VList used) = Ok dataset /\ get built "dataset_sha256" = VStr dataset /\
    (forall row, In row used -> past_sample DEFAULT_POLICY cutoff_ms row /\ In row rows) /\
    ForallOrdPairs spans_disjoint used.
Proof. apply (calibration_past_only 28 samples (VInt cutoff) DEFAULT_POLICY (VInt 86400000) built). evaluate. Defined.

Lemma calibration_roundtrip_witness :
  artifact_identity_invalid DEFAULT_POLICY built = Ok false.
Proof. apply (calibration_roundtrip 28 samples (VInt cutoff) DEFAULT_POLICY (VInt 86400000) built). evaluate. Defined.

Lemma quantile_rank_exact_witness :
  quantile_index 30 = Z.min (30 - 1) (- ((-9 * (30 + 1)) / 10) - 1) /\ 0 <= quantile_index 30 < 30.
Proof. apply (quantile_rank_exact 30). lia. Defined.

Lemma risk_exit_complete_witness :
  risk_exit 28 (VStr "-2") VNone (quote now) now true VNone (VStr ".002") = Ok (Some "HALT_REDUCE_ONLY").
Proof.
  apply (risk_exit_complete 28 (VStr "-2") VNone (quote now) now true VNone (VStr ".002") (Dec true 2 0));
    [evaluate|done|vm_compute; discriminate].
Defined.

End CostScenario.
