(* ===== verification/CostTape.v ===== *)
(** * Cost tapes: alignment of captures, candidate outcomes, fitting

    Models the first part of research/cost_aware/scripts/hepta_cost_replay.py:
    [validate_tape], [capture_to_tape] (forecast completion and evaluation are
    different clocks), [candidate_outcomes] (labels from observed quotes only),
    [fit_from_tape] and [artifact_for]. *)

From Stdlib Require Import QArith Ascii.
From S2P Require Import Prelude PyDecimal PyText PyValue RowMonad Sha256 CostPolicy.
From stdpp Require Import base tactics list strings.
From Stdlib Require Import ZArith Lia.
Import CostPolicy.

Open Scope Z_scope.

Module CostTape.

Definition tape_schema : string := "heptatrader.cost-tape.v1".
Definition instruments : list string := ["BTC.USD"; "EUR.USD"].
Definition source_kinds : list string := ["IB_CAPTURE"; "SYNTHETIC"].

(** ** [validate_tape] *)

Definition tape_header_ok (t : dict) : bool :=
  eq_str (get t "schema") tape_schema && in_strs (get t "instrument") instruments &&
  in_strs (get t "source_kind") source_kinds &&
  match get t "rows" with
  | VList rows => (1 <=? Z.of_nat (length rows)) && (Z.of_nat (length rows) <=? 100000)
  | _ => false
  end.

Definition tape_forecast_check (p : Z) (instrument : value) (row : dict) (at_ms : Z) (forecast : value) : res unit :=
  let! _ := validate_forecast p forecast in
  let! f := as_dict forecast in
  let! issued := as_int (get f "issued_at_ms") in
  when negb (py_eq (get f "instrument") instrument) ||
       match getd (VInt at_ms) row "forecast_available_at_ms" with
       | VInt available => negb ((issued <=? available) && (available <=? at_ms))
       | _ => true
       end
  raise cost_error "TAPE_FORECAST_CAUSALITY_INVALID" in
  Ok tt.

Definition tape_row_step (p : Z) (instrument : value) (last : Z) (row : value) : res Z :=
  match row with
  | VDict r =>
      match get r "at_ms" with
      | VInt at_ms =>
          when (at_ms <=? 0) || (at_ms <? last) || negb (is_dict (get r "quote"))
          raise cost_error "TAPE_TIME_OR_QUOTE_INVALID" in
          let forecast := get r "forecast" in
          let! _ := (if is_none forecast then Ok tt else tape_forecast_check p instrument r at_ms forecast) in
          Ok at_ms
      | _ => Raise (cost_error "TAPE_TIME_OR_QUOTE_INVALID")
      end
  | _ => Raise (cost_error "TAPE_ROW_SCHEMA_INVALID")
  end.

Definition validate_tape (p : Z) (tape : value) : res dict :=
  match tape with
  | VDict t =>
      when negb (tape_header_ok t) raise cost_error "TAPE_SCHEMA_INVALID" in
      let! rows := as_list (get t "rows") in
      let! _ := rfold (tape_row_step p (get t "instrument")) rows 0 in
      Ok t
  | _ => Raise (cost_error "TAPE_SCHEMA_INVALID")
  end.

(** ** [capture_to_tape] *)

Record Alignment := mkAlignment {
  a_rows : list value;
  a_quote : value;
  a_pending : list (value * Z);
  a_seen : list string }.

(** [fresh(at)]: only a refusal of the quote is caught. *)
Definition fresh (p : Z) (instrument : string) (quote : value) (at_ms : Z) : res bool :=
  match quote_values p quote instrument at_ms DEFAULT_POLICY with
  | Ok _ => Ok true
  | Raise e => if bool_decide (ecls e = CostError) then Ok false else Raise e
  end.

Definition quote_row (at_ms : Z) (quote : value) : value :=
  VDict [("at_ms", VInt at_ms); ("quote", quote); ("forecast", VNone)].

(** [evaluate(forecast, available, at)] *)
Definition evaluated (at_ms : Z) (quote : value) (fa : value * Z) : value :=
  VDict [("at_ms", VInt at_ms); ("quote", quote); ("forecast", fa.1); ("forecast_available_at_ms", VInt fa.2)].

Definition on_quote (p : Z) (instrument : string) (at_ms : Z) (quote : value) (st : Alignment) : res Alignment :=
  let rows := a_rows st ++ [quote_row at_ms quote] in
  match a_pending st with
  | [] => Ok (mkAlignment rows quote [] (a_seen st))
  | pending =>
      let! now_fresh := fresh p instrument quote at_ms in
      Ok (if now_fresh : bool
          then mkAlignment (rows ++ map (evaluated at_ms quote) pending) quote [] (a_seen st)
          else mkAlignment rows quote pending (a_seen st))
  end.

Definition on_candidate (p : Z) (instrument : string) (at_ms : Z) (forecast : value) (st : Alignment) : res Alignment :=
  let! _ := validate_forecast p forecast in
  let! identity := digest forecast in
  when existsb (fun x => bool_decide (x = identity)) (a_seen st)
  raise cost_error "DUPLICATE_CANDIDATE_IN_CAPTURE" in
  let seen := a_seen st ++ [identity] in
  when is_none (a_quote st) raise cost_error "CANDIDATE_WITHOUT_CAUSAL_QUOTE" in
  let! now_fresh := fresh p instrument (a_quote st) at_ms in
  Ok (if now_fresh : bool
      then mkAlignment (a_rows st ++ [evaluated at_ms (a_quote st) (forecast, at_ms)]) (a_quote st) (a_pending st) seen
      else mkAlignment (a_rows st) (a_quote st) (a_pending st ++ [(forecast, at_ms)]) seen).

Definition event_time (event : value) : res Z := let! v := subscript event "at_ms" in as_int v.

Definition capture_step (p : Z) (instrument : string) (st : Alignment) (event : value) : res Alignment :=
  let! at_ms := event_time event in
  let! kind := subscript event "event" in
  if eq_str kind "QUOTE" then
    let! data := subscript event "data" in on_quote p instrument at_ms data st
  else if eq_str kind "CANDIDATE" then
    let! data := subscript event "data" in
    let! forecast := subscript data "forecast" in on_candidate p instrument at_ms forecast st
  else Ok st.

(** [capture["events"][0]["data"]] *)
Definition header_data (events : list value) : res dict :=
  match events with
  | e :: _ => let! d := subscript e "data" in as_dict d
  | [] => Raise index_error
  end.
Definition last_event (events : list value) : res value :=
  match last events with Some e => Ok e | None => Raise index_error end.

(** Candidates no later quote could evaluate stay on the tape, at its end. *)
Definition flush_pending (events : list value) (st : Alignment) : res (list value) :=
  match a_pending st with
  | [] => Ok (a_rows st)
  | pending =>
      let! e := last_event events in
      let! at_ms := event_time e in
      Ok (a_rows st ++ map (evaluated at_ms (a_quote st)) pending)
  end.

Definition aligned_rows (p : Z) (events : list value) (instrument : string) : res (list value) :=
  let! st := rfold (capture_step p instrument) events (mkAlignment [] VNone [] []) in
  flush_pending events st.

Definition capture_to_tape (p : Z) (capture : dict) : res dict :=
  let! ev := item capture "events" in
  let! events := as_list ev in
  let! header := header_data events in
  let! iv := item header "instrument" in
  let! instrument := as_str iv in
  let! rows := aligned_rows p events instrument in
  when negb (truthy (VList rows)) raise cost_error "NO_QUOTE_TAPE_AVAILABLE" in
  let! source_kind := item capture "source_kind" in
  let! input := item capture "input_sha256" in
  validate_tape p (VDict [("schema", VStr tape_schema); ("instrument", VStr instrument);
    ("source_kind", source_kind); ("input_sha256", input);
    ("observation_context", get header "observation_context");
    ("evaluation_alignment", VStr "NEXT_FRESH_OBSERVED_QUOTE_NO_BACKDATING"); ("rows", VList rows)]).

(** ** [candidate_outcomes] *)

(** Source timestamp of a quote -> its mid and the first time it was read. *)
Definition Uniques := list (Z * (decimal * Z)).

Definition row_at (r : dict) : res Z := let! v := item r "at_ms" in as_int v.

Definition unique_step (p : Z) (instrument : string) (unique : Uniques) (row : value) : res Uniques :=
  let! r := as_dict row in
  let! quote := item r "quote" in
  let! at_ms := row_at r in
  match quote_values p quote instrument at_ms DEFAULT_POLICY with
  | Raise e => if bool_decide (ecls e = CostError) then Ok unique else Raise e
  | Ok (_, _, mid) =>
      let! ov := subscript quote "observed_at_ms" in
      let! observed := as_int ov in
      match dget observed unique with
      | Some (old_mid, old_at) =>
          when negb (deqb old_mid mid) raise cost_error "SAME_SOURCE_TIMESTAMP_DIFFERENT_PRICE" in
          Ok (if at_ms <? old_at then dset observed (mid, at_ms) unique else unique)
      | None => Ok (dset observed (mid, at_ms) unique)
      end
  end.

Definition quote_ttl : Z := 5000.

Record Label := mkLabel { l_move : decimal; l_observed : Z; l_available : Z }.

Record Outcome := mkOutcome {
  o_candidate_id : string;
  o_forecast : dict;
  o_target_at : Z;
  o_source_kind : value;
  o_forecast_available : value;
  o_label : option Label;
  o_reason : string }.

Definition outcome_value (o : Outcome) : value :=
  VDict [("candidate_id", VStr (o_candidate_id o)); ("forecast", VDict (o_forecast o));
         ("target_at_ms", VInt (o_target_at o)); ("source_kind", o_source_kind o);
         ("forecast_available_at_ms", o_forecast_available o);
         ("realized_underlying_move_bps", match o_label o with Some l => sdec (l_move l) | None => VNone end);
         ("label_observed_at_ms", match o_label o with Some l => VInt (l_observed l) | None => VNone end);
         ("label_available_at_ms", match o_label o with Some l => VInt (l_available l) | None => VNone end);
         ("reason", VStr (o_reason o))].

Definition z_bisect : list Z -> Z -> nat := bisect_left Z.ltb.

(** [any(b - a > max_gap_ms for a, b in zip(middle, middle[1:]))] *)
Fixpoint has_gap (max_gap : Z) (l : list Z) : bool :=
  match l with
  | a :: ((b :: _) as l') => (max_gap <? b - a) || has_gap max_gap l'
  | _ => false
  end.

(** [unique[t]] *)
Definition unique_at (unique : Uniques) (t : Z) : res (decimal * Z) :=
  match dget t unique with Some v => Ok v | None => Raise (key_error (str_int t)) end.

Definition realized_move (p : Z) (mid anchor : decimal) : res decimal :=
  let! q := ddiv p mid anchor in
  let! d := dsub p q ONE in
  dmul p d BPS.

Definition known_too_late (cutoff_ms : option Z) (available : Z) : bool :=
  match cutoff_ms with Some c => c <=? available | None => false end.

(** The label of a forecast issued at [issued] and due at [due]. *)
Definition label_for (p : Z) (unique : Uniques) (times : list Z) (f : dict) (issued due : Z)
    (cutoff_ms : option Z) (max_gap : Z) : res (string * option Label) :=
  let start := z_bisect times issued in
  let stop := z_bisect times due in
  match times !! stop with
  | Some t_end =>
      if t_end <=? due + quote_ttl then
        match take (S stop - start) (drop start times) with
        | [] => Ok ("MISSING_FORECAST_ANCHOR_QUOTE", None)
        | (first :: _) as middle =>
            if issued + quote_ttl <? first then Ok ("MISSING_FORECAST_ANCHOR_QUOTE", None)
            else if has_gap max_gap middle then Ok ("DATA_GAP_IN_FORECAST_HORIZON", None)
            else
              let! u := unique_at unique t_end in
              let '(end_mid, end_known) := u in
              if known_too_late cutoff_ms end_known then Ok ("OUTCOME_NOT_KNOWN_AT_CALIBRATION_CUTOFF", None)
              else
                let! anchor := dec p (get f "reference_mid") in
                let! av := unique_at unique first in
                if negb (first =? issued) || negb (deqb av.1 anchor) then Ok ("FORECAST_ANCHOR_MISMATCH", None)
                else
                  let! move := realized_move p end_mid anchor in
                  Ok ("OBSERVED", Some (mkLabel move t_end end_known))
        end
      else Ok ("OUTCOME_NOT_YET_OBSERVED", None)
  | None => Ok ("OUTCOME_NOT_YET_OBSERVED", None)
  end.

Definition knowledge_end (last_at : Z) (cutoff_ms : option Z) : Z :=
  match cutoff_ms with Some c => Z.min last_at c | None => last_at end.

(** A label that can no longer arrive. *)
Definition final_reason (reason : string) (known_until due : Z) : string :=
  if bool_decide (reason = "OUTCOME_NOT_YET_OBSERVED") && (due + quote_ttl <? known_until)
  then "OUTCOME_WINDOW_MISSING_QUOTE" else reason.

Definition outcome_of (p : Z) (unique : Uniques) (times : list Z) (source_kind : value) (last_at : Z)
    (cutoff_ms : option Z) (max_gap : Z) (r f : dict) (key : string) : res Outcome :=
  let! issued := as_int (get f "issued_at_ms") in
  let! horizon := as_int (get f "horizon_sec") in
  let due := issued + horizon * 1000 in
  let! at_ms := row_at r in
  let! rl := label_for p unique times f issued due cutoff_ms max_gap in
  Ok (mkOutcome key f due source_kind (getd (VInt at_ms) r "forecast_available_at_ms") rl.2
        (final_reason rl.1 (knowledge_end last_at cutoff_ms) due)).

Definition outcome_step (p : Z) (unique : Uniques) (times : list Z) (source_kind : value) (last_at : Z)
    (cutoff_ms : option Z) (max_gap : Z) (st : list Outcome * list string) (row : value)
    : res (list Outcome * list string) :=
  let! r := as_dict row in
  if negb (truthy (get r "forecast")) then Ok st
  else
    let! f := as_dict (get r "forecast") in
    let! key := digest (VDict f) in
    when existsb (fun x => bool_decide (x = key)) st.2 raise cost_error "DUPLICATE_FORECAST_ON_TAPE" in
    let! o := outcome_of p unique times source_kind last_at cutoff_ms max_gap r f key in
    Ok (st.1 ++ [o], st.2 ++ [key]).

(** [rows[-1]["at_ms"]] *)
Definition last_row_at (rows : list value) : res Z := let! e := last_event rows in event_time e.

Definition candidate_outcomes (p : Z) (tape : value) (cutoff_ms : option Z) (max_gap : Z) : res (list Outcome) :=
  let! t := validate_tape p tape in
  let! rows := as_list (get t "rows") in
  let! instrument := as_str (get t "instrument") in
  let! unique := rfold (unique_step p instrument) rows [] in
  let times := sorted_by Z.leb (map fst unique) in
  let! last_at := last_row_at rows in
  let! st := rfold (outcome_step p unique times (get t "source_kind") last_at cutoff_ms max_gap) rows ([], []) in
  Ok st.1.

(** ** [fit_from_tape] *)

Definition fit_reason (policy : Policy) (o : Outcome) : res string :=
  if negb (bool_decide (o_reason o = "OBSERVED")) then Ok (o_reason o)
  else if eq_str (get (o_forecast o) "action") "HOLD" then Ok "HOLD_NOT_A_DIRECTIONAL_CALIBRATION_SAMPLE"
  else
    let! available := as_int (o_forecast_available o) in
    let! issued := as_int (get (o_forecast o) "issued_at_ms") in
    let! ttl := as_int (forecast_entry_ttl_ms policy) in
    if ttl <? available - issued then Ok "FORECAST_TOO_LATE_FOR_CALIBRATION"
    else
      match o_label o with
      | Some l => Ok (if l_observed l <=? available then "FORECAST_KNOWN_AFTER_LABEL" else "OBSERVED")
      | None => Raise type_error
      end.

Definition fit_step (policy : Policy) (st : list Outcome * list (string * string)) (o : Outcome)
    : res (list Outcome * list (string * string)) :=
  let! reason := fit_reason policy o in
  Ok (if bool_decide (reason = "OBSERVED") then (st.1 ++ [o], st.2)
      else (st.1, st.2 ++ [(o_candidate_id o, reason)])).

Record Fit := mkFit {
  fit_artifact : dict;
  fit_outcomes : list Outcome;
  fit_exclusions : list (string * string);
  fit_input : string;
  fit_usable : list Outcome }.

Definition exclusion_value (x : string * string) : value :=
  VDict [("candidate_id", VStr x.1); ("reason", VStr x.2)].

Definition fit_value (r : Fit) : dict :=
  [("artifact", VDict (fit_artifact r)); ("candidate_outcomes", VList (map outcome_value (fit_outcomes r)));
   ("calibration_sample_exclusions", VList (map exclusion_value (fit_exclusions r)));
   ("activation_performed", VBool false); ("input_sha256", VStr (fit_input r));
   ("sample_rows_usable_before_purging", VInt (Z.of_nat (length (fit_usable r))))].

Definition validity_default : Z := 86400000.

Definition fit_from_tape (p : Z) (tape : value) (cutoff_ms : Z) (policy : Policy) : res Fit :=
  let! outcomes := candidate_outcomes p tape (Some cutoff_ms) 30000 in
  let! ue := rfold (fit_step policy) outcomes ([], []) in
  let! artifact := build_calibration p (VList (map outcome_value ue.1)) (VInt cutoff_ms) policy (VInt validity_default) in
  let! input := digest tape in
  Ok (mkFit artifact outcomes ue.2 input ue.1).

(** ** [artifact_for]: the most recent artifact completed before the forecast *)

Definition completed_before (issued : Z) (a : dict) : bool :=
  match get a "completed_at_ms" with VInt c => c <? issued | _ => false end.
Definition completed_at (a : dict) : Z := match get a "completed_at_ms" with VInt c => c | _ => 0 end.
Definition later_artifact (best a : dict) : dict := if completed_at best <? completed_at a then a else best.

Definition artifact_for (f : dict) (artifacts : list dict) : res (option dict) :=
  let! issued := as_int (get f "issued_at_ms") in
  Ok (match List.filter (completed_before issued) artifacts with
      | [] => None
      | a :: l => Some (foldl later_artifact a l)
      end).

End CostTape.
