(* ===== verification/CostTapeFacts.v ===== *)
(** * Properties of the cost tape

    Alignment keeps every captured candidate and evaluates it on an observed
    quote; an observed label is the first usable quote at or after the target,
    anchored at the issue time, without a gap, and known before the cutoff; the
    samples given to the calibration are aligned. *)

From Stdlib Require Import QArith Ascii Lqa Permutation Sorted.
From S2P Require Import Prelude PyDecimal PyText PyValue RowMonad Sha256 CostPolicy CostFacts CostAdmission CostCalibration CostTape.
From stdpp Require Import base tactics list strings.
From Stdlib Require Import ZArith Lia.
Import CostPolicy CostTape.

Open Scope Z_scope.

(** ** Alignment of a capture *)

Definition row_forecast (row : value) : list value :=
  match row with
  | VDict r => if is_none (get r "forecast") then [] else [get r "forecast"]
  | _ => []
  end.
(** The forecasts of a tape, in order. *)
Definition tape_forecasts (rows : list value) : list value := flat_map row_forecast rows.

Definition event_candidate (e : value) : list value :=
  match e with
  | VDict d =>
      if eq_str (get d "event") "CANDIDATE"
      then match get d "data" with VDict x => [get x "forecast"] | _ => [] end
      else []
  | _ => []
  end.
(** The candidates of a capture, in order. *)
Definition captured_forecasts (events : list value) : list value := flat_map event_candidate events.

Definition quote_event (events : list value) (q : value) : Prop :=
  exists d, In (VDict d) events /\ get d "event" = VStr "QUOTE" /\ get d "data" = q.
Definition candidate_event (events : list value) (f : value) (at_ms : Z) : Prop :=
  exists d, In (VDict d) events /\ get d "at_ms" = VInt at_ms /\ In f (event_candidate (VDict d)).

(** A forecast row evaluates a captured candidate on a captured quote: a quote
    that is fresh at the time of the row, or the last one before the capture ends. *)
Definition evaluated_on_capture (p : Z) (instrument : string) (events : list value) (row : value) : Prop :=
  forall f, In f (row_forecast row) ->
  exists r at_ms available, row = VDict r /\ get r "at_ms" = VInt at_ms /\
    get r "forecast_available_at_ms" = VInt available /\ quote_event events (get r "quote") /\
    candidate_event events f available /\
    (fresh p instrument (get r "quote") at_ms = Ok true \/ last_row_at events = Ok at_ms).

Record alignment_inv (p : Z) (instrument : string) (events pre : list value) (st : Alignment) : Prop := {
  ai_all : Permutation (tape_forecasts (a_rows st) ++ map fst (a_pending st)) (captured_forecasts pre);
  ai_rows : forall row, In row (a_rows st) -> evaluated_on_capture p instrument events row;
  ai_quote : a_pending st <> [] \/ is_none (a_quote st) = false -> quote_event events (a_quote st);
  ai_pending : forall f a, In (f, a) (a_pending st) -> is_none f = false /\ candidate_event events f a }.

Lemma tape_forecasts_app l l' : tape_forecasts (l ++ l') = tape_forecasts l ++ tape_forecasts l'.
Proof. apply flat_map_app. Qed.

Lemma tape_forecasts_snoc l x : tape_forecasts (l ++ [x]) = tape_forecasts l ++ row_forecast x.
Proof. rewrite tape_forecasts_app. f_equal. apply app_nil_r. Qed.

Lemma row_forecast_evaluated at_ms q fa : is_none fa.1 = false -> row_forecast (evaluated at_ms q fa) = [fa.1].
Proof. unfold evaluated, row_forecast. change (get _ "forecast") with fa.1. by intros ->. Qed.

Lemma tape_forecasts_evaluated at_ms q pending :
  (forall fa, In fa pending -> is_none fa.1 = false) ->
  tape_forecasts (map (evaluated at_ms q) pending) = map fst pending.
Proof.
  intros H. induction pending as [|fa l IH]; [done|]. cbn [map tape_forecasts flat_map].
  rewrite row_forecast_evaluated by (apply H; by left). unfold tape_forecasts in IH. simpl. f_equal. apply IH. intros. apply H. by right.
Qed.

Lemma evaluated_causal p instrument events at_ms q fa :
  quote_event events q -> candidate_event events fa.1 fa.2 ->
  fresh p instrument q at_ms = Ok true \/ last_row_at events = Ok at_ms ->
  evaluated_on_capture p instrument events (evaluated at_ms q fa).
Proof.
  intros Hq Hc Hf f Hin. assert (f = fa.1) as ->.
  { unfold evaluated, row_forecast in Hin. change (get _ "forecast") with fa.1 in Hin. destruct (is_none fa.1); [done|]. by destruct Hin. }
  eexists _, at_ms, fa.2. do 3 (split; [reflexivity|]). done.
Qed.

Lemma flush_causal p instrument events at_ms q pending :
  quote_event events q -> (forall f a, In (f, a) pending -> is_none f = false /\ candidate_event events f a) ->
  fresh p instrument q at_ms = Ok true \/ last_row_at events = Ok at_ms ->
  forall row, In row (map (evaluated at_ms q) pending) -> evaluated_on_capture p instrument events row.
Proof.
  intros Hq Hp Hf row ([f a] & <- & Hin)%in_map_iff. apply evaluated_causal; try done. by apply (Hp f a).
Qed.

Lemma on_quote_inv p instrument events pre st d at_ms st' :
  In (VDict d) events -> get d "event" = VStr "QUOTE" ->
  alignment_inv p instrument events pre st -> on_quote p instrument at_ms (get d "data") st = Ok st' ->
  alignment_inv p instrument events (pre ++ [VDict d]) st'.
Proof.
  intros Hin Hk [Ha Hr Hq Hp] H. unfold on_quote in H.
  assert (Hqe : quote_event events (get d "data")) by (exists d; done).
  assert (Hc : captured_forecasts (pre ++ [VDict d]) = captured_forecasts pre).
  { unfold captured_forecasts. rewrite flat_map_app. simpl. rewrite Hk. simpl. by rewrite app_nil_r. }
  assert (Hrows : forall row, In row (a_rows st ++ [quote_row at_ms (get d "data")]) -> evaluated_on_capture p instrument events row).
  { intros row [?|[<-|[]]]%in_app_or; [by apply Hr|]. by intros f []. }
  assert (Ht : tape_forecasts (a_rows st ++ [quote_row at_ms (get d "data")]) = tape_forecasts (a_rows st)).
  { rewrite tape_forecasts_app. apply app_nil_r. }
  destruct (a_pending st) as [|fa l] eqn:Ep.
  - apply Ok_inj in H as <-. split; cbn [a_rows a_quote a_pending]; try done. by rewrite Hc, Ht.
  - apply rbind_ok in H as (b & Hb & H). apply Ok_inj in H as <-. destruct b; split; cbn [a_rows a_quote a_pending];
      try done; rewrite ?Hc; try done.
    + rewrite tape_forecasts_app, Ht, tape_forecasts_evaluated, app_nil_r; [done|]. intros [f a] Hfa. by apply (Hp f a).
    + intros row [Hrow|Hrow]%in_app_or; [by apply Hrows|].
      apply (flush_causal p instrument events at_ms (get d "data") (fa :: l)); auto.
    + by rewrite Ht.
Qed.

Lemma on_candidate_inv p instrument events pre st d x at_ms st' :
  In (VDict d) events -> get d "event" = VStr "CANDIDATE" -> get d "at_ms" = VInt at_ms -> get d "data" = VDict x ->
  alignment_inv p instrument events pre st -> on_candidate p instrument at_ms (get x "forecast") st = Ok st' ->
  alignment_inv p instrument events (pre ++ [VDict d]) st'.
Proof.
  intros Hin Hk Hat Hd [Ha Hr Hq Hp] H. unfold on_candidate in H.
  apply rbind_ok in H as (m & Hm & H). destruct (validate_forecast_ok _ _ _ Hm) as (f & Ef & _). rewrite Ef in *.
  apply rbind_ok in H as (id & _ & H). apply when_ok in H as [_ H]. apply when_ok in H as [Hqn H].
  apply rbind_ok in H as (b & Hb & H). apply Ok_inj in H as <-.
  assert (Hec : event_candidate (VDict d) = [VDict f]) by (unfold event_candidate; rewrite Hk, Hd, Ef; done).
  assert (Hc : captured_forecasts (pre ++ [VDict d]) = captured_forecasts pre ++ [VDict f]).
  { unfold captured_forecasts. rewrite flat_map_app. cbn [flat_map]. by rewrite Hec. }
  assert (Hce : candidate_event events (VDict f) at_ms) by (exists d; rewrite Hec; split; [|split]; simpl; auto).
  destruct b; split; cbn [a_rows a_quote a_pending]; rewrite ?Hc; try done; try (intros _; apply Hq; by right).
  - rewrite tape_forecasts_app. cbn [tape_forecasts flat_map]. rewrite row_forecast_evaluated by done.
    rewrite <- Ha. simpl. rewrite <- !app_assoc. apply Permutation_app_head, Permutation_cons_append.
  - intros row [?|[<-|[]]]%in_app_or; [by apply Hr|]. apply evaluated_causal; auto.
  - rewrite map_app, app_assoc. by rewrite Ha.
  - intros f' a' [?|[[= <- <-]|[]]]%in_app_or; [by apply Hp|]. done.
Qed.

Lemma subscript_get v k x : subscript v k = Ok x -> exists d, v = VDict d /\ get d k = x /\ dget k d = Some x.
Proof.
  unfold subscript, item. destruct v as [| | | | | | |d]; try done. intros H. exists d. split; [done|].
  unfold get, getd, dget_or. destruct (dget k d); [|done]. apply Ok_inj in H. by subst.
Qed.

Lemma capture_step_inv p instrument events pre st e st' :
  In e events -> alignment_inv p instrument events pre st -> capture_step p instrument st e = Ok st' ->
  alignment_inv p instrument events (pre ++ [e]) st'.
Proof.
  intros Hin Hinv H. unfold capture_step in H. apply rbind_ok in H as (t & Ht & H). apply rbind_ok in H as (k & Hk & H).
  unfold event_time in Ht. apply rbind_ok in Ht as (tv & Htv & Ht). apply as_int_ok in Ht. subst tv.
  destruct (subscript_get _ _ _ Htv) as (d & -> & Et & _).
  destruct (subscript_get _ _ _ Hk) as (d1 & [= <-] & Ek & _).
  case_if H; [|case_if H].
  - apply eq_str_true in E. subst k. apply rbind_ok in H as (q & Hq & H).
    destruct (subscript_get _ _ _ Hq) as (d2 & [= <-] & Eq & _). subst q.
    by eapply on_quote_inv.
  - apply eq_str_true in E0. subst k. apply rbind_ok in H as (x & Hx & H).
    destruct (subscript_get _ _ _ Hx) as (d2 & [= <-] & Ex & _). apply rbind_ok in H as (f & Hf & H).
    destruct (subscript_get _ _ _ Hf) as (x' & Ex' & Ef & _). subst f. subst x. by eapply on_candidate_inv.
  - apply Ok_inj in H as <-. destruct Hinv as [Ha Hr Hq Hp]. split; try done.
    unfold captured_forecasts in *. rewrite flat_map_app. simpl. rewrite Ek, E0. by rewrite app_nil_r.
Qed.

(** Every captured candidate is on the tape exactly once, evaluated on a quote of
    the capture. *)
Lemma aligned_rows_ok p events instrument rows :
  aligned_rows p events instrument = Ok rows ->
  Permutation (tape_forecasts rows) (captured_forecasts events) /\
  forall row, In row rows -> evaluated_on_capture p instrument events row.
Proof.
  unfold aligned_rows. intros H. apply rbind_ok in H as (st & Hst & H).
  assert (Hinv : alignment_inv p instrument events ([] ++ events) st).
  { refine (rfold_inv_prefix (alignment_inv p instrument events) _ events _ st _ [] _ Hst); [|split; done || by intros [?|?]].
    intros pre a x a' Hx Ha Hs. by eapply capture_step_inv. }
  destruct Hinv as [Ha Hr Hq Hp]. simpl in Ha. unfold flush_pending in H.
  destruct (a_pending st) as [|fa l] eqn:Ep.
  - apply Ok_inj in H as <-. by rewrite app_nil_r in Ha.
  - apply rbind_ok in H as (e & He & H). apply rbind_ok in H as (t & Ht & H). apply Ok_inj in H as <-. split.
    + rewrite tape_forecasts_app, tape_forecasts_evaluated; [done|]. intros [f a] Hfa. by apply (Hp f a).
    + intros row [?|Hrow]%in_app_or; [by apply Hr|]. refine (flush_causal p instrument events t _ _ (Hq _) Hp _ _ Hrow); [by left|].
      right. unfold last_row_at. by rewrite He.
Qed.

Lemma item_get d k x : item d k = Ok x -> get d k = x /\ dget k d = Some x.
Proof. unfold item, get, getd, dget_or. destruct (dget k d); [|done]. intros H. apply Ok_inj in H. by subst. Qed.

Lemma validate_tape_ok p tape t : validate_tape p tape = Ok t ->
  tape = VDict t /\ tape_header_ok t = true /\
  exists rows last, get t "rows" = VList rows /\ rfold (tape_row_step p (get t "instrument")) rows 0 = Ok last.
Proof.
  unfold validate_tape. intros H. destruct tape as [| | | | | | |d]; try done. apply when_ok in H as [Hh H].
  apply rbind_ok in H as (rows & Hr & H). apply rbind_ok in H as (l & Hl & H). apply Ok_inj in H as <-.
  apply as_list_ok in Hr. apply negb_false_iff in Hh. split; [done|]. split; [done|]. by exists rows, l.
Qed.

(** Aligning a capture keeps every candidate exactly once: the forecasts of
    the tape are a permutation of the candidates of the capture, and each is
    evaluated on a quote of the capture that is fresh at the time of its row, or
    at the end of the capture when no later quote was usable. *)
Theorem capture_alignment_sound p capture t
    (Ht : capture_to_tape p capture = Ok t) :
  exists events rows instrument, get capture "events" = VList events /\ get t "rows" = VList rows /\
    get t "instrument" = VStr instrument /\
    Permutation (tape_forecasts rows) (captured_forecasts events) /\
    forall row, In row rows -> evaluated_on_capture p instrument events row.
Proof.
  unfold capture_to_tape in Ht. apply rbind_ok in Ht as (ev & Hev & H). apply rbind_ok in H as (events & He & H).
  apply rbind_ok in H as (hd & _ & H). apply rbind_ok in H as (iv & _ & H). apply rbind_ok in H as (i & _ & H).
  apply rbind_ok in H as (rows & Hr & H). apply when_ok in H as [_ H]. apply rbind_ok in H as (sk & _ & H).
  apply rbind_ok in H as (inp & _ & H). apply validate_tape_ok in H as ([= <-] & _).
  apply as_list_ok in He. subst ev. apply item_get in Hev as [Hev _].
  exists events, rows, i. do 3 (split; [done|]). by apply aligned_rows_ok.
Qed.

(** ** Usable source quotes *)

(** A row of the tape whose quote is usable: its source time, mid and read time. *)
Definition usable (p : Z) (instrument : string) (rows : list value) (t : Z) (mid : decimal) (at_ms : Z) : Prop :=
  exists r q bid ask, In (VDict r) rows /\ get r "quote" = VDict q /\ get r "at_ms" = VInt at_ms /\
    quote_values p (VDict q) instrument at_ms DEFAULT_POLICY = Ok (bid, ask, mid) /\ get q "observed_at_ms" = VInt t.

Record uniques_ok (p : Z) (instrument : string) (pre : list value) (u : Uniques) : Prop := {
  un_keys : List.NoDup (map fst u);
  un_sound : forall t mid at_ms, dget t u = Some (mid, at_ms) -> usable p instrument pre t mid at_ms;
  un_complete : forall t mid at_ms, usable p instrument pre t mid at_ms ->
    exists m0 a0, dget t u = Some (m0, a0) /\ (dval m0 == dval mid)%Q /\ a0 <= at_ms }.

Lemma usable_app p instrument pre row t mid at_ms :
  usable p instrument pre t mid at_ms -> usable p instrument (pre ++ [row]) t mid at_ms.
Proof. intros (r & q & b & a & Hin & H). exists r, q, b, a. split; [|done]. apply in_or_app. by left. Qed.

(** Recording a quote read for the first time, or earlier than before. *)
Lemma uniques_insert p instrument pre row u t mid at_ms :
  uniques_ok p instrument pre u -> usable p instrument (pre ++ [row]) t mid at_ms ->
  (forall t' m x, usable p instrument (pre ++ [row]) t' m x ->
     usable p instrument pre t' m x \/ (t' = t /\ m = mid /\ x = at_ms)) ->
  (forall m0 a0, dget t u = Some (m0, a0) -> (dval m0 == dval mid)%Q /\ at_ms <= a0) ->
  uniques_ok p instrument (pre ++ [row]) (dset t (mid, at_ms) u).
Proof.
  intros [Hk Hs Hc] Hnew Hold Hprev. split.
  - by apply dset_NoDup.
  - intros t' m x. rewrite dget_dset. case_decide as Et; [intros [= <- <-]; by subst|]. intros Hd. apply usable_app. by apply Hs.
  - intros t' m x Hu. rewrite dget_dset. destruct (Hold _ _ _ Hu) as [Hu'|(-> & -> & ->)].
    + destruct (Hc _ _ _ Hu') as (m0 & a0 & Hd & Hv & Hx). case_decide; [|eauto]. subst t'.
      destruct (Hprev _ _ Hd) as [Hm Ha]. exists mid, at_ms. split; [done|]. split; [|lia]. by rewrite <- Hm.
    + rewrite decide_True by done. exists mid, at_ms. done.
Qed.

Lemma unique_step_ok p instrument pre u row u' :
  uniques_ok p instrument pre u -> unique_step p instrument u row = Ok u' -> uniques_ok p instrument (pre ++ [row]) u'.
Proof.
  intros Hu H. unfold unique_step in H. apply rbind_ok in H as (r & Hr & H). apply as_dict_ok in Hr. subst row.
  apply rbind_ok in H as (qv & Hq & H). apply item_get in Hq as [Hq _].
  apply rbind_ok in H as (a & Ha & H). unfold row_at in Ha. apply rbind_ok in Ha as (av & Hav & Ha).
  apply as_int_ok in Ha. subst av. apply item_get in Hav as [Hav _].
  assert (Hsnoc : forall t m x, usable p instrument (pre ++ [VDict r]) t m x -> usable p instrument pre t m x \/
    (x = a /\ exists bid ask q', qv = VDict q' /\ quote_values p qv instrument a DEFAULT_POLICY = Ok (bid, ask, m) /\
     get q' "observed_at_ms" = VInt t)).
  { intros t m x (r' & q' & b & k & [Hin|[[= <-]|[]]]%in_app_or & Hq' & Ha' & Hv & Ho); [left; by exists r', q', b, k|].
    right. split; [congruence|]. exists b, k, q'. assert (x = a) as -> by congruence. by rewrite <- Hq, Hq'. }
  destruct (quote_values p qv instrument a DEFAULT_POLICY) as [[[bid ask] mid]|e] eqn:Eq; cycle 1.
  - case_if H; [|done]. apply Ok_inj in H as <-. destruct Hu as [Hk Hs Hc]. split; [done| |].
    + intros t m x Hd. apply usable_app. by apply Hs.
    + intros t m x Hx. destruct (Hsnoc _ _ _ Hx) as [?|(_ & ? & ? & ? & _ & ? & _)]; [by apply Hc|done].
  - destruct (quote_values_ok _ _ _ _ _ _ _ _ Eq) as (_ & _ & q & o & _ & _ & -> & _ & _ & _ & _ & _ & Ho & _).
    apply rbind_ok in H as (ov & Hov & H). destruct (subscript_get _ _ _ Hov) as (q2 & [= <-] & Eo & _).
    rewrite Ho in Eo. subst ov. cbn [as_int rbind] in H.
    assert (Hnew : usable p instrument (pre ++ [VDict r]) o mid a).
    { exists r, q, bid, ask. split; [apply in_or_app; right; by left|]. done. }
    assert (Hold : forall t m x, usable p instrument (pre ++ [VDict r]) t m x ->
              usable p instrument pre t m x \/ (t = o /\ m = mid /\ x = a)).
    { intros t m x Hx. destruct (Hsnoc _ _ _ Hx) as [?|(-> & b & k & q' & [= <-] & E & Et)]; [by left|]. right. naive_solver congruence. }
    destruct (dget o u) as [[m0 a0]|] eqn:Ed.
    + apply when_ok in H as [Hm H]. apply negb_false_iff, deqb_eq in Hm. apply Ok_inj in H as <-.
      destruct (Z.ltb_spec a a0) as [Hlt|Hge].
      * apply uniques_insert; try done. intros m1 a1 E. rewrite Ed in E. injection E as <- <-. split; [done|lia].
      * destruct Hu as [Hk Hs Hc]. split; [done| |].
        -- intros t m x Hd. apply usable_app. by apply Hs.
        -- intros t m x Hx. destruct (Hold _ _ _ Hx) as [?|(-> & -> & ->)]; [by apply Hc|]. by exists m0, a0.
    + apply Ok_inj in H as <-. apply uniques_insert; try done. intros m1 a1 E. congruence.
Qed.

Lemma uniques_of_rows p instrument rows u :
  rfold (unique_step p instrument) rows [] = Ok u -> uniques_ok p instrument rows u.
Proof.
  intros H. refine (rfold_inv_prefix (uniques_ok p instrument) _ rows _ u _ [] _ H).
  - intros pre a x a' _ Ha Hs. by eapply unique_step_ok.
  - split; [constructor|done|]. by intros t m x (r & q & b & k & [] & _).
Qed.

(** ** Labels *)

Lemma has_gap_lookup g l i a b :
  has_gap g l = false -> l !! i = Some a -> l !! S i = Some b -> b - a <= g.
Proof.
  revert i. induction l as [|x l IH]; intros i H Ha Hb; [done|]. destruct l as [|y l]; [by destruct i|].
  cbn [has_gap] in H. split_bools. destruct i as [|i]; simpl in Ha, Hb; [simplify_eq; lia|]. by apply (IH i).
Qed.

(** What a label says about the rows it was computed from. *)
Record label_sound (p : Z) (instrument : string) (rows : list value) (f : dict) (issued due : Z)
    (cutoff_ms : option Z) (max_gap : Z) (l : Label) : Prop := {
  ls_window : due <= l_observed l <= due + quote_ttl;
  ls_first : forall t m x, usable p instrument rows t m x -> due <= t -> l_observed l <= t;
  ls_known : l_observed l <= l_available l /\ forall c, cutoff_ms = Some c -> l_available l < c;
  ls_move : exists mid anchor_mid anchor x, usable p instrument rows (l_observed l) mid (l_available l) /\
    usable p instrument rows issued anchor_mid x /\ dec p (get f "reference_mid") = Ok anchor /\
    (dval anchor_mid == dval anchor)%Q /\ realized_move p mid anchor = Ok (l_move l);
  ls_no_gap : forall t m x, usable p instrument rows t m x -> issued <= t < l_observed l ->
    exists t' m' x', usable p instrument rows t' m' x' /\ t < t' <= t + max_gap /\ t' <= l_observed l }.

Section labels.
Context (p : Z) (instrument : string) (rows : list value) (u : Uniques).
Hypothesis Hu : uniques_ok p instrument rows u.
Let times : list Z := sorted_by Z.leb (map fst u).

Lemma times_In t : In t times <-> exists mid x, usable p instrument rows t mid x.
Proof.
  destruct Hu as [Hk Hs Hc]. unfold times. rewrite sorted_by_In. split.
  - intros ([t' [m x]] & <- & Hin)%in_map_iff. exists m, x. apply Hs. by apply dget_of_In.
  - intros (m & x & H). destruct (Hc _ _ _ H) as (m0 & a0 & Hd & _). apply dget_In in Hd. by apply (in_map fst) in Hd.
Qed.

Lemma times_lookup t m x : usable p instrument rows t m x -> exists i, times !! i = Some t.
Proof. intros H. apply list_elem_of_lookup, list_elem_of_In, times_In. eauto. Qed.

Lemma times_sorted i j x y : times !! i = Some x -> times !! j = Some y -> ((i < j)%nat -> x < y) /\ ((i <= j)%nat -> x <= y).
Proof. destruct Hu as [Hk _ _]. by apply strictly_sorted. Qed.

Lemma bisect_times t i x : times !! i = Some x -> ((i < z_bisect times t)%nat <-> x < t).
Proof.
  intros Hx. destruct (bisect_left_spec Z.ltb times t) as (_ & L & R).
  { intros i' j y z Hy Hz Hij Hlt. rewrite Z.ltb_lt in *. destruct (times_sorted _ _ _ _ Hy Hz) as [_ Hle]. specialize (Hle Hij). lia. }
  split; intros H; [apply Z.ltb_lt; by eapply L|]. destruct (decide (i < z_bisect times t)%nat) as [|Hge]; [done|].
  assert (E : (x <? t) = false) by (eapply R; [|exact Hx]; unfold z_bisect in *; lia). lia.
Qed.

(** The label of a forecast is sound. *)
Lemma label_for_sound f issued due cutoff_ms max_gap reason l :
  0 < due - issued -> label_for p u times f issued due cutoff_ms max_gap = Ok (reason, Some l) ->
  reason = "OBSERVED" /\ label_sound p instrument rows f issued due cutoff_ms max_gap l.
Proof.
  intros Hdue H. unfold label_for in H. set (start := z_bisect times issued) in *. set (stop := z_bisect times due) in *.
  destruct (times !! stop) as [t_end|] eqn:Est; [|done]. case_if H; [|done].
  destruct (take _ _) as [|first middle] eqn:Em; [done|]. case_if H; [done|]. case_if H; [done|].
  apply rbind_ok in H as ([mid known] & Hend & H). case_if H; [done|].
  apply rbind_ok in H as (anchor & Han & H). apply rbind_ok in H as ([am ax] & Hav & H). case_if H; [done|].
  apply rbind_ok in H as (move & Hmove & H). apply Ok_inj in H. injection H as <- <-. split; [done|].
  unfold unique_at in Hend, Hav. destruct (dget t_end u) as [v|] eqn:Ed; [|done]. apply Ok_inj in Hend. subst v.
  destruct (dget first u) as [v|] eqn:Ef; [|done]. apply Ok_inj in Hav. subst v. simpl in *.
  apply (un_sound _ _ _ _ Hu) in Ed, Ef. split_bools. apply deqb_eq in H0. subst first.
  assert (Hde : due <= t_end). { pose proof (proj2 (bisect_times due stop t_end Est)). unfold stop in *. lia. }
  assert (Hlow : forall t m x, usable p instrument rows t m x -> due <= t -> t_end <= t).
  { intros t m x Ht Hd. destruct (times_lookup _ _ _ Ht) as (i & Hi).
    destruct (times_sorted stop i t_end t Est Hi) as [_ Hle]. apply Hle.
    pose proof (proj1 (bisect_times due i t Hi)). unfold stop. lia. }
  split; cbn [l_observed l_available l_move]; try done.
  - destruct Ed as (r & q & b & k & _ & _ & _ & Hqv & Ho). split.
    + destruct (quote_values_ok _ _ _ _ _ _ _ _ Hqv) as (_ & _ & q' & o & _ & _ & [= <-] & _ & _ & _ & _ & _ & Ho' & _ & Hle & _).
      rewrite Ho in Ho'. injection Ho' as <-. lia.
    + intros c ->. simpl in E2. split_bools. done.
  - by exists mid, am, anchor, ax.
  - intros t m x Ht [Hi Hl]. destruct (times_lookup _ _ _ Ht) as (i & Hti).
    assert (Hsi : (start <= i)%nat). { pose proof (proj1 (bisect_times issued i t Hti)). unfold start. lia. }
    assert (His : (i < stop)%nat). { destruct (times_sorted stop i t_end t Est Hti) as [_ Hle]. destruct (decide (i < stop)%nat); [done|]. lia. }
    destruct (times !! S i) as [t'|] eqn:Et'; cycle 1. { apply lookup_ge_None_1 in Et'. apply lookup_lt_Some in Est. lia. }
    assert (Hget : forall k y, times !! (start + k)%nat = Some y -> (start + k <= stop)%nat -> (issued :: middle) !! k = Some y).
    { intros k y Hk Hks. rewrite <- Em, lookup_take_lt by lia. by rewrite lookup_drop. }
    assert (Hg : t' - t <= max_gap).
    { apply (has_gap_lookup max_gap (issued :: middle) (i - start) t t'); [done| |]; apply Hget; try lia.
      - by replace (start + (i - start))%nat with i by lia.
      - by replace (start + S (i - start))%nat with (S i) by lia. }
    assert (Hin : In t' times) by (apply list_elem_of_In; by eapply list_elem_of_lookup_2).
    apply times_In in Hin as (m' & x' & Hux). exists t', m', x'. split; [done|].
    destruct (times_sorted i (S i) t t' Hti Et') as [Hlt _]. destruct (times_sorted (S i) stop t' t_end Et' Est) as [_ Hle].
    specialize (Hlt ltac:(lia)). specialize (Hle ltac:(lia)). lia.
Qed.
End labels.

Lemma label_for_none p u times f issued due cutoff_ms max_gap reason :
  label_for p u times f issued due cutoff_ms max_gap = Ok (reason, None) -> reason <> "OBSERVED".
Proof.
  unfold label_for. intros H ->. destruct (times !! _); [|done]. case_if H; [|done].
  destruct (take _ _) as [|x l]; [done|]. case_if H; [done|]. case_if H; [done|]. apply rbind_ok in H as ([m k] & _ & H).
  case_if H; [done|]. apply rbind_ok in H as (a & _ & H). apply rbind_ok in H as (av & _ & H). case_if H; [done|].
  by apply rbind_ok in H as (mv & _ & H).
Qed.

Lemma final_reason_observed reason known due : final_reason reason known due = "OBSERVED" <-> reason = "OBSERVED".
Proof. unfold final_reason. case_bool_decide; [subst; simpl; by destruct (_ <? _)|done]. Qed.

(** ** Rows of a valid tape *)

Definition row_ok (p : Z) (instrument : value) (row : value) : Prop :=
  exists r at_ms, row = VDict r /\ get r "at_ms" = VInt at_ms /\ 0 < at_ms /\
    (get r "forecast" = VNone \/
     exists f issued available, get r "forecast" = VDict f /\ forecast_ok p f /\ get f "issued_at_ms" = VInt issued /\
       getd (VInt at_ms) r "forecast_available_at_ms" = VInt available /\ issued <= available <= at_ms).

Lemma tape_row_step_ok p instrument last row last' : tape_row_step p instrument last row = Ok last' -> row_ok p instrument row.
Proof.
  unfold tape_row_step. intros H. destruct row as [| | | | | | |r]; try done. destruct (get r "at_ms") as [| |a| | | | |] eqn:Ea; try done.
  apply when_ok in H as [Hb H]. split_bools. exists r, a. do 2 (split; [done|]). split; [lia|].
  apply rbind_ok in H as (? & Hf & _). case_if Hf; [left; by destruct (get r "forecast")|]. right.
  unfold tape_forecast_check in Hf. apply rbind_ok in Hf as (m & Hm & Hf).
  destruct (validate_forecast_ok _ _ _ Hm) as (f & Ef & Hok). rewrite Ef in Hf. cbn [as_dict rbind] in Hf.
  apply rbind_ok in Hf as (i & Hi & Hf). apply as_int_ok in Hi. apply when_ok in Hf as [Hc _]. split_bools.
  destruct (getd _ r "forecast_available_at_ms") as [| |av| | | | |] eqn:Eav; try done. split_bools. by exists f, i, av.
Qed.

Lemma tape_rows_ok p instrument rows last0 last :
  rfold (tape_row_step p instrument) rows last0 = Ok last -> forall row, In row rows -> row_ok p instrument row.
Proof.
  revert last0. induction rows as [|x rows IH]; intros l0 H row []; simpl in H; apply rbind_ok in H as (l1 & H1 & H).
  - subst. by eapply tape_row_step_ok.
  - by eapply IH.
Qed.

(** ** Outcomes *)

Record outcome_ok (p : Z) (t : dict) (instrument : string) (rows : list value) (cutoff_ms : option Z) (max_gap : Z)
    (o : Outcome) : Prop := {
  ok_id : digest (VDict (o_forecast o)) = Ok (o_candidate_id o);
  ok_kind : o_source_kind o = get t "source_kind";
  ok_forecast : forecast_ok p (o_forecast o);
  ok_times : exists issued horizon available, get (o_forecast o) "issued_at_ms" = VInt issued /\
    get (o_forecast o) "horizon_sec" = VInt horizon /\ o_target_at o = issued + horizon * 1000 /\
    o_forecast_available o = VInt available /\ issued <= available /\
    forall l, o_label o = Some l ->
      label_sound p instrument rows (o_forecast o) issued (o_target_at o) cutoff_ms max_gap l;
  ok_observed : o_reason o = "OBSERVED" <-> o_label o <> None }.

Record outcomes_inv (p : Z) (t : dict) (instrument : string) (rows : list value) (cutoff_ms : option Z) (max_gap : Z)
    (pre : list value) (st : list Outcome * list string) : Prop := {
  oi_all : map (fun o => VDict (o_forecast o)) st.1 = tape_forecasts pre;
  oi_seen : st.2 = map o_candidate_id st.1;
  oi_distinct : List.NoDup (map o_candidate_id st.1);
  oi_ok : forall o, In o st.1 -> outcome_ok p t instrument rows cutoff_ms max_gap o }.

Lemma forecast_truthy p f : forecast_ok p f -> truthy (VDict f) = true.
Proof. intros H. pose proof (fk_model _ _ H). by destruct f. Qed.

Lemma outcome_of_ok p t instrument rows u cutoff_ms max_gap last_at r f at_ms key issued available o :
  uniques_ok p instrument rows u -> forecast_ok p f -> get r "at_ms" = VInt at_ms ->
  get f "issued_at_ms" = VInt issued -> getd (VInt at_ms) r "forecast_available_at_ms" = VInt available ->
  issued <= available -> digest (VDict f) = Ok key ->
  outcome_of p u (sorted_by Z.leb (map fst u)) (get t "source_kind") last_at cutoff_ms max_gap r f key = Ok o ->
  o_forecast o = f /\ o_candidate_id o = key /\ outcome_ok p t instrument rows cutoff_ms max_gap o.
Proof.
  intros Hu Hf Hat Hi Hav Hle Hd H. unfold outcome_of in H. rewrite Hi in H. cbn [as_int rbind] in H.
  apply rbind_ok in H as (h & Hh & H). apply as_int_ok in Hh. apply rbind_ok in H as (a & Ha & H).
  apply rbind_ok in H as ([reason lab] & Hl & H). apply Ok_inj in H as <-. cbn [o_forecast o_candidate_id].
  split; [done|]. split; [done|].
  unfold row_at in Ha. apply rbind_ok in Ha as (v & Hv & Ha). apply item_get in Hv as [Hv _]. rewrite Hat in Hv. subst v.
  apply Ok_inj in Ha. subst a.
  destruct (fk_horizon _ _ Hf) as (h' & Eh & Hh'). rewrite Hh in Eh. injection Eh as <-. apply horizon_pos in Hh'.
  split; cbn [o_forecast o_candidate_id o_source_kind o_reason o_label o_target_at o_forecast_available fst snd]; try done.
  - exists issued, h, available. do 5 (split; [done|]). intros l ->.
    apply (label_for_sound p instrument rows u Hu f issued (issued + h * 1000) cutoff_ms max_gap reason l) in Hl; [tauto|lia].
  - rewrite final_reason_observed. destruct lab as [l|].
    + apply (label_for_sound p instrument rows u Hu) in Hl as [-> _]; [done|lia].
    + apply label_for_none in Hl. done.
Qed.

Lemma outcome_step_inv p t instrument rows u cutoff_ms max_gap last_at pre st row st' :
  uniques_ok p instrument rows u -> row_ok p (VStr instrument) row ->
  outcomes_inv p t instrument rows cutoff_ms max_gap pre st ->
  outcome_step p u (sorted_by Z.leb (map fst u)) (get t "source_kind") last_at cutoff_ms max_gap st row = Ok st' ->
  outcomes_inv p t instrument rows cutoff_ms max_gap (pre ++ [row]) st'.
Proof.
  intros Hu (r & a & -> & Hat & _ & Hfc) [Hall Hseen Hnd Hok] H. unfold outcome_step in H. cbn [as_dict rbind] in H.
  assert (Hrf : forall v, get r "forecast" = v -> row_forecast (VDict r) = if is_none v then [] else [v]) by (intros v <-; done).
  destruct Hfc as [En|(f & i & av & Ef & Hf & Hi & Hav & Hle)].
  - rewrite En in H. apply Ok_inj in H as <-. split; try done. by rewrite tape_forecasts_snoc, (Hrf _ En), app_nil_r.
  - rewrite Ef, (forecast_truthy _ _ Hf) in H. cbn [negb as_dict rbind] in H.
    apply rbind_ok in H as (key & Hkey & H). apply when_ok in H as [Hdup H]. apply rbind_ok in H as (o & Ho & H). apply Ok_inj in H as <-.
    destruct (outcome_of_ok p t instrument rows u cutoff_ms max_gap last_at r f a key i av o) as (Eo & Ek & Hoo); try done; [lia|].
    split; cbn [fst snd]; rewrite ?map_app.
    + rewrite tape_forecasts_snoc, Hall, (Hrf _ Ef). simpl. by rewrite Eo.
    + simpl. by rewrite Hseen, Ek.
    + apply List.NoDup_app; [done|repeat constructor; simpl; tauto|]. intros x Hx [<-|[]]. rewrite Ek, <- Hseen in Hx.
      assert (existsb (fun x => bool_decide (x = key)) st.2 = true); [|congruence].
      apply existsb_exists. exists key. split; [done|]. by apply bool_decide_eq_true.
    + intros x [?|[<-|[]]]%in_app_or; auto.
Qed.

Lemma candidate_outcomes_ok p tape cutoff_ms max_gap os :
  candidate_outcomes p tape cutoff_ms max_gap = Ok os ->
  exists t rows instrument, tape = VDict t /\ get t "rows" = VList rows /\ get t "instrument" = VStr instrument /\
    map (fun o => VDict (o_forecast o)) os = tape_forecasts rows /\ List.NoDup (map o_candidate_id os) /\
    forall o, In o os -> outcome_ok p t instrument rows cutoff_ms max_gap o.
Proof.
  unfold candidate_outcomes. intros Ho. apply rbind_ok in Ho as (t & Ht & H).
  destruct (validate_tape_ok _ _ _ Ht) as (-> & _ & rows & last & Er & Hrows).
  rewrite Er in H. cbn [as_list rbind] in H. apply rbind_ok in H as (i & Hi & H). apply as_str_ok in Hi. rewrite Hi in Hrows.
  apply rbind_ok in H as (u & Hu & H). apply rbind_ok in H as (la & _ & H). apply rbind_ok in H as (st & Hst & H).
  apply Ok_inj in H as <-. apply uniques_of_rows in Hu. exists t, rows, i. do 3 (split; [done|]).
  assert (Hinv : outcomes_inv p t i rows cutoff_ms max_gap ([] ++ rows) st).
  { refine (rfold_inv_prefix (outcomes_inv p t i rows cutoff_ms max_gap) _ rows _ st _ [] _ Hst); [|split; done || constructor].
    intros pre a x a' Hx Ha Hs. eapply outcome_step_inv; eauto. by eapply tape_rows_ok. }
  destruct Hinv as [Hall _ Hnd Hok]. done.
Qed.

(** Every forecast of a tape has exactly one outcome, in tape order and with
    a distinct identity; an outcome is labelled exactly when its reason is
    OBSERVED, and a label is the first usable source quote at or after the target
    and within the quote lifetime, was known before the cutoff, is anchored at a
    quote observed at the issue time whose mid is the forecast's reference, and
    has no data gap between the two. *)
Theorem outcomes_sound p tape cutoff_ms max_gap os
    (Ho : candidate_outcomes p tape cutoff_ms max_gap = Ok os) :
  exists t rows instrument, tape = VDict t /\ get t "rows" = VList rows /\ get t "instrument" = VStr instrument /\
    map (fun o => VDict (o_forecast o)) os = tape_forecasts rows /\ List.NoDup (map o_candidate_id os) /\
    (forall o, In o os -> (o_reason o = "OBSERVED" <-> o_label o <> None) /\
       exists issued, get (o_forecast o) "issued_at_ms" = VInt issued /\
       forall l, o_label o = Some l ->
         label_sound p instrument rows (o_forecast o) issued (o_target_at o) cutoff_ms max_gap l).
Proof.
  destruct (candidate_outcomes_ok _ _ _ _ _ Ho) as (t & rows & i & Et & Er & Ei & Hall & Hnd & Hok).
  exists t, rows, i. do 5 (split; [done|]). intros o Hin. destruct (Hok o Hin) as [_ _ _ (j & h & av & Hj & _ & _ & _ & _ & Hl) Hobs].
  split; [done|]. by exists j.
Qed.

(** ** Fitting *)

(** A directional outcome whose times pass the alignment test of the calibration. *)
Definition aligned_sample (policy : Policy) (cutoff_ms : Z) (o : Outcome) : Prop :=
  get (o_forecast o) "action" <> VStr "HOLD" /\
  exists issued available ttl entry_ttl l, get (o_forecast o) "issued_at_ms" = VInt issued /\
    o_forecast_available o = VInt available /\ o_label o = Some l /\
    quote_ttl_ms policy = VInt ttl /\ forecast_entry_ttl_ms policy = VInt entry_ttl /\
    label_misaligned ttl entry_ttl cutoff_ms issued (o_target_at o) (l_observed l) (l_available l) available = false.

Lemma fit_reason_observed p t instrument rows policy cutoff_ms max_gap ttl o :
  quote_ttl_ms policy = VInt ttl -> quote_ttl <= ttl -> outcome_ok p t instrument rows (Some cutoff_ms) max_gap o ->
  fit_reason policy o = Ok "OBSERVED" -> aligned_sample policy cutoff_ms o.
Proof.
  intros Hq Hle [_ _ _ (i & h & av & Hi & Hh & Ht & Hav & Hia & Hl) _] H. unfold fit_reason in H.
  case_if H; [by apply Ok_inj in H; rewrite H in E|]. case_if H; [done|].
  rewrite Hav, Hi in H. cbn [as_int rbind] in H. apply rbind_ok in H as (ettl & He & H). apply as_int_ok in He.
  case_if H; [done|]. destruct (o_label o) as [l|] eqn:El; [|done]. apply Ok_inj in H. case_if H; [done|].
  destruct (Hl l eq_refl) as [Hw _ [Hk Hc] _ _]. specialize (Hc cutoff_ms eq_refl). split_bools.
  split; [intros Ea; by rewrite Ea in E0|]. exists i, av, ttl, ettl, l. do 5 (split; [done|]). rewrite Ht in *.
  unfold label_misaligned. repeat (apply orb_false_intro); try (apply negb_false_iff, andb_true_intro; split); lia.
Qed.

(** The outcomes of a tape are split into calibration samples and recorded
    exclusions, and every sample passes the alignment test of the calibration, so
    a late or unobservable forecast is excluded instead of aborting the fit. *)
Theorem fit_samples_aligned p tape cutoff_ms policy ttl outcomes usable excluded
    (Ho : candidate_outcomes p tape (Some cutoff_ms) 30000 = Ok outcomes)
    (Hf : rfold (fit_step policy) outcomes ([], []) = Ok (usable, excluded))
    (Hq : quote_ttl_ms policy = VInt ttl) (Httl : quote_ttl <= ttl) :
  Permutation (map o_candidate_id usable ++ map fst excluded) (map o_candidate_id outcomes) /\
  forall o, In o usable -> In o outcomes /\ aligned_sample policy cutoff_ms o.
Proof.
  destruct (candidate_outcomes_ok _ _ _ _ _ Ho) as (t & rows & i & _ & _ & _ & _ & _ & Hok).
  set (Inv := fun pre (st : list Outcome * list (string * string)) =>
    Permutation (map o_candidate_id st.1 ++ map fst st.2) (map o_candidate_id pre) /\
    forall o, In o st.1 -> In o outcomes /\ aligned_sample policy cutoff_ms o).
  assert (H : Inv ([] ++ outcomes) (usable, excluded)); [|exact H].
  refine (rfold_inv_prefix Inv _ outcomes _ _ _ [] _ Hf); [|by split].
  intros pre [us ex] o st' Ho' [Hperm Hin] H. unfold fit_step in H. apply rbind_ok in H as (reason & Hr & H).
  apply Ok_inj in H as <-. case_bool_decide as E; split; cbn [fst snd] in *; rewrite ?map_app; simpl.
  - rewrite <- Hperm, <- !app_assoc. apply Permutation_app_head, Permutation_cons_append.
  - intros o' [?|[<-|[]]]%in_app_or; [by apply Hin|]. subst reason. split; [done|]. eapply fit_reason_observed; eauto.
  - by rewrite app_assoc, Hperm.
  - apply Hin.
Qed.

(** ** Artifacts *)

Lemma later_artifact_max l a : forall b, In b (a :: l) -> completed_at b <= completed_at (foldl later_artifact a l).
Proof.
  revert a. induction l as [|x l IH]; intros a b Hb; simpl; [destruct Hb as [->|[]]; lia|].
  assert (Ha : completed_at a <= completed_at (later_artifact a x) /\ completed_at x <= completed_at (later_artifact a x)).
  { unfold later_artifact. destruct (Z.ltb_spec (completed_at a) (completed_at x)); lia. }
  pose proof (IH (later_artifact a x) _ (or_introl eq_refl)).
  destruct Hb as [->|[->|Hb]]; [lia|lia|]. apply IH. by right.
Qed.
Lemma later_artifact_In l a : In (foldl later_artifact a l) (a :: l).
Proof.
  revert a. induction l as [|x l IH]; intros a; simpl; [by left|]. destruct (IH (later_artifact a x)) as [E|E]; [|tauto].
  rewrite <- E. unfold later_artifact. destruct (_ <? _); tauto.
Qed.

(** The artifact a forecast is judged with was completed before the forecast was
    issued and is the most recent such artifact. *)
Lemma artifact_for_ok f artifacts a :
  artifact_for f artifacts = Ok (Some a) ->
  exists issued, get f "issued_at_ms" = VInt issued /\ In a artifacts /\ completed_before issued a = true /\
    forall b, In b artifacts -> completed_before issued b = true -> completed_at b <= completed_at a.
Proof.
  unfold artifact_for. intros H. apply rbind_ok in H as (i & Hi & H). apply as_int_ok in Hi. apply Ok_inj in H.
  destruct (List.filter _ artifacts) as [|x l] eqn:E; [done|]. injection H as <-. exists i. split; [done|].
  assert (Hin := later_artifact_In l x). rewrite <- E in Hin. apply filter_In in Hin as [Hin Hc].
  split; [done|]. split; [done|]. intros b Hb Hbc. apply later_artifact_max. rewrite <- E. by apply filter_In.
Qed.
