(* ===== verification/CostPath.v ===== *)
(** * Counterfactual paths of the cost replay

    Models [PathState], [compare] and the stress variants of
    research/cost_aware/scripts/hepta_cost_replay.py.  A path owns its position,
    its clock, its decisions and its equity curve; the four parts of the Python
    object are the four records below, and a method returns the new object. *)

From Stdlib Require Import QArith Ascii Floats.SpecFloat.
From S2P Require Import Prelude PyDecimal PyText PyValue RowMonad Sha256 CostPolicy CostTape.
From stdpp Require Import base tactics list strings.
From Stdlib Require Import ZArith Lia.
Import CostPolicy CostTape.

Open Scope Z_scope.

Module CostPath.

Definition NAMES : list string := ["DIRECTION_BASELINE"; "COST_GATE"; "COST_GATE_BAND"].

(** The attributes [__init__] sets once. *)
Record Config := mkConfig {
  c_name : string;
  c_instrument : string;
  c_size : decimal;
  c_capital : decimal;
  c_policy : Policy;
  c_gate : string }.

Inductive Trade :=
| Opened (at_ms : Z) (candidate_id : string) (quantity price fee : decimal)
| Closed (at_ms : Z) (reason : string) (quantity price fee : decimal) (holding_ms : Z) (gross net : decimal).

Record Position := mkPosition {
  cash : decimal;
  quantity : decimal;
  entry_price : option decimal;
  entry_at : Z;
  last_exit : Z;
  entry_forecast : option dict;
  entry_fee : decimal;
  fees : decimal;
  turnover : decimal;
  trades : list Trade }.

Record Clock := mkClock {
  last_at : option Z;
  last_mid : option decimal;
  exposure_integral : decimal;
  exposure_ms : Z;
  carry : decimal;
  path_complete : bool }.

Record Decision := mkDecision {
  d_candidate_id : string;
  d_at : Z;
  d_before : option decimal;
  d_action : string;
  d_reason : string;
  d_evidence : option dict;
  d_after : option decimal }.

Record Curve := mkCurve {
  high_water : decimal;
  max_drawdown : decimal;
  max_exposure : decimal;
  last_equity : decimal;
  marks : list (Z * decimal * decimal) }.

Record Path := mkPath {
  position : Position;
  clock : Clock;
  decisions : list Decision;
  missing_marks : Z;
  curve : Curve }.

Definition PathState_init (p : Z) (name instrument : string) (size capital : value) (policy : Policy) (gate_mode : string)
    : res (Config * Path) :=
  let! size := dec p size in
  let! capital := dec p capital in
  when negb (bool_decide (gate_mode = "calibrated") || bool_decide (gate_mode = "remote_raw"))
  raise cost_error "REPLAY_GATE_MODE_INVALID" in
  Ok (mkConfig name instrument size capital policy gate_mode,
      mkPath (mkPosition capital ZERO None 0 0 None ZERO ZERO ZERO [])
             (mkClock None None ZERO 0 ZERO true) [] 0
             (mkCurve capital ZERO ZERO capital [])).

(** ** Executions *)

Definition price (p : Z) (c : Config) (quote : value) (side : string) : res decimal :=
  let! s := slip p (c_policy c) (c_instrument c) in
  let! sl := ddiv p s BPS in
  if bool_decide (side = "BUY") then
    let! av := subscript quote "ask" in
    let! ask := dec p av in
    let! up := dadd p ONE sl in
    dmul p ask up
  else
    let! bv := subscript quote "bid" in
    let! bid := dec p bv in
    let! down := dsub p ONE sl in
    dmul p bid down.

Definition open_path (p : Z) (c : Config) (f : dict) (quote : value) (at_ms : Z) (s : Position) : res Position :=
  let! side := as_str (get f "action") in
  let! price := price p c quote side in
  let! quantity := (if is_btc (c_instrument c) then ddiv p (c_size c) price else Ok (c_size c)) in
  let sign := direction_of side in
  let! signed := dmul p sign quantity in
  let! amount := (if is_btc (c_instrument c) then Ok (c_size c) else dmul p quantity price) in
  let! fee := commission p (c_instrument c) (VDec amount) (fee_stress (c_policy c)) in
  let! sa := dmul p sign amount in
  let! paid := dadd p sa fee in
  let! cash' := dsub p (cash s) paid in
  let! fees' := dadd p (fees s) fee in
  let! turnover' := dadd p (turnover s) amount in
  let! id := digest (VDict f) in
  Ok (mkPosition cash' signed (Some price) at_ms (last_exit s) (Some f) fee fees' turnover'
        (trades s ++ [Opened at_ms id signed price fee])).

Definition exit_side (q : decimal) : string := if dltb ZERO q then "SELL" else "BUY".

Definition close_path (p : Z) (c : Config) (quote : value) (at_ms : Z) (reason : string) (s : Position) : res Position :=
  let! price := price p c quote (exit_side (quantity s)) in
  let! aq := dabs p (quantity s) in
  let! amount := dmul p aq price in
  let! fee := commission p (c_instrument c) (VDec amount) (fee_stress (c_policy c)) in
  let! qp := dmul p (quantity s) price in
  let! received := dsub p qp fee in
  let! cash' := dadd p (cash s) received in
  let! fees' := dadd p (fees s) fee in
  let! turnover' := dadd p (turnover s) amount in
  match entry_price s with
  | Some entry =>
      let! dp := dsub p price entry in
      let! gross := dmul p dp (quantity s) in
      let! n1 := dsub p gross fee in
      let! net := dsub p n1 (entry_fee s) in
      Ok (mkPosition cash' ZERO None (entry_at s) at_ms None (entry_fee s) fees' turnover'
            (trades s ++ [Closed at_ms reason (quantity s) price fee (at_ms - entry_at s) gross net]))
  | None => Raise type_error
  end.

(** ** One row of the tape *)

(** Exposure and carry since the previous row. *)
Definition accrue (p : Z) (c : Config) (at_ms : Z) (s : Position) (k : Clock) : res Clock :=
  match last_at k, last_mid k with
  | Some t, Some mid =>
      if dnonzero (quantity s) && dnonzero mid then
        let elapsed := at_ms - t in
        let! aq := dabs p (quantity s) in
        let! exposure := dmul p aq mid in
        let! ee := dmul p exposure (dec_of_Z elapsed) in
        let! integral := dadd p (exposure_integral k) ee in
        let! hb := dec p (holding_bps_per_hour (c_policy c)) in
        let! c1 := dmul p exposure hb in
        let! c2 := ddiv p c1 BPS in
        let! c3 := dmul p c2 (dec_of_Z elapsed) in
        let! c4 := ddiv p c3 (dec_of_Z 3600000) in
        let! carry' := dadd p (carry k) c4 in
        Ok (mkClock (Some at_ms) (last_mid k) integral (exposure_ms k + elapsed) carry'
              (path_complete k && negb (30000 <? elapsed)))
      else Ok (mkClock (Some at_ms) (last_mid k) (exposure_integral k) (exposure_ms k) (carry k) (path_complete k))
  | _, _ => Ok (mkClock (Some at_ms) (last_mid k) (exposure_integral k) (exposure_ms k) (carry k) (path_complete k))
  end.

(** What a candidate led to: the new position, the action, the reason, the evidence. *)
Record Verdict := mkVerdict {
  v_position : Position; v_action : string; v_reason : string; v_evidence : option dict }.

Definition confident (p : Z) (f : dict) : res bool :=
  let! d := dec p (get f "confidence") in Ok (dleb (Dec false 62 (-2)) d).

(** A reversal while a position is open. *)
Definition on_reversal (p : Z) (c : Config) (f : dict) (quote : value) (at_ms : Z) (artifact : value) (synthetic_ok : bool)
    (s : Position) : res Verdict :=
  let! tr :=
    (if bool_decide (c_name c = "COST_GATE_BAND") then
       if bool_decide (c_gate c = "remote_raw")
       then remote_discretionary_exit p (VDict f) quote (VDec (quantity s)) at_ms (c_policy c) true
       else discretionary_exit p (VDict f) quote (VDec (quantity s)) at_ms artifact (c_policy c) synthetic_ok true
     else Ok (true, "DIRECTION_REVERSAL")) in
  let '(take_exit, reason) := tr in
  if take_exit : bool then
    let! s' := close_path p c quote at_ms reason s in Ok (mkVerdict s' "CLOSE" reason None)
  else Ok (mkVerdict s "HOLD" reason None).

(** [",".join(evidence["reasons"])] *)
Definition joined_reasons (evidence : dict) : res string :=
  let! rv := item evidence "reasons" in
  let! l := as_list rv in
  let! ss := rmapM as_str l in
  Ok (PyValue.join "," ss).

(** The entry gate of the path. *)
Definition gate (p : Z) (c : Config) (f : dict) (quote : value) (at_ms : Z) (artifact : value) (synthetic_ok : bool)
    (s : Position) : res dict :=
  if bool_decide (c_gate c = "remote_raw")
  then remote_entry_admission p (VDict f) quote (VDec (c_size c)) at_ms (VInt (last_exit s))
         (bool_decide (c_name c = "COST_GATE_BAND")) (c_policy c)
  else entry_admission p (VDict f) quote (VDec (c_size c)) at_ms artifact (VInt (last_exit s))
         (bool_decide (c_name c = "COST_GATE_BAND")) (c_policy c) synthetic_ok.

Definition baseline_evidence : dict := [("allowed", VBool true); ("reason", VStr "BASELINE_COST_UNAWARE")].

Definition on_entry (p : Z) (c : Config) (f : dict) (quote : value) (at_ms : Z) (artifact : value) (synthetic_ok : bool)
    (s : Position) : res Verdict :=
  let! ae :=
    (if bool_decide (c_name c = "DIRECTION_BASELINE") then Ok (true, baseline_evidence)
     else
       let! evidence := gate p c f quote at_ms artifact synthetic_ok s in
       let! allowed := item evidence "allowed" in
       Ok (truthy allowed, evidence)) in
  let '(allowed, evidence) := ae in
  if allowed : bool then
    let! s' := open_path p c f quote at_ms s in Ok (mkVerdict s' "OPEN" "ACCEPTED" (Some evidence))
  else
    let! reason := joined_reasons evidence in Ok (mkVerdict s "REJECT" reason (Some evidence)).

Definition decide_candidate (p : Z) (c : Config) (f : dict) (quote : value) (at_ms : Z) (artifact : value)
    (synthetic_ok closed : bool) (s : Position) : res Verdict :=
  let! issued := as_int (get f "issued_at_ms") in
  let! ttl := as_int (forecast_entry_ttl_ms (c_policy c)) in
  if closed then Ok (mkVerdict s "NO_SAME_TICK_REENTRY" "RISK_EXIT_HAS_PRIORITY" None)
  else if ttl <? at_ms - issued then Ok (mkVerdict s "REJECT" "FORECAST_STALE" None)
  else if dnonzero (quantity s) then
    let! reverse := Ok (eq_str (get f "action") (exit_side (quantity s))) &&? confident p f in
    if reverse : bool then on_reversal p c f quote at_ms artifact synthetic_ok s
    else Ok (mkVerdict s "HOLD" "NO_REVERSAL" None)
  else
    let! undirected := Ok (eq_str (get f "action") "HOLD") ||? pnot (confident p f) in
    if undirected : bool then Ok (mkVerdict s "REJECT" "DIRECTION_OR_CONFIDENCE" None)
    else if is_btc (c_instrument c) && eq_str (get f "action") "SELL"
    then Ok (mkVerdict s "REJECT" "CRYPTO_SHORT_UNSUPPORTED" None)
    else on_entry p c f quote at_ms artifact synthetic_ok s.

(** [artifact_for(forecast, artifacts) if self.gate_mode == "calibrated" else None] *)
Definition choose_artifact (c : Config) (f : dict) (artifacts : list dict) : res value :=
  if bool_decide (c_gate c = "calibrated") then
    let! a := artifact_for f artifacts in
    Ok (match a with Some a => VDict a | None => VNone end)
  else Ok VNone.

Definition mark_equity (p : Z) (c : Config) (quote : value) (s : Position) (k : Clock) : res decimal :=
  let! equity := dsub p (cash s) (carry k) in
  if dnonzero (quantity s) then
    let! exit_price := price p c quote (exit_side (quantity s)) in
    let! qp := dmul p (quantity s) exit_price in
    let! aq := dabs p (quantity s) in
    let! amount := dmul p aq exit_price in
    let! fee := commission p (c_instrument c) (VDec amount) (fee_stress (c_policy c)) in
    let! value := dsub p qp fee in
    dadd p equity value
  else Ok equity.

Definition mark (p : Z) (c : Config) (quote : value) (at_ms : Z) (mid : decimal) (s : Position) (k : Clock) (v : Curve)
    : res Curve :=
  let! aq := dabs p (quantity s) in
  let! exposure := dmul p aq mid in
  let! equity := mark_equity p c quote s k in
  let hw := dmax (high_water v) equity in
  let! dd := dsub p hw equity in
  Ok (mkCurve hw (dmax (max_drawdown v) dd) (dmax (max_exposure v) exposure) equity
        (marks v ++ [(at_ms, equity, quantity s)])).

(** The common risk rules; the flag says whether the position was closed. *)
Definition risk_step (p : Z) (c : Config) (quote : value) (at_ms : Z) (s : Position) : res (Position * bool) :=
  let! why := risk_exit p (VDec (quantity s)) (match entry_price s with Some e => VDec e | None => VNone end) quote at_ms false
                (match entry_forecast s with Some f => VDict f | None => VNone end) (VStr ".002") in
  match why with
  | Some reason => let! s' := close_path p c quote at_ms reason s in Ok (s', true)
  | None => Ok (s, false)
  end.

Definition candidate_step (p : Z) (c : Config) (quote : value) (at_ms : Z) (artifacts : list dict) (synthetic_ok closed : bool)
    (forecast : value) (s : Position) : res (Position * list Decision) :=
  if truthy forecast then
    let! f := as_dict forecast in
    let! id := digest (VDict f) in
    let! artifact := choose_artifact c f artifacts in
    let! v := decide_candidate p c f quote at_ms artifact synthetic_ok closed s in
    Ok (v_position v, [mkDecision id at_ms (Some (quantity s)) (v_action v) (v_reason v) (v_evidence v)
                         (Some (quantity (v_position v)))])
  else Ok (s, []).

(** A row without a usable quote trades nothing. *)
Definition unusable_quote (e : exn) (at_ms : Z) (forecast : value) (w : Path) (k : Clock) : res Path :=
  let k' := mkClock (last_at k) (last_mid k) (exposure_integral k) (exposure_ms k) (carry k)
              (path_complete k && negb (dnonzero (quantity (position w)))) in
  if truthy forecast then
    let! id := digest forecast in
    Ok (mkPath (position w) k' (decisions w ++ [mkDecision id at_ms None "REJECT" (emsg e) None None])
          (missing_marks w + 1) (curve w))
  else Ok (mkPath (position w) k' (decisions w) (missing_marks w + 1) (curve w)).

Definition step (p : Z) (c : Config) (artifacts : list dict) (synthetic_ok : bool) (w : Path) (row : value) : res Path :=
  let! r := as_dict row in
  let! at_ms := row_at r in
  let! quote := item r "quote" in
  let forecast := get r "forecast" in
  let! k := accrue p c at_ms (position w) (clock w) in
  match quote_values p quote (c_instrument c) at_ms (c_policy c) with
  | Raise e => if bool_decide (ecls e = CostError) then unusable_quote e at_ms forecast w k else Raise e
  | Ok (_, _, mid) =>
      let k := mkClock (last_at k) (Some mid) (exposure_integral k) (exposure_ms k) (carry k) (path_complete k) in
      let! sc := risk_step p c quote at_ms (position w) in
      let '(s, closed) := sc in
      let! sd := candidate_step p c quote at_ms artifacts synthetic_ok closed forecast s in
      let '(s, ds) := sd in
      let! v := mark p c quote at_ms mid s k (curve w) in
      Ok (mkPath s k (decisions w ++ ds) (missing_marks w) v)
  end.

(** ** Reports *)

Definition opt_sdec (d : option decimal) : value := match d with Some d => sdec d | None => VNone end.

Definition trade_value (t : Trade) : value :=
  match t with
  | Opened at_ms id q price fee =>
      VDict [("event", VStr "OPEN"); ("at_ms", VInt at_ms); ("candidate_id", VStr id); ("order_type", VStr "MKT");
             ("quantity", sdec q); ("price", sdec price); ("commission_usd", sdec fee)]
  | Closed at_ms reason q price fee holding gross net =>
      VDict [("event", VStr "CLOSE"); ("at_ms", VInt at_ms); ("reason", VStr reason); ("order_type", VStr "MKT");
             ("quantity", sdec q); ("price", sdec price); ("commission_usd", sdec fee); ("holding_ms", VInt holding);
             ("execution_gross_usd", sdec gross); ("execution_net_before_carry_usd", sdec net)]
  end.

Definition decision_value (d : Decision) : value :=
  VDict ([("candidate_id", VStr (d_candidate_id d)); ("at_ms", VInt (d_at d))] ++
         match d_before d with Some q => [("position_before", sdec q)] | None => [] end ++
         [("action", VStr (d_action d)); ("reason", VStr (d_reason d))] ++
         match d_evidence d with Some e => [("evidence", VDict e)] | None => [] end ++
         match d_after d with Some q => [("position_after", sdec q)] | None => [] end).

Definition mark_value (m : Z * decimal * decimal) : value :=
  let '(at_ms, equity, q) := m in
  VDict [("at_ms", VInt at_ms); ("net_liquidation_equity_usd", sdec equity); ("quantity", sdec q)].

Definition is_close (t : Trade) : bool := match t with Closed _ _ _ _ _ _ _ _ => true | Opened _ _ _ _ _ => false end.
Definition is_open (t : Trade) : bool := negb (is_close t).
Definition holding_of (t : Trade) : Z := match t with Closed _ _ _ _ _ h _ _ => h | Opened _ _ _ _ _ => 0 end.

(** [a / b] on integers, [b > 0]. *)
Definition true_div (a b : Z) : value :=
  match a, b with
  | Zpos n, Zpos d => VFloat (float_of_ratio n d)
  | Zneg n, Zpos d => VFloat (SFopp (float_of_ratio n d))
  | _, _ => VFloat (S754_zero false)
  end.

Definition average_holding (exits : list Trade) : value :=
  match exits with
  | [] => VNone
  | _ => true_div (foldr (fun t n => holding_of t + n) 0 exits) (Z.of_nat (length exits))
  end.

Definition counted_action (a : string) : bool :=
  bool_decide (a = "REJECT") || bool_decide (a = "HOLD") || bool_decide (a = "NO_SAME_TICK_REENTRY").

Definition count_reason (reasons : list (string * Z)) (d : Decision) : list (string * Z) :=
  if counted_action (d_action d) then dset (d_reason d) (dget_or 0 (d_reason d) reasons + 1) reasons else reasons.

Definition summary (p : Z) (c : Config) (w : Path) (duration_ms : Z) : res dict :=
  let s := position w in let k := clock w in let v := curve w in
  let exits := List.filter is_close (trades s) in
  let reasons := foldl count_reason [] (decisions w) in
  let! pnl := dsub p (last_equity v) (c_capital c) in
  let span := dec_of_Z (Z.max 1 duration_ms) in
  let! average := ddiv p (exposure_integral k) span in
  let! exposed := ddiv p (dec_of_Z (exposure_ms k)) span in
  Ok [("strategy", VStr (c_name c)); ("gate_mode", VStr (c_gate c));
      ("complete_observed_path", VBool (path_complete k));
      ("net_liquidation_pnl_usd", if path_complete k then sdec pnl else VNone);
      ("partial_observed_net_liquidation_pnl_usd", sdec pnl);
      ("commission_paid_usd", sdec (fees s)); ("holding_haircut_usd", sdec (carry k));
      ("turnover_usd", sdec (turnover s));
      ("max_drawdown_usd", if path_complete k then sdec (max_drawdown v) else VNone);
      ("max_exposure_usd", sdec (max_exposure v));
      ("average_exposure_usd", sdec average); ("time_exposed_fraction", sdec exposed);
      ("completed_round_trips", VInt (Z.of_nat (length exits)));
      ("open_events", VInt (Z.of_nat (length (List.filter is_open (trades s)))));
      ("average_holding_ms_closed", average_holding exits);
      ("remaining_simulated_quantity", sdec (quantity s)); ("missing_marks", VInt (missing_marks w));
      ("rejection_or_hold_reasons", VDict (map (fun kv : string * Z => (kv.1, VInt kv.2)) reasons));
      ("decisions", VList (map decision_value (decisions w)));
      ("trades", VList (map trade_value (trades s)));
      ("marks", VList (map mark_value (marks v)));
      ("net_basis", VStr "SIMULATED_BID_ASK_LIQUIDATION_WITH_EXIT_FEE_AND_PROVISIONAL_CARRY");
      ("actual_account_pnl", VNone); ("realized_live_profit_proven", VBool false)].

(** ** [compare]: three independent paths over one tape *)

Definition step_all (p : Z) (artifacts : list dict) (synthetic_ok : bool) (ws : list (Config * Path)) (row : value)
    : res (list (Config * Path)) :=
  rmapM (fun cw : Config * Path => let! w := step p cw.1 artifacts synthetic_ok cw.2 row in Ok (cw.1, w)) ws.

Definition policy_value (c : Policy) : value :=
  VDict [("version", version c); ("btc_slippage_bps_per_side", btc_slippage_bps_per_side c);
         ("fx_slippage_bps_per_side", fx_slippage_bps_per_side c); ("holding_bps_per_hour", holding_bps_per_hour c);
         ("btc_min_net_edge_bps", btc_min_net_edge_bps c); ("fx_min_net_edge_bps", fx_min_net_edge_bps c);
         ("quote_ttl_ms", quote_ttl_ms c); ("forecast_entry_ttl_ms", forecast_entry_ttl_ms c);
         ("reentry_cooldown_ms", reentry_cooldown_ms c); ("min_calibration_samples", min_calibration_samples c);
         ("min_calibration_days", min_calibration_days c); ("max_calibration_age_ms", max_calibration_age_ms c);
         ("fee_stress", fee_stress c); ("slippage_stress", slippage_stress c)].

(** The final paths and the duration of the tape. *)
Definition run_paths (p : Z) (t : dict) (artifacts : list dict) (size capital : value) (policy : Policy) (gate_mode : string)
    : res (list (Config * Path) * Z) :=
  let! _ := validate p policy in
  when! (let! d := dec p size in Ok (dleb d ZERO)) ||?
        (let! d := dec p size in Ok (dltb (dec_of_Z 25000) d)) ||?
        (let! d := dec p capital in Ok (dleb d ZERO))
  raise cost_error "REPLAY_SIZE_OR_CAPITAL_INVALID" in
  let! instrument := as_str (get t "instrument") in
  let! states := rmapM (fun n => PathState_init p n instrument size capital policy gate_mode) NAMES in
  let synthetic_ok := eq_str (get t "source_kind") "SYNTHETIC" in
  let! rows := as_list (get t "rows") in
  let! states := rfold (step_all p artifacts synthetic_ok) rows states in
  let! first := (match rows with r :: _ => event_time r | [] => Raise index_error end) in
  let! last := last_row_at rows in
  Ok (states, last - first).

Definition compare (p : Z) (tape : value) (artifacts : list dict) (size capital : value) (policy : Policy) (gate_mode : string)
    : res dict :=
  let! t := validate_tape p tape in
  let! sd := run_paths p t artifacts size capital policy gate_mode in
  let '(states, duration) := sd in
  let! input := digest tape in
  let! rows := as_list (get t "rows") in
  let! results := rmapM (fun cw : Config * Path => summary p cw.1 cw.2 duration) states in
  let! outcomes := candidate_outcomes p tape None 30000 in
  Ok [("mode", VStr "THREE_INDEPENDENT_COUNTERFACTUAL_PATHS"); ("gate_mode", VStr gate_mode);
      ("source_kind", get t "source_kind"); ("input_sha256", VStr input); ("policy", policy_value policy);
      ("instrument", get t "instrument"); ("size", VStr (py_str size));
      ("initial_simulation_capital_usd", VStr (py_str capital)); ("rows", VInt (Z.of_nat (length rows)));
      ("duration_ms", VInt duration);
      ("baseline_scope", VStr "DIRECTION_RULE_ON_SHARED_POSITION_NEUTRAL_CANDIDATES_WITH_COMMON_RISK_EXITS_NOT_OLD_TRADE_RECONSTRUCTION");
      ("live_profitability_proven", VBool false); ("broker_orders_sent", VInt 0);
      ("results", VList (map VDict results)); ("candidate_outcomes", VList (map outcome_value outcomes))].

(** [replace(policy, fee_stress=fee, slippage_stress=slip)] *)
Definition stressed (c : Policy) (fee slip : string) : Policy :=
  mkPolicy (version c) (btc_slippage_bps_per_side c) (fx_slippage_bps_per_side c) (holding_bps_per_hour c)
    (btc_min_net_edge_bps c) (fx_min_net_edge_bps c) (quote_ttl_ms c) (forecast_entry_ttl_ms c)
    (reentry_cooldown_ms c) (min_calibration_samples c) (min_calibration_days c) (max_calibration_age_ms c)
    (VStr fee) (VStr slip).

Definition stress_cases : list (string * (string * string)) :=
  [("BASE", ("1", "1")); ("SLIPPAGE_2X", ("1", "2")); ("SLIPPAGE_5X", ("1", "5")); ("FEES_125PCT", ("1.25", "1"));
   ("FEES_150PCT_SLIPPAGE_5X", ("1.5", "5"))].

Definition stress_compare (p : Z) (tape : value) (artifacts : list dict) (size capital : value) (policy : Policy)
    (gate_mode : string) : res (list (string * dict)) :=
  rmapM (fun c : string * (string * string) =>
           let! r := compare p tape artifacts size capital (stressed policy c.2.1 c.2.2) gate_mode in
           Ok (c.1, r)) stress_cases.

Definition remote_compare (p : Z) (tape : value) (size capital : value) (policy : Policy) : res dict :=
  compare p tape [] size capital policy "remote_raw".

Definition remote_stress_compare (p : Z) (tape : value) (size capital : value) (policy : Policy) : res (list (string * dict)) :=
  rmapM (fun c : string * (string * string) =>
           let! r := remote_compare p tape size capital (stressed policy c.2.1 c.2.2) in
           Ok (c.1, r)) stress_cases.

End CostPath.
