(* ===== verification/CostPathFacts.v ===== *)
(** * Properties of the counterfactual paths

    The three paths of a comparison are independent; along a path positions open
    and close alternately, never short crypto, the reported fees are the sum of
    the trades' fees, the drawdown covers every loss of the equity curve, the
    banded path waits out its cooldown, and every candidate gets one decision. *)

From Stdlib Require Import QArith Ascii Lqa Permutation.
From S2P Require Import Prelude PyDecimal PyText PyValue RowMonad Sha256 CostPolicy CostFacts CostAdmission CostCalibration CostTape CostTapeFacts CostPath.
From stdpp Require Import base tactics list strings.
From Stdlib Require Import ZArith Lia.
Import CostPolicy CostTape CostPath.

Open Scope Z_scope.

(** ** Independence *)

(** The path a configuration takes alone. *)
Definition alone (p : Z) (artifacts : list dict) (synthetic_ok : bool) (rows : list value) (before after : Config * Path) : Prop :=
  after.1 = before.1 /\ rfold (step p before.1 artifacts synthetic_ok) rows before.2 = Ok after.2.

Lemma step_all_alone p artifacts synthetic_ok rows ws ws' :
  rfold (step_all p artifacts synthetic_ok) rows ws = Ok ws' -> Forall2 (alone p artifacts synthetic_ok rows) ws ws'.
Proof.
  revert ws. induction rows as [|row rows IH]; intros ws H; simpl in H.
  - apply Ok_inj in H as <-. induction ws as [|w ws IHw]; constructor; [done|apply IHw].
  - apply rbind_ok in H as (ws1 & H1 & H). specialize (IH ws1 H). apply rmapM_Forall2 in H1. clear H.
    revert ws' IH. induction H1 as [|w w1 ws ws1 Hw _ IHw]; intros ws' IH; inversion IH as [|? w' ? ws2 [Ec Hr] Hrest]; subst; constructor.
    + apply rbind_ok in Hw as (x & Hx & E). apply Ok_inj in E as <-. split; [done|]. simpl in *. by rewrite Hx.
    + by apply IHw.
Qed.

(** ** Trades *)

Definition trade_fee (t : Trade) : decimal :=
  match t with Opened _ _ _ _ fee => fee | Closed _ _ _ _ fee _ _ _ => fee end.

(** Reads a list of trades from a flat or open position; [None] when an opening
    finds a position or a closing finds none. *)
Fixpoint alternating (is_open : bool) (l : list Trade) : option bool :=
  match l with
  | [] => Some is_open
  | Opened _ _ _ _ _ :: l => if is_open then None else alternating true l
  | Closed _ _ _ _ _ _ _ _ :: l => if is_open then alternating false l else None
  end.

Lemma alternating_snoc b l t b' :
  alternating b l = Some b' -> alternating b (l ++ [t]) = if Bool.eqb (is_close t) b' then Some (negb b') else None.
Proof.
  revert b. induction l as [|x l IH]; intros b H; simpl in *.
  - injection H as <-. destruct t; by destruct b.
  - destruct x; destruct b; try done; by apply IH.
Qed.

Definition some {A} (o : option A) : bool := match o with Some _ => true | None => false end.

(** Consecutive closing and opening are at least [cool] apart. *)
Definition spaced (cool : Z) (l : list Trade) : Prop :=
  forall i t r q pr fee h g n t' id q' pr' fee',
    l !! i = Some (Closed t r q pr fee h g n) -> l !! S i = Some (Opened t' id q' pr' fee') -> t + cool <= t'.

(** The time of the last trade, when it closed a position. *)
Definition last_close (l : list Trade) : option Z :=
  match last l with Some (Closed t _ _ _ _ _ _ _) => Some t | _ => None end.

Lemma spaced_snoc cool l t :
  spaced cool l -> (forall t0 t' id q pr fee, last_close l = Some t0 -> t = Opened t' id q pr fee -> t0 + cool <= t') ->
  spaced cool (l ++ [t]).
Proof.
  intros Hs Ht i t1 r q pr fee h g n t' id q' pr' fee' H1 H2.
  apply lookup_lt_Some in H2 as Hlen. rewrite length_app in Hlen. simpl in Hlen.
  rewrite lookup_app_l in H1 by lia. destruct (decide (S i < length l)%nat).
  - rewrite lookup_app_l in H2 by done. by eapply Hs.
  - assert (S i = length l) as E by lia. rewrite lookup_app_r, E, Nat.sub_diag in H2 by lia. injection H2 as ->.
    eapply Ht; [|done]. unfold last_close. rewrite last_lookup, <- E. simpl. by rewrite H1.
Qed.

(** ** Positions *)

Record position_ok (p : Z) (c : Config) (s : Position) : Prop := {
  po_wf : dwf (quantity s);
  po_held : dnonzero (quantity s) = some (entry_price s);
  po_forecast : some (entry_forecast s) = some (entry_price s);
  po_long : c_instrument c = "BTC.USD" -> (0 <= dval (quantity s))%Q;
  po_alternate : alternating false (trades s) = Some (some (entry_price s));
  po_fees : dsum p (map trade_fee (trades s)) = Ok (fees s);
  po_last_exit : forall t, last_close (trades s) = Some t -> 0 < t /\ last_exit s = t;
  po_spaced : c_name c = "COST_GATE_BAND" -> forall cool, reentry_cooldown_ms (c_policy c) = VInt cool -> spaced cool (trades s) }.

(** The fixed attributes of a valid path. *)
Record config_ok (p : Z) (c : Config) : Prop := {
  co_policy : policy_ok p (c_policy c);
  co_size_wf : dwf (c_size c);
  co_size : (1 <= dval (c_size c))%Q }.

Lemma dsum_snoc p l x s s' : dsum p l = Ok s -> dadd p s x = Ok s' -> dsum p (l ++ [x]) = Ok s'.
Proof. unfold dsum. intros H1 H2. rewrite rfold_app, H1. simpl. by rewrite H2. Qed.

Lemma dnonzero_val d : dwf d -> (dnonzero d = false <-> (dval d == 0)%Q).
Proof.
  intros Hw. unfold dnonzero. rewrite negb_false_iff, Z.eqb_eq. split; [by apply dval_zero|].
  intros H. destruct (Z.eq_dec (dcoef d) 0) as [|Hn]; [done|]. exfalso.
  pose proof (dval_abs d Hw) as Ha. rewrite H in Ha. change (Qabs.Qabs 0) with 0%Q in Ha.
  assert (0 < inject_Z (dcoef d))%Q as Hp by (apply (inject_pos (dcoef d)); unfold dwf in Hw; lia).
  pose proof (p10_pos (dexp d)) as He. pose proof (Qmult_lt_0_compat _ _ Hp He). lra.
Qed.

(** A quote whose ask is positive and was accepted. *)
Definition asks (p : Z) (quote : value) (ask : decimal) : Prop :=
  exists q, quote = VDict q /\ dec p (get q "ask") = Ok ask /\ (0 < dval ask)%Q.

Lemma subscript_asks p quote ask v : asks p quote ask -> subscript quote "ask" = Ok v -> dec p v = Ok ask.
Proof. intros (q & -> & Hd & _) H. apply subscript_get in H as (q' & [= <-] & E & _). by subst v. Qed.

Lemma power_representable p k : 1 <= p -> Emin <= k -> representable p (Dec false 1 k).
Proof. intros Hp Hk. by apply small_representable. Qed.

Lemma dec_below p v d : 1 <= p -> dec p v = Ok d -> (dval d <= dval (Dec false 1 21))%Q.
Proof.
  intros Hp H. destruct (dec_ok _ _ _ H) as (Hw & a & Ha & Hle).
  destruct (Qlt_le_dec (dval (Dec false 1 21)) (dval d)) as [Hlt|]; [|done]. exfalso.
  assert (Hpos : dneg d = false) by (apply dpos_sign; [done|]; eapply Qlt_trans; [|exact Hlt]; reflexivity).
  destruct (dfix_bound p (Dec false (dcoef d) (dexp d)) a (Dec false 1 21) Hp Hw Ha (power_representable p 21 Hp ltac:(unfold Emin; lia))) as [_ B].
  assert (E : dval (Dec false (dcoef d) (dexp d)) = dval d) by (unfold dval, PyDecimal.dsig; simpl; by rewrite Hpos).
  rewrite E in B. specialize (B (Qlt_le_weak _ _ Hlt)).
  assert (dval (Dec false 1 21) <= dval (Dec false 1 20))%Q by lra. by vm_compute in H0.
Qed.

(** An upper bound of an exact value bounds the rounded one. *)
Lemma upper {p k r} (B : (forall y, representable p y -> ((k <= dval y)%Q -> (dval r <= dval y)%Q) /\ ((dval y <= k)%Q -> (dval y <= dval r)%Q))) e :
  1 <= p -> Emin <= e -> (k <= dval (Dec false 1 e))%Q -> (dval r <= dval (Dec false 1 e))%Q.
Proof. intros Hp He Hk. by apply (B _ (power_representable p e Hp He)). Qed.

Lemma Qmult_bounds a b x y : (0 <= a)%Q -> (a <= x)%Q -> (0 <= b)%Q -> (b <= y)%Q -> (a * b <= x * y)%Q.
Proof. intros. apply Qle_trans with (x * b)%Q; [by apply Qmult_le_compat_r|]. rewrite (Qmult_comm x b), (Qmult_comm x y). apply Qmult_le_compat_r; lra. Qed.

Lemma e_mul a b : (dval (Dec false 1 a) * dval (Dec false 1 b) == dval (Dec false 1 (a + b)))%Q.
Proof. unfold dval, PyDecimal.dsig. simpl. rewrite p10_add. ring. Qed.

(** The price of a buy is positive and bounded. *)
Lemma buy_price p c quote ask r :
  1 <= p -> policy_ok p (c_policy c) -> asks p quote ask -> price p c quote "BUY" = Ok r ->
  dwf r /\ (0 <= dval r)%Q /\ (dval r <= dval (Dec false 1 60))%Q.
Proof.
  intros Hp Hpol Hask H. unfold price in H. apply rbind_ok in H as (s & Hs & H). apply rbind_ok in H as (sl & Hsl & H).
  cbn [bool_decide] in H. rewrite bool_decide_eq_true_2 in H by done.
  apply rbind_ok in H as (av & Hav & H). pose proof (subscript_asks _ _ _ _ Hask Hav) as Hda.
  rewrite Hda in H. cbn [rbind] in H. apply rbind_ok in H as (up & Hup & H).
  destruct (slip_nonneg p _ _ _ Hp Hpol Hs) as [Hsw Hs0]. destruct Hask as (q & _ & _ & Ha0).
  assert (Hbw : dwf BPS) by apply dec_of_Z_wf. assert (Hb : (dval BPS == 10000)%Q) by apply (dval_of_Z 10000).
  assert (Hsl0 : (0 <= dval sl)%Q) by (apply (ddiv_nonneg p s BPS sl); try done; lra).
  dec_facts. wf_facts.
  assert (Hs1 : (dval s <= dval (Dec false 1 25))%Q).
  { unfold slip in Hs. apply rbind_ok in Hs as (v & Hv & Hs). apply rbind_ok in Hs as (st & Hst & Hs).
    apply (upper (fun y => dmul_bound p Hp v st s y (dec_wf _ _ _ Hv) (dec_wf _ _ _ Hst) Hs)); [done|unfold Emin; lia|].
    assert (0 <= dval v <= dval (Dec false 1 3))%Q as [Hv0 Hv1].
    { assert (E3 : (dval (Dec false 1 3) == 1000)%Q) by reflexivity. rewrite E3. destruct (is_btc _);
        [destruct (pk_btc_slip _ _ Hpol) as (d & Hd & ?)|destruct (pk_fx_slip _ _ Hpol) as (d & Hd & ?)]; same_ok; lra. }
    destruct (pk_slip_stress _ _ Hpol) as (d & Hd & ?). same_ok. pose proof (dec_below p _ _ Hp Hst) as Hst1.
    eapply Qle_trans; [apply (Qmult_bounds (dval v) (dval d)); [exact Hv0|exact Hv1|lra|exact Hst1]|]. rewrite e_mul. by vm_compute. }
  assert (Hsl1 : (dval sl <= dval (Dec false 1 25))%Q).
  { apply (upper (fun y => ddiv_bound p s BPS sl y Hp Hsw Hbw Hsl)); [done|unfold Emin; lia|].
    rewrite Hb. apply Qle_shift_div_r; lra. }
  assert (Hup1 : (1 <= dval up <= dval (Dec false 1 26))%Q).
  { split.
    - assert (E1 : (dval ONE == 1)%Q) by apply dval_ONE. rewrite <- E1 at 1.
      apply (dadd_mono_l p Hp ONE sl); [exact (power_representable p 0 Hp ltac:(unfold Emin; lia))|done|done].
    - apply (upper (fun y => dadd_bound p Hp ONE sl up y Hup)); [done|unfold Emin; lia|]. rewrite dval_ONE.
      assert (dval (Dec false 1 26) == 10 * dval (Dec false 1 25))%Q by (by vm_compute).
      assert (1 <= dval (Dec false 1 25))%Q by (by vm_compute). lra. }
  split; [done|]. split; [apply (dmul_nonneg p Hp ask up); try done; lra|].
  apply (upper (fun y => dmul_bound p Hp ask up r y (dec_wf _ _ _ Hda) ltac:(done) H)); [done|unfold Emin; lia|].
  eapply Qle_trans; [apply (Qmult_bounds (dval ask) (dval up)); [lra|exact (dec_below p _ _ Hp Hda)|lra|apply Hup1]|].
  rewrite e_mul. by vm_compute.
Qed.

(** The quantity of an opened position is not zero, and positive for a buy. *)
Lemma opened_quantity p c quote ask side pr q signed :
  1 <= p -> config_ok p c -> asks p quote ask -> (is_btc (c_instrument c) = true -> side = "BUY") ->
  price p c quote side = Ok pr -> (if is_btc (c_instrument c) then ddiv p (c_size c) pr else Ok (c_size c)) = Ok q ->
  dmul p (direction_of side) q = Ok signed ->
  dwf signed /\ dnonzero signed = true /\ (side = "BUY" -> (0 <= dval signed)%Q).
Proof.
  intros Hp [Hpol Hzw Hz] Hask Hbtc Hpr Hq Hs.
  assert (Hq1 : dwf q /\ (dval (Dec false 1 (-60)) <= dval q)%Q).
  { destruct (is_btc (c_instrument c)) eqn:Eb.
    - rewrite (Hbtc eq_refl) in Hpr. destruct (buy_price p c quote ask pr Hp Hpol Hask Hpr) as (Hw & H0 & H1).
      split; [exact (ddiv_wf p _ _ q Hp Hzw Hw Hq)|]. apply (ddiv_bound p (c_size c) pr q _ Hp Hzw Hw Hq); [apply power_representable; [done|unfold Emin; lia]|].
      assert (Hpos : (0 < dval pr)%Q).
      { destruct (Qle_lt_or_eq _ _ H0) as [?|E]; [done|]. symmetry in E. apply dnonzero_val in E; [|done].
        unfold dnonzero in E. apply negb_false_iff in E. unfold ddiv in Hq. by rewrite E in Hq. }
      apply Qle_shift_div_l; [done|]. apply Qle_trans with 1%Q; [|done].
      apply Qle_trans with (dval (Dec false 1 (-60)) * dval (Dec false 1 60))%Q; [|rewrite e_mul; by vm_compute].
      rewrite !(Qmult_comm (dval (Dec false 1 (-60)))). apply Qmult_le_compat_r; [done|by vm_compute].
    - apply Ok_inj in Hq as <-. split; [done|]. apply Qle_trans with 1%Q; [by vm_compute|done]. }
  destruct Hq1 as [Hqw Hq1]. assert (Hdw : dwf (direction_of side)) by apply dec_of_Z_wf.
  assert (Hsw : dwf signed) by exact (dmul_wf p _ _ signed Hp Hdw Hqw Hs). split; [done|].
  assert (R : representable p (Dec false 1 (-60))) by (apply power_representable; [done|unfold Emin; lia]).
  assert (P0 : (0 < dval (Dec false 1 (-60)))%Q) by (by vm_compute).
  unfold direction_of in Hs, Hdw. case_bool_decide as Eside.
  - destruct (dmul_bound p Hp _ _ signed _ Hdw Hqw Hs R) as [_ B]. rewrite (dval_of_Z 1) in B.
    assert (Hge : (dval (Dec false 1 (-60)) <= dval signed)%Q) by (apply B; change (inject_Z 1) with 1%Q; lra).
    split; [|intros _; lra]. destruct (dnonzero signed) eqn:E; [done|]. apply dnonzero_val in E; [lra|done].
  - destruct (dmul_bound p Hp _ _ signed _ Hdw Hqw Hs (representable_neg p _ R)) as [B _].
    rewrite (dval_of_Z (-1)), dval_neg_exact in B.
    assert (Hle : (dval signed <= - dval (Dec false 1 (-60)))%Q) by (apply B; change (inject_Z (-1)) with (-1)%Q; lra).
    split; [|done]. destruct (dnonzero signed) eqn:E; [done|]. apply dnonzero_val in E; [lra|done].
Qed.

Lemma open_path_ok p c f quote ask at_ms s s' side :
  1 <= p -> config_ok p c -> asks p quote ask -> get f "action" = VStr side ->
  (is_btc (c_instrument c) = true -> side = "BUY") -> dnonzero (quantity s) = false ->
  (c_name c = "COST_GATE_BAND" -> cooled_down true (VInt (last_exit s)) at_ms (c_policy c)) ->
  position_ok p c s -> open_path p c f quote at_ms s = Ok s' -> position_ok p c s'.
Proof.
  intros Hp Hc Hask Hside Hbtc Hflat Hcool [Hw Hh Hf Hl Ha Hfee Hle Hsp] H. unfold open_path in H. rewrite Hside in H.
  cbn [as_str rbind] in H. apply rbind_ok in H as (pr & Hpr & H). apply rbind_ok in H as (q & Hq & H).
  apply rbind_ok in H as (sg & Hsg & H). apply rbind_ok in H as (am & _ & H). apply rbind_ok in H as (fee & _ & H).
  apply rbind_ok in H as (sa & _ & H). apply rbind_ok in H as (pd & _ & H). apply rbind_ok in H as (ca & _ & H).
  apply rbind_ok in H as (fs & Hfs & H). apply rbind_ok in H as (tu & _ & H). apply rbind_ok in H as (id & _ & H).
  apply Ok_inj in H as <-. destruct (opened_quantity p c quote ask side pr q sg) as (Hsw & Hnz & Hpos); try done.
  rewrite Hflat in Hh. rewrite <- Hh in Ha.
  split; cbn [quantity entry_price entry_forecast trades fees last_exit]; try done.
  - intros Hi. apply Hpos, Hbtc. unfold is_btc. by apply bool_decide_eq_true.
  - by rewrite (alternating_snoc _ _ _ _ Ha).
  - rewrite map_app. by apply (dsum_snoc p _ _ (fees s)).
  - intros t Ht. unfold last_close in Ht. by rewrite last_snoc in Ht.
  - intros Hn cool Hcl. apply spaced_snoc; [by apply Hsp|]. intros t0 t' i0 q0 p0 f0 Ht [= <- _ _ _ _].
    destruct (Hle t0 Ht) as [Ht0 El]. destruct (Hcool Hn eq_refl) as (t1 & c1 & E1 & E2 & _ & Hd).
    + rewrite El. simpl. destruct t0; [lia|done|lia].
    + rewrite Hcl in E2. injection E2 as <-. injection E1 as <-. lia.
Qed.

Lemma close_path_ok p c quote at_ms reason s s' :
  0 < at_ms -> dnonzero (quantity s) = true -> position_ok p c s -> close_path p c quote at_ms reason s = Ok s' -> position_ok p c s'.
Proof.
  intros Hat Hheld [Hw Hh Hf Hl Ha Hfee Hle Hsp] H. unfold close_path in H.
  apply rbind_ok in H as (pr & _ & H). apply rbind_ok in H as (aq & _ & H). apply rbind_ok in H as (am & _ & H).
  apply rbind_ok in H as (fee & _ & H). apply rbind_ok in H as (qp & _ & H). apply rbind_ok in H as (rc & _ & H).
  apply rbind_ok in H as (ca & _ & H). apply rbind_ok in H as (fs & Hfs & H). apply rbind_ok in H as (tu & _ & H).
  destruct (entry_price s) as [e|]; [|done].
  apply rbind_ok in H as (dp & _ & H). apply rbind_ok in H as (g & _ & H). apply rbind_ok in H as (n1 & _ & H).
  apply rbind_ok in H as (n & _ & H). apply Ok_inj in H as <-.
  split; cbn [quantity entry_price entry_forecast trades fees last_exit]; try done.
  - by rewrite (alternating_snoc _ _ _ _ Ha).
  - rewrite map_app. by apply (dsum_snoc p _ _ (fees s)).
  - intros t Ht. unfold last_close in Ht. rewrite last_snoc in Ht. by injection Ht as <-.
  - intros Hn cool Hcl. apply spaced_snoc; [by apply Hsp|]. done.
Qed.

(** ** Steps *)

Lemma dec_of_decimal p q d : dwf q -> dec p (VDec q) = Ok d -> d = q.
Proof.
  intros Hw H. unfold dec in H. simpl in H. apply rbind_ok in H as (a & _ & H). apply when_ok in H as [_ H].
  apply Ok_inj in H as <-. by apply dnorm_id.
Qed.

Lemma risk_step_ok p c quote at_ms s s' closed :
  0 < at_ms -> position_ok p c s -> risk_step p c quote at_ms s = Ok (s', closed) -> position_ok p c s'.
Proof.
  intros Hat Hs H. unfold risk_step in H. apply rbind_ok in H as (why & Hw & H).
  destruct why as [reason|]; [|by apply Ok_inj in H as [= <- _]].
  apply rbind_ok in H as (s1 & Hc & H). apply Ok_inj in H as [= <- _]. eapply close_path_ok; eauto.
  unfold risk_exit in Hw. apply rbind_ok in Hw as (pos & Hpos & Hw). pose proof (po_wf _ _ _ Hs) as Hwf.
  apply dec_of_decimal in Hpos; [|done]. subst pos. case_if Hw; [done|]. destruct (dnonzero (quantity s)) eqn:En; [done|].
  apply dnonzero_val in En; [|done]. apply deqb_neq in E. rewrite dval_COST_ZERO in E. done.
Qed.

(** The gate of the banded path has waited out the cooldown. *)
Lemma gate_cooled p c f quote at_ms artifact synthetic_ok s evidence v :
  gate p c f quote at_ms artifact synthetic_ok s = Ok evidence -> item evidence "allowed" = Ok v -> truthy v = true ->
  c_name c = "COST_GATE_BAND" -> cooled_down true (VInt (last_exit s)) at_ms (c_policy c).
Proof.
  intros H Hv Ht Hn. apply item_get in Hv as [Hv _]. subst v. unfold gate in H. rewrite (bool_decide_eq_true_2 _ Hn) in H.
  case_bool_decide.
  - apply guarded_truthy in H as [u H]; [|unfold remote_body; keep_raise|done|done].
    by apply remote_body_ok in H as (? & ? & ? & ? & _ & _ & _ & _ & _ & _ & _ & _ & H).
  - apply guarded_truthy in H as [u H]; [|unfold entry_body; keep_raise|done|done].
    by apply entry_body_ok in H as (? & ? & ? & ? & ? & ? & ? & _ & _ & _ & _ & _ & _ & _ & _ & _ & _ & H).
Qed.

Lemma on_entry_ok p c f quote ask at_ms artifact synthetic_ok s v side :
  1 <= p -> config_ok p c -> asks p quote ask -> get f "action" = VStr side ->
  (is_btc (c_instrument c) = true -> side = "BUY") -> dnonzero (quantity s) = false ->
  position_ok p c s -> on_entry p c f quote at_ms artifact synthetic_ok s = Ok v -> position_ok p c (v_position v).
Proof.
  intros Hp Hc Hask Hside Hbtc Hflat Hs H. unfold on_entry in H. apply rbind_ok in H as ([allowed ev] & He & H).
  destruct allowed; cycle 1. { apply rbind_ok in H as (r & _ & H). by apply Ok_inj in H as <-. }
  apply rbind_ok in H as (s' & Hs' & H). apply Ok_inj in H as <-. cbn [v_position].
  eapply (open_path_ok p c f quote ask at_ms s s' side); try done. intros Hn.
  rewrite Hn in He. change (bool_decide ("COST_GATE_BAND" = "DIRECTION_BASELINE")) with false in He. cbv iota in He.
  apply rbind_ok in He as (e & Hg & He). apply rbind_ok in He as (a & Ha & He). apply Ok_inj in He as [= Ht _].
  by eapply gate_cooled.
Qed.

Lemma decide_candidate_ok p c f quote ask at_ms artifact synthetic_ok closed s v :
  1 <= p -> 0 < at_ms -> config_ok p c -> asks p quote ask -> forecast_ok p f ->
  position_ok p c s -> decide_candidate p c f quote at_ms artifact synthetic_ok closed s = Ok v ->
  position_ok p c (v_position v).
Proof.
  intros Hp Hat Hc Hask Hf Hs H. unfold decide_candidate in H. apply rbind_ok in H as (i & _ & H). apply rbind_ok in H as (ttl & _ & H).
  case_if H; [by apply Ok_inj in H as <-|]. case_if H; [by apply Ok_inj in H as <-|]. case_if H.
  - apply rbind_ok in H as (rv & _ & H). destruct rv; [|by apply Ok_inj in H as <-].
    unfold on_reversal in H. apply rbind_ok in H as ([te reason] & _ & H). destruct te; [|by apply Ok_inj in H as <-].
    apply rbind_ok in H as (s' & Hcl & H). apply Ok_inj in H as <-. by eapply close_path_ok.
  - apply rbind_ok in H as (un & Hun & H). destruct un; [by apply Ok_inj in H as <-|]. case_if H; [by apply Ok_inj in H as <-|].
    destruct (fk_action _ _ Hf) as (side & Ea & Hin). apply por_false in Hun as [Hhold _]. apply Ok_inj in Hhold.
    eapply on_entry_ok; try done. intros Hbtc. rewrite Hbtc in E2. simpl in E2. rewrite Ea in E2, Hhold. simpl in E2, Hhold.
    destruct Hin as [<-|[<-|[<-|[]]]]; done.
Qed.

Lemma candidate_step_ok p c quote ask at_ms artifacts synthetic_ok closed forecast s s' ds :
  1 <= p -> 0 < at_ms -> config_ok p c -> asks p quote ask ->
  (forecast = VNone \/ exists f, forecast = VDict f /\ forecast_ok p f) ->
  position_ok p c s -> candidate_step p c quote at_ms artifacts synthetic_ok closed forecast s = Ok (s', ds) ->
  position_ok p c s' /\ Forall2 (fun f d => digest f = Ok (d_candidate_id d)) (if is_none forecast then [] else [forecast]) ds.
Proof.
  intros Hp Hat Hc Hask Hfc Hs H. unfold candidate_step in H. destruct Hfc as [->|(f & -> & Hf)].
  - apply Ok_inj in H as [= <- <-]. split; [done|]. constructor.
  - rewrite (forecast_truthy _ _ Hf) in H. cbn [as_dict rbind] in H. apply rbind_ok in H as (id & Hid & H).
    apply rbind_ok in H as (a & _ & H). apply rbind_ok in H as (v & Hv & H). apply Ok_inj in H as [= <- <-].
    split; [by eapply decide_candidate_ok|]. simpl. constructor; [done|constructor].
Qed.

(** ** The equity curve *)

Definition mark_of (m : Z * decimal * decimal) : decimal := m.1.2.
Definition equities (capital : decimal) (v : Curve) : list decimal := capital :: map mark_of (marks v).

Record curve_ok (p : Z) (capital : decimal) (v : Curve) : Prop := {
  cu_peak : forall e, In e (equities capital v) -> (dval e <= dval (high_water v))%Q;
  cu_loss : forall i j a b y, (i < j)%nat -> equities capital v !! i = Some a -> equities capital v !! j = Some b ->
    representable p y -> (dval y <= dval a - dval b)%Q -> (dval y <= dval (max_drawdown v))%Q;
  cu_nonneg : (0 <= dval (max_drawdown v))%Q;
  cu_top : high_water v ∈ equities capital v;
  cu_fall : max_drawdown v = ZERO \/ exists i j a b, (i <= j)%nat /\ equities capital v !! i = Some a /\ equities capital v !! j = Some b /\
    dsub p a b = Ok (max_drawdown v);
  cu_last : last (equities capital v) = Some (last_equity v) }.

Lemma curve_init p capital : curve_ok p capital (mkCurve capital ZERO ZERO capital []).
Proof.
  split; simpl; try done.
  - intros e [<-|[]]. lra.
  - intros [|i] [|j] a b y Hij Ha Hb; simpl in *; try lia; done.
  - apply list_elem_of_here.
  - by left.
Qed.

Lemma dmax_one a b : dmax a b = a \/ dmax a b = b.
Proof. unfold dmax. case_match; auto. Qed.

Lemma mark_ok p c quote at_ms mid s k v v' capital :
  1 <= p -> curve_ok p capital v -> mark p c quote at_ms mid s k v = Ok v' -> curve_ok p capital v'.
Proof.
  intros Hp [Hpk Hls Hnn Htop Hfall Hla] H. unfold mark in H. apply rbind_ok in H as (aq & _ & H). apply rbind_ok in H as (ex & _ & H).
  apply rbind_ok in H as (e & He & H). apply rbind_ok in H as (dd & Hdd & H). apply Ok_inj in H as <-.
  pose proof (dmax_ge_l (high_water v) e) as M1. pose proof (dmax_ge_r (high_water v) e) as M2.
  pose proof (dmax_ge_l (max_drawdown v) dd) as M3. pose proof (dmax_ge_r (max_drawdown v) dd) as M4.
  assert (E : equities capital (mkCurve (dmax (high_water v) e) (dmax (max_drawdown v) dd) (dmax (max_exposure v) ex) e
                (marks v ++ [(at_ms, e, quantity s)])) = equities capital v ++ [e]) by (unfold equities; simpl; by rewrite map_app).
  split; rewrite ?E; cbn [high_water max_drawdown last_equity].
  - intros x [Hx|[<-|[]]]%in_app_or; [|done]. specialize (Hpk x Hx). lra.
  - intros i j a b y Hij Ha Hb Hy Hab. apply lookup_lt_Some in Hb as Hlen. rewrite length_app in Hlen. cbn [length] in Hlen.
    rewrite lookup_app_l in Ha by lia. destruct (decide (j < length (equities capital v))%nat) as [Hj|Hj].
    + rewrite lookup_app_l in Hb by done. specialize (Hls i j a b y Hij Ha Hb Hy Hab). lra.
    + rewrite lookup_app_r in Hb by lia. replace (j - length (equities capital v))%nat with 0%nat in Hb by lia. injection Hb as <-.
      assert (Hin : In a (equities capital v)) by (apply list_elem_of_In; by eapply list_elem_of_lookup_2).
      specialize (Hpk a Hin). destruct (dsub_bound p Hp _ e dd y Hdd Hy) as [_ B].
      assert (dval y <= dval dd)%Q by (apply B; lra). lra.
  - lra.
  - apply elem_of_app. destruct (dmax_one (high_water v) e) as [-> | ->]; [by left|right; apply list_elem_of_here].
  - assert (Hnew : exists i j a b, (i <= j)%nat /\ (equities capital v ++ [e]) !! i = Some a /\ (equities capital v ++ [e]) !! j = Some b /\ dsub p a b = Ok dd).
    { assert (Hl : (equities capital v ++ [e]) !! length (equities capital v) = Some e) by (by rewrite lookup_app_r, Nat.sub_diag by lia).
      destruct (dmax_one (high_water v) e) as [Em|Em]; rewrite Em in Hdd.
      - apply list_elem_of_lookup in Htop as (i & Hi). exists i, (length (equities capital v)), (high_water v), e. split; [by apply lookup_lt_Some in Hi; lia|].
        split; [by apply lookup_app_l_Some|done].
      - by exists (length (equities capital v)), (length (equities capital v)), e, e. }
    destruct (dmax_one (max_drawdown v) dd) as [-> | ->]; [|by right]. destruct Hfall as [?|(i & j & a & b & Hij & Ha & Hb & Hd)]; [by left|right].
    exists i, j, a, b. split; [done|]. split; [by apply lookup_app_l_Some|]. split; [by apply lookup_app_l_Some|done].
  - by rewrite last_snoc.
Qed.

(** The curve of a path depends on its marks only, whatever was traded. *)
Lemma step_curve p c artifacts synthetic_ok w row w' capital : 1 <= p -> curve_ok p capital (curve w) ->
  step p c artifacts synthetic_ok w row = Ok w' -> curve_ok p capital (curve w').
Proof.
  intros Hp Hc H. unfold step in H. apply rbind_ok in H as (r & _ & H). apply rbind_ok in H as (a & _ & H).
  apply rbind_ok in H as (q & _ & H). apply rbind_ok in H as (k & _ & H). destruct (quote_values p q _ a _) as [[[bid ask] mid]|e].
  - apply rbind_ok in H as ([s closed] & _ & H). apply rbind_ok in H as ([s2 ds] & _ & H). apply rbind_ok in H as (v & Hv & H).
    apply Ok_inj in H as <-. by eapply mark_ok.
  - case_if H; [|done]. unfold unusable_quote in H. case_if H; [|by apply Ok_inj in H as <-]. apply rbind_ok in H as (id & _ & H). by apply Ok_inj in H as <-.
Qed.

(** ** Paths *)

Record path_ok (p : Z) (c : Config) (pre : list value) (w : Path) : Prop := {
  pa_position : position_ok p c (position w);
  pa_curve : curve_ok p (c_capital c) (curve w);
  pa_decisions : Forall2 (fun f d => digest f = Ok (d_candidate_id d)) (tape_forecasts pre) (decisions w) }.

Lemma row_ok_forecast p i r at_ms :
  row_ok p i (VDict r) -> row_at r = Ok at_ms ->
  0 < at_ms /\ (get r "forecast" = VNone \/ exists f, get r "forecast" = VDict f /\ forecast_ok p f).
Proof.
  intros (r' & a & Er & Ha & Hpos & Hf) H. injection Er as <-. unfold row_at in H. apply rbind_ok in H as (v & Hv & H). apply item_get in Hv as [Hv _].
  rewrite Ha in Hv. subst v. apply Ok_inj in H as <-. split; [done|]. destruct Hf as [?|(f & ? & ? & ? & ? & _)]; [by left|right]. eauto.
Qed.

Lemma step_ok p c artifacts synthetic_ok pre w row w' :
  1 <= p -> config_ok p c -> row_ok p (VStr (c_instrument c)) row -> path_ok p c pre w ->
  step p c artifacts synthetic_ok w row = Ok w' -> path_ok p c (pre ++ [row]) w'.
Proof.
  intros Hp Hc Hrow [Hpos Hcur Hdec] H. unfold step in H. apply rbind_ok in H as (r & Hr & H). apply as_dict_ok in Hr. subst row.
  apply rbind_ok in H as (a & Ha & H). destruct (row_ok_forecast _ _ _ _ Hrow Ha) as [Hat Hfc].
  apply rbind_ok in H as (q & _ & H). apply rbind_ok in H as (k & _ & H).
  destruct (quote_values p q _ a _) as [[[bid ask] mid]|e] eqn:Eq; cycle 1.
  - case_if H; [|done]. unfold unusable_quote in H. destruct Hfc as [En|(f & Ef & Hf)].
    + rewrite En in H. apply Ok_inj in H as <-. split; try done. cbn [decisions]. rewrite tape_forecasts_snoc. simpl. by rewrite En, app_nil_r.
    + rewrite Ef, (forecast_truthy _ _ Hf) in H. apply rbind_ok in H as (id & Hid & H). apply Ok_inj in H as <-. split; try done.
      cbn [decisions]. rewrite tape_forecasts_snoc. simpl. rewrite Ef. simpl. apply Forall2_app; [done|]. by repeat constructor.
  - destruct (quote_values_ok _ _ _ _ _ _ _ _ Eq) as (_ & _ & qd & o & s0 & ttl & -> & _ & _ & _ & _ & _ & _ & _ & _ & _ & _ & _ & Hask & Hba & _).
    assert (Has : asks p (VDict qd) ask) by (exists qd; split; [done|]; split; [done|lra]).
    apply rbind_ok in H as ([s closed] & Hrs & H). apply rbind_ok in H as ([s2 ds] & Hcs & H). apply rbind_ok in H as (v & Hv & H).
    apply Ok_inj in H as <-. apply risk_step_ok in Hrs; [|done|done].
    apply (candidate_step_ok p c (VDict qd) ask) in Hcs as [Hs2 Hds]; try done.
    split; cbn [position curve decisions]; [done|by eapply mark_ok|].
    rewrite tape_forecasts_snoc. simpl row_forecast. by apply Forall2_app.
Qed.

Lemma init_ok p name instrument size capital policy gate_mode c w :
  PathState_init p name instrument size capital policy gate_mode = Ok (c, w) ->
  path_ok p c [] w /\ c_instrument c = instrument /\ c_policy c = policy /\ c_name c = name /\ dec p size = Ok (c_size c).
Proof.
  unfold PathState_init. intros H. apply rbind_ok in H as (z & Hz & H). apply rbind_ok in H as (cap & _ & H).
  apply when_ok in H as [_ H]. apply Ok_inj in H as [= <- <-]. split; [|done].
  split; [|apply curve_init|constructor]. split; try done.
Qed.

(** A replayed path satisfies its invariant. *)
Lemma replay_path_ok p instrument size capital policy gate_mode name c w0 artifacts synthetic_ok rows z w last0 last :
  1 <= p -> policy_ok p policy -> dec p size = Ok z -> (1 <= dval z)%Q ->
  PathState_init p name instrument size capital policy gate_mode = Ok (c, w0) ->
  rfold (tape_row_step p (VStr instrument)) rows last0 = Ok last ->
  rfold (step p c artifacts synthetic_ok) rows w0 = Ok w -> path_ok p c rows w.
Proof.
  intros Hp Hpol Hz Hz1 Hi Hrows H. destruct (init_ok _ _ _ _ _ _ _ _ _ Hi) as (Hw0 & Ei & Ep & _ & Es).
  assert (Hc : config_ok p c). { split; [by rewrite Ep|by eapply dec_wf|]. rewrite Hz in Es. by injection Es as <-. }
  refine (rfold_inv_prefix (path_ok p c) _ rows w0 w _ [] Hw0 H).
  intros pre a x a' Hx Ha Hs. eapply step_ok; eauto. rewrite Ei. by eapply tape_rows_ok.
Qed.

(** ** Comparisons *)

(** The initial paths of a comparison and the rows it replays. *)
Record comparison (p : Z) (t : dict) (artifacts : list dict) (size capital : value) (policy : Policy) (gate_mode : string)
    (ws : list (Config * Path)) (instrument : string) (rows : list value) (states : list (Config * Path)) : Prop := {
  cm_instrument : get t "instrument" = VStr instrument;
  cm_rows : get t "rows" = VList rows;
  cm_policy : policy_ok p policy;
  cm_states : rmapM (fun n => PathState_init p n instrument size capital policy gate_mode) NAMES = Ok states;
  cm_alone : Forall2 (alone p artifacts (eq_str (get t "source_kind") "SYNTHETIC") rows) states ws }.

Lemma run_paths_inv p t artifacts size capital policy gate_mode ws d :
  run_paths p t artifacts size capital policy gate_mode = Ok (ws, d) ->
  exists instrument rows states, comparison p t artifacts size capital policy gate_mode ws instrument rows states.
Proof.
  unfold run_paths. intros H. apply rbind_ok in H as (c & Hc & H). apply validate_ok in Hc as [_ Hpol].
  apply rbind_ok in H as (bad & _ & H). destruct bad; [done|]. apply rbind_ok in H as (i & Hi & H).
  apply rbind_ok in H as (states & Hst & H). apply rbind_ok in H as (rows & Hr & H). apply rbind_ok in H as (ws' & Hws & H).
  apply rbind_ok in H as (f & _ & H). apply rbind_ok in H as (l & _ & H). apply Ok_inj in H as [= <- _].
  apply as_str_ok in Hi. apply as_list_ok in Hr. exists i, rows, states. split; try done. by apply step_all_alone.
Qed.

Lemma run_paths_ok p tape t artifacts size capital policy gate_mode ws d z :
  1 <= p -> validate_tape p tape = Ok t -> dec p size = Ok z -> (1 <= dval z)%Q ->
  run_paths p t artifacts size capital policy gate_mode = Ok (ws, d) ->
  exists rows, get t "rows" = VList rows /\
  forall c w, In (c, w) ws -> path_ok p c rows w /\ c_policy c = policy /\ get t "instrument" = VStr (c_instrument c).
Proof.
  intros Hp Ht Hz Hz1 H. apply run_paths_inv in H as (i & rows & states & [Hi Hr Hpol Hst Hal]).
  destruct (validate_tape_ok _ _ _ Ht) as (_ & _ & rows' & last & Hr' & Hrows). rewrite Hr in Hr'. injection Hr' as <-. rewrite Hi in Hrows.
  exists rows. split; [done|]. intros c w Hin. apply list_elem_of_In, list_elem_of_lookup in Hin as (n & Hn).
  destruct (Forall2_lookup_r _ _ _ _ _ Hal Hn) as ([c0 w0] & Hn0 & Ec & Hrun). simpl in Ec, Hrun. subst c0.
  apply rmapM_Forall2 in Hst. destruct (Forall2_lookup_r _ _ _ _ _ Hst Hn0) as (name & _ & Hinit).
  destruct (init_ok _ _ _ _ _ _ _ _ _ Hinit) as (_ & Ei & Ep & _). split; [|split; [done|by rewrite Ei]].
  by eapply (replay_path_ok p i size capital policy gate_mode name c w0).
Qed.

(** The three paths of a comparison are independent: each ends where it would
    end if it were replayed alone from the same initial capital. *)
Theorem paths_independent p t artifacts size capital policy gate_mode ws d
    (Hr : run_paths p t artifacts size capital policy gate_mode = Ok (ws, d)) :
  exists instrument rows states, get t "instrument" = VStr instrument /\ get t "rows" = VList rows /\
    rmapM (fun n => PathState_init p n instrument size capital policy gate_mode) NAMES = Ok states /\
    Forall2 (fun before after : Config * Path => after.1 = before.1 /\
      rfold (step p before.1 artifacts (eq_str (get t "source_kind") "SYNTHETIC")) rows before.2 = Ok after.2) states ws.
Proof. apply run_paths_inv in Hr as (i & rows & states & [Hi Hrows _ Hst Hal]). by exists i, rows, states. Qed.

(** Along every path of a comparison of at least one unit, positions open and
    close alternately, a position is held exactly between the two, crypto is
    never short, and the reported commission is the sum of the commissions of the
    trades. *)
Theorem replay_positions_sound p tape t artifacts size capital policy gate_mode ws d z c w
    (Hp : 1 <= p) (Ht : validate_tape p tape = Ok t) (Hz : dec p size = Ok z) (Hz1 : (1 <= dval z)%Q)
    (Hr : run_paths p t artifacts size capital policy gate_mode = Ok (ws, d)) (Hin : In (c, w) ws) :
  let s := position w in
  alternating false (trades s) = Some (some (entry_price s)) /\ dnonzero (quantity s) = some (entry_price s) /\
  some (entry_forecast s) = some (entry_price s) /\
  (get t "instrument" = VStr "BTC.USD" -> (0 <= dval (quantity s))%Q) /\
  dsum p (map trade_fee (trades s)) = Ok (fees s).
Proof.
  destruct (run_paths_ok _ _ _ _ _ _ _ _ _ _ _ Hp Ht Hz Hz1 Hr) as (rows & _ & H).
  destruct (H c w Hin) as ([[Hw Hh Hf Hl Ha Hfee Hle Hsp] _ _] & _ & Ei). simpl. repeat (split; [done|]). split; [|done].
  intros E. apply Hl. congruence.
Qed.

(** On the banded path a position opens no earlier than the cooldown after
    the previous one closed. *)
Theorem replay_cooldown p tape t artifacts size capital policy gate_mode ws d z c w cool i t1 r q pr fee h g n t2 id q' pr' fee'
    (Hp : 1 <= p) (Ht : validate_tape p tape = Ok t) (Hz : dec p size = Ok z) (Hz1 : (1 <= dval z)%Q)
    (Hr : run_paths p t artifacts size capital policy gate_mode = Ok (ws, d)) (Hin : In (c, w) ws)
    (Hn : c_name c = "COST_GATE_BAND") (Hc : reentry_cooldown_ms policy = VInt cool)
    (Hclose : trades (position w) !! i = Some (Closed t1 r q pr fee h g n))
    (Hopen : trades (position w) !! S i = Some (Opened t2 id q' pr' fee')) :
  t1 + cool <= t2.
Proof.
  destruct (run_paths_ok _ _ _ _ _ _ _ _ _ _ _ Hp Ht Hz Hz1 Hr) as (rows & _ & H).
  destruct (H c w Hin) as ([[Hw Hh Hf Hl Ha Hfee Hle Hsp] _ _] & Ep & _). rewrite <- Ep in Hc.
  by eapply (Hsp Hn cool Hc i).
Qed.

(** The equity curve of every path of a comparison is a curve of its capital, for any size, any
    tape and any policy the comparison accepts. *)
Lemma run_paths_curve p t artifacts size capital policy gate_mode ws d c w : 1 <= p ->
  run_paths p t artifacts size capital policy gate_mode = Ok (ws, d) -> In (c, w) ws -> curve_ok p (c_capital c) (curve w).
Proof.
  intros Hp Hr Hin. apply run_paths_inv in Hr as (i & rows & states & [_ _ _ Hst Hal]). apply list_elem_of_In, list_elem_of_lookup in Hin as (n & Hn).
  destruct (Forall2_lookup_r _ _ _ _ _ Hal Hn) as ([c0 w0] & Hn0 & Ec & Hrun). simpl in Ec, Hrun. subst c0.
  apply rmapM_Forall2 in Hst. destruct (Forall2_lookup_r _ _ _ _ _ Hst Hn0) as (name & _ & Hinit).
  destruct (init_ok _ _ _ _ _ _ _ _ _ Hinit) as ([_ Hc _] & _).
  refine (rfold_inv (fun w => curve_ok p (c_capital c) (curve w)) _ rows w0 w _ Hc Hrun). intros w1 row w2 _ H1 H2. by eapply step_curve.
Qed.

(** C26: the reported drawdown is the greatest loss of the equity curve, for every size,
    capital, tape and policy that the comparison accepts.  It covers every loss: no
    representable amount up to the fall from an earlier equity (the initial capital included)
    to a later one exceeds it; and it is zero or the computed fall from an equity of the curve
    to a later one. *)
Theorem replay_drawdown_sound p t artifacts size capital policy gate_mode ws d c w
    (Hp : 1 <= p) (Hr : run_paths p t artifacts size capital policy gate_mode = Ok (ws, d)) (Hin : In (c, w) ws) :
  (forall i j a b y, (i < j)%nat -> equities (c_capital c) (curve w) !! i = Some a -> equities (c_capital c) (curve w) !! j = Some b ->
     representable p y -> (dval y <= dval a - dval b)%Q -> (dval y <= dval (max_drawdown (curve w)))%Q) /\
  (0 <= dval (max_drawdown (curve w)))%Q /\
  (max_drawdown (curve w) = ZERO \/ exists i j a b, (i <= j)%nat /\ equities (c_capital c) (curve w) !! i = Some a /\
     equities (c_capital c) (curve w) !! j = Some b /\ dsub p a b = Ok (max_drawdown (curve w))).
Proof. destruct (run_paths_curve _ _ _ _ _ _ _ _ _ _ _ Hp Hr Hin) as [_ Hl Hn _ Hf _]. done. Qed.

(** Every candidate of the tape gets exactly one decision on every path, in
    tape order. *)
Theorem replay_decides_all p tape t artifacts size capital policy gate_mode ws d z c w
    (Hp : 1 <= p) (Ht : validate_tape p tape = Ok t) (Hz : dec p size = Ok z) (Hz1 : (1 <= dval z)%Q)
    (Hr : run_paths p t artifacts size capital policy gate_mode = Ok (ws, d)) (Hin : In (c, w) ws) :
  exists rows, get t "rows" = VList rows /\
    Forall2 (fun f dn => digest f = Ok (d_candidate_id dn)) (tape_forecasts rows) (decisions w).
Proof.
  destruct (run_paths_ok _ _ _ _ _ _ _ _ _ _ _ Hp Ht Hz Hz1 Hr) as (rows & Er & H).
  destruct (H c w Hin) as ([_ _ Hd] & _). by exists rows.
Qed.
