(* ===== verification/CostQuality.v ===== *)
(** * Sampling quality of a capture

    Models [sampling_quality] of research/cost_aware/scripts/hepta_cost_replay.py:
    which quotes of a verified capture prefix were usable, the time they cover,
    the holes between them, and the calibration cohorts the prefix would fit. *)

From Stdlib Require Import QArith Ascii Floats.SpecFloat.
From S2P Require Import Prelude PyDecimal PyText PyValue RowMonad Sha256 CostPolicy CostTape CostPath.
From stdpp Require Import base tactics list strings.
From Stdlib Require Import ZArith Lia.
Import CostPolicy CostTape CostPath.

Open Scope Z_scope.

Module CostQuality.

(** ** Counters, dates, quantiles *)

(** [Counter(keys)], keys in first-occurrence order. *)
Definition counter (keys : list string) : list (string * Z) :=
  foldl (fun d k => dset k (dget_or 0 k d + 1) d) [] keys.
Definition counter_value (d : list (string * Z)) : value := VDict (map (fun kv : string * Z => (kv.1, VInt kv.2)) d).

Definition pad (n : nat) (s : string) : string := srepeat "0" (n - String.length s) +:+ s.

(** The proleptic Gregorian date of a day number counted from 1970-01-01. *)
Definition civil (days : Z) : Z * Z * Z :=
  let z := days + 719468 in
  let era := z / 146097 in
  let doe := z mod 146097 in
  let yoe := (doe - doe / 1460 + doe / 36524 - doe / 146096) / 365 in
  let doy := doe - (365 * yoe + yoe / 4 - yoe / 100) in
  let mp := (5 * doy + 2) / 153 in
  let d := doy - (153 * mp + 2) / 5 + 1 in
  let m := if mp <? 10 then mp + 3 else mp - 9 in
  (yoe + era * 400 + (if m <=? 2 then 1 else 0), m, d).

(** [datetime.fromtimestamp(ms / 1000, timezone.utc).date().isoformat()]; a time
    after the year 9999 raises (the class of the exception depends on how far). *)
Definition utc_date (ms : Z) : res string :=
  when 253402300800000 <=? ms raise Exn ValueError "year is out of range" in
  let '(y, m, d) := civil (ms / 86400000) in
  Ok (pad 4 (str_int y) +:+ "-" +:+ pad 2 (str_int m) +:+ "-" +:+ pad 2 (str_int d)).

Definition str_add (s : string) (l : list string) : list string :=
  if existsb (fun x => bool_decide (x = s)) l then l else l ++ [s].
(** [sorted(set(l))] *)
Definition sorted_set (l : list string) : list string := sorted_by str_leb (foldl (fun acc x => str_add x acc) [] l).

(** [.5] and [.95] as binary64 numbers, and [max(0, math.ceil(q * n) - 1)]. *)
Definition point_five : spec_float := S754_finite false 4503599627370496 (-53).
Definition point_ninety_five : spec_float := S754_finite false 8556839292003942 (-53).
Definition rank (q : spec_float) (n : Z) : nat := Z.to_nat (Z.max 0 (float_ceil (SFmul 53 1024 q (float_of_Z n)) - 1)).

Definition quantiles (values : list Z) : value :=
  let l := sorted_by Z.leb values in
  let n := Z.of_nat (length l) in
  match l with
  | [] => VDict [("count", VInt 0); ("min", VNone); ("p50", VNone); ("p95", VNone); ("max", VNone)]
  | x :: _ => VDict [("count", VInt n); ("min", VInt x); ("p50", VInt (nth (rank point_five n) l 0));
                     ("p95", VInt (nth (rank point_ninety_five n) l 0)); ("max", VInt (List.last l 0))]
  end.

(** ** Quotes *)

Record Valid := mkValid { q_at : Z; q_observed : Z }.
Definition Interval : Type := Z * Z.

Record QuoteState := mkQuoteState {
  valid : list Valid;
  invalid : list (Z * string);
  intervals : list Interval;
  identities : list (string * Z * Z);
  source_values : list (string * Z * (decimal * decimal));
  conflicts : list (Z * (string * Z)) }.

Definition quality_catches (c : exc_class) : bool :=
  is_ValueError c || match c with KeyError | TypeError => true | _ => false end.

Definition same_values (a b : decimal * decimal) : bool := deqb a.1 b.1 && deqb a.2 b.2.

Definition valid_quote (p : Z) (end_ms at_ms : Z) (q : dict) (st : QuoteState) : res QuoteState :=
  let! sv := item q "subscription_id" in
  let! subscription := as_str sv in
  let! ov := item q "observed_at_ms" in
  let! observed := as_int ov in
  let! bv := item q "bid" in
  let! bid := dec p bv in
  let! av := item q "ask" in
  let! ask := dec p av in
  let! ev := item q "stale_after_ms" in
  let! expires := as_int ev in
  let identity := (subscription, observed) in
  let clash := match dget identity (source_values st) with Some v => negb (same_values v (bid, ask)) | None => false end in
  Ok (mkQuoteState (valid st ++ [mkValid at_ms observed]) (invalid st)
        (intervals st ++ [(at_ms, Z.min (Z.min end_ms expires) (observed + quote_ttl))])
        (dsetdefault identity at_ms (identities st)) (dset identity (bid, ask) (source_values st))
        (if clash then conflicts st ++ [(at_ms, identity)] else conflicts st)).

Definition quote_step (p : Z) (instrument : string) (end_ms : Z) (st : QuoteState) (event : value) : res QuoteState :=
  let! kind := subscript event "event" in
  if negb (eq_str kind "QUOTE") then Ok st
  else
    let! quote := subscript event "data" in
    let! at_ms := event_time event in
    match quote_values p quote instrument at_ms DEFAULT_POLICY with
    | Raise e =>
        if quality_catches (ecls e)
        then Ok (mkQuoteState (valid st) (invalid st ++ [(at_ms, emsg e)]) (intervals st) (identities st)
                   (source_values st) (conflicts st))
        else Raise e
    | Ok _ => let! q := as_dict quote in valid_quote p end_ms at_ms q st
    end.

(** ** Coverage *)

Definition interval_leb (x y : Interval) : bool := (x.1 <? y.1) || ((x.1 =? y.1) && (x.2 <=? y.2)).

(** The merged intervals are kept in reverse: the head is [merged[-1]]. *)
Definition merge_step (merged : list Interval) (ab : Interval) : list Interval :=
  let '(a, b) := ab in
  if b <=? a then merged
  else match merged with
       | (x, y) :: rest => if a <=? y then (x, Z.max y b) :: rest else (a, b) :: merged
       | [] => [(a, b)]
       end.
Definition merge (l : list Interval) : list Interval := rev (foldl merge_step [] (sorted_by interval_leb l)).

Definition width (l : list Interval) : Z := foldl (fun n (ab : Interval) => n + (ab.2 - ab.1)) 0 l.

Definition hole_step (st : list Interval * Z) (ab : Interval) : list Interval * Z :=
  let '(holes, cursor) := st in
  (if cursor <? ab.1 then holes ++ [(cursor, ab.1)] else holes, Z.max cursor ab.2).
Definition holes_of (start end_ms : Z) (merged : list Interval) : list Interval :=
  let '(holes, cursor) := foldl hole_step ([], start) merged in
  if cursor <? end_ms then holes ++ [(cursor, end_ms)] else holes.

Definition interval_value (ab : Interval) : value :=
  VDict [("start_ms", VInt ab.1); ("end_ms", VInt ab.2); ("duration_ms", VInt (ab.2 - ab.1))].

(** [zip(l, l[1:])] *)
Definition pairs (l : list Z) : list (Z * Z) := combine l (tl l).

(** ** Cohorts of the prefix *)

Record CohortStat := mkCohortStat {
  k_action : value; k_horizon : value; k_candidates : Z; k_usable : Z; k_overlap : Z; k_independent : Z;
  k_dates : list string }.

Record CohortState := mkCohortState { stats : list (string * CohortStat); last_label : list (string * Z) }.

Definition stat_of (f : dict) (key : string) (st : CohortState) : CohortStat :=
  dget_or (mkCohortStat (get f "action") (get f "horizon_sec") 0 0 0 0 []) key (stats st).

Definition cohort_step (excluded : list string) (st : CohortState) (o : Outcome) : res CohortState :=
  let f := o_forecast o in
  let! key := calibration_key f in
  let s := stat_of f key st in
  let! issued := as_int (get f "issued_at_ms") in
  let k1 := mkCohortStat (k_action s) (k_horizon s) (k_candidates s + 1) (k_usable s) (k_overlap s) (k_independent s) (k_dates s) in
  if existsb (fun x => bool_decide (x = o_candidate_id o)) excluded
  then Ok (mkCohortState (dset key k1 (stats st)) (last_label st))
  else
    let k2 := mkCohortStat (k_action k1) (k_horizon k1) (k_candidates k1) (k_usable k1 + 1) (k_overlap k1) (k_independent k1) (k_dates k1) in
    if issued <=? dget_or 0 key (last_label st)
    then Ok (mkCohortState (dset key (mkCohortStat (k_action k2) (k_horizon k2) (k_candidates k2) (k_usable k2)
                                        (k_overlap k2 + 1) (k_independent k2) (k_dates k2)) (stats st)) (last_label st))
    else
      match o_label o with
      | None => Raise type_error
      | Some l =>
          let! date := utc_date issued in
          Ok (mkCohortState (dset key (mkCohortStat (k_action k2) (k_horizon k2) (k_candidates k2) (k_usable k2) (k_overlap k2)
                                         (k_independent k2 + 1) (str_add date (k_dates k2))) (stats st))
                (dset key (l_observed l) (last_label st)))
      end.

Definition issued_of (o : Outcome) : Z := match get (o_forecast o) "issued_at_ms" with VInt z => z | _ => 0 end.
Definition by_issue (l : list Outcome) : list Outcome := sorted_by (fun a b => issued_of a <=? issued_of b) l.

Definition stat_value (cohorts : dict) (kv : string * CohortStat) : string * value :=
  let s := kv.2 in
  let dates := sorted_by str_leb (k_dates s) in
  (kv.1, VDict [("action", k_action s); ("horizon_sec", k_horizon s); ("candidates", VInt (k_candidates s));
                ("usable_before_nonoverlap_purge", VInt (k_usable s)); ("overlap_exclusions", VInt (k_overlap s));
                ("independent_samples", VInt (k_independent s)); ("utc_dates", VList (map VStr dates));
                ("eligible_training_cohort", VBool (dhas kv.1 cohorts));
                ("sample_shortfall", VInt (Z.max 0 (30 - k_independent s)));
                ("date_shortfall", VInt (Z.max 0 (2 - Z.of_nat (length dates))))]).

(** The [try] block: a refused fit leaves its error. *)
Record FitDiagnosis := mkFitDiagnosis {
  g_artifact : option dict; g_outcomes : list Outcome; g_exclusions : list (string * string);
  g_stats : list (string * value); g_error : option string }.

Definition no_fit : FitDiagnosis := mkFitDiagnosis None [] [] [] None.

(** A refusal inside the loops keeps what was bound before it; the loops raise no
    refusal of their own, so only the fit itself can fail. *)
Definition diagnose_fit (p : Z) (tape : value) (cutoff_ms : Z) : res FitDiagnosis :=
  match fit_from_tape p tape cutoff_ms DEFAULT_POLICY with
  | Raise e => if bool_decide (ecls e = CostError) then Ok (mkFitDiagnosis None [] [] [] (Some (emsg e))) else Raise e
  | Ok r =>
      let! st := rfold (cohort_step (map fst (fit_exclusions r))) (by_issue (fit_outcomes r)) (mkCohortState [] []) in
      let! cohorts := (let! v := item (fit_artifact r) "cohorts" in as_dict v) in
      Ok (mkFitDiagnosis (Some (fit_artifact r)) (fit_outcomes r) (fit_exclusions r)
            (map (stat_value cohorts) (stats st)) None)
  end.

(** ** The report *)

Definition prefix_unverified (c : dict) : res bool :=
  Ok (negb (is_true (get c "complete_prefix"))) ||?
  match get c "events" with
  | VList (e :: _) => let! d := as_dict e in Ok (negb (eq_str (get d "event") "HEADER"))
  | _ => Ok true
  end.

(** [expected is not None and (not isinstance(context, dict) or context.get(key) != expected)] *)
Definition context_mismatch (expected : option string) (context : value) (key : string) : bool :=
  match expected with
  | None => false
  | Some x => match context with VDict d => negb (eq_str (get d key) x) | _ => true end
  end.

Definition event_kind (e : value) : res string := let! v := subscript e "event" in as_str v.
Definition of_kind (kind : string) (events : list value) : res (list value) :=
  rfilter (fun e => let! k := event_kind e in Ok (bool_decide (k = kind))) events.

Definition failure_reason (e : value) : res string :=
  let! v := subscript e "data" in let! d := as_dict v in as_str (getd (VStr "UNSPECIFIED") d "reason_code").

Definition forecast_of (e : value) : res dict :=
  let! v := subscript e "data" in let! f := subscript v "forecast" in as_dict f.
Definition latency (e : value) : res Z :=
  let! at_ms := event_time e in let! f := forecast_of e in let! i := as_int (get f "issued_at_ms") in Ok (at_ms - i).
Definition action_of (e : value) : res string := let! f := forecast_of e in as_str (get f "action").

Definition fraction (n d : Z) : value := if d =? 0 then VNone else true_div n d.

(** The window of a prefix: events up to the cutoff, its start and its end. *)
Definition window (events : list value) (cutoff_ms : Z) : res (list value * Z * Z) :=
  let! evs := rfilter (fun e => let! t := event_time e in Ok (t <=? cutoff_ms)) events in
  match evs with
  | _ :: second :: _ =>
      let! start := event_time second in
      let! end_ms := last_row_at evs in
      Ok (evs, start, end_ms)
  | _ => Raise (cost_error "QUALITY_NO_OBSERVED_WINDOW")
  end.

Definition diagnosis (p : Z) (capture : dict) (events : list value) (cutoff_ms : Z) (st : QuoteState) : res FitDiagnosis :=
  match conflicts st with
  | _ :: _ => Ok (mkFitDiagnosis None [] [] [] (Some "QUALITY_CONFLICTING_QUOTE_OBSERVATION"))
  | [] =>
      match valid st with
      | [] => Ok no_fit
      | _ =>
          let! tape := capture_to_tape p (dset "events" (VList events) capture) in
          diagnose_fit p (VDict tape) cutoff_ms
      end
  end.

Definition artifact_cohorts (a : option dict) : list (string * value) :=
  match a with Some a => match get a "cohorts" with VDict d => d | _ => [] end | None => [] end.

(** The coverage part of the report. *)
Record Coverage := mkCoverage { cv_covered : Z; cv_holes : list Interval }.
Definition coverage_of (start end_ms : Z) (st : QuoteState) : Coverage :=
  let merged := merge (intervals st) in mkCoverage (width merged) (holes_of start end_ms merged).

Definition gaps_of (sources : list Z) : list Interval :=
  List.filter (fun ab : Z * Z => 30000 <? ab.2 - ab.1) (pairs sources).

Definition quality_fields (capture : dict) (header : dict) (context : value) (events : list value) (cutoff_ms start end_ms : Z)
    (st : QuoteState) (g : FitDiagnosis) (kinds failures actions dates : list string) (latencies : list Z)
    : res dict :=
  let duration := Z.max 0 (end_ms - start) in
  let counts := counter kinds in
  let polls := dget_or 0 "QUOTE" counts + dget_or 0 "SAMPLING_FAILURE" counts in
  let n_valid := Z.of_nat (length (valid st)) in
  let n_ids := Z.of_nat (length (identities st)) in
  let cov := coverage_of start end_ms st in
  let sources := sorted_by Z.leb (nodup Z.eq_dec (map q_observed (valid st))) in
  let! source_kind := item capture "source_kind" in
  let! input := item capture "input_sha256" in
  let! bytes := item capture "bytes" in
  Ok [("schema", VStr "heptatrader.cost-sampling-quality.v1"); ("diagnostic_only", VBool true);
      ("source_kind", source_kind); ("input_sha256", input); ("input_bytes", bytes);
      ("integrity_verified", VBool true); ("vendor_signature_verified", VBool false);
      ("instrument", get header "instrument"); ("observation_context", context);
      ("window_start_ms", VInt start); ("window_end_ms", VInt end_ms); ("cutoff_ms", VInt cutoff_ms);
      ("window_duration_ms", VInt duration); ("quote_utc_dates", VList (map VStr (sorted_set dates)));
      ("event_counts", counter_value counts); ("sampling_failure_reasons", counter_value (counter failures));
      ("valid_quote_reads", VInt n_valid);
      ("invalid_quote_records", VList (map (fun x : Z * string => VDict [("captured_at_ms", VInt x.1); ("reason", VStr x.2)]) (invalid st)));
      ("distinct_quote_observations", VInt n_ids); ("repeated_valid_quote_reads", VInt (n_valid - n_ids));
      ("quote_conflicts", VList (map (fun x : Z * (string * Z) =>
         VDict [("captured_at_ms", VInt x.1); ("subscription_id", VStr x.2.1); ("quote_observed_at_ms", VInt x.2.2)]) (conflicts st)));
      ("record_level_valid_fraction", fraction n_valid polls);
      ("record_fraction_not_exchange_delivery_probability", VBool true);
      ("source_age_ms", quantiles (map (fun v => q_at v - q_observed v) (valid st)));
      ("quote_read_spacing_ms", quantiles (map (fun ab : Z * Z => ab.2 - ab.1) (pairs (map q_at (valid st)))));
      ("usable_quote_coverage_ms", VInt (cv_covered cov)); ("usable_quote_coverage_fraction", fraction (cv_covered cov) duration);
      ("uncovered_intervals", VList (map interval_value (cv_holes cov)));
      ("source_gaps_over_30s", VList (map interval_value (gaps_of sources)));
      ("model_completion_latency_ms", quantiles latencies);
      ("forecasts_after_entry_ttl", VInt (Z.of_nat (length (List.filter (fun x => 60000 <? x) latencies))));
      ("candidate_actions", counter_value (counter actions));
      ("candidate_outcomes", counter_value (counter (map o_reason (g_outcomes g))));
      ("calibration_exclusion_reasons", counter_value (counter (map snd (g_exclusions g))));
      ("cohort_counts", VDict (g_stats g));
      ("local_training_ready", VBool (truthy (VDict (artifact_cohorts (g_artifact g)))));
      ("local_training_cohort_count", VInt (Z.of_nat (length (artifact_cohorts (g_artifact g)))));
      ("local_training_deployment_blocker", VBool false);
      ("calibration_evaluation_error", match g_error g with Some e => VStr e | None => VNone end);
      ("calibration_artifact", match g_artifact g with Some a => VDict a | None => VNone end);
      ("next_action", VStr "RUN_FIXED_REMOTE_MODEL_OOS"); ("authorization_effect", VStr "NONE");
      ("calibration_activated", VBool false); ("strategy_accepted", VBool false);
      ("trading_driver_switched", VBool false); ("broker_orders_sent", VInt 0); ("live_profitability_proven", VBool false)].

Definition sampling_quality (p : Z) (capture : value) (cutoff : value) (expected_cycle expected_reset : option string)
    : res dict :=
  match capture with
  | VDict c =>
      when! prefix_unverified c raise cost_error "QUALITY_REQUIRES_VERIFIED_CAPTURE_PREFIX" in
      let! all := as_list (get c "events") in
      let! header := header_data all in
      let context := get header "observation_context" in
      when context_mismatch expected_cycle context "cycle_id" raise cost_error "QUALITY_OBSERVATION_CYCLE_MISMATCH" in
      when context_mismatch expected_reset context "reset_sha256" raise cost_error "QUALITY_RESET_DIGEST_MISMATCH" in
      let! cutoff := (if is_none cutoff then let! t := last_row_at all in Ok (VInt t) else Ok cutoff) in
      match cutoff with
      | VInt cutoff_ms =>
          when cutoff_ms <=? 1 raise cost_error "QUALITY_CUTOFF_INVALID" in
          let! wd := window all cutoff_ms in
          let '(events, start, end_ms) := wd in
          let! instrument := (let! v := item header "instrument" in as_str v) in
          let! kinds := rmapM event_kind events in
          let! failed := of_kind "SAMPLING_FAILURE" events in
          let! failures := rmapM failure_reason failed in
          let! st := rfold (quote_step p instrument end_ms) events (mkQuoteState [] [] [] [] [] []) in
          let! candidates := of_kind "CANDIDATE" events in
          let! latencies := rmapM latency candidates in
          let! g := diagnosis p c events cutoff_ms st in
          let! dates := rmapM (fun v => utc_date (q_observed v)) (valid st) in
          let! actions := rmapM action_of candidates in
          quality_fields c header context events cutoff_ms start end_ms st g kinds failures actions dates latencies
      | _ => Raise (cost_error "QUALITY_CUTOFF_INVALID")
      end
  | _ => Raise (cost_error "QUALITY_REQUIRES_VERIFIED_CAPTURE_PREFIX")
  end.

End CostQuality.
