(* ===== verification/CostQualityFacts.v ===== *)
(** * Coverage of a capture

    The covered time and the reported holes partition the observed window: a
    millisecond is in a hole exactly when no usable quote covers it. *)

From Stdlib Require Import QArith Ascii Lqa Permutation Sorted.
From S2P Require Import Prelude PyDecimal PyText PyValue RowMonad Sha256 CostPolicy CostFacts CostAdmission CostTape CostTapeFacts CostPath CostQuality.
From stdpp Require Import base tactics list strings.
From Stdlib Require Import ZArith Lia.
Import CostPolicy CostTape CostPath CostQuality.

Open Scope Z_scope.

(** ** Merged intervals *)

Definition covered (l : list Interval) (t : Z) : Prop := exists ab, In ab l /\ ab.1 <= t < ab.2.

Lemma covered_cons ab l t : covered (ab :: l) t <-> (ab.1 <= t < ab.2) \/ covered l t.
Proof. unfold covered. simpl. naive_solver. Qed.
Lemma covered_app l l' t : covered (l ++ l') t <-> covered l t \/ covered l' t.
Proof. unfold covered. setoid_rewrite in_app_iff. naive_solver. Qed.
Lemma covered_rev l t : covered (rev l) t <-> covered l t.
Proof. unfold covered. by setoid_rewrite <- in_rev. Qed.

(** Disjoint intervals within [lo, hi], from the last one down to the first. *)
Fixpoint descending (lo hi : Z) (m : list Interval) : Prop :=
  match m with
  | [] => True
  | (x, y) :: rest => lo <= x < y /\ y <= hi /\ (forall x' y' r, rest = (x', y') :: r -> y' < x) /\ descending lo hi rest
  end.

Lemma merge_step_ok lo hi m a b :
  descending lo hi m -> lo <= a -> b <= hi -> (forall x y r, m = (x, y) :: r -> x <= a) ->
  descending lo hi (merge_step m (a, b)) /\ (forall t, covered (merge_step m (a, b)) t <-> covered m t \/ a <= t < b) /\
  (forall x y r, merge_step m (a, b) = (x, y) :: r -> x <= a).
Proof.
  intros Hd Ha Hb Hh. unfold merge_step. destruct (Z.leb_spec b a).
  { split; [done|]. split; [|done]. intros t. split; [by left|]. intros [?|?]; [done|lia]. }
  destruct m as [|[x y] rest].
  - split; [simpl; repeat split; try lia; done|]. split; [intros t; rewrite covered_cons; simpl; tauto|].
    intros x y r [= <- _ _]. lia.
  - specialize (Hh x y rest eq_refl). destruct Hd as (Hx & Hy & Hr & Hd). destruct (Z.leb_spec a y).
    + split; [simpl; repeat split; try lia; done|]. split; [|by intros ??? [= <- _ _]].
      intros t. rewrite !covered_cons. simpl. split; [intros [?|?]|intros [[?|?]|?]]; try tauto; lia.
    + split.
      { simpl. repeat split; try lia; try done. intros x' y' r [= <- <- _]. lia. }
      split; [intros t; rewrite !covered_cons; simpl; tauto|]. intros ??? [= <- _ _]. lia.
Qed.

Lemma merge_loop_ok lo hi l m :
  StronglySorted (fun u v => interval_leb u v = true) l -> descending lo hi m ->
  (forall a b, In (a, b) l -> lo <= a /\ b <= hi) -> (forall a b x y r, In (a, b) l -> m = (x, y) :: r -> x <= a) ->
  descending lo hi (foldl merge_step m l) /\ forall t, covered (foldl merge_step m l) t <-> covered m t \/ covered l t.
Proof.
  intros Hs. revert m. induction Hs as [|[a b] l Hs IH Hall]; intros m Hd Hb Hh; cbn [foldl].
  { split; [done|]. intros t. split; [by left|]. intros [?|(? & [] & _)]; done. }
  destruct (Hb a b (or_introl eq_refl)) as [Ha Hbb].
  destruct (merge_step_ok lo hi m a b Hd Ha Hbb) as (Hd' & Hc & Hx); [intros; eapply Hh; [by left|done]|].
  destruct (IH (merge_step m (a, b)) Hd') as [Hd2 Hc2].
  - intros a' b' Hin. apply Hb. by right.
  - intros a' b' x y r Hin E. specialize (Hx x y r E). rewrite List.Forall_forall in Hall. specialize (Hall _ Hin).
    unfold interval_leb in Hall. simpl in Hall. lia.
  - split; [done|]. intros t. rewrite Hc2, Hc, covered_cons. simpl. tauto.
Qed.

Lemma interval_leb_total u v : interval_leb u v = true \/ interval_leb v u = true.
Proof. unfold interval_leb. lia. Qed.
Lemma interval_leb_trans u v w : interval_leb u v = true -> interval_leb v w = true -> interval_leb u w = true.
Proof. unfold interval_leb. lia. Qed.

(** ** Holes *)

(** Disjoint intervals in order, from a cursor on. *)
Fixpoint ascending (cursor : Z) (l : list Interval) : Prop :=
  match l with [] => True | (x, y) :: l => cursor <= x < y /\ ascending y l end.
Fixpoint finish (cursor : Z) (l : list Interval) : Z := match l with [] => cursor | (_, y) :: l => finish y l end.
Fixpoint gaps (cursor : Z) (l : list Interval) : list Interval :=
  match l with [] => [] | (x, y) :: l => (if cursor <? x then [(cursor, x)] else []) ++ gaps y l end.

Lemma hole_loop l hs cursor : ascending cursor l -> foldl hole_step (hs, cursor) l = (hs ++ gaps cursor l, finish cursor l).
Proof.
  revert hs cursor. induction l as [|[x y] l IH]; intros hs cursor H; cbn [foldl gaps finish]; [by rewrite app_nil_r|].
  destruct H as [Hx Hl]. cbn [hole_step]. replace (Z.max cursor (x, y).2) with y by (simpl; lia). rewrite IH by done.
  simpl. destruct (cursor <? x); simpl; by rewrite <- ?app_assoc.
Qed.

Lemma width_from l n : foldl (fun n (ab : Interval) => n + (ab.2 - ab.1)) n l = n + width l.
Proof.
  unfold width. revert n. induction l as [|ab l IH]; intros n; cbn [foldl]; [lia|]. rewrite IH, (IH (0 + _)). lia.
Qed.
Lemma width_cons ab l : width (ab :: l) = ab.2 - ab.1 + width l.
Proof. unfold width at 1. cbn [foldl]. rewrite width_from. lia. Qed.
Lemma width_app l l' : width (l ++ l') = width l + width l'.
Proof. induction l as [|ab l IH]; [done|]. simpl. rewrite !width_cons, IH. lia. Qed.

Lemma gaps_partition l cursor : ascending cursor l ->
  cursor <= finish cursor l /\ width (gaps cursor l) + width l = finish cursor l - cursor /\
  forall t, cursor <= t < finish cursor l -> (covered (gaps cursor l) t <-> ~ covered l t).
Proof.
  revert cursor. induction l as [|[x y] l IH]; intros cursor H; cbn [gaps finish].
  { split; [lia|]. split; [unfold width; simpl; lia|]. intros t Ht. lia. }
  destruct H as [Hx Hl]. destruct (IH y Hl) as (Hf & Hw & Hc). split; [lia|]. split.
  - rewrite width_app, width_cons. simpl. destruct (Z.ltb_spec cursor x); [rewrite width_cons; simpl|]; unfold width in *; simpl in *; lia.
  - assert (Hlow : forall u, covered l u -> y <= u).
    { clear - Hl. revert y Hl. induction l as [|[a b] l IHl]; intros y Hl u (ab & Hin & Hab); [done|]. destruct Hl as [Ha Hl].
      destruct Hin as [<-|Hin]; [simpl in Hab; lia|]. pose proof (IHl b Hl u). assert (covered l u) by (exists ab; done). specialize (H H0). lia. }
    assert (Hglow : forall u, covered (gaps y l) u -> y <= u).
    { clear - Hl. revert y Hl. induction l as [|[a b] l IHl]; intros y Hl u; cbn [gaps]; [by intros (? & [] & _)|]. destruct Hl as [Ha Hl].
      rewrite covered_app. intros [Hu|Hu]; [|specialize (IHl b Hl u Hu); lia].
      destruct (y <? a); [|by destruct Hu as (? & [] & _)]. destruct Hu as (ab & [<-|[]] & Hab). simpl in Hab. lia. }
    intros t Ht. rewrite covered_app, covered_cons. simpl fst. simpl snd.
    assert (Hfirst : covered (if cursor <? x then [(cursor, x)] else []) t <-> cursor <= t < x).
    { destruct (Z.ltb_spec cursor x); [rewrite covered_cons; simpl|]; split; try (by intros (? & [] & _)); try lia.
      intros [?|(? & [] & _)]; lia. }
    rewrite Hfirst. destruct (Z.lt_ge_cases t y) as [Hty|Hty].
    + split.
      * intros [?|Hg]; [|specialize (Hglow t Hg); lia]. intros [?|Hc']; [lia|]. specialize (Hlow t Hc'). lia.
      * intros Hn. left. destruct (Z.lt_ge_cases t x); [lia|]. exfalso. apply Hn. left. lia.
    + rewrite (Hc t) by lia. split; [intros [?|?]; [lia|]; intros [?|?]; [lia|done]|]. intros Hn. right. tauto.
Qed.

Lemma ascending_snoc l cursor x y :
  ascending cursor l -> finish cursor l <= x < y -> ascending cursor (l ++ [(x, y)]) /\ finish cursor (l ++ [(x, y)]) = y.
Proof. revert cursor. induction l as [|[a b] l IH]; intros cursor H Hx; simpl in *; [done|]. destruct H as [Ha Hl]. naive_solver. Qed.

Lemma descending_rev lo hi m : descending lo hi m -> lo <= hi ->
  ascending lo (rev m) /\ finish lo (rev m) <= hi /\ (forall x y r, m = (x, y) :: r -> finish lo (rev m) = y) /\ (m = [] -> finish lo (rev m) = lo).
Proof.
  intros H Hlo. induction m as [|[x y] m IH]; [by repeat split|]. destruct H as (Hx & Hy & Hr & Hd). destruct (IH Hd) as (Ha & Hf & Hh & Hn).
  change (rev ((x, y) :: m)) with (rev m ++ [(x, y)]). destruct (ascending_snoc (rev m) lo x y Ha) as [Ha' Hf'].
  - split; [|lia]. destruct m as [|[x' y'] r]; [rewrite Hn by done; lia|]. rewrite (Hh x' y' r eq_refl). specialize (Hr x' y' r eq_refl). lia.
  - rewrite Hf'. split; [done|]. split; [lia|]. split; [|done]. by intros ??? [= _ <- _].
Qed.

(** Covered time and holes partition the window. *)
Lemma coverage_partition start end_ms l :
  start <= end_ms -> (forall a b, In (a, b) l -> start <= a /\ b <= end_ms) ->
  width (merge l) + width (holes_of start end_ms (merge l)) = end_ms - start /\
  forall t, start <= t < end_ms -> (covered (holes_of start end_ms (merge l)) t <-> ~ covered l t).
Proof.
  intros Hse Hb. unfold merge.
  assert (Hs := sorted_by_sorted interval_leb interval_leb_total interval_leb_trans l).
  destruct (merge_loop_ok start end_ms (sorted_by interval_leb l) [] Hs I) as [Hd Hc].
  { intros a b Hin. apply Hb. by apply sorted_by_In in Hin. } { done. }
  destruct (descending_rev _ _ _ Hd Hse) as (Ha & Hf & _). set (m := rev _) in *. unfold holes_of.
  rewrite hole_loop by done. destruct (gaps_partition m start Ha) as (Hge & Hw & Hg).
  assert (Hcov : forall t, covered m t <-> covered l t).
  { intros t. unfold m. rewrite covered_rev, Hc. unfold covered. setoid_rewrite sorted_by_In. simpl. naive_solver. }
  assert (Hhigh : forall t, covered m t -> t < finish start m).
  { intros t Ht. clear - Ha Ht. revert start Ha. induction m as [|[x y] m IH]; intros start Ha; [by destruct Ht as (? & [] & _)|].
    destruct Ha as [Hx Ha]. apply covered_cons in Ht as [Ht|Ht]; simpl in *; [|by apply IH].
    destruct (gaps_partition m y Ha) as (? & _). lia. }
  destruct (Z.ltb_spec (finish start m) end_ms) as [Hlt|Hge2]; cbn [app].
  - rewrite width_app. pose proof (width_cons (finish start m, end_ms) []) as Hw1. split; [unfold width in *; simpl in *; lia|]. intros t Ht.
    rewrite covered_app, covered_cons, <- Hcov. simpl. destruct (Z.lt_ge_cases t (finish start m)) as [Hl|Hl].
    + rewrite (Hg t) by lia. split; [intros [?|[?|(? & [] & _)]]; [done|lia]|tauto].
    + split; [intros _ Hm; specialize (Hhigh t Hm); lia|]. intros _. right. left. lia.
  - assert (finish start m = end_ms) by lia. split; [lia|]. intros t Ht. rewrite <- Hcov. apply Hg. lia.
Qed.

(** ** Usable quotes of the window *)

(** A quote event that was accepted, the time it was read and the time it expires. *)
Definition usable_interval (p : Z) (instrument : string) (end_ms : Z) (e : value) (a b : Z) : Prop :=
  exists d q v o s, e = VDict d /\ get d "event" = VStr "QUOTE" /\ get d "at_ms" = VInt a /\ get d "data" = VDict q /\
    quote_values p (VDict q) instrument a DEFAULT_POLICY = Ok v /\ get q "observed_at_ms" = VInt o /\
    get q "stale_after_ms" = VInt s /\ b = Z.min (Z.min end_ms s) (o + quote_ttl).

Lemma quote_step_intervals p instrument end_ms st e st' :
  quote_step p instrument end_ms st e = Ok st' ->
  (intervals st' = intervals st /\ forall a b, ~ usable_interval p instrument end_ms e a b) \/
  (exists a b, intervals st' = intervals st ++ [(a, b)] /\ usable_interval p instrument end_ms e a b /\
     forall a' b', usable_interval p instrument end_ms e a' b' -> a' = a /\ b' = b).
Proof.
  unfold quote_step. intros H. apply rbind_ok in H as (k & Hk & H). destruct (subscript_get _ _ _ Hk) as (d & -> & Ek & _). case_if H.
  { apply Ok_inj in H as <-. left. split; [done|]. intros a b (d' & q & v & o & s & [= <-] & Hq & _). rewrite Ek in Hq. by rewrite Hq in E. }
  apply negb_false_iff, eq_str_true in E. rewrite E in Ek.
  apply rbind_ok in H as (qv & Hq & H). destruct (subscript_get _ _ _ Hq) as (d1 & [= <-] & Eq & _).
  apply rbind_ok in H as (a & Ha & H). unfold event_time in Ha. apply rbind_ok in Ha as (tv & Htv & Ha).
  destruct (subscript_get _ _ _ Htv) as (d2 & [= <-] & Et & _). apply as_int_ok in Ha. rewrite Ha in Et. clear Htv Ha tv.
  destruct (quote_values p qv instrument a DEFAULT_POLICY) as [v|x] eqn:Ev.
  - apply rbind_ok in H as (q & Hqd & H). apply as_dict_ok in Hqd. rewrite Hqd in Eq, Ev. unfold valid_quote in H.
    apply rbind_ok in H as (sv & _ & H). apply rbind_ok in H as (sb & _ & H). apply rbind_ok in H as (ov & Hov & H).
    apply rbind_ok in H as (o & Ho & H). apply rbind_ok in H as (bv & _ & H). apply rbind_ok in H as (bid & _ & H).
    apply rbind_ok in H as (av & _ & H). apply rbind_ok in H as (ask & _ & H). apply rbind_ok in H as (xv & Hxv & H).
    apply rbind_ok in H as (s & Hs & H). apply Ok_inj in H as <-. apply item_get in Hov as [Hov _], Hxv as [Hxv _].
    apply as_int_ok in Ho, Hs. rewrite Ho in Hov. rewrite Hs in Hxv. right. eexists a, _. split; [reflexivity|].
    split; [exists d, q, v, o, s; done|].
    intros a' b' (d' & q' & v' & o' & s' & [= <-] & _ & Ha' & Hd' & _ & Ho' & Hs' & ->). naive_solver congruence.
  - case_if H; [|done]. apply Ok_inj in H as <-. left. split; [done|].
    intros a' b' (d' & q' & v' & o' & s' & [= <-] & _ & Ha' & Hd' & Hv' & _). naive_solver congruence.
Qed.

Lemma quote_loop_intervals p instrument end_ms events st st' :
  rfold (quote_step p instrument end_ms) events st = Ok st' ->
  forall a b, In (a, b) (intervals st') <-> In (a, b) (intervals st) \/ exists e, In e events /\ usable_interval p instrument end_ms e a b.
Proof.
  revert st. induction events as [|e events IH]; intros st H a b; simpl in H.
  - apply Ok_inj in H as <-. naive_solver.
  - apply rbind_ok in H as (st1 & H1 & H). rewrite (IH st1 H a b). clear IH H.
    destruct (quote_step_intervals _ _ _ _ _ _ H1) as [[E Hn]|(a0 & b0 & E & Hu & Hf)]; rewrite E.
    + split; [intros [?|(e' & ? & ?)]; [by left|right; exists e'; simpl; auto]|]. intros [?|(e' & [<-|?] & ?)]; [by left|by destruct (Hn a b)|right; eauto].
    + rewrite in_app_iff. split.
      * intros [[?|[[= <- <-]|[]]]|(e' & ? & ?)]; [by left|right; exists e; simpl; auto|right; exists e'; simpl; auto].
      * intros [?|(e' & [<-|?] & Hx)]; [by left; left| |right; eauto]. destruct (Hf a b Hx) as [-> ->]. left. right. by left.
Qed.

(** ** Windows *)

(** Capture order: the times of the events never decrease. *)
Definition in_order (events : list value) : Prop :=
  StronglySorted (fun e e' => forall a b, event_time e = Ok a -> event_time e' = Ok b -> a <= b) events.

Lemma rfilter_ok {A} (f : A -> res bool) l l' : rfilter f l = Ok l' ->
  (forall x, In x l' -> In x l /\ f x = Ok true) /\ forall R : A -> A -> Prop, StronglySorted R l -> StronglySorted R l'.
Proof.
  revert l'. induction l as [|x l IH]; intros l' H; simpl in H; [apply Ok_inj in H as <-; done|].
  apply rbind_ok in H as (b & Hb & H). apply rbind_ok in H as (ys & Hys & H). apply Ok_inj in H as <-.
  destruct (IH ys Hys) as [Hin Hs]. split.
  - intros y Hy. destruct b; [destruct Hy as [->|Hy]|]; simpl; naive_solver.
  - intros R HR. inversion HR as [|? ? Hl Hall]; subst. destruct b; [|by apply Hs]. constructor; [by apply Hs|].
    rewrite List.Forall_forall in *. intros y Hy. apply Hall. by apply Hin.
Qed.

Lemma rfilter_head {A} (f : A -> res bool) x l l' : rfilter f (x :: l) = Ok l' -> f x = Ok true -> exists l2, l' = x :: l2.
Proof.
  simpl. intros H Hx. rewrite Hx in H. simpl in H. apply rbind_ok in H as (ys & _ & H). apply Ok_inj in H as <-. eauto.
Qed.

Lemma last_event_In l e : last_event l = Ok e -> In e l.
Proof. unfold last_event. destruct (last l) as [x|] eqn:E; [|done]. intros [= ->]. apply list_elem_of_In. by apply last_Some_elem_of. Qed.

Lemma last_in_order l e z : in_order l -> last_row_at l = Ok z -> In e l -> forall a, event_time e = Ok a -> a <= z.
Proof.
  intros Hs Hz Hin a Ha. unfold last_row_at in Hz. apply rbind_ok in Hz as (x & Hx & Hz). unfold last_event in Hx.
  destruct (last l) as [y|] eqn:El; [|done]. apply Ok_inj in Hx. subst y. apply last_Some in El as (l' & ->).
  apply in_app_or in Hin as [Hin|[<-|[]]]; [|rewrite Ha in Hz; injection Hz as <-; lia].
  clear - Hs Hz Hin Ha. induction l' as [|y l' IH]; [done|]. unfold in_order in Hs. simpl in Hs. inversion Hs as [|? ? Hs' Hall]; subst.
  destruct Hin as [->|Hin]; [|by apply IH]. rewrite List.Forall_forall in Hall. apply (Hall x); try done. apply in_or_app. right. by left.
Qed.

Definition is_header (e : value) : Prop := exists d, e = VDict d /\ get d "event" = VStr "HEADER".

(** The events of the window after the header lie between its start and its end. *)
Lemma window_ok h events cutoff_ms evs start end_ms :
  in_order (h :: events) -> is_header h -> window (h :: events) cutoff_ms = Ok (evs, start, end_ms) ->
  start <= end_ms /\
  forall e a, In e evs -> ~ is_header e -> event_time e = Ok a -> start <= a <= end_ms.
Proof.
  intros Hord Hh H. unfold window in H. apply rbind_ok in H as (l & Hl & H). destruct (rfilter_ok _ _ _ Hl) as [Hin Hsort].
  specialize (Hsort _ Hord). destruct l as [|e0 [|e1 l]]; [done|done|]. apply rbind_ok in H as (s & Hs & H).
  apply rbind_ok in H as (z & Hz & H). apply Ok_inj in H as [= <- <- <-].
  assert (Hle : forall e a, In e (e0 :: e1 :: l) -> event_time e = Ok a -> a <= z) by (intros; by eapply last_in_order).
  assert (Hse : s <= z) by (apply (Hle e1); simpl; auto). split; [done|]. intros e a He Hne Ha. split; [|by eapply Hle].
  assert (E0 : e0 = h).
  { destruct (event_time h) as [th|] eqn:Eth; cycle 1. { exfalso. simpl in Hl. by rewrite Eth in Hl. }
    destruct (Hin e0 (or_introl eq_refl)) as [Hi0 Hf0]. apply rbind_ok in Hf0 as (t0 & Ht0 & Hle0). apply Ok_inj in Hle0.
    assert (th <= t0) as Hth.
    { destruct Hi0 as [->|Hi0]; [by rewrite Eth in Ht0; injection Ht0 as <-; lia|].
      inversion Hord as [|? ? _ Hall]; subst. rewrite List.Forall_forall in Hall. by apply (Hall e0). }
    destruct (rfilter_head _ _ _ _ Hl) as (l2 & E); [rewrite Eth; simpl; f_equal; lia|]. by injection E. }
  subst e0. destruct He as [<-|[<-|He]]; [done|rewrite Hs in Ha; injection Ha as <-; lia|].
  inversion Hsort as [|? ? Hs1 _]; subst. inversion Hs1 as [|? ? _ Hall]; subst. rewrite List.Forall_forall in Hall. by apply (Hall e).
Qed.

Lemma sampling_quality_ok p capture cutoff cycle reset r :
  sampling_quality p capture cutoff cycle reset = Ok r ->
  exists c h events cutoff_ms evs start end_ms instrument st,
    capture = VDict c /\ get c "events" = VList (h :: events) /\ is_header h /\
    window (h :: events) cutoff_ms = Ok (evs, start, end_ms) /\
    rfold (quote_step p instrument end_ms) evs (mkQuoteState [] [] [] [] [] []) = Ok st /\
    get r "instrument" = VStr instrument /\ get r "window_start_ms" = VInt start /\ get r "window_end_ms" = VInt end_ms /\
    get r "usable_quote_coverage_ms" = VInt (cv_covered (coverage_of start end_ms st)) /\
    get r "uncovered_intervals" = VList (map interval_value (cv_holes (coverage_of start end_ms st))).
Proof.
  unfold sampling_quality. intros H. destruct capture as [| | | | | | |c]; try done. apply rbind_ok in H as (bad & Hbad & H). destruct bad; [done|].
  unfold prefix_unverified in Hbad. apply por_false in Hbad as [_ Hev]. destruct (get c "events") as [| | | | | |[|h events]|] eqn:Ee; try done.
  apply rbind_ok in Hev as (hd & Hhd & Hev). apply as_dict_ok in Hhd. subst h. apply Ok_inj, negb_false_iff, eq_str_true in Hev.
  cbn [as_list rbind] in H. apply rbind_ok in H as (header & _ & H). apply when_ok in H as [_ H]. apply when_ok in H as [_ H].
  apply rbind_ok in H as (cv & _ & H). destruct cv as [| |cutoff_ms| | | | |]; try done. apply when_ok in H as [_ H].
  apply rbind_ok in H as ([[evs start] end_ms] & Hw & H). apply rbind_ok in H as (i & Hi & H). apply rbind_ok in Hi as (iv & Hiv & Hi).
  apply as_str_ok in Hi. subst iv. apply item_get in Hiv as [Hiv _].
  apply rbind_ok in H as (ks & _ & H). apply rbind_ok in H as (fl & _ & H). apply rbind_ok in H as (fs & _ & H).
  apply rbind_ok in H as (st & Hst & H). apply rbind_ok in H as (cs & _ & H). apply rbind_ok in H as (ls & _ & H).
  apply rbind_ok in H as (g & _ & H). apply rbind_ok in H as (ds & _ & H). apply rbind_ok in H as (acs & _ & H).
  unfold quality_fields in H. apply rbind_ok in H as (sk & _ & H). apply rbind_ok in H as (inp & _ & H). apply rbind_ok in H as (by_ & _ & H).
  apply Ok_inj in H. exists c, (VDict hd), events, cutoff_ms, evs, start, end_ms, i, st. subst r.
  do 2 (split; [done|]). split; [by exists hd|]. do 2 (split; [done|]). split; [exact Hiv|]. repeat (split; [reflexivity|]). reflexivity.
Qed.

(** For a capture recorded in time order, the covered time and the reported
    holes of the quality report add up to the observed window, and a millisecond
    of the window lies in a hole exactly when no accepted quote of the window,
    from its reading to its expiry, covers it. *)
Theorem quality_coverage_exact p c cutoff cycle reset r events
    (Hr : sampling_quality p (VDict c) cutoff cycle reset = Ok r)
    (He : get c "events" = VList events) (Hord : in_order events) :
  exists instrument start end_ms covered_ms holes cutoff_ms evs,
    get r "instrument" = VStr instrument /\ get r "window_start_ms" = VInt start /\ get r "window_end_ms" = VInt end_ms /\
    get r "usable_quote_coverage_ms" = VInt covered_ms /\ get r "uncovered_intervals" = VList (map interval_value holes) /\
    window events cutoff_ms = Ok (evs, start, end_ms) /\
    covered_ms + width holes = end_ms - start /\
    forall t, start <= t < end_ms ->
      (covered holes t <-> ~ exists e a b, In e evs /\ usable_interval p instrument end_ms e a b /\ a <= t < b).
Proof.
  destruct (sampling_quality_ok _ _ _ _ _ _ Hr) as (c' & h & evs0 & cut & evs & start & end_ms & i & st & [= <-] & Ee & Hh & Hw & Hst & Hi & Hs & Hz & Hc & Hu).
  rewrite He in Ee. injection Ee as ->. destruct (window_ok _ _ _ _ _ _ Hord Hh Hw) as [Hse Hwin].
  pose proof (quote_loop_intervals _ _ _ _ _ _ Hst) as Hint.
  destruct (coverage_partition start end_ms (intervals st) Hse) as [Hsum Hpart].
  { intros a b [[]|(e & Hin & Hue)]%Hint. destruct Hue as (d & q & v & o & s & -> & Hk & Ha & _ & _ & _ & _ & ->).
    assert (event_time (VDict d) = Ok a) as Ht.
    { unfold event_time, subscript, item. unfold get, getd, dget_or in Ha. destruct (dget "at_ms" d); [simpl; by rewrite Ha|done]. }
    destruct (Hwin (VDict d) a Hin) as [? ?]; [|done|split; lia]. intros (d' & [= <-] & Hh'). congruence. }
  eexists i, start, end_ms, _, _, cut, evs. do 6 (split; [eassumption|]). split; [exact Hsum|].
  intros t Ht. rewrite (Hpart t Ht). unfold covered. split; intros Hn Hx; apply Hn.
  - destruct Hx as (e & a & b & Hin & Hue & Hab). exists (a, b). split; [|done]. apply Hint. right. eauto.
  - destruct Hx as ([a b] & Hin & Hab). apply Hint in Hin as [[]|(e & Hin & Hue)]. eauto 7.
Qed.
