(* ===== verification/CostAssess.v ===== *)
(** * Acceptance of a strategy on held-out time

    Models [chronological_assessment] and [local_training_assessment] of
    research/cost_aware/scripts/hepta_cost_replay.py: the tape is cut at fixed
    times, candidates outside the decision window are purged, the paths are
    replayed under every cost stress, and the strategy is accepted only when no
    reason against it was found. *)

From Stdlib Require Import QArith Ascii.
From S2P Require Import Prelude PyDecimal PyText PyValue RowMonad Sha256 CostPolicy CostTape CostPath CostQuality.
From stdpp Require Import base tactics list strings.
From Stdlib Require Import ZArith Lia.
Import CostPolicy CostTape CostPath CostQuality.

Open Scope Z_scope.

Module CostAssess.

(** [if c: reasons.append(s)] *)
Definition flag (c : bool) (s : string) : list string := if c then [s] else [].

Definition set_rows (t : dict) (rows : list value) : dict := dset "rows" (VList rows) t.

(** ** Cutting the tape *)

Record Split := mkSplit { heldout : list value; selected : list dict; purged : list (string * string) }.

(** [output["forecast"] = None; output.pop("forecast_available_at_ms", None)] *)
Definition without_forecast (r : dict) : dict := dpop "forecast_available_at_ms" (dset "forecast" VNone r).

(** The reason a candidate is purged for; [early] names the test on its issue time. *)
Definition purge_reason (too_early : Z -> bool) (early : string) (decision_end : Z) (issued known at_ms : Z) : option string :=
  if too_early issued then Some early
  else if (decision_end <? known) || (decision_end <? at_ms) then Some "OUTSIDE_PREDECLARED_DECISION_WINDOW"
  else None.

Definition split_step (keep : Z -> bool) (too_early : Z -> bool) (early : string) (decision_end : Z) (st : Split) (row : value)
    : res Split :=
  let! r := as_dict row in
  let! at_ms := row_at r in
  if negb (keep at_ms) then Ok st
  else if truthy (get r "forecast") then
    let! f := as_dict (get r "forecast") in
    let! issued := as_int (get f "issued_at_ms") in
    let! known := as_int (getd (VInt at_ms) r "forecast_available_at_ms") in
    match purge_reason too_early early decision_end issued known at_ms with
    | Some reason =>
        let! id := digest (VDict f) in
        Ok (mkSplit (heldout st ++ [VDict (without_forecast r)]) (selected st) (purged st ++ [(id, reason)]))
    | None => Ok (mkSplit (heldout st ++ [VDict r]) (selected st ++ [f]) (purged st))
    end
  else Ok (mkSplit (heldout st ++ [VDict r]) (selected st) (purged st)).

Definition split_rows (keep : Z -> bool) (too_early : Z -> bool) (early : string) (decision_end : Z) (rows : list value)
    : res Split :=
  rfold (split_step keep too_early early decision_end) rows (mkSplit [] [] []).

(** ** Reading outcomes and path reports *)

Record OutcomeView := mkOutcomeView {
  w_id : string; w_forecast : dict; w_action : string; w_reason : string; w_available : value; w_observed : value }.

Definition view (x : value) : res OutcomeView :=
  let! d := as_dict x in
  let! id := (let! v := item d "candidate_id" in as_str v) in
  let! f := (let! v := item d "forecast" in as_dict v) in
  let! action := (let! v := item f "action" in as_str v) in
  let! reason := (let! v := item d "reason" in as_str v) in
  let! available := item d "forecast_available_at_ms" in
  let! observed := item d "label_observed_at_ms" in
  Ok (mkOutcomeView id f action reason available observed).

Definition is_hold (w : OutcomeView) : bool := bool_decide (w_action w = "HOLD").
Definition is_observed (w : OutcomeView) : bool := bool_decide (w_reason w = "OBSERVED").

(** [available - issued <= ttl and available < observed] *)
Definition timely (ttl : Z) (w : OutcomeView) : res bool :=
  let! available := as_int (w_available w) in
  let! issued := as_int (get (w_forecast w) "issued_at_ms") in
  if available - issued <=? ttl then let! observed := as_int (w_observed w) in Ok (available <? observed) else Ok false.

(** The outcomes of the BASE case. *)
Definition base_outcomes (stress : list (string * dict)) : res (list OutcomeView) :=
  match dget "BASE" stress with
  | Some report => let! l := as_list (get report "candidate_outcomes") in rmapM view l
  | None => Raise (key_error "BASE")
  end.

Definition results_of (report : dict) : res (list dict) :=
  let! v := item report "results" in let! l := as_list v in rmapM as_dict l.

(** ** Path checks of the remote assessment *)

(** The bounds an operator declares; [None] when unset. *)
Record Bounds := mkBounds {
  min_directional : option Z;
  min_round_trips : option Z;
  turnover_budget : option decimal;
  max_reentries : option Z;
  drawdown_budget : option decimal }.

Definition below (n : Z) (bound : option Z) : bool := match bound with Some b => n <? b | None => false end.
Definition above (n : Z) (bound : option Z) : bool := match bound with Some b => b <? n | None => false end.

(** [bound is not None and dec(v) > bound] *)
Definition dec_above (p : Z) (v : value) (bound : option decimal) : res bool :=
  match bound with Some b => let! d := dec p v in Ok (dltb b d) | None => Ok false end.

(** [budget is not None and (drawdown is None or dec(drawdown) > budget)] *)
Definition drawdown_exceeded (p : Z) (v : value) (budget : option decimal) : res bool :=
  match budget with
  | Some b => if is_none v then Ok true else let! d := dec p v in Ok (dltb b d)
  | None => Ok false
  end.

(** [v is None or dec(v) <= 0] *)
Definition not_positive (p : Z) (v : value) : res bool :=
  if is_none v then Ok true else let! d := dec p v in Ok (dleb d ZERO).

(** [dec(net) - dec(baseline_net)] when both are known. *)
Definition advantage_of (p : Z) (net baseline_net : value) : res (option decimal) :=
  if is_none net || is_none baseline_net then Ok None
  else let! n := dec p net in let! b := dec p baseline_net in let! d := dsub p n b in Ok (Some d).

Record PathCheck := mkPathCheck {
  pc_strategy : string; pc_trips : Z; pc_net : value; pc_advantage : option decimal; pc_drawdown : value;
  pc_turnover : value; pc_reentries : Z; pc_reasons : list string }.

Definition check_path (p : Z) (b : Bounds) (baseline_net : value) (path : dict) : res PathCheck :=
  let! strategy := (let! v := item path "strategy" in as_str v) in
  let! complete := item path "complete_observed_path" in
  let! trips := (let! v := item path "completed_round_trips" in as_int v) in
  let! turnover := item path "turnover_usd" in
  let! over := dec_above p turnover (turnover_budget b) in
  let! opens := (let! v := item path "open_events" in as_int v) in
  let reentries := Z.max 0 (opens - 1) in
  let! remaining := (let! v := item path "remaining_simulated_quantity" in dec p v) in
  let! net := item path "net_liquidation_pnl_usd" in
  let! losing := not_positive p net in
  let! advantage := advantage_of p net baseline_net in
  let! drawdown := item path "max_drawdown_usd" in
  let! drawn := drawdown_exceeded p drawdown (drawdown_budget b) in
  Ok (mkPathCheck strategy trips net advantage drawdown turnover reentries
        (flag (negb (truthy complete)) "PATH_INCOMPLETE" ++
         flag (trips <=? 0) "NO_COMPLETED_OOS_ROUNDTRIP" ++
         flag (below trips (min_round_trips b)) "INSUFFICIENT_COMPLETED_OOS_ROUNDTRIPS" ++
         flag over "TURNOVER_BOUND_EXCEEDED" ++
         flag (above reentries (max_reentries b)) "REENTRY_BOUND_EXCEEDED" ++
         flag (negb (deqb remaining ZERO)) "OPEN_POSITION_AT_OUTCOME_END" ++
         flag losing "NONPOSITIVE_OR_UNKNOWN_NET_RETURN" ++
         flag (match advantage with Some d => dltb d ZERO | None => false end) "BELOW_SAME_INPUT_BASELINE" ++
         flag drawn "DRAWDOWN_BUDGET_NOT_MET")).

Definition path_check_value (baseline_net : value) (c : PathCheck) : value :=
  VDict [("strategy", VStr (pc_strategy c)); ("completed_round_trips", VInt (pc_trips c));
         ("net_liquidation_pnl_usd", pc_net c); ("baseline_net_liquidation_pnl_usd", baseline_net);
         ("net_advantage_vs_direction_baseline_usd", opt_sdec (pc_advantage c));
         ("max_drawdown_usd", pc_drawdown c); ("turnover_usd", pc_turnover c); ("reentries", VInt (pc_reentries c));
         ("passed", VBool (match pc_reasons c with [] => true | _ => false end));
         ("reasons", VList (map VStr (pc_reasons c)))].

Record CaseCheck := mkCaseCheck { cc_name : string; cc_reasons : list string; cc_paths : list value }.

Definition check_case (p : Z) (b : Bounds) (case : string * dict) : res CaseCheck :=
  let! results := results_of case.2 in
  match results with
  | [] => Raise index_error
  | baseline :: paths =>
      let! baseline_net := item baseline "net_liquidation_pnl_usd" in
      let! complete := item baseline "complete_observed_path" in
      let! cs := rmapM (check_path p b baseline_net) paths in
      Ok (mkCaseCheck case.1
            (flag (negb (truthy complete) || is_none baseline_net) "BASELINE_PATH_INCOMPLETE" ++
             flat_map (fun c => map (fun r => pc_strategy c +:+ ":" +:+ r) (pc_reasons c)) cs)
            (map (path_check_value baseline_net) cs))
  end.

Definition case_value (with_paths : bool) (c : CaseCheck) : string * value :=
  (cc_name c, VDict ([("passed", VBool (match cc_reasons c with [] => true | _ => false end));
                      ("reasons", VList (map VStr (cc_reasons c)))] ++
                     if with_paths then [("paths", VList (cc_paths c))] else [])).

(** The reason a case adds, when any of its checks failed. *)
Definition case_reason (suffix : string) (c : CaseCheck) : list string :=
  match cc_reasons c with [] => [] | _ => [cc_name c +:+ suffix] end.

(** ** [chronological_assessment] *)

(** [value is not None and (type(value) is not int or value < least)] refuses; the bound otherwise. *)
Definition int_bound (least : Z) (reason : string) (v : value) : res (option Z) :=
  match v with
  | VNone => Ok None
  | VInt z => when z <? least raise cost_error reason in Ok (Some z)
  | _ => Raise (cost_error reason)
  end.

(** [None if v is None else dec(v)], refused when not positive. *)
Definition amount_bound (p : Z) (reason : string) (v : value) : res (option decimal) :=
  if is_none v then Ok None
  else let! d := dec p v in when dleb d ZERO raise cost_error reason in Ok (Some d).

Definition provenance_missing (t : dict) : res bool :=
  let c := get t "observation_context" in
  let! context := as_dict (if truthy c then c else VDict []) in
  Ok (negb (eq_str (get context "mode") "WATCH") || negb (is_false (get context "broker_mutation_authorized")) ||
      negb (truthy (get context "cycle_id")) || negb (truthy (get context "reset_sha256")) ||
      negb (truthy (get t "input_sha256"))).

(** The times of an assessment, after validation. *)
Record Times := mkTimes { t_start : Z; t_decision_end : Z; t_last : Z; t_observed_until : Z }.

Definition oos_times (rows : list value) (oos_start decision_end outcome_end : value) : res Times :=
  let! first := (match rows with r :: _ => event_time r | [] => Raise index_error end) in
  let! observed_until := last_row_at rows in
  match oos_start, decision_end, (if is_none outcome_end then VInt observed_until else outcome_end) with
  | VInt s, VInt d, VInt l =>
      when negb ((first <? s) && (s <? d) && (d <? l)) raise cost_error "OOS_REQUIRES_START_DECISION_END_AND_OUTCOME_TAIL" in
      Ok (mkTimes s d l observed_until)
  | _, _, _ => Raise (cost_error "OOS_REQUIRES_START_DECISION_END_AND_OUTCOME_TAIL")
  end.

(** [training_end_ms is not None and (not int or not 0 < training_end_ms <= oos_start_ms)] *)
Definition training_invalid (training_end : value) (start : Z) : bool :=
  match training_end with VNone => false | VInt z => negb ((0 <? z) && (z <=? start)) | _ => true end.

Record Evidence := mkEvidence {
  v_selected : list OutcomeView; v_directional : list OutcomeView; v_observed_directional : list OutcomeView;
  v_timely : list OutcomeView }.

Definition oos_evidence (ttl : Z) (ids : list string) (outcomes : list OutcomeView) : res Evidence :=
  let chosen := List.filter (fun w => existsb (fun x => bool_decide (x = w_id w)) ids) outcomes in
  let directional := List.filter (fun w => negb (is_hold w)) chosen in
  let observed := List.filter is_observed directional in
  let! ontime := rfilter (timely ttl) observed in
  Ok (mkEvidence chosen directional observed ontime).

Definition oos_reasons (t : dict) (training_end outcome_end : value) (tm : Times) (b : Bounds) (unproven : bool) (ev : Evidence)
    : list string :=
  flag (is_none training_end) "OOS_TRAINING_END_UNSET" ++
  (if is_none outcome_end then ["OOS_FIXED_OUTCOME_END_UNSET"]
   else flag (t_observed_until tm <? t_last tm) "OUTCOME_WINDOW_NOT_COMPLETE") ++
  flag (negb (bool_decide (is_Some (min_directional b)) && bool_decide (is_Some (min_round_trips b)))) "OOS_SAMPLE_BOUNDS_UNSET" ++
  flag (negb (bool_decide (is_Some (turnover_budget b)) && bool_decide (is_Some (max_reentries b)))) "OOS_TURNOVER_REENTRY_BOUNDS_UNSET" ++
  flag unproven "REAL_WATCH_CAPTURE_PROVENANCE_REQUIRED" ++
  flag (negb (eq_str (get t "source_kind") "IB_CAPTURE")) "SYNTHETIC_IS_NOT_REAL_OOS" ++
  flag (match v_directional ev with [] => true | _ => false end) "NO_DIRECTIONAL_OOS_CANDIDATES" ++
  flag (below (Z.of_nat (length (v_timely ev))) (min_directional b)) "INSUFFICIENT_TIMELY_DIRECTIONAL_OOS_CANDIDATES" ++
  flag (existsb (fun w => negb (is_observed w)) (v_selected ev)) "INCOMPLETE_OOS_OUTCOMES" ++
  flag (existsb (fun w => negb (is_observed w)) (v_directional ev)) "INCOMPLETE_DIRECTIONAL_OOS_OUTCOMES" ++
  flag (negb (bool_decide (is_Some (drawdown_budget b)))) "OPERATOR_DRAWDOWN_BUDGET_UNSET".

Definition empty {A} (l : list A) : bool := match l with [] => true | _ => false end.

Definition oos_report (t : dict) (input : string) (training_end min_dir min_rt max_turnover max_re : value) (tm : Times) (b : Bounds)
    (sp : Split) (ev : Evidence) (cases : list CaseCheck) (stress : list (string * dict)) (reasons : list string) : dict :=
  [("schema", VStr "heptatrader.remote-model-oos.v1"); ("source_kind", get t "source_kind"); ("input_sha256", VStr input);
   ("oos_start_ms", VInt (t_start tm)); ("decision_end_ms", VInt (t_decision_end tm)); ("training_end_ms", training_end);
   ("decision_start_ms", VInt (t_start tm)); ("outcome_end_ms", VInt (t_last tm)); ("observed_until_ms", VInt (t_observed_until tm));
   ("holdout_rows_including_outcome_tail", VInt (Z.of_nat (length (heldout sp))));
   ("sample_bounds", VDict [("min_directional_candidates", min_dir); ("min_completed_round_trips", min_rt)]);
   ("path_bounds", VDict [("max_turnover_usd", max_turnover); ("max_reentries", max_re)]);
   ("purged_or_outside_window_candidates", VList (map exclusion_value (purged sp)));
   ("oos_evidence", VDict [("selected_candidates", VInt (Z.of_nat (length (v_selected ev))));
      ("directional_candidates", VInt (Z.of_nat (length (v_directional ev))));
      ("observed_directional_candidates", VInt (Z.of_nat (length (v_observed_directional ev))));
      ("timely_observed_directional_candidates", VInt (Z.of_nat (length (v_timely ev))));
      ("candidate_actions", counter_value (counter (map w_action (v_selected ev))));
      ("candidate_horizons_sec", counter_value (counter (map (fun w => py_str (get (w_forecast w) "horizon_sec")) (v_selected ev))))]);
   ("cost_case_checks", VDict (map (case_value true) cases));
   ("stress", VDict (map (fun kv : string * dict => (kv.1, VDict kv.2)) stress));
   ("operator_max_drawdown_usd", opt_sdec (drawdown_budget b));
   ("remote_model_refit_performed", VBool false); ("calibration_artifact_used", VBool false);
   ("local_training_required_for_acceptance", VBool false); ("local_training_ready", VNone);
   ("strategy_accepted", VBool (empty reasons)); ("research_acceptance_passed", VBool (empty reasons));
   ("reasons", VList (map VStr reasons));
   ("acceptance_meaning", VStr "FIXED_TIME_REMOTE_MODEL_OOS_NET_ADVANTAGE_SCREEN_NOT_LIVE_EXECUTION_PROOF");
   ("authorization_effect", VStr "NONE"); ("calibration_activated", VBool false);
   ("trading_driver_switched", VBool false); ("broker_orders_sent", VInt 0); ("live_profitability_proven", VBool false)].

Definition chronological_assessment (p : Z) (tape oos_start decision_end size capital max_drawdown : value) (policy : Policy)
    (training_end outcome_end min_dir min_rt max_turnover max_re : value) : res dict :=
  let! t := validate_tape p tape in
  let! _ := validate p policy in
  let! rows := as_list (get t "rows") in
  let! tm := oos_times rows oos_start decision_end outcome_end in
  when training_invalid training_end (t_start tm) raise cost_error "OOS_TRAINING_BOUNDARY_INVALID" in
  let! n_dir := int_bound 1 "OOS_SAMPLE_BOUND_INVALID" min_dir in
  let! n_rt := int_bound 1 "OOS_SAMPLE_BOUND_INVALID" min_rt in
  let! n_re := int_bound 0 "OOS_REENTRY_BOUND_INVALID" max_re in
  let! turnover := amount_bound p "OOS_TURNOVER_BOUND_INVALID" max_turnover in
  let! budget := amount_bound p "HOLDOUT_DRAWDOWN_BUDGET_INVALID" max_drawdown in
  let b := mkBounds n_dir n_rt turnover n_re budget in
  let! sp := split_rows (fun a => (t_start tm <=? a) && (a <=? t_last tm)) (fun i => i <? t_start tm)
               "FORECAST_BEFORE_OOS_WINDOW" (t_decision_end tm) rows in
  when empty (heldout sp) raise cost_error "OOS_WINDOW_NOT_YET_OBSERVED" in
  let! stress := remote_stress_compare p (VDict (set_rows t (heldout sp))) size capital policy in
  let! outcomes := base_outcomes stress in
  let! ids := rmapM (fun f => digest (VDict f)) (selected sp) in
  let! ttl := as_int (forecast_entry_ttl_ms policy) in
  let! ev := oos_evidence ttl ids outcomes in
  let! unproven := provenance_missing t in
  let! cases := rmapM (check_case p b) stress in
  let reasons := oos_reasons t training_end outcome_end tm b unproven ev ++
                 flat_map (case_reason "_REMOTE_OOS_COST_PATH_NOT_ACCEPTED") cases in
  let! input := digest tape in
  Ok (oos_report t input training_end min_dir min_rt max_turnover max_re tm b sp ev cases stress reasons).

(** ** [local_training_assessment] *)

Record HeldState := mkHeldState {
  h_cohorts : list (string * (Z * list Z)); h_last : list (string * Z); h_excluded : list (string * string) }.

(** Why an outcome is not a held-out sample. *)
Definition held_reason (ttl : Z) (cohorts : dict) (valid_until : Z) (key : string) (w : OutcomeView) : res string :=
  if is_hold w then Ok "HOLD_NOT_DIRECTIONAL"
  else if negb (is_observed w) then Ok (w_reason w)
  else
    let! available := as_int (w_available w) in
    let! issued := as_int (get (w_forecast w) "issued_at_ms") in
    Ok (if ttl <? available - issued then "LATE_HOLDOUT_FORECAST"
        else if negb (dhas key cohorts) then "NO_TRAINED_COHORT"
        else if valid_until <=? issued then "FROZEN_CALIBRATION_EXPIRED"
        else "OBSERVED").

Definition z_add (z : Z) (l : list Z) : list Z := if existsb (Z.eqb z) l then l else l ++ [z].

Definition held_step (ttl : Z) (cohorts : dict) (valid_until : Z) (st : HeldState) (w : OutcomeView) : res HeldState :=
  let! key := calibration_key (w_forecast w) in
  let! reason := held_reason ttl cohorts valid_until key w in
  let! issued := as_int (get (w_forecast w) "issued_at_ms") in
  if negb (bool_decide (reason = "OBSERVED"))
  then Ok (mkHeldState (h_cohorts st) (h_last st) (h_excluded st ++ [(w_id w, reason)]))
  else if issued <=? dget_or 0 key (h_last st)
  then Ok (mkHeldState (h_cohorts st) (h_last st) (h_excluded st ++ [(w_id w, "OVERLAPPING_HOLDOUT_HORIZON")]))
  else
    let! observed := as_int (w_observed w) in
    let '(count, days) := dget_or (0, []) key (h_cohorts st) in
    Ok (mkHeldState (dset key (count + 1, z_add (issued / 86400000) days) (h_cohorts st))
          (dset key observed (h_last st)) (h_excluded st)).

Definition view_issued (w : OutcomeView) : Z := match get (w_forecast w) "issued_at_ms" with VInt z => z | _ => 0 end.

Record CohortCoverage := mkCohortCoverage { cg_key : string; cg_samples : Z; cg_dates : Z; cg_met : bool }.

Definition coverage_entry (min_samples min_days : Z) (kv : string * (Z * list Z)) : CohortCoverage :=
  let n := kv.2.1 in let d := Z.of_nat (length kv.2.2) in
  mkCohortCoverage kv.1 n d ((min_samples <=? n) && (min_days <=? d)).

Definition coverage_value (c : CohortCoverage) : string * value :=
  (cg_key c, VDict [("nonoverlapping_samples", VInt (cg_samples c)); ("utc_dates", VInt (cg_dates c));
                    ("engineering_minimum_met", VBool (cg_met c))]).

(** [dec(net) < dec(baseline_net)] when both are known. *)
Definition below_baseline (p : Z) (net baseline_net : value) : res bool :=
  if is_none net || is_none baseline_net then Ok false
  else let! n := dec p net in let! b := dec p baseline_net in Ok (dltb n b).

Definition local_path_reasons (p : Z) (min_samples : Z) (budget : option decimal) (baseline_net : value) (path : dict)
    : res (list string) :=
  let! strategy := (let! v := item path "strategy" in as_str v) in
  let! complete := item path "complete_observed_path" in
  let! trips := (let! v := item path "completed_round_trips" in as_int v) in
  let! remaining := (let! v := item path "remaining_simulated_quantity" in dec p v) in
  let! net := item path "net_liquidation_pnl_usd" in
  let! losing := not_positive p net in
  let! under := below_baseline p net baseline_net in
  let! drawdown := item path "max_drawdown_usd" in
  let! drawn := drawdown_exceeded p drawdown budget in
  Ok (map (fun r => strategy +:+ ":" +:+ r)
        (flag (negb (truthy complete)) "PATH_INCOMPLETE" ++
         flag (trips <? min_samples) "INSUFFICIENT_COMPLETED_ROUNDTRIPS" ++
         flag (negb (deqb remaining ZERO)) "OPEN_POSITION_AT_OUTCOME_END" ++
         flag losing "NONPOSITIVE_OR_UNKNOWN_NET_RETURN" ++
         flag under "BELOW_SAME_INPUT_BASELINE" ++
         flag drawn "DRAWDOWN_BUDGET_NOT_MET")).

Definition local_check_case (p : Z) (min_samples : Z) (budget : option decimal) (case : string * dict) : res CaseCheck :=
  let! results := results_of case.2 in
  match results with
  | [] => Raise index_error
  | baseline :: paths =>
      let! complete := item baseline "complete_observed_path" in
      let! baseline_net := item baseline "net_liquidation_pnl_usd" in
      let! rs := rmapM (local_path_reasons p min_samples budget baseline_net) paths in
      Ok (mkCaseCheck case.1 (flag (negb (truthy complete)) "BASELINE_PATH_INCOMPLETE" ++ concat rs) [])
  end.

Definition local_reasons (t : dict) (cohorts : dict) (sp : Split) (coverage : list CohortCoverage) (outcomes : list OutcomeView)
    (budget : option decimal) : list string :=
  flag (negb (eq_str (get t "source_kind") "IB_CAPTURE")) "SYNTHETIC_IS_NOT_REAL_HOLDOUT" ++
  flag (empty cohorts) "NO_QUALIFIED_TRAINING_COHORT" ++
  flag (negb (existsb (fun f => negb (eq_str (get f "action") "HOLD")) (selected sp))) "NO_DIRECTIONAL_HOLDOUT_CANDIDATES" ++
  flag (empty coverage || negb (forallb cg_met coverage)) "INSUFFICIENT_NONOVERLAPPING_HELDOUT_COVERAGE" ++
  flag (existsb (fun w => negb (is_hold w) && negb (is_observed w)) outcomes) "INCOMPLETE_DIRECTIONAL_HOLDOUT_OUTCOMES" ++
  flag (negb (bool_decide (is_Some budget))) "OPERATOR_DRAWDOWN_BUDGET_UNSET".

(** The three windows of a holdout: training, decision, outcome tail. *)
Definition holdout_times (rows : list value) (fit_cutoff decision_end : value) : res (Z * Z * Z) :=
  let! first := (match rows with r :: _ => event_time r | [] => Raise index_error end) in
  let! last := last_row_at rows in
  match fit_cutoff, decision_end with
  | VInt c, VInt d =>
      when negb ((first <? c) && (c <? d) && (d <? last)) raise cost_error "HOLDOUT_REQUIRES_TRAIN_DECISION_AND_OUTCOME_WINDOWS" in
      Ok (c, d, last)
  | _, _ => Raise (cost_error "HOLDOUT_REQUIRES_TRAIN_DECISION_AND_OUTCOME_WINDOWS")
  end.

Definition local_report (t : dict) (input : string) (cutoff decision_end last : Z) (training_rows : list value) (sp : Split)
    (fit : Fit) (cohorts : dict) (held : HeldState) (coverage : list CohortCoverage) (cases : list CaseCheck)
    (stress : list (string * dict)) (budget : option decimal) (min_samples min_days : Z) (reasons : list string) : dict :=
  [("schema", VStr "heptatrader.cost-chronological-assessment.v1"); ("source_kind", get t "source_kind"); ("input_sha256", VStr input);
   ("fit_cutoff_ms", VInt cutoff); ("decision_end_ms", VInt decision_end); ("outcome_end_ms", VInt last);
   ("training_rows", VInt (Z.of_nat (length training_rows)));
   ("holdout_rows_including_outcome_tail", VInt (Z.of_nat (length (heldout sp)))); ("training", VDict (fit_value fit));
   ("purged_or_outside_window_candidates", VList (map exclusion_value (purged sp)));
   ("holdout_cohort_coverage", VDict (map coverage_value coverage));
   ("holdout_sample_exclusions", VList (map exclusion_value (h_excluded held)));
   ("cost_case_checks", VDict (map (case_value false) cases));
   ("stress", VDict (map (fun kv : string * dict => (kv.1, VDict kv.2)) stress));
   ("operator_max_drawdown_usd", opt_sdec budget);
   ("engineering_minimum_per_cohort", VDict [("nonoverlapping_samples", VInt min_samples); ("utc_dates", VInt min_days);
      ("completed_roundtrips_per_cost_path", VInt min_samples)]);
   ("local_training_ready", VBool (negb (empty cohorts))); ("deployment_blocker", VBool false);
   ("research_acceptance_passed", VBool (empty reasons)); ("reasons", VList (map VStr reasons));
   ("acceptance_meaning", VStr "LOCAL_MODEL_TRAINING_HOLDOUT_ONLY_NOT_REMOTE_STRATEGY_DEPLOYMENT");
   ("authorization_effect", VStr "NONE"); ("calibration_activated", VBool false); ("trading_driver_switched", VBool false);
   ("broker_orders_sent", VInt 0); ("live_profitability_proven", VBool false)].

Definition local_training_assessment (p : Z) (tape fit_cutoff decision_end size capital max_drawdown : value) (policy : Policy)
    : res dict :=
  let! t := validate_tape p tape in
  let! _ := validate p policy in
  let! rows := as_list (get t "rows") in
  let! tm := holdout_times rows fit_cutoff decision_end in
  let '(cutoff, d_end, last) := tm in
  let! budget := amount_bound p "HOLDOUT_DRAWDOWN_BUDGET_INVALID" max_drawdown in
  let! training_rows := rfilter (fun r => let! a := event_time r in Ok (a <? cutoff)) rows in
  let! fit := fit_from_tape p (VDict (set_rows t training_rows)) cutoff policy in
  let! sp := split_rows (fun a => cutoff <? a) (fun i => i <=? cutoff) "FORECAST_STRADDLES_TRAIN_HOLDOUT_BOUNDARY" d_end rows in
  let! stress := stress_compare p (VDict (set_rows t (heldout sp))) [fit_artifact fit] size capital policy "calibrated" in
  let! outcomes := base_outcomes stress in
  let! cohorts := (let! v := item (fit_artifact fit) "cohorts" in as_dict v) in
  let! valid_until := (let! v := item (fit_artifact fit) "valid_until_ms" in as_int v) in
  let! ttl := as_int (forecast_entry_ttl_ms policy) in
  let! held := rfold (held_step ttl cohorts valid_until)
                 (sorted_by (fun a b => view_issued a <=? view_issued b) outcomes) (mkHeldState [] [] []) in
  let! min_samples := as_int (min_calibration_samples policy) in
  let! min_days := as_int (min_calibration_days policy) in
  let coverage := map (coverage_entry min_samples min_days) (h_cohorts held) in
  let! cases := rmapM (local_check_case p min_samples budget) stress in
  let reasons := local_reasons t cohorts sp coverage outcomes budget ++ flat_map (case_reason "_COST_PATH_NOT_ACCEPTED") cases in
  let! input := digest tape in
  Ok (local_report t input cutoff d_end last training_rows sp fit cohorts held coverage cases stress budget min_samples min_days reasons).

End CostAssess.
