(* ===== verification/CostAssessFacts.v ===== *)
(** * What acceptance means

    A remote strategy is accepted only on a real observation capture, with every
    operator bound set, a complete outcome window and, under every cost stress,
    paths that ended flat, profitable, not below the baseline and within the
    bounds; the candidates it was judged on lie inside the decision window. *)

From Stdlib Require Import QArith Ascii Lqa.
From S2P Require Import Prelude PyDecimal PyText PyValue RowMonad Sha256 CostPolicy CostFacts CostAdmission CostTape CostTapeFacts CostPath CostPathFacts CostQuality CostQualityFacts CostAssess.
From stdpp Require Import base tactics list strings.
From Stdlib Require Import ZArith Lia.
Import CostPolicy CostTape CostPath CostQuality CostAssess.

Open Scope Z_scope.

Lemma flag_nil c s : flag c s = [] -> c = false.
Proof. by destruct c. Qed.

(** Splits an empty list of reasons into the tests that passed. *)
Ltac no_reasons H :=
  repeat match type of H with
  | _ ++ _ = [] => let H1 := fresh "Hno" in apply app_eq_nil in H as [H1 H]; try apply flag_nil in H1
  end; try apply flag_nil in H.

(** ** Windows *)

(** A held-out row was observed inside the window, and a candidate on it was
    issued after the boundary and known, and evaluated, before the decision end. *)
Definition in_window (keep too_early : Z -> bool) (decision_end : Z) (row : value) : Prop :=
  exists r at_ms, row = VDict r /\ get r "at_ms" = VInt at_ms /\ keep at_ms = true /\
    (truthy (get r "forecast") = true ->
     exists f issued known, get r "forecast" = VDict f /\ get f "issued_at_ms" = VInt issued /\
       getd (VInt at_ms) r "forecast_available_at_ms" = VInt known /\
       too_early issued = false /\ known <= decision_end /\ at_ms <= decision_end).

Lemma dget_dpop_ne {V} k k' (d : list (string * V)) : k <> k' -> dget k (dpop k' d) = dget k d.
Proof.
  intros Hn. induction d as [|[k2 v2] d IH]; simpl; [done|]. destruct (decide (k' = k2)) as [->|]; simpl.
  - by rewrite decide_False by done.
  - by rewrite IH.
Qed.

Lemma without_forecast_get r : get (without_forecast r) "at_ms" = get r "at_ms" /\ get (without_forecast r) "forecast" = VNone.
Proof.
  unfold without_forecast, get, getd, dget_or. rewrite !dget_dpop_ne by done. by rewrite dget_dset_ne, dget_dset_eq by done.
Qed.

Lemma row_at_get r a : row_at r = Ok a -> get r "at_ms" = VInt a.
Proof. unfold row_at. intros H. apply rbind_ok in H as (v & Hv & H). apply item_get in Hv as [Hv _]. apply as_int_ok in H. by subst v. Qed.

Lemma split_step_ok keep too_early early decision_end st row st' :
  split_step keep too_early early decision_end st row = Ok st' ->
  (forall x, In x (heldout st) -> in_window keep too_early decision_end x) ->
  forall x, In x (heldout st') -> in_window keep too_early decision_end x.
Proof.
  unfold split_step. intros H Hst. apply rbind_ok in H as (r & Hr & H). apply as_dict_ok in Hr. subst row.
  apply rbind_ok in H as (a & Ha & H). apply row_at_get in Ha. case_if H; [by apply Ok_inj in H as <-|]. apply negb_false_iff in E.
  destruct (without_forecast_get r) as [Wa Wf].
  case_if H; cycle 1.
  { apply Ok_inj in H as <-. cbn [heldout]. intros x [?|[<-|[]]]%in_app_or; [by apply Hst|]. exists r, a. repeat (split; [done|]). by rewrite E0. }
  apply rbind_ok in H as (f & Hf & H). apply as_dict_ok in Hf. apply rbind_ok in H as (i & Hi & H). apply as_int_ok in Hi.
  apply rbind_ok in H as (k & Hk & H). apply as_int_ok in Hk. unfold purge_reason in H. destruct (too_early i) eqn:Et.
  { apply rbind_ok in H as (id & _ & H). apply Ok_inj in H as <-. cbn [heldout]. intros x [?|[<-|[]]]%in_app_or; [by apply Hst|].
    exists (without_forecast r), a. rewrite Wa, Wf. repeat (split; [done|]). done. }
  destruct ((decision_end <? k) || (decision_end <? a)) eqn:Ed.
  - apply rbind_ok in H as (id & _ & H). apply Ok_inj in H as <-. cbn [heldout]. intros x [?|[<-|[]]]%in_app_or; [by apply Hst|].
    exists (without_forecast r), a. rewrite Wa, Wf. repeat (split; [done|]). done.
  - apply Ok_inj in H as <-. cbn [heldout]. intros x [?|[<-|[]]]%in_app_or; [by apply Hst|]. split_bools.
    exists r, a. repeat (split; [done|]). intros _. exists f, i, k. repeat (split; [done|]). lia.
Qed.

Lemma split_rows_ok keep too_early early decision_end rows sp :
  split_rows keep too_early early decision_end rows = Ok sp ->
  forall x, In x (heldout sp) -> in_window keep too_early decision_end x.
Proof.
  unfold split_rows. intros H.
  refine (rfold_inv (fun st => forall x, In x (heldout st) -> in_window keep too_early decision_end x) _ rows _ sp _ _ H); [|by intros x []].
  intros st x st' _ Hst Hs. by eapply split_step_ok.
Qed.

(** The held-out rows of a list of rows, in order: every row of the window and no other, as it is,
    or without its candidate when that was issued too early or was not known, or not
    evaluated, by the decision end. *)
Inductive cut (keep too_early : Z -> bool) (decision_end : Z) : list value -> list value -> Prop :=
| CutNil : cut keep too_early decision_end [] []
| CutOutside r at_ms rows ev : get r "at_ms" = VInt at_ms -> keep at_ms = false -> cut keep too_early decision_end rows ev ->
    cut keep too_early decision_end (VDict r :: rows) ev
| CutInside r rows ev : in_window keep too_early decision_end (VDict r) -> cut keep too_early decision_end rows ev ->
    cut keep too_early decision_end (VDict r :: rows) (VDict r :: ev)
| CutPurged r at_ms f issued known rows ev : get r "at_ms" = VInt at_ms -> keep at_ms = true -> get r "forecast" = VDict f ->
    get f "issued_at_ms" = VInt issued -> getd (VInt at_ms) r "forecast_available_at_ms" = VInt known ->
    too_early issued = true \/ decision_end < known \/ decision_end < at_ms -> cut keep too_early decision_end rows ev ->
    cut keep too_early decision_end (VDict r :: rows) (VDict (without_forecast r) :: ev).

Lemma split_rows_cut keep too_early early decision_end rows : forall st st',
  rfold (split_step keep too_early early decision_end) rows st = Ok st' ->
  exists ev, heldout st' = heldout st ++ ev /\ cut keep too_early decision_end rows ev.
Proof.
  induction rows as [|row rows IH]; intros st st' H; simpl in H.
  { apply Ok_inj in H as <-. exists []. rewrite app_nil_r. split; [done|constructor]. }
  apply rbind_ok in H as (st1 & H1 & H). apply IH in H as (ev & -> & Hev). clear IH. unfold split_step in H1.
  apply rbind_ok in H1 as (r & Hr & H1). apply as_dict_ok in Hr. subst row. apply rbind_ok in H1 as (a & Ha & H1). apply row_at_get in Ha.
  case_if H1; [apply negb_true_iff in E; apply Ok_inj in H1 as <-; exists ev; split; [done|by eapply CutOutside]|]. apply negb_false_iff in E.
  case_if H1; cycle 1.
  { apply Ok_inj in H1 as <-. cbn [heldout]. exists (VDict r :: ev). rewrite <- app_assoc. split; [done|]. apply CutInside; [|done].
    exists r, a. repeat (split; [done|]). by rewrite E0. }
  apply rbind_ok in H1 as (f & Hf & H1). apply as_dict_ok in Hf. apply rbind_ok in H1 as (i & Hi & H1). apply as_int_ok in Hi.
  apply rbind_ok in H1 as (k & Hk & H1). apply as_int_ok in Hk. unfold purge_reason in H1.
  destruct (too_early i) eqn:Et; [|destruct ((decision_end <? k) || (decision_end <? a)) eqn:Ed].
  - apply rbind_ok in H1 as (id & _ & H1). apply Ok_inj in H1 as <-. cbn [heldout]. eexists (_ :: ev). rewrite <- app_assoc. split; [done|]. eapply CutPurged; eauto.
  - apply rbind_ok in H1 as (id & _ & H1). apply Ok_inj in H1 as <-. cbn [heldout]. eexists (_ :: ev). rewrite <- app_assoc. split; [done|].
    eapply CutPurged; eauto. right. apply orb_prop in Ed as [Ed|Ed]; lia.
  - apply Ok_inj in H1 as <-. cbn [heldout]. exists (VDict r :: ev). rewrite <- app_assoc. split; [done|]. apply CutInside; [|done]. split_bools.
    exists r, a. repeat (split; [done|]). intros _. exists f, i, k. repeat (split; [done|]). lia.
Qed.

(** ** The stressed paths *)

(** A comparison report of a tape: its results are the summaries of the three paths that end the
    replay of the tape under the policy, the baseline first. *)
Definition replayed_under (p : Z) (t : dict) (size capital : value) (policy : Policy) (report : dict) : Prop :=
  exists states duration results, run_paths p t [] size capital policy "remote_raw" = Ok (states, duration) /\
    map (fun cw : Config * Path => c_name cw.1) states = ["DIRECTION_BASELINE"; "COST_GATE"; "COST_GATE_BAND"] /\
    Forall2 (fun (cw : Config * Path) result => summary p cw.1 cw.2 duration = Ok result) states results /\ results_of report = Ok results.

(** The reports of the five cost cases on the held-out rows of a tape. *)
Definition stressed_paths (p : Z) (t : dict) (rows : list value) (s d l : Z) (size capital : value) (policy : Policy)
    (stress : list (string * dict)) : Prop :=
  exists evaluation, cut (fun a => (s <=? a) && (a <=? l)) (fun i => i <? s) d rows evaluation /\ evaluation <> [] /\
    Forall2 (fun (c : string * (string * string)) kv => kv.1 = c.1 /\
               replayed_under p (set_rows t evaluation) size capital (stressed policy c.2.1 c.2.2) kv.2)
      [("BASE", ("1", "1")); ("SLIPPAGE_2X", ("1", "2")); ("SLIPPAGE_5X", ("1", "5")); ("FEES_125PCT", ("1.25", "1"));
       ("FEES_150PCT_SLIPPAGE_5X", ("1.5", "5"))] stress.

Lemma as_dict_map l : rmapM as_dict (map VDict l) = Ok l.
Proof. induction l as [|x l IH]; simpl; [done|]. by rewrite IH. Qed.

Lemma remote_compare_ok p t size capital policy report : remote_compare p (VDict t) size capital policy = Ok report ->
  replayed_under p t size capital policy report.
Proof.
  unfold remote_compare, compare. intros H. apply rbind_ok in H as (t' & Ht & H). apply validate_tape_ok in Ht as ([= <-] & _).
  apply rbind_ok in H as ([states duration] & Hr & H). apply rbind_ok in H as (input & _ & H). apply rbind_ok in H as (rows & _ & H).
  apply rbind_ok in H as (results & Hs & H). apply rbind_ok in H as (outcomes & _ & H). apply Ok_inj in H as <-.
  exists states, duration, results. split; [done|]. split; [|split; [by apply rmapM_Forall2 in Hs|exact (as_dict_map results)]].
  apply run_paths_inv in Hr as (i & rows' & states0 & [_ _ _ Hst Hal]). apply rmapM_Forall2 in Hst.
  change ["DIRECTION_BASELINE"; "COST_GATE"; "COST_GATE_BAND"] with NAMES. revert states0 Hst Hal. generalize NAMES. clear Hs. intros names states0 Hst.
  revert states. induction Hst as [|n [c w] names states0 Hi _ IH]; intros states Hal; inversion Hal as [|? [c' w'] ? states' [Ec _] Hal']; subst; [done|].
  simpl in Ec. subst c'. simpl. destruct (init_ok _ _ _ _ _ _ _ _ _ Hi) as (_ & _ & _ & -> & _). by rewrite (IH _ Hal').
Qed.

Lemma stressed_paths_ok p t rows s d l size capital policy stress sp early :
  split_rows (fun a => (s <=? a) && (a <=? l)) (fun i => i <? s) early d rows = Ok sp -> empty (heldout sp) = false ->
  remote_stress_compare p (VDict (set_rows t (heldout sp))) size capital policy = Ok stress -> stressed_paths p t rows s d l size capital policy stress.
Proof.
  intros Hsp He Hst. apply split_rows_cut in Hsp as (ev & E & Hc). simpl in E. subst ev. exists (heldout sp). split; [done|]. split; [by destruct (heldout sp)|].
  apply rmapM_Forall2 in Hst. eapply Forall2_impl; [exact Hst|]. intros c kv H. apply rbind_ok in H as (r & Hr & H). apply Ok_inj in H as <-. split; [done|].
  by apply remote_compare_ok.
Qed.

(** ** Paths *)

(** What an accepted path satisfies. *)
Record path_accepted (p : Z) (b : Bounds) (baseline_net : value) (path : dict) : Prop := {
  pp_complete : truthy (get path "complete_observed_path") = true;
  pp_trips : exists n, get path "completed_round_trips" = VInt n /\ 1 <= n /\ forall m, min_round_trips b = Some m -> m <= n;
  pp_flat : exists q, dec p (get path "remaining_simulated_quantity") = Ok q /\ (dval q == 0)%Q;
  pp_net : exists n, dec p (get path "net_liquidation_pnl_usd") = Ok n /\ (0 < dval n)%Q /\
    (baseline_net <> VNone -> exists k d, dec p baseline_net = Ok k /\ dsub p n k = Ok d /\ (0 <= dval d)%Q);
  pp_turnover : forall m, turnover_budget b = Some m -> exists d, dec p (get path "turnover_usd") = Ok d /\ (dval d <= dval m)%Q;
  pp_reentries : exists n, get path "open_events" = VInt n /\ forall m, max_reentries b = Some m -> 0 <= m -> n - 1 <= m;
  pp_drawdown : forall m, drawdown_budget b = Some m -> exists d, dec p (get path "max_drawdown_usd") = Ok d /\ (dval d <= dval m)%Q }.

Lemma is_none_false v : is_none v = false <-> v <> VNone.
Proof. by destruct v. Qed.

Lemma check_path_ok p b baseline_net path c :
  check_path p b baseline_net path = Ok c -> pc_reasons c = [] -> path_accepted p b baseline_net path.
Proof.
  unfold check_path. intros H Hr. apply rbind_ok in H as (st & _ & H). apply rbind_ok in H as (co & Hco & H). apply rbind_ok in H as (tr & Htr & H).
  apply rbind_ok in H as (tu & Htu & H). apply rbind_ok in H as (ov & Hov & H). apply rbind_ok in H as (op & Hop & H).
  apply rbind_ok in H as (rm & Hrm & H). apply rbind_ok in H as (net & Hnet & H). apply rbind_ok in H as (lo & Hlo & H).
  apply rbind_ok in H as (ad & Had & H). apply rbind_ok in H as (dd & Hdd & H). apply rbind_ok in H as (dr & Hdr & H).
  apply Ok_inj in H as <-. cbn [pc_reasons] in Hr. no_reasons Hr.
  apply rbind_ok in Htr as (trv & Htrv & Htr). apply rbind_ok in Hop as (opv & Hopv & Hop). apply rbind_ok in Hrm as (rmv & Hrmv & Hrm).
  apply item_get in Hco as [<- _], Htrv as [<- _], Htu as [<- _], Hopv as [<- _], Hrmv as [<- _], Hnet as [<- _], Hdd as [<- _].
  apply as_int_ok in Htr, Hop. apply negb_false_iff in Hno. subst. split.
  - done.
  - exists tr. split_bools. split; [done|]. split; [lia|]. intros m Em. rewrite Em in Hno1. simpl in Hno1. lia.
  - exists rm. split; [done|]. apply negb_false_iff, deqb_eq in Hno4. by rewrite dval_COST_ZERO in Hno4.
  - unfold not_positive in Hlo. destruct (is_none (get path "net_liquidation_pnl_usd")) eqn:En; [done|].
    apply rbind_ok in Hlo as (n & Hn & Hlo). apply Ok_inj in Hlo. exists n. split; [done|]. apply dleb_gt in Hlo. rewrite dval_COST_ZERO in Hlo.
    split; [done|]. intros Hb. unfold advantage_of in Had. rewrite En in Had. apply is_none_false in Hb. rewrite Hb in Had. simpl in Had.
    rewrite Hn in Had. apply rbind_ok in Had as (n' & [= <-] & Had). apply rbind_ok in Had as (k & Hk & Had).
    apply rbind_ok in Had as (d & Hd & Had). apply Ok_inj in Had as <-. exists k, d. apply dltb_ge in Hno6. by rewrite dval_COST_ZERO in Hno6.
  - intros m Em. rewrite Em in Hov. simpl in Hov. apply rbind_ok in Hov as (d & Hd & Hov). apply Ok_inj in Hov.
    exists d. split; [done|]. by apply dltb_ge.
  - exists op. split; [done|]. intros m Em Hm. rewrite Em in Hno3. simpl in Hno3. lia.
  - intros m Em. unfold drawdown_exceeded in Hdr. rewrite Em in Hdr. case_if Hdr; [done|].
    apply rbind_ok in Hdr as (d & Hd & Hdr). apply Ok_inj in Hdr. exists d. split; [done|]. by apply dltb_ge.
Qed.

(** What an accepted cost case satisfies. *)
Definition case_accepted (p : Z) (b : Bounds) (report : dict) : Prop :=
  exists baseline paths, results_of report = Ok (baseline :: paths) /\
    truthy (get baseline "complete_observed_path") = true /\ get baseline "net_liquidation_pnl_usd" <> VNone /\
    forall path, In path paths -> path_accepted p b (get baseline "net_liquidation_pnl_usd") path.

Lemma check_case_ok p b case c : check_case p b case = Ok c -> cc_reasons c = [] -> case_accepted p b case.2.
Proof.
  unfold check_case. intros H Hr. apply rbind_ok in H as (res & Hres & H). destruct res as [|baseline paths]; [done|].
  apply rbind_ok in H as (net & Hnet & H). apply rbind_ok in H as (co & Hco & H). apply rbind_ok in H as (cs & Hcs & H).
  apply Ok_inj in H as <-. cbn [cc_reasons] in Hr. apply app_eq_nil in Hr as [Hf Hr]. apply flag_nil in Hf. split_bools.
  apply item_get in Hnet as [<- _], Hco as [<- _]. exists baseline, paths. split; [done|]. split; [done|]. split; [by apply is_none_false|].
  intros path Hin. apply rmapM_Forall2 in Hcs. apply list_elem_of_In, list_elem_of_lookup in Hin as (i & Hi).
  destruct (Forall2_lookup_l _ _ _ _ _ Hcs Hi) as (pc & Hpc & Hck). eapply check_path_ok; [exact Hck|].
  destruct (pc_reasons pc) as [|x l] eqn:E; [done|]. exfalso.
  assert (Hin : In (pc_strategy pc +:+ ":" +:+ x) []); [|done]. rewrite <- Hr. apply in_flat_map. exists pc.
  split; [apply list_elem_of_In; by eapply list_elem_of_lookup_2|]. rewrite E. by left.
Qed.

(** No case adds a reason when none of its checks failed. *)
Lemma case_reason_nil suffix cases c : flat_map (case_reason suffix) cases = [] -> In c cases -> cc_reasons c = [].
Proof.
  intros Hr Hin. destruct (cc_reasons c) as [|x l] eqn:E; [done|]. exfalso.
  assert (H : In (cc_name c +:+ suffix) []); [|done]. rewrite <- Hr. apply in_flat_map. exists c. split; [done|].
  unfold case_reason. rewrite E. by left.
Qed.

Lemma cases_accepted p b stress cases suffix :
  rmapM (check_case p b) stress = Ok cases -> flat_map (case_reason suffix) cases = [] ->
  forall name report, In (name, report) stress -> case_accepted p b report.
Proof.
  intros Hc Hr name report Hin. apply rmapM_Forall2 in Hc. apply list_elem_of_In, list_elem_of_lookup in Hin as (i & Hi).
  destruct (Forall2_lookup_l _ _ _ _ _ Hc Hi) as (c & Hci & Hck). apply (check_case_ok _ _ _ _ Hck).
  eapply case_reason_nil; [exact Hr|]. apply list_elem_of_In. by eapply list_elem_of_lookup_2.
Qed.

(** ** Acceptance *)

(** The bounds an operator declared, all of them. *)
Record declared (p : Z) (max_drawdown min_dir min_rt max_turnover max_re : value) (b : Bounds) : Prop := {
  dc_dir : exists n, min_dir = VInt n /\ 1 <= n /\ min_directional b = Some n;
  dc_trips : exists n, min_rt = VInt n /\ 1 <= n /\ min_round_trips b = Some n;
  dc_reentries : exists n, max_re = VInt n /\ 0 <= n /\ max_reentries b = Some n;
  dc_turnover : exists d, dec p max_turnover = Ok d /\ (0 < dval d)%Q /\ turnover_budget b = Some d;
  dc_drawdown : exists d, dec p max_drawdown = Ok d /\ (0 < dval d)%Q /\ drawdown_budget b = Some d }.

Lemma int_bound_some least reason v n : int_bound least reason v = Ok (Some n) -> v = VInt n /\ least <= n.
Proof.
  unfold int_bound. destruct v as [| |z| | | | |]; try done. intros H. apply when_ok in H as [Hl H]. apply Ok_inj in H as [= <-]. split_bools. done.
Qed.
Lemma amount_bound_some p reason v d : amount_bound p reason v = Ok (Some d) -> dec p v = Ok d /\ (0 < dval d)%Q.
Proof.
  unfold amount_bound. intros H. case_if H; [done|]. apply rbind_ok in H as (x & Hx & H). apply when_ok in H as [Hl H].
  apply Ok_inj in H as [= <-]. split; [done|]. apply dleb_gt in Hl. by rewrite dval_COST_ZERO in Hl.
Qed.

(** A real observation capture. *)
Definition real_capture (t : dict) : Prop :=
  get t "source_kind" = VStr "IB_CAPTURE" /\ truthy (get t "input_sha256") = true /\
  exists context, get t "observation_context" = VDict context /\ get context "mode" = VStr "WATCH" /\
    get context "broker_mutation_authorized" = VBool false /\
    truthy (get context "cycle_id") = true /\ truthy (get context "reset_sha256") = true.

Lemma provenance_ok t :
  provenance_missing t = Ok false -> eq_str (get t "source_kind") "IB_CAPTURE" = true -> real_capture t.
Proof.
  unfold provenance_missing. intros H Hk. apply rbind_ok in H as (c & Hc & H). apply Ok_inj in H. split_bools.
  apply eq_str_true in Hk. split; [done|]. split; [done|]. exists c.
  destruct (truthy (get t "observation_context")); [|apply Ok_inj in Hc; subst c; done]. apply as_dict_ok in Hc.
  repeat (split; [done || by apply eq_str_true || by apply is_false_eq|]). done.
Qed.

(** What an accepted assessment has established: a real capture, every bound
    declared, a training boundary before the test window, an outcome window
    observed to its end, and acceptable paths under every cost stress. *)
Definition accepted (p : Z) (t : dict) (rows : list value) (s l : Z) (training_end outcome_end : value)
    (max_drawdown min_dir min_rt max_turnover max_re : value) (stress : list (string * dict)) : Prop :=
  real_capture t /\ outcome_end = VInt l /\ (exists te, training_end = VInt te /\ 0 < te <= s) /\
  (exists u, last_row_at rows = Ok u /\ l <= u) /\
  exists b, declared p max_drawdown min_dir min_rt max_turnover max_re b /\
    forall name report, In (name, report) stress -> case_accepted p b report.

Lemma oos_verdict_sound p t rows tm b training_end outcome_end max_drawdown min_dir min_rt max_turnover max_re unproven ev cases stress :
  training_invalid training_end (t_start tm) = false -> provenance_missing t = Ok unproven ->
  last_row_at rows = Ok (t_observed_until tm) -> (is_none outcome_end = false -> outcome_end = VInt (t_last tm)) ->
  int_bound 1 "OOS_SAMPLE_BOUND_INVALID" min_dir = Ok (min_directional b) ->
  int_bound 1 "OOS_SAMPLE_BOUND_INVALID" min_rt = Ok (min_round_trips b) ->
  int_bound 0 "OOS_REENTRY_BOUND_INVALID" max_re = Ok (max_reentries b) ->
  amount_bound p "OOS_TURNOVER_BOUND_INVALID" max_turnover = Ok (turnover_budget b) ->
  amount_bound p "HOLDOUT_DRAWDOWN_BUDGET_INVALID" max_drawdown = Ok (drawdown_budget b) ->
  rmapM (check_case p b) stress = Ok cases ->
  oos_reasons t training_end outcome_end tm b unproven ev ++ flat_map (case_reason "_REMOTE_OOS_COST_PATH_NOT_ACCEPTED") cases = [] ->
  accepted p t rows (t_start tm) (t_last tm) training_end outcome_end max_drawdown min_dir min_rt max_turnover max_re stress.
Proof.
  intros Htr Hun Huntil Hout Hnd Hnr Hne Htu Hbu Hcs Er.
  apply app_eq_nil in Er as [Hg Hcase]. unfold oos_reasons in Hg. apply app_eq_nil in Hg as [Hte Hg]. apply flag_nil in Hte.
  apply app_eq_nil in Hg as [Hoe Hg]. destruct (is_none outcome_end) eqn:Eo; [done|]. apply flag_nil in Hoe. no_reasons Hg.
  apply negb_false_iff in Hno, Hno0, Hno2, Hg. apply andb_prop in Hno as [S1 S2], Hno0 as [S3 S4]. rewrite bool_decide_eq_true in *. subst unproven.
  apply provenance_ok in Hun; [|done]. specialize (Hout eq_refl). split_bools.
  destruct training_end as [| |te| | | | |]; try done. simpl in Htr. split_bools.
  destruct S1 as [x1 E1], S2 as [x2 E2], S3 as [x3 E3], S4 as [x4 E4], Hg as [x5 E5]. rewrite E1 in Hnd. rewrite E2 in Hnr. rewrite E3 in Htu.
  rewrite E4 in Hne. rewrite E5 in Hbu.
  apply int_bound_some in Hnd as [-> ?], Hnr as [-> ?], Hne as [-> ?]. apply amount_bound_some in Htu as [? ?], Hbu as [? ?].
  split; [done|]. split; [done|]. split; [by exists te|]. split; [exists (t_observed_until tm); split; [done|lia]|].
  exists b. split; [split; eauto|]. by eapply cases_accepted.
Qed.

(** The assessment, with the reasons it reports. *)
Lemma assessment_sound p tape oos_start decision_end size capital max_drawdown policy
    training_end outcome_end min_dir min_rt max_turnover max_re r
    (Hr : chronological_assessment p tape oos_start decision_end size capital max_drawdown policy
            training_end outcome_end min_dir min_rt max_turnover max_re = Ok r) :
  exists t s d l rows stress, tape = VDict t /\ get t "rows" = VList rows /\
    oos_start = VInt s /\ decision_end = VInt d /\ s < d < l /\ get r "outcome_end_ms" = VInt l /\
    stressed_paths p t rows s d l size capital policy stress /\
    get r "stress" = VDict (map (fun kv : string * dict => (kv.1, VDict kv.2)) stress) /\
    (exists reasons, get r "reasons" = VList (map VStr reasons) /\ get r "strategy_accepted" = VBool (empty reasons)) /\
    (get r "strategy_accepted" = VBool true ->
       accepted p t rows s l training_end outcome_end max_drawdown min_dir min_rt max_turnover max_re stress).
Proof.
  unfold chronological_assessment in Hr. apply rbind_ok in Hr as (t & Ht & H). apply validate_tape_ok in Ht as (-> & _ & rows & _ & Hrows & _).
  apply rbind_ok in H as (c & _ & H). rewrite Hrows in H. cbn [as_list rbind] in H. apply rbind_ok in H as (tm & Htm & H).
  apply when_ok in H as [Htr H]. apply rbind_ok in H as (nd & Hnd & H). apply rbind_ok in H as (nr & Hnr & H).
  apply rbind_ok in H as (ne & Hne & H). apply rbind_ok in H as (tu & Htu & H). apply rbind_ok in H as (bu & Hbu & H).
  apply rbind_ok in H as (sp & Hsp & H). apply when_ok in H as [Hne' H]. apply rbind_ok in H as (stress & Hst & H).
  apply rbind_ok in H as (os & _ & H). apply rbind_ok in H as (ids & _ & H). apply rbind_ok in H as (ttl & _ & H).
  apply rbind_ok in H as (ev & _ & H). apply rbind_ok in H as (un & Hun & H). apply rbind_ok in H as (cases & Hcs & H).
  apply rbind_ok in H as (inp & _ & H). apply Ok_inj in H. subst r.
  unfold oos_times in Htm. apply rbind_ok in Htm as (first & _ & Htm). apply rbind_ok in Htm as (until & Hun' & Htm).
  destruct oos_start as [| |s| | | | |]; try done. destruct decision_end as [| |d| | | | |]; try done.
  destruct (if is_none outcome_end then VInt until else outcome_end) as [| |l| | | | |] eqn:Eo; try done.
  apply when_ok in Htm as [Hord Htm]. apply Ok_inj in Htm as <-. split_bools.
  exists t, s, d, l, rows, stress. do 2 (split; [done|]). do 2 (split; [done|]). split; [lia|]. split; [done|]. split; [by eapply stressed_paths_ok|]. split; [done|]. split; [by eexists|].
  intros Hacc. injection Hacc as Hacc. destruct (oos_reasons _ _ _ _ _ _ _ ++ _) as [|] eqn:Er; [|done].
  eapply (oos_verdict_sound p t rows (mkTimes s d l until) (mkBounds nd nr tu ne bu)); try done. intros En. by rewrite En in Eo.
Qed.

(** C25: the remote assessment replays exactly the rows of the declared window, with the
    candidates issued inside it and known by the decision end and no other, under the five
    cost cases of the source, three paths each, and reports them; and it accepts the
    strategy only on a real WATCH capture without broker authority, with every
    operator bound declared, a training boundary before the window, an outcome
    window observed to its end, and when under each of these cost cases the baseline
    path is complete and each gated path is complete, has enough round trips,
    ends flat with a positive net result not below the baseline's, and stays
    within the turnover, re-entry and drawdown bounds. *)
Theorem oos_acceptance_sound p tape oos_start decision_end size capital max_drawdown policy
    training_end outcome_end min_dir min_rt max_turnover max_re r
    (Hr : chronological_assessment p tape oos_start decision_end size capital max_drawdown policy
            training_end outcome_end min_dir min_rt max_turnover max_re = Ok r) :
  exists t s d l rows stress, tape = VDict t /\ get t "rows" = VList rows /\
    oos_start = VInt s /\ decision_end = VInt d /\ s < d < l /\ get r "outcome_end_ms" = VInt l /\
    stressed_paths p t rows s d l size capital policy stress /\
    get r "stress" = VDict (map (fun kv : string * dict => (kv.1, VDict kv.2)) stress) /\
    (get r "strategy_accepted" = VBool true ->
       accepted p t rows s l training_end outcome_end max_drawdown min_dir min_rt max_turnover max_re stress).
Proof.
  destruct (assessment_sound _ _ _ _ _ _ _ _ _ _ _ _ _ _ _ Hr) as (t & s & d & l & rows & stress & H1 & H2 & H3 & H4 & H5 & H6 & H7 & H8 & _ & H9).
  by exists t, s, d, l, rows, stress.
Qed.

(** ** The local training holdout *)

Record local_path_accepted (p : Z) (min_samples : Z) (budget : decimal) (baseline_net : value) (path : dict) : Prop := {
  lp_complete : truthy (get path "complete_observed_path") = true;
  lp_trips : exists n, get path "completed_round_trips" = VInt n /\ min_samples <= n;
  lp_flat : exists q, dec p (get path "remaining_simulated_quantity") = Ok q /\ (dval q == 0)%Q;
  lp_net : exists n, dec p (get path "net_liquidation_pnl_usd") = Ok n /\ (0 < dval n)%Q /\
    (baseline_net <> VNone -> exists k, dec p baseline_net = Ok k /\ (dval k <= dval n)%Q);
  lp_drawdown : exists d, dec p (get path "max_drawdown_usd") = Ok d /\ (dval d <= dval budget)%Q }.

Lemma local_path_ok p min_samples budget baseline_net path :
  local_path_reasons p min_samples (Some budget) baseline_net path = Ok [] ->
  local_path_accepted p min_samples budget baseline_net path.
Proof.
  unfold local_path_reasons. intros H. apply rbind_ok in H as (st & _ & H). apply rbind_ok in H as (co & Hco & H). apply rbind_ok in H as (tr & Htr & H).
  apply rbind_ok in H as (rm & Hrm & H). apply rbind_ok in H as (net & Hnet & H). apply rbind_ok in H as (lo & Hlo & H).
  apply rbind_ok in H as (un & Hun & H). apply rbind_ok in H as (dd & Hdd & H). apply rbind_ok in H as (dr & Hdr & H).
  apply Ok_inj, map_eq_nil in H. no_reasons H.
  apply rbind_ok in Htr as (trv & Htrv & Htr). apply rbind_ok in Hrm as (rmv & Hrmv & Hrm).
  apply item_get in Hco as [<- _], Htrv as [<- _], Hrmv as [<- _], Hnet as [<- _], Hdd as [<- _]. apply as_int_ok in Htr.
  apply negb_false_iff in Hno, Hno1. subst. split.
  - done.
  - exists tr. split_bools. done.
  - exists rm. split; [done|]. apply deqb_eq in Hno1. by rewrite dval_COST_ZERO in Hno1.
  - unfold not_positive in Hlo. destruct (is_none (get path "net_liquidation_pnl_usd")) eqn:En; [done|].
    apply rbind_ok in Hlo as (n & Hn & Hlo). apply Ok_inj in Hlo. exists n. split; [done|]. apply dleb_gt in Hlo. rewrite dval_COST_ZERO in Hlo.
    split; [done|]. intros Hb. unfold below_baseline in Hun. rewrite En in Hun. apply is_none_false in Hb. rewrite Hb in Hun. simpl in Hun.
    rewrite Hn in Hun. apply rbind_ok in Hun as (n' & [= <-] & Hun). apply rbind_ok in Hun as (k & Hk & Hun). apply Ok_inj in Hun.
    exists k. split; [done|]. by apply dltb_ge.
  - unfold drawdown_exceeded in Hdr. case_if Hdr; [done|]. apply rbind_ok in Hdr as (d & Hd & Hdr). apply Ok_inj in Hdr.
    exists d. split; [done|]. by apply dltb_ge.
Qed.

Definition local_case_accepted (p : Z) (min_samples : Z) (budget : decimal) (report : dict) : Prop :=
  exists baseline paths, results_of report = Ok (baseline :: paths) /\
    truthy (get baseline "complete_observed_path") = true /\
    forall path, In path paths -> local_path_accepted p min_samples budget (get baseline "net_liquidation_pnl_usd") path.

Lemma local_case_ok p min_samples budget case c :
  local_check_case p min_samples (Some budget) case = Ok c -> cc_reasons c = [] -> local_case_accepted p min_samples budget case.2.
Proof.
  unfold local_check_case. intros H Hr. apply rbind_ok in H as (res & Hres & H). destruct res as [|baseline paths]; [done|].
  apply rbind_ok in H as (co & Hco & H). apply rbind_ok in H as (net & Hnet & H). apply rbind_ok in H as (rs & Hrs & H).
  apply Ok_inj in H as <-. cbn [cc_reasons] in Hr. apply app_eq_nil in Hr as [Hf Hr]. apply flag_nil, negb_false_iff in Hf.
  apply item_get in Hnet as [<- _], Hco as [<- _]. exists baseline, paths. split; [done|]. split; [done|].
  intros path Hin. apply rmapM_Forall2 in Hrs. apply list_elem_of_In, list_elem_of_lookup in Hin as (i & Hi).
  destruct (Forall2_lookup_l _ _ _ _ _ Hrs Hi) as (l & Hl & Hck). apply local_path_ok. rewrite Hck. f_equal.
  apply concat_nil_Forall in Hr. rewrite List.Forall_forall in Hr. apply Hr, list_elem_of_In. by eapply list_elem_of_lookup_2.
Qed.

(** The local holdout trains and tests on separate time: the fit sees only
    rows observed before the cutoff, and every candidate it is tested on was
    issued after the cutoff and known by the decision end.  It passes only on a
    real capture with a trained cohort and a declared drawdown budget, and when
    under every cost stress each gated path is complete, traded enough, ends flat
    with a positive net result not below the baseline's and within the budget. *)
Theorem local_holdout_sound p tape fit_cutoff decision_end size capital max_drawdown policy r
    (Hr : local_training_assessment p tape fit_cutoff decision_end size capital max_drawdown policy = Ok r) :
  exists t rows cutoff d training fit evaluation stress, tape = VDict t /\ get t "rows" = VList rows /\
    fit_cutoff = VInt cutoff /\ decision_end = VInt d /\ cutoff < d /\
    (forall x, In x training -> In x rows /\ exists a, event_time x = Ok a /\ a < cutoff) /\
    fit_from_tape p (VDict (set_rows t training)) cutoff policy = Ok fit /\
    (forall x, In x evaluation -> in_window (fun a => cutoff <? a) (fun i => i <=? cutoff) d x) /\
    stress_compare p (VDict (set_rows t evaluation)) [fit_artifact fit] size capital policy "calibrated" = Ok stress /\
    (get r "research_acceptance_passed" = VBool true ->
       get t "source_kind" = VStr "IB_CAPTURE" /\ get (fit_artifact fit) "cohorts" <> VDict [] /\
       exists min_samples budget, min_calibration_samples policy = VInt min_samples /\ dec p max_drawdown = Ok budget /\
         forall name report, In (name, report) stress -> local_case_accepted p min_samples budget report).
Proof.
  unfold local_training_assessment in Hr. apply rbind_ok in Hr as (t & Ht & H). apply validate_tape_ok in Ht as (-> & _ & rows & _ & Hrows & _).
  apply rbind_ok in H as (c & _ & H). rewrite Hrows in H. cbn [as_list rbind] in H. apply rbind_ok in H as ([[cutoff d] last] & Htm & H).
  apply rbind_ok in H as (bu & Hbu & H). apply rbind_ok in H as (training & Htr & H). apply rbind_ok in H as (fit & Hfit & H).
  apply rbind_ok in H as (sp & Hsp & H). apply rbind_ok in H as (stress & Hst & H). apply rbind_ok in H as (os & _ & H).
  apply rbind_ok in H as (cohorts & Hco & H). apply rbind_ok in H as (vu & _ & H). apply rbind_ok in H as (ttl & _ & H).
  apply rbind_ok in H as (held & _ & H). apply rbind_ok in H as (ms & Hms & H). apply rbind_ok in H as (md & _ & H).
  apply rbind_ok in H as (cases & Hcs & H). apply rbind_ok in H as (inp & _ & H). apply Ok_inj in H. subst r.
  unfold holdout_times in Htm. apply rbind_ok in Htm as (first & _ & Htm). apply rbind_ok in Htm as (la & _ & Htm).
  destruct fit_cutoff as [| |cz| | | | |]; try done. destruct decision_end as [| |dz| | | | |]; try done.
  apply when_ok in Htm as [Hord Htm]. apply Ok_inj in Htm as [= -> -> _]. split_bools.
  exists t, rows, cutoff, d, training, fit, (heldout sp), stress. repeat (split; [done|]). split; [|split; [done|]].
  { intros x Hx. destruct (rfilter_ok _ _ _ Htr) as [Hf _]. destruct (Hf x Hx) as [Hi Ha]. split; [done|].
    apply rbind_ok in Ha as (a & Ha & Hlt). apply Ok_inj in Hlt. exists a. split; [done|lia]. }
  split; [by eapply split_rows_ok|]. split; [done|]. intros Hacc. injection Hacc as Hacc.
  destruct (local_reasons _ _ _ _ _ _ ++ _) as [|] eqn:Er; [|done]. clear Hacc. apply app_eq_nil in Er as [Hg Hcase].
  unfold local_reasons in Hg. no_reasons Hg. apply negb_false_iff in Hno, Hg. apply eq_str_true in Hno. rewrite bool_decide_eq_true in Hg.
  destruct Hg as [budget ->]. apply amount_bound_some in Hbu as [Hbu _]. split; [done|].
  apply rbind_ok in Hco as (cv & Hcv & Hco). apply item_get in Hcv as [Hcv _]. apply as_dict_ok in Hco. rewrite Hcv, Hco.
  split; [intros [= ->]; done|]. apply as_int_ok in Hms. exists ms, budget. split; [done|]. split; [done|].
  intros name report Hin. apply rmapM_Forall2 in Hcs. apply list_elem_of_In, list_elem_of_lookup in Hin as (i & Hi).
  destruct (Forall2_lookup_l _ _ _ _ _ Hcs Hi) as (cc & Hci & Hck). apply (local_case_ok _ _ _ _ _ Hck).
  eapply case_reason_nil; [exact Hcase|]. apply list_elem_of_In. by eapply list_elem_of_lookup_2.
Qed.
