(* ===== verification/CostReplayScenario.v ===== *)
(** * Cost replay: concrete captures and tapes

    A capture with two candidates, a tape whose label is observed, a tape on which
    the banded path opens, is stopped out and opens again, and small held-out
    tapes; the lemmas apply the properties of the replay to them. *)

From Stdlib Require Import QArith Ascii Lqa Permutation Sorted.
From S2P Require Import Prelude PyDecimal PyText PyValue RowMonad Sha256 CostPolicy CostFacts CostAdmission CostScenario.
From S2P Require Import CostTape CostTapeFacts CostPath CostPathFacts CostQuality CostQualityFacts CostAssess CostAssessFacts.
From stdpp Require Import base tactics list strings.
From Stdlib Require Import ZArith Lia.
Import CostPolicy CostTape CostPath CostQuality CostAssess.

Open Scope Z_scope.

Module CostReplayScenario.

Definition t0 : Z := 172800000.

Definition quote_at (now : Z) (bid ask : string) : value :=
  VDict [("source", VStr "IB"); ("authoritative", VBool true); ("stale", VBool false); ("instrument", VStr "EUR.USD");
         ("subscription_id", VStr "S"); ("observed_at_ms", VInt now); ("stale_after_ms", VInt (now + 4000));
         ("bid", VStr bid); ("ask", VStr ask)].

Definition forecast_at (issued : Z) : value := CostScenario.forecast issued "90".

Definition row (now : Z) (bid ask : string) : value := quote_row now (quote_at now bid ask).
Definition candidate_row (now : Z) (bid ask : string) : value :=
  evaluated now (quote_at now bid ask) (forecast_at now, now).

Definition tape_of (rows : list value) : value :=
  VDict [("schema", VStr tape_schema); ("instrument", VStr "EUR.USD"); ("source_kind", VStr "IB_CAPTURE"); ("rows", VList rows)].

(** ** A capture whose candidate waits for a fresh quote *)

Definition event (at_ms : Z) (kind : string) (data : value) : value :=
  VDict [("at_ms", VInt at_ms); ("event", VStr kind); ("data", data)].

Definition events : list value :=
  [event 1 "HEADER" (VDict [("instrument", VStr "EUR.USD")]);
   event t0 "QUOTE" (quote_at t0 "1.1000" "1.1002");
   event (t0 + 6000) "CANDIDATE" (VDict [("forecast", forecast_at t0)]);
   event (t0 + 9000) "QUOTE" (quote_at (t0 + 9000) "1.1003" "1.1005")].
Definition capture : dict :=
  [("events", VList events); ("source_kind", VStr "IB_CAPTURE"); ("input_sha256", VStr "i"); ("bytes", VInt 900);
   ("complete_prefix", VBool true)].
Definition aligned : res dict := capture_to_tape 28 capture.

Lemma capture_alignment_sound_witness :
  exists t, capture_to_tape 28 capture = Ok t /\
  exists events rows instrument, get capture "events" = VList events /\ get t "rows" = VList rows /\
    get t "instrument" = VStr instrument /\
    Permutation (tape_forecasts rows) (captured_forecasts events) /\
    forall row, In row rows -> evaluated_on_capture 28 instrument events row.
Proof. exists (ok_or [] aligned). split; [|apply (capture_alignment_sound 28 capture)]; vm_compute; reflexivity. Defined.

(** ** A labelled forecast *)

Definition labelled_rows : list value :=
  candidate_row t0 "1.1000" "1.1002" ::
  map (fun i => row (t0 + 30000 * Z.of_nat i) "1.1050" "1.1052") (seq 1 10).
Definition labelled : value := tape_of labelled_rows.
Definition cutoff : Z := t0 + 400000.
Definition outcomes : list Outcome := ok_or [] (candidate_outcomes 28 labelled (Some cutoff) 30000).

Lemma outcomes_sound_witness :
  map o_reason outcomes = ["OBSERVED"] /\ candidate_outcomes 28 labelled (Some cutoff) 30000 = Ok outcomes /\
  exists t rows instrument, labelled = VDict t /\ get t "rows" = VList rows /\ get t "instrument" = VStr instrument /\
    map (fun o => VDict (o_forecast o)) outcomes = tape_forecasts rows /\ List.NoDup (map o_candidate_id outcomes) /\
    (forall o, In o outcomes -> (o_reason o = "OBSERVED" <-> o_label o <> None) /\
       exists issued, get (o_forecast o) "issued_at_ms" = VInt issued /\
       forall l, o_label o = Some l ->
         label_sound 28 instrument rows (o_forecast o) issued (o_target_at o) (Some cutoff) 30000 l).
Proof.
  assert (H : candidate_outcomes 28 labelled (Some cutoff) 30000 = Ok outcomes) by (vm_compute; reflexivity).
  split; [vm_compute; reflexivity|]. split; [exact H|]. apply (outcomes_sound 28 labelled (Some cutoff) 30000 outcomes). exact H.
Defined.

Definition sorted_out : list Outcome * list (string * string) := ok_or ([], []) (rfold (fit_step DEFAULT_POLICY) outcomes ([], [])).

Lemma fit_samples_aligned_witness :
  Permutation (map o_candidate_id sorted_out.1 ++ map fst sorted_out.2) (map o_candidate_id outcomes) /\
  forall o, In o sorted_out.1 -> In o outcomes /\ aligned_sample DEFAULT_POLICY cutoff o.
Proof.
  apply (fit_samples_aligned 28 labelled cutoff DEFAULT_POLICY 5000 outcomes sorted_out.1 sorted_out.2);
    vm_compute; (reflexivity || discriminate).
Defined.

(** ** A path that is stopped out and re-enters *)

Definition traded_rows : list value :=
  [candidate_row t0 "1.1000" "1.1002"; row (t0 + 10000) "1.0970" "1.0972"; candidate_row (t0 + 140000) "1.1000" "1.1002"].
Definition traded : dict := [("schema", VStr tape_schema); ("instrument", VStr "EUR.USD"); ("source_kind", VStr "IB_CAPTURE"); ("rows", VList traded_rows)].
Definition no_path : Config * Path :=
  (mkConfig "" "" ZERO ZERO DEFAULT_POLICY "",
   mkPath (mkPosition ZERO ZERO None 0 0 None ZERO ZERO ZERO []) (mkClock None None ZERO 0 ZERO true) [] 0
     (mkCurve ZERO ZERO ZERO ZERO [])).

(** A loss of 86 dollars. *)
Definition loss : decimal := dec_of_Z 86.

(** A replay that succeeds with three paths, the last of which is the banded one
    has a second trade that closes a position, a third that opens one, and loses at
    least 86 dollars between its initial and its second mark. *)
Definition replay_test (m : res (list (Config * Path) * Z)) : bool :=
  match m with
  | Ok ([_; _; (c, w)], _) =>
      bool_decide (c_name c = "COST_GATE_BAND") &&
      match trades (position w) with [Opened _ _ _ _ _; Closed _ _ _ _ _ _ _ _; Opened _ _ _ _ _] => true | _ => false end &&
      match equities (c_capital c) (curve w) with a :: _ :: b :: _ => dleb (dadd_exact loss b) a | _ => false end
  | _ => false
  end.

Lemma replay_test_facts m (ws := (ok_or ([], 0) m).1) (banded := nth 2 ws no_path) :
  replay_test m = true ->
  m = Ok (ws, (ok_or ([], 0) m).2) /\ In (banded.1, banded.2) ws /\ c_name banded.1 = "COST_GATE_BAND" /\
  (exists a b, equities (c_capital banded.1) (curve banded.2) !! 0%nat = Some a /\
    equities (c_capital banded.1) (curve banded.2) !! 2%nat = Some b /\ (dval loss <= dval a - dval b)%Q) /\
  exists t1 r q pr fee h g n t2 id q' pr' fee',
    trades (position banded.2) !! 1%nat = Some (Closed t1 r q pr fee h g n) /\
    trades (position banded.2) !! 2%nat = Some (Opened t2 id q' pr' fee').
Proof.
  intros H. unfold banded, ws. clear banded ws. destruct m as [[ws d]|e]; [|done].
  cbn [ok_or fst snd]. destruct ws as [|a [|b [|[c w] [|]]]]; try done. apply andb_prop in H as [H He]. apply andb_prop in H as [Hn H]. rewrite bool_decide_eq_true in Hn.
  cbn [nth fst snd]. split; [done|]. split; [simpl; auto|]. split; [done|]. split.
  { destruct (equities _ _) as [|x [|y [|z l]]]; try done. exists x, z. repeat (split; [done|]). apply dleb_le in He. rewrite dval_add_exact in He. lra. }
  destruct (trades (position w)) as [|[] [|[] [|[] [|]]]]; try done. repeat eexists.
Qed.

Definition replayed : list (Config * Path) * Z :=
  ok_or ([], 0) (run_paths 28 traded [] (VInt 25000) (VInt 100000) DEFAULT_POLICY "remote_raw").
Definition banded : Config * Path := nth 2 replayed.1 no_path.

Lemma replay_facts :
  run_paths 28 traded [] (VInt 25000) (VInt 100000) DEFAULT_POLICY "remote_raw" = Ok (replayed.1, replayed.2) /\
  In (banded.1, banded.2) replayed.1 /\ c_name banded.1 = "COST_GATE_BAND" /\
  (exists a b, equities (c_capital banded.1) (curve banded.2) !! 0%nat = Some a /\
    equities (c_capital banded.1) (curve banded.2) !! 2%nat = Some b /\ (dval loss <= dval a - dval b)%Q) /\
  exists t1 r q pr fee h g n t2 id q' pr' fee',
    trades (position banded.2) !! 1%nat = Some (Closed t1 r q pr fee h g n) /\
    trades (position banded.2) !! 2%nat = Some (Opened t2 id q' pr' fee').
Proof. unfold banded, replayed. apply replay_test_facts. vm_compute. reflexivity. Qed.

Lemma traded_valid : validate_tape 28 (VDict traded) = Ok traded.
Proof. vm_compute. reflexivity. Qed.

Definition size : decimal := dec_of_Z 25000.

Lemma paths_independent_witness :
  exists instrument rows states, get traded "instrument" = VStr instrument /\ get traded "rows" = VList rows /\
    rmapM (fun n => PathState_init 28 n instrument (VInt 25000) (VInt 100000) DEFAULT_POLICY "remote_raw") NAMES = Ok states /\
    Forall2 (fun before after : Config * Path => after.1 = before.1 /\
      rfold (step 28 before.1 [] (eq_str (get traded "source_kind") "SYNTHETIC")) rows before.2 = Ok after.2) states replayed.1.
Proof.
  apply (paths_independent 28 traded [] (VInt 25000) (VInt 100000) DEFAULT_POLICY "remote_raw" replayed.1 replayed.2).
  exact (proj1 replay_facts).
Defined.

Lemma replay_positions_sound_witness :
  let s := position banded.2 in
  alternating false (trades s) = Some (some (entry_price s)) /\ dnonzero (quantity s) = some (entry_price s) /\
  some (entry_forecast s) = some (entry_price s) /\
  (get traded "instrument" = VStr "BTC.USD" -> (0 <= dval (quantity s))%Q) /\
  dsum 28 (map trade_fee (trades s)) = Ok (fees s).
Proof.
  apply (replay_positions_sound 28 (VDict traded) traded [] (VInt 25000) (VInt 100000) DEFAULT_POLICY "remote_raw" replayed.1 replayed.2 size banded.1 banded.2).
  - lia.
  - exact traded_valid.
  - reflexivity.
  - vm_compute. discriminate.
  - exact (proj1 replay_facts).
  - exact (proj1 (proj2 replay_facts)).
Defined.

Lemma replay_cooldown_witness :
  exists t1 r q pr fee h g n t2 id q' pr' fee',
    trades (position banded.2) !! 1%nat = Some (Closed t1 r q pr fee h g n) /\
    trades (position banded.2) !! 2%nat = Some (Opened t2 id q' pr' fee') /\ t1 + 120000 <= t2.
Proof.
  destruct replay_facts as (Hr & Hin & Hn & _ & t1 & r & q & pr & fee & h & g & n & t2 & id & q' & pr' & fee' & H1 & H2).
  exists t1, r, q, pr, fee, h, g, n, t2, id, q', pr', fee'. split; [exact H1|]. split; [exact H2|].
  apply (replay_cooldown 28 (VDict traded) traded [] (VInt 25000) (VInt 100000) DEFAULT_POLICY "remote_raw" replayed.1 replayed.2 size banded.1 banded.2
           120000 1 t1 r q pr fee h g n t2 id q' pr' fee').
  - lia.
  - exact traded_valid.
  - reflexivity.
  - vm_compute. discriminate.
  - exact Hr.
  - exact Hin.
  - exact Hn.
  - reflexivity.
  - exact H1.
  - exact H2.
Defined.

Lemma replay_drawdown_sound_witness : (dval loss <= dval (max_drawdown (curve banded.2)))%Q.
Proof.
  destruct replay_facts as (Hr & Hin & _ & (a & b & Ha & Hb & Hl) & _).
  destruct (replay_drawdown_sound 28 traded [] (VInt 25000) (VInt 100000) DEFAULT_POLICY "remote_raw" replayed.1 replayed.2 banded.1 banded.2) as [H _];
    [lia|exact Hr|exact Hin|].
  apply (H 0%nat 2%nat a b loss); [lia|exact Ha|exact Hb|split; vm_compute; [split; [discriminate|reflexivity]|discriminate]|exact Hl].
Defined.

Lemma replay_decides_all_witness :
  exists rows, get traded "rows" = VList rows /\
    Forall2 (fun f dn => digest f = Ok (d_candidate_id dn)) (tape_forecasts rows) (decisions banded.2).
Proof.
  apply (replay_decides_all 28 (VDict traded) traded [] (VInt 25000) (VInt 100000) DEFAULT_POLICY "remote_raw" replayed.1 replayed.2 size banded.1 banded.2).
  - lia.
  - exact traded_valid.
  - reflexivity.
  - vm_compute. discriminate.
  - exact (proj1 replay_facts).
  - exact (proj1 (proj2 replay_facts)).
Defined.

(** ** Quality of a capture *)

Definition quality_events : list value :=
  [event 1 "HEADER" (VDict [("instrument", VStr "EUR.USD")]);
   event t0 "QUOTE" (quote_at t0 "1.1000" "1.1002");
   event (t0 + 9000) "QUOTE" (quote_at (t0 + 9000) "1.1003" "1.1005")].
Definition quality_capture : dict :=
  [("events", VList quality_events); ("source_kind", VStr "IB_CAPTURE"); ("input_sha256", VStr "i"); ("bytes", VInt 900);
   ("complete_prefix", VBool true)].
Definition quality : dict := ok_or [] (sampling_quality 28 (VDict quality_capture) VNone None None).

Lemma quality_in_order : in_order quality_events.
Proof.
  unfold in_order, quality_events. repeat constructor; intros a b Ha Hb; apply Ok_inj in Ha as <-; apply Ok_inj in Hb as <-; vm_compute; discriminate.
Qed.

Lemma quality_coverage_exact_witness :
  exists instrument start end_ms covered_ms holes cutoff_ms evs,
    get quality "instrument" = VStr instrument /\ get quality "window_start_ms" = VInt start /\ get quality "window_end_ms" = VInt end_ms /\
    get quality "usable_quote_coverage_ms" = VInt covered_ms /\ get quality "uncovered_intervals" = VList (map interval_value holes) /\
    window quality_events cutoff_ms = Ok (evs, start, end_ms) /\
    covered_ms + width holes = end_ms - start /\
    forall t, start <= t < end_ms ->
      (covered holes t <-> ~ exists e a b, In e evs /\ usable_interval 28 instrument end_ms e a b /\ a <= t < b).
Proof.
  apply (quality_coverage_exact 28 quality_capture VNone None None quality quality_events).
  - apply is_ok_value. vm_compute. reflexivity.
  - reflexivity.
  - exact quality_in_order.
Defined.

(** ** Held-out tapes *)

Definition held_rows : list value :=
  [row t0 "1.1000" "1.1002"; row (t0 + 1000) "1.1001" "1.1003"; row (t0 + 2000) "1.1000" "1.1002"; row (t0 + 3000) "1.1000" "1.1002"].
Definition held : value := tape_of held_rows.
Definition bound : value := VInt 1000.

Lemma local_holdout_sound_witness :
  let r := ok_or [] (local_training_assessment 28 held (VInt (t0 + 500)) (VInt (t0 + 1500)) (VInt 25000) (VInt 100000) bound DEFAULT_POLICY) in
  exists t rows cutoff d training fit evaluation stress, held = VDict t /\ get t "rows" = VList rows /\
    VInt (t0 + 500) = VInt cutoff /\ VInt (t0 + 1500) = VInt d /\ cutoff < d /\
    (forall x, In x training -> In x rows /\ exists a, event_time x = Ok a /\ a < cutoff) /\
    fit_from_tape 28 (VDict (set_rows t training)) cutoff DEFAULT_POLICY = Ok fit /\
    (forall x, In x evaluation -> in_window (fun a => cutoff <? a) (fun i => i <=? cutoff) d x) /\
    stress_compare 28 (VDict (set_rows t evaluation)) [fit_artifact fit] (VInt 25000) (VInt 100000) DEFAULT_POLICY "calibrated" = Ok stress /\
    (get r "research_acceptance_passed" = VBool true ->
       get t "source_kind" = VStr "IB_CAPTURE" /\ get (fit_artifact fit) "cohorts" <> VDict [] /\
       exists min_samples budget, min_calibration_samples DEFAULT_POLICY = VInt min_samples /\ dec 28 bound = Ok budget /\
         forall name report, In (name, report) stress -> local_case_accepted 28 min_samples budget report).
Proof.
  apply (local_holdout_sound 28 held (VInt (t0 + 500)) (VInt (t0 + 1500)) (VInt 25000) (VInt 100000) bound DEFAULT_POLICY).
  apply is_ok_value. vm_compute. reflexivity.
Defined.

End CostReplayScenario.
