(* ===== verification/BtcEntry.v ===== *)
(** * BTC entry policy

    Models scripts/hepta_btc_entry_policy.py: the economics and anti-churn controls of a
    new BTC position.  [evaluate] fills a result dictionary; the list of reasons it
    appends to is the list the result holds.  [reserve] changes the control record in
    place: what it changed survives the error of its second validation.  [p] is the
    precision of the decimal context. *)

From Stdlib Require Import QArith Ascii.
From S2P Require Import Prelude PyDecimal PyText PyValue PyOrder RowMonad CostPolicy.
From stdpp Require Import base tactics list strings.
From Stdlib Require Import ZArith Lia Bool.

Open Scope Z_scope.

Module BtcEntry.

Definition policy_error (m : string) : exn := Exn PolicyError m.

Definition PROFILE : dict :=
  [("schema", VStr "heptatrader.btc-entry-profile.v1"); ("instrument", VStr "BTC.USD"); ("execution_mode", VStr "PAPER");
   ("confidence_min", VStr "0.62"); ("commission_rate", VStr "0.0018"); ("commission_min_usd", VStr "1.75");
   ("slippage_roundtrip_bps", VStr "2"); ("minimum_net_edge_bps", VStr "2"); ("quote_ttl_ms", VInt 5000);
   ("forecast_ttl_ms", VInt 60000); ("minimum_entry_interval_ms", VInt 1800000); ("after_flat_cooldown_ms", VInt 1800000);
   ("rolling_entry_window_ms", VInt 3600000); ("maximum_opens_per_window", VInt 2); ("max_cash_usd", VStr "25000");
   ("rebates_assumed", VBool false); ("exit_controls_changed", VBool false)].

(** [PROFILE[key]] of an integer entry. *)
Definition profile_int (key : string) : Z := match get PROFILE key with VInt z => z | _ => 0 end.

Definition HORIZONS : list Z := [900; 1800; 3600].
Definition FIELDS : list string :=
  ["action"; "confidence"; "rationale"; "expected_move_bps"; "horizon_sec"; "issued_at_ms"; "available_at_ms";
   "reference_mid"; "input_sha256"; "model_id"; "forecast_schema"].

Definition digest (v : value) : res string := CostPolicy.digest v.

Definition number (v : value) : res decimal :=
  match v with
  | VBool _ | VNone => Raise (policy_error "BTC_NUMBER_INVALID")
  | _ =>
      if negb (int_text_ok v) then Raise (policy_error "BTC_NUMBER_INVALID")
      else match to_parsed v with
           | PInvalid => Raise (policy_error "BTC_NUMBER_INVALID")
           | PSpecial => Raise (policy_error "BTC_NUMBER_NONFINITE")
           | PFinite d => Ok d
           end
  end.

Definition profile_number (key : string) : res decimal := number (get PROFILE key).

(** ** Forecasts *)

(** [type(v) in (int, float)] *)
Definition int_or_float (v : value) : bool := match v with VInt _ | VFloat _ => true | _ => false end.

Definition trillion : decimal := Dec false 1 12.

Definition horizon_ok (v : value) : bool := match v with VInt h => inb h HORIZONS | _ => false end.
Definition rationale_ok (v : value) : bool :=
  match v with VStr s => (1 <=? slen s) && (slen s <=? 2000) | _ => false end.
Definition clocks_ok (f : dict) : bool :=
  match get f "issued_at_ms", get f "available_at_ms" with
  | VInt i, VInt a => (0 <? i) && (0 <? a) && (i <=? a)
  | _, _ => false
  end.
Definition is_lower_hex (c : ascii) : bool := is_digit c || ((97 <=? ord c) && (ord c <=? 102)).
Definition identity_ok (v : value) : bool :=
  match v with VStr s => (slen s =? 64) && sforall is_lower_hex s | _ => false end.

Definition validate_forecast (p : Z) (forecast : value) : res dict :=
  match forecast with
  | VDict f =>
      when negb (CostPolicy.has_keys f FIELDS) raise policy_error "BTC_FORECAST_SCHEMA" in
      when negb (eq_str (get f "forecast_schema") "heptatrader.btc-return-forecast.v1") ||
           negb (eq_str (get f "model_id") "gpt-6-luna") raise policy_error "BTC_MODEL_IDENTITY" in
      when negb (in_strs (get f "action") ["BUY"; "SELL"; "HOLD"]) || negb (horizon_ok (get f "horizon_sec"))
      raise policy_error "BTC_DIRECTION_OR_HORIZON" in
      when negb (rationale_ok (get f "rationale")) raise policy_error "BTC_RATIONALE_BOUND" in
      when negb (int_or_float (get f "confidence")) || negb (int_or_float (get f "expected_move_bps"))
      raise policy_error "BTC_FORECAST_NUMERIC_TYPE" in
      when! (let! c := number (get f "confidence") in Ok (negb (dleb dzero c && dleb c (dec_of_Z 1)))) ||?
            (let! m := number (get f "expected_move_bps") in let! a := dabs p m in Ok (dltb (dec_of_Z 1000) a))
      raise policy_error "BTC_FORECAST_BOUND" in
      let! r := number (get f "reference_mid") in
      when negb (dltb dzero r && dltb r trillion) raise policy_error "BTC_REFERENCE_MID" in
      when negb (clocks_ok f) raise policy_error "BTC_FORECAST_CLOCK" in
      when negb (identity_ok (get f "input_sha256")) raise policy_error "BTC_INPUT_IDENTITY" in
      Ok f
  | _ => Raise (policy_error "BTC_FORECAST_SCHEMA")
  end.

(** ** The control record *)

(** [command_id] and [prepared_at_ms] of a reservation. *)
Record Reservation := mkReservation { command_id : string; prepared_at_ms : value }.

Definition reservation_of (e : value) : option Reservation :=
  match e with
  | VDict d =>
      if CostPolicy.has_keys d ["command_id"; "prepared_at_ms"] then
        match get d "command_id" with
        | VStr s => if bool_decide (s = EmptyString) || (160 <? slen s) then None else Some (mkReservation s (get d "prepared_at_ms"))
        | _ => None
        end
      else None
  | _ => None
  end.

Definition past (now : Z) (strict : bool) (t : value) : bool :=
  match t with VInt t => (if strict then 0 <? t else 0 <=? t) && (t <=? now) | _ => false end.

Definition reservation_step (now : Z) (seen : list string) (e : value) : res (list string) :=
  match reservation_of e with
  | None => Raise (policy_error "BTC_RESERVATION_IDENTITY")
  | Some r =>
      when inb (command_id r) seen raise policy_error "BTC_DUPLICATE_RESERVATION" in
      when negb (past now true (prepared_at_ms r)) raise policy_error "BTC_CONTROL_CLOCK_REGRESSION" in
      Ok (seen ++ [command_id r])
  end.

Definition validate_control (control : value) (now : Z) : res dict :=
  match control with
  | VDict c =>
      when negb (eq_str (get c "schema") "heptatrader.btc-entry-control.v1") raise policy_error "BTC_CONTROL_REQUIRED" in
      match get c "open_reservations" with
      | VList events =>
          when 32 <? Z.of_nat (length events) raise policy_error "BTC_RESERVATION_BOUND" in
          let! _ := rfold (reservation_step now) events [] in
          when negb (past now false (getd (VInt 0) c "last_flat_at_ms")) raise policy_error "BTC_CONTROL_CLOCK_REGRESSION" in
          Ok c
      | _ => Raise (policy_error "BTC_RESERVATION_BOUND")
      end
  | _ => Raise (policy_error "BTC_CONTROL_REQUIRED")
  end.

(** Fields of the reservations of a validated record. *)
Definition reservations (c : dict) : list value := match get c "open_reservations" with VList l => l | _ => [] end.
Definition event_command (e : value) : value := match e with VDict d => get d "command_id" | _ => VNone end.
Definition event_time (e : value) : Z :=
  match e with VDict d => match get d "prepared_at_ms" with VInt t => t | _ => 0 end | _ => 0 end.
Definition recent_event (now : Z) (e : value) : bool := now - profile_int "rolling_entry_window_ms" <? event_time e.

(** The record after the call, and what the call returned. *)
Definition reserve (c : dict) (command : value) (now : Z) : dict * res unit :=
  match validate_control (VDict c) now with
  | Raise e => (c, Raise e)
  | Ok _ =>
      if existsb (fun e => py_eq (event_command e) command) (reservations c) then (c, Ok tt)
      else
        let events := List.filter (recent_event now) (reservations c) ++
                      [VDict [("command_id", command); ("prepared_at_ms", VInt now)]] in
        let c := dset "open_reservations" (VList events) c in
        (c, rmap (fun _ => tt) (validate_control (VDict c) now))
  end.

(** ** The decision *)

(** [reasons.append(code)] when the condition holds. *)
Definition note (c : bool) (code : string) : prog unit :=
  fun r => (if c then append_at "reasons" code r else r, Ok tt).

Definition forecast_stale (f : dict) (now : Z) : bool :=
  match get f "issued_at_ms", get f "available_at_ms" with
  | VInt i, VInt a => (now <? i) || (now <? a) || (profile_int "forecast_ttl_ms" <? now - i)
  | _, _ => true
  end.

Definition quote_unauthoritative (q : dict) : bool :=
  negb (eq_str (get q "source") "IB") || negb (is_true (get q "authoritative")) ||
  negb (eq_str (get q "instrument") "BTC.USD") || negb (is_false (get q "stale")).

(** The time of a quote that is not stale. *)
Definition quote_time (q : dict) (now : Z) : res Z :=
  match get q "observed_at_ms", get q "stale_after_ms" with
  | VInt t, VInt stop =>
      if (0 <? t) && (t <=? now) && (now <=? Z.min stop (t + profile_int "quote_ttl_ms")) then Ok t
      else Raise (policy_error "BTC_QUOTE_STALE")
  | _, _ => Raise (policy_error "BTC_QUOTE_STALE")
  end.

Definition latest (l : list value) : Z := match map event_time l with [] => 0 | t :: ts => foldl Z.max t ts end.

(** The amounts of an entry. *)
Record Amounts := mkAmounts {
  a_target : decimal; a_exit_bid : decimal; a_gross : decimal; a_fee_in : decimal; a_fee_out : decimal;
  a_slippage : decimal; a_margin : decimal; a_net : decimal }.

Definition fee (p : Z) (notional : decimal) : res decimal :=
  let! low := profile_number "commission_min_usd" in
  let! rate := profile_number "commission_rate" in
  let! x := dmul p notional rate in
  Ok (dmax low x).

(** [n * number(PROFILE[key]) / 10000] *)
Definition bps_of (p : Z) (n : decimal) (key : string) : res decimal :=
  let! b := profile_number key in
  let! x := dmul p n b in
  ddiv p x (dec_of_Z 10000).

Definition amounts (p : Z) (f : dict) (bid ask n : decimal) : res Amounts :=
  let! reference := number (get f "reference_mid") in
  let! bps := number (get f "expected_move_bps") in
  let! move := ddiv p bps (dec_of_Z 10000) in
  let! growth := dadd p (dec_of_Z 1) move in
  let! target := dmul p reference growth in
  let! spread := dsub p ask bid in
  let! half := ddiv p spread (dec_of_Z 2) in
  let! exit_bid := dsub p target half in
  when dleb exit_bid dzero raise policy_error "BTC_TARGET_PRICE" in
  let! qty := ddiv p n ask in
  let! exit_notional := dmul p qty exit_bid in
  let! fee_in := fee p n in
  let! fee_out := fee p exit_notional in
  let! gross := dsub p exit_notional n in
  let! slippage := bps_of p n "slippage_roundtrip_bps" in
  let! margin := bps_of p n "minimum_net_edge_bps" in
  let! n1 := dsub p gross fee_in in
  let! n2 := dsub p n1 fee_out in
  let! net := dsub p n2 slippage in
  Ok (mkAmounts target exit_bid gross fee_in fee_out slippage margin net).

Definition sdec (d : decimal) : value := VStr (str_decimal d).

Definition evaluate_body (p : Z) (f q control now_value cash ignore_command : value) : prog unit :=
  do now <- plift (match now_value with VInt z => if 0 <? z then Ok z else Raise (policy_error "BTC_EVALUATION_CLOCK")
                   | _ => Raise (policy_error "BTC_EVALUATION_CLOCK") end);
  do f <- plift (validate_forecast p f);
  do c <- plift (validate_control control now);
  run note (negb (eq_str (get f "action") "BUY")) "BTC_NOT_BUY";
  do low <- plift (let! x := number (get f "confidence") in let! y := profile_number "confidence_min" in Ok (dltb x y));
  run note low "BTC_CONFIDENCE_BELOW_062";
  run note (forecast_stale f now) "BTC_FORECAST_STALE";
  do q <- plift (match q with
                 | VDict q => if quote_unauthoritative q then Raise (policy_error "BTC_QUOTE_NOT_AUTHORITATIVE") else Ok q
                 | _ => Raise (policy_error "BTC_QUOTE_NOT_AUTHORITATIVE") end);
  do t <- plift (quote_time q now);
  do bid <- plift (let! v := item q "bid" in number v);
  do ask <- plift (let! v := item q "ask" in number v);
  run prefuse (negb (dltb dzero bid && dleb bid ask && dltb ask trillion)) (policy_error "BTC_QUOTE_PRICE");
  do n <- plift (number cash);
  do limit <- plift (profile_number "max_cash_usd");
  run prefuse (negb (dltb dzero n && dleb n limit)) (policy_error "BTC_CASH_BOUND");
  let others := List.filter (fun e => negb (py_eq (event_command e) ignore_command)) (reservations c) in
  let recent := List.filter (recent_event now) others in
  run note (profile_int "maximum_opens_per_window" <=? Z.of_nat (length recent)) "BTC_ROLLING_OPEN_LIMIT";
  run note (negb (bool_decide (others = [])) && (now - latest others <? profile_int "minimum_entry_interval_ms")) "BTC_ENTRY_INTERVAL";
  do flat <- plift (let! v := item c "last_flat_at_ms" in as_int v);
  run note (negb (flat =? 0) && (now - flat <? profile_int "after_flat_cooldown_ms")) "BTC_AFTER_FLAT_COOLDOWN";
  do a <- plift (amounts p f bid ask n);
  run note (dleb (a_net a) (a_margin a)) "BTC_EDGE_BELOW_ROUNDTRIP_COST";
  do id <- plift (digest (VDict f));
  do issued <- plift (as_int (get f "issued_at_ms"));
  do ratio <- plift (ddiv p (a_gross a) n);
  do gross_bps <- plift (dmul p ratio (dec_of_Z 10000));
  pupdate
    [("forecast_sha256", VStr id); ("forecast_age_ms", VInt (now - issued)); ("quote_age_ms", VInt (now - t));
     ("cash_usd", sdec n); ("reference_mid", VStr (py_str (get f "reference_mid"))); ("entry_ask", sdec ask);
     ("target_mid", sdec (a_target a)); ("expected_exit_bid", sdec (a_exit_bid a));
     ("expected_gross_after_spread_usd", sdec (a_gross a)); ("expected_entry_fee_usd", sdec (a_fee_in a));
     ("expected_exit_fee_usd", sdec (a_fee_out a)); ("slippage_reserve_usd", sdec (a_slippage a));
     ("minimum_net_edge_usd", sdec (a_margin a)); ("expected_net_edge_usd", sdec (a_net a));
     ("expected_gross_after_spread_bps", sdec gross_bps)].

Definition evaluate_catches (c : exc_class) : bool :=
  match c with PolicyError | KeyError | TypeError | InvalidOperation => true | _ => false end.
Definition caught_reason (e : exn) : string :=
  match ecls e with PolicyError => emsg e | _ => "BTC_INVALID_INPUT" end.

Definition set_allowed (r : dict) : dict := dset "allowed" (VBool (negb (truthy (get r "reasons")))) r.

Definition initial_result (profile : string) (now : value) : dict :=
  [("schema", VStr "heptatrader.btc-entry-check.v1"); ("profile_sha256", VStr profile); ("at_ms", now);
   ("allowed", VBool false); ("reasons", VList []); ("cost_basis", VStr "UPFRONT_ASSUMPTION_NOT_ACCOUNT_FEE_RECEIPT");
   ("rebate_credit_usd", VStr "0"); ("only_applies_to", VStr "NEW_BTC_LONG"); ("confidence_is_win_probability", VBool false)].

Definition evaluate (p : Z) (f q control now cash ignore_command : value) : res dict :=
  let! profile := digest (VDict PROFILE) in
  match evaluate_body p f q control now cash ignore_command (initial_result profile now) with
  | (r, Ok _) => Ok (set_allowed r)
  | (r, Raise e) => if evaluate_catches (ecls e) then Ok (set_allowed (append_at "reasons" (caught_reason e) r)) else Raise e
  end.

End BtcEntry.
