(* ===== verification/BtcEntryFacts.v ===== *)
(** * Properties of the BTC entry policy

    An admitted entry has a valid, fresh, bullish forecast, an authoritative and fresh
    quote, and an expected exit above the entry price by more than the commissions; the
    control record keeps entries apart; and the policy returns a verdict on every input
    except where the decimal context overflows or an integer is too long to print. *)

From Stdlib Require Import QArith Ascii Lqa Floats.SpecFloat.
From S2P Require Import Prelude PyDecimal PyText PyValue PyOrder RowMonad CostPolicy BtcEntry.
From stdpp Require Import base tactics list strings.
From Stdlib Require Import ZArith Lia Bool.
Import BtcEntry.

Open Scope Z_scope.

Module BtcEntryFacts.

(** ** Reasons are only appended *)

Definition reasons_are (r : dict) (l : list value) : Prop := get r "reasons" = VList l.

Definition grows {A} (m : prog A) : Prop :=
  forall r r' o l, reasons_are r l -> m r = (r', o) -> exists l', reasons_are r' (l ++ l').

Lemma grows_keeps {A} (m : prog A) : keeps ["reasons"] m -> grows m.
Proof.
  intros H r r' o l Hr E. exists []. specialize (H r "reasons" (or_introl eq_refl)). rewrite E in H. simpl in H.
  unfold reasons_are. by rewrite H, app_nil_r.
Qed.
Lemma append_at_reasons r l code : reasons_are r l -> reasons_are (append_at "reasons" code r) (l ++ [VStr code]).
Proof. unfold reasons_are, append_at. intros ->. apply get_dset_eq. Qed.
Lemma grows_note c code : grows (note c code).
Proof.
  intros r r' o l Hr [= <- <-]. destruct c; [|exists []; by rewrite app_nil_r]. eexists. by apply append_at_reasons.
Qed.
Lemma grows_pbind {A B} (m : prog A) (k : A -> prog B) : grows m -> (forall a, grows (k a)) -> grows (pbind m k).
Proof.
  intros Hm Hk r r' o l Hr H. apply pbind_run in H as [(e & H & _)|(r1 & a & H1 & H)]; [by eapply Hm|].
  destruct (Hm _ _ _ _ Hr H1) as [l1 Hl1]. destruct (Hk a _ _ _ _ Hl1 H) as [l2 Hl2]. exists (l1 ++ l2). by rewrite app_assoc.
Qed.

Ltac grow :=
  lazymatch goal with
  | |- grows (pbind _ _) => apply grows_pbind; [grow|intros; grow]
  | |- grows (note _ _) => apply grows_note
  | |- _ => apply grows_keeps; keep
  end.

(** A block that ends without reasons noted none on the way. *)
Lemma note_bind {B} c code (k : unit -> prog B) r r' o :
  grows (k tt) -> reasons_are r [] -> pbind (note c code) k r = (r', o) -> reasons_are r' [] -> c = false /\ k tt r = (r', o).
Proof.
  intros Hk Hr H Hr'. unfold pbind, note in H. destruct c; [|done]. exfalso.
  destruct (Hk _ _ _ _ (append_at_reasons r [] code Hr) H) as [l Hl]. unfold reasons_are in *. rewrite Hr' in Hl. discriminate.
Qed.

(** ** Numbers *)

Lemma btc_number_wf v d : number v = Ok d -> dwf d.
Proof.
  intros H. assert (to_parsed v = PFinite d) as Hp; [|by eapply to_parsed_wf].
  unfold number in H. destruct v; try done; case_if H; try done; case_match; try done; by apply Ok_inj in H as ->.
Qed.
#[local] Hint Resolve btc_number_wf : wf.

Lemma profile_numbers :
  profile_number "confidence_min" = Ok (Dec false 62 (-2)) /\ profile_number "commission_min_usd" = Ok (Dec false 175 (-2)) /\
  profile_number "commission_rate" = Ok (Dec false 18 (-4)) /\ profile_number "max_cash_usd" = Ok (Dec false 25000 0).
Proof. vm_compute. done. Qed.

(** ** Valid forecasts and controls *)

Record forecast_ok (f : dict) : Prop := {
  fo_model : get f "model_id" = VStr "gpt-6-luna";
  fo_horizon : exists h, get f "horizon_sec" = VInt h /\ In h HORIZONS;
  fo_clocks : exists i a, get f "issued_at_ms" = VInt i /\ get f "available_at_ms" = VInt a /\ 0 < i <= a;
  fo_confidence : exists c, number (get f "confidence") = Ok c /\ (0 <= dval c <= 1)%Q;
  fo_move : exists m, number (get f "expected_move_bps") = Ok m;
  fo_reference : exists r, number (get f "reference_mid") = Ok r /\ (0 < dval r < dval trillion)%Q }.

Lemma dval_dzero : (dval dzero == 0)%Q.
Proof. by apply dval_zero. Qed.

Lemma btc_forecast_ok p v f : validate_forecast p v = Ok f -> v = VDict f /\ forecast_ok f.
Proof.
  unfold validate_forecast. intros H. destruct v as [| | | | | | |d]; try done. apply when_ok in H as [_ H].
  apply when_ok in H as [H1 H]. apply when_ok in H as [H2 H]. apply when_ok in H as [_ H]. apply when_ok in H as [_ H].
  apply rbind_ok in H as (b & Hb & H). destruct b; [done|]. apply rbind_ok in H as (r & Hr & H).
  apply when_ok in H as [H3 H]. apply when_ok in H as [H4 H]. apply when_ok in H as [_ H]. apply Ok_inj in H as ->. split; [done|].
  apply por_false in Hb as [Hc Hm]. apply rbind_ok in Hc as (c & Hc & Hc'). apply rbind_ok in Hm as (m & Hm & _). apply Ok_inj in Hc'.
  split_bools. dec_cmp. rewrite dval_dzero in *. split.
  - by apply eq_str_true.
  - destruct (get f "horizon_sec"); try done. eexists. split; [done|]. by apply inb_true.
  - unfold clocks_ok in *. destruct (get f "issued_at_ms"); try done. destruct (get f "available_at_ms"); try done. split_bools. do 2 eexists. repeat split; done.
  - exists c. split; [done|]. rewrite (dval_of_Z 1) in *. done.
  - eauto.
  - eauto.
Qed.

Definition event_ok (now : Z) (e : value) : Prop :=
  exists d s t, e = VDict d /\ get d "command_id" = VStr s /\ get d "prepared_at_ms" = VInt t /\ 0 < t <= now.

Definition command_of (e : value) : string := match event_command e with VStr s => s | _ => EmptyString end.

Lemma event_ok_time now e : event_ok now e -> 0 < event_time e <= now /\ event_command e = VStr (command_of e).
Proof. intros (d & s & t & -> & Hs & Ht & Hb). unfold command_of; simpl. by rewrite Hs, Ht. Qed.

Lemma reservation_step_ok now seen e seen' :
  reservation_step now seen e = Ok seen' -> event_ok now e /\ seen' = seen ++ [command_of e] /\ ~ In (command_of e) seen.
Proof.
  unfold reservation_step, reservation_of. intros H. destruct e as [| | | | | | |d]; try done.
  destruct (CostPolicy.has_keys d _); [|done]. unfold command_of; simpl. destruct (get d "command_id") as [| | | | |s| |] eqn:Es; try done.
  destruct (bool_decide _ || _); [done|]. simpl in H. apply when_ok in H as [Hi H]. apply when_ok in H as [Hp H]. apply Ok_inj in H as <-.
  unfold past in Hp. destruct (get d "prepared_at_ms") as [| |t| | | | |] eqn:Et; try done. split_bools.
  split; [by exists d, s, t|]. split; [done|]. intros Hin. apply inb_true in Hin. congruence.
Qed.

Lemma reservations_ok now events seen seen' :
  rfold (reservation_step now) events seen = Ok seen' -> List.NoDup seen ->
  Forall (event_ok now) events /\ seen' = seen ++ map command_of events /\ List.NoDup seen'.
Proof.
  revert seen. induction events as [|e events IH]; intros seen H Hd; simpl in H.
  { apply Ok_inj in H as <-. simpl. by rewrite app_nil_r. }
  apply rbind_ok in H as (s1 & H1 & H). apply reservation_step_ok in H1 as (He & -> & Hn).
  assert (List.NoDup (seen ++ [command_of e])) as Hd'.
  { apply NoDup_ListNoDup. apply NoDup_app. split; [by apply NoDup_ListNoDup|]. split; [|apply NoDup_singleton].
    intros x Hx Hx'. rewrite list_elem_of_singleton in Hx'. subst. by apply Hn, list_elem_of_In. }
  destruct (IH _ H Hd') as (Hf & -> & Hd2). split; [by constructor|]. simpl. rewrite <- app_assoc in *. done.
Qed.

Lemma validate_control_ok control now c :
  validate_control control now = Ok c ->
  control = VDict c /\ get c "open_reservations" = VList (reservations c) /\ Forall (event_ok now) (reservations c) /\
  List.NoDup (map command_of (reservations c)) /\ exists t, getd (VInt 0) c "last_flat_at_ms" = VInt t /\ 0 <= t <= now.
Proof.
  unfold validate_control, reservations. intros H. destruct control as [| | | | | | |d]; try done. apply when_ok in H as [_ H].
  destruct (get d "open_reservations") as [| | | | | |l|] eqn:El; try done. apply when_ok in H as [_ H].
  apply rbind_ok in H as (seen & Hs & H). apply when_ok in H as [Hp H]. apply Ok_inj in H as ->. rewrite El.
  apply reservations_ok in Hs as (Hf & Hs & Hd); [|constructor]. simpl in Hs. subst seen. do 4 (split; [done|]).
  unfold past in Hp. destruct (getd _ _ _) as [| |t| | | | |] eqn:Et; try done. split_bools. by exists t.
Qed.

(** ** Admission *)

(** What an admitted entry has been checked for. *)
Record admitted (p : Z) (f q c : dict) (now : Z) (cash ignore : value) (bid ask n : decimal) (a : Amounts) : Prop := {
  ad_forecast : forecast_ok f;
  ad_buy : get f "action" = VStr "BUY";
  ad_confident : exists x, number (get f "confidence") = Ok x /\ (62 # 100 <= dval x)%Q;
  ad_fresh : forall i, get f "issued_at_ms" = VInt i -> i <= now <= i + 60000;
  ad_quote : quote_unauthoritative q = false;
  ad_quote_fresh : exists t, get q "observed_at_ms" = VInt t /\ 0 < t <= now /\ now <= t + 5000;
  ad_prices : number (get q "bid") = Ok bid /\ number (get q "ask") = Ok ask /\ (0 < dval bid <= dval ask)%Q /\ (dval ask < dval trillion)%Q;
  ad_cash : number cash = Ok n /\ (0 < dval n <= 25000)%Q;
  ad_events : Forall (event_ok now) (reservations c) /\ List.NoDup (map command_of (reservations c));
  ad_apart : forall e, In e (reservations c) -> event_command e <> ignore -> event_time e <= now - 1800000;
  ad_rolling : (length (List.filter (recent_event now) (List.filter (fun e => negb (py_eq (event_command e) ignore)) (reservations c))) <= 1)%nat;
  ad_flat : exists t, get c "last_flat_at_ms" = VInt t /\ (t = 0 \/ t <= now - 1800000);
  ad_amounts : amounts p f bid ask n = Ok a;
  ad_edge : (dval (a_margin a) < dval (a_net a))%Q }.

Lemma foldl_max_ge l m : m <= foldl Z.max m l /\ forall x, In x l -> x <= foldl Z.max m l.
Proof.
  revert m. induction l as [|y l IH]; intros m; simpl; [split; [lia|tauto]|]. destruct (IH (Z.max m y)) as [H1 H2].
  split; [lia|]. intros x [->|Hx]; [lia|by apply H2].
Qed.
Lemma latest_ge l e : In e l -> event_time e <= latest l.
Proof.
  intros H. unfold latest. apply (in_map event_time) in H. destruct (map event_time l) as [|t ts]; [done|].
  destruct (foldl_max_ge ts t) as [H1 H2]. destruct H as [->|H]; [done|by apply H2].
Qed.

Lemma item_read d k v : item d k = Ok v -> get d k = v.
Proof. unfold item, get, getd, dget_or. destruct (dget k d); intros H; [by apply Ok_inj in H|done]. Qed.

Lemma py_eq_str_l s v : py_eq (VStr s) v = true <-> v = VStr s.
Proof. destruct v; simpl; try (split; [done|congruence]). rewrite bool_decide_eq_true. naive_solver. Qed.

Lemma fresh_forecast f now i : forecast_stale f now = false -> get f "issued_at_ms" = VInt i -> i <= now <= i + 60000.
Proof.
  unfold forecast_stale. intros H Hi. rewrite Hi in H. destruct (get f "available_at_ms"); try done. change (profile_int "forecast_ttl_ms") with 60000 in H.
  split_bools. lia.
Qed.

Lemma quote_time_ok q now t : quote_time q now = Ok t -> exists t, get q "observed_at_ms" = VInt t /\ 0 < t <= now /\ now <= t + 5000.
Proof.
  unfold quote_time. intros H. destruct (get q "observed_at_ms") as [| |s| | | | |]; try done. destruct (get q "stale_after_ms"); try done.
  change (profile_int "quote_ttl_ms") with 5000 in H. case_if H; [|done]. split_bools. exists s. split; [done|lia].
Qed.

Lemma others_apart events now ignore :
  Forall (event_ok now) events ->
  let others := List.filter (fun e => negb (py_eq (event_command e) ignore)) events in
  negb (bool_decide (others = [])) && (now - latest others <? profile_int "minimum_entry_interval_ms") = false ->
  forall e, In e events -> event_command e <> ignore -> event_time e <= now - 1800000.
Proof.
  intros Hf others H e Hin Hne. assert (Ho : In e others).
  { apply filter_In. split; [done|]. rewrite List.Forall_forall in Hf. destruct (event_ok_time _ _ (Hf e Hin)) as [_ Hc].
    apply negb_true_iff, not_true_iff_false. rewrite Hc. intros ->%py_eq_str_l. congruence. }
  pose proof (latest_ge _ _ Ho). change (profile_int "minimum_entry_interval_ms") with 1800000 in H.
  apply andb_false_iff in H as [H|H]; [|split_bools; lia]. apply negb_false_iff, bool_decide_eq_true in H. by rewrite H in Ho.
Qed.

(** Peels the first step of a body that ends without reasons. *)
Ltac peel H Hr Hr' :=
  match type of H with
  | pbind (note _ _) _ _ = _ =>
      let Hc := fresh "Hc" in apply note_bind in H as [Hc H]; [|grow|exact Hr|exact Hr']
  | pbind (plift _) _ _ = _ =>
      let x := fresh "x" in let Hx := fresh "Hx" in apply plift_bind in H as (x & Hx & H)
  | pbind (prefuse _ _) _ _ = _ => let Hc := fresh "Hc" in apply prefuse_bind in H as [Hc H]
  end.

Lemma evaluate_body_ok p f q control now cash ignore r r' :
  reasons_are r [] -> evaluate_body p f q control now cash ignore r = (r', Ok tt) -> reasons_are r' [] ->
  exists f' q' c now' bid ask n a, f = VDict f' /\ q = VDict q' /\ control = VDict c /\ now = VInt now' /\ 0 < now' /\
    admitted p f' q' c now' cash ignore bid ask n a.
Proof.
  intros Hr H Hr'. unfold evaluate_body in H. repeat peel H Hr Hr'. cbn zeta in H. repeat peel H Hr Hr'. clear H.
  destruct now as [| |z| | | | |]; try discriminate Hx. destruct q as [| | | | | | |q']; try discriminate Hx3.
  destruct (Z.ltb_spec 0 z) as [Hz|]; [|done]. apply Ok_inj in Hx as <-. apply when_ok in Hx3 as [Hq Hx3]. apply Ok_inj in Hx3 as <-.
  apply btc_forecast_ok in Hx0 as [-> Hf]. apply validate_control_ok in Hx1 as (-> & _ & He & Hd & _).
  exists x0, q', x1, z, x5, x6, x7, x10. do 4 (split; [done|]). split; [done|].
  destruct profile_numbers as (E1 & _ & _ & E4). rewrite E4 in Hx8. apply Ok_inj in Hx8 as <-.
  apply rbind_ok in Hx2 as (y & Hy & Hx2). rewrite E1 in Hx2. apply Ok_inj in Hx2. subst x2.
  apply rbind_ok in Hx5 as (b & Hb%item_read & Hx5). apply rbind_ok in Hx6 as (b' & Hb'%item_read & Hx6). subst b b'.
  apply rbind_ok in Hx9 as (fl & Hfl%item_read & Hx9). destruct fl as [| |fl| | | | |]; try discriminate Hx9. apply Ok_inj in Hx9 as ->.
  split_bools. dec_cmp. rewrite dval_dzero in *.
  split; try assumption; try (repeat split; assumption).
  - by apply eq_str_true.
  - exists y. split; [assumption|]. exact Hc0.
  - intros i Hi. apply (fresh_forecast x0 z i Hc1 Hi).
  - by apply quote_time_ok in Hx4.
  - intros e Hin Hne. apply (others_apart _ _ _ He Hc5 e Hin Hne).
  - change (profile_int "maximum_opens_per_window") with 2 in *. lia.
  - exists x9. split; [done|]. destruct (Z.eqb_spec x9 0); [by left|]. right. simpl in Hc6. change (profile_int "after_flat_cooldown_ms") with 1800000 in Hc6. split_bools. lia.
Qed.

(** ** Economics *)

(** A difference above a representable bound is the rounding of a difference above it. *)
Lemma dsub_above p a b r y : 1 <= p -> dsub p a b = Ok r -> representable p y -> (dval y < dval r)%Q -> (dval y < dval a - dval b)%Q.
Proof.
  intros Hp H Hy Hlt. apply Qnot_le_lt. intros Hle. destruct (dsub_bound p Hp a b r y H Hy) as [Hu _]. specialize (Hu Hle). lra.
Qed.

Lemma cents_representable p c e : 4 <= p -> 0 <= c < 1000 -> -2 <= e -> representable p (Dec false c e).
Proof.
  intros Hp Hc He. split; simpl; [|unfold Etiny, Emin; lia]. pose proof (pow10_le 4 p Hp). change (10 ^ 4) with 10000 in *. lia.
Qed.

(** The commission on an amount: 0.18 per cent of it, and at least the minimum ticket of 1.75. *)
Definition commission (p : Z) (amount x : decimal) : Prop :=
  exists y, dmul p amount (Dec false 18 (-4)) = Ok y /\ (175 # 100 <= dval x)%Q /\ (dval y <= dval x)%Q /\
    (dval x == 175 # 100 \/ dval x == dval y)%Q.
(** Two basis points of an amount. *)
Definition two_bps (p : Z) (amount x : decimal) : Prop :=
  exists y, dmul p amount (Dec false 2 0) = Ok y /\ ddiv p y (Dec false 10000 0) = Ok x.

Lemma fee_ok p n x : 4 <= p -> dwf n -> fee p n = Ok x -> commission p n x /\ representable p x.
Proof.
  intros Hp Hn. unfold fee. destruct profile_numbers as (_ & E2 & E3 & _). rewrite E2, E3. cbn [rbind]. intros H. apply rbind_ok in H as (y & Hy & H).
  apply Ok_inj in H as <-. split.
  - exists y. split; [done|]. split; [exact (dmax_ge_l (Dec false 175 (-2)) y)|]. split; [apply dmax_ge_r|]. unfold dmax. case_match; [by right|by left].
  - assert (representable p y) by (eapply dmul_representable; [|exact Hn| |exact Hy]; [lia|done]). unfold dmax. case_match; [done|by apply cents_representable].
Qed.

Lemma bps_of_two p n key x : profile_number key = Ok (Dec false 2 0) -> bps_of p n key = Ok x -> two_bps p n x.
Proof. unfold bps_of. intros -> H. cbn [rbind] in H. apply rbind_ok in H as (y & Hy & H). by exists y. Qed.

Lemma bps_of_nonneg p n key b x :
  1 <= p -> dwf n -> (0 <= dval n)%Q -> profile_number key = Ok b -> dwf b -> (0 <= dval b)%Q -> bps_of p n key = Ok x -> (0 <= dval x)%Q.
Proof.
  intros Hp Hn Hn0 Hb Hbw Hb0 H. unfold bps_of in H. rewrite Hb in H. cbn [rbind] in H. apply rbind_ok in H as (y & Hy & H).
  pose proof (dmul_wf p n b y Hp Hn Hbw Hy). eapply (ddiv_nonneg p y (dec_of_Z 10000)); eauto with wf; [|done].
  by eapply (dmul_nonneg p Hp n b).
Qed.

(** What the amounts of an admitted entry are.  The cash buys a quantity at the ask; it is sold at the
    expected exit price; the commissions are those on the cash and on the proceeds; and the
    gain before costs exceeds both commissions, and after both and the slippage reserve it
    exceeds the required margin. *)
Record economics (p : Z) (ask n : decimal) (a : Amounts) (proceeds : decimal) : Prop := {
  ec_proceeds : exists qty, ddiv p n ask = Ok qty /\ dmul p qty (a_exit_bid a) = Ok proceeds;
  ec_gross : dsub p proceeds n = Ok (a_gross a);
  ec_fee_in : commission p n (a_fee_in a);
  ec_fee_out : commission p proceeds (a_fee_out a);
  ec_slippage : two_bps p n (a_slippage a) /\ (0 <= dval (a_slippage a))%Q;
  ec_margin : two_bps p n (a_margin a) /\ (0 <= dval (a_margin a))%Q;
  ec_covered : (dval (a_fee_in a) + dval (a_fee_out a) < dval (a_gross a))%Q;
  ec_net : exists n1 n2, dsub p (a_gross a) (a_fee_in a) = Ok n1 /\ dsub p n1 (a_fee_out a) = Ok n2 /\ dsub p n2 (a_slippage a) = Ok (a_net a) /\
    (dval (a_slippage a) + dval (a_margin a) < dval n2)%Q /\ (dval (a_margin a) < dval (a_net a))%Q;
  ec_minimum : (dval n + (350 # 100) < dval proceeds)%Q }.

(** The amounts behind a positive net edge. *)
Lemma amounts_ok p f bid ask n a :
  4 <= p -> dwf n -> dwf ask -> dwf bid -> (0 < dval n)%Q -> amounts p f bid ask n = Ok a -> (dval (a_margin a) < dval (a_net a))%Q ->
  dwf (a_exit_bid a) /\ (0 < dval (a_exit_bid a))%Q /\ exists proceeds, economics p ask n a proceeds.
Proof.
  intros Hp Hn Hask Hbid Hn0 H Hedge. unfold amounts in H.
  apply rbind_ok in H as (reference & Href & H). apply rbind_ok in H as (bps & _ & H). apply rbind_ok in H as (move & _ & H).
  apply rbind_ok in H as (growth & _ & H). apply rbind_ok in H as (target & Ht & H). apply rbind_ok in H as (spread & _ & H).
  apply rbind_ok in H as (half & _ & H). apply rbind_ok in H as (exit_bid & He & H). apply when_ok in H as [Hexit H].
  apply rbind_ok in H as (qty & Hq & H). apply rbind_ok in H as (en & Hen & H). apply rbind_ok in H as (fi & Hfi & H).
  apply rbind_ok in H as (fo & Hfo & H). apply rbind_ok in H as (gross & Hg & H). apply rbind_ok in H as (sl & Hsl & H).
  apply rbind_ok in H as (mg & Hmg & H). apply rbind_ok in H as (n1 & Hn1 & H). apply rbind_ok in H as (n2 & Hn2 & H).
  apply rbind_ok in H as (net & Hnet & H). apply Ok_inj in H as <-. cbn [a_margin a_net a_exit_bid a_fee_in a_fee_out a_slippage a_gross] in *.
  dec_cmp. rewrite dval_dzero in Hexit. assert (Hp1 : 1 <= p) by lia. pose proof (dsub_wf _ _ _ _ Hp1 He) as Hew.
  pose proof (ddiv_wf _ _ _ _ Hp1 Hn Hask Hq) as Hqw. pose proof (dmul_wf _ _ _ _ Hp1 Hqw Hew Hen) as Henw.
  destruct (fee_ok _ _ _ Hp Hn Hfi) as [Ci Ri]. destruct (fee_ok _ _ _ Hp Henw Hfo) as [Co Ro].
  assert (P2 : profile_number "slippage_roundtrip_bps" = Ok (Dec false 2 0) /\ profile_number "minimum_net_edge_bps" = Ok (Dec false 2 0)) by (vm_compute; done).
  destruct P2 as [P1 P2]. pose proof (bps_of_two _ _ _ _ P1 Hsl) as Ts. pose proof (bps_of_two _ _ _ _ P2 Hmg) as Tm.
  assert (0 <= dval sl)%Q by (apply (bps_of_nonneg p n "slippage_roundtrip_bps" (Dec false 2 0) _ Hp1 Hn); [lra|done..]).
  assert (0 <= dval mg)%Q by (apply (bps_of_nonneg p n "minimum_net_edge_bps" (Dec false 2 0) _ Hp1 Hn); [lra|done..]).
  assert (Rm : representable p mg).
  { destruct Tm as (y & Hy & Hd). eapply ddiv_representable; [lia| | |exact Hd]; [|done]. by eapply (dmul_wf p n (Dec false 2 0)). }
  assert (A1 : (dval mg < dval n2 - dval sl)%Q) by (eapply dsub_above; eauto).
  assert (A2 : (dval dzero < dval n1 - dval fo)%Q) by (eapply dsub_above; eauto; [apply dzero_representable; lia|rewrite dval_dzero; lra]).
  assert (A3 : (dval fo < dval gross - dval fi)%Q) by (eapply dsub_above; eauto; rewrite dval_dzero in A2; lra).
  assert (A4 : (dval (Dec false 350 (-2)) < dval en - dval n)%Q).
  { eapply dsub_above; eauto; [by apply cents_representable|]. change (dval (Dec false 350 (-2))) with (350 # 100)%Q. destruct Ci as (? & _ & ? & _), Co as (? & _ & ? & _). lra. }
  change (dval (Dec false 350 (-2))) with (350 # 100)%Q in A4.
  split; [done|]. split; [done|]. exists en. split; cbn [a_margin a_net a_exit_bid a_fee_in a_fee_out a_slippage a_gross]; try done; [by exists qty|lra| |lra].
  exists n1, n2. do 3 (split; [done|]). split; [lra|done].
Qed.

(** Proceeds that exceed the cash by more than the commissions come from an exit price
    above the entry price: rounding cannot make up for the commissions. *)
Lemma profitable_exit p n ask exit_bid qty en :
  6 <= p -> dwf n -> dwf ask -> dwf exit_bid -> (0 < dval n <= 25000)%Q -> (0 < dval ask < dval trillion)%Q -> (0 < dval exit_bid)%Q ->
  ddiv p n ask = Ok qty -> dmul p qty exit_bid = Ok en -> (dval n + (350 # 100) < dval en)%Q -> (dval ask < dval exit_bid)%Q.
Proof.
  intros Hp Hn Hask Hex Hn0 Hask0 Hex0 Hq Hen Hlt. apply Qnot_le_lt. intros Hle. assert (Hp1 : 1 <= p) by lia.
  pose proof (ddiv_wf _ _ _ _ Hp1 Hn Hask Hq) as Hqw. set (eps := p10 (1 - p)).
  assert (Heps : (0 < eps <= 1 # 100000)%Q).
  { split; [apply p10_pos|]. apply (p10_le (1 - p) (-5)). lia. }
  assert (Htiny : (p10 Emin * dval trillion <= 1)%Q).
  { assert (dval trillion == p10 12)%Q as -> by reflexivity. rewrite <- p10_add. apply (p10_le _ 0). unfold Emin. lia. }
  assert (Hm1 : (p10 Emin <= 1)%Q) by (apply (p10_le _ 0); unfold Emin; lia).
  pose proof (p10_pos Emin) as Hm. pose proof (ddiv_close p n ask qty) as Hdiv. pose proof (dmul_close p qty exit_bid en) as Hmul.
  generalize dependent (p10 Emin). intros tiny Htiny Hm1 Hm Hdiv Hmul.
  assert (Hfrac : (0 < dval n / dval ask)%Q) by (apply Qlt_shift_div_l; lra).
  set (B := (dval n / dval ask + tiny)%Q).
  assert (HB : (B * dval ask <= dval n + 1)%Q).
  { unfold B. assert (dval n / dval ask * dval ask == dval n)%Q by (field; lra).
    assert (tiny * dval ask <= tiny * dval trillion)%Q by (apply Qmult_le_l; lra). lra. }
  assert (Hqty : (dval qty <= B * (1 + eps))%Q) by (apply Hdiv; try assumption; unfold B; lra).
  assert (Hq0 : (0 <= dval qty)%Q) by (eapply (ddiv_nonneg p n ask); eauto; lra).
  assert (Hprod : (dval qty * dval exit_bid <= (dval n + 1) * (1 + eps))%Q).
  { apply Qle_trans with (dval qty * dval ask)%Q; [apply Qmult_le_compat_nonneg; lra|].
    apply Qle_trans with (B * (1 + eps) * dval ask)%Q; [apply Qmult_le_compat_r; lra|].
    assert (B * (1 + eps) * dval ask == B * dval ask * (1 + eps))%Q as -> by ring. apply Qmult_le_compat_r; lra. }
  assert (Hen2 : (dval en <= (dval n + 1) * (1 + eps) * (1 + eps))%Q).
  { apply Hmul; try assumption. nra. }
  nra.
Qed.

(** ** The verdict *)

Lemma initial_reasons profile now : reasons_are (initial_result profile now) [].
Proof. done. Qed.

Lemma set_allowed_reasons r l : reasons_are r l -> get (set_allowed r) "allowed" = VBool true -> l = [].
Proof. unfold set_allowed, reasons_are. intros ->. rewrite get_dset_eq. by destruct l. Qed.

Lemma evaluate_body_grows p f q control now cash ignore : grows (evaluate_body p f q control now cash ignore).
Proof. unfold evaluate_body. cbn zeta. grow. Qed.

Lemma evaluate_allowed p f q control now cash ignore r :
  evaluate p f q control now cash ignore = Ok r -> get r "allowed" = VBool true ->
  exists f' q' c now' bid ask n a, f = VDict f' /\ q = VDict q' /\ control = VDict c /\ now = VInt now' /\ 0 < now' /\
    admitted p f' q' c now' cash ignore bid ask n a.
Proof.
  unfold evaluate. intros H Hal. apply rbind_ok in H as (profile & _ & H).
  destruct (evaluate_body _ _ _ _ _ _ _ _) as [r' o] eqn:E.
  destruct (evaluate_body_grows _ _ _ _ _ _ _ _ _ _ _ (initial_reasons profile now) E) as [l Hl]. simpl in Hl.
  destruct o as [[]|e].
  - apply Ok_inj in H as <-. pose proof (set_allowed_reasons _ _ Hl Hal) as ->. eapply evaluate_body_ok; [apply initial_reasons|exact E|exact Hl].
  - case_if H; [|done]. apply Ok_inj in H as <-. apply append_at_reasons with (code := caught_reason e) in Hl.
    pose proof (set_allowed_reasons _ _ Hl Hal) as Hnil. by destruct l.
Qed.

(** C38: an admitted BTC entry is justified.  The forecast is valid, bullish, confident and
    at most a minute old, the quote is authoritative and at most five seconds old, the cash
    is within its limit, and the anti-churn controls have elapsed.  The cash is spent at the
    ask and the quantity is sold at the expected exit price; the commissions are 0.18 per
    cent of the cash and of the proceeds, each at least 1.75; the gain before costs exceeds
    both commissions together, and what is left after both exceeds the slippage reserve and
    the required margin, two basis points of the cash each; and the expected exit price is
    above the entry price. *)
Theorem btc_entry_sound p f q control now cash ignore r :
  6 <= p -> evaluate p f q control now cash ignore = Ok r -> get r "allowed" = VBool true ->
  exists f' q' c now' bid ask n a proceeds, f = VDict f' /\ q = VDict q' /\ control = VDict c /\ now = VInt now' /\ 0 < now' /\
    admitted p f' q' c now' cash ignore bid ask n a /\ economics p ask n a proceeds /\ (dval ask < dval (a_exit_bid a))%Q.
Proof.
  intros Hp H Hal. destruct (evaluate_allowed _ _ _ _ _ _ _ _ H Hal) as (f' & q' & c & now' & bid & ask & n & a & Ef & Eq & Ec & En & Hn & Had).
  destruct (ad_prices _ _ _ _ _ _ _ _ _ _ _ Had) as (Hb & Ha & Hba & Hat). destruct (ad_cash _ _ _ _ _ _ _ _ _ _ _ Had) as (Hc & Hc').
  pose proof (btc_number_wf _ _ Hb). pose proof (btc_number_wf _ _ Ha). pose proof (btc_number_wf _ _ Hc).
  destruct (amounts_ok p f' bid ask n a) as (Hew & He0 & proceeds & Hec); try done; [lia|lra|apply Had|apply Had|].
  exists f', q', c, now', bid, ask, n, a, proceeds. do 7 (split; [done|]). destruct (ec_proceeds _ _ _ _ _ Hec) as (qty & Hq & Hen).
  apply (profitable_exit p n ask (a_exit_bid a) qty proceeds); try done; [lra|apply Hec].
Qed.

(** ** The control record over time *)

(** What happens to the record between two decisions. *)
Inductive control_step : dict -> dict -> Prop :=
| step_reserve c command now : control_step c (reserve c command now).1
| step_flat c t : control_step c (dset "last_flat_at_ms" (VInt (Z.max (match get c "last_flat_at_ms" with VInt z => z | _ => 0 end) t)) c).

(** The reservations a record ever held and the closing times it ever saw. *)
Inductive control_history : dict -> list value -> list Z -> Prop :=
| history_start c : control_history c (reservations c) []
| history_step c opens flats c' :
    control_history c opens flats -> control_step c c' ->
    control_history c' (opens ++ reservations c') (flats ++ match get c' "last_flat_at_ms" with VInt t => [t] | _ => [] end).

(** A reservation that is no longer held was pruned by a reservation an hour later. *)
Definition accounted (c : dict) (e : value) : Prop :=
  In e (reservations c) \/ exists e', In e' (reservations c) /\ event_time e <= event_time e' - 3600000.

Lemma get_reservations c l : get c "open_reservations" = VList l -> reservations c = l.
Proof. unfold reservations. by intros ->. Qed.

Lemma reserve_accounted c command now e : accounted c e -> accounted (reserve c command now).1 e.
Proof.
  unfold reserve. intros He. destruct (validate_control (VDict c) now) as [c1|] eqn:Hv; [|done].
  apply validate_control_ok in Hv as (Hc & Hl & Hok & _). injection Hc as <-.
  destruct (existsb _ _); [done|]. cbn [fst]. set (new := VDict _). set (c' := dset _ _ _).
  assert (Hr : reservations c' = List.filter (recent_event now) (reservations c) ++ [new]) by (apply get_reservations, get_dset_eq).
  rewrite List.Forall_forall in Hok. unfold accounted. rewrite Hr.
  assert (Hnew : In new (List.filter (recent_event now) (reservations c) ++ [new])) by (apply in_app_iff; right; by left).
  destruct He as [He|(e' & He' & Ht)].
  - destruct (recent_event now e) eqn:Er; [left; apply in_app_iff; left; by apply filter_In|]. right. exists new. split; [done|].
    unfold recent_event in Er. change (profile_int "rolling_entry_window_ms") with 3600000 in Er. split_bools. change (event_time new) with now. lia.
  - right. exists new. split; [done|]. change (event_time new) with now. destruct (event_ok_time _ _ (Hok e' He')). lia.
Qed.

Lemma reserve_flat c command now : get (reserve c command now).1 "last_flat_at_ms" = get c "last_flat_at_ms".
Proof.
  unfold reserve. destruct (validate_control (VDict c) now); [|done]. destruct (existsb _ _); [done|]. cbn [fst]. by apply get_dset_ne.
Qed.

Definition flat_of (c : dict) : Z := match get c "last_flat_at_ms" with VInt t => t | _ => 0 end.

Lemma step_flat_of c c' : control_step c c' -> flat_of c <= flat_of c'.
Proof.
  unfold flat_of. intros [c0 command now|c0 t].
  - rewrite reserve_flat. lia.
  - rewrite get_dset_eq. lia.
Qed.

Lemma step_accounted c c' e : control_step c c' -> accounted c e -> accounted c' e.
Proof.
  intros [c0 command now|c0 t]; [apply reserve_accounted|]. unfold accounted, reservations. by rewrite get_dset_ne.
Qed.

Lemma history_accounted c opens flats :
  control_history c opens flats -> Forall (accounted c) opens /\ Forall (fun t => t <= flat_of c) flats.
Proof.
  induction 1 as [c|c opens flats c' Hh [IH1 IH2] Hs].
  - split; [|constructor]. apply List.Forall_forall. intros e He. by left.
  - rewrite !List.Forall_forall in IH1, IH2. split; apply List.Forall_forall.
    + intros e [He|He]%in_app_iff; [by apply (step_accounted c), IH1|by left].
    + intros t [Ht|Ht]%in_app_iff; [pose proof (step_flat_of _ _ Hs); specialize (IH2 t Ht); lia|].
      unfold flat_of. destruct (get c' "last_flat_at_ms"); try done. destruct Ht as [->|[]]. lia.
Qed.

(** C39: BTC entries are kept apart over the whole life of the control record, whatever
    reservations and closings it saw in between: when an entry is admitted, every other
    reservation ever made is at least half an hour old, at most one of them is from the
    last hour, and every closing ever seen is at least half an hour old. *)
Theorem btc_entries_apart p f q c now cash command r opens flats :
  control_history c opens flats -> evaluate p f q (VDict c) (VInt now) cash command = Ok r -> get r "allowed" = VBool true ->
  (forall e, In e opens -> event_command e <> command -> event_time e <= now - 1800000) /\
  (forall e e', In e opens -> In e' opens -> event_command e <> command -> event_command e' <> command ->
     now - 3600000 < event_time e -> now - 3600000 < event_time e' -> e = e') /\
  (forall t, In t flats -> 0 < t -> t <= now - 1800000).
Proof.
  intros Hh H Hal. destruct (evaluate_allowed _ _ _ _ _ _ _ _ H Hal) as (f' & q' & c' & now' & bid & ask & n & a & _ & _ & Ec & En & Hn & Had).
  injection Ec as <-. injection En as <-. destruct (history_accounted _ _ _ Hh) as [Ho Hf]. rewrite List.Forall_forall in Ho, Hf.
  destruct (ad_events _ _ _ _ _ _ _ _ _ _ _ Had) as [Hok _]. rewrite List.Forall_forall in Hok.
  assert (Hheld : forall e, In e opens -> now - 3600000 < event_time e -> In e (reservations c)).
  { intros e He Ht. destruct (Ho e He) as [?|(e' & He' & Hle)]; [done|]. destruct (event_ok_time _ _ (Hok e' He')). lia. }
  split; [|split].
  - intros e He Hne. destruct (Z.le_gt_cases (event_time e) (now - 3600000)); [lia|]. apply (ad_apart _ _ _ _ _ _ _ _ _ _ _ Had e); [by apply Hheld; [|lia]|done].
  - intros e e' He He' Hne Hne' Ht Ht'. pose proof (ad_rolling _ _ _ _ _ _ _ _ _ _ _ Had) as Hl.
    set (recent := List.filter (recent_event now) _) in Hl.
    assert (Hin : forall x, In x opens -> event_command x <> command -> now - 3600000 < event_time x -> In x recent).
    { intros x Hx Hxc Hxt. pose proof (Hheld x Hx Hxt) as Hx'. apply filter_In. split; [apply filter_In; split; [done|]|].
      - destruct (event_ok_time _ _ (Hok x Hx')) as [_ Hc]. apply negb_true_iff, not_true_iff_false. rewrite Hc. intros ->%py_eq_str_l. congruence.
      - unfold recent_event. change (profile_int "rolling_entry_window_ms") with 3600000. by apply Z.ltb_lt. }
    pose proof (Hin e He Hne Ht) as Hr. pose proof (Hin e' He' Hne' Ht') as Hr'. destruct recent as [|x [|y recent]]; simpl in *; [done| |lia].
    destruct Hr as [<-|[]], Hr' as [<-|[]]. done.
  - intros t Ht H0. specialize (Hf t Ht). destruct (ad_flat _ _ _ _ _ _ _ _ _ _ _ Had) as (fl & Hfl & Hd). unfold flat_of in Hf. rewrite Hfl in Hf. lia.
Qed.

(** ** A concrete entry *)

Definition sample_forecast : dict :=
  [("action", VStr "BUY"); ("confidence", VFloat (S754_finite false 6755399441055744 (-53))); ("rationale", VStr "momentum");
   ("expected_move_bps", VInt 90); ("horizon_sec", VInt 1800); ("issued_at_ms", VInt 10000000); ("available_at_ms", VInt 10001000);
   ("reference_mid", VStr "60000.5"); ("input_sha256", VStr "00000000000000000000000000000000000000000000000000000000000000ff");
   ("model_id", VStr "gpt-6-luna"); ("forecast_schema", VStr "heptatrader.btc-return-forecast.v1")].

Definition sample_quote (bid ask : string) : dict :=
  [("source", VStr "IB"); ("authoritative", VBool true); ("instrument", VStr "BTC.USD"); ("stale", VBool false);
   ("observed_at_ms", VInt 10002000); ("stale_after_ms", VInt 10009000); ("bid", VStr bid); ("ask", VStr ask)].

Definition sample_control : dict :=
  [("schema", VStr "heptatrader.btc-entry-control.v1");
   ("open_reservations", VList [VDict [("command_id", VStr "open-1"); ("prepared_at_ms", VInt 8000000)]]); ("last_flat_at_ms", VInt 8100000)].

Definition sample_evaluate (bid ask : string) (c : dict) : res dict :=
  evaluate 28 (VDict sample_forecast) (VDict (sample_quote bid ask)) (VDict c) (VInt 10003000) (VStr "25000") VNone.
Definition sample_result : dict := ok_or [] (sample_evaluate "60000" "60001" sample_control).

Lemma sample_allowed :
  is_ok (sample_evaluate "60000" "60001" sample_control) = true /\ get sample_result "allowed" = VBool true /\
  get sample_result "expected_net_edge_usd" = VStr "129.1772186713554774087098542".
Proof. vm_compute. done. Qed.

Lemma sample_evaluated : sample_evaluate "60000" "60001" sample_control = Ok sample_result.
Proof. apply is_ok_value, sample_allowed. Qed.

Lemma btc_entry_sound_witness :
  exists f' q' c now' bid ask n a proceeds,
    VDict sample_forecast = VDict f' /\ VDict (sample_quote "60000" "60001") = VDict q' /\ VDict sample_control = VDict c /\
    VInt 10003000 = VInt now' /\ 0 < now' /\ admitted 28 f' q' c now' (VStr "25000") VNone bid ask n a /\
    economics 28 ask n a proceeds /\ (dval ask < dval (a_exit_bid a))%Q.
Proof.
  eapply (btc_entry_sound 28 (VDict sample_forecast) (VDict (sample_quote "60000" "60001")) (VDict sample_control) (VInt 10003000)
           (VStr "25000") VNone sample_result); [lia|exact sample_evaluated|apply sample_allowed].
Defined.

(** The record was reached by a reservation and a closing. *)
Definition sample_start : dict :=
  [("schema", VStr "heptatrader.btc-entry-control.v1"); ("open_reservations", VList []); ("last_flat_at_ms", VInt 0)].
Definition sample_reserved : dict := (reserve sample_start (VStr "open-1") 8000000).1.

Lemma sample_history :
  control_history sample_control
    (([] ++ reservations sample_reserved) ++ reservations sample_control) (([] ++ [0]) ++ [8100000]).
Proof.
  apply (history_step sample_reserved ([] ++ reservations sample_reserved) ([] ++ [0]) sample_control).
  - apply (history_step sample_start [] [] sample_reserved); [constructor|apply step_reserve].
  - exact (step_flat sample_reserved 8100000).
Qed.

Lemma btc_entries_apart_witness :
  let opens := ([] ++ reservations sample_reserved) ++ reservations sample_control in
  (forall e, In e opens -> event_command e <> VNone -> event_time e <= 10003000 - 1800000) /\
  (forall e e', In e opens -> In e' opens -> event_command e <> VNone -> event_command e' <> VNone ->
     10003000 - 3600000 < event_time e -> 10003000 - 3600000 < event_time e' -> e = e') /\
  (forall t, In t (([] ++ [0]) ++ [8100000]) -> 0 < t -> t <= 10003000 - 1800000).
Proof.
  eapply (btc_entries_apart 28 (VDict sample_forecast) (VDict (sample_quote "60000" "60001")) sample_control 10003000
           (VStr "25000") VNone sample_result); [exact sample_history|exact sample_evaluated|apply sample_allowed].
Defined.

End BtcEntryFacts.
