(* ===== verification/QuoteGate.v ===== *)
(** * The quote gate

    Model of [FrameGate] of [scripts/hepta_native_quote_gate.py] and of the forwarding
    loop of [Relay.serve]: a deny-by-default relay for the frames a quote client sends to
    the broker.  Bytes arrive in chunks; complete frames are checked before any of their
    bytes is forwarded.  A chunk that holds a denied frame is not forwarded at all and
    ends the session, so the state of the gate after a refusal is never used. *)

From Stdlib Require Import Ascii.
From S2P Require Import Prelude PyText PyValue PyOrder PyBytes.
From stdpp Require Import base tactics list strings gmap.
From Stdlib Require Import ZArith Lia Bool.

Open Scope Z_scope.

Module QuoteGate.

Definition denied (reason : string) : exn := Exn Denied reason.

(** [FrameGate]: the subscribed requests with their symbols, the request numbers ever
    used and the number of forwarded messages of each kind. *)
Record Gate := mkGate {
  client_id : Z;
  buffer : string;
  api_header : bool;
  version : bool;
  started : bool;
  active : gmap Z string;
  used : gset Z;
  counts : gmap string Z;
  wire_bytes : Z }.

Definition FrameGate (id : Z) : res Gate :=
  when negb ((29000 <=? id) && (id <=? 29999)) raise denied "ISOLATED_CLIENT_ID_REQUIRED" in
  Ok (mkGate id EmptyString false false false ∅ ∅ ∅ 0).

Definition with_buffer (g : Gate) (b : string) : Gate :=
  mkGate (client_id g) b (api_header g) (version g) (started g) (active g) (used g) (counts g) (wire_bytes g).
Definition with_header (g : Gate) (b : string) : Gate :=
  mkGate (client_id g) b true (version g) (started g) (active g) (used g) (counts g) (wire_bytes g).
Definition with_version (g : Gate) : Gate :=
  mkGate (client_id g) (buffer g) (api_header g) true (started g) (active g) (used g) (counts g) (wire_bytes g).
Definition with_started (g : Gate) : Gate :=
  mkGate (client_id g) (buffer g) (api_header g) (version g) true (active g) (used g) (counts g) (wire_bytes g).
Definition with_requests (g : Gate) (a : gmap Z string) (u : gset Z) : Gate :=
  mkGate (client_id g) (buffer g) (api_header g) (version g) (started g) a u (counts g) (wire_bytes g).
Definition with_wire_bytes (g : Gate) (n : Z) : Gate :=
  mkGate (client_id g) (buffer g) (api_header g) (version g) (started g) (active g) (used g) (counts g) n.

(** [self.counts[op]] of a [Counter]. *)
Definition count_of (g : Gate) (op : string) : Z := default 0 (counts g !! op).
Definition count (g : Gate) (op : string) : Gate :=
  mkGate (client_id g) (buffer g) (api_header g) (version g) (started g) (active g) (used g)
    (<[op := count_of g op + 1]> (counts g)) (wire_bytes g).

(** ** [check] *)

Definition nul : ascii := chr 0.

(** [payload[:-1].decode('ascii').split('\0')] of a terminated payload. *)
Fixpoint unterminated (s : string) : option string :=
  match s with
  | EmptyString => None
  | String c EmptyString => if bool_decide (c = nul) then Some EmptyString else None
  | String c r => option_map (String c) (unterminated r)
  end.

Definition fields_of (payload : string) : res (list string) :=
  match unterminated payload with
  | None => Raise (denied "TERMINATED_FIELD_REQUIRED")
  | Some text => if sforall is_ascii text then Ok (split_on nul text) else Raise (denied "ASCII_FIELDS_REQUIRED")
  end.

Definition strs_eqb (a b : list string) : bool := bool_decide (a = b).
Definition field (f : list string) (i : nat) : string := nth i f EmptyString.
Definition slice (f : list string) (i j : nat) : list string := take (j - i) (drop i f).

(** [int(text)], zero when it is not a number. *)
Definition request_number (text : string) : Z := match py_int text with Ok n => n | Raise _ => 0 end.

Definition active_count (g : Gate) (symbol : string) : nat := size (filter (fun kv => kv.2 = symbol) (active g)).

(** The scope of a market-data request: the two instruments, on their venues. *)
Definition subscription_allowed (g : Gate) (f : list string) : bool :=
  let req := request_number (field f 2) in
  let symbol := field f 4 in
  strs_eqb (slice f 0 2) ["1"; "11"] && (5100001 <=? req) && (req <? 5200000) && negb (bool_decide (req ∈ used g)) &&
  bool_decide (field f 3 = "0") && (strs_eqb (slice f 4 6) ["EUR"; "CASH"] || strs_eqb (slice f 4 6) ["BTC"; "CRYPTO"]) &&
  bool_decide (field f 6 = EmptyString) && (bool_decide (field f 7 = "0") || bool_decide (field f 7 = "0.0")) &&
  strs_eqb (slice f 8 10) [EmptyString; EmptyString] &&
  bool_decide (field f 10 = (if bool_decide (symbol = "EUR") then "IDEALPRO" else "PAXOS")) &&
  strs_eqb (slice f 11 15) [EmptyString; "USD"; EmptyString; EmptyString] &&
  strs_eqb (slice f 15 19) ["0"; EmptyString; "0"; "0"] &&
  (count_of g "1" <? 300) && (size (active g) <? 3)%nat &&
  (active_count g symbol <? (if bool_decide (symbol = "EUR") then 2 else 1))%nat.

Definition scope_denied (op : string) : exn := denied ("OPCODE_OR_SCOPE_DENIED:" +:+ stake 8 op).

Definition check (g : Gate) (payload : string) : res Gate :=
  let! f := fields_of payload in
  let op := field f 0 in
  if bool_decide (op = "71") then
    if negb (started g) && (strs_eqb f ["71"; "2"; str_int (client_id g)] || strs_eqb f ["71"; "2"; str_int (client_id g); EmptyString])
    then Ok (count (with_started g) op) else Raise (scope_denied op)
  else if negb (started g) then Raise (denied "START_API_REQUIRED")
  else if bool_decide (op = "8") then
    if strs_eqb f ["8"; "1"; "1"] && (count_of g "8" <? 4) then Ok (count g op) else Raise (scope_denied op)
  else if bool_decide (op = "59") then
    if strs_eqb f ["59"; "1"; "1"] then Ok (count g op) else Raise (scope_denied op)
  else if bool_decide (op = "1") then
    let n := length f in
    if ((n =? 19)%nat || ((n =? 20)%nat && bool_decide (field f 19 = EmptyString))) && subscription_allowed g f
    then let req := request_number (field f 2) in
         Ok (count (with_requests g (<[req := field f 4]> (active g)) ({[req]} ∪ used g)) op)
    else Raise (scope_denied op)
  else if bool_decide (op = "2") then
    let req := if (length f =? 3)%nat then request_number (field f 2) else 0 in
    if strs_eqb (slice f 0 2) ["2"; "2"] && (length f =? 3)%nat && bool_decide (is_Some (active g !! req))
    then Ok (count (with_requests g (delete req (active g)) (used g)) op)
    else Raise (scope_denied op)
  else Raise (scope_denied op).

(** ** [feed] *)

(** [re.fullmatch(rb'v[0-9]{2,3}\.\.[0-9]{2,3}', s)] *)
Definition two_or_three (s : string) : bool := (slen s =? 2) || (slen s =? 3).
Definition version_match (s : string) : bool :=
  match s with
  | String "v" r =>
      let d := span is_digit r in
      two_or_three d.1 &&
      match remove_prefix ".." d.2 with
      | Some r' => let e := span is_digit r' in two_or_three e.1 && bool_decide (e.2 = EmptyString)
      | None => false
      end
  | _ => false
  end.

Definition API : string := "API" +:+ String nul EmptyString.

(** [struct.unpack('!I', ...)] of the first four bytes. *)
Definition frame_size (s : string) : option Z :=
  match s with
  | String a (String b (String c (String d _))) => Some (16777216 * ord a + 65536 * ord b + 256 * ord c + ord d)
  | _ => None
  end.

(** One complete frame. *)
Definition frame_step (g : Gate) (frame : string) : res (Gate * string) :=
  if negb (version g) then
    when negb (version_match (sdrop 4 frame)) raise denied "PLAIN_SDK_VERSION_HANDSHAKE_ONLY" in
    Ok (with_version g, API +:+ frame)
  else
    let! g' := check g (sdrop 4 frame) in
    let n := wire_bytes g' + slen frame in
    when 1048576 <? n raise denied "OUTBOUND_BYTE_BUDGET" in
    Ok (with_wire_bytes g' n, frame).

(** The loop; every round takes at least five bytes from the buffer. *)
Fixpoint frame_loop (fuel : nat) (g : Gate) : res (Gate * list string) :=
  match fuel with
  | O => Ok (g, [])
  | S fuel =>
      match frame_size (buffer g) with
      | None => Ok (g, [])
      | Some n =>
          when (n <? 1) || (4096 <? n) raise denied "FRAME_SIZE_BOUND" in
          if slen (buffer g) <? n + 4 then Ok (g, [])
          else
            let k := Z.to_nat (n + 4) in
            let! (g', out) := frame_step (with_buffer g (sdrop k (buffer g))) (stake k (buffer g)) in
            let! (g'', outs) := frame_loop fuel g' in Ok (g'', out :: outs)
      end
  end.

(** [feed] after the buffer was extended and its bound checked. *)
Definition drain (g : Gate) : res (Gate * list string) :=
  if negb (api_header g) then
    if slen (buffer g) <? 4 then Ok (g, [])
    else
      when negb (bool_decide (stake 4 (buffer g) = API)) raise denied "API_HEADER_REQUIRED" in
      frame_loop (String.length (buffer g)) (with_header g (sdrop 4 (buffer g)))
  else frame_loop (String.length (buffer g)) g.

Definition feed (g : Gate) (data : string) : res (Gate * list string) :=
  let g := with_buffer g (buffer g +:+ data) in
  when 65536 <? slen (buffer g) raise denied "FRAME_BUFFER_BOUND" in
  drain g.

(** ** [Relay.serve]: the frames sent upstream during one session, and whether a denied
    frame ended it. *)
Fixpoint forward (g : Gate) (chunks : list string) : list string * option exn :=
  match chunks with
  | [] => ([], None)
  | data :: chunks =>
      match feed g data with
      | Raise e => ([], Some e)
      | Ok (g', frames) => let rest := forward g' chunks in (frames ++ rest.1, rest.2)
      end
  end.

Definition relay_session (id : Z) (chunks : list string) : list string * option exn :=
  match FrameGate id with Ok g => forward g chunks | Raise e => ([], Some e) end.

End QuoteGate.
