(* ===== verification/QuoteGateFacts.v ===== *)
(** * What passes the quote gate

    The gate forwards the client's bytes unchanged and in whole frames, however they are
    cut into chunks, and every forwarded frame is a message of a small vocabulary: the
    version handshake, the start of the API for the isolated client, two requests without
    parameters, and subscriptions of the two instruments with their cancellations.
    [session] is the abstract protocol; the gate's state is its scope. *)

From Stdlib Require Import Ascii.
From S2P Require Import Prelude PyText PyValue PyOrder PyBytes QuoteGate.
From stdpp Require Import base tactics list strings gmap.
From Stdlib Require Import ZArith Lia Bool.
Import QuoteGate.

Open Scope Z_scope.

Module QuoteGateFacts.

(** ** Buffers *)

Definition extend (g : Gate) (data : string) : Gate := with_buffer g (buffer g +:+ data).

Lemma stake_app_le k a b : (k <= String.length a)%nat -> stake k (a +:+ b) = stake k a /\ sdrop k (a +:+ b) = sdrop k a +:+ b.
Proof.
  revert k. induction a as [|c a IH]; intros [|k] Hk; simpl in Hk; try lia; try by split.
  rewrite append_cons. cbn [stake sdrop]. destruct (IH k) as [-> ->]; [lia|]. done.
Qed.

Lemma length_app_string a b : String.length (a +:+ b) = (String.length a + String.length b)%nat.
Proof. pose proof (slen_app a b) as H. rewrite !slen_length in H. lia. Qed.

Lemma length_sdrop_string k s : String.length (sdrop k s) = (String.length s - k)%nat.
Proof. revert k; induction s as [|c s IH]; intros [|k]; simpl; auto. Qed.

Lemma frame_size_app s b n : frame_size s = Some n -> frame_size (s +:+ b) = Some n.
Proof. destruct s as [|a0 [|a1 [|a2 [|a3 s]]]]; done. Qed.

Lemma frame_size_short s : frame_size s = None -> (String.length s < 4)%nat.
Proof. destruct s as [|a0 [|a1 [|a2 [|a3 s]]]]; simpl; try lia; done. Qed.

Lemma frame_size_pos s n : frame_size s = Some n -> 0 <= n.
Proof. destruct s as [|a0 [|a1 [|a2 [|a3 s]]]]; try done. intros [= <-]. pose proof (ord_range a0). pose proof (ord_range a1).
  pose proof (ord_range a2). pose proof (ord_range a3). lia. Qed.

(** The decision about a frame does not depend on what is buffered behind it. *)
Lemma check_buffer g x payload : check (with_buffer g x) payload = rmap (fun g' => with_buffer g' x) (check g payload).
Proof.
  unfold check. destruct (fields_of payload) as [f|e]; [|done]. cbn [rbind].
  change (subscription_allowed (with_buffer g x)) with (subscription_allowed g). change (count_of (with_buffer g x)) with (count_of g).
  cbn [with_buffer client_id started active used].
  repeat match goal with |- context [if ?c then _ else _] => destruct c; try reflexivity end.
Qed.

Lemma frame_step_buffer g x frame :
  frame_step (with_buffer g x) frame = rmap (fun r => (with_buffer r.1 x, r.2)) (frame_step g frame).
Proof.
  unfold frame_step. cbn [version with_buffer]. destruct (negb (version g)).
  - by destruct (negb (version_match (sdrop 4 frame))).
  - rewrite check_buffer. destruct (check g (sdrop 4 frame)) as [g'|e]; [|done]. cbn [rmap rbind].
    change (wire_bytes (with_buffer g' x)) with (wire_bytes g'). by destruct (1048576 <? wire_bytes g' + slen frame).
Qed.

Lemma with_buffer_id g : with_buffer g (buffer g) = g.
Proof. by destruct g. Qed.

Lemma frame_step_keeps g frame g' out : frame_step g frame = Ok (g', out) -> buffer g' = buffer g.
Proof.
  intros H. pose proof (frame_step_buffer g (buffer g) frame) as Hb. rewrite with_buffer_id, H in Hb. cbn [rmap rbind] in Hb.
  apply Ok_inj in Hb. injection Hb as Hg. rewrite Hg. done.
Qed.

(** ** The loop on more bytes *)

(** The frame at the head of a buffer that holds at least one. *)
Definition head_frame (g : Gate) : option nat :=
  match frame_size (buffer g) with Some n => if slen (buffer g) <? n + 4 then None else Some (Z.to_nat (n + 4)) | None => None end.

Lemma frame_loop_unfold fuel g :
  frame_loop (S fuel) g =
  match frame_size (buffer g) with
  | Some n =>
      when (n <? 1) || (4096 <? n) raise denied "FRAME_SIZE_BOUND" in
      match head_frame g with
      | None => Ok (g, [])
      | Some k =>
          let! (g', out) := frame_step (with_buffer g (sdrop k (buffer g))) (stake k (buffer g)) in
          let! (g'', outs) := frame_loop fuel g' in Ok (g'', out :: outs)
      end
  | None => Ok (g, [])
  end.
Proof.
  unfold head_frame. cbn [frame_loop]. destruct (frame_size (buffer g)) as [n|] eqn:E; [|done].
  destruct ((n <? 1) || (4096 <? n)); [done|]. by destruct (slen (buffer g) <? n + 4).
Qed.

Lemma head_frame_bounds g k : head_frame g = Some k -> (4 <= k <= String.length (buffer g))%nat.
Proof.
  unfold head_frame. destruct (frame_size (buffer g)) as [n|] eqn:E; [|done]. pose proof (frame_size_pos _ _ E).
  destruct (Z.ltb_spec (slen (buffer g)) (n + 4)); [done|]. rewrite slen_length in *. intros [= <-]. lia.
Qed.

Lemma frame_loop_fuel fuel fuel' g :
  (String.length (buffer g) <= fuel)%nat -> (String.length (buffer g) <= fuel')%nat -> frame_loop fuel g = frame_loop fuel' g.
Proof.
  revert fuel' g. induction fuel as [|fuel IH]; intros [|fuel'] g H1 H2; [done| | |].
  1-2: rewrite frame_loop_unfold; destruct (buffer g); [done|simpl in *; lia].
  rewrite !frame_loop_unfold. destruct (frame_size (buffer g)) as [n|]; [|done]. destruct ((n <? 1) || (4096 <? n)); [done|].
  destruct (head_frame g) as [k|] eqn:Ek; [|done]. pose proof (head_frame_bounds _ _ Ek).
  destruct (frame_step _ _) as [[g' out]|e] eqn:Es; [|done]. cbn [rbind]. pose proof (frame_step_keeps _ _ _ _ Es) as Hb. cbn [buffer with_buffer] in Hb.
  rewrite (IH fuel' g'); [done| |]; rewrite Hb, length_sdrop_string; lia.
Qed.

Lemma frame_loop_extend fuel g g1 o1 b :
  (String.length (buffer g) <= fuel)%nat -> frame_loop fuel g = Ok (g1, o1) ->
  frame_loop (String.length (buffer (extend g b))) (extend g b) =
  rmap (fun r => (r.1, o1 ++ r.2)) (frame_loop (String.length (buffer (extend g1 b))) (extend g1 b)).
Proof.
  assert (Hid : forall r : res (Gate * list string), r = rmap (fun r => (r.1, [] ++ r.2)) r) by (by intros [[? ?]|?]).
  revert g o1. induction fuel as [|fuel IH]; intros g o1 Hf H.
  { injection H as <- <-. apply Hid. }
  rewrite frame_loop_unfold in H. destruct (frame_size (buffer g)) as [n|] eqn:En; [|injection H as <- <-; apply Hid].
  apply when_ok in H as [Hn H]. destruct (head_frame g) as [k|] eqn:Ek; [|injection H as <- <-; apply Hid].
  apply rbind_ok in H as ([g' out] & Hs & H). apply rbind_ok in H as ([g'' outs] & Hl & H). injection H as <- <-.
  pose proof (head_frame_bounds _ _ Ek) as Hk. pose proof (frame_step_keeps _ _ _ _ Hs) as Hb. cbn [buffer with_buffer] in Hb.
  assert (Hk' : head_frame (extend g b) = Some k).
  { unfold head_frame in Ek |- *. cbn [extend with_buffer buffer]. rewrite (frame_size_app _ _ _ En), En in *.
    destruct (Z.ltb_spec (slen (buffer g)) (n + 4)); [done|]. rewrite slen_app. pose proof (slen_nonneg b).
    by rewrite (proj2 (Z.ltb_ge _ _)) by lia. }
  destruct (stake_app_le k (buffer g) b) as [Hst Hsd]; [lia|].
  destruct (String.length (buffer (extend g b))) as [|f] eqn:Elen.
  { cbn [extend with_buffer buffer] in Elen. rewrite length_app_string in Elen. lia. }
  rewrite frame_loop_unfold, Hk'. change (buffer (extend g b)) with (buffer g +:+ b) in *. rewrite (frame_size_app _ _ _ En), Hn, Hst, Hsd.
  change (with_buffer (extend g b)) with (with_buffer g).
  rewrite frame_step_buffer in Hs |- *. destruct (frame_step g (stake k (buffer g))) as [[g0 out0]|]; [|done]. cbn [rmap rbind fst snd] in Hs |- *.
  apply Ok_inj in Hs. injection Hs as Hg0 Hout. subst out0.
  assert (Hext : with_buffer g0 (sdrop k (buffer g) +:+ b) = extend g' b).
  { rewrite <- Hg0. unfold extend. cbn [with_buffer buffer]. done. }
  rewrite Hext. rewrite (frame_loop_fuel f (String.length (buffer (extend g' b)))).
  2: { cbn [extend with_buffer buffer]. rewrite length_app_string, Hb, length_sdrop_string. rewrite length_app_string in Elen. lia. }
  2: done.
  rewrite (IH g' outs); [|rewrite Hb, length_sdrop_string; lia|done].
  by destruct (frame_loop _ (extend g'' b)) as [[? ?]|].
Qed.

(** ** Feeding *)

Lemma check_frame g payload g' :
  check g payload = Ok g' ->
  buffer g' = buffer g /\ client_id g' = client_id g /\ api_header g' = api_header g /\ version g' = version g /\ wire_bytes g' = wire_bytes g.
Proof.
  unfold check. intros H. apply rbind_ok in H as (f & _ & H).
  repeat match type of H with (if ?c then _ else _) = _ => destruct c; try done end; apply Ok_inj in H as <-; done.
Qed.

Lemma frame_step_frame g frame g' out :
  frame_step g frame = Ok (g', out) ->
  client_id g' = client_id g /\ api_header g' = api_header g /\ version g' = true /\
  out = (if version g then frame else API +:+ frame).
Proof.
  unfold frame_step. destruct (version g) eqn:Ev; cbn [negb]; intros H.
  - apply rbind_ok in H as (g1 & Hc & H). apply when_ok in H as [_ H]. apply Ok_inj in H. injection H as <- <-.
    destruct (check_frame _ _ _ Hc) as (_ & Hi & Ha & Hv & _). cbn [with_wire_bytes client_id api_header version]. repeat split; congruence.
  - apply when_ok in H as [_ H]. apply Ok_inj in H. injection H as <- <-. done.
Qed.

(** What the gate holds back: the header, until the version is known, and the bytes of an
    incomplete frame. *)
Definition held (g : Gate) : string := (if api_header g && negb (version g) then API else EmptyString) +:+ buffer g.

Definition waiting (g : Gate) : Prop :=
  match frame_size (buffer g) with Some n => 1 <= n <= 4096 /\ slen (buffer g) < n + 4 | None => True end.

Lemma frame_loop_bytes fuel g g' outs :
  (String.length (buffer g) <= fuel)%nat -> api_header g = true -> frame_loop fuel g = Ok (g', outs) ->
  held g = concat_text outs +:+ held g' /\ api_header g' = true /\ waiting g'.
Proof.
  revert g outs. induction fuel as [|fuel IH]; intros g outs Hf Hh H.
  { injection H as <- <-. split; [done|]. split; [done|]. unfold waiting. by destruct (buffer g); [|simpl in Hf; lia]. }
  rewrite frame_loop_unfold in H. destruct (frame_size (buffer g)) as [n|] eqn:En.
  2: { injection H as <- <-. split; [done|]. split; [done|]. unfold waiting. by rewrite En. }
  apply when_ok in H as [Hn H]. apply orb_false_iff in Hn as [Hn1%Z.ltb_ge Hn2%Z.ltb_ge]. destruct (head_frame g) as [k|] eqn:Ek.
  2: { injection H as <- <-. split; [done|]. split; [done|]. unfold waiting. rewrite En. unfold head_frame in Ek. rewrite En in Ek.
       by destruct (Z.ltb_spec (slen (buffer g)) (n + 4)). }
  apply rbind_ok in H as ([g1 out] & Hs & H). apply rbind_ok in H as ([g2 outs'] & Hl & H). injection H as <- <-.
  pose proof (frame_step_keeps _ _ _ _ Hs) as Hb. cbn [buffer with_buffer] in Hb. pose proof (head_frame_bounds _ _ Ek).
  destruct (frame_step_frame _ _ _ _ Hs) as (_ & Hh1 & Hv1 & Hout). cbn [api_header version with_buffer] in Hh1, Hout.
  destruct (IH g1 outs') as (IHb & IHh & IHw); [rewrite Hb, length_sdrop_string; lia|by rewrite Hh1|done|].
  split; [|by split]. unfold held in IHb |- *. rewrite Hh in Hh1 |- *. rewrite Hh1, Hv1, Hb in IHb. cbn [andb negb] in IHb |- *.
  cbn [concat_text foldr]. fold (concat_text outs'). rewrite append_assoc, <- IHb, append_nil_l, Hout.
  destruct (version g); cbn [negb]; rewrite ?append_nil_l, ?append_assoc, stake_sdrop; done.
Qed.

Lemma waiting_idle fuel g : waiting g -> frame_loop fuel g = Ok (g, []).
Proof.
  unfold waiting. destruct fuel; [done|]. rewrite frame_loop_unfold. unfold head_frame. destruct (frame_size (buffer g)) as [n|]; [|done].
  intros [Hn Hs]. rewrite (proj2 (Z.ltb_ge _ _)), (proj2 (Z.ltb_ge _ _)), (proj2 (Z.ltb_lt _ _)) by lia. done.
Qed.

(** A gate between two chunks. *)
Definition settled (g : Gate) : Prop :=
  (version g = true -> api_header g = true) /\ if api_header g then waiting g else slen (buffer g) < 4.

Lemma drain_idle g : settled g -> drain g = Ok (g, []).
Proof.
  intros [_ Hg]. unfold drain. destruct (api_header g); cbn [negb]; [by apply waiting_idle|]. by rewrite (proj2 (Z.ltb_lt _ _)).
Qed.

Lemma drain_bytes g g' outs :
  (version g = true -> api_header g = true) -> drain g = Ok (g', outs) -> held g = concat_text outs +:+ held g' /\ settled g'.
Proof.
  intros Hv H. unfold drain in H. destruct (api_header g) eqn:Hh; cbn [negb] in H.
  - destruct (frame_loop_bytes _ _ _ _ (le_n _) Hh H) as (Hb & Hh' & Hw). split; [done|]. split; [done|]. by rewrite Hh'.
  - destruct (Z.ltb_spec (slen (buffer g)) 4) as [Hlt|Hge]; [injection H as <- <-; split; [done|]; unfold settled; by rewrite Hh|].
    apply when_ok in H as [Hapi%negb_false_iff%bool_decide_eq_true H].
    assert (Hf : (String.length (buffer (with_header g (sdrop 4 (buffer g)))) <= String.length (buffer g))%nat).
    { cbn [buffer with_header]. rewrite length_sdrop_string. lia. }
    destruct (frame_loop_bytes _ _ _ _ Hf eq_refl H) as (Hb & Hh' & Hw). split; [|split; [done|by rewrite Hh']].
    rewrite <- Hb. unfold held. cbn [api_header version buffer with_header]. rewrite Hh. destruct (version g); [by specialize (Hv eq_refl)|].
    cbn [andb negb]. rewrite append_nil_l, <- Hapi. by rewrite stake_sdrop.
Qed.

Lemma drain_extend g g1 o1 b :
  (version g = true -> api_header g = true) -> drain g = Ok (g1, o1) -> drain (extend g b) = rmap (fun r => (r.1, o1 ++ r.2)) (drain (extend g1 b)).
Proof.
  intros Hv H. pose proof (drain_bytes _ _ _ Hv H) as [_ Hset]. assert (Hid : forall r : res (Gate * list string), r = rmap (fun r => (r.1, [] ++ r.2)) r) by (by intros [[? ?]|?]).
  unfold drain in H. destruct (api_header g) eqn:Hh; cbn [negb] in H.
  - destruct (frame_loop_bytes _ _ _ _ (le_n _) Hh H) as (_ & Hh' & _). unfold drain. cbn [extend with_buffer api_header]. rewrite Hh, Hh'. cbn [negb].
    by apply (frame_loop_extend (String.length (buffer g))).
  - destruct (Z.ltb_spec (slen (buffer g)) 4) as [Hlt|Hge]; [injection H as <- <-; apply Hid|]. apply when_ok in H as [Hapi H].
    set (h := with_header g (sdrop 4 (buffer g))) in *. assert (Hf : (String.length (buffer h) <= String.length (buffer g))%nat).
    { cbn [h buffer with_header]. rewrite length_sdrop_string. lia. }
    destruct (frame_loop_bytes _ _ _ _ Hf eq_refl H) as (_ & Hh' & _).
    destruct (stake_app_le 4 (buffer g) b) as [Hst Hsd]; [rewrite slen_length in Hge; lia|].
    unfold drain. change (buffer (extend g b)) with (buffer g +:+ b). change (api_header (extend g b)) with (api_header g).
    change (api_header (extend g1 b)) with (api_header g1). rewrite Hh, Hh'. cbn [negb].
    rewrite slen_app, (proj2 (Z.ltb_ge _ _)) by (pose proof (slen_nonneg b); lia). rewrite Hst, Hsd, Hapi.
    change (with_header (extend g b) (sdrop 4 (buffer g) +:+ b)) with (extend h b). rewrite <- (frame_loop_extend _ _ _ _ b Hf H).
    apply frame_loop_fuel; [|done]. change (buffer (extend h b)) with (sdrop 4 (buffer g) +:+ b). rewrite !length_app_string, length_sdrop_string. lia.
Qed.

(** A session is the treatment of all its bytes at once, as far as it gets. *)
Lemma forward_drain g chunks outs :
  settled g -> forward g chunks = (outs, None) -> exists g', drain (extend g (concat_text chunks)) = Ok (g', outs).
Proof.
  revert g outs. induction chunks as [|data chunks IH]; intros g outs Hg H; cbn [forward concat_text foldr] in *.
  { injection H as <-. exists g. unfold extend. rewrite append_nil_r, with_buffer_id. by apply drain_idle. }
  unfold feed in H. change (with_buffer g (buffer g +:+ data)) with (extend g data) in H.
  destruct (65536 <? slen (buffer (extend g data))); [done|].
  destruct (drain (extend g data)) as [[g1 o1]|e] eqn:Hd; [|done]. injection H as <- Hr.
  assert (Hv : version (extend g data) = true -> api_header (extend g data) = true) by apply Hg.
  pose proof (drain_bytes _ _ _ Hv Hd) as [_ Hs1].
  destruct (forward g1 chunks) as [outs' e'] eqn:Hf. simpl in Hr. subst e'. destruct (IH g1 outs' Hs1 Hf) as [g' Hg'].
  exists g'. fold (concat_text chunks).
  assert (extend g (data +:+ concat_text chunks) = extend (extend g data) (concat_text chunks)) as ->.
  { unfold extend. cbn [with_buffer buffer]. by rewrite append_assoc. }
  rewrite (drain_extend _ _ _ _ Hv Hd), Hg'. done.
Qed.

(** ** The abstract protocol *)

Inductive message :=
| StartApi | RequestIds | MarketDataType
| Subscribe (req : Z) (symbol : string)
| Cancel (req : Z).

(** The instruments: symbol, security type, venue and number of parallel subscriptions. *)
Definition instruments : list (string * string * string * nat) :=
  [("EUR", "CASH", "IDEALPRO", 2%nat); ("BTC", "CRYPTO", "PAXOS", 1%nat)].

(** The fields of a message, exactly. *)
Inductive denotes (id : Z) : list string -> message -> Prop :=
| d_start t : t = [] \/ t = [EmptyString] -> denotes id (["71"; "2"; str_int id] ++ t) StartApi
| d_ids : denotes id ["8"; "1"; "1"] RequestIds
| d_type : denotes id ["59"; "1"; "1"] MarketDataType
| d_subscribe number symbol sec venue n price t :
    In (symbol, sec, venue, n) instruments -> price = "0" \/ price = "0.0" -> t = [] \/ t = [EmptyString] ->
    denotes id (["1"; "11"; number; "0"; symbol; sec; EmptyString; price; EmptyString; EmptyString; venue; EmptyString; "USD"; EmptyString;
                 EmptyString; "0"; EmptyString; "0"; "0"] ++ t) (Subscribe (request_number number) symbol)
| d_cancel number : denotes id ["2"; "2"; number] (Cancel (request_number number)).

Record Scope := mkScope { sc_started : bool; sc_active : gmap Z string; sc_used : gset Z }.

Definition of_symbol (symbol : string) (a : gmap Z string) : gmap Z string := filter (fun kv => kv.2 = symbol) a.

Inductive permitted : Scope -> message -> Scope -> Prop :=
| p_start a u : permitted (mkScope false a u) StartApi (mkScope true a u)
| p_ids a u : permitted (mkScope true a u) RequestIds (mkScope true a u)
| p_type a u : permitted (mkScope true a u) MarketDataType (mkScope true a u)
| p_subscribe a u req symbol sec venue n :
    In (symbol, sec, venue, n) instruments -> 5100001 <= req < 5200000 -> req ∉ u -> (size a < 3)%nat -> (size (of_symbol symbol a) < n)%nat ->
    permitted (mkScope true a u) (Subscribe req symbol) (mkScope true (<[req := symbol]> a) ({[req]} ∪ u))
| p_cancel a u req symbol : a !! req = Some symbol -> permitted (mkScope true a u) (Cancel req) (mkScope true (delete req a) u).

Inductive session : list message -> Scope -> Prop :=
| s_start : session [] (mkScope false ∅ ∅)
| s_next ms s m s' : session ms s -> permitted s m s' -> session (ms ++ [m]) s'.

Definition scope_of (g : Gate) : Scope := mkScope (started g) (active g) (used g).

(** What a checked frame denotes. *)
Lemma subscription_fields g f :
  length f = 19%nat \/ (length f = 20%nat /\ field f 19 = EmptyString) -> subscription_allowed g f = true ->
  started g = true ->
  denotes (client_id g) f (Subscribe (request_number (field f 2)) (field f 4)) /\
  permitted (scope_of g) (Subscribe (request_number (field f 2)) (field f 4))
    (mkScope true (<[request_number (field f 2) := field f 4]> (active g)) ({[request_number (field f 2)]} ∪ used g)).
Proof.
  intros Hlen Ha Hst. unfold subscription_allowed, strs_eqb in Ha. repeat (apply andb_prop in Ha as [Ha ?]).
  repeat match goal with
  | H : bool_decide _ = true |- _ => apply bool_decide_eq_true in H
  | H : negb (bool_decide _) = true |- _ => apply negb_true_iff, bool_decide_eq_false in H
  | H : (_ <=? _) = true |- _ => apply Z.leb_le in H
  | H : (_ <? _) = true |- _ => apply Z.ltb_lt in H
  | H : (_ <? _)%nat = true |- _ => apply Nat.ltb_lt in H
  | H : _ || _ = true |- _ => apply orb_prop in H
  end.
  assert (Hf : exists number symbol sec price venue t, f = ["1"; "11"; number; "0"; symbol; sec; EmptyString; price; EmptyString; EmptyString; venue;
     EmptyString; "USD"; EmptyString; EmptyString; "0"; EmptyString; "0"; "0"] ++ t /\ (t = [] \/ t = [EmptyString])).
  { do 19 (destruct f as [|? f]; [simpl in Hlen; lia|]). cbn [slice take drop Nat.sub field nth] in *. simplify_eq.
    eexists _, _, _, _, _, f. split; [done|]. destruct f as [|x [|y f]]; simpl in *; [by left|right|lia].
    destruct Hlen as [?|[_ ->]]; [lia|done]. }
  destruct Hf as (number & symbol & sec & price & venue & t & -> & Ht). cbn [field nth slice take drop Nat.sub app] in *.
  match goal with H : bool_decide ([symbol; sec] = _) = true \/ _ |- _ => rename H into Hsym end.
  match goal with H : bool_decide (price = "0") = true \/ _ |- _ => rename H into Hprice end.
  match goal with H : venue = _ |- _ => rename H into Hvenue end.
  assert (Hin : exists n, In (symbol, sec, venue, n) instruments /\ n = (if bool_decide (symbol = "EUR") then 2 else 1)%nat).
  { destruct Hsym as [E|E]; apply bool_decide_eq_true in E; injection E as -> ->; cbn in Hvenue; subst venue; eexists; simpl; split; auto. }
  destruct Hin as (n & Hin & ->). split.
  - eapply (d_subscribe _ number symbol sec venue _ price t); [exact Hin| |done]. destruct Hprice as [E|E]; apply bool_decide_eq_true in E; auto.
  - unfold scope_of. rewrite Hst. by econstructor.
Qed.

Definition is_request_ids (m : message) : bool := match m with RequestIds => true | _ => false end.
Definition is_subscribe (m : message) : bool := match m with Subscribe _ _ => true | _ => false end.
Definition tally (p : message -> bool) (ms : list message) : Z := Z.of_nat (length (List.filter p ms)).

Lemma tally_snoc p ms m : tally p (ms ++ [m]) = tally p ms + (if p m then 1 else 0).
Proof. unfold tally. rewrite List.filter_app, length_app. simpl. destruct (p m); simpl; lia. Qed.

Lemma count_of_count g op op' : count_of (count g op) op' = if bool_decide (op = op') then count_of g op + 1 else count_of g op'.
Proof.
  unfold count_of at 1, count. cbn [counts]. case_bool_decide; [subst; by rewrite lookup_insert_eq|by rewrite lookup_insert_ne].
Qed.

(** The counters after a message of one kind. *)
Ltac solve_counts :=
  rewrite !count_of_count; cbn [field nth]; repeat (rewrite bool_decide_eq_true_2 by done || rewrite bool_decide_eq_false_2 by done);
  cbn [is_request_ids is_subscribe]; rewrite ?Z.add_0_r; repeat split; try done.

Lemma check_denotes g payload g' :
  check g payload = Ok g' -> exists f m, fields_of payload = Ok f /\ denotes (client_id g) f m /\ permitted (scope_of g) m (scope_of g') /\
    count_of g' "8" = count_of g "8" + (if is_request_ids m then 1 else 0) /\ (is_request_ids m = true -> count_of g "8" < 4) /\
    count_of g' "1" = count_of g "1" + (if is_subscribe m then 1 else 0) /\ (is_subscribe m = true -> count_of g "1" < 300).
Proof.
  unfold check. intros H. apply rbind_ok in H as (f & Hf & H). exists f.
  destruct (bool_decide_reflect (field f 0 = "71")) as [E0|E0].
  { destruct (negb (started g) && _) eqn:Hc; [|done]. apply Ok_inj in H as <-. apply andb_prop in Hc as [Hs%negb_true_iff Hc]. exists StartApi.
    split; [done|]. split.
    { apply orb_prop in Hc as [Hc%bool_decide_eq_true|Hc%bool_decide_eq_true]; subst f; [apply (d_start _ []); by left|apply (d_start _ [EmptyString]); by right]. }
    split; [unfold scope_of; rewrite Hs; constructor|]. rewrite E0. solve_counts. }
  destruct (started g) eqn:Hs; cbn [negb] in H; [|done].
  destruct (bool_decide_reflect (field f 0 = "8")) as [E1|E1].
  { destruct (strs_eqb f ["8"; "1"; "1"] && _) eqn:Hc; [|done]. apply Ok_inj in H as <-. apply andb_prop in Hc as [->%bool_decide_eq_true Hn%Z.ltb_lt].
    exists RequestIds. split; [done|]. split; [constructor|]. split; [unfold scope_of; cbn [started count]; rewrite Hs; constructor|].
    solve_counts. }
  destruct (bool_decide_reflect (field f 0 = "59")) as [E2|E2].
  { destruct (strs_eqb f ["59"; "1"; "1"]) eqn:Hc; [|done]. apply Ok_inj in H as <-. apply bool_decide_eq_true in Hc as ->.
    exists MarketDataType. split; [done|]. split; [constructor|]. split; [unfold scope_of; cbn [started count]; rewrite Hs; constructor|].
    solve_counts. }
  destruct (bool_decide_reflect (field f 0 = "1")) as [E3|E3].
  { destruct (_ && subscription_allowed g f) eqn:Hc; [|done]. apply Ok_inj in H as <-. apply andb_prop in Hc as [Hn Ha].
    assert (Hlen : length f = 19%nat \/ (length f = 20%nat /\ field f 19 = EmptyString)).
    { apply orb_prop in Hn as [Hn%Nat.eqb_eq|[Hn%Nat.eqb_eq Hl%bool_decide_eq_true]%andb_prop]; auto. }
    destruct (subscription_fields g f Hlen Ha Hs) as [Hd Hp]. eexists. split; [done|]. split; [exact Hd|].
    split; [unfold scope_of at 2; cbn [started count with_requests active used]; by rewrite Hs|]. rewrite E3. solve_counts. intros _. unfold subscription_allowed in Ha. repeat (apply andb_prop in Ha as [Ha ?]). by apply Z.ltb_lt. }
  destruct (bool_decide_reflect (field f 0 = "2")) as [E4|E4]; [|done].
  destruct (strs_eqb (slice f 0 2) ["2"; "2"] && _ && _) eqn:Hc; [|done]. apply Ok_inj in H as <-.
  apply andb_prop in Hc as [[Hc%bool_decide_eq_true Hn]%andb_prop [symbol Hact]%bool_decide_eq_true]. rewrite Hn in Hact |- *. apply Nat.eqb_eq in Hn.
  destruct f as [|f0 [|f1 [|f2 [|? f]]]]; try done. injection Hc as -> ->. exists (Cancel (request_number f2)). split; [done|].
  split; [constructor|]. split; [|solve_counts].
  unfold scope_of. cbn [started count with_requests active used]. rewrite Hs. by econstructor.
Qed.

(** ** The scope *)

Lemma size_insert_symbol (a : gmap Z string) req symbol symbol' :
  a !! req = None -> size (of_symbol symbol' (<[req := symbol]> a)) = (size (of_symbol symbol' a) + (if decide (symbol = symbol') then 1 else 0))%nat.
Proof.
  intros Hn. unfold of_symbol. destruct (decide (symbol = symbol')) as [->|Hne].
  - rewrite map_filter_insert_True by done. rewrite map_size_insert_None; [lia|]. by rewrite map_lookup_filter, Hn.
  - rewrite map_filter_insert_not' by (simpl; naive_solver). lia.
Qed.

Lemma session_scope ms s :
  session ms s ->
  (size (sc_active s) <= 3)%nat /\ (forall symbol sec venue n, In (symbol, sec, venue, n) instruments -> (size (of_symbol symbol (sc_active s)) <= n)%nat) /\
  (forall req symbol, sc_active s !! req = Some symbol -> req ∈ sc_used s /\ 5100001 <= req < 5200000).
Proof.
  induction 1 as [|ms s m s' _ (IH1 & IH2 & IH3) Hp].
  { cbn [sc_active sc_used]. split; [rewrite map_size_empty; lia|]. split; [|intros req symbol Hl; by rewrite lookup_empty in Hl].
    intros symbol sec venue n _. unfold of_symbol. rewrite map_filter_empty, map_size_empty. lia. }
  destruct Hp as [a u|a u|a u|a u req symbol sec venue n Hin Hr Hu Hs Hn|a u req symbol Ha]; cbn [sc_active sc_used] in *; try done.
  - assert (Hnone : a !! req = None).
    { destruct (a !! req) eqn:E; [|done]. by destruct (IH3 _ _ E). }
    split; [rewrite map_size_insert_None by done; lia|]. split.
    + intros symbol' sec' venue' n' Hin'. rewrite size_insert_symbol by done. destruct (decide (symbol = symbol')) as [<-|]; [|specialize (IH2 _ _ _ _ Hin'); lia].
      assert (n' = n) as -> by (clear -Hin Hin'; simpl in Hin, Hin'; intuition congruence). lia.
    + intros req' symbol' Hl. rewrite lookup_insert in Hl. case_decide; [simplify_eq; set_solver|]. destruct (IH3 _ _ Hl). set_solver.
  - split; [rewrite map_size_delete_Some by (by eexists); lia|]. split.
    + intros symbol' sec venue n Hin. specialize (IH2 _ _ _ _ Hin). unfold of_symbol in *. etransitivity; [|exact IH2].
      apply map_subseteq_size. rewrite map_filter_delete. apply delete_subseteq.
    + intros req' symbol' Hl. apply lookup_delete_Some in Hl as [_ Hl]. by apply (IH3 req' symbol').
Qed.

(** ** The state of the gate *)

(** The gate after a handshake [hs] and the frames [frames], which denote [ms]. *)
Record forwarded (g : Gate) (frames : list string) (ms : list message) : Prop := {
  fw_session : session ms (scope_of g);
  fw_denotes : Forall2 (fun frame m => exists f, fields_of (sdrop 4 frame) = Ok f /\ denotes (client_id g) f m) frames ms;
  fw_bytes : wire_bytes g = slen (concat_text frames) /\ wire_bytes g <= 1048576;
  fw_ids : count_of g "8" = tally is_request_ids ms /\ tally is_request_ids ms <= 4;
  fw_subscriptions : count_of g "1" = tally is_subscribe ms /\ tally is_subscribe ms <= 300 }.

Lemma concat_text_snoc l x : concat_text (l ++ [x]) = concat_text l +:+ x.
Proof. rewrite concat_text_app. simpl. by rewrite append_nil_r. Qed.

Lemma frame_step_forwarded g frame g' out frames ms :
  version g = true -> forwarded g frames ms -> frame_step g frame = Ok (g', out) ->
  exists m, forwarded g' (frames ++ [out]) (ms ++ [m]).
Proof.
  intros Hv [Hs Hd [Hb1 Hb2] [Hi1 Hi2] [Hu1 Hu2]] H. unfold frame_step in H. rewrite Hv in H. cbn [negb] in H.
  apply rbind_ok in H as (g1 & Hc & H). apply when_ok in H as [Hn%Z.ltb_ge H]. apply Ok_inj in H. injection H as <- <-.
  destruct (check_frame _ _ _ Hc) as (_ & Hid & _ & _ & Hw). destruct (check_denotes _ _ _ Hc) as (f & m & Hf & Hm & Hp & H8 & H8' & H1 & H1').
  exists m. rewrite Hw in Hn. constructor.
  - econstructor; [exact Hs|exact Hp].
  - apply Forall2_app; [|constructor; [|constructor]]; cbn [with_wire_bytes client_id]; rewrite Hid; [exact Hd|]. by exists f.
  - cbn [with_wire_bytes wire_bytes]. rewrite concat_text_snoc, slen_app, Hw, Hb1. rewrite Hb1 in Hn. split; [done|lia].
  - change (count_of (with_wire_bytes g1 (wire_bytes g1 + slen frame)) "8") with (count_of g1 "8"). rewrite tally_snoc, H8, Hi1. split; [done|].
    destruct (is_request_ids m); [specialize (H8' eq_refl)|]; lia.
  - change (count_of (with_wire_bytes g1 (wire_bytes g1 + slen frame)) "1") with (count_of g1 "1"). rewrite tally_snoc, H1, Hu1. split; [done|].
    destruct (is_subscribe m); [specialize (H1' eq_refl)|]; lia.
Qed.

(** What has been sent upstream so far. *)
Definition sent (id : Z) (g : Gate) (outs : list string) : Prop :=
  client_id g = id /\
  if version g
  then exists hs frames ms, outs = (API +:+ hs) :: frames /\ version_match (sdrop 4 hs) = true /\ forwarded g frames ms
  else outs = [] /\ forwarded g [] [].

Lemma forwarded_buffer g g' frames ms :
  forwarded g frames ms -> client_id g' = client_id g -> scope_of g' = scope_of g -> counts g' = counts g -> wire_bytes g' = wire_bytes g ->
  forwarded g' frames ms.
Proof. intros [Hs Hd Hb Hi Hu] E1 E2 E3 E4. constructor; rewrite ?E1, ?E2, ?E4; unfold count_of in *; rewrite ?E3; done. Qed.

Lemma sent_buffer id g b outs : sent id g outs -> sent id (with_buffer g b) outs /\ sent id (with_header g b) outs.
Proof.
  unfold sent. cbn [version with_buffer with_header client_id]. intros [Hid H]. revert H. destruct (version g).
  - intros (hs & frames & ms & -> & Hv & Hf). split; (split; [done|]); exists hs, frames, ms; (split; [done|]); (split; [done|]); by apply (forwarded_buffer g).
  - intros [-> Hf]. split; (split; [done|]); (split; [done|]); by apply (forwarded_buffer g).
Qed.

Lemma frame_loop_sent id fuel g g' outs sofar : sent id g sofar -> frame_loop fuel g = Ok (g', outs) -> sent id g' (sofar ++ outs).
Proof.
  revert g outs sofar. induction fuel as [|fuel IH]; intros g outs sofar Hs H; [injection H as <- <-; by rewrite app_nil_r|].
  rewrite frame_loop_unfold in H. destruct (frame_size (buffer g)) as [n|]; [|injection H as <- <-; by rewrite app_nil_r].
  apply when_ok in H as [_ H]. destruct (head_frame g) as [k|]; [|injection H as <- <-; by rewrite app_nil_r].
  apply rbind_ok in H as ([g1 out] & Hst & H). apply rbind_ok in H as ([g2 outs'] & Hl & H). injection H as <- <-.
  set (h := with_buffer g (sdrop k (buffer g))) in *. destruct (sent_buffer id g (sdrop k (buffer g)) sofar Hs) as [Hh _]. fold h in Hh.
  assert (Hg1 : sent id g1 (sofar ++ [out])).
  { destruct (frame_step_frame _ _ _ _ Hst) as (Hc1 & _ & Hv1 & Hout). unfold sent in Hh |- *. rewrite Hv1, Hc1. destruct Hh as [Hid Hh].
    split; [done|]. destruct (version h) eqn:Hv.
    - destruct Hh as (hs & frames & ms & -> & Hvm & Hf). destruct (frame_step_forwarded _ _ _ _ _ _ Hv Hf Hst) as [m Hm].
      by exists hs, (frames ++ [out]), (ms ++ [m]).
    - destruct Hh as [-> Hf]. exists (stake k (buffer g)), [], []. rewrite Hout. unfold frame_step in Hst. rewrite Hv in Hst. cbn [negb] in Hst.
      apply when_ok in Hst as [Hvm%negb_false_iff Hst]. apply Ok_inj in Hst. injection Hst as <- _. split; [done|]. split; [done|]. by apply (forwarded_buffer h). }
  specialize (IH g1 outs' (sofar ++ [out]) Hg1 Hl). by rewrite <- app_assoc in IH.
Qed.

Lemma feed_sent id g data g' outs sofar : sent id g sofar -> feed g data = Ok (g', outs) -> sent id g' (sofar ++ outs).
Proof.
  intros Hs H. unfold feed in H. destruct (sent_buffer id g (buffer g +:+ data) sofar Hs) as [Hh _]. set (h := with_buffer g (buffer g +:+ data)) in *.
  apply when_ok in H as [_ H]. unfold drain in H. destruct (negb (api_header h)); [|by eapply frame_loop_sent].
  destruct (slen (buffer h) <? 4); [injection H as <- <-; by rewrite app_nil_r|]. apply when_ok in H as [_ H].
  destruct (sent_buffer id h (sdrop 4 (buffer h)) sofar Hh) as [_ Hw]. by eapply frame_loop_sent.
Qed.

Lemma forward_sent id g chunks outs e sofar : sent id g sofar -> forward g chunks = (outs, e) -> exists g', sent id g' (sofar ++ outs).
Proof.
  revert g outs sofar. induction chunks as [|data chunks IH]; intros g outs sofar Hs H; cbn [forward] in H.
  { injection H as <- <-. exists g. by rewrite app_nil_r. }
  destruct (feed g data) as [[g1 o1]|e1] eqn:Hf; [|injection H as <- <-; exists g; by rewrite app_nil_r].
  destruct (forward g1 chunks) as [o2 e2] eqn:Hr. cbn [fst snd] in H. injection H as <- <-.
  destruct (IH g1 o2 (sofar ++ o1) (feed_sent _ _ _ _ _ _ Hs Hf) Hr) as [g' Hg']. exists g'. by rewrite <- app_assoc in Hg'.
Qed.

Lemma fresh_gate id g : FrameGate id = Ok g -> 29000 <= id <= 29999 /\ settled g /\ held g = EmptyString /\ buffer g = EmptyString /\ sent id g [].
Proof.
  unfold FrameGate. intros H. apply when_ok in H as [Hid%negb_false_iff H]. apply Ok_inj in H as <-. split_bools.
  split; [lia|]. split; [done|]. split; [done|]. split; [done|]. split; [done|]. split; [done|]. constructor; try done. constructor.
Qed.

(** The bytes sent upstream are a prefix of the client's. *)
Lemma forward_prefix g chunks outs e :
  settled g -> forward g chunks = (outs, e) -> exists rest, held g +:+ concat_text chunks = concat_text outs +:+ rest.
Proof.
  revert g outs. induction chunks as [|data chunks IH]; intros g outs Hg H; cbn [forward concat_text foldr] in *.
  { injection H as <- <-. by eexists. }
  destruct (feed g data) as [[g1 o1]|e1] eqn:Hf; [|injection H as <- <-; by eexists].
  destruct (forward g1 chunks) as [o2 e2] eqn:Hr. cbn [fst snd] in H. injection H as <- <-. fold (concat_text chunks).
  unfold feed in Hf. apply when_ok in Hf as [_ Hf]. change (with_buffer g (buffer g +:+ data)) with (extend g data) in Hf.
  destruct (drain_bytes (extend g data) _ _ (proj1 Hg) Hf) as [Hb Hs]. destruct (IH g1 o2 Hs Hr) as [rest Hrest]. exists rest.
  rewrite concat_text_app, append_assoc, <- Hrest. rewrite <- !append_assoc, <- Hb. unfold held, extend. cbn [with_buffer buffer api_header version].
  by rewrite !append_assoc.
Qed.

(** C37: the gate forwards in scope.  Whatever bytes a client sends, in whatever chunks,
    the frames that reach the broker are the version handshake followed by messages of an
    abstract protocol, each frame denoting exactly its message: the API is started once
    and for the isolated client, request identifiers are used once and lie in the reserved
    range, only the two instruments are subscribed, at most three at a time and at most
    two and one of each, only active subscriptions are cancelled, at most 300
    subscriptions and four identifier requests are made, and at most one mebibyte is
    sent.  No order, account or position message exists in the vocabulary. *)
Theorem gate_forwards_in_scope id chunks outs e :
  relay_session id chunks = (outs, e) -> outs <> [] ->
  exists hs frames ms s, outs = (API +:+ hs) :: frames /\ version_match (sdrop 4 hs) = true /\
    Forall2 (fun frame m => exists f, fields_of (sdrop 4 frame) = Ok f /\ denotes id f m) frames ms /\ session ms s /\
    ((size (sc_active s) <= 3)%nat /\ (forall symbol sec venue n, In (symbol, sec, venue, n) instruments -> (size (of_symbol symbol (sc_active s)) <= n)%nat) /\
     (forall req symbol, sc_active s !! req = Some symbol -> req ∈ sc_used s /\ 5100001 <= req < 5200000)) /\
    slen (concat_text frames) <= 1048576 /\ tally is_request_ids ms <= 4 /\ tally is_subscribe ms <= 300.
Proof.
  unfold relay_session. intros H Hne. destruct (FrameGate id) as [g|] eqn:Hg; [|by injection H as <- _].
  destruct (fresh_gate _ _ Hg) as (_ & _ & _ & _ & Hsent). destruct (forward_sent _ _ _ _ _ _ Hsent H) as [g' [Hid Hg']]. simpl in Hg'.
  destruct (version g'); [|by destruct Hg']. destruct Hg' as (hs & frames & ms & -> & Hv & [Hs Hd [Hb Hb'] [Hi Hi'] [Hu Hu']]).
  exists hs, frames, ms, (scope_of g'). rewrite Hid in Hd. do 4 (split; [done|]). split; [by eapply session_scope|]. split; [lia|]. by split.
Qed.

(** The relay is transparent.  The bytes it sends are a prefix of the client's bytes,
    also when a denied frame ends the session; and a session that is not ended sends the
    same frames however the bytes were cut into chunks. *)
Theorem gate_stream_transparent id chunks outs e :
  relay_session id chunks = (outs, e) ->
  (exists rest, concat_text chunks = concat_text outs +:+ rest) /\
  (forall chunks' outs', e = None -> relay_session id chunks' = (outs', None) -> concat_text chunks' = concat_text chunks -> outs' = outs).
Proof.
  unfold relay_session. intros H. destruct (FrameGate id) as [g|] eqn:Hg.
  2: { injection H as <- <-. split; [by eexists|]. intros chunks' outs' He. done. }
  destruct (fresh_gate _ _ Hg) as (_ & Hs & Hh & Hb & _). split.
  - destruct (forward_prefix _ _ _ _ Hs H) as [rest Hrest]. exists rest. by rewrite Hh, append_nil_l in Hrest.
  - intros chunks' outs' -> H' Hc. destruct (forward_drain _ _ _ Hs H) as [g1 H1], (forward_drain _ _ _ Hs H') as [g2 H2]. rewrite Hc in H2. congruence.
Qed.

(** ** A concrete session *)

Definition frame_of (payload : string) : string :=
  String (chr 0) (String (chr 0) (String (chr 0) (String (chr (slen payload)) payload))).
Definition terminated (f : list string) : string := concat_text (map (fun x => x +:+ String nul EmptyString) f).

Definition eur_request (number : string) : list string :=
  ["1"; "11"; number; "0"; "EUR"; "CASH"; EmptyString; "0"; EmptyString; EmptyString; "IDEALPRO"; EmptyString; "USD"; EmptyString;
   EmptyString; "0"; EmptyString; "0"; "0"].

Definition client_bytes : string :=
  API +:+ frame_of "v100..187" +:+ frame_of (terminated ["71"; "2"; "29001"; EmptyString]) +:+ frame_of (terminated (eur_request "5100001")) +:+
  frame_of (terminated ["2"; "2"; "5100001"]).
Definition client_chunks : list string := [stake 10 client_bytes; stake 60 (sdrop 10 client_bytes); sdrop 70 client_bytes].
Definition client_frames : list string := (relay_session 29001 client_chunks).1.

(** The order message (3) that follows is denied, and nothing of its chunk is sent. *)
Example order_denied :
  relay_session 29001 (client_chunks ++ [frame_of (terminated ["3"; "45"; "1"])]) = (client_frames, Some (denied "OPCODE_OR_SCOPE_DENIED:3")).
Proof. vm_compute. reflexivity. Qed.

Lemma gate_forwards_in_scope_witness :
  length client_frames = 4%nat /\
  exists hs frames ms s, client_frames = (API +:+ hs) :: frames /\ version_match (sdrop 4 hs) = true /\
    Forall2 (fun frame m => exists f, fields_of (sdrop 4 frame) = Ok f /\ denotes 29001 f m) frames ms /\ session ms s /\
    ((size (sc_active s) <= 3)%nat /\ (forall symbol sec venue n, In (symbol, sec, venue, n) instruments -> (size (of_symbol symbol (sc_active s)) <= n)%nat) /\
     (forall req symbol, sc_active s !! req = Some symbol -> req ∈ sc_used s /\ 5100001 <= req < 5200000)) /\
    slen (concat_text frames) <= 1048576 /\ tally is_request_ids ms <= 4 /\ tally is_subscribe ms <= 300.
Proof.
  split; [vm_compute; reflexivity|]. apply (gate_forwards_in_scope 29001 client_chunks client_frames None); [vm_compute; reflexivity|vm_compute; discriminate].
Defined.

Lemma gate_stream_transparent_witness :
  (exists rest, concat_text client_chunks = concat_text client_frames +:+ rest) /\
  (forall chunks' outs', @None exn = None -> relay_session 29001 chunks' = (outs', None) -> concat_text chunks' = concat_text client_chunks -> outs' = client_frames).
Proof. apply (gate_stream_transparent 29001 client_chunks client_frames None). vm_compute. reflexivity. Defined.

(** The request number of a forwarded frame is compared as a number, but its text is
    forwarded: digits grouped by underscores and surrounding blanks pass the gate. *)
Theorem gate_number_alias :
  (relay_session 29001 [client_bytes; frame_of (terminated (eur_request " +5_100_002 "))]).2 = None /\
  last (relay_session 29001 [client_bytes; frame_of (terminated (eur_request " +5_100_002 "))]).1 =
    Some (frame_of (terminated (eur_request " +5_100_002 "))).
Proof. vm_compute. split; reflexivity. Qed.

End QuoteGateFacts.
