(* ===== verification/Driver.v ===== *)
(** * The paper driver: programs and calls

    The resident driver of scripts/heptatrader_paper_driver.py is a program over its
    in-memory state dictionary that calls the outside: the clock, the state file, the
    native command client, the read tools, the session supervisor.  A program maps a world
    (the dictionary and the log of calls) to a world and a result; what it changed before
    an exception stays.  The environment answers every call from the log so far, so a
    theorem for every environment covers every behaviour of the outside.  An event records
    the call, its answer and the dictionary at the time of the call. *)

From Stdlib Require Import Ascii Floats.SpecFloat.
From S2P Require Import Prelude PyText PyValue PyOrder PyBytes PyJson PyFloat.
From stdpp Require Import base tactics list strings.
From Stdlib Require Import ZArith Lia Bool.

Open Scope Z_scope.

Definition driver_error (m : string) : exn := Exn DriverError m.

(** [type(exc).__name__] *)
Definition class_name (c : exc_class) : string :=
  match c with
  | EvidenceError => "EvidenceError" | CostError => "CostError" | GenerationError => "GenerationError"
  | ValueError => "ValueError" | KeyError => "KeyError" | IndexError => "IndexError" | TypeError => "TypeError"
  | AttributeError => "AttributeError" | InvalidOperation => "InvalidOperation" | DivisionByZero => "DivisionByZero"
  | DecOverflow => "Overflow" | OverflowError => "OverflowError" | JournalError => "JournalError"
  | UnicodeError => "UnicodeError" | JSONDecodeError => "JSONDecodeError" | RecursionError => "RecursionError"
  | OSError => "OSError" | Denied => "Denied" | PolicyError => "PolicyError" | ContractError => "ContractError"
  | DriverError => "DriverError" | TimeoutExpired => "TimeoutExpired" | HistoryError => "HistoryError"
  end.

(** ** Calls *)

Inductive call :=
| Clock                                          (* now_ms() *)
| Identifier (prefix : string)                   (* cid(prefix) *)
| Save                                           (* atomic_json(path, state) *)
| Command (op : string) (args : list string)     (* hepta-paper-command *)
| Tool (tool : string) (fields : list string)    (* a read through the native client *)
| Session (op : string) (generation : Z)         (* hepta-sessionctl *)
| Guard                                          (* heptatrader paper-on *)
| Marker (name : string)                         (* lstat of a hold file *)
| Receipt (receipt : value)                      (* persist_close_receipt *)
| Worker (op : string).                          (* the model worker of the resident loop *)

Record event := mkEvent { ev_state : dict; ev_call : call; ev_answer : res value }.

Record env := mkEnv { e_clock : list event -> Z; e_answer : list event -> call -> res value }.

Record world := mkWorld { mem : dict; log : list event }.

(** ** Programs *)

Definition drv (A : Type) : Type := world -> world * res A.

Definition dret {A} (a : A) : drv A := fun w => (w, Ok a).
Definition dbind {A B} (m : drv A) (k : A -> drv B) : drv B := fun w =>
  match m w with (w', Ok a) => k a w' | (w', Raise e) => (w', Raise e) end.
Definition dlift {A} (r : res A) : drv A := fun w => (w, r).
Definition draise {A} (e : exn) : drv A := fun w => (w, Raise e).
(** A read of the state dictionary. *)
Definition dread {A} (f : dict -> res A) : drv A := fun w => (w, f (mem w)).
(** A change of the state dictionary. *)
Definition dupd (f : dict -> dict) : drv unit := fun w => (mkWorld (f (mem w)) (log w), Ok tt).
(** [try]: the result of a program as a value. *)
Definition dtry {A} (m : drv A) : drv (res A) := fun w => let (w', r) := m w in (w', Ok r).

Notation "x <-- m ;; k" := (dbind m (fun x => k)) (at level 98, m at next level, right associativity) : py_scope.
Notation "m ;;; k" := (dbind m (fun _ => k)) (at level 98, right associativity) : py_scope.

(** [state.get(k)], [state[k] = v] and [state.update(...)] *)
Definition sget (k : string) : drv value := dread (fun s => Ok (get s k)).
Definition sset (k : string) (v : value) : drv unit := dupd (dset k v).
Definition supdate (kvs : list (string * value)) : drv unit := dupd (fun s => foldl (fun s kv => dset kv.1 kv.2 s) s kvs).
(** [state[k] += 1] *)
Definition plus_one (v : value) : res value :=
  match v with
  | VInt n => Ok (VInt (n + 1))
  | VBool b => Ok (VInt (if b then 2 else 1))
  | VFloat f => Ok (VFloat (fadd f (literal 1 0)))
  | _ => Raise type_error
  end.
Definition sincr (k : string) : drv unit := v <-- dread (fun s => let! v := item s k in plus_one v) ;; sset k v.

(** The pending command of the state, and [state["pending"][k] = v]. *)
Definition pending_of (s : dict) : dict := match get s "pending" with VDict p => p | _ => [] end.
Definition pset (k : string) (v : value) : drv unit :=
  dupd (fun s => match get s "pending" with VDict p => dset "pending" (VDict (dset k v p)) s | _ => s end).

Definition dwhen (c : bool) (m : drv unit) : drv unit := if c then m else dret tt.
Definition dguard (c : bool) (message : string) : drv unit := if c then draise (driver_error message) else dret tt.

(** ** The outside *)

Section calls.
Context (E : env).

Definition perform (c : call) : drv value := fun w =>
  let a := e_answer E (log w) c in (mkWorld (mem w) (log w ++ [mkEvent (mem w) c a]), a).

Definition now_ms : drv Z := fun w =>
  let t := e_clock E (log w) in (mkWorld (mem w) (log w ++ [mkEvent (mem w) Clock (Ok (VInt t))]), Ok t).

Definition cid (prefix : string) : drv string := v <-- perform (Identifier prefix) ;; dlift (as_str v).

(** [strict_json]: objects without repeated keys and without NaN or infinities. *)
Definition unique_pairs (items : list (string * value)) : res dict :=
  rfold (fun out kv => when dhas kv.1 out raise value_error in Ok (dset kv.1 kv.2 out)) items [].
Definition strict_json (text : string) : res dict :=
  let! v := loads_with unique_pairs (fun _ => Raise value_error) text in
  match v with VDict d => Ok d | _ => Raise value_error end.

(** The standard output and the exit status of a finished process. *)
Definition process (v : value) : res (string * Z) :=
  match v with
  | VDict d => let! out := as_str (get d "stdout") in let! code := as_int (get d "returncode") in Ok (out, code)
  | _ => Raise type_error
  end.

Definition paper_cmd (op : string) (args : list string) : drv dict :=
  v <-- perform (Command op args) ;;
  p <-- dlift (process v) ;;
  if bool_decide (p.1 = EmptyString) then dret [("ok", VBool false); ("reason", VStr "PROCESS_NO_RESPONSE")]
  else d <-- dlift (strict_json p.1) ;; dret (dset "process_returncode" (VInt p.2) d).

(** [.get] on something that is not a dictionary. *)
Definition attr_dict (v : value) : res dict := match v with VDict d => Ok d | _ => Raise attribute_error end.

(** The payload of a finished read. *)
Definition native_reply (v : value) : res dict :=
  let! p := process v in
  when bool_decide (p.1 = EmptyString) raise driver_error "native transport failed" in
  let! d := strict_json p.1 in
  when negb (p.2 =? 0) || negb (eq_str (get d "status") "ok") raise driver_error "native rejected" in
  (if truthy (get d "payload") then attr_dict (get d "payload") else Ok []).

Definition native (tool : string) (fields : list string) : drv dict :=
  v <-- perform (Tool tool fields) ;; dlift (native_reply v).

End calls.

(** The calls a derived driver may replace: saving the state and sending a command. *)
Class Ops := { op_save : drv unit; op_command : string -> list string -> drv dict }.

(** The driver itself. *)
Definition save_state (E : env) : drv unit := perform E Save ;;; dret tt.
Definition base_ops (E : env) : Ops := {| op_save := save_state E; op_command := paper_cmd E |}.

(** ** Responses of the command client *)

Definition response_transport_ok (v : dict) : bool :=
  if dhas "transport_ok" v then is_true (get v "transport_ok") else truthy (get v "ok").

Definition response_application_status (v : dict) : string :=
  let rest := match get v "result" with
              | VDict r => match get r "status" with VStr t => t | _ => if truthy (get v "ok") then "ok" else EmptyString end
              | _ => if truthy (get v "ok") then "ok" else EmptyString
              end in
  match get v "application_status" with VStr s => if bool_decide (s = EmptyString) then rest else s | _ => rest end.

Definition response_application_reason (v : dict) : string :=
  let rest := match get v "result" with
              | VDict r => match get r "reason_code" with VStr t => t | _ => py_str (getd (VStr EmptyString) v "reason") end
              | _ => py_str (getd (VStr EmptyString) v "reason")
              end in
  match get v "application_reason" with VStr s => if bool_decide (s = EmptyString) then rest else s | _ => rest end.

Definition DEFINITE_APPLICATION_REJECTIONS : list string := ["error"; "rejected"; "permission_denied"; "invalid_tool"].
