(* ===== verification/DriverCommand.v ===== *)
(** * The paper driver: commands

    One command at a time: [prepare_send] prepares a command, records it before the one
    transport attempt, and records the response; [inspect_pending] reconciles the pending
    command with the broker's evidence and is the only place that clears it.  The pending
    command is a dictionary inside the state; the code's local name for it is the same
    object, so its changes are changes of the state. *)

From Stdlib Require Import Ascii Floats.SpecFloat.
From S2P Require Import Prelude PyText PyValue PyOrder PyBytes PyFloat Driver.
From stdpp Require Import base tactics list strings.
From Stdlib Require Import ZArith Lia Bool.

Open Scope Z_scope.

Module DriverCommand.

(** ** Evidence in the order list *)

Definition is_lower_hex (c : ascii) : bool := is_digit c || ((97 <=? ord c) && (ord c <=? 102)).

Definition correlation_ok (v : value) : bool :=
  match v with
  | VStr s => match remove_prefix "hepta-v1-sha256:" s with Some h => (slen h =? 64) && sforall is_lower_hex h | None => false end
  | _ => false
  end.

Record Fill := mkFill {
  f_price : spec_float; f_quantity : spec_float; f_terminal : bool; f_correlation : value; f_execution : value;
  f_executions : list value; f_observed : value; f_status : value }.

Section evidence.
Context (crypto : bool).

Definition INSTRUMENT : string := if crypto then "BTC.USD" else "EUR.USD".
Definition QTY : spec_float := if crypto then literal 1 0 else literal 100000 0.
Definition QUANTITY_TOLERANCE : spec_float := if crypto then literal 1 (-10) else literal 1 (-9).
Definition FX_TARGET_NOTIONAL_USD : spec_float := literal 100000 0.
Definition FX_MAX_QUANTITY : spec_float := literal 100000 0.

Definition row_matches (pending : dict) (expected_side : value) (row : dict) : bool :=
  py_eq (get row "command_id") (get pending "command_id") &&
  eq_str (getd (VStr INSTRUMENT) row "instrument") INSTRUMENT &&
  py_eq (get row "order_id") (get pending "broker_order_id") &&
  correlation_ok (get row "venue_correlation_id") &&
  py_eq (get row "side") expected_side &&
  (is_none (get pending "venue_correlation_id") || py_eq (get pending "venue_correlation_id") (get row "venue_correlation_id")).

Definition matching_command_rows (orders pending : dict) (expected_side : value) : res (list dict) :=
  let! rows := as_list (getd (VList []) orders "recent_orders") in
  let! rows := rmapM attr_dict rows in
  Ok (List.filter (row_matches pending expected_side) rows).

Definition execution_id_ok (v : value) : bool :=
  match v with VStr s => negb (bool_decide (s = EmptyString)) && (slen s <=? 128) | _ => false end.

Definition distinct (l : list value) : bool := bool_decide (NoDup (map py_str l)).

Definition fill_of (row : dict) : res (option Fill) :=
  if negb (is_false (get row "broker_execution_ambiguous")) || negb (truthy (get row "broker_execution_id")) then Ok None
  else if eq_int (get row "economic_evidence_version") 2 && negb (is_true (get row "economic_evidence_complete")) then Ok None
  else
    match getd (VList [get row "broker_execution_id"]) row "broker_execution_ids" with
    | VList ids =>
        if bool_decide (ids = []) || (128 <? Z.of_nat (length ids)) || negb (forallb execution_id_ok ids) || negb (distinct ids) ||
           negb (py_in (get row "broker_execution_id") ids) then Ok None
        else
          let! price := to_float (getd (VInt 0) row "average_fill_price") in
          let! qty := to_float (getd (VInt 0) row "filled_quantity") in
          if fleb price fzero || fleb qty fzero || negb (is_finite price) || negb (is_finite qty) then Ok None
          else Ok (Some (mkFill price qty (is_true (get row "terminal")) (get row "venue_correlation_id")
                           (get row "broker_execution_id") ids (get row "broker_execution_observed_at_ms")
                           (getd (VStr "unknown") row "status")))
    | _ => Ok None
    end.

Definition recent_fill (orders pending : dict) (expected_side : value) : res (option Fill) :=
  let! rows := matching_command_rows orders pending expected_side in
  match List.filter (fun r => is_true (get r "economic_fill")) rows with
  | [row] => fill_of row
  | _ => Ok None
  end.

Definition nonfill_row (row : dict) : bool :=
  is_true (get row "terminal") && is_false (get row "economic_fill") && is_false (get row "broker_execution_ambiguous") &&
  negb (truthy (get row "broker_execution_id")) && eq_int (get row "filled_quantity") 0 && eq_int (get row "average_fill_price") 0 &&
  in_strs (get row "status") ["Cancelled"; "ApiCancelled"; "Rejected"; "Inactive"].

Definition terminal_nonfill (orders pending : dict) (expected_side : value) : res bool :=
  let! rows := matching_command_rows orders pending expected_side in
  match rows with [row] => Ok (nonfill_row row) | _ => Ok false end.

(** ** Order sizes *)

Definition fx_order_quantity (reference : spec_float) : res spec_float :=
  when negb (is_finite reference) || fleb reference fzero raise driver_error "invalid FX reference price" in
  let! n := floor_of (fdiv FX_TARGET_NOTIONAL_USD reference) in
  let! q := float_of_int n in
  let quantity := if fltb q FX_MAX_QUANTITY then q else FX_MAX_QUANTITY in
  when fleb quantity fzero || fltb FX_MAX_QUANTITY quantity ||
       fltb (fadd FX_TARGET_NOTIONAL_USD (literal 1 (-9))) (fmul quantity reference)
  raise driver_error "FX notional budget unavailable" in
  Ok quantity.

Definition crypto_market_cash_budget (ask cash_limit base_limit : spec_float) (allow_smaller : bool) : res spec_float :=
  when negb (is_finite ask) || fleb ask fzero raise driver_error "invalid crypto ask" in
  when negb (is_finite cash_limit) || negb (is_finite base_limit) || fleb cash_limit fzero || fleb base_limit fzero || fltb QTY base_limit
  raise driver_error "crypto market cash limit invalid" in
  let! cash :=
    (if allow_smaller then
       let base := fmul ask base_limit in
       let! cents := floor_of (fmul (if fltb base cash_limit then base else cash_limit) (literal 100 0)) in
       let! c := float_of_int cents in Ok (fdiv c (literal 100 0))
     else Ok cash_limit) in
  when fleb cash fzero || fltb cash_limit cash || fltb (fadd base_limit (literal 1 (-15))) (fdiv cash ask)
  raise driver_error "crypto market cash budget unavailable" in
  Ok cash.
End evidence.

(** ** The fence *)

Section commands.
Context (E : env) `{Ops} (crypto : bool).

Definition last_error (m : string) : drv unit := sset "last_error" (VStr m).

Definition latch_owner_fence (reason : value) : drv unit :=
  fenced <-- sget "owner_fence_recovery_required" ;;
  dwhen (negb (truthy fenced))
    (halted <-- dread (fun s => Ok (getd (VBool false) s "halt_new_entries")) ;; sset "owner_fence_owned_halt" (VBool (negb (truthy halted)))) ;;;
  sset "owner_fence_recovery_required" (VBool true) ;;;
  sset "owner_fence_block_reason" reason ;;;
  t <-- now_ms E ;;
  sset "owner_control_recovery" (VDict [("state", VStr "AUDIT_REQUIRED"); ("reason_code", reason); ("checked_at_ms", VInt t)]) ;;;
  sset "owner_recovery_wait_reason" (VStr "OWNER_AUDIT_REQUIRED") ;;;
  sset "halt_new_entries" (VBool true) ;;;
  r <-- dlift (as_str reason) ;;
  last_error ("owner fence recovery required: " +:+ r) ;;;
  op_save.

(** ** Exit triggers *)

Definition EXIT_TRIGGER_CODES : list string :=
  ["HALT_REDUCE_ONLY"; "MAX_ADVERSE_MOVE"; "MODEL_REVERSAL"; "OWNER_RECOVERY_REDUCE_ONLY"; "CRYPTO_CANARY_EXIT"].

(** The quote of a trigger is diagnostic: what cannot be verified is left out. *)
Definition quote_evidence (quote : value) (t : Z) : dict :=
  let checked :=
    match quote with
    | VDict q =>
        match get q "observed_at_ms" with
        | VInt o =>
            if (0 <? o) && (o <=? t) then
              let! bv := item q "bid" in let! bid := to_float bv in
              let! av := item q "ask" in let! ask := to_float av in
              if negb (is_finite bid) || negb (is_finite ask) || fleb bid fzero || fltb ask bid then Raise value_error
              else Ok (o, bid, ask)
            else Raise value_error
        | _ => Raise value_error
        end
    | _ => Raise value_error
    end in
  match checked with
  | Ok (o, bid, ask) =>
      [("quote_observed_at_ms", VInt o); ("quote_bid", VFloat bid); ("quote_ask", VFloat ask); ("quote_evidence_status", VStr "VALIDATED")]
  | Raise _ => [("quote_evidence_status", VStr "UNVERIFIED_DIAGNOSTIC_OMITTED")]
  end.

Definition reason_source (reason : value) : string :=
  if in_strs reason ["MAX_ADVERSE_MOVE"; "MODEL_REVERSAL"; "HALT_REDUCE_ONLY"] then "DRIVER_EVALUATED"
  else if is_none reason then "UNATTRIBUTED" else "DRIVER_RECOVERY_OR_CANARY".

Definition freeze_exit_trigger (command_id : string) (reason position quote : value) : drv dict :=
  dguard (negb (is_none reason) && negb (in_strs reason EXIT_TRIGGER_CODES)) "close trigger reason is not an original driver predicate" ;;;
  t <-- now_ms E ;;
  p <-- dlift (to_float position) ;;
  let record :=
    [("schema", VStr "heptatrader.driver-close-trigger.v1"); ("original_command_id", VStr command_id);
     ("reason_code", if is_none reason then VStr "LEGACY_UNATTRIBUTED" else reason); ("reason_source", VStr (reason_source reason));
     ("trigger_at_ms", VInt t); ("position_at_trigger", VFloat p)] in
  dret (if is_none quote then record else record ++ quote_evidence quote t).

(** ** [prepare_send] *)

(** The call that prepares the command, with what the pending record keeps of it: the
    reference price, and the cash or base quantity of an opening order. *)
Definition prepare_command (kind : string) (quote side : value) (cash_limit base_limit : spec_float) (preview : string)
    : drv (value * list (string * value) * dict) :=
  if bool_decide (kind = "OPEN") then
    ref <-- dlift (let! v := subscript quote (if eq_str side "BUY" then "ask" else "bid") in to_float v) ;;
    if crypto then
      dguard (negb (eq_str side "BUY")) "crypto short entries are not supported" ;;;
      let canary := negb (feqb cash_limit (literal 25000 0)) || negb (feqb base_limit (literal 1 0)) in
      cash <-- dlift (crypto_market_cash_budget crypto ref cash_limit base_limit canary) ;;
      t <-- now_ms E ;;
      prepared <-- op_command (if canary then "prepare-crypto-canary-open" else "prepare-crypto-open")
                     ["--call-id"; preview; "--price"; format_17g ref; "--cash-quantity"; format_17g cash; "--expiry"; str_int (t + 45000)] ;;
      dret (VFloat ref, [("quantity_mode", VStr "CASH"); ("cash_quantity", VFloat cash); ("order_type", VStr "MKT"); ("tif", VStr "IOC")], prepared)
    else
      quantity <-- dlift (fx_order_quantity ref) ;;
      t <-- now_ms E ;;
      prepared <-- op_command "prepare-open"
                     ["--call-id"; preview; "--side"; py_str side; "--quantity"; format_17g quantity; "--price"; format_17g ref;
                      "--expiry"; str_int (t + 45000)] ;;
      dret (VFloat ref, [("quantity_mode", VStr "BASE_NOTIONAL_TARGET"); ("order_quantity", VFloat quantity);
                         ("target_notional_usd", VFloat FX_TARGET_NOTIONAL_USD); ("order_type", VStr "MKT"); ("tif", VStr "DAY")], prepared)
  else
    prepared <-- op_command (if crypto then "prepare-crypto-close" else "prepare-close") ["--call-id"; preview] ;;
    dret (VNone, [], prepared).

Definition prepare_failed (prepared : dict) : bool := negb (truthy (get prepared "ok")) || negb (truthy (get prepared "command_id")).

(** [response_application_reason(prepared) or str(prepared.get("reason", ""))] *)
Definition prepare_reason (prepared : dict) : string :=
  let r := response_application_reason prepared in
  if bool_decide (r = EmptyString) then py_str (getd (VStr EmptyString) prepared "reason") else r.

Definition pending_record (kind : string) (command_id : value) (t : Z) (side ref : value) (before : spec_float)
    (trigger : option dict) (extra : list (string * value)) (parent : value) : dict :=
  [("kind", VStr kind); ("command_id", command_id); ("send_state", VStr "PREPARED"); ("created_at_ms", VInt t);
   ("instrument", VStr (INSTRUMENT crypto)); ("broker_order_id", VNone); ("side", side); ("reference_price", ref);
   ("position_before_send", VFloat before)] ++
  match trigger with Some d => [("exit_trigger", VDict (dset "original_command_id" command_id d))] | None => [] end ++ extra ++
  (if crypto && bool_decide (kind = "CLOSE") then [("parent_entry_command_id", parent)] else []).

(** What the response to the submission says about the command. *)
Definition send_state_of (transport_ok : bool) (status : string) : string :=
  if negb transport_ok || bool_decide (status = EmptyString) || bool_decide (status = "uncertain") then "POSSIBLY_SENT"
  else if inb status ["ok"; "duplicate"] then "ACKNOWLEDGED"
  else if inb status DEFINITE_APPLICATION_REJECTIONS then "DEFINITELY_REJECTED"
  else "POSSIBLY_SENT".

(** [isinstance(v, int) and v >= 0] *)
Definition order_id_ok (v : value) : bool := match v with VInt z => 0 <=? z | VBool _ => true | _ => false end.

Definition record_response (sent : dict) : drv unit :=
  let transport_ok := response_transport_ok sent in
  let status := response_application_status sent in
  let reason := response_application_reason sent in
  pset "last_submit_transport_ok" (VBool transport_ok) ;;;
  pset "last_submit_reason" (VStr (py_str (getd (VStr EmptyString) sent "reason"))) ;;;
  pset "application_status" (VStr status) ;;;
  pset "application_reason" (VStr reason) ;;;
  t <-- now_ms E ;;
  pset "application_observed_at_ms" (VInt t) ;;;
  let result := match get sent "result" with VDict r => r | _ => [] end in
  dwhen (order_id_ok (get result "order_id")) (pset "broker_order_id" (get result "order_id")) ;;;
  let state := send_state_of transport_ok status in
  pset "send_state" (VStr state) ;;;
  dwhen (bool_decide (state = "DEFINITELY_REJECTED"))
    (last_error ("definite non-send: " +:+ reason) ;;;
     dwhen (bool_decide (reason = "SESSION_OWNER_FENCED")) (latch_owner_fence (VStr reason))) ;;;
  op_save.

(** [exit_reason] is [None] or a text; [kind] is OPEN or CLOSE. *)
Definition prepare_send (kind : string) (quote side : value) (cash_limit base_limit : spec_float) (exit_reason : value) : drv unit :=
  pending <-- sget "pending" ;;
  dguard (negb (is_none pending)) "original command pending; replacement preparation forbidden" ;;;
  let close := bool_decide (kind = "CLOSE") in
  dguard (negb close && negb (is_none exit_reason)) "exit trigger cannot be assigned to OPEN" ;;;
  dguard (close && negb (is_none exit_reason) && negb (in_strs exit_reason EXIT_TRIGGER_CODES)) "unknown close trigger code" ;;;
  position <-- dread (fun s => Ok (getd (VFloat fzero) s "position")) ;;
  trigger <-- (if close then d <-- freeze_exit_trigger "ORIGINAL_COMMAND_NOT_YET_ASSIGNED" exit_reason position quote ;; dret (Some d)
               else dret None) ;;
  preview <-- cid E "driver-preview" ;;
  prepared <-- prepare_command kind quote side cash_limit base_limit preview ;;
  let '(ref, extra, reply) := prepared in
  (if prepare_failed reply then
     let reason := prepare_reason reply in
     dwhen (bool_decide (reason = "SESSION_OWNER_FENCED")) (latch_owner_fence (VStr reason)) ;;;
     draise (driver_error ("prepare failed: " +:+ reason))
   else dret tt) ;;;
  t <-- now_ms E ;;
  before <-- dread (fun s => to_float (getd (VFloat fzero) s "position")) ;;
  parent <-- sget "entry_command_id" ;;
  let command_id := get reply "command_id" in
  sset "pending" (VDict (pending_record kind command_id t side ref before trigger extra parent)) ;;;
  op_save ;;;
  pset "send_state" (VStr "POSSIBLY_SENT") ;;;
  op_save ;;;
  sent <-- op_command "submit" ["--command-id"; py_str command_id] ;;
  record_response sent.

(** ** Closing records *)

Definition copy_exit_evidence (exits : list value) : list value := exits.

(** [any(x["command_id"] == id for x in rows)] *)
Definition has_command (id : value) (rows : list value) : res bool := rany (fun x => let! c := subscript x "command_id" in Ok (py_eq c id)) rows.

Definition record_crypto_exit (p : dict) (f : Fill) : drv unit :=
  parent <-- sget "entry_command_id" ;;
  if negb (truthy parent) || negb (py_eq (get p "parent_entry_command_id") parent) then dret tt
  else
    dupd (dsetdefault "crypto_exit_evidence" (VList [])) ;;;
    rows <-- dread (fun s => as_list (get s "crypto_exit_evidence")) ;;
    id <-- dlift (item p "command_id") ;;
    seen <-- dlift (has_command id rows) ;;
    if seen then dret tt
    else sset "crypto_exit_evidence"
           (VList (rows ++ [VDict [("command_id", id); ("execution_id", f_execution f); ("execution_ids", VList (f_executions f));
                                   ("quantity", VFloat (f_quantity f)); ("price", VFloat (f_price f))]])).

(** The trigger recorded with the command, or a mark that there is none. *)
Definition trigger_of (p : dict) (command_id : value) : dict :=
  match get p "exit_trigger" with
  | VDict d =>
      if py_eq (get d "original_command_id") command_id && eq_str (get d "schema") "heptatrader.driver-close-trigger.v1" then d
      else [("schema", VStr "heptatrader.driver-close-trigger.v1"); ("original_command_id", command_id);
            ("reason_code", VStr "LEGACY_UNATTRIBUTED"); ("reason_source", VStr "LEGACY_MISSING")]
  | _ => [("schema", VStr "heptatrader.driver-close-trigger.v1"); ("original_command_id", command_id);
          ("reason_code", VStr "LEGACY_UNATTRIBUTED"); ("reason_source", VStr "LEGACY_MISSING")]
  end.

Definition receipt_of (p : dict) (f : Fill) (position_after : spec_float) (partial : bool) (t : Z) : dict :=
  [("schema", VStr "heptatrader.driver-close-command-attribution.v1"); ("instrument", VStr (INSTRUMENT crypto));
   ("original_command_id", get p "command_id"); ("broker_order_id", get p "broker_order_id"); ("broker_execution_id", f_execution f);
   ("broker_execution_ids", VList (f_executions f)); ("venue_correlation_id", f_correlation f);
   ("broker_fill_quantity", VFloat (f_quantity f)); ("broker_average_fill_price", VFloat (f_price f));
   ("exit_trigger", VDict (trigger_of p (get p "command_id"))); ("position_before_send", get p "position_before_send");
   ("position_after_terminal_fill", VFloat position_after); ("terminal_partial_exit", VBool partial);
   ("broker_terminal_observed", VBool (f_terminal f)); ("recorded_at_ms", VInt t);
   ("evidence_scope", VStr "DRIVER_REPORTED_REASON_WITH_EXACT_BROKER_FILL_NOT_BROKER_CAUSAL_PROOF")].

Definition of_command (id : value) (v : value) : bool := match v with VDict d => py_eq (get d "original_command_id") id | _ => false end.

Definition record_correlated_close (p : dict) (f : Fill) (position_after : spec_float) (partial : bool) : drv value :=
  dguard (negb (nonempty_str (get p "command_id") && nonempty_str (f_execution f) && nonempty_str (f_correlation f)))
    "original close command/execution attribution missing" ;;;
  t <-- now_ms E ;;
  let receipt := receipt_of p f position_after partial t in
  dupd (dsetdefault "close_command_attribution" (VList [])) ;;;
  h <-- sget "close_command_attribution" ;;
  match h with
  | VList history =>
      match List.find (of_command (get p "command_id")) history with
      | Some (VDict prior) =>
          dguard (negb (py_eq (get prior "broker_execution_id") (f_execution f)) ||
                  negb (py_eq (get prior "broker_execution_ids") (VList (f_executions f))) ||
                  negb (py_eq (get prior "venue_correlation_id") (f_correlation f)) ||
                  negb (py_eq (get prior "exit_trigger") (get receipt "exit_trigger"))) "original close command attribution mismatch" ;;;
          dret (VDict prior)
      | _ =>
          let history := history ++ [VDict receipt] in
          sset "close_command_attribution" (VList (drop (length history - 64) history)) ;;;
          dret (VDict receipt)
      end
  | _ => draise (driver_error "close attribution history corrupted")
  end.

(** A failure of the attribution is recorded and does not stop the settlement. *)
Definition record_close_diagnostic (p : dict) (f : Fill) (position_after : spec_float) (partial : bool) : drv unit :=
  r <-- dtry (receipt <-- record_correlated_close p f position_after partial ;; perform E (Receipt receipt)) ;;
  match r with
  | Ok _ => dret tt
  | Raise e =>
      t <-- now_ms E ;;
      sset "last_close_attribution_error"
        (VDict [("schema", VStr "heptatrader.close-attribution-diagnostic-error.v1"); ("original_command_id", get p "command_id");
                ("exception_type", VStr (class_name (ecls e))); ("reason", VStr (stake 256 (emsg e))); ("observed_at_ms", VInt t);
                ("evidence_scope", VStr "DIAGNOSTIC_FAILURE_NOT_BROKER_STATE")])
  end.

(** ** [inspect_pending] *)

Definition abs_gt (x y : spec_float) : bool := fltb y (fabs x).

(** A command that was definitely not sent is dropped once the broker shows an unchanged
    position, no active order and no order of it. *)
Definition rejection_unproven (p snap : dict) (current : spec_float) : res bool :=
  match get p "position_before_send" with
  | VInt _ | VFloat _ =>
      (let! b := to_float (get p "position_before_send") in Ok (negb (is_finite b))) ||?
      Ok (truthy (get snap "active")) ||?
      (let! b := to_float (get p "position_before_send") in Ok (abs_gt (fsub current b) (QUANTITY_TOLERANCE crypto))) ||?
      Ok (negb (is_none (get p "broker_order_id")))
  | _ => Ok true
  end.

Definition inspect_rejected (p snap : dict) : drv unit :=
  current <-- dlift (let! v := item snap "position" in to_float v) ;;
  unproven <-- dlift (rejection_unproven p snap current) ;;
  if unproven : bool then last_error "definite rejection awaits authoritative unchanged-state proof" ;;; op_save
  else
    sset "position" (VFloat current) ;;; sset "pending" VNone ;;;
    last_error ("definite non-send reconciled: " +:+ py_str (getd (VStr EmptyString) p "application_reason")) ;;; op_save.

(** The status of the original command is not available. *)
Definition status_unavailable (reason : string) : drv unit :=
  t <-- now_ms E ;; pset "last_status" (VDict [("at_ms", VInt t); ("reason_code", VStr reason)]) ;;; op_save.

Definition settlement_mismatch (snap payload : dict) : bool :=
  truthy (get snap "settlement_only") &&
  (negb (nonempty_str (get snap "service_epoch")) || negb (py_eq (get payload "execution_service_epoch") (get snap "service_epoch")) ||
   negb (pos_int (get snap "service_generation")) || negb (is_int (get payload "execution_service_fencing_generation")) ||
   negb (py_eq (get payload "execution_service_fencing_generation") (get snap "service_generation"))).

(** The crypto position moved by exactly the quantity of a terminal fill. *)
Definition crypto_delta_wrong (opening : bool) (p : dict) (position : value) (pos : spec_float) (f : Fill) : res bool :=
  let! before := to_float (getd position p "position_before_send") in
  let expected := if opening then fsub pos before else fsub before pos in
  Ok (negb (f_terminal f) || fleb expected fzero || abs_gt (fsub expected (f_quantity f)) (QUANTITY_TOLERANCE crypto)).

Definition sign_of (side : value) : spec_float :=
  if eq_str side "BUY" then literal 1 0 else if eq_str side "SELL" then SFopp (literal 1 0) else fzero.

Definition open_position_matches (p payload : dict) (active : bool) (pos expected : spec_float) (fill : option Fill) : bool :=
  eq_str (get p "kind") "OPEN" && negb active && abs_gt pos (QUANTITY_TOLERANCE crypto) &&
  (fleb (fabs pos) (fadd expected (QUANTITY_TOLERANCE crypto)) || (crypto && eq_str (get p "quantity_mode") "CASH")) &&
  fltb fzero (fmul (sign_of (get p "side")) pos) && match fill with Some _ => true | None => false end &&
  eq_str (get payload "command_status") "accepted".

(** [observed if type(observed) is int and 0 < observed <= now_ms() else now_ms()] *)
Definition entry_time (observed : value) : drv Z :=
  match observed with
  | VInt o => if 0 <? o then t <-- now_ms E ;; (if o <=? t then dret o else now_ms E) else now_ms E
  | _ => now_ms E
  end.

Definition record_entry (p : dict) (pos : spec_float) (f : Fill) : drv unit :=
  dwhen crypto
    (id <-- dlift (item p "command_id") ;;
     supdate [("entry_command_id", id); ("entry_quantity", VFloat (f_quantity f)); ("entry_broker_execution_id", f_execution f);
              ("entry_venue_correlation_id", f_correlation f); ("entry_broker_execution_ids", VList (f_executions f));
              ("entry_cash_quantity", get p "cash_quantity"); ("crypto_exit_evidence", VList [])]) ;;;
  sset "position" (VFloat pos) ;;; sincr "entries" ;;;
  sset "entry_price" (VFloat (f_price f)) ;;;
  sset "entry_price_basis" (VStr "broker_average_fill_price") ;;;
  t <-- entry_time (f_observed f) ;;
  sset "entry_at_ms" (VInt t) ;;;
  sset "pending" VNone ;;;
  let cash_sized := crypto && eq_str (get p "quantity_mode") "CASH" in
  expected <-- dlift (if cash_sized then Ok (QTY crypto) else to_float (getd (VFloat (QTY crypto)) p "order_quantity")) ;;
  if (fltb (fabs pos) (fsub expected (QUANTITY_TOLERANCE crypto)) && negb cash_sized) || fltb (fadd expected (QUANTITY_TOLERANCE crypto)) (fabs pos)
  then
    halted <-- sget "halt_new_entries" ;;
    dwhen (crypto && negb (truthy halted)) (sset "crypto_partial_owned_halt" (VBool true)) ;;;
    sset "halt_new_entries" (VBool true) ;;;
    sset "risk_halt_reason" (VStr "PARTIAL_OR_UNPROVEN_ENTRY") ;;;
    last_error "entry outside nominal quantity or without full proof; exact reduce-only exit required"
  else last_error EmptyString.

(** Arithmetic with a number of the state. *)
Definition number_of (v : value) : res spec_float := match v with VInt _ | VFloat _ | VBool _ => to_float v | _ => Raise type_error end.

(** [state["gross_pnl"] += (fill_price - entry) * quantity], negated for a short. *)
Definition add_gross (price entry quantity : spec_float) (long : bool) : drv unit :=
  g <-- dread (fun s => let! v := item s "gross_pnl" in number_of v) ;;
  sset "gross_pnl" (VFloat (fadd g (fmul (if long then fsub price entry else fsub entry price) quantity))).

Definition state_position : drv spec_float := dread (fun s => to_float (getd (VInt 0) s "position")).

(** [abs(sum(x["quantity"] for x in exits) - float(entry_quantity)) <= tolerance] *)
Definition exits_complete (exits : list value) (entry_quantity : value) : res bool :=
  let! qs := rmapM (fun x => let! q := subscript x "quantity" in number_of q) exits in
  let! total := to_float (py_sum qs) in
  let! q := to_float entry_quantity in
  Ok (fleb (fabs (fsub total q)) (QUANTITY_TOLERANCE crypto)).

Definition record_roundtrip : drv unit :=
  exits <-- dread (fun s => as_list (getd (VList []) s "crypto_exit_evidence")) ;;
  entry_command <-- sget "entry_command_id" ;;
  entry_execution <-- sget "entry_broker_execution_id" ;;
  if truthy entry_command && truthy entry_execution && negb (bool_decide (exits = [])) then
    complete <-- dread (fun s => exits_complete exits (getd (VInt 0) s "entry_quantity")) ;;
    dwhen complete
      (quantity <-- dread (fun s => item s "entry_quantity") ;;
       t <-- now_ms E ;;
       sset "crypto_roundtrip_proof"
         (VDict [("entry_command_id", entry_command); ("entry_execution_id", entry_execution); ("entry_quantity", quantity);
                 ("exits", VList (copy_exit_evidence exits)); ("verified_at_ms", VInt t)]))
  else dret tt.

(** A halt of a partial crypto position ends with the position. *)
Definition release_partial_halt : drv unit :=
  dupd (fun s =>
    if crypto && truthy (get s "crypto_partial_owned_halt") && in_strs (get s "risk_halt_reason") ["PARTIAL_OR_UNPROVEN_ENTRY"; "PARTIAL_FLATTEN"] &&
       negb (truthy (get s "owner_fence_recovery_required")) && negb (truthy (get s "lease_uncertain"))
    then dset "halt_new_entries" (VBool false) (dset "risk_halt_reason" (VStr EmptyString) (dset "crypto_partial_owned_halt" (VBool false) s))
    else s).

Definition record_exit (p : dict) (pos : spec_float) (f : Fill) : drv unit :=
  record_close_diagnostic p f pos false ;;;
  entry <-- sget "entry_price" ;;
  old <-- state_position ;;
  dwhen (truthy (VFloat (f_price f)) && truthy entry && truthy (VFloat old))
    (e <-- dlift (number_of entry) ;;
     add_gross (f_price f) e (if fltb (f_quantity f) (fabs old) then f_quantity f else fabs old) (fltb fzero old)) ;;;
  dwhen crypto (record_crypto_exit p f ;;; record_roundtrip) ;;;
  supdate [("position", VFloat fzero); ("entry_price", VNone); ("entry_price_basis", VNone); ("entry_at_ms", VNone);
           ("pending", VNone); ("last_error", VStr EmptyString)] ;;;
  sincr "exits" ;;; sincr "closed_trades" ;;;
  release_partial_halt.

(** [int(state.get("partial_exit_fills", 0)) + 1] *)
Definition int_of (v : value) : res Z :=
  match v with VInt z => Ok z | VBool b => Ok (if b then 1 else 0) | VStr s => py_int s
  | VFloat f => match f with S754_infinity _ => Raise overflow_error | S754_nan => Raise value_error
                | S754_zero _ => Ok 0
                | S754_finite s m e => let v := if 0 <=? e then Zpos m * 2 ^ e else Zpos m / 2 ^ (- e) in Ok (if s then - v else v) end
  | _ => Raise type_error end.

(** Whether the settlement of a partial exit was recorded, or its evidence did not fit. *)
Definition record_partial_exit (p : dict) (pos : spec_float) (f : Fill) : drv bool :=
  old <-- state_position ;;
  entry <-- sget "entry_price" ;;
  let reduced := fsub (fabs old) (fabs pos) in
  if negb (truthy entry) || abs_gt (fsub reduced (f_quantity f)) (QUANTITY_TOLERANCE crypto) then
    last_error "partial exit quantity/economic evidence mismatch" ;;; op_save ;;; dret false
  else
    record_close_diagnostic p f pos true ;;;
    e <-- dlift (number_of entry) ;;
    add_gross (f_price f) e reduced (fltb fzero old) ;;;
    dwhen crypto (record_crypto_exit p f) ;;;
    n <-- dread (fun s => int_of (getd (VInt 0) s "partial_exit_fills")) ;;
    sset "partial_exit_fills" (VInt (n + 1)) ;;;
    halted <-- sget "halt_new_entries" ;;
    dwhen (crypto && negb (truthy halted)) (sset "crypto_partial_owned_halt" (VBool true)) ;;;
    sset "position" (VFloat pos) ;;; sset "pending" VNone ;;; sset "halt_new_entries" (VBool true) ;;;
    sset "risk_halt_reason" (VStr "PARTIAL_FLATTEN") ;;;
    last_error "partial flatten terminal; remaining exposure requires next exact reduce-only flatten" ;;;
    dret true.

Definition record_reconciliation (p snap : dict) (f : Fill) : drv unit :=
  pending <-- sget "pending" ;;
  if negb (is_none pending) then dret tt
  else
    id <-- dlift (item p "command_id") ;;
    kind <-- dlift (item p "kind") ;;
    position <-- dread (fun s => item s "position") ;;
    t <-- now_ms E ;;
    sset "last_reconciliation"
      (VDict [("command_id", id); ("kind", kind); ("broker_order_id", get p "broker_order_id"); ("venue_correlation_id", f_correlation f);
              ("execution_ids", VList (f_executions f)); ("cumulative_filled_quantity", VFloat (f_quantity f));
              ("average_fill_price", VFloat (f_price f)); ("broker_status", f_status f); ("position_after", position);
              ("position_scope", getd (VStr "PAPER_BASELINE_DELTA") snap "position_scope");
              ("risk_authoritative", VBool (negb (truthy (getd (VBool false) snap "settlement_only"))));
              ("service_epoch", get snap "service_epoch"); ("connection_epoch", get snap "connection_epoch");
              ("position_generation", get snap "position_generation"); ("reconciled_at_ms", VInt t)]).

(** A terminal order without a fill, and a position that did not move. *)
Definition nonfill_settled (p snap orders : dict) (pos : spec_float) (expected_side : value) : drv bool :=
  nonfill <-- dlift (terminal_nonfill crypto orders p expected_side) ;;
  if nonfill && negb (truthy (get snap "active")) && is_finite pos then
    old <-- dread (fun s => to_float (getd (VFloat fzero) s "position")) ;;
    dret (fltb (fabs (fsub pos old)) (QUANTITY_TOLERANCE crypto))
  else dret false.

Definition settle_nonfill (p snap payload orders : dict) (pos : spec_float) (expected_side : value) : drv unit :=
  settled <-- nonfill_settled p snap orders pos expected_side ;;
  if settled : bool then sset "pending" VNone ;;; last_error ("terminal non-fill: " +:+ py_str (getd (VStr EmptyString) payload "reason_code"))
  else last_error "original command awaiting correlation-bound Broker reconciliation".

Definition partial_exit_shown (p snap : dict) (pos : spec_float) (f : Fill) : drv bool :=
  if eq_str (get p "kind") "CLOSE" && negb (truthy (get snap "active")) && f_terminal f && abs_gt pos (QUANTITY_TOLERANCE crypto) then
    old <-- state_position ;; dret (fltb (fabs pos) (fsub (fabs old) (QUANTITY_TOLERANCE crypto)))
  else dret false.

(** The branches on the evidence; [true] when the rest of the inspection follows. *)
Definition settle (p snap payload orders : dict) (pos : spec_float) (expected_side : value) (fill : option Fill) : drv bool :=
  let active := truthy (get snap "active") in
  expected <-- dlift (if eq_str (get p "kind") "OPEN" && negb crypto then to_float (getd (VFloat (QTY crypto)) p "order_quantity")
                      else Ok (QTY crypto)) ;;
  match fill with
  | Some f =>
      if open_position_matches p payload active pos expected fill then record_entry p pos f ;;; dret true
      else if eq_str (get p "kind") "CLOSE" && fltb (fabs pos) (QUANTITY_TOLERANCE crypto) && negb active &&
              eq_str (get payload "command_status") "accepted" then record_exit p pos f ;;; dret true
      else
        partial <-- partial_exit_shown p snap pos f ;;
        if partial : bool then record_partial_exit p pos f
        else settle_nonfill p snap payload orders pos expected_side ;;; dret true
  | None => settle_nonfill p snap payload orders pos expected_side ;;; dret true
  end.

(** The side of the original order. *)
Definition expected_side_of (p : dict) : drv value :=
  kind <-- dlift (item p "kind") ;;
  if eq_str kind "OPEN" then dret (get p "side")
  else old <-- state_position ;; dret (VStr (if fltb fzero old then "SELL" else "BUY")).

(** The part of the inspection after the status of the original command was received. *)
Definition reconcile (snap payload : dict) : drv unit :=
  dwhen (match get payload "order_id" with VInt z => 0 <=? z | _ => false end) (pset "broker_order_id" (get payload "order_id")) ;;;
  pos <-- dlift (let! v := item snap "position" in to_float v) ;;
  p <-- dread (fun s => Ok (pending_of s)) ;;
  side <-- expected_side_of p ;;
  orders <-- dlift (let! v := item snap "orders" in attr_dict v) ;;
  fill <-- dlift (recent_fill crypto orders p side) ;;
  match fill with
  | Some f => pset "venue_correlation_id" (f_correlation f) ;;; pset "broker_execution_id" (f_execution f)
  | None => dret tt
  end ;;;
  wrong <-- match fill with
            | Some f => if crypto then
                          dread (fun s => crypto_delta_wrong (eq_str (get p "kind") "OPEN") p (getd (VInt 0) s "position") pos f)
                        else dret false
            | None => dret false
            end ;;
  if wrong : bool then last_error "crypto fill awaits exact terminal position-delta reconciliation" ;;; op_save
  else
    t <-- now_ms E ;;
    pset "last_status" (VDict [("at_ms", VInt t); ("command_status", get payload "command_status");
                               ("reason_code", getd (VStr EmptyString) payload "reason_code")]) ;;;
    p <-- dread (fun s => Ok (pending_of s)) ;;
    more <-- settle p snap payload orders pos side fill ;;
    if more : bool then
      match fill with Some f => record_reconciliation p snap f | None => dret tt end ;;; op_save
    else dret tt.

Definition inspect_pending (snap : dict) : drv unit :=
  pending <-- sget "pending" ;;
  match pending with
  | VNone => dret tt
  | VDict p =>
      if eq_str (get p "send_state") "DEFINITELY_REJECTED" then inspect_rejected p snap
      else
        id <-- dlift (item p "command_id") ;;
        call_id <-- cid E "driver-status" ;;
        inspected <-- op_command "inspect" ["--command-id"; py_str id; "--call-id"; call_id] ;;
        if negb (response_transport_ok inspected) then
          status_unavailable (py_str (getd (VStr "INSPECTION_TRANSPORT_FAILED") inspected "reason"))
        else
          match inb (response_application_status inspected) ["ok"; "duplicate"], get inspected "result" with
          | true, VDict result =>
              payload <-- dlift (if truthy (get result "payload") then attr_dict (get result "payload") else Ok []) ;;
              if negb (is_true (get payload "authoritative")) || negb (py_eq (get payload "command_id") id) then
                status_unavailable "ORIGINAL_COMMAND_STATUS_UNAVAILABLE"
              else if settlement_mismatch snap payload then
                t <-- now_ms E ;;
                pset "last_status" (VDict [("at_ms", VInt t); ("reason_code", VStr "ORIGINAL_COMMAND_SNAPSHOT_MISMATCH")]) ;;;
                last_error "original command snapshot changed; settlement remains pending" ;;; op_save
              else reconcile snap payload
          | _, _ =>
              let reason := response_application_reason inspected in
              status_unavailable (if bool_decide (reason = EmptyString) then "ORIGINAL_COMMAND_STATUS_UNAVAILABLE" else reason)
          end
  | _ => draise attribute_error
  end.

End commands.

(** What a derived driver replaces: the calls above, and how a command is prepared. *)
Class Hooks := {
  hook_ops :: Ops;
  op_prepare (kind : string) (quote side : value) (cash_limit base_limit : spec_float) (exit_reason : value) : drv unit }.

(** The driver itself. *)
Definition base_hooks (E : env) (crypto : bool) : Hooks :=
  {| hook_ops := base_ops E; op_prepare := @prepare_send E (base_ops E) crypto |}.

End DriverCommand.
