(* ===== verification/DriverLease.v ===== *)
(** * The paper driver: snapshots, the session lease and owner recovery

    [snapshot] collects and checks the broker's state; [maybe_renew] keeps the session
    lease alive; [recover_owner] resumes a fenced owner after an audit.  They change the
    halt and fence flags of the state and leave the pending command alone. *)

From Stdlib Require Import Ascii Floats.SpecFloat.
From S2P Require Import Prelude PyText PyValue PyOrder PyBytes PyFloat Driver DriverCommand.
From stdpp Require Import base tactics list strings.
From Stdlib Require Import ZArith Lia Bool.
Import DriverCommand.

Open Scope Z_scope.

Module DriverLease.

Section lease.
Context (E : env) `{Ops} (crypto : bool).

(** [state.get(k)] is true, for a read inside a condition. *)
Definition flag (k : string) : drv bool := dread (fun s => Ok (truthy (get s k))).
(** [int(state.get(k, n))] *)
Definition sint (k : string) (n : Z) : drv Z := dread (fun s => int_of (getd (VInt n) s k)).

(** ** Snapshots *)

Definition is_bool (v : value) : bool := match v with VBool _ => true | _ => false end.

Definition owner_unavailable (owner : value) : bool :=
  match owner with
  | VDict o =>
      negb (eq_str (get o "source") "IB") || negb (is_true (get o "authoritative")) ||
      negb (is_bool (get o "owner_fenced")) || negb (is_bool (get o "owner_recovery_only")) || negb (is_bool (get o "mutation_ready"))
  | _ => true
  end.

Definition snapshot_invalid (h o p : dict) : bool :=
  negb (eq_str (get h "execution_mode") "PAPER") || negb (truthy (get h "gateway_ready")) || negb (truthy (get h "remote_execution_ready")) ||
  negb (eq_str (get o "source") "IB") || negb (truthy (get o "authoritative")) || negb (truthy (get o "global_active_orders_complete")) ||
  negb (truthy (get o "owner_projection_complete")) || negb (eq_str (get p "source") "IB") || negb (truthy (get p "authoritative")) ||
  negb (is_list (get p "positions")) || negb (is_list (get o "active_order_ids")).

Definition quote_invalid (q l : dict) : bool :=
  negb (eq_str (get q "source") "IB") || negb (truthy (get q "authoritative")) || negb (is_false (get q "stale")) ||
  negb (eq_str (get l "source") "IB") || negb (truthy (get l "authoritative")).

(** [x.get("instrument") == INSTRUMENT] *)
Definition of_instrument (x : value) : res bool := let! d := attr_dict x in Ok (eq_str (get d "instrument") (INSTRUMENT crypto)).
Definition quantity_of (x : value) : res spec_float := let! v := subscript x "quantity" in to_float v.

(** [v or {}] *)
Definition or_empty (v : value) : res dict := if truthy v then attr_dict v else Ok [].

(** A physical crypto balance may settle the pending command while trading is fenced. *)
Definition settlement_valid (h orders portfolio owner physical : dict) : res bool :=
  Ok (crypto && eq_str (get h "execution_mode") "PAPER" && is_true (get h "gateway_ready") && is_true (get h "remote_execution_ready") &&
      eq_str (get owner "source") "IB" && is_true (get owner "authoritative") && is_true (get owner "startup_recovery_read_only") &&
      is_true (get owner "mutation_blocked") && is_false (get owner "mutation_ready") &&
      eq_str (get owner "mutation_reason") "IB_FX_CASH_ATTESTED_BALANCE_MISMATCH" &&
      eq_str (get orders "source") "IB" && is_true (get orders "authoritative") && is_true (get orders "global_active_orders_complete") &&
      is_true (get orders "owner_projection_complete") && py_eq (get orders "active_order_ids") (VList []) &&
      eq_str (get portfolio "source") "IB" && is_false (get portfolio "authoritative") &&
      eq_str (get physical "source") "IB_REQ_POSITIONS" && is_true (get physical "authoritative") &&
      eq_str (get physical "scope") "PHYSICAL_CRYPTO_ONLY" && is_false (get physical "mutation_authorized") &&
      nonempty_str (get physical "account")) &&?
  (let! scope := attr_dict (getd (VDict []) orders "owner_scope") in Ok (py_eq (get physical "account") (get scope "account"))) &&?
  Ok (py_eq (get physical "execution_service_epoch") (get h "execution_service_epoch") && nonempty_str (get h "execution_service_epoch") &&
      pos_int (get h "execution_service_fencing_generation") && pos_int (get physical "connection_epoch") &&
      py_eq (get physical "connection_epoch") (get orders "active_orders_connection_epoch") &&
      pos_int (get physical "position_generation") && pos_int (get physical "terminal_generation") &&
      pos_int (get physical "active_orders_generation") &&
      py_eq (get physical "active_orders_generation") (get orders "active_orders_generation") && pos_int (get physical "sampled_at_ms")).

(** [0 <= now_ms() - sampled <= 10000] *)
Definition sampled_recently (sampled : value) : drv bool :=
  t <-- now_ms E ;; dret (match sampled with VInt s => (0 <=? t - s) && (t - s <=? 10000) | _ => false end).

(** The one BTC balance of the observation. *)
Definition physical_quantity (positions : value) : res (option spec_float) :=
  match positions with
  | VList [VDict x] =>
      if negb (eq_str (get x "instrument") "BTC.USD") then Ok None
      else match get x "quantity" with
           | VInt _ | VFloat _ => let! q := to_float (get x "quantity") in Ok (if is_finite q then Some q else None)
           | _ => Ok None
           end
  | _ => Ok None
  end.

Definition physical_crypto_settlement_snapshot (h orders portfolio : dict) : drv dict :=
  owner <-- dlift (or_empty (get h "execution_authoritative_health")) ;;
  physical <-- dlift (or_empty (get portfolio "settlement_observation")) ;;
  shape <-- dlift (settlement_valid h orders portfolio owner physical) ;;
  valid <-- (if shape : bool then sampled_recently (get physical "sampled_at_ms") else dret false) ;;
  quantity <-- dlift (if valid : bool then physical_quantity (get physical "positions") else Ok None) ;;
  match quantity with
  | Some q =>
      dret [("orders", VDict orders); ("quote", VNone); ("position", VFloat q); ("gross_position", VFloat (fabs q)); ("active", VList []);
            ("owner_health", VDict owner); ("service_epoch", get h "execution_service_epoch");
            ("service_generation", get h "execution_service_fencing_generation"); ("connection_epoch", get physical "connection_epoch");
            ("position_generation", get physical "position_generation"); ("position_scope", VStr "PHYSICAL_CRYPTO_ONLY");
            ("settlement_only", VBool true)]
  | None => draise (driver_error "physical crypto settlement observation incomplete; trading remains fenced")
  end.

(** [tracked]: the call passes the state, which is then fenced with its owner. *)
Definition snapshot (tracked require_quote allow_settlement : bool) : drv dict :=
  h <-- native E "system.get_health" [] ;;
  let owner_value := get h "execution_authoritative_health" in
  dguard (owner_unavailable owner_value) "authoritative owner mutation readiness unavailable" ;;;
  owner <-- dlift (attr_dict owner_value) ;;
  dwhen tracked
    (sset "active_lease_continuation_supported" (VBool (is_true (get owner "active_lease_continuation_supported"))) ;;;
     dwhen (is_true (get owner "owner_fenced") || is_true (get owner "owner_recovery_only"))
       (latch_owner_fence E (if truthy (get owner "mutation_reason") then get owner "mutation_reason" else VStr "SESSION_OWNER_FENCED"))) ;;;
  o <-- native E "orders.list" [] ;;
  p <-- native E "portfolio.list_positions" [] ;;
  if allow_settlement && negb require_quote && is_false (get p "authoritative") then physical_crypto_settlement_snapshot h o p
  else
    ql <-- (if require_quote then
              q <-- native E "market.get_quote" ["instrument=" +:+ INSTRUMENT crypto] ;;
              l <-- native E "risk.get_limits" [] ;; dret (Some (q, l))
            else dret None) ;;
    dguard (snapshot_invalid h o p || match ql with Some (q, l) => quote_invalid q l | None => false end)
      "authoritative PAPER snapshot incomplete" ;;;
    positions <-- dlift (as_list (get p "positions")) ;;
    quantities <-- dlift (rmapM quantity_of positions) ;;
    dguard (negb (forallb is_finite quantities)) "nonfinite authoritative position" ;;;
    mine <-- dlift (rfilter of_instrument positions) ;;
    own <-- dlift (rmapM quantity_of mine) ;;
    ids <-- dlift (let! l := as_list (get o "active_order_ids") in rmapM int_of l) ;;
    dret [("orders", VDict o); ("quote", match ql with Some (q, _) => VDict q | None => VNone end); ("position", py_sum own);
          ("gross_position", py_sum (map fabs quantities)); ("active", VList (map VInt ids)); ("owner_health", VDict owner);
          ("service_epoch", get h "execution_service_epoch"); ("service_generation", get h "execution_service_fencing_generation")].

(** ** Holds *)

(** The file is there, it is not, or its state is unknown. *)
Definition marker_state (name : string) : drv (option bool) := fun w =>
  match perform E (Marker name) w with
  | (w', Ok _) => (w', Ok (Some true))
  | (w', Raise e) => if bool_decide (e = Exn OSError "FileNotFoundError") then (w', Ok (Some false))
                     else match ecls e with OSError => (w', Ok None) | _ => (w', Raise e) end
  end.

Definition maintenance_entry_hold_reason : drv (option string) :=
  m <-- marker_state "maintenance-hold.json" ;;
  match m with
  | Some true => dret (Some "PERSISTENT_MAINTENANCE_HOLD")
  | None => dret (Some "ENTRY_HOLD_STATE_UNAVAILABLE")
  | Some false =>
      k <-- marker_state "kill-switch" ;;
      match k with
      | Some true => dret (Some "NATIVE_KILL_SWITCH_PRESENT")
      | None => dret (Some "ENTRY_HOLD_STATE_UNAVAILABLE")
      | Some false => dret None
      end
  end.

Definition entry_inference_hold_reason : drv (option string) :=
  halted <-- flag "halt_new_entries" ;;
  if halted : bool then dret (Some "DRIVER_NEW_ENTRY_HALT") else maintenance_entry_hold_reason.

Definition recovery_entry_hold_reason : drv (option string) :=
  m <-- maintenance_entry_hold_reason ;;
  match m with
  | Some r => dret (Some r)
  | None =>
      dread (fun s => Ok (
        if truthy (get s "risk_halt_reason") then Some "DRIVER_RISK_HALT"
        else if truthy (get s "settlement_hold_reason") then Some "DRIVER_SETTLEMENT_HOLD"
        else if truthy (get s "halt_new_entries") && is_false (get s "owner_fence_owned_halt") && negb (truthy (get s "lease_renewal_owned_halt"))
        then Some "DRIVER_NEW_ENTRY_HALT" else None))
  end.

(** ** The session lease *)

(** [_parse_command_json]: what cannot be read is the empty answer. *)
Definition _parse_command_json (stdout : string) : dict :=
  if bool_decide (stdout = EmptyString) then [] else match strict_json stdout with Ok d => d | Raise _ => [] end.

Definition session_call (op : string) (g : Z) : drv (dict * Z) :=
  v <-- perform E (Session op g) ;;
  p <-- dlift (process v) ;;
  dret (_parse_command_json p.1, p.2).

Definition _finish_renewal (generation : Z) : drv unit :=
  owned <-- dread (fun s => Ok (getd (VBool false) s "lease_renewal_owned_halt")) ;;
  t <-- now_ms E ;;
  supdate [("lease_generation", VInt generation); ("lease_last_renew_ms", VInt t); ("lease_renewal_state", VStr "IDLE");
           ("lease_uncertain", VBool false); ("lease_renewal_drain", VBool false); ("lease_renewal_owned_halt", VBool false)] ;;;
  dupd (fun s => if truthy owned && negb (truthy (get s "owner_fence_recovery_required")) && negb (truthy (get s "risk_halt_reason"))
                 then dset "halt_new_entries" (VBool false) s else s) ;;;
  dupd (fun s => if negb (truthy (get s "owner_fence_recovery_required")) then dset "last_error" (VStr EmptyString) s else s).

(** A halt taken for the renewal is owned by it. *)
Definition halt_for_renewal : drv unit :=
  halted <-- flag "halt_new_entries" ;;
  dwhen (negb halted) (sset "lease_renewal_owned_halt" (VBool true)) ;;;
  sset "halt_new_entries" (VBool true).

Definition LEASE_PERIOD : Z := 4 * 60 * 60 * 1000.

(** The reason of an answer, or the given text. *)
Definition reason_or (v : dict) (text : string) : string := if truthy (get v "reason_code") then py_str (get v "reason_code") else text.

(** [type(v) is int and v == n] and [type(v) is int and v > n] *)
Definition is_generation (v : value) (n : Z) : bool := match v with VInt z => z =? n | _ => false end.
Definition later_generation (v : value) (n : Z) : bool := match v with VInt z => n <? z | _ => false end.

Definition continue_active_lease (active_orders : Z) (pending : value) : drv unit :=
  known <-- dread (fun s => Ok (truthy (get s "lease_uncertain") || eq_str (get s "lease_renewal_state") "POSSIBLY_SENT")) ;;
  due <-- (if known : bool then dret true
           else t <-- now_ms E ;; last <-- sint "lease_last_renew_ms" 0 ;; dret (LEASE_PERIOD <=? t - last)) ;;
  if negb due then dret tt
  else
    halt_for_renewal ;;;
    if negb (active_orders =? 0) || negb (is_none pending) then
      last_error "lease continuation waits for original command settlement" ;;; op_save
    else
      t <-- now_ms E ;; retry <-- sint "lease_continue_retry_ms" 0 ;;
      if t <? retry then dret tt
      else
        t <-- now_ms E ;; sset "lease_continue_retry_ms" (VInt (t + 30000)) ;;;
        g <-- sint "lease_generation" 1 ;;
        sset "lease_renewal_state" (VStr "POSSIBLY_SENT") ;;;
        op_save ;;;
        answer <-- dtry (session_call "renew-active" g) ;;
        match answer with
        | Raise e => sset "lease_uncertain" (VBool true) ;;; op_save ;;; draise e
        | Ok (v, code) =>
            let generation := get v "lease_generation" in
            if (code =? 0) && is_true (get v "accepted") && eq_str (get v "reason_code") "SESSION_LEASE_CONTINUED" && is_generation generation (g + 1)
            then _finish_renewal (g + 1) ;;; op_save
            else
              let reason := reason_or v "SESSION_LEASE_CONTINUATION_UNCERTAIN" in
              dwhen (bool_decide (reason = "SESSION_LEASE_GENERATION_MISMATCH") && later_generation generation g)
                (sset "lease_generation" generation) ;;;
              if inb reason ["SESSION_OWNER_FENCE_PENDING"; "SESSION_OWNER_RECOVERY_REQUIRED"; "SESSION_LEASE_CONTINUATION_NOT_ALLOWED"]
              then latch_owner_fence E (VStr reason)
              else
                sset "lease_uncertain" (VBool (negb (truthy (VDict v)))) ;;;
                last_error ("lease continuation pending: " +:+ reason) ;;; op_save
        end.

Definition maybe_renew (position : spec_float) (active_orders : Z) (pending : value) : drv unit :=
  fenced <-- flag "owner_fence_recovery_required" ;;
  if fenced : bool then dret tt
  else
    continued <-- flag "active_lease_continuation_supported" ;;
    if continued : bool then continue_active_lease active_orders pending
    else
      uncertain <-- dread (fun s => Ok (truthy (get s "lease_uncertain") || eq_str (get s "lease_renewal_state") "POSSIBLY_SENT")) ;;
      if uncertain : bool then latch_owner_fence E (VStr "SESSION_RENEWAL_UNCERTAIN")
      else
        t <-- now_ms E ;; last <-- sint "lease_last_renew_ms" 0 ;;
        if t - last <? LEASE_PERIOD then dret tt
        else
          halt_for_renewal ;;;
          if abs_gt position (QUANTITY_TOLERANCE crypto) || negb (active_orders =? 0) || negb (is_none pending) then
            sset "lease_renewal_drain" (VBool true) ;;;
            last_error "session renewal due; drain to exact-zero before renewal" ;;; op_save
          else
            g <-- sint "lease_generation" 1 ;;
            sset "lease_renewal_state" (VStr "POSSIBLY_SENT") ;;;
            op_save ;;;
            answer <-- dtry (session_call "renew" g) ;;
            match answer with
            | Raise e => sset "lease_uncertain" (VBool true) ;;; latch_owner_fence E (VStr "SESSION_RENEWAL_UNCERTAIN") ;;; draise e
            | Ok (v, code) =>
                if (code =? 0) && is_true (get v "accepted") && is_generation (get v "lease_generation") (g + 1)
                then _finish_renewal (g + 1) ;;; op_save
                else
                  sset "lease_uncertain" (VBool (negb (truthy (VDict v)))) ;;;
                  latch_owner_fence E (VStr (reason_or v "SESSION_RENEWAL_UNCERTAIN"))
            end.

(** ** Owner recovery *)

Definition recovery_position_flat (snap : dict) : bool :=
  match get snap "position" with
  | VInt z => z =? 0
  | VFloat f => is_finite f && feqb f fzero
  | _ => false
  end.

Definition not_flat (snap : dict) : bool := truthy (get snap "active") || negb (recovery_position_flat snap).

(** The control snapshot of the recovery: the first one when the owner was resumed before,
    otherwise one taken after the resumption is confirmed; none before the next attempt is due. *)
Definition resume_owner (snap : dict) : drv (option dict) :=
  verifying <-- dread (fun s => Ok (eq_str (get s "owner_recovery_phase") "VERIFY_PREVIEW")) ;;
  if verifying : bool then dret (Some snap)
  else
    t <-- now_ms E ;; next <-- sint "owner_recovery_next_attempt_ms" 0 ;;
    if t <? next then dret None
    else
      g <-- sint "lease_generation" 1 ;;
      sset "owner_recovery_phase" (VStr "RESUME_SENT") ;;;
      n <-- sint "owner_recovery_attempts" 0 ;;
      sset "owner_recovery_attempts" (VInt (n + 1)) ;;;
      t <-- now_ms E ;; sset "owner_recovery_next_attempt_ms" (VInt (t + 60000)) ;;;
      op_save ;;;
      answer <-- session_call "paper-resume" g ;;
      let '(v, code) := answer in
      let generation := get v "lease_generation" in
      if negb (code =? 0) || negb (is_true (get v "accepted")) || negb (eq_str (get v "reason_code") "SESSION_OWNER_RESUMED") ||
         negb (is_generation generation (g + 1)) then
        dwhen (eq_str (get v "reason_code") "SESSION_LEASE_GENERATION_MISMATCH" && later_generation generation g)
          (sset "lease_generation" generation) ;;;
        sset "owner_recovery_phase" (VStr "AUDIT_REQUIRED") ;;;
        let reason := reason_or v "SESSION_RESUME_UNCERTAIN" in
        sset "owner_recovery_last_reason" (VStr reason) ;;;
        op_save ;;;
        draise (driver_error ("owner resume not confirmed: " +:+ reason))
      else
        sset "lease_generation" generation ;;;
        sset "owner_recovery_phase" (VStr "VERIFY_PREVIEW") ;;;
        t <-- now_ms E ;; sset "owner_resume_confirmed_ms" (VInt t) ;;;
        op_save ;;;
        control <-- snapshot true false false ;;
        dret (Some control).

Definition owner_of (snap : dict) : res dict := let! v := item snap "owner_health" in attr_dict v.

(** [format(float(v), ".17g")] of the ask of a snapshot *)
Definition ask_of (snap : dict) : res spec_float := let! q := item snap "quote" in let! a := subscript q "ask" in to_float a.

Definition preview_fields (ask : spec_float) (expires : Z) : res (list string) :=
  let common := ["instrument=" +:+ INSTRUMENT crypto; "side=BUY"; "order_type=MKT"; "tif=" +:+ (if crypto then "IOC" else "DAY");
                 "reference_price=" +:+ format_17g ask; "expires_at_ms=" +:+ str_int expires] in
  if crypto then
    let! cash := crypto_market_cash_budget crypto ask (literal 25000 0) (literal 1 0) false in
    Ok (common ++ ["symbol=BTC"; "sec_type=CRYPTO"; "exchange=PAXOS"; "currency=USD"; "cash_quantity=" +:+ format_17g cash])
  else let! q := fx_order_quantity ask in Ok (common ++ ["quantity=" +:+ format_17g q]).

(** The owner has control again: flat, not fenced, without active orders. *)
Definition control_restored (control : dict) : drv dict :=
  owner <-- dlift (owner_of control) ;;
  (if truthy (get owner "owner_fenced") then
     sset "owner_recovery_phase" (VStr "AUDIT_REQUIRED") ;;; op_save ;;; draise (driver_error "owner fenced again before verification")
   else dret tt) ;;;
  (if truthy (get owner "owner_recovery_only") || not_flat control then
     sset "owner_recovery_wait_reason" (VStr "CONTROL_RECONCILIATION_REQUIRED") ;;; op_save ;;;
     draise (driver_error "post-resume authoritative control reconciliation is not ready")
   else dret tt) ;;;
  t <-- now_ms E ;;
  epoch <-- dlift (item control "service_epoch") ;;
  fencing <-- dlift (item control "service_generation") ;;
  generation <-- dread (fun s => item s "lease_generation") ;;
  sset "owner_control_recovery"
    (VDict [("state", VStr "RESTORED"); ("checked_at_ms", VInt t); ("service_epoch", epoch); ("service_fencing_generation", fencing);
            ("lease_generation", generation); ("entry_ready", VBool false)]) ;;;
  dret owner.

(** The fence is lifted, then the halt that was taken for it or for the lease. *)
Definition restore_entries (snap : dict) (owned : bool) : drv bool :=
  t1 <-- now_ms E ;;
  t2 <-- now_ms E ;;
  supdate [("owner_fence_recovery_required", VBool false); ("owner_fence_owned_halt", VBool false); ("owner_recovery_phase", VStr "VERIFIED");
           ("owner_recovery_verified_ms", VInt t1); ("owner_fence_block_reason", VStr EmptyString); ("last_transient_error", VStr EmptyString);
           ("owner_recovery_service_epoch", get snap "service_epoch"); ("owner_recovery_last_reason", VStr EmptyString);
           ("lease_uncertain", VBool false); ("lease_renewal_state", VStr "IDLE"); ("lease_renewal_drain", VBool false);
           ("lease_renewal_owned_halt", VBool false); ("lease_last_renew_ms", VInt t2); ("last_error", VStr EmptyString)] ;;;
  sset "owner_recovery_wait_reason" (VStr EmptyString) ;;;
  t3 <-- now_ms E ;;
  dupd (fun s => match get s "owner_control_recovery" with
                 | VDict d => dset "owner_control_recovery" (VDict (dset "checked_at_ms" (VInt t3) (dset "entry_ready" (VBool true) d))) s
                 | _ => s end) ;;;
  dupd (fun s => if owned && negb (truthy (get s "risk_halt_reason")) then dset "halt_new_entries" (VBool false) s else s) ;;;
  op_save ;;;
  dret true.

(** Entries are released once a preview proves the service that was audited. *)
Definition verify_preview (snap : dict) : drv bool :=
  sset "owner_recovery_wait_reason" (VStr "ENTRY_PREVIEW_REQUIRED") ;;;
  guard <-- perform E Guard ;;
  code <-- dlift (process guard) ;;
  dguard (negb (code.2 =? 0)) "post-audit local PAPER guard not ready" ;;;
  ask <-- dlift (ask_of snap) ;;
  t <-- now_ms E ;;
  fields <-- dlift (preview_fields ask (t + 4000)) ;;
  preview <-- native E "risk.preview_order" fields ;;
  dguard (negb (is_true (get preview "approved")) || negb (truthy (get preview "preview_permit")) ||
          negb (py_eq (get preview "service_epoch") (get snap "service_epoch")) ||
          negb (py_eq (get preview "service_fencing_generation") (get snap "service_generation")))
    "post-resume preview did not prove current service readiness" ;;;
  owned <-- dread (fun s => Ok (truthy (get s "owner_fence_owned_halt") || truthy (get s "lease_renewal_owned_halt"))) ;;
  restore_entries snap owned.

(** [result]: whether the recovery is complete. *)
Definition recover_owner : drv bool :=
  required <-- flag "owner_fence_recovery_required" ;;
  if negb required then dret false
  else
    pending <-- sget "pending" ;;
    dguard (negb (is_none pending)) "recovery requires original pending command reconciliation" ;;;
    first <-- snapshot true false false ;;
    dguard (not_flat first) "recovery requires authoritative zero orders and zero total strategy position in the recovery scope" ;;;
    resumed <-- resume_owner first ;;
    match resumed with
    | None => dret false
    | Some control =>
        owner <-- control_restored control ;;
        pause <-- recovery_entry_hold_reason ;;
        match pause, is_true (get owner "mutation_ready") with
        | None, true =>
            sset "owner_recovery_wait_reason" (VStr "ENTRY_SNAPSHOT_REQUIRED") ;;;
            op_save ;;;
            snap <-- snapshot true true false ;;
            owner <-- dlift (owner_of snap) ;;
            dguard (truthy (get owner "owner_fenced") || truthy (get owner "owner_recovery_only") || negb (is_true (get owner "mutation_ready")) ||
                    not_flat snap || negb (py_eq (get snap "service_epoch") (get control "service_epoch")) ||
                    negb (py_eq (get snap "service_generation") (get control "service_generation")))
              "post-resume authoritative mutation gate is not ready" ;;;
            pause <-- recovery_entry_hold_reason ;;
            match pause with
            | Some r => sset "owner_recovery_wait_reason" (VStr r) ;;; op_save ;;; dret false
            | None => verify_preview snap
            end
        | _, _ =>
            sset "owner_recovery_wait_reason" (VStr (default "ENTRY_MUTATION_GATE_NOT_READY" pause)) ;;; op_save ;;; dret false
        end
    end.

End lease.
End DriverLease.
