(* ===== verification/DriverLoop.v ===== *)
(** * The paper driver: the resident loop and its modes

    One iteration of the loop of [main] in scripts/heptatrader_paper_driver.py: a snapshot,
    the lease, then either the pending command, or the recovery of the owner, or trading on
    a fresh quote.  The model worker is a thread; the loop sees its position, the time of
    its quote and the answers to [done], [result] and [cancel].  The local variables that
    survive an exception of the body are passed explicitly. *)

From Stdlib Require Import Ascii Floats.SpecFloat.
From S2P Require Import Prelude PyText PyValue PyOrder PyBytes PyFloat Driver DriverCommand DriverLease.
From stdpp Require Import base tactics list strings.
From Stdlib Require Import ZArith Lia Bool.
Import DriverCommand DriverLease.

Open Scope Z_scope.

Module DriverLoop.

Definition CONF : spec_float := literal 62 (-2).
Definition MAX_ADVERSE : spec_float := literal 2 (-3).
Definition MAX_HISTORY : nat := 60.
Definition MODEL_SIGNAL_TTL_MS : Z := 60000.
Definition DECISION_MS : Z := 120000.

(** ** Programs with local variables *)

Record worker := mkWorker { wk_position : spec_float; wk_observed_at_ms : Z }.
Record locals := mkLocals { lc_worker : option worker; lc_discarded : bool }.

Definition lp (A : Type) : Type := locals -> world -> world * locals * res A.

Definition lbind {A B} (m : lp A) (k : A -> lp B) : lp B := fun l w =>
  match m l w with (w', l', Ok a) => k a l' w' | (w', l', Raise e) => (w', l', Raise e) end.
Definition lift {A} (m : drv A) : lp A := fun l w => let (w', r) := m w in (w', l, r).
Definition lset (l : locals) : lp unit := fun _ w => (w, l, Ok tt).
Definition lget : lp locals := fun l w => (w, l, Ok l).

Notation "x <~~ m ;; k" := (lbind m (fun x => k)) (at level 98, m at next level, right associativity) : py_scope.
Notation "m ;~ k" := (lbind m (fun _ => k)) (at level 98, right associativity) : py_scope.

Definition lwhen (c : bool) (m : lp unit) : lp unit := if c then m else lift (dret tt).

(** ** Predicates *)

Section predicates.
Context (crypto : bool).

Definition entry_candidate_allowed (decision : value) : res bool :=
  match decision with
  | VDict d =>
      when negb (hashable (get d "action")) raise type_error in
      if in_strs (get d "action") (if crypto then ["BUY"] else ["BUY"; "SELL"]) then py_le (VFloat CONF) (getd (VInt (-1)) d "confidence")
      else Ok false
  | _ => Ok false
  end.

(** Whether to close, with the reason. *)
Definition should_close (s : dict) (pos : spec_float) (quote decision : value) : res (option string) :=
  if truthy (get s "halt_new_entries") then Ok (Some "HALT_REDUCE_ONLY")
  else
    let! adverse :=
      (if truthy (get s "entry_price") then
         let! entry := to_float (get s "entry_price") in
         (if fltb fzero pos then
            let! v := subscript quote "bid" in let! bid := to_float v in
            Ok (fleb bid (fmul entry (fsub (literal 1 0) MAX_ADVERSE)))
          else Ok false) ||?
         (if fltb pos fzero then
            let! v := subscript quote "ask" in let! ask := to_float v in
            Ok (fleb (fmul entry (fadd (literal 1 0) MAX_ADVERSE)) ask)
          else Ok false)
       else Ok false) in
    if adverse : bool then Ok (Some "MAX_ADVERSE_MOVE")
    else
      let! reversal :=
        Ok (truthy decision) &&? (let! c := subscript decision "confidence" in py_le (VFloat CONF) c) &&?
        ((if fltb fzero pos then let! a := subscript decision "action" in Ok (eq_str a "SELL") else Ok false) ||?
         (if fltb pos fzero then let! a := subscript decision "action" in Ok (eq_str a "BUY") else Ok false)) in
      Ok (if reversal : bool then Some "MODEL_REVERSAL" else None).

(** A number of a proof: an int or a float, not a bool, finite and positive. *)
Definition proof_number (v : value) : res (option spec_float) :=
  match v with
  | VInt _ | VFloat _ => let! f := to_float v in Ok (if is_finite f && fltb fzero f then Some f else None)
  | _ => Ok None
  end.

(** The sum of the exits, unless one of them is not proved or repeats a command. *)
Fixpoint proved_exits (rows seen : list value) (total : spec_float) : res (option spec_float) :=
  match rows with
  | [] => Ok (Some total)
  | VDict row :: rows =>
      if negb (truthy (get row "command_id")) || negb (truthy (get row "execution_id")) then Ok None
      else
        when negb (hashable (get row "command_id")) raise type_error in
        if py_in (get row "command_id") seen then Ok None
        else
          let! q := proof_number (get row "quantity") in
          match q with Some q => proved_exits rows (get row "command_id" :: seen) (fadd total q) | None => Ok None end
  | _ :: _ => Ok None
  end.

Definition crypto_roundtrip_qualified (s : dict) : res bool :=
  match get s "crypto_roundtrip_proof" with
  | VDict proof =>
      if negb (truthy (get proof "entry_command_id")) || negb (truthy (get proof "entry_execution_id")) then Ok false
      else
        let! qty := proof_number (get proof "entry_quantity") in
        match qty, get proof "exits" with
        | Some q, VList (r :: rows) =>
            let! total := proved_exits (r :: rows) [] fzero in
            Ok match total with Some t => is_finite t && fleb (fabs (fsub t q)) (QUANTITY_TOLERANCE crypto) | None => false end
        | _, _ => Ok false
        end
  | _ => Ok false
  end.
End predicates.

(** ** The decision of the model *)

Definition openclaw_model_ref (model : string) : res string :=
  let model := rstrip (lstrip model) in
  when bool_decide (model = EmptyString) raise driver_error "model id is empty" in
  Ok (if bool_decide (model = "gpt-6-luna") then "openai/gpt-5.6-luna"
      else if shas (chr 47) model then model else "openai/" +:+ model).

(** The text of the one output of the envelope, as an object. *)
Definition model_envelope (stdout : string) : res dict :=
  let! envelope := strict_json stdout in
  match get envelope "outputs" with
  | VList [output] =>
      when negb (is_true (get envelope "ok")) raise driver_error "model decision envelope invalid" in
      match output with
      | VDict d =>
          match get d "text" with
          | VStr text => when bool_decide (rstrip (lstrip text) = EmptyString) raise driver_error "model decision output missing" in strict_json text
          | _ => Raise (driver_error "model decision output missing")
          end
      | _ => Raise (driver_error "model decision output missing")
      end
  | _ => Raise (driver_error "model decision envelope invalid")
  end.

(** The end of [model_decision]: what a finished call of the model decides. *)
Definition decode_decision (stdout stderr : string) (code : Z) : res dict :=
  when negb (code =? 0) raise driver_error ("model decision failed: " +:+ sdrop (String.length stderr - 200) stderr) in
  let! d := match model_envelope stdout with
            | Ok d => Ok d
            | Raise e => match ecls e with DriverError => Raise e | _ => Raise (driver_error "model decision envelope invalid") end
            end in
  let! conf := to_float (getd (VInt (-1)) d "confidence") in
  let keys := map fst d in
  when negb (forallb (fun k => inb k keys) ["action"; "confidence"; "rationale"] && forallb (fun k => inb k ["action"; "confidence"; "rationale"]) keys)
  raise driver_error "invalid model decision" in
  when negb (hashable (get d "action")) raise type_error in
  when negb (in_strs (get d "action") ["BUY"; "SELL"; "HOLD"]) || negb (is_str (get d "rationale")) || negb (is_finite conf) ||
       negb (fleb fzero conf && fleb conf (literal 1 0))
  raise driver_error "invalid model decision" in
  Ok (dset "confidence" (VFloat conf) d).

(** ** Observations *)

Section loop.
Context (E : env) `{Hooks} (crypto : bool).

(** [int((state.get("resident_loop_progress") or {}).get("iteration", 0))] *)
Definition loop_iteration (s : dict) : res Z :=
  let! d := or_empty (get s "resident_loop_progress") in int_of (getd (VInt 0) d "iteration").

Definition record_loop_observation (phase : string) (reason : value) : drv unit :=
  n <-- dread loop_iteration ;;
  t <-- now_ms E ;;
  sset "loop_observation"
    (VDict [("schema", VStr "heptatrader.driver-loop-observation.v1"); ("iteration", VInt n); ("checked_at_ms", VInt t);
            ("phase", VStr phase); ("reason_code", reason)]).

Definition record_loop_error : drv unit :=
  message <-- dread (fun s => Ok (stake 500 (py_str (getd (VStr EmptyString) s "last_error")))) ;;
  t <-- now_ms E ;;
  sset "last_error_observation" (VDict [("message", VStr message); ("at_ms", VInt t); ("scope", VStr "LAST_OBSERVED_LOOP_ERROR")]).

(** The answer to [completion] holds the attributes the worker set when it finished and
    the elapsed monotonic time in rounded milliseconds.  The result: whether they were recorded. *)
Definition record_model_completion (wk : worker) : drv bool :=
  v <-- perform E (Worker "completion") ;;
  match v with
  | VDict d =>
      match get d "completed_at_ms", get d "elapsed_ms" with
      | VInt completed, VFloat elapsed =>
          t <-- now_ms E ;;
          sset "model_completion_observation"
            (VDict [("schema", VStr "heptatrader.model-completion-observation.v1"); ("input_observed_at_ms", VInt (wk_observed_at_ms wk));
                    ("completed_at_ms", VInt completed); ("consumed_at_ms", VInt t); ("completion_to_consumption_ms", VFloat elapsed)]) ;;;
          dret true
      | _, _ => dret false
      end
  | _ => dret false
  end.

(** [completion["outcome"] = v], when there is one: the observation inside the state. *)
Definition completion_outcome (recorded : bool) (v : string) : drv unit :=
  dwhen recorded
    (dupd (fun s => match get s "model_completion_observation" with
                    | VDict d => dset "model_completion_observation" (VDict (dset "outcome" (VStr v) d)) s
                    | _ => s end)).

(** [str.split()] and [" ".join(value[:8192].split())[:limit]] *)
Fixpoint words (s current : string) : list string :=
  match s with
  | EmptyString => if bool_decide (current = EmptyString) then [] else [current]
  | String c s =>
      if is_space c then (if bool_decide (current = EmptyString) then words s EmptyString else current :: words s EmptyString)
      else words s (current +:+ String c EmptyString)
  end.
Definition bounded (v : value) (limit : nat) : string :=
  match v with VStr s => stake limit (PyValue.join " " (words (stake 8192 s) EmptyString)) | _ => EmptyString end.

(** The first of the fields that is not empty. *)
Fixpoint first_field (payload : dict) (names : list string) (limit : nat) : string :=
  match names with
  | [] => EmptyString
  | n :: names => let v := bounded (get payload n) limit in if bool_decide (v = EmptyString) then first_field payload names limit else v
  end.

Definition text_or (a b : string) : string := if bool_decide (a = EmptyString) then b else a.

(** The finished guard, or the exception of the call. *)
Definition guard_reading (result : (string * string * Z) + exn) : string * string * value :=
  match result with
  | inl (out, err, code) =>
      let payload := if slen out <=? 8192 then match strict_json out with Ok d => d | Raise _ => [] end else [] in
      let status := text_or (first_field payload ["status"; "state"] 64) (if code =? 0 then "OK" else "ERROR") in
      let reason := text_or (text_or (first_field payload ["reason_code"; "reason"; "state"; "status"] 256) (bounded (VStr err) 256))
                      (bounded (VStr out) 256) in
      (status, if bool_decide (reason = EmptyString) && negb (code =? 0) then "exit status " +:+ str_int code else reason, VInt code)
  | inr e => ("CALL_ERROR", text_or (bounded (VStr (emsg e)) 256) "guard call failed", VNone)
  end.

Definition record_entry_guard (result : (string * string * Z) + exn) (action : value) : drv string :=
  let '(status, reason, code) := guard_reading result in
  t <-- now_ms E ;;
  sset "last_entry_guard"
    (VDict [("checked_at_ms", VInt t); ("returncode", code); ("status", VStr status); ("reason", VStr reason);
            ("decision_action", VStr (bounded action 16)); ("scope", VStr "LAST_ACTUAL_ENTRY_GUARD_CHECK")]) ;;;
  op_save ;;; dret reason.

(** ** The model worker *)

Definition flat_enough (pos : spec_float) : bool := fleb (fabs pos) (QUANTITY_TOLERANCE crypto).

Definition model_inference_hold_reason (snap : dict) : drv (option string) :=
  pending <-- sget "pending" ;;
  if negb (is_none pending) then dret (Some "ORIGINAL_COMMAND_PENDING")
  else
    fenced <-- flag "owner_fence_recovery_required" ;;
    if fenced : bool then dret (Some "OWNER_CONTROL_RECOVERY")
    else
      active <-- dlift (item snap "active") ;;
      if truthy active then dret (Some "ACTIVE_BROKER_ORDER")
      else
        pos <-- dlift (let! v := item snap "position" in to_float v) ;;
        if flat_enough pos then
          reason <-- entry_inference_hold_reason E ;;
          match reason with
          | Some r => dret (Some r)
          | None =>
              owner <-- dlift (owner_of snap) ;;
              dret (if is_true (get owner "mutation_ready") then None else Some "AUTHORITATIVE_MUTATION_NOT_READY")
          end
        else halted <-- flag "halt_new_entries" ;; dret (if halted : bool then Some "HALT_REDUCE_ONLY" else None).

Definition worker_cancel (reason : string) : drv unit := perform E (Worker ("cancel " +:+ reason)) ;;; dret tt.
Definition worker_done : drv bool := v <-- perform E (Worker "done") ;; dret (truthy v).

(** A call that cannot be used is cancelled and kept until its cleanup finished. *)
Definition sync_model_inference (reason : option string) : lp unit :=
  match reason with
  | None => lift (dupd (dpop "model_inference_pause"))
  | Some r =>
      t <~~ lift (now_ms E) ;;
      lift (sset "model_inference_pause"
              (VDict [("reason_code", VStr r); ("checked_at_ms", VInt t); ("scope", VStr "MODEL_INFERENCE_ONLY")])) ;~
      l <~~ lget ;;
      match lc_worker l with
      | None => lift (dret tt)
      | Some wk =>
          lift (worker_cancel r) ;~
          done <~~ lift worker_done ;;
          lset (mkLocals (if done : bool then None else Some wk) true)
      end
  end.

Definition cancel_moved (pos : spec_float) : lp unit :=
  l <~~ lget ;;
  match lc_worker l with
  | Some wk => lift (dwhen (abs_gt (fsub pos (wk_position wk)) (QUANTITY_TOLERANCE crypto)) (worker_cancel "AUTHORITATIVE_POSITION_CHANGED"))
  | None => lift (dret tt)
  end.

(** What a finished worker decided, if it is still usable. *)
Definition usable_decision (wk : worker) (discarded : bool) (pos : spec_float) : drv value :=
  dguard discarded "model decision discarded after inference hold" ;;;
  candidate <-- perform E (Worker "result") ;;
  t <-- now_ms E ;;
  let age := t - wk_observed_at_ms wk in
  dguard (abs_gt (fsub pos (wk_position wk)) (QUANTITY_TOLERANCE crypto)) "model decision discarded after authoritative position change" ;;;
  dguard ((age <? 0) || (MODEL_SIGNAL_TTL_MS <? age)) "model decision discarded after market snapshot expiry" ;;;
  dret candidate.

Definition model_hold (e : exn) (recorded : bool) : drv unit :=
  sset "last_error" (VStr (stake 500 ("model HOLD: " +:+ emsg e))) ;;; record_loop_error ;;; completion_outcome recorded "DISCARDED".

Definition consume_decision (pos : spec_float) : lp value :=
  l <~~ lget ;;
  match lc_worker l with
  | None => lift (dret VNone)
  | Some wk =>
      done <~~ lift worker_done ;;
      if negb done then lift (dret VNone)
      else
        decision <~~ lift (
          recorded <-- record_model_completion wk ;;
          checked <-- dtry (usable_decision wk (lc_discarded l) pos) ;;
          match checked with
          | Raise e => model_hold e recorded ;;; dret VNone
          | Ok candidate =>
              used <-- dtry (sincr "decisions" ;;; sset "last_decision" candidate ;;; t <-- now_ms E ;; sset "last_decision_ms" (VInt t) ;;;
                             sset "last_error" (VStr EmptyString) ;;; completion_outcome recorded "USED") ;;
              match used with Ok _ => dret tt | Raise e => model_hold e recorded end ;;;
              dret candidate
          end) ;;
        lset (mkLocals None false) ;~
        lift (dret decision)
  end.

(** ** One iteration *)

(** A reduce-only exit, its reason recorded first. *)
Definition close_out (phase why : string) (quote : value) : drv unit :=
  record_loop_observation phase (VStr why) ;;;
  sset "last_exit_reason" (VStr why) ;;; op_save ;;;
  op_prepare "CLOSE" quote VNone (literal 25000 0) (literal 1 0) (VStr why).

(** The answer of the guard: output, error output and status. *)
Definition guard_result (v : value) : res (string * string * Z) :=
  match v with
  | VDict d => let! p := process v in let! err := as_str (get d "stderr") in Ok (p.1, err, p.2)
  | _ => Raise type_error
  end.

Definition open_entry (quote decision : value) : drv unit :=
  guard <-- dtry (v <-- perform E Guard ;; dlift (guard_result v)) ;;
  action <-- dlift (subscript decision "action") ;;
  match guard with
  | Raise e => record_entry_guard (inr e) action ;;; draise e
  | Ok result =>
      reason <-- record_entry_guard (inl result) action ;;
      dguard (negb (result.2 =? 0)) ("paper guard release failed: " +:+ reason) ;;;
      op_prepare "OPEN" quote action (literal 25000 0) (literal 1 0) VNone
  end.

(** [state.get("owner_fence_block_reason", "SESSION_OWNER_FENCED")] *)
Definition block_reason : drv value := dread (fun s => Ok (getd (VStr "SESSION_OWNER_FENCED") s "owner_fence_block_reason")).

Definition recovering (snap : dict) (pos : spec_float) : drv unit :=
  reason <-- block_reason ;;
  record_loop_observation "OWNER_RECOVERY_REQUIRED" reason ;;;
  sset "position" (VFloat pos) ;;; sset "halt_new_entries" (VBool true) ;;;
  active <-- dlift (item snap "active") ;;
  (if negb (truthy active) && abs_gt pos (QUANTITY_TOLERANCE crypto) then
     op_prepare "CLOSE" VNone VNone (literal 25000 0) (literal 1 0) (VStr "OWNER_RECOVERY_REDUCE_ONLY")
   else if negb (truthy active) && recovery_position_flat snap then recover_owner E crypto ;;; dret tt
   else dret tt) ;;;
  op_save.

(** A quote that may be traded on. *)
Definition fresh_quote : drv dict :=
  q <-- native E "market.get_quote" ["instrument=" +:+ INSTRUMENT crypto] ;;
  dguard (negb (is_true (get q "authoritative")) || negb (eq_str (get q "source") "IB") || negb (is_false (get q "stale")))
    "authoritative instrument quote unavailable" ;;;
  dret q.

Definition state_history : drv (list value) := dread (fun s => let! v := item s "history" in as_list v).

Definition extend_history (q : dict) : drv unit :=
  bid <-- dlift (item q "bid") ;; b <-- dlift (to_float bid) ;;
  ask <-- dlift (item q "ask") ;; a <-- dlift (to_float ask) ;;
  let mid := fdiv (fadd b a) (literal 2 0) in
  history <-- state_history ;;
  observed <-- dlift (item q "observed_at_ms") ;;
  new <-- match last history with
          | None => dret true
          | Some x => v <-- dlift (subscript x "observed_at_ms") ;; dret (negb (py_eq v observed))
          end ;;
  dwhen new
    (let history := history ++ [VDict [("observed_at_ms", observed); ("bid", bid); ("ask", ask); ("mid", VFloat mid)]] in
     sset "history" (VList (drop (length history - MAX_HISTORY) history))).

(** What is done with the decision: nothing beside an active order, an exit, or an entry. *)
Definition act (snap : dict) (pos : spec_float) (q : dict) (decision : value) : drv unit :=
  active <-- dlift (item snap "active") ;;
  if truthy active then sset "last_error" (VStr "active broker order present; observing only")
  else if abs_gt pos (QUANTITY_TOLERANCE crypto) && negb (is_none decision) then
    close <-- dread (fun s => should_close s pos (VDict q) decision) ;;
    match close with Some why => close_out "PRICE_EXIT_PATH" why (VDict q) | None => dret tt end
  else
    halted <-- flag "halt_new_entries" ;;
    if flat_enough pos && negb halted then
      allowed <-- dlift (entry_candidate_allowed crypto decision) ;;
      dwhen allowed (open_entry (VDict q) decision)
    else dret tt.

(** A new model call, when one is due and its result could be used. *)
Definition start_worker (pos : spec_float) (reason : option string) : lp unit :=
  due <~~ lift (t <-- now_ms E ;;
                last <-- dread (fun s => int_of (getd (getd (VInt 0) s "last_decision_ms") s "last_decision_attempt_ms")) ;;
                dret (DECISION_MS <=? t - last)) ;;
  l <~~ lget ;;
  match reason, lc_worker l with
  | None, None =>
      if negb due then lift (dret tt)
      else
        history <~~ lift state_history ;;
        if (length history <? 6)%nat then lift (dret tt)
        else
          available <~~ lift (perform E (Worker "available")) ;;
          lift (dguard (negb (truthy available)) "model runtime missing" ;;;
                t <-- now_ms E ;; sset "last_decision_attempt_ms" (VInt t) ;;; op_save) ;~
          lset (mkLocals None false) ;~
          observed <~~ lift (dlift (let! v := subscript (List.last history VNone) "observed_at_ms" in int_of v)) ;;
          lift (perform E (Worker "start")) ;~
          lset (mkLocals (Some (mkWorker pos observed)) false)
  | _, _ => lift (dret tt)
  end.

Definition loop_phase (reason : option string) (wk : option worker) : string :=
  match reason, wk with Some _, _ => "INFERENCE_PAUSED" | None, Some _ => "MODEL_INFLIGHT" | None, None => "OBSERVING" end.

(** Trading on a quote. *)
Definition quoted (snap : dict) (pos : spec_float) : lp unit :=
  q <~~ lift fresh_quote ;;
  lift (extend_history q) ;~
  active <~~ lift (dlift (item snap "active")) ;;
  exit <~~ lift (if negb (truthy active) && abs_gt pos (QUANTITY_TOLERANCE crypto) then dread (fun s => should_close s pos (VDict q) VNone)
                 else dret None) ;;
  match exit with
  | Some why => lift (close_out "PRICE_EXIT_PATH" why (VDict q) ;;; op_save)
  | None =>
      reason <~~ lift (model_inference_hold_reason snap) ;;
      sync_model_inference reason ;~
      decision <~~ consume_decision pos ;;
      lift (act snap pos q decision) ;~
      reason <~~ lift (model_inference_hold_reason snap) ;;
      sync_model_inference reason ;~
      start_worker pos reason ;~
      l <~~ lget ;;
      lift (record_loop_observation (loop_phase reason (lc_worker l)) (VStr (default EmptyString reason)) ;;; op_save)
  end.

(** [len(snap["active"])] *)
Definition active_orders (snap : dict) : res Z := let! v := item snap "active" in let! l := as_list v in Ok (Z.of_nat (length l)).

(** The state of the driver agrees with the broker's position. *)
Definition adopt_position (snap : dict) (pos : spec_float) : drv unit :=
  moved <-- (if crypto then old <-- dread (fun s => to_float (getd (VInt 0) s "position")) ;;
                            dret (abs_gt (fsub pos old) (QUANTITY_TOLERANCE crypto))
             else dret false) ;;
  (if moved : bool then
     sset "halt_new_entries" (VBool true) ;;; sset "risk_halt_reason" (VStr "EXTERNAL_CRYPTO_POSITION_CHANGE") ;;;
     draise (driver_error "crypto position changed outside the original pending command")
   else dret tt) ;;;
  sset "position" (VFloat pos) ;;;
  n <-- dlift (active_orders snap) ;;
  pending <-- sget "pending" ;;
  maybe_renew E crypto pos n pending.

Definition trading (snap : dict) (pos : spec_float) : lp unit :=
  lift (adopt_position snap pos) ;~
  fenced <~~ lift (flag "owner_fence_recovery_required") ;;
  if fenced : bool then
    lift (reason <-- block_reason ;;
          record_loop_observation "OWNER_RECOVERY_REQUIRED" reason) ;~
    sync_model_inference (Some "OWNER_CONTROL_RECOVERY") ;~
    lift op_save
  else
    pause <~~ lift (if flat_enough pos then entry_inference_hold_reason E else dret None) ;;
    match pause with
    | Some r =>
        lift (record_loop_observation "INFERENCE_PAUSED" (VStr r) ;;;
              t <-- now_ms E ;;
              sset "entry_inference_pause" (VDict [("reason_code", VStr r); ("checked_at_ms", VInt t); ("scope", VStr "ENTRY_INFERENCE_ONLY")])) ;~
        sync_model_inference (Some r) ;~
        lift op_save
    | None =>
        lift (dupd (dpop "entry_inference_pause")) ;~
        ready <~~ lift (if flat_enough pos then owner <-- dlift (owner_of snap) ;; v <-- dlift (item owner "mutation_ready") ;; dret (is_true v)
                        else dret true) ;;
        lift (dguard (negb ready) "authoritative mutation state is not ready") ;~
        active <~~ lift (dlift (item snap "active")) ;;
        halted <~~ lift (flag "halt_new_entries") ;;
        if negb (truthy active) && abs_gt pos (QUANTITY_TOLERANCE crypto) && halted then
          lift (close_out "REDUCE_ONLY_PATH" "HALT_REDUCE_ONLY" VNone ;;; op_save)
        else quoted snap pos
    end.

Definition body : lp unit :=
  pending <~~ lift (sget "pending") ;;
  let pending_mode := negb (is_none pending) in
  snap <~~ lift (snapshot E crypto true false false) ;;
  pos <~~ lift (dlift (let! v := item snap "position" in to_float v)) ;;
  lift (record_loop_observation "OWNER_SNAPSHOT_OBSERVED" (VStr EmptyString)) ;~
  cancel_moved pos ;~
  continued <~~ lift (flag "active_lease_continuation_supported") ;;
  lift (dwhen (negb pending_mode && continued) (n <-- dlift (active_orders snap) ;; maybe_renew E crypto pos n VNone)) ;~
  reason <~~ lift (model_inference_hold_reason snap) ;;
  sync_model_inference reason ;~
  if pending_mode then lift (record_loop_observation "RECONCILING_ORIGINAL_COMMAND" (VStr EmptyString) ;;; inspect_pending E crypto snap)
  else
    fenced <~~ lift (flag "owner_fence_recovery_required") ;;
    if fenced : bool then lift (recovering snap pos) else trading snap pos.

(** The handler of the loop: the error is recorded and the loop goes on. *)
Definition recover_from (e : exn) : drv unit :=
  fenced <-- flag "owner_fence_recovery_required" ;;
  (if fenced : bool then
     sset "last_transient_error" (VStr (stake 500 (emsg e))) ;;;
     reason <-- block_reason ;;
     text <-- dlift (as_str reason) ;;
     sset "last_error" (VStr ("owner fence recovery required: " +:+ text))
   else sset "last_error" (VStr (stake 500 (emsg e)))) ;;;
  record_loop_error ;;;
  record_loop_observation "ERROR" (VStr (class_name (ecls e))) ;;;
  op_save.

(** [identity] names the process. *)
Definition iteration (identity : dict) (n : Z) : lp unit := fun l w =>
  match lift (t <-- now_ms E ;;
              sset "resident_loop_progress"
                (VDict ([("schema", VStr "heptatrader.driver-loop-progress.v1")] ++ identity ++ [("iteration", VInt n); ("at_ms", VInt t)])) ;;;
              record_loop_observation "CHECKING_OWNER_SNAPSHOT" (VStr EmptyString)) l w with
  | (w1, l1, Raise e) => (w1, l1, Raise e)
  | (w1, l1, Ok _) =>
      match body l1 w1 with
      | (w2, l2, Ok _) => (w2, l2, Ok tt)
      | (w2, l2, Raise e) => lift (recover_from e) l2 w2
      end
  end.

(** The loop, for the number of iterations until the process is asked to stop. *)
Fixpoint resident (identity : dict) (n : Z) (rounds : nat) : lp unit :=
  match rounds with
  | O => lift (dret tt)
  | S rounds => iteration identity n ;~ resident identity (n + 1) rounds
  end.

(** ** Modes *)

(** The file of the state: none, or its text and whether its permissions are private. *)
Definition load_state (file : option (string * bool)) : drv dict :=
  match file with
  | None =>
      t <-- now_ms E ;;
      dret [("schema", VStr "heptatrader.paper-driver.v1"); ("instrument", VStr (INSTRUMENT crypto)); ("history", VList []); ("pending", VNone);
            ("position", VFloat fzero); ("entry_price", VNone); ("entry_price_basis", VNone); ("last_decision_ms", VInt 0); ("decisions", VInt 0);
            ("entries", VInt 0); ("exits", VInt 0); ("closed_trades", VInt 0); ("gross_pnl", VFloat fzero); ("last_error", VStr EmptyString);
            ("halt_new_entries", VBool false); ("lease_generation", VInt 1); ("lease_last_renew_ms", VInt t); ("lease_uncertain", VBool false);
            ("lease_renewal_drain", VBool false); ("lease_renewal_owned_halt", VBool false)]
  | Some (text, private) =>
      dguard (negb private) "unsafe state file" ;;;
      v <-- dlift (strict_json text) ;;
      dguard (negb (eq_str (get v "schema") "heptatrader.paper-driver.v1")) "state schema mismatch" ;;;
      dguard (negb (eq_str (getd (VStr "EUR.USD") v "instrument") (INSTRUMENT crypto))) "cross-instrument state file refused" ;;;
      dret v
  end.

(** What [main] does with the loaded state before it enters a mode. *)
Definition startup (reconcile_only : bool) : drv unit :=
  dupd (fun s => if truthy (get s "last_error") && negb (dhas "last_error_observation" s)
                 then dset "last_error_observation"
                        (VDict [("message", VStr (stake 500 (py_str (get s "last_error")))); ("at_ms", VNone);
                                ("scope", VStr "LEGACY_UNDATED_DIAGNOSTIC")]) s
                 else s) ;;;
  dwhen crypto
    (dupd (fun s => dsetdefault "net_pnl" VNone (dsetdefault "fees_complete" (VBool false)
                      (dsetdefault "pnl_basis" (VStr "BROKER_FILL_GROSS") (dsetdefault "pnl_currency" (VStr "USD") s))))) ;;;
  uncertain <-- dread (fun s => Ok (truthy (get s "lease_uncertain") || eq_str (get s "lease_renewal_state") "POSSIBLY_SENT")) ;;
  (if uncertain : bool then
     continued <-- flag "active_lease_continuation_supported" ;;
     if continued : bool then sset "halt_new_entries" (VBool true) else latch_owner_fence E (VStr "SESSION_RENEWAL_UNCERTAIN")
   else dret tt) ;;;
  dwhen (negb reconcile_only) op_save.

(** The operator's recovery: whether it is complete. *)
Definition recover_mode : drv bool := latch_owner_fence E (VStr "OPERATOR_AUDITED_RECOVERY") ;;; recover_owner E crypto.

(** A settlement hold ends when the service may mutate again; its halt only if it owns it. *)
Definition release_settlement_hold (s : dict) : dict :=
  let s := if truthy (get s "settlement_hold_owned_halt") && negb (truthy (get s "risk_halt_reason")) &&
              negb (truthy (get s "owner_fence_recovery_required")) && negb (truthy (get s "lease_uncertain"))
           then dset "halt_new_entries" (VBool false) s else s in
  dset "settlement_hold_owned_halt" (VBool false) (dset "settlement_hold_reason" (VStr EmptyString) s).

Definition take_settlement_hold : drv unit :=
  held <-- flag "settlement_hold_reason" ;;
  halted <-- flag "halt_new_entries" ;;
  dwhen (negb held) (sset "settlement_hold_owned_halt" (VBool (negb halted))) ;;;
  sset "settlement_hold_reason" (VStr "IB_FX_CASH_ATTESTED_BALANCE_MISMATCH") ;;;
  sset "halt_new_entries" (VBool true).

Definition reconcile_mode : drv unit :=
  pending <-- sget "pending" ;;
  snap <-- snapshot E crypto false false (crypto && negb (is_none pending)) ;;
  dwhen (truthy (get snap "settlement_only")) take_settlement_hold ;;;
  if truthy pending then
    inspect_pending E crypto snap ;;;
    left <-- sget "pending" ;;
    dguard (negb (is_none left)) "original command reconciliation remains pending"
  else
    old <-- dread (fun s => to_float (getd (VInt 0) s "position")) ;;
    pos <-- dlift (let! v := item snap "position" in to_float v) ;;
    dguard (abs_gt (fsub old pos) (QUANTITY_TOLERANCE crypto)) "position changed without an original pending command; audited evidence required" ;;;
    held <-- flag "settlement_hold_reason" ;;
    (if held : bool then
       owner <-- dlift (owner_of snap) ;;
       dwhen (is_true (get owner "mutation_ready")) (dupd release_settlement_hold)
     else dret tt) ;;;
    op_save.

(** The bounded wait of the canary: at most [rounds] inspections, a second apart, before its deadline. *)
Fixpoint await_settlement (rounds : nat) : drv unit :=
  match rounds with
  | O => dret tt
  | S rounds =>
      pending <-- sget "pending" ;;
      if is_none pending then dret tt
      else
        left <-- perform E (Worker "deadline") ;;
        if negb (truthy left) then dret tt
        else snap <-- snapshot E crypto true false false ;; inspect_pending E crypto snap ;;; await_settlement rounds
  end.

Definition CANARY_ROUNDS : nat := 66.

(** A halt that nothing owns: the state before qualification. *)
Definition bare_halt (s : dict) : bool :=
  is_true (get s "halt_new_entries") && negb (truthy (get s "risk_halt_reason")) && negb (truthy (get s "settlement_hold_reason")) &&
  negb (truthy (get s "owner_fence_recovery_required")) && negb (truthy (get s "lease_uncertain")) &&
  negb (truthy (get s "lease_renewal_owned_halt")) && negb (truthy (get s "owner_fence_owned_halt")).

(** What exceeds the bounds of the canary. *)
Definition canary_violation (quantity price : spec_float) : option string :=
  if fltb (fadd (literal 1 (-3)) (QUANTITY_TOLERANCE crypto)) quantity then Some "canary fill exceeded 0.001 BTC"
  else if fltb fzero price && fltb (literal 15001 (-2)) (fmul quantity price) then Some "canary fill exceeded $150 notional"
  else None.

Definition canary_roundtrip : drv unit :=
  dguard (negb crypto) "bounded canary is crypto-only" ;;;
  snap <-- snapshot E crypto true true false ;;
  bare <-- dread (fun s => Ok (bare_halt s)) ;;
  blocked <-- dread (fun s => Ok (negb (is_none (get s "pending")) || negb (eq_int (get s "position") 0) || negb (eq_int (get snap "position") 0) ||
                                  truthy (get snap "active") || truthy (get s "owner_fence_recovery_required") ||
                                  (truthy (get s "halt_new_entries") && negb bare))) ;;
  dguard blocked "canary requires its own authoritative flat/order-free unblocked state" ;;;
  guard <-- perform E Guard ;;
  code <-- dlift (process guard) ;;
  dguard (negb (code.2 =? 0)) "local PAPER guard not ready" ;;;
  quote <-- dlift (item snap "quote") ;;
  op_prepare "OPEN" quote (VStr "BUY") (literal 150 0) (literal 5 (-4)) VNone ;;;
  await_settlement CANARY_ROUNDS ;;;
  pending <-- sget "pending" ;;
  dguard (negb (is_none pending)) "canary pending preserved; no resubmission" ;;;
  filled <-- dread (fun s => number_of (getd (VInt 0) s "position")) ;;
  dguard (fleb filled fzero) "canary entry did not produce a proved crypto fill" ;;;
  price <-- dread (fun s => if truthy (get s "entry_price") then to_float (get s "entry_price") else Ok fzero) ;;
  snapshot E crypto true true false ;;;
  op_prepare "CLOSE" VNone VNone (literal 25000 0) (literal 1 0) (VStr "CRYPTO_CANARY_EXIT") ;;;
  await_settlement CANARY_ROUNDS ;;;
  left <-- dread (fun s => Ok (negb (is_none (get s "pending")) || negb (eq_int (get s "position") 0))) ;;
  dguard left "canary exit incomplete; original state retained" ;;;
  match canary_violation filled price with
  | Some v => draise (driver_error (v +:+ "; position was flattened"))
  | None => dret tt
  end ;;;
  risk <-- flag "risk_halt_reason" ;;
  dwhen (bare && negb risk) (sset "halt_new_entries" (VBool false) ;;; op_save).

(** What the resident loop asks of the state before it starts. *)
Definition resident_admitted : drv unit :=
  held <-- flag "settlement_hold_reason" ;;
  dguard held "operator settlement hold requires full authoritative reconciliation before resident trading" ;;;
  qualified <-- (if crypto then dread (crypto_roundtrip_qualified crypto) else dret true) ;;
  dguard (negb qualified) "crypto resident driver requires a correlation-bound completed round trip".

End loop.
End DriverLoop.
