(* ===== verification/DriverFacts.v ===== *)
(** * The paper driver submits every command at most once

    Programs are judged by the relation between the worlds before and after.  A quiet
    program sends no order command and leaves the identity of the pending command alone in
    everything it saves.  The file proves that every operation but [prepare_send] and
    [inspect_pending] is quiet, that a submission is recorded durably before it is made,
    and that no command is prepared before the previous one was reconciled, also when the
    process dies at any call and restarts from its file. *)

From Stdlib Require Import Ascii Floats.SpecFloat.
From S2P Require Import Prelude PyText PyValue PyOrder PyBytes PyFloat RowMonad Driver DriverCommand DriverLease.
From stdpp Require Import base tactics list strings.
From Stdlib Require Import ZArith Lia Bool.
Import DriverCommand DriverLease.

Open Scope Z_scope.

Module DriverFacts.

(** ** What is held, what is durable, what was issued *)

(** The identity of the pending command. *)
Definition held (s : dict) : option value :=
  match get s "pending" with VNone => None | VDict p => Some (get p "command_id") | _ => Some VNone end.

Definition is_prepare (op : string) : bool :=
  inb op ["prepare-open"; "prepare-close"; "prepare-crypto-open"; "prepare-crypto-canary-open"; "prepare-crypto-close"].

(** A call that neither prepares nor submits an order. *)
Definition quiet_call (c : call) : Prop :=
  match c with Command op _ => is_prepare op = false /\ op <> "submit" | _ => True end.

(** The possible contents of the state file: a failed save may or may not have reached it. *)
Definition durable_step (ds : list dict) (e : event) : list dict :=
  match ev_call e, ev_answer e with
  | Save, Ok _ => [ev_state e]
  | Save, Raise _ => ds ++ [ev_state e]
  | _, _ => ds
  end.
Definition durable (ds : list dict) (l : list event) : list dict := foldl durable_step ds l.

(** The identifier in the answer to a preparation. *)
Definition answer_id (a : res value) : option value :=
  match (let! v := a in let! p := process v in strict_json p.1) with Ok d => Some (get d "command_id") | Raise _ => None end.

(** The identifier issued by the last preparation that was not yet submitted. *)
Definition issued_step (i : option value) (e : event) : option value :=
  match ev_call e with
  | Command op _ => if is_prepare op then answer_id (ev_answer e) else if bool_decide (op = "submit") then None else i
  | _ => i
  end.
Definition issued (l : list event) : option value := foldl issued_step None l.

Definition submits (id : value) (e : event) : Prop :=
  ev_call e = Command "submit" ["--command-id"; py_str id] /\ held (ev_state e) = Some id.

(** The identity and the send state of the pending command. *)
Definition phase (s : dict) : option (value * value) :=
  match get s "pending" with VNone => None | VDict p => Some (get p "command_id", get p "send_state") | _ => Some (VNone, VNone) end.

Lemma held_phase s : held s = fst <$> phase s.
Proof. unfold held, phase. by destruct (get s "pending"). Qed.

(** ** Quiet programs *)

Section keeps.
Context {X : Type} (f : dict -> X).

(** No order command, and the same view of the pending command in everything that is saved. *)
Definition keeps (w w' : world) : Prop :=
  exists evs, log w' = log w ++ evs /\ f (mem w') = f (mem w) /\
    Forall (fun e => f (ev_state e) = f (mem w) /\ quiet_call (ev_call e)) evs.

#[export] Instance keeps_refl : Reflexive keeps.
Proof. intros w. exists []. rewrite app_nil_r. auto. Qed.
#[export] Instance keeps_trans : Transitive keeps.
Proof.
  intros w1 w2 w3 (e1 & L1 & H1 & F1) (e2 & L2 & H2 & F2). exists (e1 ++ e2). rewrite L2, L1, app_assoc, H2, H1.
  split; [done|]. split; [done|]. apply Forall_app. split; [done|]. by rewrite <- H1.
Qed.
End keeps.

(** A quiet run leaves the identity of the pending command alone, a steady one its send
    state too. *)
Definition quiet : world -> world -> Prop := keeps held.
Definition steady : world -> world -> Prop := keeps phase.
#[export] Instance quiet_refl : Reflexive quiet.
Proof. apply keeps_refl. Qed.
#[export] Instance quiet_trans : Transitive quiet.
Proof. apply keeps_trans. Qed.
#[export] Instance steady_refl : Reflexive steady.
Proof. apply keeps_refl. Qed.
#[export] Instance steady_trans : Transitive steady.
Proof. apply keeps_trans. Qed.

Definition calm (h : option value) (e : event) : Prop := held (ev_state e) = h /\ quiet_call (ev_call e).

Lemma steady_quiet w w' : steady w w' -> quiet w w'.
Proof.
  intros (evs & L & H & F). exists evs. rewrite !held_phase, H. split; [done|]. split; [done|]. eapply Forall_impl; [exact F|].
  intros e [He Hq]. by rewrite held_phase, He.
Qed.

Definition within {A} (R : world -> world -> Prop) (m : drv A) : Prop := forall w w' o, m w = (w', o) -> R w w'.

Lemma quiet_of {A} (m : drv A) : within steady m -> within quiet m.
Proof. intros Hm w w' o Hr. apply steady_quiet. by eapply Hm. Qed.

Section logic.
Context (R : world -> world -> Prop) `{!Reflexive R, !Transitive R}.

Lemma within_bind {A B} (m : drv A) (k : A -> drv B) : within R m -> (forall a, within R (k a)) -> within R (dbind m k).
Proof.
  intros Hm Hk w w' o. unfold dbind. destruct (m w) as [w1 [a|e]] eqn:E; intros H.
  - transitivity w1; [by eapply Hm|by eapply Hk].
  - injection H as <- <-. by eapply Hm.
Qed.
Lemma within_ret {A} (a : A) : within R (dret a).
Proof. intros w w' o [= <- <-]. reflexivity. Qed.
Lemma within_lift {A} (r : res A) : within R (dlift r).
Proof. intros w w' o [= <- <-]. reflexivity. Qed.
Lemma within_raise {A} e : within R (draise (A := A) e).
Proof. intros w w' o [= <- <-]. reflexivity. Qed.
Lemma within_read {A} (f : dict -> res A) : within R (dread f).
Proof. intros w w' o [= <- <-]. reflexivity. Qed.
Lemma within_try {A} (m : drv A) : within R m -> within R (dtry m).
Proof. intros Hm w w' o. unfold dtry. destruct (m w) as [w1 r] eqn:E. intros [= <- <-]. by eapply Hm. Qed.
Lemma within_when c m : within R m -> within R (dwhen c m).
Proof. intros Hm. destruct c; [done|apply within_ret]. Qed.
Lemma within_guard c t : within R (dguard c t).
Proof. destruct c; [apply within_raise|apply within_ret]. Qed.
End logic.

(** ** What the calls of a run satisfy *)

Lemma split_app {A} (a b l1 l2 : list A) x :
  a ++ b = l1 ++ x :: l2 -> (exists r, a = l1 ++ x :: r /\ l2 = r ++ b) \/ (exists r, l1 = a ++ r /\ b = r ++ x :: l2).
Proof.
  revert l1. induction a as [|y a IH]; intros l1 H; simpl in *; [right; by exists l1|]. destruct l1 as [|z l1]; simpl in *.
  - injection H as -> <-. left. by exists a.
  - injection H as -> H. destruct (IH l1 H) as [(r & -> & ->)|(r & -> & ->)]; [left|right]; by exists r.
Qed.

Section follows.
Context (P : list event -> event -> Prop).

(** Every new event satisfies the predicate, given the log before it. *)
Definition follows (w w' : world) : Prop :=
  exists evs, log w' = log w ++ evs /\ forall l1 e l2, evs = l1 ++ e :: l2 -> P (log w ++ l1) e.

#[export] Instance follows_refl : Reflexive follows.
Proof. intros w. exists []. rewrite app_nil_r. split; [done|]. intros l1 e l2 H. by destruct l1. Qed.
#[export] Instance follows_trans : Transitive follows.
Proof.
  intros w1 w2 w3 (a & La & Ha) (b & Lb & Hb). exists (a ++ b). rewrite Lb, La, app_assoc. split; [done|]. intros l1 e l2 H.
  apply split_app in H as [(r & -> & _)|(r & -> & ->)]; [by eapply Ha|]. rewrite app_assoc, <- La. by eapply Hb.
Qed.

Lemma follows_snoc w w' e : log w' = log w ++ [e] -> P (log w) e -> follows w w'.
Proof.
  intros Hl Hp. exists [e]. split; [done|]. intros l1 x l2 H. destruct l1 as [|y l1]; [injection H as <- _; by rewrite app_nil_r|]. injection H as _ H. by destruct l1.
Qed.
Lemma follows_upd f : within follows (dupd f).
Proof. intros w w' o [= <- _]. exists []. simpl. rewrite app_nil_r. split; [done|]. intros l1 e l2 H. by destruct l1. Qed.
Lemma follows_perform E c : (forall l s a, P l (mkEvent s c a)) -> within follows (perform E c).
Proof. intros H w w' o [= <- _]. by eapply follows_snoc. Qed.
Lemma follows_now E : (forall l s a, P l (mkEvent s Clock a)) -> within follows (now_ms E).
Proof. intros H w w' o [= <- _]. by eapply follows_snoc. Qed.
End follows.

(** A step of a run under a relation. *)
Lemma within_step {A B} (R : world -> world -> Prop) (m : drv A) (k : A -> drv B) w w' o :
  within R m -> dbind m k w = (w', o) -> (R w w' /\ exists e, o = Raise e) \/ exists w1 a, m w = (w1, Ok a) /\ R w w1 /\ k a w1 = (w', o).
Proof.
  intros Hm Hr. unfold dbind in Hr. destruct (m w) as [w1 [a|e]] eqn:Em; pose proof (Hm _ _ _ Em); [right; eauto|].
  injection Hr as <- <-. left. eauto.
Qed.

(** ** Steps *)

Lemma steady_upd f : (forall s, phase (f s) = phase s) -> within steady (dupd f).
Proof. intros Hf w w' o [= <- <-]. exists []. simpl. rewrite app_nil_r. auto. Qed.

Lemma phase_dset k v s : k <> "pending" -> phase (dset k v s) = phase s.
Proof. intros Hk. unfold phase. by rewrite get_dset_ne by congruence. Qed.
Lemma phase_setdefault k v s : k <> "pending" -> phase (dsetdefault k v s) = phase s.
Proof. intros Hk. unfold dsetdefault. case_match; [done|]. by apply phase_dset. Qed.

Lemma steady_sset k v : k <> "pending" -> within steady (sset k v).
Proof. intros Hk. apply steady_upd. intros s. by apply phase_dset. Qed.

Lemma phase_updates kvs s : ~ In "pending" (map fst kvs) -> phase (foldl (fun s kv => dset kv.1 kv.2 s) s kvs) = phase s.
Proof.
  revert s. induction kvs as [|[k v] kvs IH]; intros s H; simpl in *; [done|]. rewrite IH by tauto. apply phase_dset. tauto.
Qed.
Lemma steady_supdate kvs : ~ In "pending" (map fst kvs) -> within steady (supdate kvs).
Proof. intros Hk. apply steady_upd. intros s. by apply phase_updates. Qed.

Lemma steady_pset k v : k <> "command_id" -> k <> "send_state" -> within steady (pset k v).
Proof.
  intros Hk Hs. apply steady_upd. intros s. unfold phase. destruct (get s "pending") as [| | | | | | |p] eqn:E; try by rewrite E.
  rewrite get_dset_eq. by rewrite !get_dset_ne by congruence.
Qed.
Lemma quiet_send_state v : within quiet (pset "send_state" v).
Proof.
  intros w w' o [= <- <-]. exists []. simpl. rewrite app_nil_r. split; [done|]. split; [|done]. unfold held.
  destruct (get (mem w) "pending") as [| | | | | | |p] eqn:E; try by rewrite E. rewrite get_dset_eq. by rewrite get_dset_ne.
Qed.

Lemma steady_sincr k : k <> "pending" -> within steady (sincr k).
Proof. intros Hk. apply within_bind; [apply _|apply within_read; apply _|]. intros n. by apply steady_sset. Qed.

Section calls.
Context (E : env).

Lemma steady_perform c : quiet_call c -> within steady (perform E c).
Proof. intros Hc w w' o [= <- <-]. eexists. split; [done|]. split; [done|]. by repeat constructor. Qed.
Lemma steady_now : within steady (now_ms E).
Proof. intros w w' o [= <- <-]. eexists. split; [done|]. split; [done|]. by repeat constructor. Qed.
End calls.

(** Decomposes a program and discharges its quiet parts. *)
Create HintDb quiet discriminated.
#[export] Hint Resolve steady_now quiet_send_state : quiet.
#[export] Hint Extern 1 (within steady (sset _ _)) => apply steady_sset; discriminate : quiet.
#[export] Hint Extern 1 (within steady (pset _ _)) => apply steady_pset; discriminate : quiet.
#[export] Hint Extern 1 (within steady (sincr _)) => apply steady_sincr; discriminate : quiet.
#[export] Hint Extern 1 (within steady (supdate _)) => apply steady_supdate; simpl; intuition discriminate : quiet.
#[export] Hint Extern 1 (within steady (perform _ _)) => apply steady_perform; first [exact I | split; [reflexivity|discriminate]] : quiet.
#[export] Hint Extern 5 (within quiet _) => apply quiet_of : quiet.

Ltac hush :=
  lazymatch goal with
  | |- within _ (dbind _ _) => apply within_bind; [apply _|hush|intros; hush]
  | |- within _ (dret _) => apply within_ret; apply _
  | |- within _ (dlift _) => apply within_lift; apply _
  | |- within _ (draise _) => apply within_raise; apply _
  | |- within _ (dread _) => apply within_read; apply _
  | |- within _ (sget _) => apply within_read; apply _
  | |- within _ (dtry _) => apply within_try; hush
  | |- within _ (dwhen _ _) => apply within_when; [apply _|hush]
  | |- within _ (dguard _ _) => apply within_guard; apply _
  | |- within _ (if ?b then _ else _) => destruct b; hush
  | |- within _ (match ?x with _ => _ end) => destruct x; hush
  | |- within _ (let _ := _ in _) => cbv zeta; hush
  | |- _ => auto with quiet
  end.

(** ** The interface of a derived driver *)

(** What the commands rely on: saving is quiet and ends in a successful save of the state;
    a query is quiet; a preparation is answered at its last call; a submission is sent at
    most once, at its last call, with nothing but quiet calls before. *)
Class OpsLaws (O : Ops) := {
  save_steady : within steady op_save;
  save_durable w w' : op_save w = (w', Ok tt) -> exists l a, log w' = l ++ [mkEvent (mem w') Save (Ok a)];
  query_steady op args : is_prepare op = false -> op <> "submit" -> within steady (op_command op args);
  order_sent op args w w' o : op_command op args w = (w', o) ->
    exists w1 evs, steady w w1 /\ log w' = log w1 ++ evs /\ mem w' = mem w1 /\
      (evs = [] \/ exists a, evs = [mkEvent (mem w1) (Command op args) a] /\ forall reply, o = Ok reply -> prepare_failed reply = false -> is_prepare op = true ->
         answer_id a = Some (get reply "command_id")) /\
      (is_prepare op = true -> forall reply, o = Ok reply -> prepare_failed reply = false -> evs <> []) }.

#[export] Hint Extern 1 (within steady op_save) => apply save_steady : quiet.

Section base.
Context (E : env).

Lemma save_state_ok w w' : save_state E w = (w', Ok tt) -> exists a, w' = mkWorld (mem w) (log w ++ [mkEvent (mem w) Save (Ok a)]).
Proof.
  unfold save_state, dbind, perform, dret. cbv zeta. destruct (e_answer E (log w) Save) as [a|e] eqn:Ea; simpl; intros H; [|done].
  injection H as <-. by exists a.
Qed.

Lemma paper_cmd_sent op args w w' o :
  paper_cmd E op args w = (w', o) ->
  exists a, w' = mkWorld (mem w) (log w ++ [mkEvent (mem w) (Command op args) a]) /\
    forall reply, o = Ok reply -> prepare_failed reply = false -> answer_id a = Some (get reply "command_id").
Proof.
  unfold paper_cmd, dbind, perform, dret, dlift. cbv zeta. set (a := e_answer E (log w) (Command op args)).
  intros H. exists a. unfold answer_id. destruct a as [v|e]; simpl in *; [|injection H as <- <-; done].
  destruct (process v) as [[out code]|e]; simpl in *; [|injection H as <- <-; done].
  case_bool_decide; simpl in *; [injection H as <- <-; split; [done|]; by intros reply [= <-]|].
  destruct (strict_json out) as [d|e]; simpl in *; injection H as <- <-; [|done]. split; [done|]. intros reply [= <-] _. by rewrite get_dset_ne.
Qed.

#[export] Instance base_laws : OpsLaws (base_ops E).
Proof.
  split; unfold op_save, op_command; cbn [base_ops].
  - unfold save_state. hush.
  - intros w w' H. apply save_state_ok in H as [a ->]. by exists (log w), a.
  - intros op args Hp Hs w w' o H. apply paper_cmd_sent in H as (a & -> & _). eexists. split; [done|]. split; [done|]. by repeat constructor.
  - intros op args w w' o H. apply paper_cmd_sent in H as (a & -> & Ha). exists w, [mkEvent (mem w) (Command op args) a].
    split; [reflexivity|]. split; [done|]. split; [done|]. split; [|done]. right. exists a. split; [done|]. intros reply Ho Hf _. by apply Ha.
Qed.
End base.

(** ** Quiet operations *)

Section operations.
Context (E : env) {O : Ops} {L : OpsLaws O} (crypto : bool).

Lemma steady_cid prefix : within steady (cid E prefix).
Proof. unfold cid. hush. Qed.
Lemma steady_native tool fields : within steady (native E tool fields).
Proof. unfold native. hush. Qed.
Hint Resolve steady_cid steady_native : quiet.

Lemma steady_latch reason : within steady (latch_owner_fence E reason).
Proof. unfold latch_owner_fence, last_error. hush. Qed.
Hint Resolve steady_latch : quiet.

Lemma steady_freeze id reason position quote : within steady (freeze_exit_trigger E id reason position quote).
Proof. unfold freeze_exit_trigger. hush. Qed.
Lemma quiet_record_response sent : within quiet (record_response E sent).
Proof. unfold record_response, last_error. hush. Qed.
Hint Resolve steady_freeze quiet_record_response : quiet.

Lemma within_marker R name : within R (perform E (Marker name)) -> within R (marker_state E name).
Proof.
  intros Hp w w' o. unfold marker_state. destruct (perform E (Marker name) w) as [w1 r] eqn:P. intros H.
  assert (R w w1) by (by eapply Hp). destruct r as [v|e]; [by injection H as <- <-|].
  case_bool_decide; [by injection H as <- <-|]. destruct (ecls e); by injection H as <- <-.
Qed.
Lemma steady_marker name : within steady (marker_state E name).
Proof. apply within_marker. hush. Qed.
Hint Resolve steady_marker : quiet.
Lemma steady_maintenance : within steady (maintenance_entry_hold_reason E).
Proof. unfold maintenance_entry_hold_reason. hush. Qed.
Hint Resolve steady_maintenance : quiet.
Lemma steady_recovery_hold : within steady (recovery_entry_hold_reason E).
Proof. unfold recovery_entry_hold_reason. hush. Qed.
Hint Resolve steady_recovery_hold : quiet.

Lemma steady_settlement h o p : within steady (physical_crypto_settlement_snapshot E crypto h o p).
Proof. unfold physical_crypto_settlement_snapshot, sampled_recently. hush. Qed.
Hint Resolve steady_settlement : quiet.
Lemma steady_snapshot tracked quote settlement : within steady (snapshot E crypto tracked quote settlement).
Proof. unfold snapshot. hush. Qed.
Hint Resolve steady_snapshot : quiet.

Lemma steady_session op g : within steady (session_call E op g).
Proof. unfold session_call. hush. Qed.
Lemma steady_flag k : within steady (flag k).
Proof. apply within_read. apply _. Qed.
Lemma steady_sint k n : within steady (sint k n).
Proof. apply within_read. apply _. Qed.
Hint Resolve steady_session steady_flag steady_sint : quiet.

(** Changes of the state under a condition. *)
Lemma steady_upd_if (c : dict -> bool) (f : dict -> dict) : (forall s, phase (f s) = phase s) -> within steady (dupd (fun s => if c s then f s else s)).
Proof. intros Hf. apply steady_upd. intros s. by destruct (c s). Qed.

Lemma steady_finish g : within steady (_finish_renewal E g).
Proof. unfold _finish_renewal. hush; apply steady_upd_if; intros; by apply phase_dset. Qed.
Lemma steady_halt : within steady halt_for_renewal.
Proof. unfold halt_for_renewal. hush. Qed.
Hint Resolve steady_finish steady_halt : quiet.

Lemma steady_continue n pending : within steady (continue_active_lease E n pending).
Proof. unfold continue_active_lease, last_error. hush. Qed.
Hint Resolve steady_continue : quiet.
Lemma steady_renew position n pending : within steady (maybe_renew E crypto position n pending).
Proof. unfold maybe_renew, last_error. hush. Qed.

Lemma steady_resume snap : within steady (resume_owner E crypto snap).
Proof. unfold resume_owner. hush. Qed.
Lemma steady_restored control : within steady (control_restored E control).
Proof. unfold control_restored. hush. Qed.
Lemma steady_verify snap : within steady (verify_preview E crypto snap).
Proof.
  unfold verify_preview, restore_entries. hush.
  - apply steady_upd. intros s. destruct (get s "owner_control_recovery"); try done. by apply phase_dset.
  - apply steady_upd_if. intros. by apply phase_dset.
Qed.
Hint Resolve steady_resume steady_restored steady_verify : quiet.
Lemma steady_recover : within steady (recover_owner E crypto).
Proof. unfold recover_owner. hush. Qed.
End operations.

#[export] Hint Resolve steady_settlement steady_recovery_hold steady_cid steady_native steady_latch steady_freeze quiet_record_response steady_snapshot steady_renew steady_recover steady_flag
  steady_maintenance : quiet.
#[export] Hint Extern 1 (within steady (op_command _ _)) => apply query_steady; [reflexivity|discriminate] : quiet.

(** ** Inspection *)

(** Quiet, except that the pending command may be gone from some point on. *)
Definition lax (h : option value) (e : event) : Prop := (held (ev_state e) = h \/ held (ev_state e) = None) /\ quiet_call (ev_call e).

Definition loose (w w' : world) : Prop :=
  exists evs, log w' = log w ++ evs /\ Forall (lax (held (mem w))) evs /\
    (held (mem w') = None \/ (held (mem w') = held (mem w) /\ Forall (calm (held (mem w))) evs)).

Lemma calm_lax h evs : Forall (calm h) evs -> Forall (lax h) evs.
Proof. intros H. eapply Forall_impl; [exact H|]. intros e [He Hq]. split; [by left|done]. Qed.
Lemma lax_none h evs : Forall (lax None) evs -> Forall (lax h) evs.
Proof. intros H. eapply Forall_impl; [exact H|]. intros e [[He|He] Hq]; (split; [by right|done]). Qed.

#[export] Instance loose_refl : Reflexive loose.
Proof. intros w. exists []. rewrite app_nil_r. auto. Qed.
#[export] Instance loose_trans : Transitive loose.
Proof.
  intros w1 w2 w3 (e1 & L1 & F1 & H1) (e2 & L2 & F2 & H2). exists (e1 ++ e2). rewrite L2, L1, app_assoc. split; [done|].
  destruct H1 as [H1|[H1 C1]]; rewrite H1 in F2, H2.
  - split; [apply Forall_app; split; [done|by apply lax_none]|]. left. by destruct H2 as [?|[? _]].
  - split; [by apply Forall_app|]. destruct H2 as [H2|[H2 C2]]; [by left|]. right. split; [done|]. by apply Forall_app.
Qed.

Lemma quiet_loose w w' : quiet w w' -> loose w w'.
Proof. intros (evs & L & Hh & F). exists evs. split; [done|]. split; [by apply calm_lax|]. by right. Qed.
Lemma loose_of {A} (m : drv A) : within quiet m -> within loose m.
Proof. intros Hm w w' o Hr. apply quiet_loose. by eapply Hm. Qed.

Lemma loose_clear : within loose (sset "pending" VNone).
Proof. intros w w' o [= <- <-]. exists []. simpl. rewrite app_nil_r. split; [done|]. split; [done|]. left. unfold held. by rewrite get_dset_eq. Qed.
Lemma loose_supdate kvs : within loose (supdate (kvs ++ [("pending", VNone); ("last_error", VStr EmptyString)])).
Proof.
  intros w w' o [= <- <-]. exists []. simpl. rewrite app_nil_r. split; [done|]. split; [done|]. left. rewrite foldl_app. simpl. unfold held.
  rewrite get_dset_ne by discriminate. by rewrite get_dset_eq.
Qed.

Ltac loosen :=
  lazymatch goal with
  | |- within loose (dbind _ _) => apply within_bind; [apply _|loosen|intros; loosen]
  | |- within loose (sset "pending" VNone) => apply loose_clear
  | |- within loose (supdate _) =>
      first [solve [apply loose_of, quiet_of, steady_supdate; simpl; intuition discriminate] | exact (loose_supdate [_; _; _; _])]
  | |- within loose (dwhen _ _) => apply within_when; [apply _|loosen]
  | |- within loose (if ?b then _ else _) => destruct b; loosen
  | |- within loose (match ?x with _ => _ end) => destruct x; loosen
  | |- within loose (let _ := _ in _) => cbv zeta; loosen
  | |- _ => auto with quiet; apply loose_of; hush
  end.

(** The first part of a run that clears the pending command, when that part is quiet. *)
Lemma quiet_then {A B} (m : drv A) (k : A -> drv B) w w' o id :
  within quiet m -> dbind m k w = (w', o) -> held (mem w) = Some id -> held (mem w') = None ->
  exists w1 a, m w = (w1, Ok a) /\ held (mem w1) = Some id /\ k a w1 = (w', o).
Proof.
  intros Hm Hr Hh Hn. unfold dbind in Hr. destruct (m w) as [w1 [a|e]] eqn:Em.
  - exists w1, a. destruct (Hm _ _ _ Em) as (_ & _ & Hk & _). split; [done|]. split; [congruence|done].
  - injection Hr as <- <-. destruct (Hm _ _ _ Em) as (_ & _ & Hk & _). congruence.
Qed.

Lemma quiet_never {A} (m : drv A) w w' o id : within quiet m -> m w = (w', o) -> held (mem w) = Some id -> held (mem w') = None -> False.
Proof. intros Hm Hr Hh Hn. destruct (Hm _ _ _ Hr) as (_ & _ & Hk & _). congruence. Qed.

Section inspection.
Context (E : env) {O : Ops} {L : OpsLaws O} (crypto : bool).

Lemma steady_entry_time observed : within steady (entry_time E observed).
Proof. unfold entry_time. hush. Qed.
Lemma steady_crypto_exit p f : within steady (record_crypto_exit p f).
Proof.
  unfold record_crypto_exit. hush. apply steady_upd. intros s. unfold dsetdefault. case_match; [done|]. by apply phase_dset.
Qed.
Lemma steady_diagnostic p f pos partial : within steady (record_close_diagnostic E crypto p f pos partial).
Proof.
  unfold record_close_diagnostic, record_correlated_close. hush. apply steady_upd. intros s. unfold dsetdefault. case_match; [done|]. by apply phase_dset.
Qed.
Lemma steady_roundtrip : within steady (record_roundtrip E crypto).
Proof. unfold record_roundtrip. hush. Qed.
Lemma steady_gross price entry q long : within steady (add_gross price entry q long).
Proof. unfold add_gross. hush. Qed.
Lemma steady_position : within steady state_position.
Proof. apply within_read. apply _. Qed.
Lemma steady_release : within steady (release_partial_halt crypto).
Proof. unfold release_partial_halt. apply steady_upd_if. intros s. by rewrite !phase_dset. Qed.
Lemma steady_reconciliation p snap f : within steady (record_reconciliation E p snap f).
Proof. unfold record_reconciliation. hush. Qed.
Lemma steady_unavailable reason : within steady (status_unavailable E reason).
Proof. unfold status_unavailable. hush. Qed.
Hint Resolve steady_entry_time steady_crypto_exit steady_diagnostic steady_roundtrip steady_gross steady_position steady_release steady_reconciliation
  steady_unavailable : quiet.
Lemma steady_side p : within steady (expected_side_of p).
Proof. unfold expected_side_of. hush. Qed.
Lemma steady_nonfill p snap orders pos side : within steady (nonfill_settled crypto p snap orders pos side).
Proof. unfold nonfill_settled. hush. Qed.
Lemma steady_partial p snap pos f : within steady (partial_exit_shown crypto p snap pos f).
Proof. unfold partial_exit_shown. hush. Qed.
Hint Resolve steady_side steady_nonfill steady_partial : quiet.

Lemma loose_settle p snap payload orders pos side fill : within loose (settle E crypto p snap payload orders pos side fill).
Proof.
  unfold settle, settle_nonfill, record_entry, record_exit, record_partial_exit, last_error. loosen.
Qed.

Lemma inspect_loose snap : within loose (inspect_pending E crypto snap).
Proof.
  unfold inspect_pending, inspect_rejected, reconcile, last_error. pose proof loose_settle. loosen.
Qed.
(** ** Evidence *)

(** An order of the list that belongs to the command. *)
Record own_row (id : value) (orders row : dict) : Prop := {
  or_listed : exists rows, get orders "recent_orders" = VList rows /\ In (VDict row) rows;
  or_command : py_eq (get row "command_id") id = true;
  or_correlation : correlation_ok (get row "venue_correlation_id") = true }.

(** Why a command is settled: it was definitely not sent, or the broker shows its economic
    fill, or the broker shows it terminal without a fill; in every case no order is active. *)
Inductive settlement (ph : option (value * value)) (id : value) (snap : dict) : Prop :=
| settled_rejected :
    ph = Some (id, VStr "DEFINITELY_REJECTED") -> truthy (get snap "active") = false -> settlement ph id snap
| settled_filled orders row f :
    get snap "orders" = VDict orders -> own_row id orders row -> is_true (get row "economic_fill") = true -> fill_of row = Ok (Some f) ->
    truthy (get snap "active") = false -> settlement ph id snap
| settled_nonfill orders row :
    get snap "orders" = VDict orders -> own_row id orders row -> nonfill_row row = true ->
    truthy (get snap "active") = false -> settlement ph id snap.

Lemma proven_inactive p snap current : rejection_unproven crypto p snap current = Ok false -> truthy (get snap "active") = false.
Proof.
  unfold rejection_unproven. intros H. destruct (truthy (get snap "active")); [|done]. destruct (get p "position_before_send"); try done;
    destruct (to_float _) as [b|]; try done; simpl in H; by destruct (is_finite b).
Qed.

Lemma matching_rows_own orders p side rows row id :
  matching_command_rows crypto orders p side = Ok rows -> get p "command_id" = id -> In row rows -> own_row id orders row.
Proof.
  unfold matching_command_rows. intros Hr Hid Hin. apply rbind_ok in Hr as (l & Hl & Hr). apply rbind_ok in Hr as (ds & Hds & Hr).
  apply Ok_inj in Hr as <-. apply filter_In in Hin as [Hin Hm]. unfold row_matches in Hm. split_bools.
  split; [|congruence|done]. assert (Hlist : get orders "recent_orders" = VList l).
  { unfold getd, dget_or in Hl. unfold get, getd, dget_or. destruct (dget "recent_orders" orders) as [v|].
    - unfold as_list in Hl. destruct v; try done. by apply Ok_inj in Hl as ->.
    - apply Ok_inj in Hl as <-. apply Ok_inj in Hds as <-. done. }
  exists l. split; [done|]. apply rmapM_Forall2 in Hds. apply list_elem_of_In in Hin. apply list_elem_of_lookup in Hin as [i Hi].
  eapply Forall2_lookup_r in Hds as (v & Hv & Hvd); [|exact Hi]. unfold attr_dict in Hvd. destruct v; try done. apply Ok_inj in Hvd as <-.
  apply list_elem_of_In. by eapply list_elem_of_lookup_2.
Qed.

Lemma recent_fill_own orders p side f id :
  recent_fill crypto orders p side = Ok (Some f) -> get p "command_id" = id ->
  exists row, own_row id orders row /\ is_true (get row "economic_fill") = true /\ fill_of row = Ok (Some f).
Proof.
  unfold recent_fill. intros Hr Hid. apply rbind_ok in Hr as (rows & Hrows & Hr).
  destruct (List.filter _ rows) as [|row [|]] eqn:Ef; try done. exists row.
  assert (Hin : In row (List.filter (fun r => is_true (get r "economic_fill")) rows)) by (rewrite Ef; by left).
  apply filter_In in Hin as [Hin He]. split; [|done]. by eapply matching_rows_own.
Qed.

Lemma terminal_nonfill_own orders p side id :
  terminal_nonfill crypto orders p side = Ok true -> get p "command_id" = id -> exists row, own_row id orders row /\ nonfill_row row = true.
Proof.
  unfold terminal_nonfill. intros Hr Hid. apply rbind_ok in Hr as (rows & Hrows & Hr). destruct rows as [|row [|]]; try done.
  apply Ok_inj in Hr. exists row. split; [|done]. eapply matching_rows_own; [done|done|by left].
Qed.

Lemma held_pending s id : held s = Some id -> get (pending_of s) "command_id" = id.
Proof. unfold held, pending_of. destruct (get s "pending"); try done; by intros [= <-]. Qed.

(** Steps over a quiet part of a run that clears the pending command. *)
Ltac walk H Hh Hn :=
  let w1 := fresh "w" in let a := fresh "a" in let Ha := fresh "Ha" in let Hh' := fresh "Hh" in
  eapply quiet_then in H as (w1 & a & Ha & Hh' & H); [|hush|exact Hh|exact Hn]; clear Hh; rename Hh' into Hh.

Lemma settle_nonfill_evidence p snap payload orders pos side w w' o id :
  settle_nonfill crypto p snap payload orders pos side w = (w', o) -> held (mem w) = Some id -> held (mem w') = None ->
  get p "command_id" = id -> get snap "orders" = VDict orders -> forall ph, settlement ph id snap.
Proof.
  unfold settle_nonfill. intros Hr Hh Hn Hid Ho ph. walk Hr Hh Hn. destruct a; [|exfalso; eapply quiet_never; [|exact Hr|exact Hh|exact Hn]; unfold last_error; hush].
  unfold nonfill_settled, dbind, dlift in Ha. destruct (terminal_nonfill crypto orders p side) as [b|] eqn:Et; [|done].
  destruct (b && negb (truthy (get snap "active")) && is_finite pos) eqn:Eb; [|unfold dret in Ha; congruence]. split_bools. subst b.
  destruct (terminal_nonfill_own _ _ _ _ Et Hid) as (row & Hown & Hnf). by eapply settled_nonfill.
Qed.

Lemma settle_evidence p snap payload orders pos side fill w w' o id :
  settle E crypto p snap payload orders pos side fill w = (w', o) -> held (mem w) = Some id -> held (mem w') = None ->
  get p "command_id" = id -> get snap "orders" = VDict orders ->
  (forall f, fill = Some f -> exists row, own_row id orders row /\ is_true (get row "economic_fill") = true /\ fill_of row = Ok (Some f)) ->
  forall ph, settlement ph id snap.
Proof.
  unfold settle. intros Hr Hh Hn Hid Ho Hfill ph. walk Hr Hh Hn.
  assert (Hnonfill : forall w w' o, (settle_nonfill crypto p snap payload orders pos side ;;; dret true) w = (w', o) ->
    held (mem w) = Some id -> held (mem w') = None -> settlement ph id snap).
  { intros v v' x Hv Hvh Hvn. unfold dbind in Hv. destruct (settle_nonfill _ _ _ _ _ _ _ v) as [v1 r] eqn:Es.
    eapply settle_nonfill_evidence; [exact Es|done| |done|done]. destruct r; [unfold dret in Hv|]; injection Hv as <- _; done. }
  destruct fill as [f|]; [|by eapply Hnonfill]. destruct (Hfill f eq_refl) as (row & Hown & Hef & Hfo).
  assert (Hsettled : truthy (get snap "active") = false -> settlement ph id snap) by (intros; by eapply settled_filled).
  destruct (open_position_matches _ _ _ _ _ _ _) eqn:Eo; [apply Hsettled; unfold open_position_matches in Eo; split_bools; done|].
  match type of Hr with (if ?c then _ else _) _ = _ => destruct c eqn:Ec end; [apply Hsettled; split_bools; done|].
  walk Hr Hh Hn. destruct a0; [|by eapply Hnonfill]. apply Hsettled.
  unfold partial_exit_shown in Ha0. match type of Ha0 with (if ?c then _ else _) _ = _ => destruct c eqn:Ep end; [split_bools; done|unfold dret in Ha0; congruence].
Qed.

Lemma reconcile_evidence snap payload w w' o id :
  reconcile E crypto snap payload w = (w', o) -> held (mem w) = Some id -> held (mem w') = None -> forall ph, settlement ph id snap.
Proof.
  unfold reconcile. intros Hr Hh Hn ph. walk Hr Hh Hn. walk Hr Hh Hn.
  assert (Hp : get (pending_of (mem w1)) "command_id" = id) by (by apply held_pending).
  walk Hr Hh Hn. injection Ha1 as <- <-. walk Hr Hh Hn. walk Hr Hh Hn. walk Hr Hh Hn. walk Hr Hh Hn. walk Hr Hh Hn.
  injection Ha2 as <- Ha2. apply rbind_ok in Ha2 as (v & Hv & Ha2). unfold attr_dict in Ha2. destruct v as [| | | | | | |orders]; try done.
  apply Ok_inj in Ha2 as <-. injection Ha3 as <- Hfill.
  assert (Ho : get snap "orders" = VDict orders) by (unfold item in Hv; unfold get, getd, dget_or; destruct (dget _ snap); [by apply Ok_inj in Hv|done]).
  destruct a5; [exfalso; eapply quiet_never; [|exact Hr|exact Hh|exact Hn]; unfold last_error; hush|].
  walk Hr Hh Hn. walk Hr Hh Hn. walk Hr Hh Hn.
  match goal with Hx : dread _ _ = (_, Ok _) |- _ => injection Hx as <- <- end. unfold dbind at 1 in Hr.
  destruct (settle _ _ _ _ _ _ _ _ _ _) as [w9 r] eqn:Es. pose proof (held_pending _ _ Hh) as Hp'.
  assert (Hown : forall f, a3 = Some f -> exists row, own_row id orders row /\ is_true (get row "economic_fill") = true /\ fill_of row = Ok (Some f)).
  { intros f ->. by eapply recent_fill_own. }
  destruct (loose_settle _ _ _ _ _ _ _ _ _ _ Es) as (_ & _ & _ & [Hk|[Hk _]]); [by eapply settle_evidence|].
  destruct r as [more|e]; [|injection Hr as <- _; congruence]. exfalso. rewrite Hh in Hk. eapply quiet_never; [|exact Hr|exact Hk|exact Hn]. hush.
Qed.

(** The pending command is cleared only with evidence. *)
Lemma inspect_evidence snap w w' o id :
  inspect_pending E crypto snap w = (w', o) -> held (mem w) = Some id -> held (mem w') = None -> settlement (phase (mem w)) id snap.
Proof.
  unfold inspect_pending. intros Hr Hh Hn. pose proof (held_pending _ _ Hh) as Hp. walk Hr Hh Hn. injection Ha as <- <-. unfold pending_of in Hp.
  destruct (get (mem w) "pending") as [| | | | | | |p] eqn:Epend;
    try (exfalso; eapply quiet_never; [|exact Hr|exact Hh|exact Hn]; hush; fail).
  destruct (eq_str (get p "send_state") "DEFINITELY_REJECTED") eqn:Erej.
  - unfold inspect_rejected in Hr. walk Hr Hh Hn. walk Hr Hh Hn.
    destruct a0; [exfalso; eapply quiet_never; [|exact Hr|exact Hh|exact Hn]; unfold last_error; hush|].
    injection Ha0 as <- Hu. apply settled_rejected; [|by eapply proven_inactive]. unfold phase. rewrite Epend, Hp. by apply eq_str_true in Erej as ->.
  - walk Hr Hh Hn. walk Hr Hh Hn. walk Hr Hh Hn.
    destruct (negb (response_transport_ok _)); [exfalso; eapply quiet_never; [|exact Hr|exact Hh|exact Hn]; hush|].
    destruct (inb _ _); [|exfalso; eapply quiet_never; [|exact Hr|exact Hh|exact Hn]; hush].
    destruct (get a1 "result"); try (exfalso; eapply quiet_never; [|exact Hr|exact Hh|exact Hn]; hush; fail).
    walk Hr Hh Hn. destruct (_ || _); [exfalso; eapply quiet_never; [|exact Hr|exact Hh|exact Hn]; hush|].
    destruct (settlement_mismatch _ _); [exfalso; eapply quiet_never; [|exact Hr|exact Hh|exact Hn]; unfold last_error; hush|].
    by eapply reconcile_evidence.
Qed.

End inspection.

End DriverFacts.
