(* ===== verification/DriverLife.v ===== *)
(** * The life of the paper driver

    Runs of the driver's modes and of its resident loop, with the process dying at any
    call and the next one starting from whatever the state file then holds: submissions
    are recorded before they are made, each uses up one identifier the command client
    issued, and a command is prepared only when the broker's order list settled every
    command submitted before. *)

From Stdlib Require Import Ascii Floats.SpecFloat.
From S2P Require Import Prelude PyText PyValue PyOrder PyBytes PyFloat RowMonad Driver DriverCommand DriverLease DriverLoop DriverFacts.
From stdpp Require Import base tactics list strings.
From Stdlib Require Import ZArith Lia Bool.
Import DriverCommand DriverLease DriverLoop DriverFacts.

Open Scope Z_scope.

Module DriverLife.

(** ** Logs *)

(** A read of the broker's order list that settles the command: it is pending, no order is
    active, and the command was definitely rejected before, or the list shows its economic
    fill, or shows it terminal without a fill. *)
Definition evidence (id : value) (e : event) : Prop :=
  exists orders, ev_call e = Tool "orders.list" [] /\ (let! v := ev_answer e in native_reply v) = Ok orders /\
    get orders "active_order_ids" = VList [] /\ held (ev_state e) = Some id /\
    (phase (ev_state e) = Some (id, VStr "DEFINITELY_REJECTED") \/
     exists row, own_row id orders row /\
       ((is_true (get row "economic_fill") = true /\ exists f, fill_of row = Ok (Some f)) \/ nonfill_row row = true)).

(** Every submission of the log is followed by evidence. *)
Definition all_settled (l : list event) : Prop :=
  forall l1 e l2 id, l = l1 ++ e :: l2 -> submits id e -> exists x, In x l2 /\ evidence id x.

(** What has to hold at an event, given the log before it. *)
Definition event_good (ds : list dict) (before : list event) (e : event) : Prop :=
  match ev_call e with
  | Command op args =>
      if is_prepare op then held (ev_state e) = None /\ all_settled before
      else if bool_decide (op = "submit") then
        exists id, args = ["--command-id"; py_str id] /\ held (ev_state e) = Some id /\ issued before = Some id /\
          Forall (fun d => held d = Some id) (durable ds before)
      else True
  | _ => True
  end.

Definition good (ds : list dict) (l : list event) : Prop := forall l1 e l2, l = l1 ++ e :: l2 -> event_good ds l1 e.

Lemma good_nil ds : good ds [].
Proof. intros l1 x l2 H. by destruct l1. Qed.

Lemma good_snoc ds l e : good ds l -> event_good ds l e -> good ds (l ++ [e]).
Proof.
  intros Hl He l1 x l2 H. apply split_app in H as [(r & -> & _)|(r & -> & H)]; [by eapply Hl|].
  destruct r as [|y r]; simpl in H; [injection H as -> _; by rewrite app_nil_r|]. injection H as _ H. by destruct r.
Qed.

Lemma good_prefix ds l l' : l `prefix_of` l' -> good ds l' -> good ds l.
Proof. intros [k ->] H l1 x l2 ->. apply (H l1 x (l2 ++ k)). by rewrite <- app_assoc. Qed.

Definition all_quiet (evs : list event) : Prop := Forall (fun e => quiet_call (ev_call e)) evs.
Definition no_submits (evs : list event) : Prop := forall id e, In e evs -> ~ submits id e.

Lemma good_quiet ds l evs : good ds l -> all_quiet evs -> good ds (l ++ evs).
Proof.
  intros Hl H. revert l Hl. induction H as [|e evs He _ IH]; intros l Hl; [by rewrite app_nil_r|].
  change (l ++ e :: evs) with (l ++ [e] ++ evs). rewrite app_assoc. apply IH. apply good_snoc; [done|]. unfold event_good, quiet_call in *.
  destruct (ev_call e); try done. destruct He as [-> Hs]. by rewrite bool_decide_eq_false_2.
Qed.

Lemma issued_quiet l evs : all_quiet evs -> issued (l ++ evs) = issued l.
Proof.
  intros H. unfold issued. rewrite foldl_app. generalize (foldl issued_step None l). induction H as [|e evs He _ IH]; intros i; [done|]. simpl. rewrite IH.
  unfold issued_step, quiet_call in *. destruct (ev_call e); try done. destruct He as [-> Hs]. by rewrite bool_decide_eq_false_2.
Qed.

Lemma quiet_no_submits evs : all_quiet evs -> no_submits evs.
Proof. intros H id e He [Hc _]. unfold all_quiet in H. rewrite List.Forall_forall in H. specialize (H e He). rewrite Hc in H. by destruct H. Qed.
Lemma no_submits_app a b : no_submits a -> no_submits b -> no_submits (a ++ b).
Proof. intros Ha Hb id e [H|H]%in_app_iff; [by apply Ha|by apply Hb]. Qed.

Lemma all_settled_app l a : all_settled l -> no_submits a -> all_settled (l ++ a).
Proof.
  intros Hl Ha l1 e l2 id H He. apply split_app in H as [(r & -> & ->)|(r & _ & ->)].
  - destruct (Hl l1 e r id eq_refl He) as (x & Hx & Hev). exists x. split; [apply in_app_iff; by left|done].
  - exfalso. apply (Ha id e); [apply in_app_iff; right; by left|done].
Qed.

Definition recorded (ds : list dict) (id : value) (l : list event) : Prop := Forall (fun d => held d = Some id) (durable ds l).

Lemma recorded_calm ds id l evs : recorded ds id l -> Forall (calm (Some id)) evs -> recorded ds id (l ++ evs).
Proof.
  unfold recorded, durable. rewrite foldl_app. generalize (foldl durable_step ds l). intros d Hd H. revert d Hd.
  induction H as [|e evs [He _] _ IH]; intros d Hd; [done|]. simpl. apply IH. unfold durable_step.
  destruct (ev_call e); try done. destruct (ev_answer e); [by constructor|]. apply Forall_app. split; [done|by constructor].
Qed.

Lemma calm_quiet h evs : Forall (calm h) evs -> all_quiet evs.
Proof. intros H. eapply Forall_impl; [exact H|]. by intros e []. Qed.

Lemma prefix_app_inv {A} (l k l' : list A) : l `prefix_of` l' -> l' `prefix_of` l ++ k -> exists a, l' = l ++ a /\ a `prefix_of` k.
Proof. intros [a ->] [b H]. rewrite <- app_assoc in H. apply app_inv_head in H as ->. exists a. split; [done|by exists b]. Qed.

Lemma prefix_split {A} (a b c : list A) x : a `prefix_of` b ++ x :: c -> a `prefix_of` b \/ exists r, a = b ++ x :: r /\ r `prefix_of` c.
Proof.
  revert a. induction b as [|y b IH]; intros a H; simpl in *.
  - destruct a as [|z a]; [left; by exists []|]. destruct H as [k H]. injection H as <- ->. right. exists a. split; [done|by exists k].
  - destruct a as [|z a]; [left; by exists (y :: b)|]. destruct H as [k H]. injection H as <- H.
    destruct (IH a) as [[j ->]|(r & -> & Hr)]; [by exists k|left; by exists j|right; by exists r].
Qed.

(** ** Preparing and sending *)

Section sending.
Context (E : env) {O : Ops} {L : OpsLaws O} (crypto : bool) (ds : list dict).

(** Either the command was not prepared, or its preparation was the last call. *)
Definition preparation (w w' : world) (o : res (value * list (string * value) * dict)) : Prop :=
  (quiet w w' /\ exists e, o = Raise e) \/
  exists w1 op args r, quiet w w1 /\ is_prepare op = true /\ op_command op args w1 = (w', r) /\
    (forall ref extra reply, o = Ok (ref, extra, reply) -> r = Ok reply).

Lemma preparation_after w w1 w' o : quiet w w1 -> preparation w1 w' o -> preparation w w' o.
Proof.
  intros Hq [[H He]|(w2 & op & args & r & H & Hr)]; [left; split; [by transitivity w1|done]|right].
  exists w2, op, args, r. split; [by transitivity w1|done].
Qed.

Lemma preparation_last op args ref extra w w' o :
  is_prepare op = true -> dbind (op_command op args) (fun reply => dret (ref, extra, reply)) w = (w', o) -> preparation w w' o.
Proof.
  intros Hp Hr. right. unfold dbind in Hr. destruct (op_command op args w) as [w1 r] eqn:Ec. exists w, op, args, r. split; [reflexivity|].
  split; [done|]. destruct r as [d|e]; injection Hr as <- <-; (split; [done|]); [by intros a b reply [= _ _ <-]|done].
Qed.

Ltac pass H :=
  apply (within_step quiet) in H as [H|(? & ? & _ & ? & H)]; [by left| |hush]; eapply preparation_after; [eassumption|].
Lemma prepare_command_run kind quote side cl bl preview w w' o :
  prepare_command E crypto kind quote side cl bl preview w = (w', o) -> preparation w w' o.
Proof.
  unfold prepare_command. intros H. case_bool_decide.
  - pass H. destruct crypto.
    + pass H. cbv zeta in H. pass H. pass H. destruct (_ || _); by eapply preparation_last in H.
    + pass H. pass H. by eapply preparation_last in H.
  - destruct crypto; by eapply preparation_last in H.
Qed.

(** The log grows, stays good, and has no new submission, or one that is held and recorded. *)
Definition sends (w w' : world) : Prop :=
  good ds (log w) -> all_settled (log w) -> good ds (log w') /\
  exists evs, log w' = log w ++ evs /\
    (no_submits evs \/
     exists a s b id, evs = a ++ s :: b /\ no_submits a /\ submits id s /\ recorded ds id (log w ++ a) /\ Forall (calm (Some id)) b /\
       held (mem w') = Some id).

(** A world reached without a submission, where a command was issued and not yet submitted. *)
Record ready (id : option value) (h : option value) (w0 w : world) : Prop := {
  rd_good : good ds (log w);
  rd_held : held (mem w) = h;
  rd_issued : forall i, id = Some i -> issued (log w) = Some i;
  rd_log : exists a, log w = log w0 ++ a /\ no_submits a }.

Lemma ready_start w : good ds (log w) -> ready None (held (mem w)) w w.
Proof. intros Hg. split; [done|done|done|]. exists []. rewrite app_nil_r. split; [done|]. by intros id e []. Qed.

Lemma ready_quiet id h w0 w w' : ready id h w0 w -> quiet w w' -> ready id h w0 w'.
Proof.
  intros [Hg Hh Hi (a & Ha & Hn)] (evs & Hl & Hh' & Hf). apply (calm_quiet (held (mem w))) in Hf. split; [rewrite Hl; by apply good_quiet|congruence| |].
  - intros i Hid. rewrite Hl, issued_quiet by done. by apply Hi.
  - exists (a ++ evs). rewrite Hl, Ha, app_assoc. split; [done|]. apply no_submits_app; [done|by apply quiet_no_submits].
Qed.

Lemma ready_sends id h w0 w : ready id h w0 w -> sends w0 w.
Proof. intros [Hg _ _ (a & Ha & Hn)] _ _. split; [done|]. exists a. split; [done|]. by left. Qed.

Lemma preparation_ready w0 w w' o :
  all_settled (log w0) -> ready None None w0 w -> preparation w w' o ->
  ready None None w0 w' /\ (forall ref extra reply, o = Ok (ref, extra, reply) -> prepare_failed reply = false -> ready (Some (get reply "command_id")) None w0 w').
Proof.
  intros Hset Hrd [[Hq [e He]]|(w1 & op & args & r & Hq & Hp & Hc & Ho)].
  { split; [by eapply ready_quiet|]. intros ref extra reply. by rewrite He. }
  apply order_sent in Hc as (w2 & evs & Hq2 & Hlog & Hmem & Hev & Hne). apply steady_quiet in Hq2.
  eapply ready_quiet in Hrd; [|exact Hq]. eapply ready_quiet in Hrd; [|exact Hq2]. destruct Hrd as [Hg Hh _ (a & Ha & Hn)].
  assert (Hall : no_submits evs).
  { destruct Hev as [->|(x & -> & _)]; [by intros id y []|]. intros id y [<-|[]] [[= -> _] _]. discriminate Hp. }
  assert (Hgood : good ds (log w')).
  { rewrite Hlog. destruct Hev as [->|(x & -> & _)]; [by rewrite app_nil_r|]. apply good_snoc; [done|]. unfold event_good; simpl. rewrite Hp.
    split; [congruence|]. rewrite Ha. by apply all_settled_app. }
  assert (Hrd : forall i, (forall v, i = Some v -> issued (log w') = Some v) -> ready i None w0 w').
  { intros i Hi. split; [done|congruence|done|]. exists (a ++ evs). rewrite Hlog, Ha, app_assoc. split; [done|by apply no_submits_app]. }
  split; [by apply Hrd|]. intros ref extra reply Hok Hnf. apply Hrd. intros v [= <-]. specialize (Ho _ _ _ Hok). specialize (Hne Hp _ Ho Hnf).
  destruct Hev as [->|(x & -> & Hx)]; [done|]. rewrite Hlog. unfold issued. rewrite foldl_app. simpl. unfold issued_step at 1. simpl. rewrite Hp. by apply Hx.
Qed.

Lemma saved_recorded id w w' : op_save w = (w', Ok tt) -> held (mem w) = Some id -> recorded ds id (log w').
Proof.
  intros Hs Hh. destruct (steady_quiet _ _ (save_steady _ _ _ Hs)) as (_ & _ & Hh' & _). apply save_durable in Hs as (l & a & Hl).
  unfold recorded, durable. rewrite Hl, foldl_app. cbn. apply Forall_singleton. by rewrite Hh', Hh.
Qed.

Lemma recorded_quiet id w w' : held (mem w) = Some id -> recorded ds id (log w) -> quiet w w' -> recorded ds id (log w').
Proof. intros Hh Hr (evs & -> & _ & Hf). apply recorded_calm; [done|]. by rewrite <- Hh. Qed.

(** The submission: everything it rests on is recorded. *)
Lemma submit_run id w0 w w' o :
  ready (Some id) (Some id) w0 w -> recorded ds id (log w) ->
  dbind (op_command "submit" ["--command-id"; py_str id]) (record_response E) w = (w', o) -> sends w0 w'.
Proof.
  intros Hrd Hrec Hr. unfold dbind in Hr. destruct (op_command "submit" _ w) as [w1 r] eqn:Ec.
  assert (Hq : quiet w1 w') by (destruct r; [by eapply quiet_record_response|injection Hr as <- <-; reflexivity]). clear Hr.
  apply order_sent in Ec as (w2 & evs & Hq2 & Hlog & Hmem & Hev & _). apply steady_quiet in Hq2.
  pose proof (recorded_quiet _ _ _ (rd_held _ _ _ _ Hrd) Hrec Hq2) as Hrec2. eapply ready_quiet in Hrd; [|exact Hq2].
  destruct Hev as [->|(x & -> & _)].
  { rewrite app_nil_r in Hlog. destruct w1, w2. simpl in Hmem, Hlog. subst. by eapply ready_sends, ready_quiet. }
  destruct Hrd as [Hg Hh Hi (a & Ha & Hn)]. rewrite <- Hmem in Hh. destruct Hq as (b & Hl & Hh' & Hf). rewrite Hh in Hf. intros _ _.
  assert (Hs : submits id (mkEvent (mem w2) (Command "submit" ["--command-id"; py_str id]) x)) by (split; [done|simpl; congruence]).
  split.
  - rewrite Hl, Hlog. apply good_quiet; [|by eapply calm_quiet]. apply good_snoc; [done|]. unfold event_good; simpl. exists id.
    destruct Hs as [_ Hs]. simpl in Hs. split; [done|]. split; [done|]. split; [by apply Hi|done].
  - eexists (a ++ _ :: b). split; [rewrite Hl, Hlog, Ha, <- !app_assoc; reflexivity|]. right. eexists a, _, b, id. split; [done|]. split; [done|]. split; [exact Hs|].
    split; [by rewrite <- Ha|]. split; [done|congruence].
Qed.

Lemma held_record kind id t side ref before trigger extra parent s :
  held (dset "pending" (VDict (pending_record crypto kind id t side ref before trigger extra parent)) s) = Some id.
Proof. unfold held. by rewrite get_dset_eq. Qed.

Ltac pass_ready H Hrd :=
  apply (within_step quiet) in H as [[H _]|(? & ? & ? & ? & H)]; [by eapply ready_sends, ready_quiet| |hush];
  match goal with Hq : quiet _ _ |- _ => eapply ready_quiet in Hrd; [|exact Hq]; clear Hq end.

(** From the record of the command to the end. *)
Lemma record_and_send_run id w0 w w' o :
  ready (Some id) (Some id) w0 w ->
  (op_save ;;; pset "send_state" (VStr "POSSIBLY_SENT") ;;; op_save ;;;
   sent <-- op_command "submit" ["--command-id"; py_str id] ;; record_response E sent) w = (w', o) -> sends w0 w'.
Proof.
  intros Hrd H. pass_ready H Hrd. pass_ready H Hrd. pose proof (rd_held _ _ _ _ Hrd) as Hh.
  apply (within_step quiet) in H as [[H _]|(w1 & u & Hs & Hq & H)]; [by eapply ready_sends, ready_quiet| |hush]. destruct u.
  eapply submit_run; [by eapply ready_quiet|by eapply saved_recorded|exact H].
Qed.

Lemma prepare_send_run kind quote side cl bl reason w w' o :
  prepare_send E crypto kind quote side cl bl reason w = (w', o) -> w' = w \/ (held (mem w) = None /\ sends w w').
Proof.
  unfold prepare_send. unfold sget at 1, dread at 1, dbind at 1. intros H.
  destruct (get (mem w) "pending") as [| | | | | | |p] eqn:Ep; try (left; unfold dbind, dguard, draise in H; simpl in H; by injection H as <- _).
  right. assert (Hh : held (mem w) = None) by (unfold held; by rewrite Ep). split; [done|]. intros Hg Hset. refine (_ Hg Hset). cbn [is_none negb] in H.
  pose proof (ready_start w Hg) as Hrd. rewrite Hh in Hrd. do 6 pass_ready H Hrd. unfold dbind at 1 in H.
  destruct (prepare_command _ _ _ _ _ _ _ _ _) as [wp r] eqn:Epc. apply prepare_command_run in Epc.
  destruct (preparation_ready _ _ _ _ Hset Hrd Epc) as [Hrd1 Hrd2]. clear Hrd Epc.
  destruct r as [[[ref extra] reply]|e]; [|injection H as <- _; by eapply ready_sends].
  destruct (prepare_failed reply) eqn:Epf.
  - eapply ready_sends, ready_quiet; [exact Hrd1|]. revert H. unfold dbind at 1, dbind at 1. destruct (dwhen _ _ wp) as [wf u] eqn:Ef. intros H.
    assert (quiet wp wf) by (eapply (within_when quiet); [|exact Ef]; hush). destruct u; unfold draise in H; by injection H as <- _.
  - specialize (Hrd2 _ _ _ eq_refl Epf). clear Hrd1. rename Hrd2 into Hrd. do 4 pass_ready H Hrd. unfold sset at 1, dupd at 1, dbind at 1 in H.
    eapply record_and_send_run; [|exact H]. destruct Hrd as [R1 R2 R3 R4]. split; [done|apply held_record|done|done].
Qed.

(** ** Runs *)

(** Every submission is settled by evidence, or held by the state and by the file. *)
Definition owed_held (w : world) : Prop :=
  forall l1 e l2 id, log w = l1 ++ e :: l2 -> submits id e ->
    (exists x, In x l2 /\ evidence id x) \/ (held (mem w) = Some id /\ recorded ds id (log w)).

Record alive (w : world) : Prop := { al_good : good ds (log w); al_owed : owed_held w }.

(** A run keeps the driver alive up to every call. *)
Definition safe (w w' : world) : Prop :=
  alive w -> alive w' /\ log w `prefix_of` log w' /\
    forall l, log w `prefix_of` l -> l `prefix_of` log w' -> exists m, alive (mkWorld m l).

Lemma alive_restart m l d : alive (mkWorld m l) -> In d (durable ds l) -> alive (mkWorld d l).
Proof.
  intros [Hg Ho] Hd. split; [done|]. intros l1 e l2 id Hl He. destruct (Ho l1 e l2 id Hl He) as [?|[_ Hr]]; [by left|]. right. split; [|done].
  unfold recorded in Hr. rewrite List.Forall_forall in Hr. by apply Hr.
Qed.

Lemma settled_alive m l : good ds l -> all_settled l -> alive (mkWorld m l).
Proof. intros Hg Hs. split; [done|]. intros l1 e l2 id Hl He. left. by eapply Hs. Qed.

Lemma none_settled w : alive w -> held (mem w) = None -> all_settled (log w).
Proof. intros [_ Ho] Hh l1 e l2 id Hl He. destruct (Ho l1 e l2 id Hl He) as [?|[? _]]; [done|congruence]. Qed.

#[export] Instance safe_refl : Reflexive safe.
Proof.
  intros w Ha. split; [done|]. split; [done|]. intros l [a ->] [b H]. assert (a = []) as -> by (rewrite <- app_assoc in H; apply (f_equal length) in H;
    rewrite !length_app in H; destruct a; [done|simpl in H; lia]). rewrite app_nil_r. exists (mem w). by destruct w.
Qed.
#[export] Instance safe_trans : Transitive safe.
Proof.
  intros w1 w2 w3 H1 H2 Ha. destruct (H1 Ha) as (Ha2 & P1 & D1). destruct (H2 Ha2) as (Ha3 & P2 & D2). split; [done|]. split; [by trans (log w2)|].
  intros l Hl1 Hl3. destruct (prefix_weak_total l (log w2) (log w3)) as [H|H]; [done|done|by apply D1|by apply D2].
Qed.

Lemma alive_quiet w w' : alive w -> quiet w w' -> alive w'.
Proof.
  intros [Hg Ho] (evs & Hl & Hh & Hf). pose proof (calm_quiet _ _ Hf) as Hq. split; [rewrite Hl; by apply good_quiet|].
  intros l1 e l2 id H He. rewrite Hl in H. apply split_app in H as [(r & Hr & ->)|(r & _ & Hr)].
  - destruct (Ho l1 e r id Hr He) as [(x & Hx & Hev)|[Hi Hr']]; [left; exists x; split; [apply in_app_iff; by left|done]|].
    right. split; [congruence|]. rewrite Hl. apply recorded_calm; [done|]. by rewrite <- Hi.
  - exfalso. apply (quiet_no_submits _ Hq id e); [rewrite Hr; apply in_app_iff; right; by left|done].
Qed.

Lemma safe_quiet w w' : quiet w w' -> safe w w'.
Proof.
  intros Hq Ha. split; [by eapply alive_quiet|]. destruct Hq as (evs & Hl & _ & Hf). split; [by exists evs|]. intros l H1 H2. rewrite Hl in H2.
  apply prefix_app_inv in H2 as (a & -> & b & ->); [|done]. exists (mem w). eapply alive_quiet; [exact Ha|]. exists a. apply Forall_app in Hf as [Hf _]. done.
Qed.
Lemma safe_steady w w' : steady w w' -> safe w w'.
Proof. intros H. by apply safe_quiet, steady_quiet. Qed.

Lemma safe_sends w w' : held (mem w) = None -> sends w w' -> safe w w'.
Proof.
  intros Hh Hs Ha. pose proof (none_settled _ Ha Hh) as Hset. destruct (Hs (al_good _ Ha) Hset) as (Hg & evs & Hl & Hev).
  assert (Hpre : forall l, log w `prefix_of` l -> l `prefix_of` log w' -> alive (mkWorld (mem w') l)).
  { intros l H1 H2. pose proof (good_prefix _ _ _ H2 Hg) as Hgl. rewrite Hl in H2. apply prefix_app_inv in H2 as (a & -> & Hp); [|done].
    assert (Hnone : no_submits a -> alive (mkWorld (mem w') (log w ++ a))) by (intros; apply settled_alive; [done|by apply all_settled_app]).
    destruct Hev as [Hn|(a0 & s & b & id & -> & Hn & Hsub & Hrec & Hcalm & Hh')].
    - apply Hnone. destruct Hp as [k ->]. intros id e He. apply Hn, in_app_iff. by left.
    - apply prefix_split in Hp as [[k ->]|(r & -> & [k ->])]; [apply Hnone; intros i e He; apply Hn, in_app_iff; by left|].
      split; [done|]. simpl. apply Forall_app in Hcalm as [Hcalm _].
      assert (Hr : recorded ds id (log w ++ a0 ++ s :: r)).
      { change (s :: r) with ([s] ++ r). rewrite !app_assoc. apply recorded_calm; [|done]. unfold recorded, durable in *. rewrite foldl_app. simpl.
        unfold durable_step at 1. destruct Hsub as [-> _]. done. }
      intros l1 e l2 i H He. simpl in *. rewrite app_assoc in H. apply split_app in H as [(q & Hq & ->)|(q & _ & Hq)].
      + left. apply split_app in Hq as [(q' & Hq & ->)|(q' & _ & ->)].
        * destruct (Hset l1 e q' i Hq He) as (x & Hx & Hxe). exists x. split; [|done]. apply in_app_iff. left. apply in_app_iff. by left.
        * exfalso. apply (Hn i e); [apply in_app_iff; right; by left|done].
      + right. destruct q as [|y q]; simpl in Hq; injection Hq as <- Hq.
        * destruct Hsub as [_ Hs1], He as [_ Hs2]. split; [|by assert (i = id) as -> by congruence]. congruence.
        * exfalso. apply (quiet_no_submits _ (calm_quiet _ _ Hcalm) i e); [rewrite Hq; apply in_app_iff; right; by left|done]. }
  split; [|split; [by exists evs|intros l H1 H2; exists (mem w'); by apply Hpre]]. destruct w' as [m' l']. apply Hpre; [by exists evs|done].
Qed.

Lemma safe_prepare kind quote side cl bl reason : within safe (prepare_send E crypto kind quote side cl bl reason).
Proof. intros w w' o Hr. apply prepare_send_run in Hr as [->|[Hh Hs]]; [reflexivity|by apply safe_sends]. Qed.

(** ** Inspection *)

(** The order list a snapshot rests on. *)
Definition shows (snap : dict) (e : event) : Prop :=
  exists orders, ev_call e = Tool "orders.list" [] /\ (let! v := ev_answer e in native_reply v) = Ok orders /\
    get snap "orders" = VDict orders /\ (truthy (get snap "active") = false -> get orders "active_order_ids" = VList []).

Lemma settlement_evidence id snap e : settlement (phase (ev_state e)) id snap -> shows snap e -> held (ev_state e) = Some id -> evidence id e.
Proof.
  intros Hs (orders & Hc & Hr & Ho & Ha) Hh. exists orders. split; [done|]. split; [done|].
  destruct Hs as [Hp Hact|o row f Horders Hown Hef Hf Hact|o row Horders Hown Hnf Hact]; (split; [by apply Ha|split; [done|]]); [by left| |];
    rewrite Ho in Horders; injection Horders as <-; right; exists row; (split; [done|]); [left; eauto|by right].
Qed.

(** Since [w0] the driver took the snapshot and did nothing but steady work. *)
Definition observed (w0 w : world) (snap : dict) : Prop :=
  exists evs, log w = log w0 ++ evs /\ phase (mem w) = phase (mem w0) /\
    Forall (fun e => phase (ev_state e) = phase (mem w0) /\ quiet_call (ev_call e)) evs /\ exists e, In e evs /\ shows snap e.

Lemma observed_steady w0 w snap : observed w0 w snap -> steady w0 w.
Proof. intros (evs & Hl & Hp & Hf & _). by exists evs. Qed.
Lemma observed_then w0 w w' snap : observed w0 w snap -> steady w w' -> observed w0 w' snap.
Proof.
  intros (evs & Hl & Hp & Hf & e & He & Hs) (evs' & Hl' & Hp' & Hf'). exists (evs ++ evs'). rewrite Hl', Hl, app_assoc, Hp', Hp. split; [done|]. split; [done|].
  rewrite Hp in Hf'. split; [by apply Forall_app|]. exists e. split; [apply in_app_iff; by left|done].
Qed.

Lemma evidence_in w0 w snap id :
  observed w0 w snap -> settlement (phase (mem w)) id snap -> held (mem w) = Some id ->
  exists evs e, log w = log w0 ++ evs /\ all_quiet evs /\ In e evs /\ evidence id e.
Proof.
  intros (evs & Hl & Hp & Hf & e & He & Hs) Hset Hh. exists evs, e. split; [done|]. split; [eapply Forall_impl; [exact Hf|]; by intros x []|].
  split; [done|]. rewrite List.Forall_forall in Hf. destruct (Hf e He) as [Hpe _].
  apply settlement_evidence with snap; [by rewrite Hpe, <- Hp|done|]. rewrite held_phase, Hpe, <- Hp, <- held_phase. done.
Qed.

Lemma safe_inspect w0 snap w w' o : observed w0 w snap -> inspect_pending E crypto snap w = (w', o) -> safe w0 w'.
Proof.
  intros Hobs Hr. pose proof (observed_steady _ _ _ Hobs) as Hst. destruct (inspect_loose E crypto snap _ _ _ Hr) as (evs & Hl & Hf & Hh).
  destruct (held (mem w)) as [id|] eqn:Eh.
  2: { transitivity w; [by apply safe_steady|]. apply safe_quiet. exists evs. rewrite Eh. split; [done|]. split; [by destruct Hh as [?|[? _]]|].
       eapply Forall_impl; [exact Hf|]. intros e [[He|He] Hc]; by split. }
  destruct Hh as [Hh|[Hh Hc]]; [|transitivity w; [by apply safe_steady|]; apply safe_quiet; exists evs; by rewrite Eh].
  pose proof (inspect_evidence E crypto snap _ _ _ _ Hr Eh Hh) as Hset.
  destruct (evidence_in _ _ _ _ Hobs Hset Eh) as (evs0 & x & Hl0 & Hq0 & Hx & Hev).
  assert (Hq : all_quiet evs) by (eapply Forall_impl; [exact Hf|]; by intros e []). intros Ha.
  assert (Hpre : forall a, a `prefix_of` evs -> alive (mkWorld (mem w') (log w ++ a))).
  { intros a [k ->]. apply Forall_app in Hq as [Hq _]. rewrite Hl0, <- app_assoc. assert (Hqa : all_quiet (evs0 ++ a)) by (by apply Forall_app).
    apply settled_alive; [apply good_quiet; [by destruct Ha|done]|]. intros l1 e l2 i H He.
    apply split_app in H as [(r & Hr0 & ->)|(r & _ & Hr0)].
    2: { exfalso. apply (quiet_no_submits _ Hqa i e); [rewrite Hr0; apply in_app_iff; right; by left|done]. }
    destruct (al_owed _ Ha l1 e r i Hr0 He) as [(y & Hy & Hye)|[Hi _]]; [exists y; split; [apply in_app_iff; by left|done]|].
    exists x. split; [apply in_app_iff; right; apply in_app_iff; by left|].
    assert (i = id) as -> by (destruct Hobs as (_ & _ & Hp & _); rewrite held_phase in Hi, Eh; congruence). done. }
  split; [destruct w' as [m' l']; simpl in *; subst l'; by apply Hpre|]. split; [rewrite Hl, Hl0, <- app_assoc; by eexists|]. intros l H1 H2.
  destruct (prefix_weak_total l (log w) (log w')) as [H|H]; [done|by exists evs|by apply (safe_steady _ _ Hst Ha)|].
  rewrite Hl in H2. apply prefix_app_inv in H2 as (a & -> & Hp); [|done]. exists (mem w'). by apply Hpre.
Qed.

(** A finished snapshot shows the order list it read. *)
Lemma dbind_ok {A B} (m : drv A) (k : A -> drv B) w w' b :
  dbind m k w = (w', Ok b) -> exists w1 a, m w = (w1, Ok a) /\ k a w1 = (w', Ok b).
Proof. unfold dbind. destruct (m w) as [w1 [a|e]]; [eauto|done]. Qed.

Lemma steady_log w w' : steady w w' -> exists b, log w' = log w ++ b.
Proof. intros (b & Hl & _). by exists b. Qed.

Lemma no_active v ids : (let! l := as_list v in rmapM int_of l) = Ok ids -> truthy (VList (map VInt ids)) = false -> v = VList [].
Proof.
  intros H Ht. apply rbind_ok in H as (l & Hl & H). destruct ids as [|i ids]; [|done]. apply rmapM_Forall2, Forall2_nil_inv_r in H as ->.
  unfold as_list in Hl. destruct v; try done. by apply Ok_inj in Hl as ->.
Qed.

Lemma settlement_shown h o p w w' snap :
  physical_crypto_settlement_snapshot E crypto h o p w = (w', Ok snap) ->
  get snap "orders" = VDict o /\ get o "active_order_ids" = VList [].
Proof.
  unfold physical_crypto_settlement_snapshot. intros H. apply dbind_ok in H as (w1 & owner & _ & H). apply dbind_ok in H as (w2 & phys & _ & H).
  apply dbind_ok in H as (w3 & shape & Hs & H). apply dbind_ok in H as (w4 & valid & Hv & H). apply dbind_ok in H as (w5 & q & Hq & H).
  destruct q as [q|]; [|done]. injection H as _ <-. split; [done|]. destruct valid; [|done].
  destruct shape; [|by injection Hv as _ Hv]. injection Hs as _ Hs. unfold settlement_valid in Hs.
  apply pand_true in Hs as [Hs _]. apply pand_true in Hs as [Hs _]. apply Ok_inj in Hs. split_bools. destruct (get o "active_order_ids") as [| | | | | |[|x l]|]; done.
Qed.

Lemma snapshot_observed tracked quote settle w w' snap : snapshot E crypto tracked quote settle w = (w', Ok snap) -> observed w w' snap.
Proof.
  intros H. pose proof (steady_snapshot E crypto tracked quote settle _ _ _ H) as (evs & Hl & Hp & Hf). exists evs. split; [done|]. split; [done|]. split; [done|].
  unfold snapshot in H. apply dbind_ok in H as (w1 & h & H1 & H). apply dbind_ok in H as (w2 & u & H2 & H). apply dbind_ok in H as (w3 & owner & H3 & H).
  apply dbind_ok in H as (w4 & u' & H4 & H). apply dbind_ok in H as (w5 & o & H5 & H). unfold native, dbind, perform, dlift in H5. cbv zeta in H5.
  destruct (e_answer E (log w4) (Tool "orders.list" [])) as [v|] eqn:Ea; [|done]. injection H5 as Hw5 Ho.
  assert (Hs4 : steady w w4).
  { transitivity w1; [by eapply steady_native|]. transitivity w2; [by eapply (within_guard steady)|]. injection H3 as <- _.
    eapply (within_when steady); [|exact H4]. hush. }
  apply steady_log in Hs4 as (b & Hb). subst w5. simpl in H. set (e := mkEvent (mem w4) (Tool "orders.list" []) (Ok v)) in *.
  assert (Hend : (exists c, log w' = (log w4 ++ [e]) ++ c) -> shows snap e -> exists e, In e evs /\ shows snap e).
  { intros [c Hc] Hs. exists e. split; [|done]. rewrite Hc, Hb, <- !app_assoc in Hl. apply app_inv_head in Hl. rewrite <- Hl. apply in_app_iff. right. by left. }
  assert (Hsteady : forall A (m : drv A) w0 a, within steady m -> m (mkWorld (mem w4) (log w4 ++ [e])) = (w0, Ok a) -> exists c, log w0 = (log w4 ++ [e]) ++ c).
  { intros A m w0 a Hm Hr. destruct (steady_log _ _ (Hm _ _ _ Hr)) as [c Hc]. by exists c. }
  apply Hend; [refine (Hsteady _ _ _ _ _ H); hush|]. clear Hend Hsteady Hl Hb Hf H4.
  apply dbind_ok in H as (w6 & p & H6 & H). destruct (settle && _ && _).
  - apply settlement_shown in H as [Hs Hact]. exists o. split; [done|]. split; [done|]. split; [done|]. by intros _.
  - apply dbind_ok in H as (w7 & ql & _ & H). apply dbind_ok in H as (w8 & ? & _ & H). apply dbind_ok in H as (w9 & ps & _ & H).
    apply dbind_ok in H as (w10 & qs & _ & H). apply dbind_ok in H as (w11 & ? & _ & H). apply dbind_ok in H as (w12 & mine & _ & H).
    apply dbind_ok in H as (w13 & own & _ & H). apply dbind_ok in H as (w14 & ids & Hids & H). injection H as _ <-. injection Hids as _ Hids.
    exists o. split; [done|]. split; [done|]. split; [done|]. intros Ht. by eapply no_active.
Qed.
End sending.

End DriverLife.
