(* ===== verification/DriverRun.v ===== *)
(** * Runs of the paper driver

    Every mode and the resident loop keep the driver alive at every call; so does any
    sequence of processes, each started from what the file held when the last one died. *)

From Stdlib Require Import Ascii Floats.SpecFloat.
From S2P Require Import Prelude PyText PyValue PyOrder PyBytes PyFloat RowMonad Driver DriverCommand DriverLease DriverLoop DriverFacts DriverLife.
From stdpp Require Import base tactics list strings.
From Stdlib Require Import ZArith Lia Bool.
Import DriverCommand DriverLease DriverLoop DriverFacts DriverLife.

Open Scope Z_scope.

Module DriverRun.

(** ** Programs with local variables *)

Definition lwithin {A} (R : world -> world -> Prop) (m : lp A) : Prop := forall l w w' l' o, m l w = (w', l', o) -> R w w'.

Section logic.
Context (R : world -> world -> Prop) `{!Reflexive R, !Transitive R}.

Lemma lwithin_bind {A B} (m : lp A) (k : A -> lp B) : lwithin R m -> (forall a, lwithin R (k a)) -> lwithin R (lbind m k).
Proof.
  intros Hm Hk l w w' l' o. unfold lbind. destruct (m l w) as [[w1 l1] [a|e]] eqn:E; intros H.
  - transitivity w1; [by eapply Hm|by eapply Hk].
  - injection H as <- <- <-. by eapply Hm.
Qed.
Lemma lwithin_lift {A} (m : drv A) : within R m -> lwithin R (lift m).
Proof. intros Hm l w w' l' o. unfold lift. destruct (m w) as [w1 r] eqn:E. intros [= <- <- <-]. by eapply Hm. Qed.
Lemma lwithin_set l0 : lwithin R (lset l0).
Proof. intros l w w' l' o [= <- <- <-]. reflexivity. Qed.
Lemma lwithin_get : lwithin R lget.
Proof. intros l w w' l' o [= <- <- <-]. reflexivity. Qed.
End logic.

Ltac lhush :=
  lazymatch goal with
  | |- lwithin _ (lbind _ _) => apply lwithin_bind; [apply _|lhush|intros; lhush]
  | |- lwithin _ (lift _) => apply lwithin_lift; hush
  | |- lwithin _ (lset _) => apply lwithin_set; apply _
  | |- lwithin _ lget => apply lwithin_get; apply _
  | |- lwithin _ (if ?b then _ else _) => destruct b; lhush
  | |- lwithin _ (match ?x with _ => _ end) => destruct x; lhush
  | |- _ => auto with quiet
  end.

Lemma lsteady_bind {A B} (m : lp A) (k : A -> lp B) l w w' l' o :
  lwithin steady m -> lbind m k l w = (w', l', o) ->
  steady w w' \/ exists w1 l1 a, m l w = (w1, l1, Ok a) /\ steady w w1 /\ k a l1 w1 = (w', l', o).
Proof.
  intros Hm Hr. unfold lbind in Hr. destruct (m l w) as [[w1 l1] [a|e]] eqn:Em; pose proof (Hm _ _ _ _ _ Em).
  - right. by exists w1, l1, a.
  - injection Hr as <- <- <-. by left.
Qed.

(** What a derived driver owes: its calls keep their laws, and preparing a command keeps
    the driver alive at every call. *)
Class HookLaws (K : Hooks) := {
  hook_laws :: OpsLaws hook_ops;
  prepare_safe ds kind quote side cash base reason : within (safe ds) (op_prepare kind quote side cash base reason) }.

#[export] Instance base_hook_laws E crypto : HookLaws (base_hooks E crypto).
Proof. split; cbn [base_hooks hook_ops op_prepare]; [apply _|]. intros. by apply safe_prepare; apply _. Qed.

Section runs.
Context (E : env) {K : Hooks} {L : HookLaws K} (crypto : bool).
Hint Resolve hook_laws : quiet.

(** ** Steady parts of the loop *)

Lemma steady_observation ph r : within steady (record_loop_observation E ph r).
Proof. unfold record_loop_observation. hush. Qed.
Lemma steady_loop_error : within steady (record_loop_error E).
Proof. unfold record_loop_error. hush. Qed.
Lemma steady_completion wk : within steady (record_model_completion E wk).
Proof. unfold record_model_completion. hush. Qed.
Lemma steady_outcome b v : within steady (completion_outcome b v).
Proof.
  unfold completion_outcome. hush. apply steady_upd. intros s. destruct (get s "model_completion_observation"); try done. by apply phase_dset.
Qed.
Lemma steady_entry_guard r a : within steady (record_entry_guard E r a).
Proof. unfold record_entry_guard. destruct (guard_reading r) as [[status reason] code]. hush. Qed.
Lemma steady_inference_hold : within steady (entry_inference_hold_reason E).
Proof. unfold entry_inference_hold_reason. hush. Qed.
Hint Resolve steady_observation steady_loop_error steady_completion steady_outcome steady_entry_guard steady_inference_hold : quiet.
Lemma steady_hold_reason snap : within steady (model_inference_hold_reason E crypto snap).
Proof. unfold model_inference_hold_reason. hush. Qed.
Lemma steady_cancel r : within steady (worker_cancel E r).
Proof. unfold worker_cancel. hush. Qed.
Lemma steady_done : within steady (worker_done E).
Proof. unfold worker_done. hush. Qed.
Lemma steady_block_reason : within steady block_reason.
Proof. unfold block_reason. hush. Qed.
Hint Resolve steady_hold_reason steady_cancel steady_done steady_block_reason : quiet.

Lemma dget_pop_other (k k' : string) (d : dict) : k <> k' -> dget k (dpop k' d) = dget k d.
Proof. intros Hk. induction d as [|[k2 v] d IH]; simpl; [done|]. repeat case_decide; subst; simpl; repeat case_decide; congruence. Qed.
Lemma phase_pop k s : k <> "pending" -> phase (dpop k s) = phase s.
Proof. intros Hk. unfold phase, get, getd, dget_or. by rewrite dget_pop_other by congruence. Qed.
Lemma steady_pop k : k <> "pending" -> within steady (dupd (dpop k)).
Proof. intros Hk. apply steady_upd. intros s. by apply phase_pop. Qed.
Hint Extern 1 (within steady (dupd (dpop _))) => apply steady_pop; discriminate : quiet.

Lemma steady_sync reason : lwithin steady (sync_model_inference E reason).
Proof. unfold sync_model_inference. lhush. Qed.
Lemma steady_cancel_moved pos : lwithin steady (cancel_moved E crypto pos).
Proof. unfold cancel_moved. lhush. Qed.
Lemma steady_usable wk d pos : within steady (usable_decision E crypto wk d pos).
Proof. unfold usable_decision. hush. Qed.
Lemma steady_model_hold e b : within steady (model_hold E e b).
Proof. unfold model_hold. hush. Qed.
Hint Resolve steady_sync steady_cancel_moved steady_usable steady_model_hold : quiet.
Lemma steady_consume pos : lwithin steady (consume_decision E crypto pos).
Proof. unfold consume_decision. lhush. Qed.
Lemma steady_quote : within steady (fresh_quote E crypto).
Proof. unfold fresh_quote. hush. Qed.
Lemma steady_history : within steady state_history.
Proof. unfold state_history. hush. Qed.
Hint Resolve steady_consume steady_quote steady_history : quiet.
Lemma steady_extend q : within steady (extend_history q).
Proof. unfold extend_history. hush. Qed.
Lemma steady_start pos r : lwithin steady (start_worker E pos r).
Proof. unfold start_worker. lhush. Qed.
Lemma steady_adopt snap pos : within steady (adopt_position E crypto snap pos).
Proof. unfold adopt_position. hush. Qed.
Hint Resolve steady_extend steady_start steady_adopt : quiet.

(** ** Safe runs *)

Context (ds : list dict).
Notation safe := (safe ds).

Lemma safe_of {A} (m : drv A) : within steady m -> within safe m.
Proof. intros Hm w w' o Hr. apply safe_steady. by eapply Hm. Qed.
Lemma lsafe_of {A} (m : lp A) : lwithin steady m -> lwithin safe m.
Proof. intros Hm l w w' l' o Hr. apply safe_steady. by eapply Hm. Qed.
Hint Extern 5 (within safe _) => apply safe_of : quiet.
Hint Extern 5 (lwithin safe _) => apply lsafe_of : quiet.
Hint Extern 1 (within safe (op_prepare _ _ _ _ _ _)) => apply prepare_safe : quiet.

Lemma safe_close_out ph why q : within safe (close_out E ph why q).
Proof. unfold close_out. hush. Qed.
Lemma safe_open_entry q d : within safe (open_entry E q d).
Proof. unfold open_entry. hush. Qed.
Lemma safe_recovering snap pos : within safe (recovering E crypto snap pos).
Proof. unfold recovering. hush. Qed.
Hint Resolve safe_close_out safe_open_entry safe_recovering : quiet.
Lemma safe_act snap pos q d : within safe (act E crypto snap pos q d).
Proof. unfold act. hush. Qed.
Hint Resolve safe_act : quiet.
Lemma safe_quoted snap pos : lwithin safe (quoted E crypto snap pos).
Proof. unfold quoted. lhush. Qed.
Hint Resolve safe_quoted : quiet.
Lemma safe_trading snap pos : lwithin safe (trading E crypto snap pos).
Proof. unfold trading. lhush. Qed.
Lemma safe_recover_from e : within safe (recover_from E e).
Proof. unfold recover_from. hush. Qed.
Hint Resolve safe_trading safe_recover_from : quiet.

(** The rest of a run after a snapshot, up to the inspection. *)
Ltac observing H Hobs :=
  let w1 := fresh "w" in let l1 := fresh "l" in let a := fresh "a" in let Hs := fresh "Hs" in
  apply lsteady_bind in H as [Hs|(w1 & l1 & a & _ & Hs & H)];
    [apply safe_steady; etransitivity; [exact (observed_steady _ _ _ Hobs)|exact Hs]| |lhush];
  apply (observed_then _ _ _ _ Hobs) in Hs; clear Hobs; rename Hs into Hobs.

Lemma safe_body : lwithin safe (body E crypto).
Proof.
  intros l w w' l' o H. unfold body in H. unfold lbind at 1, lift at 1, sget, dread in H. set (pending := get (mem w) "pending") in *.
  apply lsteady_bind in H as [Hs|(w1 & l1 & snap & Hr & _ & H)]; [by apply safe_steady| |lhush].
  assert (Hobs : observed w w1 snap).
  { unfold lift in Hr. destruct (snapshot _ _ _ _ _ w) as [w2 [d|]] eqn:Es; [|done]. injection Hr as <- _ <-. by eapply (snapshot_observed E crypto). }
  cbv zeta in H. do 7 observing H Hobs. destruct (negb (is_none pending)).
  - unfold lift in H. destruct (dbind _ _ _) as [w9 r] eqn:Ed. injection H as <- _ _. unfold dbind in Ed.
    destruct (record_loop_observation _ _ _ _) as [wa [u|e]] eqn:Er; pose proof (steady_observation _ _ _ _ _ Er) as Hs;
      apply (observed_then _ _ _ _ Hobs) in Hs; [by eapply (safe_inspect E crypto ds)|].
    injection Ed as <- _. apply safe_steady. by eapply observed_steady.
  - etransitivity; [apply safe_steady; by eapply observed_steady|]. refine ((_ : lwithin safe _) _ _ _ _ _ H). lhush.
Qed.
Hint Resolve safe_body : quiet.

Lemma safe_iteration identity n : lwithin safe (iteration E crypto identity n).
Proof.
  intros l w w' l' o. unfold iteration. destruct (lift _ l w) as [[w1 l1] [u|e]] eqn:E1;
    (assert (safe w w1) by (refine ((_ : lwithin safe _) _ _ _ _ _ E1); lhush)); [|by intros [= <- _ _]].
  destruct (body E crypto l1 w1) as [[w2 l2] [u'|e]] eqn:E2; pose proof (safe_body _ _ _ _ _ E2); intros H1; etransitivity; [eassumption| |eassumption|].
  - by injection H1 as <- _ _.
  - etransitivity; [eassumption|]. refine ((_ : lwithin safe _) _ _ _ _ _ H1). lhush.
Qed.

Lemma safe_resident identity rounds : forall n, lwithin safe (resident E crypto identity n rounds).
Proof. induction rounds as [|rounds IH]; intros n; simpl; [lhush|]. apply lwithin_bind; [apply _|apply safe_iteration|intros _; apply IH]. Qed.

(** ** Modes *)

Lemma steady_startup b : within steady (startup E crypto b).
Proof.
  unfold startup. hush; apply steady_upd; intros s; [case_match; [by apply phase_dset|done]|by rewrite !phase_setdefault].
Qed.
Lemma steady_recover_mode : within steady (recover_mode E crypto).
Proof. unfold recover_mode. hush. Qed.
Lemma steady_hold : within steady take_settlement_hold.
Proof. unfold take_settlement_hold. hush. Qed.
Lemma steady_release_hold : within steady (dupd release_settlement_hold).
Proof. apply steady_upd. intros s. unfold release_settlement_hold. case_match; by rewrite !phase_dset. Qed.
Hint Resolve steady_startup steady_recover_mode steady_hold steady_release_hold : quiet.

(** A program that goes on after a snapshot was observed. *)
Definition from_snapshot {A} (snap : dict) (m : drv A) : Prop := forall w0 w w' o, observed w0 w snap -> m w = (w', o) -> safe w0 w'.

Lemma from_steady {A B} snap (m : drv A) (k : A -> drv B) :
  within steady m -> (forall a, from_snapshot snap (k a)) -> from_snapshot snap (dbind m k).
Proof.
  intros Hm Hk w0 w w' o Hobs. unfold dbind. destruct (m w) as [w1 [a|e]] eqn:Em; intros H; pose proof (observed_then _ _ _ _ Hobs (Hm _ _ _ Em)) as Hobs1.
  - by eapply Hk.
  - injection H as <- _. apply safe_steady. by eapply observed_steady.
Qed.
Lemma from_inspect {B} snap (k : unit -> drv B) : (forall u, within safe (k u)) -> from_snapshot snap (dbind (inspect_pending E crypto snap) k).
Proof.
  intros Hk w0 w w' o Hobs. unfold dbind. destruct (inspect_pending _ _ _ w) as [w1 [a|e]] eqn:Em; intros H; pose proof (safe_inspect E crypto ds _ _ _ _ _ Hobs Em).
  - etransitivity; [eassumption|]. by eapply Hk.
  - by injection H as <- _.
Qed.
Lemma from_safe {A} snap (m : drv A) : within safe m -> from_snapshot snap m.
Proof. intros Hm w0 w w' o Hobs H. etransitivity; [apply safe_steady; by eapply observed_steady|by eapply Hm]. Qed.
Lemma safe_snapshot {B} tracked q st (k : dict -> drv B) :
  (forall snap, from_snapshot snap (k snap)) -> within safe (dbind (snapshot E crypto tracked q st) k).
Proof.
  intros Hk w w' o. unfold dbind. destruct (snapshot _ _ _ _ _ w) as [w1 [snap|e]] eqn:Es; intros H.
  - eapply Hk; [by eapply (snapshot_observed E crypto)|exact H].
  - injection H as <- _. apply safe_steady. by eapply (steady_snapshot E crypto tracked q st).
Qed.

Lemma safe_reconcile_mode : within safe (reconcile_mode E crypto).
Proof.
  unfold reconcile_mode. apply within_bind; [apply _|hush|intros pending]. apply safe_snapshot. intros snap.
  apply from_steady; [hush|intros _]. destruct (truthy pending); [apply from_inspect|apply from_safe]; intros; hush.
Qed.

Lemma safe_await rounds : within safe (await_settlement E crypto rounds).
Proof.
  induction rounds as [|rounds IH]; simpl; [hush|]. apply within_bind; [apply _|hush|intros p]. destruct (is_none p); [hush|].
  apply within_bind; [apply _|hush|intros left]. destruct (negb (truthy left)); [hush|]. apply safe_snapshot. intros snap. by apply from_inspect.
Qed.
Hint Resolve safe_await : quiet.
Lemma safe_canary : within safe (canary_roundtrip E crypto).
Proof. unfold canary_roundtrip. hush. Qed.
End runs.

(** ** Lives *)

(** The first process finds [c0] in the file; a process may die after any of its calls, and
    the next one finds what the file then holds. *)
Inductive life (R : world -> world -> Prop) (c0 : dict) : world -> Prop :=
| life_start : life R c0 (mkWorld c0 [])
| life_run w w' : life R c0 w -> R w w' -> life R c0 w'
| life_death w w' l d :
    life R c0 w -> R w w' -> log w `prefix_of` l -> l `prefix_of` log w' -> In d (durable [c0] l) -> life R c0 (mkWorld d l).

Section lives.
Context (E : env) {K : Hooks} (crypto : bool).

(** What a process may do. *)
Inductive process_run : world -> world -> Prop :=
| run_startup reconcile w w' o : startup E crypto reconcile w = (w', o) -> process_run w w'
| run_recover w w' o : recover_mode E crypto w = (w', o) -> process_run w w'
| run_reconcile w w' o : reconcile_mode E crypto w = (w', o) -> process_run w w'
| run_canary w w' o : canary_roundtrip E crypto w = (w', o) -> process_run w w'
| run_resident identity n rounds l l' w w' o : resident E crypto identity n rounds l w = (w', l', o) -> process_run w w'.

Lemma process_safe {L : HookLaws K} ds w w' : process_run w w' -> safe ds w w'.
Proof.
  intros [r v v' o Hr|v v' o Hr|v v' o Hr|v v' o Hr|i n r l l' v v' o Hr].
  - apply safe_steady. by eapply steady_startup.
  - apply safe_steady. by eapply steady_recover_mode.
  - by eapply safe_reconcile_mode.
  - by eapply safe_canary.
  - by eapply safe_resident.
Qed.
End lives.

(** A process of any driver that keeps the laws. *)
Definition lawful_run (E : env) (crypto : bool) (w w' : world) : Prop := exists (K : Hooks) (L : HookLaws K), process_run E crypto w w'.

Lemma life_alive E crypto c0 w : life (lawful_run E crypto) c0 w -> alive [c0] w.
Proof.
  induction 1 as [|w w' _ IH (H & L & Hr)|w w' l d _ IH (H & L & Hr) H1 H2 Hd].
  - apply settled_alive; [apply good_nil|]. intros l1 e l2 id H. by destruct l1.
  - by apply (process_safe E crypto _ _ _ Hr IH).
  - destruct (process_safe E crypto _ _ _ Hr IH) as (_ & _ & Hl). destruct (Hl l H1 H2) as [m Hm]. by eapply alive_restart.
Qed.

(** ** Counting *)

Definition is_text (t : string) (i : option value) : bool := match i with Some v => bool_decide (py_str v = t) | None => false end.

(** How often a text was submitted, and how often the command client issued it. *)
Definition submits_text (t : string) (e : event) : bool :=
  match ev_call e with Command op args => bool_decide (op = "submit" /\ args = ["--command-id"; t]) | _ => false end.
Definition issues_text (t : string) (e : event) : bool :=
  match ev_call e with Command op _ => is_prepare op && is_text t (answer_id (ev_answer e)) | _ => false end.
Definition count {A} (f : A -> bool) (l : list A) : nat := length (List.filter f l).

Lemma count_snoc {A} (f : A -> bool) l e : count f (l ++ [e]) = (count f l + if f e then 1 else 0)%nat.
Proof. unfold count. rewrite List.filter_app, length_app. simpl. by destruct (f e). Qed.

Lemma good_last ds l e : good ds (l ++ [e]) -> good ds l /\ event_good ds l e.
Proof. intros H. split; [|by apply (H l e [])]. eapply good_prefix; [|exact H]. by exists [e]. Qed.

(** The identifier that is waiting to be submitted is counted as issued already. *)
Lemma good_counts ds l t : good ds l ->
  (count (submits_text t) l + (if is_text t (issued l) then 1 else 0) <= count (issues_text t) l)%nat.
Proof.
  induction l as [|e l IH] using rev_ind; intros Hg; [done|]. apply good_last in Hg as [Hg He]. specialize (IH Hg).
  rewrite !count_snoc. unfold issued in *. rewrite foldl_app. simpl. unfold issued_step at 1, issues_text at 2, submits_text at 2. unfold event_good in He.
  destruct (ev_call e) as [| | |op args| | | | | |] eqn:Ec; try lia.
  destruct (is_prepare op) eqn:Ep.
  - rewrite (bool_decide_eq_false_2 (op = _ /\ _)) by (intros [-> _]; done). simpl. destruct (is_text t (answer_id _)); lia.
  - simpl. case_bool_decide as Hop.
    + subst op. destruct He as (id & -> & _ & Hi & _). unfold issued in Hi. rewrite Hi in IH. simpl in *.
      rewrite (bool_decide_ext _ (py_str id = t)) by (split; [by intros [_ [= ?]]|by intros ->]). lia.
    + rewrite (bool_decide_eq_false_2 (op = _ /\ _)) by tauto. lia.
Qed.

(** ** Claims *)

(** C2: Over any sequence of processes of drivers that keep the laws, whatever the outside
    answers and at whatever call a process dies and the next one starts from the state
    file: at every submission the identifier is the one held in the state and in every
    possible content of the state file before the call, and no identifier is submitted
    more often than the command client issued it. *)
Theorem driver_submits_once (E : env) (crypto : bool) (c0 : dict) (w : world) :
  life (lawful_run E crypto) c0 w ->
  (forall l1 e l2 args, log w = l1 ++ e :: l2 -> ev_call e = Command "submit" args ->
     exists id, args = ["--command-id"; py_str id] /\ held (ev_state e) = Some id /\ Forall (fun d => held d = Some id) (durable [c0] l1)) /\
  forall t, (count (submits_text t) (log w) <= count (issues_text t) (log w))%nat.
Proof.
  intros Hl. pose proof (al_good _ _ (life_alive _ _ _ _ Hl)) as Hg. split.
  - intros l1 e l2 args Hw He. specialize (Hg l1 e l2 Hw). unfold event_good in Hg. rewrite He in Hg. destruct Hg as (id & ? & ? & _ & ?). by exists id.
  - intros t. pose proof (good_counts _ _ t Hg). lia.
Qed.

(** C1: Over any such sequence of processes, a command is prepared only when nothing is pending and every command submitted
    before, by this process or an earlier one, was followed by a read of the broker's order
    list that settles it: with no active order, and with the command definitely rejected,
    or its economic fill, or its terminal state without a fill. *)
Theorem driver_no_replacement (E : env) (crypto : bool) (c0 : dict) (w : world) l1 e l2 op args :
  life (lawful_run E crypto) c0 w -> log w = l1 ++ e :: l2 -> ev_call e = Command op args -> is_prepare op = true ->
  held (ev_state e) = None /\
  forall a s b id, l1 = a ++ s :: b -> submits id s -> exists x, In x b /\ evidence id x.
Proof.
  intros Hl Hw Hc Hp. pose proof (al_good _ _ (life_alive _ _ _ _ Hl) l1 e l2 Hw) as Hg. unfold event_good in Hg. rewrite Hc, Hp in Hg.
  destruct Hg as [Hh Hs]. split; [done|]. intros a s b id Ha Hs'. by eapply Hs.
Qed.

End DriverRun.
