(* ===== verification/DriverFence.v ===== *)
(** * The fence of the paper driver

    A fenced or halted driver opens nothing.  In every state the driver saves, a required
    recovery of the owner comes with a halt of new entries, and an opening order is only
    prepared in a state without a halt.  This holds along the resident loop, the startup,
    the recovery and the reconciliation mode, whatever the outside answers. *)

From Stdlib Require Import Ascii Floats.SpecFloat.
From S2P Require Import Prelude PyText PyValue PyOrder PyBytes PyFloat RowMonad Driver DriverCommand DriverLease DriverLoop DriverFacts DriverRun.
From stdpp Require Import base tactics list strings.
From Stdlib Require Import ZArith Lia Bool.
Import DriverCommand DriverLease DriverLoop DriverFacts DriverRun.

Open Scope Z_scope.

Module DriverFence.

Definition halted (s : dict) : bool := truthy (get s "halt_new_entries").
Definition fenced (s : dict) : bool := truthy (get s "owner_fence_recovery_required").
Definition fence_ok (s : dict) : Prop := fenced s = true -> halted s = true.

Definition is_open (op : string) : bool := inb op ["prepare-open"; "prepare-crypto-open"; "prepare-crypto-canary-open"].
Definition opens (c : call) : bool := match c with Command op _ => is_open op | _ => false end.

(** What is saved keeps the fence; what is opened is opened without a halt. *)
Definition event_ok (e : event) : Prop :=
  match ev_call e with
  | Save => fence_ok (ev_state e)
  | c => opens c = true -> halted (ev_state e) = false /\ fenced (ev_state e) = false
  end.

Definition guarded (w w' : world) : Prop :=
  fence_ok (mem w) -> fence_ok (mem w') /\ exists evs, log w' = log w ++ evs /\ Forall event_ok evs.

#[export] Instance guarded_refl : Reflexive guarded.
Proof. intros w H. split; [done|]. exists []. by rewrite app_nil_r. Qed.
#[export] Instance guarded_trans : Transitive guarded.
Proof.
  intros w1 w2 w3 H1 H2 H. destruct (H1 H) as (F2 & e1 & L1 & E1). destruct (H2 F2) as (F3 & e2 & L2 & E2). split; [done|].
  exists (e1 ++ e2). rewrite L2, L1, app_assoc. split; [done|]. by apply Forall_app.
Qed.

(** ** Flags *)

Definition flags (s : dict) : bool * bool := (halted s, fenced s).
Definition flagged (w w' : world) : Prop :=
  flags (mem w') = flags (mem w) /\ exists evs, log w' = log w ++ evs /\ Forall (fun e => flags (ev_state e) = flags (mem w)) evs.
#[export] Instance flagged_refl : Reflexive flagged.
Proof. intros w. split; [done|]. exists []. by rewrite app_nil_r. Qed.
#[export] Instance flagged_trans : Transitive flagged.
Proof.
  intros w1 w2 w3 (F1 & e1 & L1 & E1) (F2 & e2 & L2 & E2). split; [congruence|]. exists (e1 ++ e2). rewrite L2, L1, app_assoc. split; [done|].
  apply Forall_app. split; [done|]. by rewrite <- F1.
Qed.

Definition closed : world -> world -> Prop := follows (fun _ e => opens (ev_call e) = false).
#[export] Instance closed_refl : Reflexive closed.
Proof. apply follows_refl. Qed.
#[export] Instance closed_trans : Transitive closed.
Proof. apply follows_trans. Qed.

(** What a derived driver owes: its saves and commands leave the flags alone, and only an
    opening command opens. *)
Class FlagLaws (O : Ops) := {
  save_flagged : within flagged op_save;
  save_closed : within closed op_save;
  command_flagged op args : within flagged (op_command op args);
  command_closed op args : is_open op = false -> within closed (op_command op args) }.

Lemma fence_flags s s' : flags s' = flags s -> fence_ok s -> fence_ok s'.
Proof. unfold flags, fence_ok. intros [= H1 H2]. by rewrite H1, H2. Qed.

Lemma event_flags e s : flags (ev_state e) = flags s -> fence_ok s -> (opens (ev_call e) = true -> halted s = false) -> event_ok e.
Proof.
  intros Hf Hok Ho. unfold event_ok. assert (opens (ev_call e) = true -> halted (ev_state e) = false /\ fenced (ev_state e) = false).
  { intros H. injection Hf as H1 H2. rewrite H1, H2. specialize (Ho H). unfold fence_ok in Hok. destruct (fenced s); [by rewrite Hok in Ho|done]. }
  destruct (ev_call e); try done. by eapply fence_flags.
Qed.

Lemma flagged_guarded w w' : halted (mem w) = false -> flagged w w' -> guarded w w'.
Proof.
  intros Hh (Hf & evs & Hl & He) Hok. split; [by eapply fence_flags|]. exists evs. split; [done|]. eapply Forall_impl; [exact He|].
  intros e Hfe. exact (event_flags e (mem w) Hfe Hok (fun _ => Hh)).
Qed.

Lemma closed_guarded w w' : flagged w w' -> closed w w' -> guarded w w'.
Proof.
  intros (Hf & evs & Hl & He) (evs' & Hl' & Ho) Hok. split; [by eapply fence_flags|]. exists evs. split; [done|].
  rewrite Hl in Hl'. apply app_inv_head in Hl' as <-. rewrite List.Forall_forall in *. intros e Hin.
  eapply event_flags; [by apply He|done|]. apply in_split in Hin as (l1 & l2 & Hin). by rewrite (Ho l1 e l2 Hin).
Qed.

Section base.
Context (E : env).
#[export] Instance base_flags : FlagLaws (base_ops E).
Proof.
  split; unfold op_save, op_command; cbn [base_ops].
  - intros w w' o. unfold save_state, dbind, perform, dret. destruct (e_answer E (log w) Save); intros [= <- _]; (split; [done|]); eexists; (split; [done|]);
      by repeat constructor.
  - unfold save_state. apply within_bind; [apply _|by apply follows_perform|]. intros. apply within_ret, _.
  - intros op args w w' o H. apply paper_cmd_sent in H as (a & -> & _). split; [done|]. eexists. split; [done|]. by repeat constructor.
  - intros op args Ho w w' o H. apply paper_cmd_sent in H as (a & -> & _). by eapply follows_snoc.
Qed.
End base.

(** ** Guarded steps *)

Section steps.
Context (E : env) {O : Ops} {L : FlagLaws O}.

Lemma guarded_upd f : (forall s, fence_ok s -> fence_ok (f s)) -> within guarded (dupd f).
Proof. intros Hf w w' o [= <- <-] Hok. split; [by apply Hf|]. exists []. simpl. by rewrite app_nil_r. Qed.
Lemma flags_dset k v s : k <> "halt_new_entries" -> k <> "owner_fence_recovery_required" -> flags (dset k v s) = flags s.
Proof. intros H1 H2. unfold flags, halted, fenced. by rewrite !get_dset_ne by congruence. Qed.
Lemma guarded_same f : (forall s, flags (f s) = flags s) -> within guarded (dupd f).
Proof. intros Hf. apply guarded_upd. intros s. by apply fence_flags. Qed.
Lemma guarded_sset k v : k <> "halt_new_entries" -> k <> "owner_fence_recovery_required" -> within guarded (sset k v).
Proof. intros H1 H2. apply guarded_same. intros s. by apply flags_dset. Qed.
Lemma halt_ok s : fence_ok (dset "halt_new_entries" (VBool true) s).
Proof. intros _. unfold halted. by rewrite get_dset_eq. Qed.
Lemma guarded_halt : within guarded (sset "halt_new_entries" (VBool true)).
Proof. apply guarded_upd. intros s _. apply halt_ok. Qed.
Lemma flags_updates kvs s :
  ~ In "halt_new_entries" (map fst kvs) -> ~ In "owner_fence_recovery_required" (map fst kvs) -> flags (foldl (fun s kv => dset kv.1 kv.2 s) s kvs) = flags s.
Proof.
  revert s. induction kvs as [|[k v] kvs IH]; intros s H1 H2; simpl in *; [done|]. rewrite IH by tauto. apply flags_dset; tauto.
Qed.
Lemma guarded_supdate kvs : ~ In "halt_new_entries" (map fst kvs) -> ~ In "owner_fence_recovery_required" (map fst kvs) -> within guarded (supdate kvs).
Proof. intros H1 H2. apply guarded_same. intros s. by apply flags_updates. Qed.
Lemma guarded_pset k v : within guarded (pset k v).
Proof. apply guarded_same. intros s. destruct (get s "pending"); try done. by apply flags_dset. Qed.
Lemma guarded_sincr k : k <> "halt_new_entries" -> k <> "owner_fence_recovery_required" -> within guarded (sincr k).
Proof. intros H1 H2. apply within_bind; [apply _|apply within_read; apply _|]. intros n. by apply guarded_sset. Qed.
Lemma guarded_perform c : c <> Save -> opens c = false -> within guarded (perform E c).
Proof.
  intros Hs Ho w w' o [= <- <-] Hok. split; [done|]. eexists. split; [done|]. repeat constructor. unfold event_ok. destruct c; try done; intros H; simpl in *; congruence.
Qed.
Lemma guarded_now : within guarded (now_ms E).
Proof. intros w w' o [= <- <-] Hok. split; [done|]. eexists. split; [done|]. by repeat constructor. Qed.
Lemma guarded_save : within guarded op_save.
Proof. intros w w' o H. apply closed_guarded; [by eapply save_flagged|by eapply save_closed]. Qed.
Lemma guarded_command op args : is_open op = false -> within guarded (op_command op args).
Proof. intros Ho w w' o H. apply closed_guarded; [by eapply command_flagged|by eapply command_closed]. Qed.
End steps.

(** Decomposes a program; an operation without a lemma of its own is unfolded. *)
Create HintDb fence discriminated.
#[export] Hint Resolve guarded_halt guarded_pset guarded_now guarded_save : fence.
#[export] Hint Extern 1 (within guarded (sset _ _)) => apply guarded_sset; discriminate : fence.
#[export] Hint Extern 1 (within guarded (sincr _)) => apply guarded_sincr; discriminate : fence.
#[export] Hint Extern 1 (within guarded (supdate _)) => apply guarded_supdate; simpl; intuition discriminate : fence.
#[export] Hint Extern 1 (within guarded (perform _ _)) => apply guarded_perform; [discriminate|reflexivity] : fence.
#[export] Hint Extern 1 (within guarded (op_command _ _)) => apply guarded_command; reflexivity : fence.

Ltac head_of t := lazymatch t with ?f _ => head_of f | _ => t end.
Ltac gush :=
  lazymatch goal with
  | |- within _ (dbind _ _) => apply within_bind; [apply _|gush|intros; gush]
  | |- within _ (dret _) => apply within_ret; apply _
  | |- within _ (dlift _) => apply within_lift; apply _
  | |- within _ (draise _) => apply within_raise; apply _
  | |- within _ (dread _) => apply within_read; apply _
  | |- within _ (sget _) => apply within_read; apply _
  | |- within _ (dtry _) => apply within_try; gush
  | |- within _ (dwhen _ _) => apply within_when; [apply _|gush]
  | |- within _ (dguard _ _) => apply within_guard; apply _
  | |- within _ (if ?b then _ else _) => destruct b; gush
  | |- within _ (match ?x with _ => _ end) => destruct x; gush
  | |- within _ (let _ := _ in _) => cbv zeta; gush
  | |- within _ (dupd _) => auto with fence
  | |- within _ ?m => first [solve [auto with fence] | let h := head_of m in unfold h; gush]
  end.

(** Steps over a part that leaves the flags alone. *)
Lemma flagged_bind {A B} (m : drv A) (k : A -> drv B) w w' o :
  within flagged m -> halted (mem w) = false -> dbind m k w = (w', o) ->
  guarded w w' \/ exists w1 a, guarded w w1 /\ halted (mem w1) = false /\ k a w1 = (w', o).
Proof.
  intros Hm Hh Hr. unfold dbind in Hr. destruct (m w) as [w1 [a|e]] eqn:Em; pose proof (Hm _ _ _ Em) as Hf.
  - right. exists w1, a. split; [by apply flagged_guarded|]. split; [|done]. destruct Hf as [[= Hf _] _]. congruence.
  - injection Hr as <- _. left. by apply flagged_guarded.
Qed.

Ltac step_flags H Hh :=
  let w1 := fresh "w" in let a := fresh "a" in let Hg := fresh "Hg" in
  apply flagged_bind in H as [H|(w1 & a & Hg & Hh' & H)]; [exact H| |gush|exact Hh]; clear Hh; rename Hh' into Hh;
  etransitivity; [exact Hg|]; clear Hg.

Section operations.
Context (E : env) {O : Ops} {L : FlagLaws O} (crypto : bool).

(** The fence is taken with its halt before anything is saved. *)
Lemma guarded_latch reason : within guarded (latch_owner_fence E reason).
Proof.
  intros w w' o. unfold latch_owner_fence, dbind at 1, sget at 1, dread at 1. set (owned := dwhen _ _).
  assert (Ho : exists s, owned w = (mkWorld s (log w), Ok tt)).
  { unfold owned, dwhen. destruct (negb _); [eexists; reflexivity|]. exists (mem w). by destruct w. }
  destruct Ho as [s Ho]. unfold dbind at 1. rewrite Ho. unfold sset, dupd, now_ms. cbn [dbind mem log]. intros H Hok.
  match type of H with dbind _ _ (mkWorld ?s' ?l') = _ => assert (Hs : fence_ok s') by apply halt_ok;
    assert (Hg : guarded (mkWorld s' l') w') by (refine ((_ : within guarded _) _ _ _ H); unfold last_error; gush) end.
  destruct (Hg Hs) as (Hok' & evs & Hl & Hev). split; [done|]. eexists. simpl in Hl. rewrite Hl, <- app_assoc. split; [reflexivity|].
  constructor; [done|exact Hev].
Qed.
Hint Resolve guarded_latch : fence.

Lemma guarded_snapshot tracked q st : within guarded (snapshot E crypto tracked q st).
Proof. gush. Qed.
Hint Resolve guarded_snapshot : fence.

(** A halt is only lifted while there is no fence. *)
Lemma lift_halt_ok s : fenced s = false -> fence_ok (dset "halt_new_entries" (VBool false) s).
Proof. unfold fence_ok, fenced. intros H. rewrite get_dset_ne by discriminate. congruence. Qed.
Lemma guarded_when (c : dict -> bool) k v :
  k <> "halt_new_entries" -> k <> "owner_fence_recovery_required" -> within guarded (dupd (fun s => if c s then dset k v s else s)).
Proof. intros H1 H2. apply guarded_same. intros s. destruct (c s); [by apply flags_dset|done]. Qed.
Lemma flags_setdefault k v s : k <> "halt_new_entries" -> k <> "owner_fence_recovery_required" -> flags (dsetdefault k v s) = flags s.
Proof. intros H1 H2. unfold dsetdefault. case_match; [done|by apply flags_dset]. Qed.
Lemma guarded_setdefault k v : k <> "halt_new_entries" -> k <> "owner_fence_recovery_required" -> within guarded (dupd (dsetdefault k v)).
Proof. intros H1 H2. apply guarded_same. intros s. by apply flags_setdefault. Qed.
Hint Extern 1 (within guarded (dupd (fun s => if @?c s then dset ?k ?v s else s))) => apply (guarded_when c); discriminate : fence.
Hint Extern 1 (within guarded (dupd (dsetdefault _ _))) => apply guarded_setdefault; discriminate : fence.

Lemma guarded_finish g : within guarded (_finish_renewal E g).
Proof.
  unfold _finish_renewal. gush. apply guarded_upd. intros s Hs. case_match eqn:Ec; [|done]. split_bools. apply lift_halt_ok. done.
Qed.
Lemma guarded_release_partial : within guarded (release_partial_halt crypto).
Proof.
  apply guarded_upd. intros s Hs. case_match eqn:Ec; [|done]. split_bools. apply lift_halt_ok. unfold fenced. rewrite !get_dset_ne by discriminate.
  done.
Qed.
Hint Resolve guarded_finish guarded_release_partial : fence.
Lemma guarded_renew pos n pending : within guarded (maybe_renew E crypto pos n pending).
Proof. gush. Qed.
Hint Resolve guarded_renew : fence.

Lemma guarded_inspect snap : within guarded (inspect_pending E crypto snap).
Proof. gush. Qed.
Hint Resolve guarded_inspect : fence.

(** The recovery lifts the fence first, then the halt it owned. *)
Lemma fenced_dset k v s : k <> "owner_fence_recovery_required" -> fenced (dset k v s) = fenced s.
Proof. intros Hk. unfold fenced. by rewrite get_dset_ne by congruence. Qed.
Lemma unfenced_ok s : fenced s = false -> fence_ok s.
Proof. unfold fence_ok. congruence. Qed.

Lemma guarded_restore snap owned : within guarded (restore_entries E snap owned).
Proof.
  intros w w' o. unfold restore_entries, supdate, sset, dupd, now_ms. cbn [dbind mem log foldl fst snd]. intros H Hok.
  match type of H with dbind _ _ (mkWorld ?s' ?l') = _ => assert (Hs : fenced s' = false);
    [|assert (Hg : guarded (mkWorld s' l') w') by (refine ((_ : within guarded _) _ _ _ H); gush)] end.
  - cbv zeta. repeat case_match; repeat rewrite fenced_dset by discriminate; unfold fenced; by rewrite get_dset_eq.
  - destruct (Hg (unfenced_ok _ Hs)) as (Hok' & evs & Hl & Hev). split; [done|]. simpl in Hl. eexists (_ :: _ :: _ :: evs). rewrite Hl, <- !app_assoc. split; [reflexivity|].
    by repeat constructor.
Qed.
Hint Resolve guarded_restore : fence.
Lemma guarded_marker name : within guarded (marker_state E name).
Proof. apply within_marker. gush. Qed.
Hint Resolve guarded_marker : fence.
Lemma guarded_recover : within guarded (recover_owner E crypto).
Proof. gush. Qed.
Hint Resolve guarded_recover : fence.

(** ** Orders *)

Lemma guarded_close_command quote side cl bl preview : within guarded (prepare_command E crypto "CLOSE" quote side cl bl preview).
Proof. unfold prepare_command. rewrite bool_decide_eq_false_2 by discriminate. destruct crypto; gush. Qed.
Hint Resolve guarded_close_command : fence.
Lemma guarded_close quote side cl bl reason : within guarded (prepare_send E crypto "CLOSE" quote side cl bl reason).
Proof. gush. Qed.
Hint Resolve guarded_close : fence.

(** An opening command is prepared under the flags it was decided on. *)
Lemma flagged_perform c : within flagged (perform E c).
Proof. intros w w' o [= <- <-]. split; [done|]. eexists. split; [done|]. by repeat constructor. Qed.
Lemma flagged_now : within flagged (now_ms E).
Proof. intros w w' o [= <- <-]. split; [done|]. eexists. split; [done|]. by repeat constructor. Qed.
Lemma flagged_command op args : within flagged (op_command op args).
Proof. apply command_flagged. Qed.
Hint Resolve flagged_perform flagged_now flagged_command : fence.

Lemma guarded_open quote side cl bl w w' o :
  halted (mem w) = false -> prepare_send E crypto "OPEN" quote side cl bl VNone w = (w', o) -> guarded w w'.
Proof.
  unfold prepare_send. intros Hh H. do 8 step_flags H Hh. refine ((_ : within guarded _) _ _ _ H). gush.
Qed.

End operations.

(** What a derived driver owes for its preparations. *)
Class HookFlags (K : Hooks) := {
  hook_flags :: FlagLaws hook_ops;
  prepare_close quote side cash base reason : within guarded (op_prepare "CLOSE" quote side cash base reason);
  prepare_open quote side cash base w w' o :
    halted (mem w) = false -> op_prepare "OPEN" quote side cash base VNone w = (w', o) -> guarded w w' }.

#[export] Instance base_hook_flags E crypto : HookFlags (base_hooks E crypto).
Proof.
  split; cbn [base_hooks hook_ops op_prepare]; [apply base_flags|exact (guarded_close E crypto)|exact (guarded_open E crypto)].
Qed.

Section entries.
Context (E : env) {K : Hooks} {L : HookFlags K} (crypto : bool).
Hint Resolve hook_flags flagged_perform flagged_now flagged_command guarded_latch guarded_snapshot guarded_renew : fence.
Hint Extern 1 (within guarded (op_prepare "CLOSE" _ _ _ _ _)) => apply prepare_close : fence.

Lemma flagged_sset k v : k <> "halt_new_entries" -> k <> "owner_fence_recovery_required" -> within flagged (sset k v).
Proof. intros H1 H2 w w' o [= <- <-]. split; [by apply flags_dset|]. exists []. simpl. by rewrite app_nil_r. Qed.
Lemma flagged_save : within flagged op_save.
Proof. apply save_flagged. Qed.
Hint Extern 1 (within flagged (sset _ _)) => apply flagged_sset; discriminate : fence.
Hint Resolve flagged_save : fence.

Lemma guarded_open_entry quote decision w w' o : halted (mem w) = false -> open_entry E quote decision w = (w', o) -> guarded w w'.
Proof.
  unfold open_entry. intros Hh H. do 2 step_flags H Hh. destruct a as [result|e]; [|refine ((_ : within guarded _) _ _ _ H); gush].
  do 2 step_flags H Hh. by eapply prepare_open.
Qed.

Lemma guarded_act snap pos q decision : within guarded (act E crypto snap pos q decision).
Proof.
  unfold act. apply within_bind; [apply _|gush|intros active]. destruct (truthy active); [gush|]. destruct (_ && _); [gush|].
  intros w w' o. unfold dbind, flag, dread, dlift. destruct (flat_enough crypto pos && negb _) eqn:Ef; [|by intros [= <- _]]. split_bools.
  destruct (entry_candidate_allowed crypto decision) as [[]|e]; simpl; [|by intros [= <- _]|by intros [= <- _]]. by apply guarded_open_entry.
Qed.

End entries.

(** ** The loop and the modes *)

Ltac lgush :=
  lazymatch goal with
  | |- lwithin _ (lbind _ _) => apply lwithin_bind; [apply _|lgush|intros; lgush]
  | |- lwithin _ (lift _) => apply lwithin_lift; gush
  | |- lwithin _ (lset _) => apply lwithin_set; apply _
  | |- lwithin _ lget => apply lwithin_get; apply _
  | |- lwithin _ (if ?b then _ else _) => destruct b; lgush
  | |- lwithin _ (match ?x with _ => _ end) => destruct x; lgush
  | |- lwithin _ (let _ := _ in _) => cbv zeta; lgush
  | |- lwithin _ ?m => first [solve [auto with fence] | let h := head_of m in unfold h; lgush]
  end.

Section runs.
Context (E : env) {K : Hooks} {L : HookFlags K} (crypto : bool).
Hint Extern 1 (within guarded (op_prepare "CLOSE" _ _ _ _ _)) => apply prepare_close : fence.
Hint Resolve hook_flags guarded_latch guarded_snapshot guarded_renew guarded_inspect guarded_recover guarded_act guarded_marker : fence.

Lemma guarded_pop k : k <> "halt_new_entries" -> k <> "owner_fence_recovery_required" -> within guarded (dupd (dpop k)).
Proof. intros H1 H2. apply guarded_same. intros s. unfold flags, halted, fenced, get, getd, dget_or. by rewrite !dget_pop_other by congruence. Qed.
Hint Extern 1 (within guarded (dupd (dpop _))) => apply guarded_pop; discriminate : fence.
Lemma guarded_outcome v :
  within guarded (dupd (fun s => match get s "model_completion_observation" with
                                 | VDict d => dset "model_completion_observation" (VDict (dset "outcome" (VStr v) d)) s | _ => s end)).
Proof. apply guarded_same. intros s. case_match; try done. by apply flags_dset. Qed.
Hint Resolve guarded_outcome : fence.

Lemma guarded_body : lwithin guarded (body E crypto).
Proof. lgush. Qed.
Hint Resolve guarded_body : fence.

Lemma guarded_iteration identity n : lwithin guarded (iteration E crypto identity n).
Proof.
  intros l w w' l' o. unfold iteration. destruct (lift _ l w) as [[w1 l1] [u|e]] eqn:E1;
    (assert (guarded w w1) by (refine ((_ : lwithin guarded _) _ _ _ _ _ E1); lgush)); [|by intros [= <- _ _]].
  destruct (body E crypto l1 w1) as [[w2 l2] [u'|e]] eqn:E2; pose proof (guarded_body _ _ _ _ _ E2); intros H1; etransitivity; [eassumption| |eassumption|].
  - by injection H1 as <- _ _.
  - etransitivity; [eassumption|]. refine ((_ : lwithin guarded _) _ _ _ _ _ H1). lgush.
Qed.
Lemma guarded_resident identity rounds : forall n, lwithin guarded (resident E crypto identity n rounds).
Proof. induction rounds as [|rounds IH]; intros n; simpl; [lgush|]. apply lwithin_bind; [apply _|apply guarded_iteration|intros _; apply IH]. Qed.

Lemma guarded_startup b : within guarded (startup E crypto b).
Proof. gush; apply guarded_same; intros s; [case_match; [by apply flags_dset|done]|by rewrite !flags_setdefault]. Qed.
Lemma guarded_release_hold : within guarded (dupd release_settlement_hold).
Proof.
  apply guarded_upd. intros s Hs. unfold release_settlement_hold. eapply fence_flags; [by rewrite !flags_dset|]. case_match eqn:Ec; [|done].
  split_bools. by apply lift_halt_ok.
Qed.
Hint Resolve guarded_release_hold : fence.
Lemma guarded_reconcile : within guarded (reconcile_mode E crypto).
Proof. gush. Qed.

(** The processes that trade and recover: all but the qualification round trip. *)
Inductive service_run : world -> world -> Prop :=
| service_startup reconcile w w' o : startup E crypto reconcile w = (w', o) -> service_run w w'
| service_recover w w' o : recover_mode E crypto w = (w', o) -> service_run w w'
| service_reconcile w w' o : reconcile_mode E crypto w = (w', o) -> service_run w w'
| service_resident identity n rounds l l' w w' o : resident E crypto identity n rounds l w = (w', l', o) -> service_run w w'.

Lemma service_guarded w w' : service_run w w' -> guarded w w'.
Proof.
  intros [r v v' o H|v v' o H|v v' o H|i n r l l' v v' o H].
  - by eapply guarded_startup.
  - refine ((_ : within guarded _) _ _ _ H). gush.
  - by eapply guarded_reconcile.
  - by eapply guarded_resident.
Qed.

End runs.

Lemma durable_ok ds l : Forall fence_ok ds -> Forall event_ok l -> Forall fence_ok (durable ds l).
Proof.
  unfold durable. intros Hd Hl. revert ds Hd. induction Hl as [|e l He _ IH]; intros ds Hd; [done|]. simpl. apply IH. unfold durable_step.
  unfold event_ok in He. destruct (ev_call e); try done. destruct (ev_answer e); [by constructor|]. apply Forall_app. split; [done|by constructor].
Qed.

(** A process of any driver that keeps the laws of the flags. *)
Definition guarded_run (E : env) (crypto : bool) (w w' : world) : Prop := exists (K : Hooks) (L : HookFlags K), service_run E crypto w w'.

Lemma life_guarded E crypto c0 w : life (guarded_run E crypto) c0 w -> fence_ok c0 -> fence_ok (mem w) /\ Forall event_ok (log w).
Proof.
  intros Hl H0. induction Hl as [|w w' _ [Hm He] (K & L & Hr)|w w' l d _ [Hm He] (K & L & Hr) H1 H2 Hd]; [done| |].
  - destruct (service_guarded E crypto _ _ Hr Hm) as (Hm' & evs & -> & Hev). split; [done|]. by apply Forall_app.
  - destruct (service_guarded E crypto _ _ Hr Hm) as (_ & evs & Hlog & Hev).
    assert (Hpre : Forall event_ok l) by (destruct H2 as [k Hk]; rewrite Hlog in Hk; assert (Hall : Forall event_ok (l ++ k)) by (rewrite <- Hk; by apply Forall_app);
      by apply Forall_app in Hall as [? _]).
    split; [|done]. simpl. pose proof (durable_ok [c0] l (proj2 (Forall_singleton _ _) H0) Hpre) as Hds. rewrite List.Forall_forall in Hds. by apply Hds.
Qed.
(** C3: Over any sequence of service processes, each dying at any call, that starts from a
    state whose fence has its halt: every state that is saved keeps the halt while the
    recovery of the owner is required, and every opening order is prepared in a state that
    is neither halted nor fenced. *)
Theorem fenced_driver_opens_nothing (E : env) (crypto : bool) (c0 : dict) (w : world) :
  life (guarded_run E crypto) c0 w -> fence_ok c0 ->
  (forall e, In e (log w) -> ev_call e = Save -> fenced (ev_state e) = true -> halted (ev_state e) = true) /\
  (forall e, In e (log w) -> opens (ev_call e) = true -> halted (ev_state e) = false /\ fenced (ev_state e) = false).
Proof.
  intros Hl H0. destruct (life_guarded E crypto c0 w Hl H0) as [_ He]. rewrite List.Forall_forall in He. split; intros e Hin; specialize (He e Hin); unfold event_ok in He.
  - intros Hc. by rewrite Hc in He.
  - intros Ho. destruct (ev_call e); try done; by apply He.
Qed.

End DriverFence.
