(* ===== verification/DriverScenario.v ===== *)
(** * A day of the paper driver

    A concrete outside for the FX driver, and a run of three iterations of its resident
    loop: an entry on the decision of the model, the reconciliation of its fill, and an
    exit on an adverse move. *)

From Stdlib Require Import Ascii Floats.SpecFloat.
From S2P Require Import Prelude PyText PyValue PyOrder PyBytes PyFloat Driver DriverCommand DriverLease DriverLoop DriverFacts DriverLife DriverRun DriverFence.
From stdpp Require Import base tactics list strings.
From Stdlib Require Import ZArith Lia Bool.
Import DriverCommand DriverLease DriverLoop DriverFacts DriverLife DriverRun DriverFence.

Open Scope Z_scope.

Module DriverScenario.

(** The finished process that prints an object. *)
Definition printed (d : dict) : res value :=
  Ok (VDict [("stdout", VStr (ok_or EmptyString (json_dumps (VDict d)))); ("stderr", VStr EmptyString); ("returncode", VInt 0)]).
Definition payload (d : dict) : res value := printed [("status", VStr "ok"); ("payload", VDict d)].

Definition is_submit (e : event) : bool := match ev_call e with Command op _ => bool_decide (op = "submit") | _ => false end.
Definition submissions (l : list event) : nat := count is_submit l.

Definition correlation : value := VStr ("hepta-v1-sha256:" +:+ srepeat (chr 97) 64).
Definition filled_row : dict :=
  [("command_id", VStr "c1"); ("instrument", VStr "EUR.USD"); ("order_id", VInt 7); ("venue_correlation_id", correlation); ("side", VStr "BUY");
   ("economic_fill", VBool true); ("broker_execution_ambiguous", VBool false); ("broker_execution_id", VStr "x1"); ("terminal", VBool true);
   ("status", VStr "Filled"); ("average_fill_price", VFloat (literal 125 (-2))); ("filled_quantity", VInt 80000)].

Definition healthy : dict :=
  [("execution_mode", VStr "PAPER"); ("gateway_ready", VBool true); ("remote_execution_ready", VBool true);
   ("execution_authoritative_health",
     VDict [("source", VStr "IB"); ("authoritative", VBool true); ("owner_fenced", VBool false); ("owner_recovery_only", VBool false);
            ("mutation_ready", VBool true)]);
   ("execution_service_epoch", VStr "e1"); ("execution_service_fencing_generation", VInt 3)].

(** The broker fills the first order at 1.25; then the market falls to 1.2. *)
Definition tools (n : nat) (tool : string) : res value :=
  let filled := negb (n =? 0)%nat in
  if bool_decide (tool = "system.get_health") then payload healthy
  else if bool_decide (tool = "orders.list") then
    payload [("source", VStr "IB"); ("authoritative", VBool true); ("global_active_orders_complete", VBool true);
             ("owner_projection_complete", VBool true); ("active_order_ids", VList []);
             ("recent_orders", VList (if filled then [VDict filled_row] else []))]
  else if bool_decide (tool = "portfolio.list_positions") then
    payload [("source", VStr "IB"); ("authoritative", VBool true);
             ("positions", VList (if filled then [VDict [("instrument", VStr "EUR.USD"); ("quantity", VInt 80000)]] else []))]
  else payload [("source", VStr "IB"); ("authoritative", VBool true); ("stale", VBool false); ("observed_at_ms", VInt (1000 + Z.of_nat n));
                ("bid", VFloat (if filled then literal 12 (-1) else literal 125 (-2)));
                ("ask", VFloat (if filled then literal 12 (-1) else literal 125 (-2)))].

Definition commands (n : nat) (op : string) : res value :=
  if is_prepare op then printed [("ok", VBool true); ("command_id", VStr (if (n =? 0)%nat then "c1" else "c2"))]
  else if bool_decide (op = "submit") then
    printed [("transport_ok", VBool true); ("application_status", VStr "ok"); ("result", VDict [("status", VStr "ok"); ("order_id", VInt 7)])]
  else printed [("ok", VBool true); ("application_status", VStr "ok");
                ("result", VDict [("payload", VDict [("authoritative", VBool true); ("command_id", VStr "c1"); ("order_id", VInt 7);
                                                     ("command_status", VStr "accepted")])])].

Definition outside : env := {|
  e_clock l := 1000 + Z.of_nat (length l);
  e_answer l c :=
    match c with
    | Command op _ => commands (submissions l) op
    | Tool tool _ => tools (submissions l) tool
    | Identifier p => Ok (VStr (p +:+ "-1"))
    | Guard => printed [("status", VStr "ready")]
    | Marker _ => Raise (Exn OSError "FileNotFoundError")
    | Worker op => Ok (if bool_decide (op = "result") then VDict [("action", VStr "BUY"); ("confidence", VFloat (literal 9 (-1))); ("rationale", VStr "up")]
                       else if bool_decide (op = "done") then VBool true else VNone)
    | _ => Ok VNone
    end |}.

(** The state the first process writes, and a model call that is under way. *)
Definition fresh : dict := match load_state outside false None (mkWorld [] []) with (_, Ok d) => d | _ => [] end.
Definition under_way : locals := mkLocals (Some (mkWorker fzero 1000)) false.

Definition day : world * locals * res unit :=
  @resident outside (base_hooks outside false) false [("pid", VInt 1)] 1 3 under_way (mkWorld fresh []).
Definition after : world := day.1.1.

Lemma triple_eta {A B C} (p : A * B * C) : p = (p.1.1, p.1.2, p.2).
Proof. by destruct p as [[? ?] ?]. Qed.

Lemma resident_life E crypto c0 identity n rounds l :
  life (lawful_run E crypto) c0 (@resident E (base_hooks E crypto) crypto identity n rounds l (mkWorld c0 [])).1.1.
Proof. eapply life_run; [apply life_start|]. exists (base_hooks E crypto), (base_hook_laws E crypto). eapply run_resident. apply triple_eta. Qed.
Lemma resident_service E crypto c0 identity n rounds l :
  life (guarded_run E crypto) c0 (@resident E (base_hooks E crypto) crypto identity n rounds l (mkWorld c0 [])).1.1.
Proof. eapply life_run; [apply life_start|]. exists (base_hooks E crypto), (base_hook_flags E crypto). eapply service_resident. apply triple_eta. Qed.

Lemma day_life : life (lawful_run outside false) fresh after.
Proof. apply resident_life. Qed.
Lemma day_service : life (guarded_run outside false) fresh after.
Proof. apply resident_service. Qed.

(** What the day did: two submissions, the second after the exit was prepared. *)
Definition glance (l : list event) : option call * option (call * option value) * nat :=
  (ev_call <$> l !! 61%nat, (fun e => (ev_call e, held (ev_state e))) <$> take 61 l !! 28%nat, submissions l).
Lemma day_glance :
  glance (log after) =
  (Some (Command "prepare-close" ["--call-id"; "driver-preview-1"]),
   Some (Command "submit" ["--command-id"; "c1"], Some (VStr "c1")), 2%nat).
Proof. vm_compute. reflexivity. Qed.

Lemma split_at (l : list event) i e : l !! i = Some e -> l = take i l ++ e :: drop (S i) l.
Proof. intros H. symmetry. by apply take_drop_middle. Qed.

Lemma glance_split l c s h n :
  glance l = (Some c, Some (s, h), n) ->
  submissions l = n /\ exists l1 e l2 l3 x l4, l = l1 ++ e :: l2 /\ ev_call e = c /\ l1 = l3 ++ x :: l4 /\ ev_call x = s /\ held (ev_state x) = h.
Proof.
  unfold glance. destruct (l !! 61%nat) as [e|] eqn:He; [|done]. destruct (take 61 l !! 28%nat) as [x|] eqn:Hx; [|done]. simpl. intros [= H1 H2 H3 H4].
  split; [done|]. exists (take 61 l), e, (drop 62 l), (take 28 (take 61 l)), x, (drop 29 (take 61 l)).
  split; [by apply split_at|]. split; [done|]. split; [by apply split_at|done].
Qed.

(** The claims at the day. *)
Lemma driver_submits_once_witness :
  submissions (log after) = 2%nat /\ (count (submits_text "c1") (log after) <= count (issues_text "c1") (log after))%nat.
Proof.
  split; [exact (proj1 (glance_split _ _ _ _ _ day_glance))|].
  exact (proj2 (driver_submits_once outside false fresh after day_life) "c1").
Defined.

Lemma driver_no_replacement_witness : exists x, In x (log after) /\ evidence (VStr "c1") x.
Proof.
  destruct (proj2 (glance_split _ _ _ _ _ day_glance)) as (l1 & e & l2 & l3 & s & l4 & Hl & Hc & H1 & Hs & Hh).
  destruct (driver_no_replacement outside false fresh after l1 e l2 _ _ day_life Hl Hc eq_refl) as [_ H].
  destruct (H l3 s l4 (VStr "c1") H1 (conj Hs Hh)) as (x & Hx & Hev). exists x. split; [|exact Hev].
  rewrite Hl, H1. apply in_app_iff. left. apply in_app_iff. right. right. exact Hx.
Defined.

(** The entry of the day was prepared in a state that was neither halted nor fenced. *)
Definition opening (l : list event) : bool := match l !! 24%nat with Some e => opens (ev_call e) | None => false end.
Lemma day_opening : opening (log after) = true.
Proof. vm_compute. reflexivity. Qed.
Lemma opening_event l : opening l = true -> exists e, In e l /\ opens (ev_call e) = true.
Proof.
  unfold opening. destruct (l !! 24%nat) as [e|] eqn:He; [|done]. intros H. exists e. split; [|done].
  apply list_elem_of_In. by eapply list_elem_of_lookup_2.
Qed.

Lemma fenced_driver_opens_nothing_witness : exists e, In e (log after) /\ opens (ev_call e) = true /\ halted (ev_state e) = false /\ fenced (ev_state e) = false.
Proof.
  destruct (opening_event (log after) day_opening) as (e & Hin & Ho). exists e. split; [exact Hin|]. split; [exact Ho|].
  assert (H0 : fence_ok fresh) by (intros H; vm_compute in H; discriminate H).
  exact (proj2 (fenced_driver_opens_nothing outside false fresh after day_service H0) e Hin Ho).
Defined.

(** ** The qualification round trip *)

(** The crypto driver under a bare halt; the owner is fenced while the exit settles. *)
Definition half_milli : value := VFloat (literal 5 (-4)).
Definition crypto_row (id side : string) : value :=
  VDict [("command_id", VStr id); ("instrument", VStr "BTC.USD"); ("order_id", VInt 7); ("venue_correlation_id", correlation); ("side", VStr side);
         ("economic_fill", VBool true); ("broker_execution_ambiguous", VBool false); ("broker_execution_id", VStr ("x" +:+ id)); ("terminal", VBool true);
         ("status", VStr "Filled"); ("average_fill_price", VInt 100000); ("filled_quantity", half_milli)].

Definition crypto_tools (n : nat) (tool : string) : res value :=
  if bool_decide (tool = "system.get_health") then
    payload (if (n =? 2)%nat then dset "execution_authoritative_health"
               (VDict [("source", VStr "IB"); ("authoritative", VBool true); ("owner_fenced", VBool true); ("owner_recovery_only", VBool false);
                       ("mutation_ready", VBool false)]) healthy
             else healthy)
  else if bool_decide (tool = "orders.list") then
    payload [("source", VStr "IB"); ("authoritative", VBool true); ("global_active_orders_complete", VBool true);
             ("owner_projection_complete", VBool true); ("active_order_ids", VList []);
             ("recent_orders", VList (take n [crypto_row "c1" "BUY"; crypto_row "c2" "SELL"]))]
  else if bool_decide (tool = "portfolio.list_positions") then
    payload [("source", VStr "IB"); ("authoritative", VBool true);
             ("positions", VList (if (n =? 1)%nat then [VDict [("instrument", VStr "BTC.USD"); ("quantity", half_milli)]] else []))]
  else payload [("source", VStr "IB"); ("authoritative", VBool true); ("stale", VBool false); ("observed_at_ms", VInt 1000);
                ("bid", VInt 100000); ("ask", VInt 100000)].

Definition crypto_commands (n : nat) (op : string) : res value :=
  if bool_decide (op = "inspect") then
    printed [("ok", VBool true); ("application_status", VStr "ok");
             ("result", VDict [("payload", VDict [("authoritative", VBool true); ("command_id", VStr (if (n =? 1)%nat then "c1" else "c2"));
                                                  ("order_id", VInt 7); ("command_status", VStr "accepted")])])]
  else commands n op.

Definition crypto_outside : env := {|
  e_clock l := 1000 + Z.of_nat (length l);
  e_answer l c :=
    match c with
    | Command op _ => crypto_commands (submissions l) op
    | Tool tool _ => crypto_tools (submissions l) tool
    | Worker _ => Ok (VBool true)
    | _ => e_answer outside l c
    end |}.

Definition unqualified : dict :=
  match load_state crypto_outside true None (mkWorld [] []) with (_, Ok d) => dset "halt_new_entries" (VBool true) d | _ => [] end.
Definition canary : world * res unit := @canary_roundtrip crypto_outside (base_hooks crypto_outside true) true (mkWorld unqualified []).

(** The qualification round trip can end with the owner fenced and new entries allowed:
    a fence that a snapshot latches while the exit settles stays required in the state the
    round trip saves last, and the halt it found at its start is lifted. *)
Example canary_lifts_fenced_halt :
  canary.2 = Ok tt /\ fenced (mem canary.1) = true /\ halted (mem canary.1) = false /\ (ev_call <$> last (log canary.1)) = Some Save.
Proof. vm_compute. auto. Qed.
End DriverScenario.
