(* ===== verification/DriverBtc.v ===== *)
(** * The BTC driver

    Models scripts/heptatrader_btc_economics_driver.py: the paper driver with its saves, its
    submissions and the start of [prepare_send] replaced.  A save keeps the anti-churn
    control record; an entry passes the entry policy before it is prepared and again, on a
    fresh quote, before it is submitted; a refused submission is answered as a definite
    non-send and never reaches the command client.  The original functions are those of
    [Driver] and [DriverCommand].  [entering] is the context the code sets around the
    original [prepare_send]: while it is set the context's state is the driver's state. *)

From Stdlib Require Import Ascii Floats.SpecFloat.
From S2P Require Import Prelude PyDecimal PyText PyValue PyOrder PyBytes PyFloat BtcEntry Driver DriverCommand DriverLease RowMonad DriverLoop DriverFacts DriverLife DriverRun DriverFence.
From stdpp Require Import base tactics list strings.
From Stdlib Require Import ZArith Lia Bool.
Import DriverCommand DriverLease BtcEntry.

Open Scope Z_scope.

Module DriverBtc.

(** The precision of the interpreter's decimal context. *)
Definition PRECISION : Z := 28.

Section hooks.
Context (E : env) (initial_control : dict).

(** The accounting period and the operator's hold: files the driver reads. *)
Definition check_period : drv unit := perform E (Worker "period") ;;; dret tt.

Definition control : drv dict :=
  dupd (dsetdefault "btc_entry_control" (VDict initial_control)) ;;;
  t <-- now_ms E ;;
  dread (fun s => validate_control (get s "btc_entry_control") t).

Definition zero_number (v : value) : res bool := let! d := number v in Ok (dcoef d =? 0).
Definition profile_sha256 : res string := digest (VDict PROFILE).

(** ** Saving *)

(** The pending entry is reserved once, while it is prepared. *)
Definition reserve_entry (c p : dict) : drv unit :=
  id <-- dlift (item p "command_id") ;;
  created <-- dlift (let! v := item p "created_at_ms" in int_of v) ;;
  let r := reserve c id created in
  sset "btc_entry_control" (VDict r.1) ;;;
  dlift r.2 ;;;
  h <-- dlift profile_sha256 ;;
  pset "btc_entry_profile_sha256" (VStr h) ;;;
  decision <-- sget "last_decision" ;;
  pset "btc_entry_forecast" decision.

(** [c["last_flat_at_ms"] = max(c["last_flat_at_ms"], t)] *)
Definition set_flat (t : Z) : drv unit :=
  c <-- dread (fun s => as_dict (get s "btc_entry_control")) ;;
  old <-- dlift (let! v := item c "last_flat_at_ms" in as_int v) ;;
  sset "btc_entry_control" (VDict (dset "last_flat_at_ms" (VInt (Z.max old t)) c)).

(** Only a newly completed full close starts the cooldown. *)
Definition record_flat : drv unit :=
  pending <-- sget "pending" ;;
  flat <-- (if is_none pending then dread (fun s => zero_number (getd (VInt 0) s "position")) else dret false) ;;
  if negb flat then dret tt
  else
    r <-- dread (fun s => or_empty (get s "last_reconciliation")) ;;
    match eq_str (get r "kind") "CLOSE", get r "reconciled_at_ms" with
    | true, VInt t => if 0 <? t then now <-- now_ms E ;; dwhen (t <=? now) (set_flat t) else dret tt
    | _, _ => dret tt
    end.

Definition bookkeeping (entering : bool) : drv unit :=
  c <-- control ;;
  p <-- dread (fun s => or_empty (get s "pending")) ;;
  dwhen (eq_str (get p "kind") "OPEN" && eq_str (get p "send_state") "PREPARED" && entering) (reserve_entry c p) ;;;
  record_flat.

Definition bookkeeping_catches (c : exc_class) : bool :=
  is_ValueError c || match c with PolicyError | KeyError | TypeError => true | _ => false end.

(** Broken bookkeeping stops an entry and nothing else. *)
Definition atomic_json (entering : bool) : drv unit :=
  r <-- dtry (bookkeeping entering) ;;
  match r with
  | Ok _ => dret tt
  | Raise e =>
      if bookkeeping_catches (ecls e) then
        p <-- dread (fun s => if entering then or_empty (get s "pending") else Ok []) ;;
        if entering && eq_str (get p "kind") "OPEN" then draise e else sset "btc_entry_control_error" (VStr (class_name (ecls e)))
      else draise e
  end ;;;
  save_state E.

(** ** Entry checks *)

Definition mutation_not_ready (health owner : dict) : bool :=
  negb (eq_str (get health "execution_mode") "PAPER") || negb (eq_str (get owner "source") "IB") || negb (is_true (get owner "authoritative")) ||
  negb (is_true (get owner "mutation_ready")) || negb (is_false (get owner "owner_fenced")) ||
  negb (is_false (get owner "owner_recovery_only")) || is_true (get owner "startup_recovery_read_only").

Definition dpolicy (c : bool) (message : string) : drv unit := if c then draise (policy_error message) else dret tt.

(** The result of the policy on a fresh quote, and that quote. *)
Definition entry_check (ignore forecast : value) : drv (dict * dict) :=
  check_period ;;;
  fresh <-- native E "market.get_quote" ["instrument=BTC.USD"] ;;
  health <-- native E "system.get_health" [] ;;
  owner <-- dlift (or_empty (get health "execution_authoritative_health")) ;;
  dpolicy (mutation_not_ready health owner) "BTC_PAPER_MUTATION_NOT_READY" ;;;
  f <-- (if is_none forecast then sget "last_decision" else dret forecast) ;;
  c <-- control ;;
  t <-- now_ms E ;;
  result <-- dlift (evaluate PRECISION f (VDict fresh) (VDict c) (VInt t) (VStr "25000") ignore) ;;
  sset "btc_last_entry_check" (VDict result) ;;;
  dret (result, fresh).

(** ** Submitting *)

Definition forecast_changed (p : dict) (decision : value) : res bool :=
  let captured := get p "btc_entry_forecast" in
  (let! h := profile_sha256 in Ok (negb (eq_str (get p "btc_entry_profile_sha256") h))) ||?
  Ok (negb (truthy captured)) ||?
  (let! a := digest captured in let! b := digest decision in Ok (negb (bool_decide (a = b)))).

Definition prepared_changed (p s : dict) : res bool :=
  Ok (negb (eq_str (get p "instrument") "BTC.USD") || negb (eq_str (get p "side") "BUY") || negb (eq_str (get p "quantity_mode") "CASH")) ||?
  (let! cash := number (get p "cash_quantity") in let! limit := profile_number "max_cash_usd" in Ok (negb (deqb cash limit))) ||?
  Ok (truthy (get s "halt_new_entries")) ||?
  pnot (zero_number (getd (VInt 0) s "position")).

(** The last check of an entry, with everything saved before the submission. *)
Definition final_check (p : dict) (args : list string) : drv unit :=
  id <-- dlift (item p "command_id") ;;
  dpolicy (negb (bool_decide (args = ["--command-id"; py_str id]))) "BTC_ORIGINAL_SUBMIT_ID_CHANGED" ;;;
  decision <-- sget "last_decision" ;;
  changed <-- dlift (forecast_changed p decision) ;;
  dpolicy changed "BTC_PREPARED_FORECAST_CHANGED" ;;;
  changed <-- dread (prepared_changed p) ;;
  dpolicy changed "BTC_PREPARED_STATE_CHANGED" ;;;
  checked <-- entry_check id (get p "btc_entry_forecast") ;;
  sset "btc_last_final_entry_check" (VDict checked.1) ;;;
  save_state E ;;;
  dpolicy (negb (truthy (get checked.1 "allowed"))) "BTC_FINAL_ECONOMICS_REJECTED".

(** The answer that tells the original driver that nothing was sent. *)
Definition non_send (e : exn) : dict :=
  [("ok", VBool false); ("transport_ok", VBool true); ("application_status", VStr "error");
   ("application_reason", VStr ("BTC_FINAL_NON_SEND:" +:+ class_name (ecls e)));
   ("result", VDict [("status", VStr "error"); ("reason_code", VStr "BTC_FINAL_NON_SEND"); ("order_id", VInt (-1))])].

Definition entry_cmd (op : string) (args : list string) : drv dict :=
  if bool_decide (op = "submit") then
    p <-- dread (fun s => or_empty (get s "pending")) ;;
    if eq_str (get p "kind") "OPEN" then
      checked <-- dtry (final_check p args) ;;
      match checked with Ok _ => paper_cmd E op args | Raise e => dret (non_send e) end
    else paper_cmd E op args
  else paper_cmd E op args.

Definition btc_ops : Ops := {| op_save := atomic_json false; op_command := paper_cmd E |}.
Definition entry_ops : Ops := {| op_save := atomic_json true; op_command := entry_cmd |}.

(** ** Preparing *)

Definition is_default (cash base : spec_float) (reason : value) : bool := feqb cash (literal 25000 0) && feqb base (literal 1 0) && is_none reason.

Definition reasons_text (result : dict) : string :=
  match get result "reasons" with VList l => PyValue.join "," (map py_str l) | _ => EmptyString end.

Definition btc_prepare (kind : string) (quote side : value) (cash base : spec_float) (reason : value) : drv unit :=
  if bool_decide (kind = "OPEN") then
    dguard (negb (is_default cash base reason)) "BTC_ECONOMICS_NO_UNQUALIFIED_CANARY_OVERRIDE" ;;;
    pending <-- sget "pending" ;;
    dguard (negb (is_none pending)) "original command pending; replacement preparation forbidden" ;;;
    unfit <-- dread (fun s => pnot (zero_number (getd (VInt 0) s "position")) ||? Ok (negb (eq_str side "BUY") || truthy (get s "halt_new_entries"))) ;;
    dguard unfit "BTC_NOT_FLAT_UNHALTED_LONG_ENTRY" ;;;
    checked <-- entry_check VNone VNone ;;
    save_state E ;;;
    dguard (negb (truthy (get checked.1 "allowed"))) ("BTC_ENTRY_REJECTED:" +:+ reasons_text checked.1) ;;;
    @prepare_send E entry_ops true kind (VDict checked.2) side cash base reason
  else @prepare_send E btc_ops true kind quote side cash base reason.

Definition btc_hooks : Hooks := {| hook_ops := btc_ops; op_prepare := btc_prepare |}.
End hooks.

(** ** The forecast of the model *)

Definition REQUIRED : list string := ["action"; "confidence"; "rationale"; "expected_move_bps"; "horizon_sec"].

(** One quote of the history the model saw. *)
Definition compact_row (x : dict) : res dict :=
  let! t := item x "observed_at_ms" in let! b := item x "bid" in let! a := item x "ask" in let! m := item x "mid" in
  Ok [("t", t); ("bid", b); ("ask", a); ("mid", m)].

Definition forecast_of (rows : list dict) (now : Z) (stdout : string) : res dict :=
  let! envelope := strict_json stdout in
  match is_true (get envelope "ok"), get envelope "outputs" with
  | true, VList [output] =>
      let! v := subscript output "text" in
      let! text := as_str v in
      let! f := strict_json text in
      let keys := map fst f in
      when negb (forallb (fun k => inb k keys) REQUIRED && forallb (fun k => inb k REQUIRED) keys) raise policy_error "BTC_MODEL_FIELDS" in
      let newest := List.last rows [] in
      let! bid := number (get newest "bid") in
      let! ask := number (get newest "ask") in
      let! sum := dadd PRECISION bid ask in
      let! mid := ddiv PRECISION sum (Dec false 2 0) in
      let! input := digest (VList (map VDict rows)) in
      let f := foldl (fun f kv => dset kv.1 kv.2 f) f
                 [("issued_at_ms", get newest "t"); ("available_at_ms", VInt now); ("reference_mid", VStr (str_decimal mid));
                  ("input_sha256", VStr input); ("model_id", VStr "gpt-6-luna"); ("forecast_schema", VStr "heptatrader.btc-return-forecast.v1")] in
      validate_forecast PRECISION (VDict f)
  | _, _ => Raise (policy_error "BTC_MODEL_ENVELOPE")
  end.

Definition forecast_catches (c : exc_class) : bool := is_ValueError c || match c with KeyError | TypeError | IndexError => true | _ => false end.

(** What a finished call of the model forecasts while the driver is flat. *)
Definition decode_forecast (rows : list dict) (now : Z) (stdout : string) (code : Z) : res dict :=
  when negb (code =? 0) raise driver_error "BTC_MODEL_UNAVAILABLE" in
  match forecast_of rows now stdout with
  | Ok f => Ok f
  | Raise e => if forecast_catches (ecls e) then Raise (driver_error ("BTC_FORECAST_INVALID:" +:+ class_name (ecls e))) else Raise e
  end.

End DriverBtc.

(** * The BTC driver keeps the laws of the paper driver

    The hooks of the BTC driver are an instance of the interfaces the theorems about the
    paper driver rest on ([OpsLaws], [HookLaws], [FlagLaws], [HookFlags]): what is proved of
    every lawful driver holds of it. *)

Import DriverCommand DriverLease DriverLoop DriverFacts DriverLife DriverRun DriverFence DriverBtc.

Module DriverBtcFacts.

Section laws.
Context (E : env) (initial : dict).

(** ** Steady saves and checks *)

Lemma steady_setdefault k v : k <> "pending" -> within steady (dupd (dsetdefault k v)).
Proof. intros Hk. apply steady_upd. intros s. by apply phase_setdefault. Qed.
Hint Extern 1 (within steady (dupd (dsetdefault _ _))) => apply steady_setdefault; discriminate : quiet.

Lemma steady_save_state : within steady (save_state E).
Proof. unfold save_state. hush. Qed.
Lemma steady_control : within steady (control E initial).
Proof. unfold control. hush. Qed.
Hint Resolve steady_save_state steady_control : quiet.
Lemma steady_btc_save entering : within steady (atomic_json E initial entering).
Proof. unfold atomic_json, bookkeeping, reserve_entry, record_flat, set_flat. hush. Qed.
Lemma steady_entry_check ignore f : within steady (entry_check E initial ignore f).
Proof. unfold entry_check, check_period, dpolicy. hush. Qed.
Hint Resolve steady_btc_save steady_entry_check : quiet.
Lemma steady_final_check p args : within steady (final_check E initial p args).
Proof. unfold final_check, dpolicy. hush. Qed.
Hint Resolve steady_final_check : quiet.

Lemma btc_save_durable entering w w' :
  atomic_json E initial entering w = (w', Ok tt) -> exists l a, log w' = l ++ [mkEvent (mem w') Save (Ok a)].
Proof.
  unfold atomic_json. intros H. apply dbind_ok in H as (w1 & r & _ & H). apply dbind_ok in H as (w2 & u & _ & H).
  apply save_state_ok in H as [a ->]. by exists (log w2), a.
Qed.

#[export] Instance btc_laws : OpsLaws (btc_ops E initial).
Proof.
  pose proof (base_laws E) as B. destruct B as [_ _ Bq Bo]. cbn [op_save op_command base_ops] in *.
  split; cbn [op_save op_command btc_ops]; [apply steady_btc_save|apply btc_save_durable|exact Bq|exact Bo].
Qed.

(** A submission is sent after the final check, or refused without a call. *)
#[export] Instance entry_laws : OpsLaws (entry_ops E initial).
Proof.
  pose proof (base_laws E) as B. destruct B as [_ _ Bq Bo]. cbn [op_save op_command base_ops] in *.
  split; cbn [op_save op_command entry_ops]; [apply steady_btc_save|apply btc_save_durable| |].
  - intros op args Hp Hs. unfold entry_cmd. rewrite bool_decide_eq_false_2 by done. by apply Bq.
  - intros op args w w' o H. unfold entry_cmd in H. case_bool_decide as Hop; [|by apply Bo]. subst op. unfold dbind at 1, dread at 1 in H.
    destruct (or_empty _) as [p|e]; [|injection H as <- <-; exists w, []; rewrite app_nil_r; split; [reflexivity|]; split; [done|]; split; [done|]; split; [by left|done]].
    destruct (eq_str _ _); [|by apply Bo]. unfold dbind at 1, dtry at 1 in H. destruct (final_check E initial p args w) as [w1 r] eqn:Ef.
    apply steady_final_check in Ef. destruct r as [[]|e].
    + apply Bo in H as (w2 & evs & Hs & H). exists w2, evs. split; [by transitivity w1|exact H].
    + injection H as <- <-. exists w1, []. rewrite app_nil_r. split; [done|]. split; [done|]. split; [done|]. split; [by left|done].
Qed.

#[export] Instance btc_hook_laws : HookLaws (btc_hooks E initial).
Proof.
  split; cbn [hook_ops op_prepare btc_hooks]; [apply btc_laws|]. intros ds kind quote side cash base reason. unfold btc_prepare. case_bool_decide.
  - do 8 (apply within_bind; [apply _|apply safe_of; hush|intros]). exact (@safe_prepare E (entry_ops E initial) (entry_laws) true ds _ _ _ _ _ _).
  - exact (@safe_prepare E (btc_ops E initial) (btc_laws) true ds _ _ _ _ _ _).
Qed.

(** ** Flags *)

Lemma flagged_upd f : (forall s, flags (f s) = flags s) -> within flagged (dupd f).
Proof. intros Hf w w' o [= <- <-]. split; [by apply Hf|]. exists []. simpl. by rewrite app_nil_r. Qed.
Lemma flagged_set k v : k <> "halt_new_entries" -> k <> "owner_fence_recovery_required" -> within flagged (sset k v).
Proof. intros H1 H2. apply flagged_upd. intros s. by apply flags_dset. Qed.
Lemma flagged_pset k v : within flagged (pset k v).
Proof. apply flagged_upd. intros s. destruct (get s "pending"); try done. by apply flags_dset. Qed.
Lemma flagged_setdefault k v : k <> "halt_new_entries" -> k <> "owner_fence_recovery_required" -> within flagged (dupd (dsetdefault k v)).
Proof. intros H1 H2. apply flagged_upd. intros s. by apply flags_setdefault. Qed.
Lemma flagged_cmd op args : within flagged (paper_cmd E op args).
Proof. exact (@command_flagged (base_ops E) (base_flags E) op args). Qed.
Hint Resolve flagged_perform flagged_now flagged_pset flagged_cmd : fence.
Hint Extern 1 (within flagged (sset _ _)) => apply flagged_set; discriminate : fence.
Hint Extern 1 (within flagged (dupd (dsetdefault _ _))) => apply flagged_setdefault; discriminate : fence.

Lemma closed_upd f : within closed (dupd f).
Proof. apply follows_upd. Qed.
Lemma closed_cmd op args : is_open op = false -> within closed (paper_cmd E op args).
Proof. exact (@command_closed (base_ops E) (base_flags E) op args). Qed.
Lemma closed_now : within closed (now_ms E).
Proof. by apply follows_now. Qed.
Hint Resolve closed_upd closed_now : fence.
Hint Extern 1 (within closed (perform _ _)) => apply follows_perform; reflexivity : fence.
Hint Extern 1 (within closed (sset _ _)) => apply closed_upd : fence.
Hint Extern 1 (within closed (pset _ _)) => apply closed_upd : fence.
Hint Extern 1 (within closed (paper_cmd _ _ _)) => apply closed_cmd : fence.

#[export] Instance btc_flags : FlagLaws (btc_ops E initial).
Proof. split; cbn [op_save op_command btc_ops]; [gush|gush|apply flagged_cmd|apply closed_cmd]. Qed.
#[export] Instance entry_flags : FlagLaws (entry_ops E initial).
Proof.
  split; cbn [op_save op_command entry_ops]; [gush|gush| |].
  - intros op args. gush.
  - intros op args Ho. unfold entry_cmd. case_bool_decide; subst; gush.
Qed.

#[export] Instance btc_hook_flags : HookFlags (btc_hooks E initial).
Proof.
  split; cbn [hook_ops op_prepare btc_hooks]; [apply btc_flags| |].
  - intros quote side cash base reason. exact (@guarded_close E (btc_ops E initial) btc_flags true quote side cash base reason).
  - intros quote side cash base w w' o Hh H. unfold btc_prepare in H. rewrite bool_decide_eq_true_2 in H by done.
    do 8 step_flags H Hh. exact (@guarded_open E (entry_ops E initial) entry_flags true _ _ _ _ _ _ _ Hh H).
Qed.

End laws.
End DriverBtcFacts.
