(* ===== verification/DriverBtcRun.v ===== *)
(** * Entries of the BTC driver

    An opening command reaches the command client only when the entry policy admitted it, on
    a quote read after the last command, for the forecast the entry was prepared with and
    with the anti-churn controls of the state.  This holds along every process of the
    driver, whatever the outside answers.  The module [DriverBtcScenario]
    is an admitted entry. *)

From Stdlib Require Import QArith Ascii Floats.SpecFloat.
From S2P Require Import Prelude PyDecimal PyText PyValue PyOrder PyBytes PyFloat RowMonad BtcEntry BtcEntryFacts.
From S2P Require Import Driver DriverCommand DriverLease DriverLoop DriverFacts DriverLife DriverRun DriverFence DriverBtc DriverScenario.
From stdpp Require Import base tactics list strings.
From Stdlib Require Import ZArith Lia Bool.
Import BtcEntry BtcEntryFacts DriverCommand DriverLease DriverLoop DriverFacts DriverLife DriverRun DriverFence DriverBtc.

Open Scope Z_scope.

Module DriverBtcRun.

Definition kind_of (s : dict) : value := get (pending_of s) "kind".
Definition is_command (c : call) : bool := match c with Command _ _ => true | _ => false end.

(** The policy admitted the pending entry on a quote read since the last command. *)
Definition vetted_entry (before : list event) (s : dict) (args : list string) : Prop :=
  exists l x m q y now c r,
    before = l ++ x :: m /\ Forall (fun e => is_command (ev_call e) = false) m /\
    ev_call x = Tool "market.get_quote" ["instrument=BTC.USD"] /\ (let! v := ev_answer x in native_reply v) = Ok q /\
    In y m /\ ev_call y = Clock /\ ev_answer y = Ok (VInt now) /\ get s "btc_entry_control" = VDict c /\
    evaluate PRECISION (get (pending_of s) "btc_entry_forecast") (VDict q) (VDict c) (VInt now) (VStr "25000") (get (pending_of s) "command_id") = Ok r /\
    get r "allowed" = VBool true /\ forecast_changed (pending_of s) (get s "last_decision") = Ok false /\
    prepared_changed (pending_of s) s = Ok false /\ args = ["--command-id"; py_str (get (pending_of s) "command_id")].

Definition vet (before : list event) (e : event) : Prop :=
  forall args, ev_call e = Command "submit" args -> kind_of (ev_state e) = VStr "OPEN" -> vetted_entry before (ev_state e) args.

Definition vetted : world -> world -> Prop := follows vet.
#[export] Instance vetted_refl : Reflexive vetted.
Proof. apply follows_refl. Qed.
#[export] Instance vetted_trans : Transitive vetted.
Proof. apply follows_trans. Qed.

(** No command is sent. *)
Definition unsent : world -> world -> Prop := follows (fun _ e => is_command (ev_call e) = false).
#[export] Instance unsent_refl : Reflexive unsent.
Proof. apply follows_refl. Qed.
#[export] Instance unsent_trans : Transitive unsent.
Proof. apply follows_trans. Qed.

Lemma unsent_log w w' : unsent w w' -> exists evs, log w' = log w ++ evs /\ Forall (fun e => is_command (ev_call e) = false) evs.
Proof.
  intros (evs & Hl & He). exists evs. split; [done|]. apply List.Forall_forall. intros e (l1 & l2 & Hin)%in_split. by eapply He.
Qed.
Lemma unsent_vetted w w' : unsent w w' -> vetted w w'.
Proof. intros (evs & Hl & He). exists evs. split; [done|]. intros l1 e l2 H args Hc. specialize (He _ _ _ H). by rewrite Hc in He. Qed.

(** What the check of an entry leaves alone. *)
Definition STABLE : list string := ["pending"; "last_decision"; "halt_new_entries"; "position"].
Definition stable (w w' : world) : Prop := forall k, In k STABLE -> dget k (mem w') = dget k (mem w).
#[export] Instance stable_refl : Reflexive stable.
Proof. by intros w k. Qed.
#[export] Instance stable_trans : Transitive stable.
Proof. intros w1 w2 w3 H1 H2 k Hk. rewrite H2 by done. by apply H1. Qed.

Lemma stable_pending w w' : stable w w' -> pending_of (mem w') = pending_of (mem w).
Proof. intros H. unfold pending_of, get, getd, dget_or. by rewrite H by (simpl; tauto). Qed.

(** A closing command stays the pending one, and is no entry. *)
Definition closing (w w' : world) : Prop := kind_of (mem w) = VStr "CLOSE" -> kind_of (mem w') = VStr "CLOSE" /\ vetted w w'.
#[export] Instance closing_refl : Reflexive closing.
Proof. intros w H. split; [done|reflexivity]. Qed.
#[export] Instance closing_trans : Transitive closing.
Proof. intros w1 w2 w3 H1 H2 H. destruct (H1 H) as [K1 V1]. destruct (H2 K1) as [K2 V2]. split; [done|by transitivity w2]. Qed.

(** What a driver owes: its saves and its queries submit nothing, and what it prepares is
    admitted. *)
Class VetLaws (O : Ops) := {
  save_vets : within vetted op_save;
  query_vets op args : op <> "submit" -> within vetted (op_command op args) }.
Class VetHooks (K : Hooks) := {
  hook_vets :: VetLaws hook_ops;
  open_vets quote side cash base reason : within vetted (op_prepare "OPEN" quote side cash base reason);
  close_vets quote side cash base reason : within vetted (op_prepare "CLOSE" quote side cash base reason) }.

Section entries.
Context (E : env) (initial : dict).

(** ** Single steps *)

Lemma unsent_upd f : within unsent (dupd f).
Proof. apply follows_upd. Qed.
Lemma unsent_now : within unsent (now_ms E).
Proof. by apply follows_now. Qed.
Lemma vetted_upd f : within vetted (dupd f).
Proof. apply follows_upd. Qed.
Lemma vetted_now : within vetted (now_ms E).
Proof. by apply follows_now. Qed.
Lemma vetted_cmd op args : op <> "submit" -> within vetted (paper_cmd E op args).
Proof. intros Ho w w' o H. apply paper_cmd_sent in H as (a & -> & _). eapply follows_snoc; [done|]. intros args' [= ? _]. done. Qed.
Hint Resolve unsent_upd unsent_now vetted_upd vetted_now : fence.
Hint Extern 1 (within unsent (perform _ _)) => apply follows_perform; reflexivity : fence.
Hint Extern 1 (within unsent (sset _ _)) => apply unsent_upd : fence.
Hint Extern 1 (within unsent (pset _ _)) => apply unsent_upd : fence.
Hint Extern 1 (within vetted (perform _ _)) => apply follows_perform; discriminate : fence.
Hint Extern 1 (within vetted (sset _ _)) => apply vetted_upd : fence.
Hint Extern 1 (within vetted (pset _ _)) => apply vetted_upd : fence.
Hint Extern 1 (within vetted (supdate _)) => apply vetted_upd : fence.
Hint Extern 1 (within vetted (paper_cmd _ _ _)) => apply vetted_cmd; discriminate : fence.

Lemma stable_upd f : (forall s k, In k STABLE -> dget k (f s) = dget k s) -> within stable (dupd f).
Proof. intros Hf w w' o [= <- _] k Hk. by apply Hf. Qed.
Lemma stable_sset k v : ~ In k STABLE -> within stable (sset k v).
Proof. intros Hk. apply stable_upd. intros s k' Hk'. apply dget_dset_ne. congruence. Qed.
Lemma stable_setdefault k v : ~ In k STABLE -> within stable (dupd (dsetdefault k v)).
Proof. intros Hk. apply stable_upd. intros s k' Hk'. unfold dsetdefault. case_match; [done|]. apply dget_dset_ne. congruence. Qed.
Lemma stable_perform c : within stable (perform E c).
Proof. by intros w w' o [= <- _]. Qed.
Lemma stable_now : within stable (now_ms E).
Proof. by intros w w' o [= <- _]. Qed.
Hint Resolve stable_perform stable_now : fence.
Hint Extern 1 (within stable (sset _ _)) => apply stable_sset; simpl; intuition discriminate : fence.
Hint Extern 1 (within stable (dupd (dsetdefault _ _))) => apply stable_setdefault; simpl; intuition discriminate : fence.

Lemma closing_upd f : (forall s, kind_of (f s) = kind_of s) -> within closing (dupd f).
Proof. intros Hf w w' o H Hk. split; [injection H as <- _; simpl; by rewrite Hf|by eapply vetted_upd]. Qed.
Lemma closing_sset k v : k <> "pending" -> within closing (sset k v).
Proof. intros Hk. apply closing_upd. intros s. unfold kind_of, pending_of. by rewrite get_dset_ne by congruence. Qed.
Lemma closing_setdefault k v : k <> "pending" -> within closing (dupd (dsetdefault k v)).
Proof. intros Hk. apply closing_upd. intros s. unfold dsetdefault. case_match; [done|]. unfold kind_of, pending_of. by rewrite get_dset_ne by congruence. Qed.
Lemma closing_pset k v : k <> "kind" -> within closing (pset k v).
Proof.
  intros Hk. apply closing_upd. intros s. unfold kind_of, pending_of. destruct (get s "pending") eqn:Ep; try done; [by rewrite Ep..|].
  rewrite get_dset_eq. by rewrite get_dset_ne by congruence.
Qed.
Lemma closing_perform c : within closing (perform E c).
Proof. intros w w' o [= <- _] Hk. split; [done|]. eapply follows_snoc; [done|]. intros args _ Ho. simpl in Ho. congruence. Qed.
Lemma closing_now : within closing (now_ms E).
Proof. intros w w' o [= <- _] Hk. split; [done|]. by eapply follows_snoc. Qed.
Hint Resolve closing_perform closing_now : fence.
Hint Extern 1 (within closing (sset _ _)) => apply closing_sset; discriminate : fence.
Hint Extern 1 (within closing (pset _ _)) => apply closing_pset; discriminate : fence.
Hint Extern 1 (within closing (dupd (dsetdefault _ _))) => apply closing_setdefault; discriminate : fence.

(** ** The check of an entry *)

Lemma unsent_save : within unsent (save_state E).
Proof. gush. Qed.
Lemma unsent_check ignore f : within unsent (entry_check E initial ignore f).
Proof. gush. Qed.
Lemma stable_check ignore f : within stable (entry_check E initial ignore f).
Proof. gush. Qed.
Hint Resolve unsent_save unsent_check stable_check : fence.

Lemma control_valid w w' c : control E initial w = (w', Ok c) -> get (mem w') "btc_entry_control" = VDict c.
Proof.
  unfold control. intros H. apply dbind_ok in H as (wa & ua & _ & H). apply dbind_ok in H as (wb & tb & _ & H). injection H as <- H.
  by apply validate_control_ok in H as (H & _).
Qed.

Lemma entry_check_evaluated ignore f w w' r q :
  is_none f = false -> entry_check E initial ignore f w = (w', Ok (r, q)) ->
  exists l x m y now c, log w' = l ++ x :: m /\ Forall (fun e => is_command (ev_call e) = false) m /\
    ev_call x = Tool "market.get_quote" ["instrument=BTC.USD"] /\ (let! v := ev_answer x in native_reply v) = Ok q /\
    In y m /\ ev_call y = Clock /\ ev_answer y = Ok (VInt now) /\ get (mem w') "btc_entry_control" = VDict c /\
    evaluate PRECISION f (VDict q) (VDict c) (VInt now) (VStr "25000") ignore = Ok r.
Proof.
  intros Hf H. unfold entry_check in H. rewrite Hf in H. apply dbind_ok in H as (w1 & u & _ & H).
  apply dbind_ok in H as (w2 & fresh & Hq & H). unfold native, dbind, perform, dlift in Hq. cbv zeta in Hq.
  destruct (e_answer E (log w1) _) as [v|] eqn:Ea; [|done]. injection Hq as Hw2 Hv.
  set (x := mkEvent (mem w1) (Tool "market.get_quote" ["instrument=BTC.USD"]) (Ok v)).
  assert (Hl2 : log w2 = log w1 ++ [x]) by (by subst w2). clear Hw2.
  apply dbind_ok in H as (w3 & health & H3 & H). apply dbind_ok in H as (w4 & owner & H4 & H). apply dbind_ok in H as (w5 & u5 & H5 & H).
  apply dbind_ok in H as (w6 & f' & H6 & H). injection H6 as <- <-. apply dbind_ok in H as (w7 & c & H7 & H).
  assert (Hu : unsent w2 w7).
  { transitivity w3; [refine ((_ : within unsent _) _ _ _ H3); gush|]. transitivity w4; [refine ((_ : within unsent _) _ _ _ H4); gush|].
    transitivity w5; [refine ((_ : within unsent _) _ _ _ H5); gush|]. refine ((_ : within unsent _) _ _ _ H7); gush. }
  apply unsent_log in Hu as (m & Hl7 & Hm). apply control_valid in H7.
  apply dbind_ok in H as (w8 & t & H8 & H). injection H8 as H8 <-. apply dbind_ok in H as (w9 & result & H9 & H). injection H9 as <- H9.
  apply dbind_ok in H as (w10 & u10 & H10 & H). injection H as Hw' Hr Hq'. subst w10 result fresh. injection H10 as H10. subst w' w8. cbn [mem log].
  set (y := mkEvent (mem w7) Clock (Ok (VInt (e_clock E (log w7))))). exists (log w1), x, (m ++ [y]), y, (e_clock E (log w7)), c.
  split; [rewrite Hl7, Hl2, <- !app_assoc; done|]. split; [apply Forall_app; by repeat constructor|]. split; [done|]. split; [exact Hv|].
  split; [apply in_app_iff; right; by left|]. split; [done|]. split; [done|]. split; [|done]. by rewrite get_dset_ne by discriminate.
Qed.

Lemma evaluate_verdict p f q c now cash ignore r : evaluate p f q c now cash ignore = Ok r -> truthy (get r "allowed") = true -> get r "allowed" = VBool true.
Proof.
  unfold evaluate. intros H. apply rbind_ok in H as (profile & _ & H). destruct (evaluate_body _ _ _ _ _ _ _ _) as [r' [[]|e]];
    [|case_if H; [|done]]; apply Ok_inj in H as <-; unfold set_allowed; rewrite get_dset_eq; simpl; by intros ->.
Qed.

Lemma stable_prepared p w w' : stable w w' -> prepared_changed p (mem w') = prepared_changed p (mem w).
Proof. intros H. unfold prepared_changed, get, getd, dget_or. rewrite !(H "halt_new_entries"), !(H "position") by (simpl; tauto). done. Qed.
Lemma stable_decision w w' : stable w w' -> get (mem w') "last_decision" = get (mem w) "last_decision".
Proof. intros H. unfold get, getd, dget_or. by rewrite !(H "last_decision") by (simpl; tauto). Qed.

Lemma or_empty_pending s p : or_empty (get s "pending") = Ok p -> p = pending_of s.
Proof.
  unfold or_empty, pending_of. destruct (get s "pending") as [|[]| | | | | |d]; simpl; try (by intros [= <-]); repeat case_match; try done; by intros [= <-].
Qed.

(** The forecast a check is made for is one. *)
Lemma forecast_present p d : forecast_changed p d = Ok false -> is_none (get p "btc_entry_forecast") = false.
Proof.
  unfold forecast_changed. intros H. destruct (get p "btc_entry_forecast"); try done. destruct profile_sha256; simpl in H; [|done]. by destruct (negb _).
Qed.

Lemma final_check_vets p args w w' :
  or_empty (get (mem w) "pending") = Ok p -> final_check E initial p args w = (w', Ok tt) -> vetted_entry (log w') (mem w') args.
Proof.
  intros Hp H.
  apply or_empty_pending in Hp as Hpw.
  unfold final_check in H. apply dbind_ok in H as (w1 & id & H1 & H). injection H1 as <- Hid. apply item_read in Hid.
  apply dbind_ok in H as (w2 & u2 & H2 & H). unfold dpolicy in H2. destruct (negb _) eqn:Ha in H2; [done|]. injection H2 as <-.
  apply negb_false_iff, bool_decide_eq_true in Ha.
  apply dbind_ok in H as (w3 & decision & H3 & H). injection H3 as <- <-.
  apply dbind_ok in H as (w4 & fc & H4 & H). injection H4 as <- Hfc. apply dbind_ok in H as (w5 & u5 & H5 & H). destruct fc; [done|]. injection H5 as <-.
  apply dbind_ok in H as (w6 & pc & H6 & H). injection H6 as <- Hpc. apply dbind_ok in H as (w7 & u7 & H7 & H). destruct pc; [done|]. injection H7 as <-.
  apply dbind_ok in H as (w8 & [r q] & H8 & H). pose proof (stable_check _ _ _ _ _ H8) as S1.
  apply entry_check_evaluated in H8 as (l & x & m & y & now & c & Hl & Hm & Hx & Hq & Hy & Hyc & Hya & Hc & Hr); [|by eapply forecast_present].
  apply dbind_ok in H as (w9 & u9 & H9 & H). apply dbind_ok in H as (w10 & u10 & H10 & H). unfold dpolicy in H. destruct (negb _) eqn:Hal in H; [done|].
  injection H as <-. apply negb_false_iff in Hal. pose proof (evaluate_verdict _ _ _ _ _ _ _ _ Hr Hal) as Hv.
  assert (S2 : stable w8 w9) by (refine ((_ : within stable _) _ _ _ H9); gush). assert (S3 : stable w9 w10) by (refine ((_ : within stable _) _ _ _ H10); gush).
  assert (S : stable w w10) by (transitivity w8; [done|]; by transitivity w9).
  injection H9 as <-. destruct u10. apply save_state_ok in H10 as (a & ->).
  exists l, x, (m ++ [mkEvent (dset "btc_last_final_entry_check" (VDict r) (mem w8)) Save (Ok a)]), q, y, now, c, r.
  rewrite (stable_pending _ _ S), <- Hpw, (stable_decision _ _ S), (stable_prepared _ _ _ S).
  split; [simpl; by rewrite Hl, <- app_assoc|]. split; [apply Forall_app; by repeat constructor|]. split; [done|]. split; [done|].
  split; [apply in_app_iff; by left|]. split; [done|]. split; [done|]. split; [simpl; by rewrite get_dset_ne by discriminate|].
  subst p. by rewrite Hid.
Qed.

(** ** Submissions *)

Lemma unsent_final p args : within unsent (final_check E initial p args).
Proof. gush. Qed.

Lemma vetted_submission args w w' o : (kind_of (mem w) = VStr "OPEN" -> vetted_entry (log w) (mem w) args) -> paper_cmd E "submit" args w = (w', o) -> vetted w w'.
Proof. intros Hv H. apply paper_cmd_sent in H as (a & -> & _). eapply follows_snoc; [done|]. intros args' [= <-]. exact Hv. Qed.

Lemma vetted_entry_cmd op args : within vetted (entry_cmd E initial op args).
Proof.
  unfold entry_cmd. case_bool_decide as Hop; [subst op|by apply vetted_cmd]. intros w w' o H. unfold dbind at 1, dread at 1 in H.
  destruct (or_empty _) as [p|e] eqn:Hp; [|injection H as <- _; reflexivity]. destruct (eq_str _ _) eqn:Hk.
  - unfold dbind at 1, dtry at 1 in H. destruct (final_check E initial p args w) as [w1 r] eqn:Ef. transitivity w1; [apply unsent_vetted; by eapply unsent_final|].
    destruct r as [[]|e]; [|injection H as <- _; reflexivity]. eapply vetted_submission; [|exact H]. intros _. by eapply final_check_vets.
  - eapply vetted_submission; [|exact H]. intros Ho. apply or_empty_pending in Hp as ->. unfold kind_of in Ho. by rewrite Ho in Hk.
Qed.
Hint Resolve vetted_entry_cmd : fence.

Lemma vetted_save entering : within vetted (atomic_json E initial entering).
Proof. gush. Qed.
Hint Resolve vetted_save : fence.

Hint Extern 1 (within vetted (@op_save (entry_ops _ _))) => apply vetted_save : fence.
Hint Extern 1 (within vetted (@op_command (entry_ops _ _) _ _)) => apply vetted_entry_cmd : fence.
Lemma vetted_open quote side cl bl reason : within vetted (@prepare_send E (entry_ops E initial) true "OPEN" quote side cl bl reason).
Proof. gush. Qed.

(** An exit is prepared with nothing pending and is a closing command from its first save. *)
Lemma closing_save : within closing (atomic_json E initial false).
Proof. gush. Qed.
Lemma closing_cmd op args : within closing (paper_cmd E op args).
Proof. gush. Qed.
Hint Extern 1 (within closing (@op_save (btc_ops _ _))) => apply closing_save : fence.
Hint Extern 1 (within closing (@op_command (btc_ops _ _) _ _)) => apply closing_cmd : fence.
Hint Extern 1 (within vetted (@op_save (btc_ops _ _))) => apply vetted_save : fence.
Hint Extern 1 (within vetted (@op_command (btc_ops _ _) _ _)) => apply vetted_cmd; discriminate : fence.

Lemma closing_response sent : within closing (@record_response E (btc_ops E initial) sent).
Proof. gush. Qed.
Hint Resolve closing_response : fence.

Lemma vetted_close_command quote side cl bl preview : within vetted (@prepare_command E (btc_ops E initial) true "CLOSE" quote side cl bl preview).
Proof. unfold prepare_command. rewrite bool_decide_eq_false_2 by discriminate. gush. Qed.
Hint Resolve vetted_close_command : fence.

Lemma vetted_close quote side cl bl reason : within vetted (@prepare_send E (btc_ops E initial) true "CLOSE" quote side cl bl reason).
Proof.
  unfold prepare_send. do 8 (apply within_bind; [apply _|gush|intros]). destruct a6 as [[ref extra] reply].
  do 4 (apply within_bind; [apply _|gush|intros]). intros w w' o H. unfold sset, dupd, dbind at 1 in H. cbv beta iota in H.
  match type of H with _ (mkWorld ?s ?l) = _ => assert (Hc : closing (mkWorld s l) w') by (refine ((_ : within closing _) _ _ _ H); gush) end.
  destruct Hc as [_ Hv]; [unfold kind_of, pending_of; simpl; by rewrite get_dset_eq|exact Hv].
Qed.

Lemma vetted_check ignore f : within vetted (entry_check E initial ignore f).
Proof. intros w w' o H. apply unsent_vetted. by eapply unsent_check. Qed.
Hint Resolve vetted_check vetted_open vetted_close : fence.
#[export] Instance btc_vets : VetHooks (btc_hooks E initial).
Proof.
  split; cbn [hook_ops op_prepare btc_hooks].
  - split; cbn [op_save op_command btc_ops]; [apply vetted_save|apply vetted_cmd].
  - intros quote side cash base reason. unfold btc_prepare. rewrite bool_decide_eq_true_2 by done.
    do 8 (apply within_bind; [apply _|gush|intros]). apply vetted_open.
  - intros quote side cash base reason. unfold btc_prepare. rewrite bool_decide_eq_false_2 by discriminate. apply vetted_close.
Qed.
End entries.

(** ** The loop and the modes *)

Section modes.
Context (E : env) {K : Hooks} {L : VetLaws hook_ops} (crypto : bool).

Lemma mode_upd f : within vetted (dupd f).
Proof. apply follows_upd. Qed.
Lemma mode_now : within vetted (now_ms E).
Proof. by apply follows_now. Qed.
Lemma mode_save : within vetted op_save.
Proof. apply save_vets. Qed.
Hint Resolve mode_upd mode_now mode_save : fence.
Hint Extern 1 (within vetted (perform _ _)) => apply follows_perform; discriminate : fence.
Hint Extern 1 (within vetted (op_command _ _)) => apply query_vets; discriminate : fence.
Hint Extern 1 (within vetted (sset _ _)) => apply mode_upd : fence.
Hint Extern 1 (within vetted (pset _ _)) => apply mode_upd : fence.
Hint Extern 1 (within vetted (supdate _)) => apply mode_upd : fence.

Lemma vetted_latch reason : within vetted (latch_owner_fence E reason).
Proof. gush. Qed.
Hint Resolve vetted_latch : fence.
Lemma vetted_snapshot tracked q st : within vetted (snapshot E crypto tracked q st).
Proof. gush. Qed.
Lemma vetted_marker name : within vetted (marker_state E name).
Proof. apply within_marker. gush. Qed.
Hint Resolve vetted_snapshot vetted_marker : fence.
Lemma vetted_renew pos n pending : within vetted (maybe_renew E crypto pos n pending).
Proof. gush. Qed.
Lemma vetted_inspect snap : within vetted (inspect_pending E crypto snap).
Proof. gush. Qed.
Hint Resolve vetted_renew vetted_inspect : fence.
Lemma vetted_recover : within vetted (recover_owner E crypto).
Proof. gush. Qed.
Hint Resolve vetted_recover : fence.
Lemma vetted_recover_mode : within vetted (recover_mode E crypto).
Proof. gush. Qed.
Lemma vetted_reconcile_mode : within vetted (reconcile_mode E crypto).
Proof. gush. Qed.
Lemma vetted_startup b : within vetted (startup E crypto b).
Proof. gush. Qed.
End modes.

Section loop.
Context (E : env) {K : Hooks} {L : VetHooks K} (crypto : bool).
Hint Resolve hook_vets mode_upd mode_now mode_save vetted_latch vetted_snapshot vetted_renew vetted_inspect vetted_recover vetted_marker : fence.
Hint Extern 1 (within vetted (perform _ _)) => apply follows_perform; discriminate : fence.
Hint Extern 1 (within vetted (op_command _ _)) => apply query_vets; discriminate : fence.
Hint Extern 1 (within vetted (sset _ _)) => apply mode_upd : fence.
Hint Extern 1 (within vetted (pset _ _)) => apply mode_upd : fence.
Hint Extern 1 (within vetted (supdate _)) => apply mode_upd : fence.
Hint Resolve open_vets close_vets : fence.

Lemma vetted_act snap pos q decision : within vetted (act E crypto snap pos q decision).
Proof. gush. Qed.
Hint Resolve vetted_act : fence.
Lemma vetted_body : lwithin vetted (body E crypto).
Proof. lgush. Qed.
Hint Resolve vetted_body : fence.

Lemma vetted_iteration identity n : lwithin vetted (iteration E crypto identity n).
Proof.
  intros l w w' l' o. unfold iteration. destruct (lift _ l w) as [[w1 l1] [u|e]] eqn:E1;
    (assert (vetted w w1) by (refine ((_ : lwithin vetted _) _ _ _ _ _ E1); lgush)); [|by intros [= <- _ _]].
  destruct (body E crypto l1 w1) as [[w2 l2] [u'|e]] eqn:E2; pose proof (vetted_body _ _ _ _ _ E2); intros H1; etransitivity; [eassumption| |eassumption|].
  - by injection H1 as <- _ _.
  - etransitivity; [eassumption|]. refine ((_ : lwithin vetted _) _ _ _ _ _ H1). lgush.
Qed.
Lemma vetted_resident identity rounds : forall n, lwithin vetted (resident E crypto identity n rounds).
Proof. induction rounds as [|rounds IH]; intros n; simpl; [lgush|]. apply lwithin_bind; [apply _|apply vetted_iteration|intros _; apply IH]. Qed.
End loop.

(** The processes of the BTC driver: the entry-capable modes run with its hooks, the
    control-only modes with those of the paper driver. *)
Inductive btc_run (E : env) (initial : dict) : world -> world -> Prop :=
| btc_startup reconcile w w' o : @startup E (btc_hooks E initial) true reconcile w = (w', o) -> btc_run E initial w w'
| btc_resident identity n rounds l l' w w' o :
    @resident E (btc_hooks E initial) true identity n rounds l w = (w', l', o) -> btc_run E initial w w'
| btc_control_startup reconcile w w' o : @startup E (base_hooks E true) true reconcile w = (w', o) -> btc_run E initial w w'
| btc_recover w w' o : @recover_mode E (base_hooks E true) true w = (w', o) -> btc_run E initial w w'
| btc_reconcile w w' o : @reconcile_mode E (base_hooks E true) true w = (w', o) -> btc_run E initial w w'.

#[export] Instance base_vets E : VetLaws (base_ops E).
Proof.
  split; cbn [op_save op_command base_ops]; [|apply vetted_cmd]. unfold save_state. apply within_bind; [apply _|by apply follows_perform|].
  intros. apply within_ret, _.
Qed.

Lemma btc_run_vetted E initial w w' : btc_run E initial w w' -> vetted w w'.
Proof.
  intros [r v v' o H|i n r l l' v v' o H|r v v' o H|v v' o H|v v' o H].
  - exact (@vetted_startup E (btc_hooks E initial) (@hook_vets _ (btc_vets E initial)) true r _ _ _ H).
  - exact (@vetted_resident E (btc_hooks E initial) (btc_vets E initial) true i r n _ _ _ _ _ H).
  - exact (@vetted_startup E (base_hooks E true) (base_vets E) true r _ _ _ H).
  - exact (@vetted_recover_mode E (base_hooks E true) (base_vets E) true _ _ _ H).
  - exact (@vetted_reconcile_mode E (base_hooks E true) (base_vets E) true _ _ _ H).
Qed.

Lemma life_follows R P c0 w : (forall v v', R v v' -> follows P v v') -> life R c0 w -> forall l1 e l2, log w = l1 ++ e :: l2 -> P l1 e.
Proof.
  intros HR Hl. induction Hl as [|w w' _ IH Hr|w w' l d _ IH Hr H1 H2 _]; intros l1 e l2 H; simpl in H; [by destruct l1| |].
  - destruct (HR _ _ Hr) as (evs & Hw & He). rewrite Hw in H. apply split_app in H as [(r & H & _)|(r & -> & ->)]; [by eapply IH|by eapply He].
  - destruct (HR _ _ Hr) as (evs & Hw & He). destruct H2 as [k Hk]. subst l. rewrite Hw, <- app_assoc in Hk. simpl in Hk.
    apply split_app in Hk as [(r & H & _)|(r & -> & ->)]; [by eapply IH|by eapply He].
Qed.

(** ** What an admitted entry is *)

Lemma prepared_unchanged p s : prepared_changed p s = Ok false ->
  get p "instrument" = VStr "BTC.USD" /\ get p "side" = VStr "BUY" /\ get p "quantity_mode" = VStr "CASH" /\
  (exists cash, number (get p "cash_quantity") = Ok cash /\ (dval cash == 25000)%Q) /\
  halted s = false /\ exists d, number (getd (VInt 0) s "position") = Ok d /\ dcoef d = 0.
Proof.
  unfold prepared_changed, pnot. intros H. apply por_false in H as [H H4]. apply por_false in H as [H H3]. apply por_false in H as [H1 H2].
  apply Ok_inj in H1. split_bools. do 3 (split; [by apply eq_str_true|]). split; [|split].
  - apply rbind_ok in H2 as (cash & Hc & H2). destruct profile_numbers as (_ & _ & _ & E4). rewrite E4 in H2. apply Ok_inj, negb_false_iff, deqb_eq in H2.
    exists cash. split; [done|]. rewrite H2. reflexivity.
  - by apply Ok_inj in H3.
  - unfold zero_number in H4. destruct (number (getd (VInt 0) s "position")) as [d|] eqn:Hd; [|done]. simpl in H4. apply Ok_inj, negb_false_iff, Z.eqb_eq in H4. by exists d.
Qed.

(** C4: Over any sequence of processes of the BTC driver, whatever the outside answers and at
    whatever call a process dies and the next one starts from the state file: an opening
    order is submitted only under the identifier of the pending entry, for BTC, as a
    purchase of the permitted cash, in a flat state that is not halted, and the entry policy
    admits it with the forecast recorded in the entry, the anti-churn record of the state
    and a quote, read with no command sent since, at a clock reading after the quote. *)
Theorem btc_driver_submits_admitted (E : env) (initial c0 : dict) (w : world) l1 e l2 args :
  life (btc_run E initial) c0 w -> log w = l1 ++ e :: l2 -> ev_call e = Command "submit" args -> kind_of (ev_state e) = VStr "OPEN" ->
  let s := ev_state e in let p := pending_of s in
  args = ["--command-id"; py_str (get p "command_id")] /\
  get p "instrument" = VStr "BTC.USD" /\ get p "side" = VStr "BUY" /\ get p "quantity_mode" = VStr "CASH" /\
  (exists cash, number (get p "cash_quantity") = Ok cash /\ (dval cash == 25000)%Q) /\
  halted s = false /\ (exists d, number (getd (VInt 0) s "position") = Ok d /\ dcoef d = 0) /\
  exists l x m q y now c f bid ask n a,
    l1 = l ++ x :: m /\ Forall (fun e => is_command (ev_call e) = false) m /\
    ev_call x = Tool "market.get_quote" ["instrument=BTC.USD"] /\ (let! v := ev_answer x in native_reply v) = Ok q /\
    In y m /\ ev_call y = Clock /\ ev_answer y = Ok (VInt now) /\ get s "btc_entry_control" = VDict c /\ get p "btc_entry_forecast" = VDict f /\
    admitted PRECISION f q c now (VStr "25000") (get p "command_id") bid ask n a.
Proof.
  intros Hl Hw Hc Hk s p.
  destruct (life_follows _ _ _ _ (btc_run_vetted E initial) Hl l1 e l2 Hw args Hc Hk)
    as (l & x & m & q & y & now & c & r & Hm & Hu & Hx & Hq & Hy & Hyc & Hya & Hcon & Hev & Hal & _ & Hp & Ha).
  destruct (prepared_unchanged _ _ Hp) as (H1 & H2 & H3 & H4 & H5 & H6). do 7 (split; [assumption|]).
  destruct (evaluate_allowed _ _ _ _ _ _ _ _ Hev Hal) as (f & q' & c' & now' & bid & ask & n & a & Hf & [= <-] & [= <-] & [= <-] & _ & Had).
  exists l, x, m, q, y, now, c, f, bid, ask, n, a. do 9 (split; [assumption|]). exact Had.
Qed.

End DriverBtcRun.

(** * An entry of the BTC driver

    A concrete outside in which the model forecasts a rise, the entry policy admits the
    entry twice and the BTC driver submits it. *)

Import DriverBtcRun DriverScenario.

Module DriverBtcScenario.

Definition btc_tools (n : nat) (tool : string) : res value :=
  if bool_decide (tool = "market.get_quote") then
    payload [("source", VStr "IB"); ("authoritative", VBool true); ("instrument", VStr "BTC.USD"); ("stale", VBool false);
             ("observed_at_ms", VInt 10002000); ("stale_after_ms", VInt 10009000); ("bid", VInt 60000); ("ask", VInt 60001)]
  else crypto_tools n tool.

Definition btc_outside : env := {|
  e_clock l := 10002000 + Z.of_nat (length l);
  e_answer l c :=
    match c with
    | Tool tool _ => btc_tools (submissions l) tool
    | Worker op => Ok (if bool_decide (op = "result") then VDict sample_forecast else if bool_decide (op = "done") then VBool true else VNone)
    | _ => e_answer crypto_outside l c
    end |}.

Definition btc_fresh : dict := match load_state btc_outside true None (mkWorld [] []) with (_, Ok d) => d | _ => [] end.
Definition btc_under_way : locals := mkLocals (Some (mkWorker fzero 10001500)) false.
Definition btc_day : world * locals * res unit :=
  @resident btc_outside (btc_hooks btc_outside sample_start) true [("pid", VInt 1)] 1 1 btc_under_way (mkWorld btc_fresh []).
Definition btc_after : world := btc_day.1.1.

Lemma btc_resident_life E initial c0 identity n rounds l :
  life (btc_run E initial) c0 (@resident E (btc_hooks E initial) true identity n rounds l (mkWorld c0 [])).1.1.
Proof. eapply life_run; [apply life_start|]. eapply btc_resident. apply triple_eta. Qed.
Lemma btc_day_life : life (btc_run btc_outside sample_start) btc_fresh btc_after.
Proof. apply btc_resident_life. Qed.

(** The submission of the day. *)
Definition btc_glance (l : list event) : option (call * value * value) :=
  (fun e => (ev_call e, kind_of (ev_state e), get (pending_of (ev_state e)) "command_id")) <$> l !! 43%nat.
Lemma btc_day_glance : btc_glance (log btc_after) = Some (Command "submit" ["--command-id"; "c1"], VStr "OPEN", VStr "c1").
Proof. vm_compute. reflexivity. Qed.

Lemma btc_glance_split l c k i :
  btc_glance l = Some (c, k, i) ->
  exists l1 e l2, l = l1 ++ e :: l2 /\ ev_call e = c /\ kind_of (ev_state e) = k /\ get (pending_of (ev_state e)) "command_id" = i.
Proof.
  unfold btc_glance. destruct (l !! 43%nat) as [e|] eqn:He; [|done]. intros [= H1 H2 H3]. exists (take 43 l), e, (drop 44 l).
  split; [by apply split_at|done].
Qed.

(** The claim at the day: the submitted entry was admitted. *)
Lemma btc_driver_submits_admitted_witness :
  exists e f q c now bid ask n a, In e (log btc_after) /\ ev_call e = Command "submit" ["--command-id"; "c1"] /\ halted (ev_state e) = false /\
    admitted PRECISION f q c now (VStr "25000") (VStr "c1") bid ask n a.
Proof.
  destruct (btc_glance_split (log btc_after) _ _ _ btc_day_glance) as (l1 & e & l2 & Hl & Hc & Hk & Hi).
  destruct (btc_driver_submits_admitted btc_outside sample_start btc_fresh btc_after l1 e l2 _ btc_day_life Hl Hc Hk)
    as (_ & _ & _ & _ & _ & Hh & _ & l & x & m & q & y & now & c & f & bid & ask & n & a & H).
  exists e, f, q, c, now, bid, ask, n, a. split; [rewrite Hl; apply in_app_iff; right; left; reflexivity|]. split; [exact Hc|]. split; [exact Hh|].
  rewrite <- Hi. apply H.
Defined.
End DriverBtcScenario.
