(* ===== verification/CostCapture.v ===== *)
(** * The capture log

    Model of [research/cost_aware/scripts/hepta_cost_capture.py]: the append-only,
    hash-chained log of quotes, candidates and checks ([Capture]) and its reader
    ([read_capture]), with [strict_loads] and [canonical] of
    [research/cost_aware/scripts/hepta_cost_policy.py] on bytes.  Text is represented by
    its UTF-8 encoding.  What the system calls answer is an argument of each
    operation: the clock, the stat results, the free space, how many bytes each
    [os.write] takes and whether [os.fsync] returns.  [read_capture] is modelled on a
    file that does not change while it is read. *)

From Stdlib Require Import Ascii.
From S2P Require Import Prelude PyText PyValue PyOrder PyBytes Digest PyJson PyJsonFacts PyJsonText CostPolicy.
From stdpp Require Import base tactics list strings.
From Stdlib Require Import ZArith Lia Bool.

Open Scope Z_scope.

Module CostCapture.

Definition cost_error (m : string) : exn := Exn CostError m.
Definition os_error (reason : string) : exn := Exn OSError reason.

Definition SCHEMA : string := "heptatrader.cost-capture.v1".
Definition MAX_FILE_BYTES : Z := 64 * 1024 * 1024.
Definition EVENTS : list string :=
  ["HEADER"; "QUOTE"; "CANDIDATE"; "ENTRY_CHECK"; "EXIT_CHECK"; "SETTLEMENT"; "MODEL_FAILURE"; "SAMPLING_FAILURE"; "MODEL_SLOT_SKIPPED"].
Definition MAX_RECORD_BYTES : Z := 128 * 1024.

(** ** [require_no_reset_hold]

    What [marker.lstat()] answers. *)
Inductive lstat_result := MarkerMissing | MarkerUnreadable | MarkerPresent.

Definition require_no_reset_hold (marker : lstat_result) : res unit :=
  match marker with
  | MarkerMissing => Ok tt
  | MarkerUnreadable => Raise (cost_error "COST_RESET_HOLD_UNREADABLE")
  | MarkerPresent => Raise (cost_error "COST_RESET_HOLD_ACTIVE")
  end.

(** ** [canonical] and [strict_loads] *)

Definition canonical (v : value) : res string :=
  when negb (floats_all finite_float v) raise value_error in dumps v.

Definition unique (items : list (string * value)) : res dict :=
  rfold (fun result kv => when dhas kv.1 result raise cost_error "DUPLICATE_JSON_FIELD" in Ok (dset kv.1 kv.2 result)) items [].
Definition bad (_ : string) : res value := Raise (cost_error "NONFINITE_JSON").

Definition strict_loads (raw : string) : res value := let! text := json_decode raw in loads_with unique bad text.

(** ** [read_capture] *)

Section capture.
Context `{Digest}.

Definition GENESIS : string := srepeat "0" 64.

(** The variables of the loop. *)
Record Chain := mkChain { ch_sequence : Z; ch_previous : string; ch_last_time : Z; ch_events : list dict }.
Definition chain_start : Chain := mkChain 0 GENESIS 0 [].

Definition record_keys : list string := ["schema"; "sequence"; "previous"; "at_ms"; "event"; "data"; "sha256"].
Definition body_of (value : dict) : dict := List.filter (fun kv => negb (bool_decide (kv.1 = "sha256"))) value.

Definition chain_broken (st : Chain) (value : dict) : res bool :=
  let body := body_of value in
  Ok (negb (eq_str (get body "schema") SCHEMA)) ||?
  Ok (match get body "sequence" with VInt n => negb (n =? ch_sequence st) | _ => true end) ||?
  Ok (negb (eq_str (get body "previous") (ch_previous st))) ||?
  (let! text := canonical (VDict body) in Ok (negb (eq_str (get value "sha256") (digest text)))).

Definition header_refused (data : dict) : bool :=
  negb (eq_str (get data "policy_version") CostPolicy.POLICY_VERSION) ||
  negb (in_strs (get data "source_kind") ["IB_CAPTURE"; "SYNTHETIC"]) ||
  negb (in_strs (get data "instrument") ["BTC.USD"; "EUR.USD"]) ||
  negb (is_true (get data "position_neutral_forecasts_required")).

Definition read_record (st : Chain) (line : string) : res Chain :=
  when MAX_RECORD_BYTES <? slen line raise cost_error "CAPTURE_RECORD_TOO_LARGE" in
  let! v := strict_loads line in
  match v with
  | VDict value =>
      when negb (CostPolicy.has_keys value record_keys) raise cost_error "CAPTURE_SCHEMA_INVALID" in
      when! chain_broken st value raise cost_error "CAPTURE_CHAIN_INVALID" in
      match get value "at_ms" with
      | VInt at_ms =>
          when (at_ms <=? 0) || (at_ms <? ch_last_time st) raise cost_error "CAPTURE_CLOCK_REGRESSION" in
          match get value "data" with
          | VDict data =>
              when negb (in_strs (get value "event") EVENTS) raise cost_error "CAPTURE_EVENT_SCHEMA_INVALID" in
              when (ch_sequence st =? 0) && (negb (eq_str (get value "event") "HEADER") || header_refused data)
                raise cost_error "CAPTURE_HEADER_REQUIRED" in
              when negb (ch_sequence st =? 0) && eq_str (get value "event") "HEADER" raise cost_error "CAPTURE_DUPLICATE_HEADER" in
              match get value "sha256" with
              | VStr previous => Ok (mkChain (ch_sequence st + 1) previous at_ms (ch_events st ++ [value]))
              | _ => Raise type_error
              end
          | _ => Raise (cost_error "CAPTURE_EVENT_SCHEMA_INVALID")
          end
      | _ => Raise (cost_error "CAPTURE_CLOCK_REGRESSION")
      end
  | _ => Raise (cost_error "CAPTURE_SCHEMA_INVALID")
  end.

(** A file: [os.fstat] reports its type, and whether it is owned by the user, has one
    link and is closed to others. *)
Record CaptureFile := mkFile { f_regular : bool; f_private : bool; f_data : string }.

Fixpoint ends_with_newline (s : string) : bool :=
  match s with
  | EmptyString => false
  | String c EmptyString => bool_decide (c = nl)
  | String _ r => ends_with_newline r
  end.

Definition read_capture (file : option CaptureFile) : res dict :=
  match file with
  | None => Raise (os_error "FileNotFoundError")
  | Some f =>
      when negb (f_regular f) || (MAX_FILE_BYTES <? slen (f_data f)) raise cost_error "CAPTURE_INPUT_BOUND_OR_TYPE" in
      let raw := f_data f in
      when bool_decide (raw = EmptyString) || negb (ends_with_newline raw) raise cost_error "CAPTURE_TRUNCATED_TAIL" in
      let! st := rfold read_record (splitlines byte_break false raw) chain_start in
      match ch_events st with
      | [] => Raise (Exn IndexError "list index out of range")
      | first :: _ =>
          match get first "data" with
          | VDict data =>
              Ok [("events", VList (map VDict (ch_events st))); ("input_sha256", VStr (digest raw)); ("bytes", VInt (slen raw));
                  ("source_kind", get data "source_kind"); ("complete_prefix", VBool true); ("live_execution_proven", VBool false)]
          | _ => Raise (Exn AttributeError "get")
          end
      end
  end.

(** ** [Capture] *)

Record Capture := mkCapture {
  observation_context : value;
  fd : bool;  (** [self.fd is not None] *)
  sequence : Z;
  previous : string;
  last_time : Z;
  min_free_bytes : Z;
  instrument : value;
  source_kind : value;
  poisoned : bool }.

Definition poison (c : Capture) : Capture :=
  mkCapture (observation_context c) (fd c) (sequence c) (previous c) (last_time c) (min_free_bytes c) (instrument c) (source_kind c) true.
Definition close (c : Capture) : Capture :=
  mkCapture (observation_context c) false (sequence c) (previous c) (last_time c) (min_free_bytes c) (instrument c) (source_kind c) (poisoned c).
Definition advance (c : Capture) (checksum : string) (at_ms : Z) : Capture :=
  mkCapture (observation_context c) (fd c) (sequence c + 1) checksum at_ms (min_free_bytes c) (instrument c) (source_kind c) (poisoned c).

(** What the system answers during one [append]: [now_ms] is
    [int(time.time() * 1000)], [path_info] whether the path still names the opened file
    and a regular file ([None] when [lstat] raises), [file_private] the permissions of
    the opened file, [free_bytes] the free space ([None] when [statvfs] raises),
    [write_at i] the result of the [i]-th [os.write] ([None] when it raises). *)
Record Env := mkEnv {
  now_ms : Z;
  path_info : option (bool * bool);
  file_private : bool;
  free_bytes : option Z;
  write_at : nat -> option Z;
  fsync_ok : bool }.

(** The record of an event: its checksum and its line. *)
Definition record_body (n : Z) (prev event : string) (data : dict) (at_ms : Z) : dict :=
  [("schema", VStr SCHEMA); ("sequence", VInt n); ("previous", VStr prev); ("at_ms", VInt at_ms); ("event", VStr event); ("data", VDict data)].
Definition record_text (n : Z) (prev event : string) (data : dict) (at_ms : Z) : res (string * string) :=
  let body := record_body n prev event data at_ms in
  let! text := canonical (VDict body) in
  let checksum := digest text in
  let! line := canonical (VDict (body ++ [("sha256", VStr checksum)])) in
  Ok (checksum, line +:+ newline).

(** The write loop; [os.write] takes at most what it is given. *)
Fixpoint write_loop (env : Env) (fuel : nat) (i : nat) (raw file : string) : string * res unit :=
  match raw, fuel with
  | EmptyString, _ => (file, Ok tt)
  | _, O => (file, Ok tt)
  | _, S fuel =>
      match write_at env i with
      | None => (file, Raise (os_error "write"))
      | Some written =>
          if written <=? 0 then (file, Raise (os_error "capture short write"))
          else let k := Z.to_nat (Z.min written (slen raw)) in write_loop env fuel (S i) (sdrop k raw) (file +:+ stake k raw)
      end
  end.

(** [append(event, data, at_ms=at_ms)] on the contents [file]: the object, the contents
    and the result.  The lock of [append] serialises its callers. *)
Definition _append_locked (env : Env) (c : Capture) (file : string) (event data at_ms : value) : Capture * string * res string :=
  if negb (fd c) || poisoned c then (c, file, Raise (cost_error "CAPTURE_POISONED"))
  else match event, data with
  | VStr name, VDict d =>
      if negb (in_strs event EVENTS) then (c, file, Raise (cost_error "CAPTURE_EVENT_SCHEMA_INVALID"))
      else if negb (Bool.eqb (sequence c =? 0) (bool_decide (name = "HEADER")))
      then (c, file, Raise (cost_error "CAPTURE_HEADER_ORDER_INVALID"))
      else match (if is_none at_ms then VInt (now_ms env) else at_ms) with
      | VInt t =>
          if (t <=? 0) || (t <? last_time c) then (c, file, Raise (cost_error "CAPTURE_CLOCK_REGRESSION"))
          else match path_info env with
          | None => (c, file, Raise (os_error "lstat"))
          | Some (same, regular) =>
              if negb same || negb regular then (poison c, file, Raise (cost_error "CAPTURE_PATH_REPLACED"))
              else if negb (file_private env) then (poison c, file, Raise (cost_error "CAPTURE_FILE_PERMISSIONS_CHANGED"))
              else match record_text (sequence c) (previous c) name d t with
              | Raise e => (c, file, Raise e)
              | Ok (checksum, raw) =>
                  match free_bytes env with
                  | None => (c, file, Raise (os_error "statvfs"))
                  | Some free =>
                      if (MAX_RECORD_BYTES <? slen raw) || (MAX_FILE_BYTES <? slen file + slen raw)
                      then (c, file, Raise (cost_error "CAPTURE_STORAGE_BOUND"))
                      else if free <? min_free_bytes c + slen raw then (c, file, Raise (cost_error "CAPTURE_DISK_RESERVE"))
                      else match write_loop env (String.length raw) 0 raw file with
                      | (file', Raise e) => (poison c, file', Raise e)
                      | (file', Ok _) =>
                          if negb (fsync_ok env) then (poison c, file', Raise (os_error "fsync"))
                          else (advance c checksum t, file', Ok checksum)
                      end
                  end
              end
          end
      | _ => (c, file, Raise (cost_error "CAPTURE_CLOCK_REGRESSION"))
      end
  | _, _ => (c, file, Raise (cost_error "CAPTURE_EVENT_SCHEMA_INVALID"))
  end.

(** What the system answers during [Capture(path, ...)]: [parent_made] whether the
    directory could be created, [parent_private] its permissions, [opened] whether the
    file could be opened, [locked] whether the lock was free, [parent_synced] whether the
    directory could be synchronised. *)
Record OpenEnv := mkOpenEnv {
  parent_made : bool;
  parent_private : bool;
  opened : bool;
  locked : bool;
  parent_synced : bool }.

Definition header_of (instr kind context : value) : dict :=
  [("instrument", instr); ("source_kind", kind); ("policy_version", VStr CostPolicy.POLICY_VERSION);
   ("position_neutral_forecasts_required", VBool true)] ++
  (if is_none context then [] else [("observation_context", context)]).

Definition new_capture (instr kind : value) (min_free : Z) (context : value) : Capture :=
  mkCapture context true 0 GENESIS 0 min_free instr kind false.

(** The object that continues a capture that was read. *)
Definition resume (c : Capture) (old : dict) : res Capture :=
  match get old "events" with
  | VList ((VDict first :: _) as events) =>
      match get first "data" with
      | VDict header =>
          when negb (py_eq (get header "observation_context") (observation_context c)) raise cost_error "CAPTURE_RESET_CYCLE_MISMATCH" in
          when negb (py_eq (get header "instrument") (instrument c)) || negb (py_eq (get header "source_kind") (source_kind c))
            raise cost_error "CAPTURE_SCOPE_CHANGED" in
          match last events with
          | Some (VDict e) =>
              match get e "sequence", get e "sha256", get e "at_ms" with
              | VInt n, VStr sum, VInt t =>
                  Ok (mkCapture (observation_context c) (fd c) (n + 1) sum t (min_free_bytes c) (instrument c) (source_kind c) (poisoned c))
              | _, _, _ => Raise type_error
              end
          | _ => Raise type_error
          end
      | _ => Raise type_error
      end
  | _ => Raise type_error
  end.

Definition context_refused (context : value) : bool :=
  match context with
  | VNone => false
  | VDict d => negb (eq_str (get d "mode") "WATCH") || negb (is_false (get d "broker_mutation_authorized"))
  | _ => true
  end.

(** [Capture.__init__]: the file afterwards and the object, or the exception after the
    file was closed. *)
Definition open_capture (o : OpenEnv) (env : Env) (file : option CaptureFile) (instr kind : value) (min_free : Z) (context : value)
    : option CaptureFile * res Capture :=
  if negb (in_strs kind ["IB_CAPTURE"; "SYNTHETIC"]) || negb (in_strs instr ["BTC.USD"; "EUR.USD"])
  then (file, Raise (cost_error "CAPTURE_SOURCE_KIND_INVALID"))
  else if context_refused context then (file, Raise (cost_error "CAPTURE_OBSERVATION_CONTEXT_INVALID"))
  else if negb (parent_made o) then (file, Raise (os_error "mkdir"))
  else if negb (parent_private o) then (file, Raise (cost_error "CAPTURE_DIRECTORY_UNSAFE"))
  else if negb (opened o) then (file, Raise (os_error "open"))
  else
    let f := match file with Some f => f | None => mkFile true true EmptyString end in
    let c := new_capture instr kind min_free context in
    if negb (f_regular f) || negb (f_private f) then (Some f, Raise (cost_error "CAPTURE_FILE_UNSAFE"))
    else if negb (locked o) then (Some f, Raise (os_error "flock"))
    else if negb (slen (f_data f) =? 0) then (Some f, let! old := read_capture (Some f) in resume c old)
    else
      let '(c', data, r) := _append_locked env c (f_data f) (VStr "HEADER") (VDict (header_of instr kind context)) (VInt 1) in
      (Some (mkFile true true data),
       match r with
       | Raise e => Raise e
       | Ok _ => when negb (parent_synced o) raise os_error "fsync" in Ok c'
       end).

(** ** Histories

    The life of a capture file: objects are created, append, are closed or lost with
    their process, and are created again.  [requested] are the events that callers asked
    to record, [acknowledged] those whose [append] returned a checksum. *)
Definition entry : Type := string * dict * Z.

Definition entry_time (env : Env) (at_ms : value) : Z :=
  match (if is_none at_ms then VInt (now_ms env) else at_ms) with VInt t => t | _ => 0 end.

Definition file_data (file : option CaptureFile) : string := match file with Some f => f_data f | None => EmptyString end.

Inductive history : list entry -> list entry -> option CaptureFile -> option Capture -> Prop :=
| h_start : history [] [] None None
| h_open requested acknowledged file o env instr kind min_free context file' r :
    history requested acknowledged file None ->
    open_capture o env file instr kind min_free context = (file', r) ->
    history
      (if slen (file_data file) =? 0 then requested ++ [("HEADER", header_of instr kind context, 1)] else requested)
      (if (slen (file_data file) =? 0) && is_ok r then acknowledged ++ [("HEADER", header_of instr kind context, 1)] else acknowledged)
      file' (match r with Ok c => Some c | Raise _ => None end)
| h_append requested acknowledged f c env event data at_ms c' data' r :
    history requested acknowledged (Some f) (Some c) ->
    _append_locked env c (f_data f) (VStr event) (VDict data) at_ms = (c', data', r) ->
    history (requested ++ [(event, data, entry_time env at_ms)])
      (if is_ok r then acknowledged ++ [(event, data, entry_time env at_ms)] else acknowledged)
      (Some (mkFile (f_regular f) (f_private f) data')) (Some c')
| h_close requested acknowledged file c :
    history requested acknowledged file (Some c) -> history requested acknowledged file (Some (close c))
| h_lost requested acknowledged file c :
    history requested acknowledged file (Some c) -> history requested acknowledged file None.

End capture.
End CostCapture.
