(* ===== verification/CostCaptureFacts.v ===== *)
(** * What a capture log guarantees

    Every history of a capture file, with partial writes, failed synchronisations, lost
    processes and reopened files, leaves a file that reads back as the acknowledged
    events in order, possibly with events whose append failed in doubt, or a file with a
    torn last record that the reader refuses.  An accepted log is a hash chain: two logs
    with the same head are the same log, or exhibit two texts with one digest. *)

From Stdlib Require Import Ascii Floats.SpecFloat.
From S2P Require Import Prelude PyText PyValue RowMonad PyOrder PyBytes Digest PyJson PyJsonFacts PyJsonText CostPolicy CostCapture.
From stdpp Require Import base tactics list strings.
From Stdlib Require Import ZArith Lia Bool Permutation.
Import CostCapture.

Open Scope Z_scope.

Module CostCaptureFacts.

(** ** Canonical text *)

Lemma exact_finite f : exact_float f = true -> finite_float f = true.
Proof. unfold exact_float. by intros [H _]%andb_prop. Qed.

Lemma floats_impl (p q : spec_float -> bool) v : (forall f, p f = true -> q f = true) -> floats_all p v = true -> floats_all q v = true.
Proof.
  intros Hpq. induction v as [|b|z|f|d|t|l IH|d IH] using value_nested_ind; try done; [apply Hpq| |]; cbn [floats_all];
    rewrite !forallb_forall; rewrite List.Forall_forall in IH; auto.
Qed.

Lemma like_exact v v' : like v v' -> floats_all exact_float v = true -> floats_all exact_float v' = true.
Proof.
  revert v'. induction v as [|b|z|f|d|t|l IH|d IH] using value_nested_ind; intros v' Hl Hx;
    inversion Hl as [| | |? ? Hg| |? l' Hll|? ds d' Hpd Hd']; subst; try done; cbn [floats_all] in *.
  - by rewrite (Hg Hx).
  - clear Hl. induction Hll as [|x x' l l' Hxx _ IHl]; [done|]. cbn [forallb] in *. apply andb_prop in Hx as [Hx Hxs].
    inversion IH as [|? ? Hi Hr]; subst. by rewrite (Hi _ Hxx Hx), (IHl Hr Hxs).
  - rewrite forallb_forall in Hx |- *. rewrite List.Forall_forall in IH. intros kv Hin. apply list_elem_of_In, list_elem_of_lookup in Hin as [i Hi].
    destruct (Forall2_lookup_r _ _ _ _ _ Hd' Hi) as (kv0 & H0 & _ & Hkv).
    assert (Hin0 : In kv0 d).
    { eapply Permutation_in; [exact Hpd|]. apply list_elem_of_In. by eapply list_elem_of_lookup_2. }
    by apply (IH kv0 Hin0), Hx.
Qed.

Lemma canonical_like v v' s :
  json_ok v = true -> floats_all exact_float v = true -> canonical v = Ok s -> like v v' -> canonical v' = Ok s.
Proof.
  unfold canonical. intros Hok Hx H Hl. apply when_ok in H as [_ H]. rewrite (floats_impl exact_float) by (apply exact_finite || by eapply like_exact).
  simpl. by eapply dumps_like.
Qed.

Lemma canonical_dumps v s : canonical v = Ok s -> dumps v = Ok s.
Proof. unfold canonical. intros H. by apply when_ok in H as [_ H]. Qed.

Lemma unique_distinct kvs : List.NoDup (map fst kvs) -> unique kvs = Ok kvs.
Proof.
  unfold unique. enough (Hg : forall d, List.NoDup (map fst (d ++ kvs)) ->
    rfold (fun result kv => when dhas kv.1 result raise cost_error "DUPLICATE_JSON_FIELD" in Ok (dset kv.1 kv.2 result)) kvs d = Ok (d ++ kvs)) by apply (Hg []).
  induction kvs as [|[k v] kvs IH]; intros d Hnd; cbn [rfold]; [by rewrite app_nil_r|]. cbn [fst snd].
  assert (Hk : ~ In k (map fst d)).
  { rewrite map_app in Hnd. apply List.NoDup_remove_2 in Hnd. intros Hin. apply Hnd, in_or_app. by left. }
  assert (dhas k d = false) as ->.
  { destruct (dhas k d) eqn:E; [|done]. by apply dhas_In in E. }
  simpl. assert (dset k v d = d ++ [(k, v)]) as ->.
  { apply (foldl_dset_distinct [(k, v)] d). apply (NoDup_app_remove_r _ (map fst kvs)). rewrite <- map_app, <- app_assoc. exact Hnd. }
  rewrite IH; [by rewrite <- app_assoc|]. by rewrite <- app_assoc.
Qed.

(** A canonical text is one printable line that the strict reader reads back. *)
Lemma strict_loads_canonical v s :
  json_ok v = true -> floats_all exact_float v = true -> canonical v = Ok s ->
  sforall printable s = true /\ exists v', strict_loads s = Ok v' /\ like v v'.
Proof.
  intros Hok Hx Hs. apply canonical_dumps in Hs. assert (Hp := dumps_printable v s Hok Hs). split; [done|].
  unfold strict_loads. rewrite json_decode_printable by done. cbn [rbind]. rewrite <- (append_nil_r s).
  apply (loads_dumps unique bad) with (nan_allowed := false); [apply unique_distinct|done| |done|done|by left].
  eapply floats_impl; [|exact Hx]. intros f Hf. unfold readable_float. by rewrite exact_finite.
Qed.

(** ** One record *)

Definition recordable (data : dict) : bool := json_ok (VDict data) && floats_all exact_float (VDict data).

Lemma filter_members_perm (p : string * value -> bool) l l' : Permutation l l' -> Permutation (List.filter p l) (List.filter p l').
Proof.
  induction 1 as [|x l l' _ IH|x y l|l l' l'' _ IH1 _ IH2]; simpl; [done| | |by etransitivity].
  - destruct (p x); [by constructor|done].
  - destruct (p x), (p y); try done. constructor.
Qed.

Lemma like_filter (p : string -> bool) d d' :
  like (VDict d) (VDict d') -> like (VDict (List.filter (fun kv => p kv.1) d)) (VDict (List.filter (fun kv => p kv.1) d')).
Proof.
  inversion 1 as [| | | | | |? ds ? Hp Hf]; subst. econstructor; [by apply filter_members_perm|].
  clear -Hf. induction Hf as [|[k x] [k' x'] l l' [Ek Hx] _ IH]; [done|]. simpl in *. subst k'. destruct (p k); [by constructor|done].
Qed.

Lemma like_keys d d' : like (VDict d) (VDict d') -> Permutation (map fst d') (map fst d).
Proof.
  inversion 1 as [| | | | | |? ds ? Hp Hf]; subst. rewrite <- Hp. clear -Hf.
  induction Hf as [|a b l l' [E _] _ IH]; [done|]. simpl. by rewrite IH, E.
Qed.

Lemma has_keys_perm d keys : Permutation (map fst d) keys -> CostPolicy.has_keys d keys = true.
Proof.
  intros Hp. unfold CostPolicy.has_keys. apply andb_true_intro. split; apply forallb_forall; intros k Hk.
  - apply existsb_exists. exists k. split; [by apply (Permutation_in _ Hp)|by apply bool_decide_eq_true].
  - apply dhas_In. by apply (Permutation_in _ (Permutation_sym Hp)).
Qed.

Lemma lower_hex_utf8 s : sforall is_lower_hex s = true -> utf8_ok s = true.
Proof.
  intros H. apply ascii_utf8. eapply sforall_impl; [|exact H]. intros c Hc. unfold is_lower_hex in Hc. unfold is_ascii. apply Z.ltb_lt.
  apply orb_prop in Hc as [Hc|Hc]; split_bools; lia.
Qed.

Lemma append_newline_inj a b : a +:+ newline = b +:+ newline -> a = b.
Proof.
  revert b. induction a as [|c a IH]; intros [|c' b]; [done| | |].
  - intros [= _ E]. by destruct b.
  - intros [= _ E]. by destruct a.
  - rewrite !append_cons. intros [= -> E]. f_equal. by apply IH.
Qed.

Section capture.
Context `{Digest}.

Definition full_record (n : Z) (prev event : string) (data : dict) (t : Z) (sum : string) : dict :=
  record_body n prev event data t ++ [("sha256", VStr sum)].

Lemma full_record_ok n prev event data t sum :
  recordable data = true -> In event EVENTS -> sforall is_lower_hex prev = true -> sforall is_lower_hex sum = true ->
  json_ok (VDict (full_record n prev event data t sum)) = true /\
  floats_all exact_float (VDict (full_record n prev event data t sum)) = true /\
  json_ok (VDict (record_body n prev event data t)) = true /\ floats_all exact_float (VDict (record_body n prev event data t)) = true.
Proof.
  intros [Hd Hx]%andb_prop He Hp Hs. apply lower_hex_utf8 in Hp, Hs.
  assert (Hev : utf8_ok event = true) by (unfold EVENTS in He; repeat destruct He as [<-|He]; done).
  unfold full_record, record_body. cbn [app].
  repeat split; cbn [json_ok floats_all forallb fst snd]; cbn [json_ok floats_all] in Hd, Hx; rewrite ?Hp, ?Hs, ?Hev, ?Hd, ?Hx; done.
Qed.

(** What an event of a capture says about the entry it records. *)
Definition recorded (e : entry) (ev : dict) : Prop :=
  get ev "event" = VStr e.1.1 /\ get ev "at_ms" = VInt e.2 /\ exists d, get ev "data" = VDict d /\ like (VDict e.1.2) (VDict d).

Lemma record_text_inv n prev event data t sum raw :
  record_text n prev event data t = Ok (sum, raw) ->
  exists text line, canonical (VDict (record_body n prev event data t)) = Ok text /\ sum = digest text /\
    canonical (VDict (full_record n prev event data t sum)) = Ok line /\ raw = line +:+ newline.
Proof. unfold record_text, full_record. intros Hr. inv_ok Hr. simplify_eq. eauto 10. Qed.

Lemma header_like data d : recordable data = true -> like (VDict data) (VDict d) -> header_refused data = false -> header_refused d = false.
Proof.
  intros [Hok _]%andb_prop Hl. apply json_ok_dict in Hok as [Hnd _].
  assert (Hget : forall k v, get data k = v -> scalar v = true -> v <> VNone -> get d k = v).
  { intros k v Hv Hs Hn. unfold get, getd, dget_or in *. destruct (dget k data) as [w|] eqn:E; [|congruence]. subst w.
    by rewrite (like_scalar_field data d k v). }
  unfold header_refused. intros Hh. rewrite !orb_false_iff, !negb_false_iff in Hh. destruct Hh as [[[Hv Hk] Hi] Hp].
  assert (Hin : forall v l, in_strs v l = true -> exists s, v = VStr s).
  { intros v l Hv'. apply existsb_exists in Hv' as (s & _ & E). destruct v; try done. by eexists. }
  destruct (Hin _ _ Hk) as [k Ek], (Hin _ _ Hi) as [i Ei]. apply eq_str_true in Hv. apply is_true_eq in Hp.
  rewrite (Hget "policy_version" _ Hv), (Hget "source_kind" _ Ek), (Hget "instrument" _ Ei), (Hget "position_neutral_forecasts_required" _ Hp) by done.
  rewrite Ek in Hk. rewrite Ei in Hi. rewrite Hk, Hi. by rewrite eq_str_refl.
Qed.

(** A record that was written is read as the next one of its chain. *)
Lemma read_written n prev last evs event data t sum line :
  recordable data = true -> In event EVENTS -> sforall is_lower_hex prev = true -> (n = 0 <-> event = "HEADER") ->
  (n = 0 -> header_refused data = false) -> 0 < t -> last <= t -> slen line <= MAX_RECORD_BYTES ->
  record_text n prev event data t = Ok (sum, line +:+ newline) ->
  sforall printable line = true /\
  exists ev, read_record (mkChain n prev last evs) line = Ok (mkChain (n + 1) sum t (evs ++ [ev])) /\ recorded (event, data, t) ev /\
    get ev "sequence" = VInt n /\ get ev "sha256" = VStr sum.
Proof.
  intros Hd He Hp Hn0 Hh Ht Hlt Hlen Hr. destruct (record_text_inv _ _ _ _ _ _ _ Hr) as (text & line' & Htext & Hsum & Hline & E).
  apply append_newline_inj in E. subst line'. assert (Hs : sforall is_lower_hex sum = true) by (subst sum; apply digest_hex).
  destruct (full_record_ok n prev event data t sum Hd He Hp Hs) as (Hok & Hx & Hbok & Hbx).
  destruct (strict_loads_canonical _ _ Hok Hx Hline) as (Hpr & v & Hv & Hl). split; [done|].
  destruct (like_dict_inv _ _ Hl) as (ev & -> & _). apply json_ok_dict in Hok as [Hnd _]. exists ev.
  assert (Hget : forall k w, dget k (full_record n prev event data t sum) = Some w -> scalar w = true -> get ev k = w).
  { intros k w Hw Hsc. apply (dget_get ev k w). by apply (like_scalar_field (full_record n prev event data t sum)). }
  assert (Hbody : like (VDict (record_body n prev event data t)) (VDict (body_of ev))) by exact (like_filter (fun k => negb (bool_decide (k = "sha256"))) _ _ Hl).
  apply json_ok_dict in Hbok as Hbnd. destruct Hbnd as [Hbnd _].
  assert (Hbget : forall k w, dget k (record_body n prev event data t) = Some w -> scalar w = true -> get (body_of ev) k = w).
  { intros k w Hw Hsc. apply (dget_get (body_of ev) k w). by apply (like_scalar_field (record_body n prev event data t)). }
  destruct (like_field _ _ "data" (VDict data) Hnd Hl eq_refl) as (dv & Hdv & Hdl).
  destruct (like_dict_inv _ _ Hdl) as (d' & -> & _). apply dget_get in Hdv as [Hdv _].
  assert (Hev : get ev "event" = VStr event) by (by apply Hget). assert (Hat : get ev "at_ms" = VInt t) by (by apply Hget).
  assert (Hsha : get ev "sha256" = VStr sum) by (by apply Hget). assert (Hseq : get ev "sequence" = VInt n) by (by apply Hget).
  split; [|split; [by repeat split; [..|exists d']|by split]].
  unfold read_record. rewrite (proj2 (Z.ltb_ge _ _)) by done. rewrite Hv. cbn [rbind].
  rewrite (has_keys_perm ev record_keys) by (apply (like_keys _ _ Hl)). cbn [negb].
  assert (chain_broken (mkChain n prev last evs) ev = Ok false) as ->.
  { unfold chain_broken. rewrite (canonical_like _ _ _ Hbok Hbx Htext Hbody).
    rewrite (Hbget "schema" (VStr SCHEMA)), (Hbget "sequence" (VInt n)), (Hbget "previous" (VStr prev)) by done.
    rewrite Hsha, Hsum. cbn [ch_sequence ch_previous rbind por]. by rewrite !eq_str_refl, Z.eqb_refl. }
  cbn [rbind]. rewrite Hat, Hdv, Hev, Hsha. cbn [ch_last_time ch_sequence ch_events].
  rewrite (proj2 (Z.leb_gt _ _)), (proj2 (Z.ltb_ge _ _)) by lia. cbn [orb].
  assert (in_strs (VStr event) EVENTS = true) as ->.
  { apply existsb_exists. exists event. split; [done|apply eq_str_refl]. }
  cbn [negb]. destruct (Z.eqb_spec n 0) as [E0|E0]; cbn [andb negb].
  - rewrite (proj1 Hn0 E0), eq_str_refl, (header_like data d') by auto. done.
  - assert (eq_str (VStr event) "HEADER" = false) as ->; [|done]. simpl. apply bool_decide_eq_false. tauto.
Qed.

(** ** Chains *)

(** The entries of a log, its lines, and the object that would continue it: its next
    sequence number, the checksum of the last record and its time. *)
Inductive chained : list entry -> list string -> Z -> string -> Z -> Prop :=
| chained_nil : chained [] [] 0 GENESIS 0
| chained_snoc L lines n prev last event data t sum line :
    chained L lines n prev last ->
    recordable data = true -> In event EVENTS -> (n = 0 <-> event = "HEADER") -> (n = 0 -> header_refused data = false) ->
    0 < t -> last <= t -> slen line <= MAX_RECORD_BYTES ->
    record_text n prev event data t = Ok (sum, line +:+ newline) ->
    chained (L ++ [(event, data, t)]) (lines ++ [line]) (n + 1) sum t.

Lemma chained_previous L lines n prev last : chained L lines n prev last -> sforall is_lower_hex prev = true /\ 0 <= n /\ n = Z.of_nat (length L).
Proof.
  induction 1 as [|L lines n prev last event data t sum line _ [_ [IHn IHL]] Hd He Hn0 Hh Ht Hl Hlen Hr]; [done|].
  destruct (record_text_inv _ _ _ _ _ _ _ Hr) as (text & line' & _ & -> & _). split; [apply digest_hex|].
  rewrite length_app. simpl. lia.
Qed.

Definition file_text (lines : list string) : string := concat_text (map (fun l => l +:+ newline) lines).

Definition ends_at (n : Z) (sum : string) (t : Z) (evs : list dict) : Prop :=
  match list.last evs with
  | None => n = 0
  | Some e => get e "sequence" = VInt (n - 1) /\ get e "sha256" = VStr sum /\ get e "at_ms" = VInt t
  end.

Lemma read_chained L lines n prev last :
  chained L lines n prev last ->
  Forall (fun l => sforall printable l = true) lines /\
  exists evs, rfold read_record lines chain_start = Ok (mkChain n prev last evs) /\ Forall2 recorded L evs /\ ends_at n prev last evs.
Proof.
  induction 1 as [|L lines n prev last event data t sum line Hc [IHp (evs & IHr & IHf & _)] Hd He Hn0 Hh Ht Hl Hlen Hr].
  { split; [constructor|]. by exists []. }
  destruct (chained_previous _ _ _ _ _ Hc) as [Hprev _].
  destruct (read_written n prev last evs event data t sum line) as (Hp & ev & Hread & Hrec & Hseq & Hsha); try done.
  split; [apply List.Forall_app; by repeat constructor|]. exists (evs ++ [ev]). rewrite rfold_app, IHr. cbn [rbind rfold].
  rewrite Hread. split; [done|]. split; [apply Forall2_app; [done|by constructor]|]. unfold ends_at. rewrite last_snoc.
  destruct Hrec as (_ & Hat & _). by replace (n + 1 - 1) with n by lia.
Qed.

(** ** Files *)

Lemma newline_end s : ends_with_newline (s +:+ newline) = true.
Proof.
  induction s as [|c s IH]; [by apply bool_decide_eq_true|]. rewrite append_cons. destruct s as [|c' s]; [exact IH|].
  rewrite append_cons in IH |- *. exact IH.
Qed.

Lemma torn_end s torn : torn <> EmptyString -> no_char nl torn = true -> ends_with_newline (s +:+ torn) = false.
Proof.
  intros Hne Hn. assert (Ht : ends_with_newline torn = false).
  { clear s. induction torn as [|c t IH]; [done|]. unfold no_char in Hn. cbn [sforall] in Hn. apply andb_prop in Hn as [Hc Hn].
    destruct t as [|c' t]; [by apply negb_true_iff in Hc|]. apply IH; done. }
  induction s as [|c s IH]; [by rewrite append_nil_l|]. rewrite append_cons. destruct (s +:+ torn) as [|c' r] eqn:E; [|exact IH].
  destruct s; [by rewrite append_nil_l in E|done].
Qed.

Lemma file_text_snoc lines line : file_text (lines ++ [line]) = file_text lines +:+ line +:+ newline.
Proof. unfold file_text. rewrite map_app, concat_text_app. simpl. by rewrite append_nil_r. Qed.

Lemma file_text_end lines : lines <> [] -> file_text lines <> EmptyString /\ ends_with_newline (file_text lines) = true.
Proof.
  destruct lines as [|line lines] using rev_ind; [done|]. intros _. rewrite file_text_snoc, <- append_assoc. split; [|apply newline_end].
  destruct (file_text lines +:+ line); done.
Qed.

(** The reader accepts the text of a chain and refuses a torn one. *)
Lemma read_file L lines n prev last torn f :
  chained L lines n prev last -> f_regular f = true -> slen (f_data f) <= MAX_FILE_BYTES ->
  f_data f = file_text lines +:+ torn -> no_char nl torn = true ->
  (torn = EmptyString /\ L <> [] /\ exists report evs, read_capture (Some f) = Ok report /\
     get report "events" = VList (map VDict evs) /\ Forall2 recorded L evs /\ ends_at n prev last evs) \/
  ((torn <> EmptyString \/ L = []) /\ read_capture (Some f) = Raise (cost_error "CAPTURE_TRUNCATED_TAIL")).
Proof.
  intros Hc Hreg Hsize Hdata Htorn. destruct (read_chained _ _ _ _ _ Hc) as (Hp & evs & Hread & Hrec & Hend).
  unfold read_capture. rewrite Hreg, (proj2 (Z.ltb_ge _ _)) by done. cbn [negb orb].
  destruct (decide (torn = EmptyString)) as [->|Hne].
  - rewrite append_nil_r in Hdata. destruct L as [|e L].
    { right. split; [by right|]. inversion Hc; subst; [by rewrite Hdata|by destruct L]. }
    left. split; [done|]. split; [done|]. assert (Hlines : lines <> []).
    { intros ->. inversion Hc. by destruct lines. }
    destruct (file_text_end lines Hlines) as [Hnil Hnl]. rewrite Hdata, Hnl, bool_decide_eq_false_2 by done. cbn [negb orb].
    unfold file_text at 1. rewrite splitlines_lines; [|done|].
    2: { eapply List.Forall_impl; [|exact Hp]. intros l Hl. eapply sforall_impl; [|exact Hl]. apply printable_no_break. }
    rewrite map_id, Hread. cbn [rbind ch_events]. inversion Hrec as [|? ev ? evs' Hr]; subst. destruct Hr as (_ & _ & d & Hd & _).
    rewrite Hd. eexists _, _. by repeat split.
  - right. split; [by left|]. rewrite Hdata, torn_end by done. by rewrite orb_true_r.
Qed.

Lemma length_sdrop k s : String.length (sdrop k s) = (String.length s - k)%nat.
Proof. revert k; induction s as [|c s IH]; intros [|k]; simpl; auto. Qed.

Lemma stake_add k j s : stake (k + j) s = stake k s +:+ stake j (sdrop k s).
Proof. revert s; induction k as [|k IH]; intros [|c s]; [done|done|by destruct j|]. cbn [Nat.add stake sdrop]. rewrite append_cons. by rewrite IH. Qed.

Lemma write_loop_spec env fuel i raw file file' r :
  (String.length raw <= fuel)%nat -> write_loop env fuel i raw file = (file', r) ->
  (r = Ok tt /\ file' = file +:+ raw) \/ (is_ok r = false /\ exists k, (k < String.length raw)%nat /\ file' = file +:+ stake k raw).
Proof.
  revert i raw file. induction fuel as [|fuel IH]; intros i raw file Hf Hw; destruct raw as [|c raw]; simpl in Hf; try lia;
    cbn [write_loop] in Hw.
  1-2: injection Hw as <- <-; left; by rewrite append_nil_r.
  set (s := String c raw) in *. destruct (write_at env i) as [w|]; [|injection Hw as <- <-; right; split; [done|]; exists 0%nat; split; [simpl; lia|by rewrite append_nil_r]].
  destruct (Z.leb_spec w 0) as [Hw0|Hw0].
  { injection Hw as <- <-. right. split; [done|]. exists 0%nat. split; [simpl; lia|by rewrite append_nil_r]. }
  set (k := Z.to_nat (Z.min w (slen s))) in *. assert (Hk : (1 <= k <= String.length s)%nat).
  { unfold k. rewrite slen_length. assert (0 < Z.of_nat (String.length s)) by (simpl; lia). lia. }
  assert (Hlen : String.length (sdrop k s) = (String.length s - k)%nat) by apply length_sdrop.
  apply IH in Hw; [|rewrite Hlen; simpl in *; lia].
  destruct Hw as [[-> ->]|(Hr & j & Hj & ->)].
  - left. split; [done|]. by rewrite append_assoc, stake_sdrop.
  - right. split; [done|]. exists (k + j)%nat. split; [lia|]. by rewrite append_assoc, stake_add.
Qed.

(** ** One [append] *)

(** It was refused and left the file alone, or it started to write the next record of
    the chain: it was written whole and acknowledged, whole but in doubt, or torn. *)
Lemma append_cases env c file event data at_ms c' file' r :
  _append_locked env c file (VStr event) (VDict data) at_ms = (c', file', r) ->
  (file' = file /\ is_ok r = false /\ (c' = c \/ c' = poison c)) \/
  exists sum line, let t := entry_time env at_ms in
    fd c = true /\ poisoned c = false /\ In event EVENTS /\ (sequence c = 0 <-> event = "HEADER") /\ 0 < t /\ last_time c <= t /\
    record_text (sequence c) (previous c) event data t = Ok (sum, line +:+ newline) /\ slen line <= MAX_RECORD_BYTES /\
    slen file + slen (line +:+ newline) <= MAX_FILE_BYTES /\
    ((file' = file +:+ line +:+ newline /\ ((is_ok r = true /\ c' = advance c sum t) \/ (is_ok r = false /\ c' = poison c))) \/
     (is_ok r = false /\ c' = poison c /\ exists k, (k <= String.length line)%nat /\ file' = file +:+ stake k line)).
Proof.
  unfold _append_locked. destruct (negb (fd c) || poisoned c) eqn:Ho; [left; by simplify_eq; eauto|].
  apply orb_false_iff in Ho as [Ho%negb_false_iff Hp].
  destruct (in_strs (VStr event) EVENTS) eqn:He; cbn [negb]; [|left; by simplify_eq; eauto].
  destruct (Bool.eqb (sequence c =? 0) (bool_decide (event = "HEADER"))) eqn:Hh; cbn [negb]; [|left; by simplify_eq; eauto].
  unfold entry_time. destruct (if is_none at_ms then _ else _) as [| |t| | | | |]; try (left; by simplify_eq; eauto).
  destruct ((t <=? 0) || (t <? last_time c)) eqn:Ht; [left; by simplify_eq; eauto|]. apply orb_false_iff in Ht as [Ht0%Z.leb_gt Ht1%Z.ltb_ge].
  destruct (path_info env) as [[same regular]|]; [|left; by simplify_eq; eauto].
  destruct (negb same || negb regular); [left; by simplify_eq; eauto|].
  destruct (file_private env); cbn [negb]; [|left; by simplify_eq; eauto].
  destruct (record_text _ _ _ _ _) as [[sum raw]|e] eqn:Hr; [|left; by simplify_eq; eauto].
  destruct (free_bytes env) as [free|]; [|left; by simplify_eq; eauto].
  destruct ((MAX_RECORD_BYTES <? slen raw) || (MAX_FILE_BYTES <? slen file + slen raw)) eqn:Hb; [left; by simplify_eq; eauto|].
  apply orb_false_iff in Hb as [Hb1%Z.ltb_ge Hb2%Z.ltb_ge]. destruct (free <? _); [left; by simplify_eq; eauto|].
  destruct (record_text_inv _ _ _ _ _ _ _ Hr) as (text & line & _ & _ & _ & ->). intros Ha. right. exists sum, line. cbv zeta.
  assert (HeE : In event EVENTS) by (apply existsb_exists in He as (x & Hin & E%eq_str_true); by injection E as ->).
  assert (HhE : sequence c = 0 <-> event = "HEADER").
  { apply Bool.eqb_prop in Hh. rewrite <- Z.eqb_eq, Hh. apply bool_decide_eq_true. }
  assert (Hlen : slen (line +:+ newline) = slen line + 1) by apply slen_app.
  repeat (split; [first [exact Ho|exact Hp|exact HeE|exact HhE|exact Ht0|exact Ht1|reflexivity|exact Hb2|lia]|]).
  destruct (write_loop env _ 0 _ file) as [f1 r1] eqn:Ew. apply write_loop_spec in Ew; [|done].
  destruct Ew as [[-> ->]|(Hr1 & k & Hk & ->)].
  - left. destruct (fsync_ok env); cbn [negb] in Ha; simplify_eq; eauto.
  - right. destruct r1 as [|e1]; [done|]. simplify_eq. split; [done|]. split; [done|]. exists k.
    assert (Hl : String.length (line +:+ newline) = S (String.length line)).
    { pose proof (slen_length (line +:+ newline)). pose proof (slen_length line). lia. }
    split; [lia|]. f_equal. rewrite Hl in Hk. clear -Hk. revert k Hk. induction line as [|a line IH]; intros [|k] Hk; simpl in *; try done; [lia|].
    f_equal. apply IH. lia.
Qed.

(** ** The invariant of a history *)

Record log_inv (requested acknowledged : list entry) (file : option CaptureFile) (cap : option Capture)
    (L : list entry) (lines : list string) (n : Z) (prev : string) (last : Z) (torn : string) : Prop := {
  li_chain : chained L lines n prev last;
  li_data : file_data file = file_text lines +:+ torn;
  li_torn : no_char nl torn = true;
  li_size : slen (file_data file) <= MAX_FILE_BYTES;
  li_acknowledged : sublist acknowledged L;
  li_requested : sublist L requested;
  li_regular : forall f, file = Some f -> f_regular f = true;
  li_object : forall c, cap = Some c -> fd c = true -> poisoned c = false ->
    is_Some file /\ torn = EmptyString /\ L <> [] /\ sequence c = n /\ previous c = prev /\ last_time c = last }.

Lemma sublist_snoc {A} (l l' : list A) x : sublist l l' -> sublist l (l' ++ [x]).
Proof. intros Hl. rewrite <- (app_nil_r l). apply sublist_app; [done|]. apply sublist_nil_l. Qed.

Lemma sublist_both {A} (l l' : list A) x : sublist l l' -> sublist (l ++ [x]) (l' ++ [x]).
Proof. intros Hl. by apply sublist_app. Qed.

Lemma printable_no_nl s : sforall printable s = true -> no_char nl s = true.
Proof.
  intros Hs. eapply sforall_impl; [|exact Hs]. intros c Hc. apply negb_true_iff, bool_decide_eq_false. intros ->. by vm_compute in Hc.
Qed.

(** An [append] to a log that is not torn keeps the invariant, and the object stays at
    its end as long as it accepts events. *)
Lemma append_keeps requested acknowledged f c L lines n prev last env event data at_ms c' data' r :
  log_inv requested acknowledged (Some f) None L lines n prev last EmptyString ->
  (fd c = true -> poisoned c = false -> sequence c = n /\ previous c = prev /\ last_time c = last) ->
  recordable data = true -> (n = 0 -> event = "HEADER" -> header_refused data = false) ->
  _append_locked env c (f_data f) (VStr event) (VDict data) at_ms = (c', data', r) ->
  exists L' lines' n' prev' last' torn',
    log_inv (requested ++ [(event, data, entry_time env at_ms)])
      (if is_ok r then acknowledged ++ [(event, data, entry_time env at_ms)] else acknowledged)
      (Some (mkFile (f_regular f) (f_private f) data')) None L' lines' n' prev' last' torn' /\
    (fd c' = true -> poisoned c' = false -> torn' = EmptyString /\ (L <> [] \/ is_ok r = true -> L' <> []) /\
       sequence c' = n' /\ previous c' = prev' /\ last_time c' = last').
Proof.
  intros [Hc Hdata _ Hsize Hack Hreq Hreg _] Hobj Hd Hhead Ha. cbn [file_data] in *. rewrite append_nil_r in Hdata.
  destruct (append_cases _ _ _ _ _ _ _ _ _ Ha) as [(-> & -> & Hc')|(sum & line & Hw)].
  - exists L, lines, n, prev, last, EmptyString. split.
    + constructor; cbn [file_data f_data]; try done; [by rewrite append_nil_r|by apply sublist_snoc|]. intros ? [= <-]. exact (Hreg f eq_refl).
    + intros Hfd Hpo. destruct Hc' as [->| ->]; [|done]. destruct (Hobj Hfd Hpo) as (-> & -> & ->). repeat split. intros [X|X]; [exact X|discriminate X].
  - cbv zeta in Hw. destruct Hw as (Hfd & Hpo & He & Hh & Ht & Hlt & Hr & Hlen & Hsz & Hw). destruct (Hobj Hfd Hpo) as (<- & <- & <-).
    assert (Hsnoc := chained_snoc _ _ _ _ _ event data (entry_time env at_ms) sum line Hc Hd He Hh (fun E => Hhead E (proj1 Hh E)) Ht Hlt Hlen Hr).
    destruct Hw as [[-> Hw]|(-> & -> & k & Hk & ->)].
    + exists (L ++ [(event, data, entry_time env at_ms)]), (lines ++ [line]), (sequence c + 1), sum, (entry_time env at_ms), EmptyString. split.
      2: { intros _ Hpo'. destruct Hw as [[_ ->]|[_ ->]]; [|done]. repeat split. intros _ E. by apply app_eq_nil in E as [_ E]. }
      constructor; [exact Hsnoc|cbn [file_data f_data]; by rewrite file_text_snoc, append_nil_r, Hdata|done| | | | |done].
      * cbn [file_data f_data]. rewrite slen_app. exact Hsz.
      * destruct Hw as [[-> _]|[-> _]]; [by apply sublist_both|by apply sublist_snoc].
      * by apply sublist_both.
      * intros ? [= <-]. exact (Hreg f eq_refl).
    + destruct (read_chained _ _ _ _ _ Hsnoc) as [Hp _]. apply List.Forall_app in Hp as [_ Hp]. inversion Hp as [|? ? Hline _]; subst.
      eexists L, lines, _, _, _, (stake k line). split; [|done].
      constructor; [exact Hc|cbn [file_data f_data]; by rewrite Hdata| | |done|by apply sublist_snoc| |done].
      * apply printable_no_nl. by apply sforall_stake.
      * cbn [file_data f_data]. rewrite slen_app in Hsz |- *. rewrite slen_stake by (rewrite slen_length; lia).
        rewrite (slen_length line) in Hsz. simpl slen in Hsz. lia.
      * intros ? [= <-]. exact (Hreg f eq_refl).
Qed.

(** What the invariant keeps when the object is gone. *)
Lemma log_inv_weaken requested requested' acknowledged acknowledged' file file' cap L lines n prev last torn :
  log_inv requested acknowledged file cap L lines n prev last torn ->
  sublist requested requested' -> sublist acknowledged' acknowledged -> file_data file' = file_data file ->
  (forall f, file' = Some f -> f_regular f = true) -> log_inv requested' acknowledged' file' None L lines n prev last torn.
Proof.
  intros [Hc Hdata Ht Hsize Hack Hreq Hreg _] H1 H2 H3 H4. constructor; try done; [by rewrite H3|by rewrite H3|by etransitivity|by etransitivity].
Qed.

Lemma log_inv_object requested acknowledged file c L lines n prev last torn :
  log_inv requested acknowledged file None L lines n prev last torn ->
  (fd c = true -> poisoned c = false ->
   is_Some file /\ torn = EmptyString /\ L <> [] /\ sequence c = n /\ previous c = prev /\ last_time c = last) ->
  log_inv requested acknowledged file (Some c) L lines n prev last torn.
Proof. intros [Hc Hdata Ht Hsize Hack Hreq Hreg _] Ho. constructor; try done. by intros ? [= <-]. Qed.

(** The header an object writes is one the reader accepts. *)
Lemma header_of_ok instr kind context :
  in_strs kind ["IB_CAPTURE"; "SYNTHETIC"] = true -> in_strs instr ["BTC.USD"; "EUR.USD"] = true ->
  header_refused (header_of instr kind context) = false.
Proof.
  intros Hk Hi. unfold header_refused. set (h := header_of instr kind context).
  change (get h "policy_version") with (VStr CostPolicy.POLICY_VERSION). change (get h "source_kind") with kind.
  change (get h "instrument") with instr. change (get h "position_neutral_forecasts_required") with (VBool true).
  by rewrite Hk, Hi, eq_str_refl.
Qed.

(** An object that continues a file stands at its end. *)
Lemma resume_end c old evs n prev last c' :
  resume c old = Ok c' -> get old "events" = VList (map VDict evs) -> ends_at n prev last evs ->
  fd c' = fd c /\ poisoned c' = poisoned c /\ sequence c' = n /\ previous c' = prev /\ last_time c' = last.
Proof.
  unfold resume, ends_at. intros Hr Hev He. rewrite Hev in Hr. destruct evs as [|first evs]; [done|]. cbn [map] in Hr.
  destruct (get first "data") as [| | | | | | |header]; try done. inv_ok Hr.
  change (VDict first :: map VDict evs) with (map VDict (first :: evs)) in Hr. rewrite fmap_last in Hr.
  unfold dict in *. revert Hr He. destruct (list.last (first :: evs)) as [e|]; [|done]. simpl. intros Hr (Hs & Hh & Ht).
  rewrite Hs, Hh, Ht in Hr. apply Ok_inj in Hr as <-. simpl. repeat split. lia.
Qed.

Definition admissible_history (requested : list entry) : Prop := Forall (fun e => recordable e.1.2 = true) requested.

Lemma empty_log requested acknowledged file cap L lines n prev last torn :
  log_inv requested acknowledged file cap L lines n prev last torn -> slen (file_data file) = 0 ->
  L = [] /\ lines = [] /\ n = 0 /\ prev = GENESIS /\ last = 0 /\ torn = EmptyString.
Proof.
  intros Hi Hz. rewrite (li_data _ _ _ _ _ _ _ _ _ _ Hi), slen_app in Hz. pose proof (slen_nonneg torn). pose proof (slen_nonneg (file_text lines)).
  assert (torn = EmptyString) as -> by (destruct torn as [|a torn]; [done|]; cbn [slen] in *; pose proof (slen_nonneg torn); lia).
  destruct (li_chain _ _ _ _ _ _ _ _ _ _ Hi); [done|]. rewrite file_text_snoc, !slen_app in Hz.
  pose proof (slen_nonneg (file_text lines)). pose proof (slen_nonneg line). simpl slen in Hz. lia.
Qed.

Lemma open_keeps requested acknowledged file L lines n prev last torn o env instr kind min_free context file' r :
  log_inv requested acknowledged file None L lines n prev last torn ->
  let header := ("HEADER", header_of instr kind context, 1) in
  (slen (file_data file) = 0 -> recordable (header_of instr kind context) = true) ->
  open_capture o env file instr kind min_free context = (file', r) ->
  exists L' lines' n' prev' last' torn',
    log_inv (if slen (file_data file) =? 0 then requested ++ [header] else requested)
      (if (slen (file_data file) =? 0) && is_ok r then acknowledged ++ [header] else acknowledged)
      file' (match r with Ok c => Some c | Raise _ => None end) L' lines' n' prev' last' torn'.
Proof.
  intros Hi header Hrec Ho. unfold open_capture in Ho.
  assert (Hsub : sublist requested (if slen (file_data file) =? 0 then requested ++ [header] else requested)).
  { destruct (slen (file_data file) =? 0); [apply sublist_snoc|]; done. }
  (* a refusal leaves the log as it was *)
  assert (Hrefuse : forall e g, (file', r) = (g, Raise e) -> file_data g = file_data file -> (forall f, g = Some f -> f_regular f = true) ->
    exists L' lines' n' prev' last' torn',
      log_inv (if slen (file_data file) =? 0 then requested ++ [header] else requested)
        (if (slen (file_data file) =? 0) && is_ok r then acknowledged ++ [header] else acknowledged)
        file' (match r with Ok c => Some c | Raise _ => None end) L' lines' n' prev' last' torn').
  { intros e g [= -> ->] Hg Hgr. rewrite andb_false_r. eexists _, _, _, _, _, _. by eapply log_inv_weaken. }
  pose proof (li_regular _ _ _ _ _ _ _ _ _ _ Hi) as Hreg.
  destruct (negb (in_strs kind _) || negb (in_strs instr _)) eqn:Hk; [by eapply Hrefuse|].
  apply orb_false_iff in Hk as [Hk%negb_false_iff Hin%negb_false_iff].
  destruct (context_refused context); [by eapply Hrefuse|]. destruct (negb (parent_made o)); [by eapply Hrefuse|].
  destruct (negb (parent_private o)); [by eapply Hrefuse|]. destruct (negb (opened o)); [by eapply Hrefuse|].
  set (f := match file with Some f => f | None => mkFile true true EmptyString end) in *.
  assert (Hf : file_data (Some f) = file_data file) by (unfold f; by destruct file).
  assert (Hfr : forall g, Some f = Some g -> f_regular g = true) by (intros ? [= <-]; unfold f; destruct file; [by apply Hreg|done]).
  destruct (negb (f_regular f) || negb (f_private f)) eqn:Hp; [by eapply Hrefuse|]. destruct (negb (locked o)); [by eapply Hrefuse|].
  cbn [file_data] in Hf. rewrite Hf in Ho. destruct (Z.eqb_spec (slen (file_data file)) 0) as [Hz|Hz]; cbn [negb andb] in Ho, Hsub, Hrefuse |- *.
  - destruct (empty_log _ _ _ _ _ _ _ _ _ _ Hi Hz) as (-> & -> & -> & -> & -> & ->).
    destruct (_append_locked env _ _ _ _ _) as [[c' data'] r'] eqn:Ha. rewrite <- Hf in Ha.
    assert (Hi' : log_inv requested acknowledged (Some f) None [] [] 0 GENESIS 0 EmptyString) by (by eapply log_inv_weaken).
    edestruct append_keeps with (1 := Hi') (5 := Ha) as (L' & lines' & n' & prev' & last' & torn' & Hl & Hobj);
      [done|by apply Hrec|intros _ _; by apply header_of_ok|]. change (entry_time env (VInt 1)) with 1 in Hl. fold header in Hl.
    apply orb_false_iff in Hp as [Hp1%negb_false_iff Hp2%negb_false_iff]. rewrite Hp1, Hp2 in Hl.
    exists L', lines', n', prev', last', torn'. destruct r' as [sum|e]; [destruct (parent_synced o)|]; simplify_eq; cbn [is_ok] in *.
    + apply log_inv_object; [done|]. intros Hfd Hpo. destruct (Hobj Hfd Hpo) as (-> & HL & -> & -> & ->). repeat split; [by eexists|]. apply HL. by right.
    + eapply log_inv_weaken; [exact Hl|done|by apply sublist_snoc|done|by intros ? [= <-]].
    + done.
  - destruct (let! old := read_capture (Some f) in _) as [c'|e] eqn:Hr; [|by eapply Hrefuse]. injection Ho as <- <-. inv_ok Hr.
    exists L, lines, n, prev, last, torn. apply log_inv_object; [by eapply log_inv_weaken|]. intros _ _.
    destruct (read_file L lines n prev last torn f) as [(-> & HL & report & evs & Hread & Hev & _ & Hend)|[_ Hread]];
      [apply (li_chain _ _ _ _ _ _ _ _ _ _ Hi)|by apply Hfr|rewrite Hf; apply (li_size _ _ _ _ _ _ _ _ _ _ Hi)
      |rewrite Hf; apply (li_data _ _ _ _ _ _ _ _ _ _ Hi)|apply (li_torn _ _ _ _ _ _ _ _ _ _ Hi)| |congruence].
    assert (a = report) as -> by congruence. destruct (resume_end _ _ _ _ _ _ _ Hr Hev Hend) as (_ & _ & -> & -> & ->). repeat split; [by eexists|done].
Qed.

Lemma history_keeps requested acknowledged file cap :
  history requested acknowledged file cap -> admissible_history requested ->
  exists L lines n prev last torn, log_inv requested acknowledged file cap L lines n prev last torn.
Proof.
  induction 1 as [|requested acknowledged file o env instr kind min_free context file' r Hh IH Ho
                  |requested acknowledged f c env event data at_ms c' data' r Hh IH Ha|requested acknowledged file c Hh IH
                  |requested acknowledged file c Hh IH]; intros Hadm.
  - exists [], [], 0, GENESIS, 0, EmptyString. constructor; try done; [constructor].
  - destruct (Z.eqb_spec (slen (file_data file)) 0) as [Hz|Hz].
    + apply List.Forall_app in Hadm as [Hadm Hhead]. inversion Hhead as [|? ? Hhd _]; subst.
      destruct (IH Hadm) as (L & lines & n & prev & last & torn & Hi).
      pose proof (open_keeps _ _ _ _ _ _ _ _ _ _ _ _ _ _ _ _ _ Hi (fun _ => Hhd) Ho) as Hk. rewrite Hz in Hk. exact Hk.
    + destruct (IH Hadm) as (L & lines & n & prev & last & torn & Hi).
      pose proof (open_keeps _ _ _ _ _ _ _ _ _ _ _ _ _ _ _ _ _ Hi (fun E => match Hz E with end) Ho) as Hk.
      rewrite (proj2 (Z.eqb_neq _ _) Hz) in Hk. exact Hk.
  - apply List.Forall_app in Hadm as [Hadm Hnew]. inversion Hnew as [|? ? Hd _]; subst.
    destruct (IH Hadm) as (L & lines & n & prev & last & torn & Hi). pose proof (li_object _ _ _ _ _ _ _ _ _ _ Hi c eq_refl) as Hobj.
    destruct (fd c && negb (poisoned c)) eqn:Hlive.
    + apply andb_prop in Hlive as [Hfd Hpo%negb_true_iff]. destruct (Hobj Hfd Hpo) as (_ & -> & HL & Hseq & Hprev & Hlast).
      assert (Hn : n <> 0).
      { destruct (chained_previous _ _ _ _ _ (li_chain _ _ _ _ _ _ _ _ _ _ Hi)) as (_ & _ & ->). by destruct L. }
      assert (Hi' : log_inv requested acknowledged (Some f) None L lines n prev last EmptyString) by (eapply log_inv_weaken; try done; apply Hi).
      edestruct append_keeps with (1 := Hi') (5 := Ha) as (L' & lines' & n' & prev' & last' & torn' & Hl & Hnew');
        [done|done|done|]. exists L', lines', n', prev', last', torn'. apply log_inv_object; [done|]. intros Hfd' Hpo'.
      destruct (Hnew' Hfd' Hpo') as (-> & HL' & -> & -> & ->). repeat split; [by eexists|]. apply HL'. by left.
    + assert (c' = c /\ data' = f_data f /\ is_ok r = false) as (-> & -> & ->).
      { unfold _append_locked in Ha. assert (negb (fd c) || poisoned c = true) as E by (by destruct (fd c), (poisoned c)). rewrite E in Ha. by simplify_eq. }
      exists L, lines, n, prev, last, torn. apply log_inv_object.
      * eapply log_inv_weaken; [exact Hi|by apply sublist_snoc|done|done|]. intros ? [= <-]. by apply (li_regular _ _ _ _ _ _ _ _ _ _ Hi f).
      * intros Hfd Hpo. by rewrite Hfd, Hpo in Hlive.
  - destruct (IH Hadm) as (L & lines & n & prev & last & torn & Hi). exists L, lines, n, prev, last, torn.
    apply log_inv_object; [|done]. eapply log_inv_weaken; [exact Hi|done|done|done|]. apply (li_regular _ _ _ _ _ _ _ _ _ _ Hi).
  - destruct (IH Hadm) as (L & lines & n & prev & last & torn & Hi). exists L, lines, n, prev, last, torn.
    eapply log_inv_weaken; [exact Hi|done|done|done|]. apply (li_regular _ _ _ _ _ _ _ _ _ _ Hi).
Qed.

(** C34: the capture log refines an append-only list of events.  Whatever happened to the
    file - writes that were cut short, a synchronisation that failed, a process that was
    lost, objects that reopened it - there is one list of requested events, which contains
    every acknowledged event in order, such that the reader either returns exactly that
    list, or refuses the file because its last record is torn (or because there is no
    record, or no file); it never returns a shortened or altered list.  While an object
    accepts events the file can be read and the object stands at its end. *)
Theorem capture_log_refines requested acknowledged file cap :
  history requested acknowledged file cap -> admissible_history requested ->
  exists L, sublist acknowledged L /\ sublist L requested /\
    ((exists report evs, read_capture file = Ok report /\ get report "events" = VList (map VDict evs) /\ Forall2 recorded L evs) \/
     (file = None \/ read_capture file = Raise (cost_error "CAPTURE_TRUNCATED_TAIL"))) /\
    (forall c, cap = Some c -> fd c = true -> poisoned c = false -> is_ok (read_capture file) = true /\ sequence c = Z.of_nat (length L)).
Proof.
  intros Hh Hadm. destruct (history_keeps _ _ _ _ Hh Hadm) as (L & lines & n & prev & last & torn & [Hc Hdata Ht Hsize Hack Hreq Hreg Hobj]).
  exists L. split; [done|]. split; [done|]. destruct file as [f|].
  2: { split; [by right; left|]. intros c Hcap Hfd Hpo. by destruct (Hobj c Hcap Hfd Hpo) as [[? ?] _]. }
  destruct (read_file L lines n prev last torn f Hc (Hreg f eq_refl) Hsize Hdata Ht) as [(_ & _ & report & evs & Hr & Hev & Hrec & _)|[Hbad Hr]].
  - split; [left; by exists report, evs|]. intros c Hcap Hfd Hpo. rewrite Hr. split; [done|].
    destruct (Hobj c Hcap Hfd Hpo) as (_ & _ & _ & -> & _). by destruct (chained_previous _ _ _ _ _ Hc) as (_ & _ & ->).
  - split; [by right; right|]. intros c Hcap Hfd Hpo. destruct (Hobj c Hcap Hfd Hpo) as (_ & -> & HL & _). destruct Hbad as [?|?]; congruence.
Qed.

(** Writes that take at least one byte each write everything. *)
Lemma write_loop_progress env fuel i raw file :
  (String.length raw <= fuel)%nat -> (forall j, exists n, write_at env j = Some n /\ 0 < n) ->
  write_loop env fuel i raw file = (file +:+ raw, Ok tt).
Proof.
  intros Hf Hw. destruct (write_loop env fuel i raw file) as [file' r] eqn:E. pose proof (write_loop_spec _ _ _ _ _ _ _ Hf E) as Hs.
  enough (is_ok r = true) by (destruct Hs as [[-> ->]|[? _]]; [done|congruence]). clear Hs Hf. revert i raw file E.
  induction fuel as [|fuel IH]; intros i [|a raw] file E; cbn [write_loop] in E; try by simplify_eq.
  destruct (Hw i) as (n & Hn & Hpos). rewrite Hn, (proj2 (Z.leb_gt _ _)) in E by done. eauto.
Qed.

Definition healthy (env : Env) : Prop :=
  path_info env = Some (true, true) /\ file_private env = true /\ (forall j, exists n, write_at env j = Some n /\ 0 < n) /\ fsync_ok env = true.

(** C36: a live object makes progress.  On a healthy system an object that accepts events
    records any admissible event that fits the bounds, however few bytes each write takes:
    [append] returns its checksum, and the file then reads back with this event last. *)
Theorem capture_progress requested acknowledged f c env event data at_ms sum raw free :
  let t := entry_time env at_ms in
  history requested acknowledged (Some f) (Some c) -> admissible_history requested -> fd c = true -> poisoned c = false ->
  In event EVENTS -> event <> "HEADER" -> 0 < t -> last_time c <= t -> recordable data = true -> healthy env ->
  free_bytes env = Some free -> min_free_bytes c + slen raw <= free ->
  record_text (sequence c) (previous c) event data t = Ok (sum, raw) -> slen raw <= MAX_RECORD_BYTES -> slen (f_data f) + slen raw <= MAX_FILE_BYTES ->
  let f' := mkFile (f_regular f) (f_private f) (f_data f +:+ raw) in
  _append_locked env c (f_data f) (VStr event) (VDict data) at_ms = (advance c sum t, f_data f +:+ raw, Ok sum) /\
  exists report evs ev, read_capture (Some f') = Ok report /\ get report "events" = VList (map VDict (evs ++ [ev])) /\ recorded (event, data, t) ev.
Proof.
  intros t Hh Hadm Hfd Hpo He Hne Ht Hlt Hd (Hpath & Hpriv & Hwr & Hsync) Hfree Hmin Hr Hlen Hsize f'.
  destruct (history_keeps _ _ _ _ Hh Hadm) as (L & lines & n & prev & last & torn & Hi).
  destruct (li_object _ _ _ _ _ _ _ _ _ _ Hi c eq_refl Hfd Hpo) as (_ & -> & HL & Hseq & Hprev & Hlast).
  pose proof (li_chain _ _ _ _ _ _ _ _ _ _ Hi) as Hc. destruct (chained_previous _ _ _ _ _ Hc) as (_ & _ & Hn).
  assert (Hn0 : n <> 0) by (rewrite Hn; by destruct L).
  assert (Ha : _append_locked env c (f_data f) (VStr event) (VDict data) at_ms = (advance c sum t, f_data f +:+ raw, Ok sum)).
  { assert (Hat : exists t0, (if is_none at_ms then VInt (now_ms env) else at_ms) = VInt t0 /\ t0 = t).
    { unfold t, entry_time in Ht |- *. destruct (if is_none at_ms then _ else _); try lia. by eexists. }
    destruct Hat as (t0 & Hat & ->). unfold _append_locked. rewrite Hfd, Hpo, Hat. cbn [negb orb].
    assert (in_strs (VStr event) EVENTS = true) as -> by (apply existsb_exists; exists event; split; [done|apply eq_str_refl]).
    rewrite bool_decide_eq_false_2, (proj2 (Z.eqb_neq _ _)) by (done || lia). cbn [negb Bool.eqb].
    rewrite (proj2 (Z.leb_gt _ _)), (proj2 (Z.ltb_ge _ _)) by lia. rewrite Hpath, Hpriv. cbn [negb orb]. rewrite Hr, Hfree.
    rewrite !(proj2 (Z.ltb_ge _ _)) by lia. cbn [orb]. rewrite write_loop_progress by done. by rewrite Hsync. }
  split; [done|]. destruct (record_text_inv _ _ _ _ _ _ _ Hr) as (text & line & _ & _ & _ & ->).
  assert (Hlen' : slen line <= MAX_RECORD_BYTES) by (rewrite slen_app in Hlen; simpl slen in Hlen; lia). rewrite Hseq, Hprev in Hr. rewrite Hlast in Hlt.
  assert (Hsnoc : chained (L ++ [(event, data, t)]) (lines ++ [line]) (n + 1) sum t) by (eapply chained_snoc; try done; tauto).
  destruct (read_file _ _ _ _ _ EmptyString f' Hsnoc) as [(_ & _ & report & evs & Hread & Hev & Hrec & _)|[Hbad _]].
  - apply (li_regular _ _ _ _ _ _ _ _ _ _ Hi f eq_refl).
  - unfold f'. cbn [f_data]. by rewrite slen_app.
  - unfold f'. cbn [f_data]. pose proof (li_data _ _ _ _ _ _ _ _ _ _ Hi) as Hdata. cbn [file_data] in Hdata.
    by rewrite file_text_snoc, append_nil_r, Hdata, append_nil_r.
  - done.
  - apply Forall2_app_inv_l in Hrec as (evs1 & evs2 & _ & H2 & ->). inversion H2 as [|? ev ? ? Hev1 Hnil]; subst. inversion Hnil; subst.
    by exists report, evs1, ev.
  - destruct Hbad as [?|Hbad]; [done|by apply app_eq_nil in Hbad as [_ ?]].
Qed.

(** ** The chain *)

Inductive linked : list dict -> Z -> string -> Prop :=
| linked_nil : linked [] 0 GENESIS
| linked_snoc evs n prev ev text :
    linked evs n prev -> get (body_of ev) "sequence" = VInt n -> get (body_of ev) "previous" = VStr prev ->
    canonical (VDict (body_of ev)) = Ok text -> get ev "sha256" = VStr (digest text) -> linked (evs ++ [ev]) (n + 1) (digest text).

Lemma linked_length evs n head : linked evs n head -> n = Z.of_nat (length evs).
Proof. induction 1; [done|]. rewrite length_app. simpl. lia. Qed.

Lemma read_record_linked st line st' :
  read_record st line = Ok st' -> linked (ch_events st) (ch_sequence st) (ch_previous st) -> linked (ch_events st') (ch_sequence st') (ch_previous st').
Proof.
  unfold read_record. intros Hr Hl. apply when_ok in Hr as [_ Hr]. apply rbind_ok in Hr as (v & _ & Hr). destruct v as [| | | | | | |ev]; try done.
  apply when_ok in Hr as [_ Hr]. apply rbind_ok in Hr as (b & Hb & Hr). apply when_ok in Hr as [-> Hr].
  destruct (get ev "at_ms") as [| |at_ms| | | | |]; try done. apply when_ok in Hr as [_ Hr].
  destruct (get ev "data") as [| | | | | | |data]; try done. do 3 apply when_ok in Hr as [_ Hr].
  destruct (get ev "sha256") as [| | | | |sum| |] eqn:Hs; try done. apply Ok_inj in Hr as <-. cbn [ch_events ch_sequence ch_previous].
  unfold chain_broken in Hb. rewrite Hs in Hb.
  apply por_false in Hb as [Hb Hd]. apply por_false in Hb as [Hb Hp]. apply por_false in Hb as [_ Hn]. apply rbind_ok in Hd as (text & Ht & Hd).
  apply Ok_inj, negb_false_iff, eq_str_true in Hd. injection Hd as ->. apply Ok_inj, negb_false_iff, eq_str_true in Hp.
  destruct (get (body_of ev) "sequence") as [| |n| | | | |] eqn:Hsq; try done. apply Ok_inj, negb_false_iff, Z.eqb_eq in Hn. subst n.
  by econstructor.
Qed.

Lemma read_capture_linked file report evs :
  read_capture file = Ok report -> get report "events" = VList (map VDict evs) -> exists n head, linked evs n head.
Proof.
  unfold read_capture. destruct file as [f|]; [|done]. intros Hr He. apply when_ok in Hr as [_ Hr]. apply when_ok in Hr as [_ Hr].
  apply rbind_ok in Hr as (st & Hst & Hr). assert (Hl : linked (ch_events st) (ch_sequence st) (ch_previous st)).
  { eapply (rfold_inv (fun st => linked (ch_events st) (ch_sequence st) (ch_previous st))) with (a := chain_start); [|constructor|exact Hst].
    intros a x a' _ Ha Hx. by eapply read_record_linked. }
  destruct (ch_events st) as [|first rest] eqn:Hev; [done|].
  destruct (get first "data") as [| | | | | | |data]; try done. apply Ok_inj in Hr as <-.
  assert (Hm : map VDict (first :: rest) = map VDict evs) by (change (VList (map VDict (first :: rest)) = VList (map VDict evs)) in He; congruence).
  assert (first :: rest = evs) as <-; [|by eexists _, _]. revert Hm. generalize (first :: rest) as l. clear.
  induction evs as [|e evs IH]; intros [|x l] Hm; try done. injection Hm as -> Hm. f_equal. by apply IH.
Qed.

(** Two documents with one canonical text agree on their scalar fields. *)
Lemma canonical_field b1 b2 text k v1 v2 :
  canonical (VDict b1) = Ok text -> canonical (VDict b2) = Ok text -> json_ok (VDict b1) = true -> json_ok (VDict b2) = true ->
  get b1 k = v1 -> get b2 k = v2 -> scalar v1 = true -> scalar v2 = true -> v1 <> VNone -> v2 <> VNone -> v1 = v2.
Proof.
  assert (Hread : forall b, canonical (VDict b) = Ok text -> json_ok (VDict b) = true ->
    exists v', loads_with unique bad (text +:+ EmptyString) = Ok v' /\ like (VDict b) v').
  { intros b Hb Hok. unfold canonical in Hb. apply when_ok in Hb as [Hf%negb_false_iff Hb].
    apply (loads_dumps unique bad) with (nan_allowed := false); [apply unique_distinct|done| |done|done|by left].
    eapply floats_impl; [|exact Hf]. intros f Hff. unfold readable_float. by rewrite Hff. }
  intros H1 H2 Ho1 Ho2 Hv1 Hv2 Hs1 Hs2 Hn1 Hn2. destruct (Hread b1 H1 Ho1) as (v' & E1 & L1), (Hread b2 H2 Ho2) as (v'' & E2 & L2).
  assert (v'' = v') as -> by congruence. destruct (like_dict_inv _ _ L1) as (d & -> & _).
  apply json_ok_dict in Ho1 as [Hnd1 _]. apply json_ok_dict in Ho2 as [Hnd2 _].
  assert (Hf : forall b w, get b k = w -> w <> VNone -> dget k b = Some w).
  { intros b w Hw Hn. unfold get, getd, dget_or in Hw. destruct (dget k b); congruence. }
  pose proof (like_scalar_field _ _ k v1 Hnd1 L1 (Hf _ _ Hv1 Hn1) Hs1). pose proof (like_scalar_field _ _ k v2 Hnd2 L2 (Hf _ _ Hv2 Hn2) Hs2). congruence.
Qed.

(** The same record: one body text, and the checksum is its digest. *)
Definition same_record (a b : dict) : Prop :=
  exists text, canonical (VDict (body_of a)) = Ok text /\ canonical (VDict (body_of b)) = Ok text /\
    get a "sha256" = VStr (digest text) /\ get b "sha256" = VStr (digest text).

(** Two logs that part at a collision: a record of each, followed by the same records up to
    the end, with one checksum and different body texts that have that digest. *)
Definition digest_collision (evs1 evs2 : list dict) : Prop :=
  exists i j a b t t', evs1 !! i = Some a /\ evs2 !! j = Some b /\ Forall2 same_record (drop (S i) evs1) (drop (S j) evs2) /\
    get a "sha256" = VStr (digest t) /\ get b "sha256" = VStr (digest t') /\
    canonical (VDict (body_of a)) = Ok t /\ canonical (VDict (body_of b)) = Ok t' /\ t <> t' /\ digest t = digest t'.

Lemma collision_last evs1 evs2 a b t t' : get a "sha256" = VStr (digest t) -> get b "sha256" = VStr (digest t') ->
  canonical (VDict (body_of a)) = Ok t -> canonical (VDict (body_of b)) = Ok t' -> t <> t' -> digest t = digest t' ->
  digest_collision (evs1 ++ [a]) (evs2 ++ [b]).
Proof.
  intros. exists (length evs1), (length evs2), a, b, t, t'. split; [by rewrite lookup_app_r, Nat.sub_diag by lia|]. split; [by rewrite lookup_app_r, Nat.sub_diag by lia|].
  split; [|done]. rewrite !drop_ge by (rewrite length_app; simpl; lia). constructor.
Qed.
Lemma collision_snoc evs1 evs2 a b : digest_collision evs1 evs2 -> same_record a b -> digest_collision (evs1 ++ [a]) (evs2 ++ [b]).
Proof.
  intros (i & j & x & y & t & t' & H1 & H2 & Hd & Ht) Hs. exists i, j, x, y, t, t'. split; [by apply lookup_app_l_Some|]. split; [by apply lookup_app_l_Some|]. split; [|done].
  rewrite !drop_app_le by (apply lookup_lt_Some in H1, H2; lia). apply Forall2_app; [done|]. by repeat constructor.
Qed.

Definition unicode_record (ev : dict) : bool := json_ok (VDict (body_of ev)).

Lemma linked_same evs1 n1 head1 evs2 n2 head2 :
  linked evs1 n1 head1 -> linked evs2 n2 head2 -> (n1 = n2 \/ evs1 <> [] /\ evs2 <> []) -> head1 = head2 ->
  Forall (fun ev => unicode_record ev = true) evs1 -> Forall (fun ev => unicode_record ev = true) evs2 ->
  digest_collision evs1 evs2 \/ Forall2 same_record evs1 evs2.
Proof.
  intros Hl1. revert evs2 n2 head2. induction Hl1 as [|evs1 n1 prev1 ev1 text1 Hl1 IH Hq1 Hp1 Ht1 Hs1]; intros evs2 n2 head2 Hl2 Hn Hh Hu1 Hu2.
  { pose proof (linked_length _ _ _ Hl2). destruct Hn as [<-|[? _]]; [|done]. destruct evs2; [by right; constructor|simpl in *; lia]. }
  destruct Hl2 as [|evs2 n2 prev2 ev2 text2 Hl2 Hq2 Hp2 Ht2 Hs2].
  { pose proof (linked_length _ _ _ Hl1). destruct Hn as [Hn|[_ ?]]; [lia|done]. }
  destruct (decide (text1 = text2)) as [->|Hne]; [|left; by apply (collision_last _ _ _ _ text1 text2)].
  apply List.Forall_app in Hu1 as [Hu1 Hv1]. apply List.Forall_app in Hu2 as [Hu2 Hv2]. inversion Hv1 as [|? ? Hw1 _]; inversion Hv2 as [|? ? Hw2 _]; subst.
  assert (VInt n1 = VInt n2) as [= ->] by (eapply (canonical_field (body_of ev1) (body_of ev2) text2 "sequence"); done).
  assert (VStr prev1 = VStr prev2) as [= ->] by (eapply (canonical_field (body_of ev1) (body_of ev2) text2 "previous"); done).
  destruct (IH evs2 n2 prev2 Hl2 (or_introl eq_refl) eq_refl Hu1 Hu2) as [Hc|Hf].
  - left. apply collision_snoc; [done|]. by exists text2.
  - right. apply Forall2_app; [done|]. constructor; [|done]. by exists text2.
Qed.

Lemma linked_take evs n head k ev :
  linked evs n head -> evs !! k = Some ev -> exists h, get ev "sha256" = VStr h /\ linked (take (S k) evs) (Z.of_nat (S k)) h.
Proof.
  induction 1 as [|evs n prev ev' text Hl IH Hq Hp Ht Hs]; [done|]. intros Hk. pose proof (lookup_lt_Some _ _ _ Hk) as Hlt. rewrite length_app in Hlt. simpl in Hlt.
  destruct (decide (k = length evs)) as [->|Hne].
  - rewrite lookup_app_r, Nat.sub_diag in Hk by lia. injection Hk as ->. exists (digest text). split; [done|].
    rewrite take_ge by (rewrite length_app; simpl; lia). replace (Z.of_nat (S (length evs))) with (n + 1); [by econstructor|].
    rewrite (linked_length _ _ _ Hl). lia.
  - rewrite lookup_app_l in Hk by lia. destruct (IH Hk) as (h & Hh & Hlk). exists h. split; [done|]. by rewrite take_app_le by lia.
Qed.

(** C35: a capture log is tamper-evident.  If the checksum of the last record of one
    accepted log is the checksum of the [k]-th record of another accepted log, then the
    first log is, record by record, the prefix of the other one up to that record, or the
    two logs exhibit a collision of the digest: a record of each, followed by the same
    records up to that checksum, whose bodies are different texts with the digest both
    records carry.  (Texts with lone surrogates,
    which have no UTF-8 encoding, are excluded.) *)
Theorem capture_prefix_binding file1 file2 report1 report2 evs1 evs2 last1 k ev2 :
  read_capture file1 = Ok report1 -> get report1 "events" = VList (map VDict evs1) -> list.last evs1 = Some last1 ->
  read_capture file2 = Ok report2 -> get report2 "events" = VList (map VDict evs2) -> evs2 !! k = Some ev2 ->
  get last1 "sha256" = get ev2 "sha256" -> Forall (fun ev => unicode_record ev = true) (evs1 ++ evs2) ->
  digest_collision evs1 (take (S k) evs2) \/ Forall2 same_record evs1 (take (S k) evs2).
Proof.
  intros Hr1 He1 Hlast Hr2 He2 Hk Hsha Hu. apply List.Forall_app in Hu as [Hu1 Hu2].
  destruct (read_capture_linked _ _ _ Hr1 He1) as (n1 & h1 & Hl1), (read_capture_linked _ _ _ Hr2 He2) as (n2 & h2 & Hl2).
  destruct (linked_take _ _ _ _ _ Hl2 Hk) as (h & Hh & Hl). eapply linked_same; [exact Hl1|exact Hl| | |done|by apply Forall_take].
  - right. split; [by destruct evs1|by destruct evs2].
  - destruct Hl1 as [|evs n prev ev text _ _ _ _ Hs]; [done|]. rewrite last_snoc in Hlast. injection Hlast as ->. rewrite Hs, Hh in Hsha. congruence.
Qed.

End capture.
End CostCaptureFacts.

(** * A capture file with a torn record

    An object creates a capture, records a quote, and fails in the middle of a
    candidate; a second file continues the chain of the first two records.  The lemmas
    apply the properties of the log to them. *)

Import CostCapture CostCaptureFacts.

Module CostCaptureScenario.

#[local] Instance toy_capture_digest : Digest := length_digest.

Definition instr : value := VStr "EUR.USD".
Definition kind : value := VStr "SYNTHETIC".
Definition header : entry := ("HEADER", header_of instr kind VNone, 1).

Definition all_open : OpenEnv := mkOpenEnv true true true true true.
(** Every write takes seven bytes. *)
Definition good : Env := mkEnv 5000 (Some (true, true)) true (Some 100000) (fun _ => Some 7) true.
(** The third write fails. *)
Definition failing : Env :=
  mkEnv 6000 (Some (true, true)) true (Some 100000) (fun i => if Nat.ltb i 2 then Some 7 else None) true.

Definition quote_data : dict := [("bid", VFloat (S754_finite false 4953959590107546 (-52))); ("ask", VStr "1.2")].
Definition candidate_data : dict := [("forecast", VNone)].
Definition quote_entry : entry := ("QUOTE", quote_data, 5000).
Definition candidate_entry : entry := ("CANDIDATE", candidate_data, 6000).

Definition run0 : option CaptureFile * res Capture := open_capture all_open good None instr kind 10 VNone.
Definition object0 : Capture := ok_or (new_capture instr kind 10 VNone) run0.2.
Definition file0 : CaptureFile := default (mkFile true true EmptyString) run0.1.
Definition run1 : Capture * string * res string := _append_locked good object0 (f_data file0) (VStr "QUOTE") (VDict quote_data) VNone.
Definition file1 : CaptureFile := mkFile (f_regular file0) (f_private file0) run1.1.2.
Definition run2 : Capture * string * res string := _append_locked failing run1.1.1 (f_data file1) (VStr "CANDIDATE") (VDict candidate_data) VNone.
Definition file2 : CaptureFile := mkFile (f_regular file1) (f_private file1) run2.1.2.

Lemma opened0 : run0 = (Some file0, Ok object0).
Proof. vm_compute. reflexivity. Qed.
Lemma acknowledged1 : is_ok run1.2 = true.
Proof. vm_compute. reflexivity. Qed.
Lemma refused2 : is_ok run2.2 = false /\ poisoned run2.1.1 = true.
Proof. vm_compute. split; reflexivity. Qed.

Lemma scenario_live : history [header; quote_entry] [header; quote_entry] (Some file1) (Some run1.1.1).
Proof.
  pose proof (h_append _ _ _ _ good "QUOTE" quote_data VNone run1.1.1 run1.1.2 run1.2
    (h_open [] [] None _ _ _ _ _ _ _ _ h_start opened0)) as H.
  rewrite acknowledged1 in H. apply H. by destruct run1 as [[? ?] ?] eqn:E.
Qed.

Lemma scenario_history : history [header; quote_entry; candidate_entry] [header; quote_entry] (Some file2) (Some run2.1.1).
Proof.
  pose proof (h_append _ _ _ _ failing "CANDIDATE" candidate_data VNone run2.1.1 run2.1.2 run2.2 scenario_live) as H.
  rewrite (proj1 refused2) in H. apply H. by destruct run2 as [[? ?] ?] eqn:E.
Qed.

(** The torn candidate makes the reader refuse the file; before it, the quote could be read. *)
Example torn_refused : read_capture (Some file2) = Raise (cost_error "CAPTURE_TRUNCATED_TAIL") /\ is_ok (read_capture (Some file1)) = true.
Proof. vm_compute. split; reflexivity. Qed.

Lemma capture_log_refines_witness :
  exists L, sublist [header; quote_entry] L /\ sublist L [header; quote_entry; candidate_entry] /\
    ((exists report evs, read_capture (Some file2) = Ok report /\ get report "events" = VList (map VDict evs) /\ Forall2 recorded L evs) \/
     (Some file2 = None \/ read_capture (Some file2) = Raise (cost_error "CAPTURE_TRUNCATED_TAIL"))) /\
    (forall c, Some run2.1.1 = Some c -> fd c = true -> poisoned c = false -> is_ok (read_capture (Some file2)) = true /\ sequence c = Z.of_nat (length L)).
Proof.
  apply (capture_log_refines [header; quote_entry; candidate_entry] [header; quote_entry]); [exact scenario_history|].
  repeat constructor; vm_compute; reflexivity.
Defined.

Definition candidate_record : string * string :=
  ok_or ("", "") (record_text (sequence run1.1.1) (previous run1.1.1) "CANDIDATE" candidate_data 5000).

Lemma capture_progress_witness :
  let f' := mkFile (f_regular file1) (f_private file1) (f_data file1 +:+ candidate_record.2) in
  _append_locked good run1.1.1 (f_data file1) (VStr "CANDIDATE") (VDict candidate_data) VNone =
    (advance run1.1.1 candidate_record.1 5000, f_data file1 +:+ candidate_record.2, Ok candidate_record.1) /\
  exists report evs ev, read_capture (Some f') = Ok report /\ get report "events" = VList (map VDict (evs ++ [ev])) /\
    recorded ("CANDIDATE", candidate_data, 5000) ev.
Proof.
  apply (capture_progress [header; quote_entry] [header; quote_entry] file1 run1.1.1 good "CANDIDATE" candidate_data VNone
    candidate_record.1 candidate_record.2 100000).
  - exact scenario_live.
  - repeat constructor; vm_compute; reflexivity.
  - vm_compute. reflexivity.
  - vm_compute. reflexivity.
  - simpl. tauto.
  - discriminate.
  - reflexivity.
  - vm_compute. discriminate.
  - vm_compute. reflexivity.
  - split; [reflexivity|]. split; [reflexivity|]. split; [intros j; exists 7; split; reflexivity|reflexivity].
  - reflexivity.
  - vm_compute. discriminate.
  - vm_compute. reflexivity.
  - vm_compute. discriminate.
  - vm_compute. discriminate.
Defined.

(** ** A longer file of the same chain *)

Definition run3 : Capture * string * res string := _append_locked good run1.1.1 (f_data file1) (VStr "CANDIDATE") (VDict candidate_data) VNone.
Definition file3 : CaptureFile := mkFile true true run3.1.2.

Definition report1 : dict := ok_or [] (read_capture (Some file1)).
Definition report3 : dict := ok_or [] (read_capture (Some file3)).
Definition events_of (report : dict) : list dict :=
  match get report "events" with VList l => map (fun v => match v with VDict d => d | _ => [] end) l | _ => [] end.
Definition last1 : dict := default [] (list.last (events_of report1)).
Definition event3 : dict := default [] (events_of report3 !! 1%nat).

Lemma same_log_no_collision l : ~ digest_collision l l.
Proof.
  intros (i & j & a & b & t & t' & H1 & H2 & Hd & _ & _ & T1 & T2 & Hn & _). pose proof (Forall2_length _ _ _ Hd) as Hl. rewrite !length_drop in Hl.
  assert (i = j) as -> by (apply lookup_lt_Some in H1, H2; lia). congruence.
Qed.
Lemma files_no_collision : ~ digest_collision (events_of report1) (take 2 (events_of report3)).
Proof. assert (take 2 (events_of report3) = events_of report1) as -> by (vm_compute; reflexivity). apply same_log_no_collision. Qed.

(** The first two records of the longer file are those of the shorter one, and none collides. *)
Lemma capture_prefix_binding_witness :
  length (events_of report3) = 3%nat /\ Forall2 same_record (events_of report1) (take 2 (events_of report3)).
Proof.
  split; [vm_compute; reflexivity|].
  destruct (capture_prefix_binding (Some file1) (Some file3) report1 report3 (events_of report1) (events_of report3) last1 1 event3) as [Hc|Hf];
    [..|destruct (files_no_collision Hc)|exact Hf].
  - apply is_ok_value. vm_compute. reflexivity.
  - vm_compute. reflexivity.
  - vm_compute. reflexivity.
  - apply is_ok_value. vm_compute. reflexivity.
  - vm_compute. reflexivity.
  - vm_compute. reflexivity.
  - vm_compute. reflexivity.
  - apply (bool_decide_unpack _). vm_compute. exact I.
Defined.

End CostCaptureScenario.
