(* ===== verification/CostOos.v ===== *)
(** * Preregistered out-of-sample evaluation

    Model of [research/cost_aware/scripts/hepta_cost_oos.py]: a plan is registered
    against a prefix of a WATCH capture before its decision window opens, and
    evaluated against a longer capture of the same chain.  The hashes of the
    implementation files, which the program reads from its own directory, are an
    argument, as is the clock. *)

From Stdlib Require Import Ascii.
From S2P Require Import Prelude PyDecimal PyText PyValue CostPolicy CostTape CostPath CostAssess.
From stdpp Require Import base tactics list strings.
From Stdlib Require Import ZArith Lia Bool.
Import CostPolicy CostTape CostPath CostAssess.

Open Scope Z_scope.

Module CostOos.

Definition SCHEMA : string := "heptatrader.remote-oos-plan.v1".
Definition WINDOW_KEYS : list string := ["training_end_ms"; "decision_start_ms"; "decision_end_ms"; "outcome_end_ms"].
Definition LIMIT_KEYS : list string :=
  ["min_directional_candidates"; "min_completed_round_trips"; "max_drawdown_usd"; "max_turnover_usd"; "max_reentries"; "size"; "capital"].
Definition STRESS_CASES : list string := ["BASE"; "SLIPPAGE_2X"; "SLIPPAGE_5X"; "FEES_125PCT"; "FEES_150PCT_SLIPPAGE_5X"].

(** ** The watch scope *)

Definition in_range (lo hi : Z) (c : ascii) : bool := (lo <=? ord c) && (ord c <=? hi).

(** [re.fullmatch(r'obs-[a-z0-9-]{8,48}', s)] *)
Definition is_cycle_id (s : string) : bool :=
  match s with
  | String a (String b (String c (String d rest))) =>
      bool_decide (String a (String b (String c (String d EmptyString))) = "obs-") && (8 <=? slen rest) && (slen rest <=? 48) &&
      sforall (fun c => in_range 97 122 c || in_range 48 57 c || (ord c =? 45)) rest
  | _ => false
  end.

(** [re.fullmatch(r'[0-9a-f]{64}', s)] *)
Definition is_sha256 (s : string) : bool := (slen s =? 64) && sforall (fun c => in_range 48 57 c || in_range 97 102 c) s.

(** [re.fullmatch(pattern, v or '')] *)
Definition match_text (f : string -> bool) (v : value) : res bool :=
  match v with
  | VStr s => Ok (f s)
  | v => if truthy v then Raise type_error else Ok (f EmptyString)
  end.

Definition watch_identity (capture : dict) (cycle_id reset_sha256 : value) : res string :=
  let! events := (let! v := item capture "events" in as_list v) in
  let! header := header_data events in
  let context_value := get header "observation_context" in
  let context := if truthy context_value then context_value else VDict [] in
  let field k := let! c := as_dict context in Ok (get c k) in
  when! Ok (negb (eq_str (get capture "source_kind") "IB_CAPTURE")) ||? Ok (negb (is_true (get capture "complete_prefix"))) ||?
        Ok (negb (is_true (get header "position_neutral_forecasts_required"))) ||?
        (let! v := field "mode" in Ok (negb (eq_str v "WATCH"))) ||?
        (let! v := field "broker_mutation_authorized" in Ok (negb (is_false v))) ||?
        (let! v := field "cycle_id" in Ok (negb (py_eq v cycle_id))) ||?
        (let! v := field "reset_sha256" in Ok (negb (py_eq v reset_sha256))) ||?
        pnot (match_text is_cycle_id cycle_id) ||? pnot (match_text is_sha256 reset_sha256)
  raise cost_error "OOS_REAL_WATCH_SCOPE_REQUIRED" in
  digest context.

(** ** The specification of a window *)

Definition positive_integer (v : value) : bool := match v with VInt z => 0 <? z | _ => false end.
Definition int_at_least (lo : Z) (v : value) : bool := match v with VInt z => lo <=? z | _ => false end.

Record Window := mkWindow { w_training : Z; w_start : Z; w_end : Z; w_outcome : Z }.

(** The four bounds, once their types are checked. *)
Definition window_of (spec : dict) : res Window :=
  let! a := as_int (get spec "training_end_ms") in
  let! b := as_int (get spec "decision_start_ms") in
  let! c := as_int (get spec "decision_end_ms") in
  let! d := as_int (get spec "outcome_end_ms") in
  Ok (mkWindow a b c d).

Definition ordered (w : Window) : bool := (w_training w <=? w_start w) && (w_start w <? w_end w) && (w_end w <? w_outcome w).

Definition monetary_check (p : Z) (spec : dict) (u : unit) (key : string) : res unit :=
  let! d := dec p (get spec key) in
  when dleb d ZERO raise cost_error "OOS_MONETARY_BOUND_INVALID" in Ok tt.

Definition validate_spec (p : Z) (spec : value) : res (dict * Window) :=
  match spec with
  | VDict s =>
      when negb (has_keys s (WINDOW_KEYS ++ LIMIT_KEYS)) raise cost_error "OOS_EXPLICIT_WINDOW_AND_LIMITS_REQUIRED" in
      when existsb (fun k => negb (positive_integer (get s k))) WINDOW_KEYS raise cost_error "OOS_WINDOW_TYPE_INVALID" in
      let! w := window_of s in
      when negb (ordered w) raise cost_error "OOS_WINDOW_ORDER_INVALID" in
      when negb (int_at_least 1 (get s "min_directional_candidates")) || negb (int_at_least 1 (get s "min_completed_round_trips"))
        raise cost_error "OOS_SAMPLE_BOUND_INVALID" in
      when negb (int_at_least 0 (get s "max_reentries")) raise cost_error "OOS_REENTRY_BOUND_INVALID" in
      let! _ := rfold (monetary_check p s) ["max_drawdown_usd"; "max_turnover_usd"; "size"; "capital"] tt in
      let! size := dec p (get s "size") in
      when dltb (dec_of_Z 25000) size raise cost_error "OOS_SIZE_EXCEEDS_REPLAY_BOUND" in
      Ok (s, w)
  | _ => Raise (cost_error "OOS_EXPLICIT_WINDOW_AND_LIMITS_REQUIRED")
  end.

(** ** Registration *)

Definition text_list (l : list string) : value := VList (map VStr l).
Definition fee_sources : value := VDict (map (fun kv : string * string => (kv.1, VStr kv.2)) FEE_SOURCES).

(** Some row of the tape carries a usable quote at its own time; only the program's
    own refusals are passed over. *)
Fixpoint usable_row (p : Z) (instrument : string) (rows : list value) : res bool :=
  match rows with
  | [] => Ok false
  | row :: rows =>
      let! quote := subscript row "quote" in
      let! at_ms := event_time row in
      let! ok := fresh p instrument quote at_ms in
      if ok : bool then Ok true else usable_row p instrument rows
  end.

Definition is_quote (e : value) : res bool := let! k := subscript e "event" in Ok (eq_str k "QUOTE").

Definition plan_body (impl : value) (now : Z) (spec : dict) (cycle_id reset_sha256 instrument : value) (identity : string)
    (capture : dict) (count : Z) (chain_head last_at : value) (input : value) : dict :=
  [("schema", VStr SCHEMA); ("registered_at_ms", VInt now); ("spec", VDict spec); ("cycle_id", cycle_id); ("reset_sha256", reset_sha256);
   ("instrument", instrument); ("watch_context_sha256", VStr identity); ("registration_prefix_sha256", input);
   ("registration_event_count", VInt count); ("registration_chain_head", chain_head); ("registration_last_at_ms", last_at);
   ("model_id", VStr MODEL_ID); ("forecast_version", VStr FORECAST_VERSION); ("policy", policy_value DEFAULT_POLICY);
   ("implementation_sha256", impl); ("fee_sources", fee_sources); ("fee_verified_date", VStr FEE_VERIFIED_DATE);
   ("stress_cases", text_list STRESS_CASES); ("local_training_required", VBool false); ("refit_allowed", VBool false);
   ("recalibration_allowed", VBool false); ("cutoff_tuning_allowed", VBool false); ("authorization_effect", VStr "NONE")].

Definition backdated : exn := cost_error "OOS_PLAN_MUST_PRECEDE_DECISIONS_NO_BACKDATING".

(** [now_ms] overrides the clock when given. *)
Definition make_plan (p : Z) (impl : value) (clock : Z) (capture : dict) (spec cycle_id reset_sha256 now_ms : value) : res dict :=
  let! sw := validate_spec p spec in
  let (s, w) := sw in
  let now := match now_ms with VNone => VInt clock | v => v end in
  match now with
  | VInt now =>
      when negb ((w_training w <=? now) && (now <? w_start w)) raise backdated in
      let! identity := watch_identity capture cycle_id reset_sha256 in
      let! events := (let! v := item capture "events" in as_list v) in
      let! last := last_event events in
      let! last_at := subscript last "at_ms" in
      when! py_lt (VInt (w_training w)) last_at raise cost_error "OOS_REGISTRATION_PREFIX_AFTER_TRAINING_END" in
      let! tape := capture_to_tape p capture in
      when! pnot (rany is_quote events) raise cost_error "OOS_REGISTRATION_REQUIRES_WATCH_QUOTES" in
      let! rows := as_list (get tape "rows") in
      let! instrument := as_str (get tape "instrument") in
      when! pnot (usable_row p instrument rows) raise cost_error "OOS_REGISTRATION_REQUIRES_AUTHORITATIVE_QUOTE" in
      let! input := item capture "input_sha256" in
      let! head := subscript last "sha256" in
      let body := plan_body impl now s cycle_id reset_sha256 (VStr instrument) identity capture (Z.of_nat (length events)) head last_at input in
      let! manifest := digest (VDict body) in
      Ok (body ++ [("manifest_sha256", VStr manifest)])
  | _ => Raise backdated
  end.

(** ** Validation *)

Definition frozen_changed (impl : value) (plan : dict) : bool :=
  negb (py_eq (get plan "implementation_sha256") impl) || negb (py_eq (get plan "policy") (policy_value DEFAULT_POLICY)) ||
  negb (eq_str (get plan "model_id") MODEL_ID) || negb (eq_str (get plan "forecast_version") FORECAST_VERSION) ||
  negb (py_eq (get plan "stress_cases") (text_list STRESS_CASES)) || negb (py_eq (get plan "fee_sources") fee_sources) ||
  negb (eq_str (get plan "fee_verified_date") FEE_VERIFIED_DATE).

Definition forbidden_keys : list string := ["local_training_required"; "refit_allowed"; "recalibration_allowed"; "cutoff_tuning_allowed"].

Definition registered_in_time (plan : dict) (w : Window) : bool :=
  match get plan "registered_at_ms", get plan "registration_last_at_ms" with
  | VInt at_ms, VInt last => (w_training w <=? at_ms) && (at_ms <? w_start w) && (last <=? w_training w)
  | _, _ => false
  end.

Definition validate_plan (p : Z) (impl plan : value) : res (dict * dict * Window) :=
  match plan with
  | VDict d =>
      when negb (eq_str (get d "schema") SCHEMA) raise cost_error "OOS_PLAN_SCHEMA_INVALID" in
      let! manifest := digest (VDict (List.filter (fun kv => negb (bool_decide (kv.1 = "manifest_sha256"))) d)) in
      when negb (eq_str (get d "manifest_sha256") manifest) raise cost_error "OOS_PLAN_HASH_MISMATCH" in
      let! sw := validate_spec p (get d "spec") in
      when negb (registered_in_time d sw.2) raise backdated in
      when frozen_changed impl d raise cost_error "OOS_FROZEN_IMPLEMENTATION_OR_POLICY_CHANGED" in
      when existsb (fun k => negb (is_false (get d k))) forbidden_keys raise cost_error "OOS_REFIT_OR_LOCAL_TRAINING_FORBIDDEN" in
      Ok (d, sw.1, sw.2)
  | _ => Raise (cost_error "OOS_PLAN_SCHEMA_INVALID")
  end.

(** ** Evaluation *)

Definition identity_changed : exn := cost_error "OOS_REGISTERED_PREFIX_OR_WATCH_IDENTITY_CHANGED".

(** The registered event is still where it was in the chain. *)
Definition prefix_changed (plan : dict) (identity : string) (events : list value) : res bool :=
  let! expected := item plan "watch_context_sha256" in
  if negb (eq_str expected identity) then Ok true else
  match get plan "registration_event_count" with
  | VInt n =>
      if (n <? 1) || (Z.of_nat (length events) <? n) then Ok true else
      match events !! Z.to_nat (n - 1) with
      | Some e => let! sha := subscript e "sha256" in let! head := item plan "registration_chain_head" in Ok (negb (py_eq sha head))
      | None => Raise index_error
      end
  | _ => Ok true
  end.

Definition common_fields (plan capture : dict) (count : Z) : res dict :=
  let! manifest := item plan "manifest_sha256" in
  let! registered := item plan "registered_at_ms" in
  let! input := item capture "input_sha256" in
  Ok [("oos_plan_sha256", manifest); ("registered_at_ms", registered); ("capture_sha256", input);
      ("verified_capture_event_count", VInt count); ("source_integrity_scope", VStr "LOCAL_WATCH_HASH_CHAIN_NOT_VENDOR_ATTESTATION");
      ("local_training_required_for_acceptance", VBool false); ("authorization_effect", VStr "NONE"); ("broker_orders_sent", VInt 0);
      ("trading_driver_switched", VBool false); ("live_profitability_proven", VBool false)].

(** [d.update(e)], also the order of [{**d, **e}] *)
Definition dict_update (d e : dict) : dict := foldl (fun d kv => dset kv.1 kv.2 d) d e.

Definition pending_report (common spec : dict) : dict :=
  dict_update (dict_update (dict_update [("schema", VStr "heptatrader.remote-model-oos.v1")] common)
    (map (fun k => (k, get spec k)) WINDOW_KEYS))
    [("status", VStr "PENDING"); ("strategy_accepted", VBool false); ("research_acceptance_passed", VBool false);
     ("reasons", text_list ["OOS_WINDOW_NOT_YET_OBSERVED"])].

Definition stress_keys_changed (report : dict) : res bool :=
  let! stress := item report "stress" in let! d := as_dict stress in Ok (negb (has_keys d STRESS_CASES)).

(** The endpoint is marked by the last row not after it. *)
Definition endpoint_observable (p : Z) (instrument : string) (rows : list value) (outcome_end : Z) : res bool :=
  let! kept := rfilter (fun r => let! at_ms := event_time r in Ok (at_ms <=? outcome_end)) rows in
  match last kept with
  | None => Ok false
  | Some row => let! quote := subscript row "quote" in fresh p instrument quote outcome_end
  end.

(** The part of the evaluation after the checks of the plan and the chain. *)
Definition assessed (p : Z) (spec : dict) (w : Window) (tape common : dict) (instrument : string) (rows : list value) (observed : Z) : res dict :=
  if observed <? w_start w then Ok (pending_report common spec)
  else
    let! report := chronological_assessment p (VDict tape) (get spec "decision_start_ms") (get spec "decision_end_ms") (get spec "size")
      (get spec "capital") (get spec "max_drawdown_usd") DEFAULT_POLICY (get spec "training_end_ms") (get spec "outcome_end_ms")
      (get spec "min_directional_candidates") (get spec "min_completed_round_trips") (get spec "max_turnover_usd") (get spec "max_reentries") in
    when! stress_keys_changed report raise cost_error "OOS_STRESS_CASES_CHANGED" in
    let! endpoint := endpoint_observable p instrument rows (w_outcome w) in
    let! reasons := (let! v := item report "reasons" in as_list v) in
    let reasons := if endpoint then reasons else reasons ++ [VStr "OOS_OUTCOME_END_QUOTE_UNOBSERVABLE"] in
    let accepted := empty reasons in
    let report := dset "research_acceptance_passed" (VBool accepted) (dset "strategy_accepted" (VBool accepted) (dset "reasons" (VList reasons) report)) in
    let report := dict_update report common in
    Ok (dset "status" (VStr (if observed <? w_outcome w then "PENDING" else if accepted then "PASS" else "FAIL")) report).

Definition evaluate_plan (p : Z) (impl plan : value) (capture : dict) : res dict :=
  let! checked := validate_plan p impl plan in
  let '(d, spec, w) := checked in
  let! cycle := item d "cycle_id" in
  let! reset := item d "reset_sha256" in
  let! identity := watch_identity capture cycle reset in
  let! events := (let! v := item capture "events" in as_list v) in
  when! prefix_changed d identity events raise identity_changed in
  let! tape := capture_to_tape p capture in
  let! instrument := as_str (get tape "instrument") in
  let! registered := item d "instrument" in
  when negb (py_eq (VStr instrument) registered) raise cost_error "OOS_INSTRUMENT_CHANGED" in
  let! common := common_fields d capture (Z.of_nat (length events)) in
  let! rows := as_list (get tape "rows") in
  let! observed := last_row_at rows in
  assessed p spec w tape common instrument rows observed.

End CostOos.
