(* ===== verification/CostOosFacts.v ===== *)
(** * What a preregistered evaluation establishes

    An accepted evaluation was registered before its decision window, under the
    frozen implementation, on a prefix of the capture it was evaluated on, and its
    assessment had no reason against it.  A registered plan is one the evaluator
    accepts.  The module [CostOosScenario] is a window that passes. *)

From Stdlib Require Import Ascii.
From S2P Require Import Prelude PyDecimal PyText PyValue RowMonad CostPolicy CostTape CostTapeFacts CostPath CostAssess CostAssessFacts CostOos CostScenario CostReplayScenario.
From stdpp Require Import base tactics list strings.
From Stdlib Require Import ZArith Lia Bool QArith.
Import CostPolicy CostTape CostPath CostAssess CostOos.

Open Scope Z_scope.

Module CostOosFacts.

(** A validated specification. *)
Lemma validate_spec_ok p spec s w :
  validate_spec p spec = Ok (s, w) ->
  spec = VDict s /\ window_of s = Ok w /\ w_training w <= w_start w < w_end w /\ w_end w < w_outcome w /\ 0 < w_training w /\
  get s "decision_start_ms" = VInt (w_start w) /\ get s "decision_end_ms" = VInt (w_end w) /\ get s "outcome_end_ms" = VInt (w_outcome w) /\
  get s "training_end_ms" = VInt (w_training w).
Proof.
  unfold validate_spec. destruct spec as [| | | | | | |d]; try done. intros H. apply when_ok in H as [_ H]. apply when_ok in H as [Hty H].
  apply rbind_ok in H as (w' & Hw & H). apply when_ok in H as [Ho H]. apply when_ok in H as [_ H]. apply when_ok in H as [_ H].
  apply rbind_ok in H as (u & _ & H). apply rbind_ok in H as (size & _ & H). apply when_ok in H as [_ H]. injection H as <- <-.
  apply negb_false_iff in Ho. unfold ordered in Ho. split_bools. cbn [existsb WINDOW_KEYS] in Hty. split_bools.
  pose proof Hw as Hw2. unfold window_of in Hw2. apply rbind_ok in Hw2 as (a & Ha & Hw2). apply rbind_ok in Hw2 as (b & Hb & Hw2).
  apply rbind_ok in Hw2 as (c & Hc & Hw2). apply rbind_ok in Hw2 as (e & He & Hw2). injection Hw2 as <-. simpl in *.
  destruct (get d "training_end_ms") as [| |a'| | | | |]; try done. injection Ha as ->. destruct (get d "decision_start_ms") as [| |b'| | | | |]; try done.
  injection Hb as ->. destruct (get d "decision_end_ms") as [| |c'| | | | |]; try done. injection Hc as ->.
  destruct (get d "outcome_end_ms") as [| |e'| | | | |]; try done. injection He as ->. simpl in *. split_bools.
  repeat split; try done; lia.
Qed.

(** ** Frozen plans *)

Definition body_of (d : dict) : dict := List.filter (fun kv => negb (bool_decide (kv.1 = "manifest_sha256"))) d.

Record registered (p : Z) (impl : value) (d spec : dict) (w : Window) : Prop := {
  reg_manifest : exists m, digest (VDict (body_of d)) = Ok m /\ get d "manifest_sha256" = VStr m;
  reg_spec : validate_spec p (get d "spec") = Ok (spec, w);
  reg_time : exists at_ms last, get d "registered_at_ms" = VInt at_ms /\ get d "registration_last_at_ms" = VInt last /\
    last <= w_training w <= at_ms /\ at_ms < w_start w;
  reg_frozen : py_eq (get d "implementation_sha256") impl = true /\ py_eq (get d "policy") (policy_value DEFAULT_POLICY) = true /\
    get d "model_id" = VStr MODEL_ID /\ py_eq (get d "stress_cases") (text_list STRESS_CASES) = true;
  reg_no_refit : forall k, In k forbidden_keys -> get d k = VBool false
}.

Lemma validate_plan_ok p impl plan d spec w :
  validate_plan p impl plan = Ok (d, spec, w) -> plan = VDict d /\ registered p impl d spec w.
Proof.
  unfold validate_plan. destruct plan as [| | | | | | |d']; try done. intros H. apply when_ok in H as [_ H]. apply rbind_ok in H as (m & Hm & H).
  apply when_ok in H as [He%negb_false_iff%eq_str_true H]. apply rbind_ok in H as ([s w'] & Hs & H). apply when_ok in H as [Ht%negb_false_iff H].
  apply when_ok in H as [Hf H]. apply when_ok in H as [Hr H]. injection H as <- <- <-. split; [done|]. cbn [snd] in *. constructor.
  - eauto.
  - done.
  - unfold registered_in_time in Ht. destruct (get d' "registered_at_ms") as [| |at_ms| | | | |]; try done.
    destruct (get d' "registration_last_at_ms") as [| |last| | | | |]; try done. split_bools. exists at_ms, last. repeat split; try done; lia.
  - unfold frozen_changed in Hf. split_bools. rewrite eq_str_true in *. done.
  - intros k Hk. rewrite <- not_true_iff_false, existsb_exists in Hr. destruct (get d' k) as [|b| | | | | |] eqn:E;
      try (exfalso; apply Hr; exists k; split; [done|by rewrite E]). destruct b; [|done]. exfalso. apply Hr. exists k. split; [done|]. by rewrite E.
Qed.

(** The registered event is the one the evaluator found. *)
Lemma prefix_unchanged plan identity events :
  prefix_changed plan identity events = Ok false ->
  exists n e sha head, get plan "registration_event_count" = VInt n /\ 1 <= n <= Z.of_nat (length events) /\
    events !! Z.to_nat (n - 1) = Some e /\ subscript e "sha256" = Ok sha /\ dget "registration_chain_head" plan = Some head /\ py_eq sha head = true /\
    get plan "watch_context_sha256" = VStr identity.
Proof.
  unfold prefix_changed. intros H. apply rbind_ok in H as (ex & Hex & H). destruct (eq_str ex identity) eqn:Ee; cbn [negb] in H; [|done].
  apply eq_str_true in Ee. subst ex. destruct (get plan "registration_event_count") as [| |n| | | | |]; try done.
  destruct ((n <? 1) || _) eqn:En; [done|]. split_bools. destruct (events !! Z.to_nat (n - 1)) as [e|] eqn:Ev; [|done].
  apply rbind_ok in H as (sha & Hs & H). apply rbind_ok in H as (head & Hh & H). injection H as H%negb_false_iff.
  unfold item in Hh, Hex. destruct (dget "registration_chain_head" plan) as [h|]; [|done]. injection Hh as ->.
  exists n, e, sha, head. repeat split; try done; try lia. unfold get, getd, dget_or. destruct (dget "watch_context_sha256" plan); [|done]. by injection Hex as ->.
Qed.

Lemma common_keys plan capture n common :
  common_fields plan capture n = Ok common ->
  Forall (fun kv => ~ In kv.1 ["strategy_accepted"; "reasons"; "status"]) common.
Proof.
  unfold common_fields. intros H. inv_ok H. subst common. repeat (constructor; [simpl; intuition discriminate|]). constructor.
Qed.

Lemma get_update d e k : ~ In k (map fst e) -> get (dict_update d e) k = get d k.
Proof.
  unfold dict_update. revert d; induction e as [|[k' v] e IH]; intros d Hk; [done|]. cbn [foldl fst snd]. rewrite IH by (intros ?; apply Hk; by right).
  apply get_dset_ne. intros ->. apply Hk. by left.
Qed.

Lemma evaluation_accepted p impl d spec w tape common rows instrument {capture n observed r} :
  registered p impl d spec w -> common_fields d capture n = Ok common -> get tape "rows" = VList rows -> last_row_at rows = Ok observed ->
  assessed p spec w tape common instrument rows observed = Ok r -> get r "strategy_accepted" = VBool true ->
  exists report stress,
    chronological_assessment p (VDict tape) (VInt (w_start w)) (VInt (w_end w)) (get spec "size") (get spec "capital")
      (get spec "max_drawdown_usd") DEFAULT_POLICY (VInt (w_training w)) (VInt (w_outcome w)) (get spec "min_directional_candidates")
      (get spec "min_completed_round_trips") (get spec "max_turnover_usd") (get spec "max_reentries") = Ok report /\
    get report "stress" = VDict (map (fun kv : string * dict => (kv.1, VDict kv.2)) stress) /\
    stressed_paths p tape rows (w_start w) (w_end w) (w_outcome w) (get spec "size") (get spec "capital") DEFAULT_POLICY stress /\
    endpoint_observable p instrument rows (w_outcome w) = Ok true /\ get r "status" = VStr "PASS" /\
    accepted p tape rows (w_start w) (w_outcome w) (VInt (w_training w)) (VInt (w_outcome w)) (get spec "max_drawdown_usd")
      (get spec "min_directional_candidates") (get spec "min_completed_round_trips") (get spec "max_turnover_usd")
      (get spec "max_reentries") stress.
Proof.
  intros Hreg Hcom Erows Hobs H Hacc. unfold assessed in H.
  pose proof (reg_spec _ _ _ _ _ Hreg) as Hspec. apply validate_spec_ok in Hspec as (_ & _ & Hord & Hord2 & _ & Es & Ee & Eo & Et).
  pose proof (common_keys _ _ _ _ Hcom) as Hck.
  assert (Hnc : forall k, In k ["strategy_accepted"; "reasons"; "status"] -> ~ In k (map fst common)).
  { intros k Hk Hin. apply in_map_iff in Hin as ([k' v] & <- & Hin). rewrite List.Forall_forall in Hck. by apply (Hck _ Hin). }
  destruct (observed <? w_start w) eqn:Eobs.
  { injection H as <-. exfalso. revert Hacc. unfold pending_report. cbn [dict_update foldl]. intros Hacc. rewrite !get_dset_ne in Hacc by done.
    rewrite get_dset_eq in Hacc. done. }
  rewrite Es, Ee, Et, Eo in H. apply rbind_ok in H as (report & Hrep & H). apply rbind_ok in H as ([|] & _ & H); [done|].
  apply rbind_ok in H as (endpoint & Hend & H). apply rbind_ok in H as (reasons & Hrs & H). injection H as <-.
  rewrite get_dset_ne in Hacc by done. rewrite get_update in Hacc by (apply Hnc; simpl; tauto). rewrite get_dset_ne, get_dset_eq in Hacc by done.
  injection Hacc as Hacc. assert (Hep : endpoint = true /\ reasons = []).
  { destruct endpoint; [|destruct reasons; done]. split; [done|]. by destruct reasons. }
  destruct Hep as [-> ->].
  destruct (assessment_sound _ _ _ _ _ _ _ _ _ _ _ _ _ _ _ Hrep) as (t & s & dd & l & rows' & stress & Et' & Er' & Es' & Ed' & _ & _ & Hsp & Hsr & (rsn & Ersn & Eacc) & Hfin).
  injection Et' as <-. injection Es' as <-. injection Ed' as <-. rewrite Erows in Er'. injection Er' as <-.
  assert (rsn = []) as ->.
  { apply rbind_ok in Hrs as (v & Hv & Hl). unfold item in Hv. unfold get, getd, dget_or in Ersn. destruct (dget "reasons" report); [|done].
    injection Hv as ->. subst v. injection Hl as Hl. by destruct rsn. }
  specialize (Hfin Eacc). destruct Hfin as (Hf1 & Hf2 & Hf3 & (u & Hu & Hlu) & Hf5). injection Hf2 as <-.
  exists report, stress. do 4 (split; [done|]). split; [|split; [done|split; [done|split; [done|split; [by exists u|done]]]]].
  rewrite get_dset_eq. assert (observed = u) as -> by congruence. by rewrite (proj2 (Z.ltb_ge _ _)).
Qed.

(** C33: Evaluations are preregistered.  If [evaluate_plan] returns a report then its plan
    carries the hash of its own body, was registered at or after the end of training
    and strictly before the decision window, on a capture prefix that ends by the end
    of training; it names the current implementation, policy, model and stress cases
    and forbids refitting; and the capture still holds the registered event at its
    place in the chain.  If the report accepts the strategy, then moreover the
    assessment of the capture under the registered bounds found no reason against it: it
    replayed the registered window of the capture under the five cost cases, three paths
    each, and every one of these paths meets the registered bounds; the quote at the outcome end was
    observable, and the window was observed to its end. *)
Theorem oos_preregistered p impl plan capture r :
  evaluate_plan p impl plan capture = Ok r ->
  exists d spec w events n e sha head,
    plan = VDict d /\ registered p impl d spec w /\
    dget "events" capture = Some (VList events) /\ get d "registration_event_count" = VInt n /\
    events !! Z.to_nat (n - 1) = Some e /\ subscript e "sha256" = Ok sha /\ dget "registration_chain_head" d = Some head /\ py_eq sha head = true /\
    (get r "strategy_accepted" = VBool true ->
     exists tape rows instrument report stress,
       capture_to_tape p capture = Ok tape /\ get tape "rows" = VList rows /\ get tape "instrument" = VStr instrument /\
       chronological_assessment p (VDict tape) (VInt (w_start w)) (VInt (w_end w)) (get spec "size") (get spec "capital")
         (get spec "max_drawdown_usd") DEFAULT_POLICY (VInt (w_training w)) (VInt (w_outcome w)) (get spec "min_directional_candidates")
         (get spec "min_completed_round_trips") (get spec "max_turnover_usd") (get spec "max_reentries") = Ok report /\
       get report "stress" = VDict (map (fun kv : string * dict => (kv.1, VDict kv.2)) stress) /\
       stressed_paths p tape rows (w_start w) (w_end w) (w_outcome w) (get spec "size") (get spec "capital") DEFAULT_POLICY stress /\
       endpoint_observable p instrument rows (w_outcome w) = Ok true /\ get r "status" = VStr "PASS" /\
       accepted p tape rows (w_start w) (w_outcome w) (VInt (w_training w)) (VInt (w_outcome w)) (get spec "max_drawdown_usd")
         (get spec "min_directional_candidates") (get spec "min_completed_round_trips") (get spec "max_turnover_usd")
         (get spec "max_reentries") stress).
Proof.
  intros H. unfold evaluate_plan in H. apply rbind_ok in H as ([[d spec] w] & Hv & H). apply validate_plan_ok in Hv as [-> Hreg].
  apply rbind_ok in H as (cycle & _ & H). apply rbind_ok in H as (reset & _ & H). apply rbind_ok in H as (identity & _ & H).
  apply rbind_ok in H as (events & Hev & H). apply rbind_ok in Hev as (ev & Hev & Hl). destruct ev as [| | | | | |evs|]; try done. injection Hl as ->.
  unfold item in Hev. destruct (dget "events" capture) as [ev|] eqn:Eev; [|done]. injection Hev as ->.
  apply rbind_ok in H as ([|] & Hpre & H); [done|]. apply prefix_unchanged in Hpre as (n & e & sha & head & Hn & _ & He & Hsha & Hhead & Heq & _).
  exists d, spec, w, events, n, e, sha, head. repeat (split; [done|]). intros Hacc.
  apply rbind_ok in H as (tape & Htape & H). apply rbind_ok in H as (instrument & Hi & H). apply rbind_ok in H as (ri & _ & H).
  apply when_ok in H as [_ H]. apply rbind_ok in H as (common & Hcom & H). apply rbind_ok in H as (rows & Hrows & H).
  apply rbind_ok in H as (observed & Hobs & H). destruct (get tape "rows") as [| | | | | |rs|] eqn:Erows; try done. injection Hrows as ->.
  destruct (get tape "instrument") as [| | | | |i| |] eqn:Ei; try done. injection Hi as ->.
  destruct (evaluation_accepted _ _ _ _ _ _ _ _ _ Hreg Hcom Erows Hobs H Hacc) as (report & stress & ? & ? & ? & ? & ? & ?).
  exists tape, rows, instrument, report, stress. done.
Qed.

(** ** Registered plans are accepted *)

Lemma capture_times p events instrument rows : aligned_rows p events instrument = Ok rows -> Forall (fun e => exists z, event_time e = Ok z) events.
Proof.
  unfold aligned_rows. intros H. apply rbind_ok in H as (st & H & _). revert H. generalize (mkAlignment [] VNone [] []).
  induction events as [|e events IH]; intros st0 H; [constructor|]. cbn [rfold] in H. apply rbind_ok in H as (st1 & H1 & H).
  constructor; [|by eapply IH]. unfold capture_step in H1. apply rbind_ok in H1 as (z & Hz & _). eauto.
Qed.

(** A registered plan passes the evaluator's validation.  What [make_plan]
    returns, [validate_plan] accepts under the same implementation with the same
    specification and window; and on the capture it was registered on the evaluator
    finds the registered prefix unchanged. *)
Theorem registered_plan_valid p impl clock capture spec cycle_id reset_sha256 now_ms plan :
  py_eq impl impl = true -> make_plan p impl clock capture spec cycle_id reset_sha256 now_ms = Ok plan ->
  exists s w identity events, validate_spec p spec = Ok (s, w) /\ validate_plan p impl (VDict plan) = Ok (plan, s, w) /\
    watch_identity capture cycle_id reset_sha256 = Ok identity /\ dget "events" capture = Some (VList events) /\
    (forall sha, get plan "registration_chain_head" = VStr sha -> prefix_changed plan identity events = Ok false).
Proof.
  intros Himpl H. unfold make_plan in H. apply rbind_ok in H as ([s w] & Hs & H).
  destruct (match now_ms with VNone => VInt clock | v => v end) as [| |now| | | | |]; try done. apply when_ok in H as [Hnow%negb_false_iff H].
  apply rbind_ok in H as (identity & Hid & H). apply rbind_ok in H as (events & Hev & H). apply rbind_ok in Hev as (ev & Hev & Hl).
  destruct ev as [| | | | | |evs|]; try done. injection Hl as ->. pose proof Hev as Hev'. unfold item in Hev'.
  destruct (dget "events" capture) as [ev|] eqn:Eev; [|done]. injection Hev' as ->.
  apply rbind_ok in H as (lst & Hlst & H). apply rbind_ok in H as (last_at & Hat & H). apply rbind_ok in H as ([|] & Hlt & H); [done|].
  apply rbind_ok in H as (tape & Htape & H). apply rbind_ok in H as ([|] & _ & H); [done|]. apply rbind_ok in H as (rows & _ & H).
  apply rbind_ok in H as (instrument & _ & H). apply rbind_ok in H as ([|] & _ & H); [done|]. apply rbind_ok in H as (input & _ & H).
  apply rbind_ok in H as (head & Hhead & H). set (body := plan_body _ _ _ _ _ _ _ _ _ _ _ _) in H.
  apply rbind_ok in H as (manifest & Hm & H). apply Ok_inj in H. subst plan.
  assert (Hlast : In lst events) by (unfold last_event in Hlst; destruct (last events) as [x|] eqn:E; [|done]; injection Hlst as ->;
    apply list_elem_of_In; by apply last_Some_elem_of).
  assert (exists z, last_at = VInt z /\ z <= w_training w) as (z & -> & Hz).
  { unfold capture_to_tape in Htape. rewrite Hev in Htape. cbn [rbind as_list] in Htape. apply rbind_ok in Htape as (hd & _ & Htape).
    apply rbind_ok in Htape as (iv & _ & Htape). apply rbind_ok in Htape as (i & _ & Htape). apply rbind_ok in Htape as (rws & Hal & _).
    apply capture_times in Hal. rewrite List.Forall_forall in Hal. destruct (Hal _ Hlast) as [z Hz]. unfold event_time in Hz. rewrite Hat in Hz.
    cbn [rbind] in Hz. destruct last_at as [| |z'| | | | |]; try done. exists z'. split; [done|]. rewrite py_lt_int in Hlt. injection Hlt as Hlt.
    by apply Z.ltb_ge in Hlt. }
  pose proof (validate_spec_ok _ _ _ _ Hs) as (Espec & _). rewrite Espec in Hs.
  exists s, w, identity, events. split; [by rewrite Espec|]. split; [|split; [done|split; [done|]]].
  - unfold validate_plan. change (get _ "schema") with (VStr SCHEMA). change (List.filter _ _) with body. rewrite Hm. cbn [eq_str rbind].
    rewrite bool_decide_eq_true_2 by done. cbn [negb]. change (get _ "manifest_sha256") with (VStr manifest). cbn [eq_str].
    rewrite bool_decide_eq_true_2 by done. cbn [negb]. change (get _ "spec") with (VDict s). rewrite Hs. cbn [rbind fst snd].
    assert (Ht : registered_in_time (body ++ [("manifest_sha256", VStr manifest)]) w = true).
    { change (registered_in_time _ w) with ((w_training w <=? now) && (now <? w_start w) && (z <=? w_training w)). rewrite Hnow. by apply Z.leb_le. }
    assert (Hf : frozen_changed impl (body ++ [("manifest_sha256", VStr manifest)]) = false).
    { unfold frozen_changed. change (get _ "implementation_sha256") with impl. rewrite Himpl. vm_compute. reflexivity. }
    rewrite Ht, Hf. done.
  - intros sha Hsha. change (get _ "registration_chain_head") with head in Hsha. subst head. unfold prefix_changed.
    change (item _ "watch_context_sha256") with (Ok (VStr identity)). cbn [rbind eq_str]. rewrite bool_decide_eq_true_2 by done. cbn [negb].
    change (get _ "registration_event_count") with (VInt (Z.of_nat (length events))).
    assert (Hlen : (1 <= length events)%nat) by (destruct events; [done|simpl; lia]).
    cbn iota. rewrite (proj2 (Z.ltb_ge _ 1)), Z.ltb_irrefl by lia. cbn [orb].
    unfold last_event in Hlst. rewrite last_lookup in Hlst. replace (Z.to_nat (Z.of_nat (length events) - 1)) with (pred (length events)) by lia.
    destruct (events !! pred (length events)) as [e|]; [|done]. injection Hlst as ->. rewrite Hhead. cbn [rbind].
    change (item _ "registration_chain_head") with (Ok (VStr sha)). cbn [rbind py_eq]. by rewrite bool_decide_eq_true_2.
Qed.

End CostOosFacts.

(** * A registered window that passes

    A WATCH capture of one quote is registered; the capture then grows by a candidate
    and a rising quote tape, and the evaluation of the registered window passes. *)

Import CostOosFacts CostReplayScenario.

Module CostOosScenario.

Definition cycle : value := VStr "obs-cycle-0001".
Definition reset : value := VStr (srepeat "a" 64).
Definition context : value :=
  VDict [("mode", VStr "WATCH"); ("broker_mutation_authorized", VBool false); ("cycle_id", cycle); ("reset_sha256", reset)].

Definition chained (at_ms : Z) (kind : string) (data : value) (sha : string) : value :=
  VDict [("at_ms", VInt at_ms); ("event", VStr kind); ("data", data); ("sha256", VStr sha)].

Definition prefix : list value :=
  [chained 1 "HEADER" (VDict [("instrument", VStr "EUR.USD"); ("position_neutral_forecasts_required", VBool true);
                              ("observation_context", context)]) "h0";
   chained (t0 - 60000) "QUOTE" (quote_at (t0 - 60000) "1.1000" "1.1002") "h1"].

Definition later : list value :=
  chained t0 "QUOTE" (quote_at t0 "1.1000" "1.1002") "h2" ::
  chained (t0 + 10) "CANDIDATE" (VDict [("forecast", forecast_at t0)]) "h3" ::
  map (fun i => let at_ms := t0 + 30000 * Z.of_nat i in chained at_ms "QUOTE" (quote_at at_ms "1.1150" "1.1152") "h4") (seq 1 11).

Definition captured (evs : list value) : dict :=
  [("events", VList evs); ("source_kind", VStr "IB_CAPTURE"); ("input_sha256", VStr "i"); ("bytes", VInt 900); ("complete_prefix", VBool true)].

Definition spec : value :=
  VDict [("training_end_ms", VInt (t0 - 50000)); ("decision_start_ms", VInt (t0 - 10)); ("decision_end_ms", VInt (t0 + 1000));
         ("outcome_end_ms", VInt (t0 + 330000)); ("min_directional_candidates", VInt 1); ("min_completed_round_trips", VInt 1);
         ("max_drawdown_usd", VInt 5000); ("max_turnover_usd", VInt 1000000); ("max_reentries", VInt 3); ("size", VInt 20000);
         ("capital", VInt 100000)].
Definition impl : value := VDict [("hepta_cost_oos.py", VStr "9f"); ("hepta_cost_replay.py", VStr "3c")].

Definition plan : dict := ok_or [] (make_plan 28 impl 0 (captured prefix) spec cycle reset (VInt (t0 - 40000))).
Definition report : dict := ok_or [] (evaluate_plan 28 impl (VDict plan) (captured (prefix ++ later))).

Lemma registered_plan_valid_witness :
  exists s w identity events, validate_spec 28 spec = Ok (s, w) /\ validate_plan 28 impl (VDict plan) = Ok (plan, s, w) /\
    watch_identity (captured prefix) cycle reset = Ok identity /\ dget "events" (captured prefix) = Some (VList events) /\
    (forall sha, get plan "registration_chain_head" = VStr sha -> prefix_changed plan identity events = Ok false).
Proof.
  apply (registered_plan_valid 28 impl 0 (captured prefix) spec cycle reset (VInt (t0 - 40000)) plan).
  - vm_compute. reflexivity.
  - apply is_ok_value. vm_compute. reflexivity.
Defined.

Lemma evaluated : evaluate_plan 28 impl (VDict plan) (captured (prefix ++ later)) = Ok report.
Proof. apply is_ok_value. vm_compute. reflexivity. Qed.
Lemma report_accepted : get report "strategy_accepted" = VBool true.
Proof. vm_compute. reflexivity. Qed.

(** The plan is evaluated on the longer capture and the strategy is accepted. *)
Lemma oos_preregistered_witness :
  exists d spec w tape rows stress, VDict plan = VDict d /\ registered 28 impl d spec w /\
    capture_to_tape 28 (captured (prefix ++ later)) = Ok tape /\
    stressed_paths 28 tape rows (w_start w) (w_end w) (w_outcome w) (get spec "size") (get spec "capital") DEFAULT_POLICY stress /\
    get report "status" = VStr "PASS" /\
    accepted 28 tape rows (w_start w) (w_outcome w) (VInt (w_training w)) (VInt (w_outcome w)) (get spec "max_drawdown_usd")
      (get spec "min_directional_candidates") (get spec "min_completed_round_trips") (get spec "max_turnover_usd")
      (get spec "max_reentries") stress.
Proof.
  destruct (oos_preregistered 28 impl (VDict plan) (captured (prefix ++ later)) report evaluated)
    as (d & sp & w & events & n & e & sha & head & H1 & H2 & _ & _ & _ & _ & _ & _ & H).
  destruct (H report_accepted) as (tape & rows & instrument & assessment & stress & H3 & _ & _ & _ & _ & H4 & _ & H5 & H6).
  exists d, sp, w, tape, rows, stress. do 5 (split; [assumption|]). assumption.
Defined.

(** The tape of the capture, assessed on its own with the same bounds. *)
Definition tape : dict := ok_or [] (capture_to_tape 28 (captured (prefix ++ later))).
Definition assessment : dict :=
  ok_or [] (chronological_assessment 28 (VDict tape) (VInt (t0 - 10)) (VInt (t0 + 1000)) (VInt 20000) (VInt 100000) (VInt 5000) DEFAULT_POLICY
    (VInt (t0 - 50000)) (VInt (t0 + 330000)) (VInt 1) (VInt 1) (VInt 1000000) (VInt 3)).
Lemma assessment_made : chronological_assessment 28 (VDict tape) (VInt (t0 - 10)) (VInt (t0 + 1000)) (VInt 20000) (VInt 100000) (VInt 5000) DEFAULT_POLICY
    (VInt (t0 - 50000)) (VInt (t0 + 330000)) (VInt 1) (VInt 1) (VInt 1000000) (VInt 3) = Ok assessment.
Proof. apply is_ok_value. vm_compute. reflexivity. Qed.
Lemma assessment_accepted : get assessment "strategy_accepted" = VBool true.
Proof. vm_compute. reflexivity. Qed.

Lemma oos_acceptance_sound_witness : exists t rows stress, VDict tape = VDict t /\
  stressed_paths 28 t rows (t0 - 10) (t0 + 1000) (t0 + 330000) (VInt 20000) (VInt 100000) DEFAULT_POLICY stress /\ length stress = 5%nat /\
  accepted 28 t rows (t0 - 10) (t0 + 330000) (VInt (t0 - 50000)) (VInt (t0 + 330000)) (VInt 5000) (VInt 1) (VInt 1) (VInt 1000000) (VInt 3) stress.
Proof.
  destruct (oos_acceptance_sound 28 (VDict tape) (VInt (t0 - 10)) (VInt (t0 + 1000)) (VInt 20000) (VInt 100000) (VInt 5000) DEFAULT_POLICY
    (VInt (t0 - 50000)) (VInt (t0 + 330000)) (VInt 1) (VInt 1) (VInt 1000000) (VInt 3) assessment assessment_made)
    as (t & s & d & l & rows & stress & H1 & _ & Hs & Hd & _ & _ & H2 & _ & H).
  specialize (H assessment_accepted). injection Hs as <-. injection Hd as <-. pose proof H as (_ & Hl & _). injection Hl as <-.
  exists t, rows, stress. split; [exact H1|]. split; [exact H2|]. split; [|exact H].
  destruct H2 as (ev & _ & _ & Hf). apply Forall2_length in Hf. symmetry. exact Hf.
Defined.
End CostOosScenario.
