(* ===== verification/OmsJournal.v ===== *)
(** * The OMS journal reader

    Model of [scripts/verify_oms_journal_replay.py]: the strict reader of the
    newline-delimited journal ([validated_raw_records]), the schema check of one
    record ([validate_event]) and the structural replay ([replay]).  The reader is a
    generator over the chunks of the file: what it yielded before an error stays
    yielded, so its result is the list of yielded records together with the way it
    ended.  For an expanded journal the chunks are those of
    [oms_archive_codec.decoded_chunks]; the gzip branch of that function is a
    decompressor and is not modelled, but the reader is modelled on every sequence of
    chunks. *)

From Stdlib Require Import Floats.SpecFloat Ascii.
From S2P Require Import Prelude PyText PyValue PyOrder PyBytes PyFloat PyJson.
From stdpp Require Import base tactics list strings.
From Stdlib Require Import ZArith Lia Bool.

Open Scope Z_scope.

Definition CURRENT_SCHEMA : Z := 4.
Definition DEFAULT_MAX_BYTES : Z := 64 * 1024 * 1024.
Definition DEFAULT_MAX_RECORDS : Z := 65536.
Definition DEFAULT_MAX_RECORD_BYTES : Z := 256 * 1024.

Definition NUMERIC_FIELDS : list string := ["qty"; "price"; "broker_remaining_quantity"; "broker_market_cap_price"].
Definition STRING_FIELDS : list string :=
  ["event"; "client_req_id"; "instrument"; "side"; "status"; "reason"; "source"; "trace_id"; "req_id"; "risk_code"; "venue";
   "strategy"; "account"; "event_id"; "execution_domain"; "request_hash"; "venue_correlation_id"; "broker_callback_type";
   "broker_service_epoch"; "broker_message"; "broker_advanced_order_reject_json"; "broker_why_held"; "broker_execution_id"].
Definition INTEGER_FIELDS : list string := ["broker_connection_epoch"; "broker_request_id"; "broker_error_code"].

Definition journal_error (reason : string) : exn := Exn JournalError reason.
(** [JournalError(f"line {line}: ...")] *)
Definition line_error (line : Z) (reason : string) : exn := journal_error ("line " +:+ str_int line +:+ ": " +:+ reason).

(** ** The decoder hooks *)

Definition unique_step (d : dict) (kv : string * value) : res dict :=
  when dhas kv.1 d raise journal_error ("duplicate key " +:+ repr_str kv.1) in Ok (dset kv.1 kv.2 d).
Definition unique_object (pairs : list (string * value)) : res dict := rfold unique_step pairs [].
Definition reject_constant (name : string) : res value := Raise (journal_error ("non-finite JSON constant " +:+ name)).

(** ** One record *)

(** [isinstance(v, bool) or not isinstance(v, int)] *)
Definition require_integer (event : dict) (key : string) (line : Z) : res Z :=
  match get event key with
  | VInt z => Ok z
  | _ => Raise (line_error line (key +:+ " must be an integer"))
  end.

(** [math.isfinite(float(v))]: the conversion of a large integer raises [OverflowError]. *)
Definition finite_number (v : value) : res bool := let! f := to_float v in Ok (is_finite f).

Definition is_number (v : value) : bool := match v with VInt _ | VFloat _ => true | _ => false end.

Definition check_string (event : dict) (line : Z) (u : unit) (key : string) : res unit :=
  when negb (is_str (getd (VStr "") event key)) raise line_error line (key +:+ " must be a string") in Ok tt.

Definition check_number (event : dict) (line : Z) (u : unit) (key : string) : res unit :=
  let field := getd (VFloat (S754_zero false)) event key in
  when negb (is_number field) raise line_error line (key +:+ " must be numeric") in
  when! pnot (finite_number field) raise line_error line (key +:+ " must be finite") in Ok tt.

Definition check_integer (event : dict) (line : Z) (u : unit) (key : string) : res unit :=
  when negb (is_int (getd (VInt 0) event key)) raise line_error line (key +:+ " must be an integer") in Ok tt.

Definition validate_event (v : value) (line : Z) : res dict :=
  match v with
  | VDict event =>
      match getd (VInt 1) event "schema_version" with
      | VInt schema =>
          when schema <? 1 raise line_error line "invalid schema_version" in
          when CURRENT_SCHEMA <? schema raise line_error line
            ("schema_version " +:+ str_int schema +:+ " is newer than supported " +:+ str_int CURRENT_SCHEMA) in
          when negb (nonempty_str (get event "event")) raise line_error line "event must be a non-empty string" in
          let! _ := require_integer event "ts_ms" line in
          when negb (is_int (getd (VInt (-1)) event "order_id")) raise line_error line "order_id must be an integer" in
          let! _ := rfold (check_string event line) STRING_FIELDS tt in
          let! _ := rfold (check_number event line) NUMERIC_FIELDS tt in
          let! _ := rfold (check_integer event line) INTEGER_FIELDS tt in
          when! py_lt (getd (VInt 0) event "broker_connection_epoch") (VInt 0)
            raise line_error line "broker_connection_epoch must be non-negative" in
          Ok (dset "_line" (VInt line) event)
      | _ => Raise (line_error line "invalid schema_version")
      end
  | _ => Raise (line_error line "record must be a JSON object")
  end.

(** The decoding of one line; the decoder's own errors become journal errors. *)
Definition is_decode_error (c : exc_class) : bool :=
  match c with JSONDecodeError | UnicodeError | RecursionError => true | _ => false end.

Definition decode_record (raw : string) (number : Z) : res value :=
  match (let! text := utf8 raw in loads_with unique_object reject_constant text) with
  | Raise e => if is_decode_error (ecls e) then Raise (line_error number "invalid JSON") else Raise e
  | r => r
  end.

(** ** The stream of records *)

Record Limits := mkLimits { max_bytes : Z; max_records : Z; max_record_bytes : Z }.

Definition budget_invalid (limit ceiling : Z) : bool := (limit <? 1) || (ceiling <? limit).

Definition check_limits (l : Limits) : res unit :=
  when budget_invalid (max_bytes l) (1024 ^ 3) raise journal_error "invalid bytes budget" in
  when budget_invalid (max_records l) 1000000 raise journal_error "invalid records budget" in
  when budget_invalid (max_record_bytes l) (1024 ^ 2) raise journal_error "invalid record bytes budget" in Ok tt.

(** The generator's state; [sc_out] is what was yielded. *)
Record Scan := mkScan {
  sc_bytes : Z; sc_pending : string; sc_records : Z; sc_largest : Z; sc_out : list (string * dict) }.

Definition scan_start : Scan := mkScan 0 EmptyString 0 0 [].

(** How the generator ended: normally or with an exception. *)
Definition ended : Type := Scan * option exn.

(** A complete record is pending: check, decode, validate and yield it. *)
Definition complete_record (l : Limits) (st : Scan) : ended :=
  let number := sc_records st + 1 in
  let raw := sc_pending st in
  match
    (when max_records l <? number raise journal_error "OMS_REPLAY_RECORD_COUNT_LIMIT" in
     when bool_decide (raw = EmptyString) raise line_error number "empty record" in
     let! v := decode_record raw number in
     validate_event v number)
  with
  | Ok event =>
      (mkScan (sc_bytes st) EmptyString number (Z.max (sc_largest st) (slen raw)) (sc_out st ++ [(raw +:+ newline, event)]), None)
  | Raise e => (st, Some e)
  end.

(** The part of a chunk before its first newline, and what follows it. *)
Fixpoint find_newline (s : string) : string * option string :=
  match s with
  | EmptyString => (EmptyString, None)
  | String c r =>
      if bool_decide (c = nl) then (EmptyString, Some r)
      else let p := find_newline r in (String c p.1, p.2)
  end.

(** The loop over one chunk: every iteration but the last consumes a newline, so
    the length of the chunk bounds the iterations. *)
Fixpoint scan_loop (l : Limits) (fuel : nat) (st : Scan) (chunk : string) : ended :=
  match fuel, chunk with
  | S fuel, String _ _ =>
      let p := find_newline chunk in
      if max_record_bytes l - slen (sc_pending st) <? slen p.1 then (st, Some (journal_error "OMS_REPLAY_RECORD_BYTE_LIMIT"))
      else
        let st := mkScan (sc_bytes st) (sc_pending st +:+ p.1) (sc_records st) (sc_largest st) (sc_out st) in
        match p.2 with
        | None => (st, None)
        | Some rest =>
            match complete_record l st with
            | (st, None) => scan_loop l fuel st rest
            | stop => stop
            end
        end
  | _, _ => (st, None)
  end.

Definition scan_chunk (l : Limits) (st : Scan) (chunk : string) : ended :=
  scan_loop l (String.length chunk)
    (mkScan (sc_bytes st + slen chunk) (sc_pending st) (sc_records st) (sc_largest st) (sc_out st)) chunk.

Fixpoint scan_chunks (l : Limits) (st : Scan) (chunks : list string) : ended :=
  match chunks with
  | [] => (st, if bool_decide (sc_pending st = EmptyString) then None else Some (journal_error "OMS_REPLAY_TORN_RECORD"))
  | c :: chunks => match scan_chunk l st c with (st, None) => scan_chunks l st chunks | stop => stop end
  end.

(** The chunks of an expanded journal. *)
Definition CHUNK : nat := 8192%nat.

Fixpoint split_chunks (fuel : nat) (n : nat) (data : string) : list string :=
  match fuel, data with
  | S fuel, String _ _ => stake n data :: split_chunks fuel n (sdrop n data)
  | _, _ => []
  end.

Definition plain_chunks (data : string) (limit : Z) : res (list string) :=
  when limit <? slen data raise journal_error "OMS_REPLAY_BYTE_LIMIT" in
  Ok (split_chunks (String.length data) CHUNK data).

Definition validated_raw_records (data : string) (l : Limits) : ended :=
  match check_limits l with
  | Raise e => (scan_start, Some e)
  | Ok _ =>
      match plain_chunks data (max_bytes l) with
      | Raise e => (scan_start, Some e)
      | Ok chunks => scan_chunks l scan_start chunks
      end
  end.

(** ** Structural replay *)

Definition or_field (event : dict) (a b : string) : value :=
  let v := get event a in if truthy v then v else getd (VStr "") event b.

Definition dedup_key (event : dict) : list value :=
  let event_id := getd (VStr "") event "event_id" in
  if truthy event_id then [VStr "event_id"; event_id]
  else [VStr "compat"; getd (VStr "") event "event"; getd (VInt 0) event "ts_ms"; getd (VInt (-1)) event "order_id";
        or_field event "req_id" "client_req_id"; getd (VStr "") event "status"; getd (VStr "") event "reason";
        getd (VStr "") event "source"].

(** Dictionaries with arbitrary hashable keys, compared as Python compares them. *)
Fixpoint vget {A} (k : value) (d : list (value * A)) : option A :=
  match d with [] => None | (k', x) :: d => if py_eq k k' then Some x else vget k d end.
Fixpoint vset {A} (k : value) (x : A) (d : list (value * A)) : list (value * A) :=
  match d with [] => [(k, x)] | (k', y) :: d => if py_eq k k' then (k', x) :: d else (k', y) :: vset k x d end.

Record Replay := mkReplay {
  rp_counts : list (value * Z); rp_orders : list (value * dict); rp_seen : list (list value); rp_duplicates : Z }.

Definition set_if (c : bool) (k : string) (v : value) (d : dict) : dict := if c then dset k v d else d.

(** [float(v) > 0.0], which raises on a value that is no number and on an integer beyond the floats *)
Definition positive_float (v : value) : res bool := let! f := to_float v in Ok (fltb fzero f).
(** [bool(id and float(qty) > 0.0 and float(price) > 0.0)] *)
Definition economic (event : dict) : res bool :=
  Ok (truthy (get event "broker_execution_id")) &&? positive_float (getd (VFloat fzero) event "qty") &&?
  positive_float (getd (VFloat fzero) event "price").

Definition reject_reason (event : dict) : value :=
  let a := get event "risk_code" in
  let b := get event "reason" in
  if truthy a then a else if truthy b then b else getd (VStr "") event "broker_message".

(** The state of one order after an event of the given type. *)
Definition replay_order (event : dict) (kind ts : value) (state : dict) : res dict :=
  let request_id := or_field event "req_id" "client_req_id" in
  let one_of k := in_strs kind k in
  let s := dset "last_ts_ms" ts (dset "last_event" kind state) in
  let s := set_if (truthy request_id) "req_id" request_id s in
  let s := set_if (truthy (get event "venue_correlation_id")) "venue_correlation_id" (get event "venue_correlation_id") s in
  let s := set_if (truthy (get event "broker_execution_id")) "broker_execution_id" (get event "broker_execution_id") s in
  let s := set_if (one_of ["place_sent"; "broker_order_accepted"]) "sent_or_accepted" (VBool true) s in
  let status := one_of ["status"; "broker_order_status"; "broker_completed_order"] in
  let s := set_if status "last_status" (getd (VStr "") event "status") s in
  let s := set_if status "remaining_quantity" (getd (VFloat fzero) event "broker_remaining_quantity") s in
  let! s := (if one_of ["broker_execution"]
             then let! observed := economic event in Ok (dset "economic_execution_observed" (VBool observed) s)
             else Ok s) in
  let s := set_if (one_of ["cancel"; "cancel_command_resolved"]) "cancel_observed" (VBool true) s in
  Ok (set_if (one_of ["reject"; "risk_blocked"; "broker_error"]) "last_reject_reason" (reject_reason event) s).

(** One event of the loop.  [key in seen] hashes every field of the key, [counts[event_type]]
    the type, and [order_id <= 0] compares: each raises [TypeError] on a value that does not
    support it. *)
Definition replay_step (st : Replay) (event : dict) : res Replay :=
  let key := dedup_key event in
  when negb (forallb hashable key) raise type_error in
  if existsb (fun k => py_eq (VList key) (VList k)) (rp_seen st)
  then Ok (mkReplay (rp_counts st) (rp_orders st) (rp_seen st) (rp_duplicates st + 1))
  else
    let seen := rp_seen st ++ [key] in
    let! kind := item event "event" in
    when negb (hashable kind) raise type_error in
    let counts := vset kind (default 0 (vget kind (rp_counts st)) + 1) (rp_counts st) in
    let order_id := getd (VInt (-1)) event "order_id" in
    let! nowhere := py_le order_id (VInt 0) in
    if nowhere : bool then Ok (mkReplay counts (rp_orders st) seen (rp_duplicates st))
    else
      let! ts := item event "ts_ms" in
      let! state := replay_order event kind ts (default [] (vget order_id (rp_orders st))) in
      Ok (mkReplay counts (vset order_id state (rp_orders st)) seen (rp_duplicates st)).

Definition replay_journal (events : list dict) : res Replay := rfold replay_step events (mkReplay [] [] [] 0).
