(* ===== verification/OmsJournalFacts.v ===== *)
(** * The journal reader yields the journal

    The reader works on chunks of the file and keeps a partial record between them.
    [feed] is the reference machine that reads one byte at a time; the chunked loop
    ends as it does, so the records do not depend on how the file was cut, and they
    are, byte for byte, the file. *)

From Stdlib Require Import Floats.SpecFloat Ascii.
From S2P Require Import Prelude PyText PyValue PyOrder PyBytes PyFloat PyJson OmsJournal.
From stdpp Require Import base tactics list strings.
From Stdlib Require Import ZArith Lia Bool.

Open Scope Z_scope.

(** ** The byte-at-a-time machine *)

Definition feed (l : Limits) (r : ended) (c : ascii) : ended :=
  match r with
  | (st, None) =>
      if bool_decide (c = nl) then complete_record l st
      else if max_record_bytes l <? slen (sc_pending st) + 1 then (st, Some (journal_error "OMS_REPLAY_RECORD_BYTE_LIMIT"))
      else (mkScan (sc_bytes st) (sc_pending st +:+ String c EmptyString) (sc_records st) (sc_largest st) (sc_out st), None)
  | stop => stop
  end.

Fixpoint feed_all (l : Limits) (r : ended) (s : string) : ended :=
  match s with EmptyString => r | String c s => feed_all l (feed l r c) s end.

(** Two runs end alike: the same records, the same exception, and the same state
    (the byte count aside) when there is none. *)
#[export] Instance ended_equiv : Equiv ended := fun a b =>
  a.2 = b.2 /\ sc_out a.1 = sc_out b.1 /\
  (a.2 = None -> sc_pending a.1 = sc_pending b.1 /\ sc_records a.1 = sc_records b.1 /\ sc_largest a.1 = sc_largest b.1).

#[export] Instance ended_equivalence : Equivalence (≡@{ended}).
Proof.
  split.
  - intros a. repeat split.
  - intros a b (H1 & H2 & H3). split; [done|]. split; [done|]. intros E. destruct (H3 (eq_trans H1 E)) as (? & ? & ?). done.
  - intros a b c (H1 & H2 & H3) (K1 & K2 & K3). split; [congruence|]. split; [congruence|]. intros E.
    destruct (H3 E) as (? & ? & ?). destruct K3 as (? & ? & ?); [congruence|]. repeat split; congruence.
Qed.

Lemma complete_record_proper l st st' :
  sc_out st = sc_out st' -> sc_pending st = sc_pending st' -> sc_records st = sc_records st' -> sc_largest st = sc_largest st' ->
  complete_record l st ≡ complete_record l st'.
Proof.
  destruct st, st'; simpl. intros -> -> -> ->. unfold complete_record; simpl.
  destruct (if max_records l <? _ then _ else _); done.
Qed.

#[export] Instance feed_proper l : Proper ((≡) ==> (=) ==> (≡)) (feed l).
Proof.
  intros [st o] [st' o'] (H1 & H2 & H3) c ? <-. simpl in *. subst o'. destruct o as [e|]; [done|].
  destruct (H3 eq_refl) as (Hp & Hr & Hl). simpl. case_bool_decide; [by apply complete_record_proper|].
  rewrite Hp. destruct (_ <? _); [done|]. repeat split; simpl; congruence.
Qed.

#[export] Instance feed_all_proper l : Proper ((≡) ==> (=) ==> (≡)) (feed_all l).
Proof.
  intros r r' Hr s ? <-. revert r r' Hr. induction s as [|c s IH]; intros r r' Hr; simpl; [done|]. apply IH. by rewrite Hr.
Qed.

Lemma feed_all_stop l st e s : feed_all l (st, Some e) s = (st, Some e).
Proof. induction s; simpl; auto. Qed.

Lemma feed_all_app l r s t : feed_all l r (s +:+ t) = feed_all l (feed_all l r s) t.
Proof. revert r; induction s as [|c s IH]; intros r; [done|]. rewrite append_cons. simpl. apply IH. Qed.

(** ** The loop over a chunk *)

Lemma find_newline_spec s :
  let p := find_newline s in
  no_char nl p.1 = true /\ s = p.1 +:+ match p.2 with Some rest => String nl rest | None => EmptyString end.
Proof.
  induction s as [|c s IH]; [done|]. cbn [find_newline]. case_bool_decide as E; [subst; done|]. cbn zeta in *.
  destruct IH as [H1 H2]. cbn [fst snd]. split.
  - unfold no_char in *. cbn [sforall]. by rewrite H1, bool_decide_eq_false_2.
  - rewrite append_cons. congruence.
Qed.

Lemma feed_fragment l st frag :
  no_char nl frag = true -> slen (sc_pending st) <= max_record_bytes l ->
  feed_all l (st, None) frag ≡
  if max_record_bytes l - slen (sc_pending st) <? slen frag then (st, Some (journal_error "OMS_REPLAY_RECORD_BYTE_LIMIT"))
  else (mkScan (sc_bytes st) (sc_pending st +:+ frag) (sc_records st) (sc_largest st) (sc_out st), None).
Proof.
  revert st; induction frag as [|c frag IH]; intros st Hn Hp; cbn [slen feed_all].
  - rewrite (proj2 (Z.ltb_ge _ _)) by lia. rewrite append_nil_r. by destruct st.
  - unfold no_char in Hn. cbn [sforall] in Hn. apply andb_prop in Hn as [Hc Hn]. apply negb_true_iff in Hc.
    cbn [feed]. rewrite Hc. pose proof (slen_nonneg frag). destruct (Z.ltb_spec (max_record_bytes l) (slen (sc_pending st) + 1)).
    + rewrite feed_all_stop, (proj2 (Z.ltb_lt _ _)) by lia. done.
    + rewrite IH; [|done|simpl; rewrite slen_app; simpl; lia]. cbn [sc_pending sc_bytes sc_records sc_largest sc_out].
      rewrite slen_app, append_assoc. cbn [slen]. rewrite Z.add_0_r.
      destruct (Z.ltb_spec (max_record_bytes l - (slen (sc_pending st) + 1)) (slen frag)),
        (Z.ltb_spec (max_record_bytes l - slen (sc_pending st)) (1 + slen frag)); try lia; [|reflexivity].
      split; [done|]. split; [done|]. by intros [=].
Qed.

Lemma complete_record_pending l st st' : complete_record l st = (st', None) -> sc_pending st' = EmptyString.
Proof. unfold complete_record. destruct (if max_records l <? _ then _ else _); [|done]. by intros [= <-]. Qed.

Lemma complete_record_bytes l st st' : complete_record l st = (st', None) -> sc_bytes st' = sc_bytes st.
Proof. unfold complete_record. destruct (if max_records l <? _ then _ else _); [|done]. by intros [= <-]. Qed.

Lemma scan_loop_feed l fuel st chunk :
  (String.length chunk <= fuel)%nat -> 0 <= max_record_bytes l -> slen (sc_pending st) <= max_record_bytes l ->
  scan_loop l fuel st chunk ≡ feed_all l (st, None) chunk.
Proof.
  intros Hf Hm. revert st chunk Hf. induction fuel as [|fuel IH]; intros st [|c0 r0] Hf Hp; try done; [simpl in Hf; lia|].
  remember (String c0 r0) as chunk eqn:Ec. destruct (find_newline_spec chunk) as [Hn Hs].
  assert (E : scan_loop l (S fuel) st chunk =
    let p := find_newline chunk in
    if max_record_bytes l - slen (sc_pending st) <? slen p.1 then (st, Some (journal_error "OMS_REPLAY_RECORD_BYTE_LIMIT"))
    else let st := mkScan (sc_bytes st) (sc_pending st +:+ p.1) (sc_records st) (sc_largest st) (sc_out st) in
      match p.2 with
      | None => (st, None)
      | Some rest => match complete_record l st with (st, None) => scan_loop l fuel st rest | stop => stop end
      end) by (by rewrite Ec).
  rewrite E. clear E. cbn zeta. destruct (find_newline chunk) as [frag [rest|]]; cbn [fst snd] in *.
  - rewrite Hs, feed_all_app, feed_fragment by done. destruct (_ <? _) eqn:El; [by rewrite feed_all_stop|].
    cbn [feed_all feed]. rewrite bool_decide_eq_true_2 by done.
    destruct (complete_record l _) as [st2 [e|]] eqn:Ecr; [by rewrite feed_all_stop|].
    apply IH.
    + assert (Hlen : slen chunk = slen frag + (1 + slen rest)) by (rewrite Hs, slen_app; done).
      rewrite !slen_length in Hlen. lia.
    + apply complete_record_pending in Ecr as ->. done.
  - rewrite append_nil_r in Hs. subst frag. rewrite feed_fragment by done. by destruct (_ <? _).
Qed.

(** ** Chunks *)

(** What every step of the machine maintains. *)
Record scan_wf (l : Limits) (st : Scan) : Prop := {
  wf_pending : slen (sc_pending st) <= max_record_bytes l;
  wf_no_newline : no_char nl (sc_pending st) = true;
  wf_count : sc_records st = Z.of_nat (length (sc_out st));
  wf_limit : sc_records st <= Z.max 0 (max_records l);
  wf_records : forall i raw event, sc_out st !! i = Some (raw, event) ->
    exists line v, raw = line +:+ newline /\ line <> EmptyString /\ no_char nl line = true /\ slen line <= max_record_bytes l /\
      decode_record line (Z.of_nat i + 1) = Ok v /\ validate_event v (Z.of_nat i + 1) = Ok event
}.

Lemma no_char_app c s t : no_char c (s +:+ t) = no_char c s && no_char c t.
Proof. apply sforall_app. Qed.

Lemma feed_wf l st st' c :
  scan_wf l st -> feed l (st, None) c = (st', None) ->
  scan_wf l st' /\ concat_text (map fst (sc_out st')) +:+ sc_pending st' =
    (concat_text (map fst (sc_out st)) +:+ sc_pending st) +:+ String c EmptyString.
Proof.
  intros [Hp Hn Hc Hl Hr] H. cbn [feed] in H. case_bool_decide as Ec.
  - unfold complete_record in H. case_match eqn:Ev; [|done]. injection H as <-. inv_ok Ev. case_bool_decide; [done|].
    inv_ok Ev. split_bools. split.
    + constructor; simpl; [pose proof (slen_nonneg (sc_pending st)); lia|done|rewrite length_app; simpl; lia|lia|].
      intros i raw event Hi. apply lookup_app_Some in Hi as [Hi|[Hge Hi]]; [by apply Hr|].
      apply list_lookup_singleton_Some in Hi as [Hi [= <- <-]]. assert (Ei : Z.of_nat i + 1 = sc_records st + 1) by lia.
      rewrite Ei. exists (sc_pending st), a0. done.
    + subst c. simpl. rewrite map_app, concat_text_app. simpl. by rewrite !append_nil_r, append_assoc.
  - destruct (_ <? _) eqn:El; [done|]. injection H as <-. split_bools. split.
    + constructor; simpl; [rewrite slen_app; simpl; lia| |done|done|done].
      rewrite no_char_app, Hn. unfold no_char. cbn [sforall andb]. by rewrite bool_decide_eq_false_2.
    + simpl. by rewrite append_assoc.
Qed.

Lemma feed_all_wf l st st' s :
  scan_wf l st -> feed_all l (st, None) s = (st', None) ->
  scan_wf l st' /\ concat_text (map fst (sc_out st')) +:+ sc_pending st' =
    (concat_text (map fst (sc_out st)) +:+ sc_pending st) +:+ s.
Proof.
  revert st; induction s as [|c s IH]; intros st Hwf H; cbn [feed_all] in H.
  - injection H as <-. by rewrite append_nil_r.
  - destruct (feed l (st, None) c) as [st1 [e|]] eqn:E; [by rewrite feed_all_stop in H|].
    destruct (feed_wf l st st1 c Hwf E) as [Hwf1 E1]. destruct (IH st1 Hwf1 H) as [Hwf2 E2]. split; [done|].
    rewrite E2, E1, append_assoc. done.
Qed.

Lemma feed_pending l st st' c :
  slen (sc_pending st) <= max_record_bytes l -> 0 <= max_record_bytes l ->
  feed l (st, None) c = (st', None) -> slen (sc_pending st') <= max_record_bytes l.
Proof.
  intros Hp Hm. cbn [feed]. case_bool_decide.
  - intros E%complete_record_pending. by rewrite E.
  - destruct (_ <? _) eqn:El; [done|]. intros [= <-]. split_bools. simpl. rewrite slen_app. simpl. lia.
Qed.

Lemma feed_all_pending l st st' s :
  slen (sc_pending st) <= max_record_bytes l -> 0 <= max_record_bytes l ->
  feed_all l (st, None) s = (st', None) -> slen (sc_pending st') <= max_record_bytes l.
Proof.
  revert st; induction s as [|c s IH]; intros st Hp Hm H; cbn [feed_all] in H; [by injection H as <-|].
  destruct (feed l (st, None) c) as [st1 [e|]] eqn:E; [by rewrite feed_all_stop in H|].
  apply (IH st1); [by eapply feed_pending|done|done].
Qed.

(** The end of the stream: a partial record is an error. *)
Definition finish (r : ended) : ended :=
  match r with
  | (st, None) => (st, if bool_decide (sc_pending st = EmptyString) then None else Some (journal_error "OMS_REPLAY_TORN_RECORD"))
  | stop => stop
  end.

#[export] Instance finish_proper : Proper ((≡) ==> (≡)) finish.
Proof.
  intros [st o] [st' o'] (H1 & H2 & H3). simpl in *. subst o'. destruct o as [e|]; [done|].
  destruct (H3 eq_refl) as (Hp & Hr & Hl). simpl. rewrite Hp. by case_bool_decide.
Qed.

Lemma scan_chunks_feed l st chunks :
  0 <= max_record_bytes l -> slen (sc_pending st) <= max_record_bytes l ->
  scan_chunks l st chunks ≡ finish (feed_all l (st, None) (concat_text chunks)).
Proof.
  intros Hm. revert st; induction chunks as [|c chunks IH]; intros st Hp; cbn [scan_chunks]; [done|].
  cbn [concat_text foldr]. fold (concat_text chunks). rewrite feed_all_app.
  pose (st0 := mkScan (sc_bytes st + slen c) (sc_pending st) (sc_records st) (sc_largest st) (sc_out st)).
  assert (H0 : scan_chunk l st c ≡ feed_all l (st, None) c).
  { unfold scan_chunk. rewrite scan_loop_feed by done. apply feed_all_proper; [|done]. by repeat split. }
  rewrite <- H0. destruct (scan_chunk l st c) as [st1 [e|]] eqn:E1; [by rewrite feed_all_stop|].
  apply IH. destruct H0 as (Ho & _ & Hs). destruct (feed_all l (st, None) c) as [st2 o2] eqn:E2. simpl in Ho. subst o2.
  destruct (Hs eq_refl) as [Hq _]. simpl in Hq. rewrite Hq. by eapply feed_all_pending.
Qed.

Lemma check_limits_ok l u : check_limits l = Ok u -> 1 <= max_bytes l /\ 1 <= max_records l /\ 1 <= max_record_bytes l.
Proof. unfold check_limits, budget_invalid. intros H. inv_ok H. split_bools. lia. Qed.

Lemma scan_start_wf l : 0 <= max_record_bytes l -> scan_wf l scan_start.
Proof. intros. constructor; simpl; try done; lia. Qed.

Lemma scan_bytes l st chunks st' :
  scan_chunks l st chunks = (st', None) -> sc_bytes st' = sc_bytes st + slen (concat_text chunks).
Proof.
  assert (Hloop : forall fuel st c st', scan_loop l fuel st c = (st', None) -> sc_bytes st' = sc_bytes st).
  { induction fuel as [|fuel IH]; intros s [|c r] s' H; cbn [scan_loop] in H; try (by injection H as <-).
    destruct (_ <? _); [done|]. destruct (find_newline _).2 as [rest|]; [|by injection H as <-].
    destruct (complete_record l _) as [s2 [e|]] eqn:E; [done|]. apply complete_record_bytes in E. apply IH in H. by rewrite H, E. }
  revert st; induction chunks as [|c chunks IH]; intros st H; cbn [scan_chunks] in H.
  - injection H as <- _. simpl. lia.
  - destruct (scan_chunk l st c) as [st1 [e|]] eqn:E; [done|]. apply IH in H. unfold scan_chunk in E. apply Hloop in E.
    simpl in E. cbn [concat_text foldr]. rewrite slen_app. fold (concat_text chunks). lia.
Qed.

(** ** Validated events are well typed *)

Definition is_text (v : value) : Prop := exists s, v = VStr s.

(** What a successful check leaves true of the fields the program reads. *)
Record event_typed (e : dict) : Prop := {
  typed_kind : exists s, dget "event" e = Some (VStr s) /\ s <> EmptyString;
  typed_ts : exists z, dget "ts_ms" e = Some (VInt z);
  typed_order : exists z, getd (VInt (-1)) e "order_id" = VInt z;
  typed_text : forall k, In k STRING_FIELDS -> is_text (getd (VStr "") e k);
  typed_number : forall k, In k NUMERIC_FIELDS -> exists f, to_float (getd (VFloat fzero) e k) = Ok f /\ is_finite f = true
}.

Lemma rfold_unit {B} (f : unit -> B -> res unit) l u : rfold f l tt = Ok u -> forall x, In x l -> f tt x = Ok tt.
Proof.
  revert u; induction l as [|y l IH]; intros u H x []; simpl in H; inv_ok H.
  - subst. by destruct a.
  - destruct a. eauto.
Qed.

Lemma getd_dset_ne dflt k k' v e : k <> k' -> getd dflt (dset k' v e) k = getd dflt e k.
Proof. intros. unfold getd, dget_or. by rewrite dget_dset_ne. Qed.

Lemma validate_event_typed v line e : validate_event v line = Ok e -> event_typed e.
Proof.
  unfold validate_event. destruct v as [| | | | | | |event]; try done.
  destruct (getd (VInt 1) event "schema_version") as [| |schema| | | | |]; try done. intros H. inv_ok H. subst e. split_bools.
  constructor.
  - rewrite dget_dset_ne by done. apply nonempty_str_true in Hc1 as (s & Hs & Hne).
    unfold get, getd, dget_or in Hs. destruct (dget "event" event) eqn:E; [|done]. subst. eauto.
  - rewrite dget_dset_ne by done. unfold require_integer, get, getd, dget_or in Ha.
    destruct (dget "ts_ms" event) as [w|]; [|done]. destruct w; try done. eauto.
  - rewrite getd_dset_ne by done. destruct (getd (VInt (-1)) event "order_id"); try done. eauto.
  - intros k Hk. rewrite getd_dset_ne by (intros ->; cbn in Hk; intuition discriminate).
    pose proof (rfold_unit (check_string event line) STRING_FIELDS a0 Ha0 k Hk) as Hs. unfold check_string in Hs. inv_ok Hs. split_bools.
    destruct (getd (VStr "") event k); try done. by eexists.
  - intros k Hk. rewrite getd_dset_ne by (intros ->; cbn in Hk; intuition discriminate).
    pose proof (rfold_unit (check_number event line) NUMERIC_FIELDS _ Ha1 k Hk) as Hs. unfold check_number in Hs. apply when_ok in Hs as [_ Hs].
    apply rbind_ok in Hs as (b & Hb & Hs). unfold finite_number in Hb. destruct (to_float _) as [f|] eqn:E; [|done]. exists f. split; [done|].
    simpl in Hb. destruct (is_finite f); [done|]. by injection Hb as <-.
Qed.

(** A text field, present or not, can be hashed. *)
Lemma text_hashable e k : is_text (getd (VStr "") e k) -> hashable (get e k) = true.
Proof. intros [s Hs]. unfold get, getd, dget_or in *. destruct (dget k e) as [v|]; [by subst v|done]. Qed.

Lemma dedup_key_hashable e : event_typed e -> forallb hashable (dedup_key e) = true.
Proof.
  intros [(k & Hk & _) (ts & Hts) (o & Ho) Ht _]. unfold dedup_key.
  assert (Hx : forall f, In f STRING_FIELDS -> hashable (getd (VStr "") e f) = true) by (intros f Hf; destruct (Ht f Hf) as [s ->]; done).
  destruct (truthy (getd (VStr "") e "event_id")); cbn [forallb]; [by rewrite Hx by (cbn; tauto)|].
  assert (Ets : getd (VInt 0) e "ts_ms" = VInt ts) by (unfold getd, dget_or; by rewrite Hts).
  rewrite Ets, Ho, !Hx by (cbn; tauto). assert (Hr : hashable (or_field e "req_id" "client_req_id") = true).
  { unfold or_field. destruct (truthy (get e "req_id")); [apply text_hashable, Ht; cbn; tauto|apply Hx; cbn; tauto]. }
  by rewrite Hr.
Qed.

Lemma economic_ok e : event_typed e -> exists b, economic e = Ok b.
Proof.
  intros [_ _ _ _ Hn]. destruct (Hn "qty") as (q & Hq & _); [by left|]. destruct (Hn "price") as (p & Hp & _); [by right; left|].
  unfold economic, positive_float. rewrite Hq, Hp. simpl. destruct (truthy _); simpl; [destruct (fltb fzero q); by eexists|by eexists].
Qed.

Lemma replay_order_ok e kind ts state : event_typed e -> exists s, replay_order e kind ts state = Ok s.
Proof.
  intros He. unfold replay_order. destruct (in_strs kind ["broker_execution"]); [|by eexists]. destruct (economic_ok e He) as [b ->]. by eexists.
Qed.

(** The replay of validated events never raises, and accounts for every event. *)
Lemma replay_step_ok st e : event_typed e -> exists st', replay_step st e = Ok st'.
Proof.
  intros He. unfold replay_step. rewrite (dedup_key_hashable e He). cbn [negb]. destruct (existsb _ _); [by eexists|].
  pose proof He as [(k & Hk & _) (ts & Hts) (o & Ho) _ _]. unfold item. rewrite Hk, Ho, py_le_int, Hts. cbn [rbind hashable negb]. destruct (o <=? 0); [by eexists|].
  destruct (replay_order_ok e (VStr k) (VInt ts) (default [] (vget (VInt o) (rp_orders st))) He) as [s ->]. by eexists.
Qed.

Definition total_count (counts : list (value * Z)) : Z := foldr (fun kc t => kc.2 + t) 0 counts.

Lemma total_count_bump k counts :
  total_count (vset k (default 0 (vget k counts) + 1) counts) = total_count counts + 1.
Proof.
  induction counts as [|[k' n] counts IH]; simpl; [done|]. destruct (py_eq k k'); simpl; [lia|].
  unfold total_count in *. simpl. rewrite IH. lia.
Qed.

Lemma replay_step_count st st' e :
  replay_step st e = Ok st' ->
  total_count (rp_counts st') + rp_duplicates st' = total_count (rp_counts st) + rp_duplicates st + 1.
Proof.
  unfold replay_step. intros H. apply when_ok in H as [_ H]. destruct (existsb _ _); [injection H as <-; simpl; lia|].
  apply rbind_ok in H as (kind & _ & H). apply when_ok in H as [_ H]. apply rbind_ok in H as (b & _ & H).
  destruct b; [|apply rbind_ok in H as (ts & _ & H); apply rbind_ok in H as (state & _ & H)];
    injection H as <-; simpl; rewrite total_count_bump; lia.
Qed.

(** C31: [validated_raw_records] reads the journal exactly.  How the file is cut into
    chunks does not matter: two chunkings of the same bytes yield the same records and
    end with the same error or none.  When it ends normally, the yielded records
    concatenate to the bytes read, each is a non-empty line within the record budget
    with its newline, was decoded and passed [validate_event] under its own line
    number, and the counters are the number of bytes and records, within the budget. *)
Theorem journal_stream_exact (l : Limits) (chunks : list string) (st : Scan) (o : option exn) :
  check_limits l = Ok tt -> scan_chunks l scan_start chunks = (st, o) ->
  (forall chunks', concat_text chunks' = concat_text chunks ->
     sc_out (scan_chunks l scan_start chunks').1 = sc_out st /\ (scan_chunks l scan_start chunks').2 = o) /\
  (o = None ->
     concat_text (map fst (sc_out st)) = concat_text chunks /\ sc_bytes st = slen (concat_text chunks) /\
     sc_records st = Z.of_nat (length (sc_out st)) /\ sc_records st <= max_records l /\
     forall i raw event, sc_out st !! i = Some (raw, event) ->
       exists line v, raw = line +:+ newline /\ line <> EmptyString /\ no_char nl line = true /\
         slen line <= max_record_bytes l /\ decode_record line (Z.of_nat i + 1) = Ok v /\
         validate_event v (Z.of_nat i + 1) = Ok event).
Proof.
  intros Hl H. apply check_limits_ok in Hl as (Hb & Hn & Hm).
  assert (Hfeed : forall cs, scan_chunks l scan_start cs ≡ finish (feed_all l (scan_start, None) (concat_text cs)))
    by (intros cs; apply scan_chunks_feed; simpl; lia).
  split.
  - intros cs E. pose proof (Hfeed cs) as H1. rewrite E, <- (Hfeed chunks), H in H1. destruct H1 as (? & ? & _). done.
  - intros ->. pose proof (scan_bytes _ _ _ _ H) as Hbytes. pose proof (Hfeed chunks) as H1. rewrite H in H1.
    destruct (feed_all l (scan_start, None) (concat_text chunks)) as [st1 [e|]] eqn:E; [by destruct H1|].
    cbn [finish] in H1. case_bool_decide as Hp; [|by destruct H1].
    destruct H1 as (_ & Ho & Hs). cbn [fst snd] in Ho, Hs. destruct (Hs eq_refl) as (_ & Hr & _).
    destruct (feed_all_wf l scan_start st1 _ (scan_start_wf l ltac:(lia)) E) as [[_ _ Hc Hlim Hrec] Htext].
    rewrite Hp, append_nil_r in Htext. simpl in Htext. rewrite Ho, Hr.
    repeat split; [done|done|done|lia|exact Hrec].
Qed.

(** The structural replay of validated events cannot raise, and it accounts for every
    event: counted once under its type or counted as a duplicate. *)
Lemma replay_total (events : list dict) :
  (forall e, In e events -> exists v line, validate_event v line = Ok e) ->
  exists r, replay_journal events = Ok r /\
    total_count (rp_counts r) + rp_duplicates r = Z.of_nat (length events).
Proof.
  intros Hv. unfold replay_journal.
  assert (H : forall st, exists r, rfold replay_step events st = Ok r /\
    total_count (rp_counts r) + rp_duplicates r = total_count (rp_counts st) + rp_duplicates st + Z.of_nat (length events)).
  { induction events as [|e events IH]; intros st; [exists st; simpl; split; [done|lia]|].
    destruct (Hv e (or_introl eq_refl)) as (v & line & He). apply validate_event_typed in He.
    destruct (replay_step_ok st e He) as [st1 E1]. apply replay_step_count in E1 as Hc.
    destruct (IH (fun x Hx => Hv x (or_intror Hx)) st1) as (r & Hr & Ht). exists r. cbn [rfold length]. rewrite E1. split; [done|lia]. }
  apply (H (mkReplay [] [] [] 0)).
Qed.
