(* ===== verification/OmsHot.v ===== *)
(** * The hot projection of the OMS journal

    Model of the projection half of [scripts/hepta_oms_checkpoint.py]: the identity of
    a command ([_key]), the fold of one event into the command table
    ([_update_command]) and the pass over a journal that collects the state a restart
    needs ([_project_hot]) together with the events that rebuild it.  Events are the
    dictionaries the journal reader validated; [event_of] reads the fields the
    projection uses, which [validate_event] has typed. *)

From Stdlib Require Import Ascii.
From S2P Require Import Prelude PyText PyValue PyOrder PyBytes PyJson OmsJournal.
From stdpp Require Import base tactics list strings.
From Stdlib Require Import ZArith Lia Bool.

Open Scope Z_scope.

Definition generation_error (reason : string) : exn := Exn GenerationError reason.

(** ** Encodings *)

Definition _hex (s : string) : res string := let! b := utf8 s in Ok (hexlify b).

Definition _unhex (s : string) : res string :=
  match fromhex s with
  | Some b => if utf8_ok b then Ok b else Raise (generation_error "OMS_GENERATION_INDEX_ENCODING_INVALID")
  | None => Raise (generation_error "OMS_GENERATION_INDEX_ENCODING_INVALID")
  end.

(** ** Events *)

Record Event := mkEvent {
  ev_kind : string; ev_source : string; ev_session : string; ev_req : string; ev_client_req : string; ev_id : string;
  ev_status : string; ev_hash : string; ev_risk : string; ev_correlation : string; ev_account : string; ev_domain : string;
  ev_instrument : string; ev_side : string; ev_order : Z; ev_ts : Z; ev_raw : dict }.

(** [event.get(key, "")] *)
Definition text_field (e : dict) (key : string) : res string := as_str (getd (VStr "") e key).

Definition event_of (e : dict) : res Event :=
  let! kind := text_field e "event" in
  let! source := text_field e "source" in
  let! session := text_field e "trace_id" in
  let! req := text_field e "req_id" in
  let! client := text_field e "client_req_id" in
  let! id := text_field e "event_id" in
  let! status := text_field e "status" in
  let! hash := text_field e "request_hash" in
  let! risk := text_field e "risk_code" in
  let! correlation := text_field e "venue_correlation_id" in
  let! account := text_field e "account" in
  let! domain := text_field e "execution_domain" in
  let! instrument := text_field e "instrument" in
  let! side := text_field e "side" in
  let! order := as_int (getd (VInt (-1)) e "order_id") in
  let! ts := as_int (getd (VInt 0) e "ts_ms") in
  Ok (mkEvent kind source session req client id status hash risk correlation account domain instrument side order ts e).

Definition nonempty (s : string) : bool := negb (bool_decide (s = EmptyString)).
Definition one_of (s : string) (l : list string) : bool := inb s l.
(** [a or b] on text *)
Definition text_or (a b : string) : string := if nonempty a then a else b.

Definition _agent_id (source : string) : string :=
  match remove_prefix "agent.tool:" source with
  | Some id => id
  | None => match remove_prefix "agent:" source with Some id => id | None => EmptyString end
  end.

Definition _command_id (ev : Event) : string := text_or (ev_req ev) (text_or (ev_client_req ev) (ev_id ev)).

(** (agent, session, command) *)
Definition Key : Type := string * string * string.

Definition _key (ev : Event) : Key := (_agent_id (ev_source ev), ev_session ev, _command_id ev).

(** [all(key)] *)
Definition complete (k : Key) : bool := nonempty k.1.1 && nonempty k.1.2 && nonempty k.2.

Definition _operation (ev : Event) (prior : string) : string :=
  let kind := ev_kind ev in
  if startswith kind "flatten_" || bool_decide (kind = "flatten_noop") then "flatten"
  else if startswith kind "cancel_" || bool_decide (kind = "cancel") then "cancel"
  else if one_of kind ["order_intent"; "place_send_attempt"; "place_sent"; "place_activated"; "place_outcome_uncertain";
                       "execution_command_resolved"; "reject"]
  then text_or prior "place"
  else prior.

Definition _status (ev : Event) (prior : string) : string :=
  let kind := ev_kind ev in
  let state := ev_status ev in
  if one_of kind ["order_intent"; "flatten_intent"; "place_send_attempt"; "flatten_send_attempt"; "place_outcome_uncertain";
                  "flatten_outcome_uncertain"]
  then "uncertain"
  else if one_of kind ["reject"; "flatten_reject"] then "rejected"
  else if bool_decide (kind = "cancel_send_attempt") ||
          (bool_decide (kind = "cancel") && one_of state ["intent_recorded"; "cancel_pending"])
  then "uncertain"
  else if bool_decide (kind = "cancel") && bool_decide (state = "cancel_sent") then "accepted"
  else if bool_decide (kind = "place_sent") && bool_decide (state = "activation_pending") then "uncertain"
  else if one_of kind ["place_sent"; "place_activated"; "flatten_sent"; "flatten_noop"] then "accepted"
  else if one_of kind ["execution_command_resolved"; "cancel_command_resolved"]
  then (if bool_decide (state = "accepted") then "accepted" else "rejected")
  else if bool_decide (kind = "execution_projection_failed") then "uncertain"
  else prior.

Definition _durable_intent (ev : Event) : bool :=
  one_of (ev_kind ev) ["order_intent"; "flatten_intent"] ||
  (bool_decide (ev_kind ev = "cancel") && bool_decide (ev_status ev = "intent_recorded")).

(** ** The command table *)

Record Command := mkCommand {
  c_agent : string; c_session : string; c_command : string; c_hash : string; c_operation : string; c_status : string;
  c_order : Z; c_reason : string; c_correlation : string; c_last : Z; c_account : string; c_domain : string; c_intent : bool }.

Definition new_command (k : Key) : Command :=
  mkCommand k.1.1 k.1.2 k.2 "" "" "unknown" (-1) "" "" 0 "" "" false.

Definition command_key (c : Command) : Key := (c_agent c, c_session c, c_command c).

Definition hash_conflict (c : Command) (ev : Event) : bool :=
  nonempty (c_hash c) && nonempty (ev_hash ev) && negb (bool_decide (c_hash c = ev_hash ev)).

(** The fields of the record after the event. *)
Definition record_event (c : Command) (ev : Event) (sequence : Z) : Command :=
  mkCommand (c_agent c) (c_session c) (c_command c) (text_or (ev_hash ev) (c_hash c)) (_operation ev (c_operation c))
    (_status ev (c_status c)) (if 0 <=? ev_order ev then ev_order ev else c_order c) (text_or (ev_risk ev) (c_reason c))
    (text_or (ev_correlation ev) (c_correlation c)) sequence (text_or (ev_account ev) (c_account c))
    (text_or (ev_domain ev) (c_domain c)) (c_intent c || _durable_intent ev).

Definition _update_command (commands : list (Key * Command)) (ev : Event) (sequence : Z) : res (list (Key * Command)) :=
  let k := _key ev in
  if negb (complete k) then Ok commands
  else
    let c := dget_or (new_command k) k commands in
    when hash_conflict c ev raise generation_error "OMS_GENERATION_COMMAND_HASH_CONFLICT" in
    Ok (dset k (record_event c ev sequence) commands).

(** ** The pass over the journal *)

Definition Owner : Type := string * string.

Record OrderOwner := mkOrderOwner {
  o_agent : string; o_session : string; o_account : string; o_domain : string; o_instrument : string; o_side : string }.

Record Attempt := mkAttempt {
  t_account : string; t_domain : string; t_ts : Z; t_agent : string; t_session : string; t_command : string; t_sequence : Z }.

Record Hot := mkHot {
  h_commands : list (Key * Command);
  h_fenced : list Owner; h_fence_event : list (Owner * Z);
  h_recovery : list (Owner * string); h_recovery_event : list (Owner * Z);
  h_owners : list (Z * OrderOwner); h_owner_event : list (Z * Z);
  h_account_fence : list (string * Z);
  h_terminal : option Z; h_projection : option Z;
  h_attempts : list (Key * Attempt) }.

Definition hot_start : Hot := mkHot [] [] [] [] [] [] [] [] None None [].

Definition owner_of (ev : Event) : Owner := (_agent_id (ev_source ev), ev_session ev).
Definition has_owner (ev : Event) : bool := nonempty (_agent_id (ev_source ev)) && nonempty (ev_session ev).

Definition fence_pass (st : Hot) (ev : Event) (index : Z) : Hot :=
  let w := owner_of ev in
  if has_owner ev && bool_decide (ev_kind ev = "session_owner_fenced")
  then mkHot (h_commands st) (set_add w (h_fenced st)) (dset w index (h_fence_event st)) (h_recovery st) (h_recovery_event st)
         (h_owners st) (h_owner_event st) (h_account_fence st) (h_terminal st) (h_projection st) (h_attempts st)
  else if has_owner ev && bool_decide (ev_kind ev = "session_owner_fence_release")
  then mkHot (h_commands st) (set_discard w (h_fenced st)) (dpop w (h_fence_event st)) (h_recovery st) (h_recovery_event st)
         (h_owners st) (h_owner_event st) (h_account_fence st) (h_terminal st) (h_projection st) (h_attempts st)
  else if has_owner ev && bool_decide (ev_kind ev = "session_owner_recovery_only")
  then mkHot (h_commands st) (h_fenced st) (h_fence_event st) (dset w (ev_status ev) (h_recovery st)) (dset w index (h_recovery_event st))
         (h_owners st) (h_owner_event st) (h_account_fence st) (h_terminal st) (h_projection st) (h_attempts st)
  else st.

Definition account_pass (st : Hot) (ev : Event) (index : Z) : res Hot :=
  if bool_decide (ev_kind ev = "account_new_entry_fenced") then
    when negb (nonempty (ev_account ev)) raise generation_error "OMS_ACCOUNT_NEW_ENTRY_FENCE_ACCOUNT_INVALID" in
    Ok (mkHot (h_commands st) (h_fenced st) (h_fence_event st) (h_recovery st) (h_recovery_event st)
          (h_owners st) (h_owner_event st) (dsetdefault (ev_account ev) index (h_account_fence st)) (h_terminal st) (h_projection st)
          (h_attempts st))
  else Ok st.

(** The order-owner update of an event: taken, released or untouched. *)
Definition owner_update (ev : Event) : option (Z * option OrderOwner) :=
  if one_of (ev_kind ev) ["place_sent"; "place_activated"; "flatten_sent"] && (0 <=? ev_order ev) && nonempty (_agent_id (ev_source ev))
  then Some (ev_order ev, Some (mkOrderOwner (_agent_id (ev_source ev)) (ev_session ev) (ev_account ev) (ev_domain ev)
                                  (ev_instrument ev) (ev_side ev)))
  else if bool_decide (ev_kind ev = "order_owner_reconciled_terminal") && (0 <=? ev_order ev) then Some (ev_order ev, None)
  else None.

Definition owner_pass (st : Hot) (ev : Event) (index : Z) : Hot :=
  match owner_update ev with
  | Some (o, Some w) =>
      mkHot (h_commands st) (h_fenced st) (h_fence_event st) (h_recovery st) (h_recovery_event st)
        (dset o w (h_owners st)) (dset o index (h_owner_event st)) (h_account_fence st) (h_terminal st) (h_projection st) (h_attempts st)
  | Some (o, None) =>
      mkHot (h_commands st) (h_fenced st) (h_fence_event st) (h_recovery st) (h_recovery_event st)
        (dpop o (h_owners st)) (dpop o (h_owner_event st)) (h_account_fence st) (h_terminal st) (h_projection st) (h_attempts st)
  | None => st
  end.

Definition terminal_pass (st : Hot) (ev : Event) (index : Z) : Hot :=
  let kind := ev_kind ev in
  let set t p := mkHot (h_commands st) (h_fenced st) (h_fence_event st) (h_recovery st) (h_recovery_event st) (h_owners st)
                   (h_owner_event st) (h_account_fence st) t p (h_attempts st) in
  if bool_decide (kind = "paper_terminal_fence") then set (Some index) (h_projection st)
  else if bool_decide (kind = "execution_projection_failed") then set (h_terminal st) (Some index)
  else if bool_decide (kind = "execution_projection_resolved") then set (h_terminal st) None
  else st.

Definition attempt_pass (st : Hot) (ev : Event) (sequence : Z) : Hot :=
  let k := _key ev in
  if complete k && negb (dhas k (h_attempts st)) &&
     one_of (ev_kind ev) ["place_send_attempt"; "place_sent"; "flatten_send_attempt"; "flatten_sent"]
  then mkHot (h_commands st) (h_fenced st) (h_fence_event st) (h_recovery st) (h_recovery_event st) (h_owners st)
         (h_owner_event st) (h_account_fence st) (h_terminal st) (h_projection st)
         (dset k (mkAttempt (ev_account ev) (ev_domain ev) (ev_ts ev) k.1.1 k.1.2 k.2 sequence) (h_attempts st))
  else st.

Definition command_pass (st : Hot) (ev : Event) (sequence : Z) : res Hot :=
  let! cs := _update_command (h_commands st) ev sequence in
  Ok (mkHot cs (h_fenced st) (h_fence_event st) (h_recovery st) (h_recovery_event st) (h_owners st) (h_owner_event st)
        (h_account_fence st) (h_terminal st) (h_projection st) (h_attempts st)).

(** One iteration of the loop; [sequence] counts from one. *)
Definition hot_step (st : Hot) (sev : Z * Event) : res Hot :=
  let (sequence, ev) := sev in
  let index := sequence - 1 in
  let st := fence_pass st ev index in
  let! st := account_pass st ev index in
  let st := terminal_pass (owner_pass st ev index) ev index in
  command_pass (attempt_pass st ev sequence) ev sequence.

(** [enumerate(l, 1)] *)
Fixpoint enumerate_from {A} (n : Z) (l : list A) : list (Z * A) :=
  match l with [] => [] | x :: l => (n, x) :: enumerate_from (n + 1) l end.

Definition hot_pass (evs : list Event) : res Hot := rfold hot_step (enumerate_from 1 evs) hot_start.

(** ** What the pass selects *)

Definition is_uncertain (c : Command) : bool := bool_decide (c_status c = "uncertain").

Definition hot_commands (st : Hot) : list Command :=
  sorted_key command_key (List.filter is_uncertain (map snd (h_commands st))).

Definition option_list {A} (o : option A) : list A := match o with Some x => [x] | None => [] end.

(** The indices [selected] holds: those the pass recorded, and every event of an
    uncertain command. *)
Definition recorded_indices (st : Hot) : list Z :=
  map snd (h_owner_event st) ++ map snd (h_fence_event st) ++ map snd (h_recovery_event st) ++ map snd (h_account_fence st) ++
  option_list (h_terminal st) ++ option_list (h_projection st).

Definition uncertain_indices (st : Hot) (evs : list Event) : list Z :=
  map fst (List.filter (fun iev => inb (_key iev.2) (map command_key (hot_commands st))) (enumerate_from 0 evs)).

Definition selected_indices (st : Hot) (evs : list Event) : list Z :=
  foldl (fun s i => set_add i s) [] (recorded_indices st ++ uncertain_indices st evs).

Definition hot_replay (st : Hot) (evs : list Event) : list Event :=
  omap (fun i => evs !! Z.to_nat i) (sorted_by oleb (selected_indices st evs)).

(** The sort key of a send attempt. *)
Definition attempt_key (t : Attempt) : res (string * string * Z * Z * string * string * string) :=
  let! account := _hex (t_account t) in
  let! domain := _hex (t_domain t) in
  let! agent := _hex (t_agent t) in
  let! session := _hex (t_session t) in
  let! command := _hex (t_command t) in
  Ok (account, domain, t_ts t, t_sequence t, agent, session, command).

Definition sorted_attempts (st : Hot) : res (list Attempt) :=
  let! keyed := rmapM (fun t => let! k := attempt_key t in Ok (k, t)) (map snd (h_attempts st)) in
  Ok (map snd (sorted_key fst keyed)).

(** ** The checkpoint document *)

Definition CHECKPOINT_SCHEMA : string := "heptatrader.oms-hot-checkpoint.v1".

Definition command_value (c : Command) : value :=
  VDict [("agent_id", VStr (c_agent c)); ("session_id", VStr (c_session c)); ("command_id", VStr (c_command c));
         ("request_hash", VStr (c_hash c)); ("operation", VStr (c_operation c)); ("status", VStr (c_status c));
         ("order_id", VInt (c_order c)); ("reason", VStr (c_reason c)); ("venue_correlation_id", VStr (c_correlation c));
         ("last_sequence", VInt (c_last c)); ("account", VStr (c_account c)); ("execution_domain", VStr (c_domain c));
         ("durable_mutation_intent", VBool (c_intent c))].

Definition owner_value (ow : Z * OrderOwner) : value :=
  VDict [("order_id", VInt ow.1); ("agent_id", VStr (o_agent ow.2)); ("session_id", VStr (o_session ow.2));
         ("account", VStr (o_account ow.2)); ("execution_domain", VStr (o_domain ow.2));
         ("instrument", VStr (o_instrument ow.2)); ("side", VStr (o_side ow.2))].

Definition fenced_value (w : Owner) : value := VDict [("agent_id", VStr w.1); ("session_id", VStr w.2)].
Definition recovery_value (wf : Owner * string) : value :=
  VDict [("agent_id", VStr wf.1.1); ("session_id", VStr wf.1.2); ("fence", VStr wf.2)].

Definition checkpoint_value (st : Hot) (evs : list Event) (attempts : list Attempt) : dict :=
  [("schema", VStr CHECKPOINT_SCHEMA); ("last_sequence", VInt (Z.of_nat (length evs)));
   ("hot_commands", VList (map command_value (hot_commands st)));
   ("active_order_owners", VList (map owner_value (sorted_key fst (h_owners st))));
   ("fenced_owners", VList (map fenced_value (sorted_by oleb (h_fenced st))));
   ("recovery_only_owners", VList (map recovery_value (sorted_by oleb (h_recovery st))));
   ("hot_replay_records", VInt (Z.of_nat (length (hot_replay st evs))));
   ("send_attempt_records", VInt (Z.of_nat (length attempts)));
   ("paper_authorized", VBool false); ("live_authorized", VBool false)].

Record Projection := mkProjection {
  p_checkpoint : dict; p_commands : list (Key * Command); p_replay : list dict; p_attempts : list Attempt }.

Definition _project_hot (events : list dict) : res Projection :=
  let! evs := rmapM event_of events in
  let! st := hot_pass evs in
  let! attempts := sorted_attempts st in
  Ok (mkProjection (checkpoint_value st evs attempts) (h_commands st) (map ev_raw (hot_replay st evs)) attempts).
