(* ===== verification/OmsHotFacts.v ===== *)
(** * The hot replay rebuilds the hot state

    [_project_hot] keeps a few events of the journal for the next start.  The theorem
    of this file is that replaying only those events rebuilds everything the full
    journal left open: every uncertain command with all its fields, every live order
    owner, fence, recovery-only owner and account fence, the terminal fence and an
    unresolved projection failure.  Each part of the state is the value written by the
    last event that concerns it ([last_at]), and those events are kept. *)

From Stdlib Require Import Ascii.
From S2P Require Import Prelude PyText PyValue PyOrder PyBytes PyJson OmsJournal OmsJournalFacts OmsHot.
From stdpp Require Import base tactics list strings.
From Stdlib Require Import ZArith Lia Bool Permutation.

Open Scope Z_scope.

(** ** Reading validated events *)

Lemma text_field_ok e k : event_typed e -> In k STRING_FIELDS -> exists s, text_field e k = Ok s.
Proof. intros [_ _ _ H] Hk. destruct (H k Hk) as [s Hs]. exists s. unfold text_field. by rewrite Hs. Qed.

Lemma event_of_typed e : event_typed e -> exists ev, event_of e = Ok ev.
Proof.
  intros He. unfold event_of.
  assert (Hf : forall k (f : string -> res Event), In k STRING_FIELDS ->
    (forall s, exists ev, f s = Ok ev) -> exists ev, rbind (text_field e k) f = Ok ev).
  { intros k f Hk Hall. destruct (text_field_ok e k He Hk) as [s ->]. apply Hall. }
  repeat (apply Hf; [simpl; tauto|intros ?]). destruct He as [_ (ts & Hts) (o & Ho) _].
  rewrite Ho. unfold getd, dget_or. rewrite Hts. by eexists.
Qed.

Lemma event_of_raw e ev : event_of e = Ok ev -> ev_raw ev = e.
Proof. unfold event_of. intros H. inv_ok H. by subst. Qed.

(** ** Enumeration *)

Lemma enumerate_app {A} n (l l' : list A) :
  enumerate_from n (l ++ l') = enumerate_from n l ++ enumerate_from (n + Z.of_nat (length l)) l'.
Proof.
  revert n; induction l as [|x l IH]; intros n; simpl; [f_equal; lia|]. rewrite IH. do 3 f_equal. lia.
Qed.

Lemma enumerate_In {A} n (l : list A) i x :
  In (i, x) (enumerate_from n l) <-> n <= i /\ l !! Z.to_nat (i - n) = Some x.
Proof.
  revert n; induction l as [|y l IH]; intros n; simpl; [naive_solver|]. rewrite IH. split.
  - intros [[= <- <-]|[Hi Hl]]; [rewrite Z.sub_diag; split; [lia|done]|]. split; [lia|].
    replace (Z.to_nat (i - n)) with (S (Z.to_nat (i - (n + 1)))) by lia. done.
  - intros [Hi Hl]. destruct (Z.eq_dec i n) as [->|Hne]; [left; rewrite Z.sub_diag in Hl; simpl in Hl; congruence|]. right.
    split; [lia|]. replace (Z.to_nat (i - n)) with (S (Z.to_nat (i - (n + 1)))) in Hl by lia. done.
Qed.

(** ** The last event that concerns something *)

Section last_at.
Context {V : Type} (op : Event -> option V).

Definition last_at (evs : list Event) : option (Z * V) :=
  last (omap (fun ie => option_map (pair ie.1) (op ie.2)) (enumerate_from 0 evs)).

Lemma last_at_snoc evs e :
  last_at (evs ++ [e]) = match op e with Some v => Some (Z.of_nat (length evs), v) | None => last_at evs end.
Proof.
  unfold last_at. rewrite enumerate_app, omap_app. simpl. destruct (op e); simpl; [|by rewrite app_nil_r].
  by rewrite last_snoc.
Qed.

Lemma last_at_silent evs evs' : Forall (fun e => op e = None) evs' -> last_at (evs ++ evs') = last_at evs.
Proof.
  induction evs' as [|e evs' IH] using rev_ind; intros H; [by rewrite app_nil_r|].
  apply Forall_app in H as [H He]. inversion He; subst. rewrite app_assoc, last_at_snoc. rewrite H2. by apply IH.
Qed.

Lemma last_at_None evs : last_at evs = None <-> Forall (fun e => op e = None) evs.
Proof.
  induction evs as [|e evs IH] using rev_ind; [done|]. rewrite last_at_snoc, Forall_app, Forall_singleton.
  destruct (op e); [naive_solver|]. naive_solver.
Qed.

Lemma last_at_Some evs i v :
  last_at evs = Some (i, v) ->
  exists pre e post, evs = pre ++ e :: post /\ i = Z.of_nat (length pre) /\ op e = Some v /\ Forall (fun e => op e = None) post.
Proof.
  induction evs as [|e evs IH] using rev_ind; [done|]. rewrite last_at_snoc. destruct (op e) as [w|] eqn:E.
  - intros [= <- <-]. exists evs, e, []. done.
  - intros H. destruct (IH H) as (pre & e' & post & -> & Hi & He & Hp). exists pre, e', (post ++ [e]).
    rewrite <- app_assoc. repeat split; try done. apply Forall_app; auto.
Qed.
End last_at.

(** ** Keeping a subset of the events *)

Definition kept (sel : list Z) (n : Z) (evs : list Event) : list Event :=
  map snd (List.filter (fun ie => inb ie.1 sel) (enumerate_from n evs)).

Lemma kept_app sel n a b : kept sel n (a ++ b) = kept sel n a ++ kept sel (n + Z.of_nat (length a)) b.
Proof. unfold kept. by rewrite enumerate_app, List.filter_app, map_app. Qed.

Lemma kept_cons sel n e evs : kept sel n (e :: evs) = (if inb n sel then [e] else []) ++ kept sel (n + 1) evs.
Proof. unfold kept. simpl. by destruct (inb n sel). Qed.

Lemma kept_sublist sel n evs : sublist (kept sel n evs) evs.
Proof.
  revert n; induction evs as [|e evs IH]; intros n; [constructor|]. rewrite kept_cons.
  destruct (inb n sel); simpl; constructor; apply IH.
Qed.

Lemma kept_In sel n evs e : In e (kept sel n evs) -> In e evs.
Proof.
  unfold kept. intros H. apply in_map_iff in H as ([i x] & <- & H). apply filter_In in H as [H _].
  apply enumerate_In in H as [_ H]. by apply list_elem_of_In, (list_elem_of_lookup_2 _ _ _ H).
Qed.

(** The last event that concerns something stays the last when it is kept. *)
Lemma last_at_kept {V} (op : Event -> option V) sel evs i v :
  last_at op evs = Some (i, v) -> In i sel -> exists j, last_at op (kept sel 0 evs) = Some (j, v).
Proof.
  intros H Hi. apply last_at_Some in H as (pre & e & post & -> & -> & He & Hp).
  rewrite kept_app, kept_cons. apply inb_true in Hi. rewrite Z.add_0_l, Hi. simpl. rewrite cons_middle, app_assoc, last_at_silent.
  - rewrite last_at_snoc, He. by eexists.
  - apply List.Forall_forall. intros x Hx%kept_In. rewrite List.Forall_forall in Hp. by apply Hp.
Qed.

Lemma last_at_kept_None {V} (op : Event -> option V) sel evs :
  last_at op evs = None -> last_at op (kept sel 0 evs) = None.
Proof.
  rewrite !last_at_None, !List.Forall_forall. intros H x Hx%kept_In. auto.
Qed.

(** The sorted selection is the kept subset. *)
Lemma hot_replay_kept st evs :
  (forall i, In i (selected_indices st evs) -> 0 <= i < Z.of_nat (length evs)) ->
  hot_replay st evs = kept (selected_indices st evs) 0 evs.
Proof.
  intros Hr. unfold hot_replay. set (sel := selected_indices st evs) in *.
  assert (Hnd : List.NoDup sel) by (apply set_adds_NoDup; constructor). clearbody sel.
  assert (E : sorted_by oleb sel = map fst (List.filter (fun ie => inb ie.1 sel) (enumerate_from 0 evs))).
  { apply ascending_unique.
    - by apply sorted_ascending.
    - clear. generalize 0. induction evs as [|e evs IH]; intros n; [constructor|]. simpl.
      destruct (inb n sel); simpl; [|apply IH]. constructor; [apply IH|]. apply List.Forall_forall. intros i Hi.
      apply in_map_iff in Hi as ([j x] & <- & Hin). apply filter_In in Hin as [Hin _]. apply enumerate_In in Hin as [Hn _].
      unfold oltb. simpl. destruct (Z.compare_spec n j); lia || done.
    - intros i. rewrite sorted_by_In, in_map_iff. split.
      + intros Hi. destruct (Hr i Hi) as [Hlo Hhi]. destruct (lookup_lt_is_Some_2 evs (Z.to_nat i)) as [x Hx]; [lia|].
        exists (i, x). split; [done|]. apply filter_In. split; [|by apply inb_true]. apply enumerate_In. split; [done|].
        by rewrite Z.sub_0_r.
      + intros ([j x] & <- & Hin). apply filter_In in Hin as [_ Hin]. by apply inb_true in Hin. }
  rewrite E. unfold kept. clear E.
  assert (Hin : Forall (fun ie => 0 <= ie.1 /\ evs !! Z.to_nat ie.1 = Some ie.2)
                  (List.filter (fun ie => inb ie.1 sel) (enumerate_from 0 evs))).
  { apply List.Forall_forall. intros [i x] Hi. apply filter_In in Hi as [Hi _]. apply enumerate_In in Hi. by rewrite Z.sub_0_r in Hi. }
  induction Hin as [|[i x] l [_ Hx] _ IH]; [done|]. cbn [map fst snd] in *. rewrite <- IH.
  change (i :: map fst l) with ([i] ++ map fst l). rewrite omap_app. simpl. by rewrite Hx.
Qed.

(** ** What one event does to each part of the state *)

Definition fence_op (w : Owner) (ev : Event) : option bool :=
  if has_owner ev && bool_decide (owner_of ev = w) then
    if bool_decide (ev_kind ev = "session_owner_fenced") then Some true
    else if bool_decide (ev_kind ev = "session_owner_fence_release") then Some false else None
  else None.

Definition recovery_op (w : Owner) (ev : Event) : option string :=
  if has_owner ev && bool_decide (owner_of ev = w) && bool_decide (ev_kind ev = "session_owner_recovery_only")
  then Some (ev_status ev) else None.

Definition owner_op (o : Z) (ev : Event) : option (option OrderOwner) :=
  match owner_update ev with Some (o', w) => if decide (o' = o) then Some w else None | None => None end.

Definition account_op (a : string) (ev : Event) : option unit :=
  if bool_decide (ev_kind ev = "account_new_entry_fenced") && bool_decide (ev_account ev = a) then Some tt else None.

Definition terminal_op (ev : Event) : option unit :=
  if bool_decide (ev_kind ev = "paper_terminal_fence") then Some tt else None.

Definition projection_op (ev : Event) : option bool :=
  if bool_decide (ev_kind ev = "execution_projection_failed") then Some true
  else if bool_decide (ev_kind ev = "execution_projection_resolved") then Some false else None.

(** The passes that do not touch a part leave it alone. *)
Lemma fence_frame st ev i :
  let st' := fence_pass st ev i in
  h_commands st' = h_commands st /\ h_owners st' = h_owners st /\ h_owner_event st' = h_owner_event st /\
  h_account_fence st' = h_account_fence st /\ h_terminal st' = h_terminal st /\ h_projection st' = h_projection st /\
  h_attempts st' = h_attempts st.
Proof. unfold fence_pass. repeat case_match; done. Qed.

Lemma account_frame st ev i st' :
  account_pass st ev i = Ok st' ->
  h_commands st' = h_commands st /\ h_fenced st' = h_fenced st /\ h_fence_event st' = h_fence_event st /\
  h_recovery st' = h_recovery st /\ h_recovery_event st' = h_recovery_event st /\
  h_owners st' = h_owners st /\ h_owner_event st' = h_owner_event st /\ h_terminal st' = h_terminal st /\
  h_projection st' = h_projection st /\ h_attempts st' = h_attempts st.
Proof. unfold account_pass. case_bool_decide; intros H'; inv_ok H'; by subst. Qed.

Lemma owner_frame st ev i :
  let st' := owner_pass st ev i in
  h_commands st' = h_commands st /\ h_fenced st' = h_fenced st /\ h_fence_event st' = h_fence_event st /\
  h_recovery st' = h_recovery st /\ h_recovery_event st' = h_recovery_event st /\
  h_account_fence st' = h_account_fence st /\ h_terminal st' = h_terminal st /\ h_projection st' = h_projection st /\
  h_attempts st' = h_attempts st.
Proof. unfold owner_pass. repeat case_match; done. Qed.

Lemma terminal_frame st ev i :
  let st' := terminal_pass st ev i in
  h_commands st' = h_commands st /\ h_fenced st' = h_fenced st /\ h_fence_event st' = h_fence_event st /\
  h_recovery st' = h_recovery st /\ h_recovery_event st' = h_recovery_event st /\
  h_owners st' = h_owners st /\ h_owner_event st' = h_owner_event st /\ h_account_fence st' = h_account_fence st /\
  h_attempts st' = h_attempts st.
Proof. unfold terminal_pass. repeat case_match; done. Qed.

Lemma attempt_frame st ev n :
  let st' := attempt_pass st ev n in
  h_commands st' = h_commands st /\ h_fenced st' = h_fenced st /\ h_fence_event st' = h_fence_event st /\
  h_recovery st' = h_recovery st /\ h_recovery_event st' = h_recovery_event st /\
  h_owners st' = h_owners st /\ h_owner_event st' = h_owner_event st /\ h_account_fence st' = h_account_fence st /\
  h_terminal st' = h_terminal st /\ h_projection st' = h_projection st.
Proof. unfold attempt_pass. repeat case_match; done. Qed.

Lemma command_frame st ev n st' :
  command_pass st ev n = Ok st' ->
  _update_command (h_commands st) ev n = Ok (h_commands st') /\
  h_fenced st' = h_fenced st /\ h_fence_event st' = h_fence_event st /\
  h_recovery st' = h_recovery st /\ h_recovery_event st' = h_recovery_event st /\
  h_owners st' = h_owners st /\ h_owner_event st' = h_owner_event st /\ h_account_fence st' = h_account_fence st /\
  h_terminal st' = h_terminal st /\ h_projection st' = h_projection st /\ h_attempts st' = h_attempts st.
Proof. unfold command_pass. intros H'; inv_ok H'; by subst. Qed.

(** One iteration, part by part. *)
Record hot_step_parts (st : Hot) (n : Z) (ev : Event) (st' : Hot) : Prop := {
  step_commands : _update_command (h_commands st) ev n = Ok (h_commands st');
  step_fenced : h_fenced st' = h_fenced (fence_pass st ev (n - 1));
  step_fence_event : h_fence_event st' = h_fence_event (fence_pass st ev (n - 1));
  step_recovery : h_recovery st' = h_recovery (fence_pass st ev (n - 1));
  step_recovery_event : h_recovery_event st' = h_recovery_event (fence_pass st ev (n - 1));
  step_account : h_account_fence st' =
    if bool_decide (ev_kind ev = "account_new_entry_fenced") then dsetdefault (ev_account ev) (n - 1) (h_account_fence st)
    else h_account_fence st;
  step_account_valid : ev_kind ev = "account_new_entry_fenced" -> nonempty (ev_account ev) = true;
  step_owners : h_owners st' = h_owners (owner_pass st ev (n - 1));
  step_owner_event : h_owner_event st' = h_owner_event (owner_pass st ev (n - 1));
  step_terminal : h_terminal st' = h_terminal (terminal_pass st ev (n - 1));
  step_projection : h_projection st' = h_projection (terminal_pass st ev (n - 1));
  step_attempts : h_attempts st' = h_attempts (attempt_pass st ev n)
}.

Lemma hot_step_spec st n ev st' : hot_step st (n, ev) = Ok st' -> hot_step_parts st n ev st'.
Proof.
  unfold hot_step. intros H. apply rbind_ok in H as (st2 & H2 & H).
  destruct (fence_frame st ev (n - 1)) as (F1 & F2 & F3 & F4 & F5 & F6 & F7).
  destruct (account_frame _ _ _ _ H2) as (A1 & A2 & A3 & A4 & A5 & A6 & A7 & A8 & A9 & A10).
  destruct (owner_frame st2 ev (n - 1)) as (O1 & O2 & O3 & O4 & O5 & O6 & O7 & O8 & O9).
  destruct (terminal_frame (owner_pass st2 ev (n - 1)) ev (n - 1)) as (T1 & T2 & T3 & T4 & T5 & T6 & T7 & T8 & T9).
  destruct (attempt_frame (terminal_pass (owner_pass st2 ev (n - 1)) ev (n - 1)) ev n) as (P1 & P2 & P3 & P4 & P5 & P6 & P7 & P8 & P9 & P10).
  destruct (command_frame _ _ _ _ H) as (C1 & C2 & C3 & C4 & C5 & C6 & C7 & C8 & C9 & C10 & C11).
  constructor; try congruence.
  - rewrite C8, P8, T8, O6. unfold account_pass in H2. case_bool_decide; inv_ok H2; subst; simpl; congruence.
  - intros Hk. unfold account_pass in H2. rewrite bool_decide_eq_true_2 in H2 by done. inv_ok H2. by apply negb_false_iff in Hc.
  - rewrite C6, P6, T6. unfold owner_pass. repeat case_match; simpl; congruence.
  - rewrite C7, P7, T7. unfold owner_pass. repeat case_match; simpl; congruence.
  - rewrite C9, P9. unfold terminal_pass. repeat case_match; simpl; congruence.
  - rewrite C10, P10. unfold terminal_pass. repeat case_match; simpl; congruence.
  - rewrite C11. unfold attempt_pass. rewrite T9, O9, A10, F7.
    destruct (complete (_key ev) && _ && _) eqn:E; simpl; congruence.
Qed.

(** ** The state after a journal *)

Lemma hot_pass_snoc evs e :
  hot_pass (evs ++ [e]) = let! st := hot_pass evs in hot_step st (Z.of_nat (length evs) + 1, e).
Proof.
  unfold hot_pass. rewrite enumerate_app, rfold_app. replace (1 + Z.of_nat (length evs)) with (Z.of_nat (length evs) + 1) by lia.
  destruct (rfold _ _ _) as [st|]; [|done]. cbn [rbind rfold enumerate_from]. by destruct (hot_step st _).
Qed.

Definition live {V} (o : option (Z * option V)) : option (Z * V) :=
  match o with Some (i, Some v) => Some (i, v) | _ => None end.
Definition raised (o : option (Z * bool)) : option Z := match o with Some (i, true) => Some i | _ => None end.

(** Every part of the state is what the last event that concerns it wrote. *)
Record hot_state (evs : list Event) (st : Hot) : Prop := {
  hs_fence : forall w, dget w (h_fence_event st) = raised (last_at (fence_op w) evs);
  hs_fenced : forall w, In w (h_fenced st) <-> exists i, raised (last_at (fence_op w) evs) = Some i;
  hs_recovery : forall w, dget w (h_recovery st) = option_map snd (last_at (recovery_op w) evs);
  hs_recovery_event : forall w, dget w (h_recovery_event st) = option_map fst (last_at (recovery_op w) evs);
  hs_owners : forall o, dget o (h_owners st) = option_map snd (live (last_at (owner_op o) evs));
  hs_owner_event : forall o, dget o (h_owner_event st) = option_map fst (live (last_at (owner_op o) evs));
  hs_account : forall a, match dget a (h_account_fence st) with
    | Some i => exists e, 0 <= i /\ evs !! Z.to_nat i = Some e /\ account_op a e = Some tt
    | None => last_at (account_op a) evs = None end;
  hs_terminal : h_terminal st = option_map fst (last_at terminal_op evs);
  hs_projection : h_projection st = raised (last_at projection_op evs);
  hs_nodup : List.NoDup (map fst (h_fence_event st)) /\ List.NoDup (map fst (h_owners st)) /\ List.NoDup (map fst (h_owner_event st));
  hs_nodup_recovery : List.NoDup (map fst (h_recovery_event st)) /\ List.NoDup (map fst (h_account_fence st))
}.

Lemma fence_event_step evs st n ev w :
  n = Z.of_nat (length evs) ->
  List.NoDup (map fst (h_fence_event st)) -> dget w (h_fence_event st) = raised (last_at (fence_op w) evs) ->
  dget w (h_fence_event (fence_pass st ev n)) = raised (last_at (fence_op w) (evs ++ [ev])).
Proof.
  intros -> Hnd H. rewrite last_at_snoc. unfold fence_pass, fence_op.
  destruct (has_owner ev); simpl; [|done].
  case_bool_decide as Ek; [simpl; rewrite dget_dset; case_bool_decide; case_decide; done || congruence|].
  case_bool_decide as Ek2; [simpl; rewrite dget_dpop by done; case_bool_decide; case_decide; done || congruence|].
  case_bool_decide as Ek3; case_bool_decide; done.
Qed.

Lemma fenced_step evs st n ev w :
  n = Z.of_nat (length evs) -> (In w (h_fenced st) <-> exists i, raised (last_at (fence_op w) evs) = Some i) ->
  In w (h_fenced (fence_pass st ev n)) <-> exists i, raised (last_at (fence_op w) (evs ++ [ev])) = Some i.
Proof.
  intros -> H. rewrite last_at_snoc. unfold fence_pass, fence_op.
  destruct (has_owner ev); simpl; [|done].
  case_bool_decide as Ek; [simpl; rewrite set_add_In; case_bool_decide; naive_solver|].
  case_bool_decide as Ek2; [simpl; rewrite set_discard_In; case_bool_decide; naive_solver|].
  case_bool_decide as Ek3; case_bool_decide; done.
Qed.

Lemma recovery_step evs st n ev w :
  n = Z.of_nat (length evs) ->
  dget w (h_recovery st) = option_map snd (last_at (recovery_op w) evs) ->
  dget w (h_recovery_event st) = option_map fst (last_at (recovery_op w) evs) ->
  dget w (h_recovery (fence_pass st ev n)) = option_map snd (last_at (recovery_op w) (evs ++ [ev])) /\
  dget w (h_recovery_event (fence_pass st ev n)) = option_map fst (last_at (recovery_op w) (evs ++ [ev])).
Proof.
  intros -> H1 H2. rewrite last_at_snoc. unfold fence_pass, recovery_op.
  destruct (has_owner ev); simpl; [|done].
  case_bool_decide as Ek; [rewrite Ek; case_bool_decide; simpl; done|].
  case_bool_decide as Ek2; [rewrite Ek2; case_bool_decide; simpl; done|].
  case_bool_decide as Ek3; simpl; [rewrite !dget_dset; case_bool_decide; case_decide; done || congruence|].
  case_bool_decide; done.
Qed.

Lemma owner_step evs st n ev o :
  n = Z.of_nat (length evs) ->
  List.NoDup (map fst (h_owners st)) -> List.NoDup (map fst (h_owner_event st)) ->
  dget o (h_owners st) = option_map snd (live (last_at (owner_op o) evs)) ->
  dget o (h_owner_event st) = option_map fst (live (last_at (owner_op o) evs)) ->
  dget o (h_owners (owner_pass st ev n)) = option_map snd (live (last_at (owner_op o) (evs ++ [ev]))) /\
  dget o (h_owner_event (owner_pass st ev n)) = option_map fst (live (last_at (owner_op o) (evs ++ [ev]))).
Proof.
  intros -> N1 N2 H1 H2. rewrite last_at_snoc. unfold owner_pass, owner_op.
  destruct (owner_update ev) as [[o' [w|]]|]; simpl; [| |done].
  - rewrite !dget_dset. repeat case_decide; done || congruence.
  - rewrite !dget_dpop by done. repeat case_decide; done || congruence.
Qed.

Lemma account_step evs st n ev a :
  n = Z.of_nat (length evs) ->
  match dget a (h_account_fence st) with
  | Some i => exists e, 0 <= i /\ evs !! Z.to_nat i = Some e /\ account_op a e = Some tt
  | None => last_at (account_op a) evs = None end ->
  match dget a (if bool_decide (ev_kind ev = "account_new_entry_fenced") then dsetdefault (ev_account ev) n (h_account_fence st)
                else h_account_fence st) with
  | Some i => exists e, 0 <= i /\ (evs ++ [ev]) !! Z.to_nat i = Some e /\ account_op a e = Some tt
  | None => last_at (account_op a) (evs ++ [ev]) = None end.
Proof.
  intros -> H. rewrite last_at_snoc.
  assert (Hold : forall i e, 0 <= i /\ evs !! Z.to_nat i = Some e /\ account_op a e = Some tt ->
    exists e, 0 <= i /\ (evs ++ [ev]) !! Z.to_nat i = Some e /\ account_op a e = Some tt).
  { intros i e (H1 & H2 & H3). exists e. split; [done|]. split; [|done]. by apply lookup_app_l_Some. }
  assert (Hop : account_op a ev = if bool_decide (ev_kind ev = "account_new_entry_fenced") && bool_decide (ev_account ev = a) then Some tt else None)
    by done.
  rewrite Hop. clear Hop. case_bool_decide as Ek; cbn [andb]; cycle 1.
  { destruct (dget a (h_account_fence st)); [destruct H; eauto|done]. }
  unfold dsetdefault, dhas. case_bool_decide as Ea.
  - subst a. destruct (dget (ev_account ev) (h_account_fence st)) as [i|] eqn:E; [rewrite E; destruct H; eauto|].
    rewrite dget_dset_eq. exists ev. split; [lia|]. rewrite Nat2Z.id, lookup_app_r, Nat.sub_diag by lia. split; [done|].
    unfold account_op. by rewrite !bool_decide_eq_true_2.
  - assert (E : dget a (if match dget (ev_account ev) (h_account_fence st) with Some _ => true | None => false end then h_account_fence st
                        else dset (ev_account ev) (Z.of_nat (length evs)) (h_account_fence st)) = dget a (h_account_fence st)).
    { destruct (dget (ev_account ev) _); [done|]. by rewrite dget_dset_ne. }
    rewrite E. destruct (dget a (h_account_fence st)); [destruct H; eauto|done].
Qed.

Lemma pass_nodup st ev i :
  List.NoDup (map fst (h_fence_event st)) -> List.NoDup (map fst (h_owners st)) -> List.NoDup (map fst (h_owner_event st)) ->
  List.NoDup (map fst (h_fence_event (fence_pass st ev i))) /\ List.NoDup (map fst (h_owners (owner_pass st ev i))) /\
  List.NoDup (map fst (h_owner_event (owner_pass st ev i))).
Proof.
  intros H1 H2 H3. unfold fence_pass, owner_pass. split; [|split]; repeat case_match; simpl; auto using dset_NoDup, dpop_NoDup.
Qed.

Lemma recovery_nodup st ev i :
  List.NoDup (map fst (h_recovery_event st)) -> List.NoDup (map fst (h_recovery_event (fence_pass st ev i))).
Proof. intros H. unfold fence_pass. repeat case_match; simpl; auto using dset_NoDup. Qed.

Lemma dsetdefault_NoDup {K V} `{EqDecision K} (k : K) (v : V) d : List.NoDup (map fst d) -> List.NoDup (map fst (dsetdefault k v d)).
Proof. unfold dsetdefault. destruct (dhas k d); auto using dset_NoDup. Qed.

Lemma hot_pass_state evs st : hot_pass evs = Ok st -> hot_state evs st.
Proof.
  revert st; induction evs as [|e evs IH] using rev_ind; intros st H.
  { injection H as <-. constructor; try done; [naive_solver| |]; repeat split; constructor. }
  rewrite hot_pass_snoc in H. apply rbind_ok in H as (st0 & H0 & H). destruct (IH st0 H0) as [F1 F2 R1 R2 O1 O2 A T P (N1 & N2 & N3) (N4 & N5)].
  apply hot_step_spec in H as [_ S1 S2 S3 S4 S5 _ S6 S7 S8 S9 _]. replace (Z.of_nat (length evs) + 1 - 1) with (Z.of_nat (length evs)) in * by lia.
  constructor.
  - intros w. rewrite S2. by apply fence_event_step.
  - intros w. rewrite S1. apply fenced_step; [done|apply F2].
  - intros w. rewrite S3. apply (recovery_step evs st0 _ e w eq_refl (R1 w) (R2 w)).
  - intros w. rewrite S4. apply (recovery_step evs st0 _ e w eq_refl (R1 w) (R2 w)).
  - intros o. rewrite S6. apply (owner_step evs st0 _ e o eq_refl N2 N3 (O1 o) (O2 o)).
  - intros o. rewrite S7. apply (owner_step evs st0 _ e o eq_refl N2 N3 (O1 o) (O2 o)).
  - intros a. rewrite S5. exact (account_step evs st0 _ e a eq_refl (A a)).
  - rewrite S8, last_at_snoc. unfold terminal_pass, terminal_op. repeat case_bool_decide; done || congruence.
  - rewrite S9, last_at_snoc. unfold terminal_pass, projection_op. repeat case_bool_decide; simpl; done || congruence.
  - rewrite S2, S6, S7. by apply pass_nodup.
  - rewrite S4, S5. split; [by apply recovery_nodup|]. case_bool_decide; auto using dsetdefault_NoDup.
Qed.

(** ** The command table after a journal *)

(** A record without the sequence number of its last event. *)
Definition strip (c : Command) : Command :=
  mkCommand (c_agent c) (c_session c) (c_command c) (c_hash c) (c_operation c) (c_status c) (c_order c) (c_reason c)
    (c_correlation c) 0 (c_account c) (c_domain c) (c_intent c).

Lemma strip_record c ev n : strip (record_event c ev n) = record_event (strip c) ev 0.
Proof. by destruct c. Qed.

Definition of_key (k : Key) (evs : list Event) : list Event := List.filter (fun e => bool_decide (_key e = k)) evs.
Definition folded (k : Key) (es : list Event) : Command := foldl (fun c e => record_event c e 0) (new_command k) es.

Record command_state (evs : list Event) (cs : list (Key * Command)) : Prop := {
  cs_nodup : List.NoDup (map fst cs);
  cs_key : forall k c, dget k cs = Some c -> command_key c = k /\ complete k = true;
  cs_fold : forall k, complete k = true ->
    option_map strip (dget k cs) = match of_key k evs with [] => None | es => Some (folded k es) end;
  cs_hash : forall k c, dget k cs = Some c -> nonempty (c_hash c) = true ->
    exists e, In e evs /\ _key e = k /\ ev_hash e = c_hash c;
  cs_hashed : forall e, In e evs -> complete (_key e) = true -> nonempty (ev_hash e) = true ->
    exists c, dget (_key e) cs = Some c /\ c_hash c = ev_hash e;
  cs_last : forall k c, dget k cs = Some c -> 1 <= c_last c <= Z.of_nat (length evs)
}.

Lemma of_key_snoc k evs e : of_key k (evs ++ [e]) = of_key k evs ++ (if bool_decide (_key e = k) then [e] else []).
Proof. unfold of_key. rewrite List.filter_app. simpl. by case_bool_decide. Qed.

Lemma command_state_skip evs cs ev : complete (_key ev) = false -> command_state evs cs -> command_state (evs ++ [ev]) cs.
Proof.
  intros Hc [N K F H1 H2 L]. constructor; try done.
  - intros k Hk. rewrite of_key_snoc, bool_decide_eq_false_2, app_nil_r by (intros <-; congruence). by apply F.
  - intros k c Hg Hh. destruct (H1 k c Hg Hh) as (e & Hin & He). exists e. rewrite in_app_iff. auto.
  - intros e [Hin|[<-|[]]]%in_app_iff; [by apply H2|congruence].
  - intros k c Hg. specialize (L k c Hg). rewrite length_app. simpl. lia.
Qed.

Lemma text_or_hash a b : hash_conflict a b = false -> nonempty (ev_hash b) = true -> text_or (ev_hash b) (c_hash a) = ev_hash b.
Proof. intros _ H. unfold text_or. by rewrite H. Qed.

Lemma command_state_step evs cs ev n cs' :
  n = Z.of_nat (length evs) + 1 -> command_state evs cs -> _update_command cs ev n = Ok cs' -> command_state (evs ++ [ev]) cs'.
Proof.
  intros -> Hs H. unfold _update_command in H. destruct (complete (_key ev)) eqn:Hc; cbn [negb] in H; [|injection H as <-; by apply command_state_skip].
  apply when_ok in H as [Hconf H]. injection H as <-. destruct Hs as [N K F H1 H2 L].
  set (k0 := _key ev) in *. set (c0 := dget_or (new_command k0) k0 cs) in *.
  assert (Hc0 : command_key c0 = k0).
  { unfold c0, dget_or. destruct (dget k0 cs) eqn:E; [by apply K in E as [? _]|]. by destruct k0 as [[? ?] ?]. }
  assert (Hh0 : nonempty (ev_hash ev) = false -> text_or (ev_hash ev) (c_hash c0) = c_hash c0) by (intros E; unfold text_or; by rewrite E).
  constructor.
  - by apply dset_NoDup.
  - intros k c. rewrite dget_dset. case_decide; [|apply K]. intros [= <-]. by subst.
  - intros k Hk. rewrite dget_dset, of_key_snoc. case_decide as E.
    + subst k. rewrite bool_decide_eq_true_2 by done. simpl. rewrite strip_record.
      assert (Hstrip : strip c0 = folded k0 (of_key k0 evs)).
      { specialize (F k0 Hk). unfold c0, dget_or. destruct (dget k0 cs); simpl in F; destruct (of_key k0 evs); simplify_eq; done. }
      rewrite Hstrip. unfold folded. destruct (of_key k0 evs) eqn:Ef; simpl; [done|]. by rewrite foldl_app.
    + rewrite bool_decide_eq_false_2, app_nil_r by (intros Ek; apply E; exact (eq_sym Ek)). by apply F.
  - intros k c. rewrite dget_dset. case_decide as E; cycle 1.
    { intros Hg Hh. destruct (H1 k c Hg Hh) as (e & Hin & He). exists e. rewrite in_app_iff. auto. }
    intros [= <-] Hh. simpl in *. subst k. destruct (nonempty (ev_hash ev)) eqn:En.
    + exists ev. rewrite in_app_iff, text_or_hash by done. simpl. auto.
    + rewrite Hh0 in * by done. unfold c0, dget_or in *. destruct (dget k0 cs) eqn:Eg; [|done].
      destruct (H1 k0 _ Eg Hh) as (e & Hin & He). exists e. rewrite in_app_iff. auto.
  - intros e Hin He Hh. rewrite dget_dset. case_decide as E; cycle 1.
    { apply in_app_iff in Hin as [Hin|[<-|[]]]; [by apply H2|done]. }
    eexists. split; [done|]. simpl. apply in_app_iff in Hin as [Hin|[<-|[]]]; [|unfold text_or; by rewrite Hh].
    destruct (H2 e Hin He Hh) as (c & Hg & Hch). rewrite E in Hg. unfold c0, dget_or, hash_conflict in *. rewrite Hg in *.
    rewrite <- Hch in *. unfold text_or. destruct (nonempty (ev_hash ev)) eqn:En; [|done].
    rewrite Hh in Hconf. simpl in Hconf. apply negb_false_iff, bool_decide_eq_true in Hconf. done.
  - intros k c. rewrite dget_dset, length_app. simpl. case_decide; [intros [= <-]; simpl; lia|]. intros Hg. specialize (L k c Hg). lia.
Qed.

Lemma hot_pass_commands evs st : hot_pass evs = Ok st -> command_state evs (h_commands st).
Proof.
  revert st; induction evs as [|e evs IH] using rev_ind; intros st H.
  { injection H as <-. constructor; try done. constructor. }
  rewrite hot_pass_snoc in H. apply rbind_ok in H as (st0 & H0 & H). apply hot_step_spec in H as [S _ _ _ _ _ _ _ _ _ _ _].
  eapply command_state_step; [done|by apply IH|done].
Qed.

(** ** When the pass succeeds *)

(** The two conditions under which the pass does not raise. *)
Record admissible (evs : list Event) : Prop := {
  hashes_agree : forall e1 e2, In e1 evs -> In e2 evs -> complete (_key e1) = true -> _key e1 = _key e2 ->
    nonempty (ev_hash e1) = true -> nonempty (ev_hash e2) = true -> ev_hash e1 = ev_hash e2;
  fences_named : forall e, In e evs -> ev_kind e = "account_new_entry_fenced" -> nonempty (ev_account e) = true
}.

Lemma hot_pass_admissible evs st : hot_pass evs = Ok st -> admissible evs.
Proof.
  intros H. destruct (hot_pass_commands evs st H) as [_ _ _ _ Hh _]. constructor.
  - intros e1 e2 I1 I2 Hc Ek N1 N2. destruct (Hh e1 I1 Hc N1) as (c1 & G1 & <-).
    destruct (Hh e2 I2) as (c2 & G2 & <-); [by rewrite <- Ek|done|]. rewrite Ek, G2 in G1. by simplify_eq.
  - clear Hh. revert st H. induction evs as [|x evs IH] using rev_ind; intros st H e; [done|].
    rewrite hot_pass_snoc in H. apply rbind_ok in H as (st0 & H0 & H). apply hot_step_spec in H as [_ _ _ _ _ _ S _ _ _ _ _].
    intros [Hin|[<-|[]]]%in_app_iff; [by apply (IH st0 H0)|done].
Qed.

Lemma admissible_sub evs evs' : (forall e, In e evs' -> In e evs) -> admissible evs -> admissible evs'.
Proof. intros Hs [H1 H2]. constructor; intros; eauto. Qed.

Lemma hot_pass_succeeds evs : admissible evs -> exists st, hot_pass evs = Ok st.
Proof.
  induction evs as [|e evs IH] using rev_ind; intros Ha; [by eexists|].
  destruct IH as [st H]; [eapply admissible_sub; [|exact Ha]; intros; apply in_app_iff; auto|].
  rewrite hot_pass_snoc, H. cbn [rbind]. unfold hot_step. set (n := Z.of_nat (length evs) + 1).
  assert (exists st2, account_pass (fence_pass st e (n - 1)) e (n - 1) = Ok st2) as [st2 E2].
  { unfold account_pass. case_bool_decide as Ek; [|by eexists]. destruct Ha as [_ Hf].
    rewrite (Hf e) by (done || (apply in_app_iff; simpl; auto)). by eexists. }
  rewrite E2. cbn [rbind]. unfold command_pass.
  assert (Ec : h_commands (attempt_pass (terminal_pass (owner_pass st2 e (n - 1)) e (n - 1)) e n) = h_commands st).
  { destruct (attempt_frame (terminal_pass (owner_pass st2 e (n - 1)) e (n - 1)) e n) as [-> _].
    destruct (terminal_frame (owner_pass st2 e (n - 1)) e (n - 1)) as [-> _]. destruct (owner_frame st2 e (n - 1)) as [-> _].
    destruct (account_frame _ _ _ _ E2) as [-> _]. by destruct (fence_frame st e (n - 1)) as [-> _]. }
  rewrite Ec. unfold _update_command. destruct (complete (_key e)) eqn:Hc; cbn [negb]; [|by eexists].
  assert (hash_conflict (dget_or (new_command (_key e)) (_key e) (h_commands st)) e = false) as ->; [|by eexists].
  unfold dget_or. destruct (dget (_key e) (h_commands st)) as [c|] eqn:Eg; [|done]. unfold hash_conflict.
  destruct (nonempty (c_hash c)) eqn:N1; [|done]. destruct (nonempty (ev_hash e)) eqn:N2; [|done]. simpl.
  apply negb_false_iff, bool_decide_eq_true. destruct (hot_pass_commands evs st H) as [_ _ _ Hh _ _].
  destruct (Hh _ _ Eg N1) as (e' & Hin & Hk & He'). rewrite <- He' in *. apply (hashes_agree _ Ha e' e);
    [apply in_app_iff; auto|apply in_app_iff; simpl; auto|by rewrite Hk|done|done|done].
Qed.

(** ** The refinement *)

(** [st'] keeps everything [st] left open. *)
Record hot_refines (st st' : Hot) : Prop := {
  keeps_commands : forall k c, dget k (h_commands st) = Some c -> is_uncertain c = true ->
    exists c', dget k (h_commands st') = Some c' /\ strip c' = strip c;
  keeps_owners : forall o w, dget o (h_owners st) = Some w -> dget o (h_owners st') = Some w;
  keeps_fences : forall w, In w (h_fenced st) -> In w (h_fenced st');
  keeps_recovery : forall w, dget w (h_recovery st') = dget w (h_recovery st);
  keeps_accounts : forall a, dhas a (h_account_fence st') = dhas a (h_account_fence st);
  keeps_terminal : is_Some (h_terminal st') <-> is_Some (h_terminal st);
  keeps_failure : is_Some (h_projection st) -> is_Some (h_projection st')
}.

Lemma dget_snd_In {K V} `{EqDecision K} (k : K) (v : V) d : dget k d = Some v -> In v (map snd d).
Proof. intros H%dget_In. apply in_map_iff. by exists (k, v). Qed.

Lemma recorded_selected st evs i : In i (recorded_indices st) -> In i (selected_indices st evs).
Proof. intros H. apply set_adds_In. left. apply in_app_iff. auto. Qed.

Lemma last_at_range {V} (op : Event -> option V) evs i v : last_at op evs = Some (i, v) -> 0 <= i < Z.of_nat (length evs).
Proof. intros (pre & e & post & -> & -> & _)%last_at_Some. rewrite length_app. simpl. lia. Qed.

Lemma hot_command_key st c : In c (hot_commands st) <-> In c (map snd (h_commands st)) /\ is_uncertain c = true.
Proof. unfold hot_commands. rewrite sorted_key_In, filter_In. done. Qed.

Lemma selected_range evs st : hot_pass evs = Ok st ->
  forall i, In i (selected_indices st evs) -> 0 <= i < Z.of_nat (length evs).
Proof.
  intros H i Hi. destruct (hot_pass_state evs st H) as [F1 _ _ R2 _ O2 A T P (N1 & _ & N3) (N4 & N5)].
  apply set_adds_In in Hi as [Hi|[]]. apply in_app_iff in Hi as [Hi|Hi]; cycle 1.
  { unfold uncertain_indices in Hi. apply in_map_iff in Hi as ([j e] & <- & Hi). apply filter_In in Hi as [Hi _].
    apply enumerate_In in Hi as [H0 Hl]. apply lookup_lt_Some in Hl. simpl. lia. }
  assert (Hd : forall {K V} `{EqDecision K} (d : list (K * Z)) (op : K -> Event -> option V) (f : option (Z * V) -> option Z),
    List.NoDup (map fst d) -> (forall k, dget k d = f (last_at (op k) evs)) ->
    (forall o j, f o = Some j -> exists v, o = Some (j, v)) -> In i (map snd d) -> 0 <= i < Z.of_nat (length evs)).
  { intros K V EK d op f Hnd Hg Hf Hin. apply in_map_iff in Hin as ([k j] & <- & Hin). apply dget_of_In in Hin; [|done].
    rewrite Hg in Hin. apply Hf in Hin as [v Hin]. by apply last_at_range in Hin. }
  unfold recorded_indices in Hi. rewrite !in_app_iff in Hi. destruct Hi as [Hi|[Hi|[Hi|[Hi|[Hi|Hi]]]]].
  - apply (Hd _ _ _ (h_owner_event st) owner_op (fun o => option_map fst (live o)) N3 O2); [|done]. intros [[j [w|]]|] j'; simpl; naive_solver.
  - apply (Hd _ _ _ (h_fence_event st) fence_op raised N1 F1); [|done]. intros [[j [|]]|] j'; simpl; naive_solver.
  - apply (Hd _ _ _ (h_recovery_event st) recovery_op (option_map fst) N4 R2); [|done]. intros [[j w]|] j'; simpl; naive_solver.
  - apply in_map_iff in Hi as ([a j] & <- & Hin). apply dget_of_In in Hin; [|done]. specialize (A a). rewrite Hin in A.
    destruct A as (e & H0 & Hl & _). apply lookup_lt_Some in Hl. simpl. lia.
  - rewrite T in Hi. destruct (last_at terminal_op evs) as [[j u]|] eqn:E; [|done]. simpl in Hi. destruct Hi as [<-|[]]. by apply last_at_range in E.
  - rewrite P in Hi. destruct (last_at projection_op evs) as [[j [|]]|] eqn:E; try done. simpl in Hi. destruct Hi as [<-|[]]. by apply last_at_range in E.
Qed.

Lemma of_key_kept k sel n evs :
  (forall i e, In (i, e) (enumerate_from n evs) -> _key e = k -> In i sel) -> of_key k (kept sel n evs) = of_key k evs.
Proof.
  revert n; induction evs as [|e evs IH]; intros n H; [done|]. rewrite kept_cons. unfold of_key in *. rewrite List.filter_app, IH.
  - simpl. case_bool_decide as E.
    + assert (inb n sel = true) as -> by (apply inb_true, (H n e); simpl; auto). simpl. by rewrite bool_decide_eq_true_2.
    + destruct (inb n sel); simpl; [|done]. by rewrite bool_decide_eq_false_2.
  - intros i e' Hin. apply H. simpl. auto.
Qed.

Lemma uncertain_selected st evs k c :
  dget k (h_commands st) = Some c -> command_key c = k -> is_uncertain c = true ->
  forall i e, In (i, e) (enumerate_from 0 evs) -> _key e = k -> In i (selected_indices st evs).
Proof.
  intros Hg Hk Hu i e Hin He. apply set_adds_In. left. apply in_app_iff. right. unfold uncertain_indices.
  apply in_map_iff. exists (i, e). split; [done|]. apply filter_In. split; [done|]. apply inb_true. simpl. rewrite He, <- Hk.
  apply in_map. apply hot_command_key. split; [by eapply dget_snd_In|done].
Qed.

Lemma raised_kept (op : Event -> option bool) sel evs i :
  raised (last_at op evs) = Some i -> In i sel -> exists j, raised (last_at op (kept sel 0 evs)) = Some j.
Proof.
  intros H Hi. destruct (last_at op evs) as [[i' [|]]|] eqn:E; try done. injection H as ->.
  destruct (last_at_kept op sel evs _ _ E Hi) as [j ->]. by exists j.
Qed.

Lemma hot_refinement evs st :
  hot_pass evs = Ok st ->
  exists st', hot_pass (hot_replay st evs) = Ok st' /\ hot_refines st st'.
Proof.
  intros H. pose proof (selected_range evs st H) as Hrange. rewrite hot_replay_kept by done.
  set (sel := selected_indices st evs) in *. set (kevs := kept sel 0 evs).
  assert (Hsel : forall i, In i (recorded_indices st) -> In i sel) by apply recorded_selected. unfold recorded_indices in Hsel.
  assert (Ha : admissible kevs) by (eapply admissible_sub; [apply kept_In|by eapply hot_pass_admissible]).
  destruct (hot_pass_succeeds kevs Ha) as [st' H']. exists st'. split; [done|].
  destruct (hot_pass_state evs st H) as [F1 F2 R1 R2 O1 O2 A T P _ _].
  destruct (hot_pass_state kevs st' H') as [F1' F2' R1' R2' O1' O2' A' T' P' _ _].
  destruct (hot_pass_commands evs st H) as [_ K F _ _ _]. destruct (hot_pass_commands kevs st' H') as [_ _ F' _ _ _].
  constructor.
  - intros k c Hg Hu. destruct (K k c Hg) as [Hk Hc]. specialize (F k Hc). specialize (F' k Hc). unfold kevs in F'.
    rewrite of_key_kept in F' by (eapply uncertain_selected; eauto). rewrite <- F, Hg in F'. simpl in F'.
    destruct (dget k (h_commands st')) as [c'|]; [|done]. exists c'. split; [done|]. simpl in F'. congruence.
  - intros o w Hg. pose proof (O1 o) as E1. pose proof (O2 o) as E2. rewrite Hg in E1.
    destruct (last_at (owner_op o) evs) as [[i [v|]]|] eqn:E; try done. simpl in E1, E2. injection E1 as <-.
    destruct (last_at_kept (owner_op o) sel evs _ _ E) as [j Hj]; [apply Hsel, in_app_iff; left; by eapply dget_snd_In|].
    rewrite O1'. fold kevs in Hj. by rewrite Hj.
  - intros w Hw. apply F2 in Hw as [i Hi]. apply F2'. eapply raised_kept; [exact Hi|].
    apply Hsel. rewrite !in_app_iff. right. left. eapply (dget_snd_In w). by rewrite F1.
  - intros w. rewrite R1, R1'. destruct (last_at (recovery_op w) evs) as [[i v]|] eqn:E.
    + destruct (last_at_kept (recovery_op w) sel evs _ _ E) as [j Hj]; [|fold kevs in Hj; by rewrite Hj].
      apply Hsel. rewrite !in_app_iff. do 2 right. left. eapply (dget_snd_In w). by rewrite R2, E.
    + apply last_at_kept_None with (sel := sel) in E. fold kevs in E. by rewrite E.
  - intros a. unfold dhas. specialize (A a). specialize (A' a). destruct (dget a (h_account_fence st)) as [i|] eqn:Eg.
    + destruct (dget a (h_account_fence st')) as [j|]; [done|]. exfalso. destruct A as (e & H0 & Hl & Ho).
      apply last_at_None in A'. rewrite List.Forall_forall in A'.
      assert (Hin : In e kevs); [|specialize (A' e Hin); congruence].
      unfold kevs, kept. apply in_map_iff. exists (i, e). split; [done|]. apply filter_In.
      split; [apply enumerate_In; by rewrite Z.sub_0_r|]. apply inb_true, Hsel. rewrite !in_app_iff. do 3 right. left. by eapply dget_snd_In.
    + destruct (dget a (h_account_fence st')) as [j|]; [|done]. destruct A' as (e & _ & Hl & Ho). exfalso.
      apply last_at_None in A. rewrite List.Forall_forall in A. rewrite A in Ho; [done|]. apply (kept_In sel 0).
      apply list_elem_of_In. by eapply list_elem_of_lookup_2.
  - rewrite T'. destruct (last_at terminal_op evs) as [[i []]|] eqn:E; rewrite T; simpl.
    + destruct (last_at_kept terminal_op sel evs _ _ E) as [j Hj]; [|fold kevs in Hj; rewrite Hj; simpl; by split; eexists].
      apply Hsel. rewrite !in_app_iff. do 4 right. left. rewrite T. simpl. auto.
    + apply last_at_kept_None with (sel := sel) in E. fold kevs in E. by rewrite E.
  - rewrite P, P'. intros [i Hi]. destruct (raised_kept projection_op sel evs i Hi) as [j Hj]; [|fold kevs in Hj; rewrite Hj; by eexists].
    apply Hsel. rewrite !in_app_iff. do 5 right. rewrite P, Hi. simpl. auto.
Qed.

Lemma rmapM_raw events evs : rmapM event_of events = Ok evs -> map ev_raw evs = events.
Proof.
  intros H%rmapM_Forall2. induction H as [|e ev l l' He _ IH]; [done|]. simpl. by rewrite IH, (event_of_raw e ev).
Qed.

Lemma rmapM_sub events evs evs' :
  rmapM event_of events = Ok evs -> (forall e, In e evs' -> In e evs) -> rmapM event_of (map ev_raw evs') = Ok evs'.
Proof.
  intros H%rmapM_Forall2 Hs. induction evs' as [|e evs' IH]; [done|]. simpl.
  assert (event_of (ev_raw e) = Ok e) as ->.
  { specialize (Hs e (or_introl eq_refl)). clear -H Hs. induction H as [|d ev l l' He _ IH]; [done|]. destruct Hs as [<-|Hs]; [|auto].
    by rewrite (event_of_raw d ev). }
  simpl. rewrite IH by (intros; apply Hs; simpl; auto). done.
Qed.

Lemma map_sublist {A B} (f : A -> B) l l' : sublist l l' -> sublist (map f l) (map f l').
Proof. induction 1; simpl; by constructor. Qed.

(** C30: Compaction loses nothing that is still open.  The hot replay that
    [_project_hot] selects is an ordered subsequence of the journal; projecting it
    alone succeeds and refines the projection of the whole journal: every uncertain
    command reappears with the same hash, operation, status, order, reason,
    correlation, account, domain and intent, every live order keeps its owner, every
    fenced owner is still fenced, recovery-only owners and account fences are exactly
    the same, the terminal fence is kept and an unresolved projection failure stays. *)
Theorem hot_replay_refines (events : list dict) (p : Projection) :
  _project_hot events = Ok p ->
  sublist (p_replay p) events /\
  exists evs st evs' st',
    rmapM event_of events = Ok evs /\ hot_pass evs = Ok st /\
    rmapM event_of (p_replay p) = Ok evs' /\ hot_pass evs' = Ok st' /\ hot_refines st st'.
Proof.
  unfold _project_hot. intros H. apply rbind_ok in H as (evs & He & H). apply rbind_ok in H as (st & Hst & H). inv_ok H. subst p.
  cbn [p_replay]. destruct (hot_refinement evs st Hst) as (st' & Hst' & Href).
  assert (Hk : hot_replay st evs = kept (selected_indices st evs) 0 evs) by (apply hot_replay_kept; by apply selected_range).
  split.
  - rewrite <- (rmapM_raw events evs He). apply map_sublist. rewrite Hk. apply kept_sublist.
  - exists evs, st, (hot_replay st evs), st'. split; [done|]. split; [done|]. split; [|done].
    eapply rmapM_sub; [exact He|]. rewrite Hk. apply kept_In.
Qed.

(** ** Errors of the projection *)

Lemma hot_step_raise st sev e :
  hot_step st sev = Raise e ->
  e = generation_error "OMS_GENERATION_COMMAND_HASH_CONFLICT" \/ e = generation_error "OMS_ACCOUNT_NEW_ENTRY_FENCE_ACCOUNT_INVALID".
Proof.
  destruct sev as [n ev]. unfold hot_step, account_pass, command_pass, _update_command.
  case_bool_decide; [destruct (nonempty (ev_account ev)); [|intros [= <-]; by right]|]; cbn [rbind negb];
    (destruct (complete (_key ev)); cbn [negb rbind]; [|done]; destruct (hash_conflict _ _); cbn [rbind]; [|done]; intros [= <-]; by left).
Qed.

Lemma hex_raise s e : _hex s = Raise e -> e = unicode_error.
Proof. unfold _hex, utf8. destruct (utf8_ok s); [done|]. by intros [= <-]. Qed.

Lemma attempt_key_raise t e : attempt_key t = Raise e -> e = unicode_error.
Proof.
  unfold attempt_key. intros H.
  destruct (_hex (t_account t)) eqn:E1; cbn [rbind] in H; [|injection H as <-; by apply hex_raise in E1].
  destruct (_hex (t_domain t)) eqn:E2; cbn [rbind] in H; [|injection H as <-; by apply hex_raise in E2].
  destruct (_hex (t_agent t)) eqn:E3; cbn [rbind] in H; [|injection H as <-; by apply hex_raise in E3].
  destruct (_hex (t_session t)) eqn:E4; cbn [rbind] in H; [|injection H as <-; by apply hex_raise in E4].
  destruct (_hex (t_command t)) eqn:E5; cbn [rbind] in H; [done|injection H as <-; by apply hex_raise in E5].
Qed.

Lemma sorted_attempts_raise st e : sorted_attempts st = Raise e -> e = unicode_error.
Proof.
  unfold sorted_attempts. intros H. destruct (rmapM _ _) as [l|e'] eqn:E; [done|]. injection H as <-.
  apply rmapM_raise in E as (t & _ & Ht). destruct (attempt_key t) eqn:Ea; [done|]. injection Ht as <-. by apply attempt_key_raise in Ea.
Qed.

(** C32: Validated events are well typed for everything downstream.  On records that
    [validate_event] accepted, the structural [replay] never raises and accounts for
    every event, and [_project_hot] raises only what it means to: the command hash
    conflict or the unnamed account fence, exactly when the journal holds one, and
    otherwise at most the encoding error of text that is not Unicode. *)
Theorem validated_events_typed (events : list dict) :
  (forall e, In e events -> exists v line, validate_event v line = Ok e) ->
  (exists r, replay_journal events = Ok r /\ total_count (rp_counts r) + rp_duplicates r = Z.of_nat (length events)) /\
  exists evs, rmapM event_of events = Ok evs /\
    match _project_hot events with
    | Ok p => admissible evs
    | Raise e =>
        (~ admissible evs /\ (e = generation_error "OMS_GENERATION_COMMAND_HASH_CONFLICT" \/
                             e = generation_error "OMS_ACCOUNT_NEW_ENTRY_FENCE_ACCOUNT_INVALID")) \/
        (admissible evs /\ e = unicode_error)
    end.
Proof.
  intros Hv. split; [by apply replay_total|]. destruct (rmapM_total event_of events) as [evs He].
  { intros e Hin. destruct (Hv e Hin) as (v & line & Hve). by eapply event_of_typed, validate_event_typed. }
  exists evs. split; [done|]. unfold _project_hot. rewrite He. cbn [rbind].
  destruct (hot_pass evs) as [st|e] eqn:Hs; cbn [rbind].
  - apply hot_pass_admissible in Hs. destruct (sorted_attempts st) eqn:Ea; cbn [rbind]; [done|].
    right. split; [done|]. by apply sorted_attempts_raise in Ea.
  - left. split.
    + intros Ha. destruct (hot_pass_succeeds evs Ha) as [st Hst]. congruence.
    + unfold hot_pass in Hs. apply rfold_raise in Hs as (st & x & _ & Hx). by apply hot_step_raise in Hx.
Qed.
