(* ===== verification/OmsIndex.v ===== *)
(** * Index and manifest lines

    Model of the text formats of [scripts/hepta_oms_checkpoint.py]: the command index,
    the runtime index and the send-attempt index (tab-separated lines with hexadecimal
    text fields), the runtime manifests ([name=value] lines under a header) and their
    readers.  [LineFormat] is the interface between an index and its reader: a record
    prints to one line, and the reader finds in the line the key the record is sorted
    by.  Checking an index file is proved against it once, for both indices. *)

From Stdlib Require Import Ascii.
From S2P Require Import Prelude PyText PyValue PyOrder PyBytes PyJson OmsJournal OmsHot.
From stdpp Require Import base tactics list strings.
From Stdlib Require Import ZArith Lia Bool.

Open Scope Z_scope.

Definition MAX_INDEX_LINE : Z := 64 * 1024.
Definition RUNTIME_MANIFEST_HEADER : string := "HEPTA_OMS_RUNTIME_GENERATION_V1".
Definition RUNTIME_CURRENT_HEADER : string := "HEPTA_OMS_RUNTIME_CURRENT_V1".

(** [str(z)] *)
Definition int_text (z : Z) : res string := if int_text_ok (VInt z) then Ok (str_int z) else Raise value_error.

Definition tab_text : string := String tab EmptyString.

(** [("\t".join(fields) + "\n").encode("ascii")] *)
Definition tab_line (fields : list string) : res string := ascii_text (PyValue.join tab_text fields +:+ newline).

(** ** Lines *)

Definition index_fields (c : Command) : res (list string) :=
  let! agent := _hex (c_agent c) in
  let! session := _hex (c_session c) in
  let! command := _hex (c_command c) in
  let! hash := _hex (c_hash c) in
  let! order := int_text (c_order c) in
  let! reason := _hex (c_reason c) in
  let! correlation := _hex (c_correlation c) in
  let! last := int_text (c_last c) in
  Ok [agent; session; command; hash; c_operation c; c_status c; order; reason; correlation; last].

Definition _index_line (c : Command) : res string := let! fields := index_fields c in tab_line fields.

Definition _runtime_index_line (c : Command) : res string :=
  let! fields := index_fields c in
  let! account := _hex (c_account c) in
  let! domain := _hex (c_domain c) in
  tab_line (fields ++ [account; domain; if c_intent c then "1" else "0"]).

Definition _send_attempt_line (t : Attempt) : res string :=
  let! account := _hex (t_account t) in
  let! domain := _hex (t_domain t) in
  let! ts := int_text (t_ts t) in
  let! agent := _hex (t_agent t) in
  let! session := _hex (t_session t) in
  let! command := _hex (t_command t) in
  let! sequence := int_text (t_sequence t) in
  tab_line [account; domain; ts; agent; session; command; sequence].

(** [line.rstrip(b"\n").decode("ascii").split("\t")] *)
Definition line_parts (line : string) : res (list string) := let! t := ascii_text (rstrip_nl line) in Ok (split_on tab t).

Definition _index_key (line : string) : res Key :=
  when MAX_INDEX_LINE <? slen line raise generation_error "OMS_GENERATION_INDEX_LINE_LIMIT" in
  let! parts := line_parts line in
  match parts with
  | [p0; p1; p2; _; _; _; _; _; _; _] =>
      let! agent := _unhex p0 in let! session := _unhex p1 in let! command := _unhex p2 in Ok (agent, session, command)
  | _ => Raise (generation_error "OMS_GENERATION_INDEX_RECORD_INVALID")
  end.

Definition _runtime_index_key (line : string) : res Key :=
  when MAX_INDEX_LINE <? slen line raise generation_error "OMS_GENERATION_RUNTIME_INDEX_LINE_LIMIT" in
  let! parts := line_parts line in
  match parts with
  | [p0; p1; p2; _; _; _; _; _; _; _; _; _; intent] =>
      when negb (one_of intent ["0"; "1"]) raise generation_error "OMS_GENERATION_RUNTIME_INDEX_RECORD_INVALID" in
      Ok (p0, p1, p2)
  | _ => Raise (generation_error "OMS_GENERATION_RUNTIME_INDEX_RECORD_INVALID")
  end.

(** What [lookup_command] reads from a line of the index. *)
Record Entry := mkEntry {
  e_hash : string; e_operation : string; e_status : string; e_order : Z; e_reason : string; e_correlation : string; e_last : Z }.

Definition index_entry (line : string) : res Entry :=
  let! parts := line_parts line in
  match parts with
  | _ :: _ :: _ :: p3 :: p4 :: p5 :: p6 :: p7 :: p8 :: p9 :: _ =>
      let! hash := _unhex p3 in
      let! order := py_int p6 in
      let! reason := _unhex p7 in
      let! correlation := _unhex p8 in
      let! last := py_int p9 in
      Ok (mkEntry hash p4 p5 order reason correlation last)
  | _ => Raise index_error
  end.

(** ** Checking an index file *)

Section verify_lines.
Context (key_of : string -> res Key) (count_error order_error : string).

Definition order_step (previous : option Key) (line : string) : res (option Key) :=
  let! key := key_of line in
  when match previous with Some p => oleb key p | None => false end raise generation_error order_error in Ok (Some key).

Definition verify_lines (data : string) (expected : value) : res (list string) :=
  let lines := splitlines byte_break true data in
  when negb (py_eq (VInt (Z.of_nat (length lines))) expected) raise generation_error count_error in
  let! _ := rfold order_step lines None in Ok lines.
End verify_lines.

Definition _verify_index : string -> value -> res (list string) :=
  verify_lines _index_key "OMS_GENERATION_INDEX_COUNT_MISMATCH" "OMS_GENERATION_INDEX_ORDER_INVALID".
Definition _verify_runtime_index : string -> value -> res (list string) :=
  verify_lines _runtime_index_key "OMS_GENERATION_RUNTIME_INDEX_COUNT_MISMATCH" "OMS_GENERATION_RUNTIME_INDEX_ORDER_INVALID".

(** ** Runtime manifests *)

Definition metadata_invalid : exn := generation_error "OMS_GENERATION_RUNTIME_METADATA_INVALID".

Definition manifest_step (fields : list (string * string)) (line : string) : res (list (string * string)) :=
  match partition_on "=" line with
  | Some (name, v) =>
      when negb (nonempty name) || negb (nonempty v) || dhas name fields raise metadata_invalid in Ok (dset name v fields)
  | None => Raise metadata_invalid
  end.

Definition _parse_line_manifest (raw header : string) : res (list (string * string)) :=
  when negb (sforall is_ascii raw) raise metadata_invalid in
  match splitlines text_break false raw with
  | first :: lines => when negb (bool_decide (first = header)) raise metadata_invalid in rfold manifest_step lines []
  | [] => Raise metadata_invalid
  end.

(** [("\n".join([header, ...]) + "\n").encode("ascii")] for [name=value] lines *)
Definition field_line (kv : string * string) : string := kv.1 +:+ "=" +:+ kv.2.
Definition manifest_bytes (header : string) (fields : list (string * string)) : res string :=
  ascii_text (PyValue.join newline (header :: map field_line fields) +:+ newline).

Record RuntimeManifest := mkRuntimeManifest {
  r_generation : string; r_parent : string; r_prefix_bytes : Z; r_prefix_sha256 : string; r_journal_records : Z;
  r_command_records : Z; r_attempt_records : Z; r_replay_records : Z; r_digests : list (string * string) }.

Definition runtime_fields (m : RuntimeManifest) : res (list (string * string)) :=
  let digest name := match dget name (r_digests m) with Some d => Ok d | None => Raise (key_error name) end in
  let! segment := digest "segment-000001.jsonl" in
  let! checkpoint := digest "checkpoint.json" in
  let! index := digest "command-index.tsv" in
  let! runtime_index := digest "runtime-command-index.tsv" in
  let! attempts := digest "send-attempt-index.tsv" in
  let! replay := digest "hot-replay.jsonl" in
  Ok [("generation", r_generation m); ("parent_generation", text_or (r_parent m) "-");
      ("journal_prefix_bytes", str_int (r_prefix_bytes m)); ("journal_prefix_sha256", r_prefix_sha256 m);
      ("journal_records", str_int (r_journal_records m)); ("command_records", str_int (r_command_records m));
      ("send_attempt_records", str_int (r_attempt_records m)); ("hot_replay_records", str_int (r_replay_records m));
      ("segment_sha256", segment); ("checkpoint_sha256", checkpoint); ("command_index_sha256", index);
      ("runtime_command_index_sha256", runtime_index); ("send_attempt_index_sha256", attempts); ("hot_replay_sha256", replay);
      ("authorization_effect", "NONE"); ("paper_authorized", "0"); ("live_authorized", "0")].

Definition _runtime_manifest_bytes (m : RuntimeManifest) : res string :=
  let! fields := runtime_fields m in manifest_bytes RUNTIME_MANIFEST_HEADER fields.

Definition current_fields (generation current_sha256 manifest_sha256 runtime_manifest_sha256 : string) : list (string * string) :=
  [("generation", generation); ("current_sha256", current_sha256); ("manifest_sha256", manifest_sha256);
   ("runtime_manifest_sha256", runtime_manifest_sha256)].

Definition _runtime_current_bytes (generation current_sha256 manifest_sha256 runtime_manifest_sha256 : string) : res string :=
  manifest_bytes RUNTIME_CURRENT_HEADER (current_fields generation current_sha256 manifest_sha256 runtime_manifest_sha256).

(** ** The interface of an index *)

(** Text that a line can hold between its tabs. *)
Definition field_char (c : ascii) : bool := is_ascii c && negb (byte_break c) && negb (bool_decide (c = tab)).
Definition field_text (s : string) : bool := sforall field_char s.

Class LineFormat (R : Type) (line_of : R -> res string) (key_of : string -> res Key) (sort_key : R -> Key) (ok : R -> Prop) : Prop := {
  format_shape : forall r s, ok r -> line_of r = Ok s ->
    exists body, s = body +:+ newline /\ sforall (fun c => negb (byte_break c)) body = true;
  format_key : forall r s, ok r -> line_of r = Ok s -> slen s <= MAX_INDEX_LINE -> key_of s = Ok (sort_key r)
}.
