(* ===== verification/OmsIndexFacts.v ===== *)
(** * The text formats are read back as they were written

    The line formats satisfy their interface, an index of sorted records passes its
    check, the entry of a command is recovered field by field, and a manifest parses
    to the fields it was printed from. *)

From Stdlib Require Import Ascii.
From S2P Require Import Prelude PyText PyValue PyOrder PyBytes PyJson OmsJournal OmsHot OmsIndex.
From stdpp Require Import base tactics list strings.
From Stdlib Require Import ZArith Lia Bool Sorted.

Open Scope Z_scope.

(** ** Fields *)

Lemma is_lower_hex_field c : is_lower_hex c = true -> field_char c = true.
Proof.
  unfold is_lower_hex, field_char, is_ascii, byte_break. intros H. apply orb_true_iff in H.
  assert (Hr : 48 <= ord c <= 102) by (destruct H; split_bools; lia).
  rewrite (proj2 (Z.ltb_lt _ _)), !(proj2 (Z.eqb_neq (ord c) _)) by lia. simpl.
  rewrite bool_decide_eq_false_2; [done|]. intros ->. change (ord tab) with 9 in Hr. lia.
Qed.

Lemma hex_ok s h : _hex s = Ok h <-> utf8_ok s = true /\ h = hexlify s.
Proof. unfold _hex, utf8. destruct (utf8_ok s); simpl; naive_solver. Qed.

Lemma hexlify_field s : field_text (hexlify s) = true.
Proof. eapply sforall_impl; [apply is_lower_hex_field|apply hexlify_chars]. Qed.

Lemma unhex_hex s : utf8_ok s = true -> _unhex (hexlify s) = Ok s.
Proof. intros H. unfold _unhex. by rewrite fromhex_hexlify, H. Qed.

Lemma is_digit_field c : is_digit c = true -> field_char c = true.
Proof.
  unfold is_digit, field_char, is_ascii, byte_break. intros H. split_bools.
  rewrite (proj2 (Z.ltb_lt _ _)), !(proj2 (Z.eqb_neq (ord c) _)) by lia. simpl.
  rewrite bool_decide_eq_false_2; [done|]. intros ->. change (ord tab) with 9 in *. lia.
Qed.

Lemma str_int_field z : field_text (str_int z) = true.
Proof.
  assert (Hd : forall n, 0 <= n -> field_text (digits n) = true).
  { intros n Hn. eapply sforall_impl; [apply is_digit_field|]. by apply digits_spec. }
  unfold str_int. destruct (Z.ltb_spec z 0); [|auto]. change ("-" +:+ digits (- z)) with (String "-" (digits (- z))).
  change (field_char "-" && field_text (digits (- z)) = true). by rewrite (Hd (- z)) by lia.
Qed.

Lemma int_text_ok_spec z s : int_text z = Ok s <-> int_text_ok (VInt z) = true /\ s = str_int z.
Proof. unfold int_text. destruct (int_text_ok (VInt z)); naive_solver. Qed.

(** ** Lines *)

Lemma field_no_tab f : field_text f = true -> no_char tab f = true.
Proof. apply sforall_impl. unfold field_char. intros c H. by apply andb_prop in H as [_ H]. Qed.

Lemma join_forall (P : ascii -> bool) sep fs :
  sforall P sep = true -> Forall (fun f => sforall P f = true) fs -> sforall P (PyValue.join sep fs) = true.
Proof.
  intros Hs. induction 1 as [|f fs Hf Hfs IH]; [done|]. destruct fs as [|g fs]; [done|].
  change (PyValue.join sep (f :: g :: fs)) with (f +:+ sep +:+ PyValue.join sep (g :: fs)). by rewrite !sforall_app, Hf, Hs, IH.
Qed.

Lemma tab_line_spec fs :
  fs <> [] -> Forall (fun f => field_text f = true) fs ->
  tab_line fs = Ok (PyValue.join tab_text fs +:+ newline) /\
  sforall (fun c => negb (byte_break c)) (PyValue.join tab_text fs) = true /\
  line_parts (PyValue.join tab_text fs +:+ newline) = Ok fs.
Proof.
  intros Hne Hf.
  assert (Hw : forall P : ascii -> bool, P tab = true -> (forall c, field_char c = true -> P c = true) ->
    sforall P (PyValue.join tab_text fs) = true).
  { intros P Ht HP. apply join_forall; [simpl; by rewrite Ht|]. eapply Forall_impl; [exact Hf|]. intros f. by apply sforall_impl. }
  assert (Ha : sforall is_ascii (PyValue.join tab_text fs) = true) by (apply Hw; [done|]; unfold field_char; intros c H; by split_bools).
  assert (Hb : sforall (fun c => negb (byte_break c)) (PyValue.join tab_text fs) = true)
    by (apply Hw; [done|]; unfold field_char; intros c H; by apply andb_prop in H as [[_ H]%andb_prop _]).
  split; [|split; [done|]].
  - unfold tab_line, ascii_text. by rewrite sforall_app, Ha.
  - unfold line_parts, ascii_text. rewrite rstrip_nl_line.
    + rewrite Ha. cbn [rbind]. unfold tab_text. rewrite split_join; [done|done|]. eapply Forall_impl; [exact Hf|]. apply field_no_tab.
    + eapply sforall_impl; [|exact Hb]. intros c H. apply negb_true_iff. apply bool_decide_eq_false. intros ->. done.
Qed.

(** Records the projection produces hold plain words as operation and status. *)
Definition plain_command (c : Command) : Prop := field_text (c_operation c) = true /\ field_text (c_status c) = true.

(** The fields of a line, all printable. *)
Lemma index_fields_ok c fs :
  plain_command c -> index_fields c = Ok fs ->
  fs = [hexlify (c_agent c); hexlify (c_session c); hexlify (c_command c); hexlify (c_hash c); c_operation c; c_status c;
        str_int (c_order c); hexlify (c_reason c); hexlify (c_correlation c); str_int (c_last c)] /\
  Forall (fun f => field_text f = true) fs /\
  Forall (fun s => utf8_ok s = true) [c_agent c; c_session c; c_command c; c_hash c; c_reason c; c_correlation c] /\
  int_text_ok (VInt (c_order c)) = true /\ int_text_ok (VInt (c_last c)) = true.
Proof.
  intros [Ho Hs] H. unfold index_fields in H. inv_ok H.
  repeat match goal with
  | H : _hex _ = Ok _ |- _ => apply hex_ok in H as [? ->]
  | H : int_text _ = Ok _ |- _ => apply int_text_ok_spec in H as [? ->]
  end. subst fs. split; [done|]. split; [|split; [repeat constructor; done|done]].
  repeat constructor; auto using hexlify_field, str_int_field.
Qed.

#[export] Instance index_format : LineFormat Command _index_line _index_key command_key plain_command.
Proof.
  constructor.
  - intros c s Hp H. unfold _index_line in H. apply rbind_ok in H as (fs & Hf & H).
    destruct (index_fields_ok c fs Hp Hf) as (E & Hfs & _). destruct (tab_line_spec fs) as (Hl & Hb & _); [by subst|done|].
    rewrite Hl in H. injection H as <-. eauto.
  - intros c s Hp H Hlen. unfold _index_line in H. apply rbind_ok in H as (fs & Hf & H).
    destruct (index_fields_ok c fs Hp Hf) as (E & Hfs & Hu & _). destruct (tab_line_spec fs) as (Hl & _ & Hparts); [by subst|done|].
    rewrite Hl in H. injection H as <-. unfold _index_key. rewrite (proj2 (Z.ltb_ge _ _)) by done. rewrite Hparts. cbn [rbind].
    subst fs. inversion Hu as [|?? Ha Hu2]; subst. inversion Hu2 as [|?? Hs Hu3]; subst. inversion Hu3 as [|?? Hc Hu4]; subst.
    by rewrite !unhex_hex.
Qed.

(** The sort key of the runtime index. *)
Definition hex_key (k : Key) : Key := (hexlify k.1.1, hexlify k.1.2, hexlify k.2).

Lemma runtime_line_ok c s :
  plain_command c -> _runtime_index_line c = Ok s ->
  exists fs, s = PyValue.join tab_text fs +:+ newline /\ sforall (fun c => negb (byte_break c)) (PyValue.join tab_text fs) = true /\
    line_parts s = Ok fs /\
    fs = [hexlify (c_agent c); hexlify (c_session c); hexlify (c_command c); hexlify (c_hash c); c_operation c; c_status c;
          str_int (c_order c); hexlify (c_reason c); hexlify (c_correlation c); str_int (c_last c); hexlify (c_account c);
          hexlify (c_domain c); if c_intent c then "1" else "0"].
Proof.
  intros Hp H. unfold _runtime_index_line in H. apply rbind_ok in H as (fs & Hf & H).
  apply rbind_ok in H as (account & Ha & H). apply rbind_ok in H as (domain & Hd & H). apply hex_ok in Ha as [_ ->]. apply hex_ok in Hd as [_ ->].
  destruct (index_fields_ok c fs Hp Hf) as (E & Hfs & _). set (fs' := fs ++ _) in H.
  destruct (tab_line_spec fs') as (Hl & Hb & Hparts); [by subst| |].
  { apply Forall_app. split; [done|]. repeat constructor; auto using hexlify_field. by destruct (c_intent c). }
  rewrite Hl in H. injection H as <-. exists fs'. repeat split; try done. subst fs' fs. done.
Qed.

#[export] Instance runtime_format :
  LineFormat Command _runtime_index_line _runtime_index_key (fun c => hex_key (command_key c)) plain_command.
Proof.
  constructor.
  - intros c s Hp H. destruct (runtime_line_ok c s Hp H) as (fs & -> & Hb & _). eauto.
  - intros c s Hp H Hlen. destruct (runtime_line_ok c s Hp H) as (fs & Es & _ & Hparts & ->). unfold _runtime_index_key.
    rewrite (proj2 (Z.ltb_ge _ _)) by done. rewrite Hparts. cbn [rbind]. by destruct (c_intent c).
Qed.

(** Encoded keys are in the order of the keys. *)
Lemma hex_key_order a b : oltb (hex_key a) (hex_key b) = oltb a b.
Proof.
  destruct a as [[a1 a2] a3], b as [[b1 b2] b3]. unfold oltb, hex_key. simpl. unfold pair_cmp; simpl. unfold pair_cmp; simpl.
  by rewrite !hexlify_compare.
Qed.

(** ** Checking an index *)

Lemma order_fold key_of err lines keys p :
  Forall2 (fun l k => key_of l = Ok k) lines keys ->
  (exists o, rfold (order_step key_of err) lines p = Ok o) <-> ascending_from p keys = true.
Proof.
  intros H. revert p; induction H as [|l k ls ks Hk _ IH]; intros p; [by split; eauto|]. cbn [rfold ascending_from]. unfold order_step at 1.
  rewrite Hk. cbn [rbind]. destruct p as [p|]; [destruct (oleb k p); cbn [negb andb rbind]|cbn [rbind andb]]; [|apply IH|apply IH].
  split; [intros [? ?]; done|done].
Qed.

Section verify.
Context {R : Type} {line_of : R -> res string} {key_of : string -> res Key} {sort_key : R -> Key} {ok : R -> Prop}
  `{LF : !LineFormat R line_of key_of sort_key ok}.

Lemma verify_lines_written count_error order_error rs ls :
  Forall ok rs -> Forall2 (fun r l => line_of r = Ok l) rs ls -> Forall (fun l => slen l <= MAX_INDEX_LINE) ls ->
  ascending (map sort_key rs) ->
  verify_lines key_of count_error order_error (concat_text ls) (VInt (Z.of_nat (length rs))) = Ok ls.
Proof.
  intros Hok Hl Hm Hs.
  assert (E : exists bodies, ls = map (fun l => l +:+ newline) bodies /\ Forall (fun l => sforall (fun c => negb (byte_break c)) l = true) bodies).
  { clear Hs. induction Hl as [|r l rs ls Hr _ IH]; [exists []; split; [done|constructor]|].
    inversion Hok; subst. inversion Hm; subst. destruct IH as (bs & -> & Hb); [done|done|].
    destruct (format_shape r l) as (b & -> & Hbb); [done|done|]. exists (b :: bs). split; [done|by constructor]. }
  destruct E as (bodies & Eb & Hb). unfold verify_lines.
  assert (Hsplit : splitlines byte_break true (concat_text ls) = ls).
  { rewrite Eb, splitlines_lines; [done|done|done]. }
  rewrite Hsplit. rewrite <- (Forall2_length _ _ _ Hl). cbn [py_eq]. rewrite Z.eqb_refl. cbn [negb].
  assert (Hk : Forall2 (fun l k => key_of l = Ok k) ls (map sort_key rs)).
  { clear -LF Hok Hl Hm. induction Hl as [|r l rs ls Hr _ IH]; [constructor|]. inversion Hok; inversion Hm; subst.
    constructor; [by apply (format_key r l)|by apply IH]. }
  destruct (order_fold key_of order_error ls _ None Hk) as [_ Hf].
  destruct Hf as [o Ho]; [by apply ascending_from_spec|]. by rewrite Ho.
Qed.
End verify.

(** A checked file holds ascending keys. *)
Lemma verify_lines_sound key_of count_error order_error data expected ls :
  verify_lines key_of count_error order_error data expected = Ok ls ->
  exists keys, Forall2 (fun l k => key_of l = Ok k) ls keys /\ ascending keys /\ ls = splitlines byte_break true data.
Proof.
  unfold verify_lines. intros H. inv_ok H. subst ls.
  assert (exists keys, Forall2 (fun l k => key_of l = Ok k) (splitlines byte_break true data) keys) as [keys Hk].
  { revert Ha. generalize (@None Key) as p. generalize (splitlines byte_break true data) as ls. induction ls as [|l ls IH]; intros p H;
      [exists []; constructor|]. simpl in H. apply rbind_ok in H as (q & Hq & H). unfold order_step in Hq. inv_ok Hq.
    destruct (IH _ H) as [ks Hks]. eexists. constructor; eauto. }
  exists keys. split; [done|]. split; [|done]. destruct (order_fold key_of order_error _ keys None Hk) as [Hf _].
  apply ascending_from_spec in Hf; [by destruct Hf|eauto].
Qed.

(** ** The entry of a command *)

Lemma index_entry_line c line :
  plain_command c -> _index_line c = Ok line ->
  index_entry line = Ok (mkEntry (c_hash c) (c_operation c) (c_status c) (c_order c) (c_reason c) (c_correlation c) (c_last c)).
Proof.
  intros Hp H. unfold _index_line in H. apply rbind_ok in H as (fs & Hf & H).
  destruct (index_fields_ok c fs Hp Hf) as (E & Hfs & Hu & Ho & Hl). destruct (tab_line_spec fs) as (Ht & _ & Hparts); [by subst|done|].
  rewrite Ht in H. injection H as <-. unfold index_entry. rewrite Hparts. cbn [rbind]. subst fs.
  rewrite !Forall_cons in Hu. destruct Hu as (_ & _ & _ & Hh & Hr & Hc & _).
  rewrite (unhex_hex (c_hash c)) by done. cbn [rbind]. rewrite (py_int_str (c_order c)) by done. cbn [rbind].
  rewrite (unhex_hex (c_reason c)), (unhex_hex (c_correlation c)) by done. cbn [rbind]. by rewrite (py_int_str (c_last c)).
Qed.

(** Words of the projection. *)
Lemma operation_field ev prior : field_text prior = true -> field_text (_operation ev prior) = true.
Proof. intros H. unfold _operation, text_or. repeat case_match; done. Qed.
Lemma status_field ev prior : field_text prior = true -> field_text (_status ev prior) = true.
Proof. intros H. unfold _status. repeat case_match; done. Qed.

Lemma update_command_plain cs ev n cs' :
  Forall (fun kc => plain_command kc.2) cs -> _update_command cs ev n = Ok cs' -> Forall (fun kc => plain_command kc.2) cs'.
Proof.
  intros Hp H. unfold _update_command in H. destruct (complete (_key ev)); cbn [negb] in H; [|by injection H as <-].
  apply when_ok in H as [_ H]. injection H as <-. rewrite List.Forall_forall in *. intros [k c] Hin.
  apply In_dset in Hin as [[-> ->]|Hin]; [|by apply Hp in Hin].
  assert (Hold : plain_command (dget_or (new_command (_key ev)) (_key ev) cs)).
  { unfold dget_or. destruct (dget (_key ev) cs) eqn:E; [|done]. apply dget_In in E. by apply Hp in E. }
  destruct Hold as [H1 H2]. split; simpl; [by apply operation_field|by apply status_field].
Qed.

(** ** Manifests *)

Lemma join_newline first lines :
  PyValue.join newline (first :: lines) +:+ newline = concat_text (map (fun l => l +:+ newline) (first :: lines)).
Proof.
  revert first; induction lines as [|l lines IH]; intros first; [simpl; by rewrite append_nil_r|].
  change (PyValue.join newline (first :: l :: lines)) with (first +:+ newline +:+ PyValue.join newline (l :: lines)).
  rewrite !append_assoc, IH. cbn [map concat_text foldr]. by rewrite !append_assoc.
Qed.

(** Text that can stand on one line of a manifest. *)
Definition line_char (c : ascii) : bool := is_ascii c && negb (text_break c).
Definition line_text (s : string) : bool := sforall line_char s.

(** A field that parses back: a name without [=] and a non-empty value. *)
Definition field_ok (kv : string * string) : bool :=
  nonempty kv.1 && nonempty kv.2 && line_text kv.1 && line_text kv.2 && no_char "=" kv.1.

Lemma manifest_fold fields acc :
  Forall (fun kv => field_ok kv = true) fields -> List.NoDup (map fst (acc ++ fields)) ->
  rfold manifest_step (map field_line fields) acc = Ok (acc ++ fields).
Proof.
  intros H. revert acc; induction H as [|[k v] fields Hf _ IH]; intros acc Hn; [by rewrite app_nil_r|].
  unfold field_ok in Hf. cbn [fst snd] in Hf.
  apply andb_prop in Hf as [[[[Hnk Hnv]%andb_prop _]%andb_prop _]%andb_prop Hno].
  cbn [map rfold]. unfold manifest_step at 1. unfold field_line at 1. cbn [fst snd].
  change (k +:+ "=" +:+ v) with (k +:+ String "=" v). rewrite partition_field by done.
  assert (Hk : ~ In k (map fst acc)).
  { rewrite map_app in Hn. apply List.NoDup_remove_2 in Hn. intros Hin. apply Hn, in_or_app. auto. }
  assert (dhas k acc = false) as -> by (destruct (dhas k acc) eqn:E; [by apply dhas_In in E|done]).
  assert (E : dset k v acc = acc ++ [(k, v)]).
  { clear -Hk. induction acc as [|[k' v'] acc IH]; simpl in *; [done|]. rewrite decide_False by naive_solver. by rewrite IH by naive_solver. }
  rewrite Hnk, Hnv. cbn [negb orb rbind]. rewrite E, IH; by rewrite <- app_assoc.
Qed.

Lemma line_text_app s t : line_text (s +:+ t) = line_text s && line_text t.
Proof. apply sforall_app. Qed.

Lemma manifest_roundtrip header fields :
  line_text header = true -> Forall (fun kv => field_ok kv = true) fields -> List.NoDup (map fst fields) ->
  exists raw, manifest_bytes header fields = Ok raw /\ _parse_line_manifest raw header = Ok fields.
Proof.
  intros Hh Hf Hn. set (ls := header :: map field_line fields).
  assert (Hlines : Forall (fun l => line_text l = true) ls).
  { constructor; [done|]. apply List.Forall_forall. intros l Hl. apply in_map_iff in Hl as ([k v] & <- & Hin).
    rewrite List.Forall_forall in Hf. specialize (Hf _ Hin). unfold field_ok in Hf. cbn [fst snd] in Hf.
    apply andb_prop in Hf as [[[_ Hlk]%andb_prop Hlv]%andb_prop _].
    unfold field_line. cbn [fst snd]. rewrite !line_text_app. by rewrite Hlk, Hlv. }
  assert (Ha : sforall is_ascii (PyValue.join newline ls +:+ newline) = true).
  { rewrite sforall_app. apply andb_true_intro. split; [|done]. apply join_forall; [done|]. eapply Forall_impl; [exact Hlines|].
    intros l. apply sforall_impl. unfold line_char. intros c H. by split_bools. }
  exists (PyValue.join newline ls +:+ newline). split; [unfold manifest_bytes, ascii_text; fold ls; by rewrite Ha|].
  unfold _parse_line_manifest. rewrite Ha. cbn [negb]. unfold ls. rewrite join_newline. fold ls.
  rewrite splitlines_lines; [|done|eapply Forall_impl; [exact Hlines|]; intros l; apply sforall_impl; unfold line_char; intros c H; by apply andb_prop in H as [_ H]].
  rewrite map_id. unfold ls. rewrite bool_decide_eq_true_2 by done. cbn [negb]. by rewrite (manifest_fold fields []).
Qed.
