(* ===== verification/OmsStore.v ===== *)
(** * The generation store

    The files of a generation store and the programs that change them.  A store is a
    private directory with files ([CURRENT], [CURRENT.runtime]) and one directory per
    generation; a path is a directory name (empty for the store itself) and a file
    name.  A program over the store also produces the states the store went through,
    one per system call that changes it, so that the state after a crash at any point
    is one of them.  The file permission checks of the code are the [private] flags;
    the checks that a file did not change while it was read are not modelled: the
    store and the journal have no concurrent writer. *)

From S2P Require Import Prelude PyText PyValue PyOrder PyBytes PyJson Digest OmsJournal OmsHot.
From stdpp Require Import base tactics list strings gmap.
From Stdlib Require Import ZArith Lia.

Open Scope Z_scope.

(** ** Files *)

Record File := mkFile { f_private : bool; f_data : string }.
Definition Path : Type := string * string.

Record Store := mkStore { fs_private : bool; fs_dirs : gmap string bool; fs_files : gmap Path File }.

Definition os_error (reason : string) : exn := Exn OSError reason.
Definition file_exists : exn := os_error "FileExistsError".
Definition file_missing : exn := os_error "FileNotFoundError".

Definition MAX_METADATA : Z := 16 * 1024 * 1024.

Definition open_file (s : Store) (p : Path) : res File :=
  match fs_files s !! p with Some f => Ok f | None => Raise file_missing end.

Section reading.
Context `{Digest}.

Definition _sha256_file (s : Store) (p : Path) : res (Z * string) :=
  let! f := open_file s p in
  when negb (f_private f) raise generation_error "OMS_GENERATION_UNSAFE_FILE" in Ok (slen (f_data f), digest (f_data f)).
End reading.

Definition _read_private_bytes (s : Store) (p : Path) (maximum : option Z) : res string :=
  let! f := open_file s p in
  when negb (f_private f) || match maximum with Some m => m <? slen (f_data f) | None => false end
    raise generation_error "OMS_GENERATION_UNSAFE_METADATA" in
  Ok (f_data f).

Definition _load_json_private (s : Store) (p : Path) : res value :=
  let! f := open_file s p in
  when negb (f_private f) || (MAX_METADATA <? slen (f_data f)) raise generation_error "OMS_GENERATION_UNSAFE_METADATA" in
  match (let! text := utf8 (f_data f) in loads text) with
  | Raise e => if is_decode_error (ecls e) then Raise (generation_error "OMS_GENERATION_METADATA_INVALID") else Raise e
  | r => r
  end.

(** ** Programs *)

Definition io (A : Type) : Type := Store -> list Store * Store * res A.

Definition iret {A} (a : A) : io A := fun s => ([], s, Ok a).
Definition ibind {A B} (m : io A) (k : A -> io B) : io B := fun s =>
  match m s with
  | (t, s1, Ok a) => match k a s1 with (t', s2, r) => (t ++ t', s2, r) end
  | (t, s1, Raise e) => (t, s1, Raise e)
  end.
Definition ilift {A} (r : res A) : io A := fun s => ([], s, r).
(** A read of the current state. *)
Definition iread {A} (f : Store -> res A) : io A := fun s => ([], s, f s).
(** A system call that changes the store, or raises and leaves it. *)
Definition icall (f : Store -> res Store) : io unit := fun s =>
  match f s with Ok s' => ([s'], s', Ok tt) | Raise e => ([], s, Raise e) end.

Notation "x <-! m ; k" := (ibind m (fun x => k)) (at level 10, m at level 100, k at level 200, right associativity) : py_scope.

Fixpoint ifor {A} (f : A -> io unit) (l : list A) : io unit :=
  match l with [] => iret tt | x :: l => _ <-! f x; ifor f l end.

(** ** System calls *)

Definition dir_exists (s : Store) (d : string) : bool :=
  bool_decide (d = EmptyString) || match fs_dirs s !! d with Some _ => true | None => false end.

(** [path.mkdir(mode=0o700)] in the store *)
Definition mkdir (d : string) (s : Store) : res Store :=
  match fs_dirs s !! d, fs_files s !! (EmptyString, d) with
  | None, None => Ok (mkStore (fs_private s) (<[d := true]> (fs_dirs s)) (fs_files s))
  | _, _ => Raise file_exists
  end.

(** [os.open(path, O_CREAT | O_EXCL, 0o600)] *)
Definition create (p : Path) (s : Store) : res Store :=
  when negb (dir_exists s p.1) raise file_missing in
  match fs_files s !! p with
  | None => Ok (mkStore (fs_private s) (fs_dirs s) (<[p := mkFile true EmptyString]> (fs_files s)))
  | Some _ => Raise file_exists
  end.

(** One [os.write] on the file opened at [p] *)
Definition append_data (p : Path) (data : string) (s : Store) : res Store :=
  let! f := open_file s p in
  Ok (mkStore (fs_private s) (fs_dirs s) (<[p := mkFile (f_private f) (f_data f +:+ data)]> (fs_files s))).

(** [os.replace(a, b)] *)
Definition replace_file (a b : Path) (s : Store) : res Store :=
  let! f := open_file s a in
  Ok (mkStore (fs_private s) (fs_dirs s) (<[b := f]> (delete a (fs_files s)))).

(** [_write_all(fd, data)]: one state per byte, since a write may stop anywhere *)
Fixpoint _write_all (p : Path) (data : string) : io unit :=
  match data with
  | EmptyString => iret tt
  | String c rest => _ <-! icall (append_data p (String c EmptyString)); _write_all p rest
  end.

Definition temp_name (name uuid : string) : string := "." +:+ name +:+ "." +:+ uuid +:+ ".tmp".

Definition _atomic_bytes (p : Path) (uuid encoded : string) : io unit :=
  let temp := (p.1, temp_name p.2 uuid) in
  _ <-! icall (create temp);
  _ <-! _write_all temp encoded;
  icall (replace_file temp p).

Definition _atomic_json (p : Path) (uuid : string) (v : value) : io unit :=
  text <-! ilift (dumps v);
  _atomic_bytes p uuid (text +:+ newline).

(** A new file written line by line. *)
Definition write_file (p : Path) (blocks : list (res string)) : io unit :=
  _ <-! icall (create p);
  ifor (fun b => data <-! ilift b; _write_all p data) blocks.
