(* ===== verification/OmsGeneration.v ===== *)
(** * Building, verifying and querying a generation

    Model of [build_generation], [verify_generation] and [lookup_command] of
    [scripts/hepta_oms_checkpoint.py].  The clock and the random names are arguments
    of the build; the journal is the file it reads under its lock. *)

From Stdlib Require Import Ascii.
From S2P Require Import Prelude PyText PyValue PyOrder PyBytes PyJson OmsJournal OmsHot OmsIndex Digest OmsStore.
From stdpp Require Import base tactics list strings gmap.
From Stdlib Require Import ZArith Lia.

Open Scope Z_scope.

Definition SCHEMA : string := "heptatrader.oms-generation.v1".
Definition INDEX_SCHEMA : string := "heptatrader.oms-command-index.v1".
Definition CURRENT_POINTER_SCHEMA : string := "heptatrader.oms-current.v1".
Definition MAX_GENERATION_FILES : Z := 24.

Definition CURRENT : Path := (EmptyString, "CURRENT").
Definition CURRENT_runtime : Path := (EmptyString, "CURRENT.runtime").

Definition current_invalid : exn := generation_error "OMS_GENERATION_CURRENT_INVALID".

Definition _read_current (s : Store) : res (option dict) :=
  match fs_files s !! CURRENT with
  | None => Ok None
  | Some _ =>
      let! v := _load_json_private s CURRENT in
      match v with
      | VDict d =>
          when negb (eq_str (get d "schema") CURRENT_POINTER_SCHEMA) raise current_invalid in
          when negb (nonempty_str (get d "generation")) raise current_invalid in
          Ok (Some d)
      | _ => Raise current_invalid
      end
  end.

(** ** Building *)

(** [f"g-{time_ns:020d}-{uuid[:12]}"]; the sign counts in the width *)
Definition pad20 (z : Z) : string :=
  (if z <? 0 then "-" else "") +:+ srepeat "0"%char (Z.to_nat (20 - slen (str_int z))) +:+ digits (Z.abs z).
Definition generation_name (time_ns : Z) (uuid : string) : string := "g-" +:+ pad20 time_ns +:+ "-" +:+ stake 12 uuid.

Definition is_gzip (data : string) : bool := startswith data (String (chr 31) (String (chr 139) EmptyString)).

Definition index_meta (records : Z) : dict :=
  [("schema", VStr INDEX_SCHEMA); ("records", VInt records);
   ("key", VList [VStr "agent_id"; VStr "session_id"; VStr "command_id"]); ("full_request_hash_compared", VBool true)].

Definition preliminary_names : list string :=
  ["segment-000001.jsonl"; "checkpoint.json"; "command-index.tsv"; "command-index.json"; "runtime-command-index.tsv";
   "send-attempt-index.tsv"; "hot-replay.jsonl"].

Definition file_value (sd : Z * string) : value := VDict [("bytes", VInt sd.1); ("sha256", VStr sd.2)].

Definition manifest_value (generation parent logical : string) (prefix_bytes records commands attempts replay : Z)
    (runtime_digest : string) (files : list (string * (Z * string))) : dict :=
  [("schema", VStr SCHEMA); ("generation", VStr generation); ("parent_generation", VStr parent);
   ("journal_logical_sha256", VStr logical); ("journal_prefix_bytes", VInt prefix_bytes); ("journal_records", VInt records);
   ("command_records", VInt commands); ("send_attempt_records", VInt attempts); ("hot_replay_records", VInt replay);
   ("runtime_manifest_sha256", VStr runtime_digest); ("files", VDict (map (fun nf => (nf.1, file_value nf.2)) files));
   ("authorization_effect", VStr "NONE"); ("paper_authorized", VBool false); ("live_authorized", VBool false)].

Definition pointer_value (generation manifest_digest runtime_digest : string) : dict :=
  [("schema", VStr CURRENT_POINTER_SCHEMA); ("generation", VStr generation); ("manifest_sha256", VStr manifest_digest);
   ("runtime_manifest_sha256", VStr runtime_digest)].

(** A line of the hot replay, within the record budget. *)
Definition replay_line (max_record : Z) (e : dict) : res string :=
  let! text := dumps (VDict e) in
  when max_record <? slen (text +:+ newline) raise generation_error "OMS_GENERATION_HOT_RECORD_LIMIT" in Ok (text +:+ newline).

(** The order of the runtime index: by encoded key. *)
Definition runtime_sorted (commands : list Command) : res (list Command) :=
  let! keyed := rmapM (fun c =>
    let! a := _hex (c_agent c) in let! s := _hex (c_session c) in let! k := _hex (c_command c) in Ok ((a, s, k), c)) commands in
  Ok (map snd (sorted_key fst keyed)).

Section generation.
Context `{Digest}.

(** The records are copied to the segment as they are read. *)
Definition copy_records (g : string) (journal : string) (l : Limits) : io Scan :=
  let segment := (g, "segment-000001.jsonl") in
  let (st, o) := validated_raw_records journal l in
  _ <-! icall (create segment);
  _ <-! ifor (fun re => _write_all segment re.1) (sc_out st);
  match o with Some e => ilift (Raise e) | None => iret st end.

(** The files of the generation, up to the hot replay. *)
Definition write_state (g : string) (uuid : nat -> string) (l : Limits) (logical : string) (st : Scan) (p : Projection) (journal_size : Z)
    : io unit :=
  let checkpoint := p_checkpoint p ++ [("journal_logical_sha256", VStr logical); ("journal_records", VInt (sc_records st));
                                       ("journal_prefix_bytes", VInt journal_size)] in
  _ <-! _atomic_json (g, "checkpoint.json") (uuid 1%nat) (VDict checkpoint);
  _ <-! write_file (g, "command-index.tsv") (map (fun kc => _index_line kc.2) (sorted_key fst (p_commands p)));
  _ <-! _atomic_json (g, "command-index.json") (uuid 2%nat) (VDict (index_meta (Z.of_nat (length (p_commands p)))));
  _ <-! icall (create (g, "runtime-command-index.tsv"));
  runtime_records <-! ilift (runtime_sorted (map snd (p_commands p)));
  _ <-! ifor (fun c => line <-! ilift (_runtime_index_line c); _write_all (g, "runtime-command-index.tsv") line) runtime_records;
  _ <-! write_file (g, "send-attempt-index.tsv") (map _send_attempt_line (p_attempts p));
  write_file (g, "hot-replay.jsonl") (map (replay_line (max_record_bytes l)) (p_replay p)).

(** [for name in preliminary_names: files[name] = ...] *)
Definition file_digests (g : string) : io (list (string * (Z * string))) :=
  iread (fun s => rmapM (fun name => let! sd := _sha256_file s (g, name) in Ok (name, sd)) preliminary_names).

(** The two manifests; the result is the digest of the runtime manifest and the manifest. *)
Definition write_manifests (g parent : string) (uuid : nat -> string) (logical : string) (st : Scan) (p : Projection) (journal_size : Z)
    : io (string * dict) :=
  files <-! file_digests g;
  let commands := Z.of_nat (length (p_commands p)) in
  let attempts := Z.of_nat (length (p_attempts p)) in
  let replay := Z.of_nat (length (p_replay p)) in
  runtime_manifest <-! ilift (_runtime_manifest_bytes (mkRuntimeManifest g parent journal_size logical (sc_records st) commands attempts replay
                                (map (fun nf => (nf.1, nf.2.2)) files)));
  _ <-! _atomic_bytes (g, "runtime-manifest.txt") (uuid 3%nat) runtime_manifest;
  rd <-! iread (fun s => _sha256_file s (g, "runtime-manifest.txt"));
  let manifest := manifest_value g parent logical journal_size (sc_records st) commands attempts replay rd.2
                    (files ++ [("runtime-manifest.txt", rd)]) in
  _ <-! _atomic_json (g, "manifest.json") (uuid 4%nat) (VDict manifest);
  iret (rd.2, manifest).

(** The publication: [CURRENT], then [CURRENT.runtime] bound to its bytes. *)
Definition publish (g : string) (uuid : nat -> string) (runtime_digest : string) : io unit :=
  md <-! iread (fun s => _sha256_file s (g, "manifest.json"));
  _ <-! _atomic_json CURRENT (uuid 5%nat) (VDict (pointer_value g md.2 runtime_digest));
  current_raw <-! iread (fun s => _read_private_bytes s CURRENT (Some MAX_METADATA));
  runtime_current <-! ilift (_runtime_current_bytes g (digest current_raw) md.2 runtime_digest);
  _atomic_bytes CURRENT_runtime (uuid 6%nat) runtime_current.

Definition build_generation (journal : File) (stopped : bool) (l : Limits) (time_ns : Z) (uuid : nat -> string) : io dict :=
  if negb stopped then ilift (Raise (generation_error "OMS_GENERATION_STOP_ALL_WRITERS_REQUIRED")) else
  _ <-! iread (fun s => if fs_private s then Ok tt else Raise (generation_error "OMS_GENERATION_PRIVATE_STORE_REQUIRED"));
  current <-! iread _read_current;
  parent <-! ilift (match current with Some d => let! v := item d "generation" in as_str v | None => Ok EmptyString end);
  let g := generation_name time_ns (uuid 0%nat) in
  _ <-! icall (mkdir g);
  _ <-! ilift (if f_private journal then Ok tt else Raise (generation_error "OMS_GENERATION_UNSAFE_JOURNAL"));
  _ <-! ilift (if is_gzip (f_data journal) then Raise (generation_error "OMS_GENERATION_RUNTIME_REQUIRES_EXPANDED_JOURNAL") else Ok tt);
  st <-! copy_records g (f_data journal) l;
  let logical := digest (concat_text (map fst (sc_out st))) in
  let journal_size := slen (f_data journal) in
  sd <-! iread (fun s => _sha256_file s (g, "segment-000001.jsonl"));
  _ <-! ilift (if negb (sd.1 =? journal_size) || negb (bool_decide (sd.2 = logical))
               then Raise (generation_error "OMS_GENERATION_RUNTIME_PREFIX_MISMATCH") else Ok tt);
  p <-! ilift (_project_hot (map snd (sc_out st)));
  _ <-! write_state g uuid l logical st p journal_size;
  rm <-! write_manifests g parent uuid logical st p journal_size;
  _ <-! publish g uuid rm.1;
  iret rm.2.

(** ** Verifying *)

Definition inventory_invalid : exn := generation_error "OMS_GENERATION_FILE_INVENTORY_INVALID".

Definition check_file (s : Store) (g : string) (u : unit) (ne : string * value) : res unit :=
  let (name, expected) := ne in
  when shas "/"%char name || one_of name [""; "."; ".."] raise inventory_invalid in
  match expected with
  | VDict e =>
      let! sd := _sha256_file s (g, name) in
      when negb (py_eq (VInt sd.1) (get e "bytes")) || negb (py_eq (VStr sd.2) (get e "sha256"))
        raise generation_error "OMS_GENERATION_DIGEST_MISMATCH" in
      Ok tt
  | _ => Raise inventory_invalid
  end.

(** Iteration over a JSON value; the characters of a text only matter for being text. *)
Definition iter_value (v : value) : res (list value) :=
  match v with
  | VList l => Ok l
  | VDict d => Ok (map (fun kv => VStr kv.1) d)
  | VStr s => Ok (map (fun c => VStr (String c EmptyString)) (String.list_ascii_of_string s))
  | _ => Raise type_error
  end.

(** [key not in indexed] for a key of arbitrary values *)
Definition indexed_key (indexed : list Key) (a s c : value) : res bool :=
  match a, s, c with
  | VStr a, VStr s, VStr c => Ok (inb (a, s, c) indexed)
  | _, _, _ => if hashable a && hashable s && hashable c then Ok false else Raise type_error
  end.

Definition check_hot (indexed : list Key) (u : unit) (hot : value) : res unit :=
  let! d := as_dict hot in
  let! found := indexed_key indexed (getd (VStr "") d "agent_id") (getd (VStr "") d "session_id") (getd (VStr "") d "command_id") in
  when negb found raise generation_error "OMS_GENERATION_HOT_COMMAND_MISSING_FROM_INDEX" in Ok tt.

Definition same_field (a b : dict) (ka kb : string) : bool := py_eq (get a ka) (get b kb).

Definition checkpoint_mismatch (checkpoint manifest : dict) : bool :=
  negb (eq_str (get checkpoint "schema") CHECKPOINT_SCHEMA) ||
  negb (same_field checkpoint manifest "journal_logical_sha256" "journal_logical_sha256") ||
  negb (same_field checkpoint manifest "journal_prefix_bytes" "journal_prefix_bytes") ||
  negb (same_field checkpoint manifest "journal_records" "journal_records") ||
  negb (same_field checkpoint manifest "hot_replay_records" "hot_replay_records") ||
  negb (same_field checkpoint manifest "send_attempt_records" "send_attempt_records").

Definition replay_line_ok (line : string) : bool :=
  match (let! text := utf8 line in loads text) with Ok (VDict _) => true | _ => false end.

(** Every error of the decoder is a [ValueError]. *)
Definition check_replay_line (u : unit) (line : string) : res unit :=
  when negb (replay_line_ok line) raise generation_error "OMS_GENERATION_HOT_REPLAY_INVALID" in Ok tt.

Definition file_sha256 (files : dict) (name : string) : res value := let! f := item files name in subscript f "sha256".

Definition expected_runtime (g : string) (manifest files : dict) : res dict :=
  let parent := get manifest "parent_generation" in
  let! segment := file_sha256 files "segment-000001.jsonl" in
  let! checkpoint := file_sha256 files "checkpoint.json" in
  let! index := file_sha256 files "command-index.tsv" in
  let! runtime_index := file_sha256 files "runtime-command-index.tsv" in
  let! attempts := file_sha256 files "send-attempt-index.tsv" in
  let! replay := file_sha256 files "hot-replay.jsonl" in
  Ok [("generation", VStr g); ("parent_generation", if truthy parent then parent else VStr "-");
      ("journal_prefix_bytes", VStr (py_str (get manifest "journal_prefix_bytes")));
      ("journal_prefix_sha256", get manifest "journal_logical_sha256");
      ("journal_records", VStr (py_str (get manifest "journal_records")));
      ("command_records", VStr (py_str (get manifest "command_records")));
      ("send_attempt_records", VStr (py_str (get manifest "send_attempt_records")));
      ("hot_replay_records", VStr (py_str (get manifest "hot_replay_records")));
      ("segment_sha256", segment); ("checkpoint_sha256", checkpoint); ("command_index_sha256", index);
      ("runtime_command_index_sha256", runtime_index); ("send_attempt_index_sha256", attempts); ("hot_replay_sha256", replay);
      ("authorization_effect", VStr "NONE"); ("paper_authorized", VStr "0"); ("live_authorized", VStr "0")].

Definition text_dict (fields : list (string * string)) : value := VDict (map (fun kv => (kv.1, VStr kv.2)) fields).

(** The binding of [CURRENT] and [CURRENT.runtime] to the verified generation. *)
Definition check_current (s : Store) (g : string) (current : option dict) (manifest : dict) (manifest_digest : string) : res unit :=
  match current with
  | Some c =>
      let! cg := item c "generation" in
      if eq_str cg g then
        when negb (py_eq (get c "manifest_sha256") (VStr manifest_digest)) ||
             negb (same_field c manifest "runtime_manifest_sha256" "runtime_manifest_sha256")
          raise generation_error "OMS_GENERATION_CURRENT_DIGEST_MISMATCH" in
        let! current_raw := _read_private_bytes s CURRENT (Some MAX_METADATA) in
        let! runtime_current_raw := _read_private_bytes s CURRENT_runtime (Some MAX_METADATA) in
        let! runtime_current := _parse_line_manifest runtime_current_raw RUNTIME_CURRENT_HEADER in
        when negb (py_eq (text_dict runtime_current)
               (VDict [("generation", VStr g); ("current_sha256", VStr (digest current_raw)); ("manifest_sha256", VStr manifest_digest);
                       ("runtime_manifest_sha256", get manifest "runtime_manifest_sha256")]))
          raise generation_error "OMS_GENERATION_RUNTIME_CURRENT_MISMATCH" in
        Ok tt
      else Ok tt
  | None => Ok tt
  end.

Definition check_parent (s : Store) (manifest : dict) : res unit :=
  let parent := getd (VStr "") manifest "parent_generation" in
  if truthy parent then
    let! name := as_str parent in
    when negb (match fs_dirs s !! name with Some _ => true | None => false end) raise generation_error "OMS_GENERATION_PARENT_MISSING" in
    let! v := _load_json_private s (name, "manifest.json") in
    let! pm := as_dict v in
    when negb (eq_str (get pm "generation") name) raise generation_error "OMS_GENERATION_PARENT_INVALID" in
    Ok tt
  else Ok tt.

(** The indices and the checkpoint against the manifest. *)
Definition check_state (s : Store) (g : string) (manifest : dict) : res unit :=
  let! meta := (let! v := _load_json_private s (g, "command-index.json") in as_dict v) in
  when negb (eq_str (get meta "schema") INDEX_SCHEMA) || negb (same_field meta manifest "records" "command_records")
    raise generation_error "OMS_GENERATION_INDEX_METADATA_INVALID" in
  let! records := item meta "records" in
  let! data := _read_private_bytes s (g, "command-index.tsv") None in
  let! lines := _verify_index data records in
  let! runtime_data := _read_private_bytes s (g, "runtime-command-index.tsv") None in
  let! _ := _verify_runtime_index runtime_data records in
  let! checkpoint := (let! v := _load_json_private s (g, "checkpoint.json") in as_dict v) in
  when checkpoint_mismatch checkpoint manifest raise generation_error "OMS_GENERATION_CHECKPOINT_MISMATCH" in
  let! indexed := rmapM _index_key lines in
  let! hot := iter_value (getd (VList []) checkpoint "hot_commands") in
  rfold (check_hot indexed) hot tt.

(** The replay and send-attempt files against the manifest. *)
Definition check_replay (s : Store) (g : string) (manifest : dict) : res unit :=
  let! hot_data := _read_private_bytes s (g, "hot-replay.jsonl") (Some MAX_METADATA) in
  let hot_lines := splitlines byte_break false hot_data in
  when negb (py_eq (VInt (Z.of_nat (length hot_lines))) (get manifest "hot_replay_records"))
    raise generation_error "OMS_GENERATION_HOT_REPLAY_COUNT_MISMATCH" in
  let! _ := rfold check_replay_line hot_lines tt in
  let! send_data := _read_private_bytes s (g, "send-attempt-index.tsv") (Some MAX_METADATA) in
  when negb (py_eq (VInt (Z.of_nat (length (splitlines byte_break false send_data)))) (get manifest "send_attempt_records"))
    raise generation_error "OMS_GENERATION_SEND_INDEX_COUNT_MISMATCH" in
  Ok tt.

Definition check_runtime (s : Store) (g : string) (manifest files : dict) : res unit :=
  let! runtime_raw := _read_private_bytes s (g, "runtime-manifest.txt") (Some MAX_METADATA) in
  let! runtime := _parse_line_manifest runtime_raw RUNTIME_MANIFEST_HEADER in
  let! expected := expected_runtime g manifest files in
  when negb (py_eq (text_dict runtime) (VDict expected)) || negb (py_eq (VStr (digest runtime_raw)) (get manifest "runtime_manifest_sha256"))
    raise generation_error "OMS_GENERATION_RUNTIME_MANIFEST_MISMATCH" in
  Ok tt.

Definition verification_report (g : string) (manifest : dict) : res dict :=
  let! jr := item manifest "journal_records" in
  let! cr := item manifest "command_records" in
  let! ar := item manifest "send_attempt_records" in
  let! hr := item manifest "hot_replay_records" in
  Ok [("schema", VStr "heptatrader.oms-generation-verification.v1"); ("result", VStr "PASS"); ("generation", VStr g);
      ("journal_records", jr); ("command_records", cr); ("send_attempt_records", ar); ("hot_replay_records", hr);
      ("authorization_effect", VStr "NONE")].

(** [verify_generation(store, generation)], once the generation is known. *)
Definition verify_named (s : Store) (current : option dict) (g : string) : res dict :=
  match fs_dirs s !! g with
  | None => Raise file_missing
  | Some private =>
      when negb private raise generation_error "OMS_GENERATION_DIRECTORY_INVALID" in
      let! v := _load_json_private s (g, "manifest.json") in
      match v with
      | VDict manifest =>
          when negb (eq_str (get manifest "schema") SCHEMA) || negb (eq_str (get manifest "generation") g)
            raise generation_error "OMS_GENERATION_MANIFEST_INVALID" in
          match get manifest "files" with
          | VDict files =>
              when (Z.of_nat (length files) <? 1) || (MAX_GENERATION_FILES <? Z.of_nat (length files)) raise inventory_invalid in
              let! _ := rfold (check_file s g) files tt in
              let! _ := check_state s g manifest in
              let! _ := check_replay s g manifest in
              let! _ := check_runtime s g manifest files in
              let! md := _sha256_file s (g, "manifest.json") in
              let! _ := check_current s g current manifest md.2 in
              let! _ := check_parent s manifest in
              verification_report g manifest
          | _ => Raise inventory_invalid
          end
      | _ => Raise (generation_error "OMS_GENERATION_MANIFEST_INVALID")
      end
  end.

Definition verify_generation (s : Store) (generation : option string) : res dict :=
  when negb (fs_private s) raise generation_error "OMS_GENERATION_PRIVATE_STORE_REQUIRED" in
  let! current := _read_current s in
  match generation with
  | Some g => verify_named s current g
  | None =>
      match current with
      | None => Raise (generation_error "OMS_GENERATION_CURRENT_MISSING")
      | Some c => let! g := (let! v := item c "generation" in as_str v) in verify_named s current g
      end
  end.

(** ** Looking up a command *)

Definition entry_value (outcome : string) (e : Entry) : dict :=
  [("status", VStr outcome); ("operation", VStr (e_operation e)); ("command_status", VStr (e_status e)); ("order_id", VInt (e_order e));
   ("reason", VStr (e_reason e)); ("venue_correlation_id", VStr (e_correlation e)); ("last_sequence", VInt (e_last e));
   ("authorization_effect", VStr "NONE")].

Definition missing_value : dict := [("status", VStr "missing"); ("authorization_effect", VStr "NONE")].

(** The search of one index file. *)
Definition lookup_index (data : string) (wanted : Key) (request_hash : string) : res dict :=
  let lines := splitlines byte_break true data in
  let! keys := rmapM _index_key lines in
  let position := bisect_left oltb keys wanted in
  match keys !! position, lines !! position with
  | Some k, Some line =>
      if bool_decide (k = wanted) then
        let! e := index_entry line in
        Ok (entry_value (if bool_decide (e_hash e = request_hash) then "duplicate" else "conflict") e)
      else Ok missing_value
  | _, _ => Ok missing_value
  end.

Definition lookup_command (s : Store) (agent session command request_hash : string) : res dict :=
  let! current := _read_current s in
  match current with
  | None => Raise (generation_error "OMS_GENERATION_CURRENT_MISSING")
  | Some c =>
      let! g := (let! v := item c "generation" in as_str v) in
      let! _ := verify_generation s (Some g) in
      let! data := _read_private_bytes s (g, "command-index.tsv") None in
      lookup_index data (agent, session, command) request_hash
  end.
End generation.
