(* ===== verification/OmsStoreFacts.v ===== *)
(** * What programs over the store do

    Two views of a program.  [eff m s s' a] is its result: started in [s] it ends in
    [s'] with the value [a]; writing a file by any of the program's ways is one
    [put].  [confined g m] is its footprint: every state it goes through agrees with
    the initial one outside the directory [g] and the temporary files of the store. *)

From Stdlib Require Import Ascii.
From S2P Require Import Prelude PyText PyValue PyOrder PyBytes PyJson OmsJournal OmsHot OmsIndex Digest OmsStore OmsGeneration.
From stdpp Require Import base tactics list strings gmap.
From Stdlib Require Import ZArith Lia.

Open Scope Z_scope.

(** ** Results *)

Definition eff {A} (m : io A) (s s' : Store) (a : A) : Prop := exists t, m s = (t, s', Ok a).

Lemma eff_bind {A B} (m : io A) (k : A -> io B) s s' b :
  eff (ibind m k) s s' b <-> exists s1 a, eff m s s1 a /\ eff (k a) s1 s' b.
Proof.
  unfold eff, ibind. split.
  - intros [t H]. destruct (m s) as [[t1 s1] [a|e]] eqn:E1; [|done]. destruct (k a s1) as [[t2 s2] r] eqn:E2. simplify_eq. eauto 10.
  - intros (s1 & a & [t1 H1] & [t2 H2]). rewrite H1, H2. eauto.
Qed.

Lemma eff_ret {A} (a b : A) s s' : eff (iret a) s s' b <-> s' = s /\ b = a.
Proof. unfold eff, iret. split; [intros [t [= _ -> ->]]; done|intros [-> ->]; eauto]. Qed.
Lemma eff_lift {A} (r : res A) s s' a : eff (ilift r) s s' a <-> s' = s /\ r = Ok a.
Proof. unfold eff, ilift. split; [intros [t [= _ -> ->]]; done|intros [-> ->]; eauto]. Qed.
Lemma eff_read {A} (f : Store -> res A) s s' a : eff (iread f) s s' a <-> s' = s /\ f s = Ok a.
Proof. unfold eff, iread. split; [intros [t [= _ -> ->]]; done|intros [-> ->]; eauto]. Qed.
Lemma eff_call f s s' u : eff (icall f) s s' u <-> f s = Ok s'.
Proof.
  unfold eff, icall. destruct u. destruct (f s) as [s1|e].
  - split; [by intros [t [= _ ->]]|intros [= ->]; eauto].
  - split; [by intros [t ?]|done].
Qed.

(** Opens a successful run of a program. *)
Ltac run H :=
  lazymatch type of H with
  | eff (ibind _ _) _ _ _ =>
      let s := fresh "s" in let a := fresh "a" in let E := fresh "E" in
      apply eff_bind in H as (s & a & E & H); run E; run H
  | eff (iret _) _ _ _ => apply eff_ret in H as [-> ->]
  | eff (ilift _) _ _ _ => apply eff_lift in H as [-> H]
  | eff (iread _) _ _ _ => apply eff_read in H as [-> H]
  | eff (icall _) _ _ _ => apply eff_call in H
  | _ => idtac
  end.

(** ** Writing a file *)

Definition put (p : Path) (data : string) (s : Store) : Store :=
  mkStore (fs_private s) (fs_dirs s) (<[p := mkFile true data]> (fs_files s)).

Lemma put_put p d d' s : put p d' (put p d s) = put p d' s.
Proof. unfold put. simpl. by rewrite insert_insert_eq. Qed.

Lemma lookup_put p d s : fs_files (put p d s) !! p = Some (mkFile true d).
Proof. unfold put. simpl. by rewrite lookup_insert_eq. Qed.
Lemma lookup_put_ne p q d s : p <> q -> fs_files (put q d s) !! p = fs_files s !! p.
Proof. intros H. unfold put. simpl. by rewrite lookup_insert_ne. Qed.

Lemma create_ok p s s' : create p s = Ok s' -> s' = put p EmptyString s /\ fs_files s !! p = None.
Proof. unfold create. intros H. inv_ok H. destruct (fs_files s !! p); [done|]. by injection H as <-. Qed.

Lemma append_put p d d' s : append_data p d' (put p d s) = Ok (put p (d +:+ d') s).
Proof. unfold append_data, open_file. rewrite lookup_put. cbn [rbind f_private f_data]. unfold put. simpl. by rewrite insert_insert_eq. Qed.

Lemma write_all_eff p data d s s' u : eff (_write_all p data) (put p d s) s' u -> s' = put p (d +:+ data) s.
Proof.
  revert d; induction data as [|c data IH]; intros d H; cbn [_write_all] in H; run H.
  - by rewrite append_nil_r.
  - rewrite append_put in E. injection E as <-. apply IH in H as ->. by rewrite append_assoc.
Qed.

Lemma temp_name_ne name uuid : temp_name name uuid <> name.
Proof.
  intros H. apply (f_equal slen) in H. unfold temp_name in H. rewrite !slen_app in H. change (slen ".") with 1 in H.
  change (slen ".tmp") with 4 in H. pose proof (slen_nonneg uuid). lia.
Qed.

Lemma replace_put a b d s : a <> b -> fs_files s !! a = None -> replace_file a b (put a d s) = Ok (put b d s).
Proof.
  intros Hab Hn. unfold replace_file, open_file. rewrite lookup_put. cbn [rbind]. unfold put. simpl. by rewrite delete_insert_id.
Qed.

Lemma atomic_bytes_eff p uuid d s s' u : eff (_atomic_bytes p uuid d) s s' u -> s' = put p d s.
Proof.
  unfold _atomic_bytes. intros H. run H. apply create_ok in E as [-> Hn]. apply write_all_eff in E0 as ->. rewrite append_nil_l in H.
  rewrite replace_put in H; [by injection H as <-| |done]. destruct p as [dir name]. simpl. intros [= Ht]. by apply temp_name_ne in Ht.
Qed.

Lemma atomic_json_eff p uuid v s s' u :
  eff (_atomic_json p uuid v) s s' u -> exists text, dumps v = Ok text /\ s' = put p (text +:+ newline) s.
Proof. unfold _atomic_json. intros H. run H. apply atomic_bytes_eff in H. eauto. Qed.

(** Appending the results of fallible encoders. *)
Lemma append_loop_eff {A} (f : A -> res string) p l d s s' u :
  eff (ifor (fun x => data <-! ilift (f x); _write_all p data) l) (put p d s) s' u ->
  exists ds, rmapM f l = Ok ds /\ s' = put p (d +:+ concat_text ds) s.
Proof.
  revert d; induction l as [|x l IH]; intros d H; cbn [ifor] in H.
  - run H. exists []. cbn [rmapM concat_text foldr]. by rewrite append_nil_r.
  - run H. apply write_all_eff in E as ->. apply IH in H as (ds & Hd & ->). cbn [rmapM]. rewrite E0, Hd. cbn [rbind].
    eexists. split; [done|]. cbn [concat_text foldr]. by rewrite append_assoc.
Qed.

Lemma write_file_eff p blocks s s' u :
  eff (write_file p blocks) s s' u -> exists ds, rmapM (fun b => b) blocks = Ok ds /\ s' = put p (concat_text ds) s.
Proof.
  unfold write_file. intros H. run H. apply create_ok in E as [-> _]. by apply append_loop_eff in H.
Qed.

Lemma rmapM_id_map {A B} (f : A -> res B) l : rmapM (fun b => b) (map f l) = rmapM f l.
Proof. induction l as [|x l IH]; [done|]. cbn [map rmapM]. by rewrite IH. Qed.

(** ** Footprints *)

(** Agreement outside the directory [g] and the unpublished files of the store. *)
Record agree (g : string) (s s' : Store) : Prop := {
  agree_private : fs_private s' = fs_private s;
  agree_dirs : forall d, d <> g -> fs_dirs s' !! d = fs_dirs s !! d;
  agree_files : forall p, p.1 <> g -> p.1 <> EmptyString -> fs_files s' !! p = fs_files s !! p;
  agree_current : fs_files s' !! CURRENT = fs_files s !! CURRENT;
  agree_runtime : fs_files s' !! CURRENT_runtime = fs_files s !! CURRENT_runtime
}.

#[export] Instance agree_preorder g : PreOrder (agree g).
Proof.
  split; [by constructor|]. intros a b c [P1 D1 F1 C1 R1] [P2 D2 F2 C2 R2].
  constructor; [congruence|intros; by rewrite D2, D1|intros; by rewrite F2, F1|congruence|congruence].
Qed.

(** A file that [agree g] does not protect. *)
Definition unprotected (g : string) (p : Path) : Prop :=
  (p.1 = g \/ p.1 = EmptyString) /\ p <> CURRENT /\ p <> CURRENT_runtime.

Definition confined {A} (g : string) (m : io A) : Prop :=
  forall s t s' r, m s = (t, s', r) -> Forall (agree g s) t /\ agree g s s'.

Create HintDb confined.

Section confined.
Context (g : string).

Lemma confined_pure {A} (f : Store -> res A) : confined g (fun s => ([], s, f s)).
Proof. intros s t s' r [= <- <- <-]. by split. Qed.

Lemma confined_bind {A B} (m : io A) (k : A -> io B) : confined g m -> (forall a, confined g (k a)) -> confined g (ibind m k).
Proof.
  intros Hm Hk s t s' r H. unfold ibind in H. destruct (m s) as [[t1 s1] [a|e]] eqn:E1; apply Hm in E1 as [Ht1 Hs1]; [|by simplify_eq].
  destruct (k a s1) as [[t2 s2] r2] eqn:E2. apply Hk in E2 as [Ht2 Hs2]. simplify_eq. split; [|by transitivity s1].
  apply Forall_app. split; [done|]. eapply Forall_impl; [exact Ht2|]. intros x Hx. by transitivity s1.
Qed.

Lemma confined_call f : (forall s s', f s = Ok s' -> agree g s s') -> confined g (icall f).
Proof.
  intros Hf s t s' r H. unfold icall in H. destruct (f s) as [s1|e] eqn:E; simplify_eq; [|by split].
  split; [constructor; [by apply Hf|constructor]|by apply Hf].
Qed.

Lemma confined_for {A} (f : A -> io unit) l : (forall x, confined g (f x)) -> confined g (ifor f l).
Proof. intros Hf. induction l; cbn [ifor]; [apply confined_pure|]. by apply confined_bind. Qed.

Lemma agree_insert p f s : unprotected g p -> agree g s (mkStore (fs_private s) (fs_dirs s) (<[p := f]> (fs_files s))).
Proof.
  intros (Hd & Hc & Hr). constructor; simpl; try done; intros; rewrite lookup_insert_ne; [done|naive_solver|done|done|done|done].
Qed.

Lemma agree_delete p s : unprotected g p -> agree g s (mkStore (fs_private s) (fs_dirs s) (delete p (fs_files s))).
Proof.
  intros (Hd & Hc & Hr). constructor; simpl; try done; intros; rewrite lookup_delete_ne; [done|naive_solver|done|done|done|done].
Qed.

Lemma confined_create p : unprotected g p -> confined g (icall (create p)).
Proof.
  intros Hp. apply confined_call. intros s s' H. apply create_ok in H as [-> _]. by apply agree_insert.
Qed.

Lemma confined_append p d : unprotected g p -> confined g (icall (append_data p d)).
Proof.
  intros Hp. apply confined_call. intros s s' H. unfold append_data in H. inv_ok H. subst s'. by apply agree_insert.
Qed.

Lemma confined_write_all p data : unprotected g p -> confined g (_write_all p data).
Proof.
  intros Hp. induction data; cbn [_write_all]; [apply confined_pure|]. apply confined_bind; [by apply confined_append|done].
Qed.

Lemma confined_replace a b : unprotected g a -> unprotected g b -> confined g (icall (replace_file a b)).
Proof.
  intros Ha Hb. apply confined_call. intros s s' H. unfold replace_file in H. inv_ok H. subst s'.
  transitivity (mkStore (fs_private s) (fs_dirs s) (delete a (fs_files s))); [by apply agree_delete|].
  pose proof (agree_insert b a0 (mkStore (fs_private s) (fs_dirs s) (delete a (fs_files s))) Hb) as H. exact H.
Qed.

Lemma confined_mkdir : confined g (icall (mkdir g)).
Proof.
  apply confined_call. intros s s' H. unfold mkdir in H. repeat case_match; simplify_eq.
  constructor; simpl; try done. intros d Hd. by rewrite lookup_insert_ne.
Qed.
End confined.

#[export] Hint Resolve confined_pure confined_bind confined_for confined_create confined_append confined_write_all confined_replace confined_mkdir : confined.

Lemma unprotected_in g name : g <> EmptyString -> unprotected g (g, name).
Proof. intros H. split; [by left|]. unfold CURRENT, CURRENT_runtime. split; intros [= E _]; done. Qed.
Lemma unprotected_temp g name uuid : unprotected g (EmptyString, temp_name name uuid).
Proof. split; [by right|]. unfold CURRENT, CURRENT_runtime, temp_name. split; intros [=]. Qed.
#[export] Hint Resolve unprotected_in unprotected_temp : confined.

Lemma confined_atomic g name uuid d : g <> EmptyString -> confined g (_atomic_bytes (g, name) uuid d).
Proof. intros Hg. unfold _atomic_bytes. auto 10 with confined. Qed.

Lemma confined_json g name uuid v : g <> EmptyString -> confined g (_atomic_json (g, name) uuid v).
Proof.
  intros Hg. unfold _atomic_json. apply confined_bind; [apply confined_pure|]. intros text. by apply confined_atomic.
Qed.

Lemma confined_write g name blocks : g <> EmptyString -> confined g (write_file (g, name) blocks).
Proof.
  intros Hg. unfold write_file. apply confined_bind; [auto with confined|]. intros _. apply confined_for. intros x.
  apply confined_bind; [apply confined_pure|]. auto with confined.
Qed.
#[export] Hint Resolve confined_atomic confined_json confined_write : confined.
