(* ===== verification/OmsGenerationFacts.v ===== *)
(** * A built generation

    [build_inv] describes the store a successful build leaves: the files of the new
    directory, their texts and the two pointers.  The rest reads such a store back
    piece by piece, in the order [verify_generation] does. *)

From Stdlib Require Import Ascii.
From S2P Require Import Prelude PyText PyValue PyOrder PyBytes PyJson PyJsonFacts OmsJournal OmsJournalFacts OmsHot OmsHotFacts.
From S2P Require Import OmsIndex OmsIndexFacts Digest OmsStore OmsGeneration OmsStoreFacts.
From stdpp Require Import base tactics list strings gmap.
From Stdlib Require Import ZArith Lia Bool Permutation.

Open Scope Z_scope.

(** ** The store after a build *)

(** Several files of one directory, written in order. *)
Definition put_all (g : string) (files : list (string * string)) (s : Store) : Store :=
  foldl (fun s nd => put (g, nd.1) nd.2 s) s files.

Lemma put_all_frame g files s p : p.1 <> g -> fs_files (put_all g files s) !! p = fs_files s !! p.
Proof.
  intros Hp. revert s; induction files as [|[n d] files IH]; intros s; [done|]. change (put_all g ((n, d) :: files) s) with (put_all g files (put (g, n) d s)).
  rewrite IH. apply lookup_put_ne. intros ->. done.
Qed.

Lemma put_all_other g files s n : ~ In n (map fst files) -> fs_files (put_all g files s) !! (g, n) = fs_files s !! (g, n).
Proof.
  revert s; induction files as [|[n' d] files IH]; intros s Hn; [done|].
  change (put_all g ((n', d) :: files) s) with (put_all g files (put (g, n') d s)). rewrite IH by (intros ?; apply Hn; by right).
  apply lookup_put_ne. intros [= ->]. apply Hn. by left.
Qed.

Lemma put_all_lookup g files s n d :
  List.NoDup (map fst files) -> dget n files = Some d -> fs_files (put_all g files s) !! (g, n) = Some (mkFile true d).
Proof.
  revert s; induction files as [|[n' d'] files IH]; intros s Hn Hd; [done|]. inversion Hn; subst.
  change (put_all g ((n', d') :: files) s) with (put_all g files (put (g, n') d' s)). simpl in Hd. case_decide; [|by apply IH].
  simplify_eq. rewrite put_all_other by done. apply lookup_put.
Qed.

Lemma put_all_dirs g files s : fs_dirs (put_all g files s) = fs_dirs s /\ fs_private (put_all g files s) = fs_private s.
Proof.
  revert s; induction files as [|[n d] files IH]; intros s; [done|].
  change (put_all g ((n, d) :: files) s) with (put_all g files (put (g, n) d s)). destruct (IH (put (g, n) d s)) as [-> ->]. done.
Qed.

Section built.
Context `{Digest}.

(** The events and the projection a build is about. *)
Definition journal_events (data : string) (l : Limits) : list dict := map snd (sc_out (validated_raw_records data l).1).

(** The texts of a generation. *)
Record Texts := mkTexts {
  x_segment : string; x_checkpoint : string; x_index : string; x_meta : string; x_runtime : string; x_attempts : string; x_replay : string }.

Definition preliminary_files (x : Texts) : list (string * string) :=
  combine preliminary_names [x_segment x; x_checkpoint x; x_index x; x_meta x; x_runtime x; x_attempts x; x_replay x].

Definition digests_of (files : list (string * string)) : list (string * (Z * string)) :=
  map (fun nd => (nd.1, (slen nd.2, digest nd.2))) files.

Definition checkpoint_of (p : Projection) (logical : string) (records size : Z) : dict :=
  p_checkpoint p ++ [("journal_logical_sha256", VStr logical); ("journal_records", VInt records); ("journal_prefix_bytes", VInt size)].

(** How the texts come from the projection. *)
Record texts_of (l : Limits) (st : Scan) (p : Projection) (size : Z) (x : Texts) : Prop := {
  tx_segment : x_segment x = concat_text (map fst (sc_out st)) /\ slen (x_segment x) = size;
  tx_checkpoint : exists t, dumps (VDict (checkpoint_of p (digest (x_segment x)) (sc_records st) size)) = Ok t /\ x_checkpoint x = t +:+ newline;
  tx_index : exists ls, rmapM (fun kc => _index_line kc.2) (sorted_key fst (p_commands p)) = Ok ls /\ x_index x = concat_text ls;
  tx_meta : exists t, dumps (VDict (index_meta (Z.of_nat (length (p_commands p))))) = Ok t /\ x_meta x = t +:+ newline;
  tx_runtime : exists cs ls, runtime_sorted (map snd (p_commands p)) = Ok cs /\ rmapM _runtime_index_line cs = Ok ls /\ x_runtime x = concat_text ls;
  tx_attempts : exists ls, rmapM _send_attempt_line (p_attempts p) = Ok ls /\ x_attempts x = concat_text ls;
  tx_replay : exists ls, rmapM (replay_line (max_record_bytes l)) (p_replay p) = Ok ls /\ x_replay x = concat_text ls
}.

Definition runtime_manifest_of (g parent : string) (st : Scan) (p : Projection) (x : Texts) : RuntimeManifest :=
  mkRuntimeManifest g parent (slen (x_segment x)) (digest (x_segment x)) (sc_records st) (Z.of_nat (length (p_commands p)))
    (Z.of_nat (length (p_attempts p))) (Z.of_nat (length (p_replay p))) (map (fun nf => (nf.1, nf.2.2)) (digests_of (preliminary_files x))).

Definition manifest_of (g parent : string) (st : Scan) (p : Projection) (x : Texts) (runtime : string) : dict :=
  manifest_value g parent (digest (x_segment x)) (slen (x_segment x)) (sc_records st) (Z.of_nat (length (p_commands p)))
    (Z.of_nat (length (p_attempts p))) (Z.of_nat (length (p_replay p))) (digest runtime)
    (digests_of (preliminary_files x ++ [("runtime-manifest.txt", runtime)])).

(** The files of the directory. *)
Definition generation_files (x : Texts) (runtime manifest : string) : list (string * string) :=
  preliminary_files x ++ [("runtime-manifest.txt", runtime); ("manifest.json", manifest)].

Definition with_dir (g : string) (s : Store) : Store := mkStore (fs_private s) (<[g := true]> (fs_dirs s)) (fs_files s).

Lemma copy_records_eff g data l s s' st :
  eff (copy_records g data l) s s' st ->
  validated_raw_records data l = (st, None) /\ s' = put (g, "segment-000001.jsonl") (concat_text (map fst (sc_out st))) s.
Proof.
  unfold copy_records. destruct (validated_raw_records data l) as [st0 o]. intros Hr. run Hr. apply create_ok in E as [-> _].
  assert (Hl : forall d s1 u, eff (ifor (fun re : string * dict => _write_all (g, "segment-000001.jsonl") re.1) (sc_out st0))
      (put (g, "segment-000001.jsonl") d s) s1 u -> s1 = put (g, "segment-000001.jsonl") (d +:+ concat_text (map fst (sc_out st0))) s).
  { clear. induction (sc_out st0) as [|[raw e] l IH]; intros d s1 u Hl; cbn [ifor] in Hl.
    - run Hl. by rewrite append_nil_r.
    - run Hl. apply write_all_eff in E as ->. apply IH in Hl as ->. cbn [map fst concat_text foldr]. by rewrite append_assoc. }
  apply Hl in E0 as ->. destruct o; run Hr; [done|]. done.
Qed.

Lemma mkdir_ok g s s' : mkdir g s = Ok s' -> s' = with_dir g s /\ fs_dirs s !! g = None.
Proof. unfold mkdir. intros Hm. repeat case_match; simplify_eq. done. Qed.

Lemma sha_put s p d : fs_files s !! p = Some (mkFile true d) -> _sha256_file s p = Ok (slen d, digest d).
Proof. intros Hd. unfold _sha256_file, open_file. by rewrite Hd. Qed.

Lemma file_digests_ok g files s :
  (forall n d, In (n, d) files -> fs_files s !! (g, n) = Some (mkFile true d)) ->
  rmapM (fun name => let! sd := _sha256_file s (g, name) in Ok (name, sd)) (map fst files) = Ok (digests_of files).
Proof.
  induction files as [|[n d] files IH]; intros Hf; [done|]. cbn [map fst rmapM]. rewrite (sha_put s (g, n) d) by (apply Hf; by left).
  cbn [rbind]. rewrite IH by (intros; apply Hf; by right). done.
Qed.

(** The state files: one [put] each. *)
Lemma write_state_eff g uuid l logical st p size s s' u :
  eff (write_state g uuid l logical st p size) s s' u -> forall seg, logical = digest seg -> seg = concat_text (map fst (sc_out st)) ->
  slen seg = size ->
  exists x, texts_of l st p size x /\ x_segment x = seg /\ s' = put_all g (tail (preliminary_files x)) s.
Proof.
  unfold write_state. intros Hw seg -> Hs Hz. run Hw.
  apply atomic_json_eff in E as (t1 & D1 & ->). apply write_file_eff in E0 as (ls1 & D2 & ->). rewrite rmapM_id_map in D2.
  apply atomic_json_eff in E1 as (t2 & D3 & ->). apply create_ok in E2 as [-> _]. apply append_loop_eff in E4 as (ls2 & D4 & ->).
  apply write_file_eff in E5 as (ls3 & D5 & ->). rewrite rmapM_id_map in D5. apply write_file_eff in Hw as (ls4 & D6 & ->). rewrite rmapM_id_map in D6.
  exists (mkTexts seg (t1 +:+ newline) (concat_text ls1) (t2 +:+ newline) (concat_text ls2) (concat_text ls3) (concat_text ls4)).
  split; [|done]. constructor; simpl; eauto 10.
Qed.

Lemma preliminary_nodup x : List.NoDup (map fst (preliminary_files x)).
Proof. simpl. repeat (constructor; [simpl; intuition discriminate|]). constructor. Qed.

Lemma generation_nodup x r m : List.NoDup (map fst (generation_files x r m)).
Proof. simpl. repeat (constructor; [simpl; intuition discriminate|]). constructor. Qed.

(** The manifests. *)
Lemma write_manifests_eff g parent uuid st p x s s' rm :
  eff (write_manifests g parent uuid (digest (x_segment x)) st p (slen (x_segment x))) (put_all g (preliminary_files x) s) s' rm ->
  exists runtime t, _runtime_manifest_bytes (runtime_manifest_of g parent st p x) = Ok runtime /\
    dumps (VDict (manifest_of g parent st p x runtime)) = Ok t /\ rm = (digest runtime, manifest_of g parent st p x runtime) /\
    s' = put_all g (generation_files x runtime (t +:+ newline)) s.
Proof.
  unfold write_manifests, file_digests. intros Hw. run Hw.
  assert (Hd : rmapM (fun name => let! sd := _sha256_file (put_all g (preliminary_files x) s) (g, name) in Ok (name, sd)) preliminary_names =
    Ok (digests_of (preliminary_files x))).
  { change preliminary_names with (map fst (preliminary_files x)) at 1. apply file_digests_ok. intros n d Hin.
    apply put_all_lookup; [apply preliminary_nodup|]. apply dget_of_In; [apply preliminary_nodup|done]. }
  rewrite Hd in E. injection E as <-. apply atomic_bytes_eff in E1 as ->. rewrite (sha_put _ _ a0) in E2 by apply lookup_put. injection E2 as <-.
  apply atomic_json_eff in E3 as (t & Dt & ->). exists a0, t. unfold manifest_of, digests_of. rewrite map_app. cbn [map fst snd].
  split; [exact E0|]. split; [exact Dt|]. split; [done|]. unfold put_all, generation_files. by rewrite foldl_app.
Qed.

(** What a successful build did. *)
Record built (journal : File) (l : Limits) (g : string) (s s' : Store) (parent : string) (st : Scan) (p : Projection) (x : Texts)
    (runtime manifest current runtime_current : string) : Prop := {
  b_private : fs_private s = true;
  b_parent : (exists c, _read_current s = Ok (Some c) /\ dget "generation" c = Some (VStr parent) /\ parent <> EmptyString) \/
             (_read_current s = Ok None /\ parent = EmptyString);
  b_fresh : fs_dirs s !! g = None;
  b_scan : validated_raw_records (f_data journal) l = (st, None);
  b_project : _project_hot (journal_events (f_data journal) l) = Ok p;
  b_texts : texts_of l st p (slen (f_data journal)) x;
  b_runtime : _runtime_manifest_bytes (runtime_manifest_of g parent st p x) = Ok runtime;
  b_manifest : exists t, dumps (VDict (manifest_of g parent st p x runtime)) = Ok t /\ manifest = t +:+ newline;
  b_current : exists t, dumps (VDict (pointer_value g (digest manifest) (digest runtime))) = Ok t /\ current = t +:+ newline;
  b_runtime_current : _runtime_current_bytes g (digest current) (digest manifest) (digest runtime) = Ok runtime_current;
  b_store : s' = put CURRENT_runtime runtime_current (put CURRENT current (put_all g (generation_files x runtime manifest) (with_dir g s)))
}.

Lemma read_current_generation s c : _read_current s = Ok (Some c) -> exists g, dget "generation" c = Some (VStr g) /\ g <> EmptyString.
Proof.
  unfold _read_current. destruct (fs_files s !! CURRENT); [|done]. intros Hc. inv_ok Hc. destruct a; try done. inv_ok Hc. subst.
  unfold nonempty_str, get, getd, dget_or in *. destruct (dget "generation" c) as [[]|]; try done. eexists. split; [done|].
  split_bools. by apply bool_decide_eq_false in Hc1.
Qed.

Lemma publish_eff g uuid x runtime manifest s s' u :
  g <> EmptyString ->
  eff (publish g uuid (digest runtime)) (put_all g (generation_files x runtime manifest) s) s' u ->
  exists t runtime_current, dumps (VDict (pointer_value g (digest manifest) (digest runtime))) = Ok t /\
    _runtime_current_bytes g (digest (t +:+ newline)) (digest manifest) (digest runtime) = Ok runtime_current /\
    s' = put CURRENT_runtime runtime_current (put CURRENT (t +:+ newline) (put_all g (generation_files x runtime manifest) s)).
Proof.
  intros Hg Hp. unfold publish in Hp. run Hp.
  rewrite (sha_put _ _ manifest) in E by (apply put_all_lookup; [apply generation_nodup|done]). injection E as <-. cbn [snd] in *.
  apply atomic_json_eff in E0 as (t & Dt & ->). unfold _read_private_bytes, open_file in E1. rewrite lookup_put in E1. inv_ok E1. injection Ha as <-. subst a1.
  apply atomic_bytes_eff in Hp as ->. exists t. eexists. split; [exact Dt|]. split; [eassumption|done].
Qed.

Lemma generation_name_nonempty time uuid : generation_name time uuid <> EmptyString.
Proof. done. Qed.

Lemma build_inv journal stopped l time uuid s s' m :
  eff (build_generation journal stopped l time uuid) s s' m ->
  exists parent st p x runtime manifest current runtime_current,
    built journal l (generation_name time (uuid 0%nat)) s s' parent st p x runtime manifest current runtime_current /\
    m = manifest_of (generation_name time (uuid 0%nat)) parent st p x runtime.
Proof.
  unfold build_generation. set (g := generation_name time (uuid 0%nat)). intros Hb. destruct stopped; cbn [negb] in Hb; [|run Hb; done]. run Hb.
  destruct (fs_private s) eqn:Hpriv; [|done]. apply mkdir_ok in E2 as [-> Hfresh]. apply copy_records_eff in E5 as [Hscan ->].
  rewrite (sha_put _ _ (concat_text (map fst (sc_out a5)))) in E6 by apply lookup_put. injection E6 as <-. cbn [fst snd] in *.
  destruct (negb _ || _) eqn:Hsz in E7; [done|]. split_bools.
  eapply write_state_eff in E9 as (x & Hx & Hseg & ->); [|done|done|done].
  change (put (g, "segment-000001.jsonl") (concat_text (map fst (sc_out a5))) (with_dir g s)) with
    (put_all g [("segment-000001.jsonl", concat_text (map fst (sc_out a5)))] (with_dir g s)) in E10.
  assert (Hpf : put_all g (tail (preliminary_files x)) (put_all g [("segment-000001.jsonl", concat_text (map fst (sc_out a5)))] (with_dir g s)) =
    put_all g (preliminary_files x) (with_dir g s)) by (rewrite <- Hseg; done).
  rewrite Hpf in E10. destruct (tx_segment _ _ _ _ _ Hx) as [_ Hlen]. rewrite <- Hseg, <- Hlen in E10.
  apply write_manifests_eff in E10 as (runtime & t & Hr & Ht & -> & ->). cbn [fst snd] in *.
  apply publish_eff in E11 as (tc & rc & Hc & Hrc & ->); [|done].
  exists a1, a5, a8, x, runtime, (t +:+ newline), (tc +:+ newline), rc. split; [|done]. constructor; eauto.
  - destruct a0 as [c|].
    + destruct (read_current_generation s c E0) as (g0 & Hg0 & Hne). left. exists c. unfold item in E1. rewrite Hg0 in E1. cbn in E1.
      injection E1 as <-. done.
    + right. by injection E1 as <-.
  - unfold journal_events. by rewrite Hscan.
Qed.
End built.
