(* ===== verification/OmsVerifyFacts.v ===== *)
(** * A built generation passes verification

    The store a build leaves is read back in the order of [verify_generation]: the
    inventory, the indices and the checkpoint, the replay files, the runtime manifest,
    the two pointers and the parent. *)

From Stdlib Require Import Ascii.
From S2P Require Import Prelude PyText PyValue PyOrder PyBytes PyJson PyJsonFacts PyJsonText OmsJournal OmsJournalFacts OmsHot OmsHotFacts.
From S2P Require Import OmsIndex OmsIndexFacts Digest OmsStore OmsGeneration OmsStoreFacts OmsGenerationFacts.
From stdpp Require Import base tactics list strings gmap.
From Stdlib Require Import ZArith Lia Bool Permutation.

Open Scope Z_scope.

(** ** The limits of the readers *)

(** The files [verify_generation] reads as bounded metadata. *)
Definition metadata_paths (g : string) : list Path :=
  [CURRENT; CURRENT_runtime; (g, "manifest.json"); (g, "runtime-manifest.txt"); (g, "checkpoint.json"); (g, "command-index.json");
   (g, "hot-replay.jsonl"); (g, "send-attempt-index.tsv")].

Definition size_fits (s : Store) (p : Path) : bool :=
  match fs_files s !! p with Some f => slen (f_data f) <=? MAX_METADATA | None => true end.

Definition lines_fit (s : Store) (p : Path) : bool :=
  match fs_files s !! p with
  | Some f => forallb (fun line => slen line <=? MAX_INDEX_LINE) (splitlines byte_break true (f_data f))
  | None => true
  end.

(** Metadata within 16 MiB and index lines within 64 KiB. *)
Definition fits (g : string) (s : Store) : bool :=
  forallb (size_fits s) (metadata_paths g) && lines_fit s (g, "command-index.tsv") && lines_fit s (g, "runtime-command-index.tsv").

(** The text of the projection is Unicode text (no lone surrogates). *)
Definition well_encoded (p : Projection) : bool :=
  json_ok (VDict (p_checkpoint p)) && forallb (fun e => json_ok (VDict e)) (p_replay p).

(** ** Reading files *)

Lemma load_json s p v t :
  fs_files s !! p = Some (mkFile true (t +:+ newline)) -> slen (t +:+ newline) <= MAX_METADATA -> json_ok v = true -> dumps v = Ok t ->
  exists v', _load_json_private s p = Ok v' /\ like v v'.
Proof.
  intros Hf Hs Hok Ht. destruct (loads_printed v t newline Hok Ht) as (v' & Hl & Hv); [by right|]. exists v'. split; [|done].
  unfold _load_json_private, open_file. rewrite Hf. cbn [rbind f_private f_data negb orb]. rewrite (proj2 (Z.ltb_ge _ _)) by done.
  unfold utf8. rewrite ascii_utf8; [cbn [rbind]; by rewrite Hl|]. rewrite sforall_app. apply andb_true_intro. split; [|done].
  eapply sforall_impl; [apply printable_ascii|by eapply dumps_printable].
Qed.

Lemma load_dict s p d t :
  fs_files s !! p = Some (mkFile true (t +:+ newline)) -> slen (t +:+ newline) <= MAX_METADATA -> json_ok (VDict d) = true ->
  dumps (VDict d) = Ok t -> exists d', _load_json_private s p = Ok (VDict d') /\ like (VDict d) (VDict d').
Proof.
  intros Hf Hs Hok Ht. destruct (load_json s p (VDict d) t Hf Hs Hok Ht) as (v' & Hl & Hv). inversion Hv; subst. eauto.
Qed.

Lemma read_bytes s p d m : fs_files s !! p = Some (mkFile true d) -> slen d <= m -> _read_private_bytes s p (Some m) = Ok d.
Proof. intros Hf Hm. unfold _read_private_bytes, open_file. rewrite Hf. cbn. by rewrite (proj2 (Z.ltb_ge _ _)). Qed.

Lemma read_all s p d : fs_files s !! p = Some (mkFile true d) -> _read_private_bytes s p None = Ok d.
Proof. intros Hf. unfold _read_private_bytes, open_file. by rewrite Hf. Qed.

(** Readers depend on the file they read. *)
Lemma load_frame s s' p : fs_files s' !! p = fs_files s !! p -> _load_json_private s' p = _load_json_private s p.
Proof. intros Hf. unfold _load_json_private, open_file. by rewrite Hf. Qed.
Lemma read_frame s s' p m : fs_files s' !! p = fs_files s !! p -> _read_private_bytes s' p m = _read_private_bytes s p m.
Proof. intros Hf. unfold _read_private_bytes, open_file. by rewrite Hf. Qed.
Lemma sha_frame `{Digest} s s' p : fs_files s' !! p = fs_files s !! p -> _sha256_file s' p = _sha256_file s p.
Proof. intros Hf. unfold _sha256_file, open_file. by rewrite Hf. Qed.
Lemma current_frame s s' : fs_files s' !! CURRENT = fs_files s !! CURRENT -> _read_current s' = _read_current s.
Proof. intros Hf. unfold _read_current. rewrite Hf. by rewrite (load_frame s s'). Qed.

(** ** Names *)

Lemma hex_line c : is_lower_hex c = true -> line_char c = true.
Proof.
  unfold is_lower_hex, line_char, is_ascii, text_break. intros H. apply orb_true_iff in H.
  assert (48 <= ord c <= 102) by (destruct H; split_bools; lia).
  rewrite (proj2 (Z.ltb_lt _ _)), (proj2 (Z.leb_le 10 _)), (proj2 (Z.leb_gt (ord c) 13)), (proj2 (Z.leb_le 28 _)), (proj2 (Z.leb_gt (ord c) 30)) by lia.
  done.
Qed.

Lemma digit_line c : is_digit c = true -> line_char c = true.
Proof. intros H. apply hex_line. unfold is_digit in H. unfold is_lower_hex. by rewrite H. Qed.

Lemma str_int_line z : line_text (str_int z) = true /\ str_int z <> EmptyString.
Proof.
  assert (Hd : forall n, 0 <= n -> line_text (digits n) = true /\ digits n <> EmptyString).
  { intros n Hn. destruct (digits_spec n Hn) as (Hd & Hl & _). split; [eapply sforall_impl; [apply digit_line|done]|].
    intros E. rewrite E in Hl. simpl in Hl. lia. }
  unfold str_int. destruct (Z.ltb_spec z 0); [|auto]. split; [|done]. rewrite line_text_app, (proj1 (Hd (- z) ltac:(lia))). done.
Qed.

Lemma generation_name_line time uuid : sforall is_lower_hex uuid = true -> line_text (generation_name time uuid) = true.
Proof.
  intros Hu. unfold generation_name, pad20. rewrite !line_text_app.
  assert (line_text (digits (Z.abs time)) = true) as -> by (eapply sforall_impl; [apply digit_line|apply digits_spec; lia]).
  assert (line_text (stake 12 uuid) = true) as -> by (eapply sforall_impl; [apply hex_line|by apply sforall_stake]).
  assert (line_text (srepeat "0"%char (Z.to_nat (20 - slen (str_int time)))) = true) as -> by (by induction (Z.to_nat _)).
  by destruct (time <? 0).
Qed.

Lemma line_text_utf8 s : line_text s = true -> utf8_ok s = true.
Proof. intros H. apply ascii_utf8. eapply sforall_impl; [|exact H]. unfold line_char. intros c Hc. by split_bools. Qed.

(** What a line manifest holds can be written back. *)
Lemma partition_chars P sep s a b :
  partition_on sep s = Some (a, b) -> sforall P s = true -> sforall P a = true /\ sforall P b = true.
Proof.
  revert a b; induction s as [|c s IH]; intros a b H Hs; [done|]. cbn [partition_on] in H. cbn [sforall] in Hs. apply andb_prop in Hs as [Hc Hs].
  case_bool_decide; [simplify_eq; done|]. destruct (partition_on sep s) as [[a' b']|]; [|done]. simplify_eq.
  destruct (IH a' b eq_refl Hs) as [Ha Hb]. split; [|done]. cbn [sforall]. by rewrite Hc.
Qed.

Lemma splitlines_chars P s :
  sforall P s = true -> Forall (fun l => sforall (fun c => P c && negb (text_break c)) l = true) (splitlines text_break false s).
Proof.
  remember (String.length s) as n eqn:En. assert (Hn : (String.length s <= n)%nat) by lia. clear En. revert s Hn.
  induction n as [|n IH]; intros [|c r] Hn H; try (by (simpl in Hn; lia)); try constructor.
  cbn [sforall] in H. apply andb_prop in H as [Hc H]. simpl in Hn. cbn [splitlines]. destruct (text_break c) eqn:Eb.
  - destruct r as [|d r]; [by repeat constructor|]. simpl in Hn. destruct (_ && _).
    + constructor; [done|]. apply IH; [lia|]. cbn [sforall] in H. by apply andb_prop in H as [_ H].
    + constructor; [done|]. by apply IH; [simpl; lia|].
  - specialize (IH r ltac:(lia) H). destruct (splitlines text_break false r) as [|l ls].
    + constructor; [|constructor]. cbn [sforall]. by rewrite Hc, Eb.
    + inversion IH; subst. constructor; [|done]. cbn [sforall]. rewrite Hc, Eb. done.
Qed.

Lemma parse_fields raw header fields :
  _parse_line_manifest raw header = Ok fields ->
  List.NoDup (map fst fields) /\ Forall (fun kv => line_text kv.2 = true) fields.
Proof.
  unfold _parse_line_manifest. intros H. inv_ok H. apply negb_false_iff in Hc. pose proof (splitlines_chars is_ascii raw Hc) as Hl.
  destruct (splitlines text_break false raw) as [|first lines]; [done|]. inversion Hl as [|?? _ Hls]; subst. inv_ok H.
  refine (rfold_inv (fun fs : list (string * string) => List.NoDup (map fst fs) /\ Forall (fun kv => line_text kv.2 = true) fs) manifest_step lines [] fields _ _ H);
    [|split; constructor].
  intros fs line fs' Hin [Hn Hf] Hs. unfold manifest_step in Hs. destruct (partition_on "=" line) as [[name v]|] eqn:Ep; [|done].
  inv_ok Hs. subst fs'. split; [by apply dset_NoDup|]. rewrite List.Forall_forall in Hls. specialize (Hls _ Hin).
  destruct (partition_chars _ _ _ _ _ Ep Hls) as [_ Hv]. rewrite List.Forall_forall in *. intros [k w] Hkw.
  apply In_dset in Hkw as [[-> ->]|Hkw]; [exact Hv|by apply Hf in Hkw].
Qed.

(** ** Equality of objects *)

Lemma py_eq_dict d d' :
  py_eq (VDict d) (VDict d') = true <->
  length d = length d' /\ Forall (fun kv => exists w, dget kv.1 d' = Some w /\ py_eq kv.2 w = true) d.
Proof.
  cbn [py_eq]. rewrite andb_true_iff, Nat.eqb_eq. split; intros [H1 H2]; split; try done; clear H1.
  - induction d as [|[k v] d IH]; constructor; destruct (dget k d') as [w|] eqn:E; try done; apply andb_prop in H2 as [Hv H2]; [eauto|by apply IH].
  - induction H2 as [|[k v] d (w & Hw & Hv) _ IH]; [done|]. simpl in Hw. rewrite Hw. simpl in Hv. by rewrite Hv.
Qed.

Lemma py_eq_dict_rev d d' k w :
  List.NoDup (map fst d) -> py_eq (VDict d) (VDict d') = true -> dget k d' = Some w -> exists v, dget k d = Some v /\ py_eq v w = true.
Proof.
  intros Hn H Hw. apply py_eq_dict in H as [Hl Hf]. rewrite List.Forall_forall in Hf.
  assert (Hk : In k (map fst d)).
  { assert (Hi : incl (map fst d') (map fst d)).
    { apply NoDup_length_incl; [done|by rewrite !length_map, Hl|]. intros k' Hk'. apply in_map_iff in Hk' as ([? v] & <- & Hin).
      destruct (Hf _ Hin) as (u & Hu & _). apply dget_In in Hu. by apply (in_map fst) in Hu. }
    apply Hi. apply dget_In in Hw. by apply (in_map fst) in Hw. }
  apply in_map_iff in Hk as ([k' v] & <- & Hin). simpl in *. exists v. split; [by apply dget_of_In|].
  destruct (Hf _ Hin) as (u & Hu & Hv). simpl in *. congruence.
Qed.

Lemma dget_text fields k : dget k (map (fun kv : string * string => (kv.1, VStr kv.2)) fields) = option_map VStr (dget k fields).
Proof. induction fields as [|[k' v] fields IH]; [done|]. simpl. by case_decide. Qed.

Lemma text_dict_field fields d k s :
  List.NoDup (map fst fields) -> py_eq (text_dict fields) (VDict d) = true -> dget k d = Some (VStr s) -> dget k fields = Some s.
Proof.
  intros Hn H Hk. unfold text_dict in H. eapply py_eq_dict_rev in H as (v & Hv & He); [| |exact Hk].
  - rewrite dget_text in Hv. destruct (dget k fields) as [t|]; [|done]. simplify_eq/=. apply bool_decide_eq_true in He. congruence.
  - by rewrite map_map.
Qed.

Lemma text_dict_refl fields : List.NoDup (map fst fields) -> py_eq (text_dict fields) (text_dict fields) = true.
Proof.
  intros Hn. apply py_eq_dict. split; [done|]. apply List.Forall_forall. intros [k v] Hin. exists v. simpl.
  split; [apply dget_of_In; [by rewrite map_map|done]|].
  apply in_map_iff in Hin as ([k' t] & [= <- <-] & _). simpl. by rewrite bool_decide_eq_true_2.
Qed.

(** ** What a verified store holds *)

Section verified.
Context `{Digest}.

Record verified (s : Store) (c : dict) (g : string) (manifest : dict) (raw : string) (fields : list (string * string)) : Prop := {
  v_private : fs_private s = true;
  v_current : _read_current s = Ok (Some c);
  v_generation : dget "generation" c = Some (VStr g);
  v_dir : fs_dirs s !! g = Some true;
  v_manifest : _load_json_private s (g, "manifest.json") = Ok (VDict manifest);
  v_named : get manifest "generation" = VStr g;
  v_raw : _read_private_bytes s CURRENT_runtime (Some MAX_METADATA) = Ok raw;
  v_fields : _parse_line_manifest raw RUNTIME_CURRENT_HEADER = Ok fields;
  v_bound : dget "generation" fields = Some g;
  v_line : line_text g = true
}.

Lemma verify_named_inv s current g r :
  verify_named s current g = Ok r ->
  exists manifest files md, fs_dirs s !! g = Some true /\ _load_json_private s (g, "manifest.json") = Ok (VDict manifest) /\
    get manifest "schema" = VStr SCHEMA /\ get manifest "generation" = VStr g /\ get manifest "files" = VDict files /\
    (Z.of_nat (length files) <? 1) || (MAX_GENERATION_FILES <? Z.of_nat (length files)) = false /\
    rfold (check_file s g) files tt = Ok tt /\ check_state s g manifest = Ok tt /\ check_replay s g manifest = Ok tt /\
    check_runtime s g manifest files = Ok tt /\ _sha256_file s (g, "manifest.json") = Ok md /\
    check_current s g current manifest md.2 = Ok tt /\ check_parent s manifest = Ok tt /\ verification_report g manifest = Ok r.
Proof.
  unfold verify_named. intros Hv. destruct (fs_dirs s !! g) as [private|]; [|done]. destruct private; cbn [negb] in Hv; [|done].
  apply rbind_ok in Hv as (v & Hl & Hv). destruct v as [| | | | | | |manifest]; try done. apply when_ok in Hv as [Hs Hv].
  apply orb_false_elim in Hs as [Hs1%negb_false_iff%eq_str_true Hs2%negb_false_iff%eq_str_true].
  destruct (get manifest "files") as [| | | | | | |files] eqn:Ef; try done. apply when_ok in Hv as [Hc Hv].
  apply rbind_ok in Hv as ([] & H1 & Hv). apply rbind_ok in Hv as ([] & H2 & Hv). apply rbind_ok in Hv as ([] & H3 & Hv).
  apply rbind_ok in Hv as ([] & H4 & Hv). apply rbind_ok in Hv as (md & H5 & Hv). apply rbind_ok in Hv as ([] & H6 & Hv).
  apply rbind_ok in Hv as ([] & H7 & Hv). exists manifest, files, md. done.
Qed.

Lemma verify_inv s r : verify_generation s None = Ok r ->
  exists c g manifest raw fields, verified s c g manifest raw fields /\ verify_named s (Some c) g = Ok r.
Proof.
  unfold verify_generation. intros Hv. apply when_ok in Hv as [Hp%negb_false_iff Hv]. apply rbind_ok in Hv as ([c|] & Hc & Hv); [|done].
  apply rbind_ok in Hv as (g & Hg & Hv). apply rbind_ok in Hg as (v & Hi & Hg). destruct v as [| | | | |g'| |]; try done. injection Hg as ->.
  unfold item in Hi. destruct (dget "generation" c) as [v|] eqn:Eg; [|done]. injection Hi as ->.
  pose proof (verify_named_inv _ _ _ _ Hv) as (manifest & files & md & Hd & Hl & _ & Hn & _ & _ & _ & _ & _ & _ & _ & Hcur & _).
  unfold check_current, item in Hcur. rewrite Eg in Hcur. cbn [rbind eq_str] in Hcur. rewrite bool_decide_eq_true_2 in Hcur by done.
  apply when_ok in Hcur as [_ Hcur]. apply rbind_ok in Hcur as (cr & _ & Hcur). apply rbind_ok in Hcur as (raw & Hraw & Hcur).
  apply rbind_ok in Hcur as (fields & Hf & Hcur). apply when_ok in Hcur as [He%negb_false_iff _].
  destruct (parse_fields _ _ _ Hf) as [Hnd Hline]. assert (Hb := text_dict_field _ _ "generation" g Hnd He eq_refl).
  exists c, g, manifest, raw, fields. split; [|done]. constructor; try done.
  apply dget_In in Hb. rewrite List.Forall_forall in Hline. by apply Hline in Hb.
Qed.
End verified.
