(* ===== verification/OmsReadback.v ===== *)
(** * Reading a built generation back

    The checks of [verify_generation], one by one, on the store a build leaves, and
    their composition. *)

From Stdlib Require Import Ascii.
From S2P Require Import Prelude PyText PyValue PyOrder PyBytes PyJson PyJsonFacts PyJsonText OmsJournal OmsJournalFacts OmsHot OmsHotFacts.
From S2P Require Import OmsIndex OmsIndexFacts Digest OmsStore OmsGeneration OmsStoreFacts OmsGenerationFacts OmsVerifyFacts.
From stdpp Require Import base tactics list strings gmap.
From Stdlib Require Import ZArith Lia Bool Permutation.

Open Scope Z_scope.

(** ** The command table of a projection *)

Lemma hot_pass_plain evs st : hot_pass evs = Ok st -> Forall (fun kc => plain_command kc.2) (h_commands st).
Proof.
  unfold hot_pass. intros Hp.
  refine (rfold_inv (fun st => Forall (fun kc => plain_command kc.2) (h_commands st)) hot_step _ hot_start st _ _ Hp); [|constructor].
  intros a [n ev] a' _ Ha Hs. apply hot_step_spec in Hs. eapply update_command_plain; [exact Ha|apply (step_commands _ _ _ _ Hs)].
Qed.

(** A projection, opened. *)
Lemma project_inv events p :
  _project_hot events = Ok p ->
  exists evs st, rmapM event_of events = Ok evs /\ hot_pass evs = Ok st /\ sorted_attempts st = Ok (p_attempts p) /\
    p_commands p = h_commands st /\ p_checkpoint p = checkpoint_value st evs (p_attempts p) /\ p_replay p = map ev_raw (hot_replay st evs).
Proof. unfold _project_hot. intros Hp. inv_ok Hp. subst p. eauto 10. Qed.

Record table (cs : list (Key * Command)) : Prop := {
  table_nodup : List.NoDup (map fst cs);
  table_key : forall k c, In (k, c) cs -> command_key c = k;
  table_plain : forall k c, In (k, c) cs -> plain_command c
}.

Lemma project_table events p : _project_hot events = Ok p -> table (p_commands p).
Proof.
  intros Hp. destruct (project_inv _ _ Hp) as (evs & st & _ & Hs & _ & -> & _). pose proof (hot_pass_commands _ _ Hs) as Hc.
  pose proof (hot_pass_plain _ _ Hs) as Hpl. constructor; [apply (cs_nodup _ _ Hc)| |].
  - intros k c Hin. apply (cs_key _ _ Hc). apply dget_of_In; [apply (cs_nodup _ _ Hc)|done].
  - intros k c Hin. rewrite List.Forall_forall in Hpl. by apply Hpl in Hin.
Qed.

Section table.
Context (cs : list (Key * Command)) (Hcs : table cs).

Definition index_records : list Command := map snd (sorted_key fst cs).

Lemma index_records_keys : map command_key index_records = sorted_by oleb (map fst cs).
Proof.
  unfold index_records. rewrite <- sorted_key_map, map_map. apply map_ext_in. intros [k c] Hin.
  apply sorted_key_In in Hin. simpl. by apply (table_key _ Hcs).
Qed.

Lemma index_records_ascending : ascending (map command_key index_records).
Proof. rewrite index_records_keys. apply sorted_ascending, (table_nodup _ Hcs). Qed.

Lemma index_records_plain : Forall plain_command index_records.
Proof.
  apply List.Forall_forall. intros c Hin. apply in_map_iff in Hin as ([k c'] & <- & Hin). apply sorted_key_In in Hin.
  by apply (table_plain _ Hcs) in Hin.
Qed.

Lemma index_lines_of ls :
  rmapM (fun kc => _index_line kc.2) (sorted_key fst cs) = Ok ls -> Forall2 (fun c l => _index_line c = Ok l) index_records ls.
Proof. intros Hl. apply rmapM_Forall2 in Hl. unfold index_records. by apply Forall2_fmap_l. Qed.

(** The runtime order: by encoded key. *)
Lemma runtime_sorted_ok rcs :
  runtime_sorted (map snd cs) = Ok rcs ->
  Forall plain_command rcs /\ length rcs = length cs /\ ascending (map (fun c => hex_key (command_key c)) rcs).
Proof.
  unfold runtime_sorted. intros Hr. apply rbind_ok in Hr as (keyed & Hk & Hr). injection Hr as <-.
  assert (Ek : keyed = map (fun c => (hex_key (command_key c), c)) (map snd cs)).
  { apply rmapM_Forall2 in Hk. clear -Hk. induction Hk as [|c k l ks Hc _ IH]; [done|]. cbn [map]. f_equal; [|done].
    inv_ok Hc. repeat match goal with E : _hex _ = Ok _ |- _ => apply hex_ok in E as [_ ->] end. by subst k. }
  assert (Em : map (fun c => hex_key (command_key c)) (map snd (sorted_key fst keyed)) = map fst (sorted_key fst keyed)).
  { rewrite map_map. apply map_ext_in. intros [k c] Hin. apply sorted_key_In in Hin. rewrite Ek in Hin.
    apply in_map_iff in Hin as (c' & [= <- <-] & _). done. }
  assert (Hinj : forall a b, hex_key a = hex_key b -> a = b).
  { intros [[a1 a2] a3] [[b1 b2] b3] E. unfold hex_key in E. simpl in E. injection E as E1 E2 E3.
    assert (Hi : forall u v, hexlify u = hexlify v -> u = v).
    { intros u v E. assert (Some u = Some v) by (rewrite <- !fromhex_hexlify; by rewrite E). congruence. }
    apply Hi in E1, E2, E3. by subst. }
  split; [|split].
  - apply List.Forall_forall. intros c Hin. apply in_map_iff in Hin as ([k c'] & <- & Hin). apply sorted_key_In in Hin. rewrite Ek in Hin.
    apply in_map_iff in Hin as (c1 & [= <- <-] & Hin). apply in_map_iff in Hin as ([k1 c2] & <- & Hin). by apply (table_plain _ Hcs) in Hin.
  - rewrite length_map. rewrite <- (length_map fst), sorted_key_map, sorted_by_length, length_map, Ek, !length_map. done.
  - rewrite Em, sorted_key_map. apply sorted_ascending. rewrite Ek, !map_map. cbn [fst].
    assert (E : map (fun x => hex_key (command_key x.2)) cs = map hex_key (map fst cs)).
    { rewrite map_map. apply map_ext_in. intros [k c] Hin. simpl. by rewrite (table_key _ Hcs k c Hin). }
    refine (eq_ind_r (fun l => List.NoDup l) _ E). apply Finite.Injective_map_NoDup; [exact Hinj|apply (table_nodup _ Hcs)].
Qed.

Lemma index_records_length : length index_records = length cs.
Proof. unfold index_records. rewrite length_map. by rewrite <- (length_map fst), sorted_key_map, sorted_by_length, length_map. Qed.

Lemma index_records_In c : In c index_records <-> In c (map snd cs).
Proof.
  unfold index_records. rewrite !in_map_iff. split; intros (kc & <- & Hin); exists kc; (split; [done|]).
  - by apply sorted_key_In in Hin.
  - by apply (sorted_key_In fst).
Qed.
End table.

Section readback.
Context `{Digest}.
Context (journal : File) (l : Limits) (g parent : string) (s s' : Store) (st : Scan) (p : Projection) (x : Texts)
  (runtime manifest current runtime_current : string).
Context (Hb : built journal l g s s' parent st p x runtime manifest current runtime_current).
Context (Hfit : fits g s' = true) (Henc : well_encoded p = true) (Hg : line_text g = true) (Hne : g <> EmptyString).
(** The parent is the generation a verified store was at. *)
Context (Hparent : parent <> EmptyString ->
  line_text parent = true /\ fs_dirs s !! parent = Some true /\
  exists m, _load_json_private s (parent, "manifest.json") = Ok (VDict m) /\ get m "generation" = VStr parent).

Lemma digest_line data : line_text (digest data) = true /\ nonempty (digest data) = true.
Proof.
  destruct (digest_hex data) as [Hd Hn]. split; [eapply sforall_impl; [apply hex_line|done]|]. unfold nonempty. by rewrite bool_decide_eq_false_2.
Qed.
Lemma digest_utf8 data : utf8_ok (digest data) = true.
Proof. apply line_text_utf8, digest_line. Qed.

(** *** The files *)

Lemma file_of n d : dget n (generation_files x runtime manifest) = Some d -> fs_files s' !! (g, n) = Some (mkFile true d).
Proof.
  intros Hd. rewrite (b_store _ _ _ _ _ _ _ _ _ _ _ _ _ Hb).
  rewrite !lookup_put_ne by (unfold CURRENT, CURRENT_runtime; intros [= ? ?]; done).
  apply put_all_lookup; [apply generation_nodup|done].
Qed.

Lemma current_file : fs_files s' !! CURRENT = Some (mkFile true current).
Proof. rewrite (b_store _ _ _ _ _ _ _ _ _ _ _ _ _ Hb). rewrite lookup_put_ne by done. apply lookup_put. Qed.

Lemma runtime_current_file : fs_files s' !! CURRENT_runtime = Some (mkFile true runtime_current).
Proof. rewrite (b_store _ _ _ _ _ _ _ _ _ _ _ _ _ Hb). apply lookup_put. Qed.

Lemma built_dirs d : fs_dirs s' !! d = if decide (d = g) then Some true else fs_dirs s !! d.
Proof.
  rewrite (b_store _ _ _ _ _ _ _ _ _ _ _ _ _ Hb). unfold put at 1 2. cbn [fs_dirs]. rewrite (proj1 (put_all_dirs _ _ _)). unfold with_dir. cbn [fs_dirs].
  case_decide; subst; [apply lookup_insert_eq|by apply lookup_insert_ne].
Qed.

Lemma built_private : fs_private s' = true.
Proof.
  rewrite (b_store _ _ _ _ _ _ _ _ _ _ _ _ _ Hb). unfold put at 1 2. cbn [fs_private]. rewrite (proj2 (put_all_dirs _ _ _)).
  apply (b_private _ _ _ _ _ _ _ _ _ _ _ _ _ Hb).
Qed.

Lemma built_other q : q.1 <> g -> q.1 <> EmptyString -> fs_files s' !! q = fs_files s !! q.
Proof.
  intros Hq Hq'. rewrite (b_store _ _ _ _ _ _ _ _ _ _ _ _ _ Hb). rewrite !lookup_put_ne by (unfold CURRENT, CURRENT_runtime; intros ->; done).
  by rewrite put_all_frame.
Qed.

Lemma size_of q d : In q (metadata_paths g) -> fs_files s' !! q = Some (mkFile true d) -> slen d <= MAX_METADATA.
Proof.
  intros Hq Hd. unfold fits in Hfit. apply andb_prop in Hfit as [[Hm _]%andb_prop _]. rewrite forallb_forall in Hm. specialize (Hm _ Hq).
  unfold size_fits in Hm. rewrite Hd in Hm. by apply Z.leb_le in Hm.
Qed.

Lemma line_of_index (q : Path) d line : (q = (g, "command-index.tsv") \/ q = (g, "runtime-command-index.tsv")) ->
  fs_files s' !! q = Some (mkFile true d) -> In line (splitlines byte_break true d) -> slen line <= MAX_INDEX_LINE.
Proof.
  intros Hn Hd Hin. unfold fits in Hfit. apply andb_prop in Hfit as [[_ H1]%andb_prop H2].
  assert (Hl : lines_fit s' q = true) by (destruct Hn; by subst). unfold lines_fit in Hl. rewrite Hd in Hl.
  rewrite forallb_forall in Hl. apply Hl in Hin. by apply Z.leb_le in Hin.
Qed.

Ltac member := simpl; repeat (first [left; reflexivity|right]).

(** *** The manifest *)

Lemma utf8_digest_files fs : List.NoDup (map fst fs) -> Forall (fun nd => utf8_ok nd.1 = true) fs ->
  json_ok (VDict (map (fun nf => (nf.1, file_value nf.2)) (digests_of fs))) = true.
Proof.
  intros Hn Hf. cbn [json_ok]. apply andb_true_intro. split.
  - apply bool_decide_eq_true. apply NoDup_ListNoDup. unfold digests_of. by rewrite !map_map.
  - apply forallb_forall. intros kv Hin. apply in_map_iff in Hin as ([n [z d]] & <- & Hin). apply in_map_iff in Hin as ([n' d'] & [= <- <- <-] & Hin).
    rewrite List.Forall_forall in Hf. specialize (Hf _ Hin). simpl in Hf |- *. rewrite Hf, digest_utf8. done.
Qed.

Lemma parent_utf8 : utf8_ok parent = true.
Proof. destruct (decide (parent = EmptyString)) as [->|Hp]; [done|]. by apply line_text_utf8, Hparent. Qed.

Lemma manifest_json_ok : json_ok (VDict (manifest_of g parent st p x runtime)) = true.
Proof.
  assert (Hf : json_ok (VDict (map (fun nf => (nf.1, file_value nf.2)) (digests_of (preliminary_files x ++ [("runtime-manifest.txt", runtime)])))) = true).
  { apply utf8_digest_files; [|by repeat constructor]. simpl. repeat (constructor; [simpl; intuition discriminate|]). constructor. }
  unfold manifest_of, manifest_value. revert Hf. set (files := VDict _). intros Hf.
  cbn [json_ok forallb fst snd]. rewrite Hf, !digest_utf8, parent_utf8, (line_text_utf8 g Hg). vm_compute. done.
Qed.

Lemma manifest_nodup : List.NoDup (map fst (manifest_of g parent st p x runtime)).
Proof. apply json_ok_dict, manifest_json_ok. Qed.

Lemma manifest_loaded :
  exists m, _load_json_private s' (g, "manifest.json") = Ok (VDict m) /\ like (VDict (manifest_of g parent st p x runtime)) (VDict m).
Proof.
  destruct (b_manifest _ _ _ _ _ _ _ _ _ _ _ _ _ Hb) as (t & Ht & Em). assert (Hf := file_of "manifest.json" manifest eq_refl).
  apply load_dict with t; [by rewrite <- Em| |apply manifest_json_ok|done]. rewrite <- Em. eapply size_of; [|exact Hf]. member.
Qed.

(** The manifest as it is read. *)
Context (m : dict) (Hm : like (VDict (manifest_of g parent st p x runtime)) (VDict m)).

Lemma manifest_field k v : dget k (manifest_of g parent st p x runtime) = Some v -> scalar v = true -> dget k m = Some v.
Proof. apply like_scalar_field; [apply manifest_nodup|exact Hm]. Qed.

Lemma manifest_get k v : dget k (manifest_of g parent st p x runtime) = Some v -> scalar v = true -> get m k = v /\ item m k = Ok v.
Proof. intros Hk Hs. pose proof (dget_get _ _ _ (manifest_field k v Hk Hs)) as (? & ? & _). done. Qed.

Definition inventory : list (string * string) := preliminary_files x ++ [("runtime-manifest.txt", runtime)].

Lemma inventory_nodup : List.NoDup (map fst inventory).
Proof. simpl. repeat (constructor; [simpl; intuition discriminate|]). constructor. Qed.

Lemma files_loaded : exists files, dget "files" m = Some (VDict files) /\ length files = length inventory /\
  (forall n v, In (n, v) files -> exists d e, In (n, d) inventory /\ v = VDict e /\
     dget "bytes" e = Some (VInt (slen d)) /\ dget "sha256" e = Some (VStr (digest d))) /\
  (forall n d, In (n, d) inventory -> exists e, dget n files = Some (VDict e) /\ dget "sha256" e = Some (VStr (digest d))).
Proof.
  destruct (like_field _ m "files" _ manifest_nodup Hm eq_refl) as (w & Hw & Hl). fold inventory in Hl.
  set (fs := map (fun nf => (nf.1, file_value nf.2)) (digests_of inventory)) in Hl.
  assert (Hn : List.NoDup (map fst fs)) by (unfold fs, digests_of; rewrite !map_map; apply inventory_nodup).
  assert (Hfs : forall n v, In (n, v) fs <-> exists d, In (n, d) inventory /\ v = file_value (slen d, digest d)).
  { intros n v. unfold fs, digests_of. rewrite map_map, in_map_iff. split.
    - intros ([n' d] & [= <- <-] & Hin). eauto.
    - intros (d & Hin & ->). by exists (n, d). }
  assert (Hv : forall d w, like (file_value (slen d, digest d)) w -> exists e, w = VDict e /\
      dget "bytes" e = Some (VInt (slen d)) /\ dget "sha256" e = Some (VStr (digest d))).
  { intros d v Hlv. inversion Hlv as [| | | | | |? ? e Hp Hf]; subst. exists e. split; [done|].
    assert (Hnd : List.NoDup (map fst [("bytes", VInt (slen d)); ("sha256", VStr (digest d))])).
    { repeat (constructor; [simpl; intuition discriminate|]). constructor. }
    split; eapply (like_scalar_field _ e); try exact Hnd; try exact Hlv; done. }
  inversion Hl as [| | | | | |? ds files Hp Hf]; subst. exists files. split; [done|]. split; [|split].
  - rewrite <- (Forall2_length _ _ _ Hf), (Permutation_length Hp). unfold fs, digests_of. by rewrite !length_map.
  - intros n v Hin. assert (exists a, In a ds /\ a.1 = n /\ like a.2 v) as ([n' u] & Hin' & <- & Hlv).
    { clear -Hf Hin. induction Hf as [|a b ds files [E Hl] _ IH]; [done|]. destruct Hin as [->|Hin]; [exists a; split; [by left|done]|].
      destruct (IH Hin) as (a' & Ha' & ?). exists a'. split; [by right|done]. }
    eapply Permutation_in in Hin'; [|exact Hp]. apply Hfs in Hin' as (d & Hd & Eu). simpl in Eu, Hlv. subst u. destruct (Hv d v Hlv) as (e & -> & He1 & He2). by exists d, e.
  - intros n d Hin. destruct (like_field fs files n (file_value (slen d, digest d)) Hn Hl) as (v & Hnv & Hlv).
    { apply dget_of_In; [done|]. apply Hfs. eauto. }
    destruct (Hv d v Hlv) as (e & -> & _ & He). eauto.
Qed.

Lemma inventory_file n d : In (n, d) inventory -> fs_files s' !! (g, n) = Some (mkFile true d).
Proof.
  intros Hin. apply file_of. apply dget_of_In; [apply generation_nodup|]. unfold generation_files. apply in_app_iff in Hin as [Hin|[[= <- <-]|[]]];
    apply in_app_iff; [by left|right; by left].
Qed.

Lemma check_files files :
  (forall n v, In (n, v) files -> exists d e, In (n, d) inventory /\ v = VDict e /\
     dget "bytes" e = Some (VInt (slen d)) /\ dget "sha256" e = Some (VStr (digest d))) ->
  rfold (check_file s' g) files tt = Ok tt.
Proof.
  induction files as [|[n v] files IH]; intros Hf; [done|]. destruct (Hf n v (or_introl eq_refl)) as (d & e & Hin & -> & Hbytes & Hsha).
  cbn [rfold]. unfold check_file at 1. assert (Hname : shas "/"%char n || one_of n [""; "."; ".."] = false).
  { apply (in_map fst) in Hin. simpl in Hin. destruct_or!; subst; done. }
  rewrite Hname, (sha_put _ _ d) by (by apply inventory_file). cbn [rbind fst snd].
  destruct (dget_get _ _ _ Hbytes) as (-> & _). destruct (dget_get _ _ _ Hsha) as (-> & _). cbn [py_eq].
  rewrite Z.eqb_refl, bool_decide_eq_true_2 by done. cbn [negb orb rbind]. apply IH. intros; apply Hf. by right.
Qed.

(** *** The indices and the checkpoint *)

Let Htx := b_texts _ _ _ _ _ _ _ _ _ _ _ _ _ Hb.
Let Hproj := b_project _ _ _ _ _ _ _ _ _ _ _ _ _ Hb.
Let commands : Z := Z.of_nat (length (p_commands p)).

Lemma lines_of_file (q : Path) (ls bodies : list string) :
  (q = (g, "command-index.tsv") \/ q = (g, "runtime-command-index.tsv")) -> fs_files s' !! q = Some (mkFile true (concat_text ls)) ->
  ls = map (fun b => b +:+ newline) bodies -> Forall (fun b => sforall (fun c => negb (byte_break c)) b = true) bodies ->
  Forall (fun line => slen line <= MAX_INDEX_LINE) ls.
Proof.
  intros Hq Hf El Hbd. apply List.Forall_forall. intros line Hin. eapply line_of_index; [exact Hq|exact Hf|].
  rewrite El, splitlines_lines; [|done|done]. by rewrite <- El.
Qed.

Lemma line_bodies {R} {line_of : R -> res string} {key_of sort_key} {ok : R -> Prop} `{!LineFormat R line_of key_of sort_key ok} rs ls :
  Forall ok rs -> Forall2 (fun r t => line_of r = Ok t) rs ls ->
  exists bodies, ls = map (fun b => b +:+ newline) bodies /\ Forall (fun b => sforall (fun c => negb (byte_break c)) b = true) bodies.
Proof.
  intros Hok Hl. induction Hl as [|r t rs ls Hr _ IH]; [by exists []|]. inversion Hok; subst. destruct IH as (bs & -> & Hbs); [done|].
  destruct (format_shape r t) as (b & -> & Hbb); [done|done|]. exists (b :: bs). split; [done|by constructor].
Qed.

Lemma index_verified :
  exists ls, _read_private_bytes s' (g, "command-index.tsv") None = Ok (x_index x) /\ _verify_index (x_index x) (VInt commands) = Ok ls /\
    Forall2 (fun c t => _index_line c = Ok t) (index_records (p_commands p)) ls /\
    rmapM _index_key ls = Ok (map command_key (index_records (p_commands p))) /\ x_index x = concat_text ls /\
    splitlines byte_break true (x_index x) = ls.
Proof.
  destruct (tx_index _ _ _ _ _ Htx) as (ls & Hls & Ex). assert (Hf := file_of "command-index.tsv" (x_index x) eq_refl).
  pose proof (project_table _ _ Hproj) as Ht. pose proof (index_lines_of _ ls Hls) as Hl.
  destruct (line_bodies _ ls (index_records_plain _ Ht) Hl) as (bodies & El & Hbd).
  assert (Hfits : Forall (fun line => slen line <= MAX_INDEX_LINE) ls).
  { eapply lines_of_file; [by left|rewrite <- Ex; exact Hf|exact El|done]. }
  exists ls. split; [by apply read_all|]. split; [|split; [done|split; [|split; [done|]]]].
  - rewrite Ex. unfold _verify_index, commands. rewrite <- (index_records_length (p_commands p)).
    by apply verify_lines_written; [apply index_records_plain| | |apply index_records_ascending].
  - pose proof (index_records_plain _ Ht) as Hpl. clear -Hl Hpl Hfits. induction Hl as [|c t cs ls Hc _ IH]; [done|].
    inversion Hpl; inversion Hfits; subst. cbn [map rmapM]. rewrite (format_key c t) by done. cbn [rbind]. by rewrite IH.
  - rewrite Ex. rewrite El at 1. rewrite splitlines_lines; [|done|done]. by rewrite <- El.
Qed.

Lemma runtime_index_verified :
  exists ls, _read_private_bytes s' (g, "runtime-command-index.tsv") None = Ok (x_runtime x) /\
    _verify_runtime_index (x_runtime x) (VInt commands) = Ok ls.
Proof.
  destruct (tx_runtime _ _ _ _ _ Htx) as (rcs & ls & Hr & Hls & Ex). assert (Hf := file_of "runtime-command-index.tsv" (x_runtime x) eq_refl).
  pose proof (project_table _ _ Hproj) as Ht. destruct (runtime_sorted_ok _ Ht _ Hr) as (Hpl & Hlen & Hasc). apply rmapM_Forall2 in Hls.
  destruct (line_bodies _ ls Hpl Hls) as (bodies & El & Hbd).
  exists ls. split; [by apply read_all|]. rewrite Ex. unfold _verify_runtime_index, commands. rewrite <- Hlen.
  apply verify_lines_written; [done|done| |done]. eapply lines_of_file; [by right|rewrite <- Ex; exact Hf|exact El|done].
Qed.

Lemma meta_loaded : exists d, _load_json_private s' (g, "command-index.json") = Ok (VDict d) /\
  dget "schema" d = Some (VStr INDEX_SCHEMA) /\ dget "records" d = Some (VInt commands).
Proof.
  destruct (tx_meta _ _ _ _ _ Htx) as (t & Ht & Ex). assert (Hf := file_of "command-index.json" (x_meta x) eq_refl).
  assert (Hok : json_ok (VDict (index_meta commands)) = true) by (vm_compute; done).
  destruct (load_dict s' (g, "command-index.json") (index_meta commands) t) as (d & Hd & Hl); [by rewrite <- Ex| |exact Hok|exact Ht|].
  { rewrite <- Ex. eapply size_of; [|exact Hf]. member. }
  exists d. apply json_ok_dict in Hok as [Hnd _]. split; [done|]. split; by eapply like_scalar_field.
Qed.

Lemma checkpoint_keys : exists hst evs, p_checkpoint p = checkpoint_value hst evs (p_attempts p) /\ p_commands p = h_commands hst /\
  p_replay p = map ev_raw (hot_replay hst evs).
Proof. destruct (project_inv _ _ Hproj) as (evs & hst & _ & _ & _ & ? & ? & ?). eauto. Qed.

Lemma checkpoint_json_ok records size : json_ok (VDict (checkpoint_of p (digest (x_segment x)) records size)) = true.
Proof.
  unfold well_encoded in Henc. apply andb_prop in Henc as [Hc _]. apply json_ok_dict in Hc as [Hn Hf]. cbn [json_ok].
  destruct checkpoint_keys as (hst & evs & Ec & _). unfold checkpoint_of. apply andb_true_intro. split.
  - apply bool_decide_eq_true, NoDup_ListNoDup. rewrite Ec. simpl. repeat (constructor; [simpl; intuition discriminate|]). constructor.
  - rewrite forallb_app. apply andb_true_intro. split; [|simpl; by rewrite digest_utf8]. apply forallb_forall. intros kv Hin.
    rewrite List.Forall_forall in Hf. destruct (Hf _ Hin) as [-> ->]. done.
Qed.

Lemma command_value_field c d k v :
  like (command_value c) (VDict d) -> scalar v = true -> 
  (exists cd, command_value c = VDict cd /\ dget k cd = Some v) -> dget k d = Some v.
Proof.
  intros Hl Hs (cd & Ec & Hk). rewrite Ec in Hl. eapply like_scalar_field; [|exact Hl|exact Hk|exact Hs].
  injection Ec as <-. simpl. repeat (constructor; [simpl; intuition discriminate|]). constructor.
Qed.

Lemma hot_checked indexed cs hots :
  Forall2 like (map command_value cs) hots -> (forall c, In c cs -> inb (command_key c) indexed = true) ->
  rfold (check_hot indexed) hots tt = Ok tt.
Proof.
  revert hots; induction cs as [|c cs IH]; intros hots Hh Hin; inversion Hh as [|? hot ? hots' Hc Hrest]; subst; [done|].
  cbn [rfold]. destruct hot as [| | | | | | |d]; try (by inversion Hc). unfold check_hot at 1. cbn [as_dict rbind].
  destruct (dget_get d "agent_id" (VStr (c_agent c))) as (_ & _ & ->); [by eapply command_value_field; eauto|].
  destruct (dget_get d "session_id" (VStr (c_session c))) as (_ & _ & ->); [by eapply command_value_field; eauto|].
  destruct (dget_get d "command_id" (VStr (c_command c))) as (_ & _ & ->); [by eapply command_value_field; eauto|].
  cbn [indexed_key rbind]. change (inb _ indexed) with (inb (command_key c) indexed).
  rewrite (Hin c (or_introl eq_refl)). cbn [negb rbind].
  apply IH; [done|]. intros c1 Hc1. apply Hin. by right.
Qed.

Lemma checkpoint_loaded : exists ck hst, _load_json_private s' (g, "checkpoint.json") = Ok (VDict ck) /\ checkpoint_mismatch ck m = false /\
  p_commands p = h_commands hst /\
  exists hots, dget "hot_commands" ck = Some (VList hots) /\ Forall2 like (map command_value (hot_commands hst)) hots.
Proof.
  destruct checkpoint_keys as (hst & evs & Ec & Ecs & Er).
  destruct (tx_checkpoint _ _ _ _ _ Htx) as (t & Ht & Ex). assert (Hf := file_of "checkpoint.json" (x_checkpoint x) eq_refl).
  pose proof (checkpoint_json_ok (sc_records st) (slen (f_data journal))) as Hok. set (doc := checkpoint_of _ _ _ _) in *.
  destruct (load_dict s' (g, "checkpoint.json") doc t) as (ck & Hck & Hl); [by rewrite <- Ex| |exact Hok|exact Ht|].
  { rewrite <- Ex. eapply size_of; [|exact Hf]. member. }
  apply json_ok_dict in Hok as [Hnd _]. destruct (tx_segment _ _ _ _ _ Htx) as [_ Hsize]. exists ck, hst. split; [done|]. split; [|split; [done|]].
  - assert (Hfield : forall k v, dget k doc = Some v -> scalar v = true -> get ck k = v)
      by (intros k v Hk Hs; apply (dget_get ck k v); by eapply like_scalar_field).
    unfold checkpoint_mismatch, same_field.
    rewrite (Hfield "schema" (VStr CHECKPOINT_SCHEMA)), (Hfield "journal_logical_sha256" (VStr (digest (x_segment x)))),
      (Hfield "journal_prefix_bytes" (VInt (slen (f_data journal)))), (Hfield "journal_records" (VInt (sc_records st))),
      (Hfield "hot_replay_records" (VInt (Z.of_nat (length (p_replay p))))),
      (Hfield "send_attempt_records" (VInt (Z.of_nat (length (p_attempts p))))) by
      (unfold doc, checkpoint_of; rewrite ?Ec, ?Er, ?length_map; done).
    rewrite (proj1 (manifest_get "journal_logical_sha256" _ eq_refl eq_refl)), (proj1 (manifest_get "journal_prefix_bytes" _ eq_refl eq_refl)),
      (proj1 (manifest_get "journal_records" _ eq_refl eq_refl)), (proj1 (manifest_get "hot_replay_records" _ eq_refl eq_refl)),
      (proj1 (manifest_get "send_attempt_records" _ eq_refl eq_refl)).
    cbn [eq_str py_eq]. rewrite Hsize, !Z.eqb_refl, !bool_decide_eq_true_2 by done. done.
  - destruct (like_field _ ck "hot_commands" (VList (map command_value (hot_commands hst))) Hnd Hl) as (w & Hw & Hlw);
      [unfold doc, checkpoint_of; by rewrite Ec|]. inversion Hlw as [| | | | |? hots Hh|]; subst. eauto.
Qed.

Lemma state_checked : check_state s' g m = Ok tt.
Proof.
  destruct meta_loaded as (meta & Hmeta & Hsch & Hrec). destruct index_verified as (ls & Hread & Hver & _ & Hkeys & _).
  destruct runtime_index_verified as (rls & Hrread & Hrver). destruct checkpoint_loaded as (ck & hst & Hck & Hmis & Ecs & hots & Hhots & Hlike).
  unfold check_state. rewrite Hmeta. cbn [rbind as_dict]. destruct (dget_get _ _ _ Hsch) as (-> & _). unfold same_field.
  destruct (dget_get _ _ _ Hrec) as (-> & -> & _). rewrite (proj1 (manifest_get "command_records" (VInt commands) eq_refl eq_refl)).
  cbn [eq_str py_eq]. rewrite bool_decide_eq_true_2, Z.eqb_refl by done. cbn [negb orb rbind]. rewrite Hread. cbn [rbind]. rewrite Hver.
  cbn [rbind]. rewrite Hrread. cbn [rbind]. rewrite Hrver. cbn [rbind]. rewrite Hck. cbn [rbind as_dict]. rewrite Hmis, Hkeys. cbn [rbind].
  destruct (dget_get _ _ _ Hhots) as (_ & _ & ->). cbn [iter_value rbind]. eapply hot_checked; [exact Hlike|].
  intros c Hc. apply inb_true, in_map. apply index_records_In. rewrite Ecs. by apply hot_command_key in Hc as [Hc _].
Qed.

(** *** The replay and the send attempts *)

Lemma split_bodies bodies :
  Forall (fun b => sforall (fun c => negb (byte_break c)) b = true) bodies ->
  splitlines byte_break false (concat_text (map (fun b => b +:+ newline) bodies)) = bodies.
Proof. intros Hbd. rewrite splitlines_lines by done. apply map_id. Qed.

Lemma replay_lines_ok es ls :
  forallb (fun e => json_ok (VDict e)) es = true -> rmapM (replay_line (max_record_bytes l)) es = Ok ls ->
  exists bodies, ls = map (fun b => b +:+ newline) bodies /\ Forall (fun b => sforall (fun c => negb (byte_break c)) b = true) bodies /\
    length bodies = length es /\ rfold check_replay_line bodies tt = Ok tt.
Proof.
  revert ls; induction es as [|e es IH]; intros ls Hok Hls; cbn [rmapM] in Hls; [injection Hls as <-; by exists []|].
  cbn [forallb] in Hok. apply andb_prop in Hok as [He Hes]. apply rbind_ok in Hls as (line & Hline & Hls). apply rbind_ok in Hls as (ls' & Hls' & Hls).
  injection Hls as <-. unfold replay_line in Hline. apply rbind_ok in Hline as (t & Ht & Hline). apply when_ok in Hline as [_ Hline]. injection Hline as <-.
  destruct (IH ls' Hes Hls') as (bodies & -> & Hbd & Hlen & Hchk). pose proof (dumps_printable _ _ He Ht) as Hpr.
  exists (t :: bodies). split; [done|]. split; [|split; [simpl; by rewrite Hlen|]].
  - constructor; [|done]. eapply sforall_impl; [apply printable_no_break|done].
  - cbn [rfold]. unfold check_replay_line at 1, replay_line_ok, utf8.
    rewrite ascii_utf8 by (eapply sforall_impl; [apply printable_ascii|done]). cbn [rbind].
    destruct (loads_printed _ t EmptyString He Ht) as (v' & Hl & Hv); [by left|]. rewrite append_nil_r in Hl. rewrite Hl.
    inversion Hv; subst. done.
Qed.

Lemma attempt_lines_ok ts ls :
  rmapM _send_attempt_line ts = Ok ls ->
  exists bodies, ls = map (fun b => b +:+ newline) bodies /\ Forall (fun b => sforall (fun c => negb (byte_break c)) b = true) bodies /\
    length bodies = length ts.
Proof.
  revert ls; induction ts as [|t ts IH]; intros ls Hls; cbn [rmapM] in Hls; [injection Hls as <-; by exists []|].
  apply rbind_ok in Hls as (line & Hline & Hls). apply rbind_ok in Hls as (ls' & Hls' & Hls). injection Hls as <-.
  destruct (IH ls' Hls') as (bodies & -> & Hbd & Hlen). unfold _send_attempt_line in Hline. inv_ok Hline.
  repeat match goal with
  | E : _hex _ = Ok _ |- _ => apply hex_ok in E as [_ ->]
  | E : int_text _ = Ok _ |- _ => apply int_text_ok_spec in E as [_ ->]
  end.
  destruct (tab_line_spec [hexlify (t_account t); hexlify (t_domain t); str_int (t_ts t); hexlify (t_agent t); hexlify (t_session t);
    hexlify (t_command t); str_int (t_sequence t)]) as (Hl & Hbb & _); [done|repeat constructor; auto using hexlify_field, str_int_field|].
  rewrite Hl in Hline. injection Hline as <-. eexists (_ :: bodies). split; [reflexivity|]. split; [by constructor|simpl; by rewrite Hlen].
Qed.

Lemma replay_checked : check_replay s' g m = Ok tt.
Proof.
  unfold well_encoded in Henc. apply andb_prop in Henc as [_ Hes].
  destruct (tx_replay _ _ _ _ _ Htx) as (ls & Hls & Ex). destruct (replay_lines_ok _ _ Hes Hls) as (bodies & El & Hbd & Hlen & Hchk).
  destruct (tx_attempts _ _ _ _ _ Htx) as (als & Hals & Ea). destruct (attempt_lines_ok _ _ Hals) as (abodies & Eal & Habd & Halen).
  assert (Hf := file_of "hot-replay.jsonl" (x_replay x) eq_refl). assert (Hfa := file_of "send-attempt-index.tsv" (x_attempts x) eq_refl).
  unfold check_replay. rewrite (read_bytes s' (g, "hot-replay.jsonl") (x_replay x)) by (done || (eapply size_of; [|exact Hf]; member)). cbn [rbind].
  rewrite Ex, El, split_bodies by done. rewrite (proj1 (manifest_get "hot_replay_records" _ eq_refl eq_refl)). cbn [py_eq].
  rewrite Hlen, Z.eqb_refl. cbn [negb]. rewrite Hchk. cbn [rbind].
  rewrite (read_bytes s' (g, "send-attempt-index.tsv") (x_attempts x)) by (done || (eapply size_of; [|exact Hfa]; member)). cbn [rbind].
  rewrite Ea, Eal, split_bodies by done. rewrite (proj1 (manifest_get "send_attempt_records" _ eq_refl eq_refl)). cbn [py_eq].
  rewrite Halen, Z.eqb_refl. done.
Qed.

(** *** The runtime manifest *)

Lemma field_ok_intro k v : line_text k && nonempty k && no_char "=" k = true -> line_text v = true -> v <> EmptyString -> field_ok (k, v) = true.
Proof.
  intros Hk Hv Hn. apply andb_prop in Hk as [[Hk1 Hk2]%andb_prop Hk3]. unfold field_ok. cbn [fst snd]. rewrite Hk1, Hk2, Hk3, Hv.
  unfold nonempty. by rewrite bool_decide_eq_false_2.
Qed.

Lemma digest_field k data : line_text k && nonempty k && no_char "=" k = true -> field_ok (k, digest data) = true.
Proof. intros Hk. apply field_ok_intro; [done|apply digest_line|]. by destruct (digest_hex data). Qed.
Lemma int_field k z : line_text k && nonempty k && no_char "=" k = true -> field_ok (k, str_int z) = true.
Proof. intros Hk. by apply field_ok_intro; [|apply str_int_line|apply str_int_line]. Qed.

Lemma runtime_checked files :
  (forall n d, In (n, d) inventory -> exists e, dget n files = Some (VDict e) /\ dget "sha256" e = Some (VStr (digest d))) ->
  check_runtime s' g m files = Ok tt.
Proof.
  intros Hfiles. pose proof (b_runtime _ _ _ _ _ _ _ _ _ _ _ _ _ Hb) as Hr. unfold _runtime_manifest_bytes in Hr.
  apply rbind_ok in Hr as (fields & Hfs & Hr). unfold runtime_fields in Hfs. cbn [rbind r_digests runtime_manifest_of] in Hfs. simpl in Hfs. injection Hfs as Hfs.
  assert (Hsha : forall n d, In (n, d) inventory -> file_sha256 files n = Ok (VStr (digest d))).
  { intros n d Hin. destruct (Hfiles n d Hin) as (e & Hn & Hs). unfold file_sha256. destruct (dget_get _ _ _ Hn) as (_ & -> & _). cbn [rbind subscript].
    by destruct (dget_get _ _ _ Hs) as (_ & -> & _). }
  assert (Hpt : line_text (text_or parent "-") = true /\ text_or parent "-" <> EmptyString).
  { unfold text_or, nonempty. case_bool_decide as Hp; [done|]. cbn [negb]. by split; [apply Hparent|]. }
  assert (Hok : Forall (fun kv => field_ok kv = true) fields).
  { rewrite <- Hfs. repeat (constructor; [first [by apply digest_field|by apply int_field|by apply field_ok_intro; [|apply Hpt|apply Hpt]|
      by apply field_ok_intro|reflexivity]|]). constructor. }
  assert (Hnd : List.NoDup (map fst fields)) by (rewrite <- Hfs; simpl; repeat (constructor; [simpl; intuition discriminate|]); constructor).
  destruct (manifest_roundtrip RUNTIME_MANIFEST_HEADER fields) as (raw & Hraw & Hparse); [done|done|done|].
  rewrite Hraw in Hr. injection Hr as ->.
  assert (Hf := file_of "runtime-manifest.txt" runtime eq_refl). unfold check_runtime.
  rewrite (read_bytes s' (g, "runtime-manifest.txt") runtime) by (done || (eapply size_of; [|exact Hf]; member)). cbn [rbind].
  rewrite Hparse. cbn [rbind]. assert (He : expected_runtime g m files = Ok (map (fun kv => (kv.1, VStr kv.2)) fields)).
  { unfold expected_runtime. rewrite (Hsha _ (x_segment x)), (Hsha _ (x_checkpoint x)), (Hsha _ (x_index x)), (Hsha _ (x_runtime x)),
      (Hsha _ (x_attempts x)), (Hsha _ (x_replay x)) by member. cbn [rbind].
    rewrite !(proj1 (manifest_get "parent_generation" _ eq_refl eq_refl)), (proj1 (manifest_get "journal_prefix_bytes" _ eq_refl eq_refl)),
      (proj1 (manifest_get "journal_logical_sha256" _ eq_refl eq_refl)), (proj1 (manifest_get "journal_records" _ eq_refl eq_refl)),
      (proj1 (manifest_get "command_records" _ eq_refl eq_refl)), (proj1 (manifest_get "send_attempt_records" _ eq_refl eq_refl)),
      (proj1 (manifest_get "hot_replay_records" _ eq_refl eq_refl)).
    rewrite <- Hfs. cbn [map fst snd truthy py_str repr]. unfold text_or, nonempty. by case_bool_decide. }
  rewrite He. cbn [rbind]. change (VDict (map (fun kv => (kv.1, VStr kv.2)) fields)) with (text_dict fields).
  rewrite text_dict_refl by done. rewrite (proj1 (manifest_get "runtime_manifest_sha256" _ eq_refl eq_refl)). cbn [py_eq].
  by rewrite bool_decide_eq_true_2.
Qed.

(** *** The pointers and the parent *)

Lemma current_read : exists c, _read_current s' = Ok (Some c) /\ dget "generation" c = Some (VStr g) /\
  dget "manifest_sha256" c = Some (VStr (digest manifest)) /\ dget "runtime_manifest_sha256" c = Some (VStr (digest runtime)).
Proof.
  destruct (b_current _ _ _ _ _ _ _ _ _ _ _ _ _ Hb) as (t & Ht & Ec). pose proof current_file as Hf.
  assert (Hok : json_ok (VDict (pointer_value g (digest manifest) (digest runtime))) = true).
  { unfold pointer_value. cbn [json_ok forallb fst snd]. rewrite !digest_utf8, (line_text_utf8 g Hg). vm_compute. done. }
  destruct (load_dict s' CURRENT (pointer_value g (digest manifest) (digest runtime)) t) as (c & Hc & Hl); [by rewrite <- Ec| |exact Hok|exact Ht|].
  { rewrite <- Ec. eapply size_of; [|exact Hf]. member. }
  apply json_ok_dict in Hok as [Hnd _].
  assert (Hfield : forall k v, dget k (pointer_value g (digest manifest) (digest runtime)) = Some v -> scalar v = true -> dget k c = Some v)
    by (intros; by eapply like_scalar_field).
  exists c. split; [|by repeat split; apply Hfield]. unfold _read_current. rewrite Hf, Hc. cbn [rbind].
  destruct (dget_get c _ _ (Hfield "schema" _ eq_refl eq_refl)) as (-> & _). destruct (dget_get c _ _ (Hfield "generation" _ eq_refl eq_refl)) as (-> & _).
  cbn [eq_str nonempty_str]. rewrite bool_decide_eq_true_2, bool_decide_eq_false_2 by done. done.
Qed.

Lemma current_checked c :
  dget "generation" c = Some (VStr g) -> dget "manifest_sha256" c = Some (VStr (digest manifest)) ->
  dget "runtime_manifest_sha256" c = Some (VStr (digest runtime)) -> check_current s' g (Some c) m (digest manifest) = Ok tt.
Proof.
  intros H1 H2 H3. unfold check_current, same_field. destruct (dget_get _ _ _ H1) as (_ & -> & _). cbn [rbind eq_str].
  rewrite bool_decide_eq_true_2 by done. destruct (dget_get _ _ _ H2) as (-> & _). destruct (dget_get _ _ _ H3) as (-> & _).
  rewrite !(proj1 (manifest_get "runtime_manifest_sha256" _ eq_refl eq_refl)). cbn [py_eq]. rewrite !bool_decide_eq_true_2 by done. cbn [negb orb].
  rewrite (read_bytes s' CURRENT current) by (apply current_file || (eapply size_of; [|apply current_file]; member)). cbn [rbind].
  rewrite (read_bytes s' CURRENT_runtime runtime_current) by (apply runtime_current_file || (eapply size_of; [|apply runtime_current_file]; member)).
  cbn [rbind]. pose proof (b_runtime_current _ _ _ _ _ _ _ _ _ _ _ _ _ Hb) as Hr. unfold _runtime_current_bytes in Hr.
  destruct (manifest_roundtrip RUNTIME_CURRENT_HEADER (current_fields g (digest current) (digest manifest) (digest runtime))) as (raw & Hraw & Hparse).
  { done. }
  { repeat (constructor; [first [by apply digest_field|by apply field_ok_intro]|]). constructor. }
  { simpl. repeat (constructor; [simpl; intuition discriminate|]). constructor. }
  rewrite Hraw in Hr. injection Hr as ->. rewrite Hparse. cbn [rbind].
  change (VDict _) with (text_dict (current_fields g (digest current) (digest manifest) (digest runtime))). rewrite text_dict_refl; [done|].
  simpl. repeat (constructor; [simpl; intuition discriminate|]). constructor.
Qed.

Lemma parent_checked : check_parent s' m = Ok tt.
Proof.
  unfold check_parent. destruct (dget_get _ _ _ (manifest_field "parent_generation" _ eq_refl eq_refl)) as (_ & _ & ->). cbn [truthy as_str rbind].
  case_bool_decide as Hp; [done|]. cbn [negb]. destruct (Hparent Hp) as (_ & Hd & pm & Hpm & Hn).
  assert (Hpg : parent <> g) by (intros ->; by rewrite (b_fresh _ _ _ _ _ _ _ _ _ _ _ _ _ Hb) in Hd).
  rewrite built_dirs, decide_False, Hd by done. cbn [negb]. rewrite (load_frame s s') by (by apply built_other).
  rewrite Hpm. cbn [rbind as_dict]. rewrite Hn. cbn [eq_str]. by rewrite bool_decide_eq_true_2.
Qed.

Definition built_report : dict :=
  [("schema", VStr "heptatrader.oms-generation-verification.v1"); ("result", VStr "PASS"); ("generation", VStr g);
   ("journal_records", VInt (sc_records st)); ("command_records", VInt commands);
   ("send_attempt_records", VInt (Z.of_nat (length (p_attempts p)))); ("hot_replay_records", VInt (Z.of_nat (length (p_replay p))));
   ("authorization_effect", VStr "NONE")].

Lemma named_verified c :
  dget "generation" c = Some (VStr g) -> dget "manifest_sha256" c = Some (VStr (digest manifest)) ->
  dget "runtime_manifest_sha256" c = Some (VStr (digest runtime)) -> _load_json_private s' (g, "manifest.json") = Ok (VDict m) ->
  verify_named s' (Some c) g = Ok built_report.
Proof.
  intros H1 H2 H3 Hload. destruct files_loaded as (files & Hfiles & Hlen & Hfwd & Hrev). unfold verify_named. rewrite built_dirs, decide_True by done.
  cbn [negb]. rewrite Hload. cbn [rbind]. rewrite (proj1 (manifest_get "schema" _ eq_refl eq_refl)), (proj1 (manifest_get "generation" _ eq_refl eq_refl)).
  cbn [eq_str]. rewrite !bool_decide_eq_true_2 by done. cbn [negb orb]. destruct (dget_get _ _ _ Hfiles) as (-> & _).
  rewrite Hlen. change ((Z.of_nat (length inventory) <? 1) || (MAX_GENERATION_FILES <? Z.of_nat (length inventory))) with false. cbn iota.
  rewrite check_files by done. cbn [rbind]. rewrite state_checked. cbn [rbind]. rewrite replay_checked. cbn [rbind].
  rewrite (runtime_checked files) by done. cbn [rbind]. rewrite (sha_put _ _ manifest) by (by apply file_of). cbn [rbind snd].
  rewrite current_checked by done. cbn [rbind]. rewrite parent_checked. cbn [rbind]. unfold verification_report.
  rewrite (proj2 (manifest_get "journal_records" _ eq_refl eq_refl)), (proj2 (manifest_get "command_records" _ eq_refl eq_refl)),
    (proj2 (manifest_get "send_attempt_records" _ eq_refl eq_refl)), (proj2 (manifest_get "hot_replay_records" _ eq_refl eq_refl)). done.
Qed.
End readback.
