(* ===== verification/OmsPublication.v ===== *)
(** * Publication: what holds after a build, and after a crash inside one

    A build that returns leaves a store that verifies; the lookup of a command in it
    agrees with the command table of the journal; and a crash anywhere in a build
    leaves either the previous generation, still verified, or a store that does not
    verify at all.  The last part is by footprints: everything before the replacement
    of [CURRENT] is confined to the new directory. *)

From Stdlib Require Import Ascii.
From S2P Require Import Prelude PyText PyValue PyOrder PyBytes PyJson PyJsonFacts PyJsonText OmsJournal OmsJournalFacts OmsHot OmsHotFacts.
From S2P Require Import OmsIndex OmsIndexFacts Digest OmsStore OmsGeneration OmsStoreFacts OmsGenerationFacts OmsVerifyFacts OmsReadback.
From stdpp Require Import base tactics list strings gmap.
From Stdlib Require Import ZArith Lia Bool.

Open Scope Z_scope.

(** ** Verification only reads the published generations *)

Lemma rfold_ext {A B} (f f' : A -> B -> res A) l a : (forall a x, f a x = f' a x) -> rfold f l a = rfold f' l a.
Proof. intros Hf. revert a; induction l as [|x l IH]; intros a; [done|]. cbn [rfold]. rewrite Hf. by destruct (f' a x); cbn [rbind]. Qed.

Section publication.
Context `{Digest}.

Lemma named_frame g s s' c g0 r :
  agree g s s' -> fs_dirs s !! g = None -> g0 <> EmptyString -> verify_named s (Some c) g0 = Ok r -> verify_named s' (Some c) g0 = Ok r.
Proof.
  intros Ha Hfresh Hne Hv. pose proof (verify_named_inv _ _ _ _ Hv) as (m & files & md & Hd & Hl & _ & _ & Ef & _ & _ & _ & _ & _ & _ & _ & Hpar & _).
  assert (Hg0 : g0 <> g) by (intros ->; congruence).
  assert (Hf : forall n, fs_files s' !! ((g0, n) : Path) = fs_files s !! ((g0, n) : Path)) by (intros n; by apply (agree_files _ _ _ Ha)).
  assert (Hpar' : check_parent s' m = check_parent s m).
  { unfold check_parent in Hpar |- *. destruct (truthy _) eqn:Et; [|done]. destruct (getd _ m _) as [| | | | |name| |]; try done. cbn [as_str rbind] in Hpar |- *.
    destruct (fs_dirs s !! name) as [b|] eqn:En; [|done]. assert (Hn : name <> g) by (intros ->; congruence).
    rewrite (agree_dirs _ _ _ Ha name Hn), En. rewrite (load_frame s s'); [done|]. apply (agree_files _ _ _ Ha); [done|].
    simpl in Et |- *. apply negb_true_iff in Et. by apply bool_decide_eq_false in Et. }
  rewrite <- Hv. unfold verify_named. rewrite (agree_dirs _ _ _ Ha g0 Hg0), Hd. rewrite (load_frame s s' (g0, "manifest.json")) by apply Hf.
  rewrite Hl. cbn [rbind negb]. rewrite Ef, Hpar'. rewrite (sha_frame s s' (g0, "manifest.json")) by apply Hf.
  assert (Hcf : rfold (check_file s' g0) files tt = rfold (check_file s g0) files tt).
  { apply rfold_ext. intros [] [n v]. unfold check_file. by rewrite (sha_frame s s') by apply Hf. }
  assert (Hcs : check_state s' g0 m = check_state s g0 m).
  { unfold check_state. by rewrite !(load_frame s s'), !(read_frame s s') by apply Hf. }
  assert (Hcr : check_replay s' g0 m = check_replay s g0 m) by (unfold check_replay; by rewrite !(read_frame s s') by apply Hf).
  assert (Hct : check_runtime s' g0 m files = check_runtime s g0 m files) by (unfold check_runtime; by rewrite !(read_frame s s') by apply Hf).
  assert (Hcc : forall d, check_current s' g0 (Some c) m d = check_current s g0 (Some c) m d).
  { intros d. unfold check_current. rewrite (read_frame s s' CURRENT) by apply (agree_current _ _ _ Ha).
    by rewrite (read_frame s s' CURRENT_runtime) by apply (agree_runtime _ _ _ Ha). }
  rewrite Hcf, Hcs, Hcr, Hct. destruct (_sha256_file s (g0, "manifest.json")) as [d|]; cbn [rbind]; [|done]. by rewrite Hcc.
Qed.

Lemma verify_frame g s s' r :
  agree g s s' -> fs_dirs s !! g = None -> verify_generation s None = Ok r -> verify_generation s' None = Ok r.
Proof.
  intros Ha Hfresh Hv. destruct (verify_inv _ _ Hv) as (c & g0 & m & raw & fields & Hver & Hn).
  destruct (read_current_generation _ _ (v_current _ _ _ _ _ _ Hver)) as (g1 & E1 & Hne). rewrite (v_generation _ _ _ _ _ _ Hver) in E1. injection E1 as <-.
  unfold verify_generation. rewrite (agree_private _ _ _ Ha), (v_private _ _ _ _ _ _ Hver). cbn [negb].
  rewrite (current_frame s s') by apply (agree_current _ _ _ Ha). rewrite (v_current _ _ _ _ _ _ Hver). cbn [rbind].
  unfold item. rewrite (v_generation _ _ _ _ _ _ Hver). cbn [rbind as_str]. by eapply named_frame.
Qed.

(** ** Traces *)

(** Every state a program goes through satisfies [Q], but for the state it ends in
    when it returns. *)
Definition traced {A} (Q : Store -> Prop) (m : io A) (s : Store) : Prop :=
  forall t s' r, m s = (t, s', r) -> Forall (fun x => Q x \/ (x = s' /\ is_ok r = true)) t.

Lemma ibind_assoc {A B C} (m : io A) (f : A -> io B) (k : B -> io C) s :
  ibind (ibind m f) k s = ibind m (fun a => ibind (f a) k) s.
Proof.
  unfold ibind. destruct (m s) as [[t1 s1] [a|e]]; [|done]. destruct (f a s1) as [[t2 s2] [b|e]]; [|done].
  destruct (k b s2) as [[t3 s3] r]. by rewrite app_assoc.
Qed.

Lemma traced_assoc {A B C} Q (m : io A) (f : A -> io B) (k : B -> io C) s :
  traced Q (ibind m (fun a => ibind (f a) k)) s -> traced Q (ibind (ibind m f) k) s.
Proof. unfold traced. intros Ht. by rewrite ibind_assoc. Qed.

Lemma traced_bind {A B} g (Q I : Store -> Prop) (m : io A) (k : A -> io B) s :
  (forall a b, I a -> agree g a b -> I b) -> (forall a, I a -> Q a) -> confined g m -> I s ->
  (forall a s1, eff m s s1 a -> I s1 -> traced Q (k a) s1) -> traced Q (ibind m k) s.
Proof.
  intros Hag HQ Hm Hs Hk t s' r Hr. unfold ibind in Hr. destruct (m s) as [[t1 s1] ra] eqn:E1. destruct (Hm _ _ _ _ E1) as [Ht1 Hs1].
  assert (HI : Forall (fun x => Q x \/ (x = s' /\ is_ok r = true)) t1).
  { eapply Forall_impl; [exact Ht1|]. intros x Hx. left. by eapply HQ, Hag. }
  destruct ra as [a|e]; [|by simplify_eq]. destruct (k a s1) as [[t2 s2] r2] eqn:E2. simplify_eq. apply Forall_app. split; [done|].
  eapply (Hk a s1); [by eexists|by eapply Hag|done].
Qed.

Lemma traced_call {B} Q f (k : unit -> io B) s :
  (forall s1, f s = Ok s1 -> Q s1 /\ traced Q (k tt) s1) -> traced Q (ibind (icall f) k) s.
Proof.
  intros Hk t s' r Hr. unfold ibind, icall in Hr. destruct (f s) as [s1|e]; [|simplify_eq; constructor].
  destruct (k tt s1) as [[t2 s2] r2] eqn:E. simplify_eq. destruct (Hk s1 eq_refl) as [HQ Ht]. constructor; [by left|by apply Ht].
Qed.

Lemma traced_last Q f s : traced Q (icall f) s.
Proof.
  intros t s' r Hr. unfold icall in Hr. destruct (f s); simplify_eq; [|constructor]. constructor; [by right|constructor].
Qed.

Lemma traced_ret {A B} Q (m : io A) (b : B) s : traced Q m s -> traced Q (ibind m (fun _ => iret b)) s.
Proof.
  intros Hm t s' r Hr. unfold ibind, iret in Hr. destruct (m s) as [[t1 s1] [a|e]] eqn:E; simplify_eq; specialize (Hm _ _ _ E); [|done].
  by rewrite app_nil_r.
Qed.

(** ** A crash inside a build *)

Lemma confined_lift {A} g (r : res A) : confined g (ilift r).
Proof. apply (confined_pure g (fun _ => r)). Qed.
Lemma confined_read {A} g (f : Store -> res A) : confined g (iread f).
Proof. apply (confined_pure g f). Qed.
Lemma confined_ret {A} g (a : A) : confined g (iret a).
Proof. apply (confined_pure g (fun _ => Ok a)). Qed.
Hint Resolve confined_lift confined_read confined_ret : confined.

Lemma confined_copy g data l : g <> EmptyString -> confined g (copy_records g data l).
Proof.
  intros Hg. unfold copy_records. destruct (validated_raw_records data l) as [st [e|]]; auto 10 with confined.
Qed.

Lemma confined_state g uuid l logical st p size : g <> EmptyString -> confined g (write_state g uuid l logical st p size).
Proof. intros Hg. unfold write_state. do 7 (apply confined_bind; [auto 8 with confined|intros ?]). by apply confined_write. Qed.

Lemma confined_manifests g parent uuid logical st p size : g <> EmptyString -> confined g (write_manifests g parent uuid logical st p size).
Proof.
  intros Hg. unfold write_manifests, file_digests.
  apply confined_bind; [apply confined_read|intros files]. apply confined_bind; [apply confined_lift|intros rm].
  apply confined_bind; [by apply confined_atomic|intros _]. apply confined_bind; [apply confined_read|intros rd].
  apply confined_bind; [by apply confined_json|intros _]. apply confined_ret.
Qed.

Lemma manifests_digest g parent uuid logical st p size s s' rm :
  eff (write_manifests g parent uuid logical st p size) s s' rm -> exists data, rm.1 = digest data.
Proof.
  unfold write_manifests. intros Hw. run Hw. unfold _sha256_file in E2. inv_ok E2. subst. eauto.
Qed.

(** [CURRENT] holds a pointer to the new generation. *)
Definition points_to (x : Store) (g : string) : Prop :=
  exists md rd t, dumps (VDict (pointer_value g (digest md) (digest rd))) = Ok t /\ fs_files x !! CURRENT = Some (mkFile true (t +:+ newline)).

(** The states between the two publications. *)
Definition half_published (g : string) (s x : Store) : Prop :=
  points_to x g /\ fs_files x !! CURRENT_runtime = fs_files s !! CURRENT_runtime.

Lemma half_agree g s a b : half_published g s a -> agree g a b -> half_published g s b.
Proof.
  intros [(md & rd & t & Ht & Hc) Hr] Ha. split; [|by rewrite (agree_runtime _ _ _ Ha)]. exists md, rd, t. by rewrite (agree_current _ _ _ Ha).
Qed.

(** The pointer that a verified store would need is not there. *)
Lemma half_fails g s x r :
  line_text g = true -> verify_generation s None = Ok r -> fs_dirs s !! g = None -> half_published g s x -> exists e, verify_generation x None = Raise e.
Proof.
  intros Hg Hs Hfresh [(md & rd & t & Ht & Hc) Hr]. destruct (verify_generation x None) as [r'|e] eqn:Hx; [|eauto]. exfalso.
  destruct (verify_inv _ _ Hs) as (c & g0 & m & raw & fields & V & _). destruct (verify_inv _ _ Hx) as (c' & g1 & m' & raw' & fields' & V' & _).
  pose proof (v_raw _ _ _ _ _ _ V') as Hraw. rewrite (read_frame s x) in Hraw by done. rewrite (v_raw _ _ _ _ _ _ V) in Hraw. injection Hraw as <-.
  pose proof (v_fields _ _ _ _ _ _ V') as Hfs. rewrite (v_fields _ _ _ _ _ _ V) in Hfs. injection Hfs as <-.
  pose proof (v_bound _ _ _ _ _ _ V) as Hb0. rewrite (v_bound _ _ _ _ _ _ V') in Hb0. injection Hb0 as ->.
  assert (Hok : json_ok (VDict (pointer_value g (digest md) (digest rd))) = true).
  { unfold pointer_value. cbn [json_ok forallb fst snd]. rewrite !digest_utf8, (line_text_utf8 g Hg). vm_compute. done. }
  pose proof (v_current _ _ _ _ _ _ V') as Hcur. unfold _read_current in Hcur. rewrite Hc in Hcur. apply rbind_ok in Hcur as (v & Hload & Hcur).
  destruct (Z.le_gt_cases (slen (t +:+ newline)) MAX_METADATA) as [Hsz|Hsz].
  - destruct (load_dict x CURRENT _ t Hc Hsz Hok Ht) as (d & Hd & Hl). rewrite Hd in Hload. injection Hload as <-. inv_ok Hcur. subst c'.
    apply json_ok_dict in Hok as [Hnd _]. pose proof (like_scalar_field _ d "generation" (VStr g) Hnd Hl eq_refl eq_refl) as Hgen.
    rewrite (v_generation _ _ _ _ _ _ V') in Hgen. injection Hgen as ->. rewrite (v_dir _ _ _ _ _ _ V) in Hfresh. done.
  - unfold _load_json_private, open_file in Hload. rewrite Hc in Hload. cbn [rbind f_private f_data negb orb] in Hload.
    by rewrite (proj2 (Z.ltb_lt _ _)) in Hload.
Qed.

Definition crash_ok (g : string) (s x : Store) : Prop := agree g s x \/ half_published g s x.

Lemma publish_traced g uuid s0 s data :
  g <> EmptyString -> agree g s0 s -> traced (crash_ok g s0) (publish g uuid (digest data)) s.
Proof.
  intros Hg Ha. unfold publish.
  assert (Hag : forall a b, agree g s0 a -> agree g a b -> agree g s0 b) by (intros a b Hx Hy; by transitivity a).
  assert (Hq1 : forall a, agree g s0 a -> crash_ok g s0 a) by (by left).
  assert (Hq2 : forall a, half_published g s0 a -> crash_ok g s0 a) by (by right).
  apply (traced_bind g _ (agree g s0)); [done|done|apply confined_read|done|]. intros md s1 Hmd H1. apply eff_read in Hmd as [-> Hmd].
  assert (exists d, md.2 = digest d) as [d Hd] by (unfold _sha256_file in Hmd; inv_ok Hmd; subst; simpl; eauto).
  unfold _atomic_json at 1. apply traced_assoc. apply (traced_bind g _ (agree g s0)); [done|done|apply confined_lift|done|]. intros text s2 Ht H2.
  apply eff_lift in Ht as [-> Ht]. unfold _atomic_bytes at 1. apply traced_assoc, traced_call. intros s3 H3. apply create_ok in H3 as [-> Hn].
  assert (Hp : forall d', agree g s0 (put (CURRENT.1, temp_name CURRENT.2 (uuid 5%nat)) d' s)).
  { intros d'. transitivity s; [done|]. apply (agree_insert g), unprotected_temp. }
  split; [by left|]. apply traced_assoc. apply (traced_bind g _ (agree g s0)); [done|done|apply confined_write_all, unprotected_temp|done|].
  intros u4 s4 H4 _. apply write_all_eff in H4 as ->.
  apply traced_call. intros s5 H5. rewrite replace_put in H5; [|unfold CURRENT; intros [= E]; by apply temp_name_ne in E|done]. injection H5 as <-.
  set (s5 := put CURRENT (EmptyString +:+ (text +:+ newline)) s).
  assert (Hhalf : half_published g s0 s5).
  { split; [|rewrite <- (agree_runtime _ _ _ Ha); by apply lookup_put_ne]. exists d, data, text. rewrite <- Hd. split; [done|]. apply lookup_put. }
  split; [by right|]. apply (traced_bind g _ (half_published g s0)); [apply half_agree|done|apply confined_read|done|]. intros raw s6 _ H6.
  apply (traced_bind g _ (half_published g s0)); [apply half_agree|done|apply confined_lift|done|]. intros rc s7 _ H7. unfold _atomic_bytes.
  apply (traced_bind g _ (half_published g s0)); [apply half_agree|done|apply confined_create, unprotected_temp|done|]. intros _ s8 _ H8.
  apply (traced_bind g _ (half_published g s0)); [apply half_agree|done|apply confined_write_all, unprotected_temp|done|]. intros _ s9 _ H9.
  apply traced_last.
Qed.

(** One confined step of the build. *)
Ltac confined_step g s :=
  apply (traced_bind g _ (agree g s));
  [assumption|assumption|auto using confined_copy, confined_state, confined_manifests with confined|first [assumption|reflexivity]|].

Lemma build_traced journal stopped l time uuid s :
  traced (crash_ok (generation_name time (uuid 0%nat)) s) (build_generation journal stopped l time uuid) s.
Proof.
  unfold build_generation. set (g := generation_name time (uuid 0%nat)). assert (Hg : g <> EmptyString) by done.
  assert (Hag : forall a b, agree g s a -> agree g a b -> agree g s b) by (intros a b Hx Hy; by transitivity a).
  assert (Hq : forall a, agree g s a -> crash_ok g s a) by (by left).
  destruct stopped; cbn [negb]; [|intros t s' r [= <- <- <-]; constructor].
  confined_step g s. intros _ s1 _ H1. confined_step g s. intros current s2 _ H2. confined_step g s. intros parent s3 _ H3.
  confined_step g s. intros _ s4 _ H4. confined_step g s. intros _ s5 _ H5. confined_step g s. intros _ s6 _ H6.
  confined_step g s. intros st s7 _ H7. confined_step g s. intros sd s8 _ H8. confined_step g s. intros _ s9 _ H9.
  confined_step g s. intros p s10 _ H10. confined_step g s. intros _ s11 _ H11. confined_step g s. intros rm s12 Hrm H12.
  destruct (manifests_digest _ _ _ _ _ _ _ _ _ _ Hrm) as [data Hd]. apply traced_ret. rewrite Hd. by apply publish_traced.
Qed.

(** C27: Crash safety of publication.  Let the store verify before a build.  Whatever
    the build does, returns or raises, every state the store goes through is one of:
    [CURRENT] is untouched and verification still gives the same report; or [CURRENT]
    points to the new generation and verification fails; or it is the final state of a
    build that returned.  A crash never selects a generation that was not completely
    published. *)
Theorem publication_crash_safe journal stopped l time uuid s t s' r report crash :
  sforall is_lower_hex (uuid 0%nat) = true -> verify_generation s None = Ok report ->
  build_generation journal stopped l time uuid s = (t, s', r) -> In crash t ->
  (fs_files crash !! CURRENT = fs_files s !! CURRENT /\ verify_generation crash None = Ok report) \/
  (points_to crash (generation_name time (uuid 0%nat)) /\ exists e, verify_generation crash None = Raise e) \/
  (crash = s' /\ is_ok r = true).
Proof.
  intros Hu Hv Hb Hin. set (g := generation_name time (uuid 0%nat)).
  assert (Hfresh : fs_dirs s !! g = None).
  { destruct (fs_dirs s !! g) eqn:E; [|done]. exfalso. unfold build_generation, ibind, iread, ilift, icall in Hb. fold g in Hb.
    destruct (negb stopped); [by simplify_eq|]. destruct (fs_private s); [|by simplify_eq]. destruct (_read_current s) as [cur|]; [|by simplify_eq].
    destruct (match cur with Some _ => _ | None => _ end); [|by simplify_eq]. unfold mkdir in Hb. rewrite E in Hb. by simplify_eq. }
  pose proof (build_traced _ _ _ _ _ _ _ _ _ Hb) as Ht. rewrite List.Forall_forall in Ht. destruct (Ht _ Hin) as [[Ha|Hh]|Hend]; [left|right; left|by right; right].
  - split; [apply (agree_current _ _ _ Ha)|by eapply verify_frame].
  - split; [apply Hh|]. eapply half_fails; [by apply generation_name_line|exact Hv|exact Hfresh|exact Hh].
Qed.

(** ** After a build *)

(** The store before a build: no generation yet, or a verified one. *)
Definition sound_store (s : Store) : Prop := _read_current s = Ok None \/ exists report, verify_generation s None = Ok report.

(** What a build needs to be read back: text that is Unicode and files within the
    limits of the readers, which the build itself does not enforce. *)
Definition readable (journal : File) (l : Limits) (g : string) (s' : Store) : bool :=
  fits g s' && match _project_hot (journal_events (f_data journal) l) with Ok p => well_encoded p | Raise _ => true end.

Lemma built_verified journal stopped l time uuid s s' m :
  sforall is_lower_hex (uuid 0%nat) = true -> sound_store s -> eff (build_generation journal stopped l time uuid) s s' m ->
  readable journal l (generation_name time (uuid 0%nat)) s' = true ->
  exists p c x, _project_hot (journal_events (f_data journal) l) = Ok p /\
    _read_current s' = Ok (Some c) /\ dget "generation" c = Some (VStr (generation_name time (uuid 0%nat))) /\ fs_private s' = true /\
    verify_named s' (Some c) (generation_name time (uuid 0%nat)) =
      Ok (built_report (generation_name time (uuid 0%nat)) (validated_raw_records (f_data journal) l).1 p) /\
    fs_files s' !! ((generation_name time (uuid 0%nat), "command-index.tsv") : Path) = Some (mkFile true x) /\
    exists ls, splitlines byte_break true x = ls /\ Forall2 (fun c t => _index_line c = Ok t) (index_records (p_commands p)) ls /\
      rmapM _index_key ls = Ok (map command_key (index_records (p_commands p))).
Proof.
  intros Hu Hs Hb Hr. set (g := generation_name time (uuid 0%nat)) in *. apply andb_prop in Hr as [Hfit Henc].
  apply build_inv in Hb as (parent & st & p & x & runtime & manifest & current & rc & Hb & _). fold g in Hb.
  rewrite (b_project _ _ _ _ _ _ _ _ _ _ _ _ _ Hb) in Henc.
  assert (Hg : line_text g = true) by (by apply generation_name_line). assert (Hne : g <> EmptyString) by done.
  assert (Hparent : parent <> EmptyString -> line_text parent = true /\ fs_dirs s !! parent = Some true /\
    exists m, _load_json_private s (parent, "manifest.json") = Ok (VDict m) /\ get m "generation" = VStr parent).
  { intros Hp. destruct (b_parent _ _ _ _ _ _ _ _ _ _ _ _ _ Hb) as [(c & Hc & Hgen & _)|[_ ->]]; [|done].
    destruct Hs as [Hs|[rep Hv]]; [congruence|]. destruct (verify_inv _ _ Hv) as (c' & g0 & m0 & raw & fields & V & _).
    pose proof (v_current _ _ _ _ _ _ V) as Hc'. rewrite Hc in Hc'. injection Hc' as <-. rewrite (v_generation _ _ _ _ _ _ V) in Hgen.
    injection Hgen as ->. split; [apply (v_line _ _ _ _ _ _ V)|]. split; [apply (v_dir _ _ _ _ _ _ V)|].
    exists m0. split; [apply (v_manifest _ _ _ _ _ _ V)|apply (v_named _ _ _ _ _ _ V)]. }
  destruct (manifest_loaded _ _ _ _ _ _ _ _ _ _ _ _ _ Hb Hfit Hg Hne Hparent) as (m' & Hload & Hm).
  destruct (current_read _ _ _ _ _ _ _ _ _ _ _ _ _ Hb Hfit Hg Hne) as (c & Hc & H1 & H2 & H3).
  destruct (index_verified _ _ _ _ _ _ _ _ _ _ _ _ _ Hb Hfit Hne) as (ls & _ & _ & Hl & Hk & _ & Hsp).
  exists p, c, (x_index x). split; [apply (b_project _ _ _ _ _ _ _ _ _ _ _ _ _ Hb)|]. split; [done|]. split; [done|].
  split; [apply (built_private _ _ _ _ _ _ _ _ _ _ _ _ _ Hb)|]. split; [|split; [|exists ls; done]].
  - rewrite (b_scan _ _ _ _ _ _ _ _ _ _ _ _ _ Hb). by eapply named_verified.
  - by apply (file_of _ _ _ _ _ _ _ _ _ _ _ _ _ Hb Hne).
Qed.

(** C28: A build that returns can be verified.  If the store held no generation or a
    verified one, and the new files are Unicode text within the limits of the readers,
    then [verify_generation] accepts the store after the build, and reports the new
    generation with the numbers of journal records, commands, send attempts and replay
    events of the journal it was built from. *)
Theorem build_verifies journal stopped l time uuid s t s' m :
  sforall is_lower_hex (uuid 0%nat) = true -> sound_store s ->
  build_generation journal stopped l time uuid s = (t, s', Ok m) ->
  readable journal l (generation_name time (uuid 0%nat)) s' = true ->
  exists p, _project_hot (journal_events (f_data journal) l) = Ok p /\
    verify_generation s' None =
      Ok (built_report (generation_name time (uuid 0%nat)) (validated_raw_records (f_data journal) l).1 p) /\
    sound_store s'.
Proof.
  intros Hu Hs Hb Hr. destruct (built_verified _ _ _ _ _ _ _ _ Hu Hs (ex_intro _ t Hb) Hr) as (p & c & x & Hp & Hc & Hg & Hpriv & Hv & _).
  assert (Hver : verify_generation s' None = Ok (built_report (generation_name time (uuid 0%nat)) (validated_raw_records (f_data journal) l).1 p)).
  { unfold verify_generation. rewrite Hpriv, Hc. cbn [negb rbind]. unfold item. rewrite Hg. cbn [rbind as_str]. exact Hv. }
  exists p. split; [done|]. split; [done|]. right. eauto.
Qed.

(** ** Looking commands up *)

(** The answer for a command of the table. *)
Definition lookup_answer (o : option Command) (request_hash : string) : dict :=
  match o with
  | None => missing_value
  | Some c => entry_value (if bool_decide (c_hash c = request_hash) then "duplicate" else "conflict")
                (mkEntry (c_hash c) (c_operation c) (c_status c) (c_order c) (c_reason c) (c_correlation c) (c_last c))
  end.

Lemma lookup_index_ok cs ls data wanted hash :
  table cs -> splitlines byte_break true data = ls -> Forall2 (fun c t => _index_line c = Ok t) (index_records cs) ls ->
  rmapM _index_key ls = Ok (map command_key (index_records cs)) ->
  lookup_index data wanted hash = Ok (lookup_answer (dget wanted cs) hash).
Proof.
  intros Ht Hsp Hl Hk. unfold lookup_index. rewrite Hsp, Hk. cbn [rbind]. set (keys := map command_key (index_records cs)).
  assert (Hmem : forall k, In k keys <-> In k (map fst cs)) by (intros k; unfold keys; rewrite index_records_keys by done; apply sorted_by_In).
  pose proof (bisect_ascending keys wanted (index_records_ascending cs Ht)) as Hbi. set (i := bisect_left oltb keys wanted) in *.
  destruct (keys !! i) as [k|] eqn:Ek.
  - unfold keys in Ek. rewrite list_lookup_fmap in Ek. destruct (index_records cs !! i) as [c|] eqn:Ec; [|done]. cbn in Ek. injection Ek as <-.
    destruct (Forall2_lookup_l _ _ _ _ _ Hl Ec) as (line & -> & Hline). case_bool_decide as Hw.
    + assert (Hc : In c (index_records cs)) by (apply list_elem_of_In, list_elem_of_lookup; eauto).
      pose proof (index_records_plain cs Ht) as Hpl. rewrite List.Forall_forall in Hpl. rewrite (index_entry_line c line (Hpl _ Hc) Hline). cbn [rbind e_hash].
      apply (proj1 (index_records_In cs c)) in Hc. apply in_map_iff in Hc as ([k c'] & <- & Hc). pose proof (table_key _ Ht _ _ Hc) as E. cbn [snd] in *.
      rewrite (dget_of_In wanted c' cs (table_nodup _ Ht)) by congruence. done.
    + destruct Hbi as [?|[Hni _]]; [done|]. destruct (dget wanted cs) as [c'|] eqn:Ed; [|done]. exfalso. apply Hni, Hmem. apply dget_In in Ed.
      by apply (in_map fst) in Ed.
  - destruct (dget wanted cs) as [c'|] eqn:Ed; [|done]. exfalso. apply Hbi, Hmem. apply dget_In in Ed. by apply (in_map fst) in Ed.
Qed.

(** C29: [lookup_command] answers for the journal.  After a build that can be read
    back, a lookup of any identity gives the answer of the command table: missing, or
    the recorded outcome with a comparison of the full request hash.  The table entry
    of an identity is the fold of the journal's events of that identity, and there is
    one exactly when the journal has such an event. *)
Theorem lookup_refines_journal journal stopped l time uuid s t s' m agent session command hash :
  sforall is_lower_hex (uuid 0%nat) = true -> sound_store s ->
  build_generation journal stopped l time uuid s = (t, s', Ok m) ->
  readable journal l (generation_name time (uuid 0%nat)) s' = true ->
  exists p evs, _project_hot (journal_events (f_data journal) l) = Ok p /\ rmapM event_of (journal_events (f_data journal) l) = Ok evs /\
    lookup_command s' agent session command hash = Ok (lookup_answer (dget (agent, session, command) (p_commands p)) hash) /\
    (complete (agent, session, command) = true ->
     option_map strip (dget (agent, session, command) (p_commands p)) =
       match of_key (agent, session, command) evs with [] => None | es => Some (folded (agent, session, command) es) end) /\
    (complete (agent, session, command) = false -> dget (agent, session, command) (p_commands p) = None).
Proof.
  intros Hu Hs Hb Hr. destruct (built_verified _ _ _ _ _ _ _ _ Hu Hs (ex_intro _ t Hb) Hr) as (p & c & x & Hp & Hc & Hg & Hpriv & Hv & Hf & ls & Hsp & Hl & Hk).
  destruct (project_inv _ _ Hp) as (evs & hst & Hevs & Hpass & _ & Hcs & _). pose proof (hot_pass_commands _ _ Hpass) as Hst.
  exists p, evs. split; [done|]. split; [done|]. split; [|split].
  - unfold lookup_command. rewrite Hc. cbn [rbind]. unfold item. rewrite Hg. cbn [rbind as_str]. unfold verify_generation. rewrite Hpriv, Hc. cbn [negb rbind].
    rewrite Hv. cbn [rbind]. rewrite (read_all _ _ _ Hf). cbn [rbind]. by apply (lookup_index_ok _ ls); [apply (project_table _ _ Hp)| | |].
  - intros Hcomp. rewrite Hcs. by apply (cs_fold _ _ Hst).
  - intros Hcomp. destruct (dget (agent, session, command) (p_commands p)) eqn:E; [|done]. rewrite Hcs in E.
    apply (cs_key _ _ Hst) in E as [_ E]. congruence.
Qed.
End publication.

(** ** Index lines *)

(** The index lines of a journal read back.  For every command of the projection
    whose lines can be written and fit the limit, the reader of the command index finds
    its identity, the lookup finds its outcome fields, the reader of the runtime index
    finds the encoded identity, and the encoded identities are in the order of the
    identities. *)
Theorem index_line_roundtrip events p k c line runtime_line :
  _project_hot events = Ok p -> dget k (p_commands p) = Some c ->
  _index_line c = Ok line -> _runtime_index_line c = Ok runtime_line -> slen line <= MAX_INDEX_LINE -> slen runtime_line <= MAX_INDEX_LINE ->
  _index_key line = Ok k /\
  index_entry line = Ok (mkEntry (c_hash c) (c_operation c) (c_status c) (c_order c) (c_reason c) (c_correlation c) (c_last c)) /\
  _runtime_index_key runtime_line = Ok (hex_key k) /\
  forall k', oltb (hex_key k) (hex_key k') = oltb k k'.
Proof.
  intros Hp Hk Hl Hr Hm1 Hm2. pose proof (project_table _ _ Hp) as Ht. apply dget_In in Hk.
  assert (Hpl := table_plain _ Ht _ _ Hk). assert (Hkey := table_key _ Ht _ _ Hk). subst k.
  split; [by apply format_key|]. split; [by apply index_entry_line|]. split; [by apply (format_key (sort_key := fun c => hex_key (command_key c)) c runtime_line)|]. intros k'. apply hex_key_order.
Qed.
