(* ===== verification/OmsScenario.v ===== *)
(** * The journal and generation theorems on a concrete journal

    A journal of six records: an order whose outcome is settled, an order that is
    still uncertain, an owner fence and a resent command.  Two generations are built
    from two of its records.  The digest of the scenario is the stand-in of [Digest]; the theorems hold for
    any digest that prints lower-case hexadecimal text. *)

From S2P Require Import Prelude PyText PyValue PyOrder PyBytes PyJson PyJsonFacts OmsJournal OmsJournalFacts OmsHot OmsHotFacts.
From S2P Require Import OmsIndex OmsIndexFacts Digest OmsStore OmsGeneration OmsStoreFacts OmsGenerationFacts OmsVerifyFacts OmsReadback OmsPublication.
From stdpp Require Import base tactics list strings gmap.
From Stdlib Require Import ZArith Lia.

Open Scope Z_scope.

Module OmsScenario.

#[export] Instance toy_digest : Digest := length_digest.

(** ** The journal *)

Definition event (kind source session req hash status : string) (order ts : Z) : value :=
  VDict [("account", VStr "DU1"); ("event", VStr kind); ("order_id", VInt order); ("req_id", VStr req); ("request_hash", VStr hash);
         ("schema_version", VInt 4); ("source", VStr source); ("status", VStr status); ("trace_id", VStr session); ("ts_ms", VInt ts)].

Definition agent : string := "agent.tool:alpha".

Definition records : list value :=
  [event "order_intent" agent "s1" "r1" "h1" "" (-1) 1000; event "place_send_attempt" agent "s1" "r1" "h1" "" (-1) 1001;
   event "place_sent" agent "s1" "r1" "h1" "" 7 1002; event "order_intent" agent "s1" "r2" "h2" "" (-1) 1003;
   event "session_owner_fenced" agent "s2" "" "" "" (-1) 1004; event "order_owner_reconciled_terminal" "oms" "" "" "" "" 7 1005].

Definition line_text_of (v : value) : string := ok_or EmptyString (dumps v) +:+ newline.
Definition journal_text : string := concat_text (map line_text_of records).

Definition limits : Limits := mkLimits 4096 16 512.
Definition journal_file : File := mkFile true journal_text.

(** The same bytes in two chunks. *)
Definition chunks : list string := [stake 300 journal_text; sdrop 300 journal_text].

Definition scanned : Scan := (scan_chunks limits scan_start chunks).1.
Definition events : list dict := map snd (sc_out scanned).

Lemma journal_stream_exact_witness :
  check_limits limits = Ok tt /\ scan_chunks limits scan_start chunks = (scanned, None) /\
  ((forall chunks', concat_text chunks' = concat_text chunks ->
     sc_out (scan_chunks limits scan_start chunks').1 = sc_out scanned /\ (scan_chunks limits scan_start chunks').2 = None) /\
  (@None exn = None ->
     concat_text (map fst (sc_out scanned)) = concat_text chunks /\ sc_bytes scanned = slen (concat_text chunks) /\
     sc_records scanned = Z.of_nat (length (sc_out scanned)) /\ sc_records scanned <= max_records limits /\
     forall i raw event, sc_out scanned !! i = Some (raw, event) ->
       exists line v, raw = line +:+ newline /\ line <> EmptyString /\ no_char nl line = true /\
         slen line <= max_record_bytes limits /\ decode_record line (Z.of_nat i + 1) = Ok v /\
         validate_event v (Z.of_nat i + 1) = Ok event)).
Proof.
  assert (E : scan_chunks limits scan_start chunks = (scanned, None)) by (vm_compute; reflexivity).
  split; [reflexivity|]. split; [exact E|]. apply journal_stream_exact; [reflexivity|exact E].
Defined.

(** ** The projection *)

Definition no_projection : Projection := mkProjection [] [] [] [].
Definition projection : Projection := ok_or no_projection (_project_hot events).

Lemma projected : _project_hot events = Ok projection.
Proof. apply is_ok_value. vm_compute. reflexivity. Qed.

(** The replay keeps the uncertain order and the fence. *)
Example replay_length : length (p_replay projection) = 2%nat.
Proof. vm_compute. reflexivity. Qed.

Lemma hot_replay_refines_witness :
  sublist (p_replay projection) events /\
  exists evs st evs' st',
    rmapM event_of events = Ok evs /\ hot_pass evs = Ok st /\
    rmapM event_of (p_replay projection) = Ok evs' /\ hot_pass evs' = Ok st' /\ hot_refines st st'.
Proof. apply (hot_replay_refines events projection). apply is_ok_value. vm_compute. reflexivity. Defined.

Lemma validated_events_typed_witness :
  (exists r, replay_journal events = Ok r /\ total_count (rp_counts r) + rp_duplicates r = Z.of_nat (length events)) /\
  exists evs, rmapM event_of events = Ok evs /\
    match _project_hot events with
    | Ok p => admissible evs
    | Raise e =>
        (~ admissible evs /\ (e = generation_error "OMS_GENERATION_COMMAND_HASH_CONFLICT" \/
                             e = generation_error "OMS_ACCOUNT_NEW_ENTRY_FENCE_ACCOUNT_INVALID")) \/
        (admissible evs /\ e = unicode_error)
    end.
Proof.
  apply (validated_events_typed events). intros e Hin. 
  assert (Hv : Forall2 (fun iv e => validate_event iv.2 iv.1 = Ok e) (combine [1; 2; 3; 4; 5; 6] records) events).
  { apply rmapM_Forall2. vm_compute. reflexivity. }
  clear -Hv Hin. induction Hv as [|[i v] e' l l' Hv _ IH]; [destruct Hin|]. destruct Hin as [<-|Hin]; [by exists v, i|by apply IH].
Defined.

Definition key1 : Key := ("alpha", "s1", "r1").
Definition command1 : Command := match dget key1 (p_commands projection) with Some c => c | None => new_command key1 end.
Definition line1 : string := ok_or EmptyString (_index_line command1).
Definition runtime_line1 : string := ok_or EmptyString (_runtime_index_line command1).

Lemma index_line_roundtrip_witness :
  c_status command1 = "accepted" /\
  _index_key line1 = Ok key1 /\
  index_entry line1 = Ok (mkEntry (c_hash command1) (c_operation command1) (c_status command1) (c_order command1) (c_reason command1)
    (c_correlation command1) (c_last command1)) /\
  _runtime_index_key runtime_line1 = Ok (hex_key key1) /\
  forall k', oltb (hex_key key1) (hex_key k') = oltb key1 k'.
Proof.
  split; [vm_compute; reflexivity|]. apply (index_line_roundtrip events projection key1 command1 line1 runtime_line1).
  - apply is_ok_value. vm_compute. reflexivity.
  - vm_compute. reflexivity.
  - apply is_ok_value. vm_compute. reflexivity.
  - apply is_ok_value. vm_compute. reflexivity.
  - vm_compute. discriminate.
  - vm_compute. discriminate.
Defined.

(** ** Two builds

    The builds read the first and the third record only, to keep them small. *)

Definition short_text : string := concat_text (map line_text_of [nth 0 records VNone; nth 2 records VNone]).
Definition short_file : File := mkFile true short_text.

Definition uuid (n : nat) : string := match n with O => "0a1b2c3d4e5f6071" | _ => "77" end.
Definition empty_store : Store := mkStore true ∅ ∅.

Definition first_build : list Store * Store * res dict := build_generation short_file true limits 1700000000 uuid empty_store.
Definition first_store : Store := first_build.1.2.
Definition first_manifest : dict := ok_or [] first_build.2.
Definition g1 : string := generation_name 1700000000 (uuid 0%nat).

Lemma run_ok (b : list Store * Store * res dict) : is_ok b.2 = true -> b = (b.1.1, b.1.2, Ok (ok_or [] b.2)).
Proof. destruct b as [[t s] [d|e]]; [done|done]. Qed.

Lemma first_built : first_build = (first_build.1.1, first_store, Ok first_manifest).
Proof. apply run_ok. vm_compute. reflexivity. Qed.
Lemma first_readable : readable short_file limits g1 first_store = true.
Proof. vm_compute. reflexivity. Qed.

Lemma build_verifies_witness :
  exists p, _project_hot (journal_events short_text limits) = Ok p /\
    verify_generation first_store None = Ok (built_report g1 (validated_raw_records short_text limits).1 p) /\ sound_store first_store.
Proof.
  apply (build_verifies short_file true limits 1700000000 uuid empty_store first_build.1.1 first_store first_manifest).
  - reflexivity.
  - left. reflexivity.
  - exact first_built.
  - exact first_readable.
Defined.

(** The accepted order is found under its identity. *)
Example lookup_duplicate : rmap (fun d => get d "status") (lookup_command first_store "alpha" "s1" "r1" "h1") = Ok (VStr "duplicate").
Proof. vm_compute. reflexivity. Qed.

Lemma lookup_refines_journal_witness :
  exists p evs, _project_hot (journal_events short_text limits) = Ok p /\ rmapM event_of (journal_events short_text limits) = Ok evs /\
    lookup_command first_store "alpha" "s1" "r1" "h9" = Ok (lookup_answer (dget ("alpha", "s1", "r1") (p_commands p)) "h9") /\
    (complete ("alpha", "s1", "r1") = true ->
     option_map strip (dget ("alpha", "s1", "r1") (p_commands p)) =
       match of_key ("alpha", "s1", "r1") evs with [] => None | es => Some (folded ("alpha", "s1", "r1") es) end) /\
    (complete ("alpha", "s1", "r1") = false -> dget ("alpha", "s1", "r1") (p_commands p) = None).
Proof.
  apply (lookup_refines_journal short_file true limits 1700000000 uuid empty_store first_build.1.1 first_store first_manifest).
  - reflexivity.
  - left. reflexivity.
  - exact first_built.
  - exact first_readable.
Defined.

(** ** A crash in the second build *)

Definition second_build : list Store * Store * res dict := build_generation short_file true limits 1700000001 uuid first_store.
Definition first_report : dict := ok_or [] (verify_generation first_store None).

(** The state right after [CURRENT] was replaced: what follows is the temporary file of
    [CURRENT.runtime] and its replacement. *)
Definition crash_point : nat :=
  (length second_build.1.1 - 3 - String.length (ok_or EmptyString (_read_private_bytes second_build.1.2 CURRENT_runtime None)))%nat.
Definition crashed : Store := nth crash_point second_build.1.1 first_store.

Lemma publication_crash_safe_witness :
  is_ok (verify_generation crashed None) = false /\
  ((fs_files crashed !! CURRENT = fs_files first_store !! CURRENT /\ verify_generation crashed None = Ok first_report) \/
   (points_to crashed (generation_name 1700000001 (uuid 0%nat)) /\ exists e, verify_generation crashed None = Raise e) \/
   (crashed = second_build.1.2 /\ is_ok second_build.2 = true)).
Proof.
  split; [vm_compute; reflexivity|].
  apply (publication_crash_safe short_file true limits 1700000001 uuid first_store second_build.1.1 second_build.1.2 second_build.2 first_report crashed).
  - reflexivity.
  - apply is_ok_value. vm_compute. reflexivity.
  - change (build_generation short_file true limits 1700000001 uuid first_store) with second_build. by destruct second_build as [[t s'] r].
  - apply nth_In. apply Nat.ltb_lt. vm_compute. reflexivity.
Defined.
End OmsScenario.
