(* ===== verification/Contracts.v ===== *)
(** * Contracts of the shadow strategy

    Models scripts/hepta_strategy_contracts.py: canonical documents, their digests and the
    checks every document of the shadow strategy passes.  A check returns what it checked
    or raises a [ContractError] with the reason of its caller.  The
    module [ContractsFile] reads documents from files. *)

From Stdlib Require Import Ascii QArith Floats.SpecFloat.
From S2P Require Import Prelude PyText PyValue PyOrder PyBytes Digest PyJson PyJsonFacts PyFloat.
From stdpp Require Import base tactics list strings.
From Stdlib Require Import ZArith Lia Bool.

Open Scope Z_scope.

Module Contracts.

Definition contract_error (reason : string) : exn := Exn ContractError reason.

(** ** Documents *)

Section digests.
Context {D : Digest}.

(** Sorted keys, ASCII only, no spaces, no infinity and no NaN, and a newline. *)
Definition canonical_bytes (v : value) : res string :=
  let failed := Raise (contract_error "STRATEGY_CANONICALIZATION_FAILED") in
  if floats_all finite_float v then match dumps v with Ok t => Ok (t +:+ newline) | Raise _ => failed end else failed.

Definition digest_bytes (contents : string) : string := "sha256:" +:+ digest contents.
Definition digest_document (v : value) : res string := let! b := canonical_bytes v in Ok (digest_bytes b).
End digests.

(** ** Checks *)

(** The keys of a dictionary are exactly the fields. *)
Definition exact_fields (d : dict) (fields : list string) : bool :=
  forallb (fun k => inb k fields) (map fst d) && forallb (fun k => inb k (map fst d)) fields.

Definition require_exact_fields (v : value) (fields : list string) (reason : string) : res dict :=
  match v with VDict d => when negb (exact_fields d fields) raise contract_error reason in Ok d | _ => Raise (contract_error reason) end.

Definition is_alnum (c : ascii) : bool :=
  is_digit c || ((65 <=? ord c) && (ord c <=? 90)) || ((97 <=? ord c) && (ord c <=? 122)).
Definition is_identifier_char (c : ascii) : bool :=
  is_alnum c || bool_decide (c = "."%char) || bool_decide (c = "_"%char) || bool_decide (c = ":"%char) || bool_decide (c = "-"%char).

(** [IDENTIFIER_PATTERN.fullmatch(s)] *)
Definition is_identifier (s : string) : bool :=
  match s with String c r => is_alnum c && sforall is_identifier_char r && (slen r <=? 127) | EmptyString => false end.

Definition require_text (v : value) (reason : string) (maximum : Z) (identifier : bool) : res string :=
  match v with
  | VStr s =>
      when bool_decide (s = EmptyString) || (maximum <? slen s) raise contract_error reason in
      when identifier && negb (is_identifier s) raise contract_error reason in
      Ok s
  | _ => Raise (contract_error reason)
  end.
Definition require_identifier (v : value) (reason : string) : res string := require_text v reason 2048 true.

(** [DIGEST_PATTERN.fullmatch(s)] *)
Definition is_digest (s : string) : bool :=
  bool_decide (stake 7 s = "sha256:") && (slen s =? 71) && sforall is_lower_hex (sdrop 7 s).

Definition require_digest (v : value) (reason : string) : res string :=
  match v with VStr s => when negb (is_digest s) raise contract_error reason in Ok s | _ => Raise (contract_error reason) end.

(** A bound that is absent is [None]. *)
Definition below (m : option Z) (z : Z) : bool := match m with Some m => z <? m | None => false end.
Definition above (m : option Z) (z : Z) : bool := match m with Some m => m <? z | None => false end.

Definition require_int (v : value) (reason : string) (minimum maximum : option Z) : res Z :=
  match v with
  | VInt z => when below minimum z || above maximum z raise contract_error reason in Ok z
  | _ => Raise (contract_error reason)
  end.

Definition fbelow (m : option spec_float) (f : spec_float) : bool := match m with Some m => fltb f m | None => false end.
Definition fabove (m : option spec_float) (f : spec_float) : bool := match m with Some m => fltb m f | None => false end.

Definition require_number (v : value) (reason : string) (positive : bool) (minimum maximum : option spec_float) : res spec_float :=
  match v with
  | VInt _ | VFloat _ =>
      match to_float v with
      | Ok f =>
          when negb (is_finite f) || (positive && fleb f fzero) || fbelow minimum f || fabove maximum f raise contract_error reason in Ok f
      | Raise _ => Raise (contract_error reason)
      end
  | _ => Raise (contract_error reason)
  end.
(** [minimum=0.0] *)
Definition require_nonnegative (v : value) (reason : string) : res spec_float := require_number v reason false (Some fzero) None.

Definition require_bool (v : value) (expected : bool) (reason : string) : res unit :=
  when negb (if expected then is_true v else is_false v) raise contract_error reason in Ok tt.

(** The same check on several fields, with one reason. *)
Definition each (fields : list string) (check : string -> res unit) : res unit := rfold (fun _ k => check k) fields tt.

(** [list(v)] *)
Fixpoint chars_of (s : string) : list value := match s with EmptyString => [] | String c s => VStr (String c EmptyString) :: chars_of s end.
Definition py_list (v : value) : res (list value) :=
  match v with
  | VList l => Ok l
  | VStr s => Ok (chars_of s)
  | VDict d => Ok (map (fun kv => VStr kv.1) d)
  | _ => Raise type_error
  end.

(** A comparison whose operands may raise. *)
Definition dwhere (v : value) (k : string) : res value := let! d := as_dict v in Ok (get d k).

(** ** What a check guarantees *)

Lemma require_exact_fields_ok v fields reason d : require_exact_fields v fields reason = Ok d -> v = VDict d /\ exact_fields d fields = true.
Proof. destruct v; simpl; try done. intros H. apply when_ok in H as [H [= ->]]. by apply negb_false_iff in H. Qed.

Lemma exact_fields_get d fields k : exact_fields d fields = true -> inb k fields = true -> item d k = Ok (get d k).
Proof.
  unfold exact_fields, item, get, getd, dget_or. intros [_ H]%andb_prop Hk. rewrite forallb_forall in H.
  unfold inb in Hk. apply existsb_exists in Hk as (k' & Hin & Hk). apply bool_decide_eq_true in Hk as <-. apply H in Hin.
  unfold inb in Hin. apply existsb_exists in Hin as (k' & Hin & Hk). apply bool_decide_eq_true in Hk as <-.
  apply dhas_In in Hin. unfold dhas in Hin. by destruct (dget k d).
Qed.

Lemma require_text_ok v reason m i s : require_text v reason m i = Ok s -> v = VStr s /\ s <> EmptyString /\ slen s <= m /\ (i = true -> is_identifier s = true).
Proof.
  destruct v; simpl; try done. intros H. apply when_ok in H as [H1 H]. apply when_ok in H as [H2 [= ->]]. split_bools.
  apply bool_decide_eq_false in H. do 3 (split; [done|]). intros ->. by apply negb_false_iff in H2.
Qed.

Lemma require_digest_ok v reason s : require_digest v reason = Ok s -> v = VStr s /\ is_digest s = true.
Proof. destruct v; simpl; try done. intros H. apply when_ok in H as [H [= ->]]. by apply negb_false_iff in H. Qed.

Lemma require_int_ok v reason lo hi z : require_int v reason lo hi = Ok z -> v = VInt z /\ (forall m, lo = Some m -> m <= z) /\ (forall m, hi = Some m -> z <= m).
Proof.
  destruct v; simpl; try done. intros H. apply when_ok in H as [H [= ->]]. apply orb_false_elim in H as [H1 H2].
  split; [done|]. split; intros m ->; simpl in *; lia.
Qed.

Lemma require_number_ok v reason pos lo hi f : require_number v reason pos lo hi = Ok f ->
  to_float v = Ok f /\ is_finite f = true /\ (pos = true -> fleb f fzero = false) /\ (forall m, lo = Some m -> fltb f m = false) /\
  (forall m, hi = Some m -> fltb m f = false).
Proof.
  unfold require_number. intros H. assert (exists g, to_float v = Ok g /\ (if negb (is_finite g) || (pos && fleb g fzero) || fbelow lo g || fabove hi g
    then Raise (contract_error reason) else Ok g) = Ok f) as (g & Hg & Hf).
  { destruct v; try done; [destruct (to_float (VInt z)) as [g|]|destruct (to_float (VFloat f0)) as [g|]]; try done; by exists g. }
  apply when_ok in Hf as [Hf [= ->]]. split_bools. split; [done|]. split; [done|]. split; [by intros ->|]. split; by intros m ->.
Qed.

Lemma require_bool_ok v b reason : require_bool v b reason = Ok tt -> v = VBool b.
Proof. unfold require_bool. intros H. apply when_ok in H as [H _]. apply negb_false_iff in H. destruct b; [by apply is_true_eq|by apply is_false_eq]. Qed.

Lemma each_ok fields check : each fields check = Ok tt -> forall k, In k fields -> check k = Ok tt.
Proof.
  unfold each. induction fields as [|k fields IH]; intros H k' Hin; [done|]. simpl in H. apply rbind_ok in H as ([] & Hc & H).
  destruct Hin as [<-|Hin]; [done|by apply IH].
Qed.

End Contracts.

(** * Documents in files

    Models [load_document] of scripts/hepta_strategy_contracts.py: what a file must be to be
    read at all, and the JSON it may hold.  A regular file has its bytes and the number of
    its links; other kinds of files and files that change while they are read are not
    modelled. *)

Import Contracts.

Module ContractsFile.

Record File := mkFile { f_bytes : string; f_links : Z }.

Definition read_document_bytes (label : string) (maximum_bytes : Z) (f : File) : res string :=
  when negb (f_links f =? 1) raise contract_error (label +:+ "_FILE_INVALID") in
  when maximum_bytes <? slen (f_bytes f) raise contract_error (label +:+ "_TOO_LARGE") in
  Ok (f_bytes f).

(** ** The hooks of the decoder *)

Definition unique_with (duplicate : exn) (pairs : list (string * value)) : res dict :=
  rfold (fun d kv => when dhas kv.1 d raise duplicate in Ok (d ++ [kv])) pairs [].
Definition unique_object (pairs : list (string * value)) : res dict := unique_with (contract_error "STRATEGY_JSON_DUPLICATE_KEY") pairs.

Definition reject_constant (name : string) : res value := Raise (contract_error "STRATEGY_JSON_NON_FINITE").

(** The tokens of the numbers of a text: maximal runs of number characters outside strings
    that start with a digit or a sign. *)
Definition number_char (c : ascii) : bool :=
  is_digit c || bool_decide (c = "+"%char) || bool_decide (c = "-"%char) || bool_decide (c = "."%char) || bool_decide (c = "e"%char) || bool_decide (c = "E"%char).
Inductive place := Outside | Inside | Escaped.
Fixpoint number_tokens (p : place) (token : string) (s : string) : list string :=
  match s with
  | EmptyString => [token]
  | String c s =>
      match p with
      | Inside => number_tokens (if ord c =? 92 then Escaped else if ord c =? 34 then Outside else Inside) EmptyString s
      | Escaped => number_tokens Inside EmptyString s
      | Outside =>
          if ord c =? 34 then token :: number_tokens Inside EmptyString s
          else if number_char c && (negb (bool_decide (token = EmptyString)) || is_digit c || bool_decide (c = "-"%char))
               then number_tokens Outside (token +:+ String c EmptyString) s
          else token :: number_tokens Outside EmptyString s
      end
  end.

Definition is_exponent (c : ascii) : bool := bool_decide (c = "e"%char) || bool_decide (c = "E"%char).
Definition nonzero_digit (c : ascii) : bool := is_digit c && negb (bool_decide (c = "0"%char)).
Definition sexists (f : ascii -> bool) (s : string) : bool := negb (sforall (fun c => negb (f c)) s).
Definition is_float_token (t : string) : bool := sexists (fun c => bool_decide (c = "."%char) || is_exponent c) t.

(** [_finite_json_float] refuses a token that underflows. *)
Definition underflows (t : string) : bool :=
  is_float_token t && match float_of_text t with Ok (S754_zero _) => sexists nonzero_digit (span (fun c => negb (is_exponent c)) t).1 | _ => false end.

Definition nonzero_float (f : spec_float) : bool := match f with S754_zero _ => false | _ => true end.

(** A number that underflows is a zero of the document, so the tokens matter only when it has
    one.  A text with several faults may be refused for another of them than the first. *)
Definition load_json (label : string) (s : string) : res dict :=
  let invalid := contract_error (label +:+ "_JSON_INVALID") in
  when negb (utf8_ok s) raise invalid in
  match loads_with unique_object reject_constant s with
  | Raise e => Raise (match e with Exn ContractError _ => e | _ => invalid end)
  | Ok v =>
      when negb (floats_all finite_float v) raise contract_error "STRATEGY_JSON_NON_FINITE" in
      when negb (floats_all nonzero_float v) && existsb underflows (number_tokens Outside EmptyString s)
      raise contract_error "STRATEGY_JSON_NUMBER_UNDERFLOW" in
      match v with VDict d => Ok d | _ => Raise (contract_error (label +:+ "_ROOT_INVALID")) end
  end.

Definition load_document (label : string) (maximum_bytes : Z) (f : File) : res dict :=
  let! s := read_document_bytes label maximum_bytes f in
  load_json label s.
Definition MAX_DOCUMENT_BYTES : Z := 4 * 1024 * 1024.

Example tokens_ex : List.filter is_float_token (number_tokens Outside EmptyString "[1.5, -2e3, true, 7]") = ["1.5"; "-2e3"].
Proof. vm_compute. reflexivity. Qed.
Example underflow_ex : (underflows "1e-999", underflows "0.0e-999", underflows "1e-3") = (true, false, false).
Proof. vm_compute. reflexivity. Qed.

(** ** What reading gives *)

Lemma unique_with_distinct e pairs : List.NoDup (map fst pairs) -> unique_with e pairs = Ok pairs.
Proof.
  unfold unique_with. enough (H : forall l d, List.NoDup (map fst (d ++ l)) -> rfold (fun d kv => when dhas kv.1 d raise e in Ok (d ++ [kv])) l d = Ok (d ++ l)) by apply (H pairs []).
  induction l as [|kv l IH]; intros d Hd; simpl; [by rewrite app_nil_r|]. assert (dhas kv.1 d = false) as ->.
  { apply not_true_is_false. rewrite dhas_In. intros Hin. rewrite map_app in Hd. simpl in Hd. apply NoDup_remove_2 in Hd. apply Hd, in_app_iff. by left. }
  simpl. rewrite IH by (by rewrite <- app_assoc). by rewrite <- app_assoc.
Qed.
Lemma unique_with_members e pairs d : unique_with e pairs = Ok d -> NoDup (map fst d) /\ incl d pairs.
Proof.
  unfold unique_with. enough (H : forall l d d', List.NoDup (map fst d) -> rfold (fun d kv => when dhas kv.1 d raise e in Ok (d ++ [kv])) l d = Ok d' -> List.NoDup (map fst d') /\ incl d' (d ++ l))
    by (intros Hr; destruct (H pairs [] d ltac:(constructor) Hr); split; [by apply NoDup_ListNoDup|done]).
  induction l as [|kv l IH]; intros x x' Hx H; simpl in H; [injection H as <-; rewrite app_nil_r; split; [done|apply incl_refl]|].
  apply rbind_ok in H as (y & Hy & H). apply when_ok in Hy as [Hh [= <-]]. apply IH in H; [by rewrite <- app_assoc in H|].
  rewrite map_app. apply List.NoDup_app; [done|repeat constructor; simpl; tauto|]. intros k Hk [<-|[]]. apply dhas_In in Hk. congruence.
Qed.

Lemma load_json_distinct label s d : load_json label s = Ok d -> List.NoDup (map fst d).
Proof.
  unfold load_json. intros H. apply when_ok in H as [_ H]. destruct (loads_with unique_object reject_constant s) as [v|] eqn:E; [|done]. apply when_ok in H as [_ H]. apply when_ok in H as [_ H].
  destruct v; try done. injection H as ->. apply distinct_dict. by apply (loads_distinct unique_object reject_constant (unique_with_members _) ltac:(done) s).
Qed.

(** ** Programs that change files

    A program over a state of files: the states after each of its visible changes, the last
    of them, and the result. *)
Definition act (S A : Type) : Type := S -> list S * S * res A.
Definition lift {S A} (m : res A) : act S A := fun w => ([], w, m).
Definition bind {S A B} (m : act S A) (k : A -> act S B) : act S B := fun w =>
  match m w with
  | (ws, w', Raise e) => (ws, w', Raise e)
  | (ws, w', Ok a) => match k a w' with (ws', w'', r) => (ws ++ ws', w'', r) end
  end.
Definition look {S A} (f : S -> A) : act S A := fun w => ([], w, Ok (f w)).
Definition change {S} (f : S -> S) : act S unit := fun w => ([f w], f w, Ok tt).
Notation "x <-~ m ; k" := (bind m (fun x => k)) (at level 100, m at next level, right associativity).

End ContractsFile.
