(* ===== verification/Strategy.v ===== *)
(** * The EUR.USD confirmed-momentum strategy

    Models scripts/hepta_eurusd_confirmed_momentum_strategy.py: [load_strategy] checks a
    configuration, [evaluate] decides on an information packet.  Packets and
    configurations are decoded documents, so every access and comparison may raise; the
    digests of the files of the package are arguments.  The module [StrategyReceipt]
    makes and validates the receipts of decisions. *)

From Stdlib Require Import Ascii QArith Floats.SpecFloat.
From S2P Require Import Prelude PyText PyValue PyOrder PyBytes Digest PyFloat Contracts.
From stdpp Require Import base tactics list strings.
From Stdlib Require Import ZArith Lia Bool.
Import Contracts.

Open Scope Z_scope.

Module Strategy.

(** ** Fields *)

Definition CONFIG_FIELDS : list string :=
  ["schema"; "strategy_id"; "strategy_version"; "paper_only"; "live_authorized"; "instrument"; "feature_calculation_version";
   "evidence_requirements"; "freshness_limits"; "feature_windows"; "regime"; "setup"; "shadow_intent_contract"; "decision_policy"].
Definition INSTRUMENT_FIELDS : list string := ["canonical_symbol"; "asset_class"; "exchange"; "symbol"; "currency"].
Definition EVIDENCE_FIELDS : list string :=
  ["authoritative_quote"; "authoritative_health"; "authoritative_account"; "authoritative_positions"; "authoritative_orders";
   "authoritative_risk"; "minimum_raw_quote_observations"; "minimum_resampled_quote_observations"; "minimum_history_span_seconds";
   "minimum_bar_observations"; "economic_calendar_required"; "information_provenance_required"].
Definition FRESHNESS_FIELDS : list string :=
  ["quote_age_ms"; "bar_age_ms"; "portfolio_snapshot_age_ms"; "economic_calendar_age_ms"; "information_observation_age_ms"].
Definition WINDOW_FIELDS : list string :=
  ["fast_ema_bars"; "slow_ema_bars"; "slope_lookback_bars"; "atr_bars"; "breakout_bars"; "bar_interval_seconds";
   "quote_lookback_seconds"; "quote_resample_seconds"; "quote_confirmation_seconds"; "quote_maximum_gap_seconds"].
Definition REGIME_FIELDS : list string :=
  ["minimum_trend_ema_separation_bps"; "minimum_trend_slope_bps"; "maximum_range_ema_separation_bps"].
Definition SETUP_FIELDS : list string :=
  ["allowed_regimes"; "minimum_window_return_bps"; "maximum_window_return_bps"; "minimum_confirmation_return_bps"; "maximum_spread_bps";
   "minimum_step_volatility_bps"; "maximum_step_volatility_bps"; "minimum_cost_multiple"; "estimated_slippage_bps";
   "event_exclusion_before_seconds"; "event_exclusion_after_seconds"; "require_zero_active_orders"; "require_zero_position";
   "require_zero_gross_exposure"; "conflicting_information_action"].
Definition INTENT_FIELDS : list string :=
  ["maximum_quantity"; "order_type"; "time_in_force"; "maximum_intent_horizon_seconds"; "maximum_holding_seconds"; "limit_price_rule";
   "stop_atr_multiple"].
Definition POLICY_FIELDS : list string :=
  ["missing_required_evidence"; "stale_or_conflicting_evidence"; "unknown_or_transition_regime"; "mutation_attempted"; "direct_broker_access"].
Definition PACKET_FIELDS : list string :=
  ["schema"; "packet_id"; "campaign_id"; "iteration"; "mode"; "created_at_ms"; "evaluated_at_ms"; "instrument"; "strategy";
   "context_builder"; "source_snapshot"; "authority"; "freshness"; "provenance"; "market"; "session"; "history"; "features";
   "economic_calendar"; "information"; "portfolio"; "service"; "privacy"; "evidence_refs"; "body_sha256"].
Definition STRATEGY_BINDING_FIELDS : list string :=
  ["strategy_id"; "strategy_version"; "pinned_sha256"; "config_sha256"; "evaluator_sha256"; "builder_sha256"; "normalizer_sha256";
   "contracts_sha256"; "sha256_verified"].
Definition CONTEXT_BUILDER_FIELDS : list string :=
  ["schema"; "builder_sha256"; "normalizer_sha256"; "contracts_sha256"; "feature_calculation_version"].
Definition AUTHORITY_KEYS : list string :=
  ["health_authoritative"; "quote_authoritative"; "account_authoritative"; "positions_authoritative"; "orders_authoritative"; "risk_authoritative"].

(** ** [load_strategy] *)

Definition expected_instrument : value :=
  VDict [("canonical_symbol", VStr "EUR.USD"); ("asset_class", VStr "CASH"); ("exchange", VStr "IDEALPRO"); ("symbol", VStr "EUR");
         ("currency", VStr "USD")].

Definition check_evidence (config : dict) : res dict :=
  let! evidence := require_exact_fields (get config "evidence_requirements") EVIDENCE_FIELDS "STRATEGY_EVIDENCE_FIELDS_INVALID" in
  let! _ := each ["authoritative_quote"; "authoritative_health"; "authoritative_account"; "authoritative_positions"; "authoritative_orders";
                  "authoritative_risk"; "economic_calendar_required"; "information_provenance_required"]
              (fun k => require_bool (get evidence k) true "STRATEGY_EVIDENCE_VALUE_INVALID") in
  let! _ := require_int (get evidence "minimum_raw_quote_observations") "STRATEGY_RAW_QUOTE_COUNT_INVALID" (Some 3) (Some 1000000) in
  let! _ := require_int (get evidence "minimum_resampled_quote_observations") "STRATEGY_RESAMPLED_QUOTE_COUNT_INVALID" (Some 3) (Some 4096) in
  let! _ := require_int (get evidence "minimum_history_span_seconds") "STRATEGY_HISTORY_SPAN_INVALID" (Some 60) (Some 604800) in
  let! _ := require_int (get evidence "minimum_bar_observations") "STRATEGY_BAR_COUNT_INVALID" (Some 10) (Some 100000) in
  Ok evidence.

(** A field that was checked to be an integer. *)
Definition iget (d : dict) (k : string) : Z := match get d k with VInt z => z | _ => 0 end.

Definition check_windows (config evidence : dict) : res unit :=
  let! windows := require_exact_fields (get config "feature_windows") WINDOW_FIELDS "STRATEGY_WINDOW_FIELDS_INVALID" in
  let! _ := each WINDOW_FIELDS (fun k => let! _ := require_int (get windows k) "STRATEGY_WINDOW_VALUE_INVALID" (Some 1) (Some 86400) in Ok tt) in
  let w := iget windows in
  when w "slow_ema_bars" <=? w "fast_ema_bars" raise contract_error "STRATEGY_EMA_WINDOW_ORDER_INVALID" in
  when negb (w "quote_lookback_seconds" mod w "quote_resample_seconds" =? 0) ||
       negb (w "quote_confirmation_seconds" mod w "quote_resample_seconds" =? 0) ||
       (w "quote_lookback_seconds" <? w "quote_confirmation_seconds") || (30 <? w "quote_maximum_gap_seconds") ||
       negb ((5 <=? w "quote_maximum_gap_seconds") && (w "quote_maximum_gap_seconds" <=? 15))
  raise contract_error "STRATEGY_QUOTE_WINDOW_INVALID" in
  when negb (iget evidence "minimum_resampled_quote_observations" =? w "quote_lookback_seconds" / w "quote_resample_seconds" + 1) ||
       negb (iget evidence "minimum_history_span_seconds" =? w "quote_lookback_seconds")
  raise contract_error "STRATEGY_QUOTE_WINDOW_BINDING_INVALID" in
  Ok tt.

Definition check_setup (config : dict) : res unit :=
  let! setup := require_exact_fields (get config "setup") SETUP_FIELDS "STRATEGY_SETUP_FIELDS_INVALID" in
  when negb (py_eq (get setup "allowed_regimes") (VList [VStr "trend"])) raise contract_error "STRATEGY_ALLOWED_REGIME_INVALID" in
  let! _ := each ["minimum_window_return_bps"; "maximum_window_return_bps"; "minimum_confirmation_return_bps"; "maximum_spread_bps";
                  "minimum_step_volatility_bps"; "maximum_step_volatility_bps"; "minimum_cost_multiple"; "estimated_slippage_bps"]
              (fun k => let! _ := require_nonnegative (get setup k) "STRATEGY_SETUP_VALUE_INVALID" in Ok tt) in
  when! py_le (get setup "maximum_window_return_bps") (get setup "minimum_window_return_bps") ||?
        py_le (get setup "maximum_step_volatility_bps") (get setup "minimum_step_volatility_bps")
  raise contract_error "STRATEGY_SETUP_RANGE_INVALID" in
  let! _ := each ["event_exclusion_before_seconds"; "event_exclusion_after_seconds"]
              (fun k => let! _ := require_int (get setup k) "STRATEGY_EVENT_WINDOW_INVALID" (Some 0) (Some 86400) in Ok tt) in
  let! _ := each ["require_zero_active_orders"; "require_zero_position"; "require_zero_gross_exposure"]
              (fun k => require_bool (get setup k) true "STRATEGY_FLAT_REQUIREMENT_INVALID") in
  when negb (eq_str (get setup "conflicting_information_action") "NO_TRADE") raise contract_error "STRATEGY_CONFLICT_POLICY_INVALID" in
  Ok tt.

Definition check_intent (config : dict) : res unit :=
  let! intent := require_exact_fields (get config "shadow_intent_contract") INTENT_FIELDS "STRATEGY_INTENT_FIELDS_INVALID" in
  let! _ := require_int (get intent "maximum_quantity") "STRATEGY_INTENT_QUANTITY_INVALID" (Some 1) (Some 1000) in
  when negb (eq_str (get intent "order_type") "LMT") || negb (eq_str (get intent "time_in_force") "DAY") ||
       negb (eq_str (get intent "limit_price_rule") "BUY_AT_AUTHORITATIVE_ASK_OR_SELL_AT_AUTHORITATIVE_BID")
  raise contract_error "STRATEGY_INTENT_ORDER_INVALID" in
  let! _ := require_int (get intent "maximum_intent_horizon_seconds") "STRATEGY_INTENT_HORIZON_INVALID" (Some 2) (Some 3600) in
  let! _ := require_int (get intent "maximum_holding_seconds") "STRATEGY_HOLDING_TIME_INVALID" (Some 60) (Some 86400) in
  let! _ := require_number (get intent "stop_atr_multiple") "STRATEGY_STOP_MULTIPLE_INVALID" true None (Some (literal 10 0)) in
  Ok tt.

Definition check_policy (config : dict) : res unit :=
  let! policy := require_exact_fields (get config "decision_policy") POLICY_FIELDS "STRATEGY_POLICY_FIELDS_INVALID" in
  let! _ := each ["missing_required_evidence"; "stale_or_conflicting_evidence"; "unknown_or_transition_regime"]
              (fun k => when negb (eq_str (get policy k) "NO_TRADE") raise contract_error "STRATEGY_POLICY_VALUE_INVALID" in Ok tt) in
  let! _ := require_bool (get policy "mutation_attempted") false "STRATEGY_MUTATION_BOUNDARY_INVALID" in
  require_bool (get policy "direct_broker_access") false "STRATEGY_BROKER_BOUNDARY_INVALID".

Definition load_strategy (document : value) : res dict :=
  let! config := require_exact_fields document CONFIG_FIELDS "STRATEGY_CONFIG_FIELDS_INVALID" in
  when negb (eq_str (get config "schema") "hepta.confirmed-momentum-strategy.v2") raise contract_error "STRATEGY_CONFIG_SCHEMA_INVALID" in
  let! _ := require_identifier (get config "strategy_id") "STRATEGY_ID_INVALID" in
  let! _ := require_identifier (get config "strategy_version") "STRATEGY_VERSION_INVALID" in
  let! _ := require_bool (get config "paper_only") true "STRATEGY_PAPER_BOUNDARY_INVALID" in
  let! _ := require_bool (get config "live_authorized") false "STRATEGY_LIVE_BOUNDARY_INVALID" in
  let! _ := require_identifier (get config "feature_calculation_version") "STRATEGY_FEATURE_VERSION_INVALID" in
  let! instrument := require_exact_fields (get config "instrument") INSTRUMENT_FIELDS "STRATEGY_INSTRUMENT_FIELDS_INVALID" in
  when negb (py_eq (VDict instrument) expected_instrument) raise contract_error "STRATEGY_INSTRUMENT_INVALID" in
  let! evidence := check_evidence config in
  let! freshness := require_exact_fields (get config "freshness_limits") FRESHNESS_FIELDS "STRATEGY_FRESHNESS_FIELDS_INVALID" in
  let! _ := each FRESHNESS_FIELDS
              (fun k => let! _ := require_int (get freshness k) "STRATEGY_FRESHNESS_VALUE_INVALID" (Some 1) (Some 86400000) in Ok tt) in
  let! _ := check_windows config evidence in
  let! regime := require_exact_fields (get config "regime") REGIME_FIELDS "STRATEGY_REGIME_FIELDS_INVALID" in
  let! _ := each REGIME_FIELDS (fun k => let! _ := require_nonnegative (get regime k) "STRATEGY_REGIME_VALUE_INVALID" in Ok tt) in
  let! _ := check_setup config in
  let! _ := check_intent config in
  let! _ := check_policy config in
  Ok config.

(** ** Reasons *)

Definition upper (c : ascii) : ascii := if (97 <=? ord c) && (ord c <=? 122) then chr (ord c - 32) else c.

(** [_append_reason] *)
Definition append_reason (reason : string) (reasons : list string) : list string := set_add reason reasons.
Definition note_if (c : res bool) (reason : string) (reasons : list string) : res (list string) :=
  let! b := c in Ok (if b : bool then append_reason reason reasons else reasons).

(** [v.get(key) is not True] *)
Definition not_true (v : value) (key : string) : res bool := let! x := dwhere v key in Ok (negb (is_true x)).

Section decision.
Context (packet config : dict).

(** [packet[a][b]] and [config[a][b]] *)
Definition pk (a b : string) : res value := let! v := item packet a in subscript v b.
Definition cf (a b : string) : res value := let! v := item config a in subscript v b.
Definition section_of (a : string) : res value := item packet a.

Definition lacks (a key : string) : res bool := let! v := section_of a in not_true v key.
(** [packet["history"][k] < config["evidence_requirements"][k']] *)
Definition too_few (k k' : string) : res bool := let! x := pk "history" k in let! y := cf "evidence_requirements" k' in py_lt x y.

(** [setup[rule] and portfolio[k] != zero] *)
Definition not_flat (rule k : string) (zero : value) : res bool :=
  let! r := cf "setup" rule in
  if truthy r then let! x := pk "portfolio" k in Ok (negb (py_eq x zero)) else Ok false.

Definition append_if (c : res bool) (reason : string) (reasons : list string) : res (list string) :=
  let! b := c in Ok (if b : bool then reasons ++ [reason] else reasons).

Definition flat_portfolio_reasons : res (list string) :=
  let! r := append_if (not_flat "require_zero_active_orders" "active_order_count" (VInt 0)) "ACTIVE_ORDER_PRESENT" [] in
  let! r := append_if (not_flat "require_zero_position" "position_quantity" VZERO) "NONZERO_POSITION" r in
  append_if (not_flat "require_zero_gross_exposure" "gross_exposure" VZERO) "NONZERO_GROSS_EXPOSURE" r.

Definition conflicting : res bool := let! v := section_of "information" in let! c := dwhere v "conflicts" in Ok (truthy c).

(** The checks of [_evidence_reasons] in the order of the code. *)
Definition evidence_checks : list (res bool * string) :=
  map (fun key => (lacks "authority" key, smap upper key +:+ "_MISSING")) AUTHORITY_KEYS ++
  [(lacks "freshness" "quote_fresh", "STALE_QUOTE");
   (lacks "freshness" "portfolio_freshness_provable", "UNPROVABLE_PORTFOLIO_FRESHNESS");
   (lacks "provenance" "information_provenance_present", "MISSING_INFORMATION_PROVENANCE");
   (lacks "provenance" "calendar_provenance_present", "UNPROVABLE_ECONOMIC_CALENDAR");
   (lacks "economic_calendar" "present", "MISSING_ECONOMIC_CALENDAR");
   (lacks "history" "quote_provenance_provable", "UNPROVABLE_QUOTE_HISTORY");
   (lacks "history" "quote_complete", "INCOMPLETE_QUOTE_HISTORY");
   (lacks "history" "bar_provenance_provable", "UNPROVABLE_BAR_HISTORY");
   (lacks "history" "bar_complete", "INCOMPLETE_BAR_HISTORY");
   (lacks "freshness" "bar_fresh", "STALE_BAR_HISTORY");
   (too_few "raw_quote_observations" "minimum_raw_quote_observations", "INSUFFICIENT_RAW_QUOTE_HISTORY");
   (too_few "resampled_quote_observations" "minimum_resampled_quote_observations", "INSUFFICIENT_RESAMPLED_QUOTE_HISTORY");
   (too_few "span_seconds" "minimum_history_span_seconds", "INSUFFICIENT_HISTORY_SPAN");
   (too_few "bar_observations" "minimum_bar_observations", "INSUFFICIENT_BAR_HISTORY");
   (lacks "strategy" "sha256_verified", "STRATEGY_DIGEST_UNVERIFIED");
   (conflicting, "CONFLICTING_INFORMATION")].

Definition evidence_reasons : res (list string) :=
  let! reasons := rfold (fun rs c => note_if c.1 c.2 rs) evidence_checks [] in
  let! flat := flat_portfolio_reasons in
  Ok (reasons ++ flat).

(** ** The regime *)

Definition in_event_window : res bool :=
  let! v := section_of "economic_calendar" in let! x := dwhere v "high_impact_event_window_active" in Ok (is_true x).
(** [packet[a][b] > config["setup"][k]] *)
Definition exceeds (a b k : string) : res bool := let! x := pk a b in let! y := cf "setup" k in py_lt y x.
Definition illiquid : res bool :=
  exceeds "market" "spread_bps" "maximum_spread_bps" ||? exceeds "features" "step_volatility_bps" "maximum_step_volatility_bps".

Definition abs_at_least (v : value) (a k : string) : res bool := let! x := vabs v in let! y := cf a k in py_le y x.
Definition positive_product (a b : value) : res bool := let! p := vmul a b in py_lt VZERO p.

Definition classify_regime : res string :=
  let! event := in_event_window in
  if event : bool then Ok "event"
  else
    let! thin := illiquid in
    if thin : bool then Ok "illiquid"
    else
      let! separation := pk "features" "ema_separation_bps" in
      let! slope := pk "features" "ema_fast_slope_bps" in
      let! trend := abs_at_least separation "regime" "minimum_trend_ema_separation_bps" &&?
                    abs_at_least slope "regime" "minimum_trend_slope_bps" &&? positive_product separation slope in
      if trend : bool then Ok "trend"
      else
        let! x := vabs separation in
        let! limit := cf "regime" "maximum_range_ema_separation_bps" in
        let! range := py_le x limit in
        Ok (if range : bool then "range" else "transition").

(** ** Direction and cost *)

Definition abs_below (v : value) (k : string) : res bool := let! x := vabs v in let! y := cf "setup" k in py_lt x y.
Definition abs_above (v : value) (k : string) : res bool := let! x := vabs v in let! y := cf "setup" k in py_lt y x.
Definition disagree (a b : value) : res bool := let! p := vmul a b in py_le p VZERO.
Definition feature (k : string) : res value := pk "features" k.

(** The side and the reasons against it. *)
Definition momentum_direction : res (option string * list string) :=
  let! full_return := feature "window_return_bps" in
  let! confirmation := feature "confirmation_return_bps" in
  let! rs := note_if (abs_below full_return "minimum_window_return_bps") "MOMENTUM_TOO_WEAK" [] in
  let! rs := note_if (abs_above full_return "maximum_window_return_bps") "MOMENTUM_OVEREXTENDED" rs in
  let! rs := note_if (abs_below confirmation "minimum_confirmation_return_bps") "MOMENTUM_UNCONFIRMED" rs in
  let! rs := note_if (disagree full_return confirmation) "MOMENTUM_DIRECTION_CONFLICT" rs in
  let! rs := note_if (let! s := feature "ema_separation_bps" in disagree s full_return) "EMA_DIRECTION_CONFLICT" rs in
  let! rs := note_if (let! s := feature "ema_fast_slope_bps" in disagree s full_return) "EMA_SLOPE_CONFLICT" rs in
  match rs with
  | [] => let! up := py_lt VZERO full_return in Ok (Some (if up : bool then "BUY" else "SELL"), [])
  | _ => Ok (None, rs)
  end.

Definition estimated_cost : res value :=
  let! spread := pk "market" "spread_bps" in
  let! slip := cf "setup" "estimated_slippage_bps" in
  let! twice := vmul slip (VFloat (literal 2 0)) in
  vadd spread twice.
Definition expected_move : res value :=
  let! confirmation := feature "confirmation_return_bps" in
  let! a := vabs confirmation in
  let! atr := feature "atr_bps" in
  vmax a atr.

(** [estimated_cost <= 0.0 or expected_move / estimated_cost < setup["minimum_cost_multiple"]] *)
Definition uneconomic : res bool :=
  let! cost := estimated_cost in
  let! move := expected_move in
  py_le cost VZERO ||?
  (let! c := (let! x := operand_of cost in operand_float x) in
   let! ratio := vdiv move c in
   let! m := cf "setup" "minimum_cost_multiple" in
   py_lt ratio m).

Definition cost_reasons : res (list string) :=
  let! r := append_if (exceeds "market" "spread_bps" "maximum_spread_bps") "SPREAD_TOO_WIDE" [] in
  let! volatility := feature "step_volatility_bps" in
  let! r := append_if (let! m := cf "setup" "minimum_step_volatility_bps" in py_lt volatility m) "VOLATILITY_TOO_LOW" r in
  let! r := append_if (let! m := cf "setup" "maximum_step_volatility_bps" in py_lt m volatility) "VOLATILITY_TOO_HIGH" r in
  append_if uneconomic "EXPECTED_MOVE_INSUFFICIENT_FOR_COST" r.
End decision.

(** ** The intent *)

(** The digests of the files of the package. *)
Record Package := mkPackage { p_evaluator : string; p_builder : string; p_normalizer : string; p_contracts : string }.

(** [f"{n:04d}"] of a positive integer. *)
Definition four_digits (n : Z) : string := let ds := digits n in srepeat "0" (Z.to_nat (4 - slen ds)) +:+ ds.

Section evaluate.
Context {D : Digest} (package : Package) (packet config : dict) (strategy_sha256 : string).
Notation pk := (pk packet).
Notation cf := (cf config).

(** The digest of a configuration and of the code that evaluates it. *)
Definition strategy_package_digest (config_sha256 : string) : res string :=
  digest_document
    (VDict [("schema", VStr "hepta.strategy-package-binding.v3"); ("strategy_id", get config "strategy_id"); ("strategy_version", get config "strategy_version");
            ("config_sha256", VStr config_sha256); ("evaluator_sha256", VStr (p_evaluator package)); ("builder_sha256", VStr (p_builder package));
            ("normalizer_sha256", VStr (p_normalizer package)); ("contracts_sha256", VStr (p_contracts package))]).

(** [digest_document(packet)[7:39]] *)
Definition packet_tag : res string := let! d := digest_document (VDict packet) in Ok (stake 32 (sdrop 7 d)).

(** [mid * bps / 10000.0] *)
Definition of_mid (mid bps : value) : res value := let! x := vmul mid bps in vdiv x (literal 10000 0).

Definition entry_thesis (side : string) : res string :=
  let! w := pk "features" "window_return_bps" in let! w := fixed 4 w in
  let! c := pk "features" "confirmation_return_bps" in let! c := fixed 4 c in
  let! e := pk "features" "ema_separation_bps" in let! e := fixed 4 e in
  Ok (side +:+ " confirmed momentum: window_return=" +:+ w +:+ "bps confirmation=" +:+ c +:+ "bps ema_separation=" +:+ e +:+ "bps").

Definition intent (side : string) : res dict :=
  let! mid := pk "market" "mid" in
  let! atr := pk "features" "atr_bps" in
  let! multiple := cf "shadow_intent_contract" "stop_atr_multiple" in
  let! adverse := (let! x := of_mid mid atr in vmul x multiple) in
  let! slip := cf "setup" "estimated_slippage_bps" in
  let! slippage := of_mid mid slip in
  let! limit := pk "market" (if bool_decide (side = "BUY") then "ask" else "bid") in
  let! id := item config "strategy_id" in
  let! version := item config "strategy_version" in
  let! tag := packet_tag in
  let! quantity := cf "shadow_intent_contract" "maximum_quantity" in
  let! limit := vround 8 limit in
  let! bid := pk "market" "bid" in let! bid := vround 8 bid in
  let! ask := pk "market" "ask" in let! ask := vround 8 ask in
  let! observed := pk "freshness" "quote_observed_at_ms" in
  let! evaluated := item packet "evaluated_at_ms" in
  let! horizon := cf "shadow_intent_contract" "maximum_intent_horizon_seconds" in
  let! expires := (let! ms := vmul horizon (VInt 1000) in vadd evaluated ms) in
  let! thesis := entry_thesis side in
  let! adverse_text := fixed 8 adverse in
  let! holding := cf "shadow_intent_contract" "maximum_holding_seconds" in
  let! holding := vmul holding (VInt 1000) in
  let! adverse := vround 8 adverse in
  let! slippage := vround 8 slippage in
  Ok [("schema", VStr "hepta.trade-intent.v1"); ("paper_only", VBool true); ("strategy_id", id); ("strategy_version", version);
      ("strategy_sha256", VStr strategy_sha256); ("intent_id", VStr ("shadow-intent-" +:+ tag)); ("instrument", VStr "EUR.USD");
      ("symbol", VStr "EUR"); ("currency", VStr "USD"); ("sec_type", VStr "CASH"); ("exchange", VStr "IDEALPRO"); ("side", VStr side);
      ("quantity", quantity); ("order_type", VStr "LMT"); ("limit_price", limit); ("tif", VStr "DAY"); ("observed_bid", bid);
      ("observed_ask", ask); ("observed_at_ms", observed); ("expires_at_ms", expires); ("entry_thesis", VStr thesis);
      ("invalidation_condition", VStr ("Opposite three-observation momentum or adverse move of " +:+ adverse_text));
      ("max_holding_ms", holding); ("max_adverse_move", adverse); ("expected_slippage", slippage);
      ("exit_plan", VStr "Canonical monitor followed by cancel or atomic reduce-only flatten and authoritative reconcile")].

(** ** [evaluate] *)

(** The identity of the packet, its builder and the strategy. *)
Definition check_binding : res unit :=
  let! expected := require_digest (get packet "body_sha256") "STRATEGY_PACKET_DIGEST_INVALID" in
  let! actual := digest_document (VDict (dpop "body_sha256" packet)) in
  when negb (bool_decide (actual = expected)) raise contract_error "STRATEGY_PACKET_DIGEST_INVALID" in
  when negb (eq_str (get packet "schema") "hepta.market-information-packet.v1") || negb (eq_str (get packet "mode") "SHADOW") ||
       negb (eq_str (get packet "instrument") "EUR.USD") raise contract_error "STRATEGY_PACKET_BOUNDARY_INVALID" in
  let! binding := require_exact_fields (get packet "strategy") STRATEGY_BINDING_FIELDS "STRATEGY_PACKET_BINDING_FIELDS_INVALID" in
  let! builder := require_exact_fields (get packet "context_builder") CONTEXT_BUILDER_FIELDS "STRATEGY_CONTEXT_BUILDER_FIELDS_INVALID" in
  let! id := item config "strategy_id" in
  let! version := item config "strategy_version" in
  let! features := item config "feature_calculation_version" in
  when negb (py_eq (get binding "strategy_id") id) || negb (py_eq (get binding "strategy_version") version) ||
       negb (eq_str (get binding "pinned_sha256") strategy_sha256) || negb (eq_str (get binding "evaluator_sha256") (p_evaluator package)) ||
       negb (eq_str (get binding "builder_sha256") (p_builder package)) || negb (eq_str (get binding "normalizer_sha256") (p_normalizer package)) ||
       negb (eq_str (get binding "contracts_sha256") (p_contracts package)) || negb (is_true (get binding "sha256_verified")) ||
       negb (eq_str (get builder "schema") "hepta.market-context-builder.v3") || negb (eq_str (get builder "builder_sha256") (p_builder package)) ||
       negb (eq_str (get builder "normalizer_sha256") (p_normalizer package)) || negb (eq_str (get builder "contracts_sha256") (p_contracts package)) ||
       negb (py_eq (get builder "feature_calculation_version") features)
  raise contract_error "STRATEGY_PACKET_BINDING_INVALID" in
  Ok tt.

(** [packet[a].get(k) is not False] *)
Definition not_false (a k : string) : res bool := let! v := item packet a in let! x := dwhere v k in Ok (negb (is_false x)).
Definition check_authority : res unit :=
  when! not_false "authority" "paper_authorized" ||? not_false "authority" "live_authorized" ||?
        not_false "source_snapshot" "mutation_attempted" ||? not_false "source_snapshot" "direct_broker_access"
  raise contract_error "STRATEGY_PACKET_AUTHORITY_INVALID" in
  Ok tt.

Definition check_refs : res (list value) :=
  match get packet "evidence_refs" with
  | VList (r :: refs) =>
      let! _ := rfold (fun _ v => let! _ := require_digest v "STRATEGY_EVIDENCE_REFS_INVALID" in Ok tt) (r :: refs) tt in Ok (r :: refs)
  | _ => Raise (contract_error "STRATEGY_EVIDENCE_REFS_INVALID")
  end.

Definition regime_of (reasons : list string) : res string := match reasons with [] => classify_regime packet config | _ => Ok "unknown" end.

(** [regime not in config["setup"]["allowed_regimes"]], a list in every loaded configuration *)
Definition regime_refused (regime : string) : res bool :=
  let! allowed := cf "setup" "allowed_regimes" in
  let! l := as_list allowed in
  Ok (negb (py_in (VStr regime) l)).

(** The reasons against a trade, the regime and the side. *)
Definition judge : res (list string * string * option string) :=
  let! reasons := evidence_reasons packet config in
  let! regime := regime_of reasons in
  let! reasons := note_if (regime_refused regime) ("REGIME_" +:+ smap upper regime +:+ "_NOT_ALLOWED") reasons in
  let reasons := if bool_decide (regime = "event") then append_reason "HIGH_IMPACT_EVENT_WINDOW" reasons else reasons in
  let! costs := cost_reasons packet config in
  let reasons := foldl (fun rs r => append_reason r rs) reasons costs in
  let! direction := momentum_direction packet config in
  let reasons := foldl (fun rs r => append_reason r rs) reasons direction.2 in
  Ok (reasons, regime, direction.1).

Definition SETUP_GATES : list string :=
  ["AUTHORITATIVE_EVIDENCE"; "FRESH_EVIDENCE"; "REGIME_TREND"; "MOMENTUM_CONFIRMED"; "EMA_DIRECTION_CONFIRMED"; "EVENT_WINDOW_CLEAR";
   "PORTFOLIO_FLAT"; "EXPECTED_MOVE_COVERS_COST"].

Definition strings (l : list string) : value := VList (map VStr l).

Definition decision_base (decision_id : string) (started finished : Z) (regime : string) (refs conflicts : list value) : dict :=
  [("decision_id", VStr decision_id); ("started_at_ms", VInt started); ("finished_at_ms", VInt finished); ("regime", VStr regime);
   ("evidence_refs", VList refs); ("conflicts", VList conflicts); ("campaign_open_request_id", VNone); ("campaign_close_request_id", VNone)].

Definition no_trade (reasons : list string) : dict :=
  [("cycle_id", VNone); ("setup_gates", VList []); ("risk_challenges", strings reasons); ("decision", VStr "NO_TRADE");
   ("reason_codes", strings (match reasons with [] => ["NO_DIRECTION"] | _ => reasons end)); ("trade_intent", VNone);
   ("final_outcome", VStr "NO_TRADE")].

Definition shadow_trade (tag : string) (i : dict) : dict :=
  [("cycle_id", VStr ("shadow-cycle-" +:+ tag)); ("setup_gates", strings SETUP_GATES); ("risk_challenges", VList []);
   ("decision", VStr "TRADE"); ("reason_codes", VList []); ("trade_intent", VDict i); ("final_outcome", VStr "SHADOW_TRADE")].

(** A time the caller leaves out is [None]. *)
Definition evaluate (started_at_ms finished_at_ms : option value) : res dict :=
  let! _ := require_exact_fields (VDict packet) PACKET_FIELDS "STRATEGY_PACKET_FIELDS_INVALID" in
  let! _ := check_binding in
  let! _ := check_authority in
  let! refs := check_refs in
  let! evaluated := require_int (get packet "evaluated_at_ms") "STRATEGY_PACKET_TIME_INVALID" (Some 0) None in
  let start := default (VInt evaluated) started_at_ms in
  let finish := default start finished_at_ms in
  let! started := require_int start "STRATEGY_DECISION_TIME_INVALID" (Some 0) None in
  let! finished := require_int finish "STRATEGY_DECISION_TIME_INVALID" (Some started) None in
  let! j := judge in
  let '(reasons, regime, side) := j in
  let! iteration := require_int (get packet "iteration") "STRATEGY_ITERATION_INVALID" (Some 1) None in
  let decision_id := py_str (get packet "campaign_id") +:+ "-decision-" +:+ four_digits iteration in
  let! conflicts := (let! c := pk "information" "conflicts" in py_list c) in
  let base := decision_base decision_id started finished regime refs conflicts in
  match reasons, side with
  | [], Some side =>
      let! tag := packet_tag in
      let! i := intent side in
      Ok (base ++ shadow_trade tag i)
  | _, _ => Ok (base ++ no_trade reasons)
  end.
End evaluate.

End Strategy.

(** * Receipts of shadow decisions

    Models scripts/validate_hepta_strategy_decision_receipt.py, the contract of a receipt,
    and [_materialize_receipt] of scripts/hepta_strategy_shadow_runner.py, which makes one
    from a packet and a decision. *)

Import Strategy.

Module StrategyReceipt.

Definition RECEIPT_FIELDS : list string :=
  ["schema"; "campaign_id"; "strategy_id"; "strategy_version"; "strategy_sha256"; "decision_id"; "cycle_id"; "started_at_ms"; "finished_at_ms";
   "paper_only"; "live_authorized"; "shadow_only"; "information_packet_sha256"; "catalog_sha256"; "descriptor_sha256"; "preflight_sha256";
   "regime"; "setup_gates"; "risk_challenges"; "evidence_refs"; "conflicts"; "decision"; "reason_codes"; "trade_intent"; "trade_intent_sha256";
   "campaign_open_request_id"; "campaign_close_request_id"; "mutation_attempted"; "direct_broker_access"; "final_outcome"].
Definition TRADE_INTENT_FIELDS : list string :=
  ["schema"; "paper_only"; "strategy_id"; "strategy_version"; "strategy_sha256"; "intent_id"; "instrument"; "symbol"; "currency"; "sec_type";
   "exchange"; "side"; "quantity"; "order_type"; "limit_price"; "tif"; "observed_bid"; "observed_ask"; "observed_at_ms"; "expires_at_ms";
   "entry_thesis"; "invalidation_condition"; "max_holding_ms"; "max_adverse_move"; "expected_slippage"; "exit_plan"].
Definition REGIMES : list string := ["trend"; "range"; "event"; "illiquid"; "transition"; "unknown"].

(** Texts without repetition, each passing a check. *)
Definition distinct (l : list string) : bool := bool_decide (NoDup l).

Definition identifier_list (v : value) (reason : string) : res (list string) :=
  match v with
  | VList l =>
      let! r := rmapM (fun x => require_identifier x reason) l in
      when negb (distinct r) raise contract_error reason in Ok r
  | _ => Raise (contract_error reason)
  end.

Definition digest_list (v : value) (reason : string) : res (list string) :=
  match v with
  | VList (x :: l) =>
      let! r := rmapM (fun x => require_digest x reason) (x :: l) in
      when negb (distinct r) raise contract_error reason in Ok r
  | _ => Raise (contract_error reason)
  end.

(** [math.isclose(a, b, rel_tol=0.0, abs_tol=1e-12)] of finite floats *)
Definition close_to (a b : spec_float) : bool := feqb a b || fleb (fabs (fsub b a)) (literal 1 (-12)).

(** [v in s] for a set of texts: a list or a dictionary cannot be looked up. *)
Definition member (v : value) (l : list string) : res bool := if hashable v then Ok (in_strs v l) else Raise type_error.

(** [a > b] on two values *)
Definition later (a b : value) : res bool := py_lt b a.

Section receipts.
Context {D : Digest}.

Definition validate_intent (intent_value : value) (receipt : dict) : res dict :=
  let! intent := require_exact_fields intent_value TRADE_INTENT_FIELDS "RECEIPT_INTENT_FIELDS_INVALID" in
  when! Ok (negb (eq_str (get intent "schema") "hepta.trade-intent.v1") || negb (is_true (get intent "paper_only")) ||
            negb (py_eq (get intent "strategy_id") (get receipt "strategy_id")) ||
            negb (py_eq (get intent "strategy_version") (get receipt "strategy_version")) ||
            negb (py_eq (get intent "strategy_sha256") (get receipt "strategy_sha256")) ||
            negb (eq_str (get intent "instrument") "EUR.USD") || negb (eq_str (get intent "symbol") "EUR") ||
            negb (eq_str (get intent "currency") "USD") || negb (eq_str (get intent "sec_type") "CASH") ||
            negb (eq_str (get intent "exchange") "IDEALPRO")) ||?
        pnot (member (get intent "side") ["BUY"; "SELL"]) ||?
        Ok (negb (eq_str (get intent "order_type") "LMT") || negb (eq_str (get intent "tif") "DAY"))
  raise contract_error "RECEIPT_INTENT_BINDING_INVALID" in
  let! _ := require_identifier (get intent "intent_id") "RECEIPT_INTENT_ID_INVALID" in
  let! _ := require_int (get intent "quantity") "RECEIPT_INTENT_QUANTITY_INVALID" (Some 1) (Some 1000) in
  let! limit := require_number (get intent "limit_price") "RECEIPT_INTENT_PRICE_INVALID" true None None in
  let! bid := require_number (get intent "observed_bid") "RECEIPT_INTENT_PRICE_INVALID" true None None in
  let! ask := require_number (get intent "observed_ask") "RECEIPT_INTENT_PRICE_INVALID" true None None in
  when fltb ask bid raise contract_error "RECEIPT_INTENT_PRICE_INVALID" in
  let expected := if eq_str (get intent "side") "BUY" then ask else bid in
  when negb (close_to limit expected) raise contract_error "RECEIPT_INTENT_LIMIT_RULE_INVALID" in
  let! observed := require_int (get intent "observed_at_ms") "RECEIPT_INTENT_TIME_INVALID" (Some 0) None in
  let! expires := require_int (get intent "expires_at_ms") "RECEIPT_INTENT_TIME_INVALID" (Some (observed + 1)) None in
  when! later (VInt observed) (get receipt "started_at_ms") ||? later (get receipt "finished_at_ms") (VInt expires)
  raise contract_error "RECEIPT_INTENT_TIME_INVALID" in
  let! _ := require_text (get intent "entry_thesis") "RECEIPT_INTENT_TEXT_INVALID" 4096 false in
  let! _ := require_text (get intent "invalidation_condition") "RECEIPT_INTENT_TEXT_INVALID" 4096 false in
  let! _ := require_text (get intent "exit_plan") "RECEIPT_INTENT_TEXT_INVALID" 4096 false in
  let! _ := require_int (get intent "max_holding_ms") "RECEIPT_INTENT_HOLDING_INVALID" (Some 1) (Some 86400000) in
  let! _ := require_nonnegative (get intent "max_adverse_move") "RECEIPT_INTENT_RISK_INVALID" in
  let! _ := require_nonnegative (get intent "expected_slippage") "RECEIPT_INTENT_RISK_INVALID" in
  Ok intent.

(** The identities, digests, times and boundaries of a receipt. *)
Definition validate_head (receipt : dict) : res unit :=
  when negb (eq_str (get receipt "schema") "hepta.autonomous-paper-decision-receipt.v1") raise contract_error "RECEIPT_SCHEMA_INVALID" in
  let! _ := each ["campaign_id"; "strategy_id"; "strategy_version"; "decision_id"]
              (fun k => let! _ := require_identifier (get receipt k) ("RECEIPT_" +:+ smap upper k +:+ "_INVALID") in Ok tt) in
  let! _ := require_digest (get receipt "strategy_sha256") "RECEIPT_STRATEGY_DIGEST_INVALID" in
  let! _ := require_digest (get receipt "information_packet_sha256") "RECEIPT_PACKET_DIGEST_INVALID" in
  let! _ := require_digest (get receipt "catalog_sha256") "RECEIPT_CATALOG_DIGEST_INVALID" in
  let! _ := require_digest (get receipt "descriptor_sha256") "RECEIPT_DESCRIPTOR_DIGEST_INVALID" in
  let! started := require_int (get receipt "started_at_ms") "RECEIPT_TIME_INVALID" (Some 0) None in
  let! _ := require_int (get receipt "finished_at_ms") "RECEIPT_TIME_INVALID" (Some started) None in
  let! _ := require_bool (get receipt "paper_only") true "RECEIPT_PAPER_BOUNDARY_INVALID" in
  let! _ := require_bool (get receipt "live_authorized") false "RECEIPT_LIVE_BOUNDARY_INVALID" in
  let! _ := require_bool (get receipt "shadow_only") true "RECEIPT_SHADOW_BOUNDARY_INVALID" in
  let! _ := require_bool (get receipt "mutation_attempted") false "RECEIPT_MUTATION_BOUNDARY_INVALID" in
  let! _ := require_bool (get receipt "direct_broker_access") false "RECEIPT_BROKER_BOUNDARY_INVALID" in
  when negb (is_none (get receipt "preflight_sha256")) || negb (is_none (get receipt "campaign_open_request_id")) ||
       negb (is_none (get receipt "campaign_close_request_id")) raise contract_error "RECEIPT_SHADOW_REQUEST_BOUNDARY_INVALID" in
  Ok tt.

Definition validate_trade (receipt : dict) (gates challenges reasons : list string) : res unit :=
  when negb (eq_str (get receipt "decision") "TRADE") raise contract_error "RECEIPT_DECISION_INVALID" in
  let! _ := require_identifier (get receipt "cycle_id") "RECEIPT_CYCLE_ID_INVALID" in
  let! intent := validate_intent (get receipt "trade_intent") receipt in
  let! claimed := require_digest (get receipt "trade_intent_sha256") "RECEIPT_INTENT_DIGEST_INVALID" in
  let! actual := digest_document (VDict intent) in
  when negb (bool_decide (claimed = actual)) raise contract_error "RECEIPT_INTENT_DIGEST_MISMATCH" in
  when negb (eq_str (get receipt "final_outcome") "SHADOW_TRADE") || bool_decide (gates = []) || negb (bool_decide (challenges = [])) ||
       negb (bool_decide (reasons = [])) raise contract_error "RECEIPT_SHADOW_TRADE_CONTRACT_INVALID" in
  Ok tt.

Definition validate (document : value) : res dict :=
  let! receipt := require_exact_fields document RECEIPT_FIELDS "RECEIPT_FIELDS_INVALID" in
  let! _ := validate_head receipt in
  when! pnot (member (get receipt "regime") REGIMES) raise contract_error "RECEIPT_REGIME_INVALID" in
  let! gates := identifier_list (get receipt "setup_gates") "RECEIPT_SETUP_GATES_INVALID" in
  let! challenges := identifier_list (get receipt "risk_challenges") "RECEIPT_RISK_CHALLENGES_INVALID" in
  let! _ := digest_list (get receipt "evidence_refs") "RECEIPT_EVIDENCE_REFS_INVALID" in
  let! _ := identifier_list (get receipt "conflicts") "RECEIPT_CONFLICTS_INVALID" in
  let! reasons := identifier_list (get receipt "reason_codes") "RECEIPT_REASON_CODES_INVALID" in
  if eq_str (get receipt "decision") "NO_TRADE" then
    when negb (is_none (get receipt "cycle_id")) || negb (is_none (get receipt "trade_intent")) ||
         negb (is_none (get receipt "trade_intent_sha256")) || negb (eq_str (get receipt "final_outcome") "NO_TRADE") ||
         negb (bool_decide (gates = [])) || bool_decide (reasons = []) || negb (bool_decide (challenges = reasons))
    raise contract_error "RECEIPT_NO_TRADE_CONTRACT_INVALID" in
    Ok receipt
  else let! _ := validate_trade receipt gates challenges reasons in Ok receipt.

Definition validate_observation_policy_binding (document : value) (policy_sha256 campaign_sha256 : string) : res dict :=
  let! receipt := validate document in
  let! p := require_digest (VStr policy_sha256) "RECEIPT_POLICY_DIGEST_INVALID" in
  let! c := require_digest (VStr campaign_sha256) "RECEIPT_CAMPAIGN_DIGEST_INVALID" in
  let! refs := as_list (get receipt "evidence_refs") in
  when negb (py_in (VStr p) refs && py_in (VStr c) refs) raise contract_error "RECEIPT_OBSERVATION_POLICY_BINDING_INVALID" in
  Ok receipt.

(** ** Making a receipt *)

(** [list(dict.fromkeys(l))] of texts *)
Definition without_repeats (l : list string) : list string := foldl (fun r x => set_add x r) [] l.

Definition texts_of (v : value) : res (list string) := let! l := as_list v in rmapM as_str l.

Definition materialize_receipt (packet decision snapshot : dict) (policy_sha256 campaign_sha256 : string) : res dict :=
  let! strategy := item packet "strategy" in
  let! descriptors := match get snapshot "descriptor_sha256" with
                      | VDict ((k, v) :: d) => Ok (VDict ((k, v) :: d)) | _ => Raise (contract_error "SHADOW_DESCRIPTOR_MAP_INVALID") end in
  let! source := item packet "source_snapshot" in
  let! catalog := dwhere source "catalog_sha256" in
  when negb (py_eq (get snapshot "catalog_sha256") catalog) raise contract_error "SHADOW_CATALOG_BINDING_INVALID" in
  let! intent := item decision "trade_intent" in
  let! refs := texts_of (get decision "evidence_refs") in
  let! campaign := item packet "campaign_id" in
  let! id := subscript strategy "strategy_id" in
  let! version := subscript strategy "strategy_version" in
  let! pinned := subscript strategy "pinned_sha256" in
  let! packet_digest := digest_document (VDict packet) in
  let! snapshot_catalog := item snapshot "catalog_sha256" in
  let! descriptor_digest := digest_document descriptors in
  let! gates := py_list (get decision "setup_gates") in
  let! challenges := py_list (get decision "risk_challenges") in
  let! conflicts := py_list (get decision "conflicts") in
  let! reasons := py_list (get decision "reason_codes") in
  let! intent_digest := match intent with VNone => Ok VNone | v => let! d := digest_document v in Ok (VStr d) end in
  validate_observation_policy_binding
    (VDict [("schema", VStr "hepta.autonomous-paper-decision-receipt.v1"); ("campaign_id", campaign); ("strategy_id", id);
            ("strategy_version", version); ("strategy_sha256", pinned); ("decision_id", get decision "decision_id");
            ("cycle_id", get decision "cycle_id"); ("started_at_ms", get decision "started_at_ms");
            ("finished_at_ms", get decision "finished_at_ms"); ("paper_only", VBool true); ("live_authorized", VBool false);
            ("shadow_only", VBool true); ("information_packet_sha256", VStr packet_digest); ("catalog_sha256", snapshot_catalog);
            ("descriptor_sha256", VStr descriptor_digest); ("preflight_sha256", VNone); ("regime", get decision "regime");
            ("setup_gates", VList gates); ("risk_challenges", VList challenges);
            ("evidence_refs", strings (without_repeats (policy_sha256 :: campaign_sha256 :: refs))); ("conflicts", VList conflicts);
            ("decision", get decision "decision"); ("reason_codes", VList reasons); ("trade_intent", intent);
            ("trade_intent_sha256", intent_digest); ("campaign_open_request_id", VNone); ("campaign_close_request_id", VNone);
            ("mutation_attempted", VBool false); ("direct_broker_access", VBool false); ("final_outcome", get decision "final_outcome")])
    policy_sha256 campaign_sha256.
End receipts.

End StrategyReceipt.
