(* ===== verification/StrategyFacts.v ===== *)
(** * What a trade of the strategy means

    A [TRADE] of [evaluate] implies every condition the gates name, over the exact values
    of the packet and the configuration; a packet that passes its digest check holds no
    infinities and no NaN, so the comparisons are those of rational numbers. *)

From Stdlib Require Import Ascii QArith Qabs Floats.SpecFloat.
From S2P Require Import Prelude PyText PyValue PyOrder PyBytes Digest PyJson PyJsonFacts PyFloat RowMonad Contracts Strategy.
From stdpp Require Import base tactics list strings.
From Stdlib Require Import ZArith Lia Bool Lqa.
Import Contracts Strategy.

Open Scope Z_scope.

Module StrategyFacts.

(** ** No reasons *)

Lemma append_reason_nil r rs : append_reason r rs <> [].
Proof. unfold append_reason, set_add. destruct (inb r rs) eqn:E; [by destruct rs|by destruct rs]. Qed.

Lemma note_if_nil c r rs : note_if c r rs = Ok [] -> c = Ok false /\ rs = [].
Proof. unfold note_if. intros H. apply rbind_ok in H as ([] & Hc & H); [injection H as H; by apply append_reason_nil in H|]. by injection H as ->. Qed.

Lemma notes_nil checks : forall rs, rfold (fun rs c => note_if c.1 c.2 rs) checks rs = Ok [] -> rs = [] /\ Forall (fun c => c.1 = Ok false) checks.
Proof.
  induction checks as [|c checks IH]; intros rs H; simpl in H; [by injection H as ->|]. apply rbind_ok in H as (rs' & Hc & H).
  destruct (IH _ H) as [-> Hall]. apply note_if_nil in Hc as [Hc ->]. split; [done|by constructor].
Qed.

Lemma append_if_nil c r rs : append_if c r rs = Ok [] -> c = Ok false /\ rs = [].
Proof. unfold append_if. intros H. apply rbind_ok in H as ([] & Hc & H); injection H as H; [by destruct rs|by subst]. Qed.

Lemma appended_nil l : forall rs, foldl (fun rs r => append_reason r rs) rs l = [] -> rs = [] /\ l = [].
Proof. induction l as [|r l IH]; intros rs H; simpl in H; [done|]. apply IH in H as [H _]. by apply append_reason_nil in H. Qed.

(** ** Finite numbers *)

(** No float inside the value is infinite or NaN. *)
Fixpoint finite (v : value) : bool :=
  match v with
  | VFloat f => is_finite f
  | VList l => forallb finite l
  | VDict d => forallb (fun kv => finite kv.2) d
  | _ => true
  end.

(** [VDec] never occurs in a decoded document. *)
Lemma dumps_finite : forall v t, dumps v = Ok t -> floats_all finite_float v = true -> finite v = true.
Proof.
  fix IH 1. intros [|b|z|f|d|s|l|d] t H Hf; try done.
  - simpl in *. apply rbind_ok in H as (xs & H & _). revert xs H Hf. induction l as [|x l IHl]; intros xs H Hf; [done|].
    apply rbind_ok in H as (s & Hs & H). apply rbind_ok in H as (ys & Hl & _). simpl in *. apply andb_prop in Hf as [Hx Hf]. rewrite (IH _ _ Hs Hx). by eapply IHl.
  - simpl in *. apply rbind_ok in H as (xs & H & _). revert xs H Hf. induction d as [|[k x] d IHd]; intros xs H Hf; [done|].
    apply rbind_ok in H as (s & Hs & H). apply rbind_ok in H as (ys & Hd & _). simpl in *. apply andb_prop in Hf as [Hx Hf]. rewrite (IH _ _ Hs Hx). by eapply IHd.
Qed.

Lemma finite_item d k v : finite (VDict d) = true -> item d k = Ok v -> finite v = true.
Proof.
  unfold item. simpl. rewrite forallb_forall. intros Hd. destruct (dget k d) as [x|] eqn:E; [|done]. intros [= <-].
  apply dget_In in E. by apply (Hd (k, x)).
Qed.

(** A number of a document has an exact value. *)
Lemma finite_exact v : finite v = true -> num_of v <> None -> exists q, exactly v q.
Proof.
  unfold exactly. destruct v; simpl; try done; intros Hf _; try by (eexists; eexists; split; reflexivity).
  destruct f; try done; by (eexists; eexists; split; reflexivity).
Qed.
Lemma py_lt_number a b y c : exactly b y -> py_lt a b = Ok c -> num_of a <> None.
Proof. intros (y' & Hb & _). unfold py_lt, py_cmp. rewrite Hb. destruct (num_of a); [done|]. destruct a; try done; destruct b; done. Qed.
Lemma py_gt_number a b x c : exactly a x -> py_lt a b = Ok c -> num_of b <> None.
Proof. intros (x' & Ha & _). unfold py_lt, py_cmp. rewrite Ha. destruct (num_of b); [done|]. destruct a; try done; destruct b; done. Qed.
Lemma py_ge_number a b x c : exactly a x -> py_le a b = Ok c -> num_of b <> None.
Proof. intros (x' & Ha & _). unfold py_le, py_cmp. rewrite Ha. destruct (num_of b); [done|]. destruct a; try done; destruct b; done. Qed.
Lemma vabs_number v a : vabs v = Ok a -> num_of v <> None.
Proof. unfold vabs. intros H. apply rbind_ok in H as (o & Ho & _). by destruct v. Qed.
Lemma py_eq_number v w y : num_of w = Some y -> py_eq v w = true -> exists x, num_of v = Some x /\ num_eqb x y = true.
Proof.
  intros Hw H. destruct (num_of v) as [x|] eqn:Hv; [exists x; split; [done|]|destruct w; try done; by destruct v].
  destruct w; try done; destruct v; try done; simpl in *; try (rewrite Hv in H); try congruence; injection Hw as <-; injection Hv as <-; try done.
  apply Z.eqb_eq in H as ->. apply Qeq_bool_refl.
Qed.
Lemma py_eq_exact v w q : py_eq v w = true -> exactly w q -> exactly v q.
Proof.
  intros H (q' & Hw & Hq). destruct (py_eq_number _ _ _ Hw H) as (x & Hv & Hx). destruct x as [x| |]; try done. apply Qeq_bool_iff in Hx.
  exists x. split; [done|]. by rewrite Hx.
Qed.

(** ** A checked configuration *)

Lemma number_exact v reason pos lo hi f : require_number v reason pos lo hi = Ok f -> exists q, exactly v q.
Proof.
  intros H. assert (num_of v <> None /\ finite v = true) as [H1 H2]; [|by apply finite_exact].
  apply require_number_ok in H as Hok. destruct Hok as (Hf & Hfin & _). destruct v; try done. simpl in Hf. injection Hf as ->. split; [done|exact Hfin].
Qed.
Lemma int_exact v reason lo hi z : require_int v reason lo hi = Ok z -> exists q, exactly v q.
Proof. intros H. apply require_int_ok in H as [-> _]. eexists. eexists. split; reflexivity. Qed.

(** The sections of a checked configuration that decide a trade. *)
Definition SETUP_NUMBERS : list string :=
  ["minimum_window_return_bps"; "maximum_window_return_bps"; "minimum_confirmation_return_bps"; "maximum_spread_bps";
   "minimum_step_volatility_bps"; "maximum_step_volatility_bps"; "minimum_cost_multiple"; "estimated_slippage_bps"].
Definition FLAT_RULES : list string := ["require_zero_active_orders"; "require_zero_position"; "require_zero_gross_exposure"].
Definition COUNTS : list string :=
  ["minimum_raw_quote_observations"; "minimum_resampled_quote_observations"; "minimum_history_span_seconds"; "minimum_bar_observations"].

Record loaded (config : dict) : Prop := {
  lo_setup k : In k SETUP_NUMBERS -> exists v q, cf config "setup" k = Ok v /\ exactly v q;
  lo_flat k : In k FLAT_RULES -> cf config "setup" k = Ok (VBool true);
  lo_regimes : exists v, cf config "setup" "allowed_regimes" = Ok v /\ py_eq v (VList [VStr "trend"]) = true;
  lo_regime k : In k REGIME_FIELDS -> exists v q, cf config "regime" k = Ok v /\ exactly v q;
  lo_counts k : In k COUNTS -> exists v q, cf config "evidence_requirements" k = Ok v /\ exactly v q;
  lo_horizon : exists h, cf config "shadow_intent_contract" "maximum_intent_horizon_seconds" = Ok (VInt h) /\ 2 <= h <= 3600;
  lo_holding : exists h, cf config "shadow_intent_contract" "maximum_holding_seconds" = Ok (VInt h) /\ 60 <= h <= 86400;
  lo_quantity : exists n, cf config "shadow_intent_contract" "maximum_quantity" = Ok (VInt n) /\ 1 <= n <= 1000 }.

Lemma section_field config fields a k sub sf reason :
  exact_fields config fields = true -> inb a fields = true -> require_exact_fields (get config a) sf reason = Ok sub -> inb k sf = true ->
  cf config a k = Ok (get sub k).
Proof.
  intros Hc Ha H Hk. apply require_exact_fields_ok in H as [H Hs]. unfold cf. rewrite (exact_fields_get _ _ _ Hc Ha). simpl. rewrite H. simpl.
  by apply (exact_fields_get _ sf).
Qed.

Ltac unit_ok H := let u := fresh "u" in let Hu := fresh "Hu" in apply rbind_ok in H as (u & Hu & H).

Lemma load_strategy_loaded document config : load_strategy document = Ok config -> loaded config.
Proof.
  unfold load_strategy. intros H. unit_ok H. apply require_exact_fields_ok in Hu as [_ Hc]. apply when_ok in H as [_ H].
  do 6 unit_ok H. apply when_ok in H as [_ H]. apply rbind_ok in H as (evidence & Hev & H). do 3 unit_ok H.
  apply rbind_ok in H as (regime & Hre & H). apply rbind_ok in H as (u9 & Hrn & H). apply rbind_ok in H as (u10 & Hse & H).
  apply rbind_ok in H as (u11 & Hin & H). apply rbind_ok in H as (u12 & _ & H). injection H as ->.
  unfold check_setup in Hse. apply rbind_ok in Hse as (setup & Hs & Hse). apply when_ok in Hse as [Hreg Hse]. apply rbind_ok in Hse as ([] & Hnum & Hse).
  apply rbind_ok in Hse as (b & _ & Hse). destruct b; [done|]. do 1 unit_ok Hse. apply rbind_ok in Hse as ([] & Hflat & _).
  unfold check_intent in Hin. apply rbind_ok in Hin as (intent & Hi & Hin). apply rbind_ok in Hin as (q & Hq & Hin). apply when_ok in Hin as [_ Hin].
  apply rbind_ok in Hin as (h & Hh & Hin). apply rbind_ok in Hin as (h' & Hh' & _).
  unfold check_evidence in Hev. apply rbind_ok in Hev as (ev & He & Hev). unit_ok Hev. apply rbind_ok in Hev as (c1 & Hc1 & Hev).
  apply rbind_ok in Hev as (c2 & Hc2 & Hev). apply rbind_ok in Hev as (c3 & Hc3 & Hev). apply rbind_ok in Hev as (c4 & Hc4 & Hev). injection Hev as <-.
  destruct u9. pose proof (each_ok _ _ Hnum) as Hnum'. pose proof (each_ok _ _ Hflat) as Hflat'. pose proof (each_ok _ _ Hrn) as Hrn'.
  pose proof (fun a k => section_field config CONFIG_FIELDS a k) as SF.
  split.
  - intros k Hk. exists (get setup k). specialize (Hnum' k Hk). apply rbind_ok in Hnum' as (f & Hf & _). apply number_exact in Hf as [x Hx]. exists x.
    split; [|done]. eapply SF; [done|done|exact Hs|]. destruct Hk as [<-|[<-|[<-|[<-|[<-|[<-|[<-|[<-|[]]]]]]]]]; done.
  - intros k Hk. specialize (Hflat' k Hk). apply require_bool_ok in Hflat'. rewrite <- Hflat'. eapply SF; [done|done|exact Hs|].
    destruct Hk as [<-|[<-|[<-|[]]]]; done.
  - exists (get setup "allowed_regimes"). split; [by eapply SF; [done|done|exact Hs|]|by apply negb_false_iff in Hreg].
  - intros k Hk. exists (get regime k). specialize (Hrn' k Hk). apply rbind_ok in Hrn' as (f & Hf & _). apply number_exact in Hf as [x Hx]. exists x.
    split; [|done]. eapply SF; [done|done|exact Hre|]. destruct Hk as [<-|[<-|[<-|[]]]]; done.
  - intros k Hk. exists (get ev k). assert (exists x, exactly (get ev k) x) as [x Hx].
    { destruct Hk as [<-|[<-|[<-|[<-|[]]]]]; by eapply int_exact. }
    exists x. split; [|done]. eapply SF; [done|done|exact He|]. destruct Hk as [<-|[<-|[<-|[<-|[]]]]]; done.
  - apply require_int_ok in Hh as (Hv & Hlo & Hhi). exists h. split; [rewrite <- Hv; by eapply SF; [done|done|exact Hi|]|]. specialize (Hlo _ eq_refl). specialize (Hhi _ eq_refl). lia.
  - apply require_int_ok in Hh' as (Hv & Hlo & Hhi). exists h'. split; [rewrite <- Hv; by eapply SF; [done|done|exact Hi|]|]. specialize (Hlo _ eq_refl). specialize (Hhi _ eq_refl). lia.
  - apply require_int_ok in Hq as (Hv & Hlo & Hhi). exists q. split; [rewrite <- Hv; by eapply SF; [done|done|exact Hi|]|]. specialize (Hlo _ eq_refl). specialize (Hhi _ eq_refl). lia.
Qed.

(** ** What a trade implies *)

Section trade.
Context (packet config : dict).

(** [packet[a][k]] is [True]. *)
Definition flag (a k : string) : Prop := exists d, item packet a = Ok (VDict d) /\ get d k = VBool true.
(** [packet[a][k]] and [config[a][k]] have the exact value. *)
Definition pnum (a k : string) (q : Q) : Prop := exists v, pk packet a k = Ok v /\ exactly v q.
Definition cnum (a k : string) (q : Q) : Prop := exists v, cf config a k = Ok v /\ exactly v q.

Record admissible (side : string) : Prop := {
  ad_authority k : In k AUTHORITY_KEYS -> flag "authority" k;
  ad_fresh : flag "freshness" "quote_fresh" /\ flag "freshness" "portfolio_freshness_provable" /\ flag "freshness" "bar_fresh";
  ad_provenance : flag "provenance" "information_provenance_present" /\ flag "provenance" "calendar_provenance_present" /\
    flag "history" "quote_provenance_provable" /\ flag "history" "bar_provenance_provable";
  ad_complete : flag "history" "quote_complete" /\ flag "history" "bar_complete" /\ flag "economic_calendar" "present";
  ad_quiet : ~ flag "economic_calendar" "high_impact_event_window_active";
  ad_history h c : In (h, c) [("raw_quote_observations", "minimum_raw_quote_observations");
      ("resampled_quote_observations", "minimum_resampled_quote_observations"); ("span_seconds", "minimum_history_span_seconds");
      ("bar_observations", "minimum_bar_observations")] ->
    exists n m, pnum "history" h n /\ cnum "evidence_requirements" c m /\ (m <= n)%Q;
  ad_flat k : In k ["active_order_count"; "position_quantity"; "gross_exposure"] -> pnum "portfolio" k 0;
  ad_spread : exists s m, pnum "market" "spread_bps" s /\ cnum "setup" "maximum_spread_bps" m /\ (s <= m)%Q;
  ad_volatility : exists v lo hi, pnum "features" "step_volatility_bps" v /\ cnum "setup" "minimum_step_volatility_bps" lo /\
    cnum "setup" "maximum_step_volatility_bps" hi /\ (lo <= v <= hi)%Q;
  ad_direction : exists w c e l, pnum "features" "window_return_bps" w /\ pnum "features" "confirmation_return_bps" c /\
    pnum "features" "ema_separation_bps" e /\ pnum "features" "ema_fast_slope_bps" l /\
    (side = "BUY" /\ (0 < w)%Q /\ (0 < c)%Q /\ (0 < e)%Q /\ (0 < l)%Q \/ side = "SELL" /\ (w < 0)%Q /\ (c < 0)%Q /\ (e < 0)%Q /\ (l < 0)%Q);
  ad_strength : exists w c e l lo hi lc le ll, pnum "features" "window_return_bps" w /\ pnum "features" "confirmation_return_bps" c /\
    pnum "features" "ema_separation_bps" e /\ pnum "features" "ema_fast_slope_bps" l /\
    cnum "setup" "minimum_window_return_bps" lo /\ cnum "setup" "maximum_window_return_bps" hi /\
    cnum "setup" "minimum_confirmation_return_bps" lc /\ cnum "regime" "minimum_trend_ema_separation_bps" le /\
    cnum "regime" "minimum_trend_slope_bps" ll /\
    (lo <= Qabs w <= hi)%Q /\ (lc <= Qabs c)%Q /\ (le <= Qabs e)%Q /\ (ll <= Qabs l)%Q;
  ad_cost : exists cost move r m, estimated_cost packet config = Ok (VFloat cost) /\ expected_move packet = Ok move /\
    vdiv move cost = Ok (VFloat r) /\ cnum "setup" "minimum_cost_multiple" m /\
    py_le (VFloat cost) VZERO = Ok false /\ (forall q, exactly (VFloat r) q -> (m <= q)%Q);
  ad_settled : exists v, (let! s := item packet "information" in dwhere s "conflicts") = Ok v /\ truthy v = false }.
End trade.

Section judged.
Context (packet config : dict) (Hload : loaded config) (Hfin : finite (VDict packet) = true).
Notation flag := (flag packet).
Notation pnum := (pnum packet).
Notation cnum := (cnum config).

Lemma pk_finite a k v : pk packet a k = Ok v -> finite v = true.
Proof.
  unfold pk. intros H. apply rbind_ok in H as (s & Hs & H). apply (finite_item _ _ _ Hfin) in Hs. destruct s; try done. by eapply finite_item.
Qed.
Lemma pk_number a k v : pk packet a k = Ok v -> num_of v <> None -> exists q, exactly v q.
Proof. intros H. apply finite_exact. by eapply pk_finite. Qed.
Lemma cnum_fun a k v q : cnum a k q -> cf config a k = Ok v -> exactly v q.
Proof. intros (v' & H & Hq) H'. rewrite H in H'. by injection H' as <-. Qed.

Lemma lacks_flag a k : lacks packet a k = Ok false -> flag a k.
Proof.
  unfold lacks, section_of, not_true, dwhere. intros H. apply rbind_ok in H as (v & Hv & H). apply rbind_ok in H as (x & Hx & H).
  apply rbind_ok in Hx as (d & Hd & Hx). destruct v; try done. injection Hd as ->. injection Hx as <-. injection H as H. apply negb_false_iff, is_true_eq in H.
  by exists d.
Qed.

Lemma too_few_enough h c : In c COUNTS -> too_few packet config h c = Ok false -> exists n m, pnum "history" h n /\ cnum "evidence_requirements" c m /\ (m <= n)%Q.
Proof.
  intros Hc H. destruct (lo_counts _ Hload c Hc) as (v & m & Hv & Hm). unfold too_few in H. apply rbind_ok in H as (x & Hx & H). rewrite Hv in H. simpl in H.
  destruct (pk_number _ _ _ Hx (py_lt_number _ _ _ _ Hm H)) as [n Hn]. exists n, m. split; [by exists x|]. split; [by exists v|].
  exact (py_lt_exact _ _ _ _ _ Hn Hm H).
Qed.

Lemma not_flat_zero rule k zero : In rule FLAT_RULES -> exactly zero 0 -> not_flat packet config rule k zero = Ok false -> pnum "portfolio" k 0.
Proof.
  intros Hr Hz H. unfold not_flat in H. rewrite (lo_flat _ Hload _ Hr) in H. simpl in H. apply rbind_ok in H as (x & Hx & H). injection H as H.
  apply negb_false_iff in H. exists x. split; [done|]. by eapply py_eq_exact.
Qed.

Lemma exceeds_within a b k : In k SETUP_NUMBERS -> exceeds packet config a b k = Ok false -> exists s m, pnum a b s /\ cnum "setup" k m /\ (s <= m)%Q.
Proof.
  intros Hk H. destruct (lo_setup _ Hload k Hk) as (v & m & Hv & Hm). unfold exceeds in H. apply rbind_ok in H as (x & Hx & H). rewrite Hv in H. simpl in H.
  destruct (pk_number _ _ _ Hx (py_gt_number _ _ _ _ Hm H)) as [n Hn]. exists n, m. split; [by exists x|]. split; [by exists v|].
  exact (py_lt_exact _ _ _ _ _ Hm Hn H).
Qed.

Lemma abs_ge v q a k m : exactly v q -> cnum a k m -> abs_at_least config v a k = Ok true -> (m <= Qabs q)%Q.
Proof.
  intros Hv (c & Hc & Hm) H. unfold abs_at_least in H. apply rbind_ok in H as (x & Hx & H). rewrite Hc in H. simpl in H.
  exact (py_le_exact _ _ _ _ _ Hm (exactly_abs _ _ _ Hv Hx) H).
Qed.
Lemma abs_not_below v q k m : exactly v q -> cnum "setup" k m -> abs_below config v k = Ok false -> (m <= Qabs q)%Q.
Proof.
  intros Hv (c & Hc & Hm) H. unfold abs_below in H. apply rbind_ok in H as (x & Hx & H). rewrite Hc in H. simpl in H.
  exact (py_lt_exact _ _ _ _ _ (exactly_abs _ _ _ Hv Hx) Hm H).
Qed.
Lemma abs_not_above v q k m : exactly v q -> cnum "setup" k m -> abs_above config v k = Ok false -> (Qabs q <= m)%Q.
Proof.
  intros Hv (c & Hc & Hm) H. unfold abs_above in H. apply rbind_ok in H as (x & Hx & H). rewrite Hc in H. simpl in H.
  exact (py_lt_exact _ _ _ _ _ Hm (exactly_abs _ _ _ Hv Hx) H).
Qed.
Lemma agree a b x y : exactly a x -> exactly b y -> disagree a b = Ok false -> (0 < x /\ 0 < y)%Q \/ (x < 0 /\ y < 0)%Q.
Proof. intros Ha Hb H. unfold disagree in H. apply rbind_ok in H as (p & Hp & H). eapply product_positive; [exact Ha|exact Hb|exact Hp|by right]. Qed.
Lemma disagree_number a b c : disagree a b = Ok c -> num_of a <> None /\ num_of b <> None.
Proof.
  unfold disagree, vmul, arith. intros H. apply rbind_ok in H as (p & H & _). apply rbind_ok in H as (o & Ho & H). apply rbind_ok in H as (o' & Ho' & _).
  split; [by destruct a|by destruct b].
Qed.

(** The parts of the judgement without a reason. *)
Lemma evidence_none : evidence_reasons packet config = Ok [] -> Forall (fun c => c.1 = Ok false) (evidence_checks packet config) /\
  not_flat packet config "require_zero_active_orders" "active_order_count" (VInt 0) = Ok false /\
  not_flat packet config "require_zero_position" "position_quantity" VZERO = Ok false /\
  not_flat packet config "require_zero_gross_exposure" "gross_exposure" VZERO = Ok false.
Proof.
  unfold evidence_reasons, flat_portfolio_reasons. intros H. apply rbind_ok in H as (rs & Hn & H). apply rbind_ok in H as (fl & Hf & H).
  injection H as H. apply app_nil in H as [-> ->]. apply notes_nil in Hn as [_ Hn]. split; [done|].
  apply rbind_ok in Hf as (r1 & H1 & Hf). apply rbind_ok in Hf as (r2 & H2 & Hf). apply append_if_nil in Hf as [H3 ->]. apply append_if_nil in H2 as [H2 ->].
  by apply append_if_nil in H1 as [H1 _].
Qed.

Lemma trend_regime : classify_regime packet config = Ok "trend" -> in_event_window packet = Ok false /\
  exists e l, pk packet "features" "ema_separation_bps" = Ok e /\ pk packet "features" "ema_fast_slope_bps" = Ok l /\
    abs_at_least config e "regime" "minimum_trend_ema_separation_bps" = Ok true /\ abs_at_least config l "regime" "minimum_trend_slope_bps" = Ok true.
Proof.
  unfold classify_regime. intros H. apply rbind_ok in H as ([] & He & H); [done|]. split; [done|]. apply rbind_ok in H as ([] & _ & H); [done|].
  apply rbind_ok in H as (e & H1 & H). apply rbind_ok in H as (l & H2 & H). apply rbind_ok in H as ([] & Ht & H).
  - apply pand_true in Ht as [Ht _]. apply pand_true in Ht as [H3 H4]. by exists e, l.
  - apply rbind_ok in H as (x & _ & H). apply rbind_ok in H as (y & _ & H). apply rbind_ok in H as ([] & _ & H); done.
Qed.

Lemma costs_none : cost_reasons packet config = Ok [] -> exceeds packet config "market" "spread_bps" "maximum_spread_bps" = Ok false /\
  (exists v, pk packet "features" "step_volatility_bps" = Ok v /\ (let! m := cf config "setup" "minimum_step_volatility_bps" in py_lt v m) = Ok false /\
     (let! m := cf config "setup" "maximum_step_volatility_bps" in py_lt m v) = Ok false) /\ uneconomic packet config = Ok false.
Proof.
  unfold cost_reasons. intros H. apply rbind_ok in H as (r1 & H1 & H). apply rbind_ok in H as (v & Hv & H). apply rbind_ok in H as (r2 & H2 & H).
  apply rbind_ok in H as (r3 & H3 & H). apply append_if_nil in H as [H4 ->]. apply append_if_nil in H3 as [H3 ->]. apply append_if_nil in H2 as [H2 ->].
  apply append_if_nil in H1 as [H1 _]. split; [done|]. split; [by exists v|done].
Qed.

Lemma direction_some side rs : momentum_direction packet config = Ok (Some side, rs) -> rs = [] /\
  exists w c e l, pk packet "features" "window_return_bps" = Ok w /\ pk packet "features" "confirmation_return_bps" = Ok c /\
    pk packet "features" "ema_separation_bps" = Ok e /\ pk packet "features" "ema_fast_slope_bps" = Ok l /\
    abs_below config w "minimum_window_return_bps" = Ok false /\ abs_above config w "maximum_window_return_bps" = Ok false /\
    abs_below config c "minimum_confirmation_return_bps" = Ok false /\ disagree w c = Ok false /\ disagree e w = Ok false /\ disagree l w = Ok false /\
    exists up, py_lt VZERO w = Ok up /\ side = if up : bool then "BUY" else "SELL".
Proof.
  unfold momentum_direction, feature. intros H. apply rbind_ok in H as (w & Hw & H). apply rbind_ok in H as (c & Hc & H).
  apply rbind_ok in H as (r1 & H1 & H). apply rbind_ok in H as (r2 & H2 & H). apply rbind_ok in H as (r3 & H3 & H).
  apply rbind_ok in H as (r4 & H4 & H). apply rbind_ok in H as (r5 & H5 & H). apply rbind_ok in H as (r6 & H6 & H). destruct r6; [|done].
  apply rbind_ok in H as (up & Hup & H). injection H as <- <-. split; [done|].
  apply note_if_nil in H6 as [H6 ->]. apply note_if_nil in H5 as [H5 ->]. apply note_if_nil in H4 as [H4 ->]. apply note_if_nil in H3 as [H3 ->].
  apply note_if_nil in H2 as [H2 ->]. apply note_if_nil in H1 as [H1 _]. apply rbind_ok in H5 as (e & He & H5). apply rbind_ok in H6 as (l & Hl & H6).
  exists w, c, e, l. do 10 (split; [done|]). by exists up.
Qed.

Lemma economic : uneconomic packet config = Ok false -> exists cost move r m, estimated_cost packet config = Ok (VFloat cost) /\ expected_move packet = Ok move /\
    vdiv move cost = Ok (VFloat r) /\ cnum "setup" "minimum_cost_multiple" m /\
    py_le (VFloat cost) VZERO = Ok false /\ (forall q, exactly (VFloat r) q -> (m <= q)%Q).
Proof.
  unfold uneconomic. intros H. apply rbind_ok in H as (cost & Hc & H). apply rbind_ok in H as (move & Hm & H). apply por_false in H as [H1 H2].
  assert (exists c, cost = VFloat c) as [c ->].
  { unfold estimated_cost, vmul, vadd, arith in Hc. apply rbind_ok in Hc as (s & _ & Hc). apply rbind_ok in Hc as (t & _ & Hc).
    apply rbind_ok in Hc as (u & Hu & Hc). apply rbind_ok in Hu as (o & _ & Hu). apply rbind_ok in Hu as (o' & Ho' & Hu). injection Ho' as <-.
    assert (exists f, u = VFloat f) as [f ->] by (destruct o; apply rbind_ok in Hu as (a & _ & Hu); apply rbind_ok in Hu as (b & _ & Hu); injection Hu as <-; by eexists).
    apply rbind_ok in Hc as (x & _ & Hc). simpl in Hc. destruct x; apply rbind_ok in Hc as (a & _ & Hc); injection Hc as <-; by eexists. }
  simpl in H2. apply rbind_ok in H2 as (ratio & Hr & H2). destruct (lo_setup _ Hload "minimum_cost_multiple") as (v & m & Hv & Hmq); [simpl; tauto|].
  rewrite Hv in H2. simpl in H2. assert (exists r, ratio = VFloat r) as [r ->].
  { unfold vdiv in Hr. apply rbind_ok in Hr as (o & _ & Hr). apply rbind_ok in Hr as (u & _ & Hr). destruct c; try done; injection Hr as <-; by eexists. }
  exists c, move, r, m. do 3 (split; [done|]). split; [by exists v|]. split; [done|]. intros q Hq. exact (py_lt_exact _ _ _ _ _ Hq Hmq H2).
Qed.

Lemma allowed_trend regime : regime_refused config regime = Ok false -> regime = "trend".
Proof.
  unfold regime_refused. intros H. destruct (lo_regimes _ Hload) as (v & Hv & He). rewrite Hv in H. simpl in H.
  apply rbind_ok in H as (l & Hl & H). injection H as H. apply negb_false_iff in H. destruct v as [| | | | | |l'|]; try done. injection Hl as ->.
  destruct l as [|x [|y l]]; simpl in He; try done; [|by rewrite andb_false_r in He]. rewrite andb_true_r, py_eq_str in He. apply eq_str_true in He as ->.
  unfold py_in in H. simpl in H. rewrite orb_false_r in H. by apply bool_decide_eq_true in H.
Qed.

Lemma judge_admissible regime side : judge packet config = Ok ([], regime, Some side) -> admissible packet config side.
Proof.
  unfold judge. intros H. apply rbind_ok in H as (ev & Hev & H). apply rbind_ok in H as (rg & Hrg & H). apply rbind_ok in H as (rs & Hrs & H).
  apply rbind_ok in H as (costs & Hco & H). apply rbind_ok in H as ([d drs] & Hd & H). simpl in H. injection H as H -> ->.
  apply appended_nil in H as [H ->]. apply appended_nil in H as [H ->]. assert (rs = []) as -> by (destruct (bool_decide (regime = "event")); [by apply append_reason_nil in H|done]).
  apply note_if_nil in Hrs as [Hre ->]. simpl in Hrg. apply allowed_trend in Hre as ->. apply trend_regime in Hrg as (Hw & e & l & He & Hl & Hae & Hal).
  apply evidence_none in Hev as (Hck & Hf1 & Hf2 & Hf3). apply costs_none in Hco as (Hsp & (vol & Hvol & Hv1 & Hv2) & Hec).
  apply direction_some in Hd as (_ & w & c & e' & l' & Hw' & Hc & He' & Hl' & Hb1 & Hb2 & Hb3 & Hd1 & Hd2 & Hd3 & up & Hup & Hside).
  rewrite He in He'. injection He' as <-. rewrite Hl in Hl'. injection Hl' as <-.
  rewrite List.Forall_forall in Hck. assert (Hflag : forall a k r, In (lacks packet a k, r) (evidence_checks packet config) -> flag a k).
  { intros a k r Hin. apply lacks_flag. exact (Hck _ Hin). }
  assert (Hcheck : forall c r, In (c, r) (evidence_checks packet config) -> c = Ok false) by (intros c0 r Hin; exact (Hck _ Hin)).
  destruct (disagree_number _ _ _ Hd1) as [Nw Nc]. destruct (disagree_number _ _ _ Hd2) as [Ne _]. destruct (disagree_number _ _ _ Hd3) as [Nl _].
  destruct (pk_number _ _ _ Hw' Nw) as [qw Qw]. destruct (pk_number _ _ _ Hc Nc) as [qc Qc]. destruct (pk_number _ _ _ He Ne) as [qe Qe]. destruct (pk_number _ _ _ Hl Nl) as [ql Ql].
  assert (S : forall k, In k SETUP_NUMBERS -> exists q, cnum "setup" k q) by (intros k Hk; destruct (lo_setup _ Hload k Hk) as (v & q & H1 & H2); by exists q, v).
  assert (R : forall k, In k REGIME_FIELDS -> exists q, cnum "regime" k q) by (intros k Hk; destruct (lo_regime _ Hload k Hk) as (v & q & H1 & H2); by exists q, v).
  split.
  - intros k Hk. apply (Hflag "authority" k (smap upper k +:+ "_MISSING")). unfold evidence_checks. apply in_app_iff. left. apply in_map_iff. by exists k.
  - repeat split; eapply Hflag; unfold evidence_checks; simpl; tauto.
  - repeat split; eapply Hflag; unfold evidence_checks; simpl; tauto.
  - repeat split; eapply Hflag; unfold evidence_checks; simpl; tauto.
  - intros (d & Hi & Ht). unfold in_event_window, section_of, dwhere in Hw. rewrite Hi in Hw. simpl in Hw. by rewrite Ht in Hw.
  - intros h k Hk. apply too_few_enough; [destruct Hk as [[= <- <-]|[[= <- <-]|[[= <- <-]|[[= <- <-]|[]]]]]; simpl; tauto|].
    destruct Hk as [[= <- <-]|[[= <- <-]|[[= <- <-]|[[= <- <-]|[]]]]];
      eapply Hcheck; unfold evidence_checks; simpl; tauto.
  - intros k [<-|[<-|[<-|[]]]]; (eapply not_flat_zero; [| |eassumption]; [simpl; tauto|eexists; split; reflexivity]).
  - apply exceeds_within; [simpl; tauto|done].
  - destruct (S "minimum_step_volatility_bps") as (lo & vlo & Hlo & Qlo); [simpl; tauto|].
    destruct (S "maximum_step_volatility_bps") as (hi & vhi & Hhi & Qhi); [simpl; tauto|]. rewrite Hlo in Hv1. rewrite Hhi in Hv2. simpl in Hv1, Hv2.
    destruct (pk_number _ _ _ Hvol (py_lt_number _ _ _ _ Qlo Hv1)) as [q Qv]. exists q, lo, hi. split; [by exists vol|]. split; [by exists vlo|]. split; [by exists vhi|].
    split; [exact (py_lt_exact _ _ _ _ _ Qv Qlo Hv1)|exact (py_lt_exact _ _ _ _ _ Qhi Qv Hv2)].
  - exists qw, qc, qe, ql. split; [by exists w|]. split; [by exists c|]. split; [by exists e|]. split; [by exists l|].
    pose proof (agree _ _ _ _ Qw Qc Hd1). pose proof (agree _ _ _ _ Qe Qw Hd2). pose proof (agree _ _ _ _ Ql Qw Hd3).
    assert (Z0 : exactly VZERO 0) by (eexists; split; reflexivity). pose proof (py_lt_exact _ _ _ _ _ Z0 Qw Hup) as Hs. subst side.
    destruct up; [left; split; [done|]|right; split; [done|]]; lra.
  - destruct (S "minimum_window_return_bps") as (lo & Hlo); [simpl; tauto|]. destruct (S "maximum_window_return_bps") as (hi & Hhi); [simpl; tauto|].
    destruct (S "minimum_confirmation_return_bps") as (lc & Hlc); [simpl; tauto|].
    destruct (R "minimum_trend_ema_separation_bps") as (le & Hle); [simpl; tauto|]. destruct (R "minimum_trend_slope_bps") as (ll & Hll); [simpl; tauto|].
    exists qw, qc, qe, ql, lo, hi, lc, le, ll. split; [by exists w|]. split; [by exists c|]. split; [by exists e|]. split; [by exists l|]. do 5 (split; [done|]).
    split; [split; [by eapply abs_not_below|by eapply abs_not_above]|]. split; [by eapply abs_not_below|]. split; by eapply abs_ge.
  - by apply economic.
  - assert (Hx : conflicting packet = Ok false) by (eapply Hcheck; unfold evidence_checks; simpl; tauto).
    unfold conflicting, section_of in Hx. apply rbind_ok in Hx as (i & Hi & Hx). apply rbind_ok in Hx as (x & Hx & Ht). injection Ht as Ht. exists x. rewrite Hi. by split.
Qed.
End judged.

(** ** The decision *)

Section decisions.
Context {D : Digest} (package : Package) (packet config : dict) (strategy_sha256 : string).

Lemma digest_finite v t : digest_document v = Ok t -> finite v = true.
Proof.
  unfold digest_document, canonical_bytes. intros H. apply rbind_ok in H as (b & Hb & _). destruct (floats_all finite_float v) eqn:Ef; [|done]. destruct (dumps v) eqn:E; [|done]. by eapply dumps_finite.
Qed.

(** The two results of an evaluation. *)
Lemma evaluate_cases st fi d : evaluate package packet config strategy_sha256 st fi = Ok d ->
  exists id s f reasons regime side refs conflicts, judge packet config = Ok (reasons, regime, side) /\
    ((exists side' tag i, reasons = [] /\ side = Some side' /\ packet_tag packet = Ok tag /\ intent packet config strategy_sha256 side' = Ok i /\
        d = decision_base id s f regime refs conflicts ++ shadow_trade tag i) \/
     ((reasons <> [] \/ side = None) /\ d = decision_base id s f regime refs conflicts ++ no_trade reasons)).
Proof.
  unfold evaluate. intros H. do 3 unit_ok H. apply rbind_ok in H as (refs & _ & H). apply rbind_ok in H as (ev & _ & H).
  apply rbind_ok in H as (s & _ & H). apply rbind_ok in H as (f & _ & H). apply rbind_ok in H as ([[reasons regime] side] & Hj & H).
  apply rbind_ok in H as (it & _ & H). apply rbind_ok in H as (cs & _ & H). eexists _, s, f, reasons, regime, side, refs, cs. split; [exact Hj|].
  destruct reasons as [|r rs]; [destruct side as [side|]|].
  - left. apply rbind_ok in H as (tag & Ht & H). apply rbind_ok in H as (i & Hi & H). injection H as <-. by exists side, tag, i.
  - right. split; [by right|]. by injection H as <-.
  - right. split; [by left|]. by injection H as <-.
Qed.

Lemma vmul_int x y : vmul (VInt x) (VInt y) = Ok (VInt (x * y)).
Proof. done. Qed.
End decisions.

(** C5: A trade of the strategy is justified by the packet and the loaded configuration:
    all evidence is authoritative, fresh, complete and provable, no event window is active,
    the information does not conflict, the portfolio is flat, the history is long enough,
    spread and volatility are within their bounds, the four directional features have the
    sign of the side and their required strength, and the expected move covers the cost.
    The intent is limited at the quoted ask or bid, is at most a thousand units and expires
    within an hour of the evaluation. *)
Theorem strategy_trade_sound {D : Digest} package packet document config sha st fi d :
  load_strategy document = Ok config -> evaluate package packet config sha st fi = Ok d -> get d "decision" = VStr "TRADE" ->
  exists side i touch t h n, admissible packet config side /\ get d "trade_intent" = VDict i /\ get i "side" = VStr side /\
    pk packet "market" (if bool_decide (side = "BUY") then "ask" else "bid") = Ok touch /\ vround 8 touch = Ok (get i "limit_price") /\
    get packet "evaluated_at_ms" = VInt t /\ get i "expires_at_ms" = VInt (t + h * 1000) /\ 2 <= h <= 3600 /\
    get i "quantity" = VInt n /\ 1 <= n <= 1000.
Proof.
  intros Hl He Hd. apply load_strategy_loaded in Hl as Hlo.
  assert (Ht : exists t, get packet "evaluated_at_ms" = VInt t /\ item packet "evaluated_at_ms" = Ok (VInt t)).
  { unfold evaluate in He. apply rbind_ok in He as (p' & Hp & He). apply require_exact_fields_ok in Hp as [[= <-] Hp]. do 2 unit_ok He.
    apply rbind_ok in He as (refs & _ & He). apply rbind_ok in He as (ev & Hev & _). apply require_int_ok in Hev as [Hev _]. exists ev.
    split; [done|]. rewrite <- Hev. by apply (exact_fields_get _ PACKET_FIELDS). }
  destruct Ht as (t & Ht & Hti).
  destruct (evaluate_cases _ _ _ _ _ _ _ He) as (id & s & f & rs & regime & sd & refs & cs & Hj & [(side & tag & i & -> & -> & Htag & Hi & ->)|(_ & ->)]);
    [|by destruct rs]. exists side, i.
  unfold packet_tag in Htag. apply rbind_ok in Htag as (dg & Hdg & _). apply digest_finite in Hdg.
  pose proof (judge_admissible packet config Hlo Hdg regime side Hj) as Had.
  unfold intent in Hi. destruct (lo_horizon _ Hlo) as (h & Hh & Hhb). destruct (lo_quantity _ Hlo) as (n & Hn & Hnb). rewrite Hh, Hn, Hti in Hi.
  apply rbind_ok in Hi as (mid & _ & Hi). apply rbind_ok in Hi as (atr & _ & Hi). apply rbind_ok in Hi as (mult & _ & Hi). apply rbind_ok in Hi as (adv & _ & Hi).
  apply rbind_ok in Hi as (slip & _ & Hi). apply rbind_ok in Hi as (slp & _ & Hi). apply rbind_ok in Hi as (touch & Htouch & Hi). exists touch, t, h, n.
  do 2 unit_ok Hi. apply rbind_ok in Hi as (tag' & _ & Hi). cbn [rbind] in Hi. apply rbind_ok in Hi as (limit & Hlim & Hi).
  do 5 unit_ok Hi. cbn [rbind] in Hi. apply rbind_ok in Hi as (ex & Hex & Hi). assert (ex = VInt (t + h * 1000)) as -> by (unfold vmul, vadd, arith in Hex; simpl in Hex; congruence). do 6 unit_ok Hi. injection Hi as <-.
  split; [done|]. do 8 (split; [done|]). done.
Qed.

End StrategyFacts.
