(* ===== verification/StrategyEvidence.v ===== *)
(** * The evidence of a replay

    Models the documents that scripts/hepta_strategy_replay_evaluator.py seals and checks: the
    observation policy, the final audit, the decision set with its receipts and the mark set
    with the records of its segments.  A document is decoded JSON; every check raises a
    [ContractError] with its reason.  The module [StrategyMarks] holds the mark set. *)

From Stdlib Require Import Ascii QArith Floats.SpecFloat.
From S2P Require Import Prelude PyText PyValue PyOrder PyBytes Digest PyFloat Contracts Strategy.
From stdpp Require Import base tactics list strings.
From Stdlib Require Import ZArith Lia Bool.
Import Contracts ContractsFile Strategy StrategyReceipt.

Open Scope Z_scope.

Module StrategyEvidence.

(** ** Fields and limits *)

Definition DECISION_SET_FIELDS : list string :=
  ["schema"; "version"; "campaign_id"; "campaign_sha256"; "policy_sha256"; "policy_body_sha256"; "policy"; "final_audit_receipt_sha256";
   "final_audit_body_sha256"; "final_audit_receipt"; "strategy_id"; "strategy_version"; "strategy_sha256"; "generated_at_ms"; "receipt_count";
   "receipts"; "mutation_attempted"; "direct_broker_access"; "live_authorized"; "body_sha256"].
Definition RECEIPT_ENVELOPE_FIELDS : list string := ["receipt_sha256"; "receipt_file_sha256"; "receipt"].
Definition MARK_SET_FIELDS : list string :=
  ["schema"; "version"; "campaign_id"; "campaign_sha256"; "policy_sha256"; "policy_body_sha256"; "policy"; "final_audit_receipt_sha256";
   "final_audit_body_sha256"; "final_audit_receipt"; "strategy_id"; "strategy_version"; "strategy_sha256"; "instrument"; "provider";
   "source_ref"; "observed_at_ms"; "cadence_ms"; "maximum_jitter_ms"; "domain_id"; "agent_uid"; "catalog_sha256"; "descriptor_sha256";
   "execution_service_epoch"; "execution_service_fencing_generation"; "segment_count"; "record_count"; "segments"; "marks";
   "mutation_attempted"; "direct_broker_access"; "live_authorized"; "body_sha256"].
Definition MARK_FIELDS : list string :=
  ["segment_index"; "sequence"; "cadence_ms"; "maximum_jitter_ms"; "previous_record_sha256"; "record_body_sha256"; "snapshot_body_sha256";
   "snapshot_file_sha256"; "domain_id"; "agent_uid"; "catalog_sha256"; "descriptor_sha256"; "execution_service_epoch";
   "execution_service_fencing_generation"; "watch_generation"; "collection_started_at_ms"; "collection_finished_at_ms";
   "quote_read_finished_at_ms"; "observed_at_ms"; "stale_after_ms"; "bid"; "ask"; "quote_changed"; "record"; "mark_body_sha256"].
Definition FINAL_AUDIT_FIELDS : list string :=
  ["schema"; "version"; "campaign_id"; "campaign_sha256"; "policy_sha256"; "strategy_id"; "strategy_version"; "strategy_sha256";
   "completed_iterations"; "maximum_iterations"; "finalized_at_ms"; "segment_count"; "segments"; "sample_count"; "missed_sample_count";
   "missed_decision_count"; "payload_bytes_before_final_receipt"; "payload_files_before_final_receipt";
   "payload_accumulator_before_final_receipt"; "paper_authorized"; "live_authorized"; "mutation_attempted"; "direct_broker_access"; "body_sha256"].
Definition FINAL_AUDIT_SEGMENT_FIELDS : list string :=
  ["segment_index"; "record_count"; "history_head_sha256"; "source_sha256"; "history_record_bytes"; "history_index_bytes";
   "history_storage_bytes"; "audit_sha256"].
Definition RESULT_BOUNDARY_FIELDS : list string := ["mutation_attempted"; "direct_broker_access"; "live_authorized"].
Definition MAXIMUM_REPLAY_RECORDS : Z := 2000000.
Definition MARK_PROVIDER : string := "HEPTA_AUDITED_IMMUTABLE_SHADOW_HISTORY".

(** Of the shadow runner. *)
Definition POLICY_SCHEMA : string := "hepta.strategy-shadow-observation-policy.v1".
Definition CAMPAIGN_BINDING_SCHEMA : string := "hepta.strategy-shadow-observation-campaign.v1".
Definition SLOT_INTERVAL_MS : Z := 120000.
Definition MAXIMUM_POLICY_ITERATIONS : Z := 10000.
Definition MAXIMUM_RECEIPTS : Z := MAXIMUM_POLICY_ITERATIONS.
Definition OBSERVATION_POLICY_FIELDS : list string :=
  ["schema"; "version"; "campaign_id"; "campaign_sha256"; "strategy_id"; "strategy_version"; "strategy_sha256"; "valid_after_ms";
   "expires_at_ms"; "slot_interval_ms"; "maximum_iterations"; "maximum_lateness_ms"; "shadow_only"; "paper_authorized"; "live_authorized";
   "mutation_attempted"; "direct_broker_access"; "body_sha256"].

(** Of the market history. *)
Definition MIN_CADENCE_MS : Z := 5000.
Definition MAX_CADENCE_MS : Z := 15000.
Definition MAXIMUM_JITTER_MS : Z := 2000.
Definition BUILDER_MAXIMUM_QUOTE_GAP_MS : Z := 15000.
Definition READ_ORDER : list string :=
  ["account.get_summary"; "portfolio.list_positions"; "orders.list"; "risk.get_limits"; "market.get_quote"; "system.get_health"].
Definition RECORD_FIELDS : list string :=
  ["schema"; "version"; "sequence"; "cadence_ms"; "maximum_jitter_ms"; "previous_record_sha256"; "snapshot_body_sha256";
   "snapshot_file_sha256"; "domain_id"; "agent_uid"; "instrument"; "catalog_sha256"; "descriptor_sha256"; "execution_service_epoch";
   "execution_service_fencing_generation"; "watch_generation"; "watch_lease_receipt_body_sha256"; "watch_lease_receipt_file_sha256";
   "watch_lease_operation"; "watch_lease_previous_generation"; "watch_lease_previous_receipt_body_sha256"; "watch_lease_accepted_at_ms";
   "watch_lease_ttl_seconds"; "watch_lease_expires_at_ms"; "watch_export_receipt_body_sha256"; "watch_export_receipt_file_sha256";
   "watch_exported_at_ms"; "watch_export_reader_uid"; "watch_export_reader_gid"; "collection_started_at_ms"; "collection_finished_at_ms";
   "generated_at_ms"; "quote_read_finished_at_ms"; "quote_changed"; "quote"; "record_sha256"].
Definition QUOTE_FIELDS : list string := ["source"; "authoritative"; "stale"; "bid"; "ask"; "observed_at_ms"; "stale_after_ms"].

(** [enumerate(l, start)] *)
Fixpoint enumerate {A} (start : Z) (l : list A) : list (Z * A) := match l with [] => [] | x :: l => (start, x) :: enumerate (start + 1) l end.

(** [any(a[f] != b[f] for f in fields)] *)
Definition differ (a b : dict) (fields : list string) : bool := existsb (fun f => negb (py_eq (get a f) (get b f))) fields.
(** ... where the second document calls the field by another name. *)
Definition differ_as (a b : dict) (fields : list (string * string)) : bool := existsb (fun f => negb (py_eq (get a f.1) (get b f.2))) fields.

(** A field that was checked to be a text. *)
Definition text_of (v : value) : string := match v with VStr s => s | _ => EmptyString end.

Section evidence.
Context {D : Digest}.

(** The digest a document claims for the rest of it. *)
Definition check_body (document : dict) (field : string) (malformed mismatch : string) : res string :=
  let! claimed := require_digest (get document field) malformed in
  let! actual := digest_document (VDict (dpop field document)) in
  when negb (bool_decide (claimed = actual)) raise contract_error mismatch in
  Ok claimed.

(** ** The observation policy *)

Definition campaign_binding (policy : dict) : value :=
  VDict [("schema", VStr CAMPAIGN_BINDING_SCHEMA); ("campaign_id", get policy "campaign_id"); ("valid_after_ms", get policy "valid_after_ms");
         ("expires_at_ms", get policy "expires_at_ms"); ("slot_interval_ms", get policy "slot_interval_ms");
         ("maximum_iterations", get policy "maximum_iterations"); ("maximum_lateness_ms", get policy "maximum_lateness_ms");
         ("shadow_only", VBool true); ("paper_authorized", VBool false); ("live_authorized", VBool false); ("mutation_attempted", VBool false);
         ("direct_broker_access", VBool false)].

Definition validate_policy (document : value) (expected_file_sha256 : string) : res dict :=
  let! policy := require_exact_fields document OBSERVATION_POLICY_FIELDS "REPLAY_POLICY_FIELDS_INVALID" in
  when negb (eq_str (get policy "schema") POLICY_SCHEMA) || negb (eq_int (get policy "version") 1) raise contract_error "REPLAY_POLICY_SCHEMA_INVALID" in
  let! _ := each ["campaign_id"; "strategy_id"; "strategy_version"]
              (fun f => let! _ := require_identifier (get policy f) "REPLAY_POLICY_BINDING_INVALID" in Ok tt) in
  let! _ := each ["campaign_sha256"; "strategy_sha256"; "body_sha256"]
              (fun f => let! _ := require_digest (get policy f) "REPLAY_POLICY_DIGEST_INVALID" in Ok tt) in
  let! valid_after := require_int (get policy "valid_after_ms") "REPLAY_POLICY_TIME_INVALID" (Some 0) None in
  let! expires := require_int (get policy "expires_at_ms") "REPLAY_POLICY_TIME_INVALID" (Some (valid_after + 1)) None in
  let! slot := require_int (get policy "slot_interval_ms") "REPLAY_POLICY_CADENCE_INVALID" (Some SLOT_INTERVAL_MS) (Some SLOT_INTERVAL_MS) in
  let! iterations := require_int (get policy "maximum_iterations") "REPLAY_POLICY_ITERATIONS_INVALID" (Some 1) (Some MAXIMUM_RECEIPTS) in
  let! lateness := require_int (get policy "maximum_lateness_ms") "REPLAY_POLICY_LATENESS_INVALID" (Some 0) (Some (slot - 1)) in
  let! _ := require_bool (get policy "shadow_only") true "REPLAY_POLICY_BOUNDARY_INVALID" in
  let! _ := each ["paper_authorized"; "live_authorized"; "mutation_attempted"; "direct_broker_access"]
              (fun f => require_bool (get policy f) false "REPLAY_POLICY_BOUNDARY_INVALID") in
  when expires <=? valid_after + (iterations - 1) * slot + lateness raise contract_error "REPLAY_POLICY_WINDOW_INVALID" in
  let! campaign := digest_document (campaign_binding policy) in
  when negb (eq_str (get policy "campaign_sha256") campaign) raise contract_error "REPLAY_POLICY_CAMPAIGN_DIGEST_MISMATCH" in
  let! body := digest_document (VDict (dpop "body_sha256" policy)) in
  when negb (eq_str (get policy "body_sha256") body) raise contract_error "REPLAY_POLICY_BODY_DIGEST_MISMATCH" in
  let! file := digest_document (VDict policy) in
  when negb (bool_decide (expected_file_sha256 = file)) raise contract_error "REPLAY_POLICY_FILE_DIGEST_MISMATCH" in
  Ok policy.

(** ** The final audit *)

Definition validate_segment (expected_index : Z) (v : value) : res dict :=
  let! segment := require_exact_fields v FINAL_AUDIT_SEGMENT_FIELDS "REPLAY_FINAL_AUDIT_SEGMENT_FIELDS_INVALID" in
  let! _ := require_int (get segment "segment_index") "REPLAY_FINAL_AUDIT_SEGMENT_INDEX_INVALID" (Some expected_index) (Some expected_index) in
  let! _ := require_int (get segment "record_count") "REPLAY_FINAL_AUDIT_RECORD_COUNT_INVALID" (Some 1) (Some MAXIMUM_REPLAY_RECORDS) in
  let! _ := each ["history_head_sha256"; "source_sha256"; "audit_sha256"]
              (fun f => let! _ := require_digest (get segment f) "REPLAY_FINAL_AUDIT_DIGEST_INVALID" in Ok tt) in
  let! records := require_int (get segment "history_record_bytes") "REPLAY_FINAL_AUDIT_SIZE_INVALID" (Some 1) None in
  let! index := require_int (get segment "history_index_bytes") "REPLAY_FINAL_AUDIT_SIZE_INVALID" (Some 1) None in
  let! _ := require_int (get segment "history_storage_bytes") "REPLAY_FINAL_AUDIT_SIZE_INVALID" (Some (records + index)) (Some (records + index)) in
  Ok segment.

Definition zsum (l : list Z) : Z := foldr Z.add 0 l.

Definition nonzero (v : value) (reason : string) : res bool := let! n := require_int v reason (Some 0) None in Ok (negb (n =? 0)).

Definition audit_bindings (policy : dict) (policy_sha256 : string) : list (string * value) :=
  [("campaign_id", get policy "campaign_id"); ("campaign_sha256", get policy "campaign_sha256"); ("policy_sha256", VStr policy_sha256);
   ("strategy_id", get policy "strategy_id"); ("strategy_version", get policy "strategy_version");
   ("strategy_sha256", get policy "strategy_sha256"); ("maximum_iterations", get policy "maximum_iterations")].

(** The audit and its segments. *)
Definition validate_final_audit (document : value) (policy : dict) (policy_sha256 expected_file_sha256 : string) : res (dict * list dict) :=
  let! audit := require_exact_fields document FINAL_AUDIT_FIELDS "REPLAY_FINAL_AUDIT_FIELDS_INVALID" in
  when negb (eq_str (get audit "schema") "hepta.bounded-shadow-final-audit-receipt.v2") || negb (eq_int (get audit "version") 2)
  raise contract_error "REPLAY_FINAL_AUDIT_SCHEMA_INVALID" in
  when existsb (fun b => negb (py_eq (get audit b.1) b.2)) (audit_bindings policy policy_sha256)
  raise contract_error "REPLAY_FINAL_AUDIT_BINDING_INVALID" in
  let! completed := require_int (get audit "completed_iterations") "REPLAY_FINAL_AUDIT_ITERATIONS_INVALID" (Some 1) (Some MAXIMUM_RECEIPTS) in
  when negb (completed =? iget policy "maximum_iterations") raise contract_error "REPLAY_FINAL_AUDIT_INCOMPLETE" in
  let! _ := require_int (get audit "finalized_at_ms") "REPLAY_FINAL_AUDIT_TIME_INVALID" (Some (iget policy "valid_after_ms")) None in
  let! count := require_int (get audit "segment_count") "REPLAY_FINAL_AUDIT_SEGMENTS_INVALID" (Some 1) (Some MAXIMUM_REPLAY_RECORDS) in
  let! values := match get audit "segments" with
                 | VList l => when negb (Z.of_nat (length l) =? count) raise contract_error "REPLAY_FINAL_AUDIT_SEGMENTS_INVALID" in Ok l
                 | _ => Raise (contract_error "REPLAY_FINAL_AUDIT_SEGMENTS_INVALID")
                 end in
  let! segments := rmapM (fun iv => validate_segment iv.1 iv.2) (enumerate 1 values) in
  let! samples := require_int (get audit "sample_count") "REPLAY_FINAL_AUDIT_SAMPLE_COUNT_INVALID" (Some 1) (Some MAXIMUM_REPLAY_RECORDS) in
  when negb (samples =? zsum (map (fun s => iget s "record_count") segments)) raise contract_error "REPLAY_FINAL_AUDIT_SAMPLE_COUNT_DRIFT" in
  when! nonzero (get audit "missed_sample_count") "REPLAY_FINAL_AUDIT_MISSED_SAMPLE_COUNT_INVALID" ||?
        nonzero (get audit "missed_decision_count") "REPLAY_FINAL_AUDIT_MISSED_DECISION_COUNT_INVALID"
  raise contract_error "REPLAY_FINAL_AUDIT_MISSED_COUNT_NONZERO" in
  let! _ := require_int (get audit "payload_bytes_before_final_receipt") "REPLAY_FINAL_AUDIT_PAYLOAD_INVALID" (Some 0) None in
  let! _ := require_int (get audit "payload_files_before_final_receipt") "REPLAY_FINAL_AUDIT_PAYLOAD_INVALID" (Some 0) None in
  let! _ := require_digest (get audit "payload_accumulator_before_final_receipt") "REPLAY_FINAL_AUDIT_PAYLOAD_INVALID" in
  let! _ := each ["paper_authorized"; "live_authorized"; "mutation_attempted"; "direct_broker_access"]
              (fun f => require_bool (get audit f) false "REPLAY_FINAL_AUDIT_BOUNDARY_INVALID") in
  let! _ := check_body audit "body_sha256" "REPLAY_FINAL_AUDIT_DIGEST_INVALID" "REPLAY_FINAL_AUDIT_BODY_DIGEST_MISMATCH" in
  let! file := digest_document (VDict audit) in
  when negb (bool_decide (expected_file_sha256 = file)) raise contract_error "REPLAY_FINAL_AUDIT_FILE_DIGEST_MISMATCH" in
  Ok (audit, segments).

(** The policy and the audit a sealed set carries. *)
Definition binding_documents (policy : dict) (policy_sha256 : string) (audit : dict) (audit_sha256 : string) : dict :=
  [("campaign_id", get policy "campaign_id"); ("campaign_sha256", get policy "campaign_sha256"); ("policy_sha256", VStr policy_sha256);
   ("policy_body_sha256", get policy "body_sha256"); ("policy", VDict policy); ("final_audit_receipt_sha256", VStr audit_sha256);
   ("final_audit_body_sha256", get audit "body_sha256"); ("final_audit_receipt", VDict audit); ("strategy_id", get policy "strategy_id");
   ("strategy_version", get policy "strategy_version"); ("strategy_sha256", get policy "strategy_sha256")].

Definition load_binding_documents (document : dict) : res (dict * dict) :=
  let! policy_sha256 := require_digest (get document "policy_sha256") "REPLAY_POLICY_DIGEST_INVALID" in
  let! policy := validate_policy (get document "policy") policy_sha256 in
  when differ_as document policy [("policy_body_sha256", "body_sha256"); ("campaign_id", "campaign_id"); ("campaign_sha256", "campaign_sha256");
                                  ("strategy_id", "strategy_id"); ("strategy_version", "strategy_version"); ("strategy_sha256", "strategy_sha256")]
  raise contract_error "REPLAY_POLICY_BINDING_INVALID" in
  let! audit_sha256 := require_digest (get document "final_audit_receipt_sha256") "REPLAY_FINAL_AUDIT_DIGEST_INVALID" in
  let! a := validate_final_audit (get document "final_audit_receipt") policy policy_sha256 audit_sha256 in
  when negb (py_eq (get document "final_audit_body_sha256") (get a.1 "body_sha256")) raise contract_error "REPLAY_FINAL_AUDIT_BINDING_INVALID" in
  Ok (policy, a.1).

(** ** The receipts *)

Record Seen := mkSeen { n_decisions : list string; n_receipts : list string; n_finished : Z; n_kept : list dict }.

Definition receipt_bound (receipt policy : dict) : bool := negb (differ receipt policy ["campaign_id"; "strategy_id"; "strategy_version"; "strategy_sha256"]).

Definition validate_envelope (policy audit : dict) (policy_sha256 : string) (n : Seen) (iv : Z * value) : res Seen :=
  let! envelope := require_exact_fields iv.2 RECEIPT_ENVELOPE_FIELDS "REPLAY_RECEIPT_ENVELOPE_FIELDS_INVALID" in
  let document := get envelope "receipt" in
  let! receipt_sha256 := require_digest (get envelope "receipt_sha256") "REPLAY_RECEIPT_DIGEST_INVALID" in
  let! file_sha256 := require_digest (get envelope "receipt_file_sha256") "REPLAY_RECEIPT_DIGEST_INVALID" in
  let! canonical := digest_document document in
  when negb (bool_decide (receipt_sha256 = canonical)) || negb (bool_decide (file_sha256 = canonical))
  raise contract_error "REPLAY_RECEIPT_DIGEST_MISMATCH" in
  when inb receipt_sha256 (n_receipts n) raise contract_error "REPLAY_RECEIPT_DUPLICATE" in
  let! receipt := validate_observation_policy_binding document policy_sha256 (text_of (get policy "campaign_sha256")) in
  when negb (receipt_bound receipt policy) raise contract_error "REPLAY_RECEIPT_POLICY_BINDING_INVALID" in
  let decision_id := text_of (get receipt "decision_id") in
  when inb decision_id (n_decisions n) raise contract_error "REPLAY_DECISION_ID_DUPLICATE" in
  let started := iget receipt "started_at_ms" in
  let finished := iget receipt "finished_at_ms" in
  let scheduled := iget policy "valid_after_ms" + (iv.1 - 1) * iget policy "slot_interval_ms" in
  when negb ((scheduled <=? started) && (started <=? scheduled + iget policy "maximum_lateness_ms"))
  raise contract_error "REPLAY_RECEIPT_SCHEDULE_BINDING_INVALID" in
  when (finished <? started) || (started <=? n_finished n) || (iget audit "finalized_at_ms" <? finished)
  raise contract_error "REPLAY_RECEIPT_TIME_INVALID" in
  Ok (mkSeen (set_add decision_id (n_decisions n)) (set_add receipt_sha256 (n_receipts n)) finished (n_kept n ++ [receipt])).

Definition validate_receipt_envelopes (envelopes : value) (policy audit : dict) (policy_sha256 : string) : res (list dict) :=
  match envelopes with
  | VList l =>
      when negb (Z.of_nat (length l) =? iget audit "completed_iterations") raise contract_error "REPLAY_RECEIPT_SET_INCOMPLETE" in
      let! n := rfold (validate_envelope policy audit policy_sha256) (enumerate 1 l) (mkSeen [] [] (-1) []) in
      Ok (n_kept n)
  | _ => Raise (contract_error "REPLAY_RECEIPT_SET_INCOMPLETE")
  end.

Definition validate_decision_set (value_ : value) : res (list dict) :=
  let! document := require_exact_fields value_ DECISION_SET_FIELDS "REPLAY_DECISION_SET_FIELDS_INVALID" in
  when negb (eq_str (get document "schema") "hepta.strategy-replay-decision-set.v2") || negb (eq_int (get document "version") 2)
  raise contract_error "REPLAY_DECISION_SET_SCHEMA_INVALID" in
  let! _ := each RESULT_BOUNDARY_FIELDS (fun f => require_bool (get document f) false "REPLAY_DECISION_SET_BOUNDARY_INVALID") in
  let! _ := check_body document "body_sha256" "REPLAY_DECISION_SET_DIGEST_INVALID" "REPLAY_DECISION_SET_DIGEST_MISMATCH" in
  let! pa := load_binding_documents document in
  let '(policy, audit) := pa in
  let! _ := require_int (get document "generated_at_ms") "REPLAY_DECISION_SET_TIME_INVALID"
              (Some (iget audit "finalized_at_ms")) (Some (iget audit "finalized_at_ms")) in
  when negb (py_eq (get document "receipt_count") (get audit "completed_iterations")) raise contract_error "REPLAY_RECEIPT_SET_INCOMPLETE" in
  validate_receipt_envelopes (get document "receipts") policy audit (text_of (get document "policy_sha256")).

(** ** Sealing *)

(** A document and the bytes of its file, which are its canonical bytes. *)
Definition canonical_document (label : string) (maximum_bytes : Z) (f : File) : res (dict * string) :=
  let! document := load_document label maximum_bytes f in
  let! canonical := canonical_bytes (VDict document) in
  when negb (bool_decide (f_bytes f = canonical)) raise contract_error (label +:+ "_CANONICAL_INVALID") in
  Ok (document, f_bytes f).

Definition envelope_of (policy : dict) (policy_sha256 : string) (f : File) : res dict :=
  let! rc := canonical_document "REPLAY_DECISION_RECEIPT" 262144 f in
  let document := VDict rc.1 in
  let! receipt := validate_observation_policy_binding document policy_sha256 (text_of (get policy "campaign_sha256")) in
  when negb (receipt_bound receipt policy) raise contract_error "REPLAY_RECEIPT_POLICY_BINDING_INVALID" in
  let! d := digest_document document in
  Ok [("receipt_sha256", VStr d); ("receipt_file_sha256", VStr (digest_bytes rc.2)); ("receipt", document)].

Definition envelope_key (e : dict) : Z * string :=
  match get e "receipt" with VDict r => (iget r "started_at_ms", text_of (get r "decision_id")) | _ => (0, EmptyString) end.

Definition seal_decision_set (policy_file audit_file : File) (receipt_files : list File) : res dict :=
  let! pc := canonical_document "REPLAY_POLICY" 65536 policy_file in
  let policy_sha256 := digest_bytes pc.2 in
  let! policy := validate_policy (VDict pc.1) policy_sha256 in
  let! ac := canonical_document "REPLAY_FINAL_AUDIT" (Z.shiftl 4 20) audit_file in
  let audit_sha256 := digest_bytes ac.2 in
  let! a := validate_final_audit (VDict ac.1) policy policy_sha256 audit_sha256 in
  let audit := a.1 in
  when negb (Z.of_nat (length receipt_files) =? iget audit "completed_iterations") raise contract_error "REPLAY_RECEIPT_SET_INCOMPLETE" in
  let! envelopes := rmapM (envelope_of policy policy_sha256) receipt_files in
  let envelopes := map VDict (sorted_key envelope_key envelopes) in
  let! _ := validate_receipt_envelopes (VList envelopes) policy audit policy_sha256 in
  let body := [("schema", VStr "hepta.strategy-replay-decision-set.v2"); ("version", VInt 2)] ++
              binding_documents policy policy_sha256 audit audit_sha256 ++
              [("generated_at_ms", get audit "finalized_at_ms"); ("receipt_count", VInt (Z.of_nat (length envelopes))); ("receipts", VList envelopes);
               ("mutation_attempted", VBool false); ("direct_broker_access", VBool false); ("live_authorized", VBool false)] in
  let! d := digest_document (VDict body) in
  Ok (body ++ [("body_sha256", VStr d)]).
End evidence.

End StrategyEvidence.

(** * The marks of a replay

    Models the mark set of scripts/hepta_strategy_replay_evaluator.py: [_mark_from_record],
    [_validate_mark], [_validate_marks] and [seal_mark_set].  A mark carries the history record it was made
    from; the marks of a set continue each other in time, in sequence and in digest, and
    every segment of the final audit is covered by its marks. *)

Import StrategyEvidence.

Module StrategyMarks.

Section marks.
Context {D : Digest}.

Definition history_source_digest (digests : list value) : res string :=
  digest_document (VDict [("schema", VStr "hepta.shadow-market-bar-source.v1"); ("source_kind", VStr "SHADOW_HISTORY_RECORDS"); ("digests", VList digests)]).

(** The fields a mark copies from its record, under the names of the mark and of the record. *)
Definition record_bindings : list (string * string) :=
  [("sequence", "sequence"); ("cadence_ms", "cadence_ms"); ("maximum_jitter_ms", "maximum_jitter_ms");
   ("previous_record_sha256", "previous_record_sha256"); ("record_body_sha256", "record_sha256");
   ("snapshot_body_sha256", "snapshot_body_sha256"); ("snapshot_file_sha256", "snapshot_file_sha256"); ("domain_id", "domain_id");
   ("agent_uid", "agent_uid"); ("catalog_sha256", "catalog_sha256"); ("descriptor_sha256", "descriptor_sha256");
   ("execution_service_epoch", "execution_service_epoch");
   ("execution_service_fencing_generation", "execution_service_fencing_generation"); ("watch_generation", "watch_generation");
   ("collection_started_at_ms", "collection_started_at_ms"); ("collection_finished_at_ms", "collection_finished_at_ms");
   ("quote_read_finished_at_ms", "quote_read_finished_at_ms"); ("quote_changed", "quote_changed")].
Definition quote_bindings : list (string * string) :=
  [("observed_at_ms", "observed_at_ms"); ("stale_after_ms", "stale_after_ms"); ("bid", "bid"); ("ask", "ask")].
Definition authority_fields : list string :=
  ["domain_id"; "agent_uid"; "catalog_sha256"; "descriptor_sha256"; "execution_service_epoch"; "execution_service_fencing_generation"].

Definition mark_from_record (document : value) (segment_index : Z) : res dict :=
  let! record := require_exact_fields document RECORD_FIELDS "REPLAY_MARK_RECORD_FIELDS_INVALID" in
  when negb (eq_str (get record "schema") "hepta.shadow-market-history-record.v3") || negb (eq_int (get record "version") 3)
  raise contract_error "REPLAY_MARK_RECORD_SCHEMA_INVALID" in
  let quote := get record "quote" in
  let! copied := rmapM (fun f => let! v := subscript quote f.2 in Ok (f.1, v)) quote_bindings in
  let body := [("segment_index", VInt segment_index)] ++ map (fun f => (f.1, get record f.2)) record_bindings ++ copied ++ [("record", VDict record)] in
  let! d := digest_document (VDict body) in
  Ok (body ++ [("mark_body_sha256", VStr d)]).

(** The digests of the descriptors, one for every read. *)
Definition check_descriptors (v : value) : res unit :=
  match v with
  | VDict d =>
      when negb (exact_fields d READ_ORDER) raise contract_error "REPLAY_MARK_DESCRIPTOR_SET_INVALID" in
      rfold (fun _ kv => let! _ := require_digest kv.2 "REPLAY_MARK_SOURCE_DIGEST_INVALID" in Ok tt) d tt
  | _ => Raise (contract_error "REPLAY_MARK_DESCRIPTOR_SET_INVALID")
  end.

(** The record inside a mark and the fields the mark copies from it. *)
Definition check_record (mark : dict) : res unit :=
  let! record := require_exact_fields (get mark "record") RECORD_FIELDS "REPLAY_MARK_RECORD_FIELDS_INVALID" in
  when negb (eq_str (get record "schema") "hepta.shadow-market-history-record.v3") || negb (eq_int (get record "version") 3)
  raise contract_error "REPLAY_MARK_RECORD_SCHEMA_INVALID" in
  let! _ := check_body record "record_sha256" "REPLAY_MARK_RECORD_DIGEST_INVALID" "REPLAY_MARK_RECORD_DIGEST_MISMATCH" in
  let! quote := require_exact_fields (get record "quote") QUOTE_FIELDS "REPLAY_MARK_RECORD_QUOTE_FIELDS_INVALID" in
  when negb (eq_str (get quote "source") "SIMULATOR") || negb (is_true (get quote "authoritative")) || negb (is_false (get quote "stale"))
  raise contract_error "REPLAY_MARK_RECORD_QUOTE_INVALID" in
  when differ_as mark record record_bindings raise contract_error "REPLAY_MARK_RECORD_BINDING_INVALID" in
  when differ_as mark quote quote_bindings raise contract_error "REPLAY_MARK_RECORD_BINDING_INVALID" in
  Ok tt.

(** The digests and the authority of a mark. *)
Definition check_source (mark document : dict) : res unit :=
  let! _ := each ["record_body_sha256"; "snapshot_body_sha256"; "snapshot_file_sha256"; "catalog_sha256"]
              (fun f => let! _ := require_digest (get mark f) "REPLAY_MARK_SOURCE_DIGEST_INVALID" in Ok tt) in
  let! _ := match get mark "previous_record_sha256" with
            | VNone => Ok EmptyString | v => require_digest v "REPLAY_MARK_SOURCE_DIGEST_INVALID" end in
  let! _ := check_descriptors (get mark "descriptor_sha256") in
  let! _ := each ["domain_id"; "execution_service_epoch"]
              (fun f => let! _ := require_identifier (get mark f) "REPLAY_MARK_AUTHORITY_INVALID" in Ok tt) in
  let! _ := require_int (get mark "agent_uid") "REPLAY_MARK_AUTHORITY_INVALID" (Some 1) None in
  let! _ := require_int (get mark "execution_service_fencing_generation") "REPLAY_MARK_AUTHORITY_INVALID" (Some 1) None in
  let! _ := require_int (get mark "watch_generation") "REPLAY_MARK_WATCH_GENERATION_INVALID" (Some 1) None in
  let exactly f := Some (iget document f) in
  let! _ := require_int (get mark "cadence_ms") "REPLAY_MARK_CADENCE_INVALID" (exactly "cadence_ms") (exactly "cadence_ms") in
  let! _ := require_int (get mark "maximum_jitter_ms") "REPLAY_MARK_JITTER_INVALID" (exactly "maximum_jitter_ms") (exactly "maximum_jitter_ms") in
  Ok tt.

(** The times of a mark: when its collection started and when its quote was observed. *)
Definition check_times (mark : dict) : res (Z * Z) :=
  let time f := require_int (get mark f) "REPLAY_MARK_TIME_INVALID" in
  let! started := time "collection_started_at_ms" (Some 0) None in
  let! finished := time "collection_finished_at_ms" (Some started) None in
  let! quote_read := time "quote_read_finished_at_ms" (Some started) (Some finished) in
  let! observed := time "observed_at_ms" (Some 0) (Some quote_read) in
  let! _ := time "stale_after_ms" (Some quote_read) (Some (observed + 60000)) in
  Ok (started, observed).

Definition validate_mark (v : value) (document : dict) : res dict :=
  let! mark := require_exact_fields v MARK_FIELDS "REPLAY_MARK_FIELDS_INVALID" in
  let! _ := check_body mark "mark_body_sha256" "REPLAY_MARK_BODY_DIGEST_INVALID" "REPLAY_MARK_BODY_DIGEST_MISMATCH" in
  let! _ := check_record mark in
  let! _ := check_source mark document in
  let! times := check_times mark in
  let! bid := require_number (get mark "bid") "REPLAY_MARK_QUOTE_INVALID" true None None in
  let! ask := require_number (get mark "ask") "REPLAY_MARK_QUOTE_INVALID" true None None in
  when fltb ask bid raise contract_error "REPLAY_MARK_QUOTE_INVALID" in
  when negb (match get mark "quote_changed" with VBool _ => true | _ => false end) raise contract_error "REPLAY_MARK_QUOTE_CHANGE_FLAG_INVALID" in
  when differ mark document authority_fields raise contract_error "REPLAY_MARK_AUTHORITY_CONTINUITY_INVALID" in
  Ok (dset "collection_started_at_ms" (VInt times.1) (dset "observed_at_ms" (VInt times.2)
        (dset "mid" (VFloat (fdiv (fadd bid ask) (literal 2 0))) (dset "ask" (VFloat ask) (dset "bid" (VFloat bid) mark))))).

(** ** The continuity of a mark set *)

(** The marks so far, all of them and by segment. *)
Record Marks := mkMarks { k_all : list dict; k_segments : list (Z * list dict) }.

Definition segment_marks (k : Marks) (i : Z) : list dict := dget_or [] i (k_segments k).

(** A mark follows the one before it. *)
Definition follows (cadence jitter : Z) (previous mark : dict) : bool :=
  let capture_gap := iget mark "collection_started_at_ms" - iget previous "collection_started_at_ms" in
  let quote_gap := iget mark "observed_at_ms" - iget previous "observed_at_ms" in
  negb (negb ((cadence - jitter <=? capture_gap) && (capture_gap <=? cadence + jitter)) ||
        (is_true (get mark "quote_changed") && negb ((1 <=? quote_gap) && (quote_gap <=? BUILDER_MAXIMUM_QUOTE_GAP_MS))) ||
        (is_false (get mark "quote_changed") && (negb (quote_gap =? 0) || differ mark previous ["observed_at_ms"; "stale_after_ms"; "bid"; "ask"]))).

Definition add_mark (document : dict) (cadence jitter segment_count : Z) (k : Marks) (v : value) : res Marks :=
  let! mark := validate_mark v document in
  let! index := require_int (get mark "segment_index") "REPLAY_MARK_SEGMENT_INDEX_INVALID" (Some 1) (Some segment_count) in
  let! sequence := require_int (get mark "sequence") "REPLAY_MARK_SEQUENCE_INVALID" (Some 1) (Some MAXIMUM_REPLAY_RECORDS) in
  let before := segment_marks k index in
  when negb (sequence =? Z.of_nat (length before) + 1) raise contract_error "REPLAY_MARK_SEQUENCE_INVALID" in
  let expected_previous := match last before with None => VNone | Some m => get m "record_body_sha256" end in
  when negb (py_eq (get mark "previous_record_sha256") expected_previous) raise contract_error "REPLAY_MARK_CHAIN_INVALID" in
  let! _ := match last (k_all k) with
            | None => when negb (is_true (get mark "quote_changed")) raise contract_error "REPLAY_MARK_QUOTE_CHANGE_FLAG_INVALID" in Ok tt
            | Some previous =>
                when index <? iget previous "segment_index" raise contract_error "REPLAY_MARK_SEGMENT_ORDER_INVALID" in
                when negb (follows cadence jitter previous mark) raise contract_error "REPLAY_MARK_CADENCE_CONTINUITY_INVALID" in
                Ok tt
            end in
  Ok (mkMarks (k_all k ++ [mark]) (dset index (before ++ [mark]) (k_segments k))).

(** A segment of the audit is what its marks say. *)
Definition check_segment (k : Marks) (segment : value) : res unit :=
  let! index := subscript segment "segment_index" in
  let! index := as_int index in
  let! count := subscript segment "record_count" in
  let! head := subscript segment "history_head_sha256" in
  let! source := subscript segment "source_sha256" in
  let own := segment_marks k index in
  when negb (py_eq (VInt (Z.of_nat (length own))) count) raise contract_error "REPLAY_MARK_SEGMENT_RECORD_COUNT_INVALID" in
  let digests := map (fun m => get m "record_body_sha256") own in
  match last digests with
  | None => Raise index_error
  | Some d =>
      when negb (py_eq head d) raise contract_error "REPLAY_MARK_SEGMENT_SOURCE_MISMATCH" in
      let! expected := history_source_digest digests in
      when negb (eq_str source expected) raise contract_error "REPLAY_MARK_SEGMENT_SOURCE_MISMATCH" in
      Ok tt
  end.

Definition source_ref (segments : list value) : res string :=
  let! parts := rmapM (fun s => let! i := subscript s "segment_index" in let! d := subscript s "source_sha256" in
                                Ok (VDict [("segment_index", i); ("source_sha256", d)])) segments in
  digest_document (VDict [("schema", VStr "hepta.strategy-replay-market-source.v1"); ("segments", VList parts)]).

(** The authority, the cadence and the counts of a mark set. *)
Record Frame := mkFrame { a_audit : dict; a_cadence : Z; a_jitter : Z; a_segments : Z; a_records : Z }.

Definition check_frame (document : dict) : res Frame :=
  let! pa := load_binding_documents document in
  let audit := pa.2 in
  let! cadence := require_int (get document "cadence_ms") "REPLAY_MARK_CADENCE_INVALID" (Some MIN_CADENCE_MS) (Some MAX_CADENCE_MS) in
  let! jitter := require_int (get document "maximum_jitter_ms") "REPLAY_MARK_JITTER_INVALID" (Some 0) (Some MAXIMUM_JITTER_MS) in
  when cadence <=? jitter raise contract_error "REPLAY_MARK_JITTER_INVALID" in
  let! _ := each ["domain_id"; "execution_service_epoch"]
              (fun f => let! _ := require_identifier (get document f) "REPLAY_MARK_AUTHORITY_INVALID" in Ok tt) in
  let! _ := require_int (get document "agent_uid") "REPLAY_MARK_AUTHORITY_INVALID" (Some 1) None in
  let! _ := require_digest (get document "catalog_sha256") "REPLAY_MARK_SOURCE_DIGEST_INVALID" in
  let! _ := check_descriptors (get document "descriptor_sha256") in
  let! _ := require_int (get document "execution_service_fencing_generation") "REPLAY_MARK_AUTHORITY_INVALID" (Some 1) None in
  let! segment_count := require_int (get document "segment_count") "REPLAY_MARK_SEGMENT_COUNT_INVALID" (Some 1) None in
  when negb (py_eq (VInt segment_count) (get audit "segment_count")) || negb (py_eq (get document "segments") (get audit "segments"))
  raise contract_error "REPLAY_MARK_FINAL_AUDIT_BINDING_INVALID" in
  let! record_count := require_int (get document "record_count") "REPLAY_MARK_RECORD_COUNT_INVALID" (Some 1) (Some MAXIMUM_REPLAY_RECORDS) in
  Ok (mkFrame audit cadence jitter segment_count record_count).

Definition no_marks (segment_count : Z) : Marks := mkMarks [] (map (fun i => (Z.of_nat i, [])) (seq 1 (Z.to_nat segment_count))).

Definition validate_marks (value_ : value) : res (list dict) :=
  let! document := require_exact_fields value_ MARK_SET_FIELDS "REPLAY_MARK_SET_FIELDS_INVALID" in
  when negb (eq_str (get document "schema") "hepta.authoritative-replay-marks.v3") || negb (eq_int (get document "version") 3) ||
       negb (eq_str (get document "instrument") "EUR.USD") || negb (eq_str (get document "provider") MARK_PROVIDER)
  raise contract_error "REPLAY_MARK_SET_SCHEMA_INVALID" in
  let! _ := each RESULT_BOUNDARY_FIELDS (fun f => require_bool (get document f) false "REPLAY_MARK_SET_BOUNDARY_INVALID") in
  let! _ := check_body document "body_sha256" "REPLAY_MARK_SET_DIGEST_INVALID" "REPLAY_MARK_SET_DIGEST_MISMATCH" in
  let! a := check_frame document in
  let! values := match get document "marks" with
                 | VList l => when negb (Z.of_nat (length l) =? a_records a) raise contract_error "REPLAY_MARK_RECORD_COUNT_INVALID" in Ok l
                 | _ => Raise (contract_error "REPLAY_MARK_RECORD_COUNT_INVALID")
                 end in
  let! k := rfold (add_mark document (a_cadence a) (a_jitter a) (a_segments a)) values (no_marks (a_segments a)) in
  let! segments := as_list (get (a_audit a) "segments") in
  let! _ := rfold (fun _ s => check_segment k s) segments tt in
  let! expected := source_ref segments in
  when negb (eq_str (get document "source_ref") expected) raise contract_error "REPLAY_MARK_SOURCE_REF_MISMATCH" in
  match last (k_all k) with
  | None => Raise index_error
  | Some m =>
      when negb (py_eq (get document "observed_at_ms") (get m "observed_at_ms")) raise contract_error "REPLAY_MARK_SET_TIME_INVALID" in
      Ok (k_all k)
  end.
(** ** Sealing a mark set *)

(** What the market history answers for a directory: its full audit and its records, [None]
    for a [HistoryError]. *)
Record History := mkHistory { h_audit : option dict; h_records : option (list value) }.

Definition audit_matches_segment (audit segment : dict) : res bool :=
  Ok (eq_str (get audit "status") "valid" &&
      negb (differ segment audit ["record_count"; "history_head_sha256"; "source_sha256"; "history_record_bytes"; "history_index_bytes";
                                  "history_storage_bytes"])) &&?
  (let! d := digest_document (VDict audit) in Ok (eq_str (get segment "audit_sha256") d)).

Definition marks_of_history (sh : dict * History) : res (list dict) :=
  let '(segment, h) := sh in
  match h_audit h, h_records h with
  | Some audit, Some records =>
      when! pnot (audit_matches_segment audit segment) raise contract_error "REPLAY_MARK_HISTORY_AUDIT_BINDING_INVALID" in
      when negb (Z.of_nat (length records) =? iget segment "record_count") raise contract_error "REPLAY_MARK_HISTORY_RECORD_SET_INVALID" in
      rmapM (fun r => mark_from_record r (iget segment "segment_index")) records
  | _, _ => Raise (contract_error "REPLAY_MARK_HISTORY_AUDIT_FAILED")
  end.

Definition seal_mark_set (policy_file audit_file : File) (histories : list History) (cadence_ms maximum_jitter_ms : value) : res dict :=
  let! cadence := require_int cadence_ms "REPLAY_MARK_CADENCE_INVALID" (Some MIN_CADENCE_MS) (Some MAX_CADENCE_MS) in
  let! jitter := require_int maximum_jitter_ms "REPLAY_MARK_JITTER_INVALID" (Some 0) (Some MAXIMUM_JITTER_MS) in
  when cadence <=? jitter raise contract_error "REPLAY_MARK_JITTER_INVALID" in
  let! pc := canonical_document "REPLAY_POLICY" 65536 policy_file in
  let policy_sha256 := digest_bytes pc.2 in
  let! policy := validate_policy (VDict pc.1) policy_sha256 in
  let! ac := canonical_document "REPLAY_FINAL_AUDIT" (Z.shiftl 4 20) audit_file in
  let final_sha256 := digest_bytes ac.2 in
  let! a := validate_final_audit (VDict ac.1) policy policy_sha256 final_sha256 in
  let '(final_audit, segments) := a in
  when negb (Z.of_nat (length histories) =? Z.of_nat (length segments)) raise contract_error "REPLAY_MARK_HISTORY_SEGMENT_SET_INVALID" in
  let! parts := rmapM marks_of_history (zip segments histories) in
  match concat parts with
  | [] => Raise (contract_error "REPLAY_MARKS_EMPTY")
  | (first :: rest) as marks =>
      let! ref := source_ref (map VDict segments) in
      let body := [("schema", VStr "hepta.authoritative-replay-marks.v3"); ("version", VInt 3)] ++
                  binding_documents policy policy_sha256 final_audit final_sha256 ++
                  [("instrument", VStr "EUR.USD"); ("provider", VStr MARK_PROVIDER); ("source_ref", VStr ref);
                   ("observed_at_ms", get (List.last rest first) "observed_at_ms"); ("cadence_ms", VInt cadence); ("maximum_jitter_ms", VInt jitter)] ++
                  map (fun f => (f, get first f)) authority_fields ++
                  [("segment_count", VInt (Z.of_nat (length segments))); ("record_count", VInt (Z.of_nat (length marks)));
                   ("segments", VList (map VDict segments)); ("marks", VList (map VDict marks)); ("mutation_attempted", VBool false);
                   ("direct_broker_access", VBool false); ("live_authorized", VBool false)] in
      let! d := digest_document (VDict body) in
      let document := body ++ [("body_sha256", VStr d)] in
      let! _ := validate_marks (VDict document) in
      Ok document
  end.
End marks.

End StrategyMarks.
