(* ===== verification/StrategyEvidenceFacts.v ===== *)
(** * What accepted mark sets and decision sets are

    The marks of an accepted set are in order of time and of segment, each one follows the
    one before it within the cadence, the records of a segment are numbered from one and
    chained by their digests, and every segment of the audit is covered by its marks.  A
    sealed set is accepted and carries the records it was sealed from.  The
    module [StrategyEvidenceFacts] shows the same of decision sets. *)

From Stdlib Require Import Ascii QArith Floats.SpecFloat.
From S2P Require Import Prelude PyText PyValue RowMonad PyOrder PyBytes Digest PyFloat Contracts Strategy StrategyEvidence.
From stdpp Require Import base tactics list strings.
From Stdlib Require Import ZArith Lia Bool.
Import Contracts ContractsFile Strategy StrategyReceipt StrategyEvidence StrategyMarks.

Open Scope Z_scope.

Module StrategyMarksFacts.

(** ** Fields after an update *)

Ltac getset := repeat (rewrite get_dset_eq || rewrite get_dset_ne by done).

Section facts.
Context {D : Digest}.

(** ** One mark *)

(** What is known of a mark after its checks. *)
Record checked_mark (document m : dict) : Prop := {
  c_quote : exists bid ask, get m "bid" = VFloat bid /\ get m "ask" = VFloat ask /\ is_finite bid = true /\ is_finite ask = true /\
    fleb bid fzero = false /\ fltb ask bid = false;
  c_observed : exists t, get m "observed_at_ms" = VInt t /\ 0 <= t;
  c_started : exists t, get m "collection_started_at_ms" = VInt t /\ iget m "observed_at_ms" <= iget m "quote_read_finished_at_ms";
  c_changed : exists b, get m "quote_changed" = VBool b;
  c_cadence : get m "cadence_ms" = VInt (iget document "cadence_ms");
  c_record : exists record s, get m "record" = VDict record /\ get m "record_body_sha256" = VStr s /\ get record "record_sha256" = VStr s /\
    digest_document (VDict (dpop "record_sha256" record)) = Ok s }.

Lemma differ_as_false a b l x y : differ_as a b l = false -> In (x, y) l -> py_eq (get a x) (get b y) = true.
Proof.
  intros H Hin. unfold differ_as in H. destruct (py_eq (get a x) (get b y)) eqn:E; [done|]. exfalso.
  assert (Ht : existsb (fun f => negb (py_eq (get a f.1) (get b f.2))) l = true) by (apply existsb_exists; exists (x, y); split; [done|by simpl; rewrite E]). congruence.
Qed.

Lemma check_body_ok d f r1 r2 s : check_body d f r1 r2 = Ok s -> get d f = VStr s /\ is_digest s = true /\ digest_document (VDict (dpop f d)) = Ok s.
Proof.
  unfold check_body. intros H. apply rbind_ok in H as (c & Hc & H). apply rbind_ok in H as (a & Ha & H). apply when_ok in H as [Hb [= ->]].
  apply negb_false_iff, bool_decide_eq_true in Hb as <-. apply require_digest_ok in Hc as [-> Hd]. done.
Qed.

Lemma check_record_ok m s : check_record m = Ok tt -> get m "record_body_sha256" = VStr s ->
  exists record, get m "record" = VDict record /\ get record "record_sha256" = VStr s /\ digest_document (VDict (dpop "record_sha256" record)) = Ok s.
Proof.
  unfold check_record. intros H Hs. apply rbind_ok in H as (record & Hr & H). apply when_ok in H as [_ H]. apply rbind_ok in H as (c & Hc & H).
  apply rbind_ok in H as (q & _ & H). apply when_ok in H as [_ H]. apply when_ok in H as [Hd _].
  apply require_exact_fields_ok in Hr as [Hr _]. apply check_body_ok in Hc as (Hc & _ & Hb). exists record. split; [done|].
  assert (E : py_eq (get m "record_body_sha256") (get record "record_sha256") = true) by (apply (differ_as_false _ _ _ _ _ Hd); simpl; tauto).
  rewrite Hs, Hc in E. simpl in E. apply bool_decide_eq_true in E as ->. done.
Qed.

Lemma validate_mark_ok v document m : validate_mark v document = Ok m -> checked_mark document m.
Proof.
  unfold validate_mark. intros H. apply rbind_ok in H as (mark & _ & H). apply rbind_ok in H as (b & _ & H). apply rbind_ok in H as ([] & Hrec & H).
  apply rbind_ok in H as ([] & Hs & H). apply rbind_ok in H as ([started observed] & Ht & H). apply rbind_ok in H as (bid & Hbid & H).
  apply rbind_ok in H as (ask & Hask & H). apply when_ok in H as [Hlt H]. apply when_ok in H as [Hq H]. apply when_ok in H as [Hau [= <-]]. cbn [fst snd].
  apply require_number_ok in Hbid as (_ & Fb & Pb & _). apply require_number_ok in Hask as (_ & Fa & _).
  unfold check_times in Ht. apply rbind_ok in Ht as (st & Hst & Ht). apply rbind_ok in Ht as (fi & Hfi & Ht). apply rbind_ok in Ht as (qr & Hqr & Ht).
  apply rbind_ok in Ht as (ob & Hob & Ht). apply rbind_ok in Ht as (sa & _ & Ht). injection Ht as -> ->.
  apply require_int_ok in Hob as (_ & Ho & Hoq). apply require_int_ok in Hqr as (Hqr & _).
  unfold check_source in Hs. apply rbind_ok in Hs as ([] & He & Hs). do 6 (apply rbind_ok in Hs as (? & _ & Hs)). apply rbind_ok in Hs as (ca & Hca & _). apply require_int_ok in Hca as (Hca & C1 & C2).
  assert (Hsha : exists s, get mark "record_body_sha256" = VStr s).
  { assert (Hx := each_ok _ _ He "record_body_sha256" ltac:(simpl; tauto)). apply rbind_ok in Hx as (s & Hx & _). apply require_digest_ok in Hx as [Hx _]. by exists s. }
  destruct Hsha as [s Hsha]. destruct (check_record_ok _ _ Hrec Hsha) as (record & Hr1 & Hr2 & Hr3).
  split; unfold iget; getset.
  - exists bid, ask. getset. do 4 (split; [done|]). auto.
  - exists observed. auto.
  - exists started. split; [done|]. rewrite Hqr. by apply Hoq.
  - destruct (get mark "quote_changed"); try done. by eexists.
  - rewrite Hca. f_equal. specialize (C1 _ eq_refl). specialize (C2 _ eq_refl). unfold iget in *. lia.
  - exists record, s. getset. auto.
Qed.

(** ** The marks so far *)

Definition segment_of (m : dict) : Z := iget m "segment_index".
Definition of_segment (i : Z) (l : list dict) : list dict := List.filter (fun m => segment_of m =? i) l.

(** Each mark of a list follows the one before it. *)
Definition continuous (cadence jitter : Z) (l : list dict) : Prop :=
  forall n a b, l !! n = Some a -> l !! S n = Some b -> follows cadence jitter a b = true /\ segment_of a <= segment_of b.

(** The records of a segment are numbered from one and chained. *)
Definition chained (l : list dict) : Prop :=
  forall n m, l !! n = Some m -> get m "sequence" = VInt (Z.of_nat n + 1) /\
    get m "previous_record_sha256" = match n with O => VNone | S n => match l !! n with Some p => get p "record_body_sha256" | None => VNone end end.

Record marks_ok (document : dict) (cadence jitter : Z) (k : Marks) : Prop := {
  k_checked : forall m, m ∈ k_all k -> checked_mark document m;
  k_continuous : continuous cadence jitter (k_all k);
  k_partition : forall i, segment_marks k i = of_segment i (k_all k);
  k_chained : forall i, chained (of_segment i (k_all k)) }.

Lemma lookup_snoc {A} (l : list A) x n y : (l ++ [x]) !! n = Some y -> l !! n = Some y \/ n = length l /\ y = x.
Proof.
  intros H. destruct (decide (n < length l)%nat) as [Hl|Hl]; [left; by rewrite lookup_app_l in H|]. rewrite lookup_app_r in H by lia.
  destruct (n - length l)%nat as [|j] eqn:E; simpl in H; [injection H as <-; right; split; [lia|done]|done].
Qed.

Lemma continuous_snoc cadence jitter l m : continuous cadence jitter l ->
  (forall p, last l = Some p -> follows cadence jitter p m = true /\ segment_of p <= segment_of m) -> continuous cadence jitter (l ++ [m]).
Proof.
  intros Hc Hl n a b Ha Hb. apply lookup_snoc in Hb as [Hb|[Hn ->]].
  - apply lookup_snoc in Ha as [Ha|[Hn ->]]; [by apply (Hc n)|]. apply lookup_lt_Some in Hb. lia.
  - apply lookup_snoc in Ha as [Ha|[Hn' ->]]; [|lia]. apply Hl. rewrite last_lookup. by replace (pred (length l)) with n by lia.
Qed.

Lemma chained_snoc l m : chained l -> get m "sequence" = VInt (Z.of_nat (length l) + 1) ->
  get m "previous_record_sha256" = match last l with None => VNone | Some p => get p "record_body_sha256" end -> chained (l ++ [m]).
Proof.
  intros Hc Hs Hp n a Ha. apply lookup_snoc in Ha as [Ha|[-> ->]].
  - destruct (Hc n a Ha) as [H1 H2]. split; [done|]. rewrite H2. destruct n as [|n]; [done|]. apply lookup_lt_Some in Ha. by rewrite lookup_app_l by lia.
  - split; [done|]. rewrite Hp, last_lookup. destruct l as [|x l]; [done|]. cbn [length]. rewrite lookup_app_l by (cbn [length]; lia). simpl.
    by destruct ((x :: l) !! length l).
Qed.

Lemma of_segment_snoc i l m : of_segment i (l ++ [m]) = if segment_of m =? i then of_segment i l ++ [m] else of_segment i l.
Proof. unfold of_segment. rewrite List.filter_app. simpl. destruct (segment_of m =? i); [done|by rewrite app_nil_r]. Qed.

Lemma py_eq_digest v s : py_eq v (VStr s) = true -> v = VStr s.
Proof. destruct v; simpl; try done. intros H. by apply bool_decide_eq_true in H as ->. Qed.
Lemma py_eq_none v : py_eq v VNone = true -> v = VNone.
Proof. by destruct v. Qed.

Lemma add_mark_ok document cadence jitter count k v k' : marks_ok document cadence jitter k -> add_mark document cadence jitter count k v = Ok k' ->
  marks_ok document cadence jitter k' /\ exists m, validate_mark v document = Ok m /\ k_all k' = k_all k ++ [m] /\ 1 <= segment_of m <= count.
Proof.
  intros [H1 H2 H3 H4] H. unfold add_mark in H. apply rbind_ok in H as (m & Hm & H). apply rbind_ok in H as (i & Hi & H). apply rbind_ok in H as (sq & Hsq & H).
  apply when_ok in H as [Hs H]. apply when_ok in H as [Hp H]. apply rbind_ok in H as ([] & Hc & H). injection H as <-.
  apply require_int_ok in Hi as (Hi & Lo & Up). specialize (Lo _ eq_refl). specialize (Up _ eq_refl). apply require_int_ok in Hsq as (Hsq & _).
  assert (Es : segment_of m = i) by (unfold segment_of, iget; by rewrite Hi). rewrite H3 in Hs, Hp. split; [|exists m; split; [done|]; split; [done|lia]].
  assert (Hprev : get m "previous_record_sha256" = match last (of_segment i (k_all k)) with None => VNone | Some p => get p "record_body_sha256" end).
  { apply negb_false_iff in Hp. destruct (last (of_segment i (k_all k))) as [p|] eqn:El; [|by apply py_eq_none].
    assert (Hin : p ∈ k_all k). { apply last_Some in El as (l & El). assert (Hq : In p (of_segment i (k_all k))) by (rewrite El; apply in_app_iff; right; by left).
      apply filter_In in Hq as [Hq _]. by apply list_elem_of_In. }
    destruct (c_record _ _ (H1 p Hin)) as (r & s & _ & E & _). rewrite E in Hp |- *. by apply py_eq_digest. }
  split; cbn [k_all k_segments].
  - intros x Hx. apply elem_of_app in Hx as [Hx|Hx]; [by apply H1|]. apply list_elem_of_singleton in Hx as ->. by apply (validate_mark_ok v).
  - apply continuous_snoc; [done|]. intros p El. rewrite El in Hc. apply when_ok in Hc as [Hseg Hc]. apply when_ok in Hc as [Hf _]. apply negb_false_iff in Hf.
    split; [done|]. rewrite Es. unfold segment_of. lia.
  - intros j. rewrite of_segment_snoc, Es. unfold segment_marks. cbn [k_segments]. unfold dget_or. rewrite dget_dset. destruct (Z.eqb_spec i j) as [<-|Hn].
    + rewrite decide_True by done. f_equal. apply H3.
    + rewrite decide_False by done. apply (H3 j).
  - intros j. rewrite of_segment_snoc, Es. destruct (Z.eqb_spec i j) as [<-|Hn]; [|apply H4]. apply chained_snoc; [apply H4| |done].
    rewrite Hsq. f_equal. apply negb_false_iff, Z.eqb_eq in Hs. done.
Qed.

Lemma add_marks_ok document cadence jitter count values : forall k k', marks_ok document cadence jitter k ->
  rfold (add_mark document cadence jitter count) values k = Ok k' ->
  marks_ok document cadence jitter k' /\ exists new, k_all k' = k_all k ++ new /\ Forall2 (fun v m => validate_mark v document = Ok m) values new /\
    forall m, m ∈ new -> 1 <= segment_of m <= count.
Proof.
  induction values as [|v values IH]; intros k k' Hk H; simpl in H.
  - injection H as <-. split; [done|]. exists []. rewrite app_nil_r. split; [done|]. split; [constructor|]. intros m Hm. by apply elem_of_nil in Hm.
  - apply rbind_ok in H as (k1 & H1 & H). destruct (add_mark_ok _ _ _ _ _ _ _ Hk H1) as (Hk1 & m & Hm & Ea & Hr).
    destruct (IH _ _ Hk1 H) as (Hk' & new & En & Hf & Hn). split; [done|]. exists (m :: new). split; [by rewrite En, Ea, <- app_assoc|]. split; [by constructor|].
    intros x Hx. apply elem_of_cons in Hx as [->|Hx]; [done|by apply Hn].
Qed.

Lemma no_marks_ok document cadence jitter count : marks_ok document cadence jitter (no_marks count).
Proof.
  split; cbn.
  - intros m Hm. by apply elem_of_nil in Hm.
  - intros n a b Ha. by rewrite lookup_nil in Ha.
  - intros i. unfold segment_marks, no_marks, dget_or. cbn [k_segments].
    assert (Hg : forall l, match dget i (map (fun j => (Z.of_nat j, ([] : list dict))) l) with Some w => w | None => [] end = []).
    { induction l as [|j l IH]; simpl; [done|]. by destruct (decide (i = Z.of_nat j)). }
    apply Hg.
  - intros i n m Hm. by rewrite lookup_nil in Hm.
Qed.

(** ** The whole set *)

(** A segment of the audit has as many marks as it has records, ends with the record of its
    head and has the source digest of its records. *)
Definition covered (records : list dict) (segment : value) : Prop :=
  exists s, segment = VDict s /\ let own := of_segment (iget s "segment_index") records in
    get s "record_count" = VInt (Z.of_nat (length own)) /\
    (exists m, last own = Some m /\ get s "history_head_sha256" = get m "record_body_sha256") /\
    exists d, history_source_digest (map (fun m => get m "record_body_sha256") own) = Ok d /\ get s "source_sha256" = VStr d.

Lemma subscript_field v k x : subscript v k = Ok x -> exists d, v = VDict d /\ get d k = x.
Proof.
  destruct v; simpl; try done. intros H. exists d. split; [done|]. unfold item in H. unfold get, getd, dget_or. destruct (dget k d); [by injection H|done].
Qed.
Lemma check_segment_ok document cadence jitter k segment : marks_ok document cadence jitter k -> (exists s, segment = VDict s /\ exists n, get s "record_count" = VInt n) ->
  check_segment k segment = Ok tt -> covered (k_all k) segment.
Proof.
  intros Hk (s & -> & n & Hn) H. unfold check_segment in H. apply rbind_ok in H as (iv & Hi & H). apply rbind_ok in H as (i & Hi2 & H). apply rbind_ok in H as (c & Hc & H).
  apply rbind_ok in H as (head & Hh & H). apply rbind_ok in H as (source & Hso & H). rewrite (k_partition _ _ _ _ Hk) in H. apply when_ok in H as [Hcount H].
  exists s. split; [done|]. apply subscript_field in Hi as (? & [= <-] & Hi). destruct iv; try done. injection Hi2 as ->.
  replace (iget s "segment_index") with i by (unfold iget; by rewrite Hi). apply subscript_field in Hc as (? & [= <-] & <-). apply subscript_field in Hh as (? & [= <-] & <-).
  apply subscript_field in Hso as (? & [= <-] & <-). set (own := of_segment i (k_all k)) in *. split.
  { rewrite Hn in *. apply negb_false_iff in Hcount. simpl in Hcount. apply Z.eqb_eq in Hcount as ->. done. }
  rewrite last_lookup, length_map in H. destruct (map _ own !! _) as [d|] eqn:El; [|done]. apply when_ok in H as [Hd H]. apply rbind_ok in H as (e & He & H). apply when_ok in H as [Hs _].
  apply negb_false_iff in Hd, Hs. apply eq_str_true in Hs. split; [|by exists e]. change (map ?f ?l) with (f <$> l) in El. rewrite list_lookup_fmap in El. destruct (own !! pred (length own)) as [m|] eqn:Em; [|done].
  injection El as <-. exists m. split; [by rewrite last_lookup|]. assert (Hin : m ∈ k_all k).
  { apply list_elem_of_lookup_2, list_elem_of_In in Em. apply filter_In in Em as [Em _]. by apply list_elem_of_In. }
  destruct (c_record _ _ (k_checked _ _ _ _ Hk m Hin)) as (r & t & _ & E & _). rewrite E in *. by apply py_eq_digest.
Qed.

Lemma validate_segment_ok i v s : validate_segment i v = Ok s -> v = VDict s /\ get s "segment_index" = VInt i /\ exists n, get s "record_count" = VInt n /\ 1 <= n.
Proof.
  unfold validate_segment. intros H. apply rbind_ok in H as (d & Hd & H). apply rbind_ok in H as (z & Hz & H). apply rbind_ok in H as (n & Hn & H).
  do 4 (apply rbind_ok in H as (? & _ & H)). injection H as <-. apply require_exact_fields_ok in Hd as [-> _]. apply require_int_ok in Hz as (Hz & L & U).
  specialize (L _ eq_refl). specialize (U _ eq_refl). apply require_int_ok in Hn as (Hn & Ln & _). split; [done|]. split; [rewrite Hz; f_equal; lia|]. exists n. auto.
Qed.

Lemma enumerate_segments values : forall start segments, rmapM (fun iv => validate_segment iv.1 iv.2) (enumerate start values) = Ok segments ->
  values = map VDict segments /\ (forall n s, segments !! n = Some s -> get s "segment_index" = VInt (start + Z.of_nat n)) /\
  forall s, s ∈ segments -> exists n, get s "record_count" = VInt n /\ 1 <= n.
Proof.
  induction values as [|v values IH]; intros start segments H; simpl in H.
  - injection H as <-. split; [done|]. split; intros *; [by rewrite lookup_nil|by intros ?%elem_of_nil].
  - apply rbind_ok in H as (s & Hs & H). apply rbind_ok in H as (rest & Hr & H). injection H as <-. destruct (validate_segment_ok _ _ _ Hs) as (-> & Hi & Hn).
    destruct (IH _ _ Hr) as (-> & H1 & H2). split; [done|]. split.
    + intros [|n] t Ht; simpl in Ht; [injection Ht as <-; rewrite Hi; f_equal; lia|]. rewrite (H1 n t Ht). f_equal. lia.
    + intros t Ht. apply elem_of_cons in Ht as [->|Ht]; [done|by apply H2].
Qed.

Lemma validate_final_audit_ok v policy p e audit segments : validate_final_audit v policy p e = Ok (audit, segments) ->
  v = VDict audit /\ get audit "segments" = VList (map VDict segments) /\ get audit "segment_count" = VInt (Z.of_nat (length segments)) /\
  (forall n s, segments !! n = Some s -> get s "segment_index" = VInt (1 + Z.of_nat n)) /\
  (forall s, s ∈ segments -> exists n, get s "record_count" = VInt n /\ 1 <= n).
Proof.
  unfold validate_final_audit. intros H. apply rbind_ok in H as (d & Hd & H). apply when_ok in H as [_ H]. apply when_ok in H as [_ H].
  apply rbind_ok in H as (c & _ & H). apply when_ok in H as [_ H]. apply rbind_ok in H as (f & _ & H). apply rbind_ok in H as (count & Hc & H).
  apply rbind_ok in H as (values & Hv & H). apply rbind_ok in H as (segs & Hs & H). apply rbind_ok in H as (samples & _ & H). apply when_ok in H as [_ H].
  apply rbind_ok in H as (b & _ & H). destruct b; [done|]. do 5 (apply rbind_ok in H as (? & _ & H)). apply rbind_ok in H as (file & _ & H). apply when_ok in H as [_ H].
  injection H as -> ->. apply require_exact_fields_ok in Hd as [-> _]. apply enumerate_segments in Hs as (-> & H1 & H2).
  destruct (get audit "segments"); try done. apply when_ok in Hv as [Hl [= ->]]. apply require_int_ok in Hc as (Hc & _). split; [done|]. split; [done|]. split; [|done].
  rewrite Hc. f_equal. rewrite length_map in Hl. apply negb_false_iff, Z.eqb_eq in Hl. done.
Qed.

(** The audit counts as many iterations as the policy allows. *)
Lemma validate_final_audit_complete v policy p e audit segments : validate_final_audit v policy p e = Ok (audit, segments) ->
  get audit "completed_iterations" = VInt (iget policy "maximum_iterations").
Proof.
  unfold validate_final_audit. intros H. apply rbind_ok in H as (d & Hd & H). apply when_ok in H as [_ H]. apply when_ok in H as [_ H].
  apply rbind_ok in H as (c & Hc & H). apply when_ok in H as [Hn H]. apply require_int_ok in Hc as (Hc & _). apply negb_false_iff, Z.eqb_eq in Hn. rewrite <- Hn, <- Hc.
  do 4 (apply rbind_ok in H as (? & _ & H)). apply rbind_ok in H as (samples & _ & H). apply when_ok in H as [_ H].
  apply rbind_ok in H as (b & _ & H). destruct b; [done|]. do 5 (apply rbind_ok in H as (? & _ & H)). apply rbind_ok in H as (file & _ & H). apply when_ok in H as [_ H].
  by injection H as -> ->.
Qed.

Lemma validate_policy_iterations v p policy : validate_policy v p = Ok policy ->
  get policy "maximum_iterations" = VInt (iget policy "maximum_iterations") /\ 1 <= iget policy "maximum_iterations".
Proof.
  unfold validate_policy. intros H. apply rbind_ok in H as (d & _ & H). apply when_ok in H as [_ H]. do 5 (apply rbind_ok in H as (? & _ & H)).
  apply rbind_ok in H as (n & Hn & H). do 3 (apply rbind_ok in H as (? & _ & H)). apply when_ok in H as [_ H].
  do 3 (apply rbind_ok in H as (? & _ & H); apply when_ok in H as [_ H]). injection H as ->. apply require_int_ok in Hn as (Hn & L & _). specialize (L _ eq_refl).
  unfold iget. by rewrite Hn.
Qed.

Lemma load_binding_ok document policy audit : load_binding_documents document = Ok (policy, audit) ->
  get document "policy" = VDict policy /\ get document "final_audit_receipt" = VDict audit /\
  exists p e segments, validate_policy (VDict policy) p = Ok policy /\ get document "policy_sha256" = VStr p /\
    validate_final_audit (VDict audit) policy p e = Ok (audit, segments) /\ get document "final_audit_receipt_sha256" = VStr e.
Proof.
  unfold load_binding_documents. intros H. apply rbind_ok in H as (p & Hp & H). apply rbind_ok in H as (pol & Hpol & H). apply when_ok in H as [_ H].
  apply rbind_ok in H as (e & He & H). apply rbind_ok in H as ([a segments] & Ha & H). cbn [fst] in H. apply when_ok in H as [_ H]. injection H as <- <-.
  assert (Hv : get document "policy" = VDict pol).
  { unfold validate_policy in Hpol. apply rbind_ok in Hpol as (d & Hd & Hpol). apply require_exact_fields_ok in Hd as [-> _]. apply when_ok in Hpol as [_ Hpol].
    do 2 (apply rbind_ok in Hpol as (? & _ & Hpol)). do 5 (apply rbind_ok in Hpol as (? & _ & Hpol)). do 2 (apply rbind_ok in Hpol as (? & _ & Hpol)). apply when_ok in Hpol as [_ Hpol].
    do 3 (apply rbind_ok in Hpol as (? & _ & Hpol); apply when_ok in Hpol as [_ Hpol]). by injection Hpol as ->. }
  pose proof (validate_final_audit_ok _ _ _ _ _ _ Ha) as (Hv2 & _). split; [done|]. split; [done|]. exists p, e, segments. rewrite <- Hv, <- Hv2.
  apply require_digest_ok in Hp as [-> _]. apply require_digest_ok in He as [-> _]. auto.
Qed.

Lemma validate_marks_ok v records : validate_marks v = Ok records ->
  exists document audit values segments cadence jitter, v = VDict document /\ get document "final_audit_receipt" = VDict audit /\
    get document "marks" = VList values /\ get audit "segments" = VList (map VDict segments) /\
    get document "cadence_ms" = VInt cadence /\ get document "maximum_jitter_ms" = VInt jitter /\ 0 <= jitter < cadence /\
    Forall2 (fun v m => validate_mark v document = Ok m) values records /\ (forall m, m ∈ records -> checked_mark document m) /\
    continuous cadence jitter records /\ (forall i, chained (of_segment i records)) /\
    (forall m, m ∈ records -> 1 <= segment_of m <= Z.of_nat (length segments)) /\
    forall s, s ∈ segments -> covered records (VDict s).
Proof.
  unfold validate_marks. intros H. apply rbind_ok in H as (document & Hd & H). apply when_ok in H as [_ H]. apply rbind_ok in H as (? & _ & H).
  apply rbind_ok in H as (? & _ & H). apply rbind_ok in H as (a & Ha & H). apply rbind_ok in H as (values & Hv & H). apply rbind_ok in H as (k & Hk & H).
  apply rbind_ok in H as (segs & Hs & H). apply rbind_ok in H as ([] & Hcov & H). apply rbind_ok in H as (ref & _ & H). apply when_ok in H as [_ H].
  destruct (last (k_all k)) as [lastm|]; [|done]. apply when_ok in H as [_ H]. injection H as <-. apply require_exact_fields_ok in Hd as [-> _].
  unfold check_frame in Ha. apply rbind_ok in Ha as ([policy audit] & Hb & Ha). cbn [snd] in Ha. apply rbind_ok in Ha as (cadence & Hc & Ha).
  apply rbind_ok in Ha as (jitter & Hj & Ha). apply when_ok in Ha as [Hlt Ha]. do 5 (apply rbind_ok in Ha as (? & _ & Ha)). apply rbind_ok in Ha as (count & Hcount & Ha).
  apply when_ok in Ha as [Hsc Ha]. apply rbind_ok in Ha as (rc & Hrc & Ha). injection Ha as <-. cbn [a_audit a_cadence a_jitter a_segments a_records] in *.
  destruct (load_binding_ok _ _ _ Hb) as (_ & Haud & p & e & segments & _ & _ & Hva & _). destruct (validate_final_audit_ok _ _ _ _ _ _ Hva) as (_ & Hseg & Hsegc & _ & Hrecs).
  apply require_int_ok in Hc as (Hc & _). apply require_int_ok in Hj as (Hj & L & _). specialize (L _ eq_refl).
  exists document, audit, values, segments, cadence, jitter. do 2 (split; [done|]). destruct (get document "marks"); try done. apply when_ok in Hv as [_ [= ->]].
  do 4 (split; [done|]). split; [lia|]. destruct (add_marks_ok _ _ _ _ _ _ _ (no_marks_ok document cadence jitter count) Hk) as (Hok & new & En & Hf & Hr).
  simpl in En. subst new. split; [done|]. split; [apply Hok|]. split; [apply Hok|]. split; [intros i; apply (k_chained _ _ _ _ Hok i)|]. split.
  - intros m Hm. specialize (Hr m Hm). rewrite Hsegc in Hsc. apply orb_false_elim in Hsc as [Hsc _]. apply negb_false_iff in Hsc. simpl in Hsc. apply Z.eqb_eq in Hsc. rewrite Hsc in Hr. exact Hr.
  - rewrite Hseg in Hs. injection Hs as <-. intros s Hin. apply (check_segment_ok document cadence jitter); [done|destruct (Hrecs s Hin) as (n & Hn & _); by exists s; split; [done|exists n]|].
    clear - Hcov Hin. induction segments as [|t segments IH]; [by apply elem_of_nil in Hin|]. cbn [map rfold] in Hcov. apply rbind_ok in Hcov as ([] & Ht & Hcov).
    apply elem_of_cons in Hin as [->|Hin]; [done|by apply IH].
Qed.

Lemma mark_set_facts v records : validate_marks v = Ok records ->
  exists document cadence jitter, (forall m, m ∈ records -> checked_mark document m) /\ continuous cadence jitter records.
Proof.
  intros H. destruct (validate_marks_ok _ _ H) as (document & audit & values & segments & cadence & jitter & _ & _ & _ & _ & _ & _ & _ & _ & Hc & Hf & _).
  by exists document, cadence, jitter.
Qed.

(** C9: a mark set that is accepted is an unbroken, audited history.  Its records are the
    checked marks of the document in order; each one follows the one before it within the
    cadence and the jitter, with a quote that either is newer or is repeated unchanged; the
    records of every segment are numbered from one and chained by digest, each digest being
    that of the record the mark carries; every mark is in a segment of the final audit, and
    every segment of the audit has as many marks as it has records, ends with the record of
    its head and has the source digest of its records. *)
Theorem mark_set_sound v records : validate_marks v = Ok records ->
  exists document audit values segments cadence jitter, v = VDict document /\ get document "final_audit_receipt" = VDict audit /\
    get document "marks" = VList values /\ get audit "segments" = VList (map VDict segments) /\
    get document "cadence_ms" = VInt cadence /\ get document "maximum_jitter_ms" = VInt jitter /\ 0 <= jitter < cadence /\
    Forall2 (fun v m => validate_mark v document = Ok m) values records /\ (forall m, m ∈ records -> checked_mark document m) /\
    continuous cadence jitter records /\ (forall i, chained (of_segment i records)) /\
    (forall m, m ∈ records -> 1 <= segment_of m <= Z.of_nat (length segments)) /\
    forall s, s ∈ segments -> covered records (VDict s).
Proof. apply validate_marks_ok. Qed.
(** ** Sealing *)

Lemma mark_from_record_ok v i m : mark_from_record v i = Ok m -> get m "record" = v.
Proof.
  unfold mark_from_record. intros H. apply rbind_ok in H as (record & Hr & H). apply when_ok in H as [_ H]. apply rbind_ok in H as (copied & Hc & H).
  apply rbind_ok in H as (d & _ & H). apply Ok_inj in H as <-. apply require_exact_fields_ok in Hr as [-> _].
  assert (E : exists a b c e, copied = [("observed_at_ms", a); ("stale_after_ms", b); ("bid", c); ("ask", e)]).
  { unfold quote_bindings in Hc. cbn [rmapM fst snd] in Hc. destruct (subscript _ "observed_at_ms") as [a|]; [|done]. destruct (subscript _ "stale_after_ms") as [b|]; [|done].
    destruct (subscript _ "bid") as [c|]; [|done]. destruct (subscript _ "ask") as [e|]; [|done]. injection Hc as <-. by exists a, b, c, e. }
  destruct E as (a & b & c & e & ->). reflexivity.
Qed.

Lemma validate_mark_record v document m : validate_mark v document = Ok m -> exists mark, v = VDict mark /\ get m "record" = get mark "record".
Proof.
  unfold validate_mark. intros H. apply rbind_ok in H as (mark & Hm & H). do 6 (apply rbind_ok in H as (? & _ & H)). do 2 (apply when_ok in H as [_ H]).
  apply when_ok in H as [_ H]. apply Ok_inj in H as <-. apply require_exact_fields_ok in Hm as [-> _]. exists mark. split; [done|]. by getset.
Qed.

(** The records the market history answered. *)
Definition records_of (h : History) : list value := default [] (h_records h).

Lemma marks_of_history_ok s h ms : marks_of_history (s, h) = Ok ms -> map (fun m => get m "record") ms = records_of h.
Proof.
  unfold marks_of_history, records_of. destruct (h_audit h), (h_records h) as [records|]; try done. intros H. apply rbind_ok in H as (b & _ & H). destruct b; [done|].
  apply when_ok in H as [_ H]. simpl. revert ms H. induction records as [|r records IH]; intros ms H; simpl in H; [by injection H as <-|].
  apply rbind_ok in H as (m & Hm & H). apply rbind_ok in H as (rest & Hr & H). injection H as <-. simpl. by rewrite (mark_from_record_ok _ _ _ Hm), (IH _ Hr).
Qed.

Lemma marks_of_histories segments : forall histories parts, length histories = length segments -> rmapM marks_of_history (zip segments histories) = Ok parts ->
  map (fun m => get m "record") (concat parts) = concat (map records_of histories).
Proof.
  induction segments as [|s segments IH]; intros [|h histories] parts Hl H; try done; simpl in H; [by injection H as <-|].
  apply rbind_ok in H as (ms & Hm & H). apply rbind_ok in H as (rest & Hr & H). injection H as <-. simpl. rewrite map_app, (marks_of_history_ok _ _ _ Hm).
  f_equal. apply IH; [by injection Hl|done].
Qed.

Lemma validated_records document marks records : Forall2 (fun v m => validate_mark v document = Ok m) (map VDict marks) records ->
  map (fun m => get m "record") records = map (fun m => get m "record") marks.
Proof.
  revert records. induction marks as [|m marks IH]; intros records H; simpl in H; [by apply Forall2_nil_inv_l in H as ->|].
  apply Forall2_cons_inv_l in H as (r & rs & Hr & Hrs & ->). destruct (validate_mark_record _ _ _ Hr) as (mark & [= ->] & E). simpl. by rewrite E, (IH _ Hrs).
Qed.

(** A sealed mark set carries the history and nothing else.  Whenever sealing the records
    of the market history under a policy and a final audit succeeds, checking the sealed
    document succeeds too, and the accepted marks carry exactly the records the history
    answered, segment after segment and in their order. *)
Theorem mark_set_roundtrip policy_file audit_file histories cadence jitter document :
  seal_mark_set policy_file audit_file histories cadence jitter = Ok document ->
  exists records, validate_marks (VDict document) = Ok records /\ map (fun m => get m "record") records = concat (map records_of histories).
Proof.
  unfold seal_mark_set. intros H. apply rbind_ok in H as (c & _ & H). apply rbind_ok in H as (j & _ & H). apply when_ok in H as [_ H]. apply rbind_ok in H as (pc & _ & H).
  apply rbind_ok in H as (policy & _ & H). apply rbind_ok in H as (ac & _ & H). apply rbind_ok in H as ([audit segments] & _ & H). apply when_ok in H as [Hl H].
  apply rbind_ok in H as (parts & Hp & H). apply negb_false_iff, Z.eqb_eq, Nat2Z.inj in Hl. pose proof (marks_of_histories _ _ _ Hl Hp) as E.
  destruct (concat parts) as [|first rest] eqn:Ec; [done|]. apply rbind_ok in H as (ref & _ & H). apply rbind_ok in H as (d & _ & H). apply rbind_ok in H as (records & Hv & H).
  apply Ok_inj in H as <-. exists records. split; [exact Hv|]. destruct (validate_marks_ok _ _ Hv) as (doc & _ & values & _ & _ & _ & Hd & _ & Hm & _ & _ & _ & _ & Hf & _).
  injection Hd as <-. injection Hm as <-. rewrite <- E. exact (validated_records _ (first :: rest) _ Hf).
Qed.
End facts.

End StrategyMarksFacts.

(** * What a sealed decision set is

    The receipts of an accepted decision set are distinct, valid, bound to one policy and one
    for every slot of it, in order of time; and a set that was sealed is accepted, with the
    receipts it was sealed from. *)

Import StrategyMarksFacts.

Module StrategyEvidenceFacts.

Section facts.
Context {D : Digest}.

(** ** Receipts *)

Lemma validate_dict v r : validate v = Ok r -> v = VDict r /\
  exists started finished id, get r "started_at_ms" = VInt started /\ get r "finished_at_ms" = VInt finished /\ started <= finished /\
    get r "decision_id" = VStr id /\ get r "live_authorized" = VBool false /\ get r "mutation_attempted" = VBool false.
Proof.
  unfold validate. intros H. apply rbind_ok in H as (d & Hd & H). apply rbind_ok in H as ([] & Hh & H). apply require_exact_fields_ok in Hd as [-> _].
  assert (E : d = r).
  { apply rbind_ok in H as (b & _ & H). destruct b; [done|]. do 5 (apply rbind_ok in H as (? & _ & H)).
    destruct (eq_str (get d "decision") "NO_TRADE"); [apply when_ok in H as [_ H]; by injection H|apply rbind_ok in H as ([] & _ & H); by injection H]. }
  subst d. split; [done|]. unfold validate_head in Hh. apply when_ok in Hh as [_ Hh]. apply rbind_ok in Hh as ([] & Hid & Hh). do 4 (apply rbind_ok in Hh as (? & _ & Hh)).
  apply rbind_ok in Hh as (started & Hs & Hh). apply rbind_ok in Hh as (finished & Hf & Hh). apply rbind_ok in Hh as ([] & _ & Hh). apply rbind_ok in Hh as ([] & Hl & Hh).
  apply rbind_ok in Hh as ([] & _ & Hh). apply rbind_ok in Hh as ([] & Hm & Hh). apply require_int_ok in Hs as (Hs & _). apply require_int_ok in Hf as (Hf & L & _). specialize (L _ eq_refl).
  pose proof (each_ok _ _ Hid "decision_id" ltac:(simpl; tauto)) as Hx. apply rbind_ok in Hx as (id & Hx & _). apply require_text_ok in Hx as (Hx & _).
  exists started, finished, id. apply require_bool_ok in Hl, Hm. auto 10.
Qed.

Lemma validate_binding_ok v p c r : validate_observation_policy_binding v p c = Ok r -> validate v = Ok r /\
  exists refs, get r "evidence_refs" = VList refs /\ py_in (VStr p) refs = true /\ py_in (VStr c) refs = true.
Proof.
  unfold validate_observation_policy_binding. intros H. apply rbind_ok in H as (d & Hd & H). apply rbind_ok in H as (p' & Hp & H). apply rbind_ok in H as (c' & Hc & H).
  apply rbind_ok in H as (refs & Hr & H). apply when_ok in H as [Hb [= ->]]. split; [done|]. apply require_digest_ok in Hp as [[= <-] _]. apply require_digest_ok in Hc as [[= <-] _].
  exists refs. destruct (get r "evidence_refs"); try done. injection Hr as ->. apply negb_false_iff, andb_prop in Hb. done.
Qed.

(** ** The envelopes *)

(** A receipt in the slot of its iteration. *)
Definition in_slot (policy : dict) (n : nat) (r : dict) : Prop :=
  let scheduled := iget policy "valid_after_ms" + Z.of_nat n * iget policy "slot_interval_ms" in
  scheduled <= iget r "started_at_ms" <= scheduled + iget policy "maximum_lateness_ms".

Record receipts_ok (policy audit : dict) (policy_sha256 : string) (n : Seen) : Prop := {
  s_valid : forall r, r ∈ n_kept n -> validate_observation_policy_binding (VDict r) policy_sha256 (text_of (get policy "campaign_sha256")) = Ok r /\
    receipt_bound r policy = true /\ iget r "finished_at_ms" <= iget audit "finalized_at_ms";
  s_slot : forall i r, n_kept n !! i = Some r -> in_slot policy i r;
  s_ids : n_decisions n = map (fun r => text_of (get r "decision_id")) (n_kept n) /\ NoDup (n_decisions n);
  s_times : forall i r r', n_kept n !! i = Some r -> n_kept n !! S i = Some r' -> iget r "finished_at_ms" < iget r' "started_at_ms";
  s_last : match last (n_kept n) with Some r => n_finished n = iget r "finished_at_ms" | None => n_finished n = -1 end }.

Lemma set_add_fresh x (l : list string) : inb x l = false -> set_add x l = l ++ [x].
Proof. unfold set_add. by intros ->. Qed.

Lemma validate_envelope_ok policy audit p n iv n' : receipts_ok policy audit p n -> iv.1 = Z.of_nat (length (n_kept n)) + 1 ->
  validate_envelope policy audit p n iv = Ok n' ->
  receipts_ok policy audit p n' /\ exists envelope r, iv.2 = VDict envelope /\ get envelope "receipt" = VDict r /\ n_kept n' = n_kept n ++ [r].
Proof.
  intros [H1 H2 [H3 H3'] H4 H5] Hi H. unfold validate_envelope in H. apply rbind_ok in H as (envelope & He & H). apply rbind_ok in H as (rs & _ & H). apply rbind_ok in H as (fs & _ & H).
  apply rbind_ok in H as (c & _ & H). apply when_ok in H as [_ H]. apply when_ok in H as [_ H]. apply rbind_ok in H as (r & Hr & H). apply when_ok in H as [Hb H].
  apply when_ok in H as [Hid H]. apply when_ok in H as [Hs H]. apply when_ok in H as [Ht H]. injection H as <-. apply negb_false_iff in Hb, Hs. apply andb_prop in Hs as [Hs1 Hs2].
  apply orb_false_elim in Ht as [Ht Ht3]. apply orb_false_elim in Ht as [Ht1 Ht2]. apply require_exact_fields_ok in He as [He _].
  destruct (validate_binding_ok _ _ _ _ Hr) as [Hv _]. destruct (validate_dict _ _ Hv) as [Hdoc _]. split; [|exists envelope, r; auto]. split; cbn [n_kept n_decisions n_finished].
  - intros x Hx. apply elem_of_app in Hx as [Hx|Hx]; [by apply H1|]. apply list_elem_of_singleton in Hx as ->. rewrite <- Hdoc. split; [done|]. split; [done|]. lia.
  - intros i x Hx. apply lookup_snoc in Hx as [Hx|[-> ->]]; [by apply H2|]. unfold in_slot. rewrite Hi in Hs1, Hs2. lia.
  - rewrite (set_add_fresh _ _ Hid), H3, map_app. split; [done|]. rewrite <- H3. apply NoDup_app. split; [done|]. split; [|apply NoDup_singleton].
    intros x Hx Hx2. apply list_elem_of_singleton in Hx2 as ->. apply list_elem_of_In, inb_true in Hx. congruence.
  - intros i a b Ha Hb'. apply lookup_snoc in Hb' as [Hb'|[Hn ->]].
    + apply lookup_snoc in Ha as [Ha|[Hn ->]]; [by apply (H4 i)|]. apply lookup_lt_Some in Hb'. lia.
    + apply lookup_snoc in Ha as [Ha|[Hn' _]]; [|lia]. assert (El : last (n_kept n) = Some a) by (rewrite last_lookup; by replace (pred (length (n_kept n))) with i by lia).
      rewrite El in H5. lia.
  - by rewrite last_snoc.
Qed.

Lemma validate_envelopes_ok policy audit p values : forall n n', receipts_ok policy audit p n ->
  rfold (validate_envelope policy audit p) (enumerate (Z.of_nat (length (n_kept n)) + 1) values) n = Ok n' ->
  receipts_ok policy audit p n' /\ exists new, n_kept n' = n_kept n ++ new /\ Forall2 (fun (v : value) (r : dict) => exists e : dict, v = VDict e /\ get e "receipt" = VDict r) values new.
Proof.
  induction values as [|v values IH]; intros n n' Hn H; simpl in H.
  - injection H as <-. split; [done|]. exists []. by rewrite app_nil_r.
  - apply rbind_ok in H as (n1 & H1 & H). destruct (validate_envelope_ok _ _ _ _ (_, v) _ Hn eq_refl H1) as (Hn1 & e & r & He & Hr & Ek).
    replace (Z.of_nat (length (n_kept n)) + 1 + 1) with (Z.of_nat (length (n_kept n1)) + 1) in H by (rewrite Ek, length_app; simpl; lia).
    destruct (IH _ _ Hn1 H) as (Hn' & new & En & Hf). split; [done|]. exists (r :: new). split; [by rewrite En, Ek, <- app_assoc|]. constructor; [by exists e|done].
Qed.

Lemma no_receipts_ok policy audit p : receipts_ok policy audit p (mkSeen [] [] (-1) []).
Proof. split; cbn; [by intros ? ?%elem_of_nil|by intros ? ?; rewrite lookup_nil|split; [done|constructor]|by intros ? ? ?; rewrite lookup_nil|done]. Qed.

Lemma validate_receipt_envelopes_ok v policy audit p receipts : validate_receipt_envelopes v policy audit p = Ok receipts ->
  exists values n, v = VList values /\ n_kept n = receipts /\ receipts_ok policy audit p n /\ Z.of_nat (length receipts) = iget audit "completed_iterations" /\
    Forall2 (fun (v : value) (r : dict) => exists e : dict, v = VDict e /\ get e "receipt" = VDict r) values receipts.
Proof.
  destruct v; try done. unfold validate_receipt_envelopes. intros H. apply when_ok in H as [Hl H]. apply rbind_ok in H as (n & Hn & H). injection H as <-.
  destruct (validate_envelopes_ok policy audit p l _ _ (no_receipts_ok policy audit p) Hn) as (Hok & new & En & Hf). simpl in En. subst new.
  exists l, n. do 3 (split; [done|]). split; [|done]. apply negb_false_iff, Z.eqb_eq in Hl. by rewrite <- (Forall2_length _ _ _ Hf).
Qed.

(** C10: an accepted decision set is the complete record of its campaign.  There is one receipt
    for every iteration of the policy, which are the iterations the final audit counts, each a
    valid receipt that refers to the
    policy and the campaign and names the campaign and the strategy of the policy; receipt [n]
    started in slot [n] of the policy; no two receipts have the same decision, each one
    finished before the next one started and all of them before the campaign was finalized;
    none authorizes live trading or reports a mutation. *)
Theorem decision_set_sound v receipts : validate_decision_set v = Ok receipts ->
  exists document policy audit p, v = VDict document /\ get document "policy" = VDict policy /\ get document "final_audit_receipt" = VDict audit /\
    validate_policy (VDict policy) p = Ok policy /\ get policy "maximum_iterations" = VInt (Z.of_nat (length receipts)) /\
    get audit "completed_iterations" = VInt (Z.of_nat (length receipts)) /\ receipts <> [] /\ NoDup (map (fun r => text_of (get r "decision_id")) receipts) /\
    (forall i r, receipts !! i = Some r -> validate_observation_policy_binding (VDict r) p (text_of (get policy "campaign_sha256")) = Ok r /\
       receipt_bound r policy = true /\ in_slot policy i r /\ iget r "finished_at_ms" <= iget audit "finalized_at_ms" /\
       get r "live_authorized" = VBool false /\ get r "mutation_attempted" = VBool false) /\
    (forall i r r', receipts !! i = Some r -> receipts !! S i = Some r' -> iget r "finished_at_ms" < iget r' "started_at_ms").
Proof.
  unfold validate_decision_set. intros H. apply rbind_ok in H as (document & Hd & H). apply when_ok in H as [_ H]. apply rbind_ok in H as (? & _ & H).
  apply rbind_ok in H as (? & _ & H). apply rbind_ok in H as ([policy audit] & Hb & H). apply rbind_ok in H as (? & _ & H). apply when_ok in H as [_ H].
  destruct (load_binding_ok _ _ _ Hb) as (Hp & Ha & p & e & segments & Hvp & Hps & Hva & _). rewrite Hps in H. cbn [text_of] in H.
  destruct (validate_receipt_envelopes_ok _ _ _ _ _ H) as (values & n & _ & <- & [H1 H2 [H3 H3'] H4 _] & Hlen & _). apply require_exact_fields_ok in Hd as [-> _].
  apply validate_final_audit_complete in Hva. destruct (validate_policy_iterations _ _ _ Hvp) as [Hit Hpos].
  assert (E : Z.of_nat (length (n_kept n)) = iget policy "maximum_iterations") by (rewrite Hlen; unfold iget at 1; by rewrite Hva).
  exists document, policy, audit, p. do 4 (split; [done|]). rewrite E. do 2 (split; [done|]). split; [intros H0; rewrite H0 in E; simpl in E; lia|]. split; [by rewrite <- H3|]. split; [|done]. intros i r Hr.
  destruct (H1 r (list_elem_of_lookup_2 _ _ _ Hr)) as (Hv & Hbound & Hfin). split; [done|]. split; [done|]. split; [by apply H2|]. split; [done|].
  destruct (validate_binding_ok _ _ _ _ Hv) as [Hv' _]. destruct (validate_dict _ _ Hv') as (_ & ? & ? & ? & _ & _ & _ & _ & Hl & Hm). done.
Qed.

(** ** Sealing *)

Definition is_text (v : value) : Prop := exists s, v = VStr s.

Lemma validate_policy_ok v p policy : validate_policy v p = Ok policy -> v = VDict policy /\
  forall f, In f ["campaign_id"; "strategy_id"; "strategy_version"; "campaign_sha256"; "strategy_sha256"; "body_sha256"] -> is_text (get policy f).
Proof.
  unfold validate_policy. intros H. apply rbind_ok in H as (d & Hd & H). apply when_ok in H as [_ H]. apply rbind_ok in H as ([] & Ht & H). apply rbind_ok in H as ([] & Hs & H).
  do 5 (apply rbind_ok in H as (? & _ & H)). do 2 (apply rbind_ok in H as (? & _ & H)). apply when_ok in H as [_ H]. do 3 (apply rbind_ok in H as (? & _ & H); apply when_ok in H as [_ H]).
  injection H as ->. apply require_exact_fields_ok in Hd as [-> _]. split; [done|]. intros f Hf.
  destruct (decide (In f ["campaign_id"; "strategy_id"; "strategy_version"])) as [Hi|Hi].
  - pose proof (each_ok _ _ Ht f Hi) as Hx. apply rbind_ok in Hx as (s & Hx & _). apply require_text_ok in Hx as (Hx & _). by exists s.
  - assert (Hi' : In f ["campaign_sha256"; "strategy_sha256"; "body_sha256"]) by (simpl in *; tauto).
    pose proof (each_ok _ _ Hs f Hi') as Hx. apply rbind_ok in Hx as (s & Hx & _). apply require_digest_ok in Hx as (Hx & _). by exists s.
Qed.

Lemma audit_values v policy p e audit segments : validate_final_audit v policy p e = Ok (audit, segments) ->
  is_text (get audit "body_sha256") /\ get audit "completed_iterations" = VInt (iget audit "completed_iterations") /\
  get audit "finalized_at_ms" = VInt (iget audit "finalized_at_ms").
Proof.
  unfold validate_final_audit. intros H. apply rbind_ok in H as (d & Hd & H). apply when_ok in H as [_ H]. apply when_ok in H as [_ H].
  apply rbind_ok in H as (c & Hc & H). apply when_ok in H as [_ H]. apply rbind_ok in H as (f & Hf & H). do 3 (apply rbind_ok in H as (? & _ & H)).
  apply rbind_ok in H as (samples & _ & H). apply when_ok in H as [_ H]. apply rbind_ok in H as (b & _ & H). destruct b; [done|]. do 4 (apply rbind_ok in H as (? & _ & H)).
  apply rbind_ok in H as (body & Hb & H). apply rbind_ok in H as (file & _ & H). apply when_ok in H as [_ H]. injection H as -> ->.
  apply require_int_ok in Hc as (Hc & _). apply require_int_ok in Hf as (Hf & _). apply check_body_ok in Hb as (Hb & _). unfold iget. rewrite Hc, Hf. split; [by exists body|done].
Qed.

Lemma text_eq v : is_text v -> py_eq v v = true.
Proof. intros [s ->]. simpl. by apply bool_decide_eq_true. Qed.

(** A digest as long as the pattern of digests wants it. *)
Hypothesis digest_size : forall data, slen (digest data) = 64.

Lemma digest_document_digest v d : digest_document v = Ok d -> is_digest d = true.
Proof.
  unfold digest_document, digest_bytes. intros H. apply rbind_ok in H as (b & _ & [= <-]). unfold is_digest. rewrite slen_app, digest_size. simpl. apply digest_hex.
Qed.
Lemma require_digest_of v d reason : digest_document v = Ok d -> require_digest (VStr d) reason = Ok d.
Proof. intros H. simpl. by rewrite (digest_document_digest _ _ H). Qed.

(** A document that carries the binding documents loads them. *)
Lemma load_binding_of document policy p audit e segments :
  validate_policy (VDict policy) p = Ok policy -> validate_final_audit (VDict audit) policy p e = Ok (audit, segments) ->
  is_digest p = true -> is_digest e = true ->
  (forall f v, In (f, v) (binding_documents policy p audit e) -> get document f = v) -> load_binding_documents document = Ok (policy, audit).
Proof.
  intros Hp Ha Dp De Hg. destruct (validate_policy_ok _ _ _ Hp) as [_ Ht]. destruct (audit_values _ _ _ _ _ _ Ha) as (Hab & _).
  assert (G : forall f v, In (f, v) (binding_documents policy p audit e) -> get document f = v) by exact Hg. clear Hg. unfold load_binding_documents, differ_as, existsb. cbn [fst snd].
  rewrite (G "policy_sha256" (VStr p)), (G "policy" (VDict policy)), (G "policy_body_sha256" (get policy "body_sha256")), (G "campaign_id" (get policy "campaign_id")),
    (G "campaign_sha256" (get policy "campaign_sha256")), (G "strategy_id" (get policy "strategy_id")), (G "strategy_version" (get policy "strategy_version")),
    (G "strategy_sha256" (get policy "strategy_sha256")), (G "final_audit_receipt_sha256" (VStr e)), (G "final_audit_receipt" (VDict audit)),
    (G "final_audit_body_sha256" (get audit "body_sha256")) by (unfold binding_documents; simpl; tauto).
  unfold require_digest. rewrite Dp, De. cbn [negb rbind]. rewrite Hp. cbn [rbind]. rewrite !text_eq by (apply Ht; simpl; tauto). cbn [negb orb]. rewrite Ha. cbn [rbind fst].
  by rewrite (text_eq _ Hab).
Qed.

Lemma canonical_document_ok label n f dc : canonical_document label n f = Ok dc -> dc.2 = f_bytes f /\ canonical_bytes (VDict dc.1) = Ok dc.2.
Proof.
  unfold canonical_document. intros H. apply rbind_ok in H as (d & _ & H). apply rbind_ok in H as (b & Hb & H). apply when_ok in H as [Hc H].
  apply negb_false_iff, bool_decide_eq_true in Hc. injection H as <-. split; [done|]. by rewrite Hc.
Qed.
Lemma canonical_document_digest label n f dc : canonical_document label n f = Ok dc -> digest_document (VDict dc.1) = Ok (digest_bytes dc.2).
Proof. intros [_ H]%canonical_document_ok. unfold digest_document. by rewrite H. Qed.

(** What a file must hold for a value to be its document. *)
Definition contents_of (v : value) (f : File) : Prop := canonical_bytes v = Ok (f_bytes f).

Lemma envelope_of_ok policy p f e : envelope_of policy p f = Ok e -> contents_of (get e "receipt") f.
Proof.
  unfold envelope_of, contents_of. intros H. apply rbind_ok in H as (rc & Hc & H). apply rbind_ok in H as (r & _ & H). apply when_ok in H as [_ H].
  apply rbind_ok in H as (d & _ & H). injection H as <-. destruct (canonical_document_ok _ _ _ _ Hc) as [E Hd]. by rewrite E in Hd.
Qed.

Lemma sealed_contents policy p files envelopes : rmapM (envelope_of policy p) files = Ok envelopes ->
  Forall2 contents_of (map (fun e => get e "receipt") envelopes) files.
Proof.
  revert envelopes. induction files as [|f files IH]; intros envelopes He; simpl in He; [injection He as <-; constructor|].
  apply rbind_ok in He as (e & H1 & He). apply rbind_ok in He as (es & H2 & He). injection He as <-. simpl. constructor; [by apply envelope_of_ok in H1|by apply IH].
Qed.

Lemma sealed_permutation policy p files envelopes receipts : rmapM (envelope_of policy p) files = Ok envelopes ->
  Forall2 (fun (v : value) (r : dict) => exists e : dict, v = VDict e /\ get e "receipt" = VDict r) (map VDict (sorted_key envelope_key envelopes)) receipts ->
  exists documents, Permutation (map VDict receipts) documents /\ Forall2 contents_of documents files.
Proof.
  intros He Hf. exists (map (fun e => get e "receipt") envelopes). split; [|by apply (sealed_contents policy p)].
  assert (E1 : map VDict receipts = map (fun e => get e "receipt") (sorted_key envelope_key envelopes)).
  { clear He. revert Hf. generalize (sorted_key envelope_key envelopes). intros l. revert receipts. induction l as [|x l IH]; intros receipts Hf; [by apply Forall2_nil_inv_l in Hf as ->|].
    apply Forall2_cons_inv_l in Hf as (r & rs & (e & E & Hr) & Hf & ->). injection E as ->. simpl. rewrite Hr. f_equal. by apply IH. }
  rewrite E1. apply Permutation_map, sorted_by_perm.
Qed.

(** A sealed decision set is accepted.  Whenever sealing the files of a policy, of a final
    audit and of receipts succeeds, checking the sealed document succeeds too and returns, in
    the order of their slots, exactly the receipts whose canonical bytes the files hold. *)
Theorem decision_set_roundtrip policy_file audit_file files sealed :
  seal_decision_set policy_file audit_file files = Ok sealed ->
  exists receipts documents, validate_decision_set (VDict sealed) = Ok receipts /\
    Permutation (map VDict receipts) documents /\ Forall2 (fun v f => canonical_bytes v = Ok (f_bytes f)) documents files.
Proof.
  unfold seal_decision_set. intros H. apply rbind_ok in H as ([pd pb] & Hpd & H). apply canonical_document_digest in Hpd. cbn [fst snd] in *.
  apply rbind_ok in H as (policy & Hp & H). apply rbind_ok in H as ([ad ab] & Hed & H). apply canonical_document_digest in Hed. cbn [fst snd] in *.
  set (p := digest_bytes pb) in *. set (e := digest_bytes ab) in *.
  apply rbind_ok in H as ([audit segments] & Ha & H). cbn [fst] in H. apply when_ok in H as [Hlen H]. apply rbind_ok in H as (envelopes & He & H).
  apply rbind_ok in H as (receipts & Hr & H). apply rbind_ok in H as (d & Hd & H). apply Ok_inj in H as <-.
  destruct (validate_policy_ok _ _ _ Hp) as [Ep _]. destruct (validate_final_audit_ok _ _ _ _ _ _ Ha) as [Ea _].
  injection Ep as ->. injection Ea as ->. destruct (audit_values _ _ _ _ _ _ Ha) as (_ & Hco & Hfi).
  pose proof (validate_receipt_envelopes_ok _ _ _ _ _ Hr) as (values & n & [= <-] & _ & _ & Hcount & Hf).
  destruct (sealed_permutation policy p files envelopes receipts He Hf) as (documents & Hperm & Hc). exists receipts, documents. split; [|by split].
  match goal with |- validate_decision_set (VDict (?b ++ _)) = _ => set (body := b) in * end. set (document := body ++ [("body_sha256", VStr d)]). unfold validate_decision_set.
  change (require_exact_fields (VDict document) DECISION_SET_FIELDS "REPLAY_DECISION_SET_FIELDS_INVALID") with (Ok document). cbn [rbind].
  change (eq_str (get document "schema") _) with true. change (eq_int (get document "version") 2) with true. cbn [negb orb].
  change (each _ _) with (@Ok unit tt). cbn [rbind]. unfold check_body. change (get document "body_sha256") with (VStr d).
  rewrite (require_digest_of _ _ _ Hd). cbn [rbind]. change (dpop "body_sha256" document) with body. rewrite Hd. cbn [rbind]. rewrite bool_decide_true by done. cbn [negb rbind].
  rewrite (load_binding_of document policy p audit e segments Hp Ha (digest_document_digest _ _ Hpd) (digest_document_digest _ _ Hed)).
  2:{ unfold binding_documents. intros f v Hin. repeat (destruct Hin as [[= <- <-]|Hin]; [reflexivity|]). done. }
  cbn [rbind]. change (get document "generated_at_ms") with (get audit "finalized_at_ms"). rewrite Hfi. unfold require_int, below, above. rewrite !Z.ltb_irrefl. cbn [orb rbind].
  change (get document "receipt_count") with (VInt (Z.of_nat (length (map VDict (sorted_key envelope_key envelopes))))).
  rewrite Hco. cbn [py_eq]. rewrite (Forall2_length _ _ _ Hf), Hcount, Z.eqb_refl. cbn [negb]. exact Hr.
Qed.
End facts.

End StrategyEvidenceFacts.
