(* ===== verification/StrategyReplay.v ===== *)
(** * Replay of shadow decisions

    Models the core of scripts/hepta_strategy_replay_evaluator.py: [evaluate_replay] on the
    receipts of a decision set and the marks of a mark set.  An order is entered at the
    first mark after the latency at which its limit is executable, and left at the stop, at
    the horizon or at the end of its holding time. *)

From Stdlib Require Import Ascii QArith Floats.SpecFloat.
From S2P Require Import Prelude PyText PyValue PyOrder PyBytes Digest PyFloat Contracts Strategy StrategyEvidence.
From stdpp Require Import base tactics list strings.
From Stdlib Require Import ZArith Lia Bool.
Import Contracts Strategy StrategyReceipt StrategyEvidence StrategyMarks.

Open Scope Z_scope.

Module StrategyReplay.

Definition FLOAT_TOLERANCE : spec_float := literal 1 (-12).

(** What a replay uses of a mark. *)
Record Mark := mkMark { m_at : Z; m_bid : spec_float; m_ask : spec_float }.

(** ** [bisect] *)

(** The loop of [bisect_left] ([below y x] is [y < x]) and of [bisect_right] ([y <= x]). *)
Fixpoint bisect (below : Z -> bool) (a : list Z) (fuel lo hi : nat) : nat :=
  match fuel with
  | O => lo
  | S fuel =>
      if (lo <? hi)%nat then
        let mid := Nat.div2 (lo + hi) in
        if below (nth mid a 0) then bisect below a fuel (S mid) hi else bisect below a fuel lo mid
      else lo
  end.
Definition bisect_left (a : list Z) (x : Z) : nat := bisect (fun y => y <? x) a (S (length a)) 0 (length a).
Definition bisect_right (a : list Z) (x : Z) : nat := bisect (fun y => y <=? x) a (S (length a)) 0 (length a).

(** ** Prices *)

Definition is_buy (side : value) : bool := eq_str side "BUY".

(** [max(a, b)] of floats *)
Definition fmax (a b : spec_float) : spec_float := if fltb a b then b else a.
Definition fmin (a b : spec_float) : spec_float := if fltb b a then b else a.

(** The price and the slippage of an entry, or nothing when the limit is not executable. *)
Definition entry_price (mark : Mark) (intent : dict) (entry_slippage_bps : spec_float) : res (option (spec_float * spec_float)) :=
  let buy := is_buy (get intent "side") in
  let touch := if buy then m_ask mark else m_bid mark in
  let configured := fdiv (fmul touch entry_slippage_bps) (literal 10000 0) in
  let! expected := require_nonnegative (get intent "expected_slippage") "REPLAY_INTENT_SLIPPAGE_INVALID" in
  let slippage := fmax configured expected in
  let price := if buy then fadd touch slippage else fsub touch slippage in
  let! limit := to_float (get intent "limit_price") in
  if (buy && fltb (fadd limit FLOAT_TOLERANCE) price) || (negb buy && fltb price (fsub limit FLOAT_TOLERANCE)) then Ok None
  else Ok (Some (price, slippage)).

Definition exit_price (mark : Mark) (buy : bool) (exit_slippage_bps : spec_float) : res (spec_float * spec_float) :=
  let touch := if buy then m_bid mark else m_ask mark in
  let slippage := fdiv (fmul touch exit_slippage_bps) (literal 10000 0) in
  let price := if buy then fsub touch slippage else fadd touch slippage in
  when fleb price fzero raise contract_error "REPLAY_EXIT_PRICE_INVALID" in
  Ok (price, slippage).

Definition effective_holding_ms (intent : dict) (configured_seconds : option Z) : res Z :=
  let! holding := require_int (get intent "max_holding_ms") "REPLAY_INTENT_HOLDING_INVALID" (Some 1) (Some 86400000) in
  match configured_seconds with
  | None => Ok holding
  | Some c =>
      let! c := require_int (VInt c) "REPLAY_MAXIMUM_HOLDING_INVALID" (Some 1) (Some 86400) in
      Ok (Z.min holding (c * 1000))
  end.

(** ** The execution model *)

Record Model := mkModel {
  x_latency : Z; x_horizon : Z; x_exit_delay : Z; x_holding : option Z; x_cost : spec_float; x_entry_slippage : spec_float;
  x_exit_slippage : spec_float; x_cadence : Z; x_jitter : Z }.

(** An entry: its mark, price, slippage and the times it implies. *)
Record Fill := mkFill {
  f_index : nat; f_at : Z; f_price : spec_float; f_touch : spec_float; f_slippage : spec_float; f_target : Z; f_hard : Z; f_max_exit : Z }.
Record Exit := mkExit {
  e_index : nat; e_at : Z; e_price : spec_float; e_touch : spec_float; e_slippage : spec_float; e_reason : string;
  e_gross : spec_float; e_net : spec_float; e_mae : spec_float; e_mfe : spec_float }.

Inductive outcome :=
| Unfilled (status : string) (complete : bool)
| Open (f : Fill)
| Closed (f : Fill) (e : Exit).
Record Result := mkResult { r_receipt : dict; r_eligible : Z; r_expiry : Z; r_outcome : outcome }.

Section order.
Context (x : Model) (marks : list Mark) (intent : dict).
Definition times : list Z := map m_at marks.

(** The first executable mark from an index on, within the expiry. *)
Fixpoint find_entry (i : nat) (l : list Mark) (expires : Z) : res (option (nat * spec_float * spec_float)) :=
  match l with
  | [] => Ok None
  | m :: l =>
      if m_at m <=? expires then
        let! candidate := entry_price m intent (x_entry_slippage x) in
        match candidate with
        | Some (price, slip) => Ok (Some (i, price, slip))
        | None => find_entry (S i) l expires
        end
      else Ok None
  end.

Record Selected := mkSelected { s_index : nat; s_price : spec_float; s_slippage : spec_float; s_reason : string }.

(** The walk from the entry: the prices seen and the exit, if there is one. *)
Fixpoint find_exit (i : nat) (l : list Mark) (buy : bool) (stop : spec_float) (target max_exit : Z) (reason : string)
    : res (list (nat * spec_float) * option Selected) :=
  match l with
  | [] => Ok ([], None)
  | m :: l =>
      if max_exit <? m_at m then Ok ([], None)
      else
        let! ps := exit_price m buy (x_exit_slippage x) in
        if if buy then fleb ps.1 stop else fleb stop ps.1 then Ok ([(i, ps.1)], Some (mkSelected i ps.1 ps.2 "STOP_INVALIDATION"))
        else if target <=? m_at m then Ok ([(i, ps.1)], Some (mkSelected i ps.1 ps.2 reason))
        else let! r := find_exit (S i) l buy stop target max_exit reason in Ok ((i, ps.1) :: r.1, r.2)
  end.

(** At the end of the holding time the last mark before it stands in, when later marks show
    that the history covers it and it is at most one sample away. *)
Definition holding_exit (buy : bool) (entry_index : nat) (hard : Z) (path : list (nat * spec_float))
    : res (list (nat * spec_float) * option Selected) :=
  if (bisect_left times hard <? length marks)%nat then
    match bisect_right times hard with
    | O => Ok (path, None)
    | S last =>
        if (last <? entry_index)%nat then Ok (path, None)
        else
          match marks !! last with
          | None => Ok (path, None)
          | Some m =>
              let! ps := exit_price m buy (x_exit_slippage x) in
              if hard - m_at m <=? x_cadence x + x_jitter x then
                Ok (if existsb (fun p => (p.1 =? last)%nat) path then path else path ++ [(last, ps.1)],
                    Some (mkSelected last ps.1 ps.2 "MAXIMUM_HOLDING"))
              else Ok (path, None)
          end
    end
  else Ok (path, None).

(** [(price - entry) / entry * 10000.0 * direction] *)
Definition return_bps (buy : bool) (entry price : spec_float) : res spec_float :=
  match entry with
  | S754_zero _ => Raise zero_division
  | _ => Ok (fmul (fmul (fdiv (fsub price entry) entry) (literal 10000 0)) (if buy then literal 1 0 else SFopp (literal 1 0)))
  end.

Definition enter (fill : nat * spec_float * spec_float) : res (Fill * string) :=
  let '(i, price, slip) := fill in
  let at_ms := nth i times 0 in
  let! holding := effective_holding_ms intent (x_holding x) in
  let horizon_at := at_ms + x_horizon x * 1000 in
  let hard := at_ms + holding in
  let target := Z.min horizon_at hard in
  let touch := match marks !! i with Some m => if is_buy (get intent "side") then m_ask m else m_bid m | None => fzero end in
  Ok (mkFill i at_ms price touch slip target hard (Z.min (target + x_exit_delay x * 1000) hard),
      if hard <=? horizon_at then "MAXIMUM_HOLDING" else "HORIZON").

Definition close (f : Fill) (path : list (nat * spec_float)) (s : Selected) : res Exit :=
  let buy := is_buy (get intent "side") in
  let! gross := return_bps buy (f_price f) (s_price s) in
  let! returns := rmapM (fun p => return_bps buy (f_price f) p.2) (List.filter (fun p => (p.1 <=? s_index s)%nat) path) in
  match returns with
  | [] => Raise (contract_error "REPLAY_PATH_EVIDENCE_MISSING")
  | r :: rs =>
      let m := marks !! s_index s in
      Ok (mkExit (s_index s) (nth (s_index s) times 0) (s_price s) (match m with Some m => if buy then m_bid m else m_ask m | None => fzero end)
            (s_slippage s) (s_reason s) gross (fsub gross (x_cost x)) (foldl fmin r rs) (foldl fmax r rs))
  end.

(** From the entry to the exit. *)
Definition hold (fill : nat * spec_float * spec_float) : res outcome :=
  let buy := is_buy (get intent "side") in
  let! fr := enter fill in
  let '(f, reason) := fr in
  let! distance := require_nonnegative (get intent "max_adverse_move") "REPLAY_INTENT_STOP_INVALID" in
  let stop := if buy then fsub (f_price f) distance else fadd (f_price f) distance in
  let! walked := find_exit (f_index f) (drop (f_index f) marks) buy stop (f_target f) (f_max_exit f) reason in
  let! walked := match walked.2 with
                 | None => if bool_decide (reason = "MAXIMUM_HOLDING") then holding_exit buy (f_index f) (f_hard f) walked.1 else Ok walked
                 | Some _ => Ok walked
                 end in
  match walked.2 with
  | None => Ok (Open f)
  | Some s => let! e := close f walked.1 s in Ok (Closed f e)
  end.

Definition last_time : option Z := last times.

Definition execute (observed expires : Z) : res outcome :=
  let eligible := observed + x_latency x in
  if expires <? eligible then Ok (Unfilled "NOT_FILLED_LATENCY_EXCEEDED_EXPIRY" true)
  else
    let first := bisect_left times eligible in
    let! fill := find_entry first (drop first marks) expires in
    match fill with
    | None =>
        let complete := match last_time with Some t => expires <=? t | None => false end in
        Ok (Unfilled (if complete then "NOT_FILLED_EXPIRED" else "ENTRY_EVIDENCE_INCOMPLETE") complete)
    | Some fill => hold fill
    end.
End order.

(** ** The replay of a set *)

Definition is_trade (receipt : dict) : bool := eq_str (get receipt "decision") "TRADE".
Definition intent_of (receipt : dict) : dict := match get receipt "trade_intent" with VDict i => i | _ => [] end.

(** Orders whose possible lifetimes overlap are refused. *)
Definition window_of (latency : Z) (holding : option Z) (receipt : dict) : res (list (Z * Z * string)) :=
  if negb (is_trade receipt) then Ok []
  else
    let i := intent_of receipt in
    let earliest := iget i "observed_at_ms" + latency in
    if iget i "expires_at_ms" <? earliest then Ok []
    else
      let! h := effective_holding_ms i holding in
      Ok [(earliest, iget i "expires_at_ms" + h, text_of (get receipt "decision_id"))].

Fixpoint overlapping (l : list (Z * Z * string)) : res unit :=
  match l with
  | p :: (c :: _) as r =>
      when c.1.1 <=? p.1.2 raise contract_error ("REPLAY_OVERLAPPING_INTENTS_REJECTED:" +:+ p.2 +:+ ":" +:+ c.2) in overlapping r
  | _ => Ok tt
  end.

Definition reject_overlapping_intents (receipts : list dict) (latency : Z) (holding : option Z) : res unit :=
  let! windows := rmapM (window_of latency holding) receipts in
  overlapping (sorted_by oleb (concat windows)).

Definition replay_step (x : Model) (marks : list Mark) (receipt : dict) : res Result :=
  let i := intent_of receipt in
  let! o := execute x marks i (iget i "observed_at_ms") (iget i "expires_at_ms") in
  Ok (mkResult receipt (iget i "observed_at_ms" + x_latency x) (iget i "expires_at_ms") o).

(** One result for every trade, in the order of the receipts. *)
Definition replay_results (x : Model) (marks : list Mark) (receipts : list dict) : res (list Result) :=
  rmapM (replay_step x marks) (List.filter is_trade receipts).

(** ** The report *)

Definition resolved (r : Result) : bool := match r_outcome r with Closed _ _ => true | _ => false end.
Definition filled (r : Result) : bool := match r_outcome r with Unfilled _ _ => false | _ => true end.
Definition complete (r : Result) : bool := match r_outcome r with Unfilled _ c => c | Open _ => false | Closed _ _ => true end.
Definition status (r : Result) : string :=
  match r_outcome r with Unfilled s _ => s | Open _ => "EXIT_EVIDENCE_INCOMPLETE" | Closed _ _ => "CLOSED" end.
Definition not_filled (r : Result) : bool := bool_decide (stake 10 (status r) = "NOT_FILLED").

Definition exit_of (r : Result) : option Exit := match r_outcome r with Closed _ e => Some e | _ => None end.
Definition exits (rs : list Result) : list (string * Exit) :=
  omap (fun r => e ← exit_of r; Some (text_of (get (r_receipt r) "decision_id"), e)) rs.
(** Sorted by the time of the exit, then by the decision. *)
Definition chronological (rs : list Result) : list Exit := map snd (sorted_key (fun p => (e_at p.2, p.1)) (exits rs)).

Definition maximum_drawdown (values : list spec_float) : spec_float :=
  (foldl (fun '(peak, total, worst) v =>
            let total := fadd total v in
            let peak := fmax peak total in
            (peak, total, fmax worst (fsub peak total))) (fzero, fzero, fzero) values).2.

(** [math.fsum]: the exact sum, rounded once. *)
Definition exact_parts (f : spec_float) : Z * Z :=
  match f with S754_finite s m e => (if s then Zneg m else Zpos m, e) | _ => (0, 0) end.
Definition fsum (l : list spec_float) : res spec_float :=
  let inf s := existsb (fun f => match f with S754_infinity t => Bool.eqb s t | _ => false end) l in
  if inf true && inf false then Raise value_error
  else if existsb (fun f => match f with S754_nan => true | _ => false end) l then Ok S754_nan
  else if inf true then Ok (S754_infinity true) else if inf false then Ok (S754_infinity false)
  else
    let low := foldl (fun e f => Z.min e (exact_parts f).2) 0 l in
    let total := foldl (fun t f => t + (exact_parts f).1 * 2 ^ ((exact_parts f).2 - low)) 0 l in
    match binary_normalize 53 1024 total low false with S754_infinity _ => Raise overflow_error | f => Ok f end.
Definition count_float (n : nat) : spec_float := literal (Z.of_nat n) 0.
Definition fmean (l : list spec_float) : res spec_float := let! s := fsum l in Ok (fdiv s (count_float (length l))).
Definition median (l : list spec_float) : spec_float :=
  let s := sorted_by fleb l in
  let n := length l in
  if Nat.even n then fdiv (fadd (nth (Nat.div2 n - 1) s fzero) (nth (Nat.div2 n) s fzero)) (literal 2 0) else nth (Nat.div2 n) s fzero.

(** [None] for no values. *)
Definition unless_empty (l : list spec_float) (m : res spec_float) : res value :=
  match l with [] => Ok VNone | _ => let! f := m in Ok (VFloat f) end.

Definition count {A} (f : A -> bool) (l : list A) : Z := Z.of_nat (length (List.filter f l)).

Definition fill_document (f : option Fill) : dict :=
  let at_ms g := match f with Some f => VInt (g f) | None => VNone end in
  let number g := match f with Some f => VFloat (g f) | None => VNone end in
  [("entry_at_ms", at_ms f_at); ("entry_price", number f_price); ("entry_touch_price", number f_touch); ("entry_slippage", number f_slippage);
   ("target_at_ms", at_ms f_target); ("maximum_holding_at_ms", at_ms f_hard); ("maximum_exit_at_ms", at_ms f_max_exit)].
Definition exit_document (f : option Fill) (e : option Exit) : dict :=
  let number g := match e with Some e => VFloat (g e) | None => VNone end in
  [("exit_at_ms", match e with Some e => VInt (e_at e) | None => VNone end); ("exit_price", number e_price);
   ("exit_touch_price", number e_touch); ("exit_slippage", number e_slippage);
   ("exit_reason", match e with Some e => VStr (e_reason e) | None => VNone end);
   ("holding_ms", match f, e with Some f, Some e => VInt (e_at e - f_at f) | _, _ => VNone end);
   ("gross_return_bps", number e_gross); ("net_return_bps", number e_net); ("mae_bps", number e_mae); ("mfe_bps", number e_mfe)].

Definition fill_of (r : Result) : option Fill := match r_outcome r with Unfilled _ _ => None | Open f | Closed f _ => Some f end.

Definition result_document (r : Result) : dict :=
  let i := intent_of (r_receipt r) in
  [("decision_id", get (r_receipt r) "decision_id"); ("intent_id", get i "intent_id"); ("side", get i "side"); ("status", VStr (status r));
   ("eligible_entry_at_ms", VInt (r_eligible r)); ("entry_expiry_at_ms", VInt (r_expiry r)); ("limit_price", get i "limit_price")] ++
  fill_document (fill_of r) ++ exit_document (fill_of r) (exit_of r) ++
  [("filled", VBool (filled r)); ("resolved", VBool (resolved r)); ("evidence_complete", VBool (complete r))].

(** The figures of a report. *)
Definition replay_figures (receipts : list dict) (results : list Result) : res dict :=
  let done := chronological results in
  let net := map e_net done in
  let gross := map e_gross done in
  let! average_gross := unless_empty gross (fmean gross) in
  let! average_net := unless_empty net (fmean net) in
  let! hit := unless_empty net (Ok (fdiv (count_float (length (List.filter (fltb fzero) net))) (count_float (length net)))) in
  let! middle := unless_empty net (Ok (median net)) in
  let side s := count (fun r => eq_str (get (intent_of (r_receipt r)) "side") s) results in
  Ok [("decision_count", VInt (Z.of_nat (length receipts)));
      ("no_trade_count", VInt (Z.of_nat (length receipts) - Z.of_nat (length results)));
      ("trade_candidate_count", VInt (Z.of_nat (length results))); ("buy_count", VInt (side "BUY")); ("sell_count", VInt (side "SELL"));
      ("filled_count", VInt (count filled results)); ("expired_unfilled_count", VInt (count not_filled results));
      ("resolved_count", VInt (count resolved results)); ("unresolved_count", VInt (count (fun r => negb (complete r)) results));
      ("average_gross_return_bps", average_gross); ("average_net_return_bps", average_net); ("median_net_return_bps", middle);
      ("cost_adjusted_hit_rate", hit); ("cumulative_net_return_bps", py_sum net); ("maximum_drawdown_bps", VFloat (maximum_drawdown net));
      ("results", VList (map (fun r => VDict (result_document r)) results))].

(** ** [evaluate_replay] *)

(** The parameters as a caller passes them. *)
Record Request := mkRequest {
  q_horizon : value; q_cost : value; q_exit_delay : value; q_latency : value; q_entry_slippage : value; q_exit_slippage : value;
  q_holding : value; q_overlapping : value }.

(** The default of every parameter but the horizon and the cost. *)
Definition default_request (horizon cost : value) : Request :=
  mkRequest horizon cost (VInt 30) (VInt 1000) (VFloat (literal 2 (-1))) (VFloat (literal 2 (-1))) VNone (VBool false).

Definition up_to (bound : Z) (v : value) (reason : string) : res spec_float := require_number v reason false (Some fzero) (Some (literal bound 0)).

Definition check_request (q : Request) : res (Model * bool) :=
  let! horizon := require_int (q_horizon q) "REPLAY_HORIZON_INVALID" (Some 1) (Some 86400) in
  let! cost := up_to 1000 (q_cost q) "REPLAY_COST_INVALID" in
  let! exit_delay := require_int (q_exit_delay q) "REPLAY_EXIT_DELAY_INVALID" (Some 0) (Some 3600) in
  let! latency := require_int (q_latency q) "REPLAY_ENTRY_LATENCY_INVALID" (Some 0) (Some 3600000) in
  let! entry_slippage := up_to 1000 (q_entry_slippage q) "REPLAY_ENTRY_SLIPPAGE_INVALID" in
  let! exit_slippage := up_to 1000 (q_exit_slippage q) "REPLAY_EXIT_SLIPPAGE_INVALID" in
  let! overlapping := match q_overlapping q with VBool b => Ok b | _ => Raise (contract_error "REPLAY_OVERLAP_POLICY_INVALID") end in
  let! holding := match q_holding q with
                  | VNone => Ok None
                  | v => let! h := require_int v "REPLAY_MAXIMUM_HOLDING_INVALID" (Some 1) (Some 86400) in Ok (Some h)
                  end in
  Ok (mkModel latency horizon exit_delay holding cost entry_slippage exit_slippage 0 0, overlapping).

Definition execution_model (x : Model) (overlapping : bool) : value :=
  VDict [("entry_latency_ms", VInt (x_latency x)); ("entry_slippage_bps", VFloat (x_entry_slippage x));
         ("exit_slippage_bps", VFloat (x_exit_slippage x)); ("round_trip_cost_bps", VFloat (x_cost x)); ("horizon_seconds", VInt (x_horizon x));
         ("maximum_exit_delay_seconds", VInt (x_exit_delay x));
         ("maximum_holding_seconds", match x_holding x with Some h => VInt h | None => VNone end);
         ("allow_overlapping_intents", VBool overlapping);
         ("entry_model", VStr "FIRST_POST_LATENCY_EXECUTABLE_LIMIT_WITH_ADVERSE_SLIPPAGE");
         ("exit_model", VStr "EXECUTABLE_BID_ASK_STOP_HORIZON_OR_MAXIMUM_HOLDING"); ("invalidation_model", VStr "ABSOLUTE_MAX_ADVERSE_MOVE")].

Definition binding_fields : list string :=
  ["campaign_id"; "campaign_sha256"; "policy_sha256"; "policy_body_sha256"; "final_audit_receipt_sha256"; "final_audit_body_sha256";
   "strategy_id"; "strategy_version"; "strategy_sha256"].

(** A mark whose bid and ask were checked. *)
Definition fget (d : dict) (k : string) : spec_float := match get d k with VFloat f => f | _ => fzero end.
Definition mark_of (d : dict) : Mark := mkMark (iget d "observed_at_ms") (fget d "bid") (fget d "ask").

(** The cadence of the marks is that of their document. *)
Definition with_cadence (x : Model) (marks : dict) : Model :=
  mkModel (x_latency x) (x_horizon x) (x_exit_delay x) (x_holding x) (x_cost x) (x_entry_slippage x) (x_exit_slippage x)
    (iget marks "cadence_ms") (iget marks "maximum_jitter_ms").

Section replay.
Context {D : Digest}.

(** What a replay is computed from: the model, the receipts and the marks of two sets that
    belong together. *)
Definition replay_inputs (q : Request) (decisions marks : value) : res (Model * bool * list dict * list dict * dict * dict) :=
  let! xo := check_request q in
  let! receipts := validate_decision_set decisions in
  let! records := validate_marks marks in
  let! dd := as_dict decisions in
  let! md := as_dict marks in
  when differ dd md binding_fields raise contract_error "REPLAY_EVIDENCE_SET_BINDING_MISMATCH" in
  let! _ := if xo.2 : bool then Ok tt else reject_overlapping_intents receipts (x_latency xo.1) (x_holding xo.1) in
  Ok (with_cadence xo.1 md, xo.2, receipts, records, dd, md).

Definition evaluate_replay (q : Request) (decisions marks : value) : res dict :=
  let! i := replay_inputs q decisions marks in
  let '(x, overlapping, receipts, records, dd, md) := i in
  let! results := replay_results x (map mark_of records) receipts in
  let! figures := replay_figures receipts results in
  let body := [("schema", VStr "hepta.strategy-replay-report.v3"); ("campaign_id", get dd "campaign_id"); ("strategy_id", get dd "strategy_id");
               ("strategy_version", get dd "strategy_version"); ("strategy_sha256", get dd "strategy_sha256"); ("instrument", VStr "EUR.USD");
               ("execution_model", execution_model x overlapping)] ++ figures ++
              [("evidence", VDict [("decision_set_body_sha256", get dd "body_sha256"); ("mark_set_body_sha256", get md "body_sha256");
                                   ("policy_sha256", get dd "policy_sha256"); ("final_audit_receipt_sha256", get dd "final_audit_receipt_sha256")]);
               ("mutation_attempted", VBool false); ("direct_broker_access", VBool false); ("live_authorized", VBool false)] in
  let! d := digest_document (VDict body) in
  Ok (body ++ [("body_sha256", VStr d)]).
End replay.

End StrategyReplay.
