(* ===== verification/StrategyReplayFacts.v ===== *)
(** * What a replayed order means

    [bisect] finds the boundary it is meant to find; an order is entered at the first
    executable mark of its window and left at the first mark that stops it or reaches its
    target; its excursions bound its return; and a settled result does not depend on marks
    that come after it. *)

From Stdlib Require Import Ascii QArith Floats.SpecFloat Sorted.
From S2P Require Import Prelude PyText PyValue PyOrder PyBytes Digest PyFloat Contracts Strategy StrategyEvidence StrategyEvidenceFacts StrategyReplay.
From stdpp Require Import base tactics list strings.
From Stdlib Require Import ZArith Lia Bool.
Import Contracts Strategy StrategyReceipt StrategyEvidence StrategyMarks StrategyMarksFacts StrategyReplay.

Open Scope Z_scope.

Module StrategyReplayFacts.

(** ** [bisect] *)

Section bisect.
Context (below : Z -> bool) (a : list Z).
(** The list is split: what is below comes first. *)
Definition split_list : Prop := forall i j : nat, (i <= j < length a)%nat -> below (nth j a 0) = true -> below (nth i a 0) = true.

Lemma bisect_spec fuel : forall lo hi, split_list -> (lo <= hi <= length a)%nat -> (hi - lo < fuel)%nat ->
  (forall i, (i < lo)%nat -> below (nth i a 0) = true) -> (forall i, (hi <= i < length a)%nat -> below (nth i a 0) = false) ->
  let r := bisect below a fuel lo hi in
  (r <= length a)%nat /\ (forall i, (i < r)%nat -> below (nth i a 0) = true) /\ (forall i, (r <= i < length a)%nat -> below (nth i a 0) = false).
Proof.
  induction fuel as [|fuel IH]; intros lo hi Hs Hb Hf Hlo Hhi r; [lia|]. unfold r. simpl. destruct (Nat.ltb_spec lo hi) as [Hlt|Hge].
  - assert (Hm : (lo <= Nat.div2 (lo + hi) < hi)%nat) by (rewrite Nat.div2_div; split; [apply Nat.div_le_lower_bound; lia|apply Nat.div_lt_upper_bound; lia]).
    set (mid := Nat.div2 (lo + hi)) in *. destruct (below (nth mid a 0)) eqn:E.
    + apply IH; try done; try lia. intros i Hi. apply (Hs i mid); [lia|done].
    + apply IH; try done; try lia. intros i Hi. destruct (below (nth i a 0)) eqn:E2; [|done]. rewrite (Hs mid i) in E; [done|lia|done].
  - split; [lia|]. split; [done|]. intros i Hi. apply Hhi. lia.
Qed.

Lemma boundary_count : forall k, (k <= length a)%nat -> (forall i, (i < k)%nat -> below (nth i a 0) = true) ->
  (forall i, (k <= i < length a)%nat -> below (nth i a 0) = false) -> k = length (List.filter below a).
Proof.
  induction a as [|x l IH]; intros k Hk H1 H2; simpl in *; [lia|]. destruct k as [|k].
  - assert (Hx : below x = false) by (apply (H2 0%nat); lia). rewrite Hx. rewrite <- (IH 0%nat); [done|lia|lia|]. intros i Hi. apply (H2 (S i)). lia.
  - assert (Hx : below x = true) by (apply (H1 0%nat); lia). rewrite Hx. simpl. f_equal. apply IH; [lia|intros i Hi; apply (H1 (S i)); lia|intros i Hi; apply (H2 (S i)); lia].
Qed.
End bisect.

(** Times that never decrease. *)
Definition ordered (l : list Z) : Prop := forall i j : nat, (i <= j < length l)%nat -> nth i l 0 <= nth j l 0.

Lemma ordered_split l f : ordered l -> (forall x y, x <= y -> f y = true -> f x = true) -> split_list f l.
Proof. intros Ho Hf i j Hij. apply Hf. by apply Ho. Qed.

Lemma bisect_count f l : ordered l -> (forall x y, x <= y -> f y = true -> f x = true) ->
  let r := bisect f l (S (length l)) 0 (length l) in
  r = length (List.filter f l) /\ (r <= length l)%nat /\ (forall i, (i < r)%nat -> f (nth i l 0) = true) /\ (forall i, (r <= i < length l)%nat -> f (nth i l 0) = false).
Proof.
  intros Ho Hf r. destruct (bisect_spec f l (S (length l)) 0 (length l)) as (H1 & H2 & H3); try lia; [by apply ordered_split|]. split; [by apply boundary_count|done].
Qed.

Lemma left_index_spec l t : ordered l -> bisect_left l t = length (List.filter (fun y => y <? t) l) /\ (bisect_left l t <= length l)%nat /\
  (forall i, (i < bisect_left l t)%nat -> nth i l 0 < t) /\ (forall i, (bisect_left l t <= i < length l)%nat -> t <= nth i l 0).
Proof.
  intros Ho. destruct (bisect_count (fun y => y <? t) l Ho) as (H1 & H2 & H3 & H4); [intros; lia|]. split; [done|]. split; [done|].
  split; intros i Hi; [specialize (H3 i Hi)|specialize (H4 i Hi)]; simpl in *; lia.
Qed.
Lemma right_index_spec l t : ordered l -> bisect_right l t = length (List.filter (fun y => y <=? t) l) /\ (bisect_right l t <= length l)%nat /\
  (forall i, (i < bisect_right l t)%nat -> nth i l 0 <= t) /\ (forall i, (bisect_right l t <= i < length l)%nat -> t < nth i l 0).
Proof.
  intros Ho. destruct (bisect_count (fun y => y <=? t) l Ho) as (H1 & H2 & H3 & H4); [intros; lia|]. split; [done|]. split; [done|].
  split; intros i Hi; [specialize (H3 i Hi)|specialize (H4 i Hi)]; simpl in *; lia.
Qed.

(** ** Marks by index *)

Lemma length_times marks : length (times marks) = length marks.
Proof. apply length_map. Qed.
Lemma nth_times (marks : list Mark) i m : marks !! i = Some m -> nth i (times marks) 0 = m_at m.
Proof.
  unfold times. intros H. apply nth_lookup_Some. by rewrite list_lookup_fmap, H.
Qed.
Lemma ordered_times marks i j m m' : ordered (times marks) -> (i <= j)%nat -> marks !! i = Some m -> marks !! j = Some m' -> m_at m <= m_at m'.
Proof.
  intros Ho Hij Hm Hm'. rewrite <- (nth_times _ _ _ Hm), <- (nth_times _ _ _ Hm'). apply Ho. rewrite length_times. apply lookup_lt_Some in Hm'. lia.
Qed.

(** ** The least and the greatest float of a list *)

Section extreme.
Context (lt : spec_float -> spec_float -> bool).
Hypothesis lt_trans : forall f g h, lt f g = true -> lt g h = true -> lt f h = true.
Hypothesis lt_irrefl : forall f, lt f f = false.
Definition pick (a b : spec_float) : spec_float := if lt b a then b else a.

Lemma fold_pick l : forall a, foldl pick a l ∈ a :: l /\ (forall x, x ∈ a :: l -> lt x (foldl pick a l) = false) /\
  (forall x, lt x a = false -> lt x (foldl pick a l) = false).
Proof.
  induction l as [|b l IH]; intros a; simpl.
  - split; [by apply list_elem_of_here|]. split; [|done]. intros x Hx. apply list_elem_of_singleton in Hx as ->. apply lt_irrefl.
  - assert (Hk : forall x, lt x a = false -> lt x (pick a b) = false).
    { intros x Hx. unfold pick. destruct (lt b a) eqn:E; [|done]. apply not_true_is_false. intros H. by rewrite (lt_trans _ _ _ H E) in Hx. }
    destruct (IH (pick a b)) as (H1 & H2 & H3). split; [|split].
    + apply elem_of_cons in H1 as [H1|H1]; [|by do 2 apply list_elem_of_further]. rewrite H1. unfold pick.
      destruct (lt b a); [apply list_elem_of_further|]; apply list_elem_of_here.
    + intros x Hx. apply elem_of_cons in Hx as [->|Hx]; [by apply H3, Hk|]. apply elem_of_cons in Hx as [->|Hx]; [|by apply H2, list_elem_of_further].
      apply H3. unfold pick. destruct (lt b a) eqn:E; [apply lt_irrefl|done].
    + intros x Hx. by apply H3, Hk.
Qed.
End extreme.

Lemma least_float r rs : foldl fmin r rs ∈ r :: rs /\ forall x, x ∈ r :: rs -> fltb x (foldl fmin r rs) = false.
Proof. destruct (fold_pick fltb fltb_trans fltb_irrefl rs r) as (H1 & H2 & _). done. Qed.
Lemma greatest_float r rs : foldl fmax r rs ∈ r :: rs /\ forall x, x ∈ r :: rs -> fltb (foldl fmax r rs) x = false.
Proof.
  destruct (fold_pick (fun a b => fltb b a) (fun f g h H1 H2 => fltb_trans _ _ _ H2 H1) fltb_irrefl rs r) as (H1 & H2 & _). done.
Qed.

(** ** The entry *)

Section walks.
Context (x : Model) (intent : dict).
Notation refused m := (entry_price m intent (x_entry_slippage x) = Ok None).

Lemma find_entry_some l expires : forall i k p s, find_entry x intent i l expires = Ok (Some (k, p, s)) ->
  exists j m, k = (i + j)%nat /\ l !! j = Some m /\ m_at m <= expires /\ entry_price m intent (x_entry_slippage x) = Ok (Some (p, s)) /\
    forall j' m', (j' < j)%nat -> l !! j' = Some m' -> m_at m' <= expires /\ refused m'.
Proof.
  induction l as [|m l IH]; intros i k p s H; simpl in H; [done|]. destruct (Z.leb_spec (m_at m) expires) as [Ht|]; [|done].
  apply rbind_ok in H as (c & Hc & H). destruct c as [[p' s']|].
  - injection H as <- <- <-. exists 0%nat, m. split; [lia|]. do 3 (split; [done|]). intros; lia.
  - apply IH in H as (j & n & -> & Hj & Hn & He & Hb). exists (S j), n. split; [lia|]. do 3 (split; [done|]).
    intros [|j'] m' Hlt Hm'; [injection Hm' as <-; done|]. apply (Hb j'); [lia|done].
Qed.

Lemma find_entry_none l expires : forall i, find_entry x intent i l expires = Ok None ->
  exists j, (j <= length l)%nat /\ (forall j' m, (j' < j)%nat -> l !! j' = Some m -> refused m) /\
    (forall m, l !! j = Some m -> expires < m_at m).
Proof.
  induction l as [|m l IH]; intros i H; simpl in H; [exists 0%nat; split; [simpl; lia|split; [intros; lia|done]]|].
  destruct (Z.leb_spec (m_at m) expires) as [Ht|Ht]; [|exists 0%nat; split; [lia|split; [intros; lia|intros ? [= <-]; done]]].
  apply rbind_ok in H as (c & Hc & H). destruct c as [[p' s']|]; [done|]. apply IH in H as (j & Hj & Hb & He). exists (S j). split; [simpl; lia|].
  split; [|exact He]. intros [|j'] m' Hlt Hm'; [injection Hm' as <-; done|]. apply (Hb j'); [lia|done].
Qed.

(** Marks after the expiry are not looked at. *)
Lemma find_entry_more l later expires : (forall m, m ∈ later -> expires < m_at m) ->
  forall i r, find_entry x intent i l expires = Ok r -> find_entry x intent i (l ++ later) expires = Ok r.
Proof.
  intros Hl. induction l as [|m l IH]; intros i r H; simpl in *.
  - destruct later as [|m l]; [done|]. simpl. by rewrite (proj2 (Z.leb_gt _ _) (Hl m (list_elem_of_here _ _))).
  - destruct (m_at m <=? expires); [|done]. apply rbind_ok in H as (c & Hc & H). rewrite Hc. simpl. destruct c as [[p s]|]; [done|by apply IH].
Qed.
Lemma find_entry_some_more l later expires : forall i r, find_entry x intent i l expires = Ok (Some r) ->
  find_entry x intent i (l ++ later) expires = Ok (Some r).
Proof.
  induction l as [|m l IH]; intros i r H; simpl in *; [done|]. destruct (m_at m <=? expires); [|done].
  apply rbind_ok in H as (c & Hc & H). rewrite Hc. simpl. destruct c as [[p s]|]; [done|by apply IH].
Qed.

(** ** The exit *)

Definition stopped (buy : bool) (stop price : spec_float) : bool := if buy then fleb price stop else fleb stop price.

Record exit_at (l : list Mark) (buy : bool) (stop : spec_float) (target max_exit : Z) (reason : string) (i : nat)
    (path : list (nat * spec_float)) (s : Selected) : Prop := {
  x_mark : exists j m, s_index s = (i + j)%nat /\ l !! j = Some m /\ m_at m <= max_exit /\
    exit_price m buy (x_exit_slippage x) = Ok (s_price s, s_slippage s) /\
    (s_reason s = "STOP_INVALIDATION" /\ stopped buy stop (s_price s) = true \/ s_reason s = reason /\ target <= m_at m /\ stopped buy stop (s_price s) = false) /\
    forall j' m', (j' < j)%nat -> l !! j' = Some m' -> m_at m' < target /\
      exists price slip, exit_price m' buy (x_exit_slippage x) = Ok (price, slip) /\ stopped buy stop price = false;
  x_path : (s_index s, s_price s) ∈ path }.

Lemma find_exit_some l buy stop target max_exit reason : forall i path s,
  find_exit x i l buy stop target max_exit reason = Ok (path, Some s) -> exit_at l buy stop target max_exit reason i path s.
Proof.
  induction l as [|m l IH]; intros i path s H; simpl in H; [done|]. destruct (Z.ltb_spec max_exit (m_at m)) as [|Ht]; [done|].
  apply rbind_ok in H as ([p sl] & Hp & H). cbn [fst snd] in H. change (if buy then fleb p stop else fleb stop p) with (stopped buy stop p) in H. destruct (stopped buy stop p) eqn:Es.
  { injection H as <- <-. split; [|apply list_elem_of_here]. exists 0%nat, m. split; [simpl; lia|]. do 3 (split; [done|]). split; [by left|]. intros; lia. }
  destruct (Z.leb_spec target (m_at m)) as [Hg|Hg].
  { injection H as <- <-. split; [|apply list_elem_of_here]. exists 0%nat, m. split; [simpl; lia|]. do 3 (split; [done|]). split; [by right|]. intros; lia. }
  apply rbind_ok in H as ([path' s'] & H & H2). cbn [fst snd] in H2. injection H2 as <- ->.
  destruct (IH _ _ _ H) as [(j & n & Hi & Hj & Hm & He & Hr & Hb) Hpath]. split; [|by apply list_elem_of_further].
  exists (S j), n. split; [lia|]. do 4 (split; [done|]). intros [|j'] m' Hlt Hm'; [injection Hm' as <-; split; [done|by exists p, sl]|]. apply (Hb j'); [lia|done].
Qed.

(** A walk that ends without an exit saw every mark up to the end of its window. *)
Lemma find_exit_none l buy stop target max_exit reason : forall i path, find_exit x i l buy stop target max_exit reason = Ok (path, None) ->
  exists j, (j <= length l)%nat /\ (forall m, l !! j = Some m -> max_exit < m_at m) /\
    forall j' m', (j' < j)%nat -> l !! j' = Some m' -> m_at m' < target /\
      exists price slip, exit_price m' buy (x_exit_slippage x) = Ok (price, slip) /\ stopped buy stop price = false /\ ((i + j')%nat, price) ∈ path.
Proof.
  induction l as [|m l IH]; intros i path H; simpl in H; [exists 0%nat; split; [simpl; lia|split; [done|intros; lia]]|].
  destruct (Z.ltb_spec max_exit (m_at m)) as [Ht|Ht]; [exists 0%nat; split; [lia|split; [intros ? [= <-]; done|intros; lia]]|].
  apply rbind_ok in H as ([p sl] & Hp & H). cbn [fst snd] in H. change (if buy then fleb p stop else fleb stop p) with (stopped buy stop p) in H.
  destruct (stopped buy stop p) eqn:Es; [done|]. destruct (Z.leb_spec target (m_at m)) as [Hg|Hg]; [done|].
  apply rbind_ok in H as ([path' s'] & H & H2). cbn [fst snd] in H2. injection H2 as <- ->.
  destruct (IH _ _ H) as (j & Hj & He & Hb). exists (S j). split; [simpl; lia|]. split; [exact He|].
  intros [|j'] m' Hlt Hm'.
  - injection Hm' as <-. split; [done|]. exists p, sl. do 2 (split; [done|]). rewrite Nat.add_0_r. apply list_elem_of_here.
  - destruct (Hb j' m') as (Hn & q & t & H1 & H2 & H3); [lia|done|]. split; [done|]. exists q, t. do 2 (split; [done|]).
    apply list_elem_of_further. by replace (i + S j')%nat with (S i + j')%nat by lia.
Qed.

Lemma find_exit_some_more l later buy stop target max_exit reason : forall i path s,
  find_exit x i l buy stop target max_exit reason = Ok (path, Some s) -> find_exit x i (l ++ later) buy stop target max_exit reason = Ok (path, Some s).
Proof.
  induction l as [|m l IH]; intros i path s H; simpl in *; [done|]. destruct (max_exit <? m_at m); [done|].
  apply rbind_ok in H as (ps & Hp & H). rewrite Hp. simpl. destruct (if buy then _ else _); [done|]. destruct (target <=? m_at m); [done|].
  apply rbind_ok in H as ([path' s'] & H & H2). cbn [fst snd] in H2. injection H2 as <- ->. by rewrite (IH _ _ _ H).
Qed.
Lemma find_exit_more l later buy stop target max_exit reason : (forall m, m ∈ later -> max_exit < m_at m) -> forall i r,
  find_exit x i l buy stop target max_exit reason = Ok r -> find_exit x i (l ++ later) buy stop target max_exit reason = Ok r.
Proof.
  intros Hl. induction l as [|m l IH]; intros i r H; simpl in *.
  - destruct later as [|m l]; [done|]. simpl. by rewrite (proj2 (Z.ltb_lt _ _) (Hl m (list_elem_of_here _ _))).
  - destruct (max_exit <? m_at m); [done|]. apply rbind_ok in H as (ps & Hp & H). rewrite Hp. simpl.
    destruct (if buy then _ else _); [done|]. destruct (target <=? m_at m); [done|].
    apply rbind_ok in H as (r' & H & H2). rewrite (IH _ _ H). done.
Qed.
End walks.

(** ** What an executed order means *)

Section execution.
Context (x : Model) (marks : list Mark) (intent : dict).
Let buy := is_buy (get intent "side").

(** An entry at the first executable mark of the window. *)
Record entered (eligible expires : Z) (f : Fill) : Prop := {
  n_mark : exists m, marks !! f_index f = Some m /\ f_at f = m_at m /\ eligible <= m_at m <= expires /\
    entry_price m intent (x_entry_slippage x) = Ok (Some (f_price f, f_slippage f));
  n_first : forall i m, (i < f_index f)%nat -> marks !! i = Some m -> eligible <= m_at m -> entry_price m intent (x_entry_slippage x) = Ok None;
  n_target : f_target f = Z.min (f_at f + x_horizon x * 1000) (f_hard f);
  n_max_exit : f_max_exit f = Z.min (f_target f + x_exit_delay x * 1000) (f_hard f);
  n_holding : exists h, 1 <= h /\ get intent "max_holding_ms" = VInt h /\
    f_hard f = f_at f + match x_holding x with None => h | Some c => Z.min h (c * 1000) end }.

(** Why a position was left at the mark of index [i] and time [at_ms]: it was stopped; it was held
    to its horizon, which comes before the end of its holding time; or its holding time ended,
    at that mark or, when no mark has that time, just after it: the mark is then the last one
    before the end, near enough to it, and the marks go on past the end. *)
Definition left_because (f : Fill) (i : nat) (at_ms : Z) (reason : string) : Prop :=
  reason = "STOP_INVALIDATION" \/
  reason = "HORIZON" /\ f_target f = f_at f + x_horizon x * 1000 /\ f_at f + x_horizon x * 1000 < f_hard f /\ f_target f <= at_ms \/
  reason = "MAXIMUM_HOLDING" /\ f_target f = f_hard f /\ f_hard f <= f_at f + x_horizon x * 1000 /\
    (at_ms = f_hard f \/
     at_ms < f_hard f <= at_ms + x_cadence x + x_jitter x /\ (exists m, m ∈ marks /\ f_hard f < m_at m) /\
     forall j m, (i < j)%nat -> marks !! j = Some m -> f_hard f < m_at m).

(** An exit at the first mark from the entry on that is stopped or has reached the target, no
    later than the target and the exit delay allow. *)
Record left_at (f : Fill) (e : Exit) : Prop := {
  l_mark : exists m, marks !! e_index e = Some m /\ e_at e = m_at m /\ (f_index f <= e_index e)%nat /\ m_at m <= f_max_exit f /\
    exit_price m buy (x_exit_slippage x) = Ok (e_price e, e_slippage e);
  l_stop : exists distance, require_nonnegative (get intent "max_adverse_move") "REPLAY_INTENT_STOP_INVALID" = Ok distance /\
    let stop := if buy then fsub (f_price f) distance else fadd (f_price f) distance in
    (e_reason e = "STOP_INVALIDATION" <-> stopped buy stop (e_price e) = true) /\
    forall i m, (f_index f <= i < e_index e)%nat -> marks !! i = Some m -> m_at m < f_target f /\
      exists price slip, exit_price m buy (x_exit_slippage x) = Ok (price, slip) /\ stopped buy stop price = false;
  l_reason : left_because f (e_index e) (e_at e) (e_reason e);
  l_gross : return_bps buy (f_price f) (e_price e) = Ok (e_gross e);
  l_net : e_net e = fsub (e_gross e) (x_cost x);
  l_bounds : fltb (e_gross e) (e_mae e) = false /\ fltb (e_mfe e) (e_gross e) = false }.

(** A position the marks do not close: no mark from the entry on, as late as the exit may be, is
    stopped or has reached the target; and when its holding time ends first, no mark near
    enough to that end is followed by one at or past it. *)
Record held (f : Fill) : Prop := {
  h_stop : exists distance, require_nonnegative (get intent "max_adverse_move") "REPLAY_INTENT_STOP_INVALID" = Ok distance /\
    let stop := if buy then fsub (f_price f) distance else fadd (f_price f) distance in
    forall i m, (f_index f <= i)%nat -> marks !! i = Some m -> m_at m <= f_max_exit f -> m_at m < f_target f /\
      exists price slip, exit_price m buy (x_exit_slippage x) = Ok (price, slip) /\ stopped buy stop price = false;
  h_holding : f_hard f <= f_at f + x_horizon x * 1000 -> forall i m m', (f_index f <= i)%nat -> marks !! i = Some m -> m' ∈ marks ->
    m_at m <= f_hard f <= m_at m + x_cadence x + x_jitter x -> m_at m' < f_hard f }.

Lemma close_ok f path s e : close x marks intent f path s = Ok e -> (s_index s, s_price s) ∈ path ->
  e_index e = s_index s /\ e_at e = nth (s_index s) (times marks) 0 /\ e_price e = s_price s /\ e_slippage e = s_slippage s /\ e_reason e = s_reason s /\
  return_bps buy (f_price f) (s_price s) = Ok (e_gross e) /\ e_net e = fsub (e_gross e) (x_cost x) /\
  fltb (e_gross e) (e_mae e) = false /\ fltb (e_mfe e) (e_gross e) = false.
Proof.
  intros H Hp. unfold close in H. fold buy in H. apply rbind_ok in H as (gross & Hg & H). apply rbind_ok in H as (returns & Hr & H).
  assert (Hin : gross ∈ returns).
  { apply rmapM_Forall2 in Hr. apply list_elem_of_In in Hp. assert (Hf : In (s_index s, s_price s) (List.filter (fun p => (p.1 <=? s_index s)%nat) path)) by (apply filter_In; split; [done|simpl; apply Nat.leb_le; lia]).
    apply list_elem_of_In, list_elem_of_lookup in Hf as (i & Hi). destruct (Forall2_lookup_l _ _ _ _ _ Hr Hi) as (y & Hy & Hy2). simpl in Hy2. rewrite Hg in Hy2. injection Hy2 as <-.
    by apply list_elem_of_lookup_2 in Hy. }
  destruct returns as [|r rs]; [done|]. injection H as <-. cbn. do 7 (split; [done|]). split; [apply (least_float r rs)|apply (greatest_float r rs)]; done.
Qed.

(** The times an entry implies. *)
Record timed (f : Fill) (reason : string) : Prop := {
  t_target : f_target f = Z.min (f_at f + x_horizon x * 1000) (f_hard f);
  t_max_exit : f_max_exit f = Z.min (f_target f + x_exit_delay x * 1000) (f_hard f);
  t_reason : reason = if f_hard f <=? f_at f + x_horizon x * 1000 then "MAXIMUM_HOLDING" else "HORIZON" }.

Lemma timed_holding f reason : timed f reason -> reason = "MAXIMUM_HOLDING" -> 0 <= x_exit_delay x ->
  f_hard f <= f_at f + x_horizon x * 1000 /\ f_target f = f_hard f /\ f_max_exit f = f_hard f.
Proof. intros [T1 T2 T3] -> Hd. destruct (Z.leb_spec (f_hard f) (f_at f + x_horizon x * 1000)); [lia|done]. Qed.

(** A mark chosen for an exit, whichever way. *)
Record chosen (f : Fill) (stop : spec_float) (path : list (nat * spec_float)) (s : Selected) : Prop := {
  c_mark : exists m, marks !! s_index s = Some m /\ (f_index f <= s_index s)%nat /\ m_at m <= f_max_exit f /\
    exit_price m buy (x_exit_slippage x) = Ok (s_price s, s_slippage s) /\ left_because f (s_index s) (m_at m) (s_reason s);
  c_stop : s_reason s = "STOP_INVALIDATION" <-> stopped buy stop (s_price s) = true;
  c_before : forall i m, (f_index f <= i < s_index s)%nat -> marks !! i = Some m -> m_at m < f_target f /\
    exists price slip, exit_price m buy (x_exit_slippage x) = Ok (price, slip) /\ stopped buy stop price = false;
  c_path : (s_index s, s_price s) ∈ path }.

Lemma chosen_walk f stop path s reason : timed f reason ->
  find_exit x (f_index f) (drop (f_index f) marks) buy stop (f_target f) (f_max_exit f) reason = Ok (path, Some s) -> chosen f stop path s.
Proof.
  intros [T1 T2 T3] H. apply find_exit_some in H as [(j & m & Hi & Hj & Hm & He & Hc & Hb) Hp]. rewrite lookup_drop in Hj. split; [|..|done].
  - exists m. rewrite Hi. split; [done|]. split; [lia|]. split; [lia|]. split; [done|]. destruct Hc as [[-> _]|(-> & Ht & _)]; [by left|right].
    destruct (Z.leb_spec (f_hard f) (f_at f + x_horizon x * 1000)); [right|left]; (split; [done|]); [split; [lia|split; [lia|left; lia]]|lia].
  - destruct Hc as [[-> ->]|(-> & _ & ->)]; [done|]. rewrite T3. by destruct (_ <=? _).
  - intros i m' Hlt Hm'. apply (Hb (i - f_index f)%nat m'); [lia|rewrite lookup_drop; by replace (f_index f + (i - f_index f))%nat with i by lia].
Qed.

(** What a walk without an exit says of the marks it saw. *)
Lemma walked_none f stop path reason : ordered (times marks) ->
  find_exit x (f_index f) (drop (f_index f) marks) buy stop (f_target f) (f_max_exit f) reason = Ok (path, None) ->
  forall i m, (f_index f <= i)%nat -> marks !! i = Some m -> m_at m <= f_max_exit f -> m_at m < f_target f /\
    exists price slip, exit_price m buy (x_exit_slippage x) = Ok (price, slip) /\ stopped buy stop price = false /\ (i, price) ∈ path.
Proof.
  intros Ho Hw i m Hi Hm Ht. apply find_exit_none in Hw as (j & Hjl & Hstop & Hb).
  assert (Hlast : (i - f_index f < j)%nat).
  { destruct (decide (i - f_index f < j)%nat) as [|Hn]; [done|]. exfalso. assert (Hs : is_Some (marks !! (f_index f + j)%nat)) by (apply lookup_lt_is_Some; apply lookup_lt_Some in Hm; lia).
    destruct Hs as [m' Hm']. pose proof (Hstop m') as H0. rewrite lookup_drop in H0. specialize (H0 Hm').
    pose proof (ordered_times _ (f_index f + j) i _ _ Ho ltac:(lia) Hm' Hm). lia. }
  destruct (Hb (i - f_index f)%nat m) as (Hg & q & t & H1 & H2 & H3); [lia|rewrite lookup_drop; by replace (f_index f + (i - f_index f))%nat with i by lia|].
  split; [done|]. exists q, t. replace (f_index f + (i - f_index f))%nat with i in H3 by lia. done.
Qed.

Lemma chosen_holding f stop path path' s : ordered (times marks) -> timed f "MAXIMUM_HOLDING" -> 0 <= x_exit_delay x ->
  find_exit x (f_index f) (drop (f_index f) marks) buy stop (f_target f) (f_max_exit f) "MAXIMUM_HOLDING" = Ok (path, None) ->
  holding_exit x marks buy (f_index f) (f_hard f) path = Ok (path', Some s) -> chosen f stop path' s.
Proof.
  intros Ho Hti Hd Hw H. destruct (timed_holding _ _ Hti eq_refl Hd) as (Hhz & Htg & Hx). unfold holding_exit in H.
  destruct (Nat.ltb_spec (bisect_left (times marks) (f_hard f)) (length marks)) as [Hcov|]; [|done].
  destruct (left_index_spec (times marks) (f_hard f) Ho) as (_ & _ & _ & Hge'). rewrite length_times in Hge'.
  destruct (right_index_spec (times marks) (f_hard f) Ho) as (_ & Hlen & Hle & Hgt). rewrite length_times in Hgt.
  destruct (bisect_right (times marks) (f_hard f)) as [|last]; [done|]. destruct (Nat.ltb_spec last (f_index f)) as [|Hge]; [done|].
  destruct (marks !! last) as [m|] eqn:El; [|done]. apply rbind_ok in H as ([price slip] & Hp & H). cbn [fst snd] in H.
  destruct (Z.leb_spec (f_hard f - m_at m) (x_cadence x + x_jitter x)) as [Hj|]; [|done]. injection H as <- <-.
  specialize (Hle last ltac:(lia)). rewrite (nth_times _ _ _ El) in Hle. pose proof (walked_none _ _ _ _ Ho Hw) as Hd'.
  assert (Hafter : forall j n, (last < j)%nat -> marks !! j = Some n -> f_hard f < m_at n).
  { intros j n Hlt Hn. rewrite <- (nth_times _ _ _ Hn). apply Hgt. apply lookup_lt_Some in Hn. lia. }
  destruct (Hd' last m) as (Hlt & q & t & H1 & H2 & H3); [lia|done|lia|]. rewrite Hp in H1. injection H1 as <- <-. split; cbn [s_index s_price s_slippage s_reason].
  - exists m. split; [done|]. split; [lia|]. split; [lia|]. split; [done|]. right; right. split; [done|]. do 2 (split; [lia|]). right. split; [lia|]. split; [|done].
    destruct (lookup_lt_is_Some_2 marks _ Hcov) as [n Hn]. exists n. split; [by apply list_elem_of_lookup_2 in Hn|].
    assert (Hnt : f_hard f <= m_at n) by (rewrite <- (nth_times _ _ _ Hn); apply Hge'; lia).
    apply (Hafter (bisect_left (times marks) (f_hard f))); [|done]. apply Nat.nle_gt. intros Hl. pose proof (ordered_times _ _ _ _ _ Ho Hl Hn El). lia.
  - rewrite H2. done.
  - intros i m' Hi Hm'. pose proof (ordered_times _ i last _ _ Ho ltac:(lia) Hm' El). destruct (Hd' i m') as (Q0 & q & t & Q1 & Q2 & _); [lia|done|lia|].
    split; [done|by exists q, t].
  - destruct (existsb _ path); [done|]. apply elem_of_app. by left.
Qed.

(** A holding time that ends without an exit has no near mark with one at or past the end. *)
Lemma holding_exit_none f path path' : ordered (times marks) -> holding_exit x marks buy (f_index f) (f_hard f) path = Ok (path', None) ->
  forall i m m', (f_index f <= i)%nat -> marks !! i = Some m -> m' ∈ marks ->
    m_at m <= f_hard f <= m_at m + x_cadence x + x_jitter x -> m_at m' < f_hard f.
Proof.
  intros Ho H i m m' Hi Hm Hin Ht. apply Z.nle_gt. intros Hle. apply list_elem_of_lookup in Hin as (k & Hk). unfold holding_exit in H.
  destruct (left_index_spec (times marks) (f_hard f) Ho) as (_ & _ & Hlt & _). destruct (right_index_spec (times marks) (f_hard f) Ho) as (_ & Hlen & _ & Hgt).
  rewrite length_times in Hlen, Hgt. pose proof (lookup_lt_Some _ _ _ Hk) as Hkl. pose proof (lookup_lt_Some _ _ _ Hm) as Hil.
  assert (Hb : (bisect_left (times marks) (f_hard f) <= k)%nat).
  { apply Nat.nlt_ge. intros Hn. specialize (Hlt k Hn). rewrite (nth_times _ _ _ Hk) in Hlt. lia. }
  rewrite (proj2 (Nat.ltb_lt _ _)) in H by lia.
  assert (Hr : (i < bisect_right (times marks) (f_hard f))%nat).
  { apply Nat.nle_gt. intros Hn. specialize (Hgt i ltac:(lia)). rewrite (nth_times _ _ _ Hm) in Hgt. lia. }
  destruct (bisect_right (times marks) (f_hard f)) as [|last]; [lia|]. rewrite (proj2 (Nat.ltb_ge _ _)) in H by lia.
  destruct (lookup_lt_is_Some_2 marks last) as [n Hn]; [lia|]. rewrite Hn in H. apply rbind_ok in H as (ps & _ & H).
  pose proof (ordered_times _ i last _ _ Ho ltac:(lia) Hm Hn). rewrite (proj2 (Z.leb_le _ _)) in H by lia. done.
Qed.

Lemma effective_holding_ok c h : effective_holding_ms intent c = Ok h ->
  exists z, 1 <= z /\ get intent "max_holding_ms" = VInt z /\ h = match c with None => z | Some c => Z.min z (c * 1000) end /\ 0 < h.
Proof.
  unfold effective_holding_ms. intros H. apply rbind_ok in H as (z & Hz & H). apply require_int_ok in Hz as (E & L & _). specialize (L _ eq_refl). exists z. split; [done|]. split; [done|].
  destruct c as [c|]; [|injection H as <-; lia]. apply rbind_ok in H as (y & Hy & H). apply require_int_ok in Hy as (Ey & Ly & _). specialize (Ly _ eq_refl). injection Ey as ->. injection H as <-. lia.
Qed.

Lemma enter_ok i price slip f reason : enter x marks intent (i, price, slip) = Ok (f, reason) ->
  f_index f = i /\ f_at f = nth i (times marks) 0 /\ f_price f = price /\ f_slippage f = slip /\ timed f reason /\
  exists h, effective_holding_ms intent (x_holding x) = Ok h /\ f_hard f = f_at f + h.
Proof.
  intros H. unfold enter in H. apply rbind_ok in H as (holding & Hh & H). injection H as <- <-. cbn. do 4 (split; [done|]). split; [done|by exists holding].
Qed.

Lemma hold_ok i price slip o : ordered (times marks) -> 0 <= x_exit_delay x -> hold x marks intent (i, price, slip) = Ok o ->
  exists f reason, enter x marks intent (i, price, slip) = Ok (f, reason) /\ (o = Open f /\ held f \/ exists e, o = Closed f e /\ left_at f e).
Proof.
  intros Ho Hd H. unfold hold in H. fold buy in H. apply rbind_ok in H as ([f reason] & Hf & H). exists f, reason. split; [done|].
  apply enter_ok in Hf as (_ & _ & _ & _ & Ht & _). apply rbind_ok in H as (distance & Hs & H).
  set (stop := if buy then _ else _) in H. apply rbind_ok in H as (walked & Hw & H). apply rbind_ok in H as (walked' & Hw' & H).
  destruct walked' as [path' [s|]].
  - right. cbn [fst snd] in H. apply rbind_ok in H as (e & He & H). injection H as <-. exists e. split; [done|].
    assert (Hc : chosen f stop path' s).
    { destruct walked as [path [s'|]]; cbn [fst snd] in Hw'; [injection Hw' as <- <-; by apply (chosen_walk f stop path s' reason)|].
      destruct (bool_decide_reflect (reason = "MAXIMUM_HOLDING")) as [->|]; [|done]. by apply (chosen_holding f stop path path' s). }
    destruct Hc as [(m & Hm & Hi & Hle & Hp & Hq) Hst Hb Hpath]. destruct (close_ok _ _ _ _ He Hpath) as (E1 & E2 & E3 & E4 & E5 & E6 & E7 & E8 & E9).
    rewrite (nth_times _ _ _ Hm) in E2. split; rewrite ?E1, ?E2, ?E3, ?E4, ?E5; try done; [by exists m|by exists distance].
  - left. injection H as <-. split; [done|]. destruct walked as [path [s'|]]; cbn [fst snd] in Hw'; [done|]. split.
    + exists distance. split; [done|]. intros stop' j m Hj Hm Hle. destruct (walked_none _ _ _ _ Ho Hw j m Hj Hm Hle) as (H1 & p & q & H2 & H3 & _). split; [done|by exists p, q].
    + intros Hh. destruct (bool_decide_reflect (reason = "MAXIMUM_HOLDING")) as [|Hn]; [by apply (holding_exit_none f path path')|].
      exfalso. apply Hn. destruct Ht as [_ _ ->]. by rewrite (proj2 (Z.leb_le _ _)).
Qed.

Lemma find_entry_window eligible expires r : ordered (times marks) ->
  find_entry x intent (bisect_left (times marks) eligible) (drop (bisect_left (times marks) eligible) marks) expires = Ok r ->
  match r with
  | None => forall m, m ∈ marks -> eligible <= m_at m <= expires -> entry_price m intent (x_entry_slippage x) = Ok None
  | Some (k, price, slip) =>
      (exists m, marks !! k = Some m /\ eligible <= m_at m <= expires /\ entry_price m intent (x_entry_slippage x) = Ok (Some (price, slip))) /\
      forall i m, (i < k)%nat -> marks !! i = Some m -> eligible <= m_at m -> entry_price m intent (x_entry_slippage x) = Ok None
  end.
Proof.
  intros Ho H. destruct (left_index_spec (times marks) eligible Ho) as (_ & Hlen & Hlt & Hge). set (first := bisect_left _ _) in *.
  assert (Hin : forall i m, marks !! i = Some m -> eligible <= m_at m -> (first <= i)%nat).
  { intros i m Hm He. destruct (decide (i < first)%nat) as [Hi|]; [|lia]. specialize (Hlt i Hi). rewrite (nth_times _ _ _ Hm) in Hlt. lia. }
  rewrite length_times in Hge. destruct r as [[[k price] slip]|].
  - apply find_entry_some in H as (j & m & -> & Hj & Hm & He & Hb). rewrite lookup_drop in Hj. split.
    + exists m. split; [done|]. split; [|done]. split; [|done]. rewrite <- (nth_times _ _ _ Hj). apply Hge. apply lookup_lt_Some in Hj. lia.
    + intros i m' Hi Hm' He'. specialize (Hin i m' Hm' He'). apply (Hb (i - first)%nat m'); [lia|]. rewrite lookup_drop. by replace (first + (i - first))%nat with i by lia.
  - apply find_entry_none in H as (j & Hj & Hb & Hs). intros m Hm Ht. apply list_elem_of_lookup in Hm as (i & Hi). specialize (Hin i m Hi ltac:(lia)).
    destruct (decide (i - first < j)%nat) as [Hlt2|Hn].
    + apply (Hb (i - first)%nat m); [done|]. rewrite lookup_drop. by replace (first + (i - first))%nat with i by lia.
    + exfalso. pose proof (lookup_lt_Some _ _ _ Hi) as Hl. destruct (lookup_lt_is_Some_2 marks (first + j)) as [m' Hm']; [lia|].
      pose proof (Hs m') as H0. rewrite lookup_drop in H0. specialize (H0 Hm'). pose proof (ordered_times _ (first + j) i _ _ Ho ltac:(lia) Hm' Hi). lia.
Qed.

Definition executed (eligible expires : Z) (o : outcome) : Prop :=
  match o with
  | Unfilled s complete =>
      (forall m, m ∈ marks -> eligible <= m_at m <= expires -> entry_price m intent (x_entry_slippage x) = Ok None) /\
      (complete = true <-> expires < eligible \/ exists m, m ∈ marks /\ expires <= m_at m) /\ (complete = true <-> stake 10 s = "NOT_FILLED")
  | Open f => entered eligible expires f /\ held f
  | Closed f e => entered eligible expires f /\ left_at f e
  end.

Lemma last_at_most e : ordered (times marks) -> match last_time marks with Some t => e <=? t | None => false end = true <-> exists m, m ∈ marks /\ e <= m_at m.
Proof.
  intros Ho. unfold last_time. rewrite last_lookup, length_times. split.
  - destruct (times marks !! _) as [t|] eqn:E; [|done]. intros H. unfold times in E. rewrite list_lookup_fmap in E.
    destruct (marks !! _) as [m|] eqn:Em; [|done]. injection E as <-. exists m. split; [by apply list_elem_of_lookup_2 in Em|lia].
  - intros (m & Hm & He). apply list_elem_of_lookup in Hm as (i & Hi). pose proof (lookup_lt_Some _ _ _ Hi) as Hl.
    destruct (lookup_lt_is_Some_2 marks (pred (length marks))) as [m' Hm']; [lia|]. unfold times. rewrite list_lookup_fmap, Hm'. simpl.
    pose proof (ordered_times _ i (pred (length marks)) _ _ Ho ltac:(lia) Hi Hm'). lia.
Qed.

Lemma execute_ok observed expires o : ordered (times marks) -> 0 <= x_exit_delay x -> execute x marks intent observed expires = Ok o ->
  executed (observed + x_latency x) expires o.
Proof.
  intros Ho Hd H. unfold execute in H. destruct (Z.ltb_spec expires (observed + x_latency x)) as [Hl|Hl].
  { injection H as <-. split; [intros; lia|]. split; [|done]. split; [by left|done]. }
  apply rbind_ok in H as (fill & Hf & H). apply find_entry_window in Hf; [|done]. destruct fill as [[[k price] slip]|].
  - destruct Hf as ((m & Hm & Ht & He) & Hb). apply hold_ok in H as (f & reason & Hen & H); [|done|done].
    assert (Hn : entered (observed + x_latency x) expires f).
    { apply enter_ok in Hen as (E1 & E2 & E3 & E4 & [T1 T2 _] & h & Eh & E5). apply effective_holding_ok in Eh as (z & Hz & Eg & -> & _). rewrite (nth_times _ _ _ Hm) in E2.
      split; [|..|by exists z]; [..|done|done]; rewrite ?E1, ?E2, ?E3, ?E4; [by exists m|done]. }
    destruct H as [[-> Hh]|(e & -> & He2)]; simpl; auto.
  - injection H as <-. split; [done|]. destruct (last_time marks) eqn:El.
    + pose proof (last_at_most expires Ho) as Hx. rewrite El in Hx. split; [|by destruct (expires <=? z)]. rewrite Hx. split; [by right|]. intros [|]; [lia|done].
    + pose proof (last_at_most expires Ho) as Hx. rewrite El in Hx. split; [|done]. rewrite Hx. split; [by right|]. intros [|]; [lia|done].
Qed.
End execution.

(** ** The marks of a replay *)

Section report.
Context {D : Digest}.

Lemma follows_time cadence jitter document a b : checked_mark document b -> follows cadence jitter a b = true ->
  iget a "observed_at_ms" <= iget b "observed_at_ms".
Proof.
  intros Hb H. destruct (c_changed _ _ Hb) as [c Hc]. unfold follows in H. rewrite Hc in H. destruct c; cbn [is_true is_false] in H; lia.
Qed.

Lemma validated_ordered v records : validate_marks v = Ok records -> ordered (times (map mark_of records)).
Proof.
  intros H. destruct (mark_set_facts v records H) as (document & cadence & jitter & Hck & Hct).
  assert (Hn : forall d i a b, records !! i = Some a -> records !! (i + d)%nat = Some b -> iget a "observed_at_ms" <= iget b "observed_at_ms").
  { induction d as [|d IH]; intros i a b Ha Hb; [rewrite Nat.add_0_r, Ha in Hb; injection Hb as <-; lia|].
    destruct (lookup_lt_is_Some_2 records (i + d)) as [c Hc]; [apply lookup_lt_Some in Hb; lia|]. specialize (IH i a c Ha Hc).
    rewrite Nat.add_succ_r in Hb. destruct (Hct _ _ _ Hc Hb) as [Hf _]. pose proof (follows_time _ _ document _ _ (Hck b (list_elem_of_lookup_2 _ _ _ Hb)) Hf). lia. }
  assert (Hg : forall i a, records !! i = Some a -> nth i (times (map mark_of records)) 0 = iget a "observed_at_ms").
  { intros i a Ha. apply (nth_times _ _ (mark_of a)). change (map ?f ?l) with (f <$> l). by rewrite list_lookup_fmap, Ha. }
  intros i j Hij. rewrite length_times, length_map in Hij. destruct (lookup_lt_is_Some_2 records i) as [a Ha]; [lia|]. destruct (lookup_lt_is_Some_2 records j) as [b Hb]; [lia|].
  rewrite (Hg _ _ Ha), (Hg _ _ Hb). apply (Hn (j - i)%nat i); [done|]. by replace (i + (j - i))%nat with j by lia.
Qed.

Lemma check_request_ok q x o : check_request q = Ok (x, o) -> 0 <= x_exit_delay x /\ 0 <= x_latency x /\ 0 < x_horizon x /\ q_overlapping q = VBool o.
Proof.
  unfold check_request. intros H. apply rbind_ok in H as (h & Hh & H). apply rbind_ok in H as (c & _ & H). apply rbind_ok in H as (d & Hd & H). apply rbind_ok in H as (l & Hl & H).
  do 2 (apply rbind_ok in H as (? & _ & H)). apply rbind_ok in H as (b & Hb & H). apply rbind_ok in H as (m & _ & H). injection H as <- <-. cbn.
  apply require_int_ok in Hh as (_ & Hh & _). apply require_int_ok in Hd as (_ & Hd & _). apply require_int_ok in Hl as (_ & Hl & _).
  specialize (Hh _ eq_refl). specialize (Hd _ eq_refl). specialize (Hl _ eq_refl). destruct (q_overlapping q); try done. injection Hb as ->. split; [lia|]. split; [lia|]. split; [lia|done].
Qed.

(** What went into a replay. *)
Lemma replay_inputs_ok q decisions marks x o receipts records dd md : replay_inputs q decisions marks = Ok (x, o, receipts, records, dd, md) ->
  decisions = VDict dd /\ marks = VDict md /\ validate_decision_set decisions = Ok receipts /\ validate_marks marks = Ok records /\
  differ dd md binding_fields = false /\ 0 <= x_exit_delay x /\ q_overlapping q = VBool o /\
  (o = false -> reject_overlapping_intents receipts (x_latency x) (x_holding x) = Ok tt).
Proof.
  unfold replay_inputs. intros H. apply rbind_ok in H as ([x' o'] & Hx & H). apply rbind_ok in H as (rs & Hr & H). apply rbind_ok in H as (ms & Hm & H).
  apply rbind_ok in H as (dd' & Hdd & H). apply rbind_ok in H as (md' & Hmd & H). apply when_ok in H as [Hb H]. apply rbind_ok in H as ([] & Ho & H).
  injection H as <- <- <- <- <- <-. cbn [fst snd] in *. apply check_request_ok in Hx as (Hd & _ & _ & Hq). destruct decisions; try done. injection Hdd as <-.
  destruct marks; try done. injection Hmd as <-. do 6 (split; [done|]). split; [done|]. by intros ->.
Qed.

Lemma evaluate_replay_ok q decisions marks report : evaluate_replay q decisions marks = Ok report ->
  exists x o receipts records dd md results figures, replay_inputs q decisions marks = Ok (x, o, receipts, records, dd, md) /\
    replay_results x (map mark_of records) receipts = Ok results /\ replay_figures receipts results = Ok figures /\
    get report "results" = get figures "results" /\ get report "execution_model" = execution_model x o.
Proof.
  unfold evaluate_replay. intros H. apply rbind_ok in H as ([[[[[x o] receipts] records] dd] md] & Hi & H). apply rbind_ok in H as (results & Hr & H).
  apply rbind_ok in H as (figures & Hf & H). apply rbind_ok in H as (d & Hd & H). injection H as <-. exists x, o, receipts, records, dd, md, results, figures.
  do 3 (split; [done|]). split; [|done]. unfold replay_figures in Hf. do 4 (apply rbind_ok in Hf as (? & _ & Hf)). by injection Hf as <-.
Qed.

Lemma step_executed x marks receipt r : ordered (times marks) -> 0 <= x_exit_delay x -> replay_step x marks receipt = Ok r ->
  r_receipt r = receipt /\ r_eligible r = iget (intent_of receipt) "observed_at_ms" + x_latency x /\
  r_expiry r = iget (intent_of receipt) "expires_at_ms" /\
  executed x marks (intent_of receipt) (r_eligible r) (r_expiry r) (r_outcome r).
Proof.
  intros Ho Hd H. unfold replay_step in H. apply rbind_ok in H as (o & Hx & H). injection H as <-. do 3 (split; [done|]). by apply execute_ok.
Qed.

(** C6: a replay report says what the execution model would have done.  Its results are one
    for every trade of the decision set, in order.  An unfilled order had no mark of its
    window at which its limit was executable, and it is called expired exactly when the
    window is empty or the marks cover it; a filled order is entered at the first executable
    mark of its window, and its target is the horizon after the entry (in milliseconds) or the
    end of its holding time, whichever is first; a closed order is left at the executable
    price of the first mark from the entry on that is through its stop or has reached the
    target, no later than the exit delay and the holding time allow: for its stop exactly when
    the price is through it, at its horizon when that comes first, and otherwise at the end
    of its holding time, or at the last mark before that end when it is within one cadence
    and jitter of it and later marks cover the end; its net return is its gross return less
    the cost, and its excursions bound the return; and an order left open has no such mark. *)
Theorem replay_execution_sound q decisions marks report : evaluate_replay q decisions marks = Ok report ->
  exists x o receipts records dd md results, replay_inputs q decisions marks = Ok (x, o, receipts, records, dd, md) /\
    get report "results" = VList (map (fun r => VDict (result_document r)) results) /\
    Forall2 (fun receipt r => r_receipt r = receipt /\ r_eligible r = iget (intent_of receipt) "observed_at_ms" + x_latency x /\
               r_expiry r = iget (intent_of receipt) "expires_at_ms" /\
               executed x (map mark_of records) (intent_of receipt) (r_eligible r) (r_expiry r) (r_outcome r))
      (List.filter is_trade receipts) results.
Proof.
  intros H. destruct (evaluate_replay_ok _ _ _ _ H) as (x & o & receipts & records & dd & md & results & figures & Hi & Hr & Hf & He & _).
  exists x, o, receipts, records, dd, md, results. split; [done|]. split.
  - rewrite He. unfold replay_figures in Hf. do 4 (apply rbind_ok in Hf as (? & _ & Hf)). by injection Hf as <-.
  - apply replay_inputs_ok in Hi as (_ & _ & _ & Hm & _ & Hd & _). apply rmapM_Forall2 in Hr. eapply Forall2_impl; [exact Hr|]. intros receipt r Hs.
    apply (step_executed x _ receipt r (validated_ordered _ _ Hm) Hd Hs).
Qed.
End report.

(** ** Later marks *)

Section later.
Context (x : Model) (marks later : list Mark) (intent : dict).
Hypothesis in_order : ordered (times (marks ++ later)).
Hypothesis after : forall m m', m ∈ marks -> m' ∈ later -> m_at m < m_at m'.

Lemma times_more : times (marks ++ later) = times marks ++ times later.
Proof. apply map_app. Qed.
Lemma in_order_first : ordered (times marks).
Proof.
  intros i j Hij. pose proof (in_order i j) as H. rewrite times_more, length_app in H. rewrite !app_nth1 in H by lia. apply H. lia.
Qed.
Lemma after_time m t : m ∈ marks -> t <= m_at m -> forall m', m' ∈ later -> t < m_at m'.
Proof. intros Hm Ht m' Hm'. specialize (after m m' Hm Hm'). lia. Qed.

Lemma filter_more f : (forall m, m ∈ later -> f (m_at m) = false) -> length (List.filter f (times (marks ++ later))) = length (List.filter f (times marks)).
Proof.
  intros H. rewrite times_more, List.filter_app, length_app. enough (length (List.filter f (times later)) = 0%nat) by lia.
  clear - H. induction later as [|m l IH]; simpl; [done|]. rewrite (H m (list_elem_of_here _ _)). apply IH. intros m' Hm'. by apply H, list_elem_of_further.
Qed.
Lemma bisect_left_more t : (forall m, m ∈ later -> t <= m_at m) -> bisect_left (times (marks ++ later)) t = bisect_left (times marks) t.
Proof.
  intros H. rewrite (proj1 (left_index_spec _ t in_order)), (proj1 (left_index_spec _ t in_order_first)). apply filter_more.
  intros m Hm. specialize (H m Hm). lia.
Qed.
Lemma bisect_right_more t : (forall m, m ∈ later -> t < m_at m) -> bisect_right (times (marks ++ later)) t = bisect_right (times marks) t.
Proof.
  intros H. rewrite (proj1 (right_index_spec _ t in_order)), (proj1 (right_index_spec _ t in_order_first)). apply filter_more.
  intros m Hm. specialize (H m Hm). lia.
Qed.

Lemma nth_more i : (i < length marks)%nat -> nth i (times (marks ++ later)) 0 = nth i (times marks) 0.
Proof. intros H. rewrite times_more. apply app_nth1. by rewrite length_times. Qed.
Lemma enter_more i price slip : (i < length marks)%nat -> enter x (marks ++ later) intent (i, price, slip) = enter x marks intent (i, price, slip).
Proof. intros H. unfold enter. by rewrite (nth_more i H), lookup_app_l by done. Qed.
Lemma close_more f path s : (s_index s < length marks)%nat -> close x (marks ++ later) intent f path s = close x marks intent f path s.
Proof. intros H. unfold close. by rewrite (nth_more _ H), lookup_app_l by done. Qed.

(** A covered mark proves that all of the later ones are past it. *)
Lemma later_than t : (bisect_left (times marks) t < length marks)%nat -> forall m, m ∈ later -> t < m_at m.
Proof.
  intros H. destruct (lookup_lt_is_Some_2 marks _ H) as [m Hm]. apply (after_time m); [by apply list_elem_of_lookup_2 in Hm|].
  rewrite <- (nth_times _ _ _ Hm). apply (left_index_spec _ t in_order_first). rewrite length_times. lia.
Qed.

Lemma holding_exit_more buy i hard path r : holding_exit x marks buy i hard path = Ok r -> r.2 <> None ->
  holding_exit x (marks ++ later) buy i hard path = Ok r /\ forall m, m ∈ later -> hard < m_at m.
Proof.
  unfold holding_exit. intros H Hr. destruct (Nat.ltb_spec (bisect_left (times marks) hard) (length marks)) as [Hc|]; [|injection H as <-; done].
  pose proof (later_than hard Hc) as Hl. split; [|done]. rewrite bisect_left_more by (intros m Hm; specialize (Hl m Hm); lia). rewrite (bisect_right_more hard Hl).
  rewrite (proj2 (Nat.ltb_lt _ _)) by (rewrite length_app; lia). destruct (bisect_right (times marks) hard) as [|last] eqn:E; [done|].
  destruct (last <? i)%nat; [done|]. pose proof (right_index_spec _ hard in_order_first) as (_ & Hlen & _). rewrite E, length_times in Hlen. by rewrite lookup_app_l by lia.
Qed.

Lemma hold_more i price slip f e : (i < length marks)%nat -> 0 <= x_exit_delay x -> hold x marks intent (i, price, slip) = Ok (Closed f e) ->
  hold x (marks ++ later) intent (i, price, slip) = Ok (Closed f e).
Proof.
  intros Hi Hd H. unfold hold in *. apply rbind_ok in H as ([f' reason] & Hf & H). rewrite (enter_more _ _ _ Hi), Hf. cbn [rbind].
  apply enter_ok in Hf as (Hfi & _ & _ & _ & Ht & _). apply rbind_ok in H as (distance & -> & H). cbn [rbind]. rewrite <- Hfi in Hi.
  set (stop := if is_buy _ then _ else _) in *. apply rbind_ok in H as (walked & Hw & H). apply rbind_ok in H as (walked' & Hw' & H).
  rewrite drop_app_le by lia. destruct walked' as [path' [s|]]; [|done]. cbn [fst snd] in H.
  assert (Hc : find_exit x (f_index f') (drop (f_index f') marks ++ later) (is_buy (get intent "side")) stop (f_target f') (f_max_exit f') reason = Ok walked /\
    (match walked.2 with None => if bool_decide (reason = "MAXIMUM_HOLDING") then holding_exit x (marks ++ later) (is_buy (get intent "side")) (f_index f') (f_hard f') walked.1 else Ok walked
     | Some _ => Ok walked end) = Ok (path', Some s) /\ (s_index s < length marks)%nat).
  { destruct walked as [path [s'|]]; cbn [fst snd] in *.
    - injection Hw' as <- <-. split; [by apply find_exit_some_more|]. split; [done|]. apply (chosen_walk _ _ intent f' stop path s' reason Ht) in Hw as [(m & Hm & _) _ _ _].
      by apply lookup_lt_Some in Hm.
    - destruct (bool_decide_reflect (reason = "MAXIMUM_HOLDING")) as [->|]; [|done]. pose proof (holding_exit_more _ _ _ _ _ Hw' ltac:(done)) as (Hm & Hl).
      split; [apply find_exit_more; [intros m Hin; specialize (Hl m Hin); destruct (timed_holding _ _ _ Ht eq_refl Hd); lia|done]|]. split; [done|].
      destruct (chosen_holding x marks intent f' stop path path' s in_order_first Ht Hd Hw Hw') as [(m & Hlk & _) _ _ _]. by apply lookup_lt_Some in Hlk. }
  destruct Hc as (-> & Hc & Hs). cbn [rbind]. rewrite Hc. cbn [rbind snd fst]. by rewrite (close_more _ _ _ Hs).
Qed.

Definition settled (o : outcome) : bool := match o with Unfilled _ c => c | Open _ => false | Closed _ _ => true end.

Lemma execute_more observed expires o : 0 <= x_exit_delay x -> execute x marks intent observed expires = Ok o -> settled o = true ->
  execute x (marks ++ later) intent observed expires = Ok o.
Proof.
  intros Hd H Hs. unfold execute in *. destruct (Z.ltb_spec expires (observed + x_latency x)) as [|Hw]; [done|].
  apply rbind_ok in H as (fill & Hf & H). pose proof (find_entry_window _ _ _ _ _ _ in_order_first Hf) as Hent. destruct fill as [[[k price] slip]|].
  - destruct Hent as ((m & Hm & Ht & _) & _). pose proof (list_elem_of_lookup_2 _ _ _ Hm) as Hin.
    rewrite bisect_left_more by (intros m' Hm'; pose proof (after_time m (observed + x_latency x) Hin ltac:(lia) m' Hm'); lia).
    rewrite drop_app_le by (destruct (left_index_spec _ (observed + x_latency x) in_order_first) as (_ & Hb & _); by rewrite length_times in Hb).
    rewrite (find_entry_some_more _ _ _ _ _ _ _ Hf). cbn [rbind]. destruct o as [| |f e]; [|done|].
    + apply hold_ok in H as (? & ? & _ & [[? _]|(? & ? & _)]); [done|done|apply in_order_first|done].
    + apply hold_more; [by apply lookup_lt_Some in Hm|done|done].
  - injection H as <-. simpl in Hs. rewrite Hs in *. pose proof (proj1 (last_at_most marks expires in_order_first) Hs) as (m & Hm & He).
    rewrite bisect_left_more by (intros m' Hm'; pose proof (after_time m expires Hm He m' Hm'); lia).
    rewrite drop_app_le by (destruct (left_index_spec _ (observed + x_latency x) in_order_first) as (_ & Hb & _); by rewrite length_times in Hb).
    rewrite (find_entry_more _ _ _ _ _ (after_time m expires Hm He) _ _ Hf). cbn [rbind].
    rewrite (proj2 (last_at_most (marks ++ later) expires in_order)); [done|]. exists m. split; [apply elem_of_app; by left|done].
Qed.
End later.

(** C7: a replay does not look ahead.  A result whose evidence is complete over some marks is
    the result over any longer history, as long as the marks are in order of time and the
    added ones come strictly later: no later price can change an entry, an exit, a reason or
    a return that is already settled. *)
Theorem replay_no_lookahead x marks later receipt r : ordered (times (marks ++ later)) ->
  (forall m m', m ∈ marks -> m' ∈ later -> m_at m < m_at m') -> 0 <= x_exit_delay x ->
  replay_step x marks receipt = Ok r -> complete r = true -> replay_step x (marks ++ later) receipt = Ok r.
Proof.
  intros Ho Ha Hd H Hc. unfold replay_step in *. apply rbind_ok in H as (o & Hx & H). injection H as <-.
  by rewrite (execute_more x marks later _ Ho Ha _ _ o Hd Hx Hc).
Qed.

(** ** Lifetimes *)

Section pairs.
Context {A : Type} (R : A -> A -> Prop) (R_sym : forall a b, R a b -> R b a).

Lemma pairs_permutation l l' : Permutation l l' -> ForallOrdPairs R l -> ForallOrdPairs R l'.
Proof.
  induction 1 as [|x l l' Hp IH|x y l|l l' l'' H1 IH1 H2 IH2]; intros H.
  - constructor.
  - inversion H as [|? ? Hx Hl]; subst. constructor; [by rewrite <- Hp|by apply IH].
  - inversion H as [|? ? Hx Hl]; subst. inversion Hl as [|? ? Hy Hl']; subst. inversion Hx as [|? ? Hxy Hx']; subst. repeat constructor; auto.
  - auto.
Qed.

Lemma pairs_app l l' a b : ForallOrdPairs R (l ++ l') -> a ∈ l -> b ∈ l' -> R a b.
Proof.
  induction l as [|x l IH]; intros H Ha Hb; [by apply elem_of_nil in Ha|]. inversion H as [|? ? Hx Hl]; subst.
  apply elem_of_cons in Ha as [->|Ha]; [|by apply IH]. rewrite List.Forall_forall in Hx. apply Hx, in_app_iff. right. by apply list_elem_of_In.
Qed.
Lemma pairs_tail l l' : ForallOrdPairs R (l ++ l') -> ForallOrdPairs R l'.
Proof. induction l as [|x l IH]; intros H; [done|]. inversion H; subst. by apply IH. Qed.

Lemma pairs_concat ls : forall i j a b, ForallOrdPairs R (concat ls) -> (i < j)%nat -> (exists l, ls !! i = Some l /\ a ∈ l) -> (exists l, ls !! j = Some l /\ b ∈ l) -> R a b.
Proof.
  induction ls as [|l ls IH]; intros i j a b H Hij (li & Hi & Ha) (lj & Hj & Hb); [by rewrite lookup_nil in Hi|]. simpl in H. destruct j as [|j]; [lia|]. simpl in Hj. destruct i as [|i].
  - injection Hi as ->. apply (pairs_app li (concat ls)); [done|done|]. apply list_elem_of_In, in_concat. exists lj. split; [by apply list_elem_of_lookup_2, list_elem_of_In in Hj|by apply list_elem_of_In].
  - simpl in Hi. apply (IH i j); [by apply pairs_tail in H|lia|by exists li|by exists lj].
Qed.
End pairs.

Definition disjoint (a b : Z * Z * string) : Prop := a.1.2 < b.1.1 \/ b.1.2 < a.1.1.

Lemma overlapping_pairs l : (forall w, w ∈ l -> w.1.1 <= w.1.2) -> overlapping l = Ok tt -> ForallOrdPairs disjoint l /\
  forall w v, hd_error l = Some w -> In v (tl l) -> w.1.2 < v.1.1.
Proof.
  induction l as [|w l IH]; intros Hw H; [split; [constructor|done]|]. assert (Hw' : forall v, v ∈ l -> v.1.1 <= v.1.2) by (intros v Hv; by apply Hw, list_elem_of_further).
  destruct l as [|v l]; [split; [repeat constructor|intros ? ? _ []]|]. cbn [overlapping] in H. apply when_ok in H as [Hlt H]. destruct (IH Hw' H) as [Hp Hh].
  assert (Hall : forall u, In u (v :: l) -> w.1.2 < u.1.1).
  { intros u [<-|Hu]; [lia|]. specialize (Hh v u eq_refl Hu). pose proof (Hw' v (list_elem_of_here _ _)). lia. }
  split; [|intros ? u [= <-] Hu; by apply Hall]. constructor; [|done]. apply List.Forall_forall. intros u Hu. left. by apply Hall.
Qed.

Lemma disjoint_sym a b : disjoint a b -> disjoint b a.
Proof. unfold disjoint. tauto. Qed.

Lemma window_of_ok latency holding receipt ws : window_of latency holding receipt = Ok ws -> forall w, w ∈ ws ->
  exists h, is_trade receipt = true /\ effective_holding_ms (intent_of receipt) holding = Ok h /\
    w = (iget (intent_of receipt) "observed_at_ms" + latency, iget (intent_of receipt) "expires_at_ms" + h, text_of (get receipt "decision_id")) /\ w.1.1 <= w.1.2.
Proof.
  unfold window_of. intros H w Hw. destruct (is_trade receipt); simpl in H; [|injection H as <-; by apply elem_of_nil in Hw].
  destruct (Z.ltb_spec (iget (intent_of receipt) "expires_at_ms") (iget (intent_of receipt) "observed_at_ms" + latency)) as [Hx|Hx]; [injection H as <-; by apply elem_of_nil in Hw|].
  apply rbind_ok in H as (h & Hh & H). injection H as <-. apply list_elem_of_singleton in Hw as ->. exists h. do 3 (split; [done|]). simpl.
  apply effective_holding_ok in Hh as (_ & _ & _ & _ & Hh). lia.
Qed.

Lemma windows_of_trades latency holding receipts : forall ws, rmapM (window_of latency holding) receipts = Ok ws ->
  exists ws', rmapM (window_of latency holding) (List.filter is_trade receipts) = Ok ws' /\ concat ws' = concat ws.
Proof.
  induction receipts as [|receipt receipts IH]; intros ws H; simpl in H; [injection H as <-; by exists []|].
  apply rbind_ok in H as (w & Hw & H). apply rbind_ok in H as (rest & Hr & H). injection H as <-. destruct (IH _ Hr) as (ws' & H1 & H2). simpl. destruct (is_trade receipt) eqn:E.
  - exists (w :: ws'). simpl. rewrite Hw, H1. simpl. by rewrite H2.
  - exists ws'. split; [done|]. unfold window_of in Hw. rewrite E in Hw. injection Hw as <-. done.
Qed.

Lemma reject_overlapping_pairs receipts latency holding : reject_overlapping_intents receipts latency holding = Ok tt ->
  exists ws, rmapM (window_of latency holding) (List.filter is_trade receipts) = Ok ws /\ ForallOrdPairs disjoint (concat ws).
Proof.
  unfold reject_overlapping_intents. intros H. apply rbind_ok in H as (ws & Hw & H). destruct (windows_of_trades _ _ _ _ Hw) as (ws' & Hw' & E). exists ws'. split; [done|]. rewrite E.
  apply (pairs_permutation disjoint disjoint_sym (sorted_by oleb (concat ws))); [apply sorted_by_perm|]. apply overlapping_pairs; [|done].
  intros w Hin. apply list_elem_of_In, sorted_by_In, in_concat in Hin as (l & Hl & Hin). apply rmapM_Forall2 in Hw. apply list_elem_of_In, list_elem_of_lookup in Hl as (n & Hl).
  destruct (Forall2_lookup_r _ _ _ _ _ Hw Hl) as (receipt & _ & Hx). apply list_elem_of_In in Hin. by destruct (window_of_ok _ _ _ _ Hx w Hin) as (h & _ & _ & _ & Hle).
Qed.

(** A filled order lives inside the window of its receipt. *)
Lemma filled_window x marks receipt r f ws : ordered (times marks) -> 0 <= x_exit_delay x -> is_trade receipt = true -> replay_step x marks receipt = Ok r ->
  fill_of r = Some f -> window_of (x_latency x) (x_holding x) receipt = Ok ws -> exists w, w ∈ ws /\ w.1.1 <= f_at f /\ f_hard f <= w.1.2.
Proof.
  intros Ho Hd Ht Hr Hf Hw. destruct (step_executed _ _ _ _ Ho Hd Hr) as (_ & E1 & E2 & Hx). rewrite E1, E2 in Hx.
  assert (Hn : entered x marks (intent_of receipt) (iget (intent_of receipt) "observed_at_ms" + x_latency x) (iget (intent_of receipt) "expires_at_ms") f).
  { unfold fill_of in Hf. destruct (r_outcome r) as [|f'|f' e]; [done| |]; injection Hf as <-; apply Hx. }
  destruct Hn as [(m & _ & Ea & Hin & _) _ _ _ (z & Hz & Eg & Ehard)]. unfold window_of in Hw. rewrite Ht in Hw. cbn [negb] in Hw.
  rewrite (proj2 (Z.ltb_ge _ _)) in Hw by lia. apply rbind_ok in Hw as (h & Hh & Hw).
  apply effective_holding_ok in Hh as (z' & _ & Eg' & -> & _). rewrite Eg in Eg'. injection Eg' as <-. injection Hw as <-. eexists. split; [apply list_elem_of_here|]. simpl. lia.
Qed.

(** C8: a replay that does not allow overlapping intents never holds two positions at once:
    of two filled orders, one is past the end of its holding time before the other is
    entered, whatever the order of the receipts. *)
Theorem replay_positions_disjoint {D : Digest} q decisions marks x receipts records dd md results i j r r' f f' :
  replay_inputs q decisions marks = Ok (x, false, receipts, records, dd, md) ->
  replay_results x (map mark_of records) receipts = Ok results -> (i < j)%nat -> results !! i = Some r -> results !! j = Some r' ->
  fill_of r = Some f -> fill_of r' = Some f' -> f_hard f < f_at f' \/ f_hard f' < f_at f.
Proof.
  intros Hi Hr Hij Hri Hrj Hf Hf'. apply replay_inputs_ok in Hi as (_ & _ & _ & Hm & _ & Hd & _ & Ho). specialize (Ho eq_refl). pose proof (validated_ordered _ _ Hm) as Hord.
  destruct (reject_overlapping_pairs _ _ _ Ho) as (ws & Hw & Hp). apply rmapM_Forall2 in Hr, Hw.
  assert (Hwin : forall n r f, results !! n = Some r -> fill_of r = Some f -> exists w, (exists l, ws !! n = Some l /\ w ∈ l) /\ w.1.1 <= f_at f /\ f_hard f <= w.1.2).
  { intros n s g Hn Hg. destruct (Forall2_lookup_r _ _ _ _ _ Hr Hn) as (receipt & Hrec & Hs). destruct (Forall2_lookup_l _ _ _ _ _ Hw Hrec) as (l & Hl & Hlw).
    assert (Ht : is_trade receipt = true) by (apply list_elem_of_lookup_2, list_elem_of_In, filter_In in Hrec as [_ Hrec]; done).
    destruct (filled_window _ _ _ _ _ _ Hord Hd Ht Hs Hg Hlw) as (w & Hin & H1 & H2). exists w. split; [by exists l|done]. }
  destruct (Hwin _ _ _ Hri Hf) as (w & Hwi & A1 & A2). destruct (Hwin _ _ _ Hrj Hf') as (w' & Hwj & B1 & B2).
  destruct (pairs_concat disjoint ws i j w w' Hp Hij Hwi Hwj) as [H|H]; [left|right]; lia.
Qed.

End StrategyReplayFacts.
