(* ===== verification/StrategyRunner.v ===== *)
(** * The shadow runner

    Models [run_shadow_iteration] of scripts/hepta_strategy_shadow_runner.py.  Everything up
    to the receipt is a function of the inputs ([prepare]); publishing the receipt and
    advancing the state change two files ([commit]).  A run records the files after each
    visible change, because the process may die after any of them.  The packet is built by
    the market context builder, which is not modelled: it is part of the inputs.  The state
    lock excludes concurrent runs, so runs follow each other. *)

From Stdlib Require Import Ascii QArith Floats.SpecFloat.
From S2P Require Import Prelude PyText PyValue PyOrder PyBytes Digest PyJson PyJsonFacts PyFloat Contracts Strategy StrategyEvidence.
From stdpp Require Import base tactics list strings.
From Stdlib Require Import ZArith Lia Bool.
Import Contracts ContractsFile Strategy StrategyReceipt StrategyEvidence.

Open Scope Z_scope.

Module StrategyRunner.

Definition STATE_SCHEMA : string := "hepta.strategy-shadow-state.v2".
Definition STATE_FIELDS : list string :=
  ["schema"; "campaign_id"; "campaign_sha256"; "policy_sha256"; "policy_body_sha256"; "strategy_id"; "strategy_version"; "strategy_sha256";
   "valid_after_ms"; "expires_at_ms"; "slot_interval_ms"; "maximum_iterations"; "maximum_lateness_ms"; "status"; "completed_iterations";
   "last_scheduled_at_ms"; "last_evaluated_at_ms"; "last_decision_id"; "last_outcome"; "last_information_packet_sha256"; "last_receipt_sha256";
   "paper_authorized"; "live_authorized"; "mutation_attempted"; "direct_broker_access"].

Section runner.
Context {D : Digest}.

(** ** The policy and its slots *)

Definition load_observation_policy (f : File) (campaign_id : string) : res (dict * string) :=
  let! document := load_document "SHADOW_POLICY" 65536 f in
  let! policy := require_exact_fields (VDict document) OBSERVATION_POLICY_FIELDS "SHADOW_POLICY_FIELDS_INVALID" in
  let! canonical := canonical_bytes (VDict policy) in
  when negb (bool_decide (f_bytes f = canonical)) raise contract_error "SHADOW_POLICY_CANONICAL_INVALID" in
  let policy_sha256 := digest_bytes (f_bytes f) in
  when negb (eq_str (get policy "schema") POLICY_SCHEMA) raise contract_error "SHADOW_POLICY_SCHEMA_INVALID" in
  let! _ := require_int (get policy "version") "SHADOW_POLICY_SCHEMA_INVALID" (Some 1) (Some 1) in
  let! _ := require_identifier (get policy "campaign_id") "SHADOW_POLICY_CAMPAIGN_ID_INVALID" in
  when negb (eq_str (get policy "campaign_id") campaign_id) raise contract_error "SHADOW_POLICY_CAMPAIGN_BINDING_INVALID" in
  let! _ := require_digest (get policy "campaign_sha256") "SHADOW_POLICY_CAMPAIGN_DIGEST_INVALID" in
  let! _ := require_identifier (get policy "strategy_id") "SHADOW_POLICY_STRATEGY_ID_INVALID" in
  let! _ := require_identifier (get policy "strategy_version") "SHADOW_POLICY_STRATEGY_VERSION_INVALID" in
  let! _ := require_digest (get policy "strategy_sha256") "SHADOW_POLICY_STRATEGY_DIGEST_INVALID" in
  let! valid_after := require_int (get policy "valid_after_ms") "SHADOW_POLICY_TIME_INVALID" (Some 0) None in
  let! expires := require_int (get policy "expires_at_ms") "SHADOW_POLICY_TIME_INVALID" (Some (valid_after + 1)) None in
  let! _ := require_int (get policy "slot_interval_ms") "SHADOW_POLICY_CADENCE_INVALID" (Some SLOT_INTERVAL_MS) (Some SLOT_INTERVAL_MS) in
  let! iterations := require_int (get policy "maximum_iterations") "SHADOW_POLICY_ITERATIONS_INVALID" (Some 1) (Some MAXIMUM_POLICY_ITERATIONS) in
  let! lateness := require_int (get policy "maximum_lateness_ms") "SHADOW_POLICY_LATENESS_INVALID" (Some 0) (Some (SLOT_INTERVAL_MS - 1)) in
  let! _ := require_bool (get policy "shadow_only") true "SHADOW_POLICY_SHADOW_BOUNDARY_INVALID" in
  let! _ := require_bool (get policy "paper_authorized") false "SHADOW_POLICY_PAPER_BOUNDARY_INVALID" in
  let! _ := require_bool (get policy "live_authorized") false "SHADOW_POLICY_LIVE_BOUNDARY_INVALID" in
  let! _ := require_bool (get policy "mutation_attempted") false "SHADOW_POLICY_MUTATION_BOUNDARY_INVALID" in
  let! _ := require_bool (get policy "direct_broker_access") false "SHADOW_POLICY_BROKER_BOUNDARY_INVALID" in
  when expires <=? valid_after + (iterations - 1) * SLOT_INTERVAL_MS + lateness raise contract_error "SHADOW_POLICY_WINDOW_INVALID" in
  let! campaign := digest_document (campaign_binding policy) in
  when negb (eq_str (get policy "campaign_sha256") campaign) raise contract_error "SHADOW_POLICY_CAMPAIGN_DIGEST_MISMATCH" in
  let! _ := check_body policy "body_sha256" "SHADOW_POLICY_BODY_DIGEST_INVALID" "SHADOW_POLICY_BODY_DIGEST_MISMATCH" in
  Ok (policy, policy_sha256).

Definition scheduled_at_ms (policy : dict) (iteration : Z) : Z := iget policy "valid_after_ms" + (iteration - 1) * iget policy "slot_interval_ms".

Definition validate_slot (policy : dict) (iteration evaluated : Z) : res Z :=
  when iget policy "maximum_iterations" <? iteration raise contract_error "SHADOW_ITERATION_OVER_MAXIMUM" in
  when evaluated <? iget policy "valid_after_ms" raise contract_error "SHADOW_SLOT_EARLY" in
  when iget policy "expires_at_ms" <=? evaluated raise contract_error "SHADOW_POLICY_EXPIRED" in
  let scheduled := scheduled_at_ms policy iteration in
  when evaluated <? scheduled raise contract_error "SHADOW_SLOT_EARLY" in
  when scheduled + iget policy "maximum_lateness_ms" <? evaluated raise contract_error "SHADOW_SLOT_LATE" in
  Ok scheduled.

Definition validate_policy_strategy_binding (policy : dict) (strategy : value) (config_sha256 : string) (package : Package) : res (dict * string) :=
  let! config := load_strategy strategy in
  let! strategy_sha256 := strategy_package_digest package config config_sha256 in
  when negb (py_eq (get config "strategy_id") (get policy "strategy_id")) || negb (py_eq (get config "strategy_version") (get policy "strategy_version")) ||
       negb (eq_str (get policy "strategy_sha256") strategy_sha256) raise contract_error "SHADOW_POLICY_STRATEGY_BINDING_INVALID" in
  Ok (config, strategy_sha256).

(** ** The state *)

Definition initial_state (policy : dict) (policy_sha256 : string) : dict :=
  [("schema", VStr STATE_SCHEMA); ("campaign_id", get policy "campaign_id"); ("campaign_sha256", get policy "campaign_sha256");
   ("policy_sha256", VStr policy_sha256); ("policy_body_sha256", get policy "body_sha256"); ("strategy_id", get policy "strategy_id");
   ("strategy_version", get policy "strategy_version"); ("strategy_sha256", get policy "strategy_sha256");
   ("valid_after_ms", get policy "valid_after_ms"); ("expires_at_ms", get policy "expires_at_ms"); ("slot_interval_ms", get policy "slot_interval_ms");
   ("maximum_iterations", get policy "maximum_iterations"); ("maximum_lateness_ms", get policy "maximum_lateness_ms"); ("status", VStr "RUNNING");
   ("completed_iterations", VInt 0); ("last_scheduled_at_ms", VNone); ("last_evaluated_at_ms", VNone); ("last_decision_id", VNone);
   ("last_outcome", VNone); ("last_information_packet_sha256", VNone); ("last_receipt_sha256", VNone); ("paper_authorized", VBool false);
   ("live_authorized", VBool false); ("mutation_attempted", VBool false); ("direct_broker_access", VBool false)].

(** The fields a state copies from its policy, under the names of both. *)
Definition state_bindings : list (string * string) :=
  [("campaign_id", "campaign_id"); ("campaign_sha256", "campaign_sha256"); ("policy_body_sha256", "body_sha256"); ("strategy_id", "strategy_id");
   ("strategy_version", "strategy_version"); ("strategy_sha256", "strategy_sha256"); ("valid_after_ms", "valid_after_ms");
   ("expires_at_ms", "expires_at_ms"); ("slot_interval_ms", "slot_interval_ms"); ("maximum_iterations", "maximum_iterations");
   ("maximum_lateness_ms", "maximum_lateness_ms")].
Definition LAST_FIELDS : list string :=
  ["last_scheduled_at_ms"; "last_evaluated_at_ms"; "last_decision_id"; "last_outcome"; "last_information_packet_sha256"; "last_receipt_sha256"].

(** The record of the last iteration. *)
Definition check_last (policy state : dict) (completed : Z) : res unit :=
  if completed =? 0 then
    when existsb (fun f => negb (is_none (get state f))) LAST_FIELDS raise contract_error "SHADOW_STATE_EMPTY_HISTORY_INVALID" in Ok tt
  else
    let expected := scheduled_at_ms policy completed in
    let! last := require_int (get state "last_scheduled_at_ms") "SHADOW_STATE_SCHEDULE_INVALID" (Some 0) None in
    when negb (last =? expected) raise contract_error "SHADOW_STATE_SCHEDULE_INVALID" in
    let! evaluated := require_int (get state "last_evaluated_at_ms") "SHADOW_STATE_EVALUATED_TIME_INVALID" (Some expected)
                        (Some (expected + iget policy "maximum_lateness_ms")) in
    when iget policy "expires_at_ms" <=? evaluated raise contract_error "SHADOW_STATE_EVALUATED_TIME_INVALID" in
    let! _ := require_identifier (get state "last_decision_id") "SHADOW_STATE_DECISION_ID_INVALID" in
    when! pnot (member (get state "last_outcome") ["NO_TRADE"; "SHADOW_TRADE"]) raise contract_error "SHADOW_STATE_OUTCOME_INVALID" in
    let! _ := require_digest (get state "last_information_packet_sha256") "SHADOW_STATE_PACKET_DIGEST_INVALID" in
    let! _ := require_digest (get state "last_receipt_sha256") "SHADOW_STATE_RECEIPT_DIGEST_INVALID" in
    Ok tt.

Definition check_state (document policy : dict) (policy_sha256 : string) : res dict :=
  let! state := require_exact_fields (VDict document) STATE_FIELDS "SHADOW_STATE_FIELDS_INVALID" in
  when negb (eq_str (get state "schema") STATE_SCHEMA) || negb (eq_str (get state "policy_sha256") policy_sha256) ||
       differ_as state policy state_bindings || negb (eq_str (get state "status") "RUNNING")
  raise contract_error "SHADOW_STATE_BINDING_INVALID" in
  let! _ := each ["campaign_sha256"; "policy_sha256"; "policy_body_sha256"; "strategy_sha256"]
              (fun f => let! _ := require_digest (get state f) ("SHADOW_STATE_" +:+ smap upper f +:+ "_INVALID") in Ok tt) in
  let! _ := require_int (get state "valid_after_ms") "SHADOW_STATE_TIME_INVALID" (Some 0) None in
  let! _ := require_int (get state "expires_at_ms") "SHADOW_STATE_TIME_INVALID" (Some (iget policy "valid_after_ms" + 1)) None in
  let! _ := require_int (get state "slot_interval_ms") "SHADOW_STATE_CADENCE_INVALID" (Some SLOT_INTERVAL_MS) (Some SLOT_INTERVAL_MS) in
  let! _ := require_int (get state "maximum_iterations") "SHADOW_STATE_MAXIMUM_ITERATIONS_INVALID" (Some 1) (Some MAXIMUM_POLICY_ITERATIONS) in
  let! _ := require_int (get state "maximum_lateness_ms") "SHADOW_STATE_LATENESS_INVALID" (Some 0) (Some (SLOT_INTERVAL_MS - 1)) in
  let! _ := require_bool (get state "paper_authorized") false "SHADOW_STATE_PAPER_BOUNDARY_INVALID" in
  let! _ := require_bool (get state "live_authorized") false "SHADOW_STATE_LIVE_BOUNDARY_INVALID" in
  let! _ := require_bool (get state "mutation_attempted") false "SHADOW_STATE_MUTATION_BOUNDARY_INVALID" in
  let! _ := require_bool (get state "direct_broker_access") false "SHADOW_STATE_BROKER_BOUNDARY_INVALID" in
  let! completed := require_int (get state "completed_iterations") "SHADOW_STATE_ITERATION_INVALID" (Some 0) (Some (iget policy "maximum_iterations")) in
  let! _ := check_last policy state completed in
  Ok state.

Definition load_state (f : option File) (policy : dict) (policy_sha256 : string) : res dict :=
  match f with
  | None => Ok (initial_state policy policy_sha256)
  | Some f => let! document := load_document "SHADOW_STATE" MAX_DOCUMENT_BYTES f in check_state document policy policy_sha256
  end.

(** ** Inputs and the receipt *)

(** The decoded inputs of a run, the digests of their files before and after, the digest of
    the strategy file when it was bound, and whether an output path is also an input path or
    the other output path. *)
Record Inputs := mkInputs {
  i_campaign : value; i_iteration : value; i_evaluated : value; i_policy : File; i_collision : bool; i_before : list (string * string);
  i_after : list (string * string); i_strategy : value; i_config_sha256 : string; i_package : Package; i_packet : dict; i_snapshot : dict }.

Record Prepared := mkPrepared {
  r_policy : dict; r_policy_sha256 : string; r_iteration : Z; r_evaluated : Z; r_scheduled : Z; r_decision : dict; r_receipt : dict; r_bytes : string }.
Definition r_campaign_sha256 (p : Prepared) : string := text_of (get (r_policy p) "campaign_sha256").
Definition r_receipt_sha256 (p : Prepared) : string := digest_bytes (r_bytes p).

Definition input_digest (l : list (string * string)) (label : string) : string := dget_or EmptyString label l.

Definition prepare (i : Inputs) : res Prepared :=
  let! campaign_id := require_identifier (i_campaign i) "SHADOW_CAMPAIGN_ID_INVALID" in
  let! iteration := require_int (i_iteration i) "SHADOW_ITERATION_INVALID" (Some 1) None in
  let! evaluated := require_int (i_evaluated i) "SHADOW_EVALUATED_TIME_INVALID" (Some 0) None in
  let! pp := load_observation_policy (i_policy i) campaign_id in
  let '(policy, policy_sha256) := pp in
  let! scheduled := validate_slot policy iteration evaluated in
  when i_collision i raise contract_error "SHADOW_INPUT_OUTPUT_PATH_COLLISION" in
  when negb (bool_decide (input_digest (i_before i) "policy" = policy_sha256)) raise contract_error "SHADOW_POLICY_DRIFT" in
  let! bound := validate_policy_strategy_binding policy (i_strategy i) (i_config_sha256 i) (i_package i) in
  let! decision := evaluate (i_package i) (i_packet i) bound.1 bound.2 (Some (VInt evaluated)) (Some (VInt evaluated)) in
  when negb (bool_decide (input_digest (i_before i) "policy" = input_digest (i_after i) "policy")) ||
       negb (bool_decide (input_digest (i_after i) "policy" = policy_sha256)) raise contract_error "SHADOW_POLICY_DRIFT" in
  when negb (bool_decide (i_before i = i_after i)) raise contract_error "SHADOW_INPUT_DRIFT" in
  let! source := item (i_packet i) "source_snapshot" in
  let! file := subscript source "file_sha256" in
  let! strategy := item (i_packet i) "strategy" in
  let! pinned := subscript strategy "config_sha256" in
  when negb (eq_str file (input_digest (i_after i) "snapshot")) || negb (eq_str pinned (input_digest (i_after i) "strategy"))
  raise contract_error "SHADOW_PACKET_INPUT_BINDING_INVALID" in
  let! receipt := materialize_receipt (i_packet i) decision (i_snapshot i) policy_sha256 (text_of (get policy "campaign_sha256")) in
  let! bytes := canonical_bytes (VDict receipt) in
  Ok (mkPrepared policy policy_sha256 iteration evaluated scheduled decision receipt bytes).

(** ** The two files *)

Record World := mkWorld { w_receipt : option File; w_state : option File }.

Definition set_receipt (f : File) (w : World) : World := mkWorld (Some f) (w_state w).
Definition set_state (s : string) (w : World) : World := mkWorld (w_receipt w) (Some (mkFile s 1)).

Definition validate_bound (p : Prepared) (d : dict) : res dict := validate_observation_policy_binding (VDict d) (r_policy_sha256 p) (r_campaign_sha256 p).
(** A receipt in a file that passes its contract. *)
Definition load_receipt (p : Prepared) (f : File) : res dict :=
  let! d := load_document "SHADOW_RECEIPT" 262144 f in
  let! _ := validate_bound p d in
  Ok d.

(** [os.link] gives the temporary file a second name, [unlink] takes the first away. *)
Definition publish_new_receipt (p : Prepared) : act World unit :=
  _ <-~ lift (validate_bound p (r_receipt p));
  _ <-~ lift (load_receipt p (mkFile (r_bytes p) 1));
  present <-~ look w_receipt;
  _ <-~ lift (match present with Some _ => Raise (contract_error "SHADOW_RECEIPT_ALREADY_EXISTS") | None => Ok tt end);
  _ <-~ change (set_receipt (mkFile (r_bytes p) 2));
  change (set_receipt (mkFile (r_bytes p) 1)).

Definition existing_receipt_matches (p : Prepared) (f : option File) : res bool :=
  match f with
  | None => Ok false
  | Some f =>
      let! existing := load_receipt p f in
      Ok (py_eq (VDict existing) (VDict (r_receipt p)) && bool_decide (f_bytes f = r_bytes p))
  end.

Definition next_state (p : Prepared) (state : dict) : dict :=
  foldl (fun d kv => dset kv.1 kv.2 d) state
    [("completed_iterations", VInt (r_iteration p)); ("last_scheduled_at_ms", VInt (r_scheduled p)); ("last_evaluated_at_ms", VInt (r_evaluated p));
     ("last_decision_id", get (r_receipt p) "decision_id"); ("last_outcome", get (r_receipt p) "final_outcome");
     ("last_information_packet_sha256", get (r_receipt p) "information_packet_sha256"); ("last_receipt_sha256", VStr (r_receipt_sha256 p));
     ("paper_authorized", VBool false); ("live_authorized", VBool false); ("mutation_attempted", VBool false); ("direct_broker_access", VBool false)].

(** The state already records the iteration. *)
Definition check_replay (p : Prepared) (state : dict) (f : option File) : res unit :=
  when! Ok (negb (py_eq (get state "last_decision_id") (get (r_receipt p) "decision_id")) ||
            negb (py_eq (get state "last_outcome") (get (r_receipt p) "final_outcome")) ||
            negb (py_eq (get state "last_information_packet_sha256") (get (r_receipt p) "information_packet_sha256")) ||
            negb (eq_str (get state "last_receipt_sha256") (r_receipt_sha256 p))) ||?
        pnot (existing_receipt_matches p f)
  raise contract_error "SHADOW_IDEMPOTENT_REPLAY_MISMATCH" in
  Ok tt.

Definition publish (p : Prepared) : act World unit :=
  present <-~ look w_receipt;
  match present with
  | Some _ =>
      same <-~ lift (existing_receipt_matches p present);
      lift (if same : bool then Ok tt else Raise (contract_error "SHADOW_RECEIPT_ALREADY_EXISTS"))
  | None => publish_new_receipt p
  end.

(** The receipt as it was published. *)
Definition check_published (p : Prepared) (f : option File) : res unit :=
  match f with
  | None => Raise (contract_error "SHADOW_RECEIPT_READ_FAILED")
  | Some f =>
      let! published := load_receipt p f in
      when negb (py_eq (VDict published) (VDict (r_receipt p))) raise contract_error "SHADOW_RECEIPT_PUBLICATION_DRIFT" in
      Ok tt
  end.

(** The state after the run and whether nothing had to be done. *)
Definition commit (p : Prepared) : act World (dict * bool) :=
  file <-~ look w_state;
  state <-~ lift (load_state file (r_policy p) (r_policy_sha256 p));
  let completed := iget state "completed_iterations" in
  if completed =? r_iteration p then
    present <-~ look w_receipt;
    _ <-~ lift (check_replay p state present);
    lift (Ok (state, true))
  else
    _ <-~ lift (when negb (completed =? r_iteration p - 1) raise contract_error "SHADOW_ITERATION_SEQUENCE_INVALID" in Ok tt);
    _ <-~ publish p;
    present <-~ look w_receipt;
    _ <-~ lift (check_published p present);
    let next := next_state p state in
    bytes <-~ lift (canonical_bytes (VDict next));
    _ <-~ change (set_state bytes);
    lift (Ok (next, false)).

Definition run_shadow_iteration (i : Inputs) : act World (dict * dict * bool) :=
  p <-~ lift (prepare i);
  r <-~ commit p;
  lift (Ok (r_receipt p, r.1, r.2)).
End runner.

End StrategyRunner.
