(* ===== verification/StrategyRunnerFacts.v ===== *)
(** * What the shadow runner guarantees

    A run that is interrupted at any point but one can be repeated with the same inputs and
    ends in the same files; the one point is between [os.link] and [unlink] of the receipt. *)

From Stdlib Require Import Ascii QArith Floats.SpecFloat.
From S2P Require Import Prelude PyText PyValue RowMonad PyOrder PyBytes Digest PyJson PyJsonFacts PyJsonText PyFloat Contracts Strategy StrategyEvidence StrategyEvidenceFacts StrategyRunner.
From stdpp Require Import base tactics list strings.
From Stdlib Require Import ZArith Lia Bool.
Import Contracts ContractsFile Strategy StrategyReceipt StrategyEvidence StrategyMarks StrategyMarksFacts StrategyEvidenceFacts StrategyRunner.

Open Scope Z_scope.

Module StrategyRunnerFacts.

Section facts.
Context {D : Digest}.
Hypothesis digest_size : forall data, slen (digest data) = 64.

(** ** Texts *)

Lemma ascii_of_pattern f s : (forall c, f c = true -> is_ascii c = true) -> sforall f s = true -> utf8_ok s = true.
Proof. intros Hf H. apply ascii_utf8. by eapply sforall_impl. Qed.

Lemma is_alnum_ascii c : is_alnum c = true -> is_ascii c = true.
Proof. unfold is_alnum, is_digit, is_ascii. lia. Qed.
Lemma identifier_char_ascii c : is_identifier_char c = true -> is_ascii c = true.
Proof.
  unfold is_identifier_char. intros H. do 4 (apply orb_prop in H as [H|H]; [|by apply bool_decide_eq_true in H as ->]). by apply is_alnum_ascii.
Qed.
Lemma identifier_utf8 s : is_identifier s = true -> utf8_ok s = true.
Proof.
  destruct s as [|c r]; [done|]. unfold is_identifier. intros H. apply andb_prop in H as [H _]. apply andb_prop in H as [Hc Hr]. apply ascii_utf8. cbn [sforall].
  rewrite (is_alnum_ascii c Hc). eapply sforall_impl; [|exact Hr]. apply identifier_char_ascii.
Qed.
Lemma digest_text_utf8 s : is_digest s = true -> utf8_ok s = true.
Proof.
  unfold is_digest. intros H. apply andb_prop in H as [H Hx]. apply andb_prop in H as [Hp Hl]. apply bool_decide_eq_true in Hp. apply Z.eqb_eq in Hl. apply ascii_utf8.
  rewrite <- (stake_sdrop 7 s), sforall_app, Hp. simpl. eapply sforall_impl; [|exact Hx]. intros c Hc. unfold is_lower_hex, is_ascii in *. lia.
Qed.

Lemma plain_text s : utf8_ok s = true -> plain (VStr s) = true.
Proof. done. Qed.

(** ** The policy *)

Definition an_identifier (v : value) : Prop := exists s, v = VStr s /\ is_identifier s = true /\ slen s <= 2048.
Definition a_digest (v : value) : Prop := exists s, v = VStr s /\ is_digest s = true.

Record policy_ok (policy : dict) (sha : string) : Prop := {
  po_ids : forall f, In f ["campaign_id"; "strategy_id"; "strategy_version"] -> an_identifier (get policy f);
  po_digests : forall f, In f ["campaign_sha256"; "strategy_sha256"; "body_sha256"] -> a_digest (get policy f);
  po_ints : forall f, In f ["valid_after_ms"; "expires_at_ms"; "slot_interval_ms"; "maximum_iterations"; "maximum_lateness_ms"] -> get policy f = VInt (iget policy f);
  po_times : 0 <= iget policy "valid_after_ms" < iget policy "expires_at_ms";
  po_slot : iget policy "slot_interval_ms" = SLOT_INTERVAL_MS;
  po_iterations : 1 <= iget policy "maximum_iterations" <= MAXIMUM_POLICY_ITERATIONS;
  po_lateness : 0 <= iget policy "maximum_lateness_ms" <= SLOT_INTERVAL_MS - 1;
  po_sha : is_digest sha = true }.

Lemma require_identifier_ok v r s : require_identifier v r = Ok s -> an_identifier v.
Proof. intros H. apply require_text_ok in H as (-> & _ & Hl & Hi). exists s. auto. Qed.
Lemma a_digest_ok v r s : require_digest v r = Ok s -> a_digest v.
Proof. intros H. apply require_digest_ok in H as (-> & Hd). by exists s. Qed.

Lemma load_policy_ok f c policy sha : load_observation_policy f c = Ok (policy, sha) -> policy_ok policy sha.
Proof.
  unfold load_observation_policy. intros H. apply rbind_ok in H as (d & _ & H). apply rbind_ok in H as (p & _ & H). apply rbind_ok in H as (cb & _ & H). apply when_ok in H as [_ H].
  apply when_ok in H as [_ H]. apply rbind_ok in H as (? & _ & H). apply rbind_ok in H as (cid & Hcid & H). apply when_ok in H as [_ H]. apply rbind_ok in H as (csha & Hcsha & H).
  apply rbind_ok in H as (sid & Hsid & H). apply rbind_ok in H as (sv & Hsv & H). apply rbind_ok in H as (ssha & Hssha & H). apply rbind_ok in H as (va & Hva & H).
  apply rbind_ok in H as (ex & Hex & H). apply rbind_ok in H as (sl & Hsl & H). apply rbind_ok in H as (it & Hit & H). apply rbind_ok in H as (la & Hla & H).
  do 5 (apply rbind_ok in H as (? & _ & H)). apply when_ok in H as [_ H]. apply rbind_ok in H as (? & _ & H). apply when_ok in H as [_ H]. apply rbind_ok in H as (body & Hb & H).
  injection H as <- <-. apply check_body_ok in Hb as (Hb & Hbd & _).
  apply require_int_ok in Hva as (Hva & Lva & _), Hex as (Hex & Lex & _), Hsl as (Hsl & Lsl & Usl), Hit as (Hit & Lit & Uit), Hla as (Hla & Lla & Ula).
  specialize (Lva _ eq_refl). specialize (Lex _ eq_refl). specialize (Lsl _ eq_refl). specialize (Usl _ eq_refl). specialize (Lit _ eq_refl). specialize (Uit _ eq_refl).
  specialize (Lla _ eq_refl). specialize (Ula _ eq_refl). split; unfold iget; rewrite ?Hva, ?Hex, ?Hsl, ?Hit, ?Hla; try lia.
  - intros k [<-|[<-|[<-|[]]]]; by eapply require_identifier_ok.
  - intros k [<-|[<-|[<-|[]]]]; [by eapply a_digest_ok|by eapply a_digest_ok|]. by exists body.
  - intros k [<-|[<-|[<-|[<-|[<-|[]]]]]]; by rewrite ?Hva, ?Hex, ?Hsl, ?Hit, ?Hla.
  - unfold is_digest, digest_bytes. rewrite slen_app, digest_size. simpl. apply digest_hex.
Qed.

(** ** The state *)

Record state_ok (policy : dict) (sha : string) (state : dict) : Prop := {
  so_exact : exact_fields state STATE_FIELDS = true;
  so_distinct : List.NoDup (map fst state);
  so_schema : get state "schema" = VStr STATE_SCHEMA;
  so_sha : get state "policy_sha256" = VStr sha;
  so_status : get state "status" = VStr "RUNNING";
  so_bound : forall f g, In (f, g) state_bindings -> get state f = get policy g;
  so_completed : get state "completed_iterations" = VInt (iget state "completed_iterations") }.

Lemma initial_state_ok policy sha : state_ok policy sha (initial_state policy sha).
Proof.
  split; try reflexivity.
  - unfold initial_state. cbn [map fst]. apply NoDup_ListNoDup, (bool_decide_unpack _). vm_compute. exact I.
  - unfold state_bindings. intros f g Hin. repeat (destruct Hin as [[= <- <-]|Hin]; [reflexivity|]). done.
Qed.

Lemma py_eq_int v z y : v = VInt y -> py_eq v (VInt z) = true -> v = VInt z.
Proof. intros ->. simpl. intros H. apply Z.eqb_eq in H as ->. done. Qed.

Lemma policy_text policy sha : policy_ok policy sha -> forall f, In f ["campaign_id"; "strategy_id"; "strategy_version"; "campaign_sha256"; "strategy_sha256"; "body_sha256"] ->
  exists s, get policy f = VStr s.
Proof.
  intros Hp f Hf. destruct (decide (In f ["campaign_id"; "strategy_id"; "strategy_version"])) as [Hi|Hi].
  - destruct (po_ids _ _ Hp f Hi) as (s & E & _). by exists s.
  - destruct (po_digests _ _ Hp f) as (s & E & _); [simpl in *; tauto|]. by exists s.
Qed.

Lemma check_state_ok d policy sha state : policy_ok policy sha -> List.NoDup (map fst d) -> check_state d policy sha = Ok state -> state_ok policy sha state.
Proof.
  intros Hp Hd H. unfold check_state in H. apply rbind_ok in H as (st & He & H). apply require_exact_fields_ok in He as [[= <-] He]. apply when_ok in H as [Hb H].
  apply rbind_ok in H as ([] & _ & H). apply rbind_ok in H as (va & Hva & H). apply rbind_ok in H as (ex & Hex & H). apply rbind_ok in H as (sl & Hsl & H).
  apply rbind_ok in H as (it & Hit & H). apply rbind_ok in H as (la & Hla & H). do 4 (apply rbind_ok in H as (? & _ & H)). apply rbind_ok in H as (co & Hco & H).
  apply rbind_ok in H as ([] & _ & H). injection H as <-. apply orb_false_elim in Hb as [Hb Hst]. apply orb_false_elim in Hb as [Hb Hbind]. apply orb_false_elim in Hb as [Hsc Hsha].
  apply negb_false_iff, eq_str_true in Hst, Hsc, Hsha. apply require_int_ok in Hva as (Hva & _), Hex as (Hex & _), Hsl as (Hsl & _), Hit as (Hit & _), Hla as (Hla & _), Hco as (Hco & _).
  split; try done; [|unfold iget; by rewrite Hco]. intros f g Hin. pose proof (differ_as_false _ _ _ _ _ Hbind Hin) as Heq.
  assert (Ht : forall v, py_eq (get d f) v = true -> (exists s, v = VStr s) -> get d f = v) by (intros v Hv [s ->]; by apply py_eq_digest).
  destruct Hin as [[= <- <-]|[[= <- <-]|[[= <- <-]|[[= <- <-]|[[= <- <-]|[[= <- <-]|Hin]]]]]];
    try (apply Ht; [done|]; apply (policy_text _ _ Hp); simpl; tauto).
  destruct Hin as [[= <- <-]|[[= <- <-]|[[= <- <-]|[[= <- <-]|[[= <- <-]|[]]]]]]; rewrite (po_ints _ _ Hp) in Heq |- * by (simpl; auto 10); by eapply py_eq_int.
Qed.

Lemma load_state_ok f policy sha state : policy_ok policy sha -> load_state f policy sha = Ok state -> state_ok policy sha state.
Proof.
  intros Hp. destruct f as [f|]; simpl; [|intros [= <-]; apply initial_state_ok]. intros H. apply rbind_ok in H as (d & Hd & H). eapply check_state_ok; [done| |done].
  unfold load_document in Hd. apply rbind_ok in Hd as (s & _ & Hd). by eapply load_json_distinct.
Qed.

(** ** A prepared run *)

Lemma validate_fields v r : validate v = Ok r -> v = VDict r /\ an_identifier (get r "decision_id") /\ a_digest (get r "information_packet_sha256") /\
  (get r "final_outcome" = VStr "NO_TRADE" \/ get r "final_outcome" = VStr "SHADOW_TRADE").
Proof.
  intros H. destruct (validate_dict _ _ H) as [Hd _]. split; [done|]. unfold validate in H. apply rbind_ok in H as (d & He & H). apply require_exact_fields_ok in He as [E _].
  rewrite Hd in E. injection E as <-. apply rbind_ok in H as ([] & Hh & H). unfold validate_head in Hh. apply when_ok in Hh as [_ Hh]. apply rbind_ok in Hh as ([] & Hid & Hh).
  apply rbind_ok in Hh as (? & _ & Hh). apply rbind_ok in Hh as (ip & Hip & _).
  pose proof (each_ok _ _ Hid "decision_id" ltac:(simpl; tauto)) as Hx. apply rbind_ok in Hx as (id & Hx & _). split; [by eapply require_identifier_ok|]. split; [by eapply a_digest_ok|].
  apply rbind_ok in H as (b & _ & H). destruct b; [done|]. do 5 (apply rbind_ok in H as (? & _ & H)). destruct (eq_str (get r "decision") "NO_TRADE").
  - apply when_ok in H as [H _]. left. do 3 (apply orb_false_elim in H as [H _]). apply orb_false_elim in H as [_ H]. by apply negb_false_iff, eq_str_true in H.
  - apply rbind_ok in H as ([] & H & _). unfold validate_trade in H. apply when_ok in H as [_ H]. do 4 (apply rbind_ok in H as (? & _ & H)). apply when_ok in H as [_ H]. apply when_ok in H as [H _].
    right. do 2 (apply orb_false_elim in H as [H _]). apply orb_false_elim in H as [H _]. by apply negb_false_iff, eq_str_true in H.
Qed.

Record prepared_ok (p : Prepared) : Prop := {
  q_policy : policy_ok (r_policy p) (r_policy_sha256 p);
  q_iteration : 1 <= r_iteration p <= iget (r_policy p) "maximum_iterations";
  q_scheduled : r_scheduled p = scheduled_at_ms (r_policy p) (r_iteration p);
  q_evaluated : r_scheduled p <= r_evaluated p <= r_scheduled p + iget (r_policy p) "maximum_lateness_ms";
  q_expires : r_evaluated p < iget (r_policy p) "expires_at_ms";
  q_receipt : validate (VDict (r_receipt p)) = Ok (r_receipt p);
  q_bytes : canonical_bytes (VDict (r_receipt p)) = Ok (r_bytes p) }.

Lemma materialize_receipt_ok packet decision snapshot ps cs r : materialize_receipt packet decision snapshot ps cs = Ok r -> validate (VDict r) = Ok r.
Proof.
  unfold materialize_receipt. intros H. do 18 (apply rbind_ok in H as (? & _ & H); try (apply when_ok in H as [_ H])).
  apply validate_binding_ok in H as [H _]. destruct (validate_dict _ _ H) as [E _]. by rewrite <- E.
Qed.

Lemma prepare_ok i p : prepare i = Ok p -> prepared_ok p.
Proof.
  unfold prepare. intros H. apply rbind_ok in H as (c & _ & H). apply rbind_ok in H as (it & Hit & H). apply rbind_ok in H as (ev & _ & H). apply rbind_ok in H as ([policy sha] & Hp & H).
  apply rbind_ok in H as (sc & Hsc & H). apply when_ok in H as [_ H]. apply when_ok in H as [_ H]. apply rbind_ok in H as (config & _ & H). apply rbind_ok in H as (decision & _ & H).
  apply when_ok in H as [_ H]. apply when_ok in H as [_ H]. do 4 (apply rbind_ok in H as (? & _ & H)). apply when_ok in H as [_ H]. apply rbind_ok in H as (r & Hr & H).
  apply rbind_ok in H as (b & Hb & H). injection H as <-. unfold validate_slot in Hsc. do 5 (apply when_ok in Hsc as [? Hsc]). injection Hsc as <-.
  apply require_int_ok in Hit as (_ & L & _). specialize (L _ eq_refl). split; cbn; try lia; [by eapply load_policy_ok|by eapply materialize_receipt_ok|done].
Qed.

(** ** The state that is written *)

Lemma inb_In (k : string) l : inb k l = true <-> In k l.
Proof. apply inb_true. Qed.

Lemma exact_fields_keys d d' fields : (forall k, In k (map fst d) <-> In k (map fst d')) -> exact_fields d fields = true -> exact_fields d' fields = true.
Proof.
  unfold exact_fields. intros Hk H. apply andb_prop in H as [H1 H2]. rewrite forallb_forall in H1, H2. apply andb_true_intro. split; apply forallb_forall; intros k Hin.
  - apply H1. by apply Hk.
  - apply inb_In, Hk, inb_In. by apply H2.
Qed.

Lemma foldl_dset_keys (kvs : list (string * value)) : forall d, (forall k, In k (map fst kvs) -> In k (map fst d)) -> map fst (foldl (fun d kv => dset kv.1 kv.2 d) d kvs) = map fst d.
Proof.
  induction kvs as [|[k v] kvs IH]; intros d H; [done|]. cbn [foldl fst snd]. assert (E : map fst (dset k v d) = map fst d).
  { rewrite dset_keys. rewrite (proj2 (dhas_In k d)); [done|]. apply H. by left. }
  rewrite IH, E; [done|]. intros k' Hk'. rewrite E. apply H. by right.
Qed.

Section written.
Context (p : Prepared) (state : dict) (bytes : string).
Hypothesis Hp : prepared_ok p.
Hypothesis Hs : state_ok (r_policy p) (r_policy_sha256 p) state.
Hypothesis Hb : canonical_bytes (VDict (next_state p state)) = Ok bytes.
Let next := next_state p state.

Lemma state_keys k : In k (map fst state) <-> In k STATE_FIELDS.
Proof.
  pose proof (so_exact _ _ _ Hs) as H. unfold exact_fields in H. apply andb_prop in H as [H1 H2]. rewrite forallb_forall in H1, H2. split; intros Hk; apply inb_In; auto.
Qed.
Lemma next_keys : map fst next = map fst state.
Proof. apply foldl_dset_keys. intros k Hk. apply state_keys. cbn in Hk. unfold STATE_FIELDS. simpl. tauto. Qed.

Ltac fields := unfold next, next_state; cbn [foldl fst snd]; getset.

Lemma next_kept f : ~ In f ["completed_iterations"; "last_scheduled_at_ms"; "last_evaluated_at_ms"; "last_decision_id"; "last_outcome"; "last_information_packet_sha256";
    "last_receipt_sha256"; "paper_authorized"; "live_authorized"; "mutation_attempted"; "direct_broker_access"] -> get next f = get state f.
Proof. intros Hf. unfold next, next_state. cbn [foldl fst snd]. simpl in Hf. repeat (rewrite get_dset_ne by (intros ->; tauto)). done. Qed.

Lemma receipt_sha_digest : is_digest (r_receipt_sha256 p) = true.
Proof. unfold r_receipt_sha256, is_digest, digest_bytes. rewrite slen_app, digest_size. simpl. apply digest_hex. Qed.

Lemma next_plain f : In f STATE_FIELDS -> plain (get next f) = true.
Proof.
  destruct (validate_fields _ _ (q_receipt _ Hp)) as (_ & (id & Hid & Iid & _) & (ip & Hip & Dip) & Hout). pose proof (q_policy _ Hp) as Hpol.
  assert (Hi : forall f, In f ["campaign_id"; "strategy_id"; "strategy_version"] -> plain (get (r_policy p) f) = true)
    by (intros g Hg; destruct (po_ids _ _ Hpol g Hg) as (s & -> & Hx & _); apply plain_text; by apply identifier_utf8).
  assert (Hd : forall f, In f ["campaign_sha256"; "strategy_sha256"; "body_sha256"] -> plain (get (r_policy p) f) = true)
    by (intros g Hg; destruct (po_digests _ _ Hpol g Hg) as (s & -> & Hx); apply plain_text; by apply digest_text_utf8).
  assert (Hz : forall f, In f ["valid_after_ms"; "expires_at_ms"; "slot_interval_ms"; "maximum_iterations"; "maximum_lateness_ms"] -> plain (get (r_policy p) f) = true)
    by (intros g Hg; by rewrite (po_ints _ _ Hpol g Hg)).
  unfold STATE_FIELDS. intros Hin. repeat (destruct Hin as [<-|Hin]; [fields|]); [..|done]; try reflexivity;
    try (match goal with |- plain (get state ?f) = _ =>
           first [rewrite (so_bound _ _ _ Hs f f) by (unfold state_bindings; simpl; tauto)|rewrite (so_bound _ _ _ Hs f "body_sha256") by (unfold state_bindings; simpl; tauto)] end;
         first [apply Hi; simpl; tauto|apply Hd; simpl; tauto|apply Hz; simpl; tauto]).
  - by rewrite (so_schema _ _ _ Hs).
  - rewrite (so_sha _ _ _ Hs). apply plain_text, digest_text_utf8. apply (po_sha _ _ Hpol).
  - by rewrite (so_status _ _ _ Hs).
  - rewrite Hid. by apply plain_text, identifier_utf8.
  - by destruct Hout as [->| ->].
  - rewrite Hip. by apply plain_text, digest_text_utf8.
  - apply plain_text, digest_text_utf8, receipt_sha_digest.
Qed.

Lemma next_member k v : In (k, v) next -> In k STATE_FIELDS /\ plain v = true.
Proof.
  intros Hin. assert (Hk : In k STATE_FIELDS) by (apply state_keys; rewrite <- next_keys; by apply (in_map fst) in Hin). split; [done|].
  assert (Hn : List.NoDup (map fst next)) by (rewrite next_keys; apply (so_distinct _ _ _ Hs)). pose proof (dget_of_In _ _ _ Hn Hin) as Hg.
  pose proof (next_plain k Hk) as Hpl. unfold get, getd, dget_or in Hpl. by rewrite Hg in Hpl.
Qed.

Lemma fields_utf8 k : In k STATE_FIELDS -> utf8_ok k = true.
Proof. assert (H : forallb utf8_ok STATE_FIELDS = true) by (vm_compute; reflexivity). rewrite forallb_forall in H. apply H. Qed.

Lemma next_flat : flat next.
Proof.
  split; [rewrite next_keys; apply (so_distinct _ _ _ Hs)|]. intros k v Hin. destruct (next_member k v Hin) as [Hk Hv]. by rewrite (fields_utf8 k Hk).
Qed.

Lemma state_reads_back : slen bytes <= MAX_DOCUMENT_BYTES ->
  exists d, load_document "SHADOW_STATE" MAX_DOCUMENT_BYTES (mkFile bytes 1) = Ok d /\ exact_fields d STATE_FIELDS = true /\ (forall k, In k STATE_FIELDS -> get d k = get next k).
Proof.
  intros Hl. unfold canonical_bytes in Hb. destruct (floats_all finite_float (VDict (next_state p state))); [|done]. destruct (dumps (VDict (next_state p state))) as [t|] eqn:Et; [|done].
  injection Hb as <-. destruct (flat_reads_back unique_object reject_constant next t newline (unique_with_distinct _) next_flat Et (or_intror eq_refl)) as (d & Hd & Hp' & Ha).
  pose proof (flat_perm _ _ (Permutation_sym Hp') next_flat) as Hfd. assert (Hk : forall k, dget k d = dget k next) by (intros k; apply dget_perm; [done|apply Hfd]). exists d. split; [|split].
  - unfold load_document, read_document_bytes, load_json. cbn [f_links f_bytes]. rewrite (proj2 (Z.ltb_ge _ _) Hl), Z.eqb_refl. cbn [negb rbind].
    assert (utf8_ok (t +:+ newline) = true) as -> by (apply ascii_utf8; by rewrite sforall_app, Ha). cbn [negb]. by rewrite Hd, !flat_floats.
  - apply (exact_fields_keys next); [|apply (exact_fields_keys state); [intros k; by rewrite next_keys|apply (so_exact _ _ _ Hs)]].
    intros k. rewrite <- !dhas_In. unfold dhas. by rewrite Hk.
  - intros k _. unfold get, getd, dget_or. by rewrite Hk.
Qed.

(** What was read back passes the checks of the state. *)
Lemma check_state_read d : exact_fields d STATE_FIELDS = true -> (forall k, In k STATE_FIELDS -> get d k = get next k) ->
  check_state d (r_policy p) (r_policy_sha256 p) = Ok d.
Proof.
  intros Hx G. destruct (validate_fields _ _ (q_receipt _ Hp)) as (_ & (id & Hid & Iid & Lid) & (ip & Hip & Dip) & Hout). pose proof (q_policy _ Hp) as Hpol.
  assert (Gs : forall k, In k STATE_FIELDS -> get d k = get next k) by exact G. clear G.
  assert (B : forall f g, In (f, g) state_bindings -> get d f = get (r_policy p) g).
  { intros f g Hin. rewrite Gs by (unfold state_bindings in Hin; repeat (destruct Hin as [[= <- <-]|Hin]; [simpl; tauto|]); done). rewrite <- (so_bound _ _ _ Hs f g Hin).
    apply next_kept. unfold state_bindings in Hin. repeat (destruct Hin as [[= <- <-]|Hin]; [simpl; intuition discriminate|]). done. }
  assert (E : forall f, In f ["schema"; "policy_sha256"; "status"] -> get d f = get state f)
    by (intros f Hf; rewrite Gs by (simpl in *; tauto); apply next_kept; simpl in *; intuition (subst; discriminate)).
  assert (Hi : forall f g, In (f, g) state_bindings -> In g ["valid_after_ms"; "expires_at_ms"; "slot_interval_ms"; "maximum_iterations"; "maximum_lateness_ms"] -> get d f = VInt (iget (r_policy p) g))
    by (intros f g Hin Hg; rewrite (B f g Hin); by apply (po_ints _ _ Hpol)).
  unfold check_state, require_exact_fields. rewrite Hx. cbn [negb rbind].
  rewrite (E "schema"), (so_schema _ _ _ Hs), (E "policy_sha256"), (so_sha _ _ _ Hs), (E "status"), (so_status _ _ _ Hs), !eq_str_refl by (simpl; tauto).
  assert (differ_as d (r_policy p) state_bindings = false) as ->.
  { unfold differ_as. apply not_true_is_false. intros Ht. apply existsb_exists in Ht as ([f g] & Hin & Ht). cbn [fst snd] in Ht. rewrite (B f g Hin) in Ht.
    assert (Hr : py_eq (get (r_policy p) g) (get (r_policy p) g) = true); [|by rewrite Hr in Ht].
    destruct (decide (In g ["valid_after_ms"; "expires_at_ms"; "slot_interval_ms"; "maximum_iterations"; "maximum_lateness_ms"])) as [Hg|Hg].
    - rewrite (po_ints _ _ Hpol g Hg). simpl. apply Z.eqb_refl.
    - destruct (policy_text _ _ Hpol g) as [s ->]; [|simpl; by apply bool_decide_eq_true]. unfold state_bindings in Hin. simpl in Hin, Hg |- *. intuition (simplify_eq; tauto). }
  cbn [negb orb].
  assert (Hd : each ["campaign_sha256"; "policy_sha256"; "policy_body_sha256"; "strategy_sha256"]
      (fun f => let! _ := require_digest (get d f) ("SHADOW_STATE_" +:+ smap upper f +:+ "_INVALID") in Ok tt) = Ok tt).
  { unfold each. cbn [rfold]. rewrite (E "policy_sha256"), (so_sha _ _ _ Hs) by (simpl; tauto). rewrite (B "campaign_sha256" "campaign_sha256"), (B "policy_body_sha256" "body_sha256"), (B "strategy_sha256" "strategy_sha256") by (unfold state_bindings; simpl; tauto).
    destruct (po_digests _ _ Hpol "campaign_sha256" ltac:(simpl; tauto)) as (s1 & -> & D1). destruct (po_digests _ _ Hpol "body_sha256" ltac:(simpl; tauto)) as (s2 & -> & D2).
    destruct (po_digests _ _ Hpol "strategy_sha256" ltac:(simpl; tauto)) as (s3 & -> & D3). unfold require_digest. by rewrite D1, D2, D3, (po_sha _ _ Hpol). }
  rewrite Hd. cbn [rbind].
  rewrite (Hi "valid_after_ms" "valid_after_ms"), (Hi "expires_at_ms" "expires_at_ms"), (Hi "slot_interval_ms" "slot_interval_ms"), (Hi "maximum_iterations" "maximum_iterations"), (Hi "maximum_lateness_ms" "maximum_lateness_ms")
    by (unfold state_bindings; simpl; tauto).
  pose proof (po_times _ _ Hpol). pose proof (po_slot _ _ Hpol). pose proof (po_iterations _ _ Hpol). pose proof (po_lateness _ _ Hpol).
  pose proof (q_iteration _ Hp). pose proof (q_evaluated _ Hp). pose proof (q_expires _ Hp).
  assert (RI : forall z r lo hi, match lo with Some m => m <= z | None => True end -> match hi with Some m => z <= m | None => True end -> require_int (VInt z) r lo hi = Ok z).
  { intros z r lo hi A1 A2. unfold require_int, below, above. destruct lo, hi; rewrite ?(proj2 (Z.ltb_ge _ _)) by lia; done. }
  rewrite !RI by (cbn; lia). cbn [rbind].
  assert (N : forall f v, In f STATE_FIELDS -> get next f = v -> get d f = v) by (intros f v Hf <-; by apply Gs).
  rewrite (N "paper_authorized" (VBool false)), (N "live_authorized" (VBool false)), (N "mutation_attempted" (VBool false)), (N "direct_broker_access" (VBool false)),
    (N "completed_iterations" (VInt (r_iteration p))) by (first [simpl; tauto|by fields]).
  cbn [require_bool is_false negb rbind]. rewrite RI by (cbn; lia). cbn [rbind]. unfold check_last. rewrite (proj2 (Z.eqb_neq _ _)) by lia.
  rewrite (N "last_scheduled_at_ms" (VInt (r_scheduled p))), (N "last_evaluated_at_ms" (VInt (r_evaluated p))), (N "last_decision_id" (VStr id)),
    (N "last_information_packet_sha256" (VStr ip)), (N "last_receipt_sha256" (VStr (r_receipt_sha256 p))), (N "last_outcome" (get (r_receipt p) "final_outcome"))
    by (first [simpl; tauto|by fields]).
  assert (Hsch : 0 <= r_scheduled p) by (rewrite (q_scheduled _ Hp); unfold scheduled_at_ms; nia).
  rewrite RI by (cbn; lia). cbn [rbind]. rewrite (q_scheduled _ Hp) in *. rewrite Z.eqb_refl. cbn [negb]. rewrite RI by (cbn; lia). cbn [rbind].
  rewrite (proj2 (Z.leb_gt _ _)) by lia.
  assert (Hrid : forall r, require_identifier (VStr id) r = Ok id).
  { intros r. unfold require_identifier, require_text. rewrite bool_decide_false by (intros ->; done). rewrite (proj2 (Z.ltb_ge _ _) Lid). cbn [orb]. by rewrite Iid. }
  rewrite Hrid. cbn [rbind]. unfold require_digest. rewrite Dip, receipt_sha_digest. by destruct Hout as [->| ->].
Qed.
End written.

(** ** A run *)

(** The receipt file holds the receipt of the run. *)
Definition published (p : Prepared) (f : File) : Prop := f_bytes f = r_bytes p /\ f_links f = 1 /\ existing_receipt_matches p (Some f) = Ok true /\ check_published p (Some f) = Ok tt.

Lemma load_receipt_links p f d : load_receipt p f = Ok d -> f_links f = 1.
Proof.
  unfold load_receipt, load_document, read_document_bytes. intros H. apply rbind_ok in H as (x & H & _). apply rbind_ok in H as (s & H & _). apply when_ok in H as [H _].
  by apply negb_false_iff, Z.eqb_eq in H.
Qed.

Lemma matches_published p f : existing_receipt_matches p (Some f) = Ok true -> published p f.
Proof.
  intros H. unfold published. split; [|split; [|split; [done|]]]; unfold existing_receipt_matches in H; apply rbind_ok in H as (d & Hd & H); apply Ok_inj in H; apply andb_prop in H as [He Hb].
  - by apply bool_decide_eq_true in Hb.
  - by apply load_receipt_links in Hd.
  - unfold check_published. rewrite Hd. cbn [rbind]. by rewrite He.
Qed.

(** What a successful run did. *)
Inductive committed (p : Prepared) (w : World) : list World -> World -> dict * bool -> Prop :=
| committed_again state : load_state (w_state w) (r_policy p) (r_policy_sha256 p) = Ok state -> iget state "completed_iterations" = r_iteration p ->
    check_replay p state (w_receipt w) = Ok tt -> committed p w [] w (state, true)
| committed_found state f bytes : load_state (w_state w) (r_policy p) (r_policy_sha256 p) = Ok state -> iget state "completed_iterations" = r_iteration p - 1 ->
    w_receipt w = Some f -> published p f -> canonical_bytes (VDict (next_state p state)) = Ok bytes ->
    committed p w [set_state bytes w] (set_state bytes w) (next_state p state, false)
| committed_new state bytes : load_state (w_state w) (r_policy p) (r_policy_sha256 p) = Ok state -> iget state "completed_iterations" = r_iteration p - 1 ->
    w_receipt w = None -> published p (mkFile (r_bytes p) 1) -> canonical_bytes (VDict (next_state p state)) = Ok bytes ->
    committed p w [set_receipt (mkFile (r_bytes p) 2) w; set_receipt (mkFile (r_bytes p) 1) w; set_state bytes (set_receipt (mkFile (r_bytes p) 1) w)]
      (set_state bytes (set_receipt (mkFile (r_bytes p) 1) w)) (next_state p state, false).

Lemma commit_inv p w ws w' r : commit p w = (ws, w', Ok r) -> committed p w ws w' r.
Proof.
  unfold commit, bind, lift, look, change. destruct (load_state (w_state w) (r_policy p) (r_policy_sha256 p)) as [state|] eqn:Es; [|done].
  destruct (Z.eqb_spec (iget state "completed_iterations") (r_iteration p)) as [Ec|Ec].
  - destruct (check_replay p state (w_receipt w)) as [[]|] eqn:Er; [|done]. intros [= <- <- <-]. by apply (committed_again p w state).
  - destruct (Z.eqb_spec (iget state "completed_iterations") (r_iteration p - 1)) as [En|]; [|done]. cbn [negb]. unfold publish, bind, lift, look.
    destruct (w_receipt w) as [f|] eqn:Ef.
    + destruct (existing_receipt_matches p (Some f)) as [[]|] eqn:Em; [|done|done]. rewrite Ef. pose proof (matches_published p f Em) as Hpub. destruct Hpub as (H1 & H2 & H3 & H4). rewrite H4.
      destruct (canonical_bytes (VDict (next_state p state))) as [bytes|] eqn:Eb; [|done]. intros [= <- <- <-]. by apply (committed_found p w state f bytes).
    + unfold publish_new_receipt, bind, lift, look, change. destruct (validate_bound p (r_receipt p)); [|done]. destruct (load_receipt p (mkFile (r_bytes p) 1)) as [d|] eqn:El; [|done]. rewrite Ef.
      cbn [set_receipt w_receipt]. destruct (check_published p (Some (mkFile (r_bytes p) 1))) as [[]|] eqn:Ep; [|done].
      destruct (canonical_bytes (VDict (next_state p state))) as [bytes|] eqn:Eb; [|done]. intros [= <- <- <-]. apply (committed_new p w state bytes); try done.
      apply matches_published. unfold existing_receipt_matches. unfold check_published in Ep. rewrite El in *. cbn [rbind] in *. apply when_ok in Ep as [Ep _]. apply negb_false_iff in Ep.
      rewrite Ep. simpl. by rewrite bool_decide_true.
Qed.

(** A run that finds the receipt and the state of the iteration before only advances the state. *)
Lemma commit_found p w state f bytes : load_state (w_state w) (r_policy p) (r_policy_sha256 p) = Ok state -> iget state "completed_iterations" = r_iteration p - 1 ->
  w_receipt w = Some f -> published p f -> canonical_bytes (VDict (next_state p state)) = Ok bytes ->
  commit p w = ([set_state bytes w], set_state bytes w, Ok (next_state p state, false)).
Proof.
  intros Hl Hc Hf (H1 & H2 & H3 & H4) Hb. unfold commit, bind, lift, look, change, publish, bind, lift, look. rewrite Hl. rewrite (proj2 (Z.eqb_neq _ _)) by lia.
  rewrite (proj2 (Z.eqb_eq _ _) Hc). cbn [negb]. rewrite Hf, H3, Hf, H4, Hb. done.
Qed.

(** A run that finds the state it would write does nothing. *)
Lemma commit_again p w f state bytes : prepared_ok p -> state_ok (r_policy p) (r_policy_sha256 p) state -> canonical_bytes (VDict (next_state p state)) = Ok bytes ->
  slen bytes <= MAX_DOCUMENT_BYTES -> w_receipt w = Some f -> published p f -> w_state w = Some (mkFile bytes 1) ->
  exists s, commit p w = ([], w, Ok (s, true)).
Proof.
  intros Hp Hs Hb Hl Hf (H1 & H2 & H3 & H4) Hw. destruct (state_reads_back p state bytes Hp Hs Hb Hl) as (d & Hd & Hx & Hg).
  pose proof (check_state_read p state Hp Hs d Hx Hg) as Hck. exists d. unfold commit, bind, lift, look. rewrite Hw. unfold load_state. rewrite Hd. cbn [rbind]. rewrite Hck.
  assert (G : forall k v, In k STATE_FIELDS -> get (next_state p state) k = v -> get d k = v) by (intros k v Hk <-; by apply Hg).
  assert (Hci : iget d "completed_iterations" = r_iteration p) by (unfold iget; rewrite (G "completed_iterations" (VInt (r_iteration p))); [done|simpl; tauto|unfold next_state; cbn [foldl fst snd]; getset; done]).
  rewrite Hci, Z.eqb_refl. unfold check_replay. destruct (validate_fields _ _ (q_receipt _ Hp)) as (_ & (id & Hid & _) & (ip & Hip & _) & Hout).
  rewrite (G "last_decision_id" (get (r_receipt p) "decision_id")), (G "last_outcome" (get (r_receipt p) "final_outcome")),
    (G "last_information_packet_sha256" (get (r_receipt p) "information_packet_sha256")), (G "last_receipt_sha256" (VStr (r_receipt_sha256 p)))
    by (first [simpl; tauto|unfold next_state; cbn [foldl fst snd]; getset; done]).
  rewrite Hid, Hip, eq_str_refl, Hf, H3. cbn [py_eq]. rewrite !bool_decide_true by done. destruct Hout as [->| ->]; cbn; reflexivity.
Qed.

Lemma run_inv i w ws w' r : run_shadow_iteration i w = (ws, w', Ok r) -> exists p, prepare i = Ok p /\ committed p w ws w' (r.1.2, r.2) /\ r.1.1 = r_receipt p.
Proof.
  unfold run_shadow_iteration, bind, lift. destruct (prepare i) as [p|]; [|done]. destruct (commit p w) as [[ws' w''] [[s b]|]] eqn:E; [|done]. intros [= <- <- <-].
  exists p. split; [done|]. rewrite app_nil_r. split; [by apply commit_inv|done].
Qed.

Lemma run_of i p w ws w' s b : prepare i = Ok p -> commit p w = (ws, w', Ok (s, b)) -> run_shadow_iteration i w = (ws, w', Ok (r_receipt p, s, b)).
Proof. intros Hp Hc. unfold run_shadow_iteration, bind, lift. rewrite Hp, Hc. simpl. by rewrite app_nil_r. Qed.

(** A crash leaves files that can be read: no second name of the receipt, no state beyond the
    size that is read. *)
Definition readable (c : World) : Prop :=
  (forall f, w_receipt c = Some f -> f_links f = 1) /\ forall f, w_state c = Some f -> slen (f_bytes f) <= MAX_DOCUMENT_BYTES.

(** C11: an interrupted iteration can be repeated.  Take the files after any visible change of
    a run that would have succeeded, also before the first and after the last one, as long as
    they can be read: running the iteration again with the same inputs succeeds, with the
    same receipt, and leaves exactly the files of the uninterrupted run. *)
Theorem shadow_iteration_recovers i w ws w' r : run_shadow_iteration i w = (ws, w', Ok r) -> forall c, c ∈ w :: ws -> readable c ->
  exists ws' r', run_shadow_iteration i c = (ws', w', Ok r') /\ r'.1.1 = r.1.1.
Proof.
  intros H c Hc [Hln Hsz]. destruct (run_inv _ _ _ _ _ H) as (p & Hp & Hcom & Er). apply elem_of_cons in Hc as [->|Hc]; [by exists ws, r|].
  pose proof (prepare_ok i p Hp) as Hpo. rewrite Er. inversion Hcom as [state Hl Hco Hr|state f bytes Hl Hco Hf Hpub Hb|state bytes Hl Hco Hf Hpub Hb]; subst.
  - by apply elem_of_nil in Hc.
  - apply list_elem_of_singleton in Hc as ->. destruct (commit_again p (set_state bytes w) f state bytes Hpo (load_state_ok _ _ _ _ (q_policy _ Hpo) Hl) Hb) as (s & Hs); try done; [by apply (Hsz (mkFile bytes 1))|].
    exists [], (r_receipt p, s, true). split; [by apply run_of|done].
  - apply elem_of_cons in Hc as [->|Hc]; [by specialize (Hln _ eq_refl)|]. apply elem_of_cons in Hc as [->|Hc].
    + exists [set_state bytes (set_receipt (mkFile (r_bytes p) 1) w)], (r_receipt p, next_state p state, false). split; [|done]. apply run_of; [done|].
      by apply (commit_found p _ state (mkFile (r_bytes p) 1) bytes).
    + apply list_elem_of_singleton in Hc as ->. destruct (commit_again p (set_state bytes (set_receipt (mkFile (r_bytes p) 1) w)) (mkFile (r_bytes p) 1) state bytes Hpo (load_state_ok _ _ _ _ (q_policy _ Hpo) Hl) Hb) as (s & Hs);
        try done; [by apply (Hsz (mkFile bytes 1))|]. exists [], (r_receipt p, s, true). split; [by apply run_of|done].
Qed.

(** C13: a crash between giving the receipt its name and removing the temporary one cannot be
    recovered from.  A run that publishes a new receipt passes through files in which the
    receipt has two links, and from them the same iteration is refused, without changing
    anything, however often it is repeated. *)
Theorem shadow_link_crash_refused i w ws w' r : run_shadow_iteration i w = (ws, w', Ok r) -> w_receipt w = None ->
  exists c, c ∈ ws /\ run_shadow_iteration i c = ([], c, Raise (contract_error "SHADOW_RECEIPT_FILE_INVALID")).
Proof.
  intros H Hn. destruct (run_inv _ _ _ _ _ H) as (p & Hp & Hcom & Er). inversion Hcom as [state Hl Hco Hr|state f bytes Hl Hco Hf Hpub Hb|state bytes Hl Hco Hf Hpub Hb]; subst.
  - rewrite Hn in Hr. unfold check_replay in Hr. cbn [existing_receipt_matches] in Hr. exfalso. destruct (_ || _) in Hr; done.
  - by rewrite Hn in Hf.
  - eexists. split; [apply list_elem_of_here|]. unfold run_shadow_iteration, bind at 1, lift at 1. rewrite Hp. unfold commit, bind, lift, look. cbn [set_receipt w_state w_receipt]. rewrite Hl.
    rewrite (proj2 (Z.eqb_neq _ _)) by lia. rewrite (proj2 (Z.eqb_eq _ _) Hco). cbn [negb]. reflexivity.
Qed.

(** Files in which the state was advanced after the receipt was published. *)
Definition advanced (p : Prepared) (w c : World) : Prop :=
  exists state f bytes, load_state (w_state w) (r_policy p) (r_policy_sha256 p) = Ok state /\ r_iteration p = iget state "completed_iterations" + 1 /\
    w_receipt c = Some f /\ check_published p (Some f) = Ok tt /\ canonical_bytes (VDict (next_state p state)) = Ok bytes /\ w_state c = Some (mkFile bytes 1).

Lemma commit_order p w ws w' r : commit p w = (ws, w', r) -> forall c, c ∈ ws ->
  (forall f, w_receipt w = Some f -> w_receipt c = Some f) /\ (w_state c = w_state w \/ advanced p w c).
Proof.
  unfold commit, bind, lift, look, change. destruct (load_state (w_state w) (r_policy p) (r_policy_sha256 p)) as [state|] eqn:Es; [|by intros [= <- _ _] c ?%elem_of_nil].
  destruct (Z.eqb_spec (iget state "completed_iterations") (r_iteration p)) as [Ec|Ec].
  { destruct (check_replay p state (w_receipt w)) as [[]|]; by intros [= <- _ _] c ?%elem_of_nil. }
  destruct (Z.eqb_spec (iget state "completed_iterations") (r_iteration p - 1)) as [En|]; [|by intros [= <- _ _] c ?%elem_of_nil]. cbn [negb]. unfold publish, bind, lift, look.
  destruct (w_receipt w) as [f|] eqn:Ef.
  - destruct (existing_receipt_matches p (Some f)) as [[]|]; [|by intros [= <- _ _] c ?%elem_of_nil|by intros [= <- _ _] c ?%elem_of_nil]. rewrite Ef.
    destruct (check_published p (Some f)) as [[]|] eqn:Ep; [|by intros [= <- _ _] c ?%elem_of_nil]. destruct (canonical_bytes (VDict (next_state p state))) as [bytes|] eqn:Eb; [|by intros [= <- _ _] c ?%elem_of_nil].
    intros [= <- _ _] c Hc. apply list_elem_of_singleton in Hc as ->. split; [intros g [= <-]; exact Ef|]. right. exists state, f, bytes. split; [done|]. split; [lia|]. done.
  - unfold publish_new_receipt, bind, lift, look, change. destruct (validate_bound p (r_receipt p)); [|by intros [= <- _ _] c ?%elem_of_nil].
    destruct (load_receipt p (mkFile (r_bytes p) 1)); [|by intros [= <- _ _] c ?%elem_of_nil]. rewrite Ef. cbn [set_receipt w_receipt].
    assert (Hearly : forall c, c ∈ [set_receipt (mkFile (r_bytes p) 2) w; set_receipt (mkFile (r_bytes p) 1) (set_receipt (mkFile (r_bytes p) 2) w)] -> w_state c = w_state w)
      by (intros c Hc; repeat (apply elem_of_cons in Hc as [->|Hc]; [done|]); by apply elem_of_nil in Hc).
    destruct (check_published p (Some (mkFile (r_bytes p) 1))) as [[]|] eqn:Ep; [|intros [= <- _ _] c Hc; split; [done|left; by apply Hearly]].
    destruct (canonical_bytes (VDict (next_state p state))) as [bytes|] eqn:Eb; [|intros [= <- _ _] c Hc; split; [done|left; by apply Hearly]].
    intros [= <- _ _] c Hc. split; [done|]. apply elem_of_cons in Hc as [->|Hc]; [by left|]. apply elem_of_cons in Hc as [->|Hc]; [by left|].
    apply list_elem_of_singleton in Hc as ->. right. exists state, (mkFile (r_bytes p) 1), bytes. split; [done|]. split; [lia|]. done.
Qed.

(** C12: a run publishes before it advances and never overwrites.  Whatever the inputs, the
    files and the result, no visible change of a run replaces a receipt that exists, and the
    state changes only by one iteration, only when the receipt of that iteration is in its
    file, reads back, passes its contract and equals what was decided. *)
Theorem shadow_publication_order i w ws w' r : run_shadow_iteration i w = (ws, w', r) -> forall c, c ∈ ws ->
  (forall f, w_receipt w = Some f -> w_receipt c = Some f) /\ (w_state c = w_state w \/ exists p, prepare i = Ok p /\ advanced p w c).
Proof.
  unfold run_shadow_iteration, bind, lift. destruct (prepare i) as [p|]; [|by intros [= <- _ _] c ?%elem_of_nil].
  destruct (commit p w) as [[ws' w''] r'] eqn:E. intros H c Hc. assert (Hin : c ∈ ws') by (destruct r'; injection H as <- _ _; [by rewrite app_nil_r in Hc|done]).
  destruct (commit_order _ _ _ _ _ E c Hin) as [H1 [H2|H2]]; (split; [done|]); [by left|right; by exists p].
Qed.
End facts.

End StrategyRunnerFacts.
