(* ===== verification/StrategyScenario.v ===== *)
(** * A shadow campaign, end to end

    Two packets are evaluated by the strategy, their decisions become receipts, the receipts
    and the marks of a four-record history are sealed, and the sealed sets are replayed.  The module
    [StrategyRunnerScenario] runs the first iteration and repeats it after a crash. *)

From Stdlib Require Import Ascii QArith Floats.SpecFloat.
From S2P Require Import Prelude PyDecimal PyText PyValue PyOrder PyBytes Digest PyFloat Contracts Strategy StrategyFacts StrategyEvidence StrategyEvidenceFacts StrategyReplay StrategyReplayFacts PyJson StrategyRunner StrategyRunnerFacts.
From stdpp Require Import base tactics list strings.
From Stdlib Require Import ZArith Lia Bool.
Import Contracts ContractsFile Strategy StrategyFacts StrategyReceipt StrategyEvidence StrategyMarks StrategyMarksFacts StrategyEvidenceFacts StrategyReplay StrategyReplayFacts.

Open Scope Z_scope.

Module StrategyScenario.

(** ** A digest that is quick to evaluate *)

Definition wide (data : string) : string := let d := digits (1 + slen data mod 9999) in srepeat "0" (Z.to_nat (64 - slen d)) +:+ d.

Lemma zeros_hex n : sforall is_lower_hex (srepeat "0" n) = true.
Proof. induction n as [|n IH]; [done|]. simpl. exact IH. Qed.
Lemma wide_hex data : sforall is_lower_hex (wide data) = true /\ wide data <> EmptyString.
Proof.
  pose proof (Z.mod_pos_bound (slen data) 9999 ltac:(lia)). destruct (digits_spec (1 + slen data mod 9999)) as (Hd & Hl & _); [lia|]. unfold wide. split.
  - rewrite sforall_app, zeros_hex. simpl. eapply sforall_impl; [|exact Hd]. intros c Hc. unfold is_digit in Hc. unfold is_lower_hex. by rewrite Hc.
  - intros E. apply (f_equal slen) in E. rewrite slen_app in E. pose proof (slen_nonneg (srepeat "0" (Z.to_nat (64 - slen (digits (1 + slen data mod 9999)))))). simpl in E. lia.
Qed.
#[local] Instance wide_digest : Digest := {| digest := wide; digest_hex := wide_hex |}.
Lemma wide_size data : slen (digest data) = 64.
Proof.
  pose proof (Z.mod_pos_bound (slen data) 9999 ltac:(lia)). simpl. unfold wide. set (z := 1 + slen data mod 9999) in *. rewrite slen_app, slen_repeat, (slen_digits z) by lia.
  assert (ndigits z <= 5) by (apply ndigits_le; lia). lia.
Qed.

(** ** The documents of the campaign *)

Definition ok {A} (dflt : A) (r : res A) : A := match r with Ok a => a | Raise _ => dflt end.
Definition sha (tag : string) : string := "sha256:" +:+ digest tag.
Definition sealed_with (field : string) (body : dict) : dict := body ++ [(field, VStr (ok EmptyString (digest_document (VDict body))))].
Definition bps (c : Z) : value := VFloat (literal c (-2)).
Definition all_true (fields : list string) : dict := map (fun f => (f, VBool true)) fields.

Definition sample_config : dict :=
  [("decision_policy", VDict [("direct_broker_access", VBool false); ("missing_required_evidence", VStr "NO_TRADE"); ("mutation_attempted", VBool false);
      ("stale_or_conflicting_evidence", VStr "NO_TRADE"); ("unknown_or_transition_regime", VStr "NO_TRADE")]);
   ("evidence_requirements", VDict (all_true ["authoritative_account"; "authoritative_health"; "authoritative_orders"; "authoritative_positions";
        "authoritative_quote"; "authoritative_risk"; "economic_calendar_required"; "information_provenance_required"] ++
      [("minimum_bar_observations", VInt 40); ("minimum_raw_quote_observations", VInt 361); ("minimum_resampled_quote_observations", VInt 7);
       ("minimum_history_span_seconds", VInt 5400)]));
   ("feature_calculation_version", VStr "eurusd-shadow-features-v2");
   ("feature_windows", VDict [("atr_bars", VInt 14); ("bar_interval_seconds", VInt 300); ("breakout_bars", VInt 20); ("fast_ema_bars", VInt 12);
      ("quote_confirmation_seconds", VInt 900); ("quote_lookback_seconds", VInt 5400); ("quote_maximum_gap_seconds", VInt 15);
      ("quote_resample_seconds", VInt 900); ("slow_ema_bars", VInt 36); ("slope_lookback_bars", VInt 6)]);
   ("freshness_limits", VDict [("bar_age_ms", VInt 600000); ("economic_calendar_age_ms", VInt 900000);
      ("information_observation_age_ms", VInt 900000); ("portfolio_snapshot_age_ms", VInt 10000); ("quote_age_ms", VInt 5000)]);
   ("instrument", expected_instrument); ("live_authorized", VBool false); ("paper_only", VBool true);
   ("regime", VDict [("maximum_range_ema_separation_bps", bps 75); ("minimum_trend_ema_separation_bps", bps 150); ("minimum_trend_slope_bps", bps 50)]);
   ("schema", VStr "hepta.confirmed-momentum-strategy.v2");
   ("setup", VDict [("allowed_regimes", VList [VStr "trend"]); ("conflicting_information_action", VStr "NO_TRADE"); ("estimated_slippage_bps", bps 15);
      ("event_exclusion_after_seconds", VInt 900); ("event_exclusion_before_seconds", VInt 1800); ("maximum_window_return_bps", bps 4000);
      ("maximum_spread_bps", bps 150); ("maximum_step_volatility_bps", bps 1200); ("minimum_cost_multiple", bps 300);
      ("minimum_confirmation_return_bps", bps 200); ("minimum_step_volatility_bps", bps 5); ("minimum_window_return_bps", bps 500);
      ("require_zero_active_orders", VBool true); ("require_zero_gross_exposure", VBool true); ("require_zero_position", VBool true)]);
   ("shadow_intent_contract", VDict [("limit_price_rule", VStr "BUY_AT_AUTHORITATIVE_ASK_OR_SELL_AT_AUTHORITATIVE_BID");
      ("maximum_holding_seconds", VInt 1800); ("maximum_intent_horizon_seconds", VInt 2); ("maximum_quantity", VInt 1); ("order_type", VStr "LMT");
      ("stop_atr_multiple", bps 75); ("time_in_force", VStr "DAY")]);
   ("strategy_id", VStr "eurusd-confirmed-momentum-shadow"); ("strategy_version", VStr "2.0.0")].

Definition sample_package : Package := mkPackage (sha "evaluator") (sha "builder!") (sha "normalizer") (sha "contract").
Definition config_sha : string := sha "config".
Definition strategy_sha : string :=
  Eval vm_compute in
  (ok EmptyString (strategy_package_digest sample_package sample_config config_sha)).

(** A packet evaluated at a time, with the return of its window. *)
Definition packet (t iteration window_return : Z) : dict :=
  sealed_with "body_sha256"
  [("schema", VStr "hepta.market-information-packet.v1"); ("packet_id", VStr "packet"); ("campaign_id", VStr "campaign-1"); ("iteration", VInt iteration);
   ("mode", VStr "SHADOW"); ("created_at_ms", VInt t); ("evaluated_at_ms", VInt t); ("instrument", VStr "EUR.USD");
   ("strategy", VDict [("strategy_id", VStr "eurusd-confirmed-momentum-shadow"); ("strategy_version", VStr "2.0.0"); ("pinned_sha256", VStr strategy_sha);
      ("config_sha256", VStr config_sha); ("evaluator_sha256", VStr (p_evaluator sample_package)); ("builder_sha256", VStr (p_builder sample_package));
      ("normalizer_sha256", VStr (p_normalizer sample_package)); ("contracts_sha256", VStr (p_contracts sample_package)); ("sha256_verified", VBool true)]);
   ("context_builder", VDict [("schema", VStr "hepta.market-context-builder.v3"); ("builder_sha256", VStr (p_builder sample_package));
      ("normalizer_sha256", VStr (p_normalizer sample_package)); ("contracts_sha256", VStr (p_contracts sample_package));
      ("feature_calculation_version", VStr "eurusd-shadow-features-v2")]);
   ("source_snapshot", VDict [("mutation_attempted", VBool false); ("direct_broker_access", VBool false); ("catalog_sha256", VStr (sha "catalog"));
      ("file_sha256", VStr (sha "snapshot"))]);
   ("authority", VDict (all_true AUTHORITY_KEYS ++ [("paper_authorized", VBool false); ("live_authorized", VBool false)]));
   ("freshness", VDict (all_true ["quote_fresh"; "portfolio_freshness_provable"; "bar_fresh"] ++ [("quote_observed_at_ms", VInt (t - 500))]));
   ("provenance", VDict (all_true ["information_provenance_present"; "calendar_provenance_present"]));
   ("market", VDict [("bid", VFloat (literal 110000 (-5))); ("ask", VFloat (literal 110010 (-5))); ("mid", VFloat (literal 110005 (-5))); ("spread_bps", bps 90)]);
   ("session", VDict []);
   ("history", VDict (all_true ["quote_provenance_provable"; "quote_complete"; "bar_provenance_provable"; "bar_complete"] ++
      [("raw_quote_observations", VInt 361); ("resampled_quote_observations", VInt 7); ("span_seconds", VInt 5400); ("bar_observations", VInt 40)]));
   ("features", VDict [("window_return_bps", bps window_return); ("confirmation_return_bps", bps 400); ("ema_separation_bps", bps 250);
      ("ema_fast_slope_bps", bps 100); ("step_volatility_bps", bps 300); ("atr_bps", bps 500)]);
   ("economic_calendar", VDict [("present", VBool true); ("high_impact_event_window_active", VBool false)]);
   ("information", VDict [("conflicts", VList [])]);
   ("portfolio", VDict [("active_order_count", VInt 0); ("position_quantity", VInt 0); ("gross_exposure", VInt 0)]);
   ("service", VDict []); ("privacy", VDict []); ("evidence_refs", VList [VStr (sha "evidence-1")])].

Definition descriptors : value := VDict (map (fun f => (f, VStr (sha f))) READ_ORDER).
Definition snapshot : dict := [("descriptor_sha256", descriptors); ("catalog_sha256", VStr (sha "catalog"))].

(** The campaign of two slots, from second 0 on. *)
Definition policy_body : dict :=
  [("schema", VStr POLICY_SCHEMA); ("version", VInt 1); ("campaign_id", VStr "campaign-1"); ("strategy_id", VStr "eurusd-confirmed-momentum-shadow");
   ("strategy_version", VStr "2.0.0"); ("strategy_sha256", VStr strategy_sha); ("valid_after_ms", VInt 0); ("expires_at_ms", VInt 400000);
   ("slot_interval_ms", VInt 120000); ("maximum_iterations", VInt 2); ("maximum_lateness_ms", VInt 110000); ("shadow_only", VBool true);
   ("paper_authorized", VBool false); ("live_authorized", VBool false); ("mutation_attempted", VBool false); ("direct_broker_access", VBool false)].
Definition sample_policy : dict :=
  Eval vm_compute in
  (sealed_with "body_sha256" (policy_body ++ [("campaign_sha256", VStr (ok EmptyString (digest_document (campaign_binding policy_body))))])).
Definition policy_sha : string :=
  Eval vm_compute in
  (ok EmptyString (digest_document (VDict sample_policy))).

Definition decide_at (t iteration window_return : Z) : dict :=
  ok [] (evaluate sample_package (packet t iteration window_return) sample_config strategy_sha None None).
Definition receipt_at (t iteration window_return : Z) : dict :=
  ok [] (materialize_receipt (packet t iteration window_return) (decide_at t iteration window_return) snapshot policy_sha (text_of (get sample_policy "campaign_sha256"))).

(** The first decision is late in its slot, the second is on time. *)
Definition receipts : list value :=
  Eval vm_compute in
  ([VDict (receipt_at 100000 1 850); VDict (receipt_at 120000 2 1050)]).

(** ** The history *)

(** A record of the history, observed at its time, after a record with a digest. *)
Definition record (sequence : Z) (previous : value) (t bid ask : Z) : dict :=
  sealed_with "record_sha256"
  ([("schema", VStr "hepta.shadow-market-history-record.v3"); ("version", VInt 3); ("sequence", VInt sequence); ("cadence_ms", VInt 10000);
    ("maximum_jitter_ms", VInt 1000); ("previous_record_sha256", previous); ("snapshot_body_sha256", VStr (sha "snapshot"));
    ("snapshot_file_sha256", VStr (sha "snapshot")); ("domain_id", VStr "domain"); ("agent_uid", VInt 1001); ("instrument", VStr "EUR.USD");
    ("catalog_sha256", VStr (sha "catalog")); ("descriptor_sha256", descriptors); ("execution_service_epoch", VStr "epoch");
    ("execution_service_fencing_generation", VInt 1); ("watch_generation", VInt 1); ("collection_started_at_ms", VInt t);
    ("collection_finished_at_ms", VInt t); ("generated_at_ms", VInt t); ("quote_read_finished_at_ms", VInt t); ("quote_changed", VBool true);
    ("quote", VDict [("source", VStr "SIMULATOR"); ("authoritative", VBool true); ("stale", VBool false); ("bid", VFloat (literal bid (-5)));
       ("ask", VFloat (literal ask (-5))); ("observed_at_ms", VInt t); ("stale_after_ms", VInt (t + 5000))])] ++
   map (fun f => (f, VNone)) ["watch_lease_receipt_body_sha256"; "watch_lease_receipt_file_sha256"; "watch_lease_operation";
     "watch_lease_previous_generation"; "watch_lease_previous_receipt_body_sha256"; "watch_lease_accepted_at_ms"; "watch_lease_ttl_seconds";
     "watch_lease_expires_at_ms"; "watch_export_receipt_body_sha256"; "watch_export_receipt_file_sha256"; "watch_exported_at_ms";
     "watch_export_reader_uid"; "watch_export_reader_gid"]).

Fixpoint history (sequence : Z) (previous : value) (quotes : list (Z * Z * Z)) : list dict :=
  match quotes with
  | [] => []
  | (t, bid, ask) :: quotes => let r := record sequence previous t bid ask in r :: history (sequence + 1) (get r "record_sha256") quotes
  end.

(** Two entries, each left ten seconds later: at a profit and at a loss. *)
Definition records : list dict :=
  Eval vm_compute in
  (history 1 VNone [(101500, 110000, 110005); (111500, 110030, 110035); (121500, 110000, 110005); (131500, 109990, 109995)]).
Definition digests : list value := map (fun r => get r "record_sha256") records.

Definition history_audit : dict :=
  Eval vm_compute in
  [("status", VStr "valid"); ("record_count", VInt 4); ("history_head_sha256", List.last digests VNone);
   ("source_sha256", VStr (ok EmptyString (history_source_digest digests))); ("history_record_bytes", VInt 4096); ("history_index_bytes", VInt 512);
   ("history_storage_bytes", VInt 4608)].
Definition segment : value :=
  Eval vm_compute in
  (VDict ([("segment_index", VInt 1)] ++ dpop "status" history_audit ++ [("audit_sha256", VStr (ok EmptyString (digest_document (VDict history_audit))))])).

Definition sample_audit : dict :=
  Eval vm_compute in
  (sealed_with "body_sha256"
  [("schema", VStr "hepta.bounded-shadow-final-audit-receipt.v2"); ("version", VInt 2); ("campaign_id", VStr "campaign-1");
   ("campaign_sha256", get sample_policy "campaign_sha256"); ("policy_sha256", VStr policy_sha); ("strategy_id", VStr "eurusd-confirmed-momentum-shadow");
   ("strategy_version", VStr "2.0.0"); ("strategy_sha256", VStr strategy_sha); ("completed_iterations", VInt 2); ("maximum_iterations", VInt 2);
   ("finalized_at_ms", VInt 140000); ("segment_count", VInt 1); ("segments", VList [segment]); ("sample_count", VInt 4); ("missed_sample_count", VInt 0);
   ("missed_decision_count", VInt 0); ("payload_bytes_before_final_receipt", VInt 0); ("payload_files_before_final_receipt", VInt 0);
   ("payload_accumulator_before_final_receipt", VStr (sha "payload")); ("paper_authorized", VBool false); ("live_authorized", VBool false);
   ("mutation_attempted", VBool false); ("direct_broker_access", VBool false)]).
Definition file_of (v : value) : File := mkFile (ok EmptyString (canonical_bytes v)) 1.
Definition policy_file : File := file_of (VDict sample_policy).
Definition audit_file : File := file_of (VDict sample_audit).
Definition receipt_files : list File := map file_of receipts.
Definition decisions : dict :=
  Eval vm_compute in
  (ok [] (seal_decision_set policy_file audit_file receipt_files)).
Definition histories : list History := [mkHistory (Some history_audit) (Some (map VDict records))].
Definition mark_set : dict :=
  Eval vm_compute in
  (ok [] (seal_mark_set policy_file audit_file histories (VInt 10000) (VInt 1000))).

(** A horizon of ten seconds, at most fifteen seconds of holding. *)
Definition request : Request :=
  mkRequest (VInt 10) (bps 80) (VInt 5) (VInt 1000) (bps 20) (bps 20) (VInt 15) (VBool false).

(** ** What the campaign shows *)

Definition is_ok {A} (r : res A) : bool := match r with Ok _ => true | Raise _ => false end.
Lemma is_ok_eq {A} (dflt : A) r : is_ok r = true -> r = Ok (ok dflt r).
Proof. by destruct r. Qed.

Lemma sample_loads : load_strategy (VDict sample_config) = Ok sample_config.
Proof. vm_compute. reflexivity. Qed.
Lemma sample_decides : evaluate sample_package (packet 100000 1 850) sample_config strategy_sha None None = Ok (decide_at 100000 1 850).
Proof. apply is_ok_eq. vm_compute. reflexivity. Qed.
Lemma sample_trades : get (decide_at 100000 1 850) "decision" = VStr "TRADE".
Proof. vm_compute. reflexivity. Qed.
Lemma marks_sealed : seal_mark_set policy_file audit_file histories (VInt 10000) (VInt 1000) = Ok mark_set.
Proof. vm_compute. reflexivity. Qed.
Lemma decisions_sealed : seal_decision_set policy_file audit_file receipt_files = Ok decisions.
Proof. vm_compute. reflexivity. Qed.

Definition kept : list dict := ok [] (validate_decision_set (VDict decisions)).
Definition checked : list dict := ok [] (validate_marks (VDict mark_set)).
Lemma decisions_accepted : validate_decision_set (VDict decisions) = Ok kept.
Proof. apply is_ok_eq. vm_compute. reflexivity. Qed.
Lemma marks_accepted : validate_marks (VDict mark_set) = Ok checked.
Proof. apply is_ok_eq. vm_compute. reflexivity. Qed.

Definition report : dict := ok [] (evaluate_replay request (VDict decisions) (VDict mark_set)).
Lemma report_made : evaluate_replay request (VDict decisions) (VDict mark_set) = Ok report.
Proof. apply is_ok_eq. vm_compute. reflexivity. Qed.

(** Both orders are filled. *)
Definition two_filled (d m : value) : bool :=
  match replay_inputs request d m with
  | Ok (x, false, rs, ms, _, _) => match replay_results x (map mark_of ms) rs with Ok l => bool_decide (map filled l = [true; true]) | Raise _ => false end
  | _ => false
  end.
Lemma campaign_filled : two_filled (VDict decisions) (VDict mark_set) = true.
Proof. vm_compute. reflexivity. Qed.

Lemma two_fills d m : two_filled d m = true ->
  exists x rs ms dd md l r r' f f', replay_inputs request d m = Ok (x, false, rs, ms, dd, md) /\ replay_results x (map mark_of ms) rs = Ok l /\
    l !! 0%nat = Some r /\ l !! 1%nat = Some r' /\ fill_of r = Some f /\ fill_of r' = Some f'.
Proof.
  unfold two_filled. destruct (replay_inputs request d m) as [[[[[[x o] rs] ms] dd] md]|]; [|done]. destruct o; [done|]. destruct (replay_results x (map mark_of ms) rs) as [l|] eqn:El; [|done].
  intros H. apply bool_decide_eq_true in H. destruct l as [|r [|r' [|? ?]]]; try done. injection H as H H'. unfold filled in H, H'.
  assert (Hf : exists f, fill_of r = Some f) by (unfold fill_of; destruct (r_outcome r); [done|by eexists|by eexists]).
  assert (Hf' : exists f, fill_of r' = Some f) by (unfold fill_of; destruct (r_outcome r'); [done|by eexists|by eexists]).
  destruct Hf as [f Hf], Hf' as [f' Hf']. exists x, rs, ms, dd, md, [r; r'], r, r', f, f'. auto 10.
Qed.

Definition sample_model : Model := mkModel 1000 10 5 (Some 15) (literal 80 (-2)) (literal 20 (-2)) (literal 20 (-2)) 10000 1000.

(** The marks of the first order, and those after it. *)
Definition early : list Mark := [mkMark 101500 (literal 110000 (-5)) (literal 110005 (-5)); mkMark 111500 (literal 110030 (-5)) (literal 110035 (-5))].
Definition late : list Mark := [mkMark 121500 (literal 110000 (-5)) (literal 110005 (-5)); mkMark 131500 (literal 109990 (-5)) (literal 109995 (-5))].
Definition first_receipt : dict := receipt_at 100000 1 850.

Lemma early_late : ordered (times (early ++ late)).
Proof. intros [|[|[|[|i]]]] [|[|[|[|j]]]] H; simpl in *; lia. Qed.
Lemma late_after m m' : m ∈ early -> m' ∈ late -> m_at m < m_at m'.
Proof. unfold early, late. rewrite !list_elem_of_In. simpl. intros [<-|[<-|[]]] [<-|[<-|[]]]; simpl; lia. Qed.
Lemma first_settled : match replay_step sample_model early first_receipt with Ok r => complete r | Raise _ => false end = true.
Proof. vm_compute. reflexivity. Qed.
Lemma first_result : exists r, replay_step sample_model early first_receipt = Ok r /\ complete r = true.
Proof. pose proof first_settled as H. destruct (replay_step sample_model early first_receipt) as [r|]; [by exists r|done]. Qed.

(** ** Witnesses *)

Lemma strategy_trade_sound_witness :
  exists side i touch t h n, admissible (packet 100000 1 850) sample_config side /\ get (decide_at 100000 1 850) "trade_intent" = VDict i /\
    get i "side" = VStr side /\ pk (packet 100000 1 850) "market" (if bool_decide (side = "BUY") then "ask" else "bid") = Ok touch /\
    vround 8 touch = Ok (get i "limit_price") /\ get (packet 100000 1 850) "evaluated_at_ms" = VInt t /\ get i "expires_at_ms" = VInt (t + h * 1000) /\
    2 <= h <= 3600 /\ get i "quantity" = VInt n /\ 1 <= n <= 1000.
Proof.
  exact (strategy_trade_sound sample_package (packet 100000 1 850) (VDict sample_config) sample_config strategy_sha None None (decide_at 100000 1 850)
           sample_loads sample_decides sample_trades).
Defined.

Lemma replay_execution_sound_witness :
  exists x o receipts records dd md results, replay_inputs request (VDict decisions) (VDict mark_set) = Ok (x, o, receipts, records, dd, md) /\
    get report "results" = VList (map (fun r => VDict (result_document r)) results) /\
    Forall2 (fun receipt r => r_receipt r = receipt /\ r_eligible r = iget (intent_of receipt) "observed_at_ms" + x_latency x /\
               r_expiry r = iget (intent_of receipt) "expires_at_ms" /\
               executed x (map mark_of records) (intent_of receipt) (r_eligible r) (r_expiry r) (r_outcome r))
      (List.filter is_trade receipts) results.
Proof. exact (replay_execution_sound request (VDict decisions) (VDict mark_set) report report_made). Defined.

Lemma replay_positions_disjoint_witness : exists f f', f_hard f < f_at f' \/ f_hard f' < f_at f.
Proof.
  destruct (two_fills (VDict decisions) (VDict mark_set) campaign_filled) as (x & rs & ms & dd & md & l & r & r' & f & f' & Hi & Hl & H & H' & Hf & Hf'). exists f, f'.
  exact (replay_positions_disjoint request (VDict decisions) (VDict mark_set) x rs ms dd md l 0 1 r r' f f' Hi Hl (Nat.lt_0_succ 0) H H' Hf Hf').
Defined.

Lemma replay_no_lookahead_witness : exists r, complete r = true /\ replay_step sample_model (early ++ late) first_receipt = Ok r.
Proof.
  destruct first_result as (r & H & Hc). exists r. split; [exact Hc|].
  exact (replay_no_lookahead sample_model early late first_receipt r early_late late_after (Zle_0_pos 5) H Hc).
Defined.

Lemma mark_set_sound_witness :
  exists document audit values segments cadence jitter, VDict mark_set = VDict document /\ get document "final_audit_receipt" = VDict audit /\
    get document "marks" = VList values /\ get audit "segments" = VList (map VDict segments) /\
    get document "cadence_ms" = VInt cadence /\ get document "maximum_jitter_ms" = VInt jitter /\ 0 <= jitter < cadence /\
    Forall2 (fun v m => validate_mark v document = Ok m) values checked /\ (forall m, m ∈ checked -> checked_mark document m) /\
    continuous cadence jitter checked /\ (forall i, chained (of_segment i checked)) /\
    (forall m, m ∈ checked -> 1 <= segment_of m <= Z.of_nat (length segments)) /\ forall s, s ∈ segments -> covered checked (VDict s).
Proof. exact (mark_set_sound (VDict mark_set) checked marks_accepted). Defined.

Lemma decision_set_sound_witness :
  exists document policy audit p, VDict decisions = VDict document /\ get document "policy" = VDict policy /\ get document "final_audit_receipt" = VDict audit /\
    validate_policy (VDict policy) p = Ok policy /\ get policy "maximum_iterations" = VInt (Z.of_nat (length kept)) /\
    get audit "completed_iterations" = VInt (Z.of_nat (length kept)) /\ kept <> [] /\ NoDup (map (fun r => text_of (get r "decision_id")) kept) /\
    (forall i r, kept !! i = Some r -> validate_observation_policy_binding (VDict r) p (text_of (get policy "campaign_sha256")) = Ok r /\
       receipt_bound r policy = true /\ in_slot policy i r /\ iget r "finished_at_ms" <= iget audit "finalized_at_ms" /\
       get r "live_authorized" = VBool false /\ get r "mutation_attempted" = VBool false) /\
    (forall i r r', kept !! i = Some r -> kept !! S i = Some r' -> iget r "finished_at_ms" < iget r' "started_at_ms").
Proof. exact (decision_set_sound (VDict decisions) kept decisions_accepted). Defined.

Lemma decision_set_roundtrip_witness :
  exists rs documents, validate_decision_set (VDict decisions) = Ok rs /\
    Permutation (map VDict rs) documents /\ Forall2 (fun v f => canonical_bytes v = Ok (f_bytes f)) documents receipt_files.
Proof. exact (decision_set_roundtrip wide_size policy_file audit_file receipt_files decisions decisions_sealed). Defined.

Lemma mark_set_roundtrip_witness :
  exists ms, validate_marks (VDict mark_set) = Ok ms /\ map (fun m => get m "record") ms = map VDict records ++ [].
Proof. exact (mark_set_roundtrip policy_file audit_file histories (VInt 10000) (VInt 1000) mark_set marks_sealed). Defined.

End StrategyScenario.

(** * A shadow iteration and its crashes

    The first iteration of the campaign of StrategyScenario, run by the shadow runner on
    empty files and repeated from the files of an interrupted run. *)

Import StrategyRunner StrategyRunnerFacts StrategyScenario.

Module StrategyRunnerScenario.

#[local] Existing Instance wide_digest.

Definition digests_of_inputs : list (string * string) :=
  [("policy", policy_sha); ("strategy", config_sha); ("snapshot", sha "snapshot"); ("quote_history", sha "quotes"); ("bar_history", sha "bars");
   ("calendar", sha "calendar"); ("information", sha "information")].

Definition inputs : Inputs :=
  mkInputs (VStr "campaign-1") (VInt 1) (VInt 100000) policy_file false digests_of_inputs digests_of_inputs (VDict sample_config) config_sha
    sample_package (packet 100000 1 850) snapshot.

Definition empty : World := mkWorld None None.
Definition trace : list World := (run_shadow_iteration inputs empty).1.1.
Definition final : World := (run_shadow_iteration inputs empty).1.2.
Definition outcome : res (dict * dict * bool) := (run_shadow_iteration inputs empty).2.

Lemma triple {A B C} (x : A * B * C) : x = (x.1.1, x.1.2, x.2).
Proof. by destruct x as [[a b] c]. Qed.
Lemma run_made : run_shadow_iteration inputs empty = (trace, final, outcome).
Proof. exact (triple (run_shadow_iteration inputs empty)). Qed.
Lemma run_succeeds : match outcome with Ok _ => true | Raise _ => false end = true.
Proof. vm_compute. reflexivity. Qed.
Lemma run_result : exists r, outcome = Ok r.
Proof. pose proof run_succeeds as H. destruct outcome as [r|]; [by exists r|done]. Qed.
Lemma iteration_ok : exists r, run_shadow_iteration inputs empty = (trace, final, Ok r).
Proof. destruct run_result as [r Hr]. exists r. rewrite <- Hr. apply run_made. Qed.

(** The crash after the receipt was published and before the state was advanced. *)
Definition crashed (c : World) : bool := match w_receipt c, w_state c with Some f, None => f_links f =? 1 | _, _ => false end.
Lemma crash_seen : match trace !! 1%nat with Some c => crashed c | None => false end = true.
Proof. vm_compute. reflexivity. Qed.
Lemma crashed_readable c : crashed c = true -> readable c.
Proof.
  unfold crashed, readable. destruct (w_receipt c) as [f|], (w_state c) as [g|]; try done. intros H. split; [|done]. intros h [= <-]. by apply Z.eqb_eq.
Qed.
Lemma crash_point : exists c, c ∈ empty :: trace /\ readable c /\ w_state c = None.
Proof.
  pose proof crash_seen as H. destruct (trace !! 1%nat) as [c|] eqn:E; [|done]. exists c. split; [apply list_elem_of_further; by apply list_elem_of_lookup_2 in E|].
  split; [by apply crashed_readable|]. unfold crashed in H. by destruct (w_receipt c), (w_state c).
Qed.

(** ** Witnesses *)

Lemma shadow_iteration_recovers_witness :
  exists c ws r, c ∈ empty :: trace /\ w_state c = None /\ run_shadow_iteration inputs c = (ws, final, Ok r).
Proof.
  destruct iteration_ok as [r Hr]. destruct crash_point as (c & Hc & Hread & Hs).
  destruct (shadow_iteration_recovers wide_size inputs empty trace final r Hr c Hc Hread) as (ws & r' & Hrun & _). exists c, ws, r'. split; [exact Hc|]. split; [exact Hs|exact Hrun].
Defined.

Lemma shadow_link_crash_refused_witness :
  exists c, c ∈ trace /\ run_shadow_iteration inputs c = ([], c, Raise (contract_error "SHADOW_RECEIPT_FILE_INVALID")).
Proof. destruct iteration_ok as [r Hr]. exact (shadow_link_crash_refused inputs empty trace final r Hr eq_refl). Defined.

Lemma shadow_publication_order_witness :
  exists c, c ∈ trace /\ ((forall f, w_receipt empty = Some f -> w_receipt c = Some f) /\
    (w_state c = w_state empty \/ exists p, prepare inputs = Ok p /\ advanced p empty c)).
Proof.
  destruct iteration_ok as [r Hr]. pose proof crash_seen as H. destruct (trace !! 1%nat) as [x|] eqn:E; [|discriminate H].
  exists x. pose proof (list_elem_of_lookup_2 _ _ _ E) as Hx. split; [exact Hx|]. exact (shadow_publication_order inputs empty trace final (Ok r) Hr x Hx).
Defined.

End StrategyRunnerScenario.
