(* ===== verification/History.v ===== *)
(** * The shadow market history

    Models scripts/hepta_shadow_market_history.py up to its bars: the snapshots, leases and
    exports a history is made from, the records and their chain, the head file, the full scan,
    the recovery of the head and the append of a snapshot.  A history is a directory of files;
    an append records the directory after each visible change, because the process may die
    after any of them.  Owners and modes of files are not modelled, the lock makes programs
    follow each other, and the free space of the file system is an argument. *)

From Stdlib Require Import Ascii QArith Floats.SpecFloat.
From S2P Require Import Prelude PyText PyValue PyOrder PyBytes Digest PyJson PyJsonFacts PyFloat Contracts Strategy StrategyEvidence.
From stdpp Require Import base tactics list strings.
From Stdlib Require Import ZArith Lia Bool.
Import Contracts ContractsFile Strategy StrategyReceipt StrategyEvidence StrategyMarks.

Open Scope Z_scope.

Module History.

(** ** Fields, limits and names *)

Definition SNAPSHOT_FIELDS : list string :=
  ["schema"; "version"; "domain_id"; "agent_uid"; "collection_started_at_ms"; "collection_finished_at_ms"; "read_finished_at_ms";
   "generated_at_ms"; "instrument"; "catalog_sha256"; "descriptor_sha256"; "reads"; "paper_authorized"; "live_authorized";
   "mutation_attempted"; "direct_broker_access"; "body_sha256"].
Definition LEASE_RECEIPT_FIELDS : list string :=
  ["schema"; "version"; "domain_id"; "agent_id"; "agent_uid"; "boundary"; "operation"; "lease_generation"; "previous_lease_generation";
   "previous_receipt_body_sha256"; "accepted"; "reason_code"; "accepted_at_ms"; "ttl_seconds"; "expires_at_ms"; "paper_authorized";
   "live_authorized"; "mutation_authorized"; "body_sha256"].
Definition EXPORT_RECEIPT_FIELDS : list string :=
  ["schema"; "version"; "domain_id"; "agent_uid"; "reader_uid"; "reader_gid"; "boundary"; "lease_generation"; "lease_receipt_body_sha256";
   "lease_receipt_file_sha256"; "snapshot_body_sha256"; "snapshot_file_sha256"; "snapshot_generated_at_ms"; "exported_at_ms";
   "paper_authorized"; "live_authorized"; "mutation_attempted"; "direct_broker_access"; "body_sha256"].
Definition HEAD_FIELDS : list string :=
  ["schema"; "version"; "record_schema"; "record_count"; "history_record_bytes"; "first_record_sha256"; "last_record_sha256";
   "last_record_file_sha256"; "last_record_name"; "last_previous_record_sha256"; "last_snapshot_body_sha256"; "last_snapshot_file_sha256";
   "cadence_ms"; "maximum_jitter_ms"; "audit_cursor_sequence"; "audit_expected_previous_sha256"; "body_sha256"].
Definition MAX_DOCUMENT_BYTES : Z := 1024 * 1024.
Definition MAX_HISTORY_RECORDS : Z := 1000000.
Definition MAXIMUM_WATCH_TTL_SECONDS : Z := 3600.
Definition MAXIMUM_STORAGE_GUARD_BYTES : Z := Z.shiftl 1 63 - 1.
Definition INCREMENTAL_AUDIT_RECORDS : nat := 2.
Definition HEAD_NAME : string := "history-head.json".
Definition HEAD_PENDING_NAME : string := ".history-head.pending".
Definition RECORD_SCHEMA : string := "hepta.shadow-market-history-record.v3".
Definition HEAD_SCHEMA : string := "hepta.shadow-market-history-head.v1".

Definition history_error (reason : string) : exn := Exn HistoryError reason.

(** [f"record-{sequence:020d}.json"] *)
Definition record_name (sequence : Z) : string :=
  let ds := digits sequence in "record-" +:+ srepeat "0" (Z.to_nat (20 - slen ds)) +:+ ds +:+ ".json".

(** [RECORD_NAME_PATTERN.fullmatch(name)] and the number it captures. *)
Definition record_number (name : string) : option Z :=
  match remove_prefix "record-" name with
  | Some r =>
      let ds := stake 20 r in
      if (slen ds =? 20) && sforall is_digit ds && bool_decide (sdrop 20 r = ".json") then Some (digits_value ds 0) else None
  | None => None
  end.
(** [LEGACY_RECORD_NAME_PATTERN.fullmatch(name)] *)
Definition is_legacy_name (name : string) : bool :=
  match remove_prefix "record-" name with
  | Some r =>
      let hex := stake 64 (sdrop 21 r) in
      (slen (stake 20 r) =? 20) && sforall is_digit (stake 20 r) && bool_decide (stake 1 (sdrop 20 r) = "-") && (slen hex =? 64) &&
      sforall is_lower_hex hex && bool_decide (sdrop 85 r = ".json")
  | None => false
  end.

(** ** Checks, with the errors of the history *)

Definition as_history {A} (m : res A) : res A :=
  match m with Raise (Exn ContractError reason) => Raise (history_error reason) | _ => m end.

Definition exact (v : value) (fields : list string) (reason : string) : res dict := as_history (require_exact_fields v fields reason).
Definition integer (v : value) (reason : string) (minimum maximum : option Z) : res Z := as_history (require_int v reason minimum maximum).
Definition a_digest (v : value) (reason : string) : res string := as_history (require_digest v reason).

(** An integer beyond the range of floats is an [OverflowError]. *)
Definition number (v : value) (reason : string) (positive : bool) : res spec_float :=
  match v with
  | VInt _ | VFloat _ =>
      let! f := to_float v in
      when negb (is_finite f) || (positive && fleb f fzero) raise history_error reason in Ok f
  | _ => Raise (history_error reason)
  end.

Definition is_name_char (c : ascii) : bool := is_identifier_char c || bool_decide (c = "/"%char).
(** [IDENTIFIER_PATTERN.fullmatch(s)] *)
Definition is_name (s : string) : bool :=
  match s with String c r => is_alnum c && sforall is_name_char r && (slen r <=? 255) | EmptyString => false end.
Definition a_name (v : value) (reason : string) : res string :=
  match v with
  | VStr s => when bool_decide (s = EmptyString) || (2048 <? slen s) || negb (is_name s) raise history_error reason in Ok s
  | _ => Raise (history_error reason)
  end.

Section history.
Context {D : Digest}.

Definition canonical (v : value) : res string :=
  match canonical_bytes v with Ok b => Ok b | Raise _ => Raise (history_error "MARKET_HISTORY_CANONICALIZATION_FAILED") end.
Definition digest_of (v : value) : res string := let! b := canonical v in Ok (digest_bytes b).

Definition claimed_body (document : dict) (field reason : string) : res string :=
  let! claimed := a_digest (get document field) reason in
  let! actual := digest_of (VDict (dpop field document)) in
  when negb (bool_decide (claimed = actual)) raise history_error reason in
  Ok claimed.

Definition unique_members (pairs : list (string * value)) : res dict := unique_with (history_error "MARKET_HISTORY_JSON_DUPLICATE_KEY") pairs.
Definition no_constant (name : string) : res value := Raise (history_error "MARKET_HISTORY_JSON_NON_FINITE").

(** The document of a file, which must be its canonical bytes. *)
Definition load_canonical (label : string) (f : option File) : res (dict * string) :=
  match f with
  | None => Raise (history_error (label +:+ "_READ_FAILED"))
  | Some f =>
      when negb (f_links f =? 1) || (MAX_DOCUMENT_BYTES <? slen (f_bytes f)) raise history_error (label +:+ "_METADATA_INVALID") in
      let invalid := history_error (label +:+ "_JSON_INVALID") in
      when negb (sforall is_ascii (f_bytes f)) raise invalid in
      match loads_with unique_members no_constant (f_bytes f) with
      | Raise e => Raise (match e with Exn HistoryError _ => e | _ => invalid end)
      | Ok (VDict d) =>
          let! c := canonical (VDict d) in
          when negb (bool_decide (f_bytes f = c)) raise history_error (label +:+ "_NOT_CANONICAL") in
          Ok (d, f_bytes f)
      | Ok _ => Raise (history_error (label +:+ "_ROOT_INVALID"))
      end
  end.

Definition validate_cadence (cadence jitter : value) : res (Z * Z) :=
  let! c := integer cadence "MARKET_HISTORY_CADENCE_INVALID" (Some MIN_CADENCE_MS) (Some MAX_CADENCE_MS) in
  let! j := integer jitter "MARKET_HISTORY_JITTER_INVALID" (Some 0) (Some MAXIMUM_JITTER_MS) in
  when c <=? j raise history_error "MARKET_HISTORY_JITTER_INVALID" in
  Ok (c, j).

Definition validate_storage_guard (maximum minimum_free : value) : res (Z * Z) :=
  let! m := integer maximum "MARKET_HISTORY_BYTE_QUOTA_INVALID" (Some 1) (Some MAXIMUM_STORAGE_GUARD_BYTES) in
  let! f := integer minimum_free "MARKET_HISTORY_FREE_SPACE_GUARD_INVALID" (Some 0) (Some MAXIMUM_STORAGE_GUARD_BYTES) in
  Ok (m, f).

(** ** Snapshots, leases and exports *)

Definition check_set (v : value) (reason : string) : res dict :=
  match v with VDict d => when negb (exact_fields d READ_ORDER) raise history_error reason in Ok d | _ => Raise (history_error reason) end.

(** The time of every read, none before the one before it. *)
Definition read_times (times : dict) (started finished : Z) : res (Z * list (string * Z)) :=
  rfold (fun st tool =>
           let! t := integer (get times tool) "MARKET_HISTORY_READ_TIME_INVALID" (Some st.1) (Some finished) in
           Ok (t, st.2 ++ [(tool, t)])) READ_ORDER (started, []).

(** The epoch and the fencing generation of a healthy simulator. *)
Definition check_health (v : value) : res (string * Z) :=
  match v with
  | VDict h =>
      when negb (is_true (get h "gateway_ready")) || negb (is_true (get h "remote_execution")) || negb (is_true (get h "remote_execution_configured")) ||
           negb (is_true (get h "remote_execution_ready")) || negb (eq_str (get h "execution_mode") "SIMULATOR") ||
           negb (eq_str (get h "remote_execution_reason") "")
      raise history_error "MARKET_HISTORY_HEALTH_NOT_AUTHORITATIVE" in
      let! epoch := a_name (get h "execution_service_epoch") "MARKET_HISTORY_EXECUTION_EPOCH_INVALID" in
      let! generation := integer (get h "execution_service_fencing_generation") "MARKET_HISTORY_FENCING_GENERATION_INVALID" (Some 1) None in
      Ok (epoch, generation)
  | _ => Raise (history_error "MARKET_HISTORY_HEALTH_NOT_AUTHORITATIVE")
  end.

Definition QUOTE_REQUIRED : list string := ["source"; "authoritative"; "stale"; "instrument"; "bid"; "ask"; "observed_at_ms"; "stale_after_ms"].

(** The quote of a snapshot, read at a time. *)
Definition check_quote (v : value) (read_at : Z) : res dict :=
  match v with
  | VDict q =>
      when negb (forallb (fun k => dhas k q) QUOTE_REQUIRED) raise history_error "MARKET_HISTORY_QUOTE_FIELDS_INVALID" in
      when negb (eq_str (get q "source") "SIMULATOR") || negb (is_true (get q "authoritative")) || negb (is_false (get q "stale")) ||
           negb (eq_str (get q "instrument") "EUR.USD") raise history_error "MARKET_HISTORY_QUOTE_NOT_AUTHORITATIVE" in
      let! bid := number (get q "bid") "MARKET_HISTORY_QUOTE_PRICE_INVALID" true in
      let! ask := number (get q "ask") "MARKET_HISTORY_QUOTE_PRICE_INVALID" true in
      when fltb ask bid raise history_error "MARKET_HISTORY_QUOTE_PRICE_INVALID" in
      let! observed := integer (get q "observed_at_ms") "MARKET_HISTORY_QUOTE_TIME_INVALID" (Some 0) (Some read_at) in
      let! stale_after := integer (get q "stale_after_ms") "MARKET_HISTORY_QUOTE_TIME_INVALID" (Some (observed + 1)) (Some (observed + 60000)) in
      when stale_after <? read_at raise history_error "MARKET_HISTORY_QUOTE_STALE_AT_READ" in
      Ok [("source", VStr "SIMULATOR"); ("authoritative", VBool true); ("stale", VBool false); ("bid", VFloat bid); ("ask", VFloat ask);
          ("observed_at_ms", VInt observed); ("stale_after_ms", VInt stale_after)]
  | _ => Raise (history_error "MARKET_HISTORY_QUOTE_FIELDS_INVALID")
  end.

Definition validate_snapshot (document : dict) (contents : string) : res dict :=
  let! snapshot := exact (VDict document) SNAPSHOT_FIELDS "MARKET_HISTORY_SNAPSHOT_FIELDS_INVALID" in
  when negb (eq_str (get snapshot "schema") "hepta.shadow-watch-snapshot.v2") || negb (eq_int (get snapshot "version") 2)
  raise history_error "MARKET_HISTORY_SNAPSHOT_SCHEMA_INVALID" in
  when existsb (fun f => negb (is_false (get snapshot f))) ["paper_authorized"; "live_authorized"; "mutation_attempted"; "direct_broker_access"]
  raise history_error "MARKET_HISTORY_SNAPSHOT_BOUNDARY_INVALID" in
  let! domain_id := a_name (get snapshot "domain_id") "MARKET_HISTORY_DOMAIN_INVALID" in
  let! agent_uid := integer (get snapshot "agent_uid") "MARKET_HISTORY_AGENT_UID_INVALID" (Some 1) None in
  when negb (eq_str (get snapshot "instrument") "EUR.USD") raise history_error "MARKET_HISTORY_INSTRUMENT_INVALID" in
  let! catalog := a_digest (get snapshot "catalog_sha256") "MARKET_HISTORY_CATALOG_DIGEST_INVALID" in
  let! descriptors := check_set (get snapshot "descriptor_sha256") "MARKET_HISTORY_DESCRIPTOR_SET_INVALID" in
  let! normalized := rmapM (fun tool => let! d := a_digest (get descriptors tool) "MARKET_HISTORY_DESCRIPTOR_DIGEST_INVALID" in Ok (tool, VStr d)) READ_ORDER in
  let! started := integer (get snapshot "collection_started_at_ms") "MARKET_HISTORY_COLLECTION_TIME_INVALID" (Some 0) None in
  let! finished := integer (get snapshot "collection_finished_at_ms") "MARKET_HISTORY_COLLECTION_TIME_INVALID" (Some started) None in
  let! generated := integer (get snapshot "generated_at_ms") "MARKET_HISTORY_COLLECTION_TIME_INVALID" (Some finished) None in
  let! times := check_set (get snapshot "read_finished_at_ms") "MARKET_HISTORY_READ_SET_INVALID" in
  let! reads := check_set (get snapshot "reads") "MARKET_HISTORY_READ_SET_INVALID" in
  let! read := read_times times started finished in
  let quote_read := dget_or 0 "market.get_quote" read.2 in
  let! health := check_health (get reads "system.get_health") in
  let! quote := check_quote (get reads "market.get_quote") quote_read in
  let! body := claimed_body snapshot "body_sha256" "MARKET_HISTORY_SNAPSHOT_DIGEST_INVALID" in
  Ok [("snapshot_body_sha256", VStr body); ("snapshot_file_sha256", VStr (digest_bytes contents)); ("domain_id", VStr domain_id);
      ("agent_uid", VInt agent_uid); ("instrument", VStr "EUR.USD"); ("catalog_sha256", VStr catalog); ("descriptor_sha256", VDict normalized);
      ("execution_service_epoch", VStr health.1); ("execution_service_fencing_generation", VInt health.2);
      ("collection_started_at_ms", VInt started); ("collection_finished_at_ms", VInt finished); ("generated_at_ms", VInt generated);
      ("quote_read_finished_at_ms", VInt quote_read); ("quote", VDict quote)].

(** The quote of a record or of a normalized snapshot. *)
Definition quote_of (d : dict) : dict := match get d "quote" with VDict q => q | _ => [] end.

(** A lease that continues another one names it. *)
Definition check_rotation (operation previous_generation previous_digest : value) (generation : Z) : res unit :=
  when! pnot (member operation ["PROVISION"; "ROTATE"]) raise history_error "MARKET_HISTORY_LEASE_RECEIPT_OPERATION_INVALID" in
  let broken := "MARKET_HISTORY_LEASE_RECEIPT_ROTATION_CHAIN_INVALID" in
  if eq_str operation "PROVISION" then
    when negb (is_none previous_generation) || negb (is_none previous_digest) raise history_error broken in Ok tt
  else
    let! p := integer previous_generation broken (Some 1) None in
    when negb (p =? generation - 1) raise history_error broken in
    let! _ := a_digest previous_digest broken in
    Ok tt.

(** When a lease was accepted and when it expires. *)
Definition check_lease_times (d : dict) (accepted ttl expires : string) : res (Z * Z * Z) :=
  let! a := integer (get d accepted) "MARKET_HISTORY_LEASE_RECEIPT_TIME_INVALID" (Some 0) None in
  let! t := integer (get d ttl) "MARKET_HISTORY_LEASE_RECEIPT_TTL_INVALID" (Some 1) (Some MAXIMUM_WATCH_TTL_SECONDS) in
  let! e := integer (get d expires) "MARKET_HISTORY_LEASE_RECEIPT_TIME_INVALID" (Some (a + 1)) None in
  when negb (e =? a + t * 1000) raise history_error "MARKET_HISTORY_LEASE_RECEIPT_TIME_INVALID" in
  Ok (a, t, e).

Definition validate_lease_receipt (document : dict) (contents : string) (snapshot : dict) : res dict :=
  let! receipt := exact (VDict document) LEASE_RECEIPT_FIELDS "MARKET_HISTORY_LEASE_RECEIPT_FIELDS_INVALID" in
  when negb (eq_str (get receipt "schema") "hepta.shadow-watch-lease-receipt.v1") || negb (eq_int (get receipt "version") 1)
  raise history_error "MARKET_HISTORY_LEASE_RECEIPT_SCHEMA_INVALID" in
  let! domain_id := a_name (get receipt "domain_id") "MARKET_HISTORY_LEASE_RECEIPT_DOMAIN_INVALID" in
  let! agent_id := a_name (get receipt "agent_id") "MARKET_HISTORY_LEASE_RECEIPT_AGENT_INVALID" in
  let! agent_uid := integer (get receipt "agent_uid") "MARKET_HISTORY_LEASE_RECEIPT_AGENT_INVALID" (Some 1) None in
  when negb (eq_str (get snapshot "domain_id") domain_id) || negb (bool_decide (agent_id = domain_id)) ||
       negb (agent_uid =? iget snapshot "agent_uid") raise history_error "MARKET_HISTORY_LEASE_RECEIPT_BINDING_INVALID" in
  when negb (eq_str (get receipt "boundary") "WATCH") || negb (is_true (get receipt "accepted")) || negb (eq_str (get receipt "reason_code") "OK") ||
       negb (is_false (get receipt "paper_authorized")) || negb (is_false (get receipt "live_authorized")) ||
       negb (is_false (get receipt "mutation_authorized")) raise history_error "MARKET_HISTORY_LEASE_RECEIPT_BOUNDARY_INVALID" in
  let operation := get receipt "operation" in
  when! pnot (member operation ["PROVISION"; "ROTATE"]) raise history_error "MARKET_HISTORY_LEASE_RECEIPT_OPERATION_INVALID" in
  let! generation := integer (get receipt "lease_generation") "MARKET_HISTORY_WATCH_GENERATION_INVALID" (Some 1) None in
  let previous_generation := get receipt "previous_lease_generation" in
  let previous_digest := get receipt "previous_receipt_body_sha256" in
  let! _ := check_rotation operation previous_generation previous_digest generation in
  let! times := check_lease_times receipt "accepted_at_ms" "ttl_seconds" "expires_at_ms" in
  let '(accepted, ttl, expires) := times in
  let observed := iget (quote_of snapshot) "observed_at_ms" in
  when (iget snapshot "collection_started_at_ms" <? accepted) || (expires <? iget snapshot "generated_at_ms") || (observed <? accepted) || (expires <? observed)
  raise history_error "MARKET_HISTORY_LEASE_RECEIPT_STALE" in
  let! body := claimed_body receipt "body_sha256" "MARKET_HISTORY_LEASE_RECEIPT_DIGEST_INVALID" in
  Ok [("watch_generation", VInt generation); ("watch_lease_receipt_body_sha256", VStr body);
      ("watch_lease_receipt_file_sha256", VStr (digest_bytes contents)); ("watch_lease_operation", operation);
      ("watch_lease_previous_generation", previous_generation); ("watch_lease_previous_receipt_body_sha256", previous_digest);
      ("watch_lease_accepted_at_ms", VInt accepted); ("watch_lease_ttl_seconds", VInt ttl); ("watch_lease_expires_at_ms", VInt expires)].

(** The groups of the three files and the user of the process. *)
Record Reader := mkReader { u_uid : Z; u_snapshot_gid : Z; u_lease_gid : Z; u_export_gid : Z }.

Definition validate_export_receipt (document : dict) (contents : string) (snapshot lease : dict) (u : Reader) : res dict :=
  let! receipt := exact (VDict document) EXPORT_RECEIPT_FIELDS "MARKET_HISTORY_EXPORT_RECEIPT_FIELDS_INVALID" in
  when negb (eq_str (get receipt "schema") "hepta.shadow-watch-export-receipt.v1") || negb (eq_int (get receipt "version") 1)
  raise history_error "MARKET_HISTORY_EXPORT_RECEIPT_SCHEMA_INVALID" in
  let! uid := integer (get receipt "reader_uid") "MARKET_HISTORY_EXPORT_RECEIPT_READER_INVALID" (Some 1) None in
  let! gid := integer (get receipt "reader_gid") "MARKET_HISTORY_EXPORT_RECEIPT_READER_INVALID" (Some 1) None in
  when negb (py_eq (get receipt "domain_id") (get snapshot "domain_id")) || negb (py_eq (get receipt "agent_uid") (get snapshot "agent_uid")) ||
       negb (uid =? u_uid u) || negb (u_snapshot_gid u =? gid) || negb (u_lease_gid u =? gid) || negb (u_export_gid u =? gid)
  raise history_error "MARKET_HISTORY_EXPORT_RECEIPT_BINDING_INVALID" in
  when negb (eq_str (get receipt "boundary") "WATCH_EXPORT") ||
       existsb (fun f => negb (is_false (get receipt f))) ["paper_authorized"; "live_authorized"; "mutation_attempted"; "direct_broker_access"]
  raise history_error "MARKET_HISTORY_EXPORT_RECEIPT_BOUNDARY_INVALID" in
  when differ_as receipt lease [("lease_generation", "watch_generation"); ("lease_receipt_body_sha256", "watch_lease_receipt_body_sha256");
                                ("lease_receipt_file_sha256", "watch_lease_receipt_file_sha256")] ||
       differ_as receipt snapshot [("snapshot_body_sha256", "snapshot_body_sha256"); ("snapshot_file_sha256", "snapshot_file_sha256");
                                   ("snapshot_generated_at_ms", "generated_at_ms")]
  raise history_error "MARKET_HISTORY_EXPORT_RECEIPT_BINDING_INVALID" in
  let! exported := integer (get receipt "exported_at_ms") "MARKET_HISTORY_EXPORT_RECEIPT_TIME_INVALID"
                     (Some (iget snapshot "generated_at_ms")) (Some (iget lease "watch_lease_expires_at_ms")) in
  when iget (quote_of snapshot) "stale_after_ms" <? exported raise history_error "MARKET_HISTORY_EXPORT_RECEIPT_STALE" in
  let! _ := each ["lease_receipt_body_sha256"; "lease_receipt_file_sha256"; "snapshot_body_sha256"; "snapshot_file_sha256"]
              (fun f => let! _ := a_digest (get receipt f) "MARKET_HISTORY_EXPORT_RECEIPT_DIGEST_INVALID" in Ok tt) in
  let! body := claimed_body receipt "body_sha256" "MARKET_HISTORY_EXPORT_RECEIPT_DIGEST_INVALID" in
  Ok [("watch_export_receipt_body_sha256", VStr body); ("watch_export_receipt_file_sha256", VStr (digest_bytes contents));
      ("watch_exported_at_ms", VInt exported); ("watch_export_reader_uid", VInt uid); ("watch_export_reader_gid", VInt gid)].
(** ** Records *)

(** The schema, the place in the chain, the cadence and the digest of a record, and its file. *)
Definition check_chain (record : dict) (sequence : Z) (previous : value) (name : string) (f : File) : res unit :=
  when negb (eq_str (get record "schema") RECORD_SCHEMA) || negb (eq_int (get record "version") 3) || negb (eq_int (get record "sequence") sequence) ||
       negb (py_eq (get record "previous_record_sha256") previous) raise history_error "MARKET_HISTORY_CHAIN_INVALID" in
  let! _ := validate_cadence (get record "cadence_ms") (get record "maximum_jitter_ms") in
  let! _ := claimed_body record "record_sha256" "MARKET_HISTORY_RECORD_DIGEST_INVALID" in
  when negb (bool_decide (name = record_name sequence)) raise history_error "MARKET_HISTORY_RECORD_NAME_INVALID" in
  when negb (f_links f =? 1) raise history_error "MARKET_HISTORY_RECORD_METADATA_INVALID" in
  Ok tt.

(** The sources and the authority of a record. *)
Definition check_authority (record : dict) : res unit :=
  let! _ := a_digest (get record "snapshot_body_sha256") "MARKET_HISTORY_SNAPSHOT_DIGEST_INVALID" in
  let! _ := a_digest (get record "snapshot_file_sha256") "MARKET_HISTORY_SNAPSHOT_DIGEST_INVALID" in
  let! _ := a_digest (get record "catalog_sha256") "MARKET_HISTORY_CATALOG_DIGEST_INVALID" in
  let! descriptors := check_set (get record "descriptor_sha256") "MARKET_HISTORY_DESCRIPTOR_SET_INVALID" in
  let! _ := rfold (fun _ kv => let! _ := a_digest kv.2 "MARKET_HISTORY_DESCRIPTOR_DIGEST_INVALID" in Ok tt) descriptors tt in
  let! _ := a_name (get record "domain_id") "MARKET_HISTORY_DOMAIN_INVALID" in
  let! _ := integer (get record "agent_uid") "MARKET_HISTORY_AGENT_UID_INVALID" (Some 1) None in
  when negb (eq_str (get record "instrument") "EUR.USD") raise history_error "MARKET_HISTORY_INSTRUMENT_INVALID" in
  let! _ := a_name (get record "execution_service_epoch") "MARKET_HISTORY_EXECUTION_EPOCH_INVALID" in
  let! _ := integer (get record "execution_service_fencing_generation") "MARKET_HISTORY_FENCING_GENERATION_INVALID" (Some 1) None in
  Ok tt.

(** The lease of a record: when it was accepted and when it expires. *)
Definition check_lease (record : dict) : res (Z * Z) :=
  let! generation := integer (get record "watch_generation") "MARKET_HISTORY_WATCH_GENERATION_INVALID" (Some 1) None in
  let! _ := a_digest (get record "watch_lease_receipt_body_sha256") "MARKET_HISTORY_LEASE_RECEIPT_DIGEST_INVALID" in
  let! _ := a_digest (get record "watch_lease_receipt_file_sha256") "MARKET_HISTORY_LEASE_RECEIPT_DIGEST_INVALID" in
  let! _ := check_rotation (get record "watch_lease_operation") (get record "watch_lease_previous_generation")
              (get record "watch_lease_previous_receipt_body_sha256") generation in
  let! times := check_lease_times record "watch_lease_accepted_at_ms" "watch_lease_ttl_seconds" "watch_lease_expires_at_ms" in
  let! _ := a_digest (get record "watch_export_receipt_body_sha256") "MARKET_HISTORY_EXPORT_RECEIPT_DIGEST_INVALID" in
  let! _ := a_digest (get record "watch_export_receipt_file_sha256") "MARKET_HISTORY_EXPORT_RECEIPT_DIGEST_INVALID" in
  let! _ := integer (get record "watch_export_reader_uid") "MARKET_HISTORY_EXPORT_RECEIPT_READER_INVALID" (Some 1) None in
  let! _ := integer (get record "watch_export_reader_gid") "MARKET_HISTORY_EXPORT_RECEIPT_READER_INVALID" (Some 1) None in
  Ok (times.1.1, times.2).

(** The times and the quote of a record, within its lease. *)
Definition check_capture (record : dict) (accepted expires : Z) : res unit :=
  let! started := integer (get record "collection_started_at_ms") "MARKET_HISTORY_COLLECTION_TIME_INVALID" (Some 0) None in
  let! finished := integer (get record "collection_finished_at_ms") "MARKET_HISTORY_COLLECTION_TIME_INVALID" (Some started) None in
  let! generated := integer (get record "generated_at_ms") "MARKET_HISTORY_COLLECTION_TIME_INVALID" (Some finished) None in
  let! quote_read := integer (get record "quote_read_finished_at_ms") "MARKET_HISTORY_QUOTE_TIME_INVALID" (Some started) (Some finished) in
  let! quote := exact (get record "quote") QUOTE_FIELDS "MARKET_HISTORY_QUOTE_FIELDS_INVALID" in
  when negb (match get record "quote_changed" with VBool _ => true | _ => false end) raise history_error "MARKET_HISTORY_QUOTE_CHANGE_FLAG_INVALID" in
  when negb (eq_str (get quote "source") "SIMULATOR") || negb (is_true (get quote "authoritative")) || negb (is_false (get quote "stale"))
  raise history_error "MARKET_HISTORY_QUOTE_NOT_AUTHORITATIVE" in
  let! bid := number (get quote "bid") "MARKET_HISTORY_QUOTE_PRICE_INVALID" true in
  let! ask := number (get quote "ask") "MARKET_HISTORY_QUOTE_PRICE_INVALID" true in
  when fltb ask bid raise history_error "MARKET_HISTORY_QUOTE_PRICE_INVALID" in
  let! observed := integer (get quote "observed_at_ms") "MARKET_HISTORY_QUOTE_TIME_INVALID" (Some 0) (Some quote_read) in
  let! stale_after := integer (get quote "stale_after_ms") "MARKET_HISTORY_QUOTE_TIME_INVALID" (Some (observed + 1)) (Some (observed + 60000)) in
  when (stale_after <? quote_read) || (generated <? finished) raise history_error "MARKET_HISTORY_QUOTE_STALE_AT_READ" in
  when (started <? accepted) || (expires <? generated) || (observed <? accepted) || (expires <? observed)
  raise history_error "MARKET_HISTORY_LEASE_RECEIPT_STALE" in
  let! _ := integer (get record "watch_exported_at_ms") "MARKET_HISTORY_EXPORT_RECEIPT_TIME_INVALID" (Some generated) (Some (Z.min expires stale_after)) in
  Ok tt.

Definition validate_record (document : dict) (sequence : Z) (previous : value) (name : string) (f : File) : res dict :=
  let! record := exact (VDict document) RECORD_FIELDS "MARKET_HISTORY_RECORD_FIELDS_INVALID" in
  let! _ := check_chain record sequence previous name f in
  let! _ := check_authority record in
  let! lease := check_lease record in
  let! _ := check_capture record lease.1 lease.2 in
  Ok record.

(** ** From a record to the next *)

Definition AUTHORITY_FIELDS : list string :=
  ["cadence_ms"; "maximum_jitter_ms"; "domain_id"; "agent_uid"; "instrument"; "catalog_sha256"; "descriptor_sha256"; "execution_service_epoch";
   "execution_service_fencing_generation"].
Definition validate_authority_binding (first candidate : dict) : res unit :=
  when differ candidate first AUTHORITY_FIELDS raise history_error "MARKET_HISTORY_AUTHORITY_BINDING_DRIFT" in Ok tt.

Definition quote_changed (previous candidate : dict) : res bool :=
  let p := iget previous "observed_at_ms" in
  let c := iget candidate "observed_at_ms" in
  when c <? p raise history_error "MARKET_HISTORY_TIME_NOT_MONOTONIC" in
  if c =? p then
    when negb (py_eq (VDict candidate) (VDict previous)) raise history_error "MARKET_HISTORY_QUOTE_MUTATION" in Ok false
  else Ok true.

Definition validate_quote_transition (previous candidate : dict) : res unit :=
  let! changed := quote_changed (quote_of previous) (quote_of candidate) in
  when negb (if changed : bool then is_true (get candidate "quote_changed") else is_false (get candidate "quote_changed"))
  raise history_error "MARKET_HISTORY_QUOTE_CHANGE_FLAG_INVALID" in
  Ok tt.

Definition not_after (previous candidate : dict) : bool :=
  (iget candidate "collection_started_at_ms" <=? iget previous "collection_finished_at_ms") || (iget candidate "generated_at_ms" <=? iget previous "generated_at_ms").

Definition same_lease (previous candidate : dict) : res unit :=
  when differ candidate previous ["watch_lease_receipt_body_sha256"; "watch_lease_receipt_file_sha256"]
  raise history_error "MARKET_HISTORY_LEASE_RECEIPT_DRIFT" in
  Ok tt.

(** The lease of the candidate rotates that of the previous record. *)
Definition rotates (previous candidate : dict) : bool :=
  eq_str (get candidate "watch_lease_operation") "ROTATE" &&
  py_eq (get candidate "watch_lease_previous_generation") (get previous "watch_generation") &&
  py_eq (get candidate "watch_lease_previous_receipt_body_sha256") (get previous "watch_lease_receipt_body_sha256").

Definition validate_record_transition (previous candidate : dict) : res unit :=
  when not_after previous candidate raise history_error "MARKET_HISTORY_TIME_NOT_MONOTONIC" in
  let! _ := validate_quote_transition previous candidate in
  let p := iget previous "watch_generation" in
  let c := iget candidate "watch_generation" in
  when negb ((c =? p) || (c =? p + 1)) raise history_error "MARKET_HISTORY_WATCH_GENERATION_DRIFT" in
  let capture := iget candidate "collection_started_at_ms" - iget previous "collection_started_at_ms" in
  let quote := iget (quote_of candidate) "observed_at_ms" - iget (quote_of previous) "observed_at_ms" in
  let late := is_true (get candidate "quote_changed") && (BUILDER_MAXIMUM_QUOTE_GAP_MS <? quote) in
  if c =? p then
    let! _ := same_lease previous candidate in
    let lower := iget previous "cadence_ms" - iget previous "maximum_jitter_ms" in
    let upper := iget previous "cadence_ms" + iget previous "maximum_jitter_ms" in
    when negb ((lower <=? capture) && (capture <=? upper)) raise history_error "MARKET_HISTORY_CADENCE_GAP" in
    when late raise history_error "MARKET_HISTORY_QUOTE_GAP" in
    Ok tt
  else
    when negb (rotates previous candidate) raise history_error "MARKET_HISTORY_LEASE_RECEIPT_ROTATION_CHAIN_INVALID" in
    when (BUILDER_MAXIMUM_QUOTE_GAP_MS <? capture) || late raise history_error "MARKET_HISTORY_ROTATION_SEGMENT_REQUIRED" in
    Ok tt.

Definition validate_segment_transition (previous candidate : dict) : res unit :=
  let! _ := validate_authority_binding previous candidate in
  when not_after previous candidate raise history_error "MARKET_HISTORY_TIME_NOT_MONOTONIC" in
  let! _ := validate_quote_transition previous candidate in
  let p := iget previous "watch_generation" in
  let c := iget candidate "watch_generation" in
  if c =? p then same_lease previous candidate
  else
    when negb ((c =? p + 1) && rotates previous candidate) raise history_error "MARKET_HISTORY_LEASE_RECEIPT_ROTATION_CHAIN_INVALID" in
    Ok tt.

(** The first record of a history, which may continue another one. *)
Definition validate_first (previous_segment : option dict) (record : dict) : res unit :=
  if negb (eq_str (get record "watch_lease_operation") "PROVISION") then
    match previous_segment with
    | None => Raise (history_error "MARKET_HISTORY_SEGMENT_MUST_START_WITH_PROVISION")
    | Some p => validate_segment_transition p record
    end
  else when negb (is_true (get record "quote_changed")) raise history_error "MARKET_HISTORY_QUOTE_CHANGE_FLAG_INVALID" in Ok tt.

(** ** The head *)

Definition make_head (count bytes : Z) (first : value) (last : dict) (contents : string) (cursor : Z) (expected : value) : res dict :=
  let body := [("schema", VStr HEAD_SCHEMA); ("version", VInt 1); ("record_schema", VStr RECORD_SCHEMA); ("record_count", VInt count);
               ("history_record_bytes", VInt bytes); ("first_record_sha256", first); ("last_record_sha256", get last "record_sha256");
               ("last_record_file_sha256", VStr (digest_bytes contents)); ("last_record_name", VStr (record_name count));
               ("last_previous_record_sha256", get last "previous_record_sha256"); ("last_snapshot_body_sha256", get last "snapshot_body_sha256");
               ("last_snapshot_file_sha256", get last "snapshot_file_sha256"); ("cadence_ms", get last "cadence_ms");
               ("maximum_jitter_ms", get last "maximum_jitter_ms"); ("audit_cursor_sequence", VInt cursor); ("audit_expected_previous_sha256", expected)] in
  let! d := digest_of (VDict body) in
  Ok (body ++ [("body_sha256", VStr d)]).

Definition validate_head (document : dict) : res dict :=
  let! head := exact (VDict document) HEAD_FIELDS "MARKET_HISTORY_HEAD_FIELDS_INVALID" in
  when negb (eq_str (get head "schema") HEAD_SCHEMA) || negb (eq_int (get head "version") 1) || negb (eq_str (get head "record_schema") RECORD_SCHEMA)
  raise history_error "MARKET_HISTORY_HEAD_SCHEMA_INVALID" in
  let! count := integer (get head "record_count") "MARKET_HISTORY_HEAD_COUNT_INVALID" (Some 1) (Some MAX_HISTORY_RECORDS) in
  let! _ := integer (get head "history_record_bytes") "MARKET_HISTORY_HEAD_BYTES_INVALID" (Some 1) (Some MAXIMUM_STORAGE_GUARD_BYTES) in
  let! _ := each ["first_record_sha256"; "last_record_sha256"; "last_record_file_sha256"; "last_snapshot_body_sha256"; "last_snapshot_file_sha256"]
              (fun f => let! _ := a_digest (get head f) "MARKET_HISTORY_HEAD_DIGEST_INVALID" in Ok tt) in
  let previous := get head "last_previous_record_sha256" in
  let! _ := if count =? 1 then when negb (is_none previous) raise history_error "MARKET_HISTORY_HEAD_CHAIN_INVALID" in Ok EmptyString
            else a_digest previous "MARKET_HISTORY_HEAD_CHAIN_INVALID" in
  when negb (eq_str (get head "last_record_name") (record_name count)) raise history_error "MARKET_HISTORY_HEAD_CHAIN_INVALID" in
  let! _ := validate_cadence (get head "cadence_ms") (get head "maximum_jitter_ms") in
  let! cursor := integer (get head "audit_cursor_sequence") "MARKET_HISTORY_HEAD_AUDIT_CURSOR_INVALID" (Some 1) (Some count) in
  let audited := get head "audit_expected_previous_sha256" in
  let! _ := if cursor =? 1 then when negb (is_none audited) raise history_error "MARKET_HISTORY_HEAD_AUDIT_CURSOR_INVALID" in Ok EmptyString
            else a_digest audited "MARKET_HISTORY_HEAD_AUDIT_CURSOR_INVALID" in
  let! _ := claimed_body head "body_sha256" "MARKET_HISTORY_HEAD_DIGEST_INVALID" in
  Ok head.

(** ** A directory *)

(** The files of a directory by name, in the order in which it lists them. *)
Definition Directory : Type := list (string * File).

Definition load_head (dir : Directory) : res (dict * string) :=
  let! hc := load_canonical "MARKET_HISTORY_HEAD" (dget HEAD_NAME dir) in
  let! head := validate_head hc.1 in
  Ok (head, hc.2).

Definition load_record_direct (dir : Directory) (sequence : Z) (previous : value) : res (dict * string) :=
  let name := record_name sequence in
  let! rc := load_canonical "MARKET_HISTORY_RECORD" (dget name dir) in
  match dget name dir with
  | None => Raise (history_error "MARKET_HISTORY_RECORD_READ_FAILED")
  | Some f => let! record := validate_record rc.1 sequence previous name f in Ok (record, rc.2)
  end.

Definition validate_head_tail (head last : dict) (contents : string) : res unit :=
  when differ_as head last [("last_record_sha256", "record_sha256")] || negb (eq_str (get head "last_record_file_sha256") (digest_bytes contents)) ||
       differ_as head last [("last_previous_record_sha256", "previous_record_sha256"); ("last_snapshot_body_sha256", "snapshot_body_sha256");
                            ("last_snapshot_file_sha256", "snapshot_file_sha256"); ("cadence_ms", "cadence_ms"); ("maximum_jitter_ms", "maximum_jitter_ms")] ||
       (iget head "history_record_bytes" <? slen contents) raise history_error "MARKET_HISTORY_HEAD_TAIL_MISMATCH" in
  when (iget head "record_count" =? 1) && negb (py_eq (get head "first_record_sha256") (get last "record_sha256"))
  raise history_error "MARKET_HISTORY_HEAD_TAIL_MISMATCH" in
  Ok tt.

(** The head and the last record, without a look at the others. *)
Record Fast := mkFast { t_head : dict; t_head_contents : string; t_last : dict; t_last_contents : string }.

Definition load_fast_state (dir : Directory) : res (option Fast) :=
  let recovery := history_error "MARKET_HISTORY_HEAD_RECOVERY_REQUIRED" in
  when dhas HEAD_PENDING_NAME dir raise recovery in
  if negb (dhas HEAD_NAME dir) then when dhas (record_name 1) dir raise recovery in Ok None
  else
    let! hc := load_head dir in
    let count := iget hc.1 "record_count" in
    when dhas (record_name (count + 1)) dir raise recovery in
    let! rc := load_record_direct dir count (get hc.1 "last_previous_record_sha256") in
    let! _ := validate_head_tail hc.1 rc.1 rc.2 in
    Ok (Some (mkFast hc.1 hc.2 rc.1 rc.2)).

(** ** The full scan *)

Definition list_entry (l : list (Z * string)) (entry : string * File) : res (list (Z * string)) :=
  let name := entry.1 in
  if bool_decide (name = HEAD_NAME) || bool_decide (name = HEAD_PENDING_NAME) then Ok l
  else
    when is_legacy_name name raise history_error "MARKET_HISTORY_LEGACY_SEGMENT_MIGRATION_REQUIRED" in
    match record_number name with
    | None => Raise (history_error "MARKET_HISTORY_DIRECTORY_ENTRY_INVALID")
    | Some n => Ok (l ++ [(n, name)])
    end.
Definition list_records (dir : Directory) : res (list (Z * string)) :=
  let! l := rfold list_entry dir [] in
  let l := sorted_key fst l in
  when MAX_HISTORY_RECORDS <? Z.of_nat (length l) raise history_error "MARKET_HISTORY_RECORD_LIMIT_EXCEEDED" in
  Ok l.

Definition drifts (record : dict) (field : string) (bound : option Z) : bool := match bound with Some b => negb (eq_int (get record field) b) | None => false end.

(** A record after the ones that were scanned. *)
Definition validate_next (previous_segment : option dict) (st : list (dict * string)) (record : dict) : res unit :=
  match st, last st with
  | (first, _) :: _, Some (p, _) => let! _ := validate_record_transition p record in validate_authority_binding first record
  | _, _ => validate_first previous_segment record
  end.

Definition scan_record (dir : Directory) (cadence jitter : option Z) (previous_segment : option dict) (st : list (dict * string)) (e : Z * (Z * string))
    : res (list (dict * string)) :=
  let '(expected, (sequence, name)) := e in
  when negb (sequence =? expected) raise history_error "MARKET_HISTORY_CHAIN_INVALID" in
  let! rc := load_canonical "MARKET_HISTORY_RECORD" (dget name dir) in
  match dget name dir with
  | None => Raise (history_error "MARKET_HISTORY_RECORD_READ_FAILED")
  | Some f =>
      let previous := match last st with Some (p, _) => get p "record_sha256" | None => VNone end in
      let! record := validate_record rc.1 expected previous name f in
      when drifts record "cadence_ms" cadence raise history_error "MARKET_HISTORY_CADENCE_BINDING_DRIFT" in
      when drifts record "maximum_jitter_ms" jitter raise history_error "MARKET_HISTORY_JITTER_BINDING_DRIFT" in
      let! _ := validate_next previous_segment st record in
      Ok (st ++ [(record, rc.2)])
  end.

Definition record_bytes (st : list (dict * string)) : Z := zsum (map (fun rc => slen rc.2) st).

(** The head of a directory is the one its records make. *)
Definition check_head (dir : Directory) (st : list (dict * string)) : res unit :=
  let recovery := history_error "MARKET_HISTORY_HEAD_RECOVERY_REQUIRED" in
  when dhas HEAD_PENDING_NAME dir raise recovery in
  match st, last st with
  | (first, _) :: _, Some (lst, contents) =>
      when negb (dhas HEAD_NAME dir) raise recovery in
      let! hc := load_head dir in
      let cursor := iget hc.1 "audit_cursor_sequence" in
      let audited := get hc.1 "audit_expected_previous_sha256" in
      let! expected := make_head (Z.of_nat (length st)) (record_bytes st) (get first "record_sha256") lst contents cursor audited in
      when negb (py_eq (VDict hc.1) (VDict expected)) raise history_error "MARKET_HISTORY_HEAD_CHAIN_INVALID" in
      match st !! Z.to_nat (cursor - 1) with
      | None => Raise index_error
      | Some (r, _) =>
          when negb (py_eq (get r "previous_record_sha256") audited) raise history_error "MARKET_HISTORY_HEAD_AUDIT_CURSOR_INVALID" in Ok tt
      end
  | _, _ => when dhas HEAD_NAME dir raise history_error "MARKET_HISTORY_HEAD_CHAIN_INVALID" in Ok tt
  end.

Definition scan_history (dir : Directory) (cadence jitter : option Z) (require_head : bool) (previous_segment : option dict) : res (list (dict * string)) :=
  let! l := list_records dir in
  let! st := rfold (scan_record dir cadence jitter previous_segment) (enumerate 1 l) [] in
  let! _ := if require_head then check_head dir st else Ok tt in
  Ok st.

(** The last record of the history a segment continues (validated once more by the code). *)
Definition previous_segment_record (dir : option Directory) (cadence jitter : option Z) : res (option dict) :=
  match dir with
  | None => Ok None
  | Some dir =>
      let! fast := load_fast_state dir in
      match fast with
      | None => Raise (history_error "MARKET_HISTORY_PREVIOUS_SEGMENT_EMPTY")
      | Some t =>
          when drifts (t_head t) "cadence_ms" cadence raise history_error "MARKET_HISTORY_CADENCE_BINDING_DRIFT" in
          when drifts (t_head t) "maximum_jitter_ms" jitter raise history_error "MARKET_HISTORY_JITTER_BINDING_DRIFT" in
          Ok (Some (t_last t))
      end
  end.

Definition load_history (dir : Directory) (cadence jitter : option Z) (previous : option Directory) : res (list dict) :=
  let! p := previous_segment_record previous cadence jitter in
  let! st := scan_history dir cadence jitter true p in
  Ok (map fst st).

(** The number of a record where its name is made of it; a float cannot be formatted as an
    integer. *)
Definition sequence_number (v : value) : res Z := match v with VInt z => Ok z | VBool b => Ok (Z.b2z b) | _ => Raise value_error end.

Definition audit_history (dir : Directory) (cadence jitter : Z) (previous : option Directory) : res dict :=
  let! records := load_history dir (Some cadence) (Some jitter) previous in
  match last records with
  | None => Raise (history_error "MARKET_HISTORY_EMPTY")
  | Some lst =>
      let size name := match dget name dir with Some f => slen (f_bytes f) | None => 0 end in
      let! numbers := rmapM (fun r => sequence_number (get r "sequence")) records in
      let bytes := zsum (map (fun n => size (record_name n)) numbers) in
      let head := size HEAD_NAME in
      let! source := as_history (history_source_digest (map (fun r => get r "record_sha256") records)) in
      Ok [("status", VStr "valid"); ("record_count", VInt (Z.of_nat (length records))); ("history_head_sha256", get lst "record_sha256");
          ("history_record_bytes", VInt bytes); ("history_index_bytes", VInt head); ("history_storage_bytes", VInt (bytes + head));
          ("source_sha256", VStr source); ("directory_entries_scanned", VInt (Z.of_nat (length records) + 1))]
  end.
(** ** Changing a directory *)

Definition guard_history_capacity (current incoming head maximum minimum_free available : Z) : res unit :=
  when maximum <? current + incoming + head raise history_error "MARKET_HISTORY_BYTE_QUOTA_EXCEEDED" in
  when available <? minimum_free + (incoming + head) raise history_error "MARKET_HISTORY_FREE_SPACE_GUARD" in
  Ok tt.

(** The name of the temporary file of a published file. *)
Definition temporary (name random : string) : string := "." +:+ name +:+ "." +:+ random.

(** A new name for a file written under a temporary one: the temporary file is created,
    written, linked to the name and unlinked. *)
Definition atomic_publish (name random contents : string) : act Directory unit :=
  let temp := temporary name random in
  _ <-~ change (dset temp (mkFile EmptyString 1));
  _ <-~ change (dset temp (mkFile contents 1));
  exists_ <-~ look (dhas name);
  if exists_ : bool then
    _ <-~ change (dpop temp);
    lift (Raise (history_error "MARKET_HISTORY_ATOMIC_TARGET_EXISTS"))
  else
    _ <-~ change (fun d => dset name (mkFile contents 2) (dset temp (mkFile contents 2) d));
    change (fun d => dset name (mkFile contents 1) (dpop temp d)).

(** The head is written under its pending name and moved into place. *)
Definition atomic_replace_head (contents : string) : act Directory unit :=
  pending <-~ look (dhas HEAD_PENDING_NAME);
  if pending : bool then lift (Raise (history_error "MARKET_HISTORY_HEAD_RECOVERY_REQUIRED"))
  else
    _ <-~ change (dset HEAD_PENDING_NAME (mkFile EmptyString 1));
    _ <-~ change (dset HEAD_PENDING_NAME (mkFile contents 1));
    change (fun d => dset HEAD_NAME (mkFile contents 1) (dpop HEAD_PENDING_NAME d)).

Definition recovery_unlink (name : string) : act Directory unit :=
  file <-~ look (dget name);
  match file with
  | None => lift (Ok tt)
  | Some f =>
      _ <-~ lift (when negb (f_links f =? 1) raise history_error "MARKET_HISTORY_HEAD_METADATA_INVALID" in Ok tt);
      change (dpop name)
  end.

(** ** The recovery of the head *)

(** The quota and the guard of the free space as a caller passes them. *)
Record Storage := mkStorage { g_maximum : value; g_minimum_free : value; g_available : Z }.

(** The head of the records that were found, or no head when there are none. *)
Definition rebuild_head (st : list (dict * string)) (maximum minimum_free available : Z) : act Directory dict :=
  match st, last st with
  | (first, _) :: _, Some (lst, contents) =>
      head <-~ lift (make_head (Z.of_nat (length st)) (record_bytes st) (get first "record_sha256") lst contents 1 VNone);
      bytes <-~ lift (canonical (VDict head));
      _ <-~ lift (guard_history_capacity (record_bytes st) 0 (slen bytes) maximum minimum_free available);
      _ <-~ atomic_replace_head bytes;
      lift (Ok [("status", VStr "recovered"); ("record_count", VInt (Z.of_nat (length st))); ("history_head_sha256", get lst "record_sha256");
                ("history_record_bytes", get head "history_record_bytes"); ("history_index_bytes", VInt (slen bytes));
                ("history_storage_bytes", VInt (record_bytes st + slen bytes)); ("history_index_body_sha256", get head "body_sha256");
                ("history_index_file_sha256", VStr (digest_bytes bytes)); ("directory_entries_scanned", VInt (Z.of_nat (length st) + 1))])
  | _, _ =>
      _ <-~ recovery_unlink HEAD_NAME;
      lift (Ok [("status", VStr "empty"); ("record_count", VInt 0); ("history_record_bytes", VInt 0); ("history_index_bytes", VInt 0);
                ("history_storage_bytes", VInt 0); ("directory_entries_scanned", VInt 0)])
  end.

Definition recover_history_head (cadence_ms jitter_ms : value) (g : Storage) : act Directory dict :=
  cj <-~ lift (validate_cadence cadence_ms jitter_ms);
  guard <-~ lift (validate_storage_guard (g_maximum g) (g_minimum_free g));
  dir <-~ look (fun d => d);
  st <-~ lift (scan_history dir (Some cj.1) (Some cj.2) false None);
  _ <-~ recovery_unlink HEAD_PENDING_NAME;
  rebuild_head st guard.1 guard.2 (g_available g).

(** ** The append *)

(** Two more records are audited: the cursor, the digest its record must follow, and the
    numbers of records read and validated. *)
Record Cursor := mkCursor { n_cursor : Z; n_expected : value; n_reads : Z; n_validated : Z }.

Definition audit_step (dir : Directory) (head last : dict) (n : Cursor) : res Cursor :=
  let count := iget head "record_count" in
  let! rr := if eq_int (get last "sequence") (n_cursor n) then
               when negb (py_eq (get last "previous_record_sha256") (n_expected n)) raise history_error "MARKET_HISTORY_HEAD_AUDIT_CURSOR_INVALID" in Ok (last, 0)
             else let! rc := load_record_direct dir (n_cursor n) (n_expected n) in Ok (rc.1, 1) in
  when (n_cursor n =? 1) && negb (py_eq (get rr.1 "record_sha256") (get head "first_record_sha256"))
  raise history_error "MARKET_HISTORY_HEAD_AUDIT_CURSOR_INVALID" in
  Ok (if n_cursor n =? count then mkCursor 1 VNone (n_reads n + rr.2) (n_validated n + 1)
      else mkCursor (n_cursor n + 1) (get rr.1 "record_sha256") (n_reads n + rr.2) (n_validated n + 1)).

Fixpoint audit_steps (k : nat) (dir : Directory) (head last : dict) (n : Cursor) : res Cursor :=
  match k with O => Ok n | S k => let! n := audit_step dir head last n in audit_steps k dir head last n end.

Definition advance_incremental_audit (dir : Directory) (head last : dict) : res Cursor :=
  audit_steps (Nat.min INCREMENTAL_AUDIT_RECORDS (Z.to_nat (iget head "record_count"))) dir head last
    (mkCursor (iget head "audit_cursor_sequence") (get head "audit_expected_previous_sha256") 0 0).

Definition append_result (status : string) (record : dict) (contents : string) (head : dict) (head_contents : string) (appended head_reads record_reads validated : Z)
    : dict :=
  [("status", VStr status); ("sequence", get record "sequence"); ("record_sha256", get record "record_sha256");
   ("history_head_sha256", get record "record_sha256"); ("record_count", get head "record_count"); ("record_size_bytes", VInt (slen contents));
   ("bytes_appended", VInt appended); ("history_record_bytes", get head "history_record_bytes"); ("history_index_bytes", VInt (slen head_contents));
   ("history_storage_bytes", VInt (iget head "history_record_bytes" + slen head_contents)); ("history_index_body_sha256", get head "body_sha256");
   ("history_index_file_sha256", VStr (digest_bytes head_contents)); ("snapshot_body_sha256", get record "snapshot_body_sha256");
   ("snapshot_file_sha256", get record "snapshot_file_sha256"); ("quote_changed", get record "quote_changed");
   ("watch_generation", get record "watch_generation"); ("watch_lease_receipt_body_sha256", get record "watch_lease_receipt_body_sha256");
   ("watch_lease_receipt_file_sha256", get record "watch_lease_receipt_file_sha256");
   ("watch_export_receipt_body_sha256", get record "watch_export_receipt_body_sha256");
   ("watch_export_receipt_file_sha256", get record "watch_export_receipt_file_sha256");
   ("complexity", VDict [("directory_entries_scanned", VInt 0); ("history_head_reads", VInt head_reads); ("history_record_reads", VInt record_reads);
                         ("checkpoint_records_validated", VInt validated)])].

Definition record_body (snapshot lease export : dict) (sequence cadence jitter : Z) (previous : value) (changed : bool) : dict :=
  [("schema", VStr RECORD_SCHEMA); ("version", VInt 3); ("sequence", VInt sequence); ("cadence_ms", VInt cadence); ("maximum_jitter_ms", VInt jitter);
   ("previous_record_sha256", previous); ("quote_changed", VBool changed)] ++ snapshot ++ lease ++ export.

(** What is appended: the three files, the user that reads them, the cadence, the storage,
    the random part of the temporary name and the history that is continued. *)
Record Request := mkRequest {
  q_snapshot : File; q_lease : File; q_export : File; q_reader : Reader; q_cadence : value; q_jitter : value; q_storage : Storage; q_random : string;
  q_previous : option Directory }.

(** Everything that does not depend on the directory. *)
Record Sources := mkSources { s_snapshot : dict; s_lease : dict; s_export : dict; s_cadence : Z; s_jitter : Z; s_maximum : Z; s_minimum_free : Z;
  s_previous : option dict }.

Definition load_sources (q : Request) : res Sources :=
  let! cj := validate_cadence (q_cadence q) (q_jitter q) in
  let! guard := validate_storage_guard (g_maximum (q_storage q)) (g_minimum_free (q_storage q)) in
  let! sc := load_canonical "MARKET_HISTORY_SNAPSHOT" (Some (q_snapshot q)) in
  let! snapshot := validate_snapshot sc.1 sc.2 in
  let! lc := load_canonical "MARKET_HISTORY_LEASE_RECEIPT" (Some (q_lease q)) in
  let! lease := validate_lease_receipt lc.1 lc.2 snapshot in
  let! ec := load_canonical "MARKET_HISTORY_EXPORT_RECEIPT" (Some (q_export q)) in
  let! export := validate_export_receipt ec.1 ec.2 snapshot lease (q_reader q) in
  let! previous := previous_segment_record (q_previous q) (Some cj.1) (Some cj.2) in
  Ok (mkSources snapshot lease export cj.1 cj.2 guard.1 guard.2 previous).

Definition DUPLICATE_FIELDS : list string :=
  ["snapshot_file_sha256"; "watch_lease_receipt_body_sha256"; "watch_lease_receipt_file_sha256"; "watch_export_receipt_body_sha256";
   "watch_export_receipt_file_sha256"].

(** A duplicate, or the record, the head and their bytes that are to be written. *)
Inductive plan :=
| Duplicate (result : dict)
| Append (record : dict) (contents : string) (head : dict) (head_contents : string) (head_reads record_reads validated : Z).

Definition next_record (s : Sources) (fast : option Fast) : res dict :=
  let last := t_last <$> fast in
  let sequence := match fast with None => 1 | Some t => iget (t_head t) "record_count" + 1 end in
  let previous := match last with None => VNone | Some r => get r "record_sha256" end in
  let! changed := match match last with Some r => Some r | None => s_previous s end with
                  | None => Ok true
                  | Some p => quote_changed (quote_of p) (quote_of (s_snapshot s))
                  end in
  let body := record_body (s_snapshot s) (s_lease s) (s_export s) sequence (s_cadence s) (s_jitter s) previous changed in
  let! d := digest_of (VDict body) in
  let record := body ++ [("record_sha256", VStr d)] in
  let! _ := match last with
            | Some r => let! _ := validate_authority_binding r record in validate_record_transition r record
            | None => validate_first (s_previous s) record
            end in
  Ok record.

Definition plan_append (s : Sources) (dir : Directory) (g : Storage) : res plan :=
  let! fast := load_fast_state dir in
  let! n := match fast with
            | None => Ok (mkCursor 1 VNone 0 0)
            | Some t =>
                when drifts (t_head t) "cadence_ms" (Some (s_cadence s)) || drifts (t_head t) "maximum_jitter_ms" (Some (s_jitter s))
                raise history_error "MARKET_HISTORY_CADENCE_BINDING_DRIFT" in
                advance_incremental_audit dir (t_head t) (t_last t)
            end in
  let fresh := s_snapshot s ++ s_lease s ++ s_export s in
  let duplicate := match fast with Some t => py_eq (get (t_last t) "snapshot_body_sha256") (get fresh "snapshot_body_sha256") | None => false end in
  match fast, duplicate with
  | Some t, true =>
      when differ (t_last t) fresh DUPLICATE_FIELDS raise history_error "MARKET_HISTORY_DUPLICATE_BINDING_CONFLICT" in
      Ok (Duplicate (append_result "duplicate" (t_last t) (t_last_contents t) (t_head t) (t_head_contents t) 0 1 (1 + n_reads n) (n_validated n)))
  | _, _ =>
      let! record := next_record s fast in
      let! contents := canonical (VDict record) in
      let before := match fast with None => 0 | Some t => iget (t_head t) "history_record_bytes" end in
      let first := match fast with None => get record "record_sha256" | Some t => get (t_head t) "first_record_sha256" end in
      let! head := make_head (iget record "sequence") (before + slen contents) first record contents (n_cursor n) (n_expected n) in
      let! head_contents := canonical (VDict head) in
      let! _ := guard_history_capacity before (slen contents) (slen head_contents) (s_maximum s) (s_minimum_free s) (g_available g) in
      let reads := match fast with None => 0 | Some _ => 1 end in
      Ok (Append record contents head head_contents reads (reads + n_reads n) (n_validated n))
  end.

Definition append_snapshot (q : Request) : act Directory dict :=
  s <-~ lift (load_sources q);
  dir <-~ look (fun d => d);
  p <-~ lift (plan_append s dir (q_storage q));
  match p with
  | Duplicate result => lift (Ok result)
  | Append record contents head head_contents head_reads record_reads validated =>
      _ <-~ atomic_publish (record_name (iget record "sequence")) (q_random q) contents;
      _ <-~ atomic_replace_head head_contents;
      lift (Ok (append_result "appended" record contents head head_contents (slen contents) head_reads record_reads validated))
  end.
End history.

End History.
