(* ===== verification/HistoryFacts.v ===== *)
(** * What the shadow market history guarantees

    What a full audit accepts is one chain of records; the digest of the last record pins
    all of them; and a crash while a record is published leaves a directory that neither the
    audit nor the recovery of the head accepts. *)

From Stdlib Require Import Ascii QArith Floats.SpecFloat.
From S2P Require Import Prelude PyText PyValue RowMonad PyOrder PyBytes Digest PyJson PyJsonFacts PyJsonText PyFloat Contracts Strategy StrategyFacts StrategyEvidence StrategyEvidenceFacts StrategyRunnerFacts OmsVerifyFacts StrategyScenario History.
From stdpp Require Import base tactics list strings.
From Stdlib Require Import ZArith Lia Bool.
Import Contracts ContractsFile Strategy StrategyReceipt StrategyFacts StrategyEvidence StrategyMarks StrategyMarksFacts StrategyEvidenceFacts StrategyRunnerFacts History.

Open Scope Z_scope.

Module HistoryFacts.

Section facts.
Context {D : Digest}.

(** ** What a check guarantees *)

Lemma as_history_ok {A} (m : res A) a : as_history m = Ok a -> m = Ok a.
Proof. destruct m as [|[[] ?]]; done. Qed.
Lemma exact_ok v fields reason d : exact v fields reason = Ok d -> v = VDict d /\ exact_fields d fields = true.
Proof. intros H. by apply as_history_ok, require_exact_fields_ok in H. Qed.
Lemma integer_ok v reason lo hi z : integer v reason lo hi = Ok z -> v = VInt z /\ (forall m, lo = Some m -> m <= z) /\ (forall m, hi = Some m -> z <= m).
Proof. intros H. by apply as_history_ok, require_int_ok in H. Qed.
Lemma digest_field_ok v reason s : a_digest v reason = Ok s -> v = VStr s /\ is_digest s = true.
Proof. intros H. by apply as_history_ok, require_digest_ok in H. Qed.
Lemma canonical_ok v b : canonical v = Ok b -> canonical_bytes v = Ok b.
Proof. unfold canonical. destruct (canonical_bytes v); [done|done]. Qed.
Lemma claimed_body_ok d f r s : claimed_body d f r = Ok s -> get d f = VStr s /\ is_digest s = true /\ digest_of (VDict (dpop f d)) = Ok s.
Proof.
  intros H. apply rbind_ok in H as (c & Hc & H). apply rbind_ok in H as (a & Ha & H). apply when_ok in H as [E [= <-]].
  apply negb_false_iff, bool_decide_eq_true in E as ->. by apply digest_field_ok in Hc as [-> ?].
Qed.

(** A file that holds a document. *)
Record holds (f : File) (d : dict) : Prop := {
  h_links : f_links f = 1;
  h_size : slen (f_bytes f) <= MAX_DOCUMENT_BYTES;
  h_ascii : sforall is_ascii (f_bytes f) = true;
  h_text : canonical (VDict d) = Ok (f_bytes f);
  h_read : loads_with unique_members no_constant (f_bytes f) = Ok (VDict d) }.

Lemma load_canonical_ok label o d c : load_canonical label o = Ok (d, c) -> o = Some (mkFile c 1) /\ holds (mkFile c 1) d.
Proof.
  destruct o as [f|]; [|done]. unfold load_canonical. intros H. apply when_ok in H as [Hm H]. apply when_ok in H as [Ha H]. apply negb_false_iff in Ha. split_bools.
  destruct (loads_with unique_members no_constant (f_bytes f)) as [v|] eqn:El; [|done]. destruct v as [| | | | | | |d']; try done.
  apply rbind_ok in H as (c' & Hc & H). apply when_ok in H as [He [= -> <-]]. apply negb_false_iff, bool_decide_eq_true in He.
  destruct f as [b n]. cbn [f_bytes f_links] in *. split_bools. replace n with 1 by lia. split; [done|]. split; cbn; [done|lia|done|congruence|done].
Qed.

Lemma holds_distinct f d : holds f d -> distinct_keys (VDict d) = true.
Proof. intros H. by apply (loads_distinct unique_members no_constant (unique_with_members _) ltac:(done) (f_bytes f)), h_read. Qed.

Lemma holds_same c d d' : holds (mkFile c 1) d -> holds (mkFile c 1) d' -> d = d'.
Proof. intros [_ _ _ _ H] [_ _ _ _ H']. cbn in H, H'. congruence. Qed.

Lemma holds_loads label c d : holds (mkFile c 1) d -> load_canonical label (Some (mkFile c 1)) = Ok (d, c).
Proof.
  intros [_ Hs Ha Ht Hr]. cbn [f_bytes] in *. unfold load_canonical. cbn [f_links f_bytes]. rewrite Z.eqb_refl, (proj2 (Z.ltb_ge _ _) Hs), Ha. cbn [negb orb]. rewrite Hr, Ht. cbn [rbind].
  by rewrite bool_decide_true by done.
Qed.

(** ** The chain *)

(** The digest a record must name: that of the record before it. *)
Definition before (st : list (dict * string)) (i : nat) : value :=
  match i with O => VNone | S j => match st !! j with Some p => get p.1 "record_sha256" | None => VNone end end.

Definition has_digest (r : dict) : Prop :=
  exists s, get r "record_sha256" = VStr s /\ is_digest s = true /\ digest_of (VDict (dpop "record_sha256" r)) = Ok s.

(** A record in its place. *)
Record placed (dir : Directory) (st : list (dict * string)) (i : nat) (r : dict) (c : string) : Prop := {
  p_file : dget (record_name (Z.of_nat i + 1)) dir = Some (mkFile c 1);
  p_holds : holds (mkFile c 1) r;
  p_fields : exact_fields r RECORD_FIELDS = true;
  p_sequence : eq_int (get r "sequence") (Z.of_nat i + 1) = true;
  p_previous : get r "previous_record_sha256" = before st i;
  p_digest : has_digest r;
  p_valid : exists previous, validate_record r (Z.of_nat i + 1) previous (record_name (Z.of_nat i + 1)) (mkFile c 1) = Ok r }.

(** A record that may come after another one: it was collected after it, its quote is not
    older, and either the lease is the same and the cadence is kept, or the lease is rotated. *)
Definition observed (r : dict) : Z := iget (quote_of r) "observed_at_ms".
Definition follows (p r : dict) : Prop :=
  iget p "collection_finished_at_ms" < iget r "collection_started_at_ms" /\ iget p "generated_at_ms" < iget r "generated_at_ms" /\
  observed p <= observed r /\ (observed p = observed r -> py_eq (VDict (quote_of r)) (VDict (quote_of p)) = true) /\
  get r "quote_changed" = VBool (negb (observed r =? observed p)) /\
  let gap := iget r "collection_started_at_ms" - iget p "collection_started_at_ms" in
  if iget r "watch_generation" =? iget p "watch_generation" then
    differ r p ["watch_lease_receipt_body_sha256"; "watch_lease_receipt_file_sha256"] = false /\
    Z.abs (gap - iget p "cadence_ms") <= iget p "maximum_jitter_ms"
  else iget r "watch_generation" = iget p "watch_generation" + 1 /\ rotates p r = true /\ gap <= BUILDER_MAXIMUM_QUOTE_GAP_MS.

Record chain (dir : Directory) (cadence jitter : option Z) (segment : option dict) (st : list (dict * string)) : Prop := {
  ch_placed : forall i r c, st !! i = Some (r, c) -> placed dir st i r c;
  ch_follows : forall i p r, st !! i = Some p -> st !! S i = Some r -> follows p.1 r.1;
  ch_authority : forall f x, head st = Some f -> x ∈ st -> differ x.1 f.1 AUTHORITY_FIELDS = false \/ x = f;
  ch_first : forall f, head st = Some f -> validate_first segment f.1 = Ok tt;
  ch_cadence : forall x, x ∈ st -> drifts x.1 "cadence_ms" cadence = false /\ drifts x.1 "maximum_jitter_ms" jitter = false }.

Lemma quote_changed_ok p r b : quote_changed (quote_of p) (quote_of r) = Ok b ->
  observed p <= observed r /\ (observed p = observed r -> py_eq (VDict (quote_of r)) (VDict (quote_of p)) = true) /\ b = negb (observed r =? observed p).
Proof.
  unfold quote_changed, observed. intros H. apply when_ok in H as [H1 H]. destruct (Z.eqb_spec (iget (quote_of r) "observed_at_ms") (iget (quote_of p) "observed_at_ms")) as [E|E].
  - apply when_ok in H as [H2 [= <-]]. apply negb_false_iff in H2. split; [lia|done].
  - injection H as <-. split; [lia|]. split; [lia|done].
Qed.

Lemma transition_ok p r : validate_record_transition p r = Ok tt -> follows p r.
Proof.
  unfold validate_record_transition, validate_quote_transition, not_after. intros H. apply when_ok in H as [H1 H]. apply rbind_ok in H as ([] & Hq & H). apply when_ok in H as [H2 H].
  apply rbind_ok in Hq as (b & Hb & Hq). apply when_ok in Hq as [Hf _]. apply quote_changed_ok in Hb as (Hle & Heq & ->). unfold follows.
  split_bools. split; [lia|]. split; [lia|]. split; [done|]. split; [done|]. split.
  { destruct (negb (observed r =? observed p)); destruct (get r "quote_changed"); try done; destruct b; done. }
  destruct (iget r "watch_generation" =? iget p "watch_generation").
  - apply rbind_ok in H as ([] & Hl & H). apply when_ok in H as [H3 _]. apply when_ok in Hl as [Hl _]. split; [done|]. split_bools. lia.
  - apply when_ok in H as [H3 H]. apply when_ok in H as [H4 _]. cbn [orb] in H2. split_bools. split; [lia|]. split; [done|lia].
Qed.

Lemma chain_ok r n previous name f : check_chain r n previous name f = Ok tt ->
  eq_int (get r "sequence") n = true /\ py_eq (get r "previous_record_sha256") previous = true /\ has_digest r /\ name = record_name n.
Proof.
  unfold check_chain. intros H. apply when_ok in H as [H1 H]. apply rbind_ok in H as (? & _ & H). apply rbind_ok in H as (s & Hs & H). apply when_ok in H as [H2 _].
  apply claimed_body_ok in Hs. apply negb_false_iff, bool_decide_eq_true in H2. split_bools. split; [done|]. split; [done|]. split; [by exists s|done].
Qed.

Lemma validate_record_ok d n previous name f r : validate_record d n previous name f = Ok r ->
  r = d /\ exact_fields r RECORD_FIELDS = true /\ check_chain r n previous name f = Ok tt /\ check_authority r = Ok tt /\
  exists lease, check_lease r = Ok lease /\ check_capture r lease.1 lease.2 = Ok tt.
Proof.
  unfold validate_record. intros H. apply rbind_ok in H as (r' & Hr & H). apply exact_ok in Hr as [[= <-] Hx]. apply rbind_ok in H as ([] & Hc & H).
  apply rbind_ok in H as ([] & Ha & H). apply rbind_ok in H as (lease & Hl & H). apply rbind_ok in H as ([] & Hq & [= <-]). eauto 10.
Qed.

Definition last_digest (st : list (dict * string)) : value := match last st with Some (p, _) => get p "record_sha256" | None => VNone end.
Lemma before_last st : before st (length st) = last_digest st.
Proof. unfold last_digest. rewrite last_lookup. destruct st as [|x st]; [done|]. cbn [length before pred]. by destruct ((x :: st) !! length st) as [[]|]. Qed.
Lemma before_snoc st x i : (i <= length st)%nat -> before (st ++ [x]) i = before st i.
Proof. intros Hi. destruct i as [|j]; [done|]. cbn [before]. by rewrite lookup_app_l by lia. Qed.

Section scan.
Context (dir : Directory) (cadence jitter : option Z) (segment : option dict).
Abbreviation chain := (chain dir cadence jitter segment).

Lemma previous_ok st v : chain st -> py_eq v (last_digest st) = true -> v = last_digest st.
Proof.
  unfold last_digest. intros Hc. destruct (last st) as [[p c]|] eqn:E; [|apply py_eq_none]. rewrite last_lookup in E. destruct (p_digest _ _ _ _ _ (ch_placed _ _ _ _ _ Hc _ _ _ E)) as (s & -> & _).
  apply py_eq_digest.
Qed.

Lemma scan_record_ok st n name st' : chain st -> scan_record dir cadence jitter segment st (Z.of_nat (length st) + 1, (n, name)) = Ok st' ->
  chain st' /\ name = record_name (Z.of_nat (length st) + 1) /\ exists x, st' = st ++ [x].
Proof.
  intros Hc. unfold scan_record. intros H. apply when_ok in H as [_ H]. apply rbind_ok in H as ([d c] & Hl & H). apply load_canonical_ok in Hl as [Hf Hh]. rewrite Hf in H.
  fold (last_digest st) in H. apply rbind_ok in H as (r & Hr & H). apply when_ok in H as [H1 H]. apply when_ok in H as [H2 H]. apply rbind_ok in H as ([] & Ht & [= <-]). unfold validate_next in Ht.
  pose proof Hr as Hv. apply validate_record_ok in Hr as (-> & Hx & Hk & _). cbn [fst snd] in *. apply chain_ok in Hk as (Hs & Hp & Hd & ->).
  split; [|split; [done|by eexists]]. pose proof Hc as [C1 C2 C3 C4 C5]. split.
  - intros i r c' Hi. apply lookup_snoc in Hi as [Hi|[-> [= -> ->]]].
    + destruct (C1 _ _ _ Hi) as [? ? ? ? P5 ? ?]. split; try done. rewrite before_snoc; [done|]. apply lookup_lt_Some in Hi. lia.
    + split; try done; [|by exists (last_digest st)]. rewrite before_snoc, before_last by done. by apply previous_ok.
  - intros i p r Hp' Hr'. apply lookup_snoc in Hr' as [Hr'|[Hn ->]].
    + apply lookup_snoc in Hp' as [Hp'|[Hn ->]]; [by apply (C2 i)|]. apply lookup_lt_Some in Hr'. lia.
    + apply lookup_snoc in Hp' as [Hp'|[Hn' ->]]; [|lia]. assert (El : last st = Some p) by (rewrite last_lookup; by replace (pred (length st)) with i by lia).
      destruct p as [p pc]. destruct st as [|[f fc] st]; [done|]. rewrite El in Ht. apply rbind_ok in Ht as ([] & Ht & _). by apply transition_ok.
  - intros f x Hf' Hx'. destruct st as [|[f0 fc] st]; [injection Hf' as <-; apply list_elem_of_singleton in Hx' as ->; by right|]. injection Hf' as <-.
    apply elem_of_app in Hx' as [Hx'|Hx']; [by apply C3|]. apply list_elem_of_singleton in Hx' as ->. left.
    destruct (last ((f0, fc) :: st)) as [[p pc]|] eqn:El; [|by apply last_None in El].
    apply rbind_ok in Ht as ([] & _ & Ht). by apply when_ok in Ht as [Ht _].
  - intros f Hf'. destruct st as [|[f0 fc] st]; [by injection Hf' as <-|]. injection Hf' as <-. by apply C4.
  - intros x Hx'. apply elem_of_app in Hx' as [Hx'|Hx']; [by apply C5|]. by apply list_elem_of_singleton in Hx' as ->.
Qed.

Lemma chain_nil : chain [].
Proof. split; try done; intros; first [by rewrite lookup_nil in *|by match goal with H : _ ∈ [] |- _ => apply elem_of_nil in H end]. Qed.

Lemma scan_records_ok l : forall st st', chain st -> rfold (scan_record dir cadence jitter segment) (enumerate (Z.of_nat (length st) + 1) l) st = Ok st' ->
  chain st' /\ length st' = (length st + length l)%nat /\ forall e, e ∈ l -> exists n, 1 <= n <= Z.of_nat (length st') /\ e.2 = record_name n.
Proof.
  induction l as [|[n name] l IH]; intros st st' Hc H; simpl in H; [injection H as <-; split; [done|]; split; [simpl; lia|intros e He; by apply elem_of_nil in He]|].
  apply rbind_ok in H as (st1 & H1 & H). destruct (scan_record_ok _ _ _ _ Hc H1) as (Hc1 & En & x & ->).
  replace (Z.of_nat (length st) + 1 + 1) with (Z.of_nat (length (st ++ [x])) + 1) in H by (rewrite length_app; simpl; lia).
  destruct (IH _ _ Hc1 H) as (Hc' & Hl & He). split; [done|]. rewrite length_app in Hl. simpl in Hl |- *. split; [lia|].
  intros e Hin. apply elem_of_cons in Hin as [->|Hin]; [|by apply He]. exists (Z.of_nat (length st) + 1). split; [lia|done].
Qed.

(** The names of a directory: the head, the pending head and the records. *)
Lemma list_entries_ok d : forall l l', rfold list_entry d l = Ok l' ->
  (forall e, e ∈ l -> e ∈ l') /\ forall name, In name (map fst d) -> name = HEAD_NAME \/ name = HEAD_PENDING_NAME \/ exists n, (n, name) ∈ l'.
Proof.
  induction d as [|[name f] d IH]; intros l l' H; simpl in H; [injection H as <-; done|]. apply rbind_ok in H as (l1 & H1 & H). destruct (IH _ _ H) as [Hl Hd].
  unfold list_entry in H1. cbn [fst] in H1. destruct (bool_decide (name = HEAD_NAME) || bool_decide (name = HEAD_PENDING_NAME)) eqn:E.
  - injection H1 as <-. split; [done|]. intros k [<-|Hk]; [|by apply Hd]. apply orb_prop in E as [E|E]; apply bool_decide_eq_true in E; tauto.
  - apply when_ok in H1 as [_ H1]. destruct (record_number name) as [n|]; [|done]. injection H1 as <-. split; [intros e He; apply Hl, elem_of_app; by left|].
    intros k [<-|Hk]; [|by apply Hd]. right; right. exists n. apply Hl, elem_of_app. right. by apply list_elem_of_singleton.
Qed.

Lemma scan_history_ok require st : scan_history dir cadence jitter require segment = Ok st ->
  chain st /\ (forall name, In name (map fst dir) -> name = HEAD_NAME \/ name = HEAD_PENDING_NAME \/ exists n, 1 <= n <= Z.of_nat (length st) /\ name = record_name n) /\
  Z.of_nat (length st) <= MAX_HISTORY_RECORDS /\ (if require then check_head dir st = Ok tt else True).
Proof.
  unfold scan_history, list_records. intros H. apply rbind_ok in H as (l & Hl & H). apply rbind_ok in H as (st' & Hs & H). apply rbind_ok in H as ([] & Hh & [= ->]).
  apply rbind_ok in Hl as (l0 & Hl & H). apply when_ok in H as [Hm [= <-]]. destruct (scan_records_ok _ _ _ chain_nil Hs) as (Hc & Hn & He). split; [done|].
  destruct (list_entries_ok _ _ _ Hl) as [_ Hd]. simpl in Hn. split; [|split; [|by destruct require]].
  - intros name Hin. destruct (Hd name Hin) as [?|[?|(n & Hn')]]; [tauto|tauto|]. right; right.
    destruct (He (n, name)) as (m & Hm' & E); [|by exists m]. apply list_elem_of_In. unfold sorted_key. apply sorted_by_In. by apply list_elem_of_In.
  - rewrite <- Hn in Hm. lia.
Qed.
End scan.

(** ** The head *)

(** The head of a directory tells the number, the size and the ends of a chain. *)
Definition indexed (dir : Directory) (st : list (dict * string)) : Prop :=
  dhas HEAD_PENDING_NAME dir = false /\
  match st, last st with
  | (first, _) :: _, Some (lst, c) =>
      exists head text, load_head dir = Ok (head, text) /\ get head "record_count" = VInt (Z.of_nat (length st)) /\ get head "history_record_bytes" = VInt (record_bytes st) /\
        get head "first_record_sha256" = get first "record_sha256" /\ get head "last_record_sha256" = get lst "record_sha256" /\
        get head "last_record_file_sha256" = VStr (digest_bytes c)
  | _, _ => dhas HEAD_NAME dir = false
  end.

Lemma load_head_ok dir head text : load_head dir = Ok (head, text) -> dget HEAD_NAME dir = Some (mkFile text 1) /\ holds (mkFile text 1) head /\ validate_head head = Ok head.
Proof.
  intros H. apply rbind_ok in H as ([d c] & Hl & H). apply rbind_ok in H as (h & Hh & [= -> <-]). apply load_canonical_ok in Hl as [Hf Hd]. cbn [fst snd] in *.
  split; [done|]. assert (E : d = head) by (unfold validate_head in Hh; apply rbind_ok in Hh as (h & Hx & Hh); apply exact_ok in Hx as [[= <-] _]; by inv_ok Hh). by subst d.
Qed.

Lemma head_ints head : validate_head head = Ok head -> exists count bytes, get head "record_count" = VInt count /\ get head "history_record_bytes" = VInt bytes.
Proof.
  unfold validate_head. intros H. apply rbind_ok in H as (h & Hx & H). apply exact_ok in Hx as [[= <-] _]. apply when_ok in H as [_ H].
  apply rbind_ok in H as (count & Hc & H). apply rbind_ok in H as (bytes & Hb & _). apply integer_ok in Hc as [Hc _], Hb as [Hb _]. eauto.
Qed.

Lemma make_head_fields count bytes first lst c cursor expected head : make_head count bytes first lst c cursor expected = Ok head ->
  dget "record_count" head = Some (VInt count) /\ dget "history_record_bytes" head = Some (VInt bytes) /\ dget "first_record_sha256" head = Some first /\
  dget "last_record_sha256" head = Some (get lst "record_sha256") /\ dget "last_record_file_sha256" head = Some (VStr (digest_bytes c)).
Proof. intros H. apply rbind_ok in H as (d & _ & [= <-]). done. Qed.

Lemma check_head_ok dir cadence jitter segment st : chain dir cadence jitter segment st -> check_head dir st = Ok tt -> indexed dir st.
Proof.
  intros Hc. unfold check_head, indexed. intros H. apply when_ok in H as [Hp H]. split; [done|]. destruct st as [|[first fc] st]; [by apply when_ok in H as [H _]|].
  destruct (last ((first, fc) :: st)) as [[lst c]|] eqn:El; [|by apply when_ok in H as [H _]]. apply when_ok in H as [_ H]. apply rbind_ok in H as ([head text] & Hh & H).
  apply rbind_ok in H as (expected & He & H). apply when_ok in H as [Hq _]. apply negb_false_iff in Hq. cbn [fst] in *. exists head, text. split; [done|].
  apply load_head_ok in Hh as (_ & Hd & Hv). apply make_head_fields in He as (E1 & E2 & E3 & E4 & E5).
  assert (Hf : forall k w, dget k expected = Some w -> py_eq (get head k) w = true).
  { intros k w Hw. destruct (py_eq_dict_rev _ _ _ _ (distinct_dict _ (holds_distinct _ _ Hd)) Hq Hw) as (v & Hg & Hvw). unfold get, getd, dget_or. by rewrite Hg. }
  apply Hf in E1, E2, E3, E4, E5. destruct (head_ints _ Hv) as (n & b & Hn & Hb). rewrite Hn in E1 |- *. rewrite Hb in E2 |- *. simpl in E1, E2.
  destruct (p_digest _ _ _ _ _ (ch_placed _ _ _ _ _ Hc 0%nat first fc eq_refl)) as (s1 & D1 & _). rewrite last_lookup in El.
  destruct (p_digest _ _ _ _ _ (ch_placed _ _ _ _ _ Hc _ _ _ El)) as (s2 & D2 & _). rewrite D1, D2 in *.
  apply Z.eqb_eq in E1 as ->, E2 as ->. split; [done|]. split; [done|]. by apply py_eq_digest in E3, E4, E5.
Qed.

(** C15: What a full audit of a history accepts is one chain.  Every name of the directory is the head or the
    name of a record; the records are numbered from one, each one's file holds exactly its canonical bytes and
    its own digest, names the digest of the record before it, was collected after it with a quote that is not
    older, and is bound to the same authority as the first; and the head tells their number, their bytes and
    the digests of the first and the last. *)
Theorem history_chain_sound dir cadence jitter previous records :
  load_history dir cadence jitter previous = Ok records ->
  exists segment st, previous_segment_record previous cadence jitter = Ok segment /\ records = map fst st /\ chain dir cadence jitter segment st /\ indexed dir st /\
    forall name, In name (map fst dir) -> name = HEAD_NAME \/ exists n, 1 <= n <= Z.of_nat (length records) /\ name = record_name n.
Proof.
  unfold load_history. intros H. apply rbind_ok in H as (segment & Hs & H). apply rbind_ok in H as (st & Hst & [= <-]). exists segment, st. split; [done|]. split; [done|].
  apply scan_history_ok in Hst as (Hc & Hn & _ & Hh). split; [done|]. pose proof (check_head_ok _ _ _ _ _ Hc Hh) as Hi. split; [done|]. intros name Hin. rewrite length_map.
  destruct (Hn name Hin) as [?|[->|?]]; [tauto| |tauto]. destruct Hi as [Hi _]. apply dhas_In in Hin. congruence.
Qed.

(** ** The text of a record *)

Lemma name_utf8 v reason s : a_name v reason = Ok s -> v = VStr s /\ utf8_ok s = true.
Proof.
  destruct v; simpl; try done. intros H. apply when_ok in H as [H [= ->]]. split; [done|]. split_bools. unfold is_name in *. destruct s as [|c r]; [done|]. split_bools.
  apply ascii_utf8. cbn [sforall]. rewrite is_alnum_ascii by done. eapply sforall_impl; [|eassumption]. intros c'. unfold is_name_char. intros Hc. apply orb_prop in Hc as [Hc|Hc].
  - by apply identifier_char_ascii.
  - by apply bool_decide_eq_true in Hc as ->.
Qed.

Definition texts (r : dict) (k : string) : Prop := json_ok (get r k) = true.
Lemma text_int r k v : get r k = VInt v -> texts r k.
Proof. unfold texts. by intros ->. Qed.
Lemma text_digest r k s : get r k = VStr s /\ is_digest s = true -> texts r k.
Proof. unfold texts. intros [-> H]. by apply digest_text_utf8. Qed.
Lemma text_name r k s : get r k = VStr s /\ utf8_ok s = true -> texts r k.
Proof. unfold texts. by intros [-> H]. Qed.
Lemma text_eq_str r k s : eq_str (get r k) s = true -> utf8_ok s = true -> texts r k.
Proof. unfold texts. destruct (get r k); try done. intros H. by apply bool_decide_eq_true in H as ->. Qed.
Lemma text_number r k n c : canonical (VDict r) = Ok c -> eq_int (get r k) n = true -> texts r k.
Proof.
  unfold texts, eq_int. intros Hc H. destruct (get r k) eqn:E; try done. unfold canonical, canonical_bytes in Hc. destruct (floats_all _ _); [|done].
  destruct (dumps (VDict r)) as [t|] eqn:Et; [|done]. rewrite dumps_dict in Et. apply rbind_ok in Et as (xs & Hx & _). apply rmapM_Forall2 in Hx. clear -Hx E.
  unfold get, getd, dget_or in E. destruct (dget k r) as [v|] eqn:Ek; [|done]. apply dget_In, list_elem_of_In, list_elem_of_lookup in Ek as (i & Ek).
  destruct (Forall2_lookup_l _ _ _ _ _ Hx Ek) as (y & _ & Hy). subst v. by unfold dump_member in Hy.
Qed.

(** The checks of a record, one by one. *)
Ltac open_checks H :=
  repeat match type of H with
  | rbind _ _ = Ok _ => let x := fresh "x" in let Hx := fresh "Hx" in apply rbind_ok in H as (x & Hx & H)
  | (when _ raise _ in _) = Ok _ => let Hc := fresh "Hc" in apply when_ok in H as [Hc H]; split_bools
  end.
Ltac text_of_check :=
  match goal with
  | H : a_digest (get ?r ?k) _ = Ok _ |- texts ?r ?k => exact (text_digest _ _ _ (digest_field_ok _ _ _ H))
  | H : integer (get ?r ?k) _ _ _ = Ok _ |- texts ?r ?k => exact (text_int _ _ _ (proj1 (integer_ok _ _ _ _ _ H)))
  | H : a_name (get ?r ?k) _ = Ok _ |- texts ?r ?k => exact (text_name _ _ _ (name_utf8 _ _ _ H))
  | H : eq_str (get ?r ?k) _ = true |- texts ?r ?k => exact (text_eq_str _ _ _ H eq_refl)
  | Hc : canonical (VDict ?r) = Ok _, H : eq_int (get ?r ?k) _ = true |- texts ?r ?k => exact (text_number _ _ _ _ Hc H)
  end.
Ltac each_field Hin := repeat (destruct Hin as [<-|Hin]; [first [text_of_check|idtac]|]); [..|destruct Hin].

Lemma cadence_texts r : (exists cj, validate_cadence (get r "cadence_ms") (get r "maximum_jitter_ms") = Ok cj) -> texts r "cadence_ms" /\ texts r "maximum_jitter_ms".
Proof. intros (cj & H). unfold validate_cadence in H. open_checks H. split; text_of_check. Qed.

Lemma chain_texts r n previous name f c k : canonical (VDict r) = Ok c -> check_chain r n previous name f = Ok tt ->
  In k ["schema"; "version"; "sequence"; "cadence_ms"; "maximum_jitter_ms"; "record_sha256"] -> texts r k.
Proof.
  intros Hc H Hin. unfold check_chain in H. open_checks H. destruct (cadence_texts r ltac:(eauto)). each_field Hin; try done.
  match goal with H : claimed_body _ _ _ = Ok _ |- _ => apply claimed_body_ok in H as (B1 & B2 & _) end. by eapply text_digest.
Qed.

(** A document whose fields are checked and whose keys are distinct. *)
Lemma members_json_ok d fields : distinct_keys (VDict d) = true -> exact_fields d fields = true -> forallb utf8_ok fields = true ->
  (forall k, In k fields -> texts d k) -> json_ok (VDict d) = true.
Proof.
  intros Hd Hx Hu Ht. pose proof (distinct_dict d Hd) as Hn. cbn [json_ok]. rewrite bool_decide_true by (by apply NoDup_ListNoDup). cbn [andb]. apply forallb_forall. intros [k v] Hin.
  assert (Hk : In k fields). { unfold exact_fields in Hx. apply andb_prop in Hx as [Hx _]. rewrite forallb_forall in Hx. apply inb_In, Hx. by apply (in_map fst) in Hin. }
  rewrite forallb_forall in Hu. cbn [fst snd]. rewrite (Hu k Hk). specialize (Ht k Hk). unfold texts, get, getd, dget_or in Ht. by rewrite (dget_of_In _ _ _ Hn Hin) in Ht.
Qed.

Lemma member_distinct d k e : distinct_keys (VDict d) = true -> get d k = VDict e -> distinct_keys (VDict e) = true.
Proof.
  unfold get, getd, dget_or. cbn [distinct_keys]. intros H Hk. apply andb_prop in H as [_ H]. rewrite forallb_forall in H. destruct (dget k d) as [v|] eqn:E; [|done]. subst v.
  apply dget_In in E. by apply (H (k, VDict e)).
Qed.

Lemma check_set_ok v reason d : check_set v reason = Ok d -> v = VDict d /\ exact_fields d READ_ORDER = true.
Proof. destruct v; simpl; try done. intros H. apply when_ok in H as [H [= ->]]. by apply negb_false_iff in H. Qed.

Lemma authority_texts r k : distinct_keys (VDict r) = true -> check_authority r = Ok tt ->
  In k ["snapshot_body_sha256"; "snapshot_file_sha256"; "catalog_sha256"; "descriptor_sha256"; "domain_id"; "agent_uid"; "instrument"; "execution_service_epoch";
        "execution_service_fencing_generation"] -> texts r k.
Proof.
  intros Hd H Hin. unfold check_authority in H. open_checks H. each_field Hin. match goal with H : check_set _ _ = Ok _ |- _ => apply check_set_ok in H as [He Hx'] end.
  unfold texts. rewrite He. apply (members_json_ok _ READ_ORDER); [by eapply member_distinct|done|done|]. intros k Hk.
  match goal with H : rfold _ ?l tt = Ok _ |- _ => rename H into Hf, l into ds end. apply (exact_fields_get _ _ k) in Hx'; [|by apply inb_In]. unfold item in Hx'.
  destruct (dget k ds) as [v|] eqn:E; [|done]. apply dget_In in E. unfold texts. injection Hx' as <-. clear -Hf E.
  induction ds as [|kv l IH]; [done|]. simpl in Hf. apply rbind_ok in Hf as ([] & Hu & Hf). destruct E as [->|E]; [|exact (IH E Hf)].
  apply rbind_ok in Hu as (s & Hs & _). apply digest_field_ok in Hs as [Ev Hs]. simpl in Ev. subst v. by apply digest_text_utf8.
Qed.

Lemma rotation_texts o p d n : check_rotation o p d n = Ok tt -> json_ok o = true /\ json_ok p = true /\ json_ok d = true.
Proof.
  unfold check_rotation. intros H. apply rbind_ok in H as (b & Hb & H). unfold pnot in Hb. apply rbind_ok in Hb as (m & Hm & [= <-]). destruct m; [|done]. cbn [negb] in H.
  unfold member in Hm. destruct (hashable o); [|done]. injection Hm as Hm. split.
  { apply orb_prop in Hm as [Hm|Hm]; [|apply orb_prop in Hm as [Hm|Hm]; [|done]]; destruct o; try done; by apply bool_decide_eq_true in Hm as ->. }
  destruct (eq_str o "PROVISION"); open_checks H; [by destruct p, d|]. apply integer_ok in Hx as [-> _]. apply digest_field_ok in Hx0 as [-> Hd]. split; [done|]. by apply digest_text_utf8.
Qed.

Lemma lease_texts r lease k : check_lease r = Ok lease ->
  In k ["watch_generation"; "watch_lease_receipt_body_sha256"; "watch_lease_receipt_file_sha256"; "watch_lease_operation"; "watch_lease_previous_generation";
        "watch_lease_previous_receipt_body_sha256"; "watch_lease_accepted_at_ms"; "watch_lease_ttl_seconds"; "watch_lease_expires_at_ms"; "watch_export_receipt_body_sha256";
        "watch_export_receipt_file_sha256"; "watch_export_reader_uid"; "watch_export_reader_gid"] -> texts r k.
Proof.
  intros H Hin. unfold check_lease in H. open_checks H. match goal with H : check_rotation _ _ _ _ = Ok ?u |- _ => destruct u; apply rotation_texts in H as (R1 & R2 & R3) end.
  match goal with H : check_lease_times _ _ _ _ = Ok _ |- _ => rename H into Ht end. unfold check_lease_times in Ht. open_checks Ht. each_field Hin; done.
Qed.

Lemma number_text v reason positive f : number v reason positive = Ok f -> json_ok v = true.
Proof. by destruct v. Qed.

Lemma bool_text v b : is_true v = b -> (is_true v = true \/ is_false v = true) -> json_ok v = true.
Proof. by destruct v; intros ? [|]. Qed.

Lemma capture_texts r a e k : distinct_keys (VDict r) = true -> check_capture r a e = Ok tt ->
  In k ["watch_exported_at_ms"; "collection_started_at_ms"; "collection_finished_at_ms"; "generated_at_ms"; "quote_read_finished_at_ms"; "quote_changed"; "quote"] -> texts r k.
Proof.
  intros Hd H Hin. unfold check_capture in H. open_checks H. each_field Hin.
  - unfold texts. by destruct (get r "quote_changed").
  - match goal with H : exact _ QUOTE_FIELDS _ = Ok _ |- _ => apply exact_ok in H as [He Hx'] end. unfold texts. rewrite He.
    apply (members_json_ok _ QUOTE_FIELDS); [by eapply member_distinct|done|done|]. intros k Hk. unfold QUOTE_FIELDS in Hk. each_field Hk; unfold texts;
      first [by eapply number_text|eapply bool_text; [reflexivity|auto]].
Qed.

Lemma record_json_ok dir st i r c : placed dir st i r c -> before st i = VNone \/ (exists s, before st i = VStr s /\ is_digest s = true) -> json_ok (VDict r) = true.
Proof.
  intros [_ Hh Hx _ Hp _ (previous & Hv)] Hb. pose proof (holds_distinct _ _ Hh) as Hd. pose proof (h_text _ _ Hh) as Hc. apply validate_record_ok in Hv as (_ & _ & V1 & V2 & lease & V3 & V4).
  apply (members_json_ok _ RECORD_FIELDS); [done|done|done|]. intros k Hin.
  pose proof (fun k => chain_texts r _ _ _ _ _ k Hc V1) as T1. pose proof (fun k => authority_texts r k Hd V2) as T2. pose proof (fun k => lease_texts r _ k V3) as T3.
  pose proof (fun k => capture_texts r _ _ k Hd V4) as T4. cbn [In] in T1, T2, T3, T4.
  assert (T5 : texts r "previous_record_sha256") by (unfold texts; rewrite Hp; destruct Hb as [->|(s & -> & Hs)]; [done|by apply digest_text_utf8]).
  unfold RECORD_FIELDS in Hin. cbn [In] in Hin. repeat (destruct Hin as [<-|Hin]; [first [exact T5|apply T1; tauto|apply T2; tauto|apply T3; tauto|apply T4; tauto]|]). done.
Qed.

(** ** The digest of the last record *)

(** Two records whose bodies, the texts that are digested, differ and have one digest. *)
Definition collide (r1 r2 : dict) : Prop := exists b1 b2, canonical (VDict (dpop "record_sha256" r1)) = Ok b1 /\
  canonical (VDict (dpop "record_sha256" r2)) = Ok b2 /\ b1 <> b2 /\ digest b1 = digest b2.
(** Two histories that part at such a pair: the same records follow both, the two claim one
    digest, and their bodies collide. *)
Definition collision (l1 l2 : list dict) : Prop := exists i j r1 r2, l1 !! i = Some r1 /\ l2 !! j = Some r2 /\
  drop (S i) l1 = drop (S j) l2 /\ get r1 "record_sha256" = get r2 "record_sha256" /\ collide r1 r2.
(** Numbers whose digits read back as the number. *)
Definition exact_numbers (r : dict) : Prop := floats_all exact_float (VDict r) = true.

Lemma canonical_text v b : canonical v = Ok b -> exists t, dumps v = Ok t /\ b = t +:+ newline /\ floats_all finite_float v = true.
Proof. intros H. apply canonical_ok in H. unfold canonical_bytes in H. destruct (floats_all finite_float v); [|done]. destruct (dumps v) as [t|]; [|done]. injection H as <-. eauto. Qed.

(** A member and the rest of a document. *)
Lemma dpop_perm k v (d : dict) : List.NoDup (map fst d) -> dget k d = Some v -> Permutation (dpop k d ++ [(k, v)]) d.
Proof.
  induction d as [|[k' v'] d IH]; simpl; [done|]. intros Hn Hk. inversion Hn as [|? ? Hni Hn']; subst. destruct (decide (k = k')) as [->|Hne].
  - injection Hk as ->. symmetry. apply Permutation_cons_append.
  - simpl. apply perm_skip. by apply IH.
Qed.

Lemma dpop_forallb (f : string * value -> bool) k (d : dict) : forallb f d = true -> forallb f (dpop k d) = true.
Proof. rewrite !forallb_forall. intros H x Hx. apply H. by eapply dpop_keys_sub. Qed.

Lemma body_like k s r t d : json_ok (VDict r) = true -> exact_numbers r -> dget k r = Some (VStr s) -> dumps (VDict r) = Ok t -> like (VDict (dpop k r)) (VDict d) ->
  dumps (VDict (d ++ [(k, VStr s)])) = Ok t.
Proof.
  intros Hj Hx Hk Ht Hl. apply (dumps_like (VDict r)); [done|done|done|]. inversion Hl as [| | | | | |? ds ? Hp Hf]; subst. apply (like_dict _ (ds ++ [(k, VStr s)])).
  - rewrite Hp. apply dpop_perm; [by apply json_ok_dict in Hj as [? _]|done].
  - apply Forall2_app; [done|]. repeat constructor.
Qed.

Lemma body_json_ok k r : json_ok (VDict r) = true -> json_ok (VDict (dpop k r)) = true.
Proof.
  cbn [json_ok]. intros H. apply andb_prop in H as [H1 H2]. apply bool_decide_eq_true, NoDup_ListNoDup in H1. rewrite bool_decide_true by (by apply NoDup_ListNoDup, dpop_NoDup).
  by apply dpop_forallb.
Qed.

Lemma finite_readable v : floats_all finite_float v = true -> floats_all (readable_float false) v = true.
Proof.
  unfold readable_float. induction v as [| | | | | |l IH|l IH] using value_nested_ind; try done; [intros H; simpl in *; by rewrite H|..];
    cbn [floats_all]; rewrite !forallb_forall; intros H x Hx; rewrite List.Forall_forall in IH; auto.
Qed.

(** Records with one digest have one text, or their bodies collide. *)
Lemma same_digest r1 r2 c1 c2 : json_ok (VDict r1) = true -> json_ok (VDict r2) = true -> exact_numbers r1 -> exact_numbers r2 -> has_digest r1 -> has_digest r2 ->
  get r1 "record_sha256" = get r2 "record_sha256" -> canonical (VDict r1) = Ok c1 -> canonical (VDict r2) = Ok c2 -> collide r1 r2 \/ c1 = c2.
Proof.
  intros J1 J2 X1 X2 (s & G1 & _ & D1) (s' & G2 & _ & D2) E C1 C2. assert (s' = s) as -> by congruence.
  apply rbind_ok in D1 as (b1 & B1 & [= S1]). apply rbind_ok in D2 as (b2 & B2 & [= S2]). destruct (decide (b1 = b2)) as [->|Hne].
  - right. destruct (canonical_text _ _ C1) as (t1 & T1 & -> & _). destruct (canonical_text _ _ C2) as (t2 & T2 & -> & _).
    destruct (canonical_text _ _ B1) as (u1 & U1 & E1 & F1). destruct (canonical_text _ _ B2) as (u2 & U2 & E2 & F2).
    assert (R : forall r u, json_ok (VDict r) = true -> floats_all finite_float (VDict (dpop "record_sha256" r)) = true -> dumps (VDict (dpop "record_sha256" r)) = Ok u ->
        exists d, loads_with unique_members no_constant (u +:+ newline) = Ok (VDict d) /\ like (VDict (dpop "record_sha256" r)) (VDict d)).
    { intros r u Hj Hf Hu. destruct (loads_dumps unique_members no_constant (unique_with_distinct _) false ltac:(done) (VDict (dpop "record_sha256" r)) u newline) as (v & Hv & Hl);
        [|by apply body_json_ok|done|by right|by destruct (like_dict_inv _ _ Hl) as (d & -> & _); exists d].
      by apply finite_readable. }
    destruct (R r1 u1 J1 F1 U1) as (d1 & L1 & K1). destruct (R r2 u2 J2 F2 U2) as (d2 & L2 & K2). rewrite <- E1 in L1. rewrite <- E2, L1 in L2. injection L2 as <-.
    assert (G : forall r, get r "record_sha256" = VStr s -> dget "record_sha256" r = Some (VStr s)) by (intros r Hr; unfold get, getd, dget_or in Hr; by destruct (dget _ r); subst).
    pose proof (body_like _ _ _ _ _ J1 X1 (G _ G1) T1 K1). pose proof (body_like _ _ _ _ _ J2 X2 (G _ G2) T2 K2). congruence.
  - left. exists b1, b2. do 3 (split; [done|]). rewrite <- S2 in S1. unfold digest_bytes in S1. by simplify_eq.
Qed.

Lemma same_integer v a b : eq_int v a = true -> eq_int v b = true -> a = b.
Proof.
  unfold eq_int. intros Ha Hb. destruct (py_eq_number v (VInt a) _ eq_refl Ha) as (x & Hx & Xa). destruct (py_eq_number v (VInt b) _ eq_refl Hb) as (y & Hy & Yb).
  rewrite Hx in Hy. injection Hy as <-. destruct x as [q| |]; try done. simpl in Xa, Yb. apply Qeq_bool_iff in Xa, Yb. rewrite Xa in Yb. by apply inject_Z_injective.
Qed.

Lemma map_lookup_fst (st : list (dict * string)) i r c : st !! i = Some (r, c) -> map fst st !! i = Some r.
Proof. intros H. change (map fst st) with (fst <$> st). by rewrite list_lookup_fmap, H. Qed.

Section pinned.
Context (dir1 dir2 : Directory) (cadence1 jitter1 cadence2 jitter2 : option Z) (segment1 segment2 : option dict) (st1 st2 : list (dict * string)).
Hypothesis C1 : chain dir1 cadence1 jitter1 segment1 st1.
Hypothesis C2 : chain dir2 cadence2 jitter2 segment2 st2.
Hypothesis X1 : forall x, x ∈ st1 -> exact_numbers x.1.
Hypothesis X2 : forall x, x ∈ st2 -> exact_numbers x.1.

Lemma chain_before dir cadence jitter segment st i x : chain dir cadence jitter segment st -> st !! i = Some x ->
  i = 0%nat /\ before st i = VNone \/ exists j y, i = S j /\ st !! j = Some y /\ before st i = get y.1 "record_sha256".
Proof.
  intros Hc Hi. destruct i as [|j]; [by left|]. right. destruct (lookup_lt_is_Some_2 st j) as [y Hy]; [apply lookup_lt_Some in Hi; lia|]. exists j, y. cbn [before]. by rewrite Hy.
Qed.

Lemma chain_json_ok dir cadence jitter segment st i r c : chain dir cadence jitter segment st -> st !! i = Some (r, c) -> json_ok (VDict r) = true.
Proof.
  intros Hc Hi. apply (record_json_ok dir st i r c (ch_placed _ _ _ _ _ Hc _ _ _ Hi)). destruct (chain_before _ _ _ _ _ _ _ Hc Hi) as [[_ ?]|(j & [y yc] & _ & Hy & ->)]; [by left|]. right.
  destruct (p_digest _ _ _ _ _ (ch_placed _ _ _ _ _ Hc _ _ _ Hy)) as (s & Hs & Hd & _). by exists s.
Qed.

Lemma pinned i : forall j r1 c1 r2 c2, st1 !! i = Some (r1, c1) -> st2 !! j = Some (r2, c2) -> get r1 "record_sha256" = get r2 "record_sha256" ->
  drop (S i) (map fst st1) = drop (S j) (map fst st2) -> collision (map fst st1) (map fst st2) \/ i = j /\ take (S i) st1 = take (S i) st2.
Proof.
  induction i as [|i IH]; intros j r1 c1 r2 c2 H1 H2 E Hd.
  all: assert (M1 : map fst st1 !! _ = Some r1) by (exact (map_lookup_fst _ _ _ _ H1)); assert (M2 : map fst st2 !! _ = Some r2) by (exact (map_lookup_fst _ _ _ _ H2)).
  all: destruct (ch_placed _ _ _ _ _ C1 _ _ _ H1) as [_ Hh1 _ S1 P1 D1 _]; destruct (ch_placed _ _ _ _ _ C2 _ _ _ H2) as [_ Hh2 _ S2 P2 D2 _].
  all: destruct (same_digest r1 r2 c1 c2) as [Hc|<-]; [exact (chain_json_ok _ _ _ _ _ _ _ _ C1 H1)|exact (chain_json_ok _ _ _ _ _ _ _ _ C2 H2)|exact (X1 _ (list_elem_of_lookup_2 _ _ _ H1))|exact (X2 _ (list_elem_of_lookup_2 _ _ _ H2))|done|done|done|apply Hh1|apply Hh2|left; unfold collision; eauto 10|].
  all: pose proof (holds_same _ _ _ Hh1 Hh2) as <-; pose proof (same_integer _ _ _ S1 S2) as Hij.
  - right. assert (j = 0%nat) as -> by lia. split; [done|]. by rewrite (take_S_r st1 0 _ H1), (take_S_r st2 0 _ H2).
  - assert (j = S i) as -> by lia. rewrite P1 in P2. destruct (chain_before _ _ _ _ _ _ _ C1 H1) as [[? _]|(k & [y1 d1] & [= <-] & K1 & B1)]; [done|].
    destruct (chain_before _ _ _ _ _ _ _ C2 H2) as [[? _]|(k & [y2 d2] & [= <-] & K2 & B2)]; [done|]. rewrite B1, B2 in P2.
    destruct (IH _ _ _ _ _ K1 K2 P2) as [?|[_ Ht]]; [by rewrite (drop_S _ _ _ M1), (drop_S _ _ _ M2), Hd|by left|].
    right. split; [done|]. by rewrite (take_S_r st1 (S i) _ H1), (take_S_r st2 (S i) _ H2), Ht.
Qed.

Lemma chains_pinned r1 c1 r2 c2 : last st1 = Some (r1, c1) -> last st2 = Some (r2, c2) -> get r1 "record_sha256" = get r2 "record_sha256" ->
  collision (map fst st1) (map fst st2) \/ st1 = st2.
Proof.
  rewrite !last_lookup. intros H1 H2 E. destruct (pinned _ _ _ _ _ _ H1 H2 E) as [?|[El Ht]]; [|by left|]; apply lookup_lt_Some in H1, H2.
  - by rewrite !drop_ge by (rewrite length_map; lia).
  - right. rewrite !take_ge in Ht by lia. done.
Qed.
End pinned.

Lemma audit_head dir cadence jitter previous a : audit_history dir cadence jitter previous = Ok a ->
  exists records lst, load_history dir (Some cadence) (Some jitter) previous = Ok records /\ last records = Some lst /\ get a "history_head_sha256" = get lst "record_sha256".
Proof.
  unfold audit_history. intros H. apply rbind_ok in H as (records & Hr & H). destruct (last records) as [lst|] eqn:El; [|done].
  apply rbind_ok in H as (numbers & _ & H). apply rbind_ok in H as (source & _ & [= <-]). exists records, lst. done.
Qed.

(** C16: The digest of the last record pins the whole history: if the audits of two directories report the same
    [history_head_sha256], the directories hold the same records in files with the same bytes, or the two histories
    exhibit a collision of the digest: a record of one and a record of the other, followed by the same records
    up to the end, whose digested bodies are different texts with the same digest (for records whose prices read
    back from their printed digits). *)
Theorem history_head_pins dir1 dir2 cadence1 jitter1 cadence2 jitter2 previous1 previous2 a1 a2 records1 records2 :
  audit_history dir1 cadence1 jitter1 previous1 = Ok a1 -> audit_history dir2 cadence2 jitter2 previous2 = Ok a2 ->
  load_history dir1 (Some cadence1) (Some jitter1) previous1 = Ok records1 -> load_history dir2 (Some cadence2) (Some jitter2) previous2 = Ok records2 ->
  get a1 "history_head_sha256" = get a2 "history_head_sha256" -> Forall exact_numbers records1 -> Forall exact_numbers records2 ->
  collision records1 records2 \/ (records1 = records2 /\ forall n, 1 <= n <= Z.of_nat (length records1) -> dget (record_name n) dir1 = dget (record_name n) dir2).
Proof.
  intros A1 A2 L1 L2 E X1 X2. apply audit_head in A1 as (r1 & l1 & R1 & H1 & E1), A2 as (r2 & l2 & R2 & H2 & E2). rewrite E1, E2 in E. rewrite L1 in R1. rewrite L2 in R2.
  injection R1 as <-. injection R2 as <-. unfold load_history in L1, L2. apply rbind_ok in L1 as (g1 & _ & L1), L2 as (g2 & _ & L2).
  apply rbind_ok in L1 as (st1 & L1 & [= <-]), L2 as (st2 & L2 & [= <-]). apply scan_history_ok in L1 as [C1 _], L2 as [C2 _].
  rewrite fmap_last in H1, H2. apply fmap_Some in H1 as ([r1 c1] & H1 & ->), H2 as ([r2 c2] & H2 & ->). rewrite Forall_map in X1, X2. rewrite Forall_forall in X1, X2.
  destruct (chains_pinned _ _ _ _ _ _ _ _ _ _ C1 C2 X1 X2 _ _ _ _ H1 H2 E) as [?| <-]; [by left|]. right. split; [done|]. rewrite length_map. intros n Hn.
  destruct (lookup_lt_is_Some_2 st1 (Z.to_nat (n - 1))) as [[r c] Hr]; [lia|].
  pose proof (p_file _ _ _ _ _ (ch_placed _ _ _ _ _ C1 _ _ _ Hr)) as F1. pose proof (p_file _ _ _ _ _ (ch_placed _ _ _ _ _ C2 _ _ _ Hr)) as F2.
  replace (Z.of_nat (Z.to_nat (n - 1)) + 1) with n in F1, F2 by lia. congruence.
Qed.

(** ** A crash while a record is published *)

(** A name that is neither the head nor a record. *)
Definition foreign (name : string) : bool :=
  negb (bool_decide (name = HEAD_NAME)) && negb (bool_decide (name = HEAD_PENDING_NAME)) && negb (is_legacy_name name) && match record_number name with None => true | Some _ => false end.

Lemma temporary_foreign n random : foreign (temporary (record_name n) random) = true.
Proof. unfold foreign, temporary, record_name. by rewrite !bool_decide_false by done. Qed.

Definition refused {A} (m : res A) : Prop := exists reason, m = Raise (history_error reason).
Lemma refused_bind {A B} (m : res A) (k : A -> res B) : refused m -> refused (rbind m k).
Proof. intros (reason & ->). by exists reason. Qed.

Lemma list_foreign dir name : In name (map fst dir) -> foreign name = true -> refused (list_records dir).
Proof.
  intros Hin Hf. unfold list_records. apply refused_bind. generalize (@nil (Z * string)) as l. induction dir as [|[k f] dir IH]; [done|]. intros l. cbn [rfold].
  destruct Hin as [<-|Hin].
  - apply refused_bind. unfold foreign in Hf. unfold list_entry. cbn [fst] in *. destruct (bool_decide (k = HEAD_NAME)), (bool_decide (k = HEAD_PENDING_NAME)), (is_legacy_name k), (record_number k); try done.
    by eexists.
  - unfold list_entry at 1. cbn [fst]. destruct (bool_decide (k = HEAD_NAME) || bool_decide (k = HEAD_PENDING_NAME)); [by apply IH|]. destruct (is_legacy_name k); [by eexists|].
    destruct (record_number k); [by apply IH|by eexists].
Qed.

(** Neither the audit nor the recovery gets past a foreign name, and nothing is changed. *)
Definition stuck (dir : Directory) : Prop :=
  (forall cadence jitter previous, exists e, load_history dir cadence jitter previous = Raise e) /\
  (forall cadence jitter guard, exists e, recover_history_head cadence jitter guard dir = ([], dir, Raise e)).

Lemma foreign_stuck dir name : dhas name dir = true -> foreign name = true -> stuck dir.
Proof.
  intros Hd Hf. apply dhas_In in Hd. destruct (list_foreign dir name Hd Hf) as (reason & Hl).
  assert (Hs : forall c j require segment, scan_history dir c j require segment = Raise (history_error reason)) by (intros; unfold scan_history; by rewrite Hl).
  split.
  - intros cadence jitter previous. unfold load_history. destruct (previous_segment_record previous cadence jitter) as [segment|e]; cbn [rbind]; [rewrite Hs; by eexists|by exists e].
  - intros cadence jitter guard. unfold recover_history_head, bind, lift, look. destruct (validate_cadence cadence jitter) as [cj|e]; [|by exists e].
    destruct (validate_storage_guard _ _) as [g|e]; [|by exists e]. rewrite Hs. by eexists.
Qed.

Lemma dhas_dset_same {V} k (v : V) (d : list (string * V)) : dhas k (dset k v d) = true.
Proof. unfold dhas. by rewrite dget_dset_eq. Qed.
Lemma dhas_dset_other {V} k k' (v : V) (d : list (string * V)) : dhas k d = true -> dhas k (dset k' v d) = true.
Proof. unfold dhas. rewrite dget_dset. by destruct (decide (k = k')). Qed.

Lemma plan_duplicate s dir g r : plan_append s dir g = Ok (Duplicate r) -> get r "status" = VStr "duplicate".
Proof.
  unfold plan_append. intros H. apply rbind_ok in H as (fast & _ & H). apply rbind_ok in H as (n & _ & H).
  destruct fast as [t|]; [destruct (py_eq (get (t_last t) "snapshot_body_sha256") _)|]; [apply when_ok in H as [_ [= <-]]; done|by open_checks H..].
Qed.

(** C18: A crash while a record is published blocks its history: an append that writes passes, before anything
    else, through three directories in which the temporary file of the record is listed, and in each of them the
    full audit and the recovery of the head both fail, with any arguments, and change nothing. *)
Theorem publish_crash_stuck q dir states dir' result :
  append_snapshot q dir = (states, dir', Ok result) -> get result "status" = VStr "appended" ->
  exists d1 d2 d3 rest, states = d1 :: d2 :: d3 :: rest /\ stuck d1 /\ stuck d2 /\ stuck d3.
Proof.
  unfold append_snapshot, bind at 1, lift at 1. destruct (load_sources q) as [s|]; [|done]. unfold bind at 1, look at 1, bind at 1, lift at 1.
  destruct (plan_append s dir (q_storage q)) as [[r|record contents head text hr rr v]|] eqn:Ep; [|..|done].
  { intros [= <- <- <-] Hr. apply plan_duplicate in Ep. congruence. }
  unfold bind at 1, atomic_publish, bind, change, look. set (temp := temporary _ _). pose proof (temporary_foreign (iget record "sequence") (q_random q)) as Hf. fold temp in Hf.
  destruct (dhas (record_name _) _) eqn:Eh; [done|]. destruct (atomic_replace_head _ _) as [[ws w] [u|]]; [|done]. intros [= <- <- <-] _. do 4 eexists. split; [reflexivity|].
  split; [|split]; apply (foreign_stuck _ temp); try done; [apply dhas_dset_same..|apply dhas_dset_other, dhas_dset_same].
Qed.

(** ** A head that was written is read back *)

Hypothesis digest_size : forall data, slen (digest data) = 64.

Lemma bytes_digest b : is_digest (digest_bytes b) = true.
Proof. unfold is_digest, digest_bytes. rewrite slen_app, digest_size. simpl. apply digest_hex. Qed.

Lemma integer_of z reason lo hi : match lo with Some m => m <= z | None => True end -> match hi with Some m => z <= m | None => True end -> integer (VInt z) reason lo hi = Ok z.
Proof. intros Hl Hu. unfold integer, require_int, below, above. destruct lo, hi; rewrite ?(proj2 (Z.ltb_ge _ _)) by lia; done. Qed.
Lemma a_digest_of s reason : is_digest s = true -> a_digest (VStr s) reason = Ok s.
Proof. intros H. unfold a_digest, require_digest. by rewrite H. Qed.

Definition digest_value (v : value) : Prop := exists s, v = VStr s /\ is_digest s = true.
Lemma digest_plain v : digest_value v -> plain v = true.
Proof. intros (s & -> & H). apply plain_text. by apply digest_text_utf8. Qed.

Lemma record_name_ascii n : 0 <= n -> utf8_ok (record_name n) = true.
Proof.
  intros Hn. unfold record_name. apply ascii_utf8. rewrite !sforall_app. destruct (digits_spec n Hn) as (Hd & _). cbn [sforall andb]. rewrite andb_true_r.
  assert (sforall is_ascii (srepeat "0" (Z.to_nat (20 - slen (digits n)))) = true) as -> by (generalize (Z.to_nat (20 - slen (digits n))) as k; induction k; done).
  simpl. rewrite andb_true_r. eapply sforall_impl; [|exact Hd]. intros c Hc. unfold is_digit in Hc. unfold is_ascii. lia.
Qed.

Section head.
Context (count bytes cursor : Z) (first expected : value) (lst : dict) (contents : string) (head : dict) (text : string).
Hypothesis Hcount : 1 <= count <= MAX_HISTORY_RECORDS.
Hypothesis Hbytes : 1 <= bytes <= MAXIMUM_STORAGE_GUARD_BYTES.
Hypothesis Hcursor : 1 <= cursor <= count.
Hypothesis Hfirst : digest_value first.
Hypothesis Hexpected : if cursor =? 1 then expected = VNone else digest_value expected.
Hypothesis Hsources : forall k, In k ["record_sha256"; "snapshot_body_sha256"; "snapshot_file_sha256"] -> digest_value (get lst k).
Hypothesis Hprevious : if count =? 1 then get lst "previous_record_sha256" = VNone else digest_value (get lst "previous_record_sha256").
Hypothesis Hcadence : exists cj, validate_cadence (get lst "cadence_ms") (get lst "maximum_jitter_ms") = Ok cj.
Hypothesis Hhead : make_head count bytes first lst contents cursor expected = Ok head.
Hypothesis Htext : canonical (VDict head) = Ok text.
Hypothesis Hsize : slen text <= MAX_DOCUMENT_BYTES.

Lemma head_flat : flat head.
Proof.
  unfold make_head in Hhead. apply rbind_ok in Hhead as (d & Hd & [= <-]). apply rbind_ok in Hd as (b & _ & [= <-]).
  split; [apply NoDup_ListNoDup; by apply (bool_decide_unpack _); vm_compute|]. destruct Hcadence as (cj & Hv). unfold validate_cadence in Hv.
  apply rbind_ok in Hv as (c & Hc & Hv). apply rbind_ok in Hv as (j & Hj & _). apply integer_ok in Hc as [Hc _], Hj as [Hj _].
  assert (P : forall v, v = VNone \/ digest_value v -> plain v = true) by (intros v [->|Hv']; [done|by apply digest_plain]).
  intros k v Hin. cbn [app In] in Hin. repeat (destruct Hin as [[= <- <-]|Hin]; [split; [done|]|]); [..|done]; try done;
    try (apply P; first [right; by apply Hsources; simpl; tauto|by right|right; eexists; split; [reflexivity|apply bytes_digest]]).
  - apply record_name_ascii. lia.
  - apply P. destruct (count =? 1); auto.
  - by rewrite Hc.
  - by rewrite Hj.
  - apply P. destruct (cursor =? 1); auto.
Qed.

Lemma flat_body k v d : flat (d ++ [(k, v)]) -> flat d.
Proof.
  intros [Hn Hm]. split; [rewrite map_app in Hn; by apply List.NoDup_app_remove_r in Hn|]. intros k' v' Hin. apply Hm, in_app_iff. by left.
Qed.
Lemma flat_canonical d d' b : Permutation d d' -> flat d -> canonical (VDict d) = Ok b -> canonical (VDict d') = Ok b.
Proof.
  intros Hp Hf H. destruct (canonical_text _ _ H) as (t & Ht & -> & _). unfold canonical, canonical_bytes. rewrite flat_floats by (by eapply flat_perm).
  by rewrite (flat_dumps _ _ _ Hp Hf Ht).
Qed.

Lemma head_validates d : Permutation d head -> validate_head d = Ok d.
Proof.
  intros Hp. pose proof head_flat as Hf. assert (Hfd : flat d) by (eapply flat_perm; [by symmetry|done]).
  assert (G : forall k, dget k d = dget k head) by (intros k; apply dget_perm; [done|apply Hfd]).
  unfold make_head in Hhead. apply rbind_ok in Hhead as (s & Hs & E). apply rbind_ok in Hs as (b & Hb & [= <-]). injection E as E.
  assert (K : forall k v, dget k head = Some v -> get d k = v) by (intros k v Hk; unfold get, getd, dget_or; by rewrite G, Hk).
  unfold validate_head, exact, require_exact_fields.
  assert (exact_fields d HEAD_FIELDS = true) as ->.
  { apply (exact_fields_keys head); [|by rewrite <- E]. intros k. split; intros Hk; eapply Permutation_in; [|exact Hk| |exact Hk]; by apply Permutation_map. }
  cbn [negb as_history rbind].
  rewrite (K "schema" (VStr HEAD_SCHEMA)), (K "version" (VInt 1)), (K "record_schema" (VStr RECORD_SCHEMA)), (K "record_count" (VInt count)), (K "history_record_bytes" (VInt bytes)),
    (K "last_previous_record_sha256" (get lst "previous_record_sha256")), (K "last_record_name" (VStr (record_name count))), (K "cadence_ms" (get lst "cadence_ms")),
    (K "maximum_jitter_ms" (get lst "maximum_jitter_ms")), (K "audit_cursor_sequence" (VInt cursor)), (K "audit_expected_previous_sha256" expected) by (by rewrite <- E).
  rewrite !eq_str_refl. change (eq_int (VInt 1) 1) with true. cbn [negb orb]. rewrite !integer_of by (cbn; lia). cbn [rbind]. unfold each. cbn [rfold].
  rewrite (K "first_record_sha256" first), (K "last_record_sha256" (get lst "record_sha256")), (K "last_record_file_sha256" (VStr (digest_bytes contents))),
    (K "last_snapshot_body_sha256" (get lst "snapshot_body_sha256")), (K "last_snapshot_file_sha256" (get lst "snapshot_file_sha256")) by (by rewrite <- E).
  destruct Hfirst as (s1 & -> & D1). destruct (Hsources "record_sha256") as (s2 & -> & D2); [simpl; tauto|]. destruct (Hsources "snapshot_body_sha256") as (s3 & -> & D3); [simpl; tauto|].
  destruct (Hsources "snapshot_file_sha256") as (s4 & -> & D4); [simpl; tauto|]. rewrite !a_digest_of by (done || apply bytes_digest). cbn [rbind].
  destruct Hcadence as (cj & ->).
  assert (forall e, (if count =? 1 then when negb (is_none (get lst "previous_record_sha256")) raise e in Ok EmptyString else a_digest (get lst "previous_record_sha256") "MARKET_HISTORY_HEAD_CHAIN_INVALID") =
      Ok (if count =? 1 then EmptyString else text_of (get lst "previous_record_sha256"))) as ->.
  { intros e. destruct (count =? 1); [by rewrite Hprevious|]. destruct Hprevious as (x & -> & Dx). by apply a_digest_of. }
  cbn [rbind]. rewrite eq_str_refl. cbn [negb]. rewrite integer_of by (cbn; lia). cbn [rbind].
  assert (forall e, (if cursor =? 1 then when negb (is_none expected) raise e in Ok EmptyString else a_digest expected "MARKET_HISTORY_HEAD_AUDIT_CURSOR_INVALID") =
      Ok (if cursor =? 1 then EmptyString else text_of expected)) as ->.
  { intros e. destruct (cursor =? 1); [by rewrite Hexpected|]. destruct Hexpected as (x & -> & Dx). by apply a_digest_of. }
  cbn [rbind]. unfold claimed_body. rewrite (K "body_sha256" (VStr (digest_bytes b))) by (by rewrite <- E). rewrite a_digest_of by apply bytes_digest. cbn [rbind]. unfold digest_of.
  assert (exists body, canonical (VDict body) = Ok b /\ head = body ++ [("body_sha256", VStr (digest_bytes b))]) as (body & Hbody & Eb) by (eexists; split; [exact Hb|by rewrite <- E]).
  rewrite (flat_canonical body (dpop "body_sha256" d) b); [cbn [rbind]; by rewrite bool_decide_true| |apply (flat_body "body_sha256" (VStr (digest_bytes b))); by rewrite <- Eb|done].
  apply (Permutation_app_inv_r [("body_sha256", VStr (digest_bytes b))]). rewrite <- Eb, <- Hp. symmetry. apply dpop_perm; [apply Hfd|]. by rewrite G, <- E.
Qed.

Lemma head_loads dir : dget HEAD_NAME dir = Some (mkFile text 1) -> exists d, load_head dir = Ok (d, text) /\ Permutation d head.
Proof.
  intros Hd. destruct (canonical_text _ _ Htext) as (t & Ht & Et & _).
  destruct (flat_reads_back unique_members no_constant head t newline (unique_with_distinct _) head_flat Ht (or_intror eq_refl)) as (d & Hl & Hp & Ha). exists d. split; [|done].
  unfold load_head, load_canonical. rewrite Hd. cbn [f_links f_bytes]. rewrite Z.eqb_refl, (proj2 (Z.ltb_ge _ _) Hsize). cbn [negb orb].
  assert (sforall is_ascii text = true) as -> by (by rewrite Et, sforall_app, Ha). cbn [negb]. rewrite <- Et in Hl. rewrite Hl. rewrite (flat_canonical head d _ (Permutation_sym Hp) head_flat Htext). cbn [rbind]. rewrite bool_decide_true by done. cbn [negb rbind fst snd]. by rewrite (head_validates d Hp).
Qed.
End head.

(** ** The recovery *)

Lemma bind_ok {S A B} (m : act S A) (k : A -> act S B) w ws w' b : bind m k w = (ws, w', Ok b) ->
  exists ws1 w1 a ws2, m w = (ws1, w1, Ok a) /\ k a w1 = (ws2, w', Ok b) /\ ws = ws1 ++ ws2.
Proof. unfold bind. destruct (m w) as [[ws1 w1] [a|e]]; [|done]. destruct (k a w1) as [[ws2 w2] r] eqn:E. intros [= <- <- ->]. eauto 10. Qed.
Lemma lift_ok {S A} (m : res A) (w : S) ws w' a : lift m w = (ws, w', Ok a) -> m = Ok a /\ w' = w /\ ws = [].
Proof. unfold lift. by intros [= <- <- ->]. Qed.

Definition head_entry (name : string) : bool := bool_decide (name = HEAD_NAME) || bool_decide (name = HEAD_PENDING_NAME).
(** The files of a directory but the head and the pending head. *)
Definition record_files (dir : Directory) : Directory := List.filter (fun e => negb (head_entry e.1)) dir.

Lemma record_files_dset k v dir : head_entry k = true -> record_files (dset k v dir) = record_files dir.
Proof.
  intros Hk. induction dir as [|[k' v'] dir IH]; simpl; [by rewrite Hk|]. destruct (decide (k = k')) as [<-|Hne]; simpl; [by rewrite Hk|]. by rewrite IH.
Qed.
Lemma record_files_dpop k dir : head_entry k = true -> record_files (dpop k dir) = record_files dir.
Proof. intros Hk. induction dir as [|[k' v'] dir IH]; simpl; [done|]. destruct (decide (k = k')) as [<-|Hne]; simpl; [by rewrite Hk|]. by rewrite IH. Qed.
Lemma dget_record_files name dir : head_entry name = false -> dget name (record_files dir) = dget name dir.
Proof.
  intros Hn. induction dir as [|[k v] dir IH]; simpl; [done|]. destruct (decide (name = k)) as [<-|Hne]; [rewrite Hn; simpl; by rewrite decide_True|].
  destruct (head_entry k); simpl; [done|]. by rewrite decide_False.
Qed.

Lemma list_records_files dir : list_records dir = list_records (record_files dir).
Proof.
  unfold list_records, record_files. rewrite <- (rfold_skip list_entry (fun e => head_entry e.1) dir); [done|]. intros a [k f] Hk. unfold list_entry. cbn [fst] in *. fold (head_entry k). by rewrite Hk.
Qed.
Lemma listed_number dir l : list_records dir = Ok l -> forall e, In e l -> head_entry e.2 = false.
Proof.
  unfold list_records. intros H e He. apply rbind_ok in H as (l0 & Hl & H). apply when_ok in H as [_ [= <-]]. unfold sorted_key in He. apply sorted_by_In in He.
  revert e He. apply (rfold_inv (fun l => forall e, In e l -> head_entry e.2 = false) list_entry dir [] l0); [|done|done]. intros a [k f] a' _ IH Ha e He.
  unfold list_entry in Ha. cbn [fst] in Ha. fold (head_entry k) in Ha. destruct (head_entry k) eqn:Ek; [injection Ha as <-; auto|]. apply when_ok in Ha as [_ Ha].
  destruct (record_number k); [|done]. injection Ha as <-. apply in_app_iff in He as [He|[<-|[]]]; [auto|done].
Qed.

Lemma rfold_ext_in {A B} (f g : A -> B -> res A) l : (forall a x, In x l -> f a x = g a x) -> forall a, rfold f l a = rfold g l a.
Proof. induction l as [|x l IH]; intros H a; simpl; [done|]. rewrite H by (by left). destruct (g a x); [|done]. apply IH. intros; apply H. by right. Qed.

Lemma enumerated_In {A} (l : list A) : forall n e, In e (enumerate n l) -> In e.2 l.
Proof. induction l as [|x l IH]; intros n e He; [done|]. destruct He as [<-|He]; [by left|]. right. by apply (IH (n + 1)). Qed.

(** A scan looks at the records only. *)
Lemma scan_same dir dir' cadence jitter segment : record_files dir' = record_files dir ->
  scan_history dir' cadence jitter false segment = scan_history dir cadence jitter false segment.
Proof.
  intros E. unfold scan_history. rewrite (list_records_files dir'), E, <- list_records_files. destruct (list_records dir) as [l|] eqn:El; [|done]. cbn [rbind].
  f_equal. apply rfold_ext_in. intros a [n [k name]] Hin. apply enumerated_In in Hin. pose proof (listed_number _ _ El _ Hin) as Hn. cbn [snd] in Hn.
  assert (Ed : dget name dir' = dget name dir) by (by rewrite <- (dget_record_files name dir' Hn), E, dget_record_files). unfold scan_record. by rewrite Ed.
Qed.

Lemma recovery_unlink_ok name dir states dir' : recovery_unlink name dir = (states, dir', Ok tt) -> dir' = dpop name dir /\ forall d, In d states -> d = dir'.
Proof.
  unfold recovery_unlink. intros H. apply bind_ok in H as (ws1 & w1 & o & ws2 & Hl & H & ->). injection Hl as <- <- <-. destruct (dget name dir) as [f|] eqn:E.
  - apply bind_ok in H as (ws1 & w1 & [] & ws3 & H1 & H & ->). apply lift_ok in H1 as (_ & -> & ->). injection H as <- <-. split; [done|]. by intros d [<-|[]].
  - apply lift_ok in H as (_ & -> & ->). split; [|done]. symmetry. clear -E. induction dir as [|[k v] dir IH]; [done|]. simpl in *. destruct (decide (name = k)); [done|]. by rewrite IH.
Qed.

Lemma replace_head_ok text dir states dir' : atomic_replace_head text dir = (states, dir', Ok tt) ->
  dhas HEAD_PENDING_NAME dir = false /\ record_files dir' = record_files dir /\ dget HEAD_NAME dir' = Some (mkFile text 1) /\ (forall d, In d states -> record_files d = record_files dir) /\
  (List.NoDup (map fst dir) -> dhas HEAD_PENDING_NAME dir' = false).
Proof.
  unfold atomic_replace_head, bind, look, change, lift. destruct (dhas HEAD_PENDING_NAME dir) eqn:E; [done|]. intros [= <- <-]. split; [done|]. split; [|split; [|split]].
  - by rewrite record_files_dset, record_files_dpop, !record_files_dset.
  - apply dget_dset_eq.
  - intros d Hd. cbn [app In] in Hd. destruct Hd as [<-|[<-|[<-|[]]]]; rewrite ?record_files_dset, ?record_files_dpop, ?record_files_dset by done; done.
  - intros Hn. unfold dhas. rewrite dget_dset_ne by done. rewrite dget_dpop by (by apply dset_NoDup, dset_NoDup). by rewrite decide_True.
Qed.

Section written.
Context (dir : Directory) (cadence jitter : option Z) (segment : option dict) (st : list (dict * string)).
Hypothesis Hchain : chain dir cadence jitter segment st.

Lemma placed_sources i r c : st !! i = Some (r, c) ->
  (forall k, In k ["record_sha256"; "snapshot_body_sha256"; "snapshot_file_sha256"] -> digest_value (get r k)) /\
  exists cj, validate_cadence (get r "cadence_ms") (get r "maximum_jitter_ms") = Ok cj.
Proof.
  intros Hi. destruct (ch_placed _ _ _ _ _ Hchain _ _ _ Hi) as [_ _ _ _ _ (s & Hs & Hd & _) (previous & Hv)]. apply validate_record_ok in Hv as (_ & _ & V1 & V2 & _).
  unfold check_chain in V1. apply when_ok in V1 as [_ V1]. apply rbind_ok in V1 as (cj & Hcj & _). split; [|by exists cj]. unfold check_authority in V2.
  apply rbind_ok in V2 as (s1 & H1 & V2). apply rbind_ok in V2 as (s2 & H2 & _). apply digest_field_ok in H1, H2. intros k [<-|[<-|[<-|[]]]]; [by exists s|by exists s1|by exists s2].
Qed.

Lemma before_value i x : st !! i = Some x -> if Z.of_nat i + 1 =? 1 then before st i = VNone else digest_value (before st i).
Proof.
  intros Hi. destruct (chain_before _ _ _ _ _ _ _ Hchain Hi) as [[-> ?]|(j & [y c] & -> & Hy & ->)]; [done|]. rewrite (proj2 (Z.eqb_neq _ _)) by lia.
  apply (proj1 (placed_sources _ _ _ Hy)). by left.
Qed.

Lemma placed_size i r c : st !! i = Some (r, c) -> 1 <= slen c.
Proof.
  intros Hi. pose proof (h_text _ _ (p_holds _ _ _ _ _ (ch_placed _ _ _ _ _ Hchain _ _ _ Hi))) as Ht. destruct (canonical_text _ _ Ht) as (t & _ & E & _). cbn [f_bytes] in E.
  subst c. rewrite slen_app. pose proof (slen_nonneg t). simpl. lia.
Qed.

Lemma record_bytes_pos first fc l : st = (first, fc) :: l -> 1 <= record_bytes st.
Proof.
  intros E. pose proof (placed_size 0 first fc) as H. rewrite E in H |- *. specialize (H eq_refl). unfold record_bytes. cbn [map zsum snd].
  assert (Hn : forall l : list (dict * string), 0 <= zsum (map (fun rc => slen rc.2) l)) by (induction l0 as [|x l0 IH]; simpl; [lia|pose proof (slen_nonneg x.2); lia]).
  specialize (Hn l). simpl. lia.
Qed.

Lemma head_equal d head : Permutation d head -> flat head -> py_eq (VDict d) (VDict head) = true.
Proof.
  intros Hp Hf. apply py_eq_dict. split; [by apply Permutation_length|]. apply List.Forall_forall. intros [k v] Hin. apply (Permutation_in _ Hp) in Hin. exists v. cbn [fst snd].
  split; [by apply dget_of_In; [apply Hf|]|]. destruct (proj2 Hf k v Hin) as [_ Hv]. apply andb_prop in Hv as [Hv _]. destruct v; try done; simpl; [by destruct b|apply Z.eqb_refl|by apply bool_decide_eq_true].
Qed.

(** A head that the records of a chain make passes the check of the head. *)
Lemma check_head_written dir' first fc l lst c cursor x head text : st = (first, fc) :: l -> last st = Some (lst, c) -> st !! Z.to_nat (cursor - 1) = Some x -> 1 <= cursor ->
  Z.of_nat (length st) <= MAX_HISTORY_RECORDS -> record_bytes st <= MAXIMUM_STORAGE_GUARD_BYTES ->
  make_head (Z.of_nat (length st)) (record_bytes st) (get first "record_sha256") lst c cursor (before st (Z.to_nat (cursor - 1))) = Ok head -> canonical (VDict head) = Ok text ->
  slen text <= MAX_DOCUMENT_BYTES -> dget HEAD_NAME dir' = Some (mkFile text 1) -> dhas HEAD_PENDING_NAME dir' = false -> check_head dir' st = Ok tt.
Proof.
  intros Es El Hx Hc1 Hmax Hb Hhead Htext Hsize Hfile Hpend. pose proof (last_lookup st) as Ll. rewrite El in Ll. symmetry in Ll. assert (Hlen : (0 < length st)%nat) by (rewrite Es; simpl; lia).
  assert (Hcur : 1 <= cursor <= Z.of_nat (length st)) by (apply lookup_lt_Some in Hx; lia). destruct (placed_sources _ _ _ Ll) as [Hs Hcad].
  assert (H0 : st !! 0%nat = Some (first, fc)) by (by rewrite Es). pose proof (proj1 (placed_sources _ _ _ H0) "record_sha256" ltac:(by left)) as Hf.
  pose proof (before_value _ _ Hx) as He. replace (Z.of_nat (Z.to_nat (cursor - 1)) + 1) with cursor in He by lia.
  pose proof (before_value _ _ Ll) as Hp. replace (Z.of_nat (pred (length st)) + 1) with (Z.of_nat (length st)) in Hp by lia. rewrite <- (p_previous _ _ _ _ _ (ch_placed _ _ _ _ _ Hchain _ _ _ Ll)) in Hp.
  pose proof (record_bytes_pos _ _ _ Es) as Hb1.
  destruct (head_loads (Z.of_nat (length st)) (record_bytes st) cursor (get first "record_sha256") (before st (Z.to_nat (cursor - 1))) lst c head text ltac:(lia) ltac:(lia) Hcur Hf He Hs Hp Hcad Hhead Htext Hsize dir' Hfile) as (d & Hd & Hperm).
  assert (Hflat : flat head) by (by eapply (head_flat (Z.of_nat (length st)) (record_bytes st) cursor (get first "record_sha256") (before st (Z.to_nat (cursor - 1))) lst c head text); try done; lia).
  assert (Hflatd : flat d) by (eapply flat_perm; [by symmetry|done]).
  unfold check_head. rewrite Hpend, Es, <- Es, El. unfold dhas. rewrite Hfile. cbn [negb]. rewrite Hd. cbn [rbind fst].
  assert (G : forall k v, dget k head = Some v -> get d k = v) by (intros k v Hk; unfold get, getd, dget_or; by rewrite (dget_perm _ _ k Hperm (proj1 Hflatd)), Hk).
  pose proof Hhead as Hh. apply rbind_ok in Hh as (dg & _ & [= Eh]).
  assert (iget d "audit_cursor_sequence" = cursor) as -> by (unfold iget; by rewrite (G _ (VInt cursor)) by (by rewrite <- Eh)).
  rewrite (G "audit_expected_previous_sha256" (before st (Z.to_nat (cursor - 1)))) by (by rewrite <- Eh). rewrite Hhead. cbn [rbind]. rewrite (head_equal d head Hperm Hflat). cbn [negb].
  rewrite Hx. destruct x as [r rc]. rewrite (p_previous _ _ _ _ _ (ch_placed _ _ _ _ _ Hchain _ _ _ Hx)).
  assert (py_eq (before st (Z.to_nat (cursor - 1))) (before st (Z.to_nat (cursor - 1))) = true) as ->; [|done].
  destruct (cursor =? 1); [by rewrite He|]. destruct He as (s & -> & _). by apply bool_decide_eq_true.
Qed.
End written.

Lemma guard_ok current incoming head maximum free available : guard_history_capacity current incoming head maximum free available = Ok tt -> current + incoming + head <= maximum.
Proof. unfold guard_history_capacity. intros H. apply when_ok in H as [H _]. lia. Qed.
Lemma storage_ok m f g : validate_storage_guard m f = Ok g -> g.1 <= MAXIMUM_STORAGE_GUARD_BYTES.
Proof. unfold validate_storage_guard. intros H. apply rbind_ok in H as (x & Hx & H). apply rbind_ok in H as (y & _ & [= <-]). apply integer_ok in Hx as (_ & _ & Hu). by apply Hu. Qed.

(** The head that a recovery writes, or its absence, is the one of the records. *)
Lemma rebuild_head_ok c j maximum free available dir st states dir' result : List.NoDup (map fst dir) -> scan_history dir c j false None = Ok st ->
  maximum <= MAXIMUM_STORAGE_GUARD_BYTES -> rebuild_head st maximum free available (dpop HEAD_PENDING_NAME dir) = (states, dir', Ok result) ->
  iget result "history_index_bytes" <= MAX_DOCUMENT_BYTES ->
  get result "record_count" = VInt (Z.of_nat (length st)) /\ check_head dir' st = Ok tt /\ record_files dir' = record_files dir /\ forall d, In d states -> record_files d = record_files dir.
Proof.
  intros Hn Hs Hg H Hi. unfold rebuild_head in H. pose proof Hs as Hsc. apply scan_history_ok in Hsc as (Hc & _ & Hmax & _).
  assert (Hrf : record_files (dpop HEAD_PENDING_NAME dir) = record_files dir) by (by apply record_files_dpop).
  destruct st as [|[first fc] l] eqn:Es.
  - apply bind_ok in H as (ws1 & w1 & [] & ws2 & H1 & H & ->). apply lift_ok in H as ([= <-] & -> & ->). apply recovery_unlink_ok in H1 as [-> Hd]. rewrite app_nil_r.
    assert (Hr : record_files (dpop HEAD_NAME (dpop HEAD_PENDING_NAME dir)) = record_files dir) by (by rewrite record_files_dpop). split; [done|]. split; [|split; [done|]].
    + unfold check_head, dhas. rewrite !dget_dpop by (by try apply dpop_NoDup). done.
    + intros d Hin. by rewrite (Hd d Hin).
  - rewrite <- Es in *. destruct (last st) as [[lst lc]|] eqn:El; [|by rewrite last_None, Es in El]. rewrite Es in H. rewrite <- Es in H.
    apply bind_ok in H as (ws1 & w1 & head & ws2 & H1 & H & ->). apply lift_ok in H1 as (Hhead & -> & ->). apply bind_ok in H as (ws1 & w1 & text & ws3 & H1 & H & ->). apply lift_ok in H1 as (Htext & -> & ->).
    apply bind_ok in H as (ws1 & w1 & [] & ws4 & H1 & H & ->). apply lift_ok in H1 as (Hguard & -> & ->). apply bind_ok in H as (ws1 & w1 & [] & ws5 & H1 & H & ->). apply lift_ok in H as ([= <-] & -> & ->).
    apply guard_ok in Hguard. pose proof (slen_nonneg text). apply replace_head_ok in H1 as (_ & Hr & Hf & Hd & Hp). cbn [app]. rewrite app_nil_r. split; [done|]. split; [|split; [by rewrite Hr|intros d Hin; by rewrite Hd]].
    refine (check_head_written dir _ _ _ st Hc w1 first fc l lst lc 1 (first, fc) head text Es El _ ltac:(lia) Hmax ltac:(lia) Hhead Htext _ Hf (Hp (dpop_NoDup _ _ Hn))); [by rewrite Es|exact Hi].
Qed.

(** C17: A recovery that succeeds restores the history: it writes nothing but the head, at no point a record, and
    the directory it leaves passes the full audit with exactly the records that were there. *)
Theorem recovery_restores cadence jitter guard dir states dir' result :
  List.NoDup (map fst dir) -> recover_history_head cadence jitter guard dir = (states, dir', Ok result) -> iget result "history_index_bytes" <= MAX_DOCUMENT_BYTES ->
  exists c j records, validate_cadence cadence jitter = Ok (c, j) /\ load_history dir' (Some c) (Some j) None = Ok records /\
    get result "record_count" = VInt (Z.of_nat (length records)) /\ record_files dir' = record_files dir /\ forall d, In d states -> record_files d = record_files dir.
Proof.
  intros Hn H Hi. unfold recover_history_head in H. apply bind_ok in H as (ws1 & w1 & [c j] & ws2 & H1 & H & ->). apply lift_ok in H1 as (Hcj & -> & ->).
  apply bind_ok in H as (ws1 & w1 & guard0 & ws3 & H1 & H & ->). apply lift_ok in H1 as (Hg & -> & ->). apply bind_ok in H as (ws1 & w1 & d & ws4 & H1 & H & ->). injection H1 as <- <- <-.
  apply bind_ok in H as (ws1 & w1 & st & ws5 & H1 & H & ->). apply lift_ok in H1 as (Hs & -> & ->). apply bind_ok in H as (ws1 & w1 & [] & ws6 & H1 & H & ->).
  apply recovery_unlink_ok in H1 as [-> Hd]. cbn [app].
  destruct (rebuild_head_ok _ _ _ _ _ dir st ws6 dir' result Hn Hs (storage_ok _ _ _ Hg) H Hi) as (Hr & Hh & Hf & Hin). exists c, j, (map fst st). split; [done|]. split.
  - unfold load_history. cbn [previous_segment_record rbind]. unfold scan_history. pose proof (scan_same dir dir' (Some c) (Some j) None Hf) as E. cbn [fst snd] in Hs. rewrite Hs in E. unfold scan_history in E.
    destruct (list_records dir') as [l|]; [|done]. cbn [rbind] in E |- *. destruct (rfold _ _ _) as [st'|]; [|done]. cbn [rbind] in E |- *. injection E as ->. by rewrite Hh.
  - rewrite length_map. split; [done|]. split; [done|]. intros d Hd'. apply in_app_iff in Hd' as [Hd'|Hd']; [|by apply Hin]. rewrite (Hd d Hd'). by apply record_files_dpop.
Qed.
End facts.

End HistoryFacts.

(** * Two snapshots

    Two snapshots are appended to an empty directory; the second append is interrupted after
    each of its visible changes. *)

Import StrategyScenario HistoryFacts.

Module HistoryScenario.

#[local] Existing Instance wide_digest.

Definition text_file (d : dict) : File := mkFile (ok EmptyString (canonical_bytes (VDict d))) 1.

Definition watch_snapshot (t bid ask : Z) : dict :=
  sealed_with "body_sha256"
  [("schema", VStr "hepta.shadow-watch-snapshot.v2"); ("version", VInt 2); ("domain_id", VStr "domain"); ("agent_uid", VInt 1001);
   ("collection_started_at_ms", VInt t); ("collection_finished_at_ms", VInt (t + 60)); ("generated_at_ms", VInt (t + 70));
   ("read_finished_at_ms", VDict (map (fun f => (f, VInt (t + 50))) READ_ORDER)); ("instrument", VStr "EUR.USD"); ("catalog_sha256", VStr (sha "catalog"));
   ("descriptor_sha256", descriptors);
   ("reads", VDict [("account.get_summary", VNone); ("portfolio.list_positions", VNone); ("orders.list", VNone); ("risk.get_limits", VNone);
      ("market.get_quote", VDict [("source", VStr "SIMULATOR"); ("authoritative", VBool true); ("stale", VBool false); ("instrument", VStr "EUR.USD");
         ("bid", VFloat (literal bid (-5))); ("ask", VFloat (literal ask (-5))); ("observed_at_ms", VInt t); ("stale_after_ms", VInt (t + 5000))]);
      ("system.get_health", VDict [("gateway_ready", VBool true); ("remote_execution", VBool true); ("remote_execution_configured", VBool true);
         ("remote_execution_ready", VBool true); ("execution_mode", VStr "SIMULATOR"); ("remote_execution_reason", VStr EmptyString);
         ("execution_service_epoch", VStr "epoch"); ("execution_service_fencing_generation", VInt 1)])]);
   ("paper_authorized", VBool false); ("live_authorized", VBool false); ("mutation_attempted", VBool false); ("direct_broker_access", VBool false)].
Definition lease_receipt : dict :=
  sealed_with "body_sha256"
  [("schema", VStr "hepta.shadow-watch-lease-receipt.v1"); ("version", VInt 1); ("domain_id", VStr "domain"); ("agent_id", VStr "domain");
   ("agent_uid", VInt 1001); ("boundary", VStr "WATCH"); ("operation", VStr "PROVISION"); ("lease_generation", VInt 1); ("previous_lease_generation", VNone);
   ("previous_receipt_body_sha256", VNone); ("accepted", VBool true); ("reason_code", VStr "OK"); ("accepted_at_ms", VInt 90000); ("ttl_seconds", VInt 3600);
   ("expires_at_ms", VInt 3690000); ("paper_authorized", VBool false); ("live_authorized", VBool false); ("mutation_authorized", VBool false)].
Definition export_receipt (snapshot : dict) : dict :=
  sealed_with "body_sha256"
  [("schema", VStr "hepta.shadow-watch-export-receipt.v1"); ("version", VInt 1); ("domain_id", VStr "domain"); ("agent_uid", VInt 1001); ("reader_uid", VInt 1002);
   ("reader_gid", VInt 1003); ("boundary", VStr "WATCH_EXPORT"); ("lease_generation", VInt 1); ("lease_receipt_body_sha256", get lease_receipt "body_sha256");
   ("lease_receipt_file_sha256", VStr (digest_bytes (f_bytes (text_file lease_receipt)))); ("snapshot_body_sha256", get snapshot "body_sha256");
   ("snapshot_file_sha256", VStr (digest_bytes (f_bytes (text_file snapshot)))); ("snapshot_generated_at_ms", get snapshot "generated_at_ms");
   ("exported_at_ms", VInt (iget snapshot "generated_at_ms" + 10)); ("paper_authorized", VBool false); ("live_authorized", VBool false);
   ("mutation_attempted", VBool false); ("direct_broker_access", VBool false)].

Definition storage : Storage := mkStorage (VInt 1000000) (VInt 0) 10000000.
Definition snapshot_request (t bid ask : Z) : Request :=
  let s := watch_snapshot t bid ask in
  mkRequest (text_file s) (text_file lease_receipt) (text_file (export_receipt s)) (mkReader 1002 1003 1003 1003) (VInt 10000) (VInt 1000) storage "x1y2" None.

Definition first_request := snapshot_request 100000 110000 110005.
Definition second_request := snapshot_request 110000 110010 110015.
Definition one : Directory := (append_snapshot first_request []).1.2.
Definition second := append_snapshot second_request one.
Definition two : Directory := second.1.2.
Definition records : list dict := ok [] (load_history two (Some 10000) (Some 1000) None).

Lemma second_appended : append_snapshot second_request one = (second.1.1, two, Ok (ok [] second.2)).
Proof. vm_compute. reflexivity. Qed.
Lemma two_loads : load_history two (Some 10000) (Some 1000) None = Ok records.
Proof. apply is_ok_eq. vm_compute. reflexivity. Qed.
Lemma two_records : length records = 2%nat.
Proof. vm_compute. reflexivity. Qed.

(** The history with both snapshots is a chain. *)
Lemma history_chain_sound_witness : exists segment st, records = map fst st /\ chain two (Some 10000) (Some 1000) segment st /\ indexed two st /\ length st = 2%nat.
Proof.
  destruct (history_chain_sound two (Some 10000) (Some 1000) None records two_loads) as (segment & st & _ & E & Hc & Hi & _). exists segment, st.
  split; [done|]. split; [done|]. split; [done|]. rewrite <- two_records, E. by rewrite length_map.
Defined.

(** The directory after the crash between the record and its head. *)
Definition headless : Directory := nth 3 second.1.1 [].
Definition repaired := recover_history_head (VInt 10000) (VInt 1000) storage headless.
Definition restored : Directory := repaired.1.2.

Lemma repaired_ok : recover_history_head (VInt 10000) (VInt 1000) storage headless = (repaired.1.1, restored, Ok (ok [] repaired.2)).
Proof. vm_compute. reflexivity. Qed.

(** The crash after the record was published is repaired. *)
Lemma recovery_restores_witness : exists c j rs, validate_cadence (VInt 10000) (VInt 1000) = Ok (c, j) /\ load_history restored (Some c) (Some j) None = Ok rs /\ VInt 2 = VInt (Z.of_nat (length rs)).
Proof.
  destruct (recovery_restores wide_size (VInt 10000) (VInt 1000) storage headless repaired.1.1 restored (ok [] repaired.2)) as (c & j & rs & Hv & Hl & Hn & _);
    [by apply NoDup_ListNoDup; apply (bool_decide_unpack _); vm_compute|apply repaired_ok|by vm_compute|]. exists c, j, rs. split; [done|]. split; [done|]. rewrite <- Hn. vm_compute. reflexivity.
Defined.

(** The crashes before are not. *)
Lemma publish_crash_stuck_witness : exists d1 d2 d3 rest, second.1.1 = d1 :: d2 :: d3 :: rest /\ stuck d1 /\ stuck d2 /\ stuck d3.
Proof. apply (publish_crash_stuck second_request one second.1.1 two (ok [] second.2)); [apply second_appended|]. vm_compute. reflexivity. Defined.

Definition audit_of (dir : Directory) : dict := ok [] (audit_history dir 10000 1000 None).

Lemma audits_two : audit_history two 10000 1000 None = Ok (audit_of two).
Proof. apply is_ok_eq. vm_compute. reflexivity. Qed.
Lemma audits_restored : audit_history restored 10000 1000 None = Ok (audit_of restored).
Proof. apply is_ok_eq. vm_compute. reflexivity. Qed.
Lemma audits_agree : get (audit_of two) "history_head_sha256" = get (audit_of restored) "history_head_sha256".
Proof. vm_compute. reflexivity. Qed.
Definition records_restored : list dict := ok [] (load_history restored (Some 10000) (Some 1000) None).
Lemma restored_loads : load_history restored (Some 10000) (Some 1000) None = Ok records_restored.
Proof. apply is_ok_eq. vm_compute. reflexivity. Qed.
Lemma exact_records l : forallb (fun r => floats_all exact_float (VDict r)) l = true -> Forall exact_numbers l.
Proof. intros H. rewrite forallb_forall in H. apply List.Forall_forall. exact H. Qed.

Lemma no_collision l : ~ collision l l.
Proof.
  intros (i & j & r1 & r2 & H1 & H2 & Hd & _ & b1 & b2 & B1 & B2 & Hn & _). pose proof (f_equal length Hd) as Hl. rewrite !length_drop in Hl.
  assert (i = j) as -> by (apply lookup_lt_Some in H1, H2; lia). congruence.
Qed.
Lemma same_no_collision : ~ collision records records_restored.
Proof. assert (records_restored = records) as -> by (vm_compute; reflexivity). apply no_collision. Qed.

(** The recovered directory has another head file and the same records, and no pair collides. *)
Lemma history_head_pins_witness :
  ~ collision records records_restored /\ (records = records_restored /\ forall n, 1 <= n <= Z.of_nat (length records) -> dget (record_name n) two = dget (record_name n) restored).
Proof.
  pose proof same_no_collision as Hn. split; [exact Hn|].
  destruct (history_head_pins two restored 10000 1000 10000 1000 None None (audit_of two) (audit_of restored) records records_restored audits_two audits_restored two_loads restored_loads audits_agree) as [H|H];
    [apply exact_records; vm_compute; reflexivity|apply exact_records; vm_compute; reflexivity|contradiction|exact H].
Defined.

End HistoryScenario.
