(* ===== verification/HistoryAppend.v ===== *)
(** * An append keeps the history

    A snapshot that was appended to a history which passes the full audit leaves a history
    that passes it too, with the same records and exactly one more. *)

From Stdlib Require Import Ascii QArith Floats.SpecFloat.
From S2P Require Import Prelude PyText PyValue RowMonad PyOrder PyBytes Digest PyJson PyJsonFacts PyJsonText PyFloat Contracts Strategy StrategyFacts StrategyEvidence StrategyEvidenceFacts StrategyRunnerFacts OmsVerifyFacts StrategyScenario History HistoryFacts.
From stdpp Require Import base tactics list strings sorting.
From Stdlib Require Import ZArith Lia Bool Sorted.
Import Contracts ContractsFile Strategy StrategyReceipt StrategyFacts StrategyEvidence StrategyMarks StrategyMarksFacts StrategyEvidenceFacts StrategyRunnerFacts History HistoryFacts.

Open Scope Z_scope.

Module HistoryAppend.

(** ** Documents that were read back *)

(** A value that is read back as itself. *)
Definition leaf (v : value) : bool := match v with VFloat f => exact_float f | _ => scalar v end.

Lemma like_leaf v w : like v w -> leaf v = true -> w = v.
Proof. destruct 1; try done. cbn [leaf]. intros Hx. by rewrite H. Qed.

Lemma like_leaves d d' : like (VDict d) (VDict d') -> (forall k v, In (k, v) d -> leaf v = true) -> Permutation d d'.
Proof.
  inversion 1 as [| | | | | |? ds ? Hp Hf]; subst. intros Hl. rewrite <- Hp. assert (Hds : forall k v, In (k, v) ds -> leaf v = true) by (intros k v Hin; apply (Hl k v); by eapply Permutation_in).
  clear -Hf Hds. enough (d' = ds) as -> by done. induction Hf as [|[k v] [k' v'] ds d' [Hk Hv] _ IH]; [done|]. simpl in Hk, Hv. subst k'.
  rewrite (like_leaf v v' Hv) by (apply (Hds k v); by left). rewrite IH; [done|]. intros k0 v0 Hin. apply (Hds k0 v0). by right.
Qed.

Lemma exact_float_finite f : exact_float f = true -> finite_float f = true.
Proof. unfold exact_float. intros H. by apply andb_prop in H as [H _]. Qed.

Lemma like_exact_floats v w : floats_all exact_float v = true -> like v w -> floats_all finite_float w = true.
Proof.
  revert w. induction v as [|b|z|f|d|t|l IH|d IH] using value_nested_ind; intros w Hx Hl; inversion Hl as [| | |? g Hg| |? l' Hll|? ds d' Hp Hf]; subst; try done.
  - cbn [floats_all] in *. rewrite (Hg Hx). by apply exact_float_finite.
  - cbn [floats_all] in *. clear Hl. induction Hll as [|x x' l l' Hxx _ IHl]; [done|]. cbn [forallb] in *. inversion IH; subst. apply andb_prop in Hx as [Hx1 Hx2]. apply andb_true_intro. split; auto.
  - cbn [floats_all] in *. rewrite forallb_forall in Hx. rewrite List.Forall_forall in IH.
    assert (Hds : forall kv, In kv ds -> forall w, like kv.2 w -> floats_all finite_float w = true) by (intros kv Hin w Hw; apply (Permutation_in _ Hp) in Hin; apply (IH kv Hin); auto).
    clear -Hf Hds. induction Hf as [|kv kv' ds d' [_ Hv] _ IHf]; [done|]. cbn [forallb]. apply andb_true_intro. split; [apply (Hds kv); [by left|done]|]. apply IHf. intros; eapply Hds; [by right|done].
Qed.

Lemma dpop_sub_perm k (d d' : dict) : List.NoDup (map fst d) -> Permutation d d' -> Permutation (dpop k d) (dpop k d').
Proof.
  intros Hn Hp. destruct (dget k d) as [v|] eqn:E.
  - apply (Permutation_app_inv_r [(k, v)]). rewrite (dpop_perm k v d Hn E), Hp at 1. symmetry. apply dpop_perm; [eapply Permutation_NoDup; [by apply Permutation_map|done]|].
    by rewrite <- (dget_perm d d' k Hp Hn).
  - assert (H : forall e : dict, dget k e = None -> dpop k e = e) by (clear; induction e as [|[k' v'] e IH]; simpl; [done|]; destruct (decide (k = k')); [done|intros; by rewrite IH]).
    rewrite (H d E), (H d'); [done|]. by rewrite <- (dget_perm d d' k Hp Hn).
Qed.

Lemma like_dpop k d d' : List.NoDup (map fst d) -> like (VDict d) (VDict d') -> like (VDict (dpop k d)) (VDict (dpop k d')).
Proof.
  intros Hn. inversion 1 as [| | | | | |? ds ? Hp Hf]; subst. apply (like_dict _ (dpop k ds)); [apply dpop_sub_perm; [|done]; eapply Permutation_NoDup; [by apply Permutation_map; symmetry|done]|].
  clear -Hf. induction Hf as [|[k1 v1] [k2 v2] ds d' [Hk Hv] Hf IH]; simpl in *; [done|]. subst k2. destruct (decide (k = k1)); [done|]. by constructor.
Qed.

Section append.
Context {D : Digest}.

(** ** A record that was written *)

(** Documents that differ in the order of their members and of the members of two of them. *)
Record alike (r r' : dict) : Prop := {
  al_field : forall k, k <> "quote" -> k <> "descriptor_sha256" -> get r' k = get r k;
  al_quote : exists q q', get r "quote" = VDict q /\ get r' "quote" = VDict q' /\ Permutation q q' /\ List.NoDup (map fst q);
  al_descriptors : exists d d', get r "descriptor_sha256" = VDict d /\ get r' "descriptor_sha256" = VDict d' /\ Permutation d d' /\ List.NoDup (map fst d) }.

Section written.
Context (r : dict) (c : string).
Hypothesis Hjson : json_ok (VDict r) = true.
Hypothesis Hexact : exact_numbers r.
Hypothesis Htext : canonical (VDict r) = Ok c.
Hypothesis Hsize : slen c <= MAX_DOCUMENT_BYTES.

Lemma record_reads_back : exists r', like (VDict r) (VDict r') /\ holds (mkFile c 1) r'.
Proof.
  destruct (canonical_text _ _ Htext) as (t & Ht & Ec & Hf).
  destruct (loads_dumps unique_members no_constant (unique_with_distinct _) false ltac:(done) (VDict r) t newline) as (v & Hv & Hl); [|done|done|by right|].
  { by apply finite_readable. }
  destruct (like_dict_inv _ _ Hl) as (r' & -> & _). exists r'. split; [done|]. split; cbn [f_links f_bytes]; [done|done| | |by rewrite Ec].
  { rewrite Ec, sforall_app, andb_true_r. eapply sforall_impl; [apply printable_ascii|]. by apply (dumps_printable (VDict r)). }
  unfold canonical, canonical_bytes. rewrite (like_exact_floats _ _ Hexact Hl), (dumps_like _ _ _ Hjson Hexact Ht Hl). by rewrite Ec.
Qed.
End written.

Lemma get_perm d d' k : Permutation d d' -> List.NoDup (map fst d) -> get d' k = get d k.
Proof. intros Hp Hn. unfold get, getd, dget_or. by rewrite (dget_perm d d' k Hp Hn). Qed.

Lemma alike_of_like r r' : json_ok (VDict r) = true -> like (VDict r) (VDict r') ->
  (forall k v, In (k, v) r -> k <> "quote" -> k <> "descriptor_sha256" -> scalar v = true) ->
  (exists q, get r "quote" = VDict q /\ forall k v, In (k, v) q -> leaf v = true) -> (exists d, get r "descriptor_sha256" = VDict d /\ forall k v, In (k, v) d -> leaf v = true) -> alike r r'.
Proof.
  intros Hj Hl Hs (q & Hq & Lq) (d & Hd & Ld). apply json_ok_dict in Hj as [Hn Hj]. rewrite List.Forall_forall in Hj.
  assert (N : forall k e, get r k = VDict e -> (forall k v, In (k, v) e -> leaf v = true) -> exists e', get r' k = VDict e' /\ Permutation e e' /\ List.NoDup (map fst e)).
  { intros k e He Le. unfold get, getd, dget_or in He. destruct (dget k r) as [v|] eqn:E; [|done]. subst v. destruct (like_field _ _ _ _ Hn Hl E) as (w & Hw & Hlw).
    destruct (like_dict_inv _ _ Hlw) as (e' & -> & _). exists e'. split; [unfold get, getd, dget_or; by rewrite Hw|]. split; [by apply like_leaves|]. destruct (Hj _ (dget_In _ _ _ E)) as [_ He]. by apply json_ok_dict in He as [? _]. }
  split.
  - intros k Hk1 Hk2. destruct (like_dict_inv _ _ Hl) as (r0 & [= <-] & Hf). specialize (Hf Hn k). unfold get, getd, dget_or. destruct (dget k r) as [v|] eqn:E; [|by rewrite Hf].
    destruct Hf as (w & -> & Hw). apply (like_scalar v w Hw). apply (Hs k v (dget_In _ _ _ E) Hk1 Hk2).
  - destruct (N _ _ Hq Lq) as (q' & H1 & H2 & H3). eauto 10.
  - destruct (N _ _ Hd Ld) as (d' & H1 & H2 & H3). eauto 10.
Qed.

Lemma py_eq_perm d d' e : Permutation d d' -> py_eq (VDict d') (VDict e) = py_eq (VDict d) (VDict e).
Proof.
  intros Hp. apply eq_true_iff_eq. rewrite !py_eq_dict, (Permutation_length Hp). by rewrite Hp.
Qed.

Section alike.
Context (r r' : dict).
Hypothesis H : alike r r'.

Lemma alike_quote : Permutation (quote_of r) (quote_of r') /\ List.NoDup (map fst (quote_of r)).
Proof. destruct (al_quote _ _ H) as (q & q' & H1 & H2 & H3 & H4). unfold quote_of. by rewrite H1, H2. Qed.

Lemma alike_observed : iget (quote_of r') "observed_at_ms" = iget (quote_of r) "observed_at_ms".
Proof. destruct alike_quote as [Hp Hn]. unfold iget. by rewrite (get_perm _ _ _ Hp Hn). Qed.

Lemma alike_iget k : k <> "quote" -> k <> "descriptor_sha256" -> iget r' k = iget r k.
Proof. intros. unfold iget. by rewrite (al_field _ _ H) by done. Qed.

Lemma alike_quote_transition p : validate_quote_transition p r' = validate_quote_transition p r.
Proof.
  unfold validate_quote_transition, quote_changed. rewrite alike_observed, (py_eq_perm (quote_of r) (quote_of r')), (al_field _ _ H) by (done || apply alike_quote). done.
Qed.

Lemma alike_transition p : validate_record_transition p r' = validate_record_transition p r.
Proof.
  unfold validate_record_transition, not_after, same_lease, rotates, differ. cbn [existsb]. rewrite alike_quote_transition, !alike_iget, alike_observed, !(al_field _ _ H) by done. done.
Qed.

Lemma alike_authority f : differ r' f AUTHORITY_FIELDS = differ r f AUTHORITY_FIELDS.
Proof.
  unfold differ, AUTHORITY_FIELDS. cbn [existsb]. destruct (al_descriptors _ _ H) as (d & d' & H1 & H2 & H3 & _). rewrite H1, H2, !(al_field _ _ H) by done.
  destruct (get f "descriptor_sha256") as [| | | | | | |e]; try done. by rewrite (py_eq_perm d d' e).
Qed.

Lemma alike_first segment : validate_first segment r' = validate_first segment r.
Proof.
  unfold validate_first, validate_segment_transition, validate_authority_binding, not_after, same_lease, rotates. rewrite !(al_field _ _ H) by done. destruct segment as [p|]; [|done].
  rewrite alike_authority, alike_quote_transition, !alike_iget by done. unfold differ. cbn [existsb]. by rewrite !(al_field _ _ H) by done.
Qed.
End alike.

(** ** What the sources of a record hold *)

Definition name_ok (s : string) : Prop := forall reason, a_name (VStr s) reason = Ok s.
Lemma a_name_ok v reason s : a_name v reason = Ok s -> v = VStr s /\ name_ok s.
Proof. destruct v; simpl; try done. intros H. apply when_ok in H as [H [= ->]]. split; [done|]. intros reason'. simpl. by rewrite H. Qed.

Definition price (f : spec_float) : Prop := forall reason, number (VFloat f) reason true = Ok f.
Lemma number_ok v reason f : number v reason true = Ok f -> price f.
Proof. destruct v; try done; intros H; apply rbind_ok in H as (g & _ & H); apply when_ok in H as [H [= ->]]; intros reason'; unfold number, to_float; cbn [rbind]; by rewrite H. Qed.

Ltac ints := repeat match goal with H : integer _ _ _ _ = Ok _ |- _ => apply integer_ok in H as (_ & ?Lo & ?Up) end;
  repeat match goal with H : forall m, Some _ = Some m -> _ |- _ => specialize (H _ eq_refl) | H : forall m, None = Some m -> _ |- _ => clear H end.

Lemma read_times_ok times started finished t l : read_times times started finished = Ok (t, l) -> started <= dget_or 0 "market.get_quote" l <= finished.
Proof.
  unfold read_times, READ_ORDER. cbn [rfold]. intros H.
  repeat (apply rbind_ok in H as ([? ?] & HH & H); apply rbind_ok in HH as (? & ?HI & HH); injection HH as <- <-; cbn [fst snd] in H). ints.
  injection H as _ <-. cbn [fst app] in *. match goal with |- started <= ?d <= finished => match d with context [("market.get_quote", ?y)] => change d with y end end. lia.
Qed.

(** The values of a snapshot. *)
Record Captured := mkCaptured { v_body : string; v_file : string; v_domain : string; v_uid : Z; v_catalog : string; v_descriptors : dict; v_epoch : string; v_fencing : Z;
  v_started : Z; v_finished : Z; v_generated : Z; v_read : Z; v_bid : spec_float; v_ask : spec_float; v_observed : Z; v_stale : Z }.

Definition quote_doc (v : Captured) : dict :=
  [("source", VStr "SIMULATOR"); ("authoritative", VBool true); ("stale", VBool false); ("bid", VFloat (v_bid v)); ("ask", VFloat (v_ask v));
   ("observed_at_ms", VInt (v_observed v)); ("stale_after_ms", VInt (v_stale v))].
Definition snapshot_doc (v : Captured) : dict :=
  [("snapshot_body_sha256", VStr (v_body v)); ("snapshot_file_sha256", VStr (v_file v)); ("domain_id", VStr (v_domain v));
   ("agent_uid", VInt (v_uid v)); ("instrument", VStr "EUR.USD"); ("catalog_sha256", VStr (v_catalog v)); ("descriptor_sha256", VDict (v_descriptors v));
   ("execution_service_epoch", VStr (v_epoch v)); ("execution_service_fencing_generation", VInt (v_fencing v));
   ("collection_started_at_ms", VInt (v_started v)); ("collection_finished_at_ms", VInt (v_finished v)); ("generated_at_ms", VInt (v_generated v));
   ("quote_read_finished_at_ms", VInt (v_read v)); ("quote", VDict (quote_doc v))].

Record captured_ok (v : Captured) : Prop := {
  w_digests : is_digest (v_body v) = true /\ is_digest (v_catalog v) = true;
  w_names : name_ok (v_domain v) /\ name_ok (v_epoch v);
  w_positive : 1 <= v_uid v /\ 1 <= v_fencing v;
  w_descriptors : map fst (v_descriptors v) = READ_ORDER /\ Forall (fun kv => digest_value kv.2) (v_descriptors v);
  w_times : 0 <= v_started v /\ v_started v <= v_read v /\ v_read v <= v_finished v /\ v_finished v <= v_generated v;
  w_prices : price (v_bid v) /\ price (v_ask v) /\ fltb (v_ask v) (v_bid v) = false;
  w_quote : 0 <= v_observed v /\ v_observed v <= v_read v /\ v_observed v + 1 <= v_stale v /\ v_stale v <= v_observed v + 60000 /\ v_read v <= v_stale v }.

Lemma check_quote_ok v read q : check_quote v read = Ok q -> exists bid ask observed stale,
  q = [("source", VStr "SIMULATOR"); ("authoritative", VBool true); ("stale", VBool false); ("bid", VFloat bid); ("ask", VFloat ask); ("observed_at_ms", VInt observed); ("stale_after_ms", VInt stale)] /\
  price bid /\ price ask /\ fltb ask bid = false /\ 0 <= observed /\ observed <= read /\ observed + 1 <= stale /\ stale <= observed + 60000 /\ read <= stale.
Proof.
  destruct v as [| | | | | | |d]; try done. unfold check_quote. intros H. apply when_ok in H as [_ H]. apply when_ok in H as [_ H]. apply rbind_ok in H as (bid & Hb & H). apply rbind_ok in H as (ask & Ha & H).
  apply when_ok in H as [Hc H]. apply rbind_ok in H as (observed & Ho & H). apply rbind_ok in H as (stale & Hs & H). apply when_ok in H as [Hr [= <-]]. ints.
  exists bid, ask, observed, stale. split; [done|]. split; [by eapply number_ok|]. split; [by eapply number_ok|]. split; [done|]. lia.
Qed.

Lemma snapshot_ok document contents s : validate_snapshot document contents = Ok s -> exists v, s = snapshot_doc v /\ captured_ok v /\ v_file v = digest_bytes contents.
Proof.
  unfold validate_snapshot. intros H. apply rbind_ok in H as (d & _ & H). apply when_ok in H as [_ H]. apply when_ok in H as [_ H]. apply rbind_ok in H as (domain & Hd & H). apply rbind_ok in H as (uid & Hu & H).
  apply when_ok in H as [_ H]. apply rbind_ok in H as (catalog & Hc & H). apply rbind_ok in H as (ds & _ & H). apply rbind_ok in H as (normal & Hn & H). apply rbind_ok in H as (started & Hs & H).
  apply rbind_ok in H as (finished & Hf & H). apply rbind_ok in H as (generated & Hg & H). apply rbind_ok in H as (times & _ & H). apply rbind_ok in H as (reads & _ & H). apply rbind_ok in H as ([t l] & Ht & H).
  apply rbind_ok in H as ([epoch fencing] & Hh & H). apply rbind_ok in H as (q & Hq & H). apply rbind_ok in H as (body & Hb & [= <-]). cbn [fst snd] in *. apply read_times_ok in Ht.
  apply check_quote_ok in Hq as (bid & ask & observed & stale & -> & Q). destruct Q as (Q1 & Q2 & Q3 & Q4). apply claimed_body_ok in Hb as (_ & Hb & _). apply digest_field_ok in Hc as [_ Hc]. apply a_name_ok in Hd as [_ Hd].
  assert (He : name_ok epoch /\ 1 <= fencing). { destruct (get reads "system.get_health"); try done. unfold check_health in Hh. apply when_ok in Hh as [_ Hh]. apply rbind_ok in Hh as (e & He & Hh).
    apply rbind_ok in Hh as (g & Hge & [= <- <-]). apply a_name_ok in He as [_ He]. ints. split; [done|lia]. }
  ints. exists (mkCaptured body (digest_bytes contents) domain uid catalog normal epoch fencing started finished generated (dget_or 0 "market.get_quote" l) bid ask observed stale).
  split; [done|]. split; [|done]. split; cbn; try tauto; try lia. apply rmapM_Forall2 in Hn. clear -Hn. split.
  - symmetry. revert Hn. generalize READ_ORDER as ks. intros ks Hn. induction Hn as [|k y ks ys Hk _ IH]; [done|]. simpl. rewrite IH. by inv_ok Hk; subst y.
  - induction Hn as [|k y ks ys Hk _ IH]; constructor; [|done]. apply rbind_ok in Hk as (x & Hx & [= <-]). apply digest_field_ok in Hx as [_ Hx]. by exists x.
Qed.

(** The values of a lease receipt and of an export receipt. *)
Record Leased := mkLeased { e_generation : Z; e_body : string; e_file : string; e_operation : value; e_previous : value; e_previous_digest : value; e_accepted : Z; e_ttl : Z; e_expires : Z }.
Definition lease_doc (e : Leased) : dict :=
  [("watch_generation", VInt (e_generation e)); ("watch_lease_receipt_body_sha256", VStr (e_body e)); ("watch_lease_receipt_file_sha256", VStr (e_file e));
   ("watch_lease_operation", e_operation e); ("watch_lease_previous_generation", e_previous e); ("watch_lease_previous_receipt_body_sha256", e_previous_digest e);
   ("watch_lease_accepted_at_ms", VInt (e_accepted e)); ("watch_lease_ttl_seconds", VInt (e_ttl e)); ("watch_lease_expires_at_ms", VInt (e_expires e))].
Record leased_ok (v : Captured) (e : Leased) : Prop := {
  y_generation : 1 <= e_generation e;
  y_digest : is_digest (e_body e) = true;
  y_rotation : check_rotation (e_operation e) (e_previous e) (e_previous_digest e) (e_generation e) = Ok tt;
  y_times : 0 <= e_accepted e /\ 1 <= e_ttl e <= MAXIMUM_WATCH_TTL_SECONDS /\ e_expires e = e_accepted e + e_ttl e * 1000;
  y_within : e_accepted e <= v_started v /\ v_generated v <= e_expires e /\ e_accepted e <= v_observed v /\ v_observed v <= e_expires e }.

Lemma lease_ok document contents v e : validate_lease_receipt document contents (snapshot_doc v) = Ok e -> exists l, e = lease_doc l /\ leased_ok v l /\ e_file l = digest_bytes contents.
Proof.
  unfold validate_lease_receipt. intros H. apply rbind_ok in H as (d & _ & H). apply when_ok in H as [_ H]. apply rbind_ok in H as (domain & _ & H). apply rbind_ok in H as (agent & _ & H).
  apply rbind_ok in H as (uid & _ & H). apply when_ok in H as [_ H]. apply when_ok in H as [_ H]. apply rbind_ok in H as (m & _ & H). destruct m; [done|]. apply rbind_ok in H as (generation & Hg & H).
  apply rbind_ok in H as ([] & Hr & H). apply rbind_ok in H as ([[accepted ttl] expires] & Ht & H). apply when_ok in H as [Hw H]. apply rbind_ok in H as (body & Hb & [= <-]).
  unfold check_lease_times in Ht. apply rbind_ok in Ht as (a & Ha & Ht). apply rbind_ok in Ht as (t & Htt & Ht). apply rbind_ok in Ht as (x & Hx & Ht). apply when_ok in Ht as [Hq [= <- <- <-]].
  apply claimed_body_ok in Hb as (_ & Hb & _). ints. apply negb_false_iff, Z.eqb_eq in Hq. split_bools. change (iget (snapshot_doc v) "collection_started_at_ms") with (v_started v) in *.
  change (iget (snapshot_doc v) "generated_at_ms") with (v_generated v) in *. change (iget (quote_of (snapshot_doc v)) "observed_at_ms") with (v_observed v) in *.
  exists (mkLeased generation body (digest_bytes contents) (get d "operation") (get d "previous_lease_generation") (get d "previous_receipt_body_sha256") a t x).
  split; [done|]. split; [|done]. split; cbn; try done; lia.
Qed.

Record Exported := mkExported { x_body : string; x_file : string; x_at : Z; x_uid : Z; x_gid : Z }.
Definition export_doc (x : Exported) : dict :=
  [("watch_export_receipt_body_sha256", VStr (x_body x)); ("watch_export_receipt_file_sha256", VStr (x_file x)); ("watch_exported_at_ms", VInt (x_at x));
   ("watch_export_reader_uid", VInt (x_uid x)); ("watch_export_reader_gid", VInt (x_gid x))].
Record exported_ok (v : Captured) (e : Leased) (x : Exported) : Prop := {
  z_digest : is_digest (x_body x) = true;
  z_reader : 1 <= x_uid x /\ 1 <= x_gid x;
  z_at : v_generated v <= x_at x /\ x_at x <= e_expires e /\ x_at x <= v_stale v }.

Lemma export_ok document contents v e u x : validate_export_receipt document contents (snapshot_doc v) (lease_doc e) u = Ok x ->
  exists y, x = export_doc y /\ exported_ok v e y /\ x_file y = digest_bytes contents.
Proof.
  unfold validate_export_receipt. intros H. apply rbind_ok in H as (d & _ & H). apply when_ok in H as [_ H]. apply rbind_ok in H as (uid & Hu & H). apply rbind_ok in H as (gid & Hg & H).
  apply when_ok in H as [_ H]. apply when_ok in H as [_ H]. apply when_ok in H as [_ H]. apply rbind_ok in H as (at_ & Ha & H). apply when_ok in H as [Hs H]. apply rbind_ok in H as (o & _ & H).
  apply rbind_ok in H as (body & Hb & [= <-]). apply claimed_body_ok in Hb as (_ & Hb & _). ints.
  change (iget (snapshot_doc v) "generated_at_ms") with (v_generated v) in *. change (iget (lease_doc e) "watch_lease_expires_at_ms") with (e_expires e) in *.
  change (iget (quote_of (snapshot_doc v)) "stale_after_ms") with (v_stale v) in *. exists (mkExported body (digest_bytes contents) at_ uid gid). split; [done|]. split; [|done]. split; cbn; [done|lia|lia].
Qed.

(** ** The record of a snapshot *)

Section record.
Context (v : Captured) (e : Leased) (x : Exported) (n cadence jitter : Z) (previous : value) (changed : bool) (d : string).
Hypothesis Hv : captured_ok v.
Hypothesis He : leased_ok v e.
Hypothesis Hx : exported_ok v e x.
Hypothesis Hfiles : is_digest (v_file v) = true /\ is_digest (e_file e) = true /\ is_digest (x_file x) = true.
Hypothesis Hcadence : validate_cadence (VInt cadence) (VInt jitter) = Ok (cadence, jitter).
Hypothesis Hprevious : previous = VNone \/ digest_value previous.
Let body := record_body (snapshot_doc v) (lease_doc e) (export_doc x) n cadence jitter previous changed.
Hypothesis Hd : digest_of (VDict body) = Ok d.
Hypothesis Hdigest : is_digest d = true.
Let r := body ++ [("record_sha256", VStr d)].

Lemma descriptors_leaves k w : In (k, w) (v_descriptors v) -> In k READ_ORDER /\ digest_value w.
Proof.
  destruct (w_descriptors _ Hv) as [Hk Hf]. intros Hin. split; [rewrite <- Hk; by apply (in_map fst) in Hin|]. rewrite List.Forall_forall in Hf. by apply (Hf (k, w)).
Qed.
Lemma descriptors_distinct : List.NoDup (map fst (v_descriptors v)).
Proof. rewrite (proj1 (w_descriptors _ Hv)). apply NoDup_ListNoDup. by apply (bool_decide_unpack _); vm_compute. Qed.

Lemma descriptors_json : json_ok (VDict (v_descriptors v)) = true.
Proof.
  cbn [json_ok]. rewrite bool_decide_true by (apply NoDup_ListNoDup, descriptors_distinct). cbn [andb]. apply forallb_forall. intros [k w] Hin. destruct (descriptors_leaves k w Hin) as [Hk (s & -> & Hs)].
  cbn [fst snd json_ok]. rewrite (digest_text_utf8 s Hs), andb_true_r. assert (Hu : forallb utf8_ok READ_ORDER = true) by reflexivity. rewrite forallb_forall in Hu. by apply Hu.
Qed.

Lemma quote_json : json_ok (VDict (quote_doc v)) = true.
Proof. reflexivity. Qed.

Lemma previous_scalar : scalar previous = true /\ json_ok previous = true.
Proof. destruct Hprevious as [->|(s & -> & Hs)]; [done|]. split; [done|]. by apply digest_text_utf8. Qed.

Lemma rotation_scalars : scalar (e_operation e) = true /\ scalar (e_previous e) = true /\ scalar (e_previous_digest e) = true.
Proof.
  pose proof (y_rotation _ _ He) as H. unfold check_rotation in H. apply rbind_ok in H as (b & Hb & H). unfold pnot in Hb. apply rbind_ok in Hb as (m & Hm & [= <-]). destruct m; [|done]. cbn [negb] in H.
  unfold member in Hm. destruct (hashable (e_operation e)); [|done]. injection Hm as Hm. split; [by destruct (e_operation e)|]. destruct (eq_str (e_operation e) "PROVISION").
  - apply when_ok in H as [H _]. by destruct (e_previous e), (e_previous_digest e).
  - apply rbind_ok in H as (p & Hp & H). apply when_ok in H as [_ H]. apply rbind_ok in H as (s & Hs & _). apply integer_ok in Hp as [-> _]. by apply digest_field_ok in Hs as [-> _].
Qed.

Lemma record_keys : map fst r = map fst (record_body (snapshot_doc v) (lease_doc e) (export_doc x) 0 0 0 VNone true ++ [("record_sha256", VNone)]).
Proof. reflexivity. Qed.

Lemma record_distinct : List.NoDup (map fst r).
Proof. rewrite record_keys. apply NoDup_ListNoDup. by apply (bool_decide_unpack _); vm_compute. Qed.

Lemma record_member k w : In (k, w) r -> utf8_ok k = true /\ json_ok w = true /\ (k <> "quote" -> k <> "descriptor_sha256" -> scalar w = true).
Proof.
  destruct (w_digests _ Hv) as [D1 D2]. destruct (w_names _ Hv) as [N1 N2]. destruct (rotation_texts _ _ _ _ (y_rotation _ _ He)) as (R1 & R2 & R3). destruct rotation_scalars as (S1 & S2 & S3).
  destruct previous_scalar as [P1 P2]. pose proof descriptors_json. pose proof quote_json. pose proof (y_digest _ _ He) as D3. pose proof (z_digest _ _ _ Hx) as D4. destruct Hfiles as (F1 & F2 & F3).
  destruct (name_utf8 _ _ _ (N1 EmptyString)) as [_ U1]. destruct (name_utf8 _ _ _ (N2 EmptyString)) as [_ U2].
  unfold r, body, record_body, snapshot_doc, lease_doc, export_doc. cbn [app In]. intros Hin.
  repeat (destruct Hin as [[= <- <-]|Hin]; [split; [reflexivity|]; split; [first [assumption|by apply digest_text_utf8|reflexivity]|done]|]). done.
Qed.

Lemma new_json_ok : json_ok (VDict r) = true.
Proof.
  cbn [json_ok]. rewrite bool_decide_true by (apply NoDup_ListNoDup, record_distinct). cbn [andb]. apply forallb_forall. intros [k w] Hin. destruct (record_member k w Hin) as (H1 & H2 & _). cbn [fst snd].
  by rewrite H1, H2.
Qed.

Hypothesis Hprices : exact_float (v_bid v) = true /\ exact_float (v_ask v) = true.

Lemma new_exact : exact_numbers r.
Proof.
  unfold exact_numbers. cbn [floats_all]. apply forallb_forall. intros [k w] Hin. destruct (decide (k = "quote")) as [->|Hq]; [|destruct (decide (k = "descriptor_sha256")) as [->|Hs]].
  - apply (dget_of_In _ _ _ record_distinct) in Hin. injection Hin as <-. cbn. by rewrite (proj1 Hprices), (proj2 Hprices).
  - apply (dget_of_In _ _ _ record_distinct) in Hin. injection Hin as <-. cbn [snd floats_all]. apply forallb_forall. intros [k w] Hw. by destruct (descriptors_leaves k w Hw) as [_ (s & -> & _)].
  - destruct (record_member k w Hin) as (_ & _ & Hw). cbn [snd]. apply plain_floats. by apply Hw.
Qed.

Lemma new_alike r' : like (VDict r) (VDict r') -> alike r r'.
Proof.
  intros Hl. apply alike_of_like; [apply new_json_ok|done|intros k w Hin; by apply (record_member k w Hin)| |].
  - exists (quote_doc v). split; [done|]. intros k w Hin. cbn [quote_doc In] in Hin. repeat (destruct Hin as [[= <- <-]|Hin]; [first [reflexivity|apply Hprices]|]). done.
  - exists (v_descriptors v). split; [done|]. intros k w Hin. by destruct (descriptors_leaves k w Hin) as [_ (s & -> & _)].
Qed.

Context (r' : dict).
Hypothesis Hlike : like (VDict r) (VDict r').

Lemma read_field k w : get r k = w -> k <> "quote" -> k <> "descriptor_sha256" -> get r' k = w.
Proof. intros <- H1 H2. by apply (al_field _ _ (new_alike r' Hlike)). Qed.

Lemma read_exact : exact_fields r' RECORD_FIELDS = true.
Proof.
  apply (exact_fields_keys r); [|reflexivity]. intros k. destruct (like_dict_inv _ _ Hlike) as (r0 & [= <-] & Hf). specialize (Hf record_distinct k). rewrite <- !dhas_In. unfold dhas.
  destruct (dget k r) as [w|]; [destruct Hf as (w' & -> & _)|rewrite Hf]; done.
Qed.

Lemma read_digest : digest_of (VDict (dpop "record_sha256" r')) = Ok d.
Proof.
  pose proof (like_dpop "record_sha256" r r' record_distinct Hlike) as Hl. change (dpop "record_sha256" r) with body in Hl.
  pose proof Hd as Hd'. apply rbind_ok in Hd' as (b & Hb & Eb). destruct (canonical_text _ _ Hb) as (t & Ht & E & _).
  assert (Hj : json_ok (VDict body) = true) by (change body with (dpop "record_sha256" r); apply body_json_ok, new_json_ok).
  assert (Hex : floats_all exact_float (VDict body) = true) by (change body with (dpop "record_sha256" r); cbn [floats_all]; apply dpop_forallb; apply new_exact).
  unfold digest_of, canonical, canonical_bytes. rewrite (like_exact_floats _ _ Hex Hl), (dumps_like _ _ _ Hj Hex Ht Hl). cbn [rbind]. by rewrite <- E.
Qed.

Lemma read_chain c : check_chain r' n previous (record_name n) (mkFile c 1) = Ok tt.
Proof.
  unfold check_chain. rewrite (read_field "schema" (VStr RECORD_SCHEMA)), (read_field "version" (VInt 3)), (read_field "sequence" (VInt n)), (read_field "previous_record_sha256" previous),
    (read_field "cadence_ms" (VInt cadence)), (read_field "maximum_jitter_ms" (VInt jitter)) by done.
  assert (py_eq previous previous = true) as -> by (destruct Hprevious as [->|(s & -> & _)]; [done|by apply bool_decide_eq_true]).
  unfold eq_int. cbn [py_eq]. rewrite eq_str_refl, Z.eqb_refl. change (3 =? 3) with true. cbn [negb orb]. rewrite Hcadence. cbn [rbind]. unfold claimed_body.
  rewrite (read_field "record_sha256" (VStr d)), a_digest_of, read_digest by done. cbn [rbind]. by rewrite Z.eqb_refl, !bool_decide_true by done.
Qed.

Lemma each_digest l : Forall (fun kv : string * value => digest_value kv.2) l ->
  rfold (fun _ kv => let! _ := a_digest kv.2 "MARKET_HISTORY_DESCRIPTOR_DIGEST_INVALID" in Ok tt) l tt = Ok tt.
Proof. induction 1 as [|[k w] l (s & Hs & Ds) _ IH]; [done|]. cbn [rfold fst snd] in *. subst w. rewrite (a_digest_of s) by done. exact IH. Qed.

Lemma read_authority : check_authority r' = Ok tt.
Proof.
  unfold check_authority. destruct (w_digests _ Hv) as [D1 D2]. destruct (w_names _ Hv) as [N1 N2]. destruct (w_positive _ Hv) as [P1 P2].
  destruct (al_descriptors _ _ (new_alike r' Hlike)) as (ds & ds' & E1 & E2 & Ep & _). injection E1 as <-.
  rewrite (read_field "snapshot_body_sha256" (VStr (v_body v))), (read_field "snapshot_file_sha256" (VStr (v_file v))), (read_field "catalog_sha256" (VStr (v_catalog v))), (read_field "domain_id" (VStr (v_domain v))),
    (read_field "agent_uid" (VInt (v_uid v))), (read_field "instrument" (VStr "EUR.USD")), (read_field "execution_service_epoch" (VStr (v_epoch v))),
    (read_field "execution_service_fencing_generation" (VInt (v_fencing v))), E2 by done.
  rewrite !a_digest_of by (done || apply Hfiles). cbn [rbind]. unfold check_set.
  assert (exact_fields ds' READ_ORDER = true) as ->.
  { apply (exact_fields_keys (v_descriptors v)); [intros k; split; intros Hk; eapply Permutation_in; [|exact Hk| |exact Hk]; by apply Permutation_map|].
    unfold exact_fields. by rewrite (proj1 (w_descriptors _ Hv)). }
  cbn [negb rbind]. rewrite each_digest by (rewrite <- Ep; apply (w_descriptors _ Hv)). cbn [rbind]. rewrite N1, N2, !integer_of by (cbn; lia). by rewrite eq_str_refl.
Qed.

Lemma read_lease : check_lease r' = Ok (e_accepted e, e_expires e).
Proof.
  unfold check_lease, check_lease_times. destruct (y_times _ _ He) as (T1 & T2 & T3). destruct (z_reader _ _ _ Hx) as [Z1 Z2].
  rewrite (read_field "watch_generation" (VInt (e_generation e))), (read_field "watch_lease_receipt_body_sha256" (VStr (e_body e))), (read_field "watch_lease_receipt_file_sha256" (VStr (e_file e))),
    (read_field "watch_lease_operation" (e_operation e)), (read_field "watch_lease_previous_generation" (e_previous e)), (read_field "watch_lease_previous_receipt_body_sha256" (e_previous_digest e)),
    (read_field "watch_lease_accepted_at_ms" (VInt (e_accepted e))), (read_field "watch_lease_ttl_seconds" (VInt (e_ttl e))), (read_field "watch_lease_expires_at_ms" (VInt (e_expires e))),
    (read_field "watch_export_receipt_body_sha256" (VStr (x_body x))), (read_field "watch_export_receipt_file_sha256" (VStr (x_file x))), (read_field "watch_export_reader_uid" (VInt (x_uid x))),
    (read_field "watch_export_reader_gid" (VInt (x_gid x))) by done.
  rewrite !a_digest_of by (done || apply Hfiles || apply (y_digest _ _ He) || apply (z_digest _ _ _ Hx)). rewrite !integer_of by (cbn; pose proof (y_generation _ _ He); lia). cbn [rbind].
  rewrite (y_rotation _ _ He). cbn [rbind]. rewrite integer_of by (cbn; lia). cbn [rbind]. by rewrite (proj2 (Z.eqb_eq _ _) T3).
Qed.

Lemma read_capture : check_capture r' (e_accepted e) (e_expires e) = Ok tt.
Proof.
  unfold check_capture. destruct (al_quote _ _ (new_alike r' Hlike)) as (q & q' & E1 & E2 & Ep & Eq). injection E1 as <-. pose proof (w_times _ Hv) as T. pose proof (w_quote _ Hv) as Q.
  pose proof (y_within _ _ He) as W. pose proof (z_at _ _ _ Hx) as A. destruct (w_prices _ Hv) as (P1 & P2 & P3).
  rewrite (read_field "collection_started_at_ms" (VInt (v_started v))), (read_field "collection_finished_at_ms" (VInt (v_finished v))), (read_field "generated_at_ms" (VInt (v_generated v))),
    (read_field "quote_read_finished_at_ms" (VInt (v_read v))), (read_field "quote_changed" (VBool changed)), (read_field "watch_exported_at_ms" (VInt (x_at x))), E2 by done.
  rewrite !integer_of by (cbn; lia). cbn [rbind]. unfold exact, require_exact_fields.
  assert (exact_fields q' QUOTE_FIELDS = true) as ->.
  { apply (exact_fields_keys (quote_doc v)); [intros k; split; intros Hk; eapply Permutation_in; [|exact Hk| |exact Hk]; by apply Permutation_map|reflexivity]. }
  cbn [negb as_history rbind]. rewrite !(get_perm (quote_doc v) q' _ Ep Eq).
  change (get (quote_doc v) "source") with (VStr "SIMULATOR"). change (get (quote_doc v) "authoritative") with (VBool true). change (get (quote_doc v) "stale") with (VBool false).
  change (get (quote_doc v) "bid") with (VFloat (v_bid v)). change (get (quote_doc v) "ask") with (VFloat (v_ask v)). change (get (quote_doc v) "observed_at_ms") with (VInt (v_observed v)).
  change (get (quote_doc v) "stale_after_ms") with (VInt (v_stale v)). rewrite eq_str_refl, P1, P2. cbn [is_true is_false negb orb rbind]. rewrite P3.
  repeat (rewrite integer_of by (cbn; lia); cbn [rbind]). by rewrite !(proj2 (Z.ltb_ge _ _)) by lia.
Qed.

Lemma new_validates c : validate_record r' n previous (record_name n) (mkFile c 1) = Ok r'.
Proof.
  unfold validate_record, exact, require_exact_fields. rewrite read_exact. cbn [negb as_history rbind]. rewrite read_chain, read_authority, read_lease. cbn [rbind fst snd]. by rewrite read_capture.
Qed.
End record.

(** ** The fast state of an audited history *)

Section audited.
Context (dir : Directory) (cadence jitter : option Z) (segment : option dict) (st : list (dict * string)).
Hypothesis Hchain : chain dir cadence jitter segment st.
Hypothesis Hhead : check_head dir st = Ok tt.

(** A cursor of the incremental audit: the next record to audit and the digest it must follow. *)
Definition cursor_ok (cursor : Z) (expected : value) : Prop := 1 <= cursor <= Z.of_nat (length st) /\ expected = before st (Z.to_nat (cursor - 1)).

Record fast_ok (t : Fast) : Prop := {
  f_first : exists first fc l, st = (first, fc) :: l /\ get (t_head t) "first_record_sha256" = get first "record_sha256";
  f_last : last st = Some (t_last t, t_last_contents t);
  f_count : iget (t_head t) "record_count" = Z.of_nat (length st);
  f_size : iget (t_head t) "history_record_bytes" = record_bytes st;
  f_cursor : cursor_ok (iget (t_head t) "audit_cursor_sequence") (get (t_head t) "audit_expected_previous_sha256") }.

Lemma stored i r c o d t : st !! i = Some (r, c) -> load_canonical o (dget (record_name (Z.of_nat i + 1)) dir) = Ok (d, t) -> d = r /\ t = c.
Proof.
  intros Hi Hl. destruct (ch_placed _ _ _ _ _ Hchain _ _ _ Hi) as [Hf Hh _ _ _ _ _]. rewrite Hf in Hl. apply load_canonical_ok in Hl as [[= ->] Hh']. split; [|done]. by eapply holds_same.
Qed.

Lemma load_direct_stored i r c previous rc : st !! i = Some (r, c) -> load_record_direct dir (Z.of_nat i + 1) previous = Ok rc -> rc = (r, c).
Proof.
  intros Hi H. unfold load_record_direct in H. apply rbind_ok in H as ([d t] & Hl & H). destruct (stored _ _ _ _ _ _ Hi Hl) as [-> ->]. destruct (dget _ dir) as [f|]; [|done].
  apply rbind_ok in H as (d & Hv & [= <-]). by apply validate_record_ok in Hv as (-> & _).
Qed.

Lemma before_eq i x v : st !! i = Some x -> py_eq (before st i) v = true -> v = before st i.
Proof.
  intros Hi. pose proof (before_value _ _ _ _ _ Hchain _ _ Hi) as Hb. destruct (Z.of_nat i + 1 =? 1); [rewrite Hb; by destruct v|]. destruct Hb as (s & -> & _). destruct v; try done. cbn [py_eq]. intros H. by apply bool_decide_eq_true in H as ->.
Qed.

Lemma head_cursor head : validate_head head = Ok head -> 1 <= iget head "audit_cursor_sequence" <= iget head "record_count".
Proof.
  unfold validate_head. intros H. apply rbind_ok in H as (h & Hx & H). apply exact_ok in Hx as [[= <-] _]. apply when_ok in H as [_ H]. apply rbind_ok in H as (count & Hc & H).
  apply rbind_ok in H as (? & _ & H). apply rbind_ok in H as (? & _ & H). apply rbind_ok in H as (? & _ & H). apply when_ok in H as [_ H]. apply rbind_ok in H as (? & _ & H).
  apply rbind_ok in H as (cursor & Hu & _). apply integer_ok in Hc as [Hc _]. apply integer_ok in Hu as (Hu & Lo & Up). unfold iget. rewrite Hc, Hu. split; [by apply Lo|by apply Up].
Qed.

Lemma load_fast_ok fast : load_fast_state dir = Ok fast -> match fast with None => st = [] | Some t => fast_ok t end.
Proof.
  pose proof load_direct_stored as LD. pose proof before_eq as BE. pose proof (ch_placed _ _ _ _ _ Hchain) as HP. unfold load_fast_state. intros H. apply when_ok in H as [Hp H]. pose proof (check_head_ok _ _ _ _ _ Hchain Hhead) as [_ Hi]. pose proof Hhead as Hc. unfold check_head in Hc. rewrite Hp in Hc.
  destruct (dhas HEAD_NAME dir) eqn:Eh; cbn [negb] in H, Hc.
  - destruct st as [|[first fc] l] eqn:Es; [done|]. destruct (last ((first, fc) :: l)) as [[lst lc]|] eqn:El; [|by apply last_None in El]. rewrite <- Es in *.
    destruct Hi as (head & text & Hl & I1 & I2 & I3 & _). rewrite Hl in H, Hc. cbn [rbind fst snd] in H, Hc. apply when_ok in H as [_ H]. assert (Ec : iget head "record_count" = Z.of_nat (length st)) by (unfold iget; by rewrite I1).
    pose proof (last_lookup st) as Ll. rewrite El in Ll. symmetry in Ll. assert (Hpos : (0 < length st)%nat) by (rewrite Es; simpl; lia).
    rewrite Ec in H. replace (Z.of_nat (length st)) with (Z.of_nat (pred (length st)) + 1) in H by lia. apply rbind_ok in H as (rc & Hr & H). apply (LD _ _ _ _ _ Ll) in Hr as ->.
    apply rbind_ok in H as (? & _ & [= <-]). split; cbn [t_head t_last t_last_contents fst snd]; [by exists first, fc, l|done|done|unfold iget; by rewrite I2|].
    apply load_head_ok in Hl as (_ & _ & Hv). pose proof (head_cursor _ Hv) as Hcur. rewrite Ec in Hcur. split; [lia|]. apply rbind_ok in Hc as (expected & _ & Hc). apply when_ok in Hc as [_ Hc].
    destruct (st !! Z.to_nat (iget head "audit_cursor_sequence" - 1)) as [[r c]|] eqn:Er; [|done]. apply when_ok in Hc as [Hc _]. apply negb_false_iff in Hc.
    rewrite (p_previous _ _ _ _ _ (HP _ _ _ Er)) in Hc. by eapply BE.
  - apply when_ok in H as [_ [= <-]]. destruct st as [|[first fc] l] eqn:Es; [done|]. destruct (last ((first, fc) :: l)) as [[lst lc]|] eqn:El; [done|by apply last_None in El].
Qed.

Lemma audit_step_ok t u u' : fast_ok t -> cursor_ok (n_cursor u) (n_expected u) -> audit_step dir (t_head t) (t_last t) u = Ok u' -> cursor_ok (n_cursor u') (n_expected u').
Proof.
  intros Ht [Hc He] H. unfold audit_step in H. apply rbind_ok in H as ([r k] & Hr & H). apply when_ok in H as [_ H]. injection H as <-. rewrite (f_count _ Ht).
  destruct (lookup_lt_is_Some_2 st (Z.to_nat (n_cursor u - 1))) as [[r0 c0] Hi]; [lia|]. destruct (Z.eqb_spec (n_cursor u) (Z.of_nat (length st))) as [Heq|Hne]; [split; cbn; [lia|done]|].
  assert (r = r0) as ->.
  { destruct (eq_int (get (t_last t) "sequence") (n_cursor u)) eqn:Es.
    - exfalso. pose proof (f_last _ Ht) as Hl. rewrite last_lookup in Hl. pose proof (p_sequence _ _ _ _ _ (ch_placed _ _ _ _ _ Hchain _ _ _ Hl)) as Hs. pose proof (same_integer _ _ _ Es Hs). lia.
    - apply rbind_ok in Hr as (rc & Hrc & [= <- _]). replace (n_cursor u) with (Z.of_nat (Z.to_nat (n_cursor u - 1)) + 1) in Hrc by lia. by rewrite (load_direct_stored _ _ _ _ _ Hi Hrc). }
  split; cbn [n_cursor n_expected fst]; [lia|]. replace (Z.to_nat (n_cursor u + 1 - 1)) with (S (Z.to_nat (n_cursor u - 1))) by lia. cbn [before]. by rewrite Hi.
Qed.

Lemma audit_steps_ok t k : forall u u', fast_ok t -> cursor_ok (n_cursor u) (n_expected u) -> audit_steps k dir (t_head t) (t_last t) u = Ok u' -> cursor_ok (n_cursor u') (n_expected u').
Proof.
  induction k as [|k IH]; intros u u' Ht Hu H; [by injection H as <-|]. cbn [audit_steps] in H. apply rbind_ok in H as (u1 & H1 & H). eapply (IH u1); [done| |done]. by eapply audit_step_ok.
Qed.

Lemma advance_ok t u : fast_ok t -> advance_incremental_audit dir (t_head t) (t_last t) = Ok u -> cursor_ok (n_cursor u) (n_expected u).
Proof. intros Ht H. eapply audit_steps_ok; [exact Ht| |exact H]. apply (f_cursor _ Ht). Qed.
End audited.

(** ** The name of a record *)

Lemma digits_value_bound t : sforall is_digit t = true -> forall a, 0 <= a -> a * 10 ^ slen t <= digits_value t a.
Proof.
  induction t as [|c t IH]; intros Ht a Ha; [simpl; lia|]. cbn [sforall] in Ht. apply andb_prop in Ht as [Hc Ht]. cbn [digits_value slen].
  assert (Hd : 0 <= digit_val c) by (unfold is_digit in Hc; unfold digit_val; lia). specialize (IH Ht (a * 10 + digit_val c) ltac:(lia)).
  pose proof (slen_nonneg t). replace (1 + slen t) with (Z.succ (slen t)) by lia. rewrite Z.pow_succ_r by lia. assert (0 <= 10 ^ slen t) by (apply Z.pow_nonneg; lia). nia.
Qed.

Lemma digits_short n : 0 < n < 10 ^ 20 -> slen (digits n) <= 20.
Proof.
  intros Hn. destruct (digits_head n ltac:(lia)) as (c & t & E & Hc & Hz & Ht). destruct (digits_spec n ltac:(lia)) as (_ & _ & Hv). rewrite E in Hv |- *. cbn [digits_value slen] in *.
  assert (Hd : 1 <= digit_val c) by (unfold is_digit in Hc; unfold digit_val; lia). pose proof (digits_value_bound t Ht (0 * 10 + digit_val c) ltac:(lia)) as Hb.
  destruct (Z_le_gt_dec (1 + slen t) 20) as [|Hgt]; [done|]. assert (10 ^ 20 <= 10 ^ slen t) by (apply Z.pow_le_mono_r; lia). nia.
Qed.

Lemma stake_whole a b : stake (String.length a) (a +:+ b) = a /\ sdrop (String.length a) (a +:+ b) = b.
Proof. induction a as [|c a [IH1 IH2]]; [by destruct b|]. cbn [String.length stake sdrop]. rewrite append_cons. cbn [stake sdrop]. by rewrite IH1, IH2. Qed.

Lemma record_name_number n : 0 < n < 10 ^ 20 -> record_number (record_name n) = Some n /\ is_legacy_name (record_name n) = false /\ head_entry (record_name n) = false.
Proof.
  intros Hn. pose proof (digits_short n Hn) as Hs. destruct (digits_spec n ltac:(lia)) as (Hd & Hp & Hv). unfold record_number, is_legacy_name, record_name.
  set (zeros := srepeat "0" (Z.to_nat (20 - slen (digits n)))). set (ds := zeros +:+ digits n).
  assert (E : "record-" +:+ zeros +:+ digits n +:+ ".json" = "record-" +:+ ds +:+ ".json") by (unfold ds; by rewrite <- !append_assoc). rewrite E, remove_prefix_app.
  assert (Hl : slen ds = 20) by (unfold ds, zeros; rewrite slen_app, slen_repeat; lia). assert (Hn20 : String.length ds = 20%nat) by (rewrite slen_length in Hl; lia).
  destruct (stake_whole ds ".json") as [H1 H2]. rewrite Hn20 in H1, H2. rewrite H1, H2, Hl. assert (Hds : sforall is_digit ds = true) by (unfold ds, zeros; by rewrite sforall_app, sforall_zeros, Hd).
  rewrite Hds. split; [|split].
  - rewrite bool_decide_true by done. cbn [andb]. unfold ds, zeros. by rewrite Z.eqb_refl, digits_value_app, digits_value_zeros, Hv.
  - cbn [stake]. rewrite bool_decide_false by done. by rewrite andb_false_r.
  - unfold head_entry. by rewrite !bool_decide_false by done.
Qed.

(** ** One more file *)

Lemma dset_fresh {V} (k : string) (w : V) (d : list (string * V)) : dget k d = None -> dset k w d = d ++ [(k, w)].
Proof. induction d as [|[k' w'] d IH]; simpl; [done|]. destruct (decide (k = k')); [done|]. intros H. by rewrite IH. Qed.
Lemma dset_last {V} (k : string) (w w' : V) (d : list (string * V)) : dget k d = None -> dset k w (d ++ [(k, w')]) = d ++ [(k, w)].
Proof. induction d as [|[k0 w0] d IH]; simpl; [by rewrite decide_True|]. destruct (decide (k = k0)); [done|]. intros H. by rewrite IH. Qed.
Lemma dget_app_other {V} (k k' : string) (w : V) (d : list (string * V)) : k <> k' -> dget k (d ++ [(k', w)]) = dget k d.
Proof. intros Hne. induction d as [|[k0 w0] d IH]; simpl; [by rewrite decide_False|]. by destruct (decide (k = k0)). Qed.
Lemma dpop_middle {V} (k : string) (w : V) (d l : list (string * V)) : dget k d = None -> dpop k (d ++ (k, w) :: l) = d ++ l.
Proof. induction d as [|[k0 w0] d IH]; simpl; [by rewrite decide_True|]. destruct (decide (k = k0)); [done|]. intros H. by rewrite IH. Qed.

Lemma publish_ok name random contents dir states dir' u : dget (temporary name random) dir = None -> temporary name random <> name ->
  atomic_publish name random contents dir = (states, dir', Ok u) -> dget name dir = None /\ dir' = dir ++ [(name, mkFile contents 1)].
Proof.
  intros Ht Hne. unfold atomic_publish, bind, look, change, lift. set (temp := temporary name random) in *. rewrite (dset_fresh temp _ dir), (dset_last temp) by done.
  unfold dhas. rewrite (dget_app_other name temp) by done. destruct (dget name dir) eqn:En; [done|]. intros [= <- <- <-]. split; [done|]. rewrite (dset_last temp) by done.
  rewrite (dset_fresh name _ (dir ++ _)) by (by rewrite dget_app_other). rewrite <- app_assoc. cbn [app]. rewrite dpop_middle by done. by apply dset_last.
Qed.

Lemma enumerated_app {A} (l l' : list A) : forall n, enumerate n (l ++ l') = enumerate n l ++ enumerate (n + Z.of_nat (length l)) l'.
Proof. induction l as [|x l IH]; intros n; [simpl; f_equal; lia|]. cbn [enumerate app length]. rewrite IH. do 3 f_equal. lia. Qed.

(** The numbers and names a scan found. *)
Lemma scanned_names dir cadence jitter segment l : forall st st', rfold (scan_record dir cadence jitter segment) (enumerate (Z.of_nat (length st) + 1) l) st = Ok st' ->
  forall e, In e l -> Z.of_nat (length st) < e.1 <= Z.of_nat (length st) + Z.of_nat (length l) /\ e.2 = record_name e.1 /\ dhas e.2 dir = true.
Proof.
  induction l as [|[n name] l IH]; intros st st' H e He; [done|]. cbn [enumerate rfold] in H. apply rbind_ok in H as (st1 & H1 & H). unfold scan_record in H1. apply when_ok in H1 as [Hn H1].
  apply negb_false_iff, Z.eqb_eq in Hn. apply rbind_ok in H1 as ([d c] & Hl & H1). destruct (dget name dir) as [f|] eqn:Ef; [|done]. apply rbind_ok in H1 as (r & Hr & H1). apply when_ok in H1 as [_ H1].
  apply when_ok in H1 as [_ H1]. apply rbind_ok in H1 as (? & _ & [= <-]). apply validate_record_ok in Hr as (_ & _ & Hk & _). apply chain_ok in Hk as (_ & _ & _ & Hname).
  destruct He as [<-|He].
  - cbn [fst snd length]. subst n name. split; [lia|]. split; [done|]. unfold dhas. by rewrite Ef.
  - replace (Z.of_nat (length st) + 1 + 1) with (Z.of_nat (length (st ++ [(r, c)])) + 1) in H by (rewrite length_app; simpl; lia). destruct (IH _ _ H e He) as [H2 H3]. rewrite length_app in H2. cbn [length] in *. split; [lia|done].
Qed.

Lemma sorted_snoc (l : list (Z * string)) x : (forall e, In e l -> e.1 < x.1) -> (forall e e', In e l -> In e' l -> e.1 = e'.1 -> e = e') -> sorted_key fst (l ++ [x]) = sorted_key fst l ++ [x].
Proof.
  intros Hlt Heq. set (le := fun a b : Z * string => oleb a.1 b.1 = true). assert (Hs : forall l : list (Z * string), StronglySorted le (sorted_key fst l)).
  { intros l0. unfold sorted_key, le. apply sorted_by_sorted; [intros a b; apply oleb_total|intros a b c; apply oleb_trans]. }
  apply (StronglySorted_unique_strong le); [|apply Hs| |].
  - intros a b Ha Hb Hab Hba. assert (E : a.1 = b.1) by (apply Z.leb_le in Hab, Hba; lia). rewrite list_elem_of_In in Ha, Hb. unfold sorted_key in Ha. apply sorted_by_In in Ha.
    assert (Hb' : In b (l ++ [x])) by (apply in_app_iff in Hb as [Hb|Hb]; apply in_app_iff; [left; unfold sorted_key in Hb; by apply sorted_by_In in Hb|by right]).
    apply in_app_iff in Ha as [Ha|[<-|[]]]; apply in_app_iff in Hb' as [Hb'|[<-|[]]]; [by apply Heq|apply Hlt in Ha; lia|apply Hlt in Hb'; lia|done].
  - apply StronglySorted_app. split_and!; [|apply Hs|repeat constructor]. intros a b Ha Hb. apply list_elem_of_singleton in Hb as ->. rewrite list_elem_of_In in Ha. unfold sorted_key in Ha. apply sorted_by_In in Ha.
    apply Hlt in Ha. unfold le. apply Z.leb_le. lia.
  - unfold sorted_key. rewrite !sorted_by_perm. done.
Qed.

Lemma dget_last {V} (k : string) (w : V) (d : list (string * V)) : dget k d = None -> dget k (d ++ [(k, w)]) = Some w.
Proof. induction d as [|[k0 w0] d IH]; simpl; [by rewrite decide_True|]. by destruct (decide (k = k0)). Qed.

Section extended.
Context (dir dir' : Directory) (cadence jitter : option Z) (segment : option dict) (st : list (dict * string)) (r' : dict) (contents : string).
Let n := Z.of_nat (length st) + 1.
Hypothesis Hscan : scan_history dir cadence jitter false segment = Ok st.
Hypothesis Hfiles : record_files dir' = record_files dir ++ [(record_name n, mkFile contents 1)].
Hypothesis Hroom : n <= MAX_HISTORY_RECORDS.
Hypothesis Hfresh : dget (record_name n) dir = None.

Lemma new_name : record_number (record_name n) = Some n /\ is_legacy_name (record_name n) = false /\ head_entry (record_name n) = false.
Proof. apply record_name_number. unfold n, MAX_HISTORY_RECORDS in *. lia. Qed.

Lemma kept_file name : head_entry name = false -> name <> record_name n -> dget name dir' = dget name dir.
Proof. intros Hh Hne. rewrite <- (dget_record_files name dir' Hh), Hfiles, dget_app_other by done. by apply dget_record_files. Qed.

Lemma new_file : dget (record_name n) dir' = Some (mkFile contents 1).
Proof. rewrite <- (dget_record_files _ dir' (proj2 (proj2 new_name))), Hfiles. apply dget_last. by rewrite dget_record_files by apply new_name. Qed.

Lemma listed : exists l, list_records dir = Ok l /\ length l = length st /\ list_records dir' = Ok (l ++ [(n, record_name n)]) /\
  rfold (scan_record dir cadence jitter segment) (enumerate 1 l) [] = Ok st.
Proof.
  pose proof Hscan as H. unfold scan_history in H. apply rbind_ok in H as (l & Hl & H). apply rbind_ok in H as (st' & Hs & [= ->]). exists l. split; [done|].
  destruct (scan_records_ok dir cadence jitter segment l [] st (chain_nil _ _ _ _) Hs) as (_ & Hlen & _). simpl in Hlen. split; [done|]. split; [|done].
  pose proof (scanned_names dir cadence jitter segment l [] st Hs) as Hn. rewrite list_records_files in Hl |- *. rewrite Hfiles. unfold list_records in Hl |- *. apply rbind_ok in Hl as (l0 & Hl & H). apply when_ok in H as [_ [= <-]].
  rewrite rfold_app, Hl. cbn [rbind rfold]. destruct new_name as (N1 & N2 & N3). unfold list_entry at 1. cbn [fst]. fold (head_entry (record_name n)). rewrite N3, N2, N1. cbn [rbind].
  assert (Hin : forall e, In e l0 -> e.1 <= Z.of_nat (length st) /\ e.2 = record_name e.1).
  { intros e He. destruct (Hn e) as (H1 & H2 & _); [unfold sorted_key; by apply sorted_by_In|]. split; [|done]. rewrite Hlen. simpl in H1. lia. }
  rewrite sorted_snoc.
  - rewrite length_app. cbn [length]. rewrite (proj2 (Z.ltb_ge _ _)); [done|]. rewrite <- Hlen. unfold n in Hroom. lia.
  - intros e He. apply Hin in He as [He _]. cbn [fst]. unfold n. lia.
  - intros [a b] [a' b'] He He' E. apply Hin in He as [_ He], He' as [_ He']. cbn [fst snd] in *. congruence.
Qed.

Hypothesis Hholds : holds (mkFile contents 1) r'.
Hypothesis Hvalid : validate_record r' n (last_digest st) (record_name n) (mkFile contents 1) = Ok r'.
Hypothesis Hdrifts : drifts r' "cadence_ms" cadence = false /\ drifts r' "maximum_jitter_ms" jitter = false.
Hypothesis Hnext : validate_next segment st r' = Ok tt.

Lemma scan_extended : scan_history dir' cadence jitter false segment = Ok (st ++ [(r', contents)]).
Proof.
  destruct listed as (l & Hl & Hlen & Hl' & Hs). unfold scan_history. rewrite Hl'. cbn [rbind]. rewrite enumerated_app, rfold_app.
  assert (rfold (scan_record dir' cadence jitter segment) (enumerate 1 l) [] = Ok st) as ->.
  { rewrite <- Hs. apply rfold_ext_in. intros a [k [m name]] Hin. apply enumerated_In in Hin. cbn [snd] in Hin. pose proof (listed_number _ _ Hl _ Hin) as Hh. cbn [snd] in Hh.
    destruct (scanned_names dir cadence jitter segment l [] st Hs _ Hin) as (_ & _ & Hd). cbn [snd] in Hd. unfold scan_record. rewrite kept_file; [done|done|]. intros ->. unfold dhas in Hd. by rewrite Hfresh in Hd. }
  cbn [rbind enumerate rfold]. replace (1 + Z.of_nat (length l)) with n by (unfold n; lia). unfold scan_record at 1. rewrite Z.eqb_refl. cbn [negb]. rewrite new_file, (holds_loads _ _ _ Hholds). cbn [rbind fst snd].
  fold (last_digest st). rewrite Hvalid. cbn [rbind]. rewrite (proj1 Hdrifts), (proj2 Hdrifts), Hnext. done.
Qed.
End extended.

(** ** The authority of a chain *)

Definition AUTHORITY_NUMBERS : list string := ["cadence_ms"; "maximum_jitter_ms"; "agent_uid"; "execution_service_fencing_generation"].
Definition AUTHORITY_TEXTS : list string := ["domain_id"; "instrument"; "catalog_sha256"; "execution_service_epoch"].

Record authority_typed (r : dict) : Prop := {
  at_numbers : forall k, In k AUTHORITY_NUMBERS -> exists z, get r k = VInt z;
  at_texts : forall k, In k AUTHORITY_TEXTS -> exists s, get r k = VStr s;
  at_descriptors : exists d, get r "descriptor_sha256" = VDict d /\ forall k w, In (k, w) d -> exists s, w = VStr s }.

Lemma each_digest_inv (l : dict) : rfold (fun _ kv => let! _ := a_digest kv.2 "MARKET_HISTORY_DESCRIPTOR_DIGEST_INVALID" in Ok tt) l tt = Ok tt -> forall k w, In (k, w) l -> exists s, w = VStr s.
Proof.
  induction l as [|[k0 w0] l IH]; [done|]. cbn [rfold]. intros H k w Hin. apply rbind_ok in H as ([] & Hx & H). destruct Hin as [[= -> ->]|Hin]; [|by eapply IH].
  apply rbind_ok in Hx as (s & Hs & _). apply digest_field_ok in Hs as [Hs _]. by exists s.
Qed.

Lemma validated_authority d n previous name f r : validate_record d n previous name f = Ok r -> authority_typed r.
Proof.
  intros H. apply validate_record_ok in H as (-> & _ & H1 & H2 & _). unfold check_chain, validate_cadence in H1. apply when_ok in H1 as [_ H1]. apply rbind_ok in H1 as (cj & Hcj & _).
  apply rbind_ok in Hcj as (c & Hc & Hcj). apply rbind_ok in Hcj as (j & Hj & _). apply integer_ok in Hc as [Hc _], Hj as [Hj _]. unfold check_authority in H2.
  apply rbind_ok in H2 as (? & _ & H2). apply rbind_ok in H2 as (? & _ & H2). apply rbind_ok in H2 as (catalog & Hca & H2). apply rbind_ok in H2 as (ds & Hds & H2). apply rbind_ok in H2 as ([] & Hea & H2).
  apply rbind_ok in H2 as (dom & Hdo & H2). apply rbind_ok in H2 as (uid & Hu & H2). apply when_ok in H2 as [Hin H2]. apply rbind_ok in H2 as (epoch & Hep & H2). apply rbind_ok in H2 as (fen & Hfe & _).
  apply digest_field_ok in Hca as [Hca _]. apply check_set_ok in Hds as [Hds _]. apply name_utf8 in Hdo as [Hdo _], Hep as [Hep _]. apply integer_ok in Hu as [Hu _], Hfe as [Hfe _].
  split.
  - intros k [<-|[<-|[<-|[<-|[]]]]]; eauto.
  - intros k [<-|[<-|[<-|[<-|[]]]]]; eauto. destruct (get d "instrument"); try done. eauto.
  - exists ds. split; [done|]. by apply each_digest_inv.
Qed.

Lemma differ_false a b fields : differ a b fields = false <-> forall k, In k fields -> py_eq (get a k) (get b k) = true.
Proof.
  unfold differ. induction fields as [|f fields IH]; [done|]. cbn [existsb In]. rewrite orb_false_iff, negb_false_iff, IH. split; [intros [H1 H2] k [<-|Hk]; auto|]. intros H. split; [apply H; by left|]. intros k Hk. apply H. by right.
Qed.

Lemma authority_trans a b c : authority_typed a -> authority_typed b -> differ a b AUTHORITY_FIELDS = false -> differ b c AUTHORITY_FIELDS = false -> differ a c AUTHORITY_FIELDS = false.
Proof.
  intros [A1 A2 (da & A3 & A4)] [B1 B2 (db & B3 & _)]. rewrite !differ_false. intros Hab Hbc.
  assert (N : forall k, In k AUTHORITY_FIELDS -> In k AUTHORITY_NUMBERS -> py_eq (get a k) (get c k) = true).
  { intros k Hk Hn. specialize (Hab k Hk). specialize (Hbc k Hk). destruct (A1 k Hn) as [x Ea]. destruct (B1 k Hn) as [y Eb]. rewrite Ea, Eb in Hab. apply Z.eqb_eq in Hab as ->. by rewrite Ea, <- Eb. }
  assert (T : forall k, In k AUTHORITY_FIELDS -> In k AUTHORITY_TEXTS -> py_eq (get a k) (get c k) = true).
  { intros k Hk Hn. specialize (Hab k Hk). specialize (Hbc k Hk). destruct (A2 k Hn) as [x Ea]. destruct (B2 k Hn) as [y Eb]. rewrite Ea, Eb in Hab. cbn [py_eq] in Hab. apply bool_decide_eq_true in Hab as ->. by rewrite Ea, <- Eb. }
  intros k Hk. pose proof Hk as Hk'. unfold AUTHORITY_FIELDS in Hk'. cbn [In] in Hk'.
  assert (Hc : In k AUTHORITY_NUMBERS \/ In k AUTHORITY_TEXTS \/ k = "descriptor_sha256") by (unfold AUTHORITY_NUMBERS, AUTHORITY_TEXTS; cbn [In]; intuition).
  destruct Hc as [Hc|[Hc| ->]]; [by apply N|by apply T|]. specialize (Hab _ Hk). specialize (Hbc _ Hk). rewrite A3, B3 in *. destruct (get c "descriptor_sha256") as [| | | | | | |dc]; try done.
  rewrite py_eq_dict in Hab, Hbc |- *. destruct Hab as [L1 F1], Hbc as [L2 F2]. split; [congruence|]. rewrite List.Forall_forall in *. intros [k w] Hin. destruct (F1 _ Hin) as (w1 & Hw1 & E1). cbn [fst snd] in *.
  destruct (A4 k w Hin) as [s ->]. destruct w1; try done. cbn [py_eq] in E1. apply bool_decide_eq_true in E1 as <-. by apply (F2 (k, VStr s)), dget_In.
Qed.

(** ** The append *)

Lemma cadence_ok a b c j : validate_cadence a b = Ok (c, j) -> validate_cadence (VInt c) (VInt j) = Ok (c, j).
Proof.
  intros H. pose proof H as H'. unfold validate_cadence in H'. apply rbind_ok in H' as (c' & Hc & H'). apply rbind_ok in H' as (j' & Hj & H'). apply when_ok in H' as [_ [= -> ->]].
  apply integer_ok in Hc as [-> _], Hj as [-> _]. done.
Qed.

Record sources_ok (q : Request) (s : Sources) (v : Captured) (e : Leased) (x : Exported) : Prop := {
  so_cadence : validate_cadence (q_cadence q) (q_jitter q) = Ok (s_cadence s, s_jitter s);
  so_docs : s_snapshot s = snapshot_doc v /\ s_lease s = lease_doc e /\ s_export s = export_doc x;
  so_ok : captured_ok v /\ leased_ok v e /\ exported_ok v e x;
  so_files : v_file v = digest_bytes (f_bytes (q_snapshot q)) /\ e_file e = digest_bytes (f_bytes (q_lease q)) /\ x_file x = digest_bytes (f_bytes (q_export q));
  so_maximum : s_maximum s <= MAXIMUM_STORAGE_GUARD_BYTES;
  so_previous : previous_segment_record (q_previous q) (Some (s_cadence s)) (Some (s_jitter s)) = Ok (s_previous s) }.

Lemma load_sources_ok q s : load_sources q = Ok s -> exists v e x, sources_ok q s v e x.
Proof.
  unfold load_sources. intros H. apply rbind_ok in H as ([c j] & Hcj & H). apply rbind_ok in H as (g & Hg & H). apply rbind_ok in H as ([sd sc] & Hs & H). apply rbind_ok in H as (sn & Hsn & H).
  apply rbind_ok in H as ([ld lc] & Hl & H). apply rbind_ok in H as (le & Hle & H). apply rbind_ok in H as ([xd xc] & Hx & H). apply rbind_ok in H as (ex & Hex & H). apply rbind_ok in H as (p & Hp & [= <-]).
  cbn [fst snd] in *. apply load_canonical_ok in Hs as [[= Es] _], Hl as [[= El] _], Hx as [[= Ex] _]. apply snapshot_ok in Hsn as (v & -> & Hv & Fv). apply lease_ok in Hle as (e & -> & He & Fe).
  apply export_ok in Hex as (x & -> & Hxo & Fx). exists v, e, x. split; cbn; try done; [by rewrite Es, El, Ex|by eapply storage_ok].
Qed.

(** What is written and what it follows. *)
Record planned (s : Sources) (v : Captured) (e : Leased) (x : Exported) (st : list (dict * string)) (r : dict) (contents : string) (head : dict) (text : string) : Prop := {
  pl_record : exists changed d, let body := record_body (snapshot_doc v) (lease_doc e) (export_doc x) (Z.of_nat (length st) + 1) (s_cadence s) (s_jitter s) (last_digest st) changed in
    digest_of (VDict body) = Ok d /\ r = body ++ [("record_sha256", VStr d)];
  pl_next : match last st with Some (p, _) => validate_record_transition p r = Ok tt /\ differ r p AUTHORITY_FIELDS = false | None => validate_first (s_previous s) r = Ok tt end;
  pl_contents : canonical (VDict r) = Ok contents;
  pl_head : exists cursor expected first, make_head (Z.of_nat (length st) + 1) (record_bytes st + slen contents) first r contents cursor expected = Ok head /\
    1 <= cursor <= Z.of_nat (length st) + 1 /\ expected = before st (Z.to_nat (cursor - 1)) /\ first = match st with (f, _) :: _ => get f "record_sha256" | [] => get r "record_sha256" end /\
    (Z.to_nat (cursor - 1) <= length st)%nat;
  pl_text : canonical (VDict head) = Ok text;
  pl_size : record_bytes st + slen contents <= s_maximum s }.

Section plan.
Context (dir : Directory) (segment : option dict) (st : list (dict * string)) (q : Request) (s : Sources) (v : Captured) (e : Leased) (x : Exported).
Hypothesis Hso : sources_ok q s v e x.
Hypothesis Hchain : chain dir (Some (s_cadence s)) (Some (s_jitter s)) segment st.
Hypothesis Hhead : check_head dir st = Ok tt.

Lemma next_record_ok fast r : (match fast with None => st = [] | Some t => fast_ok st t end) -> next_record s fast = Ok r ->
  iget r "sequence" = Z.of_nat (length st) + 1 /\
  (exists changed d, let body := record_body (snapshot_doc v) (lease_doc e) (export_doc x) (Z.of_nat (length st) + 1) (s_cadence s) (s_jitter s) (last_digest st) changed in
    digest_of (VDict body) = Ok d /\ r = body ++ [("record_sha256", VStr d)]) /\
  match last st with Some (p, _) => validate_record_transition p r = Ok tt /\ differ r p AUTHORITY_FIELDS = false | None => validate_first (s_previous s) r = Ok tt end.
Proof.
  destruct (so_docs _ _ _ _ _ Hso) as (D1 & D2 & D3). unfold next_record. rewrite D1, D2, D3. intros Hf H. apply rbind_ok in H as (changed & _ & H). apply rbind_ok in H as (d & Hd & H).
  apply rbind_ok in H as ([] & Ht & [= <-]). destruct fast as [t|].
  - assert (Ed : last_digest st = get (t_last t) "record_sha256") by (unfold last_digest; by rewrite (f_last _ _ Hf)). cbn [fmap option_fmap option_map] in *. rewrite (f_count _ _ Hf), <- Ed in *. rewrite (f_last _ _ Hf).
    split; [done|]. split; [by exists changed, d|]. apply rbind_ok in Ht as ([] & Ha & Ht). by apply when_ok in Ha as [Ha _].
  - subst st. split; [done|]. split; [by exists changed, d|done].
Qed.

Lemma plan_ok g r contents head text hr rr va : plan_append s dir g = Ok (Append r contents head text hr rr va) -> iget r "sequence" = Z.of_nat (length st) + 1 /\ planned s v e x st r contents head text.
Proof.
  unfold plan_append. intros H. apply rbind_ok in H as (fast & Hf & H). apply (load_fast_ok dir _ _ segment st Hchain Hhead) in Hf. apply rbind_ok in H as (u & Hu & H).
  assert (Hcur : 1 <= n_cursor u <= Z.of_nat (length st) + 1 /\ n_expected u = before st (Z.to_nat (n_cursor u - 1)) /\ (Z.to_nat (n_cursor u - 1) <= length st)%nat).
  { destruct fast as [t|]; [|injection Hu as <-; rewrite Hf; cbn; done]. apply when_ok in Hu as [_ Hu]. apply (advance_ok dir _ _ segment st Hchain t u Hf) in Hu as [Hu1 Hu2]. split; [lia|]. split; [done|lia]. }
  destruct Hcur as (C1 & C2 & C3).
  assert (Hn : (let! record := next_record s fast in let! contents := canonical (VDict record) in
      rbind (make_head (iget record "sequence") (match fast with None => 0 | Some t => iget (t_head t) "history_record_bytes" end + slen contents)
        (match fast with None => get record "record_sha256" | Some t => get (t_head t) "first_record_sha256" end) record contents (n_cursor u) (n_expected u)) (fun head =>
      rbind (canonical (VDict head)) (fun head_contents =>
      rbind (guard_history_capacity (match fast with None => 0 | Some t => iget (t_head t) "history_record_bytes" end) (slen contents) (slen head_contents) (s_maximum s) (s_minimum_free s) (g_available g)) (fun _ =>
      Ok (Append record contents head head_contents (match fast with None => 0 | Some _ => 1 end) (match fast with None => 0 | Some _ => 1 end + n_reads u) (n_validated u)))))) = Ok (Append r contents head text hr rr va)).
  { destruct fast as [t|]; [|exact H]. destruct (py_eq (get (t_last t) "snapshot_body_sha256") _); [by apply when_ok in H as [_ H]|exact H]. }
  clear H. apply rbind_ok in Hn as (r0 & Hr & H). apply rbind_ok in H as (c0 & Hc & H). apply rbind_ok in H as (h0 & Hh & H). apply rbind_ok in H as (t0 & Ht & H). apply rbind_ok in H as ([] & Hg & [= -> -> -> -> _ _ _]).
  destruct (next_record_ok fast r Hf Hr) as (Hs & Hrec & Hnext). split; [done|]. rewrite Hs in Hh. apply guard_ok in Hg. pose proof (slen_nonneg text).
  assert (Eb : match fast with None => 0 | Some t => iget (t_head t) "history_record_bytes" end = record_bytes st) by (destruct fast; [apply (f_size _ _ Hf)|by rewrite Hf]). rewrite Eb in *.
  split; [done|done|done| |done|lia]. eexists (n_cursor u), (n_expected u), _. split; [exact Hh|]. split; [done|]. split; [done|]. split; [|done].
  destruct fast as [t|]; [|by rewrite Hf]. destruct (f_first _ _ Hf) as (first & fc & l & -> & ->). done.
Qed.
End plan.

Hypothesis digest_size : forall data, slen (digest data) = 64.

Lemma make_head_alike count bytes first r r' contents cursor expected : alike r r' -> make_head count bytes first r' contents cursor expected = make_head count bytes first r contents cursor expected.
Proof. intros H. unfold make_head. by rewrite !(al_field _ _ H) by done. Qed.

Lemma record_bytes_snoc st r c : record_bytes (st ++ [(r, c)]) = record_bytes st + slen c.
Proof. unfold record_bytes. induction st as [|x st IH]; simpl in *; lia. Qed.

Lemma last_digest_ok dir cadence jitter segment st : chain dir cadence jitter segment st -> last_digest st = VNone \/ digest_value (last_digest st).
Proof.
  intros Hc. unfold last_digest. destruct (last st) as [[p c]|] eqn:El; [|by left]. right. rewrite last_lookup in El. destruct (p_digest _ _ _ _ _ (ch_placed _ _ _ _ _ Hc _ _ _ El)) as (s & Hs & Hd & _). by exists s.
Qed.

Section extends.
Context (dir dir' : Directory) (segment : option dict) (st : list (dict * string)) (q : Request) (s : Sources) (v : Captured) (e : Leased) (x : Exported).
Context (r : dict) (contents : string) (head : dict) (text : string).
Hypothesis Hso : sources_ok q s v e x.
Hypothesis Hscan : scan_history dir (Some (s_cadence s)) (Some (s_jitter s)) true segment = Ok st.
Hypothesis Hsegment : segment = s_previous s.
Hypothesis Hplan : planned s v e x st r contents head text.
Hypothesis Hprices : exact_float (v_bid v) = true /\ exact_float (v_ask v) = true.
Hypothesis Hroom : Z.of_nat (length st) + 1 <= MAX_HISTORY_RECORDS.
Hypothesis Hsizes : slen contents <= MAX_DOCUMENT_BYTES /\ slen text <= MAX_DOCUMENT_BYTES.
Hypothesis Hfresh : dget (record_name (Z.of_nat (length st) + 1)) dir = None.
Hypothesis Hfiles : record_files dir' = record_files dir ++ [(record_name (Z.of_nat (length st) + 1), mkFile contents 1)].
Hypothesis Hheadfile : dget HEAD_NAME dir' = Some (mkFile text 1) /\ dhas HEAD_PENDING_NAME dir' = false.

Lemma old_chain : chain dir (Some (s_cadence s)) (Some (s_jitter s)) segment st /\ scan_history dir (Some (s_cadence s)) (Some (s_jitter s)) false segment = Ok st.
Proof.
  split; [by apply scan_history_ok in Hscan as [? _]|]. pose proof Hscan as H. unfold scan_history in H |- *. apply rbind_ok in H as (l & Hl & H). rewrite Hl. apply rbind_ok in H as (st' & Hs & H).
  cbn [rbind]. rewrite Hs. by apply rbind_ok in H as (? & _ & ->).
Qed.

Lemma written_record : exists r', alike r r' /\ holds (mkFile contents 1) r' /\
  validate_record r' (Z.of_nat (length st) + 1) (last_digest st) (record_name (Z.of_nat (length st) + 1)) (mkFile contents 1) = Ok r' /\
  get r' "cadence_ms" = VInt (s_cadence s) /\ get r' "maximum_jitter_ms" = VInt (s_jitter s) /\ get r' "snapshot_file_sha256" = VStr (digest_bytes (f_bytes (q_snapshot q))).
Proof.
  destruct (pl_record _ _ _ _ _ _ _ _ _ Hplan) as (changed & d & Hd & Er). destruct (so_ok _ _ _ _ _ Hso) as (Hv & He & Hx). destruct (so_files _ _ _ _ _ Hso) as (F1 & F2 & F3).
  assert (Hf : is_digest (v_file v) = true /\ is_digest (e_file e) = true /\ is_digest (x_file x) = true) by (rewrite F1, F2, F3; auto using bytes_digest).
  assert (Hdd : is_digest d = true) by (apply rbind_ok in Hd as (b & _ & [= <-]); by apply bytes_digest). pose proof (cadence_ok _ _ _ _ (so_cadence _ _ _ _ _ Hso)) as Hcad.
  pose proof (last_digest_ok _ _ _ _ _ (proj1 old_chain)) as Hp. pose proof (pl_contents _ _ _ _ _ _ _ _ _ Hplan) as Hc. subst r.
  pose proof (new_json_ok v e x (Z.of_nat (length st) + 1) (s_cadence s) (s_jitter s) (last_digest st) changed d) as J. pose proof (new_exact v e x (Z.of_nat (length st) + 1) (s_cadence s) (s_jitter s) (last_digest st) changed d) as X.
  destruct (record_reads_back _ contents ltac:(by apply J) ltac:(by apply X) Hc (proj1 Hsizes)) as (r' & Hl & Hh). exists r'.
  assert (Ha : alike (record_body (snapshot_doc v) (lease_doc e) (export_doc x) (Z.of_nat (length st) + 1) (s_cadence s) (s_jitter s) (last_digest st) changed ++ [("record_sha256", VStr d)]) r') by (by apply new_alike).
  split; [done|]. split; [done|]. split; [by apply (new_validates v e x (Z.of_nat (length st) + 1) (s_cadence s) (s_jitter s) (last_digest st) changed d)|].
  rewrite !(al_field _ _ Ha) by done. rewrite <- F1. done.
Qed.

Lemma next_ok r' : alike r r' -> authority_typed r' -> validate_next segment st r' = Ok tt.
Proof.
  intros Ha Ht. pose proof (pl_next _ _ _ _ _ _ _ _ _ Hplan) as Hn. destruct old_chain as [Hc _]. unfold validate_next. destruct st as [|[first fc] l] eqn:Es.
  - rewrite (alike_first _ _ Ha), Hsegment. exact Hn.
  - destruct (last ((first, fc) :: l)) as [[p pc]|] eqn:El; [|by apply last_None in El]. destruct Hn as [Hn1 Hn2]. rewrite (alike_transition _ _ Ha), Hn1. cbn [rbind]. unfold validate_authority_binding.
    assert (differ r' first AUTHORITY_FIELDS = false) as ->; [|done]. rewrite <- (alike_authority _ _ Ha) in Hn2.
    destruct (ch_authority _ _ _ _ _ Hc (first, fc) (p, pc) eq_refl) as [Hpf|[= -> _]]; [by apply last_Some in El as (l' & ->); apply elem_of_app; right; apply list_elem_of_singleton| |done].
    rewrite last_lookup in El. destruct (p_valid _ _ _ _ _ (ch_placed _ _ _ _ _ Hc _ _ _ El)) as (pv & Hpv). by apply (authority_trans r' p first Ht (validated_authority _ _ _ _ _ _ Hpv)).
Qed.

Lemma extends : exists r', scan_history dir' (Some (s_cadence s)) (Some (s_jitter s)) true segment = Ok (st ++ [(r', contents)]) /\ alike r r' /\
  get r' "snapshot_file_sha256" = VStr (digest_bytes (f_bytes (q_snapshot q))).
Proof.
  destruct written_record as (r' & Ha & Hh & Hv & Hcad & Hjit & Hsnap). exists r'. split; [|done]. destruct old_chain as [Hc Hs0].
  assert (Hs : scan_history dir' (Some (s_cadence s)) (Some (s_jitter s)) false segment = Ok (st ++ [(r', contents)])).
  { apply (scan_extended dir dir' _ _ segment st r' contents Hs0 Hfiles Hroom Hfresh Hh Hv); [|apply next_ok; [done|by eapply validated_authority]]. unfold drifts, eq_int. rewrite Hcad, Hjit. cbn [py_eq]. by rewrite !Z.eqb_refl. }
  pose proof Hs as Hs'. apply scan_history_ok in Hs' as (Hc' & _ & Hmax & _). assert (Hk : check_head dir' (st ++ [(r', contents)]) = Ok tt).
  { destruct (pl_head _ _ _ _ _ _ _ _ _ Hplan) as (cursor & expected & first & Hm & Hcur & Hexp & Hfirst & Hle). pose proof (pl_size _ _ _ _ _ _ _ _ _ Hplan) as Hsz. pose proof (so_maximum _ _ _ _ _ Hso) as Hmx.
    destruct (lookup_lt_is_Some_2 (st ++ [(r', contents)]) (Z.to_nat (cursor - 1))) as [y Hy]; [rewrite length_app; simpl; lia|].
    assert (exists f fc l, st ++ [(r', contents)] = (f, fc) :: l /\ first = get f "record_sha256") as (f & fc & l & Ef & Ef').
    { rewrite Hfirst. destruct st as [|[f fc] l]; [exists r', contents, []; by rewrite (al_field _ _ Ha) by done|]. by exists f, fc, (l ++ [(r', contents)]). }
    apply (check_head_written digest_size dir' _ _ segment _ Hc' dir' f fc l r' contents cursor y head text Ef); try done; try apply Hsizes; try apply Hheadfile; try lia.
    - by rewrite last_snoc.
    - rewrite record_bytes_snoc. lia.
    - rewrite length_app, record_bytes_snoc, before_snoc, <- Hexp, <- Ef', (make_head_alike _ _ _ r r') by (done || lia). simpl. by replace (Z.of_nat (length st + 1)) with (Z.of_nat (length st) + 1) by lia.
    - apply (pl_text _ _ _ _ _ _ _ _ _ Hplan). }
  unfold scan_history in Hs |- *. apply rbind_ok in Hs as (l & Hl & Hs). rewrite Hl. apply rbind_ok in Hs as (st' & Hst & [= ->]). cbn [rbind]. rewrite Hst. cbn [rbind]. by rewrite Hk.
Qed.
End extends.

Lemma exact_prices v : exact_numbers (snapshot_doc v) -> exact_float (v_bid v) = true /\ exact_float (v_ask v) = true.
Proof.
  unfold exact_numbers. cbn [floats_all]. rewrite forallb_forall. intros H. specialize (H ("quote", VDict (quote_doc v)) ltac:(simpl; tauto)). cbn [snd floats_all quote_doc forallb] in H. split_bools. by split.
Qed.

(** The steps of an append that writes. *)
Lemma append_steps q dir states dir' result : append_snapshot q dir = (states, dir', Ok result) -> get result "status" = VStr "appended" ->
  exists s r contents head text hr rr va d1 states1 states2, load_sources q = Ok s /\ plan_append s dir (q_storage q) = Ok (Append r contents head text hr rr va) /\
    atomic_publish (record_name (iget r "sequence")) (q_random q) contents dir = (states1, d1, Ok tt) /\ atomic_replace_head text d1 = (states2, dir', Ok tt) /\
    iget result "record_size_bytes" = slen contents /\ iget result "history_index_bytes" = slen text /\ get result "record_sha256" = get r "record_sha256".
Proof.
  unfold append_snapshot. intros H Hr. apply bind_ok in H as (? & w1 & s & ? & H1 & H & _). apply lift_ok in H1 as (Hs & -> & _). apply bind_ok in H as (? & w2 & d & ? & H1 & H & _). injection H1 as _ <- <-.
  apply bind_ok in H as (? & w3 & p & ? & H1 & H & _). apply lift_ok in H1 as (Hp & -> & _). destruct p as [res|r contents head text hr rr va].
  { apply lift_ok in H as ([= ->] & _ & _). apply plan_duplicate in Hp. congruence. }
  apply bind_ok in H as (ws1 & d1 & [] & ws5 & H1 & H & _). apply bind_ok in H as (ws6 & d2 & [] & ws7 & H2 & H & _). apply lift_ok in H as ([= <-] & -> & _).
  exists s, r, contents, head, text, hr, rr, va, d1, ws1, ws6. done.
Qed.

(** C14: An append keeps the history: when a snapshot is appended to a directory that passes the full audit, the
    directory then passes it with the same records and exactly one more, which is the one of the snapshot file
    (for prices that read back from their printed digits, files within the size limit and fewer than a million
    records). *)
Theorem append_extends_history q dir states dir' result c j records :
  List.NoDup (map fst dir) -> validate_cadence (q_cadence q) (q_jitter q) = Ok (c, j) -> load_history dir (Some c) (Some j) (q_previous q) = Ok records ->
  append_snapshot q dir = (states, dir', Ok result) -> get result "status" = VStr "appended" ->
  (forall s, load_sources q = Ok s -> exact_numbers (s_snapshot s)) -> Z.of_nat (length records) < MAX_HISTORY_RECORDS ->
  iget result "record_size_bytes" <= MAX_DOCUMENT_BYTES -> iget result "history_index_bytes" <= MAX_DOCUMENT_BYTES ->
  exists record, load_history dir' (Some c) (Some j) (q_previous q) = Ok (records ++ [record]) /\ get record "record_sha256" = get result "record_sha256" /\
    get record "snapshot_file_sha256" = VStr (digest_bytes (f_bytes (q_snapshot q))).
Proof.
  intros Hn Hcj Hl H Hr Hx Hroom Hs1 Hs2. apply append_steps in H as (s & r & contents & head & text & hr & rr & va & d1 & ws1 & ws2 & Hs & Hp & Hpub & Hrep & E1 & E2 & E3); [|done].
  destruct (load_sources_ok q s Hs) as (v & e & x & Hso). specialize (Hx s Hs). rewrite (proj1 (so_docs _ _ _ _ _ Hso)) in Hx. apply exact_prices in Hx.
  pose proof (so_cadence _ _ _ _ _ Hso) as Ec. rewrite Hcj in Ec. injection Ec as -> ->.
  assert (Htemp : dget (temporary (record_name (iget r "sequence")) (q_random q)) dir = None).
  { destruct (dget (temporary _ _) dir) eqn:Et; [|done]. destruct (foreign_stuck dir (temporary (record_name (iget r "sequence")) (q_random q))) as [Hst _]; [unfold dhas; by rewrite Et|apply temporary_foreign|].
    destruct (Hst (Some (s_cadence s)) (Some (s_jitter s)) (q_previous q)) as (ex & Hst'). congruence. }
  apply publish_ok in Hpub as [Hfresh ->]; [|done|done]. unfold load_history in Hl |- *. rewrite (so_previous _ _ _ _ _ Hso) in Hl |- *. cbn [rbind] in Hl |- *. apply rbind_ok in Hl as (st & Hscan & [= <-]).
  pose proof Hscan as Hsc. apply scan_history_ok in Hsc as (Hc & _ & _ & Hh). destruct (plan_ok dir _ st q s v e x Hso Hc Hh _ _ _ _ _ _ _ _ Hp) as [Hseq Hplan]. rewrite Hseq in *. rewrite length_map in Hroom.
  apply replace_head_ok in Hrep as (_ & Hrf & Hhf & _ & Hpend).
  assert (Hnd : List.NoDup (map fst (dir ++ [(record_name (Z.of_nat (length st) + 1), mkFile contents 1)]))).
  { rewrite <- (dset_fresh _ _ dir) by done. by apply dset_NoDup. }
  assert (Hname : head_entry (record_name (Z.of_nat (length st) + 1)) = false) by (apply record_name_number; unfold MAX_HISTORY_RECORDS in Hroom; lia).
  destruct (extends dir dir' (s_previous s) st q s v e x r contents head text Hso Hscan eq_refl Hplan Hx ltac:(lia) ltac:(lia) Hfresh) as (r' & Hs' & Ha & Hsnap).
  - rewrite Hrf. unfold record_files. rewrite List.filter_app. cbn [List.filter fst]. by rewrite Hname.
  - split; [done|by apply Hpend].
  - exists r'. rewrite Hs'. cbn [rbind]. rewrite map_app. split; [done|]. by rewrite E3, (al_field _ _ Ha) by done.
Qed.
End append.

End HistoryAppend.

(** * The second snapshot

    The two snapshots of [HistoryScenario]. *)

Import StrategyScenario HistoryScenario HistoryAppend.

Module HistoryAppendScenario.

#[local] Existing Instance wide_digest.

Definition records_one : list dict := ok [] (load_history one (Some 10000) (Some 1000) None).
Lemma one_loads : load_history one (Some 10000) (Some 1000) None = Ok records_one.
Proof. apply is_ok_eq. vm_compute. reflexivity. Qed.
Lemma second_exact : match load_sources second_request with Ok s => floats_all exact_float (VDict (s_snapshot s)) | Raise _ => false end = true.
Proof. vm_compute. reflexivity. Qed.

(** The second snapshot is the second record. *)
Lemma append_extends_history_witness : exists record, load_history two (Some 10000) (Some 1000) None = Ok (records_one ++ [record]) /\
  get record "record_sha256" = get (ok [] second.2) "record_sha256" /\ get record "snapshot_file_sha256" = VStr (digest_bytes (f_bytes (q_snapshot second_request))).
Proof.
  apply (append_extends_history wide_size second_request one second.1.1 two (ok [] second.2) 10000 1000 records_one);
    [by apply NoDup_ListNoDup; apply (bool_decide_unpack _); vm_compute|reflexivity|apply one_loads|apply second_appended|vm_compute; reflexivity| |by vm_compute..].
  intros s Hs. pose proof second_exact as H. rewrite Hs in H. exact H.
Defined.

End HistoryAppendScenario.
